(* ===== verification/_CoqProject ===== *)
-Q . S2P
Prelude.v
CString.v
Buddy.v
BuddyList.v
BuddyAlloc.v
BuddySpec.v
Cpu.v
Pipe.v
DList.v
BlockCache.v
Bio.v
BioSpec.v
Log.v
LogSpec.v
LogInst.v
Fs.v
FsSpec.v
FsInst.v
Vm.v
VmSpec.v
VmInst.v
Kernel.v
Sched.v
SchedSpec.v
SchedRefine.v
File.v
Proc.v
Exec.v
Syscall.v
Sysfile.v
Console.v
ConsoleSpec.v
FileSpec.v
SyscallSpec.v
FsIo.v
FsDir.v
FsPath.v
FsGrow.v
FsTree.v
FsTrans.v
FsLink.v
Mkfs.v
MkfsSpec.v
MkfsImage.v
Ulib.v
Grep.v
Umalloc.v
Uprogs.v
UprogsSpec.v
Sh.v
ShSpec.v
ShRun.v
ShMain.v
Mailbox.v
MailboxSpec.v
Boot.v
Devices.v
Trap.v
