(* ===== verification/Prelude.v ===== *)
(** * A verification development for the xv6 kernel on the Raspberry Pi 2

    The program (src/) is a small Unix: a kernel in C (src/source) with its
    headers (src/include), start-up code in assembly, and user programs
    (src/uprogs) with mkfs, which builds the disk image on the host.  This
    library models the C code of the three as executable definitions that keep
    the names and the control flow of the source, and proves what makes each
    part correct.

    ** How the program is put together

    At the bottom, string.c (memory and strings), buddy.c (pages and small
    blocks), arm.c and spinlock.c (interrupt masking, locks).  bio.c caches the
    sectors of the memory disk memide.c; log.c makes groups of sector writes
    atomic; fs.c builds blocks, inodes, directories and paths on the log.  vm.c
    keeps page tables, proc.c processes and the scheduler.  file.c and pipe.c
    give processes descriptors; exec.c loads programs; syscall.c, sysproc.c and
    sysfile.c check arguments and dispatch.  console.c edits input lines and
    prints.  start.c, uart.c, timer.c, trap.c and the mailbox files stand between
    the kernel and the board.  ulib.c, printf.c and umalloc.c serve the user
    programs; init starts the shell, and the shell the others.

    ** Files

    - Prelude: C integers ([u32], [s32], ...), the kernel monad [M] with its
      outcomes, loops ([for_], [find_], [while_]), C arrays ([zget], [zset]),
      bytes and words in byte lists, Hoare triples [wp] and [wpe].
    - CString: string.c.  A memory is a function from addresses to bytes.
    - Buddy (the code of buddy.c), BuddyList (bitmaps and mark lists),
      BuddyAlloc (merging and splitting), BuddySpec (the contracts).
    - Cpu: arm.c, spinlock.c, with the LDREX/STREX lock as a step relation.
    - Pipe: pipe.c, with any number of concurrent readers and writers.
    - BlockCache: what a buffer cache promises, as the class [BufCache].
      DList: linked rings.  Bio, BioSpec: bio.c and memide.c, the instance.
    - Log, LogSpec: log.c over any [BufCache]; LogInst: on bio.c.
    - Fs, FsSpec: fs.c over the log; FsIo: reading and writing files in place;
      FsGrow: writing past their end; FsDir: directories as maps from names;
      FsPath: paths; FsInst: on a small disk.  FsTree: soundness of a tree of
      directories and what keeps it; FsTrans: the operations of fs.c as steps of
      a transaction; FsLink: link as a whole transaction.
    - Vm, VmSpec, VmInst: vm.c over the memory of CString and Buddy.
    - Kernel: the state of the upper half (struct proc, struct file, tables).
    - Sched: ptable, sleep, wakeup, scheduler (proc.c); SchedSpec: the table
      as a step relation with its invariants; SchedRefine: the code refines it.
    - File: file.c and the ends of pipes; Proc: fork, exit, growproc, userinit;
      Exec: exec.c; Syscall: syscall.c, sysproc.c, cpuutil of main.c; Sysfile:
      sysfile.c, the table of calls, the SWI and timer handlers that use them.
    - FileSpec: reference counts of files; SyscallSpec: argument checks.
    - Console, ConsoleSpec: console.c.
    - Devices: pins, serial line, delay and the dispatch of interrupts (uart.c,
      timer.c, trap.c).  Mailbox, MailboxSpec: mailbox.c, mailbox-interface.c,
      initframebuf.  Boot: the first page tables (start.c).  Trap: the stacks
      of the exception modes, the handlers that report, panic.
    - Mkfs: mkfs.c; MkfsSpec: how it lays out files; MkfsImage: its image, as
      the definitions of Fs see it.
    - Ulib: ulib.c and printf.c; Umalloc: umalloc.c; Grep: grep.c; Uprogs,
      UprogsSpec: cat, wc, echo, ls, mkdir, rm, ln, kill and init.
    - Sh: the parser and runcmd of sh.c; ShSpec: a grammar; ShRun: a plan of
      processes; ShMain: the prompt and the loop.

    ** How state and operations correspond

    A struct is a Record with the source's fields, a static object a field of
    its component's state, an array a list indexed from 0; a pointer into a
    table is an index, [NULL] = -1; a pointer into memory is a 32-bit address,
    0 for null.  An operation is a definition of the same name in the monad
    [M S A]; a helper of the model that is a loop or a part of a function bears
    the function's name and a suffix, and the manifest gives its lines.
    [panic] is the outcome [Panic], a call that has to wait ends in [Sleep],
    waiting for a lock that the same CPU holds is [Spin], an access outside an
    array or outside memory is [Fault].  What a process does after a [Sleep] is
    a definition of its own ([sleep_resume], [yield_resume], [wait_resume], the
    next call of a pipe's [sys] system).  Histories the code does not read
    ([accepted], [delivered], [dwrites], woken channels) are kept in the state
    where a theorem speaks of them.

    ** What the theorems show

    - Storage: commit_trans is atomic under a crash after any of its disk
      writes, and recovery is idempotent ([LogSpec.commit_crash_atomic]); the
      buffer cache refines a map of sectors ([BioSpec.bread_spec]); balloc and
      bfree keep the bitmap and the contents of other blocks; readi and writei
      act on the bytes of a file through direct and indirect blocks
      ([FsIo]), and past the end of a file writei adds exactly the blocks that
      are missing within the bounds of a transaction ([FsGrow]); a directory is
      a map that dirlink extends ([FsDir]); namex follows a path through these
      maps and keeps count of its references ([FsPath]); link makes exactly its
      change to the tree, on the disk when it returns, or none ([FsLink]); inodes are shared by
      number ([FsSpec.iget_spec]).  The image of mkfs satisfies the invariants on
      which these theorems rest ([MkfsImage]).
    - Memory: kmalloc and kfree move whole aligned blocks in and out of the
      set of free bytes, merging on the way ([BuddySpec]); mappages and copyout
      act on exactly the range they are given ([VmSpec]); memmove, memset and
      division agree with their mathematical meaning ([CString]).
    - Concurrency: mutual exclusion of the spin lock over every interleaving
      of instructions ([Cpu]); pipes are FIFO and lose no wakeup ([Pipe]); no
      process runs on two CPUs, a zombie child is never missed by wait, and the
      code of proc.c refines the machine for which this holds ([SchedSpec],
      [SchedRefine]).
    - Interfaces: the reference count of a file is the number of descriptors
      that hold it, through fork, exit, dup, open, pipe and close
      ([FileSpec]); argument checks and their limits ([SyscallSpec]); the
      console hands out what its line editor made ready ([ConsoleSpec]).
    - The board: the first page tables translate the four ranges of init_pgtbl
      and no others ([Boot]); the property interface returns what the firmware
      answered ([MailboxSpec]); the pins, delay and the interrupt loop do what
      their registers say ([Devices]); exception stacks are pages of their own,
      whose start is taken for their end ([Trap]).
    - User programs: printf and atoi ([Ulib]); live blocks of malloc never
      overlap ([Umalloc]); match decides occurrence of a pattern ([Grep]); cat
      copies, wc counts and ls lists whatever the pieces in which read delivers
      ([UprogsSpec]); the shell's parser follows a grammar, its processes the
      meaning of the command, and its loop serves a whole session ([ShSpec],
      [ShRun], [ShMain]).
    - Errors: what modelling found wrong is stated as theorems too: links that
      overflow with the board's memory size, a page that deallocuvm forgets,
      kill(0), negative counts accepted by read, cpuutil out of bounds, sbrk to
      size zero, stale lines in grep, malloc of 4 GB, a root directory that ends
      in a hole, a tag search that never ends, an array overrun in panic.

    ** Bounds and fuel

    A loop over an array uses [for_] or [find_] with the array's length.  Loops
    on data take a fuel computed from it: the order range in Buddy, NBUF + 1
    steps round the ring in Bio, one step per 512-byte block and two more in
    readi and writei ([io_fuel]), one per page in Vm, the length of a path in
    namex, the length of a line in the console and in the shell's parser, the
    number of pieces that read delivers in the user programs.  The theorems about these
    operations are of the form [wp m Q s], which excludes [NoFuel]: the fuel is
    enough and the loop ends.

    ** Not modelled

    - Assembly (entry.s, asm.S, swtch.S, trap_asm.S, initcode.S) and the
      coprocessor instructions of start.c, vm.c and cache.c: a context switch is
      the [Sleep] outcome and the scheduler's next choice, [Boot.boot_walk] says
      what the MMU makes of a section.
    - Registers without logic around them: uartgetc, enableirqminiuart,
      timer3init, led_flash, trap_init.  The waits for the status bits of the
      mailbox are left out.
    - The order of the calls in kmain (main.c): each function it calls is
      modelled on the state of its own component.
    - kern_tests.c and uprogs/usertests.c, stressfs.c, forktest.c, zombie.c:
      tests.
    - Sleeping inside the file system: an operation on an inode that another
      process holds ends in [Sleep] with the state reached; the rest of that
      system call is not resumed (in pipes, in proc.c and in the console it is).

    ** Plan

    Every component of the C code is modelled.  What could be stated next joins
    components that are proved on their own: exec against the memory it builds,
    create and unlink as whole transactions in the manner of FsLink, and kmain
    as the start of a run that composes FileSpec with SchedRefine. *)

From stdpp Require Export base tactics numbers list gmap strings.
From Stdlib Require Export ZArith Lia.

Open Scope Z_scope.

(** ** Machine integers

    C integers are kept as [Z] with their wrap-around written out:
    [u8], [u16], [u32] reduce to the unsigned range of the type, [s32] and
    [s16] to the signed one (two's complement, as the ARM compiler does). *)

Definition u8 (x : Z) : Z := x mod 2 ^ 8.

Definition u16 (x : Z) : Z := x mod 2 ^ 16.

Definition u32 (x : Z) : Z := x mod 2 ^ 32.

Definition s32 (x : Z) : Z :=
  let y := x mod 2 ^ 32 in if y <? 2 ^ 31 then y else y - 2 ^ 32.

Definition s16 (x : Z) : Z :=
  let y := x mod 2 ^ 16 in if y <? 2 ^ 15 then y else y - 2 ^ 16.

Definition is_u32 (x : Z) : Prop := 0 <= x < 2 ^ 32.

(** ** Outcomes of kernel code and the kernel monad

    A kernel routine runs on an explicit state and ends in one of:
    - [Ok a s]: it returned [a] in state [s];
    - [Panic msg]: it called [panic(msg)], which never returns;
    - [Sleep s]: it put the current process to sleep ([sleep()] was called)
      leaving state [s]; the call resumes only after a [wakeup];
    - [Spin]: it spins on a lock that is already held;
    - [Fault]: it accessed an array or memory outside its bounds;
    - [NoFuel]: the bound given to a loop was too small (the theorems
      that use such a bound show that this does not happen). *)

Inductive outcome (S A : Type) : Type :=
| Ok (a : A) (s : S)
| Panic (msg : string)
| Sleep (s : S)
| Spin
| Fault
| NoFuel.

Arguments Ok {S A} a s.
Arguments Panic {S A} msg.
Arguments Sleep {S A} s.
Arguments Spin {S A}.
Arguments Fault {S A}.
Arguments NoFuel {S A}.

Definition M (S A : Type) : Type := S -> outcome S A.

Definition ret {S A} (a : A) : M S A := fun s => Ok a s.

Definition bind {S A B} (m : M S A) (k : A -> M S B) : M S B :=
  fun s =>
    match m s with
    | Ok a s' => k a s'
    | Panic msg => Panic msg
    | Sleep s' => Sleep s'
    | Spin => Spin
    | Fault => Fault
    | NoFuel => NoFuel
    end.

Definition panic {S A} (msg : string) : M S A := fun _ => Panic msg.

Definition fault {S A} : M S A := fun _ => Fault.

Definition no_fuel {S A} : M S A := fun _ => NoFuel.

Definition get {S} : M S S := fun s => Ok s s.

Definition gets {S A} (f : S -> A) : M S A := fun s => Ok (f s) s.

Definition put {S} (s : S) : M S unit := fun _ => Ok tt s.

Definition modify {S} (f : S -> S) : M S unit := fun s => Ok tt (f s).

(** [from_opt] turns a checked array access into a fault when it misses. *)
Definition from_opt {S A} (o : option A) : M S A :=
  match o with Some a => ret a | None => fault end.

Declare Scope kernel_scope.
Delimit Scope kernel_scope with kernel.
Open Scope kernel_scope.

Notation "x <- m ;; k" := (bind m (fun x => k))
  (at level 100, m at next level, k at level 200, right associativity) : kernel_scope.
Notation "m ;;; k" := (bind m (fun _ => k))
  (at level 100, k at level 200, right associativity) : kernel_scope.

(** [when b m] is [if (b) m;]. *)
Definition when {S} (b : bool) (m : M S unit) : M S unit := if b then m else ret tt.

(** [for_ i n body] runs [body i], [body (i+1)], ... [body (i+n-1)]. *)
Fixpoint for_ {S} (i : Z) (n : nat) (body : Z -> M S unit) : M S unit :=
  match n with
  | O => ret tt
  | S n' => body i ;;; for_ (i + 1) n' body
  end.

(** [find_ i n test] is the loop that returns the first index of
    [i, i+1, ..., i+n-1] on which [test] answers [Some]; [None] if none does. *)
Fixpoint find_ {S A} (i : Z) (n : nat) (test : Z -> M S (option A)) : M S (option A) :=
  match n with
  | O => ret None
  | S n' =>
      r <- test i ;;
      match r with
      | Some a => ret (Some a)
      | None => find_ (i + 1) n' test
      end
  end.

(** A pure [while] loop with an explicit bound. *)
Fixpoint while_ {A} (fuel : nat) (c : A -> bool) (body : A -> A) (a : A) : A :=
  match fuel with
  | O => a
  | S f => if c a then while_ f c body (body a) else a
  end.

(** [zoom] runs an operation of a component on the part of a larger state
    that holds the component. *)
Definition zoom {S T A} (view : T -> S) (set : S -> T -> T) (m : M S A) : M T A :=
  fun t =>
    match m (view t) with
    | Ok a s => Ok a (set s t)
    | Panic msg => Panic msg
    | Sleep s => Sleep (set s t)
    | Spin => Spin
    | Fault => Fault
    | NoFuel => NoFuel
    end.

(** ** Total correctness

    [wp m Q s]: run from [s], [m] returns (no panic, sleep, spin, fault or
    exhausted bound) and its result and final state satisfy [Q]. *)

Definition wp {S A} (m : M S A) (Q : A -> S -> Prop) (s : S) : Prop :=
  match m s with Ok a s' => Q a s' | _ => False end.

(** [wpe m Q E s]: [m] returns with [Q], or panics with a message in [E]. *)
Definition wpe {S A} (m : M S A) (Q : A -> S -> Prop) (E : string -> Prop) (s : S) : Prop :=
  match m s with Ok a s' => Q a s' | Panic msg => E msg | _ => False end.

(** ** Lists indexed by [Z]: C arrays *)

Definition zget {A} (l : list A) (i : Z) : option A :=
  if 0 <=? i then l !! Z.to_nat i else None.

Definition zset {A} (l : list A) (i : Z) (x : A) : list A :=
  if 0 <=? i then <[Z.to_nat i := x]> l else l.

Definition zlen {A} (l : list A) : Z := Z.of_nat (length l).

(** ** Little-endian words in byte arrays *)

Definition ld8 (d : list Z) (off : Z) : Z := default 0 (zget d off).

Definition ld16 (d : list Z) (off : Z) : Z := ld8 d off + 2 ^ 8 * ld8 d (off + 1).

Definition ld32 (d : list Z) (off : Z) : Z :=
  ld8 d off + 2 ^ 8 * ld8 d (off + 1) + 2 ^ 16 * ld8 d (off + 2) + 2 ^ 24 * ld8 d (off + 3).

Definition st8 (d : list Z) (off v : Z) : list Z := zset d off (u8 v).

Definition st16 (d : list Z) (off v : Z) : list Z := st8 (st8 d off v) (off + 1) (v / 2 ^ 8).

Definition st32 (d : list Z) (off v : Z) : list Z :=
  st8 (st8 (st8 (st8 d off v) (off + 1) (v / 2 ^ 8)) (off + 2) (v / 2 ^ 16)) (off + 3) (v / 2 ^ 24).

(** [bytes_at d off n] is the slice [d[off .. off+n-1]]; [splice d off src]
    overwrites [d[off .. off+|src|-1]] by [src]. *)
Definition bytes_at (d : list Z) (off n : Z) : list Z :=
  take (Z.to_nat n) (drop (Z.to_nat off) d).

Definition splice (d : list Z) (off : Z) (src : list Z) : list Z :=
  take (Z.to_nat off) d ++ src ++ drop (Z.to_nat off + length src) d.

Definition is_byte (x : Z) : Prop := 0 <= x < 256.

(** The bytes of a C string literal, and of one that ends in a newline. *)
Definition bytes (s : string) : list Z := map (fun a => Z.of_nat (Ascii.nat_of_ascii a)) (String.list_ascii_of_string s).

Definition line (s : string) : list Z := bytes s ++ [10].

(** ** Tactics *)

(** Case analysis on the boolean comparisons of [Z] in the goal or a hypothesis. *)
Ltac zbool :=
  repeat match goal with
  | H : (_ && _)%bool = true |- _ => apply andb_true_iff in H; destruct H
  | H : (_ || _)%bool = false |- _ => apply orb_false_iff in H; destruct H
  | H : (_ <? _) = true |- _ => apply Z.ltb_lt in H
  | H : (_ <? _) = false |- _ => apply Z.ltb_ge in H
  | H : (_ <=? _) = true |- _ => apply Z.leb_le in H
  | H : (_ <=? _) = false |- _ => apply Z.leb_gt in H
  | H : (_ =? _) = true |- _ => apply Z.eqb_eq in H
  | H : (_ =? _) = false |- _ => apply Z.eqb_neq in H
  | H : negb _ = true |- _ => apply negb_true_iff in H
  | H : negb _ = false |- _ => apply negb_false_iff in H
  end.

(** Split on the conditions of the goal's [if]s, turning them into
    (in)equalities. *)
Ltac case_if :=
  match goal with
  | |- context [if ?b then _ else _] => destruct b eqn:?; zbool
  end.

(** ** Lemmas: the monad *)

Section Monad.
Context {S A B : Type}.

Lemma wp_ret (a : A) (Q : A -> S -> Prop) s : Q a s -> wp (ret a) Q s.
Proof. done. Qed.

Lemma wp_bind (m : M S A) (k : A -> M S B) Q s :
  wp m (fun a s' => wp (k a) Q s') s -> wp (bind m k) Q s.
Proof. unfold wp, bind. by destruct (m s). Qed.

Lemma wp_bind_inv (m : M S A) (k : A -> M S B) Q s :
  wp (bind m k) Q s -> wp m (fun a s' => wp (k a) Q s') s.
Proof. unfold wp, bind. by destruct (m s). Qed.

Lemma wp_mono (m : M S A) (P Q : A -> S -> Prop) s :
  wp m P s -> (forall a s', P a s' -> Q a s') -> wp m Q s.
Proof. unfold wp. destruct (m s); try done. auto. Qed.

Lemma wp_ok (m : M S A) Q s : wp m Q s -> exists a s', m s = Ok a s' /\ Q a s'.
Proof. unfold wp. destruct (m s); naive_solver. Qed.

Lemma ok_wp (m : M S A) (Q : A -> S -> Prop) s a s' : m s = Ok a s' -> Q a s' -> wp m Q s.
Proof. unfold wp. by intros ->. Qed.

Lemma bind_ok (m : M S A) (k : A -> M S B) s a s' :
  m s = Ok a s' -> bind m k s = k a s'.
Proof. unfold bind. by intros ->. Qed.

Lemma wp_bind_ok (m : M S A) (k : A -> M S B) (Q : B -> S -> Prop) s a s' :
  m s = Ok a s' -> wp (k a) Q s' -> wp (bind m k) Q s.
Proof. intros E. unfold wp. by rewrite (bind_ok _ _ _ _ _ E). Qed.

Lemma bind_panic (m : M S A) (k : A -> M S B) s msg :
  m s = Panic msg -> bind m k s = Panic msg.
Proof. unfold bind. by intros ->. Qed.

Lemma bind_inv (m : M S A) (k : A -> M S B) s b s'' :
  bind m k s = Ok b s'' -> exists a s', m s = Ok a s' /\ k a s' = Ok b s''.
Proof. unfold bind. destruct (m s); naive_solver. Qed.

Lemma wpe_bind (m : M S A) (k : A -> M S B) Q E s :
  wpe m (fun a s' => wpe (k a) Q E s') E s -> wpe (bind m k) Q E s.
Proof. unfold wpe, bind. by destruct (m s). Qed.

Lemma wpe_ok (m : M S A) (k : A -> M S B) (Q : B -> S -> Prop) E s a s' :
  m s = Ok a s' -> wpe (k a) Q E s' -> wpe (bind m k) Q E s.
Proof. intros He. unfold wpe. by rewrite (bind_ok _ _ _ _ _ He). Qed.

Lemma wpe_ret (a : A) (Q : A -> S -> Prop) E s : Q a s -> wpe (ret a) Q E s.
Proof. done. Qed.

Lemma wpe_mono (m : M S A) (P Q : A -> S -> Prop) E s :
  wpe m P E s -> (forall a s', P a s' -> Q a s') -> wpe m Q E s.
Proof. unfold wpe. destruct (m s); try done. auto. Qed.

Lemma wp_wpe (m : M S A) (Q : A -> S -> Prop) E s : wp m Q s -> wpe m Q E s.
Proof. unfold wp, wpe. by destruct (m s). Qed.

Lemma wp_gets (f : S -> A) (Q : A -> S -> Prop) s : Q (f s) s -> wp (gets f) Q s.
Proof. done. Qed.

Lemma wp_get (Q : S -> S -> Prop) s : Q s s -> wp get Q s.
Proof. done. Qed.

Lemma wp_put (s' : S) (Q : unit -> S -> Prop) s : Q tt s' -> wp (put s') Q s.
Proof. done. Qed.

Lemma wp_modify (f : S -> S) (Q : unit -> S -> Prop) s : Q tt (f s) -> wp (modify f) Q s.
Proof. done. Qed.

Lemma wp_from_opt (o : option A) a (Q : A -> S -> Prop) s :
  o = Some a -> Q a s -> wp (from_opt o) Q s.
Proof. by intros ->. Qed.

Lemma wp_when (b : bool) (m : M S unit) (Q : unit -> S -> Prop) s :
  (b = true -> wp m Q s) -> (b = false -> Q tt s) -> wp (when b m) Q s.
Proof. destruct b; intros H1 H2; [by apply H1|by apply H2]. Qed.

End Monad.

(** The loop rule: an invariant indexed by the loop counter. *)
Lemma wp_for {S} (body : Z -> M S unit) (I : Z -> S -> Prop) n : forall i s,
  I i s ->
  (forall j t, i <= j < i + Z.of_nat n -> I j t -> wp (body j) (fun _ t' => I (j + 1) t') t) ->
  wp (for_ i n body) (fun _ t => I (i + Z.of_nat n) t) s.
Proof.
  induction n as [|n IH]; intros i s HI Hb; cbn [for_].
  - apply wp_ret. by assert (i + Z.of_nat 0 = i) as -> by lia.
  - apply wp_bind. eapply wp_mono; [apply Hb; [lia|done]|].
    intros [] t Ht. cbn beta.
    replace (i + Z.of_nat (Datatypes.S n)) with (i + 1 + Z.of_nat n) by lia.
    apply IH; [done|]. intros j u Hj Hu. apply Hb; [lia|done].
Qed.

(** A search loop whose tests do not change the state finds the first hit. *)
Lemma find_pure {S A} (f : Z -> option A) n : forall i (s : S),
  exists r, find_ i n (fun j => ret (f j)) s = Ok r s /\
    match r with
    | Some a => exists j, i <= j < i + Z.of_nat n /\ f j = Some a /\ forall j', i <= j' < j -> f j' = None
    | None => forall j, i <= j < i + Z.of_nat n -> f j = None
    end.
Proof.
  induction n as [|n IH]; intros i s; cbn [find_].
  - exists None. split; [done|]. lia.
  - unfold bind, ret at 1. destruct (f i) as [a|] eqn:Hi.
    + exists (Some a). split; [done|]. exists i. split; [lia|]. split; [done|lia].
    + destruct (IH (i + 1) s) as (r & Hr & Hs). exists r. split; [done|]. destruct r as [a|].
      * destruct Hs as (j & Hj & Hf & Hlt). exists j. split; [lia|]. split; [done|].
        intros j' Hj'. destruct (decide (j' = i)) as [->|]; [done|]. apply Hlt. lia.
      * intros j Hj. destruct (decide (j = i)) as [->|]; [done|]. apply Hs. lia.
Qed.

(** ** Lemmas: pure loops *)

Section While.
Context {A : Type}.

(** A [while] loop whose measure decreases ends, within [fuel] at least the
    measure, in a state where the invariant holds and the guard fails. *)
Lemma while_inv (I : A -> Prop) (mu : A -> nat) (c : A -> bool) (body : A -> A) fuel : forall a,
  I a ->
  (forall x, I x -> c x = true -> I (body x) /\ (mu (body x) < mu x)%nat) ->
  (mu a <= fuel)%nat ->
  I (while_ fuel c body a) /\ c (while_ fuel c body a) = false.
Proof.
  induction fuel as [|f IH]; intros a Ha Hb Hmu; cbn [while_].
  - split; [done|]. destruct (c a) eqn:Hc; [|done].
    destruct (Hb a Ha Hc); lia.
  - destruct (c a) eqn:Hc; [|done].
    destruct (Hb a Ha Hc). apply IH; [done..|lia].
Qed.

End While.

(** ** Lemmas: machine integers *)

Lemma u32_small x : 0 <= x < 2 ^ 32 -> u32 x = x.
Proof. intros; by apply Z.mod_small. Qed.

Lemma u32_range x : 0 <= u32 x < 2 ^ 32.
Proof. by apply Z.mod_pos_bound. Qed.

Lemma u8_range x : 0 <= u8 x < 256.
Proof. by apply Z.mod_pos_bound. Qed.

Lemma u8_small x : 0 <= x < 256 -> u8 x = x.
Proof. intros; by apply Z.mod_small. Qed.

Lemma u32_idemp x : u32 (u32 x) = u32 x.
Proof. apply Z.mod_mod. lia. Qed.

Lemma s32_small x : - 2 ^ 31 <= x < 2 ^ 31 -> s32 x = x.
Proof.
  intros Hx. unfold s32. destruct (Z.lt_ge_cases x 0).
  - replace (x mod 2 ^ 32) with (x + 2 ^ 32)
      by (rewrite <- (Z.mod_small (x + 2 ^ 32) (2 ^ 32)) by lia;
          rewrite <- Zplus_mod_idemp_r, Z_mod_same_full, Z.add_0_r; done).
    case_if; lia.
  - rewrite Z.mod_small by lia. case_if; lia.
Qed.

Lemma testbit_high x n k : 0 <= x < 2 ^ n -> n <= k -> Z.testbit x k = false.
Proof.
  intros Hx Hk. destruct (decide (0 <= n)).
  - rewrite <- (Z.mod_small x (2 ^ n)) by done. by apply Z.mod_pow2_bits_high.
  - rewrite Z.pow_neg_r in Hx by lia. lia.
Qed.

(** The single-bit mask [1 << k]. *)
Lemma land_bit x k : 0 <= k ->
  Z.land x (Z.shiftl 1 k) = if Z.testbit x k then 2 ^ k else 0.
Proof.
  intros Hk. rewrite Z.shiftl_1_l. apply Z.bits_inj'. intros i Hi.
  rewrite Z.land_spec, Z.pow2_bits_eqb by done.
  destruct (Z.eqb_spec k i) as [->|].
  - destruct (Z.testbit x i) eqn:Hb; cbn; rewrite ?Z.pow2_bits_true, ?Z.bits_0; done.
  - rewrite andb_false_r. destruct (Z.testbit x k).
    + by rewrite Z.pow2_bits_false.
    + by rewrite Z.bits_0.
Qed.

Lemma land_bit_zero x k : 0 <= k ->
  (Z.land x (Z.shiftl 1 k) =? 0) = negb (Z.testbit x k).
Proof.
  intros Hk. rewrite land_bit by done. destruct (Z.testbit x k); cbn; [|done].
  apply Z.eqb_neq. pose proof (Z.pow_pos_nonneg 2 k). lia.
Qed.

Lemma land_ones_mod x n : 0 <= n -> Z.land x (2 ^ n - 1) = x mod 2 ^ n.
Proof.
  intros. replace (2 ^ n - 1) with (Z.ones n) by (rewrite Z.ones_equiv; lia).
  by apply Z.land_ones.
Qed.

(** Packing a field above the low [k] bits. *)
Lemma lor_shiftl_add c k x : 0 <= k -> 0 <= x < 2 ^ k -> Z.lor (Z.shiftl c k) x = 2 ^ k * c + x.
Proof.
  intros Hk Hx. rewrite Z.shiftl_mul_pow2 by lia.
  assert (Z.land (c * 2 ^ k) x = 0) as H0.
  { apply Z.bits_inj'. intros i Hi. rewrite Z.land_spec, Z.bits_0.
    destruct (decide (i < k)).
    - by rewrite Z.mul_pow2_bits_low by lia.
    - rewrite (testbit_high x k i) by lia. apply andb_false_r. }
  rewrite <- Z.lxor_lor, <- Z.add_nocarry_lxor by done. lia.
Qed.

(** ** Lemmas: [Z]-indexed arrays *)

Section Arrays.
Context {A : Type}.
Implicit Types l : list A.

Lemma zget_Some l i x : zget l i = Some x -> 0 <= i < zlen l.
Proof.
  unfold zget, zlen. case_if; [|done]. intros H%lookup_lt_Some. lia.
Qed.

Lemma zget_in l i : 0 <= i < zlen l -> exists x, zget l i = Some x.
Proof.
  unfold zget, zlen. intros Hi. rewrite (proj2 (Z.leb_le 0 i)) by lia.
  apply lookup_lt_is_Some. lia.
Qed.

Lemma zget_nat l i : 0 <= i -> zget l i = l !! Z.to_nat i.
Proof. intros Hi. unfold zget. by rewrite (proj2 (Z.leb_le 0 i)). Qed.

Lemma zget_of_nat l k : zget l (Z.of_nat k) = l !! k.
Proof. by rewrite zget_nat, Nat2Z.id by lia. Qed.

Lemma zget_succ x l i : 0 < i -> zget (x :: l) i = zget l (i - 1).
Proof.
  intros Hi. unfold zget. rewrite !(proj2 (Z.leb_le _ _)) by lia.
  by replace (Z.to_nat i) with (Datatypes.S (Z.to_nat (i - 1))) by lia.
Qed.

Lemma zget_cons x l i y : zget (x :: l) i = Some y -> (i = 0 /\ y = x) \/ (0 < i /\ zget l (i - 1) = Some y).
Proof.
  intros Hx. pose proof (zget_Some _ _ _ Hx) as Hi. destruct (decide (i = 0)) as [->|].
  - left. split; [done|]. by injection Hx.
  - right. split; [lia|]. by rewrite zget_succ in Hx by lia.
Qed.

Lemma zlen_zset l i x : zlen (zset l i x) = zlen l.
Proof. unfold zlen, zset. case_if; by rewrite ?length_insert. Qed.

Lemma zget_zset_eq l i x : 0 <= i < zlen l -> zget (zset l i x) i = Some x.
Proof.
  unfold zget, zset, zlen. intros Hi. rewrite (proj2 (Z.leb_le 0 i)) by lia.
  apply list_lookup_insert_eq. lia.
Qed.

Lemma zget_zset_ne l i j x : i <> j -> zget (zset l i x) j = zget l j.
Proof.
  unfold zget, zset. intros Hij. repeat case_if; try done.
  apply list_lookup_insert_ne. lia.
Qed.

Lemma zset_zset l i x y : zset (zset l i x) i y = zset l i y.
Proof. unfold zset. case_if; [|done]. apply list_insert_insert_eq. Qed.

Lemma zset_id l i x : zget l i = Some x -> zset l i x = l.
Proof. unfold zget, zset. case_if; [|done]. apply list_insert_id. Qed.

End Arrays.

Create HintDb kernel.
Create Rewrite HintDb kernel.
#[export] Hint Rewrite @zlen_zset : kernel.
#[export] Hint Resolve u32_range u8_range : kernel.

(** ** Lemmas: words in byte arrays *)

Lemma ld8_st8_eq d i v : 0 <= i < zlen d -> ld8 (st8 d i v) i = u8 v.
Proof. intros. unfold ld8, st8. by rewrite zget_zset_eq. Qed.

Lemma ld8_st8_ne d i j v : i <> j -> ld8 (st8 d i v) j = ld8 d j.
Proof. intros. unfold ld8, st8. by rewrite zget_zset_ne. Qed.

Lemma zlen_st8 d i v : zlen (st8 d i v) = zlen d.
Proof. apply zlen_zset. Qed.

#[export] Hint Rewrite zlen_st8 : kernel.

Lemma zlen_st16 d i v : zlen (st16 d i v) = zlen d.
Proof. unfold st16. by autorewrite with kernel. Qed.

Lemma zlen_st32 d i v : zlen (st32 d i v) = zlen d.
Proof. unfold st32. by autorewrite with kernel. Qed.

#[export] Hint Rewrite zlen_st16 zlen_st32 : kernel.

Ltac ld_st :=
  repeat first
    [ rewrite ld8_st8_eq by (autorewrite with kernel; lia)
    | rewrite ld8_st8_ne by lia ].

(** Storing a 32-bit word and loading it back. *)
Lemma ld32_st32_eq d i v : 0 <= i -> i + 4 <= zlen d -> ld32 (st32 d i v) i = u32 v.
Proof.
  intros. unfold ld32, st32. ld_st. unfold u8, u32.
  change (2 ^ 8) with 256. change (2 ^ 16) with 65536. change (2 ^ 24) with 16777216.
  change (2 ^ 32) with 4294967296. Z.div_mod_to_equations. lia.
Qed.

Lemma ld32_st32_ne d i j v : j + 4 <= i \/ i + 4 <= j -> ld32 (st32 d i v) j = ld32 d j.
Proof. intros. unfold ld32, st32. by ld_st. Qed.

Lemma ld16_st16_eq d i v : 0 <= i -> i + 2 <= zlen d -> ld16 (st16 d i v) i = u16 v.
Proof.
  intros. unfold ld16, st16. ld_st. unfold u8, u16.
  change (2 ^ 8) with 256. change (2 ^ 16) with 65536. Z.div_mod_to_equations. lia.
Qed.

Lemma ld16_st16_ne d i j v : j + 2 <= i \/ i + 2 <= j -> ld16 (st16 d i v) j = ld16 d j.
Proof. intros. unfold ld16, st16. by ld_st. Qed.

(** ** Lemmas: slices of byte arrays *)

Lemma zlen_splice d off src : 0 <= off -> off + zlen src <= zlen d -> zlen (splice d off src) = zlen d.
Proof. unfold zlen, splice. intros. rewrite !length_app, length_take, length_drop. lia. Qed.

Lemma zlen_bytes_at d off n : 0 <= off -> 0 <= n -> off + n <= zlen d -> zlen (bytes_at d off n) = n.
Proof. unfold zlen, bytes_at. intros. rewrite length_take, length_drop. lia. Qed.

Lemma bytes_at_splice_eq d off src : 0 <= off <= zlen d ->
  bytes_at (splice d off src) off (zlen src) = src.
Proof.
  unfold bytes_at, splice, zlen. intros Ho. rewrite drop_app_length' by (rewrite length_take; lia).
  by rewrite Nat2Z.id, take_app_length.
Qed.

Lemma bytes_at_splice_ne d off src off' n :
  0 <= off -> off + zlen src <= zlen d -> 0 <= off' -> 0 <= n ->
  off' + n <= off \/ off + zlen src <= off' ->
  bytes_at (splice d off src) off' n = bytes_at d off' n.
Proof.
  unfold bytes_at, splice, zlen. intros H1 H2 H3 H4 H5. apply list_eq. intros i.
  destruct (decide (i < Z.to_nat n)%nat) as [Hi|Hi]; [|rewrite !lookup_take_ge by lia; done].
  rewrite !lookup_take_lt, !lookup_drop by lia. destruct H5.
  - rewrite lookup_app_l by (rewrite length_take; lia). by rewrite lookup_take_lt by lia.
  - rewrite lookup_app_r by (rewrite length_take; lia). rewrite length_take.
    rewrite lookup_app_r by lia. rewrite lookup_drop. f_equal. lia.
Qed.

Lemma ld8_bytes_at d off n i : 0 <= off -> 0 <= i < n -> ld8 (bytes_at d off n) i = ld8 d (off + i).
Proof.
  unfold ld8, bytes_at, zget. intros. rewrite !(proj2 (Z.leb_le _ _)) by lia.
  rewrite lookup_take_lt, lookup_drop by lia. do 2 f_equal. lia.
Qed.

Lemma u32_add_l x y : u32 (u32 x + y) = u32 (x + y).
Proof. unfold u32. by rewrite Zplus_mod_idemp_l. Qed.

Lemma u32_add_r x y : u32 (x + u32 y) = u32 (x + y).
Proof. unfold u32. by rewrite Zplus_mod_idemp_r. Qed.

Lemma zlen_app {A} (l k : list A) : zlen (l ++ k) = zlen l + zlen k.
Proof. unfold zlen. rewrite length_app. lia. Qed.

Lemma zlen_cons {A} (x : A) l : zlen (x :: l) = zlen l + 1.
Proof. unfold zlen. cbn [length]. lia. Qed.

Lemma zlen_nonneg {A} (l : list A) : 0 <= zlen l.
Proof. unfold zlen. lia. Qed.
