(* ===== verification/CString.v ===== *)
(** * string.c: memory and string routines

    Memory is a total function from 32-bit addresses to bytes.  Each routine
    follows the loops of source/string.c; a loop is [while_] on the tuple of
    the locals it changes, bounded by its byte count.  Pointer increments wrap
    at 32 bits, as the generated code does. *)

From S2P Require Import Prelude.

Definition mem : Type := Z -> Z.

Definition upd (m : mem) (a v : Z) : mem := fun b => if b =? a then v else m b.

(** [*p4 = val]: a little-endian 32-bit store. *)
Definition store32 (m : mem) (a v : Z) : mem :=
  upd (upd (upd (upd m a (u8 v)) (u32 (a + 1)) (u8 (v / 2 ^ 8)))
         (u32 (a + 2)) (u8 (v / 2 ^ 16))) (u32 (a + 3)) (u8 (v / 2 ^ 24)).

(** memset: three loops over (memory, pointer, remaining count). *)
Definition memset_bytes (c : Z) (st : mem * Z * Z) : mem * Z * Z :=
  let '(m, p, n) := st in (upd m p c, u32 (p + 1), n - 1).

Definition memset_words (val : Z) (st : mem * Z * Z) : mem * Z * Z :=
  let '(m, p4, n) := st in (store32 m p4 val, u32 (p4 + 4), n - 4).

Definition unaligned_left (st : mem * Z * Z) : bool :=
  let '(_, p, n) := st in (0 <? n) && negb (p mod 4 =? 0).

Definition word_left (st : mem * Z * Z) : bool := let '(_, _, n) := st in 4 <=? n.

Definition byte_left (st : mem * Z * Z) : bool := let '(_, _, n) := st in 0 <? n.

Definition memset (m : mem) (dst v n : Z) : mem * Z :=
  let c := u8 (Z.land v 255) in
  let val := u32 (Z.lor (Z.lor (Z.lor (Z.shiftl c 24) (Z.shiftl c 16)) (Z.shiftl c 8)) c) in
  let fuel := Z.to_nat n in
  let s1 := while_ fuel unaligned_left (memset_bytes c) (m, dst, n) in
  let s2 := while_ fuel word_left (memset_words val) s1 in
  let s3 := while_ fuel byte_left (memset_bytes c) s2 in
  (fst (fst s3), dst).

(** memcmp: [while (n-- > 0)]. *)
Fixpoint memcmp (m : mem) (s1 s2 : Z) (n : nat) : Z :=
  match n with
  | O => 0
  | S n' =>
      if negb (m s1 =? m s2) then m s1 - m s2
      else memcmp m (u32 (s1 + 1)) (u32 (s2 + 1)) n'
  end.

(** memmove: [*--d = *--s] downwards when the source starts below the
    destination and overlaps it, [*d++ = *s++] upwards otherwise. *)
Fixpoint copy_down (m : mem) (d s : Z) (n : nat) : mem :=
  match n with
  | O => m
  | S n' =>
      let d' := u32 (d - 1) in
      let s' := u32 (s - 1) in
      copy_down (upd m d' (m s')) d' s' n'
  end.

Fixpoint copy_up (m : mem) (d s : Z) (n : nat) : mem :=
  match n with
  | O => m
  | S n' => copy_up (upd m d (m s)) (u32 (d + 1)) (u32 (s + 1)) n'
  end.

Definition memmove (m : mem) (dst src n : Z) : mem * Z :=
  if (src <? dst) && (u32 (src + n) >? dst)
  then (copy_down m (u32 (dst + n)) (u32 (src + n)) (Z.to_nat n), dst)
  else (copy_up m dst src (Z.to_nat n), dst).

Definition memcpy (m : mem) (dst src n : Z) : mem * Z := memmove m dst src n.

(** strncmp: [while (n > 0 && *p && *p == *q) n--, p++, q++]. *)
Fixpoint strncmp (m : mem) (p q : Z) (n : nat) : Z :=
  match n with
  | O => 0
  | S n' =>
      if negb (m p =? 0) && (m p =? m q)
      then strncmp m (u32 (p + 1)) (u32 (q + 1)) n'
      else u8 (m p) - u8 (m q)
  end.

(** strncpy: copy up to and including the NUL, then pad with NULs.  The
    padding loop [while (n-- > 0) *s++ = 0] runs on what the copy left. *)
Fixpoint zero_fill (m : mem) (s : Z) (n : nat) : mem :=
  match n with
  | O => m
  | S n' => zero_fill (upd m s 0) (u32 (s + 1)) n'
  end.

Fixpoint strncpy_loop (m : mem) (s t : Z) (n : nat) : mem :=
  match n with
  | O => m
  | S n' =>
      let m' := upd m s (m t) in
      if m t =? 0 then zero_fill m' (u32 (s + 1)) n'
      else strncpy_loop m' (u32 (s + 1)) (u32 (t + 1)) n'
  end.

Definition strncpy (m : mem) (s t n : Z) : mem * Z := (strncpy_loop m s t (Z.to_nat n), s).

(** safestrcpy: [while (--n > 0 && (star s++ = star t++) != 0)], then [*s = 0]
    at the place where the copy stopped. *)
Fixpoint safestrcpy_loop (m : mem) (s t : Z) (n : nat) : mem :=
  match n with
  | O => upd m s 0
  | S n' =>
      let m' := upd m s (m t) in
      if m t =? 0 then upd m' (u32 (s + 1)) 0
      else safestrcpy_loop m' (u32 (s + 1)) (u32 (t + 1)) n'
  end.

Definition safestrcpy (m : mem) (s t n : Z) : mem * Z :=
  if n <=? 0 then (m, s) else (safestrcpy_loop m s t (Z.to_nat (n - 1)), s).

(** strlen: [for (n = 0; s[n]; n++)]; [None] when no NUL is met within [fuel]. *)
Fixpoint strlen_from (fuel : nat) (m : mem) (s n : Z) : option Z :=
  match fuel with
  | O => None
  | S f => if m (u32 (s + n)) =? 0 then Some n else strlen_from f m s (n + 1)
  end.

Definition strlen (fuel : nat) (m : mem) (s : Z) : option Z := strlen_from fuel m s 0.

(** div: 32 steps of shift-and-subtract; the step for bit [i]. *)
Definition div_step (n d i : Z) (qr : Z * Z) : Z * Z :=
  let '(q, r) := qr in
  let r := u32 (Z.shiftl r 1) in
  let r := Z.lor r (Z.land (Z.shiftr n i) 1) in
  if r >=? d then (Z.lor q (u32 (Z.shiftl 1 i)), u32 (r - d)) else (q, r).

Fixpoint div_loop (n d : Z) (k : nat) (qr : Z * Z) : Z * Z :=
  match k with
  | O => qr
  | S k' => div_loop n d k' (div_step n d (Z.of_nat k') qr)
  end.

Definition div (n d : Z) : Z := fst (div_loop n d 32 (0, 0)).

(** ** Memory update *)

Lemma upd_eq m a v : upd m a v a = v.
Proof. unfold upd. by rewrite Z.eqb_refl. Qed.

Lemma upd_ne m a b v : b <> a -> upd m a v b = m b.
Proof. intros. unfold upd. by rewrite (proj2 (Z.eqb_neq b a)). Qed.

(** [filled m m' lo hi f]: [m'] is [m] with [f a] at each address of [lo, hi). *)
Definition filled (m m' : mem) (lo hi : Z) (f : Z -> Z) : Prop :=
  forall a, m' a = if (lo <=? a) && (a <? hi) then f a else m a.

(** Address comparison [lo <= a < hi] as a case split. *)
Lemma in_range_true lo hi a : lo <= a < hi -> (lo <=? a) && (a <? hi) = true.
Proof. intros. apply andb_true_iff. split; [apply Z.leb_le|apply Z.ltb_lt]; lia. Qed.

Lemma in_range_false lo hi a : a < lo \/ hi <= a -> (lo <=? a) && (a <? hi) = false.
Proof. intros. apply andb_false_iff. rewrite Z.leb_gt, Z.ltb_ge. lia. Qed.

Ltac in_range :=
  repeat first [ rewrite in_range_true by lia | rewrite in_range_false by lia ].

(** ** memmove *)

Lemma copy_up_spec n : forall m d s,
  0 <= d -> 0 <= s -> d + Z.of_nat n <= 2 ^ 32 -> s + Z.of_nat n <= 2 ^ 32 ->
  d <= s \/ s + Z.of_nat n <= d ->
  filled m (copy_up m d s n) d (d + Z.of_nat n) (fun a => m (s + (a - d))).
Proof.
  induction n as [|n IH]; intros m d s Hd Hs Hdn Hsn Hov a; cbn [copy_up].
  - by in_range.
  - destruct (decide (n = 0%nat)) as [->|Hn].
    + cbn [copy_up]. destruct (decide (a = d)) as [->|].
      * rewrite upd_eq. in_range. f_equal. lia.
      * rewrite upd_ne by lia. by in_range.
    + rewrite !u32_small by lia. rewrite IH by lia.
      destruct (decide (d + 1 <= a < d + 1 + Z.of_nat n)).
      * in_range. rewrite upd_ne by lia. f_equal. lia.
      * destruct (decide (a = d)) as [->|].
        -- in_range. rewrite upd_eq. f_equal. lia.
        -- in_range. by rewrite upd_ne by lia.
Qed.

Lemma copy_down_spec n : forall m d s,
  Z.of_nat n <= d -> Z.of_nat n <= s -> d <= 2 ^ 32 -> s <= 2 ^ 32 -> s < d ->
  filled m (copy_down m (u32 d) (u32 s) n) (d - Z.of_nat n) d (fun a => m (s + (a - d))).
Proof.
  induction n as [|n IH]; intros m d s Hd Hs Hdn Hsn Hov a; cbn [copy_down].
  - by in_range.
  - assert (forall x, Z.of_nat (S n) <= x <= 2 ^ 32 -> u32 (u32 x - 1) = u32 (x - 1)) as Hw.
    { intros x Hx. unfold u32. by rewrite Zminus_mod_idemp_l. }
    rewrite !Hw by lia. rewrite IH by lia. rewrite (u32_small (d - 1)), (u32_small (s - 1)) by lia.
    destruct (decide (d - 1 - Z.of_nat n <= a < d - 1)).
    + in_range. rewrite upd_ne by lia. f_equal. lia.
    + destruct (decide (a = d - 1)) as [->|].
      * in_range. rewrite upd_eq. f_equal. lia.
      * in_range. by rewrite upd_ne by lia.
Qed.

(** C34: memmove copies [n] bytes as if through a temporary buffer, whether or
    not the two ranges overlap, and changes nothing else; it returns [dst]. *)
Theorem memmove_correct m dst src n :
  0 <= n -> 0 <= dst -> 0 <= src -> dst + n <= 2 ^ 32 -> src + n <= 2 ^ 32 ->
  snd (memmove m dst src n) = dst /\
  filled m (fst (memmove m dst src n)) dst (dst + n) (fun a => m (src + (a - dst))).
Proof.
  intros Hn Hd Hs Hdn Hsn. unfold memmove. case_if; cbn [fst snd]; split; try done.
  - intros a. rewrite copy_down_spec by (pose proof (u32_range (src + n)); lia).
    rewrite Z2Nat.id by lia. replace (dst + n - n) with dst by lia.
    case_if; [|done]. f_equal. lia.
  - replace (dst + n) with (dst + Z.of_nat (Z.to_nat n)) by lia.
    apply copy_up_spec; try lia.
    destruct (Z.ltb_spec src dst); [|by left]. right. cbn in *.
    destruct (decide (src + n = 2 ^ 32)); [lia|].
    rewrite u32_small in * by lia. lia.
Qed.

(** ** memset *)

Lemma memset_word_bytes c : 0 <= c < 256 ->
  u32 (Z.lor (Z.lor (Z.lor (Z.shiftl c 24) (Z.shiftl c 16)) (Z.shiftl c 8)) c)
  = c + 2 ^ 8 * c + 2 ^ 16 * c + 2 ^ 24 * c.
Proof.
  intros Hc. rewrite <- !Z.lor_assoc.
  rewrite (lor_shiftl_add c 8), (lor_shiftl_add c 16), (lor_shiftl_add c 24) by lia.
  rewrite u32_small by lia. lia.
Qed.

Lemma store32_fill m p c : 0 <= p -> p + 4 <= 2 ^ 32 -> 0 <= c < 256 ->
  filled m (store32 m p (c + 2 ^ 8 * c + 2 ^ 16 * c + 2 ^ 24 * c)) p (p + 4) (fun _ => c).
Proof.
  intros Hp Hp4 Hc a. unfold store32.
  assert (forall k, k = 0 \/ k = 8 \/ k = 16 \/ k = 24 ->
    u8 ((c + 2 ^ 8 * c + 2 ^ 16 * c + 2 ^ 24 * c) / 2 ^ k) = c) as Hb.
  { intros k Hk. unfold u8. change (2 ^ 8) with 256. change (2 ^ 16) with 65536.
    change (2 ^ 24) with 16777216.
    destruct Hk as [->|[->|[->| ->]]]; [change (2 ^ 0) with 1|change (2 ^ 8) with 256
      |change (2 ^ 16) with 65536|change (2 ^ 24) with 16777216]; Z.div_mod_to_equations; lia. }
  pose proof (Hb 0 ltac:(lia)) as Hb0. rewrite Z.pow_0_r, Z.div_1_r in Hb0.
  rewrite Hb0, !Hb by lia.
  rewrite !u32_small by lia. unfold upd.
  destruct (decide (p <= a < p + 4)); in_range; repeat case_if; try done; lia.
Qed.

(** Extending a filled range by the next chunk. *)
Lemma filled_extend m m1 m2 lo mid hi c :
  lo <= mid <= hi ->
  filled m m1 lo mid (fun _ => c) -> filled m1 m2 mid hi (fun _ => c) ->
  filled m m2 lo hi (fun _ => c).
Proof.
  intros Hr H1 H2 a. rewrite H2, H1.
  destruct (decide (lo <= a < mid)); [by in_range|].
  destruct (decide (mid <= a < hi)); by in_range.
Qed.

(** The loop invariant of memset: a prefix of the range is filled and the
    pointer stands right behind it. *)
Definition memset_inv (m : mem) (dst n c : Z) (st : mem * Z * Z) : Prop :=
  let '(m', p, k) := st in
  0 <= k <= n /\ p = u32 (dst + n - k) /\ filled m m' dst (dst + n - k) (fun _ => c).

Lemma memset_byte_inv m dst n c st :
  0 <= dst -> dst + n <= 2 ^ 32 -> memset_inv m dst n c st -> 0 < snd st ->
  memset_inv m dst n c (memset_bytes c st).
Proof.
  destruct st as [[m' p] k]. cbn. intros Hd Hn (Hk & Hp & Hf) Hpos.
  rewrite (u32_small (dst + n - k)) in Hp by lia. subst p.
  split; [lia|]. split; [f_equal; lia|].
  eapply (filled_extend _ _ _ _ (dst + n - k)); [lia|done|].
  intros a. unfold upd. case_if; subst; in_range; [done|].
  destruct (decide (dst + n - k <= a < dst + n - (k - 1))); [lia|by in_range].
Qed.

Lemma memset_word_inv m dst n c st :
  0 <= dst -> dst + n <= 2 ^ 32 -> 0 <= c < 256 -> memset_inv m dst n c st -> 4 <= snd st ->
  memset_inv m dst n c (memset_words (c + 2 ^ 8 * c + 2 ^ 16 * c + 2 ^ 24 * c) st).
Proof.
  destruct st as [[m' p] k]. cbn. intros Hd Hn Hc (Hk & Hp & Hf) Hpos.
  rewrite (u32_small (dst + n - k)) in Hp by lia. subst p.
  split; [lia|]. split; [f_equal; lia|].
  eapply (filled_extend _ _ _ _ (dst + n - k)); [lia|done|].
  replace (dst + n - (k - 4)) with (dst + n - k + 4) by lia.
  apply store32_fill; lia.
Qed.

(** Each of the three loops keeps the invariant and stops with its guard false. *)
Lemma memset_loop m dst n c (g : mem * Z * Z -> bool) body st :
  memset_inv m dst n c st ->
  (forall x, memset_inv m dst n c x -> g x = true ->
     memset_inv m dst n c (body x) /\ snd (body x) < snd x) ->
  let st' := while_ (Z.to_nat n) g body st in
  memset_inv m dst n c st' /\ g st' = false.
Proof.
  intros H0 Hb. apply (while_inv _ (fun st => Z.to_nat (snd st))); [done| |].
  - intros x Hx Hg. destruct (Hb x Hx Hg) as [Hi Hlt]. split; [done|].
    destruct x as [[? ?] k], (body _) as [[? ?] k'], Hi, Hx. cbn in *. lia.
  - destruct st as [[? ?] k], H0. cbn in *. lia.
Qed.

(** Memset fills exactly the [n] bytes from [dst] with the low byte of
    [v], whatever the alignment of [dst]; it returns [dst]. *)
Theorem memset_correct m dst v n :
  0 <= n -> 0 <= dst < 2 ^ 32 -> dst + n <= 2 ^ 32 ->
  snd (memset m dst v n) = dst /\
  filled m (fst (memset m dst v n)) dst (dst + n) (fun _ => v mod 256).
Proof.
  intros Hn Hd Hdn. split; [done|].
  assert (u8 (Z.land v 255) = v mod 256) as Hc.
  { change 255 with (2 ^ 8 - 1). rewrite land_ones_mod by lia.
    apply u8_small. apply Z.mod_pos_bound. lia. }
  unfold memset. rewrite Hc.
  pose proof (Z.mod_pos_bound v 256 ltac:(lia)) as Hb.
  set (c := v mod 256) in *. clearbody c. clear Hc.
  rewrite memset_word_bytes by lia.
  assert (memset_inv m dst n c (m, dst, n)) as H0.
  { split; [lia|]. replace (dst + n - n) with dst by lia. split.
    - by rewrite u32_small by lia.
    - intros a. by in_range. }
  destruct (memset_loop m dst n c unaligned_left (memset_bytes c) (m, dst, n)) as [H1 _]; [done| |].
  { intros [[m' p] k] HI Hg. cbn in Hg. zbool. split; [|cbn; lia].
    apply memset_byte_inv; cbn; [lia|lia|done|lia]. }
  destruct (memset_loop m dst n c word_left (memset_words (c + 2 ^ 8 * c + 2 ^ 16 * c + 2 ^ 24 * c)) _ H1) as [H2 _].
  { intros [[m' p] k] HI Hg. cbn in Hg. zbool. split; [|cbn; lia].
    apply memset_word_inv; cbn; [lia|lia|lia|done|lia]. }
  destruct (memset_loop m dst n c byte_left (memset_bytes c) _ H2) as [H3 Hg].
  { intros [[m' p] k] HI Hg. cbn in Hg. zbool. split; [|cbn; lia].
    apply memset_byte_inv; cbn; [lia|lia|done|lia]. }
  destruct (while_ _ byte_left _ _) as [[m' p] k].
  destruct H3 as (Hk & _ & Hf). cbn in Hg |- *. zbool.
  replace (dst + n) with (dst + n - k) by lia. exact Hf.
Qed.

(** ** div *)

(** One step of the long division brings in bit [i] of the dividend. *)
Lemma div_step_spec n d i :
  0 <= n < 2 ^ 32 -> 0 < d -> 0 <= i < 32 ->
  div_step n d i (2 ^ (i + 1) * (n / 2 ^ (i + 1) / d), (n / 2 ^ (i + 1)) mod d)
  = (2 ^ i * (n / 2 ^ i / d), (n / 2 ^ i) mod d).
Proof.
  intros Hn Hd Hi. set (N := n / 2 ^ (i + 1)). set (b := (n / 2 ^ i) mod 2).
  assert (0 < 2 ^ i) as Hp by (apply Z.pow_pos_nonneg; lia).
  assert (2 ^ (i + 1) = 2 * 2 ^ i) as Hp1 by (rewrite Z.pow_add_r by lia; lia).
  assert (n / 2 ^ i = 2 * N + b) as HN.
  { subst N b. rewrite Hp1, (Z.mul_comm 2 (2 ^ i)), <- Z.div_div by lia. apply Z.div_mod. lia. }
  assert (0 <= b < 2) as Hb by (apply Z.mod_pos_bound; lia).
  assert (0 <= N < 2 ^ 31) as HNr.
  { subst N. split; [apply Z.div_pos; lia|]. apply Z.div_lt_upper_bound; nia. }
  assert (0 <= N mod d <= N) as Hr.
  { split; [apply Z.mod_pos_bound; lia|apply Z.mod_le; lia]. }
  pose proof (Z.div_mod N d ltac:(lia)) as Hdm.
  pose proof (Z.mod_pos_bound N d Hd) as Hmb.
  unfold div_step. fold N.
  rewrite (u32_small (Z.shiftl (N mod d) 1)) by (rewrite Z.shiftl_mul_pow2 by lia; lia).
  rewrite Z.shiftr_div_pow2 by lia.
  pose proof (land_ones_mod (n / 2 ^ i) 1 ltac:(lia)) as Hl.
  change (2 ^ 1 - 1) with 1 in Hl. change (2 ^ 1) with 2 in Hl. rewrite Hl. fold b.
  rewrite lor_shiftl_add by lia. change (2 ^ 1) with 2. rewrite Z.geb_leb. rewrite HN.
  assert (0 <= N / d) by (apply Z.div_pos; lia).
  case_if.
  - assert ((2 * N + b) / d = 2 * (N / d) + 1) as Hq
      by (symmetry; apply (Z.div_unique_pos _ _ _ (2 * (N mod d) + b - d)); nia).
    f_equal.
    + rewrite Hq, Z.shiftl_1_l, (u32_small (2 ^ i))
        by (split; [lia|apply Z.pow_lt_mono_r; lia]).
      rewrite (Z.mul_comm (2 ^ (i + 1))), <- Z.shiftl_mul_pow2 by lia.
      rewrite lor_shiftl_add by lia. lia.
    + rewrite u32_small by lia. rewrite (Z.mod_eq (2 * N + b)), Hq by lia. nia.
  - assert ((2 * N + b) / d = 2 * (N / d)) as Hq
      by (symmetry; apply (Z.div_unique_pos _ _ _ (2 * (N mod d) + b)); nia).
    f_equal; [rewrite Hq; lia|].
    rewrite (Z.mod_eq (2 * N + b)), Hq by lia. nia.
Qed.

Lemma div_loop_spec n d k :
  0 <= n < 2 ^ 32 -> 0 < d -> (k <= 32)%nat ->
  div_loop n d k (2 ^ Z.of_nat k * (n / 2 ^ Z.of_nat k / d), (n / 2 ^ Z.of_nat k) mod d)
  = (n / d, n mod d).
Proof.
  intros Hn Hd. induction k as [|k IH]; intros Hk; cbn [div_loop].
  - change (2 ^ Z.of_nat 0) with 1. rewrite Z.div_1_r. f_equal. lia.
  - rewrite Nat2Z.inj_succ, <- Z.add_1_r, div_step_spec by lia. apply IH. lia.
Qed.

Lemma div_quotient n d : 0 <= n < 2 ^ 32 -> 0 < d < 2 ^ 32 -> div n d = n / d.
Proof.
  intros Hn Hd. pose proof (div_loop_spec n d 32 Hn ltac:(lia) ltac:(lia)) as H.
  change (Z.of_nat 32) with 32 in H. rewrite (Z.div_small n (2 ^ 32)) in H by lia.
  rewrite Zdiv_0_l, Zmod_0_l, Z.mul_0_r in H. unfold div. by rewrite H.
Qed.

(** Dividing by zero sets every bit of the quotient. *)
Lemma div_loop_zero n k : 0 <= n -> (k <= 32)%nat -> forall q r, fst (div_loop n 0 k (q, r)) = Z.lor q (2 ^ Z.of_nat k - 1).
Proof.
  intros Hn. induction k as [|k IH]; intros Hk q r; cbn [div_loop].
  - change (2 ^ Z.of_nat 0 - 1) with 0. by rewrite Z.lor_0_r.
  - unfold div_step. rewrite Z.geb_leb. rewrite (proj2 (Z.leb_le 0 _)).
    2: { apply Z.lor_nonneg. split; [apply u32_range|]. apply Z.land_nonneg. by right. }
    rewrite IH by lia. assert (0 < 2 ^ Z.of_nat k) by (apply Z.pow_pos_nonneg; lia).
    rewrite <-Z.lor_assoc. f_equal. rewrite u32_small.
    + rewrite lor_shiftl_add by lia. rewrite Nat2Z.inj_succ, Z.pow_succ_r by lia. lia.
    + rewrite Z.shiftl_1_l. split; [lia|]. apply Z.pow_lt_mono_r; lia.
Qed.

(** The shift-and-subtract [div] is 32-bit unsigned division for every
    dividend and every non-zero divisor: its intermediate remainder never
    overflows.  Division by zero gives the largest number. *)
Theorem div_correct n d : 0 <= n < 2 ^ 32 -> 0 <= d < 2 ^ 32 -> div n d = if d =? 0 then 2 ^ 32 - 1 else n / d.
Proof.
  intros Hn Hd. destruct (Z.eqb_spec d 0) as [->|Hne]; [|apply div_quotient; lia].
  unfold div. rewrite div_loop_zero by lia. by rewrite Z.lor_0_l.
Qed.

(** ** strings *)

(** [str_at m p k]: the C string at [p] has its first NUL at offset [k]. *)
Definition str_at (m : mem) (p k : Z) : Prop :=
  0 <= k /\ m (p + k) = 0 /\ forall i, 0 <= i < k -> m (p + i) <> 0.

Lemma str_at_cons m p k : m p <> 0 -> str_at m (p + 1) k -> str_at m p (k + 1).
Proof.
  intros Hp (Hk & H0 & Hnz). split; [lia|]. split.
  - by replace (p + (k + 1)) with (p + 1 + k) by lia.
  - intros i Hi. destruct (decide (i = 0)) as [->|]; [by rewrite Z.add_0_r|].
    replace (p + i) with (p + 1 + (i - 1)) by lia. apply Hnz. lia.
Qed.

Lemma str_at_tail m p k : str_at m p k -> 0 < k -> m p <> 0 /\ str_at m (p + 1) (k - 1).
Proof.
  intros (Hk & H0 & Hnz) Hpos. split; [rewrite <- (Z.add_0_r p); apply Hnz; lia|].
  split; [lia|]. split.
  - by replace (p + 1 + (k - 1)) with (p + k) by lia.
  - intros i Hi. replace (p + 1 + i) with (p + (i + 1)) by lia. apply Hnz. lia.
Qed.

Lemma strlen_from_spec m s k fuel : forall n,
  str_at m s k -> 0 <= s -> s + k < 2 ^ 32 -> 0 <= n <= k -> k - n < Z.of_nat fuel ->
  strlen_from fuel m s n = Some k.
Proof.
  induction fuel as [|f IH]; intros n (Hk & H0 & Hnz) Hs Hr Hn Hf; [lia|]. cbn [strlen_from].
  rewrite u32_small by lia. destruct (decide (n = k)) as [->|].
  - by rewrite H0.
  - rewrite (proj2 (Z.eqb_neq _ _)) by (apply Hnz; lia). apply IH; [done|lia..].
Qed.

(** strlen finds the first NUL of the string. *)
Theorem strlen_correct m s k :
  str_at m s k -> 0 <= s -> s + k < 2 ^ 32 -> strlen (Z.to_nat (k + 1)) m s = Some k.
Proof. intros Hs H1 H2. apply strlen_from_spec; [done|lia..| |]; destruct Hs; lia. Qed.

(** Two strings agree up to [n] characters: the first difference, if any,
    comes after a NUL common to both. *)
Definition same_prefix (m : mem) (p q n : Z) : Prop :=
  forall i, 0 <= i < n -> (forall j, 0 <= j < i -> m (p + j) <> 0) -> m (p + i) = m (q + i).

Lemma same_prefix_cons m p q n : 0 < n ->
  same_prefix m p q n <->
  m p = m q /\ (m p <> 0 -> same_prefix m (p + 1) (q + 1) (n - 1)).
Proof.
  intros Hn. split.
  - intros H. split.
    + specialize (H 0). rewrite !Z.add_0_r in H. apply H; lia.
    + intros Hp i Hi Hj. specialize (H (i + 1)).
      replace (p + 1 + i) with (p + (i + 1)) by lia.
      replace (q + 1 + i) with (q + (i + 1)) by lia. apply H; [lia|].
      intros j Hj'. destruct (decide (j = 0)) as [->|]; [by rewrite Z.add_0_r|].
      replace (p + j) with (p + 1 + (j - 1)) by lia. apply Hj. lia.
  - intros [H0 H] i Hi Hj. destruct (decide (i = 0)) as [->|]; [by rewrite !Z.add_0_r|].
    replace (p + i) with (p + 1 + (i - 1)) by lia.
    replace (q + i) with (q + 1 + (i - 1)) by lia. apply H.
    + rewrite <- (Z.add_0_r p). apply Hj. lia.
    + lia.
    + intros j Hj'. replace (p + 1 + j) with (p + (j + 1)) by lia. apply Hj. lia.
Qed.

(** Strncmp returns 0 exactly when the strings agree on their first [n]
    characters, where a common NUL ends the comparison. *)
Theorem strncmp_zero m n : forall p q,
  (forall a, is_byte (m a)) -> 0 <= p -> 0 <= q ->
  p + Z.of_nat n < 2 ^ 32 -> q + Z.of_nat n < 2 ^ 32 ->
  strncmp m p q n = 0 <-> same_prefix m p q (Z.of_nat n).
Proof.
  induction n as [|n IH]; intros p q Hb Hp Hq Hpn Hqn; cbn [strncmp].
  { split; [|done]. intros _ i Hi. lia. }
  rewrite same_prefix_cons by lia. rewrite !u32_small by lia.
  replace (Z.of_nat (S n) - 1) with (Z.of_nat n) by lia.
  pose proof (Hb p). pose proof (Hb q). unfold is_byte in *.
  case_if.
  - rewrite IH by (done || lia). tauto.
  - rewrite !u8_small by done. apply andb_false_iff in Heqb.
    destruct Heqb; zbool; [|split; intros; lia]. split; [|lia].
    intros. split; [lia|done].
Qed.

(** memcmp returns 0 exactly when the two ranges hold the same bytes. *)
Theorem memcmp_zero m n : forall p q,
  0 <= p -> 0 <= q -> p + Z.of_nat n < 2 ^ 32 -> q + Z.of_nat n < 2 ^ 32 ->
  memcmp m p q n = 0 <-> forall i, 0 <= i < Z.of_nat n -> m (p + i) = m (q + i).
Proof.
  induction n as [|n IH]; intros p q Hp Hq Hpn Hqn; cbn [memcmp].
  { split; [|done]. intros _ i Hi. lia. }
  rewrite !u32_small by lia. case_if.
  - split; [lia|]. intros H. specialize (H 0). rewrite !Z.add_0_r in H. lia.
  - rewrite IH by lia. split; intros H i Hi.
    + destruct (decide (i = 0)) as [->|]; [by rewrite !Z.add_0_r|].
      replace (p + i) with (p + 1 + (i - 1)) by lia.
      replace (q + i) with (q + 1 + (i - 1)) by lia. apply H. lia.
    + replace (p + 1 + i) with (p + (i + 1)) by lia.
      replace (q + 1 + i) with (q + (i + 1)) by lia. apply H. lia.
Qed.

(** [untouched m m' lo hi]: memory outside [lo, hi) is unchanged. *)
Definition untouched (m m' : mem) (lo hi : Z) : Prop :=
  forall a, a < lo \/ hi <= a -> m' a = m a.

Lemma untouched_upd m m' a v lo hi :
  untouched (upd m a v) m' (a + 1) hi -> lo <= a < hi -> untouched m m' lo hi.
Proof. intros H Ha b Hb. rewrite H by lia. apply upd_ne. lia. Qed.

Lemma zero_fill_spec n : forall m s,
  0 <= s -> s + Z.of_nat n <= 2 ^ 32 ->
  filled m (zero_fill m s n) s (s + Z.of_nat n) (fun _ => 0).
Proof.
  induction n as [|n IH]; intros m s Hs Hn a; cbn [zero_fill]; [by in_range|].
  destruct (decide (n = 0%nat)) as [->|].
  - cbn [zero_fill]. destruct (decide (a = s)) as [->|].
    + rewrite upd_eq. by in_range.
    + rewrite upd_ne by done. by in_range.
  - rewrite u32_small by lia. rewrite IH by lia.
    destruct (decide (a = s)) as [->|]; [in_range; by rewrite upd_eq|].
    destruct (decide (s + 1 <= a < s + 1 + Z.of_nat n)); in_range; [done|by rewrite upd_ne].
Qed.

(** The copy loops keep the source intact when the ranges are apart. *)
Definition apart (s t n : Z) : Prop := s + n <= t \/ t + n <= s.

(** Strncpy writes exactly [n] bytes: the characters of [t] up to its
    first NUL, then NULs; nothing outside [s, s+n) changes. *)
Theorem strncpy_correct n : forall m s t,
  0 <= s -> 0 <= t -> s + Z.of_nat n < 2 ^ 32 -> t + Z.of_nat n < 2 ^ 32 ->
  apart s t (Z.of_nat n) ->
  let m' := fst (strncpy m s t (Z.of_nat n)) in
  untouched m m' s (s + Z.of_nat n) /\
  (forall i, 0 <= i < Z.of_nat n ->
     ((forall j, 0 <= j < i -> m (t + j) <> 0) -> m' (s + i) = m (t + i)) /\
     (forall j, 0 <= j < i -> m (t + j) = 0 -> m' (s + i) = 0)).
Proof.
  cbn zeta. unfold strncpy. cbn [fst].
  induction n as [|n IH]; intros m s t Hs Ht Hsn Htn Hap; rewrite Nat2Z.id in *; cbn [strncpy_loop].
  { split; [done|]. intros i Hi. lia. }
  rewrite !u32_small by lia. unfold apart in Hap. case_if.
  - assert (filled (upd m s (m t)) (zero_fill (upd m s (m t)) (s + 1) n) (s + 1) (s + 1 + Z.of_nat n) (fun _ => 0)) as Hz
      by (apply zero_fill_spec; lia).
    split.
    + intros a Ha. rewrite Hz. in_range. by rewrite upd_ne by lia.
    + intros i Hi. rewrite Hz. destruct (decide (i = 0)) as [->|].
      * in_range. rewrite !Z.add_0_r, upd_eq. split; [done|lia].
      * in_range. split; [|intros; rewrite Hz; by in_range]. intros Hj. exfalso. apply (Hj 0); [lia|]. by rewrite Z.add_0_r.
  - specialize (IH (upd m s (m t)) (s + 1) (t + 1)).
    destruct IH as [Hu Hc]; [lia..|unfold apart; lia|]. split.
    { eapply untouched_upd; [|instantiate (1 := s); lia].
      by replace (s + Z.of_nat (S n)) with (s + 1 + Z.of_nat n) by lia. }
    assert (forall j, 0 <= j < Z.of_nat n -> upd m s (m t) (t + 1 + j) = m (t + (j + 1))) as Hsrc.
    { intros j Hj. rewrite upd_ne by lia. f_equal. lia. }
    intros i Hi. destruct (decide (i = 0)) as [->|].
    { rewrite !Z.add_0_r, Hu, upd_eq by lia. split; [done|lia]. }
    destruct (Hc (i - 1)) as [Hc1 Hc2]; [lia|].
    rewrite Hsrc in Hc1 by lia. replace (i - 1 + 1) with i in Hc1 by lia.
    replace (s + 1 + (i - 1)) with (s + i) in * by lia. split.
    + intros Hj. apply Hc1. intros j Hj'. rewrite Hsrc by lia. apply Hj. lia.
    + intros j Hj Hj0. destruct (decide (j = 0)) as [->|]; [by rewrite Z.add_0_r in Hj0|].
      apply (Hc2 (j - 1)); [lia|]. rewrite Hsrc by lia. by replace (j - 1 + 1) with j by lia.
Qed.

Lemma safestrcpy_loop_spec n : forall m s t,
  0 <= s -> 0 <= t -> s + Z.of_nat n + 1 < 2 ^ 32 -> t + Z.of_nat n + 1 < 2 ^ 32 ->
  apart s t (Z.of_nat n + 1) ->
  exists k, str_at (safestrcpy_loop m s t n) s k /\ k <= Z.of_nat n /\
    (forall i, 0 <= i < k -> safestrcpy_loop m s t n (s + i) = m (t + i)) /\
    (k = Z.of_nat n \/ m (t + k) = 0) /\
    untouched m (safestrcpy_loop m s t n) s (s + Z.of_nat n + 1).
Proof.
  induction n as [|n IH]; intros m s t Hs Ht Hsn Htn Hap; cbn [safestrcpy_loop].
  { exists 0. rewrite Z.add_0_r. split; [|split; [lia|split; [lia|split; [by left|]]]].
    - split; [lia|]. rewrite Z.add_0_r. split; [apply upd_eq|lia].
    - intros a Ha. apply upd_ne. lia. }
  rewrite !u32_small by lia. unfold apart in Hap. case_if.
  - exists 0. split; [|split; [lia|split; [lia|split; [right; by rewrite Z.add_0_r|]]]].
    + split; [lia|]. rewrite Z.add_0_r, upd_ne, upd_eq by lia. split; [done|lia].
    + intros a Ha. rewrite !upd_ne by lia. done.
  - destruct (IH (upd m s (m t)) (s + 1) (t + 1)) as (k & Hst & Hk & Hc & Hend & Hu);
      [lia..|unfold apart; lia|].
    set (m' := safestrcpy_loop _ _ _ _) in *. clearbody m'.
    assert (m' s = m t) as Hm' by (rewrite Hu, upd_eq by lia; done).
    assert (forall j, 0 <= j <= Z.of_nat n -> upd m s (m t) (t + 1 + j) = m (t + (j + 1))) as Hsrc.
    { intros j Hj. rewrite upd_ne by lia. f_equal. lia. }
    destruct (id Hst) as (Hk0 & _). exists (k + 1).
    split; [apply str_at_cons; [congruence|done]|]. split; [lia|]. split; [|split].
    + intros i Hi. destruct (decide (i = 0)) as [->|]; [by rewrite !Z.add_0_r|].
      replace (s + i) with (s + 1 + (i - 1)) by lia. rewrite Hc, Hsrc by lia. f_equal. lia.
    + destruct Hend as [->|He]; [left; lia|]. right. by rewrite Hsrc in He by lia.
    + eapply untouched_upd; [|instantiate (1 := s); lia].
      by replace (s + Z.of_nat (S n) + 1) with (s + 1 + Z.of_nat n + 1) by lia.
Qed.

(** Safestrcpy always NUL-terminates within its [n] bytes: the result is
    the source string, truncated to [n-1] characters if it is longer. *)
Theorem safestrcpy_terminates m s t n :
  0 < n -> 0 <= s -> 0 <= t -> s + n < 2 ^ 32 -> t + n < 2 ^ 32 -> apart s t n ->
  let m' := fst (safestrcpy m s t n) in
  exists k, str_at m' s k /\ k < n /\
    (forall i, 0 <= i < k -> m' (s + i) = m (t + i)) /\
    (k = n - 1 \/ m (t + k) = 0) /\ untouched m m' s (s + n).
Proof.
  intros Hn Hs Ht Hsn Htn Hap. unfold safestrcpy. rewrite (proj2 (Z.leb_gt n 0)) by lia.
  cbn [fst]. destruct (safestrcpy_loop_spec (Z.to_nat (n - 1)) m s t) as (k & H1 & H2 & H3 & H4 & H5);
    [lia..|unfold apart in *; lia|].
  rewrite Z2Nat.id in * by lia. exists k. split; [done|]. split; [lia|]. split; [done|].
  split; [done|]. by replace (s + n) with (s + (n - 1) + 1) by lia.
Qed.

(** ** Instances *)

(** A memory holding at address 100 the string "abc" and zeros elsewhere. *)
Definition demo_mem : mem := upd (upd (upd (fun _ => 0) 100 97) 101 98) 102 99.

Lemma memmove_correct_witness :
  filled demo_mem (fst (memmove demo_mem 101 100 3)) 101 104 (fun a => demo_mem (100 + (a - 101))).
Proof. apply (memmove_correct demo_mem 101 100 3); lia. Defined.

Lemma memset_correct_witness :
  filled demo_mem (fst (memset demo_mem 101 7 9)) 101 110 (fun _ => 7).
Proof. apply (memset_correct demo_mem 101 7 9); lia. Defined.

Lemma div_correct_witness : div 4294967295 10 = 429496729 /\ div 7 0 = 4294967295.
Proof. split; [rewrite (div_correct 4294967295 10); [reflexivity|lia|lia]|rewrite (div_correct 7 0); [reflexivity|lia|lia]]. Defined.

Lemma strncmp_zero_witness : strncmp demo_mem 100 100 5 = 0.
Proof.
  apply (strncmp_zero demo_mem 5); [|lia..|by intros i].
  intros a. unfold demo_mem, upd, is_byte. repeat case_if; lia.
Defined.

Lemma strncpy_correct_witness :
  untouched demo_mem (fst (strncpy demo_mem 200 100 8)) 200 208.
Proof. apply (strncpy_correct 8 demo_mem 200 100); unfold apart; lia. Defined.

Lemma safestrcpy_terminates_witness :
  exists k, str_at (fst (safestrcpy demo_mem 200 100 3)) 200 k /\ k < 3.
Proof.
  destruct (safestrcpy_terminates demo_mem 200 100 3) as (k & H1 & H2 & _); [lia..|unfold apart; lia|].
  exists k. split; [exact H1|exact H2].
Defined.
