(* ===== verification/Buddy.v ===== *)
(** * buddy.c: the kernel's buddy memory allocator

    The allocator keeps, for each order 6..12, an array of marks (a 32-bit
    bitmap of free blocks and a pair of 16-bit links) and the head of a
    doubly-linked list of the marks that have a free block.  All marks live
    in one array that starts at [kstart]; order [o]'s marks start at index
    [offset]. *)

From S2P Require Import Prelude.

Definition MAX_ORD : Z := 12.

Definition MIN_ORD : Z := 6.

Definition N_ORD : Z := MAX_ORD - MIN_ORD + 1.

Record mark := Mark { lnks : Z; bitmap : Z }.

(** lnks packs the previous and the next index. *)
Definition PRE_LNK (l : Z) : Z := Z.shiftr l 16.

Definition NEXT_LNK (l : Z) : Z := Z.land l 65535.

Definition LNKS (pre next : Z) : Z := u32 (Z.lor (Z.shiftl pre 16) (Z.land next 65535)).

Definition NIL : Z := 65535.

Record order := Order { head : Z; offset : Z }.

Record kmem := Kmem {
  klock : bool;             (* kmem.lock.locked *)
  kstart : Z;
  kstart_heap : Z;
  kend : Z;
  korders : list order;     (* orders[N_ORD] *)
  kmarks : gmap Z mark      (* the marks stored at kstart *)
}.

Definition set_klock (b : bool) (k : kmem) : kmem :=
  Kmem b (kstart k) (kstart_heap k) (kend k) (korders k) (kmarks k).

Definition set_kmarks (ms : gmap Z mark) (k : kmem) : kmem :=
  Kmem (klock k) (kstart k) (kstart_heap k) (kend k) (korders k) ms.

Definition set_korders (os : list order) (k : kmem) : kmem :=
  Kmem (klock k) (kstart k) (kstart_heap k) (kend k) os (kmarks k).

Definition set_kheap (h : Z) (k : kmem) : kmem :=
  Kmem (klock k) (kstart k) h (kend k) (korders k) (kmarks k).

(** acquire/release of kmem.lock. *)
Definition lock_kmem : M kmem unit :=
  fun k => if klock k then Spin else Ok tt (set_klock true k).

Definition unlock_kmem : M kmem unit := modify (set_klock false).

(** &kmem.orders[order - MIN_ORD] *)
Definition get_ord (order : Z) : M kmem Buddy.order :=
  k <- get ;; from_opt (zget (korders k) (order - MIN_ORD)).

Definition set_head (order h : Z) : M kmem unit :=
  ord <- get_ord order ;;
  modify (fun k => set_korders (zset (korders k) (order - MIN_ORD) (Order h (offset ord))) k).

Definition get_mark (order idx : Z) : M kmem mark :=
  ord <- get_ord order ;;
  k <- get ;;
  from_opt (kmarks k !! (offset ord + idx)).

(** A store through the pointer returned by get_mark. *)
Definition put_mark (order idx : Z) (mk : mark) : M kmem unit :=
  ord <- get_ord order ;;
  modify (fun k => set_kmarks (<[offset ord + idx := mk]> (kmarks k)) k).

Definition blkid2mem (k : kmem) (order blkid : Z) : Z :=
  u32 (kstart_heap k + Z.shiftl 1 order * blkid).

Definition mem2blkid (k : kmem) (order mem : Z) : Z :=
  Z.shiftr (u32 (mem - kstart_heap k)) order.

Definition available (bitmap blk_id : Z) : Z :=
  Z.land bitmap (Z.shiftl 1 (Z.land blk_id 31)).

(** delete a mark from the list of its order *)
Definition unlink_mark (order blk_id h prev next : Z) : M kmem unit :=
  (if negb (prev =? NIL) then
     p <- get_mark order prev ;;
     put_mark order prev (Mark (LNKS (PRE_LNK (lnks p)) next) (bitmap p))
   else when (h =? blk_id) (set_head order next)) ;;;
  when (negb (next =? NIL))
    (p <- get_mark order next ;;
     put_mark order next (Mark (LNKS prev (NEXT_LNK (lnks p))) (bitmap p))) ;;;
  mk <- get_mark order blk_id ;;
  put_mark order blk_id (Mark (LNKS NIL NIL) (bitmap mk)).

(** mark a block as unavailable *)
Definition unmark_blk (order blk_id : Z) : M kmem unit :=
  ord <- get_ord order ;;
  mk <- get_mark order (Z.shiftr blk_id 5) ;;
  if available (bitmap mk) blk_id =? 0 then panic "double alloc" else
  let bm := Z.land (bitmap mk) (u32 (Z.lnot (Z.shiftl 1 (Z.land blk_id 31)))) in
  put_mark order (Z.shiftr blk_id 5) (Mark (lnks mk) bm) ;;;
  when (bm =? 0)
    (unlink_mark order (Z.shiftr blk_id 5) (head ord) (PRE_LNK (lnks mk)) (NEXT_LNK (lnks mk))).

(** insert a mark at the head of the list of its order *)
Definition push_mark (order blk_id h : Z) : M kmem unit :=
  mk <- get_mark order blk_id ;;
  put_mark order blk_id (Mark (LNKS NIL h) (bitmap mk)) ;;;
  when (negb (h =? NIL))
    (p <- get_mark order h ;;
     put_mark order h (Mark (LNKS blk_id (NEXT_LNK (lnks p))) (bitmap p))) ;;;
  set_head order blk_id.

(** mark a block as available *)
Definition mark_blk (order blk_id : Z) : M kmem unit :=
  ord <- get_ord order ;;
  mk <- get_mark order (Z.shiftr blk_id 5) ;;
  let insert := bitmap mk =? 0 in
  if negb (available (bitmap mk) blk_id =? 0) then panic "double free" else
  put_mark order (Z.shiftr blk_id 5)
    (Mark (lnks mk) (Z.lor (bitmap mk) (u32 (Z.shiftl 1 (Z.land blk_id 31))))) ;;;
  when insert (push_mark order (Z.shiftr blk_id 5) (head ord)).

(** get a block: the lowest free block of the first mark of the list *)
Definition get_blk (order : Z) : M kmem Z :=
  ord <- get_ord order ;;
  mk <- get_mark order (head ord) ;;
  if bitmap mk =? 0 then panic "empty mark in the list" else
  r <- find_ 0 32 (fun i => ret (if Z.land (bitmap mk) (Z.shiftl 1 i) =? 0 then None else Some i)) ;;
  match r with
  | Some i =>
      let blk_id := head ord * 32 + i in
      unmark_blk order blk_id ;;;
      k <- get ;; ret (blkid2mem k order blk_id)
  | None => ret 0
  end.

(** _kfree, merging upwards; [fuel] bounds the recursion on the order. *)
Fixpoint kfree_ (fuel : nat) (mem order : Z) : M kmem unit :=
  match fuel with
  | O => no_fuel
  | S f =>
      k <- get ;;
      let blk_id := mem2blkid k order mem in
      mk <- get_mark order (Z.shiftr blk_id 5) ;;
      if negb (available (bitmap mk) blk_id =? 0) then panic "kfree: double free" else
      let buddy_id := Z.lxor blk_id 1 in
      if (available (bitmap mk) buddy_id =? 0) || (order =? MAX_ORD)
      then mark_blk order blk_id
      else
        unmark_blk order buddy_id ;;;
        kfree_ f (blkid2mem k order (Z.land blk_id (Z.lnot 1))) (order + 1)
  end.

Definition _kfree (mem order : Z) : M kmem unit := kfree_ (Z.to_nat N_ORD) mem order.

(** _kmalloc: take a block of this order, or split one of the next order. *)
Fixpoint kmalloc_ (fuel : nat) (order : Z) : M kmem Z :=
  match fuel with
  | O => no_fuel
  | S f =>
      ord <- get_ord order ;;
      if negb (head ord =? NIL) then get_blk order
      else if order <? MAX_ORD then
        up <- kmalloc_ f (order + 1) ;;
        when (negb (up =? 0)) (_kfree (u32 (up + Z.shiftl 1 order)) order) ;;;
        ret up
      else ret 0
  end.

Definition _kmalloc (order : Z) : M kmem Z := kmalloc_ (Z.to_nat N_ORD) order.

(** allocate memory that has the size of (1 << order) *)
Definition kmalloc (order : Z) : M kmem Z :=
  if (MAX_ORD <? order) || (order <? MIN_ORD) then panic "kmalloc: order out of range" else
  lock_kmem ;;;
  up <- _kmalloc order ;;
  unlock_kmem ;;;
  ret up.

Definition kfree (mem order : Z) : M kmem unit :=
  if (MAX_ORD <? order) || (order <? MIN_ORD)
     || negb (Z.land mem (Z.shiftl 1 order - 1) =? 0)
  then panic "kfree: order out of range or memory unaligned" else
  lock_kmem ;;;
  _kfree mem order ;;;
  unlock_kmem.

Definition PTE_SHIFT : Z := 12.

Definition free_page (v : Z) : M kmem unit := kfree v PTE_SHIFT.

Definition alloc_page : M kmem Z := kmalloc PTE_SHIFT.

(** round up to a power of 2, then get the order *)
Definition get_order {S} (v : Z) : M S Z :=
  let v := u32 (v - 1) in
  let v := Z.lor v (Z.shiftr v 1) in
  let v := Z.lor v (Z.shiftr v 2) in
  let v := Z.lor v (Z.shiftr v 4) in
  let v := Z.lor v (Z.shiftr v 8) in
  let v := Z.lor v (Z.shiftr v 16) in
  let v := u32 (v + 1) in
  let ord := while_ 32 (fun ord => (ord <? 32) && (Z.land v (Z.shiftl 1 ord) =? 0)) (fun ord => ord + 1) 0 in
  if ord <? MIN_ORD then ret MIN_ORD
  else if MAX_ORD <? ord then panic "order too big!"
  else ret ord.

(** align_up of mmu.h *)
Definition align_up (sz al : Z) : Z := Z.land (u32 (sz + al - 1)) (u32 (Z.lnot (al - 1))).

Definition kmem_init : M kmem unit := modify (set_klock false).

(** kmem_init2: lay out the marks of all orders (the top order first, each
    lower order twice as many), all blocks unavailable, then free every
    page of the heap into the top order. *)
Fixpoint init_orders (k : nat) (i total n : Z) : M kmem Z :=
  match k with
  | O => ret total
  | S k' =>
      modify (fun k => set_korders (zset (korders k) i (Order NIL total)) k) ;;;
      for_ 0 (Z.to_nat n) (fun j => put_mark (i + MIN_ORD) j (Mark (LNKS NIL NIL) 0)) ;;;
      init_orders k' (i - 1) (u32 (total + n)) (u32 (Z.shiftl n 1))
  end.

Fixpoint free_pages (fuel : nat) (i : Z) : M kmem unit :=
  match fuel with
  | O => no_fuel
  | S f =>
      k <- get ;;
      when (i <? kend k) (kfree i MAX_ORD ;;; free_pages f (u32 (i + Z.shiftl 1 MAX_ORD)))
  end.

Definition kmem_init2 (vstart vend : Z) : M kmem unit :=
  modify (fun k => Kmem (klock k) vstart (kstart_heap k) vend (korders k) (kmarks k)) ;;;
  let len := u32 (vend - vstart) in
  let n := Z.shiftr len (MAX_ORD + 5) + 1 in
  total <- init_orders (Z.to_nat N_ORD) (N_ORD - 1) 0 n ;;
  modify (set_kheap (align_up (vstart + total * 8) (Z.shiftl 1 MAX_ORD))) ;;;
  free_pages (Z.to_nat (Z.shiftr len MAX_ORD) + 2) (align_up (vstart + total * 8) (Z.shiftl 1 MAX_ORD)).

(** The kmem of a freshly loaded kernel: the BSS is zeroed. *)
Definition kmem_bss : kmem := Kmem false 0 0 0 (replicate 7 (Order 0 0)) ∅.
