(* ===== verification/BuddyList.v ===== *)
(** * The buddy allocator's lists: bitmaps and links against a set of free blocks

    [free k o b] reads the bit of block [b] of order [o].  [wf n k] is the
    representation invariant: the marks of every order lie where the layout
    puts them and the doubly-linked list of each order threads exactly the
    marks that have a free block.  [unmark_blk] and [mark_blk] are shown to
    clear and set one bit of [free] and to keep [wf]. *)

From S2P Require Import Prelude Buddy.

(** ** Doubly-linked lists ended by NIL *)

Section Dll.
Variables nxt prv : Z -> Z.

(** [seg p l h]: following [nxt] from [h] visits exactly [l] and ends in
    NIL; each node points back to its predecessor, the first one to [p]. *)
Fixpoint seg (p : Z) (l : list Z) (h : Z) : Prop :=
  match l with
  | [] => h = NIL
  | x :: l' => h = x /\ x <> NIL /\ prv x = p /\ seg x l' (nxt x)
  end.

End Dll.

(** ** Layout and abstraction *)

Definition valid_ord (o : Z) : Prop := MIN_ORD <= o <= MAX_ORD.

(** Number of marks of order [o] when the top order has [n], and the index
    of the first one. *)
Definition cnt (n o : Z) : Z := n * 2 ^ (MAX_ORD - o).

Definition off (n o : Z) : Z := n * (2 ^ (MAX_ORD - o) - 1).

Definition valid_mark (n o i : Z) : Prop := valid_ord o /\ 0 <= i < cnt n o.

Definition valid_blk (n o b : Z) : Prop := valid_ord o /\ 0 <= b < 32 * cnt n o.

Definition hd_of (k : kmem) (o : Z) : Z :=
  match zget (korders k) (o - MIN_ORD) with Some od => head od | None => NIL end.

Definition mk_of (n : Z) (k : kmem) (o i : Z) : mark :=
  default (Mark 0 0) (kmarks k !! (off n o + i)).

Definition bm_of (n : Z) (k : kmem) (o i : Z) : Z := bitmap (mk_of n k o i).

Definition nxt_of (n : Z) (k : kmem) (o i : Z) : Z := NEXT_LNK (lnks (mk_of n k o i)).

Definition prv_of (n : Z) (k : kmem) (o i : Z) : Z := PRE_LNK (lnks (mk_of n k o i)).

(** Block [b] of order [o] is free. *)
Definition free (n : Z) (k : kmem) (o b : Z) : bool :=
  Z.testbit (bm_of n k o (b / 32)) (b mod 32).

(** The static part of the state: order table and extent of the marks.  The
    bound on [n] is what the 16-bit links can index: the lowest order has
    [64 * n] marks. *)
Record geom (n : Z) (k : kmem) : Prop := {
  geom_n : 0 < n /\ 64 * n <= NIL;
  geom_ords : zlen (korders k) = N_ORD;
  geom_off : forall o, valid_ord o -> exists h, zget (korders k) (o - MIN_ORD) = Some (Order h (off n o));
  geom_marks : forall o i, valid_mark n o i -> is_Some (kmarks k !! (off n o + i))
}.

Record order_ok (n : Z) (k : kmem) (o : Z) (l : list Z) : Prop := {
  ok_nodup : NoDup l;
  ok_in : forall i, i ∈ l <-> valid_mark n o i /\ bm_of n k o i <> 0;
  ok_seg : seg (nxt_of n k o) (prv_of n k o) NIL l (hd_of k o);
  ok_bm : forall i, valid_mark n o i -> 0 <= bm_of n k o i < 2 ^ 32
}.

Record wf (n : Z) (k : kmem) : Prop := {
  wf_geom : geom n k;
  wf_ord : forall o, valid_ord o -> exists l, order_ok n k o l
}.

(** What the list operations never touch. *)
Definition same_hdr (k k' : kmem) : Prop :=
  klock k' = klock k /\ kstart k' = kstart k /\ kstart_heap k' = kstart_heap k /\ kend k' = kend k.

(** Pure forms of the two stores. *)
Definition upd_mark (n : Z) (k : kmem) (o i : Z) (m : mark) : kmem :=
  set_kmarks (<[off n o + i := m]> (kmarks k)) k.

Definition upd_head (n : Z) (k : kmem) (o h : Z) : kmem :=
  set_korders (zset (korders k) (o - MIN_ORD) (Order h (off n o))) k.

(** ** List lemmas *)

Lemma seg_ext nxt prv nxt' prv' l : forall p h,
  (forall x, x ∈ l -> nxt' x = nxt x /\ prv' x = prv x) -> seg nxt prv p l h -> seg nxt' prv' p l h.
Proof.
  induction l as [|x l IH]; intros p h Hx; cbn; [done|].
  intros (-> & Hn & Hp & Hs). destruct (Hx x) as [Hnx Hpx]; [left|].
  split; [done|]. split; [done|]. split; [congruence|]. rewrite Hnx. apply IH; [|done].
  intros y Hy. apply Hx. by right.
Qed.

(** Relinking the first node of a list to a new predecessor. *)
Lemma seg_repoint nxt prv prv' l p q h :
  seg nxt prv p l h -> NoDup l ->
  (forall x, x ∈ l -> prv' x = if decide (x = h) then q else prv x) ->
  seg nxt prv' q l h.
Proof.
  destruct l as [|x l]; cbn; [done|]. intros (-> & Hn & Hp & Hs) Hd%NoDup_cons Hq.
  split; [done|]. split; [done|]. split.
  - rewrite Hq by left. by rewrite decide_True.
  - eapply seg_ext; [|done]. intros y Hy. split; [done|].
    rewrite Hq by (by right). rewrite decide_False; [done|]. intros ->. by destruct Hd.
Qed.

Lemma seg_head nxt prv p l h : seg nxt prv p l h -> h = default NIL (l !! 0%nat).
Proof. destruct l; [done|]. by intros [-> _]. Qed.

Lemma last_shift (l : list Z) : forall z p, List.last (z :: l) p = List.last l z.
Proof. induction l as [|a l IH]; intros z p; [done|]. transitivity (List.last (a :: l) p); [done|]. by rewrite !IH. Qed.

Lemma last_in (l : list Z) : forall z, l <> [] -> List.last l z ∈ l.
Proof.
  induction l as [|a l IH]; intros z Hl; [done|]. rewrite last_shift.
  destruct l as [|b l]; [left|]. right. by apply IH.
Qed.

Lemma seg_mid nxt prv l1 x l2 : forall p h,
  seg nxt prv p (l1 ++ x :: l2) h ->
  prv x = List.last l1 p /\ nxt x = default NIL (l2 !! 0%nat) /\ x <> NIL /\
  (l1 = [] -> h = x) /\ (forall y, y ∈ l1 ++ x :: l2 -> y <> NIL).
Proof.
  induction l1 as [|z l1 IH]; intros p h.
  - cbn [app]. intros Hs. assert (forall y, y ∈ x :: l2 -> y <> NIL) as Hnn.
    { clear -Hs. revert p h Hs. generalize (x :: l2) as l.
      induction l as [|a l IH]; intros p h Hs y Hy; [by apply not_elem_of_nil in Hy|].
      destruct Hs as (-> & Hn & _ & Hs). apply elem_of_cons in Hy as [->|Hy]; [done|]. by eapply IH. }
    destruct Hs as (-> & Hn & Hp & Hs). apply seg_head in Hs. naive_solver.
  - cbn [app]. intros (-> & Hn & Hp & Hs). apply IH in Hs as (H1 & H2 & H3 & H4 & H5).
    split; [|split; [done|split; [done|split; [done|]]]].
    + by rewrite H1, last_shift.
    + intros y [->|Hy]%elem_of_cons; [done|by apply H5].
Qed.

(** Unlinking a node: its predecessor (or the head) now points to its
    successor, and the successor back to the predecessor. *)
Lemma seg_remove nxt prv nxt' prv' l1 x l2 : forall p h,
  seg nxt prv p (l1 ++ x :: l2) h -> NoDup (l1 ++ x :: l2) -> p ∉ l1 ++ x :: l2 ->
  (forall y, y ∈ l1 ++ l2 ->
     nxt' y = (if decide (y = List.last l1 p) then nxt x else nxt y) /\
     prv' y = (if decide (y = nxt x) then List.last l1 p else prv y)) ->
  seg nxt' prv' p (l1 ++ l2) (if decide (l1 = []) then nxt x else h).
Proof.
  induction l1 as [|z l1 IH]; intros p h.
  - cbn [app List.last]. intros (-> & Hn & Hp & Hs) [Hx Hd]%NoDup_cons Hp' Hu.
    rewrite decide_True by done.
    eapply (seg_repoint _ prv); [eapply (seg_ext nxt prv)|done|].
    + intros y Hy. split; [|done]. destruct (Hu y Hy) as [-> _].
      rewrite decide_False; [done|]. intros ->. set_solver.
    + done.
    + intros y Hy. by destruct (Hu y Hy) as [_ ->].
  - cbn [app]. intros (-> & Hn & Hp & Hs) [Hz Hd]%NoDup_cons Hp' Hu.
    rewrite decide_False by done.
    apply seg_mid in Hs as Hm. destruct Hm as (Hpx & Hnx & Hxn & Hh & Hnn).
    pose proof (last_shift l1 z p) as Hl.
    assert (nxt x <> z) as Hxz.
    { rewrite Hnx. destruct l2 as [|y l2]; cbn; [done|]. set_solver. }
    destruct (Hu z) as [Hnz Hpz]; [left|]. rewrite decide_False in Hpz by done.
    split; [done|]. split; [done|]. split; [congruence|].
    specialize (IH z (nxt z) Hs Hd Hz). rewrite Hl in *.
    assert (nxt' z = if decide (l1 = []) then nxt x else nxt z) as ->.
    { rewrite Hnz. destruct l1 as [|a l1]; [by rewrite !decide_True|].
      rewrite (decide_False (P := a :: l1 = [])) by done. rewrite decide_False; [done|].
      intros E. apply Hz. rewrite E. apply elem_of_app. left. by apply last_in. }
    apply IH. intros y Hy. apply Hu. by right.
Qed.

(** Pushing a node in front. *)
Lemma seg_push nxt prv nxt' prv' l x h :
  seg nxt prv NIL l h -> NoDup l -> x ∉ l -> x <> NIL ->
  nxt' x = h -> prv' x = NIL ->
  (forall y, y ∈ l -> nxt' y = nxt y /\ prv' y = if decide (y = h) then x else prv y) ->
  seg nxt' prv' NIL (x :: l) x.
Proof.
  intros Hs Hd Hx Hn Hnx Hpx Hu. cbn. split; [done|]. split; [done|]. split; [done|].
  rewrite Hnx. eapply (seg_repoint _ prv); [eapply (seg_ext nxt prv)|done|].
  - intros y Hy. by destruct (Hu y Hy).
  - done.
  - intros y Hy. by destruct (Hu y Hy).
Qed.

(** ** Link packing *)

Lemma LNKS_val p q : 0 <= p <= 65535 -> 0 <= q <= 65535 -> LNKS p q = 2 ^ 16 * p + q.
Proof.
  intros Hp Hq. unfold LNKS. change 65535 with (2 ^ 16 - 1). rewrite land_ones_mod by lia.
  rewrite (Z.mod_small q) by lia. rewrite lor_shiftl_add by lia. apply u32_small. lia.
Qed.

Lemma PRE_LNKS p q : 0 <= p <= 65535 -> 0 <= q <= 65535 -> PRE_LNK (LNKS p q) = p.
Proof.
  intros Hp Hq. unfold PRE_LNK. rewrite LNKS_val, Z.shiftr_div_pow2 by lia.
  change (2 ^ 16) with 65536. Z.div_mod_to_equations. lia.
Qed.

Lemma NEXT_LNKS p q : 0 <= p <= 65535 -> 0 <= q <= 65535 -> NEXT_LNK (LNKS p q) = q.
Proof.
  intros Hp Hq. unfold NEXT_LNK. change 65535 with (2 ^ 16 - 1).
  rewrite LNKS_val, land_ones_mod by lia. change (2 ^ 16) with 65536. Z.div_mod_to_equations. lia.
Qed.

Lemma NEXT_LNK_range l : 0 <= NEXT_LNK l <= 65535.
Proof.
  unfold NEXT_LNK. change 65535 with (2 ^ 16 - 1). rewrite land_ones_mod by lia.
  pose proof (Z.mod_pos_bound l (2 ^ 16)). lia.
Qed.

(** ** Layout *)

Section Layout.
Context {n : Z}.

Lemma valid_ord_cases o : valid_ord o ->
  o = 6 \/ o = 7 \/ o = 8 \/ o = 9 \/ o = 10 \/ o = 11 \/ o = 12.
Proof. unfold valid_ord, MIN_ORD, MAX_ORD. lia. Qed.

Lemma valid_mark_small o i : 64 * n <= NIL -> valid_mark n o i -> 0 <= i < NIL.
Proof.
  intros Hn [Ho Hi]. unfold cnt, MAX_ORD in Hi.
  apply valid_ord_cases in Ho. destruct Ho as [->|[->|[->|[->|[->|[->| ->]]]]]]; cbn in Hi; lia.
Qed.

(** Marks of different orders never share a slot. *)
Lemma slot_inj o i o' i' : 0 < n ->
  valid_mark n o i -> valid_mark n o' i' -> off n o + i = off n o' + i' -> o = o' /\ i = i'.
Proof.
  intros Hn [Ho Hi] [Ho' Hi'] E. unfold off, cnt, MAX_ORD in *.
  apply valid_ord_cases in Ho. apply valid_ord_cases in Ho'.
  destruct Ho as [->|[->|[->|[->|[->|[->| ->]]]]]];
    destruct Ho' as [->|[->|[->|[->|[->|[->| ->]]]]]]; cbn in *; lia.
Qed.

Lemma valid_blk_mark o b : valid_blk n o b -> valid_mark n o (b / 32).
Proof. intros [Ho Hb]. split; [done|]. Z.div_mod_to_equations. lia. Qed.

End Layout.

Lemma shiftr5 b : Z.shiftr b 5 = b / 32.
Proof. by rewrite Z.shiftr_div_pow2. Qed.

Lemma land31 b : Z.land b 31 = b mod 32.
Proof. change 31 with (2 ^ 5 - 1). by rewrite land_ones_mod. Qed.

(** ** Stores *)

Section Stores.
Context {n : Z} {k : kmem} (Hg : geom n k).

Lemma get_ord_ok o : valid_ord o -> get_ord o k = Ok (Order (hd_of k o) (off n o)) k.
Proof.
  intros Ho. destruct (geom_off n k Hg o Ho) as [h Hh].
  unfold get_ord, bind, get, from_opt, hd_of. by rewrite Hh.
Qed.

Lemma get_mark_ok o i : valid_mark n o i -> get_mark o i k = Ok (mk_of n k o i) k.
Proof.
  intros Hv. unfold get_mark. rewrite (bind_ok _ _ _ _ _ (get_ord_ok o (proj1 Hv))).
  unfold bind, get, mk_of. cbn. destruct (geom_marks n k Hg o i Hv) as [m ->]. done.
Qed.

Lemma put_mark_ok o i m : valid_mark n o i -> put_mark o i m k = Ok tt (upd_mark n k o i m).
Proof.
  intros Hv. unfold put_mark. by rewrite (bind_ok _ _ _ _ _ (get_ord_ok o (proj1 Hv))).
Qed.

Lemma set_head_ok o h : valid_ord o -> set_head o h k = Ok tt (upd_head n k o h).
Proof. intros Ho. unfold set_head. by rewrite (bind_ok _ _ _ _ _ (get_ord_ok o Ho)). Qed.

Lemma geom_upd_mark o i m : geom n (upd_mark n k o i m).
Proof.
  destruct Hg as [H1 H2 H3 H4]. split; [done..|]. intros o' i' Hv. cbn.
  rewrite lookup_insert. case_decide; [done|]. by apply H4.
Qed.

Lemma geom_upd_head o h : valid_ord o -> geom n (upd_head n k o h).
Proof.
  intros Ho. destruct Hg as [H1 H2 H3 H4]. split; [done| | |done]; cbn.
  - by rewrite zlen_zset.
  - intros o' Ho'. destruct (decide (o' = o)) as [->|].
    + exists h. apply zget_zset_eq. rewrite H2. unfold valid_ord, N_ORD, MAX_ORD, MIN_ORD in *. lia.
    + rewrite zget_zset_ne by lia. by apply H3.
Qed.

Lemma mk_upd_mark o i m o' i' : valid_mark n o i -> valid_mark n o' i' ->
  mk_of n (upd_mark n k o i m) o' i' = if decide (o' = o /\ i' = i) then m else mk_of n k o' i'.
Proof.
  intros Hv Hv'. unfold mk_of. cbn. rewrite lookup_insert.
  destruct (geom_n n k Hg). case_decide as E.
  - apply slot_inj in E as [-> ->]; [|done..]. by rewrite decide_True.
  - rewrite decide_False; [done|]. intros [-> ->]. done.
Qed.

Lemma hd_upd_head o h o' : valid_ord o -> valid_ord o' ->
  hd_of (upd_head n k o h) o' = if decide (o' = o) then h else hd_of k o'.
Proof.
  intros Ho Ho'. unfold hd_of. cbn. case_decide as E.
  - subst. rewrite zget_zset_eq; [done|]. rewrite (geom_ords n k Hg).
    unfold valid_ord, N_ORD, MAX_ORD, MIN_ORD in *. lia.
  - by rewrite zget_zset_ne by lia.
Qed.

End Stores.

Lemma mk_upd_head n k o h o' i : mk_of n (upd_head n k o h) o' i = mk_of n k o' i.
Proof. done. Qed.

Lemma hd_upd_mark n k o i m o' : hd_of (upd_mark n k o i m) o' = hd_of k o'.
Proof. done. Qed.

(** Two states with the same marks and head for an order agree on it. *)
Lemma order_ok_ext n k k' o l :
  (forall i, valid_mark n o i -> mk_of n k' o i = mk_of n k o i) -> hd_of k' o = hd_of k o ->
  order_ok n k o l -> order_ok n k' o l.
Proof.
  intros Hm Hh [H1 H2 H3 H4].
  assert (forall i, valid_mark n o i -> bm_of n k' o i = bm_of n k o i) as Hb
    by (intros i Hi; unfold bm_of; by rewrite Hm).
  split; [done| | |].
  - intros i. rewrite H2. split; intros [Hi Hz]; (split; [done|]); [rewrite Hb by done|rewrite <- Hb by done]; done.
  - rewrite Hh. eapply seg_ext; [|done]. intros i [Hi _]%H2. unfold nxt_of, prv_of. by rewrite Hm.
  - intros i Hi. rewrite Hb by done. auto.
Qed.

Lemma order_ok_links n k o l i : 64 * n <= NIL -> order_ok n k o l ->
  (i ∈ l \/ i = NIL) -> 0 <= i <= 65535.
Proof.
  intros Hn Ho [Hi| ->]; [|done]. apply (ok_in _ _ _ _ Ho) in Hi as [Hi _].
  pose proof (valid_mark_small o i Hn Hi). unfold NIL in *. lia.
Qed.

(** ** Changing one order *)

(** [k'] differs from [k] only in the links, bitmaps and head of order [o]. *)
Record only_order (n o : Z) (k k' : kmem) : Prop := {
  oo_geom : geom n k';
  oo_hdr : same_hdr k k';
  oo_mk : forall o' i, valid_mark n o' i -> o' <> o -> mk_of n k' o' i = mk_of n k o' i;
  oo_hd : forall o', valid_ord o' -> o' <> o -> hd_of k' o' = hd_of k o'
}.

Lemma only_order_refl n o k : geom n k -> only_order n o k k.
Proof. by split. Qed.

Lemma only_order_trans n o k1 k2 k3 :
  only_order n o k1 k2 -> only_order n o k2 k3 -> only_order n o k1 k3.
Proof.
  intros [A1 A2 A3 A4] [B1 B2 B3 B4]. split; [done| | |].
  - unfold same_hdr in *. destruct_and!. split_and!; congruence.
  - intros o' i Hv Hne. by rewrite B3, A3.
  - intros o' Hv Hne. by rewrite B4, A4.
Qed.

Lemma only_order_upd_mark n o k i m :
  geom n k -> valid_mark n o i -> only_order n o k (upd_mark n k o i m).
Proof.
  intros Hg Hv. split; [by apply geom_upd_mark|done| |done].
  intros o' i' Hv' Hne. rewrite (mk_upd_mark Hg) by done. rewrite decide_False; [done|naive_solver].
Qed.

Lemma only_order_upd_head n o k h :
  geom n k -> valid_ord o -> only_order n o k (upd_head n k o h).
Proof.
  intros Hg Hv. split; [by apply geom_upd_head|done|done|].
  intros o' Hv' Hne. rewrite (hd_upd_head Hg) by done. by rewrite decide_False.
Qed.

Lemma wf_only_order n o k k' l :
  wf n k -> only_order n o k k' -> order_ok n k' o l -> wf n k'.
Proof.
  intros [Hg Hw] [H1 H2 H3 H4] Ho. split; [done|]. intros o' Ho'.
  destruct (decide (o' = o)) as [->|]; [by exists l|]. destruct (Hw o' Ho') as [l' Hl'].
  exists l'. eapply order_ok_ext; [| |done]; [|by apply H4]. intros i Hi. by apply H3.
Qed.

(** Setting the bit of one block. *)
Lemma free_update n o b k k' (v : bool) :
  only_order n o k k' -> valid_blk n o b ->
  (forall i, valid_mark n o i -> i <> b / 32 -> bm_of n k' o i = bm_of n k o i) ->
  (forall j, 0 <= j < 32 -> Z.testbit (bm_of n k' o (b / 32)) j =
     if decide (j = b mod 32) then v else Z.testbit (bm_of n k o (b / 32)) j) ->
  forall o' b', valid_blk n o' b' ->
    free n k' o' b' = if decide (o' = o /\ b' = b) then v else free n k o' b'.
Proof.
  intros Hoo Hv Hne Heq o' b' Hv'. unfold free. apply valid_blk_mark in Hv' as Hm.
  destruct (decide (o' = o)) as [->|].
  - destruct (decide (b' / 32 = b / 32)) as [E|].
    + rewrite E, Heq by (apply Z.mod_pos_bound; lia).
      pose proof (Z.div_mod b 32). pose proof (Z.div_mod b' 32).
      repeat case_decide; try done; exfalso; naive_solver lia.
    + rewrite Hne by done. rewrite decide_False; [done|]. intros [_ ->]. done.
  - unfold bm_of. rewrite (oo_mk _ _ _ _ Hoo) by done. rewrite decide_False; [done|naive_solver].
Qed.

(** ** unlink_mark *)

(** The effect of unlinking on the links, bitmaps and head of the order. *)
Lemma unlink_mark_ok n k o i h prev next :
  geom n k -> valid_mark n o i ->
  (prev = NIL /\ h = i \/ valid_mark n o prev /\ 0 <= prv_of n k o prev <= 65535) ->
  (next = NIL \/ valid_mark n o next) -> prev <> i -> next <> i ->
  (prev = next -> prev = NIL) -> hd_of k o = h ->
  wp (unlink_mark o i h prev next) (fun _ k' =>
    only_order n o k k' /\
    (forall y, valid_mark n o y -> bm_of n k' o y = bm_of n k o y) /\
    (forall y, valid_mark n o y -> y <> i ->
       nxt_of n k' o y = (if decide (y = prev) then next else nxt_of n k o y) /\
       prv_of n k' o y = (if decide (y = next) then prev else prv_of n k o y)) /\
    hd_of k' o = (if decide (prev = NIL) then next else h)) k.
Proof.
  intros Hg Hv Hprev Hnext Hpi Hni Hpn Hh. destruct (geom_n n k Hg) as [Hn0 Hn64].
  assert (forall x, valid_mark n o x -> x <> NIL /\ 0 <= x <= 65535) as Hsm.
  { intros x Hx. pose proof (valid_mark_small o x Hn64 Hx). unfold NIL in *. lia. }
  unfold unlink_mark. apply wp_bind.
  (* the predecessor, or the head *)
  apply (wp_mono _ (fun _ k1 => only_order n o k k1 /\
    (forall y, valid_mark n o y -> bm_of n k1 o y = bm_of n k o y /\
       nxt_of n k1 o y = (if decide (y = prev) then next else nxt_of n k o y) /\
       prv_of n k1 o y = prv_of n k o y) /\
    hd_of k1 o = (if decide (prev = NIL) then next else h))).
  { destruct Hprev as [[-> ->]|[Hp Hpr]].
    - rewrite Z.eqb_refl. cbn [negb]. rewrite Z.eqb_refl. cbn [when].
      eapply ok_wp; [apply (set_head_ok Hg), Hv|].
      split; [by apply only_order_upd_head, Hv|]. split.
      + intros y Hy. unfold bm_of, nxt_of, prv_of. rewrite mk_upd_head.
        split; [done|]. split; [|done]. destruct (Hsm y Hy). by rewrite decide_False.
      + rewrite (hd_upd_head Hg) by apply Hv. by rewrite decide_True.
    - destruct (Hsm prev Hp) as [Hpn' Hpr']. rewrite (proj2 (Z.eqb_neq prev NIL)) by done. cbn [negb].
      apply wp_bind. eapply ok_wp; [by apply (get_mark_ok Hg)|].
      eapply ok_wp; [by apply (put_mark_ok Hg)|].
      split; [by apply only_order_upd_mark|]. split; [|by rewrite decide_False].
      intros y Hy. unfold bm_of, nxt_of, prv_of. rewrite (mk_upd_mark Hg) by done.
      destruct (decide (y = prev)) as [->|].
      + rewrite decide_True by done. cbn [lnks bitmap].
        assert (0 <= next <= 65535) by (destruct Hnext as [->|Hx]; [done|by apply Hsm]).
        rewrite NEXT_LNKS, PRE_LNKS by done. done.
      + rewrite decide_False by naive_solver. done. }
  intros [] k1 (Ho1 & Hk1 & Hh1). apply wp_bind.
  pose proof (oo_geom _ _ _ _ Ho1) as Hg1.
  (* the successor *)
  apply (wp_mono _ (fun _ k2 => only_order n o k k2 /\
    (forall y, valid_mark n o y -> bm_of n k2 o y = bm_of n k o y /\
       nxt_of n k2 o y = (if decide (y = prev) then next else nxt_of n k o y) /\
       prv_of n k2 o y = (if decide (y = next) then prev else prv_of n k o y)) /\
    hd_of k2 o = (if decide (prev = NIL) then next else h))).
  { apply wp_when; intros Hc; zbool.
    - destruct Hnext as [->|Hx]; [done|].
      apply wp_bind. eapply ok_wp; [by apply (get_mark_ok Hg1)|].
      eapply ok_wp; [by apply (put_mark_ok Hg1)|].
      split; [by eapply only_order_trans, only_order_upd_mark|]. split; [|done].
      intros y Hy. unfold bm_of, nxt_of, prv_of in *. rewrite (mk_upd_mark Hg1) by done.
      destruct (Hk1 y Hy) as (Hb & Hnx & Hpx).
      assert (0 <= prev <= 65535) by (destruct Hprev as [[-> _]|[Hp _]]; [done|by apply Hsm]).
      destruct (decide (y = next)) as [->|].
      + rewrite decide_True by done. cbn [lnks bitmap].
        rewrite NEXT_LNKS, PRE_LNKS by (done || apply NEXT_LNK_range). done.
      + rewrite decide_False by naive_solver. done.
    - split; [done|]. split; [|done]. intros y Hy. destruct (Hk1 y Hy) as (Hb & Hnx & Hpx).
      destruct (Hsm y Hy). rewrite (decide_False (P := y = next)) by congruence. done. }
  intros [] k2 (Ho2 & Hk2 & Hh2). pose proof (oo_geom _ _ _ _ Ho2) as Hg2.
  apply wp_bind. eapply ok_wp; [by apply (get_mark_ok Hg2)|].
  eapply ok_wp; [by apply (put_mark_ok Hg2)|].
  split; [by eapply only_order_trans, only_order_upd_mark|]. split; [|split; [|exact Hh2]].
  - intros y Hy. unfold bm_of in *. rewrite (mk_upd_mark Hg2) by done.
    destruct (Hk2 y Hy) as (Hb & _). destruct (decide (o = o /\ y = i)) as [[_ ->]|]; done.
  - intros y Hy Hyi. destruct (Hk2 y Hy) as (_ & Hnx & Hpx).
    unfold nxt_of, prv_of in *. rewrite (mk_upd_mark Hg2) by done.
    rewrite !(decide_False (P := _ /\ _)) by naive_solver. done.
Qed.

(** ** Bits *)

Lemma clear_bit_spec bm j i : 0 <= j < 32 -> 0 <= i < 32 ->
  Z.testbit (Z.land bm (u32 (Z.lnot (Z.shiftl 1 j)))) i =
  if decide (i = j) then false else Z.testbit bm i.
Proof.
  intros Hj Hi. rewrite Z.land_spec. unfold u32. rewrite Z.mod_pow2_bits_low by lia.
  rewrite Z.lnot_spec, Z.shiftl_1_l, Z.pow2_bits_eqb by lia.
  destruct (Z.eqb_spec j i); case_decide; subst; try done; cbn; auto using andb_false_r, andb_true_r.
Qed.

Lemma set_bit_spec bm j i : 0 <= j < 32 -> 0 <= i < 32 ->
  Z.testbit (Z.lor bm (u32 (Z.shiftl 1 j))) i =
  if decide (i = j) then true else Z.testbit bm i.
Proof.
  intros Hj Hi. rewrite Z.lor_spec. unfold u32. rewrite Z.mod_pow2_bits_low by lia.
  rewrite Z.shiftl_1_l, Z.pow2_bits_eqb by lia.
  destruct (Z.eqb_spec j i); case_decide; subst; try done; cbn; auto using orb_false_r, orb_true_r.
Qed.

Lemma clear_bit_range bm j : 0 <= bm < 2 ^ 32 ->
  0 <= Z.land bm (u32 (Z.lnot (Z.shiftl 1 j))) < 2 ^ 32.
Proof.
  intros Hb. assert (0 <= Z.land bm (u32 (Z.lnot (Z.shiftl 1 j)))) by (apply Z.land_nonneg; lia).
  split; [done|]. rewrite <- (Z.mod_small bm (2 ^ 32)) by done. unfold u32.
  rewrite <- !Z.land_ones by lia.
  replace (Z.land (Z.land bm (Z.ones 32)) (Z.land (Z.lnot (Z.shiftl 1 j)) (Z.ones 32)))
    with (Z.land (Z.land bm (Z.lnot (Z.shiftl 1 j))) (Z.ones 32)).
  - rewrite Z.land_ones by lia. apply Z.mod_pos_bound. lia.
  - apply Z.bits_inj'. intros i Hi. rewrite !Z.land_spec. by destruct (Z.testbit bm i), (Z.testbit (Z.ones 32) i), (Z.testbit _ i).
Qed.

Lemma set_bit_range bm j : 0 <= bm < 2 ^ 32 ->
  0 <= Z.lor bm (u32 (Z.shiftl 1 j)) < 2 ^ 32.
Proof.
  intros Hb. pose proof (u32_range (Z.shiftl 1 j)) as Hu.
  rewrite <- (Z.mod_small bm (2 ^ 32)) by done. unfold u32 in *.
  rewrite <- !Z.land_ones, <- Z.land_lor_distr_l by lia. rewrite Z.land_ones by lia.
  apply Z.mod_pos_bound. lia.
Qed.

Lemma set_bit_nonzero bm j : 0 <= j < 32 -> Z.lor bm (u32 (Z.shiftl 1 j)) <> 0.
Proof.
  intros Hj E. pose proof (set_bit_spec bm j j Hj Hj) as Hb.
  rewrite E, Z.bits_0, decide_True in Hb by done. done.
Qed.

Lemma available_bit bm b : (available bm b =? 0) = negb (Z.testbit bm (b mod 32)).
Proof.
  unfold available. rewrite land31. apply land_bit_zero. apply Z.mod_pos_bound. lia.
Qed.

Lemma nonzero_bit bm : 0 <= bm < 2 ^ 32 -> bm <> 0 -> exists j, 0 <= j < 32 /\ Z.testbit bm j = true.
Proof.
  intros Hb Hn. exists (Z.log2 bm). split.
  - split; [apply Z.log2_nonneg|]. apply Z.log2_lt_pow2; lia.
  - apply Z.bit_log2. lia.
Qed.

(** ** unmark_blk and mark_blk *)

(** What taking or returning block [b] of order [o] does to the abstract state. *)
Definition sets_free (n : Z) (k k' : kmem) (o b : Z) (v : bool) : Prop :=
  wf n k' /\ same_hdr k k' /\
  forall o' b', valid_blk n o' b' ->
    free n k' o' b' = if decide (o' = o /\ b' = b) then v else free n k o' b'.

Lemma sets_free_intro n k k' o b v l bm' :
  wf n k -> only_order n o k k' -> valid_blk n o b ->
  (forall i, valid_mark n o i -> bm_of n k' o i = if decide (i = b / 32) then bm' else bm_of n k o i) ->
  (forall j, 0 <= j < 32 -> Z.testbit bm' j =
     if decide (j = b mod 32) then v else Z.testbit (bm_of n k o (b / 32)) j) ->
  order_ok n k' o l -> sets_free n k k' o b v.
Proof.
  intros Hw Hoo Hv Hbm Hbit Hl. split; [by eapply wf_only_order|]. split; [apply Hoo|].
  apply free_update; [done..| |].
  - intros i Hi Hne. rewrite Hbm by done. by rewrite decide_False.
  - intros j Hj. rewrite Hbm by (by apply valid_blk_mark). rewrite decide_True by done. auto.
Qed.

(** Clearing a bit that leaves the bitmap non-empty keeps the list. *)
Lemma order_ok_bitmap n k k' o l i bm' :
  geom n k -> valid_mark n o i -> order_ok n k o l ->
  k' = upd_mark n k o i (Mark (lnks (mk_of n k o i)) bm') ->
  bm_of n k o i <> 0 -> bm' <> 0 -> 0 <= bm' < 2 ^ 32 -> order_ok n k' o l.
Proof.
  intros Hg Hv [H1 H2 H3 H4] -> Hnz Hnz' Hr.
  assert (forall y, valid_mark n o y -> bm_of n (upd_mark n k o i (Mark (lnks (mk_of n k o i)) bm')) o y
            = if decide (y = i) then bm' else bm_of n k o y) as Hb.
  { intros y Hy. unfold bm_of. rewrite (mk_upd_mark Hg) by done. repeat case_decide; naive_solver. }
  split; [done| | |].
  - intros y. rewrite H2. split; intros [Hy Hz]; (split; [done|]); rewrite ?Hb in * by done;
      case_decide; subst; done.
  - eapply seg_ext; [|exact H3]. intros y [Hy _]%H2. unfold nxt_of, prv_of.
    rewrite (mk_upd_mark Hg) by done. case_decide as E; [|done]. by destruct E as [_ ->].
  - intros y Hy. rewrite Hb by done. case_decide; [done|]. by apply H4.
Qed.

Lemma elem_mid (y i : Z) l1 l2 : y ∈ l1 ++ i :: l2 <-> y = i \/ y ∈ l1 ++ l2.
Proof. rewrite !elem_of_app, elem_of_cons. tauto. Qed.

Lemma NoDup_mid (i : Z) l1 l2 : NoDup (l1 ++ i :: l2) -> NoDup (l1 ++ l2) /\ i ∉ l1 ++ l2.
Proof. rewrite <- Permutation_middle. intros [H1 H2]%NoDup_cons. done. Qed.

(** The neighbours of a listed mark, as its links give them. *)
Lemma order_mid n k o l1 i l2 :
  64 * n <= NIL -> order_ok n k o (l1 ++ i :: l2) ->
  let prev := prv_of n k o i in
  let next := nxt_of n k o i in
  prev = List.last l1 NIL /\
  (prev = NIL /\ hd_of k o = i /\ l1 = [] \/
   valid_mark n o prev /\ 0 <= prv_of n k o prev <= 65535 /\ l1 <> [] /\ prev <> NIL) /\
  (next = NIL \/ valid_mark n o next) /\ prev <> i /\ next <> i /\ (prev = next -> prev = NIL).
Proof.
  intros Hn Hl prev next. pose proof (ok_nodup _ _ _ _ Hl) as Hnd.
  destruct (seg_mid _ _ _ _ _ _ _ (ok_seg _ _ _ _ Hl)) as (Hp & Hx & Hin & Hh & Hnn).
  fold prev in Hp. fold next in Hx.
  apply NoDup_mid in Hnd as Hnd'. destruct Hnd' as [_ Hi].
  assert (forall y, y ∈ l1 ++ i :: l2 -> valid_mark n o y) as Hval
    by (intros y Hy; by apply (ok_in _ _ _ _ Hl) in Hy as []).
  assert (l1 <> [] -> prev ∈ l1) as Hpin by (rewrite Hp; apply last_in).
  assert (next = NIL \/ next ∈ l2) as Hxin by (rewrite Hx; destruct l2; [by left|right; left]).
  split; [done|]. split; [|split; [|split; [|split]]].
  - destruct (decide (l1 = [])) as [->|Hne]; [left; naive_solver|right].
    specialize (Hpin Hne). assert (prev ∈ l1 ++ i :: l2) as Hpl by (apply elem_of_app; by left).
    split; [by apply Hval|]. split; [|split; [done|by apply Hnn]].
    apply list_elem_of_split in Hpl as (a & c & E). pose proof (ok_seg _ _ _ _ Hl) as Hs.
    rewrite E in Hs. apply seg_mid in Hs as (-> & _).
    eapply order_ok_links; [done|done|]. destruct (decide (a = [])) as [->|Ha]; [by right|left].
    rewrite E. apply elem_of_app. left. by apply last_in.
  - destruct Hxin as [->|Hx2]; [by left|right]. apply Hval. rewrite elem_of_app, elem_of_cons. tauto.
  - destruct (decide (l1 = [])) as [->|Hne]; [rewrite Hp; by apply not_eq_sym|].
    intros E. apply Hi. rewrite <- E, elem_of_app. left. by apply Hpin.
  - intros E. destruct Hxin as [Hx0|Hx2]; [congruence|]. apply Hi. rewrite <- E, elem_of_app. by right.
  - intros E. destruct (decide (l1 = [])) as [->|Hne]; [done|]. specialize (Hpin Hne).
    destruct Hxin as [Hx0|Hx2]; [congruence|]. exfalso.
    apply NoDup_app in Hnd as (_ & Hd & _). apply (Hd prev Hpin). rewrite E. by right.
Qed.

(** The list without the unlinked mark. *)
Lemma order_ok_remove n k k' o l1 i l2 :
  64 * n <= NIL -> order_ok n k o (l1 ++ i :: l2) ->
  let prev := prv_of n k o i in
  let next := nxt_of n k o i in
  (forall y, valid_mark n o y -> bm_of n k' o y = if decide (y = i) then 0 else bm_of n k o y) ->
  (forall y, valid_mark n o y -> y <> i ->
     nxt_of n k' o y = (if decide (y = prev) then next else nxt_of n k o y) /\
     prv_of n k' o y = (if decide (y = next) then prev else prv_of n k o y)) ->
  hd_of k' o = (if decide (prev = NIL) then next else hd_of k o) ->
  order_ok n k' o (l1 ++ l2).
Proof.
  intros Hn Hl prev next Hb Hlk Hh.
  destruct (order_mid _ _ _ _ _ _ Hn Hl) as (Hp & Hpc & _). fold prev in Hp, Hpc.
  destruct (NoDup_mid _ _ _ (ok_nodup _ _ _ _ Hl)) as [Hnd Hi]. split; [done| | |].
  - intros y. pose proof (elem_mid y i l1 l2) as Hm. pose proof (ok_in _ _ _ _ Hl y) as Hy.
    split.
    + intros Hin. destruct (proj1 Hy (proj2 Hm (or_intror Hin))) as [Hv Hbz].
      split; [done|]. rewrite Hb by done. rewrite decide_False; [done|]. by intros ->.
    + intros [Hv Hbz]. rewrite Hb in Hbz by done. case_decide; [done|].
      destruct (proj1 Hm (proj2 Hy (conj Hv Hbz))); [done|done].
  - replace (hd_of k' o) with (if decide (l1 = []) then next else hd_of k o).
    + eapply (seg_remove (nxt_of n k o) (prv_of n k o)); [apply Hl|apply Hl| |].
      * intros E. destruct (seg_mid _ _ _ _ _ _ _ (ok_seg _ _ _ _ Hl)) as (_ & _ & _ & _ & Hnn). by apply Hnn in E.
      * intros y Hy. rewrite <- Hp. apply Hlk; [|by intros ->].
        destruct (proj1 (ok_in _ _ _ _ Hl y)); [|done]. apply elem_mid. by right.
    + rewrite Hh. destruct Hpc as [(-> & _ & ->)|(_ & _ & Hne & Hne')];
        [by rewrite !decide_True|by rewrite !decide_False].
  - intros y Hy. rewrite Hb by done. destruct (decide (y = i)); [lia|]. by apply Hl.
Qed.

(** Storing a bitmap changes neither links nor heads. *)
Lemma put_bitmap n k o i bm' :
  geom n k -> valid_mark n o i ->
  let k' := upd_mark n k o i (Mark (lnks (mk_of n k o i)) bm') in
  forall y, valid_mark n o y ->
    bm_of n k' o y = (if decide (y = i) then bm' else bm_of n k o y) /\
    prv_of n k' o y = prv_of n k o y /\ nxt_of n k' o y = nxt_of n k o y.
Proof.
  intros Hg Hv k' y Hy. unfold bm_of, prv_of, nxt_of, k'. rewrite (mk_upd_mark Hg) by done.
  destruct (decide (y = i)) as [->|]; [by rewrite decide_True|].
  rewrite decide_False; [done|]. by intros [_ ?].
Qed.

Lemma unmark_blk_ok n k o b :
  wf n k -> valid_blk n o b -> free n k o b = true ->
  wp (unmark_blk o b) (fun _ k' => sets_free n k k' o b false) k.
Proof.
  intros Hw Hv Hf. pose proof (wf_geom _ _ Hw) as Hg. pose proof (valid_blk_mark _ _ Hv) as Hm.
  destruct (wf_ord _ _ Hw o (proj1 Hv)) as [l Hl]. destruct (geom_n _ _ Hg) as [_ Hn64].
  unfold unmark_blk. apply wp_bind. eapply ok_wp; [apply (get_ord_ok Hg), Hv|]. cbn [head].
  rewrite shiftr5. apply wp_bind. eapply ok_wp; [by apply (get_mark_ok Hg)|]. fold (bm_of n k o (b / 32)).
  rewrite available_bit. unfold free in Hf. rewrite Hf. cbn [negb].
  rewrite land31. pose proof (Z.mod_pos_bound b 32 ltac:(lia)) as Hj.
  set (i := b / 32) in *. set (bm' := Z.land _ _).
  assert (bm_of n k o i <> 0) as Hbz by (intros E; by rewrite E, Z.bits_0 in Hf).
  assert (forall j, 0 <= j < 32 -> Z.testbit bm' j = if decide (j = b mod 32) then false else Z.testbit (bm_of n k o i) j)
    as Hbits by (intros; by apply clear_bit_spec).
  apply wp_bind. eapply ok_wp; [by apply (put_mark_ok Hg)|].
  pose proof (put_bitmap n k o i bm' Hg Hm) as Hb1. cbn zeta in Hb1. set (k1 := upd_mark n k o i _) in *.
  assert (only_order n o k k1) as Ho1 by by apply only_order_upd_mark.
  apply wp_when; intros Hc; zbool; cycle 1.
  { eapply (sets_free_intro _ _ _ _ _ _ l bm'); [done..| |done|].
    - intros y Hy. apply Hb1, Hy.
    - eapply order_ok_bitmap; [done..|]. apply clear_bit_range, Hl, Hm. }
  assert (i ∈ l) as Hil by (by apply (ok_in _ _ _ _ Hl)).
  apply list_elem_of_split in Hil as (l1 & l2 & ->).
  destruct (order_mid _ _ _ _ _ _ Hn64 Hl) as (Hp & Hpc & Hxc & Hpi & Hxi & Hpx).
  change (PRE_LNK (lnks (mk_of n k o i))) with (prv_of n k o i).
  change (NEXT_LNK (lnks (mk_of n k o i))) with (nxt_of n k o i).
  eapply wp_mono; [eapply (unlink_mark_ok n k1)|]; try done.
  - apply Ho1.
  - destruct Hpc as [(H1 & H2 & _)|(H1 & H2 & _)]; [by left|right]. split; [done|].
    destruct (Hb1 _ H1) as (_ & -> & _). done.
  - intros [] k' (Ho' & Hb' & Hlk' & Hh').
    assert (forall y, valid_mark n o y -> bm_of n k' o y = if decide (y = i) then bm' else bm_of n k o y) as Hbk'
      by (intros y Hy; rewrite Hb' by done; by apply Hb1).
    eapply (sets_free_intro _ _ _ _ _ _ (l1 ++ l2) bm'); [done|by eapply only_order_trans|done..|].
    eapply order_ok_remove; [done..| | |done].
    + intros y Hy. rewrite Hbk' by done. by rewrite Hc.
    + intros y Hy Hyi. destruct (Hlk' y Hy Hyi) as [-> ->]. destruct (Hb1 y Hy) as (_ & -> & ->). done.
Qed.

(** ** mark_blk *)

Lemma push_mark_ok n k o i h :
  geom n k -> valid_mark n o i -> (h = NIL \/ valid_mark n o h) -> h <> i ->
  wp (push_mark o i h) (fun _ k' =>
    only_order n o k k' /\ hd_of k' o = i /\
    (forall y, valid_mark n o y -> bm_of n k' o y = bm_of n k o y /\
       nxt_of n k' o y = (if decide (y = i) then h else nxt_of n k o y) /\
       prv_of n k' o y = (if decide (y = i) then NIL else if decide (y = h) then i else prv_of n k o y))) k.
Proof.
  intros Hg Hv Hh Hhi. destruct (geom_n n k Hg) as [_ Hn64].
  assert (forall x, valid_mark n o x -> x <> NIL /\ 0 <= x <= 65535) as Hsm.
  { intros x Hx. pose proof (valid_mark_small o x Hn64 Hx). unfold NIL in *. lia. }
  assert (0 <= h <= 65535) as Hhr by (destruct Hh as [->|Hx]; [done|by apply Hsm]).
  unfold push_mark. apply wp_bind. eapply ok_wp; [by apply (get_mark_ok Hg)|].
  apply wp_bind. eapply ok_wp; [by apply (put_mark_ok Hg)|].
  set (k1 := upd_mark _ _ _ _ _).
  assert (only_order n o k k1) as Ho1 by by apply only_order_upd_mark.
  pose proof (oo_geom _ _ _ _ Ho1) as Hg1.
  assert (forall y, valid_mark n o y -> bm_of n k1 o y = bm_of n k o y /\
    nxt_of n k1 o y = (if decide (y = i) then h else nxt_of n k o y) /\
    prv_of n k1 o y = (if decide (y = i) then NIL else prv_of n k o y)) as Hk1.
  { intros y Hy. unfold bm_of, nxt_of, prv_of, k1. rewrite (mk_upd_mark Hg) by done.
    destruct (decide (y = i)) as [->|].
    - rewrite decide_True by done. cbn [lnks bitmap]. by rewrite NEXT_LNKS, PRE_LNKS by done.
    - rewrite decide_False; [done|]. by intros [_ ?]. }
  apply wp_bind. apply (wp_mono _ (fun _ k2 => only_order n o k k2 /\
    (forall y, valid_mark n o y -> bm_of n k2 o y = bm_of n k o y /\
       nxt_of n k2 o y = (if decide (y = i) then h else nxt_of n k o y) /\
       prv_of n k2 o y = (if decide (y = i) then NIL else if decide (y = h) then i else prv_of n k o y)))).
  - apply wp_when; intros Hc; zbool.
    + destruct Hh as [->|Hx]; [done|]. apply wp_bind. eapply ok_wp; [by apply (get_mark_ok Hg1)|].
      eapply ok_wp; [by apply (put_mark_ok Hg1)|].
      split; [by eapply only_order_trans, only_order_upd_mark|]. intros y Hy.
      destruct (Hk1 y Hy) as (Hb & Hnx & Hpx).
      unfold bm_of, nxt_of, prv_of in *. rewrite (mk_upd_mark Hg1) by done.
      destruct (decide (y = h)) as [->|].
      * rewrite decide_True by done. rewrite !(decide_False (P := h = i)) in * by done. cbn [lnks bitmap].
        rewrite NEXT_LNKS, PRE_LNKS by (apply NEXT_LNK_range || by apply Hsm). done.
      * rewrite (decide_False (P := _ /\ _)); [done|]. by intros [_ ?].
    + split; [done|]. intros y Hy. destruct (Hk1 y Hy) as (Hb & Hnx & Hpx).
      destruct (Hsm y Hy). rewrite (decide_False (P := y = h)) by congruence. done.
  - intros [] k2 (Ho2 & Hk2). pose proof (oo_geom _ _ _ _ Ho2) as Hg2.
    eapply ok_wp; [apply (set_head_ok Hg2), Hv|].
    split; [by eapply only_order_trans, only_order_upd_head, Hv|]. split; [|done].
    rewrite (hd_upd_head Hg2) by apply Hv. by rewrite decide_True.
Qed.

Lemma order_ok_push n k k' o l i bm' :
  64 * n <= NIL -> order_ok n k o l -> valid_mark n o i -> bm_of n k o i = 0 -> bm' <> 0 -> 0 <= bm' < 2 ^ 32 ->
  hd_of k' o = i ->
  (forall y, valid_mark n o y -> bm_of n k' o y = (if decide (y = i) then bm' else bm_of n k o y) /\
     nxt_of n k' o y = (if decide (y = i) then hd_of k o else nxt_of n k o y) /\
     prv_of n k' o y = (if decide (y = i) then NIL else if decide (y = hd_of k o) then i else prv_of n k o y)) ->
  order_ok n k' o (i :: l).
Proof.
  intros Hn Hl Hv Hz Hnz Hr Hh Hk.
  assert (i ∉ l) as Hil by (intros E; by apply (ok_in _ _ _ _ Hl) in E as []).
  split.
  - apply NoDup_cons. split; [done|apply Hl].
  - intros y. rewrite elem_of_cons, (ok_in _ _ _ _ Hl). split.
    + intros [->|[Hy Hb]].
      * split; [done|]. destruct (Hk i Hv) as [-> _]. by rewrite decide_True.
      * split; [done|]. destruct (Hk y Hy) as [-> _]. by destruct (decide (y = i)).
    + intros [Hy Hb]. destruct (Hk y Hy) as [E _]. rewrite E in Hb.
      destruct (decide (y = i)); [by left|by right].
  - rewrite Hh. destruct (Hk i Hv) as (_ & Hn1 & Hp1). rewrite decide_True in Hn1, Hp1 by done.
    eapply seg_push; [apply Hl|apply Hl|done| |done|done|].
    + pose proof (valid_mark_small o i Hn Hv). unfold NIL in *. lia.
    + intros y Hy. assert (y <> i) by (by intros ->).
      apply (ok_in _ _ _ _ Hl) in Hy as [Hy _]. destruct (Hk y Hy) as (_ & -> & ->).
      by rewrite !(decide_False (P := y = i)).
  - intros y Hy. destruct (Hk y Hy) as [-> _]. destruct (decide (y = i)); [done|]. by apply Hl.
Qed.

(** The head of a non-empty list is a mark of the order. *)
Lemma order_ok_head n k o l : order_ok n k o l ->
  l = [] /\ hd_of k o = NIL \/ hd_of k o ∈ l /\ hd_of k o <> NIL.
Proof.
  intros Hl. pose proof (ok_seg _ _ _ _ Hl) as Hs. destruct l as [|x l]; [by left|right].
  destruct Hs as (-> & Hx & _). split; [left|done].
Qed.

Lemma mark_blk_ok n k o b :
  wf n k -> valid_blk n o b -> free n k o b = false ->
  wp (mark_blk o b) (fun _ k' => sets_free n k k' o b true) k.
Proof.
  intros Hw Hv Hf. pose proof (wf_geom _ _ Hw) as Hg. pose proof (valid_blk_mark _ _ Hv) as Hm.
  destruct (wf_ord _ _ Hw o (proj1 Hv)) as [l Hl]. destruct (geom_n _ _ Hg) as [_ Hn64].
  unfold mark_blk. apply wp_bind. eapply ok_wp; [apply (get_ord_ok Hg), Hv|]. cbn [head].
  rewrite shiftr5. apply wp_bind. eapply ok_wp; [by apply (get_mark_ok Hg)|]. fold (bm_of n k o (b / 32)).
  rewrite available_bit. unfold free in Hf. rewrite Hf. cbn [negb].
  rewrite land31. pose proof (Z.mod_pos_bound b 32 ltac:(lia)) as Hj.
  set (i := b / 32) in *. set (bm' := Z.lor _ _).
  assert (bm' <> 0) as Hbz by by apply set_bit_nonzero.
  assert (0 <= bm' < 2 ^ 32) as Hbr by (by apply set_bit_range, Hl).
  assert (forall j, 0 <= j < 32 -> Z.testbit bm' j = if decide (j = b mod 32) then true else Z.testbit (bm_of n k o i) j)
    as Hbits by (intros; by apply set_bit_spec).
  apply wp_bind. eapply ok_wp; [by apply (put_mark_ok Hg)|].
  pose proof (put_bitmap n k o i bm' Hg Hm) as Hb1. cbn zeta in Hb1. set (k1 := upd_mark n k o i _) in *.
  assert (only_order n o k k1) as Ho1 by by apply only_order_upd_mark.
  apply wp_when; intros Hc; zbool; cycle 1.
  { eapply (sets_free_intro _ _ _ _ _ _ l bm'); [done|done|done| |exact Hbits|].
    - intros y Hy. apply Hb1, Hy.
    - by eapply order_ok_bitmap. }
  assert (hd_of k o = NIL \/ valid_mark n o (hd_of k o)) as Hhv.
  { destruct (order_ok_head _ _ _ _ Hl) as [[_ ->]|[Hin _]]; [by left|right].
    by apply (ok_in _ _ _ _ Hl) in Hin as []. }
  assert (hd_of k o <> i) as Hhi.
  { intros E. destruct (order_ok_head _ _ _ _ Hl) as [[_ E2]|[Hin _]].
    - pose proof (valid_mark_small o i Hn64 Hm). unfold NIL in *. lia.
    - rewrite E in Hin. by apply (ok_in _ _ _ _ Hl) in Hin as []. }
  eapply wp_mono; [eapply (push_mark_ok n k1); [apply Ho1|done..]|].
  intros [] k' (Ho' & Hh' & Hk').
  assert (forall y, valid_mark n o y -> bm_of n k' o y = (if decide (y = i) then bm' else bm_of n k o y)) as Hbk'.
  { intros y Hy. destruct (Hk' y Hy) as [-> _]. by apply Hb1. }
  eapply (sets_free_intro _ _ _ _ _ _ (i :: l) bm'); [done|by eapply only_order_trans|done|done|exact Hbits|].
  eapply order_ok_push; [done..|]. intros y Hy. split; [by apply Hbk'|].
  destruct (Hk' y Hy) as (_ & -> & ->). destruct (Hb1 y Hy) as (_ & -> & ->). done.
Qed.
