(* ===== verification/BuddyAlloc.v ===== *)
(** * The buddy allocator refines a set of free bytes

    [free_at n k x]: byte [x] of the heap lies in a free block.  The invariant
    [inv] adds to the representation invariant that free blocks are disjoint
    and that no two free buddies are left unmerged.  [kmalloc] takes an aligned
    block of free bytes out of the set (or fails, when no large enough block is
    free), [kfree] puts one back. *)

From S2P Require Import Prelude Buddy BuddyList.

(** Size of the heap in bytes that [n] top-order marks can describe. *)
Definition heap_size (n : Z) : Z := n * 2 ^ 17.

(** Byte [x] (an offset from [kstart_heap]) is in the free block of order [o]
    that would contain it. *)
Definition free_in (n : Z) (k : kmem) (o x : Z) : Prop :=
  valid_ord o /\ free n k o (x / 2 ^ o) = true.

Definition free_at (n : Z) (k : kmem) (x : Z) : Prop := exists o, free_in n k o x.

Record inv (n : Z) (k : kmem) : Prop := {
  inv_wf : wf n k;
  inv_heap : 0 < kstart_heap k /\ kstart_heap k mod 2 ^ MAX_ORD = 0 /\ kstart_heap k + heap_size n <= 2 ^ 32;
  inv_disj : forall x o o', 0 <= x < heap_size n -> free_in n k o x -> free_in n k o' x -> o = o';
  inv_coal : forall o b, valid_ord o -> o < MAX_ORD -> valid_blk n o b ->
    free n k o b = true -> free n k o (Z.lxor b 1) = true -> False
}.

(** The bytes of block [b] of order [o]. *)
Definition in_blk (o b x : Z) : Prop := x / 2 ^ o = b.

#[export] Instance in_blk_dec o b x : Decision (in_blk o b x).
Proof. unfold in_blk. apply _. Defined.

Definition addr_of (k : kmem) (o b : Z) : Z := kstart_heap k + 2 ^ o * b.

(** ** Geometry *)

Lemma pow_ord o : valid_ord o -> 64 <= 2 ^ o <= 4096 /\ heap_size 1 = 2 ^ o * (32 * 2 ^ (MAX_ORD - o)).
Proof.
  intros Ho. unfold heap_size, MAX_ORD.
  apply valid_ord_cases in Ho. destruct Ho as [->|[->|[->|[->|[->|[->| ->]]]]]];
    (split; [lia|vm_compute; reflexivity]).
Qed.

Lemma heap_size_blocks n o : valid_ord o -> heap_size n = 2 ^ o * (32 * cnt n o).
Proof. intros Ho. destruct (pow_ord o Ho) as [_ H]. unfold heap_size, cnt in *. rewrite Z.mul_1_l in H. rewrite H. ring. Qed.

Lemma blk_of_byte n o x : valid_ord o -> 0 <= x < heap_size n -> valid_blk n o (x / 2 ^ o).
Proof.
  intros Ho Hx. split; [done|]. destruct (pow_ord o Ho) as [Hp _].
  rewrite (heap_size_blocks n o Ho) in Hx. split; [apply Z.div_pos; lia|].
  apply Z.div_lt_upper_bound; lia.
Qed.

Lemma blk_range o b x : valid_ord o -> in_blk o b x <-> 2 ^ o * b <= x < 2 ^ o * b + 2 ^ o.
Proof.
  intros Ho. destruct (pow_ord o Ho) as [Hp _]. unfold in_blk. split.
  - intros <-. pose proof (Z.div_mod x (2 ^ o)). pose proof (Z.mod_pos_bound x (2 ^ o)). lia.
  - intros Hx. symmetry. apply (Z.div_unique_pos _ _ _ (x - 2 ^ o * b)); lia.
Qed.

Lemma blk_in_heap n o b x : valid_blk n o b -> in_blk o b x -> 0 <= x < heap_size n.
Proof.
  intros [Ho Hb] Hx. apply blk_range in Hx; [|done]. destruct (pow_ord o Ho) as [Hp _].
  rewrite (heap_size_blocks n o Ho). nia.
Qed.

Lemma valid_ord_succ o : valid_ord o -> o < MAX_ORD -> valid_ord (o + 1).
Proof. unfold valid_ord, MAX_ORD. lia. Qed.

Lemma pow_succ o : valid_ord o -> 2 ^ (o + 1) = 2 * 2 ^ o.
Proof. intros [Ho _]. unfold MIN_ORD in Ho. rewrite Z.pow_add_r by lia. lia. Qed.

Lemma parent_blk n o b : valid_blk n o b -> o < MAX_ORD -> valid_blk n (o + 1) (b / 2).
Proof.
  intros [Ho Hb] Hlt. pose proof (valid_ord_succ o Ho Hlt). split; [done|].
  pose proof (heap_size_blocks n o Ho) as H1. pose proof (heap_size_blocks n (o + 1) H) as H2.
  rewrite (pow_succ o Ho) in H2. destruct (pow_ord o Ho) as [Hp _].
  assert (32 * cnt n o = 2 * (32 * cnt n (o + 1))) by nia. Z.div_mod_to_equations. lia.
Qed.

Lemma child_blk n o b : valid_ord o -> valid_blk n (o + 1) b -> valid_blk n o (2 * b) /\ valid_blk n o (2 * b + 1).
Proof.
  intros Ho [Ho' Hb].
  pose proof (heap_size_blocks n o Ho) as H1. pose proof (heap_size_blocks n (o + 1) Ho') as H2.
  rewrite (pow_succ o Ho) in H2. destruct (pow_ord o Ho) as [Hp _].
  assert (32 * cnt n o = 2 * (32 * cnt n (o + 1))) by nia. split; (split; [done|lia]).
Qed.

Lemma lxor1 b : 0 <= b -> Z.lxor b 1 = if b mod 2 =? 0 then b + 1 else b - 1.
Proof.
  intros Hb. pose proof (Z.div_mod b 2 ltac:(lia)) as Hd. pose proof (Z.mod_pos_bound b 2 ltac:(lia)) as Hm.
  assert (forall q, Z.lxor (2 * q) 1 = 2 * q + 1) as He.
  { intros q. rewrite <- Z.add_nocarry_lxor; [done|]. apply Z.bits_inj'. intros i Hi.
    rewrite Z.land_spec, Z.bits_0. destruct (decide (i = 0)) as [->|].
    - by rewrite Z.testbit_even_0.
    - rewrite (testbit_high 1 1 i) by lia. apply andb_false_r. }
  case_if.
  - rewrite Heqb0 in Hd. rewrite Hd at 1. rewrite Z.add_0_r, He. lia.
  - assert (b mod 2 = 1) as E by lia. rewrite E in Hd. rewrite Hd at 1.
    rewrite <- He, Z.lxor_assoc, Z.lxor_nilpotent, Z.lxor_0_r. lia.
Qed.

Lemma land_lnot1 b : 0 <= b -> Z.land b (Z.lnot 1) = 2 * (b / 2).
Proof.
  intros Hb. rewrite <- Z.ldiff_land. change 1 with (Z.ones 1).
  rewrite Z.ldiff_ones_r by lia. rewrite Z.shiftl_mul_pow2, Z.shiftr_div_pow2 by lia.
  change (2 ^ 1) with 2. lia.
Qed.

(** A block and its buddy make up the parent block. *)
Lemma buddy_spec n o b : valid_blk n o b -> o < MAX_ORD ->
  valid_blk n o (Z.lxor b 1) /\ Z.lxor b 1 <> b /\ Z.lxor (Z.lxor b 1) 1 = b /\
  forall x, in_blk (o + 1) (b / 2) x <-> in_blk o b x \/ in_blk o (Z.lxor b 1) x.
Proof.
  intros Hv Hlt. destruct (parent_blk n o b Hv Hlt) as [Ho' Hpb]. destruct (id Hv) as [Ho Hb].
  pose proof (child_blk n o (b / 2) Ho (parent_blk n o b Hv Hlt)) as [[_ Hc1] [_ Hc2]].
  pose proof (Z.div_mod b 2 ltac:(lia)) as Hd. pose proof (Z.mod_pos_bound b 2 ltac:(lia)) as Hm.
  assert (Z.lxor (Z.lxor b 1) 1 = b) as Hx by (by rewrite Z.lxor_assoc, Z.lxor_nilpotent, Z.lxor_0_r).
  split; [split; [done|]|split; [|split; [done|]]]; rewrite lxor1 by lia; [case_if; lia|case_if; lia|].
  intros x. rewrite !blk_range by done. rewrite (pow_succ o Ho).
  pose proof (pow_ord o Ho) as [Hp _]. case_if; nia.
Qed.

(** Translation between addresses and block numbers. *)
Lemma shiftl1 o : valid_ord o -> Z.shiftl 1 o = 2 ^ o.
Proof. intros [Ho _]. unfold MIN_ORD in Ho. apply Z.shiftl_1_l. Qed.

Lemma blkid2mem_ok n k o b : inv n k -> valid_blk n o b -> blkid2mem k o b = addr_of k o b.
Proof.
  intros Hi [Ho Hb]. destruct (inv_heap n k Hi) as (H1 & H2 & H3).
  unfold blkid2mem, addr_of. rewrite shiftl1 by done. apply u32_small.
  rewrite (heap_size_blocks n o Ho) in H3. destruct (pow_ord o Ho) as [Hp _]. nia.
Qed.

Lemma mem2blkid_ok n k o b : inv n k -> valid_blk n o b -> mem2blkid k o (addr_of k o b) = b.
Proof.
  intros Hi [Ho Hb]. destruct (inv_heap n k Hi) as (H1 & H2 & H3).
  unfold mem2blkid, addr_of. destruct (pow_ord o Ho) as [Hp _].
  rewrite (heap_size_blocks n o Ho) in H3.
  rewrite u32_small by nia. rewrite Z.shiftr_div_pow2 by (destruct Ho; unfold MIN_ORD in *; lia).
  replace (kstart_heap k + 2 ^ o * b - kstart_heap k) with (b * 2 ^ o) by lia.
  apply Z.div_mul. lia.
Qed.

(** ** One bit of the free map *)

Lemma free_in_set n k k' o b v o' x :
  sets_free n k k' o b v -> 0 <= x < heap_size n ->
  free_in n k' o' x <->
  valid_ord o' /\ (if decide (o' = o /\ in_blk o b x) then v = true else free n k o' (x / 2 ^ o') = true).
Proof.
  intros (_ & _ & Hf) Hx. unfold free_in, in_blk. split; intros [Ho' H]; (split; [done|]).
  - rewrite Hf in H by (by apply blk_of_byte). repeat case_decide; naive_solver.
  - rewrite Hf by (by apply blk_of_byte). repeat case_decide; naive_solver.
Qed.

(** After clearing the bit of block (o, b). *)
Lemma free_in_clear n k k' o b o' x :
  sets_free n k k' o b false -> 0 <= x < heap_size n ->
  free_in n k' o' x <-> free_in n k o' x /\ ~ (o' = o /\ in_blk o b x).
Proof.
  intros Hs Hx. rewrite (free_in_set n k k' o b false) by done. unfold free_in.
  case_decide; naive_solver.
Qed.

(** After setting it. *)
Lemma free_in_mark n k k' o b o' x :
  sets_free n k k' o b true -> valid_ord o -> 0 <= x < heap_size n ->
  free_in n k' o' x <-> free_in n k o' x \/ (o' = o /\ in_blk o b x).
Proof.
  intros Hs Ho Hx. rewrite (free_in_set n k k' o b true) by done. unfold free_in.
  case_decide; naive_solver.
Qed.

Lemma free_in_blk n k o b x : valid_ord o -> free n k o b = true -> in_blk o b x -> free_in n k o x.
Proof. intros Ho Hf <-. by split. Qed.

Lemma blk_byte o b : valid_ord o -> in_blk o b (2 ^ o * b).
Proof. intros Ho. apply blk_range; [done|]. destruct (pow_ord o Ho) as [Hp _]. lia. Qed.

(** In a state where some byte of a block is not free, the block is not free. *)
Lemma not_free_blk n k o b :
  valid_ord o -> (forall x, in_blk o b x -> ~ free_at n k x) -> free n k o b = false.
Proof.
  intros Ho Hx. destruct (free n k o b) eqn:E; [|done]. exfalso.
  apply (Hx (2 ^ o * b)); [by apply blk_byte|]. exists o. by eapply free_in_blk, blk_byte.
Qed.

(** Removing a free block keeps the invariant and removes just its bytes. *)
Lemma inv_clear n k k' o b :
  inv n k -> valid_blk n o b -> free n k o b = true -> sets_free n k k' o b false ->
  inv n k' /\ same_hdr k k' /\
  forall x, 0 <= x < heap_size n -> free_at n k' x <-> free_at n k x /\ ~ in_blk o b x.
Proof.
  intros Hi Hv Hf Hs. pose proof Hs as (Hw & Hh & Hfr).
  assert (kstart_heap k' = kstart_heap k) as Hhp by apply Hh.
  split; [|split; [done|]].
  - split; [done|rewrite Hhp; apply Hi| |].
    + intros x o1 o2 Hx H1 H2. rewrite (free_in_clear n k) in H1, H2 by done.
      apply (inv_disj n k Hi x); naive_solver.
    + intros o1 b1 Ho1 Hlt Hv1 H1 H2. destruct (buddy_spec n o1 b1 Hv1 Hlt) as (Hv2 & _).
      rewrite Hfr in H1, H2 by done. apply (inv_coal n k Hi o1 b1); [done..| |].
      * by destruct (decide (o1 = o /\ b1 = b)).
      * by destruct (decide (o1 = o /\ Z.lxor b1 1 = b)).
  - intros x Hx. unfold free_at. split.
    + intros [o' H]. rewrite (free_in_clear n k) in H by done. destruct H as [H1 H2].
      split; [by exists o'|]. intros Hb. apply H2. split; [|done].
      apply (inv_disj n k Hi x); [done..|]. eapply free_in_blk; [apply Hv|done..].
    + intros [[o' H] Hb]. exists o'. rewrite (free_in_clear n k) by done. naive_solver.
Qed.

(** Adding a block none of whose bytes is free, and whose buddy is not
    free, keeps the invariant and adds just its bytes. *)
Lemma inv_mark n k k' o b :
  inv n k -> valid_blk n o b -> (forall x, in_blk o b x -> ~ free_at n k x) ->
  (o < MAX_ORD -> free n k o (Z.lxor b 1) = false) -> sets_free n k k' o b true ->
  inv n k' /\ same_hdr k k' /\
  forall x, 0 <= x < heap_size n -> free_at n k' x <-> free_at n k x \/ in_blk o b x.
Proof.
  intros Hi Hv Hnf Hbud Hs. pose proof Hs as (Hw & Hh & Hfr). destruct (id Hv) as [Ho _].
  assert (kstart_heap k' = kstart_heap k) as Hhp by apply Hh.
  split; [|split; [done|]].
  - split; [done|rewrite Hhp; apply Hi| |].
    + intros x o1 o2 Hx H1 H2. rewrite (free_in_mark n k) in H1, H2 by done.
      destruct H1 as [H1|[-> H1]], H2 as [H2|[-> H2]]; [by apply (inv_disj n k Hi x)| | |done].
      * exfalso. apply (Hnf x); [done|by eexists].
      * exfalso. apply (Hnf x); [done|by eexists].
    + intros o1 b1 Ho1 Hlt Hv1 H1 H2. destruct (buddy_spec n o1 b1 Hv1 Hlt) as (Hv2 & Hne & Hinv & _).
      rewrite Hfr in H1, H2 by done.
      destruct (decide (o1 = o /\ b1 = b)) as [[-> ->]|].
      * rewrite decide_False in H2 by naive_solver. by rewrite Hbud in H2.
      * destruct (decide (o1 = o /\ Z.lxor b1 1 = b)) as [[-> E]|].
        -- rewrite <- E, Hinv in Hbud. by rewrite Hbud in H1.
        -- by apply (inv_coal n k Hi o1 b1).
  - intros x Hx. unfold free_at. split.
    + intros [o' H]. rewrite (free_in_mark n k) in H by done. naive_solver.
    + intros [[o' H]|H]; [exists o'|exists o]; rewrite (free_in_mark n k) by done; naive_solver.
Qed.

(** ** _kfree *)

(** Freeing block [b] of order [o], none of whose bytes is free: the bytes
    become free and the invariant holds again, whatever merging takes place. *)
Lemma kfree_ok n fuel : forall k o b,
  inv n k -> valid_blk n o b -> MAX_ORD - o < Z.of_nat fuel ->
  (forall x, in_blk o b x -> ~ free_at n k x) ->
  wp (kfree_ fuel (addr_of k o b) o) (fun _ k' => inv n k' /\ same_hdr k k' /\
    forall x, 0 <= x < heap_size n -> free_at n k' x <-> free_at n k x \/ in_blk o b x) k.
Proof.
  induction fuel as [|f IH]; intros k o b Hi Hv Hfuel Hnf; [destruct Hv as [[_ ?] _]; lia|].
  cbn [kfree_]. apply wp_bind, wp_get. rewrite (mem2blkid_ok n) by done.
  pose proof (inv_wf n k Hi) as Hw. pose proof (wf_geom n k Hw) as Hg.
  pose proof (valid_blk_mark o b Hv) as Hm. destruct (id Hv) as [Ho Hb].
  rewrite shiftr5. apply wp_bind. eapply ok_wp; [by apply (get_mark_ok Hg)|].
  fold (bm_of n k o (b / 32)). rewrite !available_bit.
  pose proof (not_free_blk n k o b Ho Hnf) as Hfb. unfold free in Hfb. rewrite Hfb. cbn [negb].
  replace (Z.testbit (bm_of n k o (b / 32)) (Z.lxor b 1 mod 32)) with (free n k o (Z.lxor b 1)); cycle 1.
  { unfold free. f_equal. f_equal. rewrite lxor1 by lia. case_if; Z.div_mod_to_equations; lia. }
  destruct (negb (free n k o (Z.lxor b 1)) || (o =? MAX_ORD)) eqn:Hc.
  - eapply wp_mono; [by apply (mark_blk_ok n)|]. intros [] k' Hs.
    apply (inv_mark n k k' o b); try done. intros Hlt.
    apply orb_true_iff in Hc. destruct Hc; zbool; [done|lia].
  - zbool. destruct Ho as [Ho1 Ho2]. assert (o < MAX_ORD) as Hlt by lia.
    destruct (buddy_spec n o b Hv Hlt) as (Hvb & Hne & _ & Hpar).
    apply wp_bind. eapply wp_mono; [by apply (unmark_blk_ok n)|]. intros [] k1 Hs.
    destruct (inv_clear n k k1 o _ Hi Hvb H Hs) as (Hi1 & Hh1 & Hf1).
    pose proof (parent_blk n o b Hv Hlt) as Hvp.
    assert (forall x, in_blk (o + 1) (b / 2) x -> 0 <= x < heap_size n) as Hxr
      by (intros x Hx; by eapply blk_in_heap).
    rewrite land_lnot1 by lia. rewrite (blkid2mem_ok n) by
      (done || (apply (child_blk n o (b / 2)); [done|done])).
    replace (addr_of k o (2 * (b / 2))) with (addr_of k1 (o + 1) (b / 2))
      by (unfold addr_of; rewrite pow_succ by done; destruct Hh1 as (_ & _ & -> & _); lia).
    eapply wp_mono; [apply IH; [done|done|lia|]|].
    + intros x Hx. rewrite Hf1 by auto. intros [Hfx Hnx]. apply Hpar in Hx as [Hx|Hx]; [|done].
      by apply (Hnf x).
    + intros [] k' (Hi' & Hh' & Hf'). split; [done|]. split.
      * unfold same_hdr in *. destruct_and!. split_and!; congruence.
      * intros x Hx. rewrite Hf', Hf1, Hpar by done.
        destruct (decide (in_blk o (Z.lxor b 1) x)) as [Hbx|]; [|tauto].
        split; [|tauto]. intros _. left. exists o. by eapply free_in_blk.
Qed.

(** ** _kmalloc *)

(** What a successful allocation of order [o] does: it takes block [b]. *)
Definition took (n : Z) (k k' : kmem) (o b : Z) : Prop :=
  valid_blk n o b /\ inv n k' /\ same_hdr k k' /\
  (forall x, in_blk o b x -> free_at n k x) /\
  (forall x, 0 <= x < heap_size n -> free_at n k' x <-> free_at n k x /\ ~ in_blk o b x).

Lemma get_blk_ok n k o :
  inv n k -> valid_ord o -> hd_of k o <> NIL ->
  wp (get_blk o) (fun r k' => exists b, r = addr_of k o b /\ took n k k' o b) k.
Proof.
  intros Hi Ho Hh. pose proof (inv_wf n k Hi) as Hw. pose proof (wf_geom n k Hw) as Hg.
  destruct (wf_ord n k Hw o Ho) as [l Hl].
  destruct (order_ok_head n k o l Hl) as [[_ E]|[Hin _]]; [done|].
  apply (ok_in _ _ _ _ Hl) in Hin as [Hm Hbz]. pose proof (ok_bm _ _ _ _ Hl _ Hm) as Hbr.
  set (h := hd_of k o) in *. destruct (id Hm) as [_ Hhr].
  unfold get_blk. apply wp_bind. eapply ok_wp; [by apply (get_ord_ok Hg)|]. cbn [head]. fold h.
  apply wp_bind. eapply ok_wp; [by apply (get_mark_ok Hg)|]. fold (bm_of n k o h).
  rewrite (proj2 (Z.eqb_neq _ 0) Hbz). apply wp_bind.
  edestruct (find_pure (fun i => if Z.land (bm_of n k o h) (Z.shiftl 1 i) =? 0 then None else Some i) 32 0 k)
    as (r & Hr & Hs). eapply ok_wp; [exact Hr|]. destruct r as [i|].
  - destruct Hs as (j & Hj & Hfj & _). rewrite land_bit_zero in Hfj by lia.
    destruct (Z.testbit (bm_of n k o h) j) eqn:Hbit; [|done]. cbn in Hfj. injection Hfj as <-.
    assert (valid_blk n o (h * 32 + j)) as Hv by (split; [done|lia]).
    assert (free n k o (h * 32 + j) = true) as Hf.
    { unfold free. replace ((h * 32 + j) / 32) with h by (Z.div_mod_to_equations; lia).
      replace ((h * 32 + j) mod 32) with j by (Z.div_mod_to_equations; lia). done. }
    apply wp_bind. eapply wp_mono; [by apply (unmark_blk_ok n)|]. intros [] k' Hset.
    destruct (inv_clear n k k' o _ Hi Hv Hf Hset) as (Hi' & Hh' & Hf').
    apply wp_bind, wp_get, wp_ret. exists (h * 32 + j). split.
    + rewrite (blkid2mem_ok n) by done. unfold addr_of. by destruct Hh' as (_ & _ & -> & _).
    + split; [done|]. split; [done|]. split; [done|]. split; [|done].
      intros x Hx. exists o. by eapply free_in_blk.
  - exfalso. destruct (nonzero_bit _ Hbr Hbz) as (j & Hj & Hbit). specialize (Hs j ltac:(lia)).
    rewrite land_bit_zero, Hbit in Hs by lia. done.
Qed.

(** Order [o] has no free block when its list is empty. *)
Lemma empty_order n k o : wf n k -> valid_ord o -> hd_of k o = NIL ->
  forall b, valid_blk n o b -> free n k o b = false.
Proof.
  intros Hw Ho Hh b Hv. destruct (wf_ord n k Hw o Ho) as [l Hl].
  destruct (order_ok_head n k o l Hl) as [[-> _]|[_ E]]; [|done]. unfold free.
  destruct (decide (bm_of n k o (b / 32) = 0)) as [->|Hz]; [apply Z.bits_0|].
  exfalso. apply (not_elem_of_nil (b / 32)), (ok_in _ _ _ _ Hl). split; [by apply valid_blk_mark|done].
Qed.

(** The outcome of an allocation of order [o]. *)
Definition alloc_result (n : Z) (k k' : kmem) (o r : Z) : Prop :=
  (r = 0 /\ k' = k /\ forall o' b, o <= o' -> valid_blk n o' b -> free n k o' b = false) \/
  (exists b, r = addr_of k o b /\ took n k k' o b).

(** Splitting: the lower half of the block taken from the next order is
    kept, the upper half freed. *)
Lemma took_half n k k1 k2 o b :
  valid_ord o -> o < MAX_ORD -> took n k k1 (o + 1) b -> inv n k2 -> same_hdr k1 k2 ->
  (forall x, 0 <= x < heap_size n -> free_at n k2 x <-> free_at n k1 x \/ in_blk o (2 * b + 1) x) ->
  took n k k2 o (2 * b).
Proof.
  intros Ho Hlt (Hv & Hi1 & Hh1 & Hfb & Hf1) Hi2 Hh2 Hf2.
  destruct (child_blk n o b Ho Hv) as [Hv1 Hv2].
  assert (forall x, in_blk (o + 1) b x <-> in_blk o (2 * b) x \/ in_blk o (2 * b + 1) x) as Hsplit.
  { intros x. rewrite !blk_range by (done || by apply valid_ord_succ).
    rewrite pow_succ by done. destruct (pow_ord o Ho). nia. }
  assert (forall x, in_blk o (2 * b) x -> in_blk o (2 * b + 1) x -> False) as Hd.
  { unfold in_blk. intros x -> ?. lia. }
  split; [done|]. split; [done|]. split.
  { unfold same_hdr in *. destruct_and!. split_and!; congruence. }
  split; [intros x Hx; apply Hfb, Hsplit; by left|]. intros x Hx. rewrite Hf2, Hf1, Hsplit by done.
  split; [|intros [H1 H2]; destruct (decide (in_blk o (2 * b + 1) x)); tauto].
  intros [[H1 H2]|H1]; [tauto|]. split; [apply Hfb, Hsplit; by right|]. intros H2. by eapply Hd.
Qed.

Lemma kmalloc_ok n fuel : forall k o,
  inv n k -> valid_ord o -> MAX_ORD - o < Z.of_nat fuel ->
  wp (kmalloc_ fuel o) (fun r k' => alloc_result n k k' o r) k.
Proof.
  induction fuel as [|f IH]; intros k o Hi Ho Hfuel; [destruct Ho; lia|].
  pose proof (inv_wf n k Hi) as Hw. cbn [kmalloc_].
  apply wp_bind. eapply ok_wp; [by apply (get_ord_ok (wf_geom n k Hw))|]. cbn [head].
  destruct (Z.eqb_spec (hd_of k o) NIL) as [Hh|Hh]; cbn [negb]; cycle 1.
  { eapply wp_mono; [by apply (get_blk_ok n)|]. intros r k' H. by right. }
  pose proof (empty_order n k o Hw Ho Hh) as Hempty.
  destruct (Z.ltb_spec o MAX_ORD) as [Hlt|Hge]; cycle 1.
  { apply wp_ret. left. split; [done|]. split; [done|]. intros o' b Hle Hv.
    assert (o' = o) as -> by (destruct Hv as [[_ ?] _]; lia). by apply Hempty. }
  pose proof (valid_ord_succ o Ho Hlt) as Ho'. destruct (inv_heap n k Hi) as (Hp & _).
  apply wp_bind. eapply wp_mono; [apply IH; [done|done|lia]|]. intros r k1 [(-> & -> & Hno)|(b & -> & Htook)].
  - cbn [negb Z.eqb when]. apply wp_bind, wp_ret, wp_ret. left. split; [done|]. split; [done|].
    intros o' b Hle Hv. destruct (decide (o' = o)) as [->|]; [by apply Hempty|]. apply Hno; [lia|done].
  - destruct (id Htook) as (Hv & Hi1 & Hh1 & _ & Hf1). destruct (child_blk n o b Ho Hv) as [Hv1 Hv2].
    destruct (pow_ord o Ho) as [Hpo _]. rewrite (proj2 (Z.eqb_neq _ 0)); cycle 1.
    { unfold addr_of. rewrite pow_succ by done. destruct Hv as [_ Hv]. nia. }
    cbn [negb when]. rewrite shiftl1 by done. apply wp_bind.
    replace (u32 (addr_of k (o + 1) b + 2 ^ o)) with (addr_of k1 o (2 * b + 1)); cycle 1.
    { rewrite <- (blkid2mem_ok n) by done. unfold addr_of, blkid2mem. rewrite shiftl1, pow_succ by done.
      destruct Hh1 as (_ & _ & -> & _). f_equal. lia. }
    eapply wp_mono; [apply (kfree_ok n); [done|done| |]|].
    + destruct Ho. unfold N_ORD, MIN_ORD, MAX_ORD in *. lia.
    + intros x Hx Hfx. rewrite Hf1 in Hfx by (by eapply blk_in_heap). destruct Hfx as [_ Hn]. apply Hn.
      apply blk_range in Hx; [|done]. apply blk_range; [done|]. rewrite pow_succ by done. nia.
    + intros [] k2 (Hi2 & Hh2 & Hf2). apply wp_ret. right. exists (2 * b). split.
      * unfold addr_of. rewrite pow_succ by done. lia.
      * by apply (took_half n k k1).
Qed.
