(* ===== verification/BuddySpec.v ===== *)
(** * Contracts of the buddy allocator's entry points

    kmalloc, kfree and kmem_init2 against the set of free bytes of the heap,
    the order computation [get_order], the error paths, and the limit that
    the 16-bit links put on the heap. *)

From S2P Require Import Prelude Buddy BuddyList BuddyAlloc.

(** Byte address [a] lies in a free block. *)
Definition free_byte (n : Z) (k : kmem) (a : Z) : Prop :=
  0 <= a - kstart_heap k < heap_size n /\ free_at n k (a - kstart_heap k).

(** [r] is an aligned block of [2^o] bytes inside the heap. *)
Definition heap_block (n : Z) (k : kmem) (o r : Z) : Prop :=
  valid_ord o /\ r mod 2 ^ o = 0 /\
  kstart_heap k <= r /\ r + 2 ^ o <= kstart_heap k + heap_size n.

Definition in_block (o r a : Z) : Prop := r <= a < r + 2 ^ o.

(** ** The lock does not matter to the heap *)

Lemma inv_set_klock n k v : inv n k -> inv n (set_klock v k).
Proof.
  intros [[[G1 G2 G3 G4] Ho] H2 H3 H4]. split; [|exact H2|exact H3|exact H4].
  split; [by split|]. intros o Hv. destruct (Ho o Hv) as [l [A B C D]]. by exists l.
Qed.

Lemma lock_ok k : klock k = false -> lock_kmem k = Ok tt (set_klock true k).
Proof. intros H. unfold lock_kmem. by rewrite H. Qed.

Lemma set_klock_id k v w : klock k = v -> set_klock v (set_klock w k) = k.
Proof. destruct k. cbn. by intros ->. Qed.

(** ** Blocks as address ranges *)

Lemma heap_block_addr n k o b : inv n k -> valid_blk n o b -> heap_block n k o (addr_of k o b).
Proof.
  intros Hi [Ho Hb]. destruct (inv_heap n k Hi) as (H1 & H2 & H3). destruct (pow_ord o Ho) as [Hp Hh].
  rewrite (heap_size_blocks n o Ho) in *. unfold heap_block, addr_of.
  split; [done|]. split; [|rewrite (heap_size_blocks n o Ho); nia].
  rewrite Z.mul_comm, Z.mod_add by lia.
  assert (2 ^ MAX_ORD = 2 ^ o * 2 ^ (MAX_ORD - o)) as E.
  { rewrite <- Z.pow_add_r by (destruct Ho; unfold MIN_ORD, MAX_ORD in *; lia). f_equal. lia. }
  apply Z.mod_divide in H2; [|by vm_compute]. destruct H2 as [q ->]. rewrite E.
  replace (q * (2 ^ o * 2 ^ (MAX_ORD - o))) with (q * 2 ^ (MAX_ORD - o) * 2 ^ o) by ring.
  apply Z.mod_mul. lia.
Qed.

Lemma addr_of_block n k o r : inv n k -> heap_block n k o r ->
  exists b, valid_blk n o b /\ r = addr_of k o b.
Proof.
  intros Hi (Ho & Hal & Hlo & Hhi). destruct (inv_heap n k Hi) as (H1 & H2 & H3).
  destruct (pow_ord o Ho) as [Hp _]. rewrite (heap_size_blocks n o Ho) in Hhi.
  assert (2 ^ MAX_ORD = 2 ^ (MAX_ORD - o) * 2 ^ o) as E.
  { rewrite <- Z.pow_add_r by (destruct Ho; unfold MIN_ORD, MAX_ORD in *; lia). f_equal. lia. }
  apply Z.mod_divide in H2; [|by vm_compute]. destruct H2 as [q Hq].
  apply Z.mod_divide in Hal; [|lia]. destruct Hal as [c Hc].
  exists (c - q * 2 ^ (MAX_ORD - o)). unfold addr_of. rewrite Hq, E in *.
  assert (r - q * (2 ^ (MAX_ORD - o) * 2 ^ o) = 2 ^ o * (c - q * 2 ^ (MAX_ORD - o))) by (rewrite Hc; ring).
  split; [split; [done|nia]|lia].
Qed.

Lemma in_blk_addr k o b a : valid_ord o ->
  in_blk o b (a - kstart_heap k) <-> in_block o (addr_of k o b) a.
Proof. intros Ho. rewrite blk_range by done. unfold in_block, addr_of. lia. Qed.

(** ** Contracts *)

Lemma kmalloc_wp n k o :
  inv n k -> klock k = false -> valid_ord o ->
  wp (kmalloc o) (fun r k' =>
    inv n k' /\ same_hdr k k' /\
    ((r = 0 /\ k' = k /\ forall o' b, o <= o' -> valid_blk n o' b -> free n k o' b = false) \/
     (heap_block n k o r /\ (forall a, in_block o r a -> free_byte n k a) /\
      forall a, free_byte n k' a <-> free_byte n k a /\ ~ in_block o r a))) k.
Proof.
  intros Hi Hlk Ho. unfold kmalloc.
  rewrite (proj2 (Z.ltb_ge MAX_ORD o)), (proj2 (Z.ltb_ge o MIN_ORD)) by (destruct Ho; lia). cbn [orb].
  apply wp_bind. eapply ok_wp; [by apply lock_ok|].
  apply wp_bind. eapply wp_mono; [apply (kmalloc_ok n)|].
  { by apply inv_set_klock. } { done. } { destruct Ho. unfold N_ORD, MIN_ORD, MAX_ORD in *. lia. }
  intros r k' Hr. apply wp_bind, wp_modify, wp_ret. destruct Hr as [(-> & -> & Hno)|(b & -> & Hv & Hi' & Hh & Hfb & Hf)].
  - rewrite set_klock_id by done. split; [done|]. split; [done|]. by left.
  - destruct Hh as (_ & Hst & Hhp & Hke). cbn in Hst, Hhp, Hke.
    split; [by apply inv_set_klock|]. split; [by split_and!|]. right.
    assert (addr_of (set_klock true k) o b = addr_of k o b) as -> by done.
    split; [by apply heap_block_addr|]. unfold free_byte. cbn [set_klock kstart_heap]. rewrite Hhp.
    split; intros a; rewrite <- in_blk_addr by done.
    + intros Ha. split; [by eapply blk_in_heap|]. by apply (Hfb _ Ha).
    + split.
      * intros [Hx Hfa]. apply (Hf _ Hx) in Hfa. tauto.
      * intros [[Hx Hfa] Hn]. split; [done|]. apply (Hf _ Hx). by split.
Qed.

Lemma kfree_wp n k o r :
  inv n k -> klock k = false -> heap_block n k o r ->
  (forall a, in_block o r a -> ~ free_byte n k a) ->
  wp (kfree r o) (fun _ k' =>
    inv n k' /\ same_hdr k k' /\
    forall a, free_byte n k' a <-> free_byte n k a \/ in_block o r a) k.
Proof.
  intros Hi Hlk Hr Hnf. destruct (addr_of_block n k o r Hi Hr) as (b & Hv & ->).
  destruct Hr as (Ho & Hal & _). destruct (pow_ord o Ho) as [Hp _]. unfold kfree.
  rewrite (proj2 (Z.ltb_ge MAX_ORD o)), (proj2 (Z.ltb_ge o MIN_ORD)) by (destruct Ho; lia).
  rewrite shiftl1, land_ones_mod, Hal by (done || (destruct Ho; unfold MIN_ORD in *; lia)).
  cbn [orb negb Z.eqb]. apply wp_bind. eapply ok_wp; [by apply lock_ok|].
  change (addr_of k o b) with (addr_of (set_klock true k) o b).
  apply wp_bind. eapply wp_mono; [apply (kfree_ok n)|].
  { by apply inv_set_klock. } { done. } { destruct Ho. unfold N_ORD, MIN_ORD, MAX_ORD in *. lia. }
  { intros x Hx Hf. apply (Hnf (x + kstart_heap k)).
    - rewrite <- in_blk_addr by done. by rewrite Z.add_simpl_r.
    - split; rewrite Z.add_simpl_r; [by eapply blk_in_heap|done]. }
  intros [] k' (Hi' & (_ & Hst & Hhp & Hke) & Hf). cbn in Hst, Hhp, Hke. apply wp_modify.
  split; [by apply inv_set_klock|]. split; [by split_and!|].
  intros a. unfold free_byte. cbn [set_klock kstart_heap]. rewrite Hhp.
  rewrite <- in_blk_addr by done. split.
  - intros [Hx Hfa]. apply (Hf _ Hx) in Hfa as [?|?]; [by left|by right].
  - intros [[Hx Hfa]|Hb]; [|assert (0 <= a - kstart_heap k < heap_size n) as Hx by (by eapply blk_in_heap)];
      (split; [done|]; apply (Hf _ Hx)); [by left|by right].
Qed.

(** C33: allocating a block and freeing it again restores the set of free
    bytes. *)
Theorem kmalloc_kfree_roundtrip n k o :
  inv n k -> klock k = false -> valid_ord o ->
  wp (r <- kmalloc o ;; when (negb (r =? 0)) (kfree r o)) (fun _ k' =>
    inv n k' /\ klock k' = false /\ forall a, free_byte n k' a <-> free_byte n k a) k.
Proof.
  intros Hi Hlk Ho. apply wp_bind. eapply wp_mono; [by apply kmalloc_wp|].
  intros r k1 (Hi1 & (Hl1 & _ & Hh1 & _) & [(-> & -> & _)|(Hb & Hfb & Hf)]); [done|].
  apply wp_when; intros Hc; zbool.
  - eapply wp_mono; [apply (kfree_wp n); [done|congruence| |]|].
    + unfold heap_block in *. by rewrite Hh1.
    + intros a Ha Hfa. apply Hf in Hfa. tauto.
    + intros [] k' (Hi' & (Hl' & _) & Hf'). split; [done|]. split; [congruence|]. intros a. rewrite Hf', Hf.
      unfold in_block in *. destruct (decide (r <= a < r + 2 ^ o)); [|tauto].
      split; [intros _; by apply Hfb|by right].
  - exfalso. subst. destruct Hb as (_ & _ & Hlo & _). destruct (inv_heap n k Hi). lia.
Qed.

(** Kfree refuses a bad order or a misaligned address before touching
    anything, and detects the double free of a whole block. *)
Theorem kfree_errors n k o r :
  ((o < MIN_ORD \/ MAX_ORD < o \/ 0 <= o /\ r mod 2 ^ o <> 0) ->
    kfree r o k = Panic "kfree: order out of range or memory unaligned") /\
  (inv n k -> klock k = false -> heap_block n k o r ->
    free n k o ((r - kstart_heap k) / 2 ^ o) = true -> kfree r o k = Panic "kfree: double free").
Proof.
  split.
  - intros H. unfold kfree. destruct (Z.ltb_spec MAX_ORD o); [done|].
    destruct (Z.ltb_spec o MIN_ORD); [done|]. cbn [orb].
    destruct H as [?|[?|[? Hal]]]; [lia..|]. unfold MIN_ORD in *.
    rewrite Z.shiftl_1_l, land_ones_mod by lia. by rewrite (proj2 (Z.eqb_neq _ 0) Hal).
  - intros Hi Hlk Hr Hf. destruct (addr_of_block n k o r Hi Hr) as (b & Hv & ->).
    destruct Hr as (Ho & Hal & _). destruct (pow_ord o Ho) as [Hp _]. unfold kfree.
    rewrite (proj2 (Z.ltb_ge MAX_ORD o)), (proj2 (Z.ltb_ge o MIN_ORD)) by (destruct Ho; lia).
    rewrite shiftl1, land_ones_mod, Hal by (done || (destruct Ho; unfold MIN_ORD in *; lia)).
    cbn [orb negb Z.eqb]. rewrite (bind_ok _ _ _ _ _ (lock_ok k Hlk)).
    apply bind_panic. unfold _kfree. change (Z.to_nat N_ORD) with 7%nat. cbn [kfree_].
    assert (inv n (set_klock true k)) as Hi2 by by apply inv_set_klock.
    unfold bind at 1, get at 1. change (addr_of k o b) with (addr_of (set_klock true k) o b).
    rewrite (mem2blkid_ok n) by done. rewrite shiftr5.
    erewrite bind_ok; [|apply (get_mark_ok (wf_geom n _ (inv_wf n _ Hi2))); by apply valid_blk_mark].
    rewrite available_bit. unfold addr_of in Hf.
    replace (kstart_heap k + 2 ^ o * b - kstart_heap k) with (b * 2 ^ o) in Hf by lia.
    rewrite Z.div_mul in Hf by lia. unfold free, bm_of in Hf.
    change (mk_of n (set_klock true k)) with (mk_of n k). rewrite Hf. done.
Qed.

(** ** get_order *)

(** Folding a word onto itself by [k] doubles the reach of each bit. *)
Lemma smear_step v w k : 0 < k ->
  (forall i, 0 <= i -> Z.testbit w i = true <-> exists j, 0 <= j < k /\ Z.testbit v (i + j) = true) ->
  (forall i, 0 <= i -> Z.testbit (Z.lor w (Z.shiftr w k)) i = true <->
     exists j, 0 <= j < 2 * k /\ Z.testbit v (i + j) = true).
Proof.
  intros Hk Hw i Hi. rewrite Z.lor_spec, Z.shiftr_spec, orb_true_iff, !Hw by lia. split.
  - intros [(j & Hj & Hb)|(j & Hj & Hb)].
    + exists j. split; [lia|done].
    + exists (k + j). split; [lia|]. by replace (i + (k + j)) with (i + k + j) by lia.
  - intros (j & Hj & Hb). destruct (decide (j < k)); [left; exists j; split; [lia|done]|right].
    exists (j - k). split; [lia|]. by replace (i + k + (j - k)) with (i + j) by lia.
Qed.

Definition smear (v : Z) : Z :=
  let v := Z.lor v (Z.shiftr v 1) in
  let v := Z.lor v (Z.shiftr v 2) in
  let v := Z.lor v (Z.shiftr v 4) in
  let v := Z.lor v (Z.shiftr v 8) in
  Z.lor v (Z.shiftr v 16).

(** The five folds fill every bit below the top one. *)
Lemma smear_ones v : 0 < v < 2 ^ 32 -> smear v = Z.ones (Z.log2 v + 1).
Proof.
  intros Hv. assert (forall i, 0 <= i -> Z.testbit (smear v) i = true <->
    exists j, 0 <= j < 32 /\ Z.testbit v (i + j) = true) as Hs.
  { unfold smear. cbn zeta.
    apply (smear_step v _ 16); [lia|]. apply (smear_step v _ 8); [lia|]. apply (smear_step v _ 4); [lia|].
    apply (smear_step v _ 2); [lia|]. apply (smear_step v _ 1); [lia|].
    intros i Hi. split.
    - intros H. exists 0. split; [lia|]. by rewrite Z.add_0_r.
    - intros (j & Hj & H). assert (j = 0) as -> by lia. by rewrite Z.add_0_r in H. }
  pose proof (Z.log2_nonneg v). assert (Z.log2 v < 32) by (apply Z.log2_lt_pow2; lia).
  apply Z.bits_inj'. intros i Hi. rewrite Z.testbit_ones by lia.
  destruct (Z.leb_spec 0 i); [|lia]. cbn [andb]. destruct (Z.ltb_spec i (Z.log2 v + 1)).
  - apply Hs; [done|]. exists (Z.log2 v - i). split; [lia|].
    replace (i + (Z.log2 v - i)) with (Z.log2 v) by lia. apply Z.bit_log2. lia.
  - apply not_true_iff_false. rewrite Hs by done. intros (j & Hj & Hb).
    rewrite Z.bits_above_log2 in Hb by lia. done.
Qed.

Lemma first_bit_loop v m : 0 <= m <= 32 ->
  (forall i, 0 <= i < m -> Z.testbit v i = false) -> (m < 32 -> Z.testbit v m = true) ->
  while_ 32 (fun ord => (ord <? 32) && (Z.land v (Z.shiftl 1 ord) =? 0)) (fun ord => ord + 1) 0 = m.
Proof.
  intros Hm Hlo Hhi.
  destruct (while_inv (fun o => 0 <= o <= m) (fun o => Z.to_nat (32 - o))
    (fun ord => (ord <? 32) && (Z.land v (Z.shiftl 1 ord) =? 0)) (fun ord => ord + 1) 32 0) as [Hr Hg].
  - lia.
  - intros x Hx [Hc1 Hc2]%andb_true_iff. rewrite land_bit_zero in Hc2 by lia. zbool.
    split; [|lia]. destruct (decide (x = m)) as [->|]; [|lia]. rewrite Hhi in Hc2 by lia. done.
  - lia.
  - set (r := while_ _ _ _ _) in *. clearbody r. cbn beta in *.
    destruct (Z.ltb_spec r 32); [|lia]. cbn [andb] in Hg. rewrite land_bit_zero in Hg by lia. zbool.
    destruct (decide (r = m)); [done|]. rewrite Hlo in Hg by lia. done.
Qed.

(** Get_order returns the smallest order whose block holds [v] bytes,
    at least MIN_ORD; it panics exactly for sizes above one page. *)
Theorem get_order_correct {S} v (s : S) : 1 <= v < 2 ^ 32 ->
  get_order v s =
    if Z.log2_up v <=? MAX_ORD then Ok (Z.max MIN_ORD (Z.log2_up v)) s else Panic "order too big!".
Proof.
  intros Hv. unfold get_order. rewrite (u32_small (v - 1)) by lia.
  fold (smear (v - 1)). set (L := Z.log2_up v).
  assert (0 <= L <= 32) as HL.
  { unfold L. split; [apply Z.log2_up_nonneg|]. apply Z.log2_up_le_pow2; lia. }
  assert (smear (v - 1) + 1 = 2 ^ L) as E.
  { destruct (decide (v = 1)) as [->|]; [done|]. rewrite smear_ones by lia.
    rewrite Z.ones_equiv. unfold L. rewrite Z.log2_up_eqn by lia.
    replace (Z.pred v) with (v - 1) by lia. rewrite Z.add_1_r. lia. }
  cbn zeta. rewrite E. rewrite (first_bit_loop _ L); [|done| |].
  - unfold MIN_ORD, MAX_ORD. destruct (Z.ltb_spec L 6), (Z.leb_spec L 12); try lia.
    + unfold ret. f_equal. lia.
    + rewrite (proj2 (Z.ltb_ge 12 L)) by lia. unfold ret. f_equal. lia.
    + rewrite (proj2 (Z.ltb_lt 12 L)) by lia. done.
  - intros i Hi. unfold u32. rewrite Z.mod_pow2_bits_low by lia. apply Z.pow2_bits_false. lia.
  - intros Hlt. unfold u32. rewrite Z.mod_pow2_bits_low by lia. apply Z.pow2_bits_true. lia.
Qed.

(** ** kmem_init2 *)

Definition blank : mark := Mark (LNKS NIL NIL) 0.

(** After the top orders down to [i + 1] are laid out: their order entries
    stand and the first [off n (i + MIN_ORD)] marks are blank. *)
Definition laid_out (n i : Z) (k0 k : kmem) : Prop :=
  zlen (korders k) = N_ORD /\ same_hdr k0 k /\
  (forall o, valid_ord o -> i < o - MIN_ORD -> zget (korders k) (o - MIN_ORD) = Some (Order NIL (off n o))) /\
  (forall j, 0 <= j < off n (i + MIN_ORD) -> kmarks k !! j = Some blank).

Lemma off_succ n o : valid_ord o -> off n (o - 1) = off n o + cnt n o /\ cnt n (o - 1) = 2 * cnt n o.
Proof.
  intros [H1 H2]. unfold off, cnt, MAX_ORD, MIN_ORD in *.
  replace (12 - (o - 1)) with (Z.succ (12 - o)) by lia. rewrite Z.pow_succ_r by lia. lia.
Qed.

Lemma cnt_bound n o : 0 < n -> MIN_ORD - 1 <= o <= MAX_ORD -> n <= cnt n o <= 128 * n /\ 0 <= off n o <= 127 * n.
Proof.
  intros Hn Ho. unfold cnt, off, MAX_ORD, MIN_ORD in *.
  assert (1 <= 2 ^ (12 - o) <= 128) by (split; [apply (Z.pow_le_mono_r 2 0)|apply (Z.pow_le_mono_r 2 _ 7)]; lia).
  nia.
Qed.

Lemma init_orders_ok n k0 m : forall k i,
  0 < n -> 128 * n < 2 ^ 31 -> i = Z.of_nat m - 1 -> i < N_ORD -> laid_out n i k0 k ->
  wp (init_orders m i (off n (i + MIN_ORD)) (cnt n (i + MIN_ORD))) (fun total k' =>
    total = off n (MIN_ORD - 1) /\ laid_out n (-1) k0 k') k.
Proof.
  induction m as [|m IH]; intros k i Hn Hb Hi Hlt Hl; cbn [init_orders].
  { apply wp_ret. assert (i = -1) as -> by lia. split; [f_equal|done]. }
  assert (valid_ord (i + MIN_ORD)) as Ho by (unfold valid_ord, N_ORD, MIN_ORD, MAX_ORD in *; lia).
  destruct Hl as (Hlen & Hh & Hord & Hmk).
  destruct (cnt_bound n (i + MIN_ORD) Hn) as [Hc1 Hc2]; [unfold valid_ord, MIN_ORD in *; lia|].
  set (o := i + MIN_ORD) in *. apply wp_bind, wp_modify. set (k1 := set_korders _ k).
  assert (forall o', valid_ord o' -> i <= o' - MIN_ORD -> zget (korders k1) (o' - MIN_ORD) = Some (Order NIL (off n o'))) as Hord1.
  { intros o' Ho' Hle. cbn. destruct (decide (o' = o)) as [->|].
    - replace (o - MIN_ORD) with i by (subst o; lia). apply zget_zset_eq. lia.
    - rewrite zget_zset_ne by (subst o; lia). apply Hord; [done|subst o; lia]. }
  apply wp_bind. eapply wp_mono.
  - apply (wp_for _ (fun j t => korders t = korders k1 /\ same_hdr k0 t /\
      forall x, 0 <= x < off n o + j -> kmarks t !! x = Some blank)).
    + split; [done|]. split; [done|]. intros x Hx. apply Hmk. lia.
    + intros j t Hj (Ht1 & Ht2 & Ht3). 
      assert (get_ord o t = Ok (Order NIL (off n o)) t) as Hgo
        by (unfold get_ord, bind, get, from_opt; rewrite Ht1, (Hord1 o Ho) by (subst o; lia); done).
      unfold put_mark. apply wp_bind. eapply ok_wp; [exact Hgo|]. apply wp_modify.
      split; [done|]. split; [done|].
      intros x Hx. cbn. rewrite lookup_insert. case_decide; [done|]. apply Ht3. lia.
  - intros [] k2 (Hk1 & Hk2 & Hk3). rewrite Z.add_0_l, Z2Nat.id in Hk3 by lia.
    destruct (off_succ n o Ho) as [Ho1 Ho2].
    replace (u32 (off n o + cnt n o)) with (off n (i - 1 + MIN_ORD))
      by (rewrite u32_small by lia; rewrite <- Ho1; f_equal; subst o; lia).
    replace (u32 (Z.shiftl (cnt n o) 1)) with (cnt n (i - 1 + MIN_ORD))
      by (rewrite Z.shiftl_mul_pow2, u32_small by lia; change (2 ^ 1) with 2;
          rewrite Z.mul_comm, <- Ho2; f_equal; subst o; lia).
    apply IH; [done|done|lia|lia|]. split; [rewrite Hk1; cbn; by rewrite zlen_zset|].
    split; [done|]. split.
    + intros o' Ho' Hle. rewrite Hk1. apply Hord1; [done|lia].
    + intros x Hx. apply Hk3. rewrite <- Ho1. replace (o - 1) with (i - 1 + MIN_ORD) by (subst o; lia). done.
Qed.

(** Nothing is free right after the layout. *)
Lemma laid_out_inv n k0 k :
  0 < n -> 64 * n <= NIL -> laid_out n (-1) k0 k ->
  0 < kstart_heap k -> kstart_heap k mod 2 ^ MAX_ORD = 0 -> kstart_heap k + heap_size n <= 2 ^ 32 ->
  inv n k /\ forall x, 0 <= x < heap_size n -> ~ free_at n k x.
Proof.
  intros Hn Hn64 (Hlen & _ & Hord & Hmk) Hp1 Hp2 Hp3.
  assert (forall o i, valid_mark n o i -> kmarks k !! (off n o + i) = Some blank) as Hblank.
  { intros o i [Ho Hi]. apply Hmk. destruct (off_succ n o Ho) as [H1 H2].
    destruct (cnt_bound n o Hn) as [Hc1 Hc2]; [unfold valid_ord, MIN_ORD in *; lia|].
    assert (off n o + cnt n o <= off n (-1 + MIN_ORD)); [|lia].
    rewrite <- H1. unfold valid_ord, off, MAX_ORD, MIN_ORD in *.
    apply Z.mul_le_mono_nonneg_l; [lia|]. apply Z.sub_le_mono_r, Z.pow_le_mono_r; lia. }
  assert (forall o i, valid_mark n o i -> bm_of n k o i = 0) as Hbm.
  { intros o i Hv. unfold bm_of, mk_of. by rewrite Hblank. }
  assert (forall o b, valid_blk n o b -> free n k o b = false) as Hfree.
  { intros o b Hv. unfold free. rewrite Hbm by (by apply valid_blk_mark). apply Z.bits_0. }
  assert (forall o x, 0 <= x < heap_size n -> ~ free_in n k o x) as Hno.
  { intros o x Hx [Ho Hf]. by rewrite Hfree in Hf by (by apply blk_of_byte). }
  split; [|intros x Hx [o Ho]; by apply (Hno o x)]. split; [|done| |].
  - split.
    + split; [done|done| |].
      * intros o Ho. exists NIL. apply Hord; [done|unfold valid_ord in Ho; lia].
      * intros o i Hv. rewrite Hblank by done. done.
    + intros o Ho. exists []. split; [apply NoDup_nil_2| | |].
      * intros i. split; [by intros ?%not_elem_of_nil|]. intros [Hv Hb]. by rewrite Hbm in Hb.
      * cbn. unfold hd_of. rewrite Hord by (done || (unfold valid_ord in Ho; lia)). done.
      * intros i Hv. rewrite Hbm by done. lia.
  - intros x o o' Hx Hf. by apply Hno in Hf.
  - intros o b Ho _ Hv Hf. by rewrite Hfree in Hf.
Qed.

Lemma free_pages_ok n fuel : forall k p,
  inv n k -> klock k = false -> 0 <= p ->
  let P := Z.max 0 (kend k - kstart_heap k) / 4096 in
  kend k mod 4096 = 0 -> kend k < 2 ^ 32 -> p <= P <= 32 * n -> P - p < Z.of_nat fuel ->
  (forall x, 0 <= x < heap_size n -> free_at n k x <-> x < 4096 * p) ->
  wp (free_pages fuel (kstart_heap k + 4096 * p)) (fun _ k' =>
    inv n k' /\ klock k' = false /\ kstart_heap k' = kstart_heap k /\ kend k' = kend k /\
    forall x, 0 <= x < heap_size n -> free_at n k' x <-> x < 4096 * P) k.
Proof.
  induction fuel as [|f IH]; intros k p Hi Hlk Hp P Hal Hend HpP Hfuel Hf; [lia|].
  cbn [free_pages]. apply wp_bind, wp_get. pose proof (inv_heap n k Hi) as (H1 & H2 & H3).
  change (2 ^ MAX_ORD) with 4096 in H2. unfold heap_size in *.
  assert (4096 * P = Z.max 0 (kend k - kstart_heap k)) as HP.
  { subst P. Z.div_mod_to_equations. lia. }
  apply wp_when; intros Hc; zbool.
  - assert (p < P) by lia. assert (valid_ord 12) as Ho by (unfold valid_ord, MIN_ORD, MAX_ORD; lia).
    apply wp_bind. eapply wp_mono.
    + apply (kfree_wp n k MAX_ORD); [done|done| |].
      * split; [done|]. unfold heap_size. change (2 ^ MAX_ORD) with 4096.
        split; [Z.div_mod_to_equations; lia|lia].
      * intros a Ha [Hx Hfa]. unfold in_block in Ha. change (2 ^ MAX_ORD) with 4096 in Ha.
        apply (Hf _ Hx) in Hfa. lia.
    + intros [] k1 (Hi1 & (Hl1 & _ & Hh1 & He1) & Hf1). change (Z.shiftl 1 MAX_ORD) with 4096.
      rewrite u32_small by lia.
      replace (kstart_heap k + 4096 * p + 4096) with (kstart_heap k1 + 4096 * (p + 1)) by lia.
      eapply wp_mono; [apply IH; rewrite ?Hh1, ?He1; try done; [congruence|lia|fold P; lia|fold P; lia|]|].
      * intros x Hx. specialize (Hf1 (x + kstart_heap k)). unfold free_byte, in_block in Hf1.
        rewrite Hh1, Z.add_simpl_r in Hf1. change (2 ^ MAX_ORD) with 4096 in Hf1.
        pose proof (Hf x Hx) as Hfx. unfold heap_size in Hf1. split.
        -- intros Hfree. destruct (proj1 Hf1 (conj Hx Hfree)) as [[_ Hq]|Hq]; [apply Hfx in Hq|]; lia.
        -- intros Hlt. apply Hf1. destruct (decide (x < 4096 * p)); [left; split; [done|by apply Hfx]|right; lia].
      * intros [] k' (A & B & C & D & E). rewrite Hh1, He1 in *. by split_and!.
  - assert (p = P) as -> by lia. by split_and!.
Qed.

Lemma align_up_page sz : 0 <= sz -> sz + 4095 < 2 ^ 32 ->
  align_up sz 4096 = (sz + 4095) / 4096 * 4096.
Proof.
  intros H1 H2. unfold align_up. replace (sz + 4096 - 1) with (sz + 4095) by lia.
  rewrite (u32_small (sz + 4095)) by lia.
  replace (Z.land (sz + 4095) (u32 (Z.lnot (4096 - 1)))) with (Z.ldiff (sz + 4095) (Z.ones 12)).
  - rewrite Z.ldiff_ones_r, Z.shiftl_mul_pow2, Z.shiftr_div_pow2 by lia. done.
  - apply Z.bits_inj'. intros i Hi. rewrite Z.ldiff_spec, Z.land_spec. unfold u32.
    destruct (decide (i < 32)).
    + rewrite Z.mod_pow2_bits_low, Z.lnot_spec by lia. done.
    + rewrite (testbit_high (sz + 4095) 32 i) by lia. done.
Qed.

Lemma kmem_init2_wp k vstart vend :
  let n := (vend - vstart) / 2 ^ 17 + 1 in
  0 < vstart <= vend -> vend + 2 ^ 21 <= 2 ^ 32 -> vend mod 4096 = 0 ->
  64 * n <= NIL -> zlen (korders k) = N_ORD -> klock k = false ->
  wp (kmem_init2 vstart vend) (fun _ k' =>
    inv n k' /\ klock k' = false /\ kstart_heap k' mod 4096 = 0 /\
    vstart + 8 * (127 * n) <= kstart_heap k' < vstart + 8 * (127 * n) + 4096 /\
    forall a, free_byte n k' a <-> kstart_heap k' <= a < vend) k.
Proof.
  intros n Hs He Hal Hn64 Hlen Hlk. unfold NIL in Hn64.
  assert (0 < n <= 1023) as Hn by (subst n; change (2 ^ 17) with 131072 in *; Z.div_mod_to_equations; lia).
  assert (vend - vstart < heap_size n) as Hhs by (unfold heap_size; subst n; change (2 ^ 17) with 131072; Z.div_mod_to_equations; lia).
  assert (heap_size n <= vend - vstart + 2 ^ 17) as Hhs2 by (unfold heap_size; subst n; change (2 ^ 17) with 131072; Z.div_mod_to_equations; lia).
  unfold kmem_init2. apply wp_bind, wp_modify. set (k0 := Kmem _ _ _ _ _ _). cbv zeta.
  rewrite (u32_small (vend - vstart)) by lia. rewrite !Z.shiftr_div_pow2 by (unfold MAX_ORD; lia).
  change (MAX_ORD + 5) with 17. fold n.
  apply wp_bind. eapply wp_mono.
  { assert (off n (N_ORD - 1 + MIN_ORD) = 0 /\ cnt n (N_ORD - 1 + MIN_ORD) = n) as [E1 E2]
      by (unfold off, cnt, N_ORD, MIN_ORD, MAX_ORD; change (2 ^ (12 - (12 - 6 + 1 - 1 + 6))) with 1; lia).
    rewrite <- E1 at 1. rewrite <- E2 at 2.
    apply (init_orders_ok n k0); [lia|lia|done|lia|].
    split; [done|]. split; [done|]. split; [|rewrite E1; lia].
    intros o Ho Hi. unfold valid_ord, N_ORD, MAX_ORD, MIN_ORD in *. lia. }
  intros total k1 [-> Hl]. apply wp_bind, wp_modify.
  assert (off n (MIN_ORD - 1) = 127 * n) as -> by (unfold off, MIN_ORD, MAX_ORD; change (2 ^ (12 - (6 - 1))) with 128; lia).
  change (Z.shiftl 1 MAX_ORD) with 4096. set (hp := align_up _ _).
  assert (hp = (vstart + 127 * n * 8 + 4095) / 4096 * 4096) as Hhp by (apply align_up_page; lia).
  assert (hp mod 4096 = 0 /\ vstart + 1016 * n <= hp < vstart + 1016 * n + 4096) as [Hh1 Hh2]
    by (rewrite Hhp; Z.div_mod_to_equations; lia).
  destruct (laid_out_inv n (set_kheap hp k1) (set_kheap hp k1)) as [Hi Hnf];
    [lia|unfold NIL; lia|destruct Hl as (A & _ & C & D); by split_and!|cbn; lia|exact Hh1|cbn; lia|].
  destruct Hl as (_ & (Hkl & _ & _ & Hke) & _). cbn in Hkl, Hke.
  change (free_pages ?f hp) with (free_pages f (kstart_heap (set_kheap hp k1)));
    rewrite <- (Z.add_0_r (kstart_heap (set_kheap hp k1))); change (?h + 0) with (h + 4096 * 0).
  eapply wp_mono; [apply (free_pages_ok n); cbn [set_kheap klock kend kstart_heap]; rewrite ?Hke; try done|].
  - congruence.
  - lia.
  - unfold heap_size in *. Z.div_mod_to_equations. lia.
  - change (2 ^ MAX_ORD) with 4096. Z.div_mod_to_equations. lia.
  - intros x Hx. pose proof (Hnf x Hx). split; [done|lia].
  - intros [] k' (Hi' & Hl' & Hhp' & Hke' & Hf'). cbn [set_kheap kend kstart_heap] in *. rewrite Hke in *.
    assert (4096 * (Z.max 0 (vend - hp) / 4096) = Z.max 0 (vend - hp)) as HP by (Z.div_mod_to_equations; lia).
    rewrite HP in Hf'. split; [done|]. split; [done|]. rewrite Hhp'. split; [done|]. split; [lia|].
    intros a. unfold free_byte. rewrite Hhp'. split.
    + intros [Hx Hfa]. apply Hf' in Hfa; lia.
    + intros Ha. split; [lia|]. apply Hf'; lia.
Qed.

(** ** Contracts of the entry points *)

(** C2: kmalloc. With the lock free and an order in range, it never panics or
    spins, releases the lock and keeps the invariant.  It returns NULL only
    if no block of at least the requested size is free, changing nothing;
    otherwise the returned block is aligned to its size, lies in the heap,
    was entirely free before and is exactly what leaves the set of free bytes. *)
Theorem kmalloc_spec n k o :
  inv n k -> klock k = false -> valid_ord o ->
  wp (kmalloc o) (fun r k' =>
    inv n k' /\ same_hdr k k' /\
    ((r = 0 /\ k' = k /\ forall o' b, o <= o' -> valid_blk n o' b -> free n k o' b = false) \/
     (heap_block n k o r /\ (forall a, in_block o r a -> free_byte n k a) /\
      forall a, free_byte n k' a <-> free_byte n k a /\ ~ in_block o r a))) k.
Proof. apply kmalloc_wp. Qed.

(** C3: kfree. Freeing an aligned heap block none of whose bytes is free
    succeeds, keeps the invariant (buddies merged, free blocks disjoint),
    releases the lock, and adds exactly the block's bytes to the free set. *)
Theorem kfree_spec n k o r :
  inv n k -> klock k = false -> heap_block n k o r ->
  (forall a, in_block o r a -> ~ free_byte n k a) ->
  wp (kfree r o) (fun _ k' =>
    inv n k' /\ same_hdr k k' /\
    forall a, free_byte n k' a <-> free_byte n k a \/ in_block o r a) k.
Proof. apply kfree_wp. Qed.


(** ** A small heap, to instantiate the contracts *)

(** 64 KB at 2 GB + 1 MB, set up by kmem_init2 from the zeroed BSS. *)
Definition demo_start : Z := 2 ^ 31 + 2 ^ 20.

Definition demo_end : Z := demo_start + 2 ^ 16.

Definition demo_kmem : kmem :=
  match kmem_init2 demo_start demo_end kmem_bss with Ok _ k => k | _ => kmem_bss end.

Lemma demo_kmem_ok :
  inv 1 demo_kmem /\ klock demo_kmem = false /\ kstart_heap demo_kmem = demo_start + 4096 /\
  forall a, free_byte 1 demo_kmem a <-> demo_start + 4096 <= a < demo_end.
Proof.
  assert (wp (kmem_init2 demo_start demo_end) (fun _ k' =>
    inv 1 k' /\ klock k' = false /\ kstart_heap k' mod 4096 = 0 /\
    demo_start + 8 * (127 * 1) <= kstart_heap k' < demo_start + 8 * (127 * 1) + 4096 /\
    forall a, free_byte 1 k' a <-> kstart_heap k' <= a < demo_end) kmem_bss) as H
    by (apply kmem_init2_wp; unfold demo_start, demo_end, NIL; done || lia).
  apply wp_ok in H as ([] & k & Hk & Hi & Hl & Hm & Hr & Hf). unfold demo_kmem. rewrite Hk.
  assert (kstart_heap k = demo_start + 4096) as E
    by (unfold demo_start, demo_end in *; Z.div_mod_to_equations; lia).
  rewrite E in Hf. exact (conj Hi (conj Hl (conj E Hf))).
Qed.

Lemma demo_heap_block o r :
  valid_ord o -> r mod 2 ^ o = 0 -> demo_start + 4096 <= r -> r + 2 ^ o <= demo_start + 4096 + 2 ^ 17 ->
  heap_block 1 demo_kmem o r.
Proof.
  intros. destruct demo_kmem_ok as (_ & _ & E & _). unfold heap_block, heap_size. rewrite E.
  split_and!; done || lia.
Qed.

Lemma kmalloc_spec_witness :
  wp (kmalloc 8) (fun r k' => inv 1 k' /\ same_hdr demo_kmem k') demo_kmem.
Proof.
  destruct demo_kmem_ok as (Hi & Hl & _).
  eapply wp_mono; [apply (kmalloc_spec 1 demo_kmem 8 Hi Hl); split; by vm_compute|].
  intros r k' (H1 & H2 & _). by split.
Defined.

Lemma kfree_spec_witness :
  wp (kfree demo_end 12) (fun _ k' => free_byte 1 k' demo_end) demo_kmem.
Proof.
  destruct demo_kmem_ok as (Hi & Hl & _ & Hf).
  assert (valid_ord 12) by (split; by vm_compute).
  eapply wp_mono; [apply (kfree_spec 1 demo_kmem 12 demo_end Hi Hl)|].
  - apply demo_heap_block; unfold demo_end, demo_start; [done|reflexivity|lia|lia].
  - intros a Ha Hfa. apply Hf in Hfa. unfold in_block in Ha. lia.
  - intros [] k' (_ & _ & Hf'). apply Hf'. right. unfold in_block. lia.
Defined.


Lemma kmalloc_kfree_roundtrip_witness :
  wp (r <- kmalloc 8 ;; when (negb (r =? 0)) (kfree r 8)) (fun _ k' =>
    inv 1 k' /\ klock k' = false /\ forall a, free_byte 1 k' a <-> free_byte 1 demo_kmem a) demo_kmem.
Proof.
  destruct demo_kmem_ok as (Hi & Hl & _).
  apply (kmalloc_kfree_roundtrip 1 demo_kmem 8 Hi Hl); split; by vm_compute.
Defined.

Lemma kfree_errors_witness :
  kfree 100 6 demo_kmem = Panic "kfree: order out of range or memory unaligned" /\
  kfree (demo_start + 4096) 12 demo_kmem = Panic "kfree: double free".
Proof.
  destruct demo_kmem_ok as (Hi & Hl & _). split.
  - apply (proj1 (kfree_errors 1 demo_kmem 6 100)). right; right. split; [lia|by vm_compute].
  - apply (proj2 (kfree_errors 1 demo_kmem 12 (demo_start + 4096))); [done|done| |by vm_compute].
    apply demo_heap_block; [split; by vm_compute|reflexivity|lia|lia].
Defined.

Lemma get_order_correct_witness : get_order 1000 kmem_bss = Ok 10 kmem_bss.
Proof. rewrite (get_order_correct 1000 kmem_bss); [by vm_compute|lia]. Defined.

(** ** The limit of the 16-bit links *)

(** The layout kmain sets up: 1 MB to 192 MB of RAM gives 1529 top-order
    marks, hence 97856 marks of order 6, more than 16 bits can index.  The
    marks below are three of that order, two of them with an allocated
    last block each and the rest free. *)
Definition boot_marks : Z := Z.shiftr (201326592 - 1048576) (MAX_ORD + 5) + 1.

Definition boot_fragment : kmem :=
  Kmem false 0 4096 0
    (map (fun o => Order NIL (off boot_marks o)) [6; 7; 8; 9; 10; 11; 12])
    (list_to_map (map (fun i => (off boot_marks 6 + i, blank)) [4; 4464; 70000])).

