(* ===== verification/Cpu.v ===== *)
(** * arm.c and spinlock.c: interrupt masking and the spin lock

    One CPU's status register and nesting counter, the matched
    pushcli/popcli, the call-stack walk, and the spin lock.  The lock's
    LDREX/STREX loop is modelled instruction by instruction for any number of
    CPUs, with the exclusive monitor of the ARM architecture, as a step
    relation; mutual exclusion is an invariant of the reachable states. *)

From S2P Require Import Prelude.

Definition PSR_DISABLE_IRQ : Z := 128.

Definition PSR_MASK : Z := 31.

Definition PSR_MODE_USR : Z := 16.

(** struct cpu: the part the interrupt code uses, with the CPU's cpsr. *)
Record cpu := Cpu { cpsr : Z; ncli : Z; intena : bool }.

Definition cli : M cpu unit :=
  modify (fun c => Cpu (Z.lor (cpsr c) PSR_DISABLE_IRQ) (ncli c) (intena c)).

Definition sti : M cpu unit :=
  modify (fun c => Cpu (Z.land (cpsr c) (u32 (Z.lnot PSR_DISABLE_IRQ))) (ncli c) (intena c)).

Definition readcpsr : M cpu Z := gets cpsr.

(** The cpsr given to a user program: this one, in user mode. *)
Definition cpsr_usr : M cpu Z :=
  gets (fun c => Z.lor (Z.land (cpsr c) (u32 (Z.lnot PSR_MASK))) PSR_MODE_USR).

Definition int_enabled (c : cpu) : bool := Z.land (cpsr c) PSR_DISABLE_IRQ =? 0.

Definition pushcli : M cpu unit :=
  enabled <- gets int_enabled ;;
  cli ;;;
  modify (fun c =>
    Cpu (cpsr c) (ncli c + 1) (if ncli c =? 0 then enabled else intena c)).

Definition popcli : M cpu unit :=
  enabled <- gets int_enabled ;;
  if enabled then panic "popcli - interruptible" else
  modify (fun c => Cpu (cpsr c) (ncli c - 1) (intena c)) ;;;
  c <- get ;;
  if ncli c <? 0 then panic "popcli -- ncli < 0" else
  when ((ncli c =? 0) && intena c) sti.

(** ** getcallerpcs *)

Definition N_CALLSTK : Z := 15.

Definition KERNBASE : Z := 2 ^ 31.

(** [pcs[i] = v]: a store beyond the end of the caller's array is a fault. *)
Definition store_pc (i v : Z) : M (list Z) unit :=
  pcs <- get ;; if i <? zlen pcs then put (zset pcs i v) else fault.

(** The walk along the saved frame pointers ([word a] is the 32-bit word at
    [a]); it returns the index at which it stopped. *)
Fixpoint walk_frames (word : Z -> Z) (n : nat) (fp i : Z) : M (list Z) Z :=
  match n with
  | O => ret i
  | S n' =>
      if (fp =? 0) || (fp <? KERNBASE) || (fp =? 4294967295) then ret i else
      let fp := u32 (fp - 4) in
      store_pc i (word (u32 (fp + 4))) ;;;
      walk_frames word n' (word fp) (i + 1)
  end.

Definition getcallerpcs (word : Z -> Z) (v : Z) : M (list Z) unit :=
  i <- walk_frames word (Z.to_nat N_CALLSTK) v 0 ;;
  for_ i (Z.to_nat (N_CALLSTK - i)) (fun i => store_pc i 0).

(** ** The spin lock *)

(** struct spinlock: [locked] is the word that LDREX/STREX work on,
    [lcpu] the CPU recorded as the holder, [pcs0] is pcs[0]. *)
Record spinlock := Spinlock { locked : Z; lcpu : option Z; pcs0 : Z }.

Definition initlock : spinlock := Spinlock 0 None 0.

Definition holding (lk : spinlock) (me : Z) : bool :=
  negb (locked lk =? 0) && bool_decide (lcpu lk = Some me).

(** Where a CPU is in acquire/release. *)
Inductive pc : Type :=
| Idle         (* outside *)
| Ldrex        (* acquire, label 1: about to execute LDREX *)
| Wfe          (* LDREX read a non-zero word: WFENE, then branch back *)
| Strex        (* LDREX read 0: about to execute STREXEQ *)
| SetCpu       (* the store succeeded: about to record lk->cpu *)
| Critical     (* acquire returned *)
| ClearCpu     (* release: about to clear pcs[0] and lk->cpu *)
| Unlock       (* release: about to store 0 into locked and send the event *)
| PopCli.      (* release: about to call popcli *)

#[export] Instance pc_eq_dec : EqDecision pc.
Proof. solve_decision. Defined.

(** One CPU: its registers, its position and its exclusive monitor on the
    lock word. *)
Record core := Core { core_cpu : cpu; core_pc : pc; core_mon : bool }.

Record smp := Smp { lk : spinlock; cores : Z -> core }.

Definition at_core (g : Z -> core) (c : Z) (x : core) : Z -> core :=
  fun d => if decide (d = c) then x else g d.

(** A store to the lock word clears every exclusive monitor on it. *)
Definition clear_mon (g : Z -> core) : Z -> core :=
  fun d => Core (core_cpu (g d)) (core_pc (g d)) false.

(** One instruction of CPU [c].  [None]: the CPU cannot take this step
    (popcli panics, or the CPU is outside and does not call acquire).  From
    [Idle] the step calls acquire, from [Critical] it calls release. *)
Definition step_core (c : Z) (s : smp) : option smp :=
  let x := cores s c in
  let goto p := Smp (lk s) (at_core (cores s) c (Core (core_cpu x) p (core_mon x))) in
  match core_pc x with
  | Idle =>
      match pushcli (core_cpu x) with
      | Ok _ u => Some (Smp (lk s) (at_core (cores s) c (Core u Ldrex (core_mon x))))
      | _ => None
      end
  | Ldrex =>
      Some (Smp (lk s) (at_core (cores s) c
        (Core (core_cpu x) (if locked (lk s) =? 0 then Strex else Wfe) true)))
  | Wfe => Some (goto Ldrex)
  | Strex =>
      if core_mon x
      then Some (Smp (Spinlock 1 (lcpu (lk s)) (pcs0 (lk s)))
                  (at_core (clear_mon (cores s)) c (Core (core_cpu x) SetCpu false)))
      else Some (goto Ldrex)
  | SetCpu =>
      Some (Smp (Spinlock (locked (lk s)) (Some c) (pcs0 (lk s)))
              (at_core (cores s) c (Core (core_cpu x) Critical (core_mon x))))
  | Critical => Some (goto ClearCpu)
  | ClearCpu =>
      Some (Smp (Spinlock (locked (lk s)) None 0)
              (at_core (cores s) c (Core (core_cpu x) Unlock (core_mon x))))
  | Unlock =>
      Some (Smp (Spinlock 0 (lcpu (lk s)) (pcs0 (lk s)))
              (at_core (clear_mon (cores s)) c (Core (core_cpu x) PopCli false)))
  | PopCli =>
      match popcli (core_cpu x) with
      | Ok _ u => Some (Smp (lk s) (at_core (cores s) c (Core u Idle (core_mon x))))
      | _ => None
      end
  end.

(** The interleavings of all CPUs from a free lock. *)
Definition initial (s : smp) : Prop :=
  lk s = initlock /\ forall c, core_pc (cores s c) = Idle /\ ncli (core_cpu (cores s c)) = 0.

Inductive reachable : smp -> Prop :=
| reach_init s : initial s -> reachable s
| reach_step s c s' : reachable s -> step_core c s = Some s' -> reachable s'.

(** ** Interrupt masking nests *)

Lemma irq_bit x : Z.land x PSR_DISABLE_IRQ = if Z.testbit x 7 then 128 else 0.
Proof. apply (land_bit x 7). lia. Qed.

Lemma int_enabled_bit c : int_enabled c = negb (Z.testbit (cpsr c) 7).
Proof. unfold int_enabled. rewrite irq_bit. by destruct (Z.testbit (cpsr c) 7). Qed.

Lemma lor_irq_bit x : Z.testbit (Z.lor x PSR_DISABLE_IRQ) 7 = true.
Proof. rewrite Z.lor_spec. apply orb_true_r. Qed.

Lemma lor_irq_id x : Z.testbit x 7 = true -> Z.lor x PSR_DISABLE_IRQ = x.
Proof.
  intros H. apply Z.bits_inj'. intros i Hi. rewrite Z.lor_spec. change PSR_DISABLE_IRQ with (2 ^ 7).
  rewrite Z.pow2_bits_eqb by lia. destruct (Z.eqb_spec 7 i) as [<-|]; [by rewrite H|apply orb_false_r].
Qed.

(** sti undoes cli on a 32-bit cpsr with interrupts enabled. *)
Lemma unmask_mask x : is_u32 x -> Z.testbit x 7 = false ->
  Z.land (Z.lor x PSR_DISABLE_IRQ) (u32 (Z.lnot PSR_DISABLE_IRQ)) = x.
Proof.
  intros Hx H. apply Z.bits_inj'. intros i Hi. rewrite Z.land_spec, Z.lor_spec. unfold u32.
  destruct (decide (i < 32)).
  - rewrite Z.mod_pow2_bits_low, Z.lnot_spec by lia. change PSR_DISABLE_IRQ with (2 ^ 7).
    rewrite Z.pow2_bits_eqb by lia. destruct (Z.eqb_spec 7 i) as [<-|]; [by rewrite H|].
    cbn. by rewrite orb_false_r, andb_true_r.
  - rewrite (testbit_high x 32 i) by (done || lia).
    rewrite Z.mod_pow2_bits_high by lia. by rewrite andb_false_r.
Qed.

(** A sequence of calls: [true] is pushcli, [false] is popcli.  [depth d ops]
    is the nesting depth after [ops], [None] if a popcli is unmatched. *)
Fixpoint depth (d : Z) (ops : list bool) : option Z :=
  match ops with
  | [] => Some d
  | true :: ops' => depth (d + 1) ops'
  | false :: ops' => if 0 <? d then depth (d - 1) ops' else None
  end.

Fixpoint run_cli (ops : list bool) : M cpu unit :=
  match ops with
  | [] => ret tt
  | b :: ops' => (if b then pushcli else popcli) ;;; run_cli ops'
  end.

(** The state of a CPU whose cpsr was [x] before [d] unmatched pushcli. *)
Definition nested (x d : Z) (c : cpu) : Prop :=
  0 <= d /\ ncli c = d /\
  (if d =? 0 then cpsr c = x
   else cpsr c = Z.lor x PSR_DISABLE_IRQ /\ intena c = negb (Z.testbit x 7)).

Lemma pushcli_nested x d c : nested x d c -> wp pushcli (fun _ => nested x (d + 1)) c.
Proof.
  intros (Hd & Hn & Hx). unfold pushcli, cli. repeat apply wp_bind || apply wp_gets || apply wp_modify.
  cbn. rewrite Hn. split; [lia|]. split; [done|]. rewrite (proj2 (Z.eqb_neq (d + 1) 0)) by lia.
  destruct (Z.eqb_spec d 0); cbn.
  - rewrite int_enabled_bit. by rewrite Hx.
  - destruct Hx as [-> ->]. split; [|done]. by rewrite <- Z.lor_assoc, Z.lor_diag.
Qed.

Lemma popcli_nested x d c : is_u32 x -> nested x d c -> 0 < d -> wp popcli (fun _ => nested x (d - 1)) c.
Proof.
  intros Hu (Hd & Hn & Hx) Hpos. rewrite (proj2 (Z.eqb_neq d 0)) in Hx by lia. destruct Hx as [Hx Hi].
  unfold popcli. apply wp_bind, wp_gets. rewrite int_enabled_bit, Hx, lor_irq_bit. cbn [negb].
  apply wp_bind, wp_modify, wp_bind, wp_get. cbn. rewrite Hn, (proj2 (Z.ltb_ge (d - 1) 0)) by lia.
  unfold nested. apply wp_when; intros Hc; cbn.
  - zbool. rewrite H, Hx. split_and!; [done..|]. cbn. apply unmask_mask; [done|].
    rewrite Hi in *. by destruct (Z.testbit x 7).
  - rewrite Hx, Hi. split; [lia|]. split; [done|]. destruct (Z.eqb_spec (d - 1) 0); [|done].
    cbn in Hc. rewrite Hi in Hc. apply lor_irq_id. by destruct (Z.testbit x 7).
Qed.

Lemma run_cli_nested x ops : forall d d' c,
  is_u32 x -> nested x d c -> depth d ops = Some d' -> wp (run_cli ops) (fun _ => nested x d') c.
Proof.
  induction ops as [|b ops IH]; intros d d' c Hu Hn Hd; cbn in *.
  - by injection Hd as ->.
  - apply wp_bind. destruct b.
    + eapply wp_mono; [by apply pushcli_nested|]. intros [] c' Hc. by eapply IH.
    + destruct (Z.ltb_spec 0 d); [|done].
      eapply wp_mono; [by apply (popcli_nested x d)|]. intros [] c' Hc. by eapply IH.
Qed.

(** Pushcli and popcli are matched. Any sequence of calls in which no
    popcli is unmatched runs without panic; while it is [d > 0] calls deep
    interrupts are masked, and as soon as it is balanced again the cpsr is the
    one before the first pushcli: interrupts come back on exactly if they were. *)
Theorem pushcli_popcli_nest ops d c :
  is_u32 (cpsr c) -> ncli c = 0 -> depth 0 ops = Some d ->
  wp (run_cli ops) (fun _ c' =>
    ncli c' = d /\ (d = 0 -> cpsr c' = cpsr c) /\ (0 < d -> int_enabled c' = false)) c.
Proof.
  intros Hu Hn Hd. eapply wp_mono; [apply (run_cli_nested (cpsr c) ops 0 d); [done|by split|done]|].
  intros [] c' (H1 & H2 & H3). split; [done|]. split.
  - intros ->. done.
  - intros Hpos. rewrite (proj2 (Z.eqb_neq d 0)) in H3 by lia. destruct H3 as [H3 _].
    by rewrite int_enabled_bit, H3, lor_irq_bit.
Qed.

Lemma pushcli_popcli_nest_witness :
  wp (run_cli [true; true; false; false]) (fun _ c' => cpsr c' = 19) (Cpu 19 0 false).
Proof.
  eapply wp_mono; [apply (pushcli_popcli_nest [true; true; false; false] 0 (Cpu 19 0 false)); unfold is_u32; cbn; done || lia|].
  intros [] c' (_ & H & _). by apply H.
Defined.

(** ** getcallerpcs *)

Lemma walk_frames_ok word n : forall fp i pcs, 0 <= i -> i + Z.of_nat n <= zlen pcs ->
  wp (walk_frames word n fp i) (fun j pcs' =>
    i <= j <= i + Z.of_nat n /\ zlen pcs' = zlen pcs /\
    forall k, k < i \/ j <= k -> zget pcs' k = zget pcs k) pcs.
Proof.
  induction n as [|n IH]; intros fp i pcs Hi Hn; cbn [walk_frames].
  { split; [lia|done]. }
  destruct (_ || _); [split; [lia|done]|]. apply wp_bind. unfold store_pc.
  apply wp_bind, wp_get. rewrite (proj2 (Z.ltb_lt i (zlen pcs))) by lia. apply wp_put.
  eapply wp_mono; [apply IH; rewrite ?zlen_zset; lia|].
  intros j pcs' (Hj & Hl & Hk). rewrite zlen_zset in Hl. split; [lia|]. split; [done|].
  intros k Hk'. rewrite Hk by lia. apply zget_zset_ne. lia.
Qed.

Lemma store_pcs_ok v n : forall i pcs, 0 <= i -> i + Z.of_nat n <= zlen pcs ->
  wp (for_ i n (fun i => store_pc i v)) (fun _ pcs' =>
    zlen pcs' = zlen pcs /\
    (forall k, k < i \/ i + Z.of_nat n <= k -> zget pcs' k = zget pcs k) /\
    forall k, i <= k < i + Z.of_nat n -> zget pcs' k = Some v) pcs.
Proof.
  intros i pcs Hi Hn.
  eapply wp_mono; [apply (wp_for _ (fun j t => zlen t = zlen pcs /\
    (forall k, k < i \/ i + Z.of_nat n <= k -> zget t k = zget pcs k) /\
    forall k, i <= k < j -> zget t k = Some v))|done].
  - split; [done|]. split; [done|lia].
  - intros j t Hj (H1 & H2 & H3). unfold store_pc. apply wp_bind, wp_get.
    rewrite (proj2 (Z.ltb_lt j (zlen t))) by lia. apply wp_put.
    rewrite zlen_zset. split; [done|]. split.
    + intros k Hk. rewrite zget_zset_ne by lia. by apply H2.
    + intros k Hk. destruct (decide (k = j)) as [->|]; [apply zget_zset_eq; lia|].
      rewrite zget_zset_ne by lia. apply H3. lia.
Qed.

Lemma store_pc_eq i v pcs :
  store_pc i v pcs = if i <? zlen pcs then Ok tt (zset pcs i v) else Fault.
Proof. unfold store_pc, bind, get. by case_if. Qed.

Lemma walk_frames_overrun word n : forall fp i pcs, 0 <= i -> i <= zlen pcs < i + Z.of_nat n ->
  walk_frames word n fp i pcs = Fault \/
  exists j pcs', walk_frames word n fp i pcs = Ok j pcs' /\ i <= j <= zlen pcs /\ zlen pcs' = zlen pcs.
Proof.
  induction n as [|n IH]; intros fp i pcs Hi Hn; [lia|]. cbn [walk_frames].
  destruct (_ || _); [right; exists i, pcs; split; [done|]; split; [lia|done]|].
  unfold bind. rewrite store_pc_eq. case_if; [|by left].
  destruct (IH (word (u32 (fp - 4))) (i + 1) (zset pcs i (word (u32 (u32 (fp - 4) + 4))))) as
    [H'|(j & pcs' & H' & Hj & Hl)]; [lia|rewrite zlen_zset; lia|by left|].
  rewrite zlen_zset in Hj, Hl. right. exists j, pcs'. split; [done|]. split; [lia|done].
Qed.

Lemma store_pcs_overrun v n : forall i pcs, 0 <= i <= zlen pcs -> zlen pcs < i + Z.of_nat n ->
  for_ i n (fun i => store_pc i v) pcs = Fault.
Proof.
  induction n as [|n IH]; intros i pcs Hi Hn; [lia|]. cbn [for_].
  unfold bind. rewrite store_pc_eq. case_if; [|done]. apply IH; rewrite zlen_zset; lia.
Qed.

(** Getcallerpcs writes N_CALLSTK (15) entries whatever the stack looks
    like: an array of at least 15 entries is filled in place and nothing behind
    the 15th changes; with a shorter one it writes out of bounds.  (panic()
    passes an array of 10.) *)
Theorem getcallerpcs_bounds word fp pcs :
  (N_CALLSTK <= zlen pcs ->
   wp (getcallerpcs word fp) (fun _ pcs' =>
     zlen pcs' = zlen pcs /\ forall k, N_CALLSTK <= k -> zget pcs' k = zget pcs k) pcs) /\
  (zlen pcs < N_CALLSTK -> getcallerpcs word fp pcs = Fault).
Proof.
  unfold getcallerpcs, N_CALLSTK. split; intros Hl.
  - apply wp_bind. eapply wp_mono; [apply walk_frames_ok; lia|]. intros j pcs1 (Hj & Hl1 & Hk1).
    eapply wp_mono; [apply store_pcs_ok; lia|]. intros [] pcs' (Hl2 & Hk2 & _).
    split; [lia|]. intros k Hk. rewrite Hk2, Hk1 by lia. done.
  - assert (0 <= zlen pcs) by (unfold zlen; lia).
    destruct (walk_frames_overrun word 15 fp 0 pcs) as [H'|(j & pcs' & H' & Hj & Hl')]; [lia|lia|..].
    + change (Z.to_nat 15) with 15%nat. unfold bind. by rewrite H'.
    + change (Z.to_nat 15) with 15%nat. rewrite (bind_ok _ _ _ _ _ H'). apply store_pcs_overrun; lia.
Qed.

Lemma getcallerpcs_bounds_witness :
  getcallerpcs (fun _ => 0) (KERNBASE + 4096) (replicate 10 0) = Fault.
Proof. apply (getcallerpcs_bounds (fun _ => 0)). by vm_compute. Defined.

(** ** Mutual exclusion *)

(** Between a successful STREX and the store of 0. *)
Definition inside (p : pc) : Prop := p = SetCpu \/ p = Critical \/ p = ClearCpu \/ p = Unlock.

#[export] Instance inside_dec p : Decision (inside p).
Proof. unfold inside. apply _. Defined.

Record lock_inv (s : smp) : Prop := {
  li_mutex : forall c d, inside (core_pc (cores s c)) -> inside (core_pc (cores s d)) -> c = d;
  li_held : forall c, inside (core_pc (cores s c)) -> locked (lk s) = 1;
  li_free : locked (lk s) <> 0 -> exists c, inside (core_pc (cores s c));
  li_mon : forall c, core_pc (cores s c) = Strex -> core_mon (cores s c) = true -> locked (lk s) = 0;
  li_cpu : forall c, core_pc (cores s c) = Critical -> lcpu (lk s) = Some c;
  li_irq : forall c, if decide (core_pc (cores s c) = Idle)
    then ncli (core_cpu (cores s c)) = 0
    else ncli (core_cpu (cores s c)) = 1 /\ int_enabled (core_cpu (cores s c)) = false
}.

Lemma at_core_eq g c x : at_core g c x c = x.
Proof. unfold at_core. by rewrite decide_True. Qed.

Lemma at_core_ne g c d x : d <> c -> at_core g c x d = g d.
Proof. intros. unfold at_core. by rewrite decide_False. Qed.

(** popcli of a CPU one deep. *)
Lemma popcli_last u u' : ncli u = 1 -> popcli u = Ok tt u' -> ncli u' = 0.
Proof.
  unfold popcli, when, bind, gets, get, modify, sti, panic, ret. intros Hn.
  destruct (int_enabled u); [done|]. cbn. rewrite Hn. cbn.
  destruct (intena u); cbn; by intros [= <-].
Qed.

Lemma pushcli_first u u' : ncli u = 0 -> pushcli u = Ok tt u' -> ncli u' = 1 /\ int_enabled u' = false.
Proof.
  unfold pushcli, cli, bind, gets, modify. intros Hn [= <-]. cbn. rewrite Hn. split; [done|].
  rewrite int_enabled_bit. cbn [cpsr]. by rewrite lor_irq_bit.
Qed.

(** The invariant speaks of a CPU that moved ([c]) and of the others, whose
    position is unchanged; [split_core] separates the two. *)
Ltac split_core c :=
  repeat match goal with
  | H : context [at_core _ c _ c] |- _ => rewrite at_core_eq in H
  | |- context [at_core _ c _ c] => rewrite at_core_eq
  | N : ?d <> c, H : context [at_core _ c _ ?d] |- _ => rewrite at_core_ne in H by done
  | N : ?d <> c |- context [at_core _ c _ ?d] => rewrite at_core_ne by done
  | H : context [at_core _ c _ ?d] |- _ => destruct (decide (d = c)) as [->|]
  | |- context [at_core _ c _ ?d] => destruct (decide (d = c)) as [->|]
  end.

Lemma lock_inv_init s : initial s -> lock_inv s.
Proof.
  intros [Hlk Hc]. assert (forall c, ~ inside (core_pc (cores s c))) as Hni.
  { intros c. rewrite (proj1 (Hc c)). unfold inside. naive_solver. }
  split; try (intros c; rewrite (proj1 (Hc c)); done).
  - intros c d H. by apply Hni in H.
  - intros c H. by apply Hni in H.
  - by rewrite Hlk.
  - intros c. rewrite decide_True by apply Hc. apply Hc.
Qed.

(** A step of a CPU outside that stays outside and leaves the lock alone. *)
Lemma lock_inv_outside s c p m u :
  lock_inv s -> ~ inside (core_pc (cores s c)) -> ~ inside p ->
  (p = Strex -> m = true -> locked (lk s) = 0) ->
  (if decide (p = Idle) then ncli u = 0 else ncli u = 1 /\ int_enabled u = false) ->
  lock_inv (Smp (lk s) (at_core (cores s) c (Core u p m))).
Proof.
  intros [I1 I2 I3 I4 I5 I6] Hc Hp Hm Hu. split; cbn [lk cores]; intros.
  - split_core c; cbn in *; try done. by apply I1.
  - split_core c; cbn in *; [done|]. by eapply I2.
  - destruct (I3 H) as [d Hd]. exists d. rewrite at_core_ne; [done|]. by intros ->.
  - split_core c; cbn in *; [by apply Hm|]. by eapply I4.
  - split_core c; cbn in *; [subst; by destruct Hp; right; left|]. by apply I5.
  - split_core c; cbn in *; [done|]. apply I6.
Qed.

(** A step of the CPU inside that stays inside and keeps the lock word. *)
Lemma lock_inv_inside s c p v w :
  lock_inv s -> inside (core_pc (cores s c)) -> inside p -> (p = Critical -> v = Some c) ->
  lock_inv (Smp (Spinlock (locked (lk s)) v w)
              (at_core (cores s) c (Core (core_cpu (cores s c)) p (core_mon (cores s c))))).
Proof.
  intros [I1 I2 I3 I4 I5 I6] Hc Hp Hv. split; cbn [lk cores locked lcpu]; intros.
  - split_core c; cbn in *; try done; by apply I1.
  - by eapply I2.
  - exists c. by rewrite at_core_eq.
  - split_core c; cbn in *; [subst; unfold inside in Hp; naive_solver|]. by eapply I4.
  - split_core c; cbn in *; [by apply Hv|].
    exfalso. apply n. apply I1; [|done]. rewrite H. by right; left.
  - split_core c; cbn in *; [|apply I6]. specialize (I6 c).
    rewrite decide_False in I6 by (intros E; rewrite E in Hc; unfold inside in Hc; naive_solver).
    by rewrite decide_False by (intros ->; unfold inside in Hp; naive_solver).
Qed.

(** The two stores to the lock word: taking it and giving it back. *)
Lemma lock_inv_take s c :
  lock_inv s -> core_pc (cores s c) = Strex -> core_mon (cores s c) = true ->
  lock_inv (Smp (Spinlock 1 (lcpu (lk s)) (pcs0 (lk s)))
              (at_core (clear_mon (cores s)) c (Core (core_cpu (cores s c)) SetCpu false))).
Proof.
  intros [I1 I2 I3 I4 I5 I6] Hc Hm. pose proof (I4 c Hc Hm) as H0.
  assert (forall d, ~ inside (core_pc (cores s d))) as Hno by (intros d Hd; apply I2 in Hd; lia).
  split; cbn [lk cores locked lcpu]; intros.
  - split_core c; cbn in *; try done; by edestruct Hno.
  - done.
  - exists c. rewrite at_core_eq. by left.
  - split_core c; cbn in *; done.
  - split_core c; cbn in *; [done|]. by apply I5.
  - split_core c; cbn in *; [|apply I6]. specialize (I6 c). by rewrite Hc in I6.
Qed.

Lemma lock_inv_give s c :
  lock_inv s -> core_pc (cores s c) = Unlock ->
  lock_inv (Smp (Spinlock 0 (lcpu (lk s)) (pcs0 (lk s)))
              (at_core (clear_mon (cores s)) c (Core (core_cpu (cores s c)) PopCli false))).
Proof.
  intros [I1 I2 I3 I4 I5 I6] Hc.
  assert (inside (core_pc (cores s c))) as Hin by (rewrite Hc; unfold inside; naive_solver).
  assert (forall d, d <> c -> ~ inside (core_pc (cores s d))) as Hno by (intros d Hd ?; apply Hd; by apply I1).
  assert (~ inside PopCli) by (unfold inside; naive_solver).
  split; cbn [lk cores locked lcpu]; intros.
  - split_core c; cbn in *; try done. by edestruct Hno.
  - split_core c; cbn in *; [done|]. by edestruct Hno.
  - done.
  - done.
  - split_core c; cbn in *; [done|]. by apply I5.
  - split_core c; cbn in *; [|apply I6]. specialize (I6 c). by rewrite Hc in I6.
Qed.

Lemma lock_inv_step s c s' : lock_inv s -> step_core c s = Some s' -> lock_inv s'.
Proof.
  intros Hi Hs. pose proof (li_irq s Hi c) as Hirq. unfold step_core in Hs.
  destruct (core_pc (cores s c)) eqn:Hpc.
  - destruct (pushcli (core_cpu (cores s c))) as [[] u| | | | |] eqn:Hp; try done. injection Hs as <-.
    apply lock_inv_outside; try done; [rewrite Hpc|..]; try (unfold inside; naive_solver).
    by apply (pushcli_first (core_cpu (cores s c))).
  - injection Hs as <-. apply lock_inv_outside; try done; [rewrite Hpc; unfold inside; naive_solver|..].
    + destruct (_ =? 0); unfold inside; naive_solver.
    + intros H _. by destruct (Z.eqb_spec (locked (lk s)) 0).
    + by destruct (_ =? 0).
  - injection Hs as <-. apply lock_inv_outside; try done; [rewrite Hpc|]; unfold inside; naive_solver.
  - destruct (core_mon (cores s c)) eqn:Hm; injection Hs as <-.
    + by apply lock_inv_take.
    + apply lock_inv_outside; try done; [rewrite Hpc|]; unfold inside; naive_solver.
  - injection Hs as <-. apply lock_inv_inside; try done; [rewrite Hpc|]; unfold inside; naive_solver.
  - injection Hs as <-. pose proof (lock_inv_inside s c ClearCpu (lcpu (lk s)) (pcs0 (lk s)) Hi) as H.
    destruct (lk s); apply H; [rewrite Hpc| |done]; unfold inside; naive_solver.
  - injection Hs as <-. apply lock_inv_inside; try done; [rewrite Hpc|]; unfold inside; naive_solver.
  - injection Hs as <-. by apply lock_inv_give.
  - destruct (popcli (core_cpu (cores s c))) as [[] u| | | | |] eqn:Hp; try done. injection Hs as <-.
    apply lock_inv_outside; try done; [rewrite Hpc|..]; try (unfold inside; naive_solver).
    eapply popcli_last; [|done]. apply Hirq.
Qed.

Lemma reachable_inv s : reachable s -> lock_inv s.
Proof. induction 1; [by apply lock_inv_init|by eapply lock_inv_step]. Qed.

(** C25: the spin lock gives mutual exclusion. In every state that any
    interleaving of any number of CPUs reaches, at most one CPU is between
    the return of acquire and its release; that CPU (and no other) is the one
    holding() reports, and its interrupts are masked. *)
Theorem spinlock_mutual_exclusion s c :
  reachable s -> core_pc (cores s c) = Critical ->
  (forall d, core_pc (cores s d) = Critical -> d = c) /\
  (forall d, holding (lk s) d = true <-> d = c) /\
  int_enabled (core_cpu (cores s c)) = false.
Proof.
  intros [I1 I2 I3 I4 I5 I6]%reachable_inv Hc.
  assert (inside (core_pc (cores s c))) as Hin by (rewrite Hc; by right; left).
  split; [|split].
  - intros d Hd. apply I1; [|done]. rewrite Hd. by right; left.
  - intros d. unfold holding. rewrite (I2 c Hin), (I5 c Hc). cbn. rewrite bool_decide_eq_true. naive_solver.
  - specialize (I6 c). rewrite Hc in I6. apply I6.
Qed.

(** A run of the steps of the given CPUs. *)
Fixpoint run_cores (cs : list Z) (s : smp) : option smp :=
  match cs with
  | [] => Some s
  | c :: cs' => s' ← step_core c s; run_cores cs' s'
  end.

Lemma run_cores_reachable cs : forall s s', reachable s -> run_cores cs s = Some s' -> reachable s'.
Proof.
  induction cs as [|c cs IH]; intros s s' Hr H; cbn in H; [by injection H as <-|].
  destruct (step_core c s) as [s1|] eqn:E; [|done]. eapply IH; [|done]. by eapply reach_step.
Qed.

(** An acquire that runs while the lock stays free succeeds: from the
    LDREX, a CPU whose lock word is 0 and that is not disturbed holds the lock
    after three instructions. *)
Theorem acquire_progress s c :
  core_pc (cores s c) = Ldrex -> locked (lk s) = 0 ->
  exists s', run_cores [c; c; c] s = Some s' /\
    core_pc (cores s' c) = Critical /\ holding (lk s') c = true.
Proof.
  intros Hc H0.
  pose (s1 := Smp (lk s) (at_core (cores s) c (Core (core_cpu (cores s c)) Strex true))).
  assert (step_core c s = Some s1) as H1 by (unfold step_core; by rewrite Hc, H0).
  assert (cores s1 c = Core (core_cpu (cores s c)) Strex true) as E1 by apply at_core_eq.
  pose (s2 := Smp (Spinlock 1 (lcpu (lk s)) (pcs0 (lk s)))
    (at_core (clear_mon (cores s1)) c (Core (core_cpu (cores s c)) SetCpu false))).
  assert (step_core c s1 = Some s2) as H2 by (unfold step_core; by rewrite E1).
  assert (cores s2 c = Core (core_cpu (cores s c)) SetCpu false) as E2 by apply at_core_eq.
  eexists. split; [|split].
  - cbn [run_cores]. rewrite H1. cbn. rewrite H2. cbn. unfold step_core. rewrite E2. cbn. done.
  - cbn. by rewrite at_core_eq.
  - unfold holding. cbn. by rewrite bool_decide_true.
Qed.

(** CPUs 0 and 1 race for the lock; CPU 1 wins. *)
Definition race : smp := Smp initlock (fun _ => Core (Cpu 19 0 false) Idle false).

Definition raced : smp := default race (run_cores [0; 1; 0; 1; 1; 0; 1] race).

Lemma spinlock_mutual_exclusion_witness : core_pc (cores raced 0) <> Critical.
Proof.
  assert (reachable raced) as Hr.
  { apply (run_cores_reachable [0; 1; 0; 1; 1; 0; 1] race); [|by vm_compute].
    apply reach_init. split; [done|by intros c]. }
  intros H0. destruct (spinlock_mutual_exclusion raced 1 Hr ltac:(by vm_compute)) as [H _].
  specialize (H 0 H0). done.
Defined.

Lemma acquire_progress_witness :
  exists s', run_cores [0; 0; 0] (default race (run_cores [0] race)) = Some s' /\ holding (lk s') 0 = true.
Proof.
  destruct (acquire_progress (default race (run_cores [0] race)) 0) as (s' & H1 & _ & H2);
    [by vm_compute|by vm_compute|].
  exists s'. split; [exact H1|exact H2].
Defined.
