(* ===== verification/Pipe.v ===== *)
(** * pipe.c: pipes between concurrent processes

    [pipe] is the kernel object; pipewrite and piperead run with its lock held
    up to the point where they return or go to sleep.  [sys] interleaves any
    number of processes, each in a pipewrite or piperead call, with wakeups,
    kills and closes, at the points where the lock is released.  [accepted] and
    [delivered] are histories of the bytes that went in and out; the code does
    not read them. *)

From S2P Require Import Prelude.

Definition PIPESIZE : Z := 512.

(** The two channels: the addresses of p->nread and p->nwrite. *)
Inductive pchan : Type := ChanRead | ChanWrite.

#[export] Instance pchan_eq_dec : EqDecision pchan.
Proof. solve_decision. Defined.

Record pipe := Pipe {
  plock : bool;
  pdata : list Z;
  nread : Z;
  nwrite : Z;
  readopen : bool;
  writeopen : bool;
  wakes : list pchan;        (* wakeup calls made, oldest first *)
  accepted : list Z;
  delivered : list Z
}.

(** pipealloc's initialisation of the freshly allocated struct; its data
    are whatever the memory held. *)
Definition pipe_init (mem : list Z) : pipe := Pipe false mem 0 0 true true [] [] [].

Definition lock_pipe : M pipe unit := fun p =>
  if plock p then Spin else
  Ok tt (Pipe true (pdata p) (nread p) (nwrite p) (readopen p) (writeopen p) (wakes p) (accepted p) (delivered p)).

Definition unlock_pipe : M pipe unit := modify (fun p =>
  Pipe false (pdata p) (nread p) (nwrite p) (readopen p) (writeopen p) (wakes p) (accepted p) (delivered p)).

Definition wakeup_pipe (c : pchan) : M pipe unit := modify (fun p =>
  Pipe (plock p) (pdata p) (nread p) (nwrite p) (readopen p) (writeopen p) (wakes p ++ [c]) (accepted p) (delivered p)).

(** p->data[p->nwrite++ % PIPESIZE] = b *)
Definition put_byte (b : Z) : M pipe unit := modify (fun p =>
  Pipe (plock p) (zset (pdata p) (nwrite p mod PIPESIZE) b) (nread p) (u32 (nwrite p + 1))
    (readopen p) (writeopen p) (wakes p) (accepted p ++ [b]) (delivered p)).

(** p->data[p->nread++ % PIPESIZE] *)
Definition get_byte : M pipe Z :=
  p <- get ;;
  b <- from_opt (zget (pdata p) (nread p mod PIPESIZE)) ;;
  put (Pipe (plock p) (pdata p) (u32 (nread p + 1)) (nwrite p) (readopen p) (writeopen p)
         (wakes p) (accepted p) (delivered p ++ [b])) ;;;
  ret b.

(** Where a call stops: it returned, or it went to sleep (giving the lock
    back) on a channel, to go on from byte [i]. *)
Inductive stop : Type :=
| Returned (r : Z)
| Slept (c : pchan) (i : Z).

(** The loop of pipewrite from byte [i], with [k] bytes to go. *)
Fixpoint pipewrite_loop (addr : Z -> Z) (n : Z) (k : nat) (i : Z) : M pipe stop :=
  match k with
  | O => wakeup_pipe ChanRead ;;; unlock_pipe ;;; ret (Returned n)
  | S k' =>
      p <- get ;;
      if nwrite p =? u32 (nread p + PIPESIZE) then
        if readopen p then
          wakeup_pipe ChanRead ;;; unlock_pipe ;;; ret (Slept ChanWrite i)
        else unlock_pipe ;;; ret (Returned (-1))
      else put_byte (addr i) ;;; pipewrite_loop addr n k' (i + 1)
  end.

(** pipewrite, entered ([i = 0]) or resumed after a wakeup. *)
Definition pipewrite (addr : Z -> Z) (n i : Z) : M pipe stop :=
  lock_pipe ;;; pipewrite_loop addr n (Z.to_nat (n - i)) i.

(** The copy loop of piperead; it returns the bytes stored at addr. *)
Fixpoint piperead_loop (k : nat) : M pipe (list Z) :=
  match k with
  | O => ret []
  | S k' =>
      p <- get ;;
      if nread p =? nwrite p then ret [] else
      b <- get_byte ;;
      bs <- piperead_loop k' ;;
      ret (b :: bs)
  end.

(** piperead, entered or resumed: the bytes read, and where it stopped. *)
Definition piperead (killed : bool) (n : Z) : M pipe (list Z * stop) :=
  lock_pipe ;;;
  p <- get ;;
  if (nread p =? nwrite p) && writeopen p then
    unlock_pipe ;;; ret ([], if killed then Returned (-1) else Slept ChanRead 0)
  else
    bs <- piperead_loop (Z.to_nat n) ;;
    wakeup_pipe ChanWrite ;;;
    unlock_pipe ;;;
    ret (bs, Returned (zlen bs)).

(** pipeclose; the result tells whether the pipe is freed (kfree is called). *)
Definition pipeclose (writable : bool) : M pipe bool :=
  lock_pipe ;;;
  (if writable then
     modify (fun p => Pipe (plock p) (pdata p) (nread p) (nwrite p) (readopen p) false (wakes p) (accepted p) (delivered p)) ;;;
     wakeup_pipe ChanRead
   else
     modify (fun p => Pipe (plock p) (pdata p) (nread p) (nwrite p) false (writeopen p) (wakes p) (accepted p) (delivered p)) ;;;
     wakeup_pipe ChanWrite) ;;;
  p <- get ;;
  unlock_pipe ;;;
  ret (negb (readopen p) && negb (writeopen p)).

(** ** Processes sharing a pipe *)

Inductive pcall : Type :=
| CallWrite (addr : Z -> Z) (n : Z)
| CallRead (n : Z).

Inductive pstatus : Type :=
| Ready (c : pcall) (i : Z)                 (* about to acquire p->lock *)
| Asleep (ch : pchan) (c : pcall) (i : Z)   (* in sleep(ch, &p->lock) *)
| Done (r : Z).

Record pproc := Pproc { pstat : pstatus; pkilled : bool }.

Record sys := Sys { spipe : pipe; sprocs : list pproc; sfreed : bool }.

(** Running a call up to the next point where it gives up the lock. *)
Definition run_call (pr : pproc) : M pipe pstatus :=
  match pstat pr with
  | Ready (CallWrite addr n) i =>
      r <- pipewrite addr n i ;;
      ret (match r with Returned r => Done r | Slept ch i => Asleep ch (CallWrite addr n) i end)
  | Ready (CallRead n) i =>
      r <- piperead (pkilled pr) n ;;
      ret (match r.2 with Returned r => Done r | Slept ch i => Asleep ch (CallRead n) i end)
  | st => ret st
  end.

(** wakeup(ch) makes every process asleep on [ch] runnable. *)
Definition wake1 (chs : list pchan) (pr : pproc) : pproc :=
  match pstat pr with
  | Asleep ch c i => if decide (ch ∈ chs) then Pproc (Ready c i) (pkilled pr) else pr
  | _ => pr
  end.

(** Deliver the wakeups of the last call to the other processes; the
    caller's own status [st] is decided after them. *)
Definition deliver (p : pipe) (procs : list pproc) : pipe * list pproc :=
  (Pipe (plock p) (pdata p) (nread p) (nwrite p) (readopen p) (writeopen p) [] (accepted p) (delivered p),
   map (wake1 (wakes p)) procs).

Inductive sys_step : sys -> sys -> Prop :=
| step_enter s c :                       (* a process enters a call *)
    sfreed s = false ->
    sys_step s (Sys (spipe s) (sprocs s ++ [Pproc (Ready c 0) false]) false)
| step_run s j pr st p' p'' procs :      (* a process runs until it gives up the lock *)
    sfreed s = false -> sprocs s !! j = Some pr ->
    run_call pr (spipe s) = Ok st p' -> deliver p' (sprocs s) = (p'', procs) ->
    sys_step s (Sys p'' (<[j := Pproc st (pkilled pr)]> procs) false)
| step_kill s j pr :                     (* kill(): set the flag, make a sleeper runnable *)
    sfreed s = false -> sprocs s !! j = Some pr ->
    sys_step s (Sys (spipe s) (<[j := Pproc
      (match pstat pr with Asleep _ c i => Ready c i | st => st end) true]> (sprocs s)) false)
| step_close s w freed p' p'' procs :    (* the last descriptor of one end is closed *)
    sfreed s = false -> pipeclose w (spipe s) = Ok freed p' -> deliver p' (sprocs s) = (p'', procs) ->
    sys_step s (Sys p'' procs freed).

Inductive sys_reachable : sys -> Prop :=
| sys_init mem : zlen mem = PIPESIZE -> sys_reachable (Sys (pipe_init mem) [] false)
| sys_next s s' : sys_reachable s -> sys_step s s' -> sys_reachable s'.

(** ** The ring buffer *)

(** Number of bytes in the pipe, modulo the wrap-around of the counters. *)
Definition count (p : pipe) : Z := u32 (nwrite p - nread p).

Definition contents (p : pipe) : list Z :=
  map (fun k => default 0 (zget (pdata p) ((nread p + k) mod PIPESIZE))) (seqZ 0 (count p)).

Record pipe_ok (p : pipe) : Prop := {
  po_len : zlen (pdata p) = PIPESIZE;
  po_rd : is_u32 (nread p);
  po_wr : is_u32 (nwrite p);
  po_cnt : count p <= PIPESIZE;
  po_hist : accepted p = delivered p ++ contents p
}.

Lemma mod_u32_512 x : u32 x mod 512 = x mod 512.
Proof. unfold u32. change (2 ^ 32) with (512 * 8388608). rewrite Z.rem_mul_r, Z.mul_comm by lia. by rewrite Z.mod_add, Z.mod_mod by lia. Qed.

Lemma count_range p : 0 <= count p < 2 ^ 32.
Proof. apply u32_range. Qed.

(** The full and the empty test of the code. *)
Lemma full_test p : pipe_ok p -> (nwrite p =? u32 (nread p + PIPESIZE)) = (count p =? PIPESIZE).
Proof.
  intros [_ H1 H2 _ _]. unfold is_u32, count, u32, PIPESIZE in *. change (2 ^ 32) with 4294967296 in *.
  destruct (Z.eqb_spec (nwrite p) ((nread p + 512) mod 4294967296)),
    (Z.eqb_spec ((nwrite p - nread p) mod 4294967296) 512); try done; Z.div_mod_to_equations; lia.
Qed.

Lemma empty_test p : pipe_ok p -> (nread p =? nwrite p) = (count p =? 0).
Proof.
  intros [_ H1 H2 _ _]. unfold is_u32, count, u32 in *. change (2 ^ 32) with 4294967296 in *.
  destruct (Z.eqb_spec (nread p) (nwrite p)), (Z.eqb_spec ((nwrite p - nread p) mod 4294967296) 0);
    try done; Z.div_mod_to_equations; lia.
Qed.

(** The slot the next byte goes to, and the slots in use. *)
Lemma write_slot p : nwrite p mod PIPESIZE = (nread p + count p) mod PIPESIZE.
Proof.
  unfold count, PIPESIZE. rewrite <- (Zplus_mod_idemp_r (u32 _)), mod_u32_512, Zplus_mod_idemp_r.
  f_equal. lia.
Qed.

Lemma slots_differ x j k : 0 <= j < 512 -> 0 <= k < 512 -> j <> k -> (x + j) mod 512 <> (x + k) mod 512.
Proof. intros. Z.div_mod_to_equations. lia. Qed.

Lemma pdata_at p k : pipe_ok p -> exists b, zget (pdata p) (k mod PIPESIZE) = Some b.
Proof. intros Hp. apply zget_in. rewrite po_len by done. by apply Z.mod_pos_bound. Qed.

(** Storing a byte in a pipe that is not full appends it to the contents. *)
Lemma put_byte_ok p b : pipe_ok p -> count p < PIPESIZE ->
  wp (put_byte b) (fun _ p' => pipe_ok p' /\ contents p' = contents p ++ [b] /\
    accepted p' = accepted p ++ [b] /\ delivered p' = delivered p /\
    plock p' = plock p /\ readopen p' = readopen p /\ writeopen p' = writeopen p /\ wakes p' = wakes p) p.
Proof.
  intros Hp Hc. unfold put_byte. apply wp_modify. set (p' := Pipe _ _ _ _ _ _ _ _ _).
  pose proof (count_range p) as Hcr. pose proof (po_rd p Hp) as H1. pose proof (po_wr p Hp) as H2.
  assert (count p' = count p + 1) as Hcnt.
  { unfold p', count, u32, PIPESIZE, is_u32 in *. cbn. change (2 ^ 32) with 4294967296 in *. Z.div_mod_to_equations. lia. }
  assert (contents p' = contents p ++ [b]) as Hct.
  { unfold contents. rewrite Hcnt, seqZ_app, map_app, Z.add_0_l by lia. f_equal.
    - apply map_ext_in. intros k Hk%list_elem_of_In%elem_of_seqZ. cbn. rewrite write_slot.
      rewrite zget_zset_ne; [done|]. unfold PIPESIZE in *. apply slots_differ; lia.
    - rewrite seqZ_cons by lia. cbn. rewrite <- write_slot, zget_zset_eq; [done|].
      rewrite po_len by done. by apply Z.mod_pos_bound. }
  split_and!; try done. split; try done.
  - cbn. rewrite zlen_zset. apply po_len, Hp.
  - apply u32_range.
  - rewrite Hcnt. lia.
  - rewrite Hct. cbn. by rewrite (po_hist p Hp), app_assoc.
Qed.

(** Reading a byte from a pipe that is not empty takes the oldest one. *)
Lemma get_byte_ok p : pipe_ok p -> 0 < count p ->
  wp get_byte (fun b p' => pipe_ok p' /\ contents p = b :: contents p' /\
    accepted p' = accepted p /\ delivered p' = delivered p ++ [b] /\
    plock p' = plock p /\ readopen p' = readopen p /\ writeopen p' = writeopen p /\ wakes p' = wakes p) p.
Proof.
  intros Hp Hc. unfold get_byte. apply wp_bind, wp_get, wp_bind.
  destruct (pdata_at p (nread p) Hp) as [b Hb]. eapply wp_from_opt; [done|].
  apply wp_bind, wp_put, wp_ret. set (p' := Pipe _ _ _ _ _ _ _ _ _).
  pose proof (count_range p) as Hcr. pose proof (po_rd p Hp) as H1. pose proof (po_wr p Hp) as H2.
  pose proof (po_cnt p Hp) as H3.
  assert (count p' = count p - 1) as Hcnt.
  { unfold p', count, u32, PIPESIZE, is_u32 in *. cbn. change (2 ^ 32) with 4294967296 in *. Z.div_mod_to_equations. lia. }
  assert (contents p = b :: contents p') as Hct.
  { unfold contents. rewrite Hcnt. replace (count p) with (1 + (count p - 1)) at 1 by lia.
    rewrite seqZ_app, map_app by lia. change (seqZ 0 1) with [0]. cbn [map app].
    rewrite Z.add_0_r, Hb. cbn [default]. f_equal.
    replace (seqZ (0 + 1) (count p - 1)) with (Z.add 1 <$> seqZ 0 (count p - 1)) by (by rewrite fmap_add_seqZ).
    change (Z.add 1 <$> seqZ 0 (count p - 1)) with (map (Z.add 1) (seqZ 0 (count p - 1))).
    rewrite map_map. apply map_ext. intros k. cbn [p' pdata nread].
    do 2 f_equal. unfold PIPESIZE. rewrite <- (Zplus_mod_idemp_l (u32 _)), mod_u32_512, Zplus_mod_idemp_l. f_equal. lia. }
  split_and!; try done. split; try done.
  - exact (po_len p Hp).
  - apply u32_range.
  - rewrite Hcnt. lia.
  - cbn [p' accepted delivered]. by rewrite (po_hist p Hp), Hct, <- app_assoc.
Qed.

(** ** The calls *)

(** What a call never touches, besides the buffer and the lock. *)
Definition same_ends (p p' : pipe) : Prop := readopen p' = readopen p /\ writeopen p' = writeopen p.

Lemma pipewrite_loop_ok addr n k : forall i p,
  pipe_ok p ->
  wp (pipewrite_loop addr n k i) (fun r p' =>
    pipe_ok p' /\ plock p' = false /\ same_ends p p' /\
    exists j, i <= j <= i + Z.of_nat k /\
      accepted p' = accepted p ++ map addr (seqZ i (j - i)) /\ delivered p' = delivered p /\
      match r with
      | Returned m => (m = n /\ j = i + Z.of_nat k /\ wakes p' = wakes p ++ [ChanRead]) \/
                      (m = -1 /\ readopen p = false /\ count p' = PIPESIZE /\ wakes p' = wakes p)
      | Slept ch i' => ch = ChanWrite /\ i' = j /\ j < i + Z.of_nat k /\ readopen p = true /\
                       count p' = PIPESIZE /\ wakes p' = wakes p ++ [ChanRead]
      end) p.
Proof.
  induction k as [|k IH]; intros i p Hp; cbn [pipewrite_loop].
  - repeat first [apply wp_bind|apply wp_modify|apply wp_ret]. destruct (id Hp) as [A B C D E].
    split; [by split|]. split; [done|]. split; [done|]. exists i. rewrite Z.sub_diag.
    cbn. rewrite app_nil_r. split; [lia|]. split; [done|]. split; [done|]. left. split; [done|]. split; [lia|done].
  - apply wp_bind, wp_get. rewrite full_test by done. destruct (Z.eqb_spec (count p) PIPESIZE) as [Hf|Hf].
    + destruct (readopen p) eqn:Hro; repeat first [apply wp_bind|apply wp_modify|apply wp_ret];
        destruct (id Hp) as [A B C D E];
        (split; [by split|]; split; [done|]; split; [by split|]; exists i; rewrite Z.sub_diag;
         cbn; rewrite app_nil_r; split; [lia|]; split; [done|]; split; [done|]).
      * split_and!; try done. lia.
      * right. split_and!; done.
    + apply wp_bind. eapply wp_mono; [apply put_byte_ok; [done|]|].
      { pose proof (po_cnt p Hp). lia. }
      intros [] p1 (Hp1 & _ & Ha & Hd & _ & Hro & Hwo & Hwk).
      eapply wp_mono; [by apply IH|]. intros r p' (Hp' & Hl & [Hs1 Hs2] & j & Hj & Ha' & Hd' & Hr).
      split; [done|]. split; [done|]. split; [split; congruence|]. exists j. split; [lia|]. split.
      { rewrite Ha', Ha, <- app_assoc. f_equal. rewrite (seqZ_cons i) by lia. cbn [map app].
        f_equal. f_equal. f_equal; lia. }
      split; [congruence|]. rewrite Hro, Hwk in Hr. destruct r; [destruct Hr as [Hr|Hr]; [left|right]|]; destruct_and!; split_and!; done || lia.
Qed.

Lemma piperead_loop_ok k : forall p,
  pipe_ok p ->
  wp (piperead_loop k) (fun bs p' =>
    pipe_ok p' /\ plock p' = plock p /\ same_ends p p' /\ wakes p' = wakes p /\
    contents p = bs ++ contents p' /\ accepted p' = accepted p /\ delivered p' = delivered p ++ bs /\
    zlen bs = Z.min (Z.of_nat k) (zlen (contents p))) p.
Proof.
  induction k as [|k IH]; intros p Hp; cbn [piperead_loop].
  - apply wp_ret. rewrite app_nil_r. assert (0 <= zlen (contents p)) by (unfold zlen; lia).
    split_and!; try done. change (zlen (@nil Z)) with 0. lia.
  - apply wp_bind, wp_get. rewrite empty_test by done. destruct (Z.eqb_spec (count p) 0) as [H0|H0].
    + apply wp_ret. rewrite app_nil_r. assert (contents p = []) as -> by (unfold contents; by rewrite H0).
      change (zlen (@nil Z)) with 0. split_and!; done || lia.
    + pose proof (count_range p). apply wp_bind. eapply wp_mono; [apply get_byte_ok; [done|lia]|].
      intros b p1 (Hp1 & Hct & Ha & Hd & Hl & Hro & Hwo & Hwk). apply wp_bind.
      eapply wp_mono; [by apply IH|]. intros bs p' (Hp' & Hl' & [Hs1 Hs2] & Hw' & Hct' & Ha' & Hd' & Hn).
      apply wp_ret. split; [done|]. split; [congruence|]. split; [split; congruence|]. split; [congruence|].
      split; [rewrite Hct, Hct'; done|]. split; [congruence|].
      split; [rewrite Hd', Hd, <- app_assoc; done|]. rewrite Hct. unfold zlen in *. cbn [length]. lia.
Qed.

Lemma zlen_contents p : zlen (contents p) = count p.
Proof. unfold contents, zlen. rewrite length_map, length_seqZ. pose proof (count_range p). lia. Qed.

Lemma pipe_ok_lock p b ws :
  pipe_ok p -> pipe_ok (Pipe b (pdata p) (nread p) (nwrite p) (readopen p) (writeopen p) ws (accepted p) (delivered p)).
Proof. intros [A B C D E]. by split. Qed.

Lemma pipewrite_wp addr n i p :
  pipe_ok p -> plock p = false -> 0 <= i ->
  wp (pipewrite addr n i) (fun r p' =>
    pipe_ok p' /\ plock p' = false /\ same_ends p p' /\
    exists j, i <= j /\
      accepted p' = accepted p ++ map addr (seqZ i (j - i)) /\ delivered p' = delivered p /\
      match r with
      | Returned m => (m = n /\ j = Z.max i n /\ wakes p' = wakes p ++ [ChanRead]) \/
                      (m = -1 /\ readopen p = false /\ count p' = PIPESIZE /\ wakes p' = wakes p)
      | Slept ch i' => ch = ChanWrite /\ i' = j /\ j < n /\ readopen p = true /\
                       count p' = PIPESIZE /\ wakes p' = wakes p ++ [ChanRead]
      end) p.
Proof.
  intros Hp Hl Hi. unfold pipewrite. apply wp_bind. eapply ok_wp.
  { unfold lock_pipe. by rewrite Hl. }
  eapply wp_mono; [apply pipewrite_loop_ok; by apply pipe_ok_lock|].
  intros r p' (Hp' & Hl' & Hs & j & Hj & Ha & Hd & Hr). split; [done|]. split; [done|]. split; [done|].
  exists j. split; [lia|]. split; [done|]. split; [done|]. cbn in Hr.
  destruct r; [destruct Hr as [Hr|Hr]; [left|right]|]; destruct_and!; split_and!; done || lia.
Qed.

Lemma piperead_wp killed n p :
  pipe_ok p -> plock p = false ->
  wp (piperead killed n) (fun '(bs, r) p' =>
    pipe_ok p' /\ plock p' = false /\ same_ends p p' /\
    contents p = bs ++ contents p' /\ accepted p' = accepted p /\ delivered p' = delivered p ++ bs /\
    match r with
    | Returned m => (m = -1 /\ killed = true /\ bs = [] /\ count p = 0 /\ wakes p' = wakes p) \/
        (m = zlen bs /\ m = Z.min (Z.max 0 n) (count p) /\ (count p <> 0 \/ writeopen p = false) /\
         wakes p' = wakes p ++ [ChanWrite])
    | Slept ch i => ch = ChanRead /\ i = 0 /\ bs = [] /\ count p' = 0 /\ writeopen p = true /\ killed = false /\ wakes p' = wakes p
    end) p.
Proof.
  intros Hp Hl. unfold piperead. apply wp_bind. eapply ok_wp.
  { unfold lock_pipe. by rewrite Hl. }
  set (q := Pipe _ _ _ _ _ _ _ _ _). assert (pipe_ok q) as Hq by (by apply pipe_ok_lock).
  apply wp_bind, wp_get. rewrite (empty_test q Hq). change (count q) with (count p). cbn [writeopen q].
  destruct ((count p =? 0) && writeopen p) eqn:Hc.
  - zbool. repeat first [apply wp_bind|apply wp_modify|apply wp_ret].
    split; [by apply pipe_ok_lock|]. split; [done|]. split; [done|]. split; [done|]. split; [done|].
    cbn. rewrite app_nil_r. split; [done|].
    destruct killed; [left; by split_and!|by split_and!].
  - apply wp_bind. eapply wp_mono; [by apply (piperead_loop_ok _ q)|].
    intros bs p1 (Hp1 & Hl1 & Hs1 & Hw1 & Hct & Ha & Hd & Hn).
    repeat first [apply wp_bind|apply wp_modify|apply wp_ret].
    split; [exact (pipe_ok_lock p1 false _ Hp1)|]. split; [done|]. split; [done|]. split; [exact Hct|].
    split; [exact Ha|]. split; [exact Hd|]. right. split; [done|]. rewrite zlen_contents in Hn.
    change (count q) with (count p) in Hn. split; [lia|]. split; [|cbn; by rewrite Hw1].
    apply andb_false_iff in Hc. destruct Hc; zbool; [by left|by right].
Qed.

(** ** Invariant of the interleavings *)

(** A sleeper's reason to sleep still holds. *)
Definition sleep_ok (p : pipe) (pr : pproc) : Prop :=
  match pstat pr with
  | Ready _ i => 0 <= i
  | Asleep ChanRead _ i => 0 <= i /\ ((count p = 0 /\ writeopen p = true) \/ readopen p = false)
  | Asleep ChanWrite _ i => 0 <= i /\ count p = PIPESIZE /\ readopen p = true
  | Done _ => True
  end.

Record sys_ok (s : sys) : Prop := {
  so_pipe : pipe_ok (spipe s);
  so_lock : plock (spipe s) = false;
  so_wakes : wakes (spipe s) = [];
  so_procs : Forall (sleep_ok (spipe s)) (sprocs s)
}.

Lemma count_hist p : pipe_ok p -> count p = zlen (accepted p) - zlen (delivered p).
Proof.
  intros Hp. rewrite (po_hist p Hp). unfold zlen. rewrite length_app.
  pose proof (zlen_contents p) as H. unfold zlen in H. lia.
Qed.

(** Delivering the wakeups: whoever sleeps on a channel that was not woken
    must still have its reason. *)
Lemma deliver_ok p' procs p :
  pipe_ok p' -> plock p' = false -> Forall (sleep_ok p) procs ->
  (ChanRead ∈ wakes p' \/ readopen p' = false \/
   (readopen p' = readopen p /\ (count p = 0 -> count p' = 0) /\ writeopen p' = writeopen p)) ->
  (ChanWrite ∈ wakes p' \/ (readopen p' = readopen p /\ (count p = PIPESIZE -> count p' = PIPESIZE))) ->
  let '(p'', procs') := deliver p' procs in
  pipe_ok p'' /\ plock p'' = false /\ wakes p'' = [] /\ count p'' = count p' /\
  readopen p'' = readopen p' /\ writeopen p'' = writeopen p' /\ length procs' = length procs /\
  Forall (sleep_ok p'') procs'.
Proof.
  intros Hp Hl Hpr Hr Hw. unfold deliver.
  split; [by apply pipe_ok_lock|]. split; [done|]. split; [done|]. split; [done|]. split; [done|].
  split; [done|]. split; [by rewrite length_map|].
  apply Forall_map. eapply Forall_impl; [exact Hpr|]. intros [st kl] H.
  unfold wake1, sleep_ok in *. cbn in *. change (count (Pipe _ _ _ _ _ _ _ _ _)) with (count p').
  destruct st as [c i|[] c i|r]; cbn; try done; case_decide; cbn; try naive_solver.
Qed.

Lemma run_call_ok s j pr st p' p'' procs :
  sys_ok s -> sprocs s !! j = Some pr -> run_call pr (spipe s) = Ok st p' ->
  deliver p' (sprocs s) = (p'', procs) ->
  sys_ok (Sys p'' (<[j := Pproc st (pkilled pr)]> procs) false).
Proof.
  intros [Hp Hl Hwk Hpr] Hj Hrun Hdel. set (p := spipe s) in *.
  pose proof (proj1 (Forall_lookup _ _) Hpr j pr Hj) as Hpj.
  assert (pipe_ok p' /\ plock p' = false /\
    (ChanRead ∈ wakes p' \/ readopen p' = false \/
     (readopen p' = readopen p /\ (count p = 0 -> count p' = 0) /\ writeopen p' = writeopen p)) /\
    (ChanWrite ∈ wakes p' \/ (readopen p' = readopen p /\ (count p = PIPESIZE -> count p' = PIPESIZE))) /\
    sleep_ok p' (Pproc st (pkilled pr))) as (H1 & H2 & H3 & H4 & H5).
  { unfold run_call in Hrun. unfold sleep_ok in Hpj.
    destruct (pstat pr) as [[addr n|n] i|ch c i|r] eqn:Hst.
    - apply bind_inv in Hrun as (r & p1 & Hcall & Hret). injection Hret as <- <-.
      pose proof (pipewrite_wp addr n i p Hp Hl Hpj) as W. unfold wp in W. rewrite Hcall in W.
      destruct W as (A & B & [C1 C2] & k & Hk & D & E & F). split; [done|]. split; [done|].
      pose proof (count_hist p Hp) as Hc. pose proof (count_hist p1 A) as Hc1. pose proof (po_cnt p1 A) as Hb.
      rewrite D, E in Hc1. unfold zlen in Hc, Hc1. rewrite length_app in Hc1.
      rewrite Hwk in F. split; [|split].
      + destruct r; [destruct F as [(_ & _ & ->)|(_ & F & _)]|destruct F as (_ & _ & _ & _ & _ & ->)].
        * left. set_solver. * right; left. congruence. * left. set_solver.
      + right. split; [done|]. lia.
      + destruct r; [done|]. destruct F as (-> & -> & _ & F1 & F2 & _). unfold sleep_ok. cbn. split; [lia|]. split; congruence.
    - apply bind_inv in Hrun as ([bs r] & p1 & Hcall & Hret). injection Hret as <- <-.
      pose proof (piperead_wp (pkilled pr) n p Hp Hl) as W. unfold wp in W. rewrite Hcall in W.
      destruct W as (A & B & [C1 C2] & D & E & F & G). split; [done|]. split; [done|].
      pose proof (zlen_contents p) as Hc. pose proof (zlen_contents p1) as Hc1.
      rewrite D in Hc. unfold zlen in Hc, Hc1. rewrite length_app in Hc.
      assert (count p = 0 -> count p1 = 0) as Hz by (pose proof (count_range p1); lia).
      split; [by right; right|]. rewrite Hwk in G. split.
      + destruct r; [destruct G as [(_ & _ & -> & _)|(_ & _ & _ & ->)]|destruct G as (_ & _ & -> & _)].
        * right. split; [done|]. cbn in Hc. lia. * left. set_solver. * right. split; [done|]. cbn in Hc. lia.
      + destruct r; [done|]. destruct G as (-> & -> & _ & G1 & G2 & _). unfold sleep_ok. cbn.
        split; [lia|left; split; congruence].
    - injection Hrun as <- <-. split; [done|]. split; [done|]. split; [by right; right|].
      split; [by right|exact Hpj].
    - injection Hrun as <- <-. split; [done|]. split; [done|]. split; [by right; right|].
      split; [by right|done]. }
  pose proof (deliver_ok p' (sprocs s) p H1 H2 Hpr H3 H4) as Hd. rewrite Hdel in Hd.
  destruct Hd as (D1 & D2 & D3 & D4 & D5 & D6 & D7 & D8). split; try done. cbn.
  apply Forall_insert; [done|]. unfold sleep_ok in *. cbn in *. by rewrite D4, D5, D6.
Qed.

Lemma pipeclose_ok w p : pipe_ok p -> plock p = false -> wakes p = [] ->
  wp (pipeclose w) (fun freed p' =>
    pipe_ok p' /\ plock p' = false /\ count p' = count p /\
    readopen p' = (if w then readopen p else false) /\ writeopen p' = (if w then false else writeopen p) /\
    wakes p' = [if w then ChanRead else ChanWrite] /\
    freed = negb (readopen p') && negb (writeopen p')) p.
Proof.
  intros [A B C D E] Hl Hw. unfold pipeclose. apply wp_bind. eapply ok_wp; [unfold lock_pipe; by rewrite Hl|].
  destruct w; repeat first [apply wp_bind|apply wp_modify|apply wp_get|apply wp_ret];
    cbn; rewrite Hw; (split; [by split|by split_and!]).
Qed.

Lemma sys_step_ok s s' : sys_ok s -> sys_step s s' -> sys_ok s'.
Proof.
  intros Hs Hstep. destruct Hstep as [s c Hfr|s j pr st p' p'' procs Hfr Hj Hrun Hdel|s j pr Hfr Hj|s w freed p' p'' procs Hfr Hrun Hdel].
  - destruct Hs as [A B C D]. split; try done. cbn. apply Forall_app. split; [done|]. by repeat constructor.
  - by eapply run_call_ok.
  - destruct Hs as [A B C D]. split; try done. cbn. apply Forall_insert; [done|].
    pose proof (proj1 (Forall_lookup _ _) D j pr Hj) as H. unfold sleep_ok in *. cbn.
    destruct (pstat pr) as [?|[]?|?]; naive_solver.
  - destruct Hs as [A B C D]. pose proof (pipeclose_ok w (spipe s) A B C) as W. unfold wp in W. rewrite Hrun in W.
    destruct W as (H1 & H2 & H3 & H4 & H5 & H6 & H7).
    pose proof (deliver_ok p' (sprocs s) (spipe s) H1 H2 D) as Hd. rewrite Hdel in Hd.
    destruct Hd as (? & ? & ? & ? & ? & ? & ? & ?); [..|by split].
    + destruct w; [left; rewrite H6; set_solver|by right; left].
    + destruct w; [right; split; [done|congruence]|left; rewrite H6; set_solver].
Qed.

Lemma sys_reachable_ok s : sys_reachable s -> sys_ok s.
Proof.
  induction 1 as [mem Hm|]; [|by eapply sys_step_ok]. split; try done.
Qed.

(** C22: a pipe is a FIFO of at most PIPESIZE bytes. Whatever the interleaving
    of writers and readers, kills and closes, and although the counters wrap
    around at 32 bits, the bytes delivered so far followed by the bytes in the
    buffer are exactly the bytes accepted so far, in order. *)
Theorem pipe_fifo s :
  sys_reachable s ->
  accepted (spipe s) = delivered (spipe s) ++ contents (spipe s) /\
  zlen (contents (spipe s)) <= PIPESIZE /\ plock (spipe s) = false.
Proof.
  intros [Hp Hl _ _]%sys_reachable_ok. split; [apply Hp|]. rewrite zlen_contents. split; [apply Hp|done].
Qed.

(** C23: no wakeup is lost. In every reachable state a process asleep in
    pipewrite faces a full pipe with its read end open, and a process asleep
    in piperead faces an empty pipe with its write end open (or the read end
    it uses has been closed): nobody sleeps on a condition that has changed. *)
Theorem pipe_no_lost_wakeup s j pr ch c i :
  sys_reachable s -> sprocs s !! j = Some pr -> pstat pr = Asleep ch c i ->
  match ch with
  | ChanWrite => zlen (contents (spipe s)) = PIPESIZE /\ readopen (spipe s) = true
  | ChanRead => (contents (spipe s) = [] /\ writeopen (spipe s) = true) \/ readopen (spipe s) = false
  end.
Proof.
  intros [_ _ _ Hpr]%sys_reachable_ok Hj Hst.
  pose proof (proj1 (Forall_lookup _ _) Hpr j pr Hj) as H. unfold sleep_ok in H. rewrite Hst in H.
  rewrite zlen_contents. destruct ch; destruct H as [_ H]; [|done].
  destruct H as [[H0 H1]|H]; [left; split; [|done]|by right].
  unfold contents. by rewrite H0.
Qed.

(** Piperead. It returns -1 only to a killed reader of an empty pipe and
    sleeps only on an empty pipe that can still be written to; otherwise it
    returns min(n, bytes in the pipe) bytes, the oldest ones in order (0 at the
    end of the file), and wakes the writers. *)
Theorem piperead_spec killed n p :
  pipe_ok p -> plock p = false ->
  wp (piperead killed n) (fun '(bs, r) p' =>
    pipe_ok p' /\ plock p' = false /\ same_ends p p' /\
    contents p = bs ++ contents p' /\ accepted p' = accepted p /\ delivered p' = delivered p ++ bs /\
    match r with
    | Returned m => (m = -1 /\ killed = true /\ bs = [] /\ count p = 0 /\ wakes p' = wakes p) \/
        (m = zlen bs /\ m = Z.min (Z.max 0 n) (count p) /\ (count p <> 0 \/ writeopen p = false) /\
         wakes p' = wakes p ++ [ChanWrite])
    | Slept ch i => ch = ChanRead /\ i = 0 /\ bs = [] /\ count p' = 0 /\ writeopen p = true /\ killed = false /\ wakes p' = wakes p
    end) p.
Proof. apply piperead_wp. Qed.

(** Pipewrite, entered or resumed at byte [i]. It appends the bytes
    [i, j) of its argument; it returns [n] once all are in, sleeps (after
    waking the readers) only on a full pipe whose read end is open, and
    returns -1 only on a full pipe whose read end is closed. *)
Theorem pipewrite_spec addr n i p :
  pipe_ok p -> plock p = false -> 0 <= i ->
  wp (pipewrite addr n i) (fun r p' =>
    pipe_ok p' /\ plock p' = false /\ same_ends p p' /\
    exists j, i <= j /\
      accepted p' = accepted p ++ map addr (seqZ i (j - i)) /\ delivered p' = delivered p /\
      match r with
      | Returned m => (m = n /\ j = Z.max i n /\ wakes p' = wakes p ++ [ChanRead]) \/
                      (m = -1 /\ readopen p = false /\ count p' = PIPESIZE /\ wakes p' = wakes p)
      | Slept ch i' => ch = ChanWrite /\ i' = j /\ j < n /\ readopen p = true /\
                       count p' = PIPESIZE /\ wakes p' = wakes p ++ [ChanRead]
      end) p.
Proof. apply pipewrite_wp. Qed.

(** ** Instances *)

Definition demo_pipe : pipe := pipe_init (replicate 512 0).

Lemma demo_pipe_ok : pipe_ok demo_pipe.
Proof. by split. Qed.

(** A reader that went to sleep on the empty pipe. *)
Definition demo_sys : sys := Sys demo_pipe [Pproc (Asleep ChanRead (CallRead 10) 0) false] false.

Lemma demo_sys_reachable : sys_reachable demo_sys.
Proof.
  eapply sys_next; [eapply sys_next; [apply (sys_init (replicate 512 0)); reflexivity|]|].
  - by apply (step_enter (Sys demo_pipe [] false) (CallRead 10)).
  - by apply (step_run (Sys demo_pipe [Pproc (Ready (CallRead 10) 0) false] false) 0
      (Pproc (Ready (CallRead 10) 0) false) (Asleep ChanRead (CallRead 10) 0) demo_pipe demo_pipe
      [Pproc (Ready (CallRead 10) 0) false]).
Qed.

Lemma pipe_fifo_witness : zlen (contents (spipe demo_sys)) <= PIPESIZE.
Proof. apply (pipe_fifo demo_sys demo_sys_reachable). Defined.

Lemma pipe_no_lost_wakeup_witness :
  (contents demo_pipe = [] /\ writeopen demo_pipe = true) \/ readopen demo_pipe = false.
Proof. apply (pipe_no_lost_wakeup demo_sys 0 (Pproc (Asleep ChanRead (CallRead 10) 0) false) ChanRead (CallRead 10) 0 demo_sys_reachable); reflexivity. Defined.

Lemma piperead_spec_witness : wp (piperead false 10) (fun _ p' => plock p' = false) demo_pipe.
Proof.
  eapply wp_mono; [apply (piperead_spec false 10 demo_pipe demo_pipe_ok); reflexivity|].
  intros [bs r] p' (_ & H & _). exact H.
Defined.

Lemma pipewrite_spec_witness : wp (pipewrite (fun i => i) 600 0) (fun _ p' => pipe_ok p') demo_pipe.
Proof.
  eapply wp_mono; [apply (pipewrite_spec (fun i => i) 600 0 demo_pipe demo_pipe_ok); [reflexivity|lia]|].
  intros r p' (H & _). exact H.
Defined.
