(* ===== verification/DList.v ===== *)
(** * Circular doubly-linked lists given by next and prev functions

    [linked nx pv c]: consecutive elements of [c] point at each other.  A ring
    with head [h] and members [l] is [linked nx pv (h :: l ++ [h])].  The two
    pointer surgeries used by the buffer cache, unlinking a node and inserting
    it behind the head, are shown to act on the member list. *)

From S2P Require Import Prelude.

Section Linked.
Implicit Types nx pv : Z -> Z.

(** [f] with the value at [a] replaced. *)
Definition fset (f : Z -> Z) (a v : Z) : Z -> Z := fun x => if decide (x = a) then v else f x.

Lemma fset_eq f a v : fset f a v a = v.
Proof. unfold fset. by rewrite decide_True. Qed.

Lemma fset_ne f a v x : x <> a -> fset f a v x = f x.
Proof. intros. unfold fset. by rewrite decide_False. Qed.

Fixpoint linked nx pv (c : list Z) : Prop :=
  match c with
  | x :: ((y :: _) as t) => nx x = y /\ pv y = x /\ linked nx pv t
  | _ => True
  end.

(** Only the next pointers of all but the last element and the prev
    pointers of all but the first matter. *)
Lemma linked_ext nx pv nx' pv' c : forall z,
  linked nx pv (c ++ [z]) ->
  (forall x, x ∈ c -> nx' x = nx x) ->
  (forall y, y ∈ tail (c ++ [z]) -> pv' y = pv y) ->
  linked nx' pv' (c ++ [z]).
Proof.
  induction c as [|x c IH]; intros z H Hn Hp; [done|]. cbn [app] in *.
  destruct c as [|y c]; cbn in *.
  - destruct H as (H1 & H2 & _). rewrite Hn, Hp by set_solver. done.
  - destruct H as (H1 & H2 & H3). rewrite Hn, Hp by set_solver. split; [done|]. split; [done|].
    apply (IH z); [done|set_solver|]. cbn. intros y' Hy'. apply Hp. set_solver.
Qed.

Lemma linked_app nx pv c1 x y c2 :
  linked nx pv (c1 ++ x :: y :: c2) <->
  linked nx pv (c1 ++ [x]) /\ nx x = y /\ pv y = x /\ linked nx pv (y :: c2).
Proof.
  induction c1 as [|a c1 IH]; cbn [app].
  - cbn. tauto.
  - destruct c1 as [|b c1]; cbn in *; tauto.
Qed.

Lemma linked_cons nx pv x y c :
  linked nx pv (x :: y :: c) <-> nx x = y /\ pv y = x /\ linked nx pv (y :: c).
Proof. done. Qed.

(** Reading the ring backwards. *)
Lemma linked_rev nx pv c : linked nx pv c -> linked pv nx (rev c).
Proof.
  induction c as [|x c IH]; [done|]. destruct c as [|y c]; [done|].
  intros (H1 & H2 & H3). cbn [rev] in *. rewrite <- app_assoc. cbn [app].
  apply linked_app. split; [by apply IH|]. done.
Qed.

(** The node after [p] is unlinked: [next] of [p] and [prev] of [n] are
    redirected. *)
Lemma linked_unlink nx pv c1 p b n c2 :
  linked nx pv (c1 ++ p :: b :: n :: c2) ->
  p ∉ c1 -> p ∉ removelast (n :: c2) -> n ∉ tail (c1 ++ [p]) -> n ∉ c2 ->
  linked (fset nx p n) (fset pv n p) (c1 ++ p :: n :: c2).
Proof.
  intros H Hp1 Hp2 Hn1 Hn2. apply linked_app in H as (Ha & Hb & Hc & Hd).
  apply linked_cons in Hd as (He & Hf & Hg). apply linked_app.
  split; [|split; [apply fset_eq|split; [apply fset_eq|]]].
  - eapply linked_ext; [exact Ha| |].
    + intros x Hx. apply fset_ne. by intros ->.
    + intros y Hy. apply fset_ne. by intros ->.
  - destruct (exists_last (l := n :: c2)) as (c & w & E); [done|]. rewrite E in *.
    rewrite removelast_last in Hp2. eapply linked_ext; [exact Hg| |].
    + intros x Hx. apply fset_ne. by intros ->.
    + intros y Hy. apply fset_ne. intros ->. rewrite <- E in Hy. done.
Qed.

(** Node [b] is inserted between the head [h] and its successor [n]. *)
Lemma linked_insert nx pv h b n c :
  linked nx pv (h :: n :: c) ->
  b ∉ n :: c -> h ∉ removelast (n :: c) -> n ∉ c -> b <> h ->
  linked (fset (fset nx b n) h b) (fset (fset pv b h) n b) (h :: b :: n :: c).
Proof.
  intros (H1 & H2 & H3) Hb Hh Hn Hbh. apply not_elem_of_cons in Hb as [Hbn Hbc].
  apply linked_cons. split; [apply fset_eq|]. split; [rewrite fset_ne by done; apply fset_eq|].
  apply linked_cons. split; [rewrite fset_ne by done; apply fset_eq|]. split; [apply fset_eq|].
  destruct (exists_last (l := n :: c)) as (d & w & E); [done|].
  rewrite E in Hh. rewrite removelast_last in Hh. assert (b ∉ d ++ [w]) as Hbd by (rewrite <- E; set_solver).
  rewrite E in H3 |- *. eapply linked_ext; [exact H3| |].
  - intros x Hx. rewrite !fset_ne; [done|set_solver|]. by intros ->.
  - intros y Hy. rewrite <- E in Hy. cbn in Hy. rewrite !fset_ne; [done|set_solver|set_solver].
Qed.

End Linked.
