(* ===== verification/BlockCache.v ===== *)
(** * What the buffer cache promises to its clients

    [bspec] is the cache as its clients see it: for each sector of the root disk
    its current contents and the contents on the disk, which sectors are held
    (B_BUSY, with the buffer that holds them), which are pinned (B_DIRTY), and
    the disk writes made so far.  [BufCache] states the effect of each
    operation on that view; bio.c is an instance (BioSpec), the log and the file
    system are proved against the class. *)

From S2P Require Import Prelude.

Record bspec := BSpec {
  nsect : Z;
  content : Z -> list Z;
  disk : Z -> list Z;
  handles : gmap Z Z;
  dirty : gset Z;
  trace : list (Z * list Z)
}.

(** Pointwise update of a function on sectors. *)
Definition zupd {A} (f : Z -> A) (a : Z) (v : A) : Z -> A := fun x => if decide (x = a) then v else f x.

Lemma zupd_eq {A} (f : Z -> A) a v : zupd f a v a = v.
Proof. unfold zupd. by rewrite decide_True. Qed.

Lemma zupd_ne {A} (f : Z -> A) a v x : x <> a -> zupd f a v x = f x.
Proof. intros. unfold zupd. by rewrite decide_False. Qed.

Definition hold (sec h : Z) (v : bspec) : bspec :=
  BSpec (nsect v) (content v) (disk v) (<[sec := h]> (handles v)) (dirty v) (trace v).

Definition unhold (sec : Z) (v : bspec) : bspec :=
  BSpec (nsect v) (content v) (disk v) (delete sec (handles v)) (dirty v) (trace v).

Definition store (sec : Z) (d : list Z) (v : bspec) : bspec :=
  BSpec (nsect v) (zupd (content v) sec d) (disk v) (handles v) (dirty v) (trace v).

Definition pin (sec : Z) (v : bspec) : bspec :=
  BSpec (nsect v) (content v) (disk v) (handles v) ({[sec]} ∪ dirty v) (trace v).

(** The sector goes to the disk. *)
Definition flush (sec : Z) (v : bspec) : bspec :=
  BSpec (nsect v) (content v) (zupd (disk v) sec (content v sec)) (handles v)
    (dirty v ∖ {[sec]}) (trace v ++ [(sec, content v sec)]).

(** Sectors that occupy a buffer for certain. *)
Definition in_use (v : bspec) : gset Z := dom (handles v) ∪ dirty v.

(** Room for one more sector. *)
Definition room (v : bspec) (sec : Z) : Prop := Z.of_nat (size (in_use v)) < 10 \/ sec ∈ dirty v.

Definition ROOTDEV : Z := 1.

Class BufCache (S : Type) := {
  bc_read : Z -> Z -> M S Z;
  bc_write : Z -> M S unit;
  bc_release : Z -> M S unit;
  bc_data : Z -> M S (list Z);
  bc_sector : Z -> M S Z;
  bc_dev : Z -> M S Z;
  bc_store : Z -> list Z -> M S unit;
  bc_pin : Z -> M S unit;

  bc_rep : S -> bspec -> Prop;

  bc_read_ok s v sec :
    bc_rep s v -> 0 <= sec < nsect v -> handles v !! sec = None -> room v sec ->
    wp (bc_read ROOTDEV sec) (fun h s' => bc_rep s' (hold sec h v)) s;
  bc_write_ok s v sec h :
    bc_rep s v -> handles v !! sec = Some h -> wp (bc_write h) (fun _ s' => bc_rep s' (flush sec v)) s;
  bc_release_ok s v sec h :
    bc_rep s v -> handles v !! sec = Some h -> sec ∈ dirty v \/ content v sec = disk v sec ->
    wp (bc_release h) (fun _ s' => bc_rep s' (unhold sec v)) s;
  bc_data_ok s v sec h :
    bc_rep s v -> handles v !! sec = Some h -> bc_data h s = Ok (content v sec) s;
  bc_sector_ok s v sec h :
    bc_rep s v -> handles v !! sec = Some h -> bc_sector h s = Ok sec s;
  bc_dev_ok s v sec h :
    bc_rep s v -> handles v !! sec = Some h -> bc_dev h s = Ok ROOTDEV s;
  bc_store_ok s v sec h d :
    bc_rep s v -> handles v !! sec = Some h -> zlen d = 512 ->
    wp (bc_store h d) (fun _ s' => bc_rep s' (store sec d v)) s;
  bc_pin_ok s v sec h :
    bc_rep s v -> handles v !! sec = Some h -> wp (bc_pin h) (fun _ s' => bc_rep s' (pin sec v)) s;

  (** A sector that is neither held nor pinned is as on the disk; all
      sectors have 512 bytes. *)
  bc_clean s v sec :
    bc_rep s v -> 0 <= sec < nsect v -> handles v !! sec = None -> sec ∉ dirty v -> content v sec = disk v sec;
  bc_block s v sec :
    bc_rep s v -> 0 <= sec < nsect v -> zlen (content v sec) = 512 /\ zlen (disk v sec) = 512;
  bc_held_range s v sec h :
    bc_rep s v -> handles v !! sec = Some h -> 0 <= sec < nsect v
}.
