(* ===== verification/Bio.v ===== *)
(** * bio.c and memide.c: the buffer cache and the memory disk

    The cache is the array bcache.buf[NBUF]; index [HEAD] of the same list is
    bcache.head.  Buffers are linked into the MRU ring by index.  The disk is the
    image in memory, 512 bytes per sector.  [dwrites] records the sectors
    written, oldest first, and [bwoken] the buffers passed to wakeup; the code
    does not read either. *)

From S2P Require Import Prelude DList.

Definition NBUF : Z := 10.

Definition HEAD : Z := NBUF.

Definition BSIZE : Z := 512.

Definition B_BUSY : Z := 1.

Definition B_VALID : Z := 2.

Definition B_DIRTY : Z := 4.

Record buf := Buf {
  flags : Z; dev : Z; sector : Z; prev : Z; next : Z; data : list Z
}.

Record bcache := Bcache {
  bc_lock : bool;
  bufs : list buf;                     (* buf[0..NBUF-1], then head *)
  memdisk : list Z;
  disksize : Z;
  dwrites : list (Z * list Z);
  bwoken : list Z
}.

Definition set_bufs (bs : list buf) (s : bcache) : bcache :=
  Bcache (bc_lock s) bs (memdisk s) (disksize s) (dwrites s) (bwoken s).

Definition lock_bcache : M bcache unit := fun s =>
  if bc_lock s then Spin
  else Ok tt (Bcache true (bufs s) (memdisk s) (disksize s) (dwrites s) (bwoken s)).

Definition unlock_bcache : M bcache unit :=
  modify (fun s => Bcache false (bufs s) (memdisk s) (disksize s) (dwrites s) (bwoken s)).

Definition get_buf (b : Z) : M bcache buf := s <- get ;; from_opt (zget (bufs s) b).

(** Stores through a struct buf pointer, field by field. *)
Definition upd_buf (b : Z) (f : buf -> buf) : M bcache unit :=
  x <- get_buf b ;; modify (fun s => set_bufs (zset (bufs s) b (f x)) s).

Definition with_flags (f : Z) (x : buf) : buf := Buf f (dev x) (sector x) (prev x) (next x) (data x).

Definition with_prev (p : Z) (x : buf) : buf := Buf (flags x) (dev x) (sector x) p (next x) (data x).

Definition with_next (n : Z) (x : buf) : buf := Buf (flags x) (dev x) (sector x) (prev x) n (data x).

Definition with_data (d : list Z) (x : buf) : buf := Buf (flags x) (dev x) (sector x) (prev x) (next x) d.

(** ** memide.c *)

Definition ideinit (img : list Z) : M bcache unit :=
  modify (fun s => Bcache (bc_lock s) (bufs s) img (zlen img / 512) (dwrites s) (bwoken s)).

(** Sync buf with disk. *)
Definition iderw (b : Z) : M bcache unit :=
  x <- get_buf b ;;
  if Z.land (flags x) B_BUSY =? 0 then panic "iderw: buf not busy" else
  if Z.land (flags x) (Z.lor B_VALID B_DIRTY) =? B_VALID then panic "iderw: nothing to do" else
  if negb (dev x =? 1) then panic "iderw: request not for disk 1" else
  s <- get ;;
  if disksize s <=? sector x then panic "iderw: sector out of range" else
  (if negb (Z.land (flags x) B_DIRTY =? 0) then
     upd_buf b (fun x => with_flags (Z.land (flags x) (Z.lnot B_DIRTY)) x) ;;;
     modify (fun s => Bcache (bc_lock s) (bufs s) (splice (memdisk s) (sector x * 512) (data x))
                        (disksize s) (dwrites s ++ [(sector x, data x)]) (bwoken s))
   else upd_buf b (with_data (bytes_at (memdisk s) (sector x * 512) 512))) ;;;
  upd_buf b (fun x => with_flags (Z.lor (flags x) B_VALID) x).

(** ** bio.c *)

(** binit on the zeroed BSS. *)
Definition binit : M bcache unit :=
  modify (fun s => Bcache false (bufs s) (memdisk s) (disksize s) (dwrites s) (bwoken s)) ;;;
  upd_buf HEAD (with_prev HEAD) ;;;
  upd_buf HEAD (with_next HEAD) ;;;
  for_ 0 (Z.to_nat NBUF) (fun b =>
    h <- get_buf HEAD ;;
    upd_buf b (with_next (next h)) ;;;
    upd_buf b (with_prev HEAD) ;;;
    upd_buf b (fun x => Buf (flags x) (u32 (-1)) (sector x) (prev x) (next x) (data x)) ;;;
    h <- get_buf HEAD ;;
    upd_buf (next h) (with_prev b) ;;;
    upd_buf HEAD (with_next b)).

(** A loop over the ring in direction [dir] until [test] holds. *)
Fixpoint scan (dir : buf -> Z) (test : buf -> bool) (fuel : nat) (b : Z) : M bcache (option Z) :=
  match fuel with
  | O => no_fuel
  | S f =>
      if b =? HEAD then ret None else
      x <- get_buf b ;;
      if test x then ret (Some b) else scan dir test f (dir x)
  end.

Definition ring_fuel : nat := Z.to_nat NBUF + 1.

Definition bget (d sec : Z) : M bcache Z :=
  lock_bcache ;;;
  h <- get_buf HEAD ;;
  r <- scan next (fun x => (dev x =? d) && (sector x =? sec)) ring_fuel (next h) ;;
  match r with
  | Some b =>
      x <- get_buf b ;;
      if Z.land (flags x) B_BUSY =? 0 then
        upd_buf b (fun x => with_flags (Z.lor (flags x) B_BUSY) x) ;;;
        unlock_bcache ;;;
        ret b
      else unlock_bcache ;;; (fun s => Sleep s)
  | None =>
      r <- scan prev (fun x => (Z.land (flags x) B_BUSY =? 0) && (Z.land (flags x) B_DIRTY =? 0))
             ring_fuel (prev h) ;;
      match r with
      | Some b =>
          upd_buf b (fun x => Buf B_BUSY d sec (prev x) (next x) (data x)) ;;;
          unlock_bcache ;;;
          ret b
      | None => panic "bget: no buffers"
      end
  end.

Definition bread (d sec : Z) : M bcache Z :=
  b <- bget d sec ;;
  x <- get_buf b ;;
  when (Z.land (flags x) B_VALID =? 0) (iderw b) ;;;
  ret b.

Definition bwrite (b : Z) : M bcache unit :=
  x <- get_buf b ;;
  if Z.land (flags x) B_BUSY =? 0 then panic "bwrite" else
  upd_buf b (fun x => with_flags (Z.lor (flags x) B_DIRTY) x) ;;;
  iderw b.

(** The pointer updates of brelse move [b] to the front of the MRU list. *)
Definition move_front (b : Z) : M bcache unit :=
  x <- get_buf b ;;
  upd_buf (next x) (with_prev (prev x)) ;;;
  x <- get_buf b ;;
  upd_buf (prev x) (with_next (next x)) ;;;
  h <- get_buf HEAD ;;
  upd_buf b (with_next (next h)) ;;;
  upd_buf b (with_prev HEAD) ;;;
  h <- get_buf HEAD ;;
  upd_buf (next h) (with_prev b) ;;;
  upd_buf HEAD (with_next b).

Definition brelse (b : Z) : M bcache unit :=
  x <- get_buf b ;;
  if Z.land (flags x) B_BUSY =? 0 then panic "brelse" else
  lock_bcache ;;;
  move_front b ;;;
  upd_buf b (fun x => with_flags (Z.land (flags x) (Z.lnot B_BUSY)) x) ;;;
  modify (fun s => Bcache (bc_lock s) (bufs s) (memdisk s) (disksize s) (dwrites s) (bwoken s ++ [b])) ;;;
  unlock_bcache.

(** What the callers do with a held buffer: read and change its data, and set
    B_DIRTY to keep it in the cache. *)
Definition buf_data (b : Z) : M bcache (list Z) := x <- get_buf b ;; ret (data x).

Definition buf_sector (b : Z) : M bcache Z := x <- get_buf b ;; ret (sector x).

Definition buf_dev (b : Z) : M bcache Z := x <- get_buf b ;; ret (dev x).

Definition buf_store (b : Z) (d : list Z) : M bcache unit := upd_buf b (with_data d).

Definition buf_pin (b : Z) : M bcache unit :=
  upd_buf b (fun x => with_flags (Z.lor (flags x) B_DIRTY) x).

(** The cache and disk of a freshly loaded kernel. *)
Definition bcache_bss : bcache :=
  Bcache false (replicate 11 (Buf 0 0 0 0 0 (replicate 512 0))) [] 0 [] [].
