(* ===== verification/BioSpec.v ===== *)
(** * The buffer cache refines its specification

    The representation invariant [rep] ties bcache (the MRU ring, the flags, the
    cached data, the disk image) to the clients' view [bspec]; each operation
    of bio.c preserves it with the effect the class [BufCache] promises. *)

From S2P Require Import Prelude DList Bio BlockCache.

(** The fields of a buffer other than its links. *)
Record bcore := Bcore { c_flags : Z; c_dev : Z; c_sector : Z; c_data : list Z }.

Definition core_of (x : buf) : bcore := Bcore (flags x) (dev x) (sector x) (data x).

Definition cores (s : bcache) : list bcore := core_of <$> bufs s.

(** The links as functions. *)
Definition nx (s : bcache) (i : Z) : Z := from_option next 0 (zget (bufs s) i).

Definition pv (s : bcache) (i : Z) : Z := from_option prev 0 (zget (bufs s) i).

Definition ring (s : bcache) (l : list Z) : Prop :=
  l ≡ₚ seqZ 0 NBUF /\ linked (nx s) (pv s) (HEAD :: l ++ [HEAD]).

(** The flags of a buffer in use between operations: always valid. *)
Definition mkflags (busy dirt : bool) : Z := (if busy then 1 else 0) + 2 + (if dirt then 4 else 0).

Definition core_ok (v : bspec) (i : Z) (x : bcore) : Prop :=
  zlen (c_data x) = 512 /\
  ((c_dev x = u32 (-1) /\ c_flags x = 0) \/
   (c_dev x = 1 /\ 0 <= c_sector x < nsect v /\ c_data x = content v (c_sector x) /\
    exists busy dirt, c_flags x = mkflags busy dirt /\
      (busy = true <-> handles v !! c_sector x = Some i) /\
      (dirt = true <-> c_sector x ∈ dirty v) /\
      (busy = false -> dirt = false -> content v (c_sector x) = disk v (c_sector x)))).

(** Buffer [i] holds sector [sec]. *)
Definition caches (cs : list bcore) (i sec : Z) : Prop :=
  exists x, zget cs i = Some x /\ 0 <= i < NBUF /\ c_dev x = 1 /\ c_sector x = sec.

Record crep (s : bcache) (v : bspec) : Prop := {
  r_lock : bc_lock s = false;
  r_len : zlen (bufs s) = NBUF + 1;
  r_size : disksize s = nsect v /\ 512 * nsect v <= zlen (memdisk s);
  r_blocks : forall sec, 0 <= sec < nsect v -> disk v sec = bytes_at (memdisk s) (sec * 512) 512;
  r_buf : forall i x, 0 <= i < NBUF -> zget (cores s) i = Some x -> core_ok v i x;
  r_uniq : forall i j sec, caches (cores s) i sec -> caches (cores s) j sec -> i = j;
  r_hold : forall sec h, handles v !! sec = Some h -> caches (cores s) h sec;
  r_dirty : forall sec, sec ∈ dirty v -> exists h, caches (cores s) h sec;
  r_rest : forall sec, 0 <= sec < nsect v -> (forall h, ~ caches (cores s) h sec) -> content v sec = disk v sec;
  r_trace : trace v = dwrites s
}.

Definition rep (s : bcache) (v : bspec) : Prop := crep s v /\ exists l, ring s l.

(** ** Links and cores under stores *)

Lemma zget_fmap {A B} (f : A -> B) l i : zget (f <$> l) i = f <$> zget l i.
Proof. unfold zget. case_if; [|done]. apply list_lookup_fmap. Qed.

Lemma zset_fmap {A B} (f : A -> B) l i x : zset (f <$> l) i (f x) = f <$> zset l i x.
Proof. unfold zset. case_if; [|done]. symmetry. apply list_fmap_insert. Qed.

Lemma zlen_fmap {A B} (f : A -> B) l : zlen (f <$> l) = zlen l.
Proof. unfold zlen. by rewrite length_fmap. Qed.

Lemma get_buf_ok s i : 0 <= i < zlen (bufs s) ->
  exists x, get_buf i s = Ok x s /\ zget (bufs s) i = Some x /\
    next x = nx s i /\ prev x = pv s i /\ zget (cores s) i = Some (core_of x).
Proof.
  intros Hi. destruct (zget_in (bufs s) i Hi) as [x Hx]. exists x.
  unfold get_buf, bind, get, nx, pv, cores. rewrite zget_fmap, Hx. done.
Qed.

Lemma wp_get_buf s i (Q : buf -> bcache -> Prop) : 0 <= i < zlen (bufs s) ->
  (forall x, next x = nx s i -> prev x = pv s i -> zget (cores s) i = Some (core_of x) -> Q x s) ->
  wp (get_buf i) Q s.
Proof. intros Hi HQ. destruct (get_buf_ok s i Hi) as (x & Hg & _ & H1 & H2 & H3). eapply ok_wp; [done|]. by apply HQ. Qed.

(** [same_but_bufs]: everything outside the array is unchanged. *)
Definition same_env (s s' : bcache) : Prop :=
  bc_lock s' = bc_lock s /\ memdisk s' = memdisk s /\ disksize s' = disksize s /\
  dwrites s' = dwrites s /\ zlen (bufs s') = zlen (bufs s).

Lemma wp_upd_buf s i f (Q : unit -> bcache -> Prop) : 0 <= i < zlen (bufs s) ->
  (forall x s', next x = nx s i -> prev x = pv s i -> zget (cores s) i = Some (core_of x) ->
     same_env s s' -> cores s' = zset (cores s) i (core_of (f x)) ->
     (forall j, nx s' j = fset (nx s) i (next (f x)) j) ->
     (forall j, pv s' j = fset (pv s) i (prev (f x)) j) -> Q tt s') ->
  wp (upd_buf i f) Q s.
Proof.
  intros Hi HQ. unfold upd_buf. apply wp_bind. destruct (get_buf_ok s i Hi) as (x & Hg & Hx & H1 & H2 & H3).
  eapply ok_wp; [done|]. apply wp_modify. eapply (HQ x); try done.
  - unfold same_env. cbn. by rewrite zlen_zset.
  - unfold cores. cbn. by rewrite zset_fmap.
  - intros j. unfold nx, fset. cbn. case_decide as E; [subst; by rewrite zget_zset_eq|].
    by rewrite zget_zset_ne by done.
  - intros j. unfold pv, fset. cbn. case_decide as E; [subst; by rewrite zget_zset_eq|].
    by rewrite zget_zset_ne by done.
Qed.

(** A store to a link leaves the cores alone. *)
Lemma wp_set_next s i n (Q : unit -> bcache -> Prop) : 0 <= i < zlen (bufs s) ->
  (forall s', same_env s s' -> cores s' = cores s ->
     (forall j, nx s' j = fset (nx s) i n j) -> (forall j, pv s' j = pv s j) -> Q tt s') ->
  wp (upd_buf i (with_next n)) Q s.
Proof.
  intros Hi HQ. apply wp_upd_buf; [done|]. intros x s' H1 H2 H3 H4 H5 H6 H7. apply HQ; try done.
  - rewrite H5. by apply zset_id.
  - intros j. rewrite H7. cbn. unfold fset. case_decide; [by subst|done].
Qed.

Lemma wp_set_prev s i p (Q : unit -> bcache -> Prop) : 0 <= i < zlen (bufs s) ->
  (forall s', same_env s s' -> cores s' = cores s ->
     (forall j, nx s' j = nx s j) -> (forall j, pv s' j = fset (pv s) i p j) -> Q tt s') ->
  wp (upd_buf i (with_prev p)) Q s.
Proof.
  intros Hi HQ. apply wp_upd_buf; [done|]. intros x s' H1 H2 H3 H4 H5 H6 H7. apply HQ; try done.
  - rewrite H5. by apply zset_id.
  - intros j. rewrite H6. cbn. unfold fset. case_decide; [by subst|done].
Qed.

(** A store to a core keeps the links. *)
Lemma wp_set_core s i f (Q : unit -> bcache -> Prop) : 0 <= i < zlen (bufs s) ->
  (forall x, next (f x) = next x /\ prev (f x) = prev x) ->
  (forall x s', zget (cores s) i = Some (core_of x) ->
     same_env s s' -> cores s' = zset (cores s) i (core_of (f x)) ->
     (forall j, nx s' j = nx s j) -> (forall j, pv s' j = pv s j) -> Q tt s') ->
  wp (upd_buf i f) Q s.
Proof.
  intros Hi Hf HQ. apply wp_upd_buf; [done|]. intros x s' H1 H2 H3 H4 H5 H6 H7.
  apply (HQ x); try done.
  - intros j. rewrite H6, (proj1 (Hf x)). unfold fset. case_decide; [by subst|done].
  - intros j. rewrite H7, (proj2 (Hf x)). unfold fset. case_decide; [by subst|done].
Qed.

Lemma linked_eq n p n' p' c : (forall j, n' j = n j) -> (forall j, p' j = p j) -> linked n p c -> linked n' p' c.
Proof.
  intros Hn Hp. induction c as [|x c IH]; [done|]. destruct c as [|y c]; [done|].
  intros (H1 & H2 & H3). split; [by rewrite Hn|]. split; [by rewrite Hp|by apply IH].
Qed.

Lemma ring_keep s s' l : (forall j, nx s' j = nx s j) -> (forall j, pv s' j = pv s j) -> ring s l -> ring s' l.
Proof. intros Hn Hp [H1 H2]. split; [done|]. by eapply linked_eq. Qed.

Lemma ring_members s l : ring s l -> NoDup l /\ HEAD ∉ l /\ forall i, i ∈ l <-> 0 <= i < NBUF.
Proof.
  intros [H _]. assert (forall i, i ∈ l <-> 0 <= i < NBUF) as E.
  { intros i. rewrite H, elem_of_seqZ. unfold NBUF. lia. }
  split; [rewrite H; apply NoDup_seqZ|]. split; [|done]. rewrite E. unfold HEAD. lia.
Qed.

(** ** Walking the ring *)

Lemma scan_ok (dir : buf -> Z) test s (D P : Z -> Z) :
  (forall i x, zget (bufs s) i = Some x -> dir x = D i) ->
  zlen (bufs s) = NBUF + 1 ->
  forall l x0 fuel,
  linked D P (x0 :: l ++ [HEAD]) -> (forall i, i ∈ l -> 0 <= i < NBUF) -> (length l < fuel)%nat ->
  exists r, scan dir test fuel (D x0) s = Ok r s /\
    match r with
    | Some b => b ∈ l /\ exists x, zget (bufs s) b = Some x /\ test x = true
    | None => forall b x, b ∈ l -> zget (bufs s) b = Some x -> test x = false
    end.
Proof.
  intros HD Hlen. induction l as [|b l IH]; intros x0 fuel Hl Hin Hf; (destruct fuel as [|f]; [cbn in Hf; lia|]).
  - destruct Hl as (-> & _). cbn [scan]. rewrite Z.eqb_refl. exists None. split; [done|]. set_solver.
  - cbn [app] in Hl. apply linked_cons in Hl as (-> & _ & Hl). assert (0 <= b < NBUF) as Hb by (apply Hin; set_solver).
    cbn [scan]. rewrite (proj2 (Z.eqb_neq b HEAD)) by (unfold HEAD; lia).
    destruct (get_buf_ok s b) as (x & Hg & Hx & _); [lia|]. unfold bind. rewrite Hg.
    destruct (test x) eqn:Ht.
    + exists (Some b). split; [done|]. split; [set_solver|]. by exists x.
    + rewrite (HD b x Hx). destruct (IH b f) as (r & Hr & Hs); [done|set_solver|cbn in Hf; lia|].
      exists r. split; [done|]. destruct r as [b'|]; [set_solver|].
      intros b' x' [->|Hb']%elem_of_cons Hx'; [congruence|by eapply Hs].
Qed.

Lemma ring_length s l : ring s l -> length l = 10%nat.
Proof. intros [H _]. rewrite H, length_seqZ. done. Qed.

Lemma scan_next_ok test s l : zlen (bufs s) = NBUF + 1 -> ring s l ->
  exists r, scan next test ring_fuel (nx s HEAD) s = Ok r s /\
    match r with
    | Some b => 0 <= b < NBUF /\ exists x, zget (bufs s) b = Some x /\ test x = true
    | None => forall b x, 0 <= b < NBUF -> zget (bufs s) b = Some x -> test x = false
    end.
Proof.
  intros Hlen Hr. destruct (ring_members s l Hr) as (_ & _ & Hm). pose proof (ring_length s l Hr) as Hl.
  destruct (scan_ok next test s (nx s) (pv s)) with (l := l) (x0 := HEAD) (fuel := ring_fuel) as (r & H1 & H2);
    [|done|apply Hr|intros i; by rewrite Hm|rewrite Hl; vm_compute; lia|].
  { intros i x Hx. unfold nx. by rewrite Hx. }
  exists r. split; [done|]. destruct r as [b|]; [by rewrite <- Hm|]. intros b x Hb. apply H2. by rewrite Hm.
Qed.

Lemma scan_prev_ok test s l : zlen (bufs s) = NBUF + 1 -> ring s l ->
  exists r, scan prev test ring_fuel (pv s HEAD) s = Ok r s /\
    match r with
    | Some b => 0 <= b < NBUF /\ exists x, zget (bufs s) b = Some x /\ test x = true
    | None => forall b x, 0 <= b < NBUF -> zget (bufs s) b = Some x -> test x = false
    end.
Proof.
  intros Hlen Hr. destruct (ring_members s l Hr) as (_ & _ & Hm). pose proof (ring_length s l Hr) as Hl.
  destruct Hr as [Hp Hlk]. apply linked_rev in Hlk. cbn [rev] in Hlk. rewrite rev_app_distr in Hlk. cbn in Hlk.
  destruct (scan_ok prev test s (pv s) (nx s)) with (l := rev l) (x0 := HEAD) (fuel := ring_fuel) as (r & H1 & H2);
    [|done|exact Hlk|intros i; rewrite <- Hm; by rewrite list_elem_of_In, <- in_rev, <- list_elem_of_In
    |rewrite length_rev, Hl; vm_compute; lia|].
  { intros i x Hx. unfold pv. by rewrite Hx. }
  assert (forall i, i ∈ rev l <-> 0 <= i < NBUF) as Hm' by
    (intros i; rewrite <- Hm; by rewrite list_elem_of_In, <- in_rev, <- list_elem_of_In).
  exists r. split; [done|]. destruct r as [b|]; [by rewrite <- Hm'|]. intros b x Hb. apply H2. by rewrite Hm'.
Qed.

(** ** Updating one buffer *)

Lemma crep_upd s s' v v' i x x' :
  crep s v -> 0 <= i < NBUF -> zget (cores s) i = Some x -> cores s' = zset (cores s) i x' ->
  bc_lock s' = false -> zlen (bufs s') = zlen (bufs s) -> disksize s' = disksize s ->
  nsect v' = nsect v -> zlen (memdisk s') = zlen (memdisk s) ->
  (forall sec, 0 <= sec < nsect v -> disk v' sec = bytes_at (memdisk s') (sec * 512) 512) ->
  trace v' = dwrites s' -> c_dev x' = 1 -> core_ok v' i x' ->
  (forall j y, j <> i -> 0 <= j < NBUF -> zget (cores s) j = Some y -> c_dev y = 1 ->
     core_ok v j y -> c_sector y <> c_sector x' /\ core_ok v' j y) ->
  (forall sec h, handles v' !! sec = Some h -> (sec = c_sector x' /\ h = i) \/ (handles v !! sec = Some h /\ h <> i)) ->
  (forall sec, sec ∈ dirty v' -> sec = c_sector x' \/ (sec ∈ dirty v /\ ~ caches (cores s) i sec)) ->
  (forall sec, 0 <= sec < nsect v -> sec <> c_sector x' ->
     content v' sec = content v sec /\ disk v' sec = disk v sec /\
     (caches (cores s) i sec -> content v sec = disk v sec)) ->
  crep s' v'.
Proof.
  intros [A1 A2 A3 A4 A5 A6 A7 A8 A9 A10] Hi Hx Hcs B1 B2 B3 B4 B5 B6 B7 Hdev Hok Hoth Hhold Hdirty Hrest.
  assert (0 <= i < zlen (cores s)) as Hir by (by apply zget_Some in Hx).
  assert (forall j sec, caches (cores s') j sec <->
    (j = i /\ sec = c_sector x') \/ (j <> i /\ caches (cores s) j sec)) as Hc.
  { intros j sec. unfold caches. rewrite Hcs. destruct (decide (j = i)) as [->|Hj].
    - rewrite zget_zset_eq by done. naive_solver.
    - rewrite zget_zset_ne by done. naive_solver. }
  assert (forall j y, j <> i -> 0 <= j < NBUF -> zget (cores s) j = Some y -> c_dev y = 1 -> c_sector y <> c_sector x') as Hne.
  { intros j y Hj Hjr Hy Hd. apply (Hoth j y); auto. }
  split; try done.
  - by rewrite B2.
  - rewrite B3, B4, B5. done.
  - intros sec. rewrite B4. apply B6.
  - intros j y Hj. rewrite Hcs. destruct (decide (j = i)) as [->|Hji].
    + rewrite zget_zset_eq by done. by intros [= <-].
    + rewrite zget_zset_ne by done. intros Hy. pose proof (A5 j y Hj Hy) as Hoky.
      destruct Hoky as [Hl [[Hd Hf]|Hd]].
      * split; [done|]. by left.
      * apply (Hoth j y); try done; [apply Hd|]. split; [done|by right].
  - intros j k sec. rewrite !Hc. intros [[-> ->]|[Hj Hcj]] [[-> Hs]|[Hk Hck]]; [done|..].
    + destruct Hck as (y & Hy & Hkr & Hyd & Hys). by destruct (Hne k y).
    + subst. destruct Hcj as (y & Hy & Hkr & Hyd & Hys). by destruct (Hne j y).
    + by apply (A6 j k sec).
  - intros sec h Hh. apply Hc. destruct (Hhold sec h Hh) as [[-> ->]|[Hh' Hne']]; [by left|right]. auto.
  - intros sec Hs. destruct (Hdirty sec Hs) as [->|[Hs' Hnc]].
    + exists i. apply Hc. by left.
    + destruct (A8 sec Hs') as [h Hh]. exists h. apply Hc. right. split; [|done]. by intros ->.
  - rewrite B4. intros sec Hr Hno. destruct (decide (sec = c_sector x')) as [->|Hse].
    { exfalso. apply (Hno i), Hc. by left. }
    destruct (Hrest sec Hr Hse) as (H1 & H2 & H3). rewrite H1, H2.
    destruct (A5 i x Hi Hx) as [_ [[Hd _]|(Hd & _)]].
    + apply A9; [done|]. intros h Hh. destruct (decide (h = i)) as [->|]; [|by apply (Hno h), Hc; right].
      destruct Hh as (y & Hy & _ & Hyd & _). rewrite Hx in Hy. injection Hy as <-. rewrite Hyd in Hd. by vm_compute in Hd.
    + destruct (decide (c_sector x = sec)) as [Hs|Hs]; [apply H3; by exists x|].
      apply A9; [done|]. intros h Hh. destruct (decide (h = i)) as [->|]; [|by apply (Hno h), Hc; right].
      destruct Hh as (y & Hy & _ & _ & Hys). rewrite Hx in Hy. injection Hy as <-. done.
Qed.

(** The core of a held sector. *)
Lemma held_core s v sec h : crep s v -> handles v !! sec = Some h ->
  0 <= h < NBUF /\ 0 <= sec < nsect v /\
  exists dirt, zget (cores s) h = Some (Bcore (mkflags true dirt) 1 sec (content v sec)) /\
    (dirt = true <-> sec ∈ dirty v) /\ zlen (content v sec) = 512.
Proof.
  intros Hr Hh. destruct (r_hold s v Hr sec h Hh) as ([f d se da] & Hx & Hhr & Hd & Hs). cbn in *. subst.
  destruct (r_buf s v Hr h _ Hhr Hx) as [Hl [[Hd _]|(_ & Hsr & Hda & busy & dirt & Hf & Hb & Hdi & _)]]; cbn in *; [by vm_compute in Hd|].
  split; [done|]. split; [done|]. exists dirt. assert (busy = true) as -> by (by apply Hb). subst. done.
Qed.

(** A change of the buffer that holds [sec], whose effect on the view is
    confined to [sec]. *)
Lemma crep_at s s' v v' sec h x' :
  crep s v -> handles v !! sec = Some h -> cores s' = zset (cores s) h x' ->
  bc_lock s' = false -> zlen (bufs s') = zlen (bufs s) -> disksize s' = disksize s ->
  nsect v' = nsect v -> zlen (memdisk s') = zlen (memdisk s) ->
  (forall sec', 0 <= sec' < nsect v -> disk v' sec' = bytes_at (memdisk s') (sec' * 512) 512) ->
  trace v' = dwrites s' -> c_dev x' = 1 -> c_sector x' = sec -> core_ok v' h x' ->
  (forall sec', sec' <> sec ->
     content v' sec' = content v sec' /\ disk v' sec' = disk v sec' /\
     (sec' ∈ dirty v' <-> sec' ∈ dirty v) /\ handles v' !! sec' = handles v !! sec') ->
  (handles v' !! sec = Some h \/ handles v' !! sec = None) ->
  crep s' v'.
Proof.
  intros Hr Hh Hcs B1 B2 B3 B4 B5 B6 B7 Hd Hs Hok Heq Hh'.
  destruct (held_core s v sec h Hr Hh) as (Hhr & Hsr & dirt & Hx & Hdi & Hl).
  apply (crep_upd s s' v v' h (Bcore (mkflags true dirt) 1 sec (content v sec)) x'); try done; rewrite ?Hs.
  - intros j y Hj Hjr Hy Hyd Hyok. assert (c_sector y <> sec) as Hne.
    { intros E. apply Hj. apply (r_uniq s v Hr j h sec); [by exists y|by apply (r_hold s v Hr)]. }
    split; [done|]. destruct (Heq _ Hne) as (E1 & E2 & E3 & E4).
    destruct Hyok as [Hyl [Hu|(_ & Hys & Hyda & b & d & Hf & Hb & Hdd & Hcl)]]; (split; [done|]); [by left|right].
    rewrite B4, E1, E2. split; [done|]. split; [done|]. split; [done|]. exists b, d. by rewrite E3, E4.
  - intros sec' h' Hsh. destruct (decide (sec' = sec)) as [->|Hne].
    + destruct Hh' as [E|E]; rewrite E in Hsh; [|done]. injection Hsh as <-. by left.
    + right. destruct (Heq _ Hne) as (_ & _ & _ & E4). rewrite E4 in Hsh. split; [done|].
      intros ->. apply (r_hold s v Hr) in Hsh as (y & Hy & _ & _ & Hys). rewrite Hx in Hy. injection Hy as <-. done.
  - intros sec' Hsd. destruct (decide (sec' = sec)) as [->|Hne]; [by left|right].
    split; [by apply (Heq _ Hne)|]. intros (y & Hy & _ & _ & Hys). rewrite Hx in Hy. injection Hy as <-. done.
  - intros sec' _ Hne. destruct (Heq _ Hne) as (E1 & E2 & _). split; [done|]. split; [done|].
    intros (y & Hy & _ & _ & Hys). rewrite Hx in Hy. injection Hy as <-. done.
Qed.

Lemma get_core {x} {s : bcache} {i c} :
  zget (cores s) i = Some c -> zget (cores s) i = Some (core_of x) ->
  flags x = c_flags c /\ dev x = c_dev c /\ sector x = c_sector c /\ data x = c_data c.
Proof. intros H1 H2. assert (c = core_of x) as -> by congruence. done. Qed.

Lemma handle_range s v sec h : crep s v -> handles v !! sec = Some h -> 0 <= h < zlen (bufs s).
Proof. intros Hr Hh. rewrite (r_len s v Hr). destruct (held_core s v sec h Hr Hh) as (H & _). lia. Qed.

Lemma buf_data_ok s v sec h : rep s v -> handles v !! sec = Some h -> buf_data h s = Ok (content v sec) s.
Proof.
  intros [Hr _] Hh. destruct (get_buf_ok s h (handle_range s v sec h Hr Hh)) as (x & Hg & _ & _ & _ & Hx).
  destruct (held_core s v sec h Hr Hh) as (_ & _ & dirt & Hc & _).
  destruct (get_core Hc Hx) as (_ & _ & _ & Hd). unfold buf_data. rewrite (bind_ok _ _ _ _ _ Hg), Hd. done.
Qed.

Lemma buf_sector_ok s v sec h : rep s v -> handles v !! sec = Some h -> buf_sector h s = Ok sec s.
Proof.
  intros [Hr _] Hh. destruct (get_buf_ok s h (handle_range s v sec h Hr Hh)) as (x & Hg & _ & _ & _ & Hx).
  destruct (held_core s v sec h Hr Hh) as (_ & _ & dirt & Hc & _).
  destruct (get_core Hc Hx) as (_ & _ & Hs & _). unfold buf_sector. rewrite (bind_ok _ _ _ _ _ Hg), Hs. done.
Qed.

Lemma buf_dev_ok s v sec h : rep s v -> handles v !! sec = Some h -> buf_dev h s = Ok ROOTDEV s.
Proof.
  intros [Hr _] Hh. destruct (get_buf_ok s h (handle_range s v sec h Hr Hh)) as (x & Hg & _ & _ & _ & Hx).
  destruct (held_core s v sec h Hr Hh) as (_ & _ & dirt & Hc & _).
  destruct (get_core Hc Hx) as (_ & Hd & _). unfold buf_dev. rewrite (bind_ok _ _ _ _ _ Hg), Hd. done.
Qed.

Lemma mkflags_pin b d : Z.lor (mkflags b d) B_DIRTY = mkflags b true.
Proof. by destruct b, d. Qed.

Lemma mkflags_unbusy b d : Z.land (mkflags b d) (Z.lnot B_BUSY) = mkflags false d.
Proof. by destruct b, d. Qed.

Lemma mkflags_busy b d : Z.lor (mkflags b d) B_BUSY = mkflags true d.
Proof. by destruct b, d. Qed.

Lemma mkflags_test b d :
  (Z.land (mkflags b d) B_BUSY =? 0) = negb b /\ (Z.land (mkflags b d) B_DIRTY =? 0) = negb d /\
  (Z.land (mkflags b d) B_VALID =? 0) = false.
Proof. by destruct b, d. Qed.

Lemma buf_store_ok s v sec h d : rep s v -> handles v !! sec = Some h -> zlen d = 512 ->
  wp (buf_store h d) (fun _ s' => rep s' (store sec d v)) s.
Proof.
  intros [Hr [l Hl]] Hh Hd. destruct (held_core s v sec h Hr Hh) as (Hhr & Hsr & dirt & Hc & Hdi & _).
  apply wp_set_core; [by eapply handle_range|done|].
  intros x s' Hx (E1 & E2 & E3 & E4 & E5) Hcs Hn Hp. split; [|exists l; by eapply ring_keep].
  destruct (get_core Hc Hx) as (F1 & F2 & F3 & _). cbn in *.
  eapply (crep_at s s' v _ sec h); try done; try rewrite E1; try rewrite E2; try rewrite E4; try apply Hr; cbn; try done.
  - unfold core_ok. cbn. rewrite F1, F2, F3. split; [done|]. right. rewrite zupd_eq. split; [done|]. split; [done|].
    split; [done|]. exists true, dirt. split; [done|]. split; [done|]. split; [done|]. done.
  - intros sec' Hne. by rewrite zupd_ne.
  - by left.
Qed.

Lemma buf_pin_ok s v sec h : rep s v -> handles v !! sec = Some h ->
  wp (buf_pin h) (fun _ s' => rep s' (pin sec v)) s.
Proof.
  intros [Hr [l Hl]] Hh. destruct (held_core s v sec h Hr Hh) as (Hhr & Hsr & dirt & Hc & Hdi & Hlen).
  apply wp_set_core; [by eapply handle_range|done|].
  intros x s' Hx (E1 & E2 & E3 & E4 & E5) Hcs Hn Hp. split; [|exists l; by eapply ring_keep].
  destruct (get_core Hc Hx) as (F1 & F2 & F3 & F4). cbn in *.
  eapply (crep_at s s' v _ sec h); try done; try rewrite E1; try rewrite E2; try rewrite E4; try apply Hr; cbn; try done.
  - unfold core_ok. cbn. rewrite F1, F2, F3, F4, mkflags_pin. split; [done|]. right. split; [done|]. split; [done|].
    split; [done|]. exists true, true. split; [done|]. split; [done|]. split; [set_solver|]. done.
  - intros sec' Hne. set_solver.
  - by left.
Qed.

Lemma same_env_trans s1 s2 s3 : same_env s1 s2 -> same_env s2 s3 -> same_env s1 s3.
Proof. unfold same_env. intros. destruct_and!. split_and!; congruence. Qed.

(** Another sector's block is not touched by a sector write. *)
Lemma blocks_splice m n sec d :
  512 * n <= zlen m -> 0 <= sec < n -> zlen d = 512 ->
  zlen (splice m (sec * 512) d) = zlen m /\
  forall sec', 0 <= sec' < n ->
    bytes_at (splice m (sec * 512) d) (sec' * 512) 512 =
    if decide (sec' = sec) then d else bytes_at m (sec' * 512) 512.
Proof.
  intros Hm Hs Hd. split; [apply zlen_splice; lia|]. intros sec' Hs'. case_decide as E.
  - subst. rewrite <- Hd at 3. apply bytes_at_splice_eq. lia.
  - apply bytes_at_splice_ne; lia.
Qed.

Lemma bwrite_ok s v sec h : rep s v -> handles v !! sec = Some h ->
  wp (bwrite h) (fun _ s' => rep s' (flush sec v)) s.
Proof.
  intros [Hr [l Hl]] Hh. destruct (held_core s v sec h Hr Hh) as (Hhr & Hsr & dirt & Hc & Hdi & Hlen).
  pose proof (handle_range s v sec h Hr Hh) as Hb. destruct (r_size s v Hr) as [Hsz Hsz2].
  unfold bwrite. apply wp_bind, wp_get_buf; [done|]. intros x0 _ _ Hx0.
  destruct (get_core Hc Hx0) as (F1 & _). cbn in F1. rewrite F1, (proj1 (mkflags_test true dirt)). cbn [negb].
  apply wp_bind, wp_set_core; [done|done|]. intros x1 s1 Hx1 Es1 Hcs1 Hn1 Hp1.
  destruct (get_core Hc Hx1) as (G1 & G2 & G3 & G4). cbn in G1, G2, G3, G4.
  unfold core_of in Hcs1. cbn in Hcs1. rewrite G1, G2, G3, G4, mkflags_pin in Hcs1.
  assert (zget (cores s1) h = Some (Bcore (mkflags true true) 1 sec (content v sec))) as Hc1
    by (rewrite Hcs1; apply zget_zset_eq; unfold cores; rewrite zlen_fmap; done).
  unfold iderw. assert (0 <= h < zlen (bufs s1)) as Hb1 by (destruct Es1 as (_ & _ & _ & _ & ->); done).
  apply wp_bind, wp_get_buf; [done|]. intros x2 _ _ Hx2.
  destruct (get_core Hc1 Hx2) as (I1 & I2 & I3 & I4). cbn in I1, I2, I3, I4. rewrite I1, I2. cbn -[zlen].
  apply wp_bind, wp_get. destruct (id Es1) as (E1 & E2 & E3 & E4 & E5). rewrite E3, Hsz, I3, (proj2 (Z.leb_gt _ _)) by lia.
  apply wp_bind. rewrite I4. apply wp_bind, wp_set_core; [done|done|]. intros x3 s2 Hx3 Es2 Hcs2 Hn2 Hp2.
  destruct (get_core Hc1 Hx3) as (J1 & J2 & J3 & J4). cbn in J1, J2, J3, J4.
  unfold core_of in Hcs2. cbn in Hcs2. rewrite J1, J2, J3, J4 in Hcs2. change (Z.land _ _) with (mkflags true false) in Hcs2.
  apply wp_modify. set (s3 := Bcache _ _ _ _ _ _).
  assert (cores s3 = cores s2) as Ec by done.
  assert (0 <= h < zlen (bufs s3)) as Hb3 by (destruct Es2 as (_ & _ & _ & _ & E); cbn; rewrite E; done).
  apply wp_set_core; [exact Hb3|done|]. intros x4 s4 Hx4 (K1 & K2 & K3 & K4 & K5) Hcs4 Hn4 Hp4.
  assert (cores s2 = zset (cores s) h (Bcore (mkflags true false) 1 sec (content v sec))) as Hcs2'
    by (by rewrite Hcs2, Hcs1, zset_zset).
  assert (zget (cores s3) h = Some (Bcore (mkflags true false) 1 sec (content v sec))) as Hc3.
  { rewrite Ec, Hcs2'. apply zget_zset_eq. unfold cores. rewrite zlen_fmap. done. }
  destruct (get_core Hc3 Hx4) as (L1 & L2 & L3 & L4). cbn in L1, L2, L3, L4.
  replace (core_of _) with (Bcore (mkflags true false) 1 sec (content v sec)) in Hcs4
    by (unfold core_of; cbn; by rewrite L1, L2, L3, L4).
  rewrite Ec, Hcs2', zset_zset in Hcs4. destruct Es2 as (M1 & M2 & M3 & M4 & M5).
  split.
  - destruct (blocks_splice (memdisk s) (nsect v) sec (content v sec)) as [Z1 Z2]; [done|done|done|].
    eapply (crep_at s s4 v _ sec h _ Hr Hh Hcs4); try done.
    + rewrite K1. cbn. rewrite M1, E1. apply Hr.
    + rewrite K5. cbn. congruence.
    + rewrite K3. cbn. congruence.
    + rewrite K2. cbn. rewrite M2, E2. done.
    + intros sec' Hs'. rewrite K2. cbn. rewrite M2, E2, Z2 by done. unfold zupd.
      case_decide; [done|]. by apply (r_blocks s v Hr).
    + rewrite K4. cbn. rewrite M4, E4. by rewrite (r_trace s v Hr).
    + split; [done|]. right. cbn. split; [done|]. split; [done|]. split; [done|].
      exists true, false. split; [done|]. split; [done|]. split; [set_solver|done].
    + intros sec' Hne. cbn. rewrite zupd_ne by done. set_solver.
    + by left.
  - exists l. eapply ring_keep; [| |exact Hl]; intros j.
    + rewrite Hn4. change (nx s3 j) with (nx s2 j). by rewrite Hn2, Hn1.
    + rewrite Hp4. change (pv s3 j) with (pv s2 j). by rewrite Hp2, Hp1.
Qed.

(** With fewer than NBUF sectors in use, some buffer is neither busy nor
    dirty. *)
Lemma free_buf s v :
  crep s v -> Z.of_nat (size (in_use v)) < 10 ->
  ~ (forall b x, 0 <= b < NBUF -> zget (bufs s) b = Some x ->
       (Z.land (flags x) B_BUSY =? 0) && (Z.land (flags x) B_DIRTY =? 0) = false).
Proof.
  intros Hr Hsize Hall.
  pose (f := fun i => from_option c_sector 0 (zget (cores s) i)).
  assert (forall i, 0 <= i < NBUF -> caches (cores s) i (f i) /\ f i ∈ in_use v) as Hf.
  { intros i Hi. destruct (get_buf_ok s i) as (x & _ & Hx & _ & _ & Hc); [rewrite (r_len s v Hr); lia|].
    specialize (Hall i x Hi Hx). subst f. cbn. rewrite Hc. cbn.
    destruct (r_buf s v Hr i _ Hi Hc) as [_ [[Hd Hf]|(Hd & Hs & _ & b & d & Hf & Hb & Hdd & _)]]; cbn in *.
    { by rewrite Hf in Hall. }
    split; [by exists (core_of x)|]. rewrite Hf in Hall.
    destruct (mkflags_test b d) as (T1 & T2 & _). rewrite T1, T2 in Hall. unfold in_use.
    destruct b; [|destruct d; [|done]].
    - apply elem_of_union_l, elem_of_dom. eexists. by apply Hb.
    - by apply elem_of_union_r, Hdd. }
  pose (L := f <$> seqZ 0 NBUF). assert (NoDup L) as Hnd.
  { apply NoDup_fmap_2_strong; [|apply NoDup_seqZ]. intros i j Hi%elem_of_seqZ Hj%elem_of_seqZ Hij.
    apply (r_uniq s v Hr i j (f i)); [apply Hf; lia|rewrite Hij; apply Hf; lia]. }
  assert ((list_to_set L : gset Z) ⊆ in_use v) as Hsub.
  { intros y Hy%elem_of_list_to_set. apply list_elem_of_fmap in Hy as (i & -> & Hi%elem_of_seqZ). apply Hf. lia. }
  apply subseteq_size in Hsub. rewrite size_list_to_set in Hsub by done.
  unfold L in Hsub. rewrite length_fmap, length_seqZ in Hsub. unfold NBUF in Hsub. lia.
Qed.

(** Taking buffer [b] for a sector that is not cached: the old sector of
    [b], if any, is as on the disk. *)
Lemma crep_recycle s s' v b x sec :
  crep s v -> 0 <= b < NBUF -> zget (bufs s) b = Some x ->
  (Z.land (flags x) B_BUSY =? 0) && (Z.land (flags x) B_DIRTY =? 0) = true ->
  0 <= sec < nsect v -> (forall h, ~ caches (cores s) h sec) -> same_env s s' ->
  cores s' = zset (cores s) b (Bcore (mkflags true false) 1 sec (bytes_at (memdisk s) (sec * 512) 512)) ->
  crep s' (hold sec b v).
Proof.
  intros Hr Hb Hx Ht Hs Hno (E1 & E2 & E3 & E4 & E5) Hcs. destruct (r_size s v Hr) as [Hsz Hsz2].
  assert (zget (cores s) b = Some (core_of x)) as Hc by (unfold cores; by rewrite zget_fmap, Hx).
  assert (forall sec', caches (cores s) b sec' ->
    content v sec' = disk v sec' /\ handles v !! sec' <> Some b /\ sec' ∉ dirty v) as Hold.
  { intros sec' (y & Hy & _ & Hd & <-). rewrite Hc in Hy. assert (y = core_of x) as -> by congruence.
    destruct (r_buf s v Hr b _ Hb Hc) as [_ [[Hd' _]|(_ & _ & _ & bu & di & Hf & Hbu & Hdi & Hcl)]];
      [rewrite Hd in Hd'; by vm_compute in Hd'|]. cbn in *.
    rewrite Hf in Ht. destruct (mkflags_test bu di) as (T1 & T2 & _). rewrite T1, T2 in Ht.
    destruct bu, di; try done. split; [by apply Hcl|]. split; [by intros H%Hbu|by intros H%Hdi]. }
  assert (handles v !! sec = None /\ sec ∉ dirty v) as [Hnh Hnd].
  { split.
    - destruct (handles v !! sec) as [h|] eqn:E; [|done]. by apply (r_hold s v Hr), Hno in E.
    - intros [h Hh]%(r_dirty s v Hr). by apply Hno in Hh. }
  eapply (crep_upd s s' v (hold sec b v) b (core_of x) _ Hr Hb Hc Hcs); cbn; try done.
  - rewrite E1. apply Hr.
  - by rewrite E2.
  - intros sec' Hs'. rewrite E2. by apply (r_blocks s v Hr).
  - rewrite E4. apply Hr.
  - split; [apply zlen_bytes_at; lia|]. right. cbn. split; [done|]. split; [done|]. split.
    { rewrite (r_rest s v Hr sec Hs Hno). symmetry. by apply (r_blocks s v Hr). }
    exists true, false. split; [done|]. rewrite lookup_insert_eq. split; [done|]. split; [set_solver|done].
  - intros j y Hj Hjr Hy Hd Hok. assert (c_sector y <> sec) as Hne.
    { intros <-. apply (Hno j). by exists y. }
    split; [done|]. destruct Hok as [H1 [H2|(_ & H2 & H3 & bu & di & H4 & H5 & H6)]]; (split; [done|]); [by left|right].
    split; [done|]. split; [done|]. split; [done|]. exists bu, di. cbn. rewrite lookup_insert_ne by done. done.
  - intros sec' h. rewrite lookup_insert. case_decide as E; [intros [= <-]; by left|]. intros Hh. right.
    split; [done|]. intros ->. apply (r_hold s v Hr) in Hh as Hca. by apply (Hold sec') in Hca as (_ & ? & _).
  - intros sec' Hsd. right. split; [done|]. intros Hca. by apply Hold in Hca as (_ & _ & ?).
  - intros sec' _ Hne. split; [done|]. split; [done|]. intros Hca. by apply Hold in Hca as (? & _).
Qed.

(** The links are the same in both states. *)
Definition same_links (s s' : bcache) : Prop :=
  (forall j, nx s' j = nx s j) /\ (forall j, pv s' j = pv s j).

Lemma iderw_read s b sec d : 0 <= b < zlen (bufs s) -> sec < disksize s ->
  zget (cores s) b = Some (Bcore B_BUSY 1 sec d) ->
  wp (iderw b) (fun _ s' => same_env s s' /\ same_links s s' /\
    cores s' = zset (cores s) b (Bcore (mkflags true false) 1 sec (bytes_at (memdisk s) (sec * 512) 512))) s.
Proof.
  intros Hb Hs Hc. unfold iderw. apply wp_bind, wp_get_buf; [done|]. intros x _ _ Hx.
  destruct (get_core Hc Hx) as (F1 & F2 & F3 & F4). cbn in F1, F2, F3, F4. rewrite F1, F2. cbn -[bytes_at].
  apply wp_bind, wp_get. rewrite F3, (proj2 (Z.leb_gt _ _)) by lia.
  apply wp_bind, wp_set_core; [done|done|]. intros x1 s1 Hx1 Es1 Hcs1 Hn1 Hp1.
  destruct (get_core Hc Hx1) as (G1 & G2 & G3 & _). cbn in G1, G2, G3.
  replace (core_of _) with (Bcore B_BUSY 1 sec (bytes_at (memdisk s) (sec * 512) 512)) in Hcs1
    by (unfold core_of; cbn; by rewrite G1, G2, G3).
  assert (zget (cores s1) b = Some (Bcore B_BUSY 1 sec (bytes_at (memdisk s) (sec * 512) 512))) as Hc1
    by (rewrite Hcs1; apply zget_zset_eq; unfold cores; by rewrite zlen_fmap).
  apply wp_set_core; [destruct Es1 as (_ & _ & _ & _ & ->); done|done|].
  intros x2 s2 Hx2 Es2 Hcs2 Hn2 Hp2. destruct (get_core Hc1 Hx2) as (I1 & I2 & I3 & I4). cbn in I1, I2, I3, I4.
  split; [by eapply same_env_trans|]. split; [split; intros j; [by rewrite Hn2, Hn1|by rewrite Hp2, Hp1]|].
  rewrite Hcs2, Hcs1, zset_zset. f_equal. unfold core_of. cbn. by rewrite I1, I2, I3, I4.
Qed.

(** The cache is searched in both directions with the lock held. *)
Lemma scan_locked s v l : crep s v -> ring s l ->
  let s1 := Bcache true (bufs s) (memdisk s) (disksize s) (dwrites s) (bwoken s) in
  lock_bcache s = Ok tt s1 /\
  exists h, get_buf HEAD s1 = Ok h s1 /\ next h = nx s HEAD /\ prev h = pv s HEAD.
Proof.
  intros Hr Hl s1. split; [unfold lock_bcache; by rewrite (r_lock s v Hr)|].
  destruct (get_buf_ok s1 HEAD) as (h & Hg & _ & H1 & H2 & _); [cbn; rewrite (r_len s v Hr); by vm_compute|].
  exists h. split; [done|]. split; [exact H1|exact H2].
Qed.

(** A cached sector that is not held becomes held. *)
Lemma crep_hold_cached s s' v b x sec :
  crep s v -> 0 <= b < NBUF -> zget (bufs s) b = Some x ->
  dev x = 1 -> sector x = sec -> handles v !! sec = None -> same_env s s' ->
  cores s' = zset (cores s) b (Bcore (Z.lor (flags x) B_BUSY) 1 sec (data x)) ->
  crep s' (hold sec b v) /\ (Z.land (flags x) B_BUSY =? 0) = true /\
  Z.land (Z.lor (flags x) B_BUSY) B_VALID =? 0 = false.
Proof.
  intros Hr Hb Hx Hd Hse Hnh (E1 & E2 & E3 & E4 & E5) Hcs.
  assert (zget (cores s) b = Some (core_of x)) as Hc by (unfold cores; by rewrite zget_fmap, Hx).
  destruct (r_buf s v Hr b _ Hb Hc) as [Hl [[Hd' _]|(_ & Hsr & Hda & bu & di & Hf & Hbu & Hdi & Hcl)]];
    cbn in *; [rewrite Hd in Hd'; by vm_compute in Hd'|].
  assert (bu = false) as -> by (destruct bu; [|done]; rewrite Hse, Hnh in Hbu; by pose proof (proj1 Hbu eq_refl)).
  rewrite Hf in *. rewrite mkflags_busy in *. rewrite Hse in *.
  split; [|by destruct di].
  assert (caches (cores s) b sec) as Hcb by (by exists (core_of x)).
  eapply (crep_upd s s' v (hold sec b v) b (core_of x) _ Hr Hb Hc Hcs); cbn; try done.
  - rewrite E1. apply Hr.
  - by rewrite E2.
  - intros sec' Hs'. rewrite E2. by apply (r_blocks s v Hr).
  - rewrite E4. apply Hr.
  - split; [done|]. right. cbn. split; [done|]. split; [done|]. split; [done|]. exists true, di.
    split; [done|]. rewrite lookup_insert_eq. split; [done|]. split; [done|done].
  - intros j y Hj Hjr Hy Hyd Hok. assert (c_sector y <> sec) as Hne.
    { intros E. apply Hj. apply (r_uniq s v Hr j b sec); [by exists y|done]. }
    split; [done|]. destruct Hok as [H1 [H2|(_ & H2 & H3 & bu & di' & H4 & H5 & H6)]]; (split; [done|]); [by left|right].
    split; [done|]. split; [done|]. split; [done|]. exists bu, di'. cbn. rewrite lookup_insert_ne by done. done.
  - intros sec' h. rewrite lookup_insert. case_decide as E; [intros [= <-]; by left|]. intros Hh. right.
    split; [done|]. intros ->. apply (r_hold s v Hr) in Hh as (y & Hy & _ & _ & Hys).
    rewrite Hc in Hy. assert (y = core_of x) as -> by congruence. cbn in Hys. congruence.
  - intros sec' Hsd. destruct (decide (sec' = sec)) as [->|Hne]; [by left|right]. split; [done|].
    intros (y & Hy & _ & _ & Hys). rewrite Hc in Hy. assert (y = core_of x) as -> by congruence. cbn in Hys. congruence.
  - intros sec' _ Hne. split; [done|]. split; [done|].
    intros (y & Hy & _ & _ & Hys). rewrite Hc in Hy. assert (y = core_of x) as -> by congruence. cbn in Hys. congruence.
Qed.

Lemma bread_cached s v l b x sec :
  rep s v -> ring s l -> 0 <= b < NBUF -> zget (bufs s) b = Some x ->
  dev x = 1 -> sector x = sec -> handles v !! sec = None ->
  wp (upd_buf b (fun x => with_flags (Z.lor (flags x) B_BUSY) x) ;;; unlock_bcache ;;;
      x <- get_buf b ;; when (Z.land (flags x) B_VALID =? 0) (iderw b) ;;; ret b)
    (fun h s' => rep s' (hold sec h v))
    (Bcache true (bufs s) (memdisk s) (disksize s) (dwrites s) (bwoken s)).
Proof.
  intros [Hr _] Hl Hb Hx Hd Hse Hnh. set (s1 := Bcache true _ _ _ _ _).
  assert (0 <= b < zlen (bufs s1)) as Hb1 by (cbn; rewrite (r_len s v Hr); lia).
  assert (zget (cores s) b = Some (core_of x)) as Hc by (unfold cores; by rewrite zget_fmap, Hx).
  apply wp_bind, wp_set_core; [exact Hb1|done|]. intros x' s2 Hx' (E1 & E2 & E3 & E4 & E5) Hcs Hn Hp.
  assert (core_of x' = core_of x) as Ecx by (change (cores s1) with (cores s) in Hx'; congruence).
  replace (core_of _) with (Bcore (Z.lor (flags x) B_BUSY) 1 sec (data x)) in Hcs
    by (injection Ecx as G1 G2 G3 G4; unfold core_of; cbn; congruence).
  apply wp_bind, wp_modify. set (s3 := Bcache _ _ _ _ _ _).
  destruct (crep_hold_cached s s3 v b x sec Hr Hb Hx Hd Hse Hnh) as (H1 & _ & H3).
  { unfold same_env. cbn. cbn in E2, E3, E4, E5. rewrite E2, E3, E4, E5. by rewrite (r_lock s v Hr). }
  { exact Hcs. }
  assert (zget (cores s3) b = Some (Bcore (Z.lor (flags x) B_BUSY) 1 sec (data x))) as Hc3.
  { change (cores s3) with (cores s2). rewrite Hcs. apply zget_zset_eq. unfold cores. by rewrite zlen_fmap. }
  apply wp_bind, wp_get_buf; [cbn; rewrite E5; exact Hb1|]. intros x2 _ _ Hx2.
  destruct (get_core Hc3 Hx2) as (F1 & _). cbn in F1. rewrite F1, H3. apply wp_bind, wp_ret, wp_ret.
  split; [exact H1|]. exists l. eapply ring_keep; [exact Hn|exact Hp|exact Hl].
Qed.

Lemma bread_recycle s v l b x sec :
  rep s v -> ring s l -> 0 <= b < NBUF -> zget (bufs s) b = Some x ->
  (Z.land (flags x) B_BUSY =? 0) && (Z.land (flags x) B_DIRTY =? 0) = true ->
  0 <= sec < nsect v -> (forall h, ~ caches (cores s) h sec) ->
  wp (upd_buf b (fun x => Buf B_BUSY 1 sec (prev x) (next x) (data x)) ;;; unlock_bcache ;;;
      x <- get_buf b ;; when (Z.land (flags x) B_VALID =? 0) (iderw b) ;;; ret b)
    (fun h s' => rep s' (hold sec h v))
    (Bcache true (bufs s) (memdisk s) (disksize s) (dwrites s) (bwoken s)).
Proof.
  intros [Hr _] Hl Hb Hx Ht Hs Hno. set (s1 := Bcache true _ _ _ _ _). destruct (r_size s v Hr) as [Hsz _].
  assert (0 <= b < zlen (bufs s1)) as Hb1 by (cbn; rewrite (r_len s v Hr); lia).
  apply wp_bind, wp_set_core; [exact Hb1|done|]. intros x' s2 Hx' (E1 & E2 & E3 & E4 & E5) Hcs Hn Hp.
  apply wp_bind, wp_modify. set (s3 := Bcache _ _ _ _ _ _). cbn in E2, E3, E4, E5.
  assert (zget (cores s3) b = Some (Bcore B_BUSY 1 sec (data x'))) as Hc3.
  { change (cores s3) with (cores s2). rewrite Hcs. apply zget_zset_eq. unfold cores. by rewrite zlen_fmap. }
  assert (0 <= b < zlen (bufs s3)) as Hb3 by (cbn; rewrite E5; exact Hb1).
  apply wp_bind, wp_get_buf; [done|]. intros x2 _ _ Hx2. destruct (get_core Hc3 Hx2) as (F1 & _).
  cbn in F1. rewrite F1. cbn [Z.land]. apply wp_bind.
  eapply wp_mono; [apply (iderw_read s3 b sec (data x')); [done|cbn; lia|done]|].
  intros [] s4 (Es4 & [Hn4 Hp4] & Hcs4). apply wp_ret. split.
  - eapply (crep_recycle s s4 v b x sec); try done.
    + destruct Es4 as (K1 & K2 & K3 & K4 & K5). unfold same_env. rewrite K1, K2, K3, K4, K5. cbn.
      rewrite E2, E3, E4, E5. by rewrite (r_lock s v Hr).
    + rewrite Hcs4. change (cores s3) with (cores s2). rewrite Hcs, zset_zset. cbn. by rewrite E2.
  - exists l. eapply ring_keep; [| |exact Hl]; intros j; [rewrite Hn4; exact (Hn j)|rewrite Hp4; exact (Hp j)].
Qed.

Lemma bread_ok s v sec :
  rep s v -> 0 <= sec < nsect v -> handles v !! sec = None -> room v sec ->
  wp (bread 1 sec) (fun h s' => rep s' (hold sec h v)) s.
Proof.
  intros Hrep Hs Hnh Hroom. destruct (id Hrep) as [Hr [l Hl]].
  destruct (scan_locked s v l Hr Hl) as (Hlock & hd & Hg & Hn & Hp). set (s1 := Bcache _ _ _ _ _ _) in *.
  assert (zlen (bufs s1) = NBUF + 1) as Hlen by apply Hr. assert (ring s1 l) as Hl1 by exact Hl.
  unfold bread, bget.
  destruct (scan_next_ok (fun x => (dev x =? 1) && (sector x =? sec)) s1 l Hlen Hl1) as (r & Hscan & Hres).
  apply wp_bind, wp_bind. eapply ok_wp; [exact Hlock|]. apply wp_bind. eapply ok_wp; [exact Hg|].
  apply wp_bind. rewrite Hn. eapply ok_wp; [exact Hscan|]. destruct r as [b|].
  - destruct Hres as (Hb & x & Hx & Ht). zbool.
    assert (0 <= b < zlen (bufs s1)) as Hb1 by lia.
    destruct (get_buf_ok s1 b Hb1) as (x' & Hgx & Hx' & _). assert (x' = x) as -> by congruence.
    apply wp_bind. eapply ok_wp; [exact Hgx|].
    destruct (crep_hold_cached s (set_bufs (zset (bufs s) b (with_flags (Z.lor (flags x) B_BUSY) x)) s) v b x sec Hr Hb Hx) as (_ & -> & _);
      try done.
    { unfold same_env. cbn. by rewrite zlen_zset. }
    { unfold cores. cbn. rewrite <- zset_fmap. f_equal. unfold core_of. cbn. congruence. }
    pose proof (bread_cached s v l b x sec Hrep Hl Hb Hx) as W. fold s1 in W.
    specialize (W ltac:(done) ltac:(done) Hnh).
    apply wp_bind. eapply wp_mono; [exact (wp_bind_inv _ _ _ _ W)|]. intros [] s2 W2.
    apply wp_bind. eapply wp_mono; [exact (wp_bind_inv _ _ _ _ W2)|]. intros [] s3 W3. exact W3.
  - assert (forall h, ~ caches (cores s) h sec) as Hno.
    { intros h (y & Hy & Hh & Hyd & Hys). unfold cores in Hy. rewrite zget_fmap in Hy.
      destruct (zget (bufs s) h) as [x|] eqn:Hx; [|done]. injection Hy as <-. cbn in *.
      specialize (Hres h x Hh Hx). rewrite Hyd, Hys, !Z.eqb_refl in Hres. done. }
    destruct (scan_prev_ok (fun x => (Z.land (flags x) B_BUSY =? 0) && (Z.land (flags x) B_DIRTY =? 0)) s1 l Hlen Hl1) as (r & Hscan' & Hres').
    apply wp_bind. rewrite Hp. eapply ok_wp; [exact Hscan'|]. destruct r as [b|].
    + destruct Hres' as (Hb & x & Hx & Ht).
      pose proof (bread_recycle s v l b x sec Hrep Hl Hb Hx Ht Hs Hno) as W. fold s1 in W.
      apply wp_bind. eapply wp_mono; [exact (wp_bind_inv _ _ _ _ W)|]. intros [] s2 W2.
      apply wp_bind. eapply wp_mono; [exact (wp_bind_inv _ _ _ _ W2)|]. intros [] s3 W3. exact W3.
    + exfalso. apply (free_buf s v Hr); [|exact Hres'].
      destruct Hroom as [?|Hdi]; [done|]. apply (r_dirty s v Hr) in Hdi as [h Hh]. by apply Hno in Hh.
Qed.

(** ** Moving a buffer to the front of the ring *)

Lemma nodup_app_notin {A} (l1 l2 : list A) b : NoDup (l1 ++ b :: l2) -> b ∉ l1 /\ b ∉ l2 /\ NoDup (l1 ++ l2).
Proof.
  intros H. rewrite <- Permutation_middle in H. apply NoDup_cons in H as [H1 H2].
  split; [set_solver|]. split; [set_solver|done].
Qed.

(** The node before [b] and the node after it, as the two ends of the lists
    around it. *)
Lemma ring_split n p l b :
  linked n p (HEAD :: l ++ [HEAD]) -> NoDup l -> HEAD ∉ l -> b ∈ l ->
  exists l1 l2 c1 c2, l = l1 ++ b :: l2 /\ HEAD :: l1 = c1 ++ [p b] /\ l2 ++ [HEAD] = n b :: c2 /\
    linked (fset n (p b) (n b)) (fset p (n b) (p b)) (HEAD :: (l1 ++ l2) ++ [HEAD]).
Proof.
  intros Hl Hnd Hh Hb. apply list_elem_of_split in Hb as (l1 & l2 & ->).
  destruct (nodup_app_notin l1 l2 b Hnd) as (Hb1 & Hb2 & Hnd').
  destruct (exists_last (l := HEAD :: l1)) as (c1 & q & E1); [done|].
  destruct (l2 ++ [HEAD]) as [|m c2] eqn:E2; [by destruct l2|].
  replace (HEAD :: (l1 ++ b :: l2) ++ [HEAD]) with (c1 ++ q :: b :: m :: c2) in Hl.
  2: { transitivity ((HEAD :: l1) ++ b :: (l2 ++ [HEAD])); [by rewrite E1, E2, <- app_assoc|].
       cbn [app]. by rewrite <- app_assoc. }
  pose proof Hl as Hl'. apply linked_app in Hl' as (_ & Hq1 & Hq2 & Hm). apply linked_cons in Hm as (Hm1 & Hm2 & _).
  exists l1, l2, c1, c2. rewrite Hq2, Hm1. split; [done|]. split; [done|]. split; [done|].
  replace (HEAD :: (l1 ++ l2) ++ [HEAD]) with (c1 ++ q :: m :: c2).
  2: { transitivity ((HEAD :: l1) ++ (l2 ++ [HEAD])); [by rewrite E1, E2, <- app_assoc|].
       cbn [app]. by rewrite <- app_assoc. }
  assert (NoDup (HEAD :: l1 ++ l2)) as Hnd2 by (apply NoDup_cons; split; [set_solver|done]).
  assert (NoDup (l1 ++ l2 ++ [HEAD])) as Hnd3
    by (rewrite app_assoc, <- Permutation_cons_append; done).
  assert (removelast (m :: c2) = l2) as Erl by (rewrite <- E2; apply removelast_last).
  apply (linked_unlink n p c1 q b m c2 Hl).
  - assert (NoDup (c1 ++ [q])) as H by (rewrite <- E1; rewrite app_comm_cons in Hnd2; by apply NoDup_app in Hnd2 as [? _]).
    apply NoDup_app in H as (_ & H & _). intros Hq. apply (H q Hq). set_solver.
  - rewrite Erl. rewrite app_comm_cons, E1 in Hnd2. apply NoDup_app in Hnd2 as (_ & H & _). apply H. set_solver.
  - rewrite <- E1. cbn [tail]. rewrite E2 in Hnd3. apply NoDup_app in Hnd3 as (_ & H & _). intros Hm. apply (H m Hm). set_solver.
  - rewrite E2 in Hnd3. apply NoDup_app in Hnd3 as (_ & _ & H). by apply NoDup_cons in H as [H _].
Qed.

(** Inserting a node that is not in the ring behind the head. *)
Lemma ring_insert n p l b :
  linked n p (HEAD :: l ++ [HEAD]) -> NoDup l -> HEAD ∉ l -> b ∉ l -> b <> HEAD ->
  linked (fset (fset n b (n HEAD)) HEAD b) (fset (fset p b HEAD) (n HEAD) b) (HEAD :: (b :: l) ++ [HEAD]).
Proof.
  intros Hl Hnd Hh Hb Hbh. cbn [app]. destruct (l ++ [HEAD]) as [|m c] eqn:E; [by destruct l|].
  apply linked_cons in Hl as Hl'. destruct Hl' as (Hm & _). rewrite Hm.
  assert (NoDup (m :: c)) as Hnd2.
  { rewrite <- E, <- Permutation_cons_append. apply NoDup_cons. done. }
  apply linked_insert; [done| | |by apply NoDup_cons in Hnd2 as [? _]|done].
  - rewrite <- E. set_solver.
  - rewrite <- E, removelast_last. done.
Qed.

Lemma ring_in_range l i : (forall j, j ∈ l -> 0 <= j < NBUF) -> i ∈ HEAD :: l -> 0 <= i < NBUF + 1.
Proof. intros Hl [->|H%Hl]%elem_of_cons; unfold HEAD, NBUF in *; lia. Qed.

Lemma move_front_ok s l b : zlen (bufs s) = NBUF + 1 -> ring s l -> 0 <= b < NBUF ->
  wp (move_front b) (fun _ s' => same_env s s' /\ cores s' = cores s /\
    exists l1 l2, l = l1 ++ b :: l2 /\ ring s' (b :: l1 ++ l2)) s.
Proof.
  intros Hlen Hl Hb. destruct (ring_members s l Hl) as (Hnd & Hh & Hm). destruct (id Hl) as [Hperm Hlk].
  assert (b <> HEAD) as Hbh by (unfold HEAD; lia).
  destruct (ring_split _ _ l b Hlk Hnd Hh) as (l1 & l2 & c1 & c2 & El & E1 & E2 & Hlk1); [by apply Hm|].
  subst l. destruct (nodup_app_notin l1 l2 b Hnd) as (Hb1 & Hb2 & Hnd').
  assert (forall i, i ∈ HEAD :: l1 ++ b :: l2 -> 0 <= i < NBUF + 1) as Hin
    by (intros i; apply ring_in_range; intros j; apply Hm).
  assert (0 <= pv s b < NBUF + 1) as Hpr by (apply Hin; assert (pv s b ∈ HEAD :: l1) by (rewrite E1; set_solver); set_solver).
  assert (0 <= nx s b < NBUF + 1) as Hnr by (apply Hin; assert (nx s b ∈ l2 ++ [HEAD]) by (rewrite E2; set_solver); set_solver).
  assert (nx s b <> b) as Hnb by (intros E; assert (nx s b ∈ l2 ++ [HEAD]) by (rewrite E2; set_solver); rewrite E in *; set_solver).
  assert (pv s b <> b) as Hpb by (intros E; assert (pv s b ∈ HEAD :: l1) by (rewrite E1; set_solver); rewrite E in *; set_solver).
  assert (0 <= HEAD < NBUF + 1) as HHr by (unfold HEAD, NBUF; lia).
  pose proof (ring_insert _ _ (l1 ++ l2) b Hlk1 Hnd' ltac:(set_solver) ltac:(set_solver) Hbh) as Hlk2.
  assert (fset (nx s) (pv s b) (nx s b) HEAD ∈ HEAD :: l1 ++ l2) as Ha.
  { destruct ((l1 ++ l2) ++ [HEAD]) as [|m c] eqn:E; [by destruct (l1 ++ l2)|]. destruct Hlk1 as (-> & _).
    assert (m ∈ (l1 ++ l2) ++ [HEAD]) by (rewrite E; set_solver). set_solver. }
  set (n1 := fset (nx s) (pv s b) (nx s b)) in *. set (p1 := fset (pv s) (nx s b) (pv s b)) in *.
  unfold move_front. apply wp_bind, wp_get_buf; [lia|]. intros x1 N1 P1 _. rewrite N1, P1.
  apply wp_bind, wp_set_prev; [lia|]. intros s1 Es1 Hc1 Hn1 Hp1. destruct (id Es1) as (_ & _ & _ & _ & L1).
  apply wp_bind, wp_get_buf; [lia|]. intros x2 N2 P2 _. rewrite Hn1 in N2. rewrite Hp1, fset_ne in P2 by done. rewrite N2, P2.
  apply wp_bind, wp_set_next; [lia|]. intros s2 Es2 Hc2 Hn2 Hp2. destruct (id Es2) as (_ & _ & _ & _ & L2).
  assert (forall j, nx s2 j = n1 j) as Hn2' by (intros j; rewrite Hn2; unfold n1, fset; case_decide; [done|apply Hn1]).
  assert (forall j, pv s2 j = p1 j) as Hp2' by (intros j; rewrite Hp2; apply Hp1).
  apply wp_bind, wp_get_buf; [lia|]. intros h1 N3 _ _. rewrite Hn2' in N3. rewrite N3.
  apply wp_bind, wp_set_next; [lia|]. intros s3 Es3 Hc3 Hn3 Hp3. destruct (id Es3) as (_ & _ & _ & _ & L3).
  apply wp_bind, wp_set_prev; [lia|]. intros s4 Es4 Hc4 Hn4 Hp4. destruct (id Es4) as (_ & _ & _ & _ & L4).
  apply wp_bind, wp_get_buf; [lia|]. intros h2 N4 _ _. rewrite Hn4, Hn3, fset_ne, Hn2' in N4 by done. rewrite N4.
  assert (0 <= n1 HEAD < NBUF + 1) as Har by (apply Hin; set_solver).
  apply wp_bind, wp_set_prev; [lia|]. intros s5 Es5 Hc5 Hn5 Hp5. destruct (id Es5) as (_ & _ & _ & _ & L5).
  apply wp_set_next; [lia|]. intros s6 Es6 Hc6 Hn6 Hp6.
  split; [do 5 (eapply same_env_trans; [|eassumption]); done|]. split; [congruence|].
  exists l1, l2. split; [done|]. split; [by rewrite <- Hperm, <- Permutation_middle|].
  eapply linked_eq; [| |exact Hlk2]; intros j.
  - rewrite Hn6. destruct (decide (j = HEAD)) as [->|]; [by rewrite !fset_eq|].
    rewrite !(fset_ne _ HEAD _ j) by done. rewrite Hn5, Hn4, Hn3.
    destruct (decide (j = b)) as [->|]; [by rewrite !fset_eq|]. rewrite !(fset_ne _ b _ j) by done. apply Hn2'.
  - rewrite Hp6, Hp5. destruct (decide (j = n1 HEAD)) as [->|]; [by rewrite !fset_eq|].
    rewrite !(fset_ne _ (n1 HEAD) _ j) by done. rewrite Hp4.
    destruct (decide (j = b)) as [->|]; [by rewrite !fset_eq|]. rewrite !(fset_ne _ b _ j) by done.
    rewrite Hp3. apply Hp2'.
Qed.

Lemma brelse_ring s v l sec h :
  rep s v -> ring s l -> handles v !! sec = Some h -> sec ∈ dirty v \/ content v sec = disk v sec ->
  wp (brelse h) (fun _ s' => rep s' (unhold sec v) /\
    exists l1 l2, l = l1 ++ h :: l2 /\ ring s' (h :: l1 ++ l2)) s.
Proof.
  intros [Hr _] Hl Hh Hcl. destruct (held_core s v sec h Hr Hh) as (Hhr & Hsr & dirt & Hc & Hdi & Hlen).
  pose proof (handle_range s v sec h Hr Hh) as Hb. unfold brelse.
  apply wp_bind, wp_get_buf; [done|]. intros x0 _ _ Hx0.
  destruct (get_core Hc Hx0) as (F1 & _). cbn in F1. rewrite F1, (proj1 (mkflags_test true dirt)). cbn [negb].
  apply wp_bind. eapply ok_wp; [unfold lock_bcache; by rewrite (r_lock s v Hr)|]. set (s1 := Bcache true _ _ _ _ _).
  apply wp_bind. eapply wp_mono; [apply (move_front_ok s1 l h); [apply Hr|exact Hl|done]|].
  intros [] s2 ((E1 & E2 & E3 & E4 & E5) & Hcs2 & l1 & l2 & El & Hl2). cbn in E1, E2, E3, E4, E5.
  change (cores s1) with (cores s) in Hcs2. rewrite <- Hcs2 in Hc.
  apply wp_bind, wp_set_core; [lia|done|]. intros x s3 Hx (K1 & K2 & K3 & K4 & K5) Hcs Hn Hp.
  destruct (get_core Hc Hx) as (G1 & G2 & G3 & G4). cbn in G1, G2, G3, G4.
  replace (core_of _) with (Bcore (mkflags false dirt) 1 sec (content v sec)) in Hcs
    by (unfold core_of; cbn; by rewrite G1, G2, G3, G4, mkflags_unbusy).
  apply wp_bind, wp_modify, wp_modify. set (s4 := Bcache _ _ _ _ _ _).
  assert (ring s4 (h :: l1 ++ l2)) as Hl4 by (eapply ring_keep; [exact Hn|exact Hp|exact Hl2]).
  split; [split; [|by eexists]|by exists l1, l2].
  rewrite Hcs2 in Hcs. eapply (crep_at s s4 v _ sec h _ Hr Hh Hcs); cbn; try done; try congruence.
  - intros sec' Hs'. rewrite K2, E2. by apply (r_blocks s v Hr).
  - rewrite K4, E4. apply Hr.
  - split; [done|]. right. cbn. split; [done|]. split; [done|]. split; [done|]. exists false, dirt.
    rewrite lookup_delete_eq. split; [done|]. split; [done|]. split; [done|].
    intros _ ->. destruct Hcl as [Hcl|Hcl]; [|done]. by apply Hdi in Hcl.
  - intros sec' Hne. by rewrite lookup_delete_ne.
  - right. apply lookup_delete_eq.
Qed.

Lemma brelse_ok s v sec h :
  rep s v -> handles v !! sec = Some h -> sec ∈ dirty v \/ content v sec = disk v sec ->
  wp (brelse h) (fun _ s' => rep s' (unhold sec v)) s.
Proof.
  intros Hr Hh Hcl. destruct (id Hr) as [_ [l Hl]].
  eapply wp_mono; [by apply (brelse_ring s v l sec h)|]. by intros [] s' [H _].
Qed.

(** ** binit *)

(** The view after start-up: nothing held, nothing pinned, the contents
    are those of the image. *)
Definition fresh_view (s : bcache) : bspec :=
  BSpec (disksize s) (fun sec => bytes_at (memdisk s) (sec * 512) 512)
    (fun sec => bytes_at (memdisk s) (sec * 512) 512) ∅ ∅ (dwrites s).

(** After [b] iterations: buffers below [b] are unused and in the ring. *)
Definition binit_inv (s0 : bcache) (b : Z) (s : bcache) : Prop :=
  bc_lock s = false /\ zlen (bufs s) = NBUF + 1 /\ memdisk s = memdisk s0 /\ disksize s = disksize s0 /\
  dwrites s = dwrites s0 /\
  linked (nx s) (pv s) (HEAD :: rev (seqZ 0 b) ++ [HEAD]) /\
  (forall i x, 0 <= i < NBUF -> zget (cores s) i = Some x ->
     zlen (c_data x) = 512 /\ c_flags x = 0 /\ (i < b -> c_dev x = u32 (-1))).

Lemma binit_step s0 b s : 0 <= b < NBUF -> binit_inv s0 b s ->
  wp (h <- get_buf HEAD ;;
      upd_buf b (with_next (next h)) ;;;
      upd_buf b (with_prev HEAD) ;;;
      upd_buf b (fun x => Buf (flags x) (u32 (-1)) (sector x) (prev x) (next x) (data x)) ;;;
      h <- get_buf HEAD ;;
      upd_buf (next h) (with_prev b) ;;;
      upd_buf HEAD (with_next b)) (fun _ s' => binit_inv s0 (b + 1) s') s.
Proof.
  intros Hb (A1 & A2 & A3 & A4 & A5 & Hlk & Hcores).
  assert (b <> HEAD) as Hbh by (unfold HEAD; lia). assert (0 <= HEAD < NBUF + 1) as HH by (unfold HEAD, NBUF; lia).
  assert (forall i, i ∈ rev (seqZ 0 b) <-> 0 <= i < b) as Hin
    by (intros i; rewrite list_elem_of_In, <- in_rev, <- list_elem_of_In, elem_of_seqZ; lia).
  assert (NoDup (rev (seqZ 0 b))) as Hnd by (rewrite <- Permutation_rev; apply NoDup_seqZ).
  pose proof (ring_insert _ _ _ b Hlk Hnd) as Hins. rewrite !Hin in Hins.
  specialize (Hins ltac:(unfold HEAD; lia) ltac:(lia) Hbh).
  assert (0 <= nx s HEAD < NBUF + 1) as Ha.
  { destruct (rev (seqZ 0 b) ++ [HEAD]) as [|m c] eqn:E; [by destruct (rev (seqZ 0 b))|]. destruct Hlk as (-> & _).
    assert (m ∈ rev (seqZ 0 b) ++ [HEAD]) as Hm by (rewrite E; set_solver).
    apply elem_of_app in Hm as [Hm%Hin|Hm%list_elem_of_singleton]; lia. }
  apply wp_bind, wp_get_buf; [lia|]. intros h1 N1 _ _. rewrite N1.
  apply wp_bind, wp_set_next; [lia|]. intros s1 (B1 & B2 & B3 & B4 & B5) Hc1 Hn1 Hp1.
  apply wp_bind, wp_set_prev; [lia|]. intros s2 (C1 & C2 & C3 & C4 & C5) Hc2 Hn2 Hp2.
  apply wp_bind, wp_set_core; [lia|done|]. intros x s3 Hx (D1 & D2 & D3 & D4 & D5) Hc3 Hn3 Hp3.
  apply wp_bind, wp_get_buf; [lia|]. intros h2 N2 _ _. rewrite Hn3, Hn2, Hn1, fset_ne in N2 by done. rewrite N2.
  apply wp_bind, wp_set_prev; [lia|]. intros s4 (E1 & E2 & E3 & E4 & E5) Hc4 Hn4 Hp4.
  apply wp_set_next; [lia|]. intros s5 (F1 & F2 & F3 & F4 & F5) Hc5 Hn5 Hp5.
  split; [congruence|]. split; [congruence|]. split; [congruence|]. split; [congruence|]. split; [congruence|]. split.
  - replace (rev (seqZ 0 (b + 1))) with (b :: rev (seqZ 0 b))
      by (rewrite seqZ_app, rev_app_distr, (seqZ_cons (0 + b)) by lia; cbn; f_equal; lia).
    eapply linked_eq; [| |exact Hins]; intros j.
    + rewrite Hn5. destruct (decide (j = HEAD)) as [->|]; [by rewrite !fset_eq|].
      rewrite !(fset_ne _ HEAD _ j) by done. rewrite Hn4, Hn3, Hn2, Hn1. done.
    + rewrite Hp5, Hp4. destruct (decide (j = nx s HEAD)) as [->|]; [by rewrite !fset_eq|].
      rewrite !(fset_ne _ (nx s HEAD) _ j) by done. rewrite Hp3, Hp2.
      destruct (decide (j = b)) as [->|]; [by rewrite !fset_eq|]. rewrite !(fset_ne _ b _ j) by done. apply Hp1.
  - assert (cores s5 = zset (cores s) b (Bcore (flags x) (u32 (-1)) (sector x) (data x))) as Ec
      by (rewrite Hc5, Hc4, Hc3, Hc2, Hc1; done).
    intros i y Hi. rewrite Ec. destruct (decide (i = b)) as [->|Hib].
    + assert (0 <= b < zlen (cores s)) as Hbr by (unfold cores; rewrite zlen_fmap; lia).
      rewrite zget_zset_eq by done. intros [= <-]. rewrite Hc2, Hc1 in Hx.
      destruct (Hcores b _ Hi Hx) as (G1 & G2 & _). done.
    + rewrite zget_zset_ne by done. intros Hy. destruct (Hcores i y Hi Hy) as (G1 & G2 & G3).
      split; [done|]. split; [done|]. intros. apply G3. lia.
Qed.

Lemma binit_wp s :
  zlen (bufs s) = NBUF + 1 -> (forall x, x ∈ bufs s -> flags x = 0 /\ zlen (data x) = 512) ->
  512 * disksize s <= zlen (memdisk s) ->
  wp binit (fun _ s' => rep s' (fresh_view s)) s.
Proof.
  intros Hlen Hb Hd. assert (0 <= HEAD < NBUF + 1) as HH by (unfold HEAD, NBUF; lia).
  unfold binit. apply wp_bind, wp_modify. set (s0 := Bcache _ _ _ _ _ _).
  apply wp_bind, wp_set_prev; [cbn; lia|]. intros s1 (B1 & B2 & B3 & B4 & B5) Hc1 Hn1 Hp1.
  change (bufs s0) with (bufs s) in B5. apply wp_bind, wp_set_next; [lia|]. intros s2 (C1 & C2 & C3 & C4 & C5) Hc2 Hn2 Hp2.
  eapply wp_mono; [apply (wp_for _ (binit_inv s0))|].
  - split; [rewrite C1, B1; done|]. split; [lia|]. split; [congruence|]. split; [congruence|]. split; [congruence|].
    split; [change (rev (seqZ 0 0)) with (@nil Z); apply linked_cons; rewrite Hn2, Hp2, Hp1, !fset_eq; done|].
    intros i x Hi. rewrite Hc2, Hc1. unfold cores. rewrite zget_fmap. intros Hx.
    destruct (zget (bufs s0) i) as [y|] eqn:E; [|done]. injection Hx as <-.
    destruct (Hb y) as [G1 G2]; [|split; [done|split; [done|unfold NBUF; lia]]].
    unfold zget in E. destruct (0 <=? i); [|done]. by eapply list_elem_of_lookup_2.
  - intros b t Hbr. apply binit_step. unfold NBUF in *. lia.
  - intros [] s' (A1 & A2 & A3 & A4 & A5 & Hlk & Hcs). change (0 + Z.of_nat (Z.to_nat NBUF)) with NBUF in *.
    cbn in A3, A4, A5. assert (forall h sec, ~ caches (cores s') h sec) as Hno.
    { intros h sec (x & Hx & Hh & Hd1 & _). destruct (Hcs h x Hh Hx) as (_ & _ & Hdev).
      rewrite Hdev in Hd1 by lia. by vm_compute in Hd1. }
    split; [|exists (rev (seqZ 0 NBUF)); split; [by rewrite <- Permutation_rev|done]].
    split; cbn; try done; try (by rewrite ?A3, ?A4).
    + intros i x Hi Hx. destruct (Hcs i x Hi Hx) as (G1 & G2 & G3). split; [done|]. left. split; [apply G3; lia|done].
    + intros i j sec Hc. by apply Hno in Hc.
Qed.

(** ** bio.c implements the block cache *)

Lemma cached_or_not s sec : zlen (bufs s) = NBUF + 1 ->
  (exists h, caches (cores s) h sec) \/ forall h, ~ caches (cores s) h sec.
Proof.
  intros Hlen. destruct (list_find (fun x => c_dev x = 1 /\ c_sector x = sec) (take 10 (cores s))) as [[i x]|] eqn:E.
  - apply list_find_Some in E as (Hx & [Hd Hs] & _). left. exists (Z.of_nat i), x.
    apply lookup_take_Some in Hx as [Hx Hi].
    split; [unfold zget; rewrite (proj2 (Z.leb_le _ _)), Nat2Z.id by lia; done|]. split; [unfold NBUF; lia|done].
  - right. intros h (x & Hx & Hh & Hd & Hs). apply list_find_None in E. unfold zget in Hx.
    rewrite (proj2 (Z.leb_le _ _)) in Hx by lia.
    assert (take 10 (cores s) !! Z.to_nat h = Some x) as Hx' by (rewrite lookup_take_lt; [done|unfold NBUF in *; lia]).
    by eapply (proj1 (Forall_lookup _ _) E) in Hx'; apply Hx'.
Qed.

Lemma rep_clean s v sec :
  rep s v -> 0 <= sec < nsect v -> handles v !! sec = None -> sec ∉ dirty v -> content v sec = disk v sec.
Proof.
  intros [Hr _] Hs Hnh Hnd. destruct (cached_or_not s sec (r_len s v Hr)) as [(h & x & Hx & Hhr & Hd & Hse)|Hno].
  - destruct (r_buf s v Hr h x Hhr Hx) as [_ [[Hd' _]|(_ & _ & _ & b & d & _ & Hb & Hdd & Hcl)]];
      [rewrite Hd in Hd'; by vm_compute in Hd'|]. rewrite Hse in *. apply Hcl.
    + destruct b; [|done]. rewrite (proj1 Hb eq_refl) in Hnh. done.
    + destruct d; [|done]. by destruct (Hnd (proj1 Hdd eq_refl)).
  - by apply (r_rest s v Hr sec Hs).
Qed.

Lemma rep_block s v sec :
  rep s v -> 0 <= sec < nsect v -> zlen (content v sec) = 512 /\ zlen (disk v sec) = 512.
Proof.
  intros [Hr _] Hs. destruct (r_size s v Hr) as [Hsz Hsz2].
  assert (zlen (disk v sec) = 512) as Hd by (rewrite (r_blocks s v Hr sec Hs); apply zlen_bytes_at; lia).
  split; [|done]. destruct (cached_or_not s sec (r_len s v Hr)) as [(h & x & Hx & Hhr & Hdv & Hse)|Hno].
  - destruct (r_buf s v Hr h x Hhr Hx) as [Hl [[Hd' _]|(_ & _ & Hda & _)]];
      [rewrite Hdv in Hd'; by vm_compute in Hd'|]. by rewrite <- Hse, <- Hda.
  - by rewrite (r_rest s v Hr sec Hs).
Qed.

Lemma rep_held_range s v sec h : rep s v -> handles v !! sec = Some h -> 0 <= sec < nsect v.
Proof. intros [Hr _] Hh. by destruct (held_core s v sec h Hr Hh) as (_ & ? & _). Qed.

#[export] Instance bio_cache : BufCache bcache := {
  bc_read := bread;
  bc_write := bwrite;
  bc_release := brelse;
  bc_data := buf_data;
  bc_sector := buf_sector;
  bc_dev := buf_dev;
  bc_store := buf_store;
  bc_pin := buf_pin;
  bc_rep := rep;
  bc_read_ok := bread_ok;
  bc_write_ok := bwrite_ok;
  bc_release_ok := brelse_ok;
  bc_data_ok := buf_data_ok;
  bc_sector_ok := buf_sector_ok;
  bc_dev_ok := buf_dev_ok;
  bc_store_ok := buf_store_ok;
  bc_pin_ok := buf_pin_ok;
  bc_clean := rep_clean;
  bc_block := rep_block;
  bc_held_range := rep_held_range
}.

(** C4: bread. For a sector that nobody holds, with a buffer to spare, it
    never panics or sleeps and returns a buffer that holds the sector: whether
    the sector was cached or another clean buffer had to be recycled, every
    other sector's contents, the disk and all held and pinned buffers are as
    before, and no sector is ever cached twice. *)
Theorem bread_spec s v sec :
  rep s v -> 0 <= sec < nsect v -> handles v !! sec = None -> room v sec ->
  wp (b <- bread ROOTDEV sec ;; d <- buf_data b ;; ret (b, d))
    (fun r s' => rep s' (hold sec r.1 v) /\ r.2 = content v sec) s.
Proof.
  intros Hr Hs Hnh Hroom. apply wp_bind. eapply wp_mono; [by apply (bread_ok s v sec)|].
  intros b s' Hr'. apply wp_bind. eapply ok_wp; [apply (buf_data_ok s' _ sec b Hr'); apply lookup_insert_eq|].
  apply wp_ret. done.
Qed.

(** Write, release, read. Data stored in a buffer, written and released
    is on the disk and is what the next bread of the sector returns. *)
Theorem bwrite_bread_roundtrip s v sec d :
  rep s v -> 0 <= sec < nsect v -> handles v !! sec = None ->
  Z.of_nat (size (in_use v)) < NBUF -> zlen d = 512 ->
  wp (b <- bread ROOTDEV sec ;; buf_store b d ;;; bwrite b ;;; brelse b ;;;
      b <- bread ROOTDEV sec ;; buf_data b)
    (fun r s' => r = d /\ bytes_at (memdisk s') (sec * 512) 512 = d) s.
Proof.
  intros Hr Hs Hnh Hroom Hd. apply wp_bind. eapply wp_mono; [apply (bread_ok s v sec); try done; by left|]. intros b s1 Hr1.
  apply wp_bind. eapply wp_mono; [apply (buf_store_ok s1 _ sec b d Hr1); [apply lookup_insert_eq|done]|]. intros [] s2 Hr2.
  apply wp_bind. eapply wp_mono; [apply (bwrite_ok s2 _ sec b Hr2), lookup_insert_eq|]. intros [] s3 Hr3.
  apply wp_bind. eapply wp_mono; [apply (brelse_ok s3 _ sec b Hr3); [apply lookup_insert_eq|right; cbn; by rewrite !zupd_eq]|].
  intros [] s4 Hr4.
  apply wp_bind. eapply wp_mono; [apply (bread_ok s4 _ sec Hr4); [done|apply lookup_delete_eq|]|].
  { left. unfold in_use in *. cbn. rewrite dom_delete_L, dom_insert_L.
    eapply Z.le_lt_trans; [|exact Hroom]. apply inj_le, subseteq_size. set_solver. }
  intros b' s5 Hr5. eapply ok_wp; [apply (buf_data_ok s5 _ sec b' Hr5), lookup_insert_eq|].
  cbn. rewrite zupd_eq. split; [done|].
  destruct Hr5 as [Hc _]. rewrite <- (r_blocks s5 _ Hc sec); [|done]. cbn. by rewrite !zupd_eq.
Qed.

(** Brelse moves the released buffer to the front of the MRU ring and
    keeps the order of the others, so that the least recently released buffer
    is the first candidate when bget recycles one. *)
Theorem brelse_moves_to_front s v l sec h :
  rep s v -> ring s l -> handles v !! sec = Some h -> sec ∈ dirty v \/ content v sec = disk v sec ->
  wp (brelse h) (fun _ s' => rep s' (unhold sec v) /\
    exists l1 l2, l = l1 ++ h :: l2 /\ ring s' (h :: l1 ++ l2)) s.
Proof. apply brelse_ring. Qed.

(** Binit builds the ring of all NBUF buffers from the zeroed cache; the
    view of the clients is then the disk image, nothing held or pinned. *)
Theorem binit_ok s :
  zlen (bufs s) = NBUF + 1 -> (forall x, x ∈ bufs s -> flags x = 0 /\ zlen (data x) = 512) ->
  512 * disksize s <= zlen (memdisk s) ->
  wp binit (fun _ s' => rep s' (fresh_view s)) s.
Proof. apply binit_wp. Qed.

(** The two ways bread does not return at once. A sector that is held
    puts the caller to sleep without changing anything; when all buffers are
    held or pinned, a sector that is not cached panics. *)
Theorem bread_blocked s v sec :
  rep s v ->
  (forall h, handles v !! sec = Some h -> bread ROOTDEV sec s = Sleep s) /\
  ((forall b x, 0 <= b < NBUF -> zget (bufs s) b = Some x ->
      (Z.land (flags x) B_BUSY <> 0 \/ Z.land (flags x) B_DIRTY <> 0) /\ sector x <> sec) ->
   bread ROOTDEV sec s = Panic "bget: no buffers").
Proof.
  intros [Hr [l Hl]]. destruct (scan_locked s v l Hr Hl) as (Hlock & hd & Hg & Hn & Hp). set (s1 := Bcache _ _ _ _ _ _) in *.
  assert (zlen (bufs s1) = NBUF + 1) as Hlen by apply Hr. assert (ring s1 l) as Hl1 by exact Hl.
  destruct (scan_next_ok (fun x => (dev x =? ROOTDEV) && (sector x =? sec)) s1 l Hlen Hl1) as (r & Hscan & Hres).
  unfold bread, bget. split.
  - intros h Hh. destruct (r_hold s v Hr sec h Hh) as (c & Hc & Hhr & Hcd & Hcs). unfold bind. rewrite Hlock, Hg, Hn.
    change (nx s HEAD) with (nx s1 HEAD). rewrite Hscan. destruct r as [b|].
    + destruct Hres as (Hb & x & Hx & Ht). zbool.
      assert (b = h) as ->. { apply (r_uniq s v Hr b h sec); [|by apply (r_hold s v Hr)].
        exists (core_of x). unfold cores. rewrite zget_fmap. change (bufs s1) with (bufs s) in Hx. by rewrite Hx. }
      destruct (get_buf_ok s1 h) as (x' & Hgx & _ & _ & _ & Hx'); [lia|]. rewrite Hgx.
      destruct (held_core s v sec h Hr Hh) as (_ & _ & dirt & Hc' & _).
      change (cores s1) with (cores s) in Hx'. destruct (get_core Hc' Hx') as (F & _). cbn in F.
      rewrite F, (proj1 (mkflags_test true dirt)). cbn. unfold s1. cbn. rewrite <- (r_lock s v Hr). by destruct s.
    + exfalso. unfold cores in Hc. rewrite zget_fmap in Hc. destruct (zget (bufs s) h) as [x|] eqn:Hx; [|done].
      injection Hc as <-. specialize (Hres h x Hhr Hx). cbn in Hcd, Hcs. change ROOTDEV with 1 in Hres. rewrite Hcd, Hcs, !Z.eqb_refl in Hres. done.
  - intros Hall. apply bind_panic. unfold bind. rewrite Hlock, Hg, Hn, Hp. change (nx s HEAD) with (nx s1 HEAD).
    rewrite Hscan. destruct r as [b|].
    { destruct Hres as (Hb & x & Hx & Ht). zbool. by destruct (Hall b x Hb Hx) as [_ ?]. }
    destruct (scan_prev_ok (fun x => (Z.land (flags x) B_BUSY =? 0) && (Z.land (flags x) B_DIRTY =? 0)) s1 l Hlen Hl1) as (r & Hscan' & Hres').
    change (pv s HEAD) with (pv s1 HEAD). rewrite Hscan'. destruct r as [b|]; [|done].
    destruct Hres' as (Hb & x & Hx & Ht). zbool. destruct (Hall b x Hb Hx) as [[?|?] _]; done.
Qed.

(** ** Instances *)

(** A disk of four sectors behind a cache set up by ideinit and binit. *)
Definition boot_disk (img : list Z) : bcache :=
  match ideinit img bcache_bss with Ok _ s => s | _ => bcache_bss end.

Definition boot_cache (img : list Z) : bcache := match binit (boot_disk img) with Ok _ s => s | _ => boot_disk img end.

Definition boot_view (img : list Z) : bspec := fresh_view (boot_disk img).

Lemma boot_disk_ok img :
  zlen (bufs (boot_disk img)) = NBUF + 1 /\ (forall x, x ∈ bufs (boot_disk img) -> flags x = 0 /\ zlen (data x) = 512) /\
  512 * disksize (boot_disk img) <= zlen (memdisk (boot_disk img)).
Proof.
  split; [reflexivity|]. split.
  - intros x Hx. change (bufs (boot_disk img)) with (replicate 11 (Buf 0 0 0 0 0 (replicate 512 0))) in Hx.
    apply elem_of_replicate in Hx as [-> _]. done.
  - cbn [boot_disk ideinit modify disksize memdisk]. Z.div_mod_to_equations. lia.
Qed.

Lemma boot_cache_ok img : rep (boot_cache img) (boot_view img).
Proof.
  destruct (boot_disk_ok img) as (H1 & H2 & H3).
  destruct (wp_ok _ _ _ (binit_wp (boot_disk img) H1 H2 H3)) as ([] & s & Hs & Hr).
  unfold boot_cache. rewrite Hs. exact Hr.
Qed.

Definition demo_bss : bcache := boot_disk (replicate 2048 7).

Definition demo_view : bspec := fresh_view demo_bss.

Definition demo_cache : bcache := boot_cache (replicate 2048 7).

Lemma demo_cache_ok : rep demo_cache demo_view.
Proof. apply boot_cache_ok. Qed.

Lemma demo_room sec : room demo_view sec.
Proof. left. by vm_compute. Qed.

(** The same cache with sector 2 held. *)
Definition demo_held : Z * bcache :=
  match bread ROOTDEV 2 demo_cache with Ok h s => (h, s) | _ => (0, demo_cache) end.

Lemma demo_held_ok : rep demo_held.2 (hold 2 demo_held.1 demo_view).
Proof.
  destruct (wp_ok _ _ _ (bread_ok demo_cache demo_view 2 demo_cache_ok ltac:(by vm_compute) eq_refl (demo_room 2)))
    as (h & s & Hs & Hr). unfold demo_held. change ROOTDEV with 1. rewrite Hs. exact Hr.
Qed.

Lemma bread_spec_witness :
  wp (b <- bread ROOTDEV 2 ;; d <- buf_data b ;; ret (b, d)) (fun r _ => r.2 = content demo_view 2) demo_cache.
Proof.
  eapply wp_mono; [apply (bread_spec demo_cache demo_view 2 demo_cache_ok); [by vm_compute|reflexivity|apply demo_room]|].
  intros r s' [_ H]. exact H.
Defined.

Lemma bwrite_bread_roundtrip_witness :
  wp (b <- bread ROOTDEV 3 ;; buf_store b (replicate 512 9) ;;; bwrite b ;;; brelse b ;;;
      b <- bread ROOTDEV 3 ;; buf_data b) (fun r _ => r = replicate 512 9) demo_cache.
Proof.
  eapply wp_mono; [apply (bwrite_bread_roundtrip demo_cache demo_view 3 (replicate 512 9) demo_cache_ok);
    [by vm_compute|reflexivity|by vm_compute|reflexivity]|].
  intros r s' [H _]. exact H.
Defined.

Lemma brelse_moves_to_front_witness :
  wp (brelse demo_held.1) (fun _ s' => exists l, ring s' (demo_held.1 :: l)) demo_held.2.
Proof.
  destruct (id demo_held_ok) as [_ [l Hl]].
  eapply wp_mono; [apply (brelse_moves_to_front demo_held.2 _ l 2 demo_held.1 demo_held_ok Hl); [reflexivity|right; reflexivity]|].
  intros [] s' (_ & l1 & l2 & _ & H). exists (l1 ++ l2). exact H.
Defined.

Lemma binit_ok_witness : wp binit (fun _ s' => rep s' demo_view) demo_bss.
Proof. destruct (boot_disk_ok (replicate 2048 7)) as (H1 & H2 & H3). exact (binit_ok demo_bss H1 H2 H3). Defined.

Lemma bread_blocked_witness : bread ROOTDEV 2 demo_held.2 = Sleep demo_held.2.
Proof. exact (proj1 (bread_blocked demo_held.2 _ 2 demo_held_ok) demo_held.1 eq_refl). Defined.
