(* ===== verification/Log.v ===== *)
(** * log.c: the redo log

    The log is modelled over any block cache of class [BufCache].  A
    transaction's blocks are written to the log area by log_write, commit_trans
    writes the header (the commit point), installs the blocks at their home
    sectors and clears the header; recover_from_log repeats the installation
    after a crash. *)

From S2P Require Import Prelude BlockCache.

Definition LOGSIZE : Z := 10.

(** struct superblock and struct log; [lh_n], [lh_sector] are log.lh. *)
Record superblock := Superblock { sb_size : Z; sb_nblocks : Z; sb_ninodes : Z; sb_nlog : Z }.

Record log (S : Type) := Log {
  lg_lock : bool;
  lg_start : Z;
  lg_size : Z;
  lg_busy : bool;
  lg_dev : Z;
  lh_n : Z;
  lh_sector : list Z;
  lg_wakeups : nat;      (* wakeup(&log) calls made *)
  lg_cache : S
}.

Arguments Log {S}.
Arguments lg_lock {S}.
Arguments lg_start {S}.
Arguments lg_size {S}.
Arguments lg_busy {S}.
Arguments lg_dev {S}.
Arguments lh_n {S}.
Arguments lh_sector {S}.
Arguments lg_wakeups {S}.
Arguments lg_cache {S}.

(** The header block: n, then the sectors, as 32-bit words. *)
Definition put_words (f : Z -> Z) (l : list Z) (d : list Z) : list Z :=
  foldl (fun d i => st32 d (4 + 4 * i) (f i)) d l.

Definition put_head (d : list Z) (n : Z) (secs : list Z) : list Z :=
  put_words (fun i => default 0 (zget secs i)) (seqZ 0 n) (st32 d 0 n).

Definition head_n (d : list Z) : Z := s32 (ld32 d 0).

Definition head_sector (d : list Z) (i : Z) : Z := s32 (ld32 d (4 + 4 * i)).

Section Log.
Context {S : Type} `{BufCache S}.

Definition on_cache {A} (m : M S A) : M (log S) A :=
  zoom lg_cache (fun c l => Log (lg_lock l) (lg_start l) (lg_size l) (lg_busy l) (lg_dev l) (lh_n l) (lh_sector l) (lg_wakeups l) c) m.

Definition set_lh_n (n : Z) : M (log S) unit :=
  modify (fun l => Log (lg_lock l) (lg_start l) (lg_size l) (lg_busy l) (lg_dev l) n (lh_sector l) (lg_wakeups l) (lg_cache l)).

(** log.lh.sector[i] = v, with the array's bounds. *)
Definition set_lh_sector (i v : Z) : M (log S) unit :=
  l <- get ;;
  if (0 <=? i) && (i <? zlen (lh_sector l)) then
    put (Log (lg_lock l) (lg_start l) (lg_size l) (lg_busy l) (lg_dev l) (lh_n l) (zset (lh_sector l) i v) (lg_wakeups l) (lg_cache l))
  else fault.

(** fs.c's readsb: the first 16 bytes of sector 1. *)
Definition readsb (dev : Z) : M S superblock :=
  bp <- bc_read dev 1 ;;
  d <- bc_data bp ;;
  bc_release bp ;;;
  ret (Superblock (ld32 d 0) (ld32 d 4) (ld32 d 8) (ld32 d 12)).

(** Copy committed blocks from log to their home location *)
Definition install_one (tail : Z) : M (log S) unit :=
  l <- get ;;
  lbuf <- on_cache (bc_read (lg_dev l) (lg_start l + tail + 1)) ;;
  sec <- from_opt (zget (lh_sector l) tail) ;;
  dbuf <- on_cache (bc_read (lg_dev l) sec) ;;
  d <- on_cache (bc_data lbuf) ;;
  on_cache (bc_store dbuf d) ;;;
  on_cache (bc_write dbuf) ;;;
  on_cache (bc_release lbuf) ;;;
  on_cache (bc_release dbuf).

Definition install_trans : M (log S) unit :=
  l <- get ;; for_ 0 (Z.to_nat (lh_n l)) install_one.

(** Read the log header from disk into the in-memory log header *)
Definition read_head : M (log S) unit :=
  l <- get ;;
  buf <- on_cache (bc_read (lg_dev l) (lg_start l)) ;;
  d <- on_cache (bc_data buf) ;;
  set_lh_n (head_n d) ;;;
  for_ 0 (Z.to_nat (head_n d)) (fun i => set_lh_sector i (head_sector d i)) ;;;
  on_cache (bc_release buf).

(** Write in-memory log header to disk. *)
Definition write_head : M (log S) unit :=
  l <- get ;;
  buf <- on_cache (bc_read (lg_dev l) (lg_start l)) ;;
  d <- on_cache (bc_data buf) ;;
  on_cache (bc_store buf (put_head d (lh_n l) (lh_sector l))) ;;;
  on_cache (bc_write buf) ;;;
  on_cache (bc_release buf).

Definition recover_from_log : M (log S) unit :=
  read_head ;;;
  install_trans ;;;
  set_lh_n 0 ;;;
  write_head.

Definition initlog : M (log S) unit :=
  modify (fun l => Log false (lg_start l) (lg_size l) (lg_busy l) (lg_dev l) (lh_n l) (lh_sector l) (lg_wakeups l) (lg_cache l)) ;;;
  sb <- on_cache (readsb ROOTDEV) ;;
  modify (fun l => Log (lg_lock l) (s32 (u32 (sb_size sb - sb_nlog sb))) (s32 (sb_nlog sb)) (lg_busy l) ROOTDEV
                     (lh_n l) (lh_sector l) (lg_wakeups l) (lg_cache l)) ;;;
  recover_from_log.

Definition lock_log : M (log S) unit := fun l =>
  if lg_lock l then Spin
  else Ok tt (Log true (lg_start l) (lg_size l) (lg_busy l) (lg_dev l) (lh_n l) (lh_sector l) (lg_wakeups l) (lg_cache l)).

Definition set_log_busy (busy : bool) : M (log S) unit :=
  modify (fun l => Log (lg_lock l) (lg_start l) (lg_size l) busy (lg_dev l) (lh_n l) (lh_sector l) (lg_wakeups l) (lg_cache l)).

Definition wakeup_log : M (log S) unit :=
  modify (fun l => Log (lg_lock l) (lg_start l) (lg_size l) (lg_busy l) (lg_dev l) (lh_n l) (lh_sector l)
                     (Datatypes.S (lg_wakeups l)) (lg_cache l)).

Definition unlock_log : M (log S) unit :=
  modify (fun l => Log false (lg_start l) (lg_size l) (lg_busy l) (lg_dev l) (lh_n l) (lh_sector l) (lg_wakeups l) (lg_cache l)).

(** sleep(&log, &log.lock) gives the lock back; the loop is entered again
    after the wakeup. *)
Definition begin_trans : M (log S) unit :=
  lock_log ;;;
  l <- get ;;
  if lg_busy l then unlock_log ;;; (fun l => Sleep l)
  else set_log_busy true ;;; unlock_log.

Definition commit_trans : M (log S) unit :=
  l <- get ;;
  when (0 <? lh_n l)
    (write_head ;;; install_trans ;;; set_lh_n 0 ;;; write_head) ;;;
  lock_log ;;;
  set_log_busy false ;;;
  wakeup_log ;;;
  unlock_log.

(** Index of the first logged sector equal to [sec], or log.lh.n. *)
Fixpoint log_slot (secs : list Z) (sec : Z) (k : nat) (i : Z) : Z :=
  match k with
  | O => i
  | Datatypes.S k' =>
      if decide (zget secs i = Some sec) then i else log_slot secs sec k' (i + 1)
  end.

Definition log_write (b : Z) : M (log S) unit :=
  l <- get ;;
  if (LOGSIZE <=? lh_n l) || (lg_size l - 1 <=? lh_n l) then panic "too big a transaction" else
  if negb (lg_busy l) then panic "write outside of trans" else
  sec <- on_cache (bc_sector b) ;;
  let i := log_slot (lh_sector l) sec (Z.to_nat (lh_n l)) 0 in
  set_lh_sector i sec ;;;
  dev <- on_cache (bc_dev b) ;;
  lbuf <- on_cache (bc_read dev (lg_start l + i + 1)) ;;
  d <- on_cache (bc_data b) ;;
  on_cache (bc_store lbuf d) ;;;
  on_cache (bc_write lbuf) ;;;
  on_cache (bc_release lbuf) ;;;
  when (i =? lh_n l) (set_lh_n (lh_n l + 1)) ;;;
  on_cache (bc_pin b).

End Log.
