(* ===== verification/LogSpec.v ===== *)
(** * The log makes transactions atomic

    Over any block cache: the effect of each log operation on the clients' view,
    and the crash theorem: if the machine stops after any number of the disk
    writes of commit_trans, recovery leaves every home sector as before the
    transaction, or every home sector as after it. *)

From S2P Require Import Prelude BlockCache Log.

(** ** The header block *)

Lemma zlen_put_words f l : forall d, zlen (put_words f l d) = zlen d.
Proof. unfold put_words. induction l as [|i l IH]; intros d; cbn; [done|]. by rewrite IH, zlen_st32. Qed.

Lemma zlen_put_head d n secs : zlen (put_head d n secs) = zlen d.
Proof. unfold put_head. rewrite zlen_put_words, zlen_st32. done. Qed.

Lemma put_words_ne f l : forall d off, (forall i, i ∈ l -> off + 4 <= 4 + 4 * i \/ 4 + 4 * i + 4 <= off) ->
  ld32 (put_words f l d) off = ld32 d off.
Proof.
  unfold put_words. induction l as [|i l IH]; intros d off Hl; cbn; [done|]. rewrite IH by (intros; apply Hl; set_solver).
  apply ld32_st32_ne. destruct (Hl i); [set_solver|by left|by right].
Qed.

Lemma put_words_eq f l : forall d i, NoDup l -> i ∈ l -> (forall j, j ∈ l -> 0 <= j /\ 8 + 4 * j <= zlen d) ->
  ld32 (put_words f l d) (4 + 4 * i) = u32 (f i).
Proof.
  induction l as [|j l IH]; intros d i Hnd Hi Hl; [set_solver|]. apply NoDup_cons in Hnd as [Hj Hnd].
  change (put_words f (j :: l) d) with (put_words f l (st32 d (4 + 4 * j) (f j))).
  destruct (decide (i = j)) as [->|].
  - rewrite put_words_ne by (intros k Hk; assert (k <> j) by (by intros ->); lia).
    destruct (Hl j); [set_solver|]. apply ld32_st32_eq; lia.
  - apply IH; [done|set_solver|]. intros k Hk. rewrite zlen_st32. apply Hl. set_solver.
Qed.

Lemma head_put d n secs :
  0 <= n <= LOGSIZE -> zlen d = 512 ->
  head_n (put_head d n secs) = n /\
  forall i sec, 0 <= i < n -> zget secs i = Some sec -> 0 <= sec < 2 ^ 31 -> head_sector (put_head d n secs) i = sec.
Proof.
  unfold LOGSIZE. intros Hn Hd. unfold head_n, head_sector, put_head.
  split.
  - rewrite put_words_ne by (intros i Hi%elem_of_seqZ; lia).
    rewrite ld32_st32_eq, u32_small by lia. apply s32_small. lia.
  - intros i sec Hi Hs Hr. rewrite put_words_eq; [|apply NoDup_seqZ|apply elem_of_seqZ; lia|].
    + rewrite Hs. change (default 0 (Some sec)) with sec. rewrite u32_small by lia. apply s32_small. lia.
    + intros j Hj%elem_of_seqZ. rewrite zlen_st32. lia.
Qed.

(** ** Views *)

(** A sector is replaced in the cache and on the disk. *)
Definition wr (sec : Z) (d : list Z) (v : bspec) : bspec :=
  BSpec (nsect v) (zupd (content v) sec d) (zupd (disk v) sec d) (handles v) (dirty v ∖ {[sec]}) (trace v ++ [(sec, d)]).

(** The disk after the writes [w]. *)
Definition replay (f : Z -> list Z) (w : list (Z * list Z)) : Z -> list Z :=
  foldl (fun f x => zupd f x.1 x.2) f w.

Lemma replay_app f w1 w2 : replay f (w1 ++ w2) = replay (replay f w1) w2.
Proof. apply foldl_app. Qed.

Lemma replay_ne w : forall f sec, (forall x, x ∈ w -> x.1 <> sec) -> replay f w sec = f sec.
Proof.
  induction w as [|x w IH]; intros f sec Hw; cbn; [done|]. rewrite IH by set_solver.
  apply zupd_ne. intros E. by apply (Hw x); [set_solver|].
Qed.

(** The last write to a sector wins; with distinct sectors, the only one. *)
Lemma replay_eq w : forall f sec d, NoDup w.*1 -> (sec, d) ∈ w -> replay f w sec = d.
Proof.
  induction w as [|x w IH]; intros f sec d Hnd Hin; cbn in *; [set_solver|].
  apply NoDup_cons in Hnd as [Hx Hnd]. apply elem_of_cons in Hin as [<-|Hin].
  - rewrite replay_ne; [by rewrite zupd_eq|]. intros y Hy E. apply Hx. cbn in *. rewrite <- E.
    apply list_elem_of_fmap. by exists y.
  - by apply IH.
Qed.

(** A view after the writes [w], each written through to the disk. *)
Definition post_view (v : bspec) (w : list (Z * list Z)) : bspec :=
  BSpec (nsect v) (replay (content v) w) (replay (disk v) w) (handles v)
    (dirty v ∖ list_to_set w.*1) (trace v ++ w).

Lemma post_view_nil v : post_view v [] = v.
Proof. destruct v. unfold post_view. cbn. f_equal; [set_solver|apply app_nil_r]. Qed.

Lemma post_view_app v w1 w2 : post_view (post_view v w1) w2 = post_view v (w1 ++ w2).
Proof.
  unfold post_view. cbn. rewrite !replay_app, fmap_app, list_to_set_app_L, app_assoc.
  f_equal. set_solver.
Qed.

Lemma wr_post v w sec d : wr sec d (post_view v w) = post_view v (w ++ [(sec, d)]).
Proof.
  unfold wr, post_view. cbn. rewrite !replay_app, fmap_app, list_to_set_app_L, app_assoc. cbn.
  f_equal. set_solver.
Qed.

Lemma wr_post_nil v sec d : wr sec d v = post_view v [(sec, d)].
Proof. rewrite <- (post_view_nil v) at 1. apply wr_post. Qed.

Section LogSpec.
Context {S : Type} `{BufCache S}.

Implicit Types (l : log S) (v : bspec).

Definition with_cache l (c : S) : log S :=
  Log (lg_lock l) (lg_start l) (lg_size l) (lg_busy l) (lg_dev l) (lh_n l) (lh_sector l) (lg_wakeups l) c.

Lemma with_cache_id l : with_cache l (lg_cache l) = l.
Proof. by destruct l. Qed.

(** Steps on the cache below the log. *)
Lemma wp_cache_last {A} (m : M S A) (Q : A -> log S -> Prop) l c :
  wp m (fun a c' => Q a (with_cache l c')) c -> wp (on_cache m) Q (with_cache l c).
Proof. unfold wp, on_cache, zoom. cbn. by destruct (m c). Qed.

Lemma wp_cache_step {A B} (m : M S A) (k : A -> M (log S) B) Q l c :
  wp m (fun a c' => wp (k a) Q (with_cache l c')) c -> wp (bind (on_cache m) k) Q (with_cache l c).
Proof. intros W. by apply wp_bind, wp_cache_last. Qed.

(** Show the cache as a component of the state, and read the other fields
    through it. *)
Ltac on_cache_of l :=
  lazymatch goal with
  | |- wp ?m ?Q l => cut (wp m Q (with_cache l (lg_cache l))); [by rewrite with_cache_id|]
  end.

Ltac log_fields l c :=
  change (lg_dev (with_cache l c)) with (lg_dev l); change (lg_start (with_cache l c)) with (lg_start l);
  change (lg_size (with_cache l c)) with (lg_size l); change (lg_busy (with_cache l c)) with (lg_busy l);
  change (lh_n (with_cache l c)) with (lh_n l); change (lh_sector (with_cache l c)) with (lh_sector l).

(** ** Block-level helpers *)

Lemma hold_unhold sec h v : handles v !! sec = None -> unhold sec (hold sec h v) = v.
Proof. intros Hn. destruct v. unfold unhold, hold. cbn in *. f_equal. by apply delete_insert_id. Qed.

Lemma write_view sec h d v : handles v !! sec = None ->
  unhold sec (flush sec (store sec d (hold sec h v))) = wr sec d v.
Proof.
  intros Hn. unfold unhold, flush, store, hold, wr. cbn. rewrite zupd_eq. f_equal.
  by apply delete_insert_id.
Qed.

(** Read a sector, replace it, write it through, release it. *)
Lemma rewrite_block c v sec f :
  bc_rep c v -> 0 <= sec < nsect v -> handles v !! sec = None -> room v sec ->
  (forall d, zlen d = 512 -> zlen (f d) = 512) ->
  wp (buf <- bc_read ROOTDEV sec ;; d <- bc_data buf ;; bc_store buf (f d) ;;; bc_write buf ;;; bc_release buf)
    (fun _ c' => bc_rep c' (wr sec (f (content v sec)) v)) c.
Proof.
  intros Hr Hs Hn Hroom Hf. apply wp_bind. eapply wp_mono; [by apply bc_read_ok|]. intros h c1 Hr1.
  assert (handles (hold sec h v) !! sec = Some h) as Hh by apply lookup_insert_eq.
  apply wp_bind. eapply ok_wp; [exact (bc_data_ok _ _ _ _ Hr1 Hh)|].
  apply wp_bind. eapply wp_mono; [apply (bc_store_ok _ _ sec h _ Hr1 Hh), Hf, (bc_block c v sec); done|]. intros [] c2 Hr2.
  apply wp_bind. eapply wp_mono; [exact (bc_write_ok _ _ sec h Hr2 Hh)|]. intros [] c3 Hr3.
  eapply wp_mono; [apply (bc_release_ok _ _ sec h Hr3 Hh); right; cbn; by rewrite !zupd_eq|]. intros [] c4 Hr4.
  by rewrite write_view in Hr4.
Qed.

(** Read a sector and release it. *)
Lemma read_block c v sec :
  bc_rep c v -> 0 <= sec < nsect v -> handles v !! sec = None -> sec ∉ dirty v -> room v sec ->
  wp (buf <- bc_read ROOTDEV sec ;; d <- bc_data buf ;; bc_release buf ;;; ret d)
    (fun d c' => d = disk v sec /\ bc_rep c' v) c.
Proof.
  intros Hr Hs Hn Hd Hroom. apply wp_bind. eapply wp_mono; [by apply bc_read_ok|]. intros h c1 Hr1.
  assert (handles (hold sec h v) !! sec = Some h) as Hh by apply lookup_insert_eq.
  pose proof (bc_clean c v sec Hr Hs Hn Hd) as Hcl.
  apply wp_bind. eapply ok_wp; [exact (bc_data_ok _ _ _ _ Hr1 Hh)|].
  apply wp_bind. eapply wp_mono; [apply (bc_release_ok _ _ sec h Hr1 Hh); by right|]. intros [] c2 Hr2.
  apply wp_ret. rewrite hold_unhold in Hr2 by done. done.
Qed.

(** ** The log's geometry *)

Record log_geom l v : Prop := {
  lgm_dev : lg_dev l = ROOTDEV;
  lgm_start : 0 <= lg_start l;
  lgm_size : 1 <= lg_size l;
  lgm_end : lg_start l + lg_size l <= nsect v;
  lgm_disk : nsect v < 2 ^ 31;
  lgm_arr : zlen (lh_sector l) = LOGSIZE
}.

(** A sector outside the log. *)
Definition home l v (sec : Z) : Prop :=
  0 <= sec < nsect v /\ (sec < lg_start l \/ lg_start l + lg_size l <= sec).

(** The in-memory header lists distinct home sectors that fit the log. *)
Definition head_ok l v : Prop :=
  0 <= lh_n l <= LOGSIZE /\ lh_n l <= lg_size l - 1 /\
  NoDup (take (Z.to_nat (lh_n l)) (lh_sector l)) /\
  forall i sec, 0 <= i < lh_n l -> zget (lh_sector l) i = Some sec -> home l v sec.

(** The home writes that installing the log makes, as seen in view [v]. *)
Definition installs l v (n : Z) : list (Z * list Z) :=
  (fun i => (default 0 (zget (lh_sector l) i), content v (lg_start l + i + 1))) <$> seqZ 0 n.

Lemma installs_sectors l v n : 0 <= n <= zlen (lh_sector l) -> (installs l v n).*1 = take (Z.to_nat n) (lh_sector l).
Proof.
  intros Hn. unfold installs. rewrite <- list_fmap_compose. apply list_eq. intros k.
  rewrite list_lookup_fmap. destruct (decide (k < Z.to_nat n)%nat) as [Hk|Hk].
  - rewrite lookup_seqZ_lt by lia. cbn. rewrite Z.add_0_l, lookup_take_lt by done. unfold zget.
    rewrite (proj2 (Z.leb_le _ _)), Nat2Z.id by lia.
    destruct (lh_sector l !! k) eqn:E; [done|]. apply lookup_ge_None in E. unfold zlen in Hn. lia.
  - rewrite lookup_seqZ_ge by lia. by rewrite lookup_take_ge by lia.
Qed.

Lemma installs_home l v v' n x : head_ok l v -> log_geom l v -> n <= lh_n l ->
  x ∈ installs l v' n -> home l v x.1.
Proof.
  intros (H1 & H2 & _ & H4) Hg Hn Hx. apply list_elem_of_fmap in Hx as (i & -> & Hi%elem_of_seqZ). cbn.
  destruct (zget_in (lh_sector l) i) as [sec Hs]; [rewrite (lgm_arr l v Hg); unfold LOGSIZE in *; lia|].
  rewrite Hs. apply (H4 i sec); [lia|done].
Qed.

Lemma installs_in l v n i sec : 0 <= i < n -> zget (lh_sector l) i = Some sec ->
  (sec, content v (lg_start l + i + 1)) ∈ installs l v n.
Proof.
  intros Hi Hs. apply list_elem_of_fmap. exists i. rewrite Hs. split; [done|]. apply elem_of_seqZ. lia.
Qed.

(** ** Writing the header *)

Lemma write_head_ok l v :
  bc_rep (lg_cache l) v -> log_geom l v -> handles v !! lg_start l = None -> room v (lg_start l) ->
  wp write_head (fun _ l' => exists c', l' = with_cache l c' /\
    bc_rep c' (wr (lg_start l) (put_head (content v (lg_start l)) (lh_n l) (lh_sector l)) v)) l.
Proof.
  intros Hr Hg Hn Hroom. on_cache_of l. unfold write_head. apply wp_bind, wp_get. log_fields l (lg_cache l). rewrite (lgm_dev l v Hg).
  assert (0 <= lg_start l < nsect v) as Hs by (destruct Hg; lia).
  pose proof (rewrite_block (lg_cache l) v (lg_start l) (fun d => put_head d (lh_n l) (lh_sector l)) Hr Hs Hn Hroom) as W.
  apply wp_cache_step. apply wp_bind_inv in W; [|by intros d; rewrite zlen_put_head].
  eapply wp_mono; [exact W|]. clear W. intros h c1 W. cbn beta in W.
  apply wp_cache_step. apply wp_bind_inv in W. eapply wp_mono; [exact W|]. clear W. intros d c2 W.
  apply wp_cache_step. apply wp_bind_inv in W. eapply wp_mono; [exact W|]. clear W. intros [] c3 W.
  apply wp_cache_step. apply wp_bind_inv in W. eapply wp_mono; [exact W|]. clear W. intros [] c4 W.
  apply wp_cache_last. eapply wp_mono; [exact W|]. clear W. intros [] c5 W. by exists c5.
Qed.

(** ** Installing *)

(** Copy log block [ls] to its home [sec]: two buffers held at a time. *)
Lemma install_view ls sec h1 h2 d v :
  handles v !! ls = None -> handles v !! sec = None -> ls <> sec ->
  unhold sec (unhold ls (flush sec (store sec d (hold sec h2 (hold ls h1 v))))) = wr sec d v.
Proof.
  intros H1 H2 Hne. unfold unhold, flush, store, hold, wr. cbn. rewrite zupd_eq. f_equal.
  rewrite (insert_insert_ne _ sec ls) by done. rewrite delete_insert_id by (by rewrite lookup_insert_ne).
  by apply delete_insert_id.
Qed.

(** Room for the log buffer and for the home buffer beside it. *)
Definition room2 v (sec : Z) : Prop :=
  Z.of_nat (size (in_use v)) < 10 /\ (sec ∈ dirty v \/ Z.of_nat (size (in_use v)) < 9).

Lemma install_one_ok l v tail sec :
  bc_rep (lg_cache l) v -> log_geom l v -> 0 <= tail < lg_size l - 1 -> zget (lh_sector l) tail = Some sec ->
  home l v sec -> handles v !! (lg_start l + tail + 1) = None -> lg_start l + tail + 1 ∉ dirty v ->
  handles v !! sec = None -> room2 v sec ->
  wp (install_one tail) (fun _ l' => exists c', l' = with_cache l c' /\
    bc_rep c' (wr sec (content v (lg_start l + tail + 1)) v)) l.
Proof.
  intros Hr Hg Ht Hsec [Hs Hhome] Hnl Hdl Hns [Hroom1 Hroom2]. set (ls := lg_start l + tail + 1) in *.
  assert (0 <= ls < nsect v) as Hlsr by (destruct Hg; lia). assert (ls <> sec) as Hne by lia.
  pose proof (bc_clean _ _ _ Hr Hlsr Hnl Hdl) as Hcl.
  on_cache_of l. unfold install_one. apply wp_bind, wp_get. log_fields l (lg_cache l). rewrite (lgm_dev l v Hg). fold ls.
  apply wp_cache_step. eapply wp_mono; [apply (bc_read_ok _ v ls); [done|done|done|by left]|]. intros h1 c1 Hr1.
  apply wp_bind. rewrite Hsec. apply wp_ret.
  apply wp_cache_step. eapply wp_mono; [apply (bc_read_ok _ _ sec Hr1); [done|cbn; by rewrite lookup_insert_ne|]|].
  { unfold room, in_use. cbn. destruct Hroom2 as [?|Hroom2]; [by right|left].
    rewrite dom_insert_L, <- union_assoc_L. change (dom (handles v) ∪ dirty v) with (in_use v).
    rewrite size_union_alt.
    assert (size (in_use v ∖ {[ls]}) <= size (in_use v))%nat by (apply subseteq_size; set_solver).
    rewrite size_singleton. lia. }
  intros h2 c2 Hr2. set (v2 := hold sec h2 (hold ls h1 v)) in *.
  assert (handles v2 !! ls = Some h1) as Hh1 by (cbn; rewrite lookup_insert_ne by done; apply lookup_insert_eq).
  assert (handles v2 !! sec = Some h2) as Hh2 by apply lookup_insert_eq.
  apply wp_cache_step. eapply ok_wp; [exact (bc_data_ok _ _ _ _ Hr2 Hh1)|].
  apply wp_cache_step. eapply wp_mono; [apply (bc_store_ok _ _ sec h2 _ Hr2 Hh2); apply (bc_block _ _ _ Hr Hlsr)|].
  intros [] c3 Hr3. apply wp_cache_step. eapply wp_mono; [exact (bc_write_ok _ _ sec h2 Hr3 Hh2)|]. intros [] c4 Hr4.
  apply wp_cache_step. eapply wp_mono; [apply (bc_release_ok _ _ ls h1 Hr4 Hh1); right; cbn; by rewrite !zupd_ne|].
  intros [] c5 Hr5. apply wp_cache_last. eapply wp_mono; [apply (bc_release_ok _ _ sec h2 Hr5)|].
  { cbn. rewrite lookup_delete_ne by done. apply lookup_insert_eq. }
  { right. cbn. by rewrite !zupd_eq. }
  intros [] c6 Hr6. exists c6. split; [done|].
  change (content v ls) with (content v2 ls). unfold v2 in Hr6. rewrite install_view in Hr6 by done. exact Hr6.
Qed.

(** Nothing is held, and either nothing is pinned, or exactly the logged
    sectors are and one buffer is left. *)
Definition quiet l v : Prop :=
  handles v = ∅ /\
  (dirty v = ∅ \/ (lh_n l < 10 /\ dirty v = list_to_set (take (Z.to_nat (lh_n l)) (lh_sector l)))).

Lemma quiet_size l v : 0 <= lh_n l -> quiet l v -> Z.of_nat (size (in_use v)) < 10.
Proof.
  intros H0 [Hh Hd]. unfold in_use. rewrite Hh, dom_empty_L, union_empty_l_L.
  destruct Hd as [->|[Hn ->]]; [rewrite size_empty; lia|].
  assert (forall m : list Z, (size (list_to_set m : gset Z) <= length m)%nat) as Hle.
  { induction m as [|x m IH]; [done|]. cbn [list_to_set length].
    rewrite size_union_alt, size_singleton.
    assert (size (list_to_set m ∖ {[x]} : gset Z) <= size (list_to_set m : gset Z))%nat by (apply subseteq_size; set_solver). lia. }
  eapply Z.le_lt_trans; [apply inj_le, Hle|]. rewrite length_take. lia.
Qed.

Lemma in_use_post v w : in_use (post_view v w) ⊆ in_use v.
Proof. unfold in_use, post_view. cbn. set_solver. Qed.

Lemma install_trans_ok l v :
  bc_rep (lg_cache l) v -> log_geom l v -> head_ok l v -> quiet l v ->
  (forall i, 0 <= i < lh_n l -> lg_start l + i + 1 ∉ dirty v) ->
  wp install_trans (fun _ l' => exists c', l' = with_cache l c' /\
    bc_rep c' (post_view v (installs l v (lh_n l)))) l.
Proof.
  intros Hr Hg Hok Hq Hcl. destruct (id Hok) as (Hn1 & Hn2 & Hnd & Hhome). unfold install_trans.
  pose proof (quiet_size l v ltac:(lia) Hq) as Hsz.
  apply wp_bind, wp_get. eapply wp_mono; [apply (wp_for _ (fun j l' => exists c', l' = with_cache l c' /\
    bc_rep c' (post_view v (installs l v j))))|].
  - exists (lg_cache l). split; [by destruct l|]. change (installs l v 0) with (@nil (Z * list Z)). by rewrite post_view_nil.
  - intros j l' Hj (c' & -> & Hr').
    destruct (zget_in (lh_sector l) j) as [sec Hs]; [rewrite (lgm_arr l v Hg); unfold LOGSIZE in *; lia|].
    assert (home l v sec) as Hh by (apply (Hhome j sec); [lia|done]).
    set (w := installs l v j) in *.
    assert (forall x, x ∈ w -> home l v x.1) as Hwh by (intros x; apply installs_home; [done|done|lia]).
    assert (replay (content v) w (lg_start l + j + 1) = content v (lg_start l + j + 1)) as Hrc.
    { apply replay_ne. intros x Hx E. apply Hwh in Hx as [_ Hx]. destruct Hg. lia. }
    eapply wp_mono; [apply (install_one_ok (with_cache l c') (post_view v w) j sec Hr')|].
    + by destruct Hg.
    + cbn. lia.
    + exact Hs.
    + exact Hh.
    + cbn. by rewrite (proj1 Hq).
    + cbn. intros Hd%elem_of_difference. apply (Hcl j); [lia|apply Hd].
    + cbn. by rewrite (proj1 Hq).
    + split.
      * eapply Z.le_lt_trans; [|exact Hsz]. apply inj_le, subseteq_size, in_use_post.
      * destruct Hq as [Hq1 [Hq2|[Hq2 Hq3]]].
        -- right. unfold in_use. cbn. rewrite Hq1, Hq2, dom_empty_L.
           replace (size _) with 0%nat; [lia|]. symmetry. apply size_empty_iff. set_solver.
        -- left. cbn. apply elem_of_difference. rewrite Hq3. split.
           ++ apply elem_of_list_to_set, list_elem_of_lookup. exists (Z.to_nat j). unfold zget in Hs.
              rewrite (proj2 (Z.leb_le _ _)) in Hs by lia. rewrite lookup_take_lt by lia. done.
           ++ rewrite elem_of_list_to_set. unfold w. rewrite installs_sectors by (rewrite (lgm_arr l v Hg); unfold LOGSIZE in *; lia).
              intros Hin. apply list_elem_of_lookup in Hin as [k Hk]. apply lookup_take_Some in Hk as [Hk Hkj].
              assert (k = Z.to_nat j) as ->; [|lia]. eapply (NoDup_lookup _ _ _ sec Hnd); [rewrite lookup_take_lt by lia; done|].
              unfold zget in Hs. rewrite (proj2 (Z.leb_le _ _)) in Hs by lia. rewrite lookup_take_lt by lia. done.
    + intros [] l'' (c'' & -> & Hr''). exists c''. split; [done|]. cbn in Hr''.
      rewrite Hrc, wr_post in Hr''. unfold w, installs in *. rewrite (seqZ_app 0 j 1) by lia.
      rewrite fmap_app. change (seqZ (0 + j) 1) with [0 + j]. cbn [fmap list_fmap]. rewrite Z.add_0_l, Hs. exact Hr''.
  - intros [] l' (c' & -> & Hr'). exists c'. split; [done|]. by rewrite Z.add_0_l, Z2Nat.id in Hr' by lia.
Qed.

(** ** Reading the header *)

(** [l] with another in-memory header and cache. *)
Definition with_head l (n : Z) (secs : list Z) (c : S) : log S :=
  Log (lg_lock l) (lg_start l) (lg_size l) (lg_busy l) (lg_dev l) n secs (lg_wakeups l) c.

Lemma read_head_ok l v :
  bc_rep (lg_cache l) v -> log_geom l v -> handles v = ∅ -> dirty v = ∅ ->
  let hb := disk v (lg_start l) in
  0 <= head_n hb <= LOGSIZE ->
  wp read_head (fun _ l' => exists secs c', l' = with_head l (head_n hb) secs c' /\ bc_rep c' v /\
    zlen secs = LOGSIZE /\ forall i, 0 <= i < head_n hb -> zget secs i = Some (head_sector hb i)) l.
Proof.
  intros Hr Hg Hh Hd hb Hn. assert (0 <= lg_start l < nsect v) as Hs by (destruct Hg; lia).
  assert (room v (lg_start l)) as Hroom by (left; unfold in_use; rewrite Hh, Hd; by vm_compute).
  on_cache_of l. unfold read_head. apply wp_bind, wp_get. log_fields l (lg_cache l). rewrite (lgm_dev l v Hg).
  apply wp_cache_step. eapply wp_mono; [apply (bc_read_ok _ v (lg_start l)); try done; by rewrite Hh|]. intros h c1 Hr1.
  assert (handles (hold (lg_start l) h v) !! lg_start l = Some h) as Hhh by apply lookup_insert_eq.
  assert (content v (lg_start l) = hb) as Hcl by (apply (bc_clean _ _ _ Hr Hs); [by rewrite Hh|set_solver]).
  apply wp_cache_step. eapply ok_wp; [exact (bc_data_ok _ _ _ _ Hr1 Hhh)|].
  cbn [content hold]. rewrite Hcl. apply wp_bind, wp_modify.
  apply wp_bind. eapply wp_mono; [apply (wp_for _ (fun j l' => exists secs, l' = with_head l (head_n hb) secs c1 /\
    zlen secs = LOGSIZE /\ forall i, 0 <= i < j -> zget secs i = Some (head_sector hb i)))|].
  - exists (lh_sector l). split; [done|]. split; [by destruct Hg|]. lia.
  - intros j l' Hj (secs & -> & Hlen & Hsecs). unfold set_lh_sector. apply wp_bind, wp_get. cbn [with_head lh_sector].
    rewrite Hlen, (proj2 (Z.leb_le 0 j)), (proj2 (Z.ltb_lt j LOGSIZE)) by lia. cbn [andb]. apply wp_put.
    exists (zset secs j (head_sector hb j)). split; [done|]. rewrite zlen_zset. split; [done|].
    intros i Hi. destruct (decide (i = j)) as [->|]; [apply zget_zset_eq; lia|]. rewrite zget_zset_ne by done. apply Hsecs. lia.
  - intros [] l' (secs & -> & Hlen & Hsecs). rewrite Z.add_0_l, Z2Nat.id in Hsecs by lia.
    change (with_head l (head_n hb) secs c1) with (with_cache (with_head l (head_n hb) secs c1) c1). apply wp_cache_last.
    eapply wp_mono; [apply (bc_release_ok _ _ _ _ Hr1 Hhh); right; apply (bc_clean _ _ _ Hr Hs); [by rewrite Hh|set_solver]|].
    intros [] c2 Hr2. rewrite hold_unhold in Hr2 by (by rewrite Hh). by exists secs, c2.
Qed.

(** An on-disk header that recovery can use. *)
Definition disk_head_ok l v (hb : list Z) : Prop :=
  0 <= head_n hb <= LOGSIZE /\ head_n hb <= lg_size l - 1 /\
  NoDup (head_sector hb <$> seqZ 0 (head_n hb)) /\
  forall i, 0 <= i < head_n hb -> home l v (head_sector hb i).

(** The home writes a recovery from disk [d] makes. *)
Definition redo (start : Z) (d : Z -> list Z) : list (Z * list Z) :=
  (fun i => (head_sector (d start) i, d (start + i + 1))) <$> seqZ 0 (head_n (d start)).

Lemma list_Z_ext {A} (l1 l2 : list A) : zlen l1 = zlen l2 -> (forall i, 0 <= i < zlen l1 -> zget l1 i = zget l2 i) -> l1 = l2.
Proof.
  intros Hl Hi. apply list_eq. intros k. destruct (decide (Z.of_nat k < zlen l1)) as [Hk|Hk].
  - specialize (Hi (Z.of_nat k) ltac:(lia)). unfold zget in Hi. rewrite (proj2 (Z.leb_le _ _)), Nat2Z.id in Hi by lia. done.
  - rewrite !(proj2 (lookup_ge_None _ _)); [done|unfold zlen in *; lia|unfold zlen in *; lia].
Qed.

Lemma take_head (secs : list Z) (f : Z -> Z) n :
  0 <= n <= zlen secs -> (forall i, 0 <= i < n -> zget secs i = Some (f i)) -> take (Z.to_nat n) secs = f <$> seqZ 0 n.
Proof.
  intros Hn Hf. apply list_eq. intros k. rewrite list_lookup_fmap. destruct (decide (k < Z.to_nat n)%nat).
  - rewrite lookup_take_lt, lookup_seqZ_lt by lia. specialize (Hf (Z.of_nat k) ltac:(lia)). unfold zget in Hf.
    rewrite (proj2 (Z.leb_le _ _)), Nat2Z.id in Hf by lia. done.
  - rewrite lookup_take_ge by lia. by rewrite lookup_seqZ_ge by lia.
Qed.

(** Recovery on a quiet disk: redo the logged writes, clear the header. *)
Lemma recover_ok l v :
  bc_rep (lg_cache l) v -> log_geom l v -> handles v = ∅ -> dirty v = ∅ ->
  disk_head_ok l v (disk v (lg_start l)) ->
  wp recover_from_log (fun _ l' => exists c' secs h0, l' = with_head l 0 secs c' /\ zlen secs = LOGSIZE /\
    head_n h0 = 0 /\
    bc_rep c' (post_view v (redo (lg_start l) (disk v) ++ [(lg_start l, h0)]))) l.
Proof.
  intros Hr Hg Hh Hd (Hn & Hn2 & Hnd & Hhome). unfold recover_from_log. set (hb := disk v (lg_start l)) in *.
  apply wp_bind. eapply wp_mono; [by apply (read_head_ok l v)|]. intros [] l1 (secs & c1 & -> & Hr1 & Hlen & Hsecs). fold hb in Hsecs.
  set (l1 := with_head l (head_n hb) secs c1).
  assert (log_geom l1 v) as Hg1 by (destruct Hg; by split).
  assert (take (Z.to_nat (head_n hb)) secs = head_sector hb <$> seqZ 0 (head_n hb)) as Htk by (apply take_head; [lia|done]).
  assert (head_ok l1 v) as Hok.
  { split; [done|]. split; [done|]. split; [cbn; by rewrite Htk|].
    intros i sec Hi Hs. cbn in Hi, Hs. rewrite Hsecs in Hs by done. injection Hs as <-. by apply Hhome. }
  assert (installs l1 v (lh_n l1) = redo (lg_start l) (disk v)) as Hinst.
  { unfold installs, redo. fold hb. cbn. apply list_fmap_ext. intros k i Hi.
    apply lookup_seqZ in Hi as [-> Hi]. rewrite Hsecs by lia. cbn. f_equal.
    apply (bc_clean _ _ _ Hr); [destruct Hg; lia|by rewrite Hh|set_solver]. }
  apply wp_bind. eapply wp_mono; [apply (install_trans_ok l1 v Hr1 Hg1 Hok); [split; [done|by left]|rewrite Hd; set_solver]|].
  intros [] l2 (c2 & -> & Hr2). rewrite Hinst in Hr2. set (w := redo _ _) in *.
  apply wp_bind, wp_modify. eapply wp_mono; [apply (write_head_ok (with_head l 0 secs c2) (post_view v w) Hr2)|].
  - destruct Hg1. by split.
  - cbn. by rewrite Hh.
  - left. unfold in_use. cbn. rewrite Hh, Hd. replace (size _) with 0%nat; [lia|]. symmetry. apply size_empty_iff. set_solver.
  - intros [] l3 (c3 & -> & Hr3). eexists c3, secs, _. split; [done|]. split; [done|]. split; [|rewrite wr_post in Hr3; exact Hr3].
    apply head_put; [unfold LOGSIZE; cbn; lia|]. cbn.
    assert (0 <= lg_start l < nsect (post_view v w)) as Hs by (destruct Hg; cbn; lia).
    apply (bc_block _ _ _ Hr2 Hs).
Qed.

(** ** Transactions *)

(** Inside a transaction: the logged sectors are pinned, the contents of
    those that are not held are in the log area, and the header on disk is
    empty. *)
Record trans l v : Prop := {
  t_geom : log_geom l v;
  t_head : head_ok l v;
  t_log : forall i sec, 0 <= i < lh_n l -> zget (lh_sector l) i = Some sec -> handles v !! sec = None ->
    disk v (lg_start l + i + 1) = content v sec;
  t_dirty : dirty v = list_to_set (take (Z.to_nat (lh_n l)) (lh_sector l));
  t_empty : head_n (disk v (lg_start l)) = 0
}.

Lemma logged_home l v sec : trans l v -> sec ∈ dirty v -> home l v sec.
Proof.
  intros Ht Hs. rewrite (t_dirty l v Ht) in Hs. apply elem_of_list_to_set, list_elem_of_lookup in Hs as [k Hk].
  apply lookup_take_Some in Hk as [Hk Hkn]. destruct (t_head l v Ht) as (Hn & _ & _ & Hh).
  apply (Hh (Z.of_nat k)); [lia|]. unfold zget. by rewrite (proj2 (Z.leb_le _ _)), Nat2Z.id by lia.
Qed.

Lemma log_sector_clean l v i : trans l v -> 0 <= i < lg_size l -> lg_start l + i ∉ dirty v.
Proof. intros Ht Hi [_ Hh]%(logged_home l v _ Ht). lia. Qed.

(** The disk writes of a commit. *)
Definition commit_writes l v : list (Z * list Z) :=
  let h := put_head (content v (lg_start l)) (lh_n l) (lh_sector l) in
  (lg_start l, h) :: installs l v (lh_n l) ++ [(lg_start l, put_head h 0 (lh_sector l))].

Lemma commit_ok l v :
  bc_rep (lg_cache l) v -> trans l v -> handles v = ∅ -> 0 < lh_n l < 10 -> lg_lock l = false ->
  wp commit_trans (fun _ l' => exists c', l' = Log false (lg_start l) (lg_size l) false (lg_dev l) 0 (lh_sector l)
      (Datatypes.S (lg_wakeups l)) c' /\ bc_rep c' (post_view v (commit_writes l v))) l.
Proof.
  intros Hr Ht Hh Hn Hlk. destruct (id Ht) as [Hg Hok Hlog Hd He]. unfold commit_trans.
  assert (quiet l v) as Hq by (split; [done|right; split; [lia|done]]).
  pose proof (quiet_size l v ltac:(lia) Hq) as Hsz.
  assert (0 <= lg_start l < nsect v) as Hs by (destruct Hg; lia).
  apply wp_bind, wp_get. rewrite (proj2 (Z.ltb_lt _ _)) by lia. cbn [when]. apply wp_bind.
  apply wp_bind. eapply wp_mono; [apply (write_head_ok l v Hr Hg); [by rewrite Hh|by left]|].
  intros [] l1 (c1 & -> & Hr1). set (h := put_head _ _ _) in *. rewrite wr_post_nil in Hr1.
  set (v1 := post_view v [(lg_start l, h)]) in *.
  assert (lg_start l + 0 ∉ dirty v) as Hsd by (apply log_sector_clean; [done|destruct Hg; lia]). rewrite Z.add_0_r in Hsd.
  assert (dirty v1 = dirty v) as Hdv1 by (cbn; set_solver).
  assert (installs (with_cache l c1) v1 (lh_n l) = installs l v (lh_n l)) as Hins.
  { unfold installs. apply list_fmap_ext. intros k i Hi. apply lookup_seqZ in Hi as [-> Hi]. cbn. f_equal.
    apply zupd_ne. lia. }
  apply wp_bind. eapply wp_mono; [apply (install_trans_ok (with_cache l c1) v1 Hr1)|].
  { destruct Hg. by split. } { exact Hok. }
  { split; [done|right]. split; [cbn; lia|]. rewrite Hdv1. exact Hd. }
  { intros i Hi. rewrite Hdv1. cbn [lg_start with_cache]. replace (lg_start l + i + 1) with (lg_start l + (i + 1)) by lia.
    apply log_sector_clean; [done|]. destruct Hok as (_ & Hok & _). cbn in Hi. lia. }
  intros [] l2 (c2 & -> & Hr2). cbn [lh_n with_cache] in Hr2. rewrite Hins in Hr2.
  apply wp_bind, wp_modify.
  eapply wp_mono; [apply (write_head_ok (with_head l 0 (lh_sector l) c2) (post_view v1 (installs l v (lh_n l))) Hr2)|].
  { destruct Hg. by split. } { cbn. by rewrite Hh. }
  { left. eapply Z.le_lt_trans; [apply inj_le, subseteq_size, in_use_post|]. unfold in_use. rewrite Hdv1. exact Hsz. }
  intros [] l3 (c3 & -> & Hr3). rewrite wr_post in Hr3.
  change (content (post_view v1 (installs l v (lh_n l)))) with (replay (replay (content v) [(lg_start l, h)]) (installs l v (lh_n l))) in Hr3.
  cbn [lg_start with_head lh_n lh_sector] in Hr3.
  replace (replay (replay (content v) [(lg_start l, h)]) (installs l v (lh_n l)) (lg_start l)) with h in Hr3.
  2: { rewrite replay_ne; [cbn; by rewrite zupd_eq|]. intros x Hx E.
       apply (installs_home l v v (lh_n l) x Hok Hg) in Hx as [_ Hx]; [|lia]. destruct Hg. lia. }
  apply wp_bind. eapply ok_wp; [unfold lock_log; cbn; by rewrite Hlk|].
  apply wp_bind, wp_modify, wp_bind, wp_modify, wp_modify. exists c3. split; [done|].
  cbn [lg_cache]. unfold commit_writes. fold h. unfold v1 in Hr3.
  rewrite post_view_app in Hr3. exact Hr3.
Qed.

(** What the installed blocks are: the current contents of their home
    sectors. *)
Lemma installed l v sec : bc_rep (lg_cache l) v -> trans l v -> handles v = ∅ -> home l v sec ->
  (sec ∈ (installs l v (lh_n l)).*1 /\ (sec, content v sec) ∈ installs l v (lh_n l)) \/
  (sec ∉ (installs l v (lh_n l)).*1 /\ disk v sec = content v sec).
Proof.
  intros Hr Ht Hh [Hs Hout]. destruct (id Ht) as [Hg (Hn & Hn2 & Hnd & Hhome) Hlog Hd He].
  rewrite installs_sectors by (rewrite (lgm_arr l v Hg); lia).
  destruct (decide (sec ∈ take (Z.to_nat (lh_n l)) (lh_sector l))) as [Hin|Hin]; [left|right]; (split; [done|]).
  - apply list_elem_of_lookup in Hin as [k Hk]. apply lookup_take_Some in Hk as [Hk Hkn].
    assert (zget (lh_sector l) (Z.of_nat k) = Some sec) as Hz
      by (unfold zget; by rewrite (proj2 (Z.leb_le _ _)), Nat2Z.id by lia).
    pose proof (installs_in l v (lh_n l) (Z.of_nat k) sec ltac:(lia) Hz) as Hi.
    rewrite (bc_clean _ _ (lg_start l + Z.of_nat k + 1) Hr), (Hlog (Z.of_nat k) sec ltac:(lia) Hz) in Hi; [exact Hi|by rewrite Hh|destruct Hg; lia|by rewrite Hh|].
    replace (lg_start l + Z.of_nat k + 1) with (lg_start l + (Z.of_nat k + 1)) by lia.
    apply log_sector_clean; [done|lia].
  - symmetry. apply (bc_clean _ _ _ Hr Hs); [by rewrite Hh|]. rewrite Hd. by rewrite elem_of_list_to_set.
Qed.

(** ** Crashes *)

(** The machine restarts on disk [d] with an empty cache and an in-memory
    log of the same geometry. *)
Definition restarted l v (d : Z -> list Z) (R : log S) (vR : bspec) : Prop :=
  bc_rep (lg_cache R) vR /\ lg_start R = lg_start l /\ lg_size R = lg_size l /\ lg_dev R = ROOTDEV /\
  zlen (lh_sector R) = LOGSIZE /\ nsect vR = nsect v /\ handles vR = ∅ /\ dirty vR = ∅ /\
  forall sec, 0 <= sec < nsect v -> disk vR sec = d sec.

(** Recovery from a disk whose header lists distinct home sectors. *)
Lemma recover_restarted l v d R vR :
  log_geom l v -> restarted l v d R vR -> disk_head_ok l v (d (lg_start l)) ->
  wp recover_from_log (fun _ R' => exists vR', bc_rep (lg_cache R') vR' /\ lh_n R' = 0 /\
    head_n (disk vR' (lg_start l)) = 0 /\
    forall sec, home l v sec -> disk vR' sec = replay d (redo (lg_start l) d) sec) R.
Proof.
  intros Hg (Hr & R1 & R2 & R3 & R4 & R5 & R6 & R7 & R8) Hok.
  assert (0 <= lg_start l < nsect v) as Hs by (destruct Hg; lia).
  assert (redo (lg_start l) (disk vR) = redo (lg_start l) d) as Hredo.
  { unfold redo. rewrite R8 by done. apply list_fmap_ext. intros k i Hi. apply lookup_seqZ in Hi as [-> Hi].
    rewrite R8; [done|]. destruct Hok as (_ & Hok & _). destruct Hg. lia. }
  assert (log_geom R vR) as HgR by (destruct Hg; split; congruence).
  eapply wp_mono; [apply (recover_ok R vR Hr HgR R6 R7)|].
  { rewrite R1, R8 by done. destruct Hok as (A & B & C & D). split; [done|]. split; [by rewrite R2|]. split; [done|].
    intros i Hi. unfold home. rewrite R1, R2, R5. by apply D. }
  intros [] R' (c' & secs & h0 & -> & Hsl & Hh0 & Hr'). rewrite R1, Hredo in Hr'.
  exists (post_view vR (redo (lg_start l) d ++ [(lg_start l, h0)])). split; [done|]. split; [done|].
  assert (forall sec, disk (post_view vR (redo (lg_start l) d ++ [(lg_start l, h0)])) sec =
    zupd (replay (disk vR) (redo (lg_start l) d)) (lg_start l) h0 sec) as E by (intros sec; cbn; by rewrite replay_app).
  split; [by rewrite E, zupd_eq|]. intros sec [Hsr Hout]. rewrite E, zupd_ne by (destruct Hg; lia).
  destruct (decide (sec ∈ (redo (lg_start l) d).*1)) as [Hin|Hin].
  - apply list_elem_of_fmap in Hin as ([sec' dd] & -> & Hin). cbn [fst] in *.
    assert (NoDup (redo (lg_start l) d).*1) as Hnd.
    { destruct Hok as (_ & _ & Hnd & _). unfold redo. rewrite <- list_fmap_compose. exact Hnd. }
    by rewrite !(replay_eq _ _ sec' dd).
  - rewrite !replay_ne; [by apply R8|..]; intros x Hx Ex; apply Hin, list_elem_of_fmap; by exists x.
Qed.

(** An empty header: nothing is redone. *)
Lemma redo_empty start d : head_n (d start) = 0 -> redo start d = [].
Proof. intros Hn. unfold redo. by rewrite Hn. Qed.

Lemma empty_head_ok l v hb : log_geom l v -> head_n hb = 0 -> disk_head_ok l v hb.
Proof.
  intros Hg Hn. unfold disk_head_ok. rewrite Hn. split; [unfold LOGSIZE; lia|]. split; [destruct Hg; lia|].
  split; [apply NoDup_nil_2|lia].
Qed.

(** The header that commit writes describes the installs. *)
Lemma commit_head l v d : bc_rep (lg_cache l) v -> trans l v -> handles v = ∅ ->
  let h := put_head (content v (lg_start l)) (lh_n l) (lh_sector l) in
  d (lg_start l) = h -> (forall i, 0 <= i < lg_size l - 1 -> d (lg_start l + i + 1) = disk v (lg_start l + i + 1)) ->
  disk_head_ok l v h /\ redo (lg_start l) d = installs l v (lh_n l).
Proof.
  intros Hr Ht Hh h Hd Hdl. destruct (id Ht) as [Hg (Hn & Hn2 & Hnd & Hhome) Hlog Hdi He].
  assert (0 <= lg_start l < nsect v) as Hs by (destruct Hg; lia).
  destruct (head_put (content v (lg_start l)) (lh_n l) (lh_sector l) Hn) as [Hhn Hhs]; [apply (bc_block _ _ _ Hr Hs)|]. fold h in Hhn, Hhs.
  assert (forall i, 0 <= i < lh_n l -> exists sec, zget (lh_sector l) i = Some sec /\ head_sector h i = sec /\ home l v sec) as Hsec.
  { intros i Hi. destruct (zget_in (lh_sector l) i) as [sec Hz]; [rewrite (lgm_arr l v Hg); lia|].
    assert (home l v sec) as Hho by (by apply (Hhome i)). exists sec. split; [done|]. split; [|done].
    apply Hhs; [done|done|]. destruct Hho as [Hho _]. destruct Hg. lia. }
  split.
  - split; [by rewrite Hhn|]. split; [by rewrite Hhn|]. rewrite Hhn. split.
    + replace (head_sector h <$> seqZ 0 (lh_n l)) with (take (Z.to_nat (lh_n l)) (lh_sector l)); [done|].
      apply take_head; [rewrite (lgm_arr l v Hg); lia|]. intros i Hi. destruct (Hsec i Hi) as (sec & Hz & <- & _). done.
    + intros i Hi. by destruct (Hsec i Hi) as (sec & _ & -> & Hho).
  - unfold redo, installs. rewrite Hd, Hhn. apply list_fmap_ext. intros k i Hi. apply lookup_seqZ in Hi as [-> Hi].
    destruct (Hsec (0 + Z.of_nat k) ltac:(lia)) as (sec & Hz & Hz' & _). rewrite Hz, Hz'. cbn [default]. f_equal.
    rewrite Hdl by lia. symmetry. apply (bc_clean _ _ _ Hr); [destruct Hg; lia|by rewrite Hh|].
    replace (lg_start l + (0 + Z.of_nat k) + 1) with (lg_start l + (Z.of_nat k + 1)) by lia. apply log_sector_clean; [done|lia].
Qed.

Lemma replay_installs l v w sec : bc_rep (lg_cache l) v -> trans l v -> handles v = ∅ -> home l v sec ->
  (forall x, x ∈ w -> x.1 <> sec \/ x ∈ installs l v (lh_n l)) ->
  replay (replay (disk v) w) (installs l v (lh_n l)) sec = content v sec.
Proof.
  intros Hr Ht Hh Hho Hw. destruct (installed l v sec Hr Ht Hh Hho) as [[Hin Hi]|[Hin Hd]].
  - apply replay_eq; [|done]. destruct (t_head l v Ht) as (Hn & _ & Hnd & _).
    rewrite installs_sectors by (rewrite (lgm_arr l v (t_geom l v Ht)); lia). done.
  - assert (forall x, x ∈ installs l v (lh_n l) -> x.1 <> sec) as Hne
      by (intros x Hx E; apply Hin, list_elem_of_fmap; by exists x).
    rewrite !replay_ne; [done| |done]. intros x Hx. destruct (Hw x Hx) as [?|Hx']; [done|by apply Hne].
Qed.

(** After any number of the writes of a commit. *)
Lemma crash_ok l v k R vR :
  bc_rep (lg_cache l) v -> trans l v -> handles v = ∅ ->
  restarted l v (replay (disk v) (take k (commit_writes l v))) R vR ->
  wp recover_from_log (fun _ R' => exists vR', bc_rep (lg_cache R') vR' /\ lh_n R' = 0 /\
    head_n (disk vR' (lg_start l)) = 0 /\
    ((forall sec, home l v sec -> disk vR' sec = disk v sec) \/
     (forall sec, home l v sec -> disk vR' sec = content v sec))) R.
Proof.
  intros Hr Ht Hh HR. destruct (id Ht) as [Hg Hok Hlog Hdi He]. unfold commit_writes in HR.
  set (h := put_head (content v (lg_start l)) (lh_n l) (lh_sector l)) in *. set (h0 := put_head h 0 _) in *.
  set (ins := installs l v (lh_n l)) in *. set (d := replay _ _) in *.
  assert (0 <= lg_start l < nsect v) as Hs by (destruct Hg; lia).
  assert (forall x, x ∈ ins -> home l v x.1) as Hins by (intros x; by apply installs_home).
  assert (forall x i, x ∈ ins -> 0 <= i < lg_size l -> x.1 <> lg_start l + i) as Hlogne
    by (intros x i [_ Hx]%Hins Hi; lia).
  assert (head_n h0 = 0) as Hh0.
  { apply head_put; [unfold LOGSIZE; lia|]. unfold h. rewrite zlen_put_head. apply (bc_block _ _ _ Hr Hs). }
  destruct k as [|k]; [|destruct (decide (k <= length ins)%nat) as [Hk|Hk]].
  - eapply wp_mono; [apply (recover_restarted l v d R vR Hg HR), empty_head_ok; done|].
    intros [] R' (vR' & A & B & C & D). exists vR'. split; [done|]. split; [done|]. split; [done|]. left.
    intros sec Hsec. rewrite D by done. by rewrite redo_empty.
  - assert (d = replay (disk v) ((lg_start l, h) :: take k ins)) as Ed by (unfold d; cbn [take]; by rewrite take_app_le).
    assert (forall x, x ∈ take k ins -> x ∈ ins) as Htk by (intros x Hx; by eapply elem_of_take in Hx as (?&?&?); apply list_elem_of_lookup; eexists).
    assert (d (lg_start l) = h) as Hd0.
    { rewrite Ed. cbn. change (foldl _ (zupd (disk v) (lg_start l) h) (take k ins)) with (replay (zupd (disk v) (lg_start l) h) (take k ins)). rewrite replay_ne; [by rewrite zupd_eq|].
      intros x Hx. rewrite <- (Z.add_0_r (lg_start l)). apply Hlogne; [by apply Htk|destruct Hg; lia]. }
    assert (forall i, 0 <= i < lg_size l - 1 -> d (lg_start l + i + 1) = disk v (lg_start l + i + 1)) as Hdl.
    { intros i Hi. rewrite Ed. apply replay_ne. intros x Hx. apply elem_of_cons in Hx as [->|Hx]; [cbn; lia|].
      replace (lg_start l + i + 1) with (lg_start l + (i + 1)) by lia. apply Hlogne; [by apply Htk|lia]. }
    destruct (commit_head l v d Hr Ht Hh Hd0 Hdl) as [Hhok Hredo].
    eapply wp_mono; [apply (recover_restarted l v d R vR Hg HR); by rewrite Hd0|].
    intros [] R' (vR' & A & B & C & D). exists vR'. split; [done|]. split; [done|]. split; [done|]. right.
    intros sec Hsec. rewrite D, Hredo, Ed by done. apply replay_installs; try done.
    intros x Hx. apply elem_of_cons in Hx as [->|Hx]; [left; cbn; destruct Hsec, Hg; lia|right; by apply Htk].
  - assert (d = replay (disk v) ((lg_start l, h) :: ins ++ [(lg_start l, h0)])) as Ed
      by (unfold d; cbn [take]; rewrite take_ge; [done|rewrite length_app; cbn; lia]).
    assert (d = zupd (replay (replay (disk v) [(lg_start l, h)]) ins) (lg_start l) h0) as Ed'
      by (rewrite Ed; unfold replay; cbn; by rewrite foldl_app).
    assert (head_n (d (lg_start l)) = 0) as Hd0 by (rewrite Ed', zupd_eq; done).
    eapply wp_mono; [apply (recover_restarted l v d R vR Hg HR), empty_head_ok; done|].
    intros [] R' (vR' & A & B & C & D). exists vR'. split; [done|]. split; [done|]. split; [done|]. right.
    intros sec Hsec. rewrite D, redo_empty by done. change (replay d [] sec) with (d sec). rewrite Ed', zupd_ne by (destruct Hsec, Hg; lia).
    apply replay_installs; try done. intros x Hx%list_elem_of_singleton. left. subst. cbn. destruct Hsec, Hg. lia.
Qed.

(** ** log_write *)

Lemma log_slot_ok secs sec k : forall i, 0 <= i ->
  let r := log_slot secs sec k i in
  i <= r <= i + Z.of_nat k /\ (r < i + Z.of_nat k -> zget secs r = Some sec) /\
  forall j, i <= j < r -> zget secs j <> Some sec.
Proof.
  induction k as [|k IH]; intros i Hi; cbn [log_slot]; cbv zeta.
  - split; [lia|]. split; [lia|]. lia.
  - case_decide as E; [split; [lia|]; split; [done|lia]|].
    destruct (IH (i + 1) ltac:(lia)) as (H1 & H2 & H3). cbv zeta in *. split; [lia|]. split; [intros; apply H2; lia|].
    intros j Hj. destruct (decide (j = i)) as [->|]; [done|]. apply H3. lia.
Qed.

(** The header after logging [sec]. *)
Lemma log_slot_head l v sec : log_geom l v -> head_ok l v -> home l v sec -> lh_n l < LOGSIZE -> lh_n l < lg_size l - 1 ->
  let i := log_slot (lh_sector l) sec (Z.to_nat (lh_n l)) 0 in
  let n' := if i =? lh_n l then lh_n l + 1 else lh_n l in
  0 <= i <= lh_n l /\ i < n' /\
  head_ok (with_head l n' (zset (lh_sector l) i sec) (lg_cache l)) v /\
  (list_to_set (take (Z.to_nat n') (zset (lh_sector l) i sec)) : gset Z) =
    {[sec]} ∪ list_to_set (take (Z.to_nat (lh_n l)) (lh_sector l)) /\
  (forall j s, 0 <= j < n' -> zget (zset (lh_sector l) i sec) j = Some s ->
     (j = i /\ s = sec) \/ (j <> i /\ s <> sec /\ j < lh_n l /\ zget (lh_sector l) j = Some s)).
Proof.
  intros Hg (Hn & Hn2 & Hnd & Hhome) Hho Hn3 Hn4 i n'.
  destruct (log_slot_ok (lh_sector l) sec (Z.to_nat (lh_n l)) 0 ltac:(lia)) as (Hi & Heq & Hne). fold i in Hi, Heq, Hne.
  rewrite Z.add_0_l, Z2Nat.id in Hi, Heq by lia. pose proof (lgm_arr l v Hg) as Harr. unfold LOGSIZE in *.
  assert (forall j s, 0 <= j < n' -> zget (zset (lh_sector l) i sec) j = Some s ->
     (j = i /\ s = sec) \/ (j <> i /\ s <> sec /\ j < lh_n l /\ zget (lh_sector l) j = Some s)) as Hget.
  { intros j s Hj. destruct (decide (j = i)) as [->|Hji].
    - rewrite zget_zset_eq by lia. intros [= <-]. by left.
    - rewrite zget_zset_ne by done. intros Hs. right. split; [done|].
      assert (j < lh_n l) as Hjn by (unfold n' in Hj; destruct (Z.eqb_spec i (lh_n l)); lia). split; [|done].
      intros ->. destruct (decide (j < i)); [by apply (Hne j); [lia|]|].
      assert (zget (lh_sector l) i = Some sec) as Hs' by (apply Heq; lia).
      rewrite zget_nat in Hs, Hs' by lia.
      assert (Z.to_nat j = Z.to_nat i) as E; [|lia].
      eapply (NoDup_lookup _ _ _ sec Hnd); rewrite lookup_take_lt by lia; done. }
  assert (i < n' /\ 0 <= n' <= 10 /\ n' <= lg_size l - 1) as (Hin & Hn' & Hn'2)
    by (unfold n'; destruct (Z.eqb_spec i (lh_n l)); lia).
  assert (zlen (zset (lh_sector l) i sec) = 10) as Hzl by (rewrite zlen_zset; done).
  assert (forall k s, take (Z.to_nat n') (zset (lh_sector l) i sec) !! k = Some s ->
    0 <= Z.of_nat k < n' /\ zget (zset (lh_sector l) i sec) (Z.of_nat k) = Some s) as Htk.
  { intros k s Hk. apply lookup_take_Some in Hk as [Hk Hkn]. split; [lia|]. by rewrite zget_of_nat. }
  split; [lia|]. split; [done|]. split; [|split; [|done]].
  - split; [exact Hn'|]. split; [exact Hn'2|]. split.
    + apply NoDup_alt. intros k1 k2 s H1 H2. apply Htk in H1 as [Hr1 H1], H2 as [Hr2 H2].
      destruct (Hget _ _ Hr1 H1) as [[E1 ->]|(E1 & N1 & L1 & G1)], (Hget _ _ Hr2 H2) as [[E2 E3]|(E2 & N2 & L2 & G2)]; try done; [lia|].
      rewrite zget_of_nat in G1, G2.
      eapply (NoDup_lookup _ _ _ s Hnd); rewrite lookup_take_lt by lia; done.
    + intros j s Hj Hs. destruct (Hget j s Hj Hs) as [[_ ->]|(_ & _ & Hjn & Hs')]; [done|]. apply (Hhome j s); [lia|done].
  - apply set_eq. intros s. rewrite elem_of_union, elem_of_singleton, !elem_of_list_to_set, !list_elem_of_lookup. split.
    + intros [k Hk]. apply Htk in Hk as [Hr Hk]. destruct (Hget _ _ Hr Hk) as [[_ ->]|(_ & _ & Hjn & Hs')]; [by left|right].
      exists k. rewrite zget_of_nat in Hs'. by rewrite lookup_take_lt by lia.
    + assert (exists k, take (Z.to_nat n') (zset (lh_sector l) i sec) !! k = Some sec) as Hsec.
      { exists (Z.to_nat i). rewrite lookup_take_lt by lia. pose proof (zget_zset_eq (lh_sector l) i sec ltac:(lia)) as Hz. by rewrite zget_nat in Hz by lia. }
      intros [->|[k Hk]]; [done|]. destruct (decide (s = sec)) as [->|Hss]; [done|]. apply lookup_take_Some in Hk as [Hk Hkn].
      exists k. rewrite lookup_take_lt by (unfold n' in *; destruct (Z.eqb_spec i (lh_n l)); lia).
      assert (Z.of_nat k <> i) as Hki.
      { intros E. assert (zget (lh_sector l) i = Some sec) as Hz by (apply Heq; lia).
        rewrite <- E, zget_of_nat in Hz. congruence. }
      pose proof (zget_zset_ne (lh_sector l) i (Z.of_nat k) sec ltac:(lia)) as Hz. rewrite !zget_of_nat in Hz. by rewrite Hz.
Qed.

(** The view after logging the held sector [sec] in slot [i]. *)
Definition logged_view l (i sec : Z) v : bspec := pin sec (wr (lg_start l + i + 1) (content v sec) v).

Lemma trans_logged l v sec b c' :
  bc_rep (lg_cache l) v -> trans l v -> handles v !! sec = Some b -> home l v sec ->
  lh_n l < LOGSIZE -> lh_n l < lg_size l - 1 ->
  (forall i, 0 <= i < lg_size l -> handles v !! (lg_start l + i) = None) ->
  let i := log_slot (lh_sector l) sec (Z.to_nat (lh_n l)) 0 in
  let n' := if i =? lh_n l then lh_n l + 1 else lh_n l in
  let l' := with_head l n' (zset (lh_sector l) i sec) c' in
  trans l' (logged_view l i sec v) /\
  disk (logged_view l i sec v) (lg_start l + i + 1) = content (logged_view l i sec v) sec.
Proof.
  intros Hr Ht Hb Hho Hn Hn2 Hfree i n' l'. destruct (id Ht) as [Hg Hok Hlog Hd He].
  destruct (log_slot_head l v sec Hg Hok Hho Hn Hn2) as (Hi & Hin & Hok' & Hset & Hget). fold i n' in Hi, Hin, Hok', Hset, Hget.
  assert (i < lg_size l - 1) as Hi2 by lia. set (ls := lg_start l + i + 1) in *.
  assert (ls ∉ dirty v) as Hlsd by (replace ls with (lg_start l + (i + 1)) by lia; apply log_sector_clean; [done|lia]).
  assert (sec <> ls) as Hne by (destruct Hho; lia).
  split; [split|].
  - destruct Hg. split; cbn; try done. by rewrite zlen_zset.
  - exact Hok'.
  - cbn [l' with_head lh_n lh_sector lg_start]. intros j s Hj Hs Hnh. cbn in Hnh. cbn.
    destruct (Hget j s Hj Hs) as [[-> ->]|(Hji & Hss & Hjn & Hs')]; [congruence|].
    assert (home l v s) as Hhs by (destruct Hok as (_ & _ & _ & Hh); apply (Hh j s); [lia|done]).
    rewrite !zupd_ne by (destruct Hhs; lia). apply (Hlog j s); [lia|done|done].
  - cbn. rewrite Hset, <- Hd. clear -Hlsd. set_solver.
  - cbn. rewrite zupd_ne by lia. done.
  - cbn. by rewrite zupd_eq, zupd_ne by done.
Qed.

Lemma log_write_ok l v sec b :
  bc_rep (lg_cache l) v -> trans l v -> lg_busy l = true -> handles v !! sec = Some b -> home l v sec ->
  lh_n l < LOGSIZE -> lh_n l < lg_size l - 1 ->
  (forall i, 0 <= i < lg_size l -> handles v !! (lg_start l + i) = None) ->
  Z.of_nat (size (in_use v)) < 10 ->
  let i := log_slot (lh_sector l) sec (Z.to_nat (lh_n l)) 0 in
  let n' := if i =? lh_n l then lh_n l + 1 else lh_n l in
  wp (log_write b) (fun _ l' => exists c', l' = with_head l n' (zset (lh_sector l) i sec) c' /\
    bc_rep c' (logged_view l i sec v)) l.
Proof.
  intros Hr Ht Hbusy Hb Hho Hn Hn2 Hfree Hroom i n'. destruct (id Ht) as [Hg Hok Hlog Hd He].
  destruct (log_slot_head l v sec Hg Hok Hho Hn Hn2) as (Hi & Hin & _). fold i n' in Hi, Hin.
  set (ls := lg_start l + i + 1) in *. assert (0 <= ls < nsect v) as Hls by (destruct Hg; lia).
  assert (handles v !! ls = None) as Hnl by (replace ls with (lg_start l + (i + 1)) by lia; apply Hfree; lia).
  assert (sec <> ls) as Hne by (destruct Hho; lia).
  assert (0 <= sec < nsect v) as Hsr by apply Hho.
  on_cache_of l. unfold log_write. apply wp_bind, wp_get. log_fields l (lg_cache l).
  rewrite (proj2 (Z.leb_gt LOGSIZE (lh_n l))), (proj2 (Z.leb_gt (lg_size l - 1) (lh_n l))), Hbusy by lia. cbn [orb negb].
  apply wp_cache_step. eapply ok_wp; [exact (bc_sector_ok _ _ _ _ Hr Hb)|]. cbv zeta. fold i ls.
  apply wp_bind. unfold set_lh_sector. apply wp_bind, wp_get. log_fields l (lg_cache l).
  rewrite (lgm_arr l v Hg), (proj2 (Z.leb_le 0 i)), (proj2 (Z.ltb_lt i LOGSIZE)) by lia. cbn [andb]. apply wp_put.
  set (l1 := with_head l (lh_n l) (zset (lh_sector l) i sec) (lg_cache l)). change (Log _ _ _ _ _ _ _ _ _) with (with_cache l1 (lg_cache l)).
  apply wp_cache_step. eapply ok_wp; [exact (bc_dev_ok _ _ _ _ Hr Hb)|].
  apply wp_cache_step. eapply wp_mono; [apply (bc_read_ok _ v ls Hr Hls Hnl); by left|]. intros h c1 Hr1.
  assert (handles (hold ls h v) !! ls = Some h) as Hhl by apply lookup_insert_eq.
  assert (handles (hold ls h v) !! sec = Some b) as Hhs by (cbn; by rewrite lookup_insert_ne).
  apply wp_cache_step. eapply ok_wp; [exact (bc_data_ok _ _ _ _ Hr1 Hhs)|]. cbn [content hold].
  apply wp_cache_step. eapply wp_mono; [apply (bc_store_ok _ _ ls h _ Hr1 Hhl), (bc_block _ _ _ Hr Hsr)|]. intros [] c2 Hr2.
  apply wp_cache_step. eapply wp_mono; [exact (bc_write_ok _ _ ls h Hr2 Hhl)|]. intros [] c3 Hr3.
  apply wp_cache_step. eapply wp_mono; [apply (bc_release_ok _ _ ls h Hr3 Hhl); right; cbn; by rewrite !zupd_eq|].
  intros [] c4 Hr4. rewrite write_view in Hr4 by done.
  apply wp_bind. apply wp_when; intros Hin'; [apply wp_modify|]; zbool.
  - change (Log _ _ _ _ _ _ _ _ _) with (with_cache (with_head l (lh_n l + 1) (zset (lh_sector l) i sec) c4) c4).
    apply wp_cache_last. eapply wp_mono; [apply (bc_pin_ok _ _ sec b Hr4); done|]. intros [] c5 Hr5. exists c5.
    split; [|exact Hr5]. unfold n'. by rewrite Hin', Z.eqb_refl.
  - apply wp_cache_last. eapply wp_mono; [apply (bc_pin_ok _ _ sec b Hr4); done|]. intros [] c5 Hr5. exists c5.
    split; [|exact Hr5]. unfold n'. by rewrite (proj2 (Z.eqb_neq _ _)).
Qed.

(** ** Claims *)

(** After commit_trans the home sectors are on the disk what they were in the
    cache. *)
Lemma commit_done l v :
  bc_rep (lg_cache l) v -> trans l v -> handles v = ∅ -> 0 < lh_n l < 10 -> lg_lock l = false ->
  wp commit_trans (fun _ l' => exists c', l' = Log false (lg_start l) (lg_size l) false (lg_dev l) 0 (lh_sector l)
      (Datatypes.S (lg_wakeups l)) c' /\ bc_rep c' (post_view v (commit_writes l v)) /\ trans l' (post_view v (commit_writes l v)) /\
    forall sec, home l v sec -> disk (post_view v (commit_writes l v)) sec = content v sec /\
      content (post_view v (commit_writes l v)) sec = content v sec) l.
Proof.
  intros Hr Ht Hh Hn Hlk. destruct (id Ht) as [Hg Hok Hlog Hd He].
  assert (0 <= lg_start l < nsect v) as Hs by (destruct Hg; lia).
  eapply wp_mono; [by apply (commit_ok l v)|]. intros [] l' (c' & -> & Hr').
  exists c'. split; [done|]. split; [exact Hr'|].
  set (h0 := put_head (put_head (content v (lg_start l)) (lh_n l) (lh_sector l)) 0 (lh_sector l)).
  assert (forall f sec, replay f (commit_writes l v) sec =
    zupd (replay (zupd f (lg_start l) (put_head (content v (lg_start l)) (lh_n l) (lh_sector l))) (installs l v (lh_n l))) (lg_start l) h0 sec) as Erep.
  { intros f sec. unfold commit_writes, replay. cbn. by rewrite foldl_app. }
  assert (head_n h0 = 0) as Hh0.
  { apply head_put; [unfold LOGSIZE; lia|]. rewrite zlen_put_head. apply (bc_block _ _ _ Hr Hs). }
  split.
  - destruct Hg. split; cbn; try done.
    + split; [unfold LOGSIZE; cbn; lia|]. split; [cbn; lia|]. split; [apply NoDup_nil_2|cbn; lia].
    + lia.
    + rewrite Hd, fmap_app, installs_sectors by (unfold LOGSIZE in *; lia). clear. set_solver.
    + change (head_n (replay (disk v) (commit_writes l v) (lg_start l)) = 0). by rewrite Erep, zupd_eq.
  - intros sec Hsec. pose proof Hsec as [_ Hout]. cbn [disk content post_view]. rewrite !Erep, !zupd_ne by (destruct Hg; lia).
    assert (zupd (disk v) (lg_start l) (put_head (content v (lg_start l)) (lh_n l) (lh_sector l)) =
      replay (disk v) [(lg_start l, put_head (content v (lg_start l)) (lh_n l) (lh_sector l))]) as -> by done.
    rewrite replay_installs; try done; [|intros x ->%list_elem_of_singleton; left; cbn; destruct Hg; lia].
    split; [done|]. destruct (installed l v sec Hr Ht Hh Hsec) as [[Hin Hi]|[Hin _]].
    + apply replay_eq; [|done]. destruct Hok as (Hn' & _ & Hnd & _).
      rewrite installs_sectors by (rewrite (lgm_arr l v Hg); lia). done.
    + rewrite replay_ne; [by rewrite zupd_ne by (destruct Hg; lia)|].
      intros x Hx E. apply Hin, list_elem_of_fmap. by exists x.
Qed.

(** C1: commit_trans is atomic. It writes the home sectors so that the disk
    holds the contents the transaction left in the cache, clears the log and
    ends the transaction; and if the machine stops after any number [k] of
    the disk writes it makes and restarts, recover_from_log leaves either every
    sector outside the log as it was before the transaction, or every one as
    the transaction left it, with an empty log. *)
Theorem commit_crash_atomic l v :
  bc_rep (lg_cache l) v -> trans l v -> handles v = ∅ -> 0 < lh_n l < 10 -> lg_lock l = false ->
  wp commit_trans (fun _ l' => exists v' w,
    bc_rep (lg_cache l') v' /\ trace v' = trace v ++ w /\ trans l' v' /\ lh_n l' = 0 /\ lg_busy l' = false /\
    (forall sec, home l v sec -> disk v' sec = content v sec /\ content v' sec = content v sec) /\
    forall k R vR, restarted l v (replay (disk v) (take k w)) R vR ->
      wp recover_from_log (fun _ R' => exists vR', bc_rep (lg_cache R') vR' /\ lh_n R' = 0 /\
        head_n (disk vR' (lg_start l)) = 0 /\
        ((forall sec, home l v sec -> disk vR' sec = disk v sec) \/
         (forall sec, home l v sec -> disk vR' sec = content v sec))) R) l.
Proof.
  intros Hr Ht Hh Hn Hlk. eapply wp_mono; [by apply (commit_done l v)|]. intros [] l' (c' & -> & Hr' & Ht' & Hc).
  exists (post_view v (commit_writes l v)), (commit_writes l v). split; [exact Hr'|]. split; [done|]. split; [exact Ht'|].
  split; [done|]. split; [done|]. split; [exact Hc|]. intros k R vR HR. by apply (crash_ok l v k R vR).
Qed.

(** C26: log_write. Inside a transaction with room for one more block it
    appends the held block to the log, or overwrites the slot of a sector
    logged before (absorption), pins it in the cache and touches neither the
    header nor any home sector on the disk: a crash before the commit still
    recovers the old state. *)
Theorem log_write_spec l v sec b :
  bc_rep (lg_cache l) v -> trans l v -> lg_busy l = true -> handles v !! sec = Some b -> home l v sec ->
  lh_n l < LOGSIZE -> lh_n l < lg_size l - 1 ->
  (forall i, 0 <= i < lg_size l -> handles v !! (lg_start l + i) = None) ->
  Z.of_nat (size (in_use v)) < 10 ->
  wp (log_write b) (fun _ l' => exists v' i,
    bc_rep (lg_cache l') v' /\ trans l' v' /\ handles v' = handles v /\ dirty v' = {[sec]} ∪ dirty v /\
    zget (lh_sector l') i = Some sec /\ 0 <= i < lh_n l' /\ lh_n l' <= lh_n l + 1 /\
    disk v' (lg_start l + i + 1) = content v sec /\
    (forall s, s <> lg_start l + i + 1 -> disk v' s = disk v s /\ content v' s = content v s)) l.
Proof.
  intros Hr Ht Hbusy Hb Hho Hn Hn2 Hfree Hroom.
  eapply wp_mono; [by apply (log_write_ok l v sec b)|]. intros [] l' (c' & -> & Hr').
  set (i := log_slot (lh_sector l) sec (Z.to_nat (lh_n l)) 0) in *. destruct (id Ht) as [Hg Hok _ _ _].
  destruct (log_slot_head l v sec Hg Hok Hho Hn Hn2) as (Hi & Hin & _). fold i in Hi, Hin.
  destruct (trans_logged l v sec b c' Hr Ht Hb Hho Hn Hn2 Hfree) as [Ht' _]. fold i in Ht'.
  assert (sec <> lg_start l + i + 1) by (destruct Hho; lia).
  exists (logged_view l i sec v), i. split; [exact Hr'|]. split; [exact Ht'|]. split; [done|].
  assert (lg_start l + (i + 1) ∉ dirty v) as Hnd by (apply log_sector_clean; [done|lia]).
  split; [cbn; replace (lg_start l + (i + 1)) with (lg_start l + i + 1) in Hnd by lia; clear -Hnd; set_solver|].
  split; [cbn; apply zget_zset_eq; rewrite (lgm_arr l v Hg); lia|].
  split; [cbn; destruct (Z.eqb_spec i (lh_n l)); lia|]. split; [cbn; destruct (Z.eqb_spec i (lh_n l)); lia|].
  split; [cbn; by rewrite zupd_eq|]. intros s Hs. cbn. by rewrite !zupd_ne.
Qed.

(** Log_write's guards. A transaction that has used up the log, or a
    write outside of a transaction, panics before touching the disk. *)
Theorem log_write_errors l b :
  (LOGSIZE <= lh_n l \/ lg_size l - 1 <= lh_n l -> log_write b l = Panic "too big a transaction") /\
  (lh_n l < LOGSIZE -> lh_n l < lg_size l - 1 -> lg_busy l = false -> log_write b l = Panic "write outside of trans").
Proof.
  unfold log_write, bind, get. split.
  - intros [Hn|Hn]; [rewrite (proj2 (Z.leb_le _ _) Hn)|rewrite (proj2 (Z.leb_le _ _) Hn), orb_true_r]; done.
  - intros H1 H2 ->. rewrite (proj2 (Z.leb_gt _ _) H1), (proj2 (Z.leb_gt _ _) H2). done.
Qed.

(** Transactions exclude each other. begin_trans enters a free log and
    makes it busy; while a transaction is running a second begin_trans puts its
    caller to sleep without changing the log. *)
Theorem begin_trans_excludes l :
  lg_lock l = false ->
  begin_trans l = (if lg_busy l then Sleep l else
    Ok tt (Log false (lg_start l) (lg_size l) true (lg_dev l) (lh_n l) (lh_sector l) (lg_wakeups l) (lg_cache l))).
Proof.
  intros Hl. unfold begin_trans, bind, lock_log, get, unlock_log, set_log_busy, modify. rewrite Hl. cbn.
  destruct (lg_busy l) eqn:E; [|done]. f_equal. destruct l. cbn in *. congruence.
Qed.

End LogSpec.
