(* ===== verification/LogInst.v ===== *)
(** * The log over the buffer cache of bio.c

    An eight-sector disk with a four-sector log, run by the real cache: the
    instance on which the log's theorems are exercised. *)

From S2P Require Import Prelude BlockCache Bio BioSpec Log LogSpec.

Definition demo_disk_cache : bcache := boot_cache (replicate 4096 0).

Definition demo_disk_view : bspec := boot_view (replicate 4096 0).

Lemma demo_disk_ok : rep demo_disk_cache demo_disk_view.
Proof. apply boot_cache_ok. Qed.

(** The log in sectors 4..7, inside an empty transaction. *)
Definition demo_log0 : log bcache := Log false 4 4 true ROOTDEV 0 (replicate 10 0) 0 demo_disk_cache.

Lemma demo_log0_trans : trans demo_log0 demo_disk_view.
Proof.
  split.
  - by split.
  - split; [by vm_compute|]. split; [by vm_compute|]. split; [apply NoDup_nil_2|]. cbn. lia.
  - cbn. lia.
  - reflexivity.
  - by vm_compute.
Qed.

Lemma demo_home : home demo_log0 demo_disk_view 2.
Proof. split; [by vm_compute|left; by vm_compute]. Qed.

(** Sector 2 is read, changed, logged and released. *)
Definition demo_log_held : Z * log bcache :=
  match on_cache (bread ROOTDEV 2) demo_log0 with Ok h l => (h, l) | _ => (0, demo_log0) end.

Lemma demo_log_held_ok : exists c,
  demo_log_held.2 = with_cache demo_log0 c /\ rep c (hold 2 demo_log_held.1 demo_disk_view).
Proof.
  assert (wp (on_cache (bread ROOTDEV 2)) (fun h l => exists c, l = with_cache demo_log0 c /\
    rep c (hold 2 h demo_disk_view)) demo_log0) as W.
  { apply (wp_cache_last _ _ demo_log0 demo_disk_cache). eapply wp_mono; [apply (bread_ok _ demo_disk_view 2 demo_disk_ok);
      [by vm_compute|reflexivity|left; by vm_compute]|]. intros h c Hr. exists c. split; [reflexivity|exact Hr]. }
  apply wp_ok in W as (h & l & Hl & Hr). unfold demo_log_held. rewrite Hl. exact Hr.
Qed.

Lemma demo_log_held_trans c h : trans (with_cache demo_log0 c) (hold 2 h demo_disk_view).
Proof.
  destruct demo_log0_trans as [[A B C D E F] [G1 [G2 [G3 G4]]] G H I].
  split; [by split| |cbn; lia|exact H|exact I]. split; [exact G1|]. split; [exact G2|]. split; [exact G3|]. cbn. lia.
Qed.

(** A transaction that fills sector 2 with fives. *)
Definition demo_change : M (log bcache) unit :=
  h <- on_cache (bread ROOTDEV 2) ;;
  on_cache (buf_store h (replicate 512 5)) ;;;
  log_write h ;;;
  on_cache (brelse h).

Definition demo_log1 : log bcache := match demo_change demo_log0 with Ok _ l => l | _ => demo_log0 end.

Lemma demo_log1_ok : exists v,
  bc_rep (lg_cache demo_log1) v /\ trans demo_log1 v /\ handles v = ∅ /\ lh_n demo_log1 = 1 /\ lg_lock demo_log1 = false.
Proof.
  assert (wp demo_change (fun _ l => exists v,
    bc_rep (lg_cache l) v /\ trans l v /\ handles v = ∅ /\ lh_n l = 1 /\ lg_lock l = false) demo_log0) as W.
  { unfold demo_change. apply (wp_cache_step _ _ _ demo_log0 demo_disk_cache).
    eapply wp_mono; [apply (bread_ok _ demo_disk_view 2 demo_disk_ok); [by vm_compute|reflexivity|left; by vm_compute]|].
    intros h c1 Hr1. set (v1 := hold 2 h demo_disk_view) in *.
    assert (handles v1 !! 2 = Some h) as Hh by apply lookup_insert_eq.
    apply wp_cache_step. eapply wp_mono; [apply (buf_store_ok _ _ 2 h (replicate 512 5) Hr1 Hh); reflexivity|].
    intros [] c2 Hr2. set (v2 := store 2 (replicate 512 5) v1) in *. set (l2 := with_cache demo_log0 c2).
    change (bc_rep (lg_cache l2) v2) in Hr2.
    assert (trans l2 v2) as Ht2.
    { destruct demo_log0_trans as [[A B C D E F] [G1 [G2 [G3 G4]]] G H I]. split; [by split| |cbn; lia|exact H|exact I].
      split; [exact G1|]. split; [exact G2|]. split; [exact G3|]. cbn. lia. }
    assert (home l2 v2 2) as Hho by exact demo_home.
    assert (forall i, 0 <= i < lg_size l2 -> handles v2 !! (lg_start l2 + i) = None) as Hfree
      by (intros i Hi; cbn in *; rewrite lookup_insert_ne by lia; reflexivity).
    apply wp_bind. eapply wp_mono; [apply (log_write_ok l2 v2 2 h Hr2 Ht2 eq_refl Hh Hho ltac:(by vm_compute) ltac:(by vm_compute) Hfree)|].
    { unfold in_use. cbn -[size]. rewrite dom_insert_L, dom_empty_L. by vm_compute. }
    intros [] l3 (c3 & -> & Hr3).
    destruct (trans_logged l2 v2 2 h c3 Hr2 Ht2 Hh Hho ltac:(by vm_compute) ltac:(by vm_compute) Hfree) as [Ht3 Hlog3].
    set (i := log_slot _ _ _ _) in *. set (v3 := logged_view l2 i 2 v2) in *.
    set (l3 := with_head _ _ _ c3) in *. change l3 with (with_cache l3 c3). apply wp_cache_last. eapply wp_mono; [apply (brelse_ok _ v3 2 h Hr3 Hh); left; cbn; set_solver|].
    intros [] c4 Hr4. exists (unhold 2 v3). split; [exact Hr4|]. split; [|split; [|by split]].
    - destruct Ht3 as [A B C D E]. split; [by destruct A|exact B| |exact D|exact E].
      cbn [lh_n lh_sector lg_start with_head] in *. intros j s Hj Hs Hn.
      change (0 <= j < 1) in Hj. assert (j = 0) as -> by lia. vm_compute in Hs. injection Hs as <-. exact Hlog3.
    - cbn. by rewrite delete_insert_id. }
  apply wp_ok in W as ([] & l & Hl & Hv). unfold demo_log1. rewrite Hl. exact Hv.
Qed.

Lemma commit_crash_atomic_witness :
  exists v, wp commit_trans (fun _ l' => exists v', bc_rep (lg_cache l') v' /\
    forall sec, home demo_log1 v sec -> disk v' sec = content v sec) demo_log1.
Proof.
  destruct demo_log1_ok as (v & Hr & Ht & Hh & Hn & Hl). exists v.
  eapply wp_mono; [apply (commit_crash_atomic demo_log1 v Hr Ht Hh); [rewrite Hn; lia|exact Hl]|].
  intros [] l' (v' & w & Hr' & _ & _ & _ & _ & Hd & _). exists v'. split; [exact Hr'|]. intros sec Hs. apply (Hd sec Hs).
Defined.

Lemma log_write_spec_witness :
  wp (log_write demo_log_held.1) (fun _ l' => exists i, zget (lh_sector l') i = Some 2) demo_log_held.2.
Proof.
  destruct demo_log_held_ok as (c & E & Hr). rewrite E. generalize dependent demo_log_held.1. intros h Hr.
  change (bc_rep (lg_cache (with_cache demo_log0 c)) (hold 2 h demo_disk_view)) in Hr.
  eapply wp_mono; [apply (log_write_spec (with_cache demo_log0 c) (hold 2 h demo_disk_view) 2 h Hr (demo_log_held_trans c h))|].
  - reflexivity.
  - apply lookup_insert_eq.
  - exact demo_home.
  - reflexivity.
  - reflexivity.
  - intros i Hi. cbn in *. rewrite lookup_insert_ne by lia. reflexivity.
  - unfold in_use. cbn -[size]. rewrite dom_insert_L, dom_empty_L. by vm_compute.
  - intros [] l' (v' & i & _ & _ & _ & _ & Hz & _). exists i. exact Hz.
Defined.

Lemma log_write_errors_witness :
  log_write 0 (Log false 4 4 false ROOTDEV 0 (replicate 10 0) 0 demo_disk_cache) = Panic "write outside of trans".
Proof. apply (proj2 (log_write_errors (Log false 4 4 false ROOTDEV 0 (replicate 10 0) 0 demo_disk_cache) 0)); by vm_compute. Defined.

Lemma begin_trans_excludes_witness : begin_trans demo_log0 = Sleep demo_log0.
Proof. rewrite (begin_trans_excludes demo_log0); reflexivity. Defined.
