(* ===== verification/Fs.v ===== *)
(** * fs.c: blocks, inodes, directories and path names

    The file system code over the log and any block cache.  A pointer to an
    in-memory inode is its index in icache.inode[], [NULL] is -1; the kernel
    memory that readi and writei copy to and from is a byte list.  The device
    switch (function pointers filled in at run time by the drivers) is a
    parameter. *)

From S2P Require Import Prelude CString BlockCache Log.

Definition NDIRECT : Z := 12.

Definition NINDIRECT : Z := 128.

Definition MAXFILE : Z := NDIRECT + NINDIRECT.

Definition NINODE : Z := 50.

Definition NDEV : Z := 10.

Definition ROOTINO : Z := 1.

Definition DIRSIZ : Z := 14.

Definition T_DIR : Z := 1.

Definition T_FILE : Z := 2.

Definition T_DEV : Z := 3.

Definition I_BUSY : Z := 1.

Definition I_VALID : Z := 2.

Definition NULL : Z := -1.

(** Inodes per block, the block of inode [i], bitmap bits per block, and the
    bitmap block of block [b]. *)
Definition IPB : Z := 8.

Definition IBLOCK (i : Z) : Z := i / IPB + 2.

Definition BPB : Z := 4096.

Definition BBLOCK (b ninodes : Z) : Z := b / BPB + ninodes / IPB + 3.

(** struct inode, the in-memory copy. *)
Record inode := Inode {
  i_dev : Z; i_inum : Z; i_ref : Z; i_flags : Z;
  i_type : Z; i_major : Z; i_minor : Z; i_nlink : Z; i_size : Z; i_addrs : list Z
}.

(** icache, and the log below it; [i_woken] records the wakeup(ip) calls. *)
Record fs (S : Type) := Fs {
  ic_lock : bool;
  inodes : list inode;
  i_woken : list Z;
  flog : log S
}.

Arguments Fs {S}.
Arguments ic_lock {S}.
Arguments inodes {S}.
Arguments i_woken {S}.
Arguments flog {S}.

(** ** On-disk inodes: 64 bytes each *)

Definition dinode_type (d : list Z) (off : Z) : Z := s16 (ld16 d off).

(** The fields of the on-disk inode at [off] into the in-memory one. *)
Definition read_dinode (d : list Z) (off : Z) (ip : inode) : inode :=
  Inode (i_dev ip) (i_inum ip) (i_ref ip) (i_flags ip)
    (s16 (ld16 d off)) (s16 (ld16 d (off + 2))) (s16 (ld16 d (off + 4))) (s16 (ld16 d (off + 6)))
    (ld32 d (off + 8)) (map (fun k => ld32 d (off + 12 + 4 * k)) (seqZ 0 13)).

Definition write_addrs (d : list Z) (off : Z) (addrs : list Z) : list Z :=
  foldl (fun d k => st32 d (off + 12 + 4 * k) (default 0 (zget addrs k))) d (seqZ 0 13).

Definition write_dinode (d : list Z) (off : Z) (ip : inode) : list Z :=
  let d := st16 d off (i_type ip) in
  let d := st16 d (off + 2) (i_major ip) in
  let d := st16 d (off + 4) (i_minor ip) in
  let d := st16 d (off + 6) (i_nlink ip) in
  let d := st32 d (off + 8) (i_size ip) in
  write_addrs d off (i_addrs ip).

(** Setters of struct inode. *)
Definition set_ref (r : Z) (ip : inode) : inode :=
  Inode (i_dev ip) (i_inum ip) r (i_flags ip) (i_type ip) (i_major ip) (i_minor ip) (i_nlink ip) (i_size ip) (i_addrs ip).

Definition set_iflags (f : Z) (ip : inode) : inode :=
  Inode (i_dev ip) (i_inum ip) (i_ref ip) f (i_type ip) (i_major ip) (i_minor ip) (i_nlink ip) (i_size ip) (i_addrs ip).

Definition set_itype (t : Z) (ip : inode) : inode :=
  Inode (i_dev ip) (i_inum ip) (i_ref ip) (i_flags ip) t (i_major ip) (i_minor ip) (i_nlink ip) (i_size ip) (i_addrs ip).

Definition set_nlink (n : Z) (ip : inode) : inode :=
  Inode (i_dev ip) (i_inum ip) (i_ref ip) (i_flags ip) (i_type ip) (i_major ip) (i_minor ip) (s16 n) (i_size ip) (i_addrs ip).

Definition set_isize (n : Z) (ip : inode) : inode :=
  Inode (i_dev ip) (i_inum ip) (i_ref ip) (i_flags ip) (i_type ip) (i_major ip) (i_minor ip) (i_nlink ip) n (i_addrs ip).

Definition set_addr (k a : Z) (ip : inode) : inode :=
  Inode (i_dev ip) (i_inum ip) (i_ref ip) (i_flags ip) (i_type ip) (i_major ip) (i_minor ip) (i_nlink ip) (i_size ip)
    (zset (i_addrs ip) k a).

(** ** Path elements *)

Definition SLASH : Z := 47.

Fixpoint skip_slashes (path : list Z) : list Z :=
  match path with
  | c :: p => if c =? SLASH then skip_slashes p else path
  | [] => []
  end.

(** The characters up to the next slash, and the rest. *)
Fixpoint span_elem (path : list Z) : list Z * list Z :=
  match path with
  | c :: p => if c =? SLASH then ([], path) else let '(e, r) := span_elem p in (c :: e, r)
  | [] => ([], [])
  end.

(** Copy the next path element into [name]; [None] if there is none. The
    path is a string without its NUL; [name] keeps what is not overwritten. *)
Definition skipelem (path name : list Z) : option (list Z * list Z) :=
  let path := skip_slashes path in
  match path with
  | [] => None
  | _ =>
      let '(s, path) := span_elem path in
      let name := if DIRSIZ <=? zlen s then splice name 0 (take (Z.to_nat DIRSIZ) s)
                  else splice name 0 (s ++ [0]) in
      Some (skip_slashes path, name)
  end.

(** Two buffers in one memory, for the string routines. *)
Definition two_bufs (s t : list Z) : mem := fun a => if a <? 65536 then ld8 s a else ld8 t (a - 65536).

Definition namecmp (s t : list Z) : Z := strncmp (two_bufs s t) 0 65536 (Z.to_nat DIRSIZ).

(** The bytes strncpy(de.name, name, DIRSIZ) leaves in de.name. *)
Definition copy_name (name : list Z) : list Z :=
  map (fun i => fst (strncpy (two_bufs name []) 65536 0 DIRSIZ) (65536 + i)) (seqZ 0 DIRSIZ).

Section FsOps.
Context {S : Type} `{BufCache S}.

(** devsw[major].read and .write, where the driver has set them. *)
Variable devsw_read : Z -> option (Z -> Z -> M (fs S) (list Z * Z)).
Variable devsw_write : Z -> option (Z -> list Z -> Z -> M (fs S) Z).

Definition on_log {A} (m : M (log S) A) : M (fs S) A :=
  zoom flog (fun l f => Fs (ic_lock f) (inodes f) (i_woken f) l) m.

Definition bread (dev b : Z) : M (fs S) Z := on_log (on_cache (bc_read dev b)).

Definition bdata (bp : Z) : M (fs S) (list Z) := on_log (on_cache (bc_data bp)).

Definition bstore (bp : Z) (d : list Z) : M (fs S) unit := on_log (on_cache (bc_store bp d)).

Definition brelse (bp : Z) : M (fs S) unit := on_log (on_cache (bc_release bp)).

Definition log_write_ (bp : Z) : M (fs S) unit := on_log (log_write bp).

Definition readsb_ (dev : Z) : M (fs S) superblock := on_log (on_cache (readsb dev)).

(** Zero a block. *)
Definition bzero (dev bno : Z) : M (fs S) unit :=
  bp <- bread dev bno ;;
  bstore bp (replicate 512 0) ;;;
  log_write_ bp ;;;
  brelse bp.

(** The first clear bit of a bitmap block among its first [n]. *)
Definition free_bit (d : list Z) (n : Z) : M (fs S) (option Z) :=
  find_ 0 (Z.to_nat n) (fun bi =>
    ret (if Z.land (ld8 d (bi / 8)) (Z.shiftl 1 (bi mod 8)) =? 0 then Some bi else None)).

(** Allocate a zeroed disk block. *)
Fixpoint balloc_from (fuel : nat) (dev : Z) (sb : superblock) (b : Z) : M (fs S) Z :=
  match fuel with
  | O => no_fuel
  | Datatypes.S f =>
      if b <? sb_size sb then
        bp <- bread dev (BBLOCK b (sb_ninodes sb)) ;;
        d <- bdata bp ;;
        r <- free_bit d (Z.min BPB (sb_size sb - b)) ;;
        match r with
        | Some bi =>
            bstore bp (st8 d (bi / 8) (Z.lor (ld8 d (bi / 8)) (Z.shiftl 1 (bi mod 8)))) ;;;
            log_write_ bp ;;;
            brelse bp ;;;
            bzero dev (b + bi) ;;;
            ret (b + bi)
        | None => brelse bp ;;; balloc_from f dev sb (b + BPB)
        end
      else panic "balloc: out of blocks"
  end.

Definition balloc (dev : Z) : M (fs S) Z :=
  sb <- readsb_ dev ;;
  balloc_from (Z.to_nat (sb_size sb / BPB) + 2) dev sb 0.

(** Free a disk block. *)
Definition bfree (dev b : Z) : M (fs S) unit :=
  sb <- readsb_ dev ;;
  bp <- bread dev (BBLOCK b (sb_ninodes sb)) ;;
  let bi := b mod BPB in
  let m := Z.shiftl 1 (bi mod 8) in
  d <- bdata bp ;;
  if Z.land (ld8 d (bi / 8)) m =? 0 then panic "freeing free block" else
  bstore bp (st8 d (bi / 8) (Z.land (ld8 d (bi / 8)) (Z.lnot m))) ;;;
  log_write_ bp ;;;
  brelse bp.

(** ** The inode cache *)

Definition lock_icache : M (fs S) unit := fun f =>
  if ic_lock f then Spin else Ok tt (Fs true (inodes f) (i_woken f) (flog f)).

Definition unlock_icache : M (fs S) unit := modify (fun f => Fs false (inodes f) (i_woken f) (flog f)).

Definition wakeup_inode (ip : Z) : M (fs S) unit :=
  modify (fun f => Fs (ic_lock f) (inodes f) (i_woken f ++ [ip]) (flog f)).

Definition get_inode (ip : Z) : M (fs S) inode := f <- get ;; from_opt (zget (inodes f) ip).

Definition upd_inode (ip : Z) (g : inode -> inode) : M (fs S) unit :=
  x <- get_inode ip ;;
  modify (fun f => Fs (ic_lock f) (zset (inodes f) ip (g x)) (i_woken f) (flog f)).

Definition iinit : M (fs S) unit := modify (fun f => Fs false (inodes f) (i_woken f) (flog f)).

(** The scan of iget: a cached entry, or the first empty slot. *)
Fixpoint iget_scan (l : list inode) (dev inum i empty : Z) : Z * Z :=
  match l with
  | [] => (NULL, empty)
  | ip :: l' =>
      if (0 <? i_ref ip) && (i_dev ip =? dev) && (i_inum ip =? inum) then (i, empty)
      else iget_scan l' dev inum (i + 1) (if (empty =? NULL) && (i_ref ip =? 0) then i else empty)
  end.

Definition iget (dev inum : Z) : M (fs S) Z :=
  lock_icache ;;;
  f <- get ;;
  let '(ip, empty) := iget_scan (inodes f) dev inum 0 NULL in
  if negb (ip =? NULL) then
    upd_inode ip (fun x => set_ref (i_ref x + 1) x) ;;;
    unlock_icache ;;;
    ret ip
  else
  if empty =? NULL then panic "iget: no inodes" else
  upd_inode empty (fun x =>
    Inode dev inum 1 0 (i_type x) (i_major x) (i_minor x) (i_nlink x) (i_size x) (i_addrs x)) ;;;
  unlock_icache ;;;
  ret empty.

Definition idup (ip : Z) : M (fs S) Z :=
  lock_icache ;;;
  upd_inode ip (fun x => set_ref (i_ref x + 1) x) ;;;
  unlock_icache ;;;
  ret ip.

(** Allocate a new inode with the given type on device dev. *)
Fixpoint ialloc_from (k : nat) (dev type inum : Z) : M (fs S) Z :=
  match k with
  | O => panic "ialloc: no inodes"
  | Datatypes.S k' =>
      bp <- bread dev (IBLOCK inum) ;;
      d <- bdata bp ;;
      let off := 64 * (inum mod IPB) in
      if dinode_type d off =? 0 then
        bstore bp (st16 (splice d off (replicate 64 0)) off type) ;;;
        log_write_ bp ;;;
        brelse bp ;;;
        iget dev inum
      else brelse bp ;;; ialloc_from k' dev type (inum + 1)
  end.

Definition ialloc (dev type : Z) : M (fs S) Z :=
  sb <- readsb_ dev ;;
  ialloc_from (Z.to_nat (sb_ninodes sb - 1)) dev type 1.

(** Copy a modified in-memory inode to disk. *)
Definition iupdate (ip : Z) : M (fs S) unit :=
  x <- get_inode ip ;;
  bp <- bread (i_dev x) (IBLOCK (i_inum x)) ;;
  d <- bdata bp ;;
  bstore bp (write_dinode d (64 * (i_inum x mod IPB)) x) ;;;
  log_write_ bp ;;;
  brelse bp.

Definition ilock (ip : Z) : M (fs S) unit :=
  if ip =? NULL then panic "ilock" else
  x <- get_inode ip ;;
  if i_ref x <? 1 then panic "ilock" else
  lock_icache ;;;
  x <- get_inode ip ;;
  if negb (Z.land (i_flags x) I_BUSY =? 0) then unlock_icache ;;; (fun f => Sleep f) else
  upd_inode ip (fun x => set_iflags (Z.lor (i_flags x) I_BUSY) x) ;;;
  unlock_icache ;;;
  when (Z.land (i_flags x) I_VALID =? 0)
    (bp <- bread (i_dev x) (IBLOCK (i_inum x)) ;;
     d <- bdata bp ;;
     upd_inode ip (read_dinode d (64 * (i_inum x mod IPB))) ;;;
     brelse bp ;;;
     upd_inode ip (fun x => set_iflags (Z.lor (i_flags x) I_VALID) x) ;;;
     x <- get_inode ip ;;
     when (i_type x =? 0) (panic "ilock: no type")).

Definition iunlock (ip : Z) : M (fs S) unit :=
  if ip =? NULL then panic "iunlock" else
  x <- get_inode ip ;;
  if (Z.land (i_flags x) I_BUSY =? 0) || (i_ref x <? 1) then panic "iunlock" else
  lock_icache ;;;
  upd_inode ip (fun x => set_iflags (Z.land (i_flags x) (Z.lnot I_BUSY)) x) ;;;
  wakeup_inode ip ;;;
  unlock_icache.

(** Discard the contents of an inode. *)
Definition itrunc (ip : Z) : M (fs S) unit :=
  for_ 0 (Z.to_nat NDIRECT) (fun i =>
    x <- get_inode ip ;;
    a <- from_opt (zget (i_addrs x) i) ;;
    when (negb (a =? 0)) (bfree (i_dev x) a ;;; upd_inode ip (set_addr i 0))) ;;;
  x <- get_inode ip ;;
  a <- from_opt (zget (i_addrs x) NDIRECT) ;;
  when (negb (a =? 0))
    (bp <- bread (i_dev x) a ;;
     for_ 0 (Z.to_nat NINDIRECT) (fun j =>
       d <- bdata bp ;;
       when (negb (ld32 d (4 * j) =? 0)) (bfree (i_dev x) (ld32 d (4 * j)))) ;;;
     brelse bp ;;;
     bfree (i_dev x) a ;;;
     upd_inode ip (set_addr NDIRECT 0)) ;;;
  upd_inode ip (set_isize 0) ;;;
  iupdate ip.

(** Drop a reference to an in-memory inode. *)
Definition iput (ip : Z) : M (fs S) unit :=
  lock_icache ;;;
  x <- get_inode ip ;;
  when ((i_ref x =? 1) && negb (Z.land (i_flags x) I_VALID =? 0) && (i_nlink x =? 0))
    ((if negb (Z.land (i_flags x) I_BUSY =? 0) then panic "iput busy" else ret tt) ;;;
     upd_inode ip (fun x => set_iflags (Z.lor (i_flags x) I_BUSY) x) ;;;
     unlock_icache ;;;
     itrunc ip ;;;
     upd_inode ip (set_itype 0) ;;;
     iupdate ip ;;;
     lock_icache ;;;
     upd_inode ip (set_iflags 0) ;;;
     wakeup_inode ip) ;;;
  upd_inode ip (fun x => set_ref (i_ref x - 1) x) ;;;
  unlock_icache.

Definition iunlockput (ip : Z) : M (fs S) unit := iunlock ip ;;; iput ip.

(** ** Inode content *)

(** The disk block address of the [bn]th block in inode [ip]; allocates one
    if there is none. *)
Definition bmap (ip bn : Z) : M (fs S) Z :=
  x <- get_inode ip ;;
  if bn <? NDIRECT then
    addr <- from_opt (zget (i_addrs x) bn) ;;
    if addr =? 0 then
      addr <- balloc (i_dev x) ;;
      upd_inode ip (set_addr bn addr) ;;;
      ret addr
    else ret addr
  else
  let bn := bn - NDIRECT in
  if bn <? NINDIRECT then
    addr <- from_opt (zget (i_addrs x) NDIRECT) ;;
    addr <- (if addr =? 0 then
               addr <- balloc (i_dev x) ;;
               upd_inode ip (set_addr NDIRECT addr) ;;;
               ret addr
             else ret addr) ;;
    bp <- bread (i_dev x) addr ;;
    d <- bdata bp ;;
    addr <- (if ld32 d (4 * bn) =? 0 then
               addr <- balloc (i_dev x) ;;
               bstore bp (st32 d (4 * bn) addr) ;;;
               log_write_ bp ;;;
               ret addr
             else ret (ld32 d (4 * bn))) ;;
    brelse bp ;;;
    ret addr
  else panic "bmap: out of range".

(** struct stat *)
Record stat := Stat { st_type : Z; st_dev : Z; st_ino : Z; st_nlink : Z; st_size : Z }.

Definition stati (ip : Z) : M (fs S) stat :=
  x <- get_inode ip ;;
  ret (Stat (i_type x) (i_dev x) (i_inum x) (i_nlink x) (i_size x)).

(** The copy loop of readi: [n - tot] bytes are left. *)
Fixpoint readi_loop (fuel : nat) (ip dev off n tot : Z) : M (fs S) (list Z) :=
  match fuel with
  | O => no_fuel
  | Datatypes.S f =>
      if tot <? n then
        a <- bmap ip (off / 512) ;;
        bp <- bread dev a ;;
        let m := Z.min (n - tot) (512 - off mod 512) in
        d <- bdata bp ;;
        brelse bp ;;;
        rest <- readi_loop f ip dev (u32 (off + m)) n (tot + m) ;;
        ret (bytes_at d (off mod 512) m ++ rest)
      else ret []
  end.

(** Bounds on the iterations of the copy loops: one per block touched. *)
Definition io_fuel (n : Z) : nat := Z.to_nat (n / 512) + 3.

(** Read data from inode: the bytes stored at dst, and the result. *)
Definition readi (ip off n : Z) : M (fs S) (list Z * Z) :=
  x <- get_inode ip ;;
  if i_type x =? T_DEV then
    if (i_major x <? 0) || (NDEV <=? i_major x) then ret ([], -1) else
    match devsw_read (i_major x) with
    | Some read => read ip n
    | None => ret ([], -1)
    end
  else
  if (i_size x <? off) || (u32 (off + n) <? off) then ret ([], -1) else
  let n := if i_size x <? u32 (off + n) then u32 (i_size x - off) else n in
  bs <- readi_loop (io_fuel n) ip (i_dev x) off n 0 ;;
  ret (bs, n).

Fixpoint writei_loop (fuel : nat) (ip dev : Z) (src : list Z) (off n tot : Z) : M (fs S) Z :=
  match fuel with
  | O => no_fuel
  | Datatypes.S f =>
      if tot <? n then
        a <- bmap ip (off / 512) ;;
        bp <- bread dev a ;;
        let m := Z.min (n - tot) (512 - off mod 512) in
        d <- bdata bp ;;
        bstore bp (splice d (off mod 512) (bytes_at src tot m)) ;;;
        log_write_ bp ;;;
        brelse bp ;;;
        writei_loop f ip dev src (u32 (off + m)) n (tot + m)
      else ret off
  end.

(** Write data to inode. *)
Definition writei (ip : Z) (src : list Z) (off n : Z) : M (fs S) Z :=
  x <- get_inode ip ;;
  if i_type x =? T_DEV then
    if (i_major x <? 0) || (NDEV <=? i_major x) then ret (-1) else
    match devsw_write (i_major x) with
    | Some write => write ip src n
    | None => ret (-1)
    end
  else
  if (i_size x <? off) || (u32 (off + n) <? off) then ret (-1) else
  if MAXFILE * 512 <? u32 (off + n) then ret (-1) else
  off <- writei_loop (io_fuel n) ip (i_dev x) src off n 0 ;;
  x <- get_inode ip ;;
  when ((0 <? n) && (i_size x <? off))
    (upd_inode ip (set_isize off) ;;; iupdate ip) ;;;
  ret n.

(** ** Directories *)

(** struct dirent: 16 bytes, inum then name. *)
Definition de_inum (de : list Z) : Z := ld16 de 0.

Definition de_name (de : list Z) : list Z := bytes_at de 2 DIRSIZ.

Fixpoint dirlookup_from (k : nat) (dp : Z) (name : list Z) (off : Z) : M (fs S) (option (Z * Z)) :=
  match k with
  | O => no_fuel
  | Datatypes.S k' =>
      x <- get_inode dp ;;
      if off <? i_size x then
        r <- readi dp off 16 ;;
        if negb (r.2 =? 16) then panic "dirlink read" else
        if de_inum r.1 =? 0 then dirlookup_from k' dp name (off + 16) else
        if namecmp name (de_name r.1) =? 0 then ret (Some (de_inum r.1, off))
        else dirlookup_from k' dp name (off + 16)
      else ret None
  end.

Definition dir_fuel (size : Z) : nat := Z.to_nat (size / 16) + 2.

(** The inode found (or NULL) and the byte offset of the entry. *)
Definition dirlookup (dp : Z) (name : list Z) : M (fs S) (Z * Z) :=
  x <- get_inode dp ;;
  if negb (i_type x =? T_DIR) then panic "dirlookup not DIR" else
  r <- dirlookup_from (dir_fuel (i_size x)) dp name 0 ;;
  match r with
  | Some (inum, off) => ip <- iget (i_dev x) inum ;; ret (ip, off)
  | None => ret (NULL, 0)
  end.

(** The offset of the first empty entry, or the size of the directory. *)
Fixpoint dirlink_slot (k : nat) (dp off : Z) : M (fs S) Z :=
  match k with
  | O => no_fuel
  | Datatypes.S k' =>
      x <- get_inode dp ;;
      if off <? i_size x then
        r <- readi dp off 16 ;;
        if negb (r.2 =? 16) then panic "dirlink read" else
        if de_inum r.1 =? 0 then ret off else dirlink_slot k' dp (off + 16)
      else ret off
  end.

Definition mkdirent (name : list Z) (inum : Z) : list Z := [u8 inum; u8 (inum / 2 ^ 8)] ++ copy_name name.

Definition dirlink (dp : Z) (name : list Z) (inum : Z) : M (fs S) Z :=
  r <- dirlookup dp name ;;
  if negb (r.1 =? NULL) then iput r.1 ;;; ret (-1) else
  x <- get_inode dp ;;
  off <- dirlink_slot (dir_fuel (i_size x)) dp 0 ;;
  n <- writei dp (mkdirent name inum) off 16 ;;
  if negb (n =? 16) then panic "dirlink" else ret 0.

(** ** Paths *)

Fixpoint namex_from (k : nat) (parent : bool) (path name : list Z) (ip : Z) : M (fs S) (Z * list Z) :=
  match k with
  | O => no_fuel
  | Datatypes.S k' =>
      match skipelem path name with
      | None => if parent then iput ip ;;; ret (NULL, name) else ret (ip, name)
      | Some (path, name) =>
          ilock ip ;;;
          x <- get_inode ip ;;
          if negb (i_type x =? T_DIR) then iunlockput ip ;;; ret (NULL, name) else
          if parent && match path with [] => true | _ => false end then iunlock ip ;;; ret (ip, name) else
          next <- dirlookup ip name ;;
          if next.1 =? NULL then iunlockput ip ;;; ret (NULL, name) else
          iunlockput ip ;;;
          namex_from k' parent path name next.1
      end
  end.

(** A local array name[DIRSIZ].  Its first contents do not matter: the theorems on
    namex hold for any. *)
Definition name_buf : list Z := replicate 14 0.

(** [cwd] is the current process's directory.  The result is the inode (or
    NULL) and the name buffer. *)
Definition namex (cwd : Z) (path : list Z) (parent : bool) (name : list Z) : M (fs S) (Z * list Z) :=
  ip <- (match path with
         | c :: _ => if c =? SLASH then iget ROOTDEV ROOTINO else idup cwd
         | [] => idup cwd
         end) ;;
  namex_from (length path + 1) parent path name ip.

Definition namei (cwd : Z) (path name : list Z) : M (fs S) Z :=
  r <- namex cwd path false name ;; ret r.1.

Definition nameiparent (cwd : Z) (path name : list Z) : M (fs S) (Z * list Z) := namex cwd path true name.

End FsOps.
