(* ===== verification/FsSpec.v ===== *)
(** * Properties of the file system code

    Path elements, the inode cache, and, inside a transaction, block allocation
    against the contents of the disk as the clients see it. *)

From S2P Require Import Prelude CString BlockCache Log LogSpec Fs.

(** ** Path elements *)

(** The reference: split at every slash, then drop the empty pieces. *)
Fixpoint split_slash (p : list Z) : list (list Z) :=
  match p with
  | [] => [[]]
  | c :: p' =>
      if c =? SLASH then [] :: split_slash p'
      else match split_slash p' with w :: ws => (c :: w) :: ws | [] => [[c]] end
  end.

Definition path_elems (p : list Z) : list (list Z) := filter (fun e => e <> []) (split_slash p).

Lemma path_elems_slash p : path_elems (SLASH :: p) = path_elems p.
Proof. done. Qed.

Lemma path_elems_skip p : path_elems (skip_slashes p) = path_elems p.
Proof.
  induction p as [|c p IH]; [done|]. cbn [skip_slashes]. destruct (Z.eqb_spec c SLASH) as [->|]; [|done].
  by rewrite IH, path_elems_slash.
Qed.

Lemma skip_slashes_head p c p' : skip_slashes p = c :: p' -> c <> SLASH.
Proof.
  induction p as [|x p IH]; [done|]. cbn [skip_slashes]. destruct (Z.eqb_spec x SLASH); [done|congruence].
Qed.

Lemma span_elem_split p : forall e r, span_elem p = (e, r) ->
  split_slash p = e :: match r with [] => [] | _ :: r' => split_slash r' end /\
  (r = [] \/ exists r', r = SLASH :: r').
Proof.
  induction p as [|c p IH]; intros e r Hs; cbn in Hs; [simplify_eq; split; [done|by left]|].
  cbn [split_slash]. destruct (Z.eqb_spec c SLASH) as [->|].
  - simplify_eq. split; [done|]. right. by eexists.
  - destruct (span_elem p) as [e' r'] eqn:E. simplify_eq. destruct (IH e' r eq_refl) as [-> Hr]. done.
Qed.

Lemma span_elem_nonempty c p e r : c <> SLASH -> span_elem (c :: p) = (e, r) -> e <> [].
Proof. intros Hc. cbn. rewrite (proj2 (Z.eqb_neq _ _) Hc). destruct (span_elem p). congruence. Qed.

Lemma path_elems_cons c p e r : c <> SLASH -> span_elem (c :: p) = (e, r) ->
  path_elems (c :: p) = e :: path_elems r.
Proof.
  intros Hc Hs. destruct (span_elem_split _ _ _ Hs) as [Hsp Hr]. unfold path_elems at 1. rewrite Hsp.
  rewrite filter_cons_True by (by eapply span_elem_nonempty). f_equal.
  destruct Hr as [->|[r' ->]]; [done|]. by rewrite path_elems_slash.
Qed.

Lemma path_elems_nil p : path_elems p = [] -> skip_slashes p = [].
Proof.
  rewrite <- path_elems_skip. destruct (skip_slashes p) as [|c p'] eqn:E; [done|].
  pose proof (skip_slashes_head p c p' E) as Hc. destruct (span_elem (c :: p')) as [e r] eqn:Hs.
  by rewrite (path_elems_cons c p' e r Hc Hs).
Qed.

(** The bytes of [s] at the front of a DIRSIZ-byte name buffer. *)
Lemma name_splice name s : zlen name = DIRSIZ -> zlen s <= DIRSIZ ->
  zlen (splice name 0 s) = DIRSIZ /\ take (length s) (splice name 0 s) = s.
Proof.
  intros Hn Hs. split; [rewrite zlen_splice; [done|lia|lia]|].
  unfold splice. change (take (Z.to_nat 0) name) with (@nil Z). cbn [app]. by rewrite take_app_length.
Qed.

(** Skipelem against the reference that splits the path at every slash
    and drops empty pieces. It returns 0 exactly when no element is left;
    otherwise it puts the first element, cut to DIRSIZ bytes (and
    NUL-terminated if shorter), into [name] and returns a path with the
    remaining elements, which is empty exactly when this was the last one. *)
Theorem skipelem_correct path name :
  zlen name = DIRSIZ ->
  match path_elems path with
  | [] => skipelem path name = None
  | e :: es => exists path' name', skipelem path name = Some (path', name') /\
      path_elems path' = es /\ (path' = [] <-> es = []) /\ zlen name' = DIRSIZ /\
      take (Nat.min (length e) 14) name' = take 14 e /\ (zlen e < DIRSIZ -> zget name' (zlen e) = Some 0)
  end.
Proof.
  intros Hn. unfold skipelem. rewrite <- (path_elems_skip path).
  destruct (skip_slashes path) as [|c p] eqn:E; [done|]. pose proof (skip_slashes_head path c p E) as Hc.
  destruct (span_elem (c :: p)) as [e r] eqn:Hs. rewrite (path_elems_cons c p e r Hc Hs).
  eexists _, _. split; [done|]. split; [apply path_elems_skip|]. split.
  { split; [intros Hr; rewrite <- path_elems_skip, Hr; done|apply path_elems_nil]. }
  unfold DIRSIZ in *. change (Z.to_nat 14) with 14%nat. destruct (Z.leb_spec 14 (zlen e)) as [Hl|Hl].
  - assert (length (take 14 e) = 14%nat) as Ht by (rewrite length_take; unfold zlen in Hl; lia).
    destruct (name_splice name (take 14 e) Hn) as [H1 H2]; [unfold zlen, DIRSIZ; lia|].
    split; [exact H1|]. split; [|lia]. rewrite Ht in H2. rewrite Nat.min_r by (unfold zlen in Hl; lia). done.
  - destruct (name_splice name (e ++ [0]) Hn) as [H1 H2]; [unfold zlen, DIRSIZ in *; rewrite length_app; cbn; lia|].
    split; [exact H1|]. rewrite length_app in H2. cbn [length] in H2.
    assert (take (length e) (splice name 0 (e ++ [0])) = e) as He.
    { transitivity (take (length e) (take (length e + 1) (splice name 0 (e ++ [0])))); [by rewrite take_take, Nat.min_l by lia|].
      rewrite H2. by rewrite take_app_length. }
    rewrite Nat.min_l, He, take_ge by (unfold zlen in Hl; lia). split; [done|]. intros _.
    rewrite zget_nat by (unfold zlen; lia). replace (Z.to_nat (zlen e)) with (length e) by (unfold zlen; lia).
    transitivity (take (length e + 1) (splice name 0 (e ++ [0])) !! length e); [by rewrite lookup_take_lt by lia|].
    rewrite H2. rewrite lookup_app_r, Nat.sub_diag by lia. done.
Qed.

(** "///usr//bin/": the first element is "usr", "bin" is left. *)
Lemma skipelem_correct_witness :
  exists path' name',
    skipelem [47; 47; 47; 117; 115; 114; 47; 47; 98; 105; 110; 47] (replicate 14 9) = Some (path', name') /\
    path_elems path' = [[98; 105; 110]] /\ take 3 name' = [117; 115; 114].
Proof.
  destruct (skipelem_correct [47; 47; 47; 117; 115; 114; 47; 47; 98; 105; 110; 47] (replicate 14 9) eq_refl)
    as (p & n & H1 & H2 & _ & _ & H3 & _).
  exists p, n. split; [exact H1|]. split; [exact H2|exact H3].
Defined.

(** ** The inode cache *)

(** An entry in use for inode [inum] of device [dev]. *)
Definition caches_inode (dev inum : Z) (x : inode) : Prop := 0 < i_ref x /\ i_dev x = dev /\ i_inum x = inum.

#[export] Instance caches_inode_dec dev inum x : Decision (caches_inode dev inum x).
Proof. unfold caches_inode. apply _. Defined.

(** No inode is cached twice, and reference counts are not negative. *)
Definition icache_ok (l : list inode) : Prop :=
  (forall i x, zget l i = Some x -> 0 <= i_ref x) /\
  (forall i j x y dev inum, zget l i = Some x -> zget l j = Some y ->
     caches_inode dev inum x -> caches_inode dev inum y -> i = j).

Lemma iget_scan_ok dev inum : forall l i empty,
  let '(ip, e) := iget_scan l dev inum i empty in
  (ip <> NULL -> 0 <= i -> i <= ip /\ exists x, zget l (ip - i) = Some x /\ caches_inode dev inum x) /\
  (ip = NULL -> 0 <= i -> forall k x, zget l k = Some x -> ~ caches_inode dev inum x) /\
  (empty <> NULL -> e = empty) /\
  (empty = NULL -> 0 <= i -> e <> NULL -> i <= e /\ exists x, zget l (e - i) = Some x /\ i_ref x = 0) /\
  (ip = NULL -> empty = NULL -> 0 <= i -> e = NULL -> forall k x, zget l k = Some x -> i_ref x <> 0).
Proof.
  assert (forall (x : inode) l k, 0 <= k -> zget (x :: l) (k + 1) = zget l k) as Hcons.
  { intros x l k Hk. rewrite !zget_nat by lia. replace (Z.to_nat (k + 1)) with (S (Z.to_nat k)) by lia. done. }
  assert (forall (x : inode) l k y, zget (x :: l) k = Some y -> (k = 0 /\ y = x) \/ (0 < k /\ zget l (k - 1) = Some y)) as Hinv.
  { intros x l k y Hk. pose proof (zget_Some _ _ _ Hk) as Hr. destruct (decide (k = 0)) as [->|].
    - left. split; [done|]. rewrite zget_nat in Hk by lia. cbn in Hk. by injection Hk.
    - right. split; [lia|]. replace k with (k - 1 + 1) in Hk by lia. by rewrite Hcons in Hk by lia. }
  induction l as [|x l IH]; intros i empty; cbn [iget_scan].
  { split; [done|]. split; [intros _ _ k x Hk; apply zget_Some in Hk; unfold zlen in Hk; cbn [length] in Hk; lia|].
    split; [done|]. split; [intros -> _ Hn; done|]. intros _ _ _ _ k x Hk. apply zget_Some in Hk. unfold zlen in Hk. cbn [length] in Hk. lia. }
  destruct ((0 <? i_ref x) && (i_dev x =? dev) && (i_inum x =? inum)) eqn:Hm.
  - zbool. split; [|split; [|split; [done|split; [intros -> _ Hn; done|]]]].
    + intros _ Hi. split; [lia|]. exists x. rewrite Z.sub_diag. done.
    + unfold NULL. lia.
    + unfold NULL. lia.
  - assert (~ caches_inode dev inum x) as Hnx.
    { intros (H1 & H2 & H3). rewrite (proj2 (Z.ltb_lt _ _) H1), H2, H3, !Z.eqb_refl in Hm. done. }
    set (empty' := if (empty =? NULL) && (i_ref x =? 0) then i else empty).
    specialize (IH (i + 1) empty'). destruct (iget_scan l dev inum (i + 1) empty') as [ip e].
    destruct IH as (A & B & C & D & E).
    assert (empty <> NULL -> empty' = empty) as He by (intros Hne; unfold empty'; by rewrite (proj2 (Z.eqb_neq _ _) Hne)).
    assert (empty = NULL -> (i_ref x = 0 /\ empty' = i) \/ (i_ref x <> 0 /\ empty' = NULL)) as He'.
    { intros ->. unfold empty'. rewrite Z.eqb_refl. cbn. destruct (Z.eqb_spec (i_ref x) 0); [by left|by right]. }
    split; [|split; [|split; [|split]]].
    + intros Hip Hi. destruct (A Hip ltac:(lia)) as (H1 & y & Hy & Hcy). split; [lia|]. exists y. split; [|done].
      replace (ip - i) with (ip - (i + 1) + 1) by lia. by rewrite Hcons by lia.
    + intros Hip Hi k y Hy. destruct (Hinv _ _ _ _ Hy) as [[_ ->]|[_ Hy']]; [done|]. by apply (B Hip ltac:(lia) (k - 1)).
    + intros Hne. rewrite (He Hne) in C. auto.
    + intros Hempty Hi Hne. destruct (He' Hempty) as [[Hr E']|[Hr E']].
      * rewrite C by (rewrite E'; unfold NULL; lia). rewrite E', Z.sub_diag. split; [lia|]. by exists x.
      * destruct (D E' ltac:(lia) Hne) as (H1 & y & Hy & Hry). split; [lia|]. exists y. split; [|done].
        replace (e - i) with (e - (i + 1) + 1) by lia. by rewrite Hcons by lia.
    + intros Hip Hempty Hi Hne k y Hy. destruct (He' Hempty) as [[Hr E']|[Hr E']].
      { exfalso. rewrite C in Hne by (rewrite E'; unfold NULL; lia). unfold NULL in *. lia. }
      destruct (Hinv _ _ _ _ Hy) as [[_ ->]|[_ Hy']]; [done|]. by apply (E Hip E' ltac:(lia) Hne (k - 1)).
Qed.

Section Icache.
Context {S : Type}.
Implicit Types f : fs S.

Definition with_inodes f (l : list inode) : fs S := Fs (ic_lock f) l (i_woken f) (flog f).

Lemma upd_inode_ok f ip x g : zget (inodes f) ip = Some x ->
  upd_inode ip g f = Ok tt (with_inodes f (zset (inodes f) ip (g x))).
Proof. intros Hx. unfold upd_inode, get_inode, bind, get, modify. by rewrite Hx. Qed.

Lemma lock_icache_ok f : ic_lock f = false -> lock_icache f = Ok tt (Fs true (inodes f) (i_woken f) (flog f)).
Proof. intros Hl. unfold lock_icache. by rewrite Hl. Qed.

(** Taking one entry to a new use keeps the cache free of duplicates. *)
Lemma icache_ok_set l ip x x' :
  icache_ok l -> zget l ip = Some x -> 0 <= i_ref x' ->
  (0 < i_ref x' -> forall k y, k <> ip -> zget l k = Some y -> ~ caches_inode (i_dev x') (i_inum x') y) ->
  icache_ok (zset l ip x').
Proof.
  intros [H1 H2] Hx Hr Hne. pose proof (zget_Some _ _ _ Hx) as Hip.
  assert (forall k y, zget (zset l ip x') k = Some y -> (k = ip /\ y = x') \/ (k <> ip /\ zget l k = Some y)) as Hinv.
  { intros k y. destruct (decide (k = ip)) as [->|Hk].
    - rewrite zget_zset_eq by done. intros [= <-]. by left.
    - rewrite zget_zset_ne by done. by right. }
  split.
  - intros k y [[_ ->]|[_ Hy]]%Hinv; [done|by eapply H1].
  - intros i j y z dev inum Hy Hz Hcy Hcz.
    destruct (Hinv i y Hy) as [[-> ->]|[Hi Hy']], (Hinv j z Hz) as [[-> ->]|[Hj Hz']]; [done| | |by eapply H2].
    + exfalso. destruct Hcy as (A & <- & <-). by eapply (Hne A j z).
    + exfalso. destruct Hcz as (A & <- & <-). by eapply (Hne A i y).
Qed.

(** The effect of a successful iget. *)
Definition iget_result f (dev inum ip : Z) (f' : fs S) : Prop :=
  exists x x', zget (inodes f) ip = Some x /\ inodes f' = zset (inodes f) ip x' /\
    i_dev x' = dev /\ i_inum x' = inum /\
    ((caches_inode dev inum x /\ x' = set_ref (i_ref x + 1) x) \/
     (i_ref x = 0 /\ i_ref x' = 1 /\ i_flags x' = 0 /\ forall k y, zget (inodes f) k = Some y -> ~ caches_inode dev inum y)).

Lemma iget_wp f dev inum :
  icache_ok (inodes f) -> ic_lock f = false ->
  (exists k x, zget (inodes f) k = Some x /\ (caches_inode dev inum x \/ i_ref x = 0)) ->
  wp (iget dev inum) (fun ip f' => iget_result f dev inum ip f' /\ icache_ok (inodes f') /\
    ic_lock f' = false /\ flog f' = flog f) f.
Proof.
  intros Hok Hl (k0 & x0 & Hx0 & Hor). unfold iget. apply wp_bind. eapply ok_wp; [by apply lock_icache_ok|].
  apply wp_bind, wp_get. cbn [inodes]. pose proof (iget_scan_ok dev inum (inodes f) 0 NULL) as Hs.
  destruct (iget_scan (inodes f) dev inum 0 NULL) as [ip e]. destruct Hs as (A & B & _ & D & E).
  set (f1 := Fs true _ _ _). destruct (Z.eqb_spec ip NULL) as [Hip|Hip]; cbn [negb].
  - specialize (B Hip ltac:(lia)). destruct (Z.eqb_spec e NULL) as [He|He].
    { exfalso. destruct Hor as [Hc|Hr]; [by eapply B|]. by eapply (E Hip eq_refl ltac:(lia) He). }
    destruct (D eq_refl ltac:(lia) He) as (_ & x & Hx & Hr). rewrite Z.sub_0_r in Hx.
    apply wp_bind. eapply ok_wp; [by apply (upd_inode_ok f1 e x)|]. apply wp_bind, wp_modify, wp_ret. cbn.
    split; [|split; [|done]].
    + eexists x, _. split; [done|]. split; [done|]. split; [done|]. split; [done|]. right. done.
    + eapply icache_ok_set; [done|done|cbn; lia|]. intros _ k y _ Hy. cbn. by eapply B.
  - destruct (A Hip ltac:(lia)) as (_ & x & Hx & Hc). rewrite Z.sub_0_r in Hx.
    apply wp_bind. eapply ok_wp; [by apply (upd_inode_ok f1 ip x)|]. apply wp_bind, wp_modify, wp_ret. cbn.
    destruct (id Hc) as (C1 & C2 & C3). split; [|split; [|done]].
    + eexists x, _. split; [done|]. split; [done|]. split; [done|]. split; [done|]. left. done.
    + eapply icache_ok_set; [done|done|cbn; lia|]. intros _ k y Hk Hy Hcy. cbn in Hcy. apply Hk.
      rewrite C2, C3 in Hcy. by eapply (proj2 Hok).
Qed.

(** C29: iget. With the inode cached or a free slot it returns an entry for
    (dev, inum): the one already in use, with its reference count one higher
    and nothing else changed, or a free slot with count 1 and no flags. The
    cache never holds an inode twice, and no other entry changes. When neither
    exists it panics. *)
Theorem iget_spec f dev inum :
  icache_ok (inodes f) -> ic_lock f = false ->
  ((exists k x, zget (inodes f) k = Some x /\ (caches_inode dev inum x \/ i_ref x = 0)) ->
   wp (iget dev inum) (fun ip f' => iget_result f dev inum ip f' /\ icache_ok (inodes f') /\
     ic_lock f' = false /\ flog f' = flog f) f) /\
  ((forall k x, zget (inodes f) k = Some x -> ~ caches_inode dev inum x /\ i_ref x <> 0) ->
   iget dev inum f = Panic "iget: no inodes").
Proof.
  intros Hok Hl. split; [by apply iget_wp|]. intros Hno. unfold iget, bind. rewrite (lock_icache_ok f Hl). unfold get. cbn [inodes].
  pose proof (iget_scan_ok dev inum (inodes f) 0 NULL) as Hs.
  destruct (iget_scan (inodes f) dev inum 0 NULL) as [ip e]. destruct Hs as (A & B & _ & D & E).
  destruct (Z.eqb_spec ip NULL) as [Hip|Hip]; cbn [negb].
  - destruct (Z.eqb_spec e NULL) as [He|He]; [done|]. exfalso.
    destruct (D eq_refl ltac:(lia) He) as (_ & x & Hx & Hr). by apply Hno in Hx as [_ ?].
  - exfalso. destruct (A Hip ltac:(lia)) as (_ & x & Hx & Hc). by apply Hno in Hx as [? _].
Qed.

(** References are balanced. idup followed by iput of an inode that has
    another reference leaves the whole file system state as it was. *)
Theorem idup_iput_roundtrip `{BufCache S} f ip x :
  ic_lock f = false -> zget (inodes f) ip = Some x -> 0 < i_ref x ->
  wp (idup ip ;;; iput ip) (fun _ f' => f' = f) f.
Proof.
  intros Hl Hx Hr. unfold idup, iput. apply wp_bind, wp_bind. eapply ok_wp; [by apply lock_icache_ok|].
  set (f1 := Fs true _ _ _). apply wp_bind. eapply ok_wp; [by apply (upd_inode_ok f1 ip x)|].
  set (x1 := set_ref (i_ref x + 1) x). apply wp_bind, wp_modify, wp_ret.
  apply wp_bind. eapply ok_wp; [by apply lock_icache_ok|]. cbn [with_inodes inodes i_woken flog].
  pose proof (zget_Some _ _ _ Hx) as Hip. set (f2 := Fs true (zset (inodes f1) ip x1) _ _).
  assert (zget (inodes f2) ip = Some x1) as Hx1 by (by apply zget_zset_eq).
  apply wp_bind. eapply ok_wp; [unfold get_inode, bind, get; by rewrite Hx1|].
  assert (i_ref x1 =? 1 = false) as -> by (cbn; apply Z.eqb_neq; lia). cbn [andb]. apply wp_bind, wp_ret.
  apply wp_bind. eapply ok_wp; [by apply (upd_inode_ok f2 ip x1)|]. apply wp_modify. cbn [with_inodes inodes i_woken flog f1 f2].
  rewrite zset_zset. assert (set_ref (i_ref x1 - 1) x1 = x) as ->.
  { unfold x1, set_ref. cbn. replace (i_ref x + 1 - 1) with (i_ref x) by lia. by destruct x. }
  rewrite zset_id by done. destruct f. cbn in *. congruence.
Qed.

End Icache.

(** ** Bits of a bitmap block *)

Definition bit (d : list Z) (bi : Z) : bool := Z.testbit (ld8 d (bi / 8)) (bi mod 8).

Lemma bit_st8 d bi bj x : 0 <= bi < 4096 -> zlen d = 512 -> 0 <= bj ->
  (forall i, 0 <= i < 8 -> i <> bi mod 8 -> Z.testbit x i = Z.testbit (ld8 d (bi / 8)) i) ->
  bit (st8 d (bi / 8) x) bj = if bj =? bi then Z.testbit x (bi mod 8) else bit d bj.
Proof.
  intros Hi Hd Hj Hx. unfold bit. pose proof (Z.mod_pos_bound bj 8). pose proof (Z.mod_pos_bound bi 8).
  destruct (decide (bj / 8 = bi / 8)) as [E|E].
  - rewrite E, ld8_st8_eq by (rewrite Hd; Z.div_mod_to_equations; lia). unfold u8. rewrite Z.mod_pow2_bits_low by lia.
    destruct (Z.eqb_spec bj bi) as [->|Hne]; [done|]. apply Hx; [lia|]. Z.div_mod_to_equations. lia.
  - rewrite ld8_st8_ne by done. destruct (Z.eqb_spec bj bi) as [->|]; [lia|done].
Qed.

Lemma bit_set d bi bj : 0 <= bi < 4096 -> zlen d = 512 -> 0 <= bj ->
  bit (st8 d (bi / 8) (Z.lor (ld8 d (bi / 8)) (Z.shiftl 1 (bi mod 8)))) bj = (bj =? bi) || bit d bj.
Proof.
  intros Hi Hd Hj. pose proof (Z.mod_pos_bound bi 8). rewrite bit_st8; [|done..|].
  - destruct (bj =? bi); [|done]. rewrite Z.lor_spec, Z.shiftl_1_l, Z.pow2_bits_true by lia. apply orb_true_r.
  - intros i Hi' Hne. rewrite Z.lor_spec, Z.shiftl_1_l, Z.pow2_bits_false by done. apply orb_false_r.
Qed.

Lemma bit_clear d bi bj : 0 <= bi < 4096 -> zlen d = 512 -> 0 <= bj ->
  bit (st8 d (bi / 8) (Z.land (ld8 d (bi / 8)) (Z.lnot (Z.shiftl 1 (bi mod 8))))) bj = negb (bj =? bi) && bit d bj.
Proof.
  intros Hi Hd Hj. pose proof (Z.mod_pos_bound bi 8). rewrite bit_st8; [|done..|].
  - destruct (bj =? bi); [|done]. rewrite Z.land_spec, Z.lnot_spec, Z.shiftl_1_l, Z.pow2_bits_true by lia. apply andb_false_r.
  - intros i Hi' Hne. rewrite Z.land_spec, Z.lnot_spec, Z.shiftl_1_l, Z.pow2_bits_false by (done || lia). apply andb_true_r.
Qed.

Lemma bit_test d bi : 0 <= bi -> (Z.land (ld8 d (bi / 8)) (Z.shiftl 1 (bi mod 8)) =? 0) = negb (bit d bi).
Proof. intros. apply land_bit_zero. apply Z.mod_pos_bound. lia. Qed.

(** ** Updating blocks inside a transaction *)

Section Trans.
Context {S : Type} `{BufCache S}.
Implicit Types (f : fs S) (l : log S) (v : bspec).

(** The fields of the log that block updates leave alone. *)
Definition same_log l l' : Prop :=
  lg_lock l' = lg_lock l /\ lg_start l' = lg_start l /\ lg_size l' = lg_size l /\ lg_busy l' = lg_busy l /\
  lg_dev l' = lg_dev l /\ lg_wakeups l' = lg_wakeups l.

(** A running transaction with room for [k] more blocks. *)
Record tx l v (k : Z) : Prop := {
  tx_rep : bc_rep (lg_cache l) v;
  tx_trans : trans l v;
  tx_busy : lg_busy l = true;
  tx_log : lh_n l + k <= LOGSIZE /\ lh_n l + k <= lg_size l - 1;
  tx_room : Z.of_nat (size (in_use v)) + k <= 9;
  tx_free : forall i, 0 <= i < lg_size l -> handles v !! (lg_start l + i) = None
}.

(** The contents of home sector [sec] are replaced by [d], nothing else. *)
Definition updates l v v' (sec : Z) (d : list Z) : Prop :=
  nsect v' = nsect v /\ handles v' = handles v /\
  (forall s, home l v s -> content v' s = zupd (content v) sec d s /\ disk v' s = disk v s) /\ dirty v' = {[sec]} ∪ dirty v.

Lemma size_hold sec h v : (size (in_use (hold sec h v)) <= size (in_use v) + 1)%nat.
Proof.
  unfold in_use. cbn. rewrite dom_insert_L, <- union_assoc_L, size_union_alt, size_singleton.
  assert (size ((dom (handles v) ∪ dirty v) ∖ {[sec]}) <= size (dom (handles v) ∪ dirty v))%nat
    by (apply subseteq_size; set_solver). lia.
Qed.

Lemma trans_held l v sec h c :
  trans l v -> trans (with_cache l c) (hold sec h v).
Proof.
  intros [[A B C D E F] Hok Hlog Hd He]. split; [by split|exact Hok| |exact Hd|exact He].
  intros i s Hi Hs Hn. cbn in *. apply (Hlog i s Hi Hs). rewrite lookup_insert in Hn. by case_decide.
Qed.

Lemma trans_store l v sec d c h :
  trans l v -> handles v !! sec = Some h -> (forall i, 0 <= i < lg_size l -> sec <> lg_start l + i) ->
  trans (with_cache l c) (store sec d v).
Proof.
  intros [[A B C D E F] Hok Hlog Hd He] Hh Hne. split; [by split|exact Hok| |exact Hd|exact He].
  intros i s Hi Hs Hn. cbn in *. rewrite zupd_ne by congruence. by apply (Hlog i s).
Qed.

(** What logging and releasing the held block [sec] with data [d] leaves. *)
Record logged_out l v (sec : Z) (d : list Z) l' v' : Prop := {
  lo_rep : bc_rep (lg_cache l') v';
  lo_trans : trans l' v';
  lo_busy : lg_busy l' = true;
  lo_n : lh_n l' <= lh_n l + 1;
  lo_free : forall i, 0 <= i < lg_size l -> handles v' !! (lg_start l + i) = None;
  lo_same : same_log l l';
  lo_nsect : nsect v' = nsect v;
  lo_handles : handles v' = delete sec (handles v);
  lo_dirty : dirty v' = {[sec]} ∪ dirty v;
  lo_home : forall s, home l v s -> content v' s = zupd (content v) sec d s /\ disk v' s = disk v s
}.

(** Storing new data in a held block, logging it and releasing it. *)
Lemma log_update_held l v sec h d : bc_rep (lg_cache l) v -> trans l v -> lg_busy l = true -> handles v !! sec = Some h -> home l v sec ->
  zlen d = 512 -> lh_n l < LOGSIZE -> lh_n l < lg_size l - 1 -> (forall i, 0 <= i < lg_size l -> handles v !! (lg_start l + i) = None) ->
  Z.of_nat (size (in_use v)) < 10 ->
  wp (on_cache (bc_store h d) ;;; log_write h ;;; on_cache (bc_release h)) (fun _ l' => exists v', logged_out l v sec d l' v') l.
Proof.
  intros Hr Ht Hbusy Hh Hho Hd Hn1 Hn2 Hfree Hroom. rewrite <-(with_cache_id l) at 1.
  apply wp_cache_step. eapply wp_mono; [exact (bc_store_ok _ _ sec h d Hr Hh Hd)|]. intros [] c2 Hr2.
  set (v2 := store sec d v) in *. set (l2 := with_cache l c2).
  assert (trans l2 v2) as Ht2.
  { apply (trans_store l v sec d c2 h Ht Hh). intros i Hi E. destruct Hho as [_ Hho]. lia. }
  assert (bc_rep (lg_cache l2) v2) as Hr2' by exact Hr2. assert (home l2 v2 sec) as Hho2 by exact Hho.
  apply wp_bind. eapply wp_mono; [apply (log_write_ok l2 v2 sec h Hr2' Ht2 Hbusy Hh Hho2 Hn1 Hn2 Hfree Hroom)|].
  intros [] l3 (c3 & -> & Hr3).
  destruct (trans_logged l2 v2 sec h c3 Hr2' Ht2 Hh Hho2 Hn1 Hn2 Hfree) as [Ht3 Hlog3].
  destruct (log_slot_head l2 v2 sec (t_geom _ _ Ht2) (t_head _ _ Ht2) Hho2 Hn1 Hn2) as (Hi & Hin & _ & _ & Hget).
  set (i := log_slot _ _ _ _) in *. set (n' := if i =? lh_n l2 then _ else _) in *. set (v3 := logged_view l2 i sec v2) in *.
  set (l3 := with_head l2 n' (zset (lh_sector l2) i sec) c3) in *.
  assert (n' <= lh_n l + 1) as Hn' by (unfold n'; cbn; case_if; lia).
  change l3 with (with_cache l3 c3). apply wp_cache_last.
  eapply wp_mono; [apply (bc_release_ok _ v3 sec h Hr3 Hh); left; cbn; clear; set_solver|]. intros [] c4 Hr4.
  assert (lg_start l + (i + 1) ∉ dirty v) as Hnd by (apply log_sector_clean; [done|cbn in Hn2, Hi; lia]).
  exists (unhold sec v3). split.
  - exact Hr4.
  - destruct Ht3 as [A B C D E]. split; [by destruct A|exact B| |exact D|exact E].
    intros j s Hj Hs Hnone. destruct (Hget j s Hj Hs) as [[-> ->]|(Hji & Hss & Hjn & Hs')]; [exact Hlog3|].
    apply (C j s Hj Hs). cbn in Hnone. by rewrite lookup_delete_ne in Hnone.
  - exact Hbusy.
  - exact Hn'.
  - intros j Hj. cbn. rewrite lookup_delete_ne; [by apply Hfree|]. destruct Hho as [_ Hho]. lia.
  - done.
  - done.
  - done.
  - assert (lg_start l + i + 1 ∉ dirty v) as Hnd' by (by replace (lg_start l + i + 1) with (lg_start l + (i + 1)) by lia).
    clear -Hnd'. cbn. set_solver.
  - intros s Hs. cbn. assert (s <> lg_start l + i + 1) by (destruct Hs as [_ Hs]; cbn in Hi, Hn2; lia). split; by rewrite zupd_ne.
Qed.

Lemma log_update_ok l v sec h d k c :
  tx l v k -> 0 < k -> handles v !! sec = None -> home l v sec -> zlen d = 512 ->
  bc_rep c (hold sec h v) ->
  wp (on_cache (bc_store h d) ;;; log_write h ;;; on_cache (bc_release h))
    (fun _ l' => exists v', tx l' v' (k - 1) /\ same_log l l' /\ updates l v v' sec d) (with_cache l c).
Proof.
  intros [Hr Ht Hbusy [Hk1 Hk2] Hroom Hfree] Hk Hnh Hho Hd Hr1.
  eapply wp_mono; [apply (log_update_held (with_cache l c) (hold sec h v) sec h d)|].
  - exact Hr1.
  - by apply trans_held.
  - exact Hbusy.
  - apply lookup_insert_eq.
  - exact Hho.
  - done.
  - cbn. lia.
  - cbn. lia.
  - intros i Hi. cbn in *. rewrite lookup_insert_ne; [by apply Hfree|]. destruct Hho as [_ Hho]. lia.
  - pose proof (size_hold sec h v). lia.
  - intros [] l' (v' & [A B C D E F G H' I J]). cbn in D, E, H', G, I. rewrite delete_insert_id in H' by done. exists v'. split; [|split; [exact F|done]].
    assert (lg_size l' = lg_size l) as Esz by apply F. assert (lg_start l' = lg_start l) as Est by apply F. split.
    + exact A.
    + exact B.
    + exact C.
    + rewrite Esz. lia.
    + assert (in_use v' ⊆ {[sec]} ∪ in_use v) as Hsub%subseteq_size by (unfold in_use; rewrite H', I; clear; set_solver).
      assert (size ({[sec]} ∪ in_use v) <= size (in_use v) + 1)%nat.
      { rewrite size_union_alt, size_singleton. assert (size (in_use v ∖ {[sec]}) <= size (in_use v))%nat by (apply subseteq_size; clear; set_solver). lia. }
      lia.
    + intros i. rewrite Esz, Est. apply E.
Qed.

(** *** The same operations as the file system calls them *)

Definition with_log f l : fs S := Fs (ic_lock f) (inodes f) (i_woken f) l.

Lemma tx_cache l v k c : tx l v k -> bc_rep c v -> tx (with_cache l c) v k.
Proof. intros [A [[B1 B2 B3 B4 B5 B6] C D E F] G H1 I J] Hr. by split. Qed.

Lemma on_log_run {A} (m : M (log S) A) f l a l' :
  m l = Ok a l' -> on_log m (with_log f l) = Ok a (with_log f l').
Proof. intros E. unfold on_log, zoom. cbn. by rewrite E. Qed.

Lemma run_cache {A} (m : M S A) (Q : A -> S -> Prop) f l c :
  wp m Q c -> exists a c', on_log (on_cache m) (with_log f (with_cache l c)) = Ok a (with_log f (with_cache l c')) /\ Q a c'.
Proof.
  intros (a & c' & E & HQ)%wp_ok. exists a, c'. split; [|done]. unfold on_log, on_cache, zoom, with_log. cbn.
  by rewrite E.
Qed.

Lemma bread_run f l v k sec :
  tx l v k -> 0 <= k -> 0 <= sec < nsect v -> handles v !! sec = None ->
  exists h c, bread ROOTDEV sec (with_log f l) = Ok h (with_log f (with_cache l c)) /\ bc_rep c (hold sec h v).
Proof.
  intros Ht Hk Hs Hn. edestruct (run_cache (bc_read ROOTDEV sec) (fun h c => bc_rep c (hold sec h v)) f l (lg_cache l))
    as (h & c & E & Hr).
  { apply bc_read_ok; [apply Ht|done|done|]. left. pose proof (tx_room _ _ _ Ht). lia. }
  rewrite with_cache_id in E. by exists h, c.
Qed.

Lemma bdata_run f l c v sec h : bc_rep c v -> handles v !! sec = Some h ->
  bdata h (with_log f (with_cache l c)) = Ok (content v sec) (with_log f (with_cache l c)).
Proof. intros Hr Hh. unfold bdata, on_log, on_cache, zoom. cbn. by rewrite (bc_data_ok _ _ _ _ Hr Hh). Qed.

(** Releasing a block that was only read. *)
Lemma brelse_run f l c v k sec h : tx l v k -> 0 <= sec < nsect v -> handles v !! sec = None ->
  bc_rep c (hold sec h v) ->
  exists c', brelse h (with_log f (with_cache l c)) = Ok tt (with_log f (with_cache l c')) /\ tx (with_cache l c') v k.
Proof.
  intros Ht Hs Hn Hr. assert (handles (hold sec h v) !! sec = Some h) as Hh by apply lookup_insert_eq.
  edestruct (run_cache (bc_release h) (fun _ c' => bc_rep c' (unhold sec (hold sec h v))) f l c) as ([] & c' & E & Hr').
  { apply (bc_release_ok _ _ sec h Hr Hh). destruct (decide (sec ∈ dirty v)) as [|Hd]; [by left|right].
    by apply (bc_clean (lg_cache l) v sec (tx_rep _ _ _ Ht)). }
  exists c'. split; [exact E|]. rewrite hold_unhold in Hr' by done. by apply tx_cache.
Qed.

(** The superblock, as readsb reads it. *)
Definition sb_of (d : list Z) : superblock := Superblock (ld32 d 0) (ld32 d 4) (ld32 d 8) (ld32 d 12).

Lemma readsb_run f l v k : tx l v k -> 0 <= k -> 1 < nsect v -> handles v !! 1 = None ->
  exists c, readsb_ ROOTDEV (with_log f l) = Ok (sb_of (content v 1)) (with_log f (with_cache l c)) /\
    tx (with_cache l c) v k.
Proof.
  intros Ht Hk Hs Hn.
  edestruct (run_cache (readsb ROOTDEV) (fun sb c => sb = sb_of (content v 1) /\ bc_rep c v) f l (lg_cache l))
    as (sb & c & E & -> & Hr).
  { unfold readsb. apply wp_bind. eapply wp_mono; [apply (bc_read_ok _ v 1); [apply Ht|lia|done|]|].
    { left. pose proof (tx_room _ _ _ Ht). lia. }
    intros h c1 Hr1. assert (handles (hold 1 h v) !! 1 = Some h) as Hh by apply lookup_insert_eq.
    eapply wp_bind_ok; [exact (bc_data_ok _ _ _ _ Hr1 Hh)|]. apply wp_bind.
    eapply wp_mono; [apply (bc_release_ok _ _ 1 h Hr1 Hh)|].
    { destruct (decide (1 ∈ dirty v)) as [|Hd]; [by left|right].
      by apply (bc_clean (lg_cache l) v 1 (tx_rep _ _ _ Ht)); [lia|..]. }
    intros [] c2 Hr2. rewrite hold_unhold in Hr2 by done. by apply wp_ret. }
  rewrite with_cache_id in E. exists c. split; [exact E|by apply tx_cache].
Qed.

(** Storing, logging and releasing a held block. *)
Lemma update_run f l v sec h d k c :
  tx l v k -> 0 < k -> handles v !! sec = None -> home l v sec -> zlen d = 512 -> bc_rep c (hold sec h v) ->
  exists s1 s2 l' v', bstore h d (with_log f (with_cache l c)) = Ok tt s1 /\ log_write_ h s1 = Ok tt s2 /\
    brelse h s2 = Ok tt (with_log f l') /\ tx l' v' (k - 1) /\ same_log l l' /\ updates l v v' sec d.
Proof.
  intros Ht Hk Hn Hho Hd Hr. pose proof (log_update_ok l v sec h d k c Ht Hk Hn Hho Hd Hr) as W.
  apply wp_bind_inv, wp_ok in W as ([] & l1 & E1 & W). apply wp_bind_inv, wp_ok in W as ([] & l2 & E2 & W).
  apply wp_ok in W as ([] & l3 & E3 & v' & Ht' & Hl & Hu). exists (with_log f l1), (with_log f l2), l3, v'.
  split; [by apply on_log_run|]. split; [by apply on_log_run|]. split; [by apply on_log_run|done].
Qed.

(** *** The free bitmap *)

(** Block [b] is marked in use. *)
Definition used v (sb : superblock) (b : Z) : bool := bit (content v (BBLOCK b (sb_ninodes sb))) (b mod BPB).

(** Where the superblock and the bitmap are. *)
Record fs_geom l v (sb : superblock) : Prop := {
  g_sb : sb_of (content v 1) = sb;
  g_one : home l v 1;
  g_free1 : handles v !! 1 = None;
  g_ino : 0 <= sb_ninodes sb;
  g_size : 0 <= sb_size sb <= nsect v;
  g_bitmap : forall b, 0 <= b < sb_size sb ->
    home l v (BBLOCK b (sb_ninodes sb)) /\ handles v !! BBLOCK b (sb_ninodes sb) = None
}.

(** Of the sectors outside the log only those in [ss] change, and those only
    in the cache. *)
Definition only_changes l v v' (ss : list Z) : Prop :=
  nsect v' = nsect v /\ handles v' = handles v /\
  forall s, home l v s -> disk v' s = disk v s /\ (s ∉ ss -> content v' s = content v s).

Lemma updates_only l v v' s d : updates l v v' s d -> only_changes l v v' [s].
Proof.
  intros (A & B & C & _). split; [done|]. split; [done|]. intros s' Hs. destruct (C s' Hs) as [D ->].
  split; [done|]. intros Hne. rewrite D, zupd_ne; [done|]. set_solver.
Qed.

Lemma updates_at l v v' s d : updates l v v' s d -> home l v s -> content v' s = d.
Proof. intros (_ & _ & C & _) Hs. destruct (C s Hs) as [-> _]. apply zupd_eq. Qed.

Lemma home_same l l' v v' s : same_log l l' -> nsect v' = nsect v -> home l v s -> home l' v' s.
Proof. unfold home. intros (_ & -> & -> & _) ->. done. Qed.

Lemma BBLOCK_inj b b' n : BBLOCK b n = BBLOCK b' n -> b / BPB = b' / BPB.
Proof. unfold BBLOCK. lia. Qed.

(** A new bitmap block for [b] shows in the bits of its blocks only. *)
Lemma used_updates l v v' sb b d : fs_geom l v sb -> 0 <= b < sb_size sb ->
  updates l v v' (BBLOCK b (sb_ninodes sb)) d -> forall b', 0 <= b' < sb_size sb ->
  used v' sb b' = if b' / BPB =? b / BPB then bit d (b' mod BPB) else used v sb b'.
Proof.
  intros Hg Hb Hu b' Hb'. unfold used. destruct (g_bitmap _ _ _ Hg b Hb) as [Hho _].
  destruct (Z.eqb_spec (b' / BPB) (b / BPB)) as [E|E].
  - replace (BBLOCK b' (sb_ninodes sb)) with (BBLOCK b (sb_ninodes sb)) by (unfold BBLOCK; by rewrite E).
    by rewrite (updates_at _ _ _ _ _ Hu Hho).
  - destruct Hu as (_ & _ & C & _). destruct (g_bitmap _ _ _ Hg b' Hb') as [Hho' _]. destruct (C _ Hho') as [-> _].
    rewrite zupd_ne; [done|]. intros E'%BBLOCK_inj. done.
Qed.

Lemma geom_updates l l' v v' sb s d : fs_geom l v sb -> same_log l l' -> updates l v v' s d -> s <> 1 -> fs_geom l' v' sb.
Proof.
  intros [A B C D E F] Hl Hu Hs. pose proof Hu as (Hn & Hh & Hc & _). split; try done.
  - destruct (Hc 1 B) as [-> _]. by rewrite zupd_ne.
  - by apply (home_same l l' v v').
  - by rewrite Hh.
  - by rewrite Hn.
  - intros b Hb. rewrite Hh. destruct (F b Hb) as [Hho Hn']. split; [by apply (home_same l l' v v')|done].
Qed.

Lemma BBLOCK_ge b n : 0 <= b -> 0 <= n -> 3 <= BBLOCK b n.
Proof. intros. unfold BBLOCK, BPB, IPB. Z.div_mod_to_equations. lia. Qed.

Lemma split_block b b' : b' / BPB = b / BPB -> (b' mod BPB =? b mod BPB) = (b' =? b).
Proof.
  intros E. destruct (Z.eqb_spec b' b) as [->|Hne]; [by rewrite Z.eqb_refl|].
  apply Z.eqb_neq. intros E'. apply Hne. rewrite (Z.div_mod b' BPB), (Z.div_mod b BPB) by done. congruence.
Qed.

(** C28: bfree clears the bit of a block in use: that block is then free, no
    other block's bit and no other sector changes, and one block of the
    transaction's room is used. Freeing a free block panics. *)
Theorem bfree_spec f v sb k b :
  tx (flog f) v k -> 0 < k -> fs_geom (flog f) v sb -> 0 <= b < sb_size sb ->
  (used v sb b = true ->
   wp (bfree ROOTDEV b) (fun _ f' => exists v', tx (flog f') v' (k - 1) /\ fs_geom (flog f') v' sb /\
     same_log (flog f) (flog f') /\ inodes f' = inodes f /\ ic_lock f' = ic_lock f /\
     (forall b', 0 <= b' < sb_size sb -> used v' sb b' = negb (b' =? b) && used v sb b') /\
     only_changes (flog f) v v' [BBLOCK b (sb_ninodes sb)]) f) /\
  (used v sb b = false -> bfree ROOTDEV b f = Panic "freeing free block").
Proof.
  intros Ht Hk Hg Hb. set (l := flog f). assert (f = with_log f l) as Ef by (by destruct f).
  destruct (readsb_run f l v k Ht ltac:(lia) ltac:(apply (g_one _ _ _ Hg)) (g_free1 _ _ _ Hg)) as (c & E1 & Ht1).
  rewrite (g_sb _ _ _ Hg), <- Ef in E1. destruct (g_bitmap _ _ _ Hg b Hb) as [Hho Hn]. set (s := BBLOCK b _) in *.
  destruct (bread_run f _ v k s Ht1 ltac:(lia) ltac:(apply Hho) Hn) as (h & c2 & E2 & Hr2).
  set (lc := with_cache (with_cache l c) c2) in E2.
  assert (handles (hold s h v) !! s = Some h) as Hh by apply lookup_insert_eq.
  pose proof (bdata_run f l c2 _ _ _ Hr2 Hh) as E3. change (with_cache l c2) with lc in E3. cbn [content hold] in E3.
  pose proof (bit_test (content v s) (b mod BPB) ltac:(by apply Z.mod_pos_bound)) as Et.
  change (bit (content v s) (b mod BPB)) with (used v sb b) in Et.
  split; intros Hu; rewrite Hu in Et; cbn [negb] in Et.
  - unfold bfree. eapply wp_bind_ok; [exact E1|]. eapply wp_bind_ok; [exact E2|]. eapply wp_bind_ok; [exact E3|].
    cbv zeta. fold s. rewrite Et.
    set (d := st8 _ _ _). assert (zlen (content v s) = 512) as Hz by (apply (bc_block _ _ _ (tx_rep _ _ _ Ht)), Hho).
    destruct (update_run f l v s h d k c2 Ht Hk Hn Hho ltac:(unfold d; by rewrite zlen_st8) Hr2)
      as (s1 & s2 & l' & v' & E4 & E5 & E6 & Ht' & Hl & Hup). change (with_cache l c2) with lc in E4.
    eapply wp_bind_ok; [exact E4|]. eapply wp_bind_ok; [exact E5|]. eapply ok_wp; [exact E6|].
    exists v'. split; [done|]. split; [|split; [done|split; [done|split; [done|split]]]].
    + apply (geom_updates l l' v v' sb s d Hg Hl Hup). pose proof (BBLOCK_ge b _ ltac:(lia) (g_ino _ _ _ Hg)) as Hs3. fold s in Hs3. clear -Hs3. lia.
    + intros b' Hb'. rewrite (used_updates _ _ _ _ _ _ Hg Hb Hup b' Hb').
      destruct (Z.eqb_spec (b' / BPB) (b / BPB)) as [E|E].
      * unfold d. rewrite bit_clear; [|by apply Z.mod_pos_bound|done|by apply Z.mod_pos_bound].
        rewrite (split_block _ _ E). unfold used. replace (BBLOCK b' (sb_ninodes sb)) with s; [done|].
        unfold s, BBLOCK. by rewrite E.
      * destruct (Z.eqb_spec b' b) as [->|]; done.
    + by apply (updates_only _ _ _ _ d).
  - unfold bfree. rewrite (bind_ok _ _ _ _ _ E1), (bind_ok _ _ _ _ _ E2), (bind_ok _ _ _ _ _ E3).
    cbv zeta. fold s. by rewrite Et.
Qed.


(** *** Allocation *)

(** The first block that the bitmap has free, if there is one, is a data block.
    (Of the others nothing is asked: mkfs leaves the blocks of the log free.) *)
Definition data_ok l v (sb : superblock) : Prop := forall b, 0 <= b < sb_size sb -> used v sb b = false -> (forall b', 0 <= b' < b -> used v sb b' = true) ->
  home l v b /\ handles v !! b = None /\ b <> 1 /\ forall b', 0 <= b' < sb_size sb -> b <> BBLOCK b' (sb_ninodes sb).

(** The state after allocating [b] from [l], [v]. *)
Definition allocated l v (sb : superblock) (k : Z) (b : Z) l' v' : Prop :=
  0 <= b < sb_size sb /\ used v sb b = false /\ (forall b', 0 <= b' < b -> used v sb b' = true) /\
  tx l' v' (k - 2) /\ fs_geom l' v' sb /\ same_log l l' /\
  (forall b', 0 <= b' < sb_size sb -> used v' sb b' = (b' =? b) || used v sb b') /\
  content v' b = replicate 512 0 /\ only_changes l v v' [BBLOCK b (sb_ninodes sb); b] /\
  dirty v' = {[BBLOCK b (sb_ninodes sb); b]} ∪ dirty v.

Lemma geom_cache l v sb c : fs_geom l v sb -> fs_geom (with_cache l c) v sb.
Proof. intros [A B C D E F]. by split. Qed.

Lemma only_changes_trans l l1 v v1 v2 ss1 ss2 : only_changes l v v1 ss1 -> same_log l l1 -> only_changes l1 v1 v2 ss2 ->
  only_changes l v v2 (ss1 ++ ss2).
Proof.
  intros (A & B & C) Hl (A' & B' & C'). split; [congruence|]. split; [congruence|]. intros s Hs.
  destruct (C s Hs) as [D E], (C' s (home_same _ _ _ _ _ Hl A Hs)) as [D' E']. split; [congruence|].
  intros Hn. rewrite E' by set_solver. apply E. set_solver.
Qed.

(** Zeroing a block. *)
Lemma bzero_run f l v k b : tx l v k -> 0 < k -> home l v b -> handles v !! b = None ->
  exists l' v', bzero ROOTDEV b (with_log f l) = Ok tt (with_log f l') /\ tx l' v' (k - 1) /\ same_log l l' /\
    updates l v v' b (replicate 512 0).
Proof.
  intros Ht Hk Hho Hn. destruct (bread_run f l v k b Ht ltac:(lia) ltac:(apply Hho) Hn) as (h & c & E & Hr).
  destruct (update_run f l v b h (replicate 512 0) k c Ht Hk Hn Hho eq_refl Hr) as (s1 & s2 & l' & v' & E1 & E2 & E3 & Hx).
  exists l', v'. split; [|exact Hx]. unfold bzero. by rewrite (bind_ok _ _ _ _ _ E), (bind_ok _ _ _ _ _ E1), (bind_ok _ _ _ _ _ E2).
Qed.

(** What the scan of one bitmap block finds. *)
Lemma free_bit_run v sb j n f : 0 <= j -> 0 <= n <= BPB ->
  exists r, free_bit (content v (BBLOCK (j * BPB) (sb_ninodes sb))) n f = Ok r f /\
    match r with
    | Some bi => 0 <= bi < n /\ used v sb (j * BPB + bi) = false /\ forall i, 0 <= i < bi -> used v sb (j * BPB + i) = true
    | None => forall i, 0 <= i < n -> used v sb (j * BPB + i) = true
    end.
Proof.
  intros Hj Hn. set (d := content v _).
  assert (forall i, 0 <= i < BPB -> used v sb (j * BPB + i) = bit d i) as Hu.
  { intros i Hi. unfold used. replace (BBLOCK (j * BPB + i) _) with (BBLOCK (j * BPB) (sb_ninodes sb)).
    - by rewrite Z.add_comm, Z_mod_plus_full, Z.mod_small.
    - unfold BBLOCK. rewrite Z.div_mul, Z.div_add_l, (Z.div_small i) by done. lia. }
  destruct (find_pure (fun bi => if Z.land (ld8 d (bi / 8)) (Z.shiftl 1 (bi mod 8)) =? 0 then Some bi else None)
    (Z.to_nat n) 0 f) as (r & Hr & Hs). exists r. split; [exact Hr|].
  assert (forall bi, 0 <= bi -> (if Z.land (ld8 d (bi / 8)) (Z.shiftl 1 (bi mod 8)) =? 0 then Some bi else None) =
    if bit d bi then None else Some bi) as Hb by (intros bi Hbi; rewrite bit_test by done; by destruct (bit d bi)).
  destruct r as [a|].
  - destruct Hs as (i & Hi & Ha & Hlt). rewrite Hb in Ha by lia. destruct (bit d i) eqn:Eb; [done|].
    injection Ha as <-. split; [lia|]. split; [by rewrite Hu by lia|]. intros i' Hi'. rewrite Hu by lia.
    specialize (Hlt i' ltac:(lia)). rewrite Hb in Hlt by lia. by destruct (bit d i').
  - intros i Hi. rewrite Hu by lia. specialize (Hs i ltac:(lia)). rewrite Hb in Hs by lia. by destruct (bit d i).
Qed.

(** Taking the free block [b], whose bitmap block is held. *)
Lemma balloc_take f l v sb k b h c :
  tx l v k -> 2 <= k -> fs_geom l v sb -> data_ok l v sb ->
  0 <= b < sb_size sb -> used v sb b = false -> (forall b', 0 <= b' < b -> used v sb b' = true) ->
  let s := BBLOCK b (sb_ninodes sb) in
  let bi := b mod BPB in
  let d := content v s in
  bc_rep c (hold s h v) ->
  exists l' v', (bstore h (st8 d (bi / 8) (Z.lor (ld8 d (bi / 8)) (Z.shiftl 1 (bi mod 8)))) ;;;
      log_write_ h ;;; brelse h ;;; bzero ROOTDEV b ;;; ret b) (with_log f (with_cache l c)) = Ok b (with_log f l') /\
    allocated l v sb k b l' v'.
Proof.
  intros Ht Hk Hg Hdok Hb Hu Hlt s bi d Hr. destruct (g_bitmap _ _ _ Hg b Hb) as [Hho Hn].
  destruct (Hdok b Hb Hu Hlt) as (Hbho & Hbn & Hb1 & Hbb). fold s in Hho, Hn. set (d' := st8 _ _ _).
  assert (0 <= bi < 4096) as Hbi by (by apply Z.mod_pos_bound).
  assert (zlen d = 512) as Hd by (apply (bc_block _ _ _ (tx_rep _ _ _ Ht)), Hho).
  assert (s <> 1) as Hs1 by (pose proof (BBLOCK_ge b _ ltac:(lia) (g_ino _ _ _ Hg)) as Hge; fold s in Hge; clear -Hge; lia).
  destruct (update_run f l v s h d' k c Ht ltac:(lia) Hn Hho ltac:(unfold d'; by rewrite zlen_st8) Hr)
    as (s1 & s2 & l1 & v1 & E1 & E2 & E3 & Ht1 & Hl1 & Hup1).
  pose proof (geom_updates _ _ _ _ _ _ _ Hg Hl1 Hup1 Hs1) as Hg1.
  assert (home l1 v1 b) as Hbho1 by (apply (home_same l l1 v v1); [done|apply Hup1|done]).
  assert (handles v1 !! b = None) as Hbn1 by (destruct Hup1 as (_ & -> & _); done).
  destruct (bzero_run f l1 v1 (k - 1) b Ht1 ltac:(lia) Hbho1 Hbn1) as (l2 & v2 & E4 & Ht2 & Hl2 & Hup2).
  exists l2, v2. split.
  { rewrite (bind_ok _ _ _ _ _ E1), (bind_ok _ _ _ _ _ E2), (bind_ok _ _ _ _ _ E3). by rewrite (bind_ok _ _ _ _ _ E4). }
  assert (same_log l l2) as Hl by (unfold same_log in *; intuition congruence).
  split; [done|]. split; [done|]. split; [done|]. split; [by replace (k - 2) with (k - 1 - 1) by lia|].
  split; [by apply (geom_updates _ _ _ _ _ _ _ Hg1 Hl2 Hup2)|]. split; [done|]. split; [|split].
  - intros b' Hb'. transitivity (used v1 sb b').
    + unfold used. f_equal. destruct Hup2 as (_ & _ & C & _).
      destruct (C (BBLOCK b' (sb_ninodes sb))) as [-> _]; [by apply (g_bitmap _ _ _ Hg1)|].
      rewrite zupd_ne; [done|]. by apply not_eq_sym, Hbb.
    + rewrite (used_updates _ _ _ _ _ _ Hg Hb Hup1 b' Hb').
      destruct (Z.eqb_spec (b' / BPB) (b / BPB)) as [E|E].
      * unfold d'. rewrite bit_set; [|done|done|by apply Z.mod_pos_bound]. unfold bi. rewrite (split_block _ _ E).
        unfold used. replace (BBLOCK b' (sb_ninodes sb)) with s; [done|]. unfold s, BBLOCK. by rewrite E.
      * destruct (Z.eqb_spec b' b) as [->|]; done.
  - by apply (updates_at l1 v1).
  - split; [apply (only_changes_trans l l1 v v1 v2 [s] [b]); [by apply (updates_only _ _ _ _ d')|done|by apply (updates_only _ _ _ _ _ Hup2)]|].
    destruct Hup1 as (_ & _ & _ & D1), Hup2 as (_ & _ & _ & ->). rewrite D1. fold s. clear. set_solver.
Qed.

Lemma balloc_from_run sb v k f fuel : forall l j,
  tx l v k -> 2 <= k -> fs_geom l v sb -> data_ok l v sb -> 0 <= j ->
  (1 <= fuel)%nat -> sb_size sb - j * BPB <= BPB * (Z.of_nat fuel - 1) ->
  (forall b, 0 <= b < sb_size sb -> b < j * BPB -> used v sb b = true) ->
  (exists b l' v', balloc_from fuel ROOTDEV sb (j * BPB) (with_log f l) = Ok b (with_log f l') /\ allocated l v sb k b l' v') \/
  ((forall b, 0 <= b < sb_size sb -> used v sb b = true) /\
   balloc_from fuel ROOTDEV sb (j * BPB) (with_log f l) = Panic "balloc: out of blocks").
Proof.
  induction fuel as [|fuel IH]; intros l j Ht Hk Hg Hdok Hj Hf1 Hf Hlow; [lia|].
  cbn [balloc_from]. destruct (Z.ltb_spec (j * BPB) (sb_size sb)) as [Hlt|Hge];
    [|right; split; [|done]; intros b Hb; apply Hlow; lia].
  set (n := Z.min BPB (sb_size sb - j * BPB)). set (s := BBLOCK (j * BPB) (sb_ninodes sb)).
  assert (0 <= j * BPB < sb_size sb) as Hjb by (split; [apply Z.mul_nonneg_nonneg; [done|by vm_compute]|done]).
  destruct (g_bitmap _ _ _ Hg (j * BPB) Hjb) as [Hho Hn]. fold s in Hho, Hn.
  destruct (bread_run f l v k s Ht ltac:(lia) ltac:(apply Hho) Hn) as (h & c & E1 & Hr).
  rewrite (bind_ok _ _ _ _ _ E1). assert (handles (hold s h v) !! s = Some h) as Hh by apply lookup_insert_eq.
  rewrite (bind_ok _ _ _ _ _ (bdata_run f l c _ _ _ Hr Hh)). cbn [content hold].
  destruct (free_bit_run v sb j n (with_log f (with_cache l c)) Hj ltac:(unfold n, BPB in *; lia)) as (r & E2 & Hr2).
  fold s in E2. rewrite (bind_ok _ _ _ _ _ E2). destruct r as [bi|].
  - left. destruct Hr2 as (Hbi & Hu & Hlt'). set (b := j * BPB + bi) in *.
    assert (b / BPB = j /\ b mod BPB = bi) as [Ebj Ebi].
    { unfold b. rewrite Z.div_add_l, Z.div_small by (done || lia).
      rewrite (Z.add_comm (j * BPB)), Z_mod_plus_full, Z.mod_small by lia. lia. }
    assert (BBLOCK b (sb_ninodes sb) = s) as Es by (unfold s, BBLOCK; by rewrite Ebj, Z.div_mul).
    destruct (balloc_take f l v sb k b h c Ht Hk Hg Hdok ltac:(lia) Hu) as (l' & v' & E3 & Hal).
    { intros b' Hb'. destruct (decide (b' < j * BPB)); [apply Hlow; lia|].
      replace b' with (j * BPB + (b' - j * BPB)) by lia. apply Hlt'. lia. }
    { by rewrite Es. }
    exists b, l', v'. split; [|done]. rewrite Es, Ebi in E3. exact E3.
  - destruct (brelse_run f l c v k s h Ht ltac:(apply Hho) Hn Hr) as (c' & E3 & Ht').
    rewrite (bind_ok _ _ _ _ _ E3). replace (j * BPB + BPB) with ((j + 1) * BPB) by lia.
    destruct (IH (with_cache l c') (j + 1) Ht' Hk (geom_cache _ _ _ _ Hg) Hdok ltac:(lia)) as [R|R].
    + destruct fuel; [unfold BPB in *; lia|lia].
    + unfold BPB in *. lia.
    + intros b Hb Hbj. destruct (decide (b < j * BPB)); [by apply Hlow|].
      replace b with (j * BPB + (b - j * BPB)) by lia. apply Hr2. unfold n, BPB in *. lia.
    + left. exact R.
    + by right.
Qed.

Lemma balloc_run f l v sb k : tx l v k -> 2 <= k -> fs_geom l v sb -> data_ok l v sb ->
  (exists b l' v', balloc ROOTDEV (with_log f l) = Ok b (with_log f l') /\ allocated l v sb k b l' v') \/
  ((forall b, 0 <= b < sb_size sb -> used v sb b = true) /\ balloc ROOTDEV (with_log f l) = Panic "balloc: out of blocks").
Proof.
  intros Ht Hk Hg Hdok.
  destruct (readsb_run f l v k Ht ltac:(lia) ltac:(apply (g_one _ _ _ Hg)) (g_free1 _ _ _ Hg)) as (c & E1 & Ht1).
  rewrite (g_sb _ _ _ Hg) in E1. pose proof (g_size _ _ _ Hg) as Hsz.
  assert (sb_size sb - 0 * BPB <= BPB * (Z.of_nat (Z.to_nat (sb_size sb / BPB) + 2) - 1)) as Hfuel.
  { unfold BPB. Z.div_mod_to_equations. lia. }
  destruct (balloc_from_run sb v k f (Z.to_nat (sb_size sb / BPB) + 2) (with_cache l c) 0 Ht1 Hk (geom_cache _ _ _ _ Hg) Hdok ltac:(lia) ltac:(lia) Hfuel
    ltac:(lia)) as [(b & l' & v' & E & Hal)|[Hall E]]; rewrite Z.mul_0_l in E; unfold balloc; rewrite (bind_ok _ _ _ _ _ E1).
  - left. by exists b, l', v'.
  - by right.
Qed.

(** C27: balloc takes the first block that the bitmap has free: it was free,
    is in use afterwards and reads as zeros; no other bit, no other sector and
    nothing on the disk outside the log changes, and two blocks of the
    transaction's room are used. If every block is in use it panics. *)
Theorem balloc_spec f v sb k :
  tx (flog f) v k -> 2 <= k -> fs_geom (flog f) v sb -> data_ok (flog f) v sb ->
  ((exists b, 0 <= b < sb_size sb /\ used v sb b = false) ->
   wp (balloc ROOTDEV) (fun b f' => exists l' v', f' = with_log f l' /\ allocated (flog f) v sb k b l' v') f) /\
  ((forall b, 0 <= b < sb_size sb -> used v sb b = true) -> balloc ROOTDEV f = Panic "balloc: out of blocks").
Proof.
  intros Ht Hk Hg Hdok. assert (f = with_log f (flog f)) as Ef by (by destruct f).
  destruct (balloc_run f (flog f) v sb k Ht Hk Hg Hdok) as [(b & l' & v' & E & Hal)|[Hall E]]; rewrite <-Ef in E; split; try done.
  - intros _. eapply ok_wp; [exact E|]. by exists l', v'.
  - intros Hall. destruct Hal as (Hb & Hu & _). by rewrite Hall in Hu.
  - intros (b & Hb & Hu). by rewrite Hall in Hu.
Qed.

End Trans.

