(* ===== verification/FsInst.v ===== *)
(** * The file system code on a small disk

    An eight-sector disk with a superblock, a bitmap and a four-sector log, run
    by the buffer cache of bio.c: the instance on which the theorems on blocks
    and on the inode cache are exercised. *)

From S2P Require Import Prelude BlockCache Bio BioSpec Log LogSpec Fs FsSpec.

(** size 8, no inodes, 4 log sectors; the bitmap has only block 2 free. *)
Definition demo_img : list Z :=
  replicate 512 0 ++ ([8;0;0;0; 1;0;0;0; 0;0;0;0; 4;0;0;0] ++ replicate 496 0) ++ replicate 512 7 ++
  (251 :: replicate 511 0) ++ replicate 2048 0.

Definition demo_sb : superblock := Superblock 8 1 0 4.

Definition demo_fs_view : bspec := boot_view demo_img.

Definition demo_fs_log : log bcache := Log false 4 4 true ROOTDEV 0 (replicate 10 0) 0 (boot_cache demo_img).

(** Two references to inode 1 in slot 0, slot 1 free. *)
Definition demo_inodes : list inode :=
  [Inode ROOTDEV 1 2 2 1 0 0 1 32 (replicate 13 0); Inode 0 0 0 0 0 0 0 0 0 (replicate 13 0)].

Definition demo_fs : fs bcache := Fs false demo_inodes [] demo_fs_log.

Lemma demo_tx : tx (flog demo_fs) demo_fs_view 2.
Proof.
  split.
  - apply boot_cache_ok.
  - split; [by split| |cbn; lia|reflexivity|by vm_compute].
    split; [by vm_compute|]. split; [by vm_compute|]. split; [apply NoDup_nil_2|]. cbn. lia.
  - reflexivity.
  - by split.
  - by vm_compute.
  - reflexivity.
Qed.

Lemma demo_BBLOCK b : 0 <= b < 8 -> BBLOCK b 0 = 3.
Proof. intros Hb. unfold BBLOCK, BPB, IPB. by rewrite Z.div_small by lia. Qed.

Lemma demo_geom : fs_geom (flog demo_fs) demo_fs_view demo_sb.
Proof.
  split.
  - by vm_compute.
  - split; [by vm_compute|left; by vm_compute].
  - reflexivity.
  - done.
  - by vm_compute.
  - intros b Hb. cbn [sb_size sb_ninodes demo_sb] in *. rewrite demo_BBLOCK by done.
    split; [|reflexivity]. split; [by vm_compute|left; by vm_compute].
Qed.

Lemma demo_used b : 0 <= b < 8 -> used demo_fs_view demo_sb b = negb (b =? 2).
Proof.
  intros Hb. assert (b = 0 \/ b = 1 \/ b = 2 \/ b = 3 \/ b = 4 \/ b = 5 \/ b = 6 \/ b = 7) as E by lia.
  destruct E as [->|[->|[->|[->|[->|[->|[->| ->]]]]]]]; vm_compute; reflexivity.
Qed.

Lemma demo_data_ok : data_ok (flog demo_fs) demo_fs_view demo_sb.
Proof.
  intros b Hb Hu _. cbn [sb_size sb_ninodes demo_sb] in *. rewrite demo_used in Hu by done.
  destruct (Z.eqb_spec b 2) as [->|]; [|done]. split; [split; [by vm_compute|left; by vm_compute]|].
  split; [reflexivity|]. split; [done|]. intros b' Hb'. by rewrite demo_BBLOCK.
Qed.

Lemma bfree_spec_witness : wp (bfree ROOTDEV 0) (fun _ f' => exists v', used v' demo_sb 0 = false /\ used v' demo_sb 1 = true) demo_fs.
Proof.
  assert (used demo_fs_view demo_sb 0 = true) as Hu0 by exact (demo_used 0 ltac:(lia)).
  assert (0 <= 0 < sb_size demo_sb) as H0 by (cbn; lia).
  eapply wp_mono; [exact (proj1 (bfree_spec demo_fs demo_fs_view demo_sb 2 0 demo_tx eq_refl demo_geom H0) Hu0)|].
  intros [] f' (v' & _ & _ & _ & _ & _ & Hu & _). exists v'. cbn [sb_size demo_sb] in Hu.
  rewrite !Hu, (demo_used 1) by lia. done.
Defined.

Lemma balloc_spec_witness : wp (balloc ROOTDEV) (fun b f' => b = 2 /\ exists v', content v' 2 = replicate 512 0) demo_fs.
Proof.
  assert (used demo_fs_view demo_sb 2 = false) as Hu2 by exact (demo_used 2 ltac:(lia)).
  assert (exists b, 0 <= b < sb_size demo_sb /\ used demo_fs_view demo_sb b = false) as He by (exists 2; split; [cbn; lia|exact Hu2]).
  eapply wp_mono; [exact (proj1 (balloc_spec demo_fs demo_fs_view demo_sb 2 demo_tx (Z.le_refl 2) demo_geom demo_data_ok) He)|].
  intros b f' (l' & v' & _ & Hb & Hu & _ & _ & _ & _ & _ & Hc & _). cbn [sb_size demo_sb] in Hb.
  rewrite demo_used in Hu by done. destruct (Z.eqb_spec b 2) as [->|]; [|done]. split; [done|by exists v'].
Defined.

Lemma demo_icache_ok : icache_ok (inodes demo_fs).
Proof.
  assert (forall k x, zget (inodes demo_fs) k = Some x -> (k = 0 \/ k = 1) /\ 0 <= i_ref x /\ (k = 1 -> i_ref x = 0)) as Hx.
  { intros k x Hk. pose proof (zget_Some _ _ _ Hk) as Hr. change (zlen _) with 2 in Hr.
    assert (k = 0 \/ k = 1) as [->| ->] by lia; cbn in Hk; injection Hk as <-; cbn; lia. }
  split.
  - intros k x Hk%Hx. lia.
  - intros i j x y dev inum Hi Hj (A & _) (B & _). apply Hx in Hi, Hj.
    destruct Hi as ([->| ->] & _ & Hi), Hj as ([->| ->] & _ & Hj); try done; lia.
Qed.

Lemma iget_spec_witness :
  wp (iget ROOTDEV 1) (fun ip _ => ip = 0) demo_fs /\ wp (iget ROOTDEV 5) (fun ip _ => ip = 1) demo_fs.
Proof.
  split.
  - eapply wp_mono; [apply (iget_spec demo_fs ROOTDEV 1 demo_icache_ok eq_refl)|].
    + exists 0, (Inode ROOTDEV 1 2 2 1 0 0 1 32 (replicate 13 0)). split; [reflexivity|]. left. by vm_compute.
    + intros ip f' ((x & x' & Hx & _ & _ & _ & Hor) & _). pose proof (zget_Some _ _ _ Hx) as Hr. change (zlen _) with 2 in Hr.
      assert (ip = 0 \/ ip = 1) as [->| ->] by lia; [done|]. exfalso. cbn in Hx. injection Hx as <-.
      destruct Hor as [[(A & _) _]|(_ & _ & _ & Hno)]; [cbn in A; lia|].
      apply (Hno 0 (Inode ROOTDEV 1 2 2 1 0 0 1 32 (replicate 13 0)) eq_refl). by vm_compute.
  - eapply wp_mono; [apply (iget_spec demo_fs ROOTDEV 5 demo_icache_ok eq_refl)|].
    + exists 1, (Inode 0 0 0 0 0 0 0 0 0 (replicate 13 0)). split; [reflexivity|by right].
    + intros ip f' ((x & x' & Hx & _ & _ & _ & Hor) & _). pose proof (zget_Some _ _ _ Hx) as Hr. change (zlen _) with 2 in Hr.
      assert (ip = 0 \/ ip = 1) as [->| ->] by lia; [|done]. exfalso. cbn in Hx. injection Hx as <-.
      destruct Hor as [[(_ & _ & A) _]|(A & _)]; [done|cbn in A; lia].
Defined.

Lemma idup_iput_roundtrip_witness : wp (idup 0 ;;; iput 0) (fun _ f' => f' = demo_fs) demo_fs.
Proof. by apply (idup_iput_roundtrip demo_fs 0 (Inode ROOTDEV 1 2 2 1 0 0 1 32 (replicate 13 0))). Defined.
