(* ===== verification/Vm.v ===== *)
(** * vm.c: two-level page tables

    Page tables and user pages live in the byte memory of string.c; physical
    pages come from the buddy allocator, page tables from the free list of
    kpt_mem or from the buddy allocator.  A pointer is a 32-bit address, NULL is
    0.  The kernel's page directory is a linker symbol and thus a parameter;
    flushing the TLB and the caches only counts. *)

From S2P Require Import Prelude CString Buddy Cpu.

(** ** mmu.h and memlayout.h *)

Definition align_dn (sz al : Z) : Z := Z.land (u32 sz) (u32 (Z.lnot (al - 1))).

Definition AP_KO : Z := 1.

Definition AP_KU : Z := 3.

Definition PE_CACHE : Z := Z.shiftl 1 3.

Definition PE_BUF : Z := Z.shiftl 1 2.

Definition PE_TYPES : Z := 3.

Definition UPDE_TYPE : Z := 1.

Definition PTE_TYPE : Z := 2.

Definition PDE_SHIFT : Z := 20.

Definition PDE_SZ : Z := Z.shiftl 1 PDE_SHIFT.

Definition PDE_IDX (v : Z) : Z := Z.shiftr v PDE_SHIFT.

Definition PTE_SZ : Z := Z.shiftl 1 PTE_SHIFT.

Definition NUM_PTE : Z := Z.shiftl 1 (PDE_SHIFT - PTE_SHIFT).

Definition PTE_IDX (v : Z) : Z := Z.land (Z.shiftr v PTE_SHIFT) (NUM_PTE - 1).

Definition PTE_ADDR (v : Z) : Z := align_dn v PTE_SZ.

Definition PTE_AP (pte : Z) : Z := Z.land (Z.shiftr pte 4) 3.

Definition UADDR_BITS : Z := 28.

Definition UADDR_SZ : Z := Z.shiftl 1 UADDR_BITS.

Definition NUM_UPDE : Z := Z.shiftl 1 (UADDR_BITS - PDE_SHIFT).

Definition PT_SZ : Z := Z.shiftl NUM_PTE 2.

Definition PT_ADDR (v : Z) : Z := align_dn v PT_SZ.

Definition PT_ORDER : Z := 10.

Definition KERNLINK : Z := KERNBASE.

Definition HVECTORS : Z := 4294901760.

Definition v2p (a : Z) : Z := u32 (a - KERNBASE).

Definition p2v (a : Z) : Z := u32 (a + KERNBASE).

(** A little-endian 32-bit load. *)
Definition load32 (m : mem) (a : Z) : Z :=
  m a + 2 ^ 8 * m (u32 (a + 1)) + 2 ^ 16 * m (u32 (a + 2)) + 2 ^ 24 * m (u32 (a + 3)).

(** The state vm.c works on: memory, the buddy allocator, kpt_mem, the
    current CPU's flags and its TTBR0, and the number of TLB flushes. *)
Record vm := Vm {
  v_mem : mem;
  v_kmem : kmem;
  kpt_lock : bool;
  kpt_freelist : Z;
  v_cpu : cpu;
  ttbr0 : Z;
  tlb_flushes : nat
}.

Definition with_mem (m : mem) (s : vm) : vm :=
  Vm m (v_kmem s) (kpt_lock s) (kpt_freelist s) (v_cpu s) (ttbr0 s) (tlb_flushes s).

Definition on_kmem {A} (m : M kmem A) : M vm A :=
  zoom v_kmem (fun k s => Vm (v_mem s) k (kpt_lock s) (kpt_freelist s) (v_cpu s) (ttbr0 s) (tlb_flushes s)) m.

Definition on_cpu {A} (m : M cpu A) : M vm A :=
  zoom v_cpu (fun c s => Vm (v_mem s) (v_kmem s) (kpt_lock s) (kpt_freelist s) c (ttbr0 s) (tlb_flushes s)) m.

Definition load (a : Z) : M vm Z := gets (fun s => load32 (v_mem s) a).

Definition store (a v : Z) : M vm unit := modify (fun s => with_mem (store32 (v_mem s) a v) s).

Definition do_memset (dst v n : Z) : M vm unit := modify (fun s => with_mem (memset (v_mem s) dst v n).1 s).

Definition do_memmove (dst src n : Z) : M vm unit := modify (fun s => with_mem (memmove (v_mem s) dst src n).1 s).

(** ** Page-table pages *)

Definition set_freelist (r : Z) : M vm unit :=
  modify (fun s => Vm (v_mem s) (v_kmem s) (kpt_lock s) r (v_cpu s) (ttbr0 s) (tlb_flushes s)).

Definition set_kpt_lock (b : bool) : M vm unit :=
  modify (fun s => Vm (v_mem s) (v_kmem s) b (kpt_freelist s) (v_cpu s) (ttbr0 s) (tlb_flushes s)).

Definition lock_kpt : M vm unit := s <- get ;; if kpt_lock s then (fun _ => Spin) else set_kpt_lock true.

Definition init_vmm : M vm unit := set_kpt_lock false ;;; set_freelist 0.

(** r->next = kpt_mem.freelist; kpt_mem.freelist = r *)
Definition _kpt_free (v : Z) : M vm unit :=
  s <- get ;; store v (kpt_freelist s) ;;; set_freelist v.

Definition kpt_free (v : Z) : M vm unit :=
  if p2v KERNLINK <=? v then on_kmem (kfree v PT_ORDER) else
  lock_kpt ;;; _kpt_free v ;;; set_kpt_lock false.

Fixpoint kpt_freerange_ (fuel : nat) (low hi : Z) : M vm unit :=
  match fuel with
  | O => no_fuel
  | S f => when (low <? hi) (_kpt_free low ;;; kpt_freerange_ f (u32 (low + PT_SZ)) hi)
  end.

Definition kpt_freerange (low hi : Z) : M vm unit := kpt_freerange_ (Z.to_nat ((hi - low) / PT_SZ) + 2) low hi.

Definition kpt_alloc : M vm Z :=
  lock_kpt ;;;
  s <- get ;;
  let r := kpt_freelist s in
  when (negb (r =? 0)) (n <- load r ;; set_freelist n) ;;;
  set_kpt_lock false ;;;
  r <- (if r =? 0 then on_kmem (kmalloc PT_ORDER) else ret r) ;;
  if r =? 0 then panic "oom: kpt_alloc" else
  do_memset r 0 PT_SZ ;;;
  ret r.

(** ** The walk *)

(** Address of the PTE of [va], or NULL. *)
Definition walkpgdir (pgdir va : Z) (alloc : bool) : M vm Z :=
  let pde_at := u32 (pgdir + 4 * PDE_IDX va) in
  pde <- load pde_at ;;
  if negb (Z.land pde PE_TYPES =? 0) then ret (u32 (p2v (PT_ADDR pde) + 4 * PTE_IDX va)) else
  if negb alloc then ret 0 else
  pgtab <- kpt_alloc ;;
  if pgtab =? 0 then ret 0 else
  do_memset pgtab 0 PT_SZ ;;;
  store pde_at (Z.lor (v2p pgtab) UPDE_TYPE) ;;;
  ret (u32 (pgtab + 4 * PTE_IDX va)).

(** The entry that mappages stores. *)
Definition mk_pte (pa ap : Z) : Z :=
  Z.lor (Z.lor (Z.lor (Z.lor pa (Z.shiftl (Z.land ap 3) 4)) PE_CACHE) PE_BUF) PTE_TYPE.

Fixpoint mappages_ (fuel : nat) (pgdir a last pa ap : Z) : M vm Z :=
  match fuel with
  | O => no_fuel
  | S f =>
      pte_at <- walkpgdir pgdir a true ;;
      if pte_at =? 0 then ret (-1) else
      pte <- load pte_at ;;
      if negb (Z.land pte PE_TYPES =? 0) then panic "remap" else
      store pte_at (mk_pte pa ap) ;;;
      if a =? last then ret 0 else mappages_ f pgdir (u32 (a + PTE_SZ)) last (u32 (pa + PTE_SZ)) ap
  end.

(** The loop runs from the first page to the last one, wrapping at 2^32. *)
Definition mappages (pgdir va size pa ap : Z) : M vm Z :=
  let a := align_dn va PTE_SZ in
  let last := align_dn (va + size - 1) PTE_SZ in
  mappages_ (Z.to_nat (u32 (last - a) / PTE_SZ) + 1) pgdir a last pa ap.

Definition flush_tlb : M vm unit :=
  modify (fun s => Vm (v_mem s) (v_kmem s) (kpt_lock s) (kpt_freelist s) (v_cpu s) (ttbr0 s) (S (tlb_flushes s))).

(** [pgdir] is p->pgdir. *)
Definition switchuvm (pgdir : Z) : M vm unit :=
  on_cpu pushcli ;;;
  if pgdir =? 0 then panic "switchuvm: no pgdir" else
  let val := Z.lor (Z.lor (Z.lor (v2p pgdir) 2) 8) 64 in
  modify (fun s => Vm (v_mem s) (v_kmem s) (kpt_lock s) (kpt_freelist s) (v_cpu s) val (tlb_flushes s)) ;;;
  flush_tlb ;;;
  on_cpu popcli.

Definition inituvm (pgdir init sz : Z) : M vm unit :=
  if PTE_SZ <=? sz then panic "inituvm: more than a page" else
  mem <- on_kmem alloc_page ;;
  do_memset mem 0 PTE_SZ ;;;
  mappages pgdir 0 PTE_SZ (v2p mem) AP_KU ;;;
  do_memmove mem init sz.

(** ** Growing, shrinking and copying an address space *)

(** The loop of deallocuvm: where no page table exists, the code rounds up to
    the next directory entry and then still adds a page. *)
Fixpoint deallocuvm_ (fuel : nat) (pgdir a oldsz : Z) : M vm unit :=
  match fuel with
  | O => no_fuel
  | S f =>
      when (a <? oldsz)
        (pte_at <- walkpgdir pgdir a false ;;
         if pte_at =? 0 then deallocuvm_ f pgdir (u32 (align_up a PDE_SZ + PTE_SZ)) oldsz else
         pte <- load pte_at ;;
         when (negb (Z.land pte PE_TYPES =? 0))
           (let pa := PTE_ADDR pte in
            if pa =? 0 then panic "deallocuvm" else
            on_kmem (free_page (p2v pa)) ;;;
            store pte_at 0) ;;;
         deallocuvm_ f pgdir (u32 (a + PTE_SZ)) oldsz)
  end.

Definition deallocuvm (pgdir oldsz newsz : Z) : M vm Z :=
  if oldsz <=? newsz then ret oldsz else
  deallocuvm_ (Z.to_nat (oldsz / PTE_SZ) + 2) pgdir (align_up newsz PTE_SZ) oldsz ;;;
  ret newsz.

Fixpoint allocuvm_ (fuel : nat) (pgdir a oldsz newsz : Z) : M vm Z :=
  match fuel with
  | O => no_fuel
  | S f =>
      if a <? newsz then
        mem <- on_kmem alloc_page ;;
        if mem =? 0 then deallocuvm pgdir newsz oldsz ;;; ret 0 else
        do_memset mem 0 PTE_SZ ;;;
        mappages pgdir a PTE_SZ (v2p mem) AP_KU ;;;
        allocuvm_ f pgdir (u32 (a + PTE_SZ)) oldsz newsz
      else ret newsz
  end.

Definition allocuvm (pgdir oldsz newsz : Z) : M vm Z :=
  if UADDR_SZ <=? newsz then ret 0 else
  if newsz <? oldsz then ret oldsz else
  allocuvm_ (Z.to_nat (newsz / PTE_SZ) + 2) pgdir (align_up oldsz PTE_SZ) oldsz newsz.

Definition freevm (pgdir : Z) : M vm unit :=
  if pgdir =? 0 then panic "freevm: no pgdir" else
  deallocuvm pgdir UADDR_SZ 0 ;;;
  for_ 0 (Z.to_nat NUM_UPDE) (fun i =>
    pde <- load (u32 (pgdir + 4 * i)) ;;
    when (negb (Z.land pde PE_TYPES =? 0)) (kpt_free (p2v (PT_ADDR pde)))) ;;;
  kpt_free pgdir.

Definition clearpteu (pgdir uva : Z) : M vm unit :=
  pte_at <- walkpgdir pgdir uva false ;;
  if pte_at =? 0 then panic "clearpteu" else
  pte <- load pte_at ;;
  store pte_at (Z.lor (Z.land pte (u32 (Z.lnot (Z.shiftl 3 4)))) (Z.shiftl AP_KO 4)).

(** The copy loop; [None] is the [goto bad]. *)
Fixpoint copyuvm_ (fuel : nat) (pgdir d i sz : Z) : M vm bool :=
  match fuel with
  | O => no_fuel
  | S f =>
      if i <? sz then
        pte_at <- walkpgdir pgdir i false ;;
        if pte_at =? 0 then panic "copyuvm: pte should exist" else
        pte <- load pte_at ;;
        if Z.land pte PE_TYPES =? 0 then panic "copyuvm: page not present" else
        mem <- on_kmem alloc_page ;;
        if mem =? 0 then ret false else
        do_memmove mem (p2v (PTE_ADDR pte)) PTE_SZ ;;;
        r <- mappages d i PTE_SZ (v2p mem) (PTE_AP pte) ;;
        if r <? 0 then ret false else copyuvm_ f pgdir d (u32 (i + PTE_SZ)) sz
      else ret true
  end.

Definition copyuvm (pgdir sz : Z) : M vm Z :=
  d <- kpt_alloc ;;
  if d =? 0 then ret 0 else
  ok <- copyuvm_ (Z.to_nat (sz / PTE_SZ) + 2) pgdir d 0 sz ;;
  if ok : bool then ret d else freevm d ;;; ret 0.

(** ** Access to user memory through the page table *)

(** The kernel address of a user page. The code does not test the result
    of walkpgdir before it reads the entry. *)
Definition uva2ka (pgdir uva : Z) : M vm Z :=
  pte_at <- walkpgdir pgdir uva false ;;
  if pte_at =? 0 then fault else
  pte <- load pte_at ;;
  if Z.land pte PE_TYPES =? 0 then ret 0 else
  if negb (PTE_AP pte =? AP_KU) then ret 0 else
  ret (p2v (PTE_ADDR pte)).

Fixpoint copyout_ (fuel : nat) (pgdir va buf len : Z) : M vm Z :=
  match fuel with
  | O => no_fuel
  | S f =>
      if 0 <? len then
        let va0 := align_dn va PTE_SZ in
        pa0 <- uva2ka pgdir va0 ;;
        if pa0 =? 0 then ret (-1) else
        let n := Z.min (PTE_SZ - (va - va0)) len in
        do_memmove (u32 (pa0 + (va - va0))) buf n ;;;
        copyout_ f pgdir (u32 (va0 + PTE_SZ)) (u32 (buf + n)) (len - n)
      else ret 0
  end.

Definition copyout (pgdir va p len : Z) : M vm Z := copyout_ (Z.to_nat (len / PTE_SZ) + 3) pgdir va p len.

Section Kernel.
(** The linker's _kernel_pgtbl. *)
Variable kernel_pgtbl : Z.

Definition paging_init (phy_low phy_hi : Z) : M vm unit :=
  mappages kernel_pgtbl (p2v phy_low) (phy_hi - phy_low) phy_low AP_KU ;;; flush_tlb.

Definition map_vectors (vector_start : Z) : M vm unit :=
  mappages kernel_pgtbl HVECTORS PTE_SZ vector_start AP_KO ;;; flush_tlb.

End Kernel.
