(* ===== verification/VmSpec.v ===== *)
(** * Properties of the page-table code

    The tables as a map from virtual pages to entries, the pages that
    kpt_alloc may hand out, and the effect of mappages and copyout. *)

From S2P Require Import Prelude CString Buddy BuddyList BuddyAlloc BuddySpec Cpu Vm.

(** ** Words in the byte memory *)

Definition agree (m m' : mem) (lo hi : Z) : Prop := forall a, lo <= a < hi -> m' a = m a.

Lemma load32_agree m m' a : 0 <= a -> a + 4 <= 2 ^ 32 -> agree m m' a (a + 4) -> load32 m' a = load32 m a.
Proof. intros Ha Hb H. unfold load32. rewrite !u32_small by lia. by rewrite !H by lia. Qed.

Lemma store32_at m a v b : 0 <= a -> a + 4 <= 2 ^ 32 -> ~ (a <= b < a + 4) -> store32 m a v b = m b.
Proof. intros Ha Hb Hn. unfold store32. rewrite !u32_small by lia. by rewrite !upd_ne by lia. Qed.

Lemma load32_store32_eq m a v : 0 <= a -> a + 4 <= 2 ^ 32 -> load32 (store32 m a v) a = u32 v.
Proof.
  intros Ha Hb. unfold load32, store32. rewrite !u32_small by lia.
  rewrite !upd_ne by lia. rewrite upd_eq. rewrite (upd_ne _ (a + 3) (a + 1)), (upd_ne _ (a + 2) (a + 1)), upd_eq by lia.
  rewrite (upd_ne _ (a + 3) (a + 2)), upd_eq, upd_eq by lia. unfold u8, u32.
  change (2 ^ 8) with 256. change (2 ^ 16) with 65536. change (2 ^ 24) with 16777216.
  change (2 ^ 32) with 4294967296. Z.div_mod_to_equations. lia.
Qed.

Lemma load32_store32_ne m a b v : 0 <= a -> a + 4 <= 2 ^ 32 -> 0 <= b -> b + 4 <= 2 ^ 32 -> b + 4 <= a \/ a + 4 <= b ->
  load32 (store32 m a v) b = load32 m b.
Proof. intros. apply load32_agree; [lia..|]. intros x Hx. apply store32_at; lia. Qed.

Lemma load32_zero m a : 0 <= a -> a + 4 <= 2 ^ 32 -> (forall x, a <= x < a + 4 -> m x = 0) -> load32 m a = 0.
Proof. intros Ha Hb H. unfold load32. rewrite !u32_small by lia. by rewrite !H by lia. Qed.

(** ** Pages of 1 KB *)

Definition page1k (r : Z) : Prop := r mod 1024 = 0 /\ KERNBASE <= r /\ r + 1024 <= 2 ^ 32.

Lemma page1k_disjoint p q a : p mod 1024 = 0 -> q mod 1024 = 0 -> p <> q -> p <= a < p + 1024 -> ~ (q <= a < q + 1024).
Proof. intros Hp Hq Hne Ha Hb. apply Hne. Z.div_mod_to_equations. lia. Qed.

(** The free list of kpt_mem. *)
Fixpoint flist (m : mem) (h : Z) (l : list Z) : Prop :=
  match l with
  | [] => h = 0
  | r :: l' => h = r /\ flist m (load32 m r) l'
  end.

Lemma flist_agree m m' l : forall h, (forall r, r ∈ l -> page1k r) ->
  (forall r, r ∈ l -> agree m m' r (r + 1024)) -> flist m h l -> flist m' h l.
Proof.
  induction l as [|r l IH]; intros h Hp Ha Hf; [done|]. destruct Hf as [-> Hf]. split; [done|].
  destruct (Hp r ltac:(set_solver)) as (_ & H1 & H2). unfold KERNBASE in H1.
  rewrite (load32_agree m m' r); [|lia..|intros x Hx; apply (Ha r); [set_solver|lia]].
  apply IH; [set_solver|set_solver|done].
Qed.

(** Bytes that kpt_alloc may hand out. *)
Definition avail (n : Z) (k : kmem) (l : list Z) (a : Z) : Prop :=
  free_byte n k a \/ exists r, r ∈ l /\ r <= a < r + 1024.

(** The state of the page-table allocator; [l] is the free list. *)
Record kpt_ok (n : Z) (s : vm) (l : list Z) : Prop := {
  k_inv : inv n (v_kmem s);
  k_lock : klock (v_kmem s) = false;
  k_kpt : kpt_lock s = false;
  k_heap : KERNBASE <= kstart_heap (v_kmem s);
  k_list : flist (v_mem s) (kpt_freelist s) l;
  k_nodup : NoDup l;
  k_pages : forall r, r ∈ l -> page1k r /\ forall a, r <= a < r + 1024 -> ~ free_byte n (v_kmem s) a
}.

(** Memory that is not available may change. *)
Lemma kpt_ok_mem n s l m' : kpt_ok n s l -> (forall a, avail n (v_kmem s) l a -> m' a = v_mem s a) -> kpt_ok n (with_mem m' s) l.
Proof.
  intros [A B C D E F G] Hm. split; try done. cbn. eapply flist_agree; [intros r Hr; by apply G| |exact E].
  intros r Hr a Ha. apply Hm. right. by exists r.
Qed.

(** What a call leaves as it was: everything but the memory. *)
Definition same_ctl (s s' : vm) : Prop :=
  v_cpu s' = v_cpu s /\ ttbr0 s' = ttbr0 s /\ tlb_flushes s' = tlb_flushes s /\
  same_hdr (v_kmem s) (v_kmem s').

Definition oom (msg : string) : Prop := msg = "oom: kpt_alloc".

(** A fresh, zeroed page-table page [r]. *)
Definition fresh_page (n : Z) (s : vm) (l : list Z) (r : Z) (s' : vm) (l' : list Z) : Prop :=
  page1k r /\ kpt_ok n s' l' /\ same_ctl s s' /\
  (forall a, r <= a < r + 1024 -> avail n (v_kmem s) l a) /\
  (forall a, avail n (v_kmem s') l' a <-> avail n (v_kmem s) l a /\ ~ (r <= a < r + 1024)) /\
  (forall a, v_mem s' a = if decide (r <= a < r + 1024) then 0 else v_mem s a).

Lemma memset_page m r a : page1k r -> (memset m r 0 PT_SZ).1 a = if decide (r <= a < r + 1024) then 0 else m a.
Proof.
  intros (H1 & H2 & H3). unfold KERNBASE in H2. change PT_SZ with 1024.
  destruct (memset_correct m r 0 1024 ltac:(lia) ltac:(lia) ltac:(lia)) as [_ Hf]. rewrite (Hf a).
  destruct (decide (r <= a < r + 1024)); [by rewrite in_range_true|]. rewrite in_range_false by lia. done.
Qed.

Lemma avail_cons n k r l a : avail n k (r :: l) a <-> r <= a < r + 1024 \/ avail n k l a.
Proof. unfold avail. set_solver. Qed.

Lemma fresh_memset n s l r : page1k r -> kpt_ok n s l -> (forall a, r <= a < r + 1024 -> ~ avail n (v_kmem s) l a) ->
  kpt_ok n (with_mem (memset (v_mem s) r 0 PT_SZ).1 s) l.
Proof.
  intros Hr Hk Hn. apply kpt_ok_mem; [done|]. intros a Ha. rewrite memset_page by done.
  destruct (decide (r <= a < r + 1024)) as [Hin|]; [|done]. by apply Hn in Hin.
Qed.

Lemma on_kmem_run {A} (x : M kmem A) m k kl fl c t tf a k' :
  x k = Ok a k' -> on_kmem x (Vm m k kl fl c t tf) = Ok a (Vm m k' kl fl c t tf).
Proof. intros E. unfold on_kmem, zoom. cbn [v_kmem]. by rewrite E. Qed.

Lemma kpt_alloc_wpe n s l : kpt_ok n s l ->
  wpe kpt_alloc (fun r s' => exists l', fresh_page n s l r s' l') oom s.
Proof.
  intros Hk. destruct (id Hk) as [Hi Hlk Hkl Hh Hf Hnd Hp]. destruct s as [m k kl fl c t tf]. cbn in *.
  unfold kpt_alloc. eapply wpe_ok; [unfold lock_kpt, bind, get; cbn; by rewrite Hkl|].
  eapply wpe_ok; [done|]. cbn. destruct l as [|r l].
  - cbn in Hf. subst fl. change (0 =? 0) with true. cbv iota.
    eapply wpe_ok; [done|]. eapply wpe_ok; [done|].
    pose proof (kmalloc_wp n k PT_ORDER Hi Hlk ltac:(by split)) as W. apply wp_ok in W as (r & k' & E & Hi' & Hhdr & Hr).
    eapply wpe_ok; [by apply on_kmem_run|]. destruct Hr as [(-> & _)|(Hb & Hfree & Hiff)]; [done|].
    destruct Hhdr as (Hl' & Hst' & Hhp' & Hke').
    assert (page1k r) as Hpr.
    { destruct Hb as (_ & H1 & H2 & H3). change (2 ^ PT_ORDER) with 1024 in *. split; [done|]. split; [lia|].
      destruct (inv_heap n k Hi). lia. }
    destruct (Z.eqb_spec r 0) as [->|_]; [destruct Hpr; unfold KERNBASE in *; lia|].
    eapply wpe_ok; [done|]. apply wpe_ret. exists [].
    assert (kpt_ok n (Vm m k' false 0 c t tf) []) as Hk'.
    { split; try done; cbn; [congruence|by rewrite Hhp'|set_solver]. }
    assert (forall a, avail n k' [] a <-> avail n k [] a /\ ~ (r <= a < r + 1024)) as Hav.
    { intros a. unfold avail. rewrite Hiff. change (in_block PT_ORDER r a) with (r <= a < r + 1024). set_solver. }
    split; [done|]. split; [apply (fresh_memset n _ [] r Hpr Hk'); intros a Ha; cbn; rewrite Hav; tauto|].
    split; [by split_and!|]. split; [intros a Ha; left; by apply Hfree|]. split; [exact Hav|].
    intros a. by apply memset_page.
  - destruct Hf as [-> Hf]. destruct (Hp r ltac:(set_solver)) as [Hpr Hrf].
    assert (r =? 0 = false) as Hr0 by (apply Z.eqb_neq; destruct Hpr; unfold KERNBASE in *; lia). cbn [kpt_freelist]. rewrite Hr0. cbn [negb when].
    eapply wpe_ok; [done|]. eapply wpe_ok; [done|]. eapply wpe_ok; [done|]. rewrite Hr0.
    eapply wpe_ok; [reflexivity|].
    apply wpe_ret. exists l. apply NoDup_cons in Hnd as [Hrl Hnd].
    assert (kpt_ok n (Vm m k false (load32 m r) c t tf) l) as Hk'.
    { split; try done. intros q Hq. apply Hp. clear -Hq. set_solver. }
    assert (forall a, r <= a < r + 1024 -> ~ avail n k l a) as Hra.
    { intros a Ha [Hfa|(q & Hq & Haq)]; [by apply (Hrf a)|].
      destruct (Hp q ltac:(set_solver)) as [[Hq1 _] _], Hpr as [Hr1 _].
      apply (page1k_disjoint r q a); try done. intros ->. done. }
    split; [done|]. split; [exact (fresh_memset n _ l r Hpr Hk' Hra)|]. split; [by split_and!|].
    split; [intros a Ha; apply avail_cons; by left|]. split.
    + intros a. rewrite avail_cons. specialize (Hra a). tauto.
    + intros a. by apply memset_page.
Qed.

(** ** Masks *)

Lemma land_u32 y z : 0 <= y < 2 ^ 32 -> Z.land y (u32 z) = Z.land y z.
Proof.
  intros Hy. unfold u32. rewrite <- Z.land_ones by lia. rewrite (Z.land_comm z), Z.land_assoc, Z.land_ones by lia.
  by rewrite Z.mod_small.
Qed.

Lemma align_dn_pow x k : 0 <= k -> align_dn x (2 ^ k) = u32 x - u32 x mod 2 ^ k.
Proof.
  intros Hk. unfold align_dn. rewrite land_u32 by apply u32_range.
  replace (2 ^ k - 1) with (Z.ones k) by (rewrite Z.ones_equiv; lia).
  rewrite <- Z.ldiff_land, Z.ldiff_ones_r, Z.shiftl_mul_pow2, Z.shiftr_div_pow2 by lia.
  pose proof (Z.pow_pos_nonneg 2 k). rewrite (Z.mod_eq (u32 x)) by lia. lia.
Qed.

Lemma lor_low a b k : 0 <= k -> a mod 2 ^ k = 0 -> 0 <= b < 2 ^ k -> Z.lor a b = a + b.
Proof.
  intros Hk Ha Hb. pose proof (Z.pow_pos_nonneg 2 k). replace a with (Z.shiftl (a / 2 ^ k) k) at 1.
  - rewrite lor_shiftl_add by done. rewrite (Z.div_mod a (2 ^ k)) at 2 by lia. lia.
  - rewrite Z.shiftl_mul_pow2 by done. rewrite (Z.div_mod a (2 ^ k)) at 2 by lia. lia.
Qed.

Definition present (e : Z) : bool := negb (Z.land e PE_TYPES =? 0).

Definition tbl (e : Z) : Z := p2v (PT_ADDR e).

Lemma new_pde r : page1k r -> let e := Z.lor (v2p r) UPDE_TYPE in u32 e = e /\ present e = true /\ tbl e = r.
Proof.
  intros (H1 & H2 & H3) e. unfold KERNBASE in *.
  assert (v2p r = r - 2 ^ 31) as Ev by (unfold v2p, KERNBASE; apply u32_small; lia).
  assert ((r - 2 ^ 31) mod 2 ^ 10 = 0) as Hm.
  { change (2 ^ 10) with 1024. Z.div_mod_to_equations. lia. }
  assert (e = r - 2 ^ 31 + 1) as Ee by (unfold e; rewrite Ev; by apply (lor_low _ _ 10)).
  assert (u32 e = e) as Eu by (apply u32_small; lia). split; [done|]. split.
  - unfold present. change PE_TYPES with (2 ^ 2 - 1). rewrite land_ones_mod by lia. rewrite Ee.
    replace ((r - 2 ^ 31 + 1) mod 2 ^ 2) with 1; [done|]. change (2 ^ 2) with 4. change (2 ^ 10) with 1024 in Hm.
    Z.div_mod_to_equations. lia.
  - unfold tbl, PT_ADDR, p2v. change PT_SZ with (2 ^ 10). rewrite align_dn_pow, Eu, Ee by lia.
    replace ((r - 2 ^ 31 + 1) mod 2 ^ 10) with 1.
    + unfold KERNBASE. rewrite u32_small by lia. lia.
    + change (2 ^ 10) with 1024 in *. Z.div_mod_to_equations. lia.
Qed.

Lemma present_zero : present 0 = false.
Proof. done. Qed.

(** ** Page directories *)

Definition uva (va : Z) : Prop := 0 <= va < UADDR_SZ.

Lemma PDE_IDX_range va : uva va -> 0 <= PDE_IDX va < 256.
Proof.
  intros Hv. unfold uva in Hv. change UADDR_SZ with 268435456 in Hv. unfold PDE_IDX. change PDE_SHIFT with 20.
  rewrite Z.shiftr_div_pow2 by lia. change (2 ^ 20) with 1048576. Z.div_mod_to_equations. lia.
Qed.

Lemma PTE_IDX_range va : 0 <= PTE_IDX va < 256.
Proof.
  unfold PTE_IDX. change (NUM_PTE - 1) with (2 ^ 8 - 1). rewrite land_ones_mod by lia. by apply Z.mod_pos_bound.
Qed.

Definition pde (m : mem) (pg i : Z) : Z := load32 m (pg + 4 * i).

Definition walk_at (m : mem) (pg va : Z) : option Z :=
  let e := pde m pg (PDE_IDX va) in if present e then Some (tbl e + 4 * PTE_IDX va) else None.

(** What the table maps the page of [va] to. *)
Definition translate (m : mem) (pg va : Z) : option Z :=
  match walk_at m pg va with
  | Some p => let e := load32 m p in if present e then Some e else None
  | None => None
  end.

(** The bytes of the directory [pg] and of its tables. *)
Definition owned (m : mem) (pg a : Z) : Prop :=
  pg <= a < pg + 1024 \/
  exists i, 0 <= i < 256 /\ present (pde m pg i) = true /\ tbl (pde m pg i) <= a < tbl (pde m pg i) + 1024.

Record pgdir_wf (n : Z) (s : vm) (l : list Z) (pg : Z) : Prop := {
  pg_page : page1k pg;
  pg_tbl : forall i, 0 <= i < 256 -> present (pde (v_mem s) pg i) = true ->
    page1k (tbl (pde (v_mem s) pg i)) /\ tbl (pde (v_mem s) pg i) <> pg;
  pg_inj : forall i j, 0 <= i < 256 -> 0 <= j < 256 -> present (pde (v_mem s) pg i) = true ->
    present (pde (v_mem s) pg j) = true -> tbl (pde (v_mem s) pg i) = tbl (pde (v_mem s) pg j) -> i = j;
  pg_taken : forall a, owned (v_mem s) pg a -> ~ avail n (v_kmem s) l a
}.

(** What an operation on [pg] does to the rest of the machine: it takes pages
    only from those available, gives none back, and writes only its own pages. *)
Record vstep (n pg : Z) (s : vm) (l : list Z) (s' : vm) (l' : list Z) : Prop := {
  vs_ok : kpt_ok n s' l';
  vs_wf : pgdir_wf n s' l' pg;
  vs_ctl : same_ctl s s';
  vs_avail : forall a, avail n (v_kmem s') l' a -> avail n (v_kmem s) l a;
  vs_owned : forall a, owned (v_mem s') pg a -> owned (v_mem s) pg a \/ avail n (v_kmem s) l a;
  vs_frame : forall a, ~ avail n (v_kmem s) l a -> ~ owned (v_mem s) pg a -> v_mem s' a = v_mem s a
}.

Lemma vstep_refl n pg s l : kpt_ok n s l -> pgdir_wf n s l pg -> vstep n pg s l s l.
Proof. intros H1 H2. split; try done. intros a Ha. by left. Qed.

Lemma vstep_trans n pg s l s1 l1 s2 l2 : vstep n pg s l s1 l1 -> vstep n pg s1 l1 s2 l2 -> vstep n pg s l s2 l2.
Proof.
  intros [A B C D E F] [A' B' C' D' E' F']. split; [done|done| |auto| |].
  - unfold same_ctl, same_hdr in *. intuition congruence.
  - intros a [H|H]%E'; auto.
  - intros a Ha Ho. rewrite F', F; [done|done|done|auto|]. intros [H|H]%E; done.
Qed.

(** ** walkpgdir *)

Lemma pde_addr pg va : page1k pg -> uva va -> u32 (pg + 4 * PDE_IDX va) = pg + 4 * PDE_IDX va.
Proof. intros (_ & H1 & H2) Hv%PDE_IDX_range. unfold KERNBASE in *. apply u32_small. lia. Qed.

Lemma pte_addr t va : page1k t -> u32 (t + 4 * PTE_IDX va) = t + 4 * PTE_IDX va.
Proof. intros (_ & H1 & H2). pose proof (PTE_IDX_range va). unfold KERNBASE in *. apply u32_small. lia. Qed.

Lemma walk_present n s l pg va p b : pgdir_wf n s l pg -> uva va -> walk_at (v_mem s) pg va = Some p ->
  walkpgdir pg va b s = Ok p s.
Proof.
  intros Hw Hv. unfold walk_at, walkpgdir. destruct (present _) eqn:Hp; [|done]. intros [= <-].
  rewrite (pde_addr pg va) by (try apply Hw; done). unfold bind, load, gets. change (load32 _ _) with (pde (v_mem s) pg (PDE_IDX va)).
  unfold present in Hp. rewrite Hp. rewrite pte_addr; [done|]. apply (pg_tbl _ _ _ _ Hw); [by apply PDE_IDX_range|done].
Qed.

Lemma walk_pos n s l pg va p : pgdir_wf n s l pg -> uva va -> walk_at (v_mem s) pg va = Some p -> p <> 0.
Proof.
  intros Hw Hv. unfold walk_at. destruct (present (pde (v_mem s) pg (PDE_IDX va))) eqn:E; [|done]. intros [= <-].
  destruct (pg_tbl _ _ _ _ Hw _ (PDE_IDX_range va Hv) E) as [(_ & T & _) _]. unfold KERNBASE in T.
  pose proof (PTE_IDX_range va). lia.
Qed.

Lemma walk_absent n s l pg va : pgdir_wf n s l pg -> uva va -> walk_at (v_mem s) pg va = None ->
  walkpgdir pg va false s = Ok 0 s.
Proof.
  intros Hw Hv. unfold walk_at, walkpgdir. destruct (present _) eqn:Hp; [done|]. intros _.
  rewrite (pde_addr pg va) by (try apply Hw; done). unfold bind, load, gets. change (load32 _ _) with (pde (v_mem s) pg (PDE_IDX va)).
  unfold present in Hp. by rewrite Hp.
Qed.

(** The words of a page of the tables. *)
Lemma load32_page m m' t x : page1k t -> 0 <= x < 256 -> agree m m' t (t + 1024) -> load32 m' (t + 4 * x) = load32 m (t + 4 * x).
Proof.
  intros (_ & H1 & H2) Hx Ha. unfold KERNBASE in *. apply load32_agree; [lia..|]. intros a Hin. apply Ha. lia.
Qed.

(** The memory after hanging the zeroed page [r] into slot [i]. *)
Lemma hang_page n s l pg i r m' :
  pgdir_wf n s l pg -> 0 <= i < 256 -> present (pde (v_mem s) pg i) = false ->
  page1k r -> (forall a, r <= a < r + 1024 -> avail n (v_kmem s) l a) ->
  (forall a, m' a = if decide (r <= a < r + 1024) then 0 else v_mem s a) ->
  let m2 := store32 m' (pg + 4 * i) (Z.lor (v2p r) UPDE_TYPE) in
  r <> pg /\ pde m2 pg i = Z.lor (v2p r) UPDE_TYPE /\
  (forall j, 0 <= j < 256 -> j <> i -> pde m2 pg j = pde (v_mem s) pg j) /\
  (forall j, 0 <= j < 256 -> j <> i -> present (pde (v_mem s) pg j) = true -> tbl (pde (v_mem s) pg j) <> r /\
     agree (v_mem s) m2 (tbl (pde (v_mem s) pg j)) (tbl (pde (v_mem s) pg j) + 1024)) /\
  (forall x, 0 <= x < 256 -> load32 m2 (r + 4 * x) = 0) /\
  (forall a, ~ (r <= a < r + 1024) -> ~ (pg <= a < pg + 1024) -> m2 a = v_mem s a).
Proof.
  intros Hw Hi Hnp Hr Hav Hm' m2. destruct (id Hw) as [Hpg Htbl Hinj Htak].
  destruct (id Hpg) as (P1 & P2 & P3). destruct (id Hr) as (R1 & R2 & R3). unfold KERNBASE in *.
  assert (r <> pg) as Hrpg by (intros ->; apply (Htak pg); [left; lia|apply Hav; lia]).
  assert (forall a, ~ (r <= a < r + 1024) -> ~ (pg + 4 * i <= a < pg + 4 * i + 4) -> m2 a = v_mem s a) as Hout.
  { intros a H1 H2. unfold m2. rewrite store32_at by lia. rewrite Hm'. by rewrite decide_False. }
  assert (forall a, pg <= a < pg + 1024 -> ~ (r <= a < r + 1024)) as Hdis by (intros a; by apply page1k_disjoint).
  split; [done|]. split; [|split; [|split; [|split]]].
  - unfold pde, m2. rewrite load32_store32_eq by lia. by apply new_pde.
  - intros j Hj Hne. unfold pde, m2. rewrite load32_store32_ne by lia. apply load32_agree; [lia..|].
    intros a Ha. rewrite Hm', decide_False; [done|]. apply Hdis. lia.
  - intros j Hj Hne Hp. destruct (Htbl j Hj Hp) as [(T1 & T2 & T3) Hne']. set (t := tbl _) in *.
    assert (t <> r) as Htr.
    { intros E. apply (Htak r); [right; exists j; split_and!; try done; fold t; lia|apply Hav; lia]. }
    split; [done|]. intros a Ha. apply Hout; [by apply (page1k_disjoint t)|].
    intros Hb. apply (page1k_disjoint t pg a); try done. lia.
  - intros x Hx. apply load32_zero; [lia..|]. intros a Ha. unfold m2. rewrite store32_at; [|lia..|].
    + rewrite Hm', decide_True by lia. done.
    + intros Hb. apply (Hdis a); lia.
  - intros a H1 H2. apply Hout; [done|lia].
Qed.

Lemma avail_with_mem n m s l a : avail n (v_kmem (with_mem m s)) l a <-> avail n (v_kmem s) l a.
Proof. done. Qed.

(** Hanging a fresh page keeps the tables well formed and maps nothing. *)
Lemma hang_ok n s l pg va r s1 l1 :
  kpt_ok n s l -> pgdir_wf n s l pg -> uva va -> present (pde (v_mem s) pg (PDE_IDX va)) = false ->
  fresh_page n s l r s1 l1 ->
  let m2 := store32 (memset (v_mem s1) r 0 PT_SZ).1 (pg + 4 * PDE_IDX va) (Z.lor (v2p r) UPDE_TYPE) in
  vstep n pg s l (with_mem m2 s1) l1 /\ walk_at m2 pg va = Some (r + 4 * PTE_IDX va) /\
  forall va', uva va' -> translate m2 pg va' = translate (v_mem s) pg va'.
Proof.
  intros Hk Hw Hv Hnp (Hr & Hk1 & Hctl & Hav & Hav1 & Hm1) m2. pose proof (PDE_IDX_range va Hv) as Hi. set (i := PDE_IDX va) in *.
  assert (forall a, (memset (v_mem s1) r 0 PT_SZ).1 a = if decide (r <= a < r + 1024) then 0 else v_mem s a) as Hm.
  { intros a. rewrite memset_page, Hm1 by done. by destruct (decide (r <= a < r + 1024)). }
  destruct (hang_page n s l pg i r _ Hw Hi Hnp Hr Hav Hm) as (Hrpg & Hpi & Hpj & Htj & Hz & Hout). fold m2 in Hpi, Hpj, Htj, Hz, Hout.
  destruct (new_pde r Hr) as (_ & Hpr & Htr). destruct (id Hw) as [Hpg Htbl Hinj Htak].
  assert (forall a, owned m2 pg a -> owned (v_mem s) pg a \/ r <= a < r + 1024) as Hown.
  { intros a [Ha|(j & Hj & Hp & Ha)]; [by left; left|]. destruct (decide (j = i)) as [->|Hji].
    - rewrite Hpi, Htr in Ha. by right.
    - rewrite Hpj in Hp, Ha by done. left. right. by exists j. }
  split; [|split].
  - split.
    + apply kpt_ok_mem; [done|]. intros a Ha. apply Hav1 in Ha as [Ha Hra]. rewrite Hm1, decide_False by done.
      apply Hout; [done|]. intros Hpa. apply (Htak a); [by left|done].
    + split; cbn [v_mem with_mem].
      * done.
      * intros j Hj Hp. destruct (decide (j = i)) as [->|Hji]; [by rewrite Hpi, Htr|].
        rewrite Hpj in Hp |- * by done. by apply Htbl.
      * intros j k Hj Hkk Hp Hq. destruct (decide (j = i)) as [->|Hji], (decide (k = i)) as [->|Hki]; [done| | |].
        -- rewrite Hpj in Hq by done. rewrite Hpi, Htr, (Hpj k) by done. intros E. by destruct (Htj k Hkk Hki Hq).
        -- rewrite Hpj in Hp by done. rewrite Hpi, Htr, (Hpj j) by done. intros E. by destruct (Htj j Hj Hji Hp).
        -- rewrite !Hpj in * by done. by apply Hinj.
      * intros a Ha Hx. apply Hav1 in Hx as [Hx Hra]. destruct (Hown a Ha) as [Ho|Ho]; [by apply (Htak a)|done].
    + destruct Hctl as (C1 & C2 & C3 & C4). by split_and!.
    + intros a Ha. by apply Hav1 in Ha as [Ha _].
    + intros a Ha. destruct (Hown a Ha) as [Ho|Ho]; [by left|right; by apply Hav].
    + intros a Hna Hno. apply Hout; [intros Hra; by apply Hna, Hav|intros Hpa; apply Hno; by left].
  - unfold walk_at. fold i. by rewrite Hpi, Hpr, Htr.
  - intros va' Hv'. unfold translate, walk_at. pose proof (PDE_IDX_range va' Hv') as Hj. set (j := PDE_IDX va') in *.
    destruct (decide (j = i)) as [->|Hji].
    + rewrite Hpi, Hpr, Htr, Hnp, Hz by apply PTE_IDX_range. done.
    + rewrite Hpj by done. destruct (present (pde (v_mem s) pg j)) eqn:Hp; [|done].
      destruct (Htj j Hj Hji Hp) as [_ Hag]. rewrite (load32_page (v_mem s) m2); [done| |apply PTE_IDX_range|done].
      by apply Htbl.
Qed.

Lemma walk_alloc n s l pg va :
  kpt_ok n s l -> pgdir_wf n s l pg -> uva va ->
  wpe (walkpgdir pg va true) (fun p s' => exists l', vstep n pg s l s' l' /\ walk_at (v_mem s') pg va = Some p /\
    forall va', uva va' -> translate (v_mem s') pg va' = translate (v_mem s) pg va') oom s.
Proof.
  intros Hk Hw Hv. destruct (walk_at (v_mem s) pg va) as [p|] eqn:E.
  - unfold wpe. rewrite (walk_present n s l pg va p true Hw Hv E). exists l. split; [by apply vstep_refl|done].
  - unfold walk_at in E. destruct (present _) eqn:Hp; [done|]. unfold walkpgdir.
    rewrite (pde_addr pg va) by (try apply Hw; done). eapply wpe_ok; [done|].
    change (load32 _ _) with (pde (v_mem s) pg (PDE_IDX va)). unfold present in Hp. rewrite Hp. cbn [negb].
    apply wpe_bind. eapply wpe_mono; [by apply (kpt_alloc_wpe n)|]. intros r s1 (l1 & Hf). cbv beta.
    pose proof (proj1 Hf) as Hr. destruct (Z.eqb_spec r 0) as [->|_]; [destruct Hr; unfold KERNBASE in *; lia|].
    eapply wpe_ok; [reflexivity|]. eapply wpe_ok; [reflexivity|]. apply wpe_ret.
    exists l1. rewrite pte_addr by done. apply (hang_ok n s l pg va r s1 l1); [done..|]. exact Hf.
Qed.

(** ** mappages *)

Definition page_of (va : Z) : Z := va / 4096.

Lemma page_idx va va' : uva va -> uva va' -> PDE_IDX va = PDE_IDX va' -> PTE_IDX va = PTE_IDX va' -> page_of va = page_of va'.
Proof.
  unfold uva, PDE_IDX, PTE_IDX, page_of. change UADDR_SZ with 268435456. change PDE_SHIFT with 20. change PTE_SHIFT with 12.
  change (NUM_PTE - 1) with (2 ^ 8 - 1). intros Hv Hv'. rewrite !land_ones_mod, !Z.shiftr_div_pow2 by lia.
  change (2 ^ 20) with 1048576. change (2 ^ 12) with 4096. change (2 ^ 8) with 256. intros. Z.div_mod_to_equations. lia.
Qed.

Lemma page_idx_inv va va' : page_of va = page_of va' -> PDE_IDX va = PDE_IDX va' /\ PTE_IDX va = PTE_IDX va'.
Proof.
  unfold PDE_IDX, PTE_IDX, page_of. change PDE_SHIFT with 20. change PTE_SHIFT with 12. intros E.
  rewrite !Z.shiftr_div_pow2 by lia. change (2 ^ 20) with (4096 * 256). change (2 ^ 12) with 4096.
  rewrite <- !Z.div_div by lia. by rewrite E.
Qed.

Lemma mk_pte_ok pa ap : 0 <= pa < 2 ^ 32 -> pa mod 4096 = 0 ->
  let e := mk_pte pa ap in u32 e = e /\ present e = true /\ PTE_ADDR e = pa /\ PTE_AP e = ap mod 4.
Proof.
  intros Hp Hm e. assert (Z.land ap 3 = ap mod 4) as Ea by (change 3 with (2 ^ 2 - 1); by rewrite land_ones_mod).
  pose proof (Z.mod_pos_bound ap 4 ltac:(lia)) as Hap. set (x := ap mod 4) in *.
  assert (e = pa + (16 * x + 14)) as Ee.
  { unfold e, mk_pte. rewrite Ea. rewrite <- !Z.lor_assoc.
    assert (Z.lor (Z.shiftl x 4) (Z.lor PE_CACHE (Z.lor PE_BUF PTE_TYPE)) = 16 * x + 14) as ->
      by (change (Z.lor PE_CACHE (Z.lor PE_BUF PTE_TYPE)) with 14; by rewrite lor_shiftl_add).
    apply (lor_low _ _ 12); [lia|done|lia]. }
  assert (u32 e = e) as Eu by (apply u32_small; change (2 ^ 32) with 4294967296 in *; Z.div_mod_to_equations; lia).
  split; [done|]. split; [|split].
  - unfold present. change PE_TYPES with (2 ^ 2 - 1). rewrite land_ones_mod by lia.
    replace (e mod 2 ^ 2) with 2; [done|]. rewrite Ee. change (2 ^ 2) with 4. Z.div_mod_to_equations. lia.
  - unfold PTE_ADDR. change PTE_SZ with (2 ^ 12). rewrite align_dn_pow, Eu, Ee by lia. change (2 ^ 12) with 4096.
    Z.div_mod_to_equations. lia.
  - unfold PTE_AP. change 3 with (2 ^ 2 - 1). rewrite land_ones_mod, Z.shiftr_div_pow2, Ee by lia.
    change (2 ^ 4) with 16. change (2 ^ 2) with 4. Z.div_mod_to_equations. lia.
Qed.

Lemma same_owned m m' pg : (forall i, 0 <= i < 256 -> pde m' pg i = pde m pg i) -> forall a, owned m' pg a <-> owned m pg a.
Proof.
  intros H a. split; (intros [Ha|(i & Hi & Hp & Ha)]; [by left|right; exists i; split; [done|]]).
  - by rewrite H in Hp, Ha.
  - by rewrite H.
Qed.

(** Writing the entry of [va] in its table. *)
Lemma store_pte n s l pg va p e :
  kpt_ok n s l -> pgdir_wf n s l pg -> uva va -> walk_at (v_mem s) pg va = Some p -> u32 e = e ->
  let m' := store32 (v_mem s) p e in
  vstep n pg s l (with_mem m' s) l /\ load32 m' p = e /\
  (forall va', uva va' -> walk_at m' pg va' = walk_at (v_mem s) pg va') /\
  forall va', uva va' -> translate m' pg va' =
    if decide (page_of va' = page_of va) then (if present e then Some e else None) else translate (v_mem s) pg va'.
Proof.
  intros Hk Hw Hv Hp He m'. destruct (id Hw) as [Hpg Htbl Hinj Htak]. pose proof (PDE_IDX_range va Hv) as Hi.
  unfold walk_at in Hp. set (i := PDE_IDX va) in *. destruct (present (pde (v_mem s) pg i)) eqn:Hpi; [|done].
  destruct (Htbl i Hi Hpi) as [Ht Htpg]. set (t := tbl _) in *. injection Hp as Hp. pose proof (PTE_IDX_range va) as Hx.
  destruct (id Ht) as (T1 & T2 & T3). destruct (id Hpg) as (P1 & P2 & P3). unfold KERNBASE in *.
  assert (forall a, ~ (t <= a < t + 1024) -> m' a = v_mem s a) as Hout by (intros a Ha; unfold m'; apply store32_at; lia).
  assert (forall j, 0 <= j < 256 -> pde m' pg j = pde (v_mem s) pg j) as Hpde.
  { intros j Hj. apply load32_page; [done..|]. intros a Ha. apply Hout. by apply (page1k_disjoint pg t). }
  assert (load32 m' p = e) as Hld by (unfold m'; rewrite load32_store32_eq by lia; done).
  assert (owned (v_mem s) pg p) as Hop by (right; exists i; fold t; split; [done|split; [done|lia]]).
  split; [|split; [done|split]].
  - split.
    + apply kpt_ok_mem; [done|]. intros a Ha. apply Hout. intros Hin. apply (Htak a); [|done]. right. by exists i.
    + split; cbn [v_mem with_mem]; [done| | |].
      * intros j Hj. rewrite Hpde by done. by apply Htbl.
      * intros j k Hj Hkk. rewrite !Hpde by done. by apply Hinj.
      * intros a. rewrite (same_owned (v_mem s) m') by done. apply Htak.
    + by split_and!.
    + done.
    + intros a. cbn. rewrite (same_owned (v_mem s) m') by done. by left.
    + intros a _ Ho. apply Hout. intros Hin. apply Ho. right. by exists i.
  - intros va' Hv'. unfold walk_at. by rewrite Hpde by (by apply PDE_IDX_range).
  - intros va' Hv'. unfold translate, walk_at. pose proof (PDE_IDX_range va' Hv') as Hj. rewrite Hpde by done.
    destruct (decide (page_of va' = page_of va)) as [Epg|Epg].
    + destruct (page_idx_inv _ _ Epg) as [-> ->]. fold i. rewrite Hpi. fold t. by rewrite Hp, Hld.
    + destruct (present (pde (v_mem s) pg (PDE_IDX va'))) eqn:Hpj; [|done].
      destruct (Htbl _ Hj Hpj) as [(U1 & U2 & U3) _]. unfold KERNBASE in *. pose proof (PTE_IDX_range va') as Hx'.
      set (u := tbl (pde (v_mem s) pg (PDE_IDX va'))) in *.
      assert (load32 m' (u + 4 * PTE_IDX va') = load32 (v_mem s) (u + 4 * PTE_IDX va')) as ->; [|done].
      destruct (decide (PDE_IDX va' = i)) as [Eij|Nij].
      * assert (PTE_IDX va' <> PTE_IDX va) by (intros Ex; by apply Epg, page_idx).
        assert (u = t) by (unfold u, t; by rewrite Eij). apply load32_store32_ne; lia.
      * assert (u <> t) as Hut by (intros E; by apply Nij, (Hinj _ _ Hj Hi)).
        apply load32_agree; [lia..|]. intros a Ha. apply Hout. apply (page1k_disjoint u t); try done. lia.
Qed.

Lemma translate_none_walk m pg va p : walk_at m pg va = Some p -> translate m pg va = None -> present (load32 m p) = false.
Proof. unfold translate. intros ->. by destruct (present (load32 m p)). Qed.

(** One round of the loop, up to the test for the last page. *)
Lemma map_step n s l pg a pa ap (K : M vm Z) (Q : Z -> vm -> Prop) :
  kpt_ok n s l -> pgdir_wf n s l pg -> uva a -> 0 <= pa < 2 ^ 32 -> pa mod 4096 = 0 -> translate (v_mem s) pg a = None ->
  (forall s' l', vstep n pg s l s' l' ->
    (forall va', uva va' -> translate (v_mem s') pg va' =
       if decide (page_of va' = page_of a) then Some (mk_pte pa ap) else translate (v_mem s) pg va') ->
    wpe K Q oom s') ->
  wpe (pte_at <- walkpgdir pg a true ;;
       if pte_at =? 0 then ret (-1) else
       pte <- load pte_at ;;
       if negb (Z.land pte PE_TYPES =? 0) then panic "remap" else
       store pte_at (mk_pte pa ap) ;;; K) Q oom s.
Proof.
  intros Hk Hw Hv Hpa Hpam Hno HK. apply wpe_bind. eapply wpe_mono; [by apply (walk_alloc n s l)|].
  intros p s1 (l1 & Hst & Hp & Htr). destruct (id Hst) as [Hk1 Hw1 _ _ _ _]. destruct (mk_pte_ok pa ap Hpa Hpam) as (Eu & Epr & _).
  rewrite (proj2 (Z.eqb_neq p 0) (walk_pos n s1 l1 pg a p Hw1 Hv Hp)). eapply wpe_ok; [reflexivity|].
  rewrite <- Htr in Hno by done. pose proof (translate_none_walk _ _ _ _ Hp Hno) as Hnp.
  unfold present in Hnp. rewrite Hnp. eapply wpe_ok; [reflexivity|].
  destruct (store_pte n s1 l1 pg a p (mk_pte pa ap) Hk1 Hw1 Hv Hp Eu) as (Hst2 & _ & _ & Htr2).
  apply (HK _ l1); [by eapply vstep_trans|]. intros va' Hv'. cbn [v_mem with_mem]. rewrite Htr2, Epr by done.
  destruct (decide _); [done|]. by apply Htr.
Qed.

Lemma mappages_wpe n pg ap count : forall fuel s l a pa,
  kpt_ok n s l -> pgdir_wf n s l pg -> a mod 4096 = 0 -> 0 <= a -> (1 <= count <= fuel)%nat ->
  a + 4096 * Z.of_nat count <= UADDR_SZ -> pa mod 4096 = 0 -> 0 <= pa -> pa + 4096 * Z.of_nat count <= 2 ^ 32 ->
  (forall x, uva x -> page_of a <= page_of x < page_of a + Z.of_nat count -> translate (v_mem s) pg x = None) ->
  wpe (mappages_ fuel pg a (a + 4096 * (Z.of_nat count - 1)) pa ap) (fun r s' => r = 0 /\ exists l', vstep n pg s l s' l' /\
    forall x, uva x -> translate (v_mem s') pg x =
      if decide (page_of a <= page_of x < page_of a + Z.of_nat count)
      then Some (mk_pte (pa + 4096 * (page_of x - page_of a)) ap) else translate (v_mem s) pg x) oom s.
Proof.
  induction count as [|count IH]; intros fuel s l a pa Hk Hw Ha Ha0 Hc Hend Hpa Hpa0 Hpae Hno; [lia|].
  destruct fuel as [|fuel]; [lia|]. cbn [mappages_]. change UADDR_SZ with 268435456 in *.
  assert (uva a) as Hv by (unfold uva; change UADDR_SZ with 268435456; lia).
  assert (page_of a * 4096 = a) as Hpg by (unfold page_of; Z.div_mod_to_equations; lia).
  eapply map_step; [done..|lia|done|apply Hno; [done|lia]|]. intros s1 l1 Hst Htr.
  destruct (Z.eqb_spec a (a + 4096 * (Z.of_nat (S count) - 1))) as [E|E].
  - assert (count = 0%nat) as -> by lia. apply wpe_ret. split; [done|]. exists l1. split; [done|]. intros x Hx. rewrite Htr by done.
    destruct (decide (page_of x = page_of a)) as [Ep|Ep].
    + rewrite decide_True by lia. rewrite Ep. do 2 f_equal. lia.
    + by rewrite decide_False by lia.
  - destruct (id Hst) as [Hk1 Hw1 _ _ _ _]. change PTE_SZ with 4096. rewrite !u32_small by lia.
    assert (page_of (a + 4096) = page_of a + 1) as Hpg' by (unfold page_of; Z.div_mod_to_equations; lia).
    replace (a + 4096 * (Z.of_nat (S count) - 1)) with (a + 4096 + 4096 * (Z.of_nat count - 1)) by lia.
    eapply wpe_mono; [apply (IH fuel s1 l1 (a + 4096) (pa + 4096)); try done; try lia|].
    + Z.div_mod_to_equations. lia.
    + Z.div_mod_to_equations. lia.
    + intros x Hx Hr. rewrite Htr by done. rewrite decide_False by lia. apply Hno; [done|lia].
    + intros r s2 (-> & l2 & Hst2 & Htr2). split; [done|]. exists l2. split; [by eapply vstep_trans|].
      intros x Hx. rewrite Htr2, Hpg', Htr by done.
      destruct (decide (page_of x = page_of a)) as [Ep|Ep].
      * rewrite decide_False, decide_True by lia. rewrite Ep. do 2 f_equal. lia.
      * destruct (decide (page_of a + 1 <= page_of x < page_of a + 1 + Z.of_nat count)).
        -- rewrite decide_True by lia. do 2 f_equal. lia.
        -- by rewrite decide_False by lia.
Qed.

(** C20: mappages maps exactly the pages that the range touches, in order, to
    the physical pages from [pa] on with the requested permissions; every
    other virtual page stays as it was and no memory changes outside this
    directory, its tables and pages that were free. It runs out of table pages
    or, if the first page is mapped already, panics with "remap". *)
Theorem mappages_spec n s l pg va size pa ap :
  kpt_ok n s l -> pgdir_wf n s l pg -> 0 <= va -> 0 < size -> va + size <= UADDR_SZ ->
  pa mod 4096 = 0 -> 0 <= pa -> pa + size + 4096 <= 2 ^ 32 ->
  let p0 := page_of va in
  let p1 := page_of (va + size - 1) in
  ((forall x, uva x -> p0 <= page_of x <= p1 -> translate (v_mem s) pg x = None) ->
   wpe (mappages pg va size pa ap) (fun r s' => r = 0 /\ exists l', vstep n pg s l s' l' /\
     forall x, uva x -> translate (v_mem s') pg x =
       if decide (p0 <= page_of x <= p1) then Some (mk_pte (pa + 4096 * (page_of x - p0)) ap)
       else translate (v_mem s) pg x) oom s) /\
  (translate (v_mem s) pg va <> None -> mappages pg va size pa ap s = Panic "remap").
Proof.
  intros Hk Hw Hva Hsz Hend Hpa Hpa0 Hpae p0 p1. change UADDR_SZ with 268435456 in *. unfold mappages. change PTE_SZ with (2 ^ 12).
  rewrite !align_dn_pow by lia. rewrite (u32_small va), (u32_small (va + size - 1)) by lia. change (2 ^ 12) with 4096.
  set (a := va - va mod 4096). set (count := Z.to_nat (p1 - p0 + 1)).
  assert (a = 4096 * p0) as Ea by (unfold a, p0, page_of; Z.div_mod_to_equations; lia).
  assert (page_of a = p0) as Epa by (rewrite Ea; unfold page_of; by rewrite Z.mul_comm, Z.div_mul).
  assert (p0 <= p1) as Hle by (apply Z.div_le_mono; lia).
  assert (va + size - 1 - (va + size - 1) mod 4096 = a + 4096 * (Z.of_nat count - 1)) as ->.
  { unfold count. rewrite Z2Nat.id, Ea by lia. unfold p1, page_of. Z.div_mod_to_equations. lia. }
  assert (0 <= a) as Ha0 by (rewrite Ea; unfold p0, page_of; Z.div_mod_to_equations; lia).
  assert (a + 4096 * Z.of_nat count <= 268435456) as Hae.
  { unfold count. rewrite Z2Nat.id, Ea by lia. unfold p1, page_of. change 268435456 with (65536 * 4096) in *.
    Z.div_mod_to_equations. lia. }
  replace (a + 4096 * (Z.of_nat count - 1) - a) with ((Z.of_nat count - 1) * 4096) by lia.
  rewrite u32_small, Z.div_mul by lia. split.
  - intros Hno. eapply wpe_mono; [apply (mappages_wpe n pg ap count)|]; try done; try lia.
    + rewrite Ea. rewrite Z.mul_comm. by apply Z.mod_mul.
    + unfold count. rewrite Z2Nat.id by lia. unfold p1, p0, page_of. Z.div_mod_to_equations. lia.
    + intros x Hx Hr. apply Hno; [done|]. lia.
    + intros r s' (-> & l' & Hst & Htr). split; [done|]. exists l'. split; [done|]. intros x Hx. rewrite Htr, Epa by done.
      destruct (decide (p0 <= page_of x <= p1)); [rewrite decide_True by lia; done|by rewrite decide_False by lia].
  - intros Hm. rewrite Nat.add_1_r. cbn [mappages_]. unfold translate in Hm. destruct (walk_at (v_mem s) pg va) as [p|] eqn:E; [|done].
    assert (walk_at (v_mem s) pg a = Some p) as E'.
    { unfold walk_at in *. by destruct (page_idx_inv a va Epa) as [-> ->]. }
    assert (uva a) as Hv by (unfold uva; change UADDR_SZ with 268435456; lia).
    rewrite (bind_ok _ _ _ _ _ (walk_present n s l pg a p true Hw Hv E')).
    rewrite (proj2 (Z.eqb_neq p 0) (walk_pos n s l pg a p Hw Hv E')). unfold bind, load, gets. unfold present in Hm.
    destruct (Z.land (load32 (v_mem s) p) PE_TYPES =? 0); [done|]. done.
Qed.

(** ** User memory *)

(** The kernel address of the page an entry maps. *)
Definition upage (e : Z) : Z := p2v (PTE_ADDR e).

Definition page4k (r : Z) : Prop := r mod 4096 = 0 /\ KERNBASE <= r /\ r + 4096 <= 2 ^ 32.

(** The byte at user address [va], as the process sees it. *)
Definition ubyte (m : mem) (pg va : Z) : option Z :=
  match translate m pg va with Some e => Some (m (upage e + va mod 4096)) | None => None end.

(** The mapped pages are kernel memory, apart from each other and from the
    tables. *)
Record umem_ok (m : mem) (pg : Z) : Prop := {
  um_page : forall x e, uva x -> translate m pg x = Some e ->
    page4k (upage e) /\ forall a, upage e <= a < upage e + 4096 -> ~ owned m pg a;
  um_inj : forall x y e e', uva x -> uva y -> translate m pg x = Some e -> translate m pg y = Some e' ->
    upage e = upage e' -> page_of x = page_of y
}.

(** Changing memory outside the tables changes no translation. *)
Lemma tables_agree n s l pg m' : pgdir_wf n s l pg -> (forall a, owned (v_mem s) pg a -> m' a = v_mem s a) ->
  pgdir_wf n (with_mem m' s) l pg /\ (forall a, owned m' pg a <-> owned (v_mem s) pg a) /\
  forall va, uva va -> walk_at m' pg va = walk_at (v_mem s) pg va /\ translate m' pg va = translate (v_mem s) pg va.
Proof.
  intros Hw Ha. destruct (id Hw) as [Hpg Htbl Hinj Htak].
  assert (forall j, 0 <= j < 256 -> pde m' pg j = pde (v_mem s) pg j) as Hpde.
  { intros j Hj. apply load32_page; [done..|]. intros a Hin. apply Ha. by left. }
  pose proof (same_owned (v_mem s) m' pg Hpde) as Hown. split; [|split; [done|]].
  - split; cbn [v_mem with_mem]; [done| | |].
    + intros j Hj. rewrite Hpde by done. by apply Htbl.
    + intros j k Hj Hk. rewrite !Hpde by done. by apply Hinj.
    + intros a. rewrite Hown. apply Htak.
  - intros va Hv. pose proof (PDE_IDX_range va Hv) as Hi. unfold translate, walk_at. rewrite Hpde by done. split; [done|].
    destruct (present (pde (v_mem s) pg (PDE_IDX va))) eqn:Hp; [|done].
    rewrite (load32_page (v_mem s) m'); [done|by apply Htbl|apply PTE_IDX_range|].
    intros a Hin. apply Ha. right. by exists (PDE_IDX va).
Qed.

Lemma uva2ka_run n s l pg va : pgdir_wf n s l pg -> uva va -> uva2ka pg va s =
  match walk_at (v_mem s) pg va with
  | None => Fault
  | Some _ => match translate (v_mem s) pg va with
              | Some e => if PTE_AP e =? AP_KU then Ok (upage e) s else Ok 0 s
              | None => Ok 0 s
              end
  end.
Proof.
  intros Hw Hv. unfold uva2ka, translate. destruct (walk_at (v_mem s) pg va) as [p|] eqn:E.
  - rewrite (bind_ok _ _ _ _ _ (walk_present n s l pg va p false Hw Hv E)).
    rewrite (proj2 (Z.eqb_neq p 0) (walk_pos n s l pg va p Hw Hv E)). unfold bind, load, gets, present.
    destruct (Z.land (load32 (v_mem s) p) PE_TYPES =? 0); [done|]. cbn [negb]. by destruct (PTE_AP _ =? AP_KU).
  - by rewrite (bind_ok _ _ _ _ _ (walk_absent n s l pg va Hw Hv E)).
Qed.

Lemma translate_page m pg va va' : page_of va = page_of va' -> translate m pg va = translate m pg va'.
Proof. intros E. unfold translate, walk_at. by destruct (page_idx_inv _ _ E) as [-> ->]. Qed.

Lemma walk_page m pg va va' : page_of va = page_of va' -> walk_at m pg va = walk_at m pg va'.
Proof. intros E. unfold walk_at. by destruct (page_idx_inv _ _ E) as [-> ->]. Qed.

(** Writing [k] bytes inside the page of [va]. *)
Lemma write_user n s l pg va e src k :
  pgdir_wf n s l pg -> umem_ok (v_mem s) pg -> uva va -> translate (v_mem s) pg va = Some e ->
  0 < k -> va mod 4096 + k <= 4096 -> 0 <= src -> src + k <= 2 ^ 32 ->
  let m' := (memmove (v_mem s) (upage e + va mod 4096) src k).1 in
  pgdir_wf n (with_mem m' s) l pg /\ umem_ok m' pg /\
  (forall x, uva x -> translate m' pg x = translate (v_mem s) pg x) /\
  (forall x, uva x -> ubyte m' pg x =
     if decide (va <= x < va + k) then Some (v_mem s (src + (x - va))) else ubyte (v_mem s) pg x) /\
  (forall a, ~ (upage e <= a < upage e + 4096) -> m' a = v_mem s a).
Proof.
  intros Hw Hu Hv He Hk Hkp Hsrc Hse m'. destruct (um_page _ _ Hu va e Hv He) as [(P1 & P2 & P3) Hno].
  unfold KERNBASE in *. pose proof (Z.mod_pos_bound va 4096 ltac:(lia)) as Hm. set (d := upage e + va mod 4096) in *.
  destruct (memmove_correct (v_mem s) d src k ltac:(lia) ltac:(lia) ltac:(lia) ltac:(lia) ltac:(lia)) as [_ Hf]. fold m' in Hf.
  assert (forall a, ~ (d <= a < d + k) -> m' a = v_mem s a) as Hout by (intros a Ha; by rewrite (Hf a), in_range_false by lia).
  destruct (tables_agree n s l pg m' Hw) as (Hw' & Hown & Htr).
  { intros a Ha. apply Hout. intros Hin. apply (Hno a); [lia|done]. }
  split; [done|]. split; [|split; [|split]].
  - destruct Hu as [A B]. split.
    + intros x e' Hx. destruct (Htr x Hx) as [_ ->]. intros Hx'. destruct (A x e' Hx Hx') as [? Hn]. split; [done|].
      intros a Ha. rewrite Hown. by apply Hn.
    + intros x y e1 e2 Hx Hy. destruct (Htr x Hx) as [_ ->]. destruct (Htr y Hy) as [_ ->]. by apply B.
  - intros x Hx. by destruct (Htr x Hx).
  - intros x Hx. unfold ubyte. destruct (Htr x Hx) as [_ ->].
    pose proof (Z.mod_pos_bound x 4096 ltac:(lia)) as Hmx.
    destruct (decide (va <= x < va + k)) as [Hin|Hin].
    + assert (page_of x = page_of va) as Ep by (unfold page_of; Z.div_mod_to_equations; lia).
      assert (x mod 4096 = va mod 4096 + (x - va)) as Ex by (unfold page_of in Ep; Z.div_mod_to_equations; lia).
      rewrite (translate_page _ _ _ _ Ep), He, (Hf _), in_range_true by lia. do 2 f_equal. lia.
    + destruct (translate (v_mem s) pg x) as [e'|] eqn:E; [|done]. f_equal. apply Hout. intros Hd.
      destruct (um_page _ _ Hu x e' Hx E) as [(Q1 & Q2 & Q3) _].
      assert (upage e' = upage e) as Eq by (change (4096) with 4096 in *; Z.div_mod_to_equations; lia).
      pose proof (um_inj _ _ Hu x va e' e Hx Hv E He Eq) as Ep. apply Hin.
      unfold page_of in Ep. rewrite Eq in Hd. Z.div_mod_to_equations. lia.
  - intros a Ha. apply Hout. lia.
Qed.

(** No byte of [lo, hi) lies in a page the process can reach. *)
Definition off_user (m : mem) (pg lo hi : Z) : Prop :=
  forall x e a, uva x -> translate m pg x = Some e -> lo <= a < hi -> ~ (upage e <= a < upage e + 4096).

Lemma copyout_run n l pg fuel : forall s va buf len,
  pgdir_wf n s l pg -> umem_ok (v_mem s) pg -> 0 <= len -> 0 <= va -> va + len <= UADDR_SZ ->
  0 <= buf -> buf + len < 2 ^ 32 -> off_user (v_mem s) pg buf (buf + len) ->
  (1 <= fuel)%nat -> len + va mod 4096 <= 4096 * (Z.of_nat fuel - 1) ->
  (forall x, va <= x < va + len -> exists e, translate (v_mem s) pg x = Some e /\ PTE_AP e = AP_KU) ->
  exists m', copyout_ fuel pg va buf len s = Ok 0 (with_mem m' s) /\
    pgdir_wf n (with_mem m' s) l pg /\ umem_ok m' pg /\
    (forall x, uva x -> translate m' pg x = translate (v_mem s) pg x) /\
    (forall x, uva x -> ubyte m' pg x =
       if decide (va <= x < va + len) then Some (v_mem s (buf + (x - va))) else ubyte (v_mem s) pg x) /\
    (forall a, off_user (v_mem s) pg a (a + 1) -> m' a = v_mem s a).
Proof.
  induction fuel as [|fuel IH]; intros s va buf len Hw Hu Hl Hva Hend Hb Hbe Hoff Hf1 Hf Hmap; [lia|].
  change UADDR_SZ with 268435456 in *. cbn [copyout_]. destruct (Z.ltb_spec 0 len) as [Hlen|Hlen].
  2:{ assert (len = 0) as -> by lia. exists (v_mem s). split; [by destruct s|]. split; [by destruct s|].
      split; [done|]. split; [done|]. split; [|done]. intros x Hx. by rewrite decide_False by lia. }
  pose proof (Z.mod_pos_bound va 4096 ltac:(lia)) as Hm. change PTE_SZ with (2 ^ 12). rewrite align_dn_pow, u32_small by lia.
  change (2 ^ 12) with 4096. set (va0 := va - va mod 4096). set (k := Z.min (4096 - (va - va0)) len).
  assert (va - va0 = va mod 4096) as Ev by (unfold va0; lia). rewrite Ev in *.
  assert (uva va) as Hv by (unfold uva; change UADDR_SZ with 268435456; lia).
  assert (page_of va0 = page_of va) as Ep0 by (unfold va0, page_of; Z.div_mod_to_equations; lia).
  assert (uva va0) as Hv0 by (unfold uva, va0; change UADDR_SZ with 268435456; Z.div_mod_to_equations; lia).
  destruct (Hmap va ltac:(lia)) as (e & He & Hap).
  assert (uva2ka pg va0 s = Ok (upage e) s) as E1.
  { rewrite (uva2ka_run n s l pg va0 Hw Hv0), (walk_page _ _ _ _ Ep0), (translate_page _ _ _ _ Ep0), He, Hap.
    unfold translate in He. by destruct (walk_at (v_mem s) pg va). }
  rewrite (bind_ok _ _ _ _ _ E1). destruct (um_page _ _ Hu va e Hv He) as [(P1 & P2 & P3) _]. unfold KERNBASE in *.
  rewrite (proj2 (Z.eqb_neq (upage e) 0)) by lia.
  destruct (write_user n s l pg va e buf k Hw Hu Hv He ltac:(lia) ltac:(lia) Hb ltac:(lia)) as (Hw1 & Hu1 & Htr1 & Hub1 & Hfr1).
  rewrite (u32_small (upage e + va mod 4096)) by lia. set (m1 := (memmove _ _ _ _).1) in *.
  assert (do_memmove (upage e + va mod 4096) buf k s = Ok tt (with_mem m1 s)) as E2 by reflexivity.
  rewrite (bind_ok _ _ _ _ _ E2). rewrite (u32_small (va0 + 4096)), (u32_small (buf + k)) by (unfold va0; lia).
  destruct (decide (len = k)) as [Elk|Nlk].
  - destruct fuel as [|fuel]; [lia|]. exists m1. rewrite <- Elk, Z.sub_diag. split; [done|]. split; [done|]. split; [done|]. split; [done|].
    split; [by rewrite Elk|]. intros a Ha. apply Hfr1. apply (Ha va e); [done|done|lia].
  - assert (k = 4096 - va mod 4096) as Ek by lia. assert (va0 + 4096 = va + k) as Evk by (unfold va0; lia).
    assert ((va + k) mod 4096 = 0) as Evm by (rewrite <- Evk; unfold va0; Z.div_mod_to_equations; lia).
    assert (forall a, buf <= a < buf + len -> m1 a = v_mem s a) as Hbuf.
    { intros a Ha. apply Hfr1. apply (Hoff va e); [done|done|lia]. }
    rewrite Evk. destruct (IH (with_mem m1 s) (va + k) (buf + k) (len - k)) as (m2 & E3 & Hw2 & Hu2 & Htr2 & Hub2 & Hfr2);
      [done|done|lia|lia|lia|lia|lia| |lia|lia| |].
    + intros x e' a Hx He' Ha. cbn in He'. rewrite Htr1 in He' by done. apply (Hoff x e'); [done|done|lia].
    + intros x Hx. cbn. rewrite Htr1 by (unfold uva; change UADDR_SZ with 268435456; lia). apply Hmap. lia.
    + exists m2. split; [exact E3|]. split; [done|]. split; [done|]. split; [intros x Hx; rewrite Htr2 by done; cbn; by apply Htr1|]. split.
      * intros x Hx. rewrite Hub2 by done. cbn [v_mem with_mem]. destruct (decide (va + k <= x < va + k + (len - k))).
        -- rewrite decide_True by lia. rewrite Hbuf by lia. do 2 f_equal. lia.
        -- rewrite Hub1 by done. destruct (decide (va <= x < va + k)); [by rewrite decide_True by lia|by rewrite decide_False by lia].
      * intros a Ha. rewrite Hfr2; [cbn [v_mem with_mem]; apply Hfr1; apply (Ha va e); [done|done|lia]|].
        intros x e' a' Hx He' Ha'. cbn in He'. rewrite Htr1 in He' by done. by apply (Ha x e').
Qed.

(** C21: copyout writes exactly the bytes [va, va+len) of the user's memory,
    as the process sees it through its page table, and nothing but user pages;
    the page table does not change. If the first page is mapped without user
    access, or its entry is empty, it fails with -1; if it has no page table at
    all the code dereferences a null pointer. *)
Theorem copyout_spec n s l pg va p len :
  pgdir_wf n s l pg -> umem_ok (v_mem s) pg -> 0 < len -> 0 <= va -> va + len <= UADDR_SZ ->
  0 <= p -> p + len < 2 ^ 32 -> off_user (v_mem s) pg p (p + len) ->
  ((forall x, va <= x < va + len -> exists e, translate (v_mem s) pg x = Some e /\ PTE_AP e = AP_KU) ->
   exists m', copyout pg va p len s = Ok 0 (with_mem m' s) /\
     (forall x, uva x -> translate m' pg x = translate (v_mem s) pg x) /\
     (forall x, uva x -> ubyte m' pg x =
        if decide (va <= x < va + len) then Some (v_mem s (p + (x - va))) else ubyte (v_mem s) pg x) /\
     (forall a, off_user (v_mem s) pg a (a + 1) -> m' a = v_mem s a)) /\
  (walk_at (v_mem s) pg va <> None ->
   (forall e, translate (v_mem s) pg va = Some e -> PTE_AP e <> AP_KU) -> copyout pg va p len s = Ok (-1) s) /\
  (walk_at (v_mem s) pg va = None -> copyout pg va p len s = Fault).
Proof.
  intros Hw Hu Hl Hva Hend Hp Hpe Hoff. split; [|].
  { intros Hmap. destruct (copyout_run n l pg (Z.to_nat (len / PTE_SZ) + 3) s va p len Hw Hu) as (m' & E & _ & _ & A & B & C);
      try done; try lia; [|by exists m']. change PTE_SZ with 4096. Z.div_mod_to_equations. lia. }
  change UADDR_SZ with 268435456 in *. unfold copyout. rewrite Nat.add_succ_r. cbn [copyout_]. rewrite (proj2 (Z.ltb_lt 0 len) Hl).
  change PTE_SZ with (2 ^ 12). rewrite align_dn_pow, u32_small by lia. change (2 ^ 12) with 4096. set (va0 := va - va mod 4096).
  assert (page_of va0 = page_of va) as Ep0 by (unfold va0, page_of; Z.div_mod_to_equations; lia).
  assert (uva va0) as Hv0 by (unfold uva, va0; change UADDR_SZ with 268435456; Z.div_mod_to_equations; lia).
  pose proof (uva2ka_run n s l pg va0 Hw Hv0) as E1. rewrite (translate_page _ _ _ _ Ep0) in E1.
  rewrite (walk_page _ _ _ _ Ep0) in E1. split.
  - intros Hwk Hap. assert (uva2ka pg va0 s = Ok 0 s) as E.
    { rewrite E1. destruct (walk_at (v_mem s) pg va); [|done]. destruct (translate (v_mem s) pg va) as [e|]; [|done].
      by rewrite (proj2 (Z.eqb_neq _ _) (Hap e eq_refl)). }
    by rewrite (bind_ok _ _ _ _ _ E).
  - intros Hwk. rewrite Hwk in E1. unfold bind. by rewrite E1.
Qed.
