(* ===== verification/VmInst.v ===== *)
(** * The page-table code on a small machine

    One page directory below the heap of the buddy allocator's example: the
    instance on which the theorems of VmSpec are exercised, and two runs that
    show what deallocuvm and kpt_free do at their edges. *)

From S2P Require Import Prelude CString Buddy BuddyList BuddyAlloc BuddySpec Cpu Vm VmSpec.

Definition demo_pg : Z := 2 ^ 31 + 524288.

Definition demo_tbl : Z := demo_pg + 4096.

Definition demo_page : Z := demo_pg + 65536.

Definition demo_machine (m : mem) : vm := Vm m demo_kmem false 0 (Cpu 0 0 false) 0 0.

Definition zero_mem : mem := fun _ => 0.

Lemma demo_avail a : avail 1 demo_kmem [] a -> demo_start + 4096 <= a.
Proof.
  destruct demo_kmem_ok as (_ & _ & _ & Hf). intros [H|(r & Hr & _)]; [by apply Hf in H as [? _]|].
  exfalso. exact (not_elem_of_nil r Hr).
Qed.

Lemma demo_kpt_ok m : kpt_ok 1 (demo_machine m) [].
Proof.
  destruct demo_kmem_ok as (Hi & Hl & Hh & _). split; cbn [demo_machine v_kmem v_mem kpt_lock kpt_freelist].
  - exact Hi.
  - exact Hl.
  - reflexivity.
  - rewrite Hh. unfold demo_start, KERNBASE. lia.
  - reflexivity.
  - by apply NoDup_nil_2.
  - intros r Hr. exfalso. exact (not_elem_of_nil r Hr).
Qed.

Lemma demo_pg_page : page1k demo_pg.
Proof. split; [by vm_compute|]. unfold demo_pg, KERNBASE. lia. Qed.

Lemma zero_pde i : pde zero_mem demo_pg i = 0.
Proof. reflexivity. Qed.

Lemma demo_zero_wf : pgdir_wf 1 (demo_machine zero_mem) [] demo_pg.
Proof.
  split; cbn [demo_machine v_mem v_kmem].
  - exact demo_pg_page.
  - intros i _. rewrite zero_pde. done.
  - intros i j _ _. rewrite zero_pde. done.
  - intros a Ho Ha%demo_avail. destruct Ho as [Ho|(i & _ & Hp & _)]; [|by rewrite zero_pde in Hp].
    unfold demo_pg, demo_start in *. lia.
Qed.

Lemma zero_translate va : translate zero_mem demo_pg va = None.
Proof. reflexivity. Qed.

Lemma mappages_spec_witness :
  wpe (mappages demo_pg 4096 5000 1048576 AP_KU) (fun r s' => r = 0 /\
    translate (v_mem s') demo_pg 8192 = Some (mk_pte 1052672 AP_KU)) oom (demo_machine zero_mem).
Proof.
  eapply wpe_mono; [apply (proj1 (mappages_spec 1 (demo_machine zero_mem) [] demo_pg 4096 5000 1048576 AP_KU
    (demo_kpt_ok zero_mem) demo_zero_wf ltac:(lia) ltac:(lia) ltac:(by vm_compute) eq_refl ltac:(lia) ltac:(lia)))|].
  - intros x _ _. apply zero_translate.
  - intros r s' (-> & l' & _ & Htr). split; [done|]. rewrite Htr by (by vm_compute). by rewrite decide_True by (by vm_compute).
Defined.

(** Directory slot 0 has a table that maps page 1 for the user. *)
Definition demo_mem : mem :=
  store32 (store32 zero_mem demo_pg (Z.lor (v2p demo_tbl) UPDE_TYPE)) (demo_tbl + 4) (mk_pte (v2p demo_page) AP_KU).

Lemma demo_pde i : 0 <= i < 256 -> pde demo_mem demo_pg i = if decide (i = 0) then Z.lor (v2p demo_tbl) UPDE_TYPE else 0.
Proof.
  intros Hi. destruct (decide (i = 0)) as [->|Hne]; [by vm_compute|]. unfold pde, demo_mem.
  rewrite !load32_store32_ne by (unfold demo_tbl, demo_pg; lia). reflexivity.
Qed.

Lemma demo_wf : pgdir_wf 1 (demo_machine demo_mem) [] demo_pg.
Proof.
  assert (tbl (Z.lor (v2p demo_tbl) UPDE_TYPE) = demo_tbl) as Et by (by vm_compute).
  split; cbn [demo_machine v_mem v_kmem].
  - exact demo_pg_page.
  - intros i Hi. rewrite demo_pde by done. destruct (decide (i = 0)); [|done]. intros _. rewrite Et.
    split; [split; [by vm_compute|]|]; unfold demo_tbl, demo_pg, KERNBASE; lia.
  - intros i j Hi Hj. rewrite !demo_pde by done. destruct (decide (i = 0)), (decide (j = 0)); try done. congruence.
  - intros a Ho Ha%demo_avail. destruct Ho as [Ho|(i & Hi & Hp & Ho)].
    + unfold demo_pg, demo_start in *. lia.
    + rewrite demo_pde in Hp, Ho by done. destruct (decide (i = 0)); [|done]. rewrite Et in Ho.
      unfold demo_tbl, demo_pg, demo_start in *. lia.
Qed.

Lemma demo_translate x e : uva x -> translate demo_mem demo_pg x = Some e -> e = mk_pte (v2p demo_page) AP_KU /\ page_of x = 1.
Proof.
  intros Hx. unfold translate, walk_at. rewrite demo_pde by (by apply PDE_IDX_range).
  destruct (decide (PDE_IDX x = 0)) as [E0|]; [|done].
  assert (present (Z.lor (v2p demo_tbl) UPDE_TYPE) = true) as -> by (by vm_compute).
  assert (tbl (Z.lor (v2p demo_tbl) UPDE_TYPE) = demo_tbl) as -> by (by vm_compute).
  pose proof (PTE_IDX_range x) as Hr. destruct (decide (PTE_IDX x = 1)) as [E1|N1].
  - rewrite E1. assert (load32 demo_mem (demo_tbl + 4 * 1) = mk_pte (v2p demo_page) AP_KU) as -> by (by vm_compute).
    assert (present (mk_pte (v2p demo_page) AP_KU) = true) as -> by (by vm_compute). intros [= <-]. split; [done|].
    change 1 with (page_of 4096). apply page_idx; [done|by vm_compute|by rewrite E0|by rewrite E1].
  - unfold demo_mem. rewrite !load32_store32_ne by (unfold demo_tbl, demo_pg; lia). done.
Qed.

Lemma demo_upage : upage (mk_pte (v2p demo_page) AP_KU) = demo_page.
Proof. by vm_compute. Qed.

Lemma demo_umem : umem_ok demo_mem demo_pg.
Proof.
  split.
  - intros x e Hx He. destruct (demo_translate x e Hx He) as [-> _]. rewrite demo_upage. split.
    + split; [by vm_compute|]. unfold demo_page, demo_pg, KERNBASE. lia.
    + intros a Ha [Ho|(i & Hi & Hp & Ho)]; [unfold demo_page in *; lia|]. rewrite demo_pde in Hp, Ho by done.
      destruct (decide (i = 0)); [|done]. assert (tbl (Z.lor (v2p demo_tbl) UPDE_TYPE) = demo_tbl) as Et by (by vm_compute).
      rewrite Et in Ho. unfold demo_page, demo_tbl in *. lia.
  - intros x y e e' Hx Hy He He' _. destruct (demo_translate x e Hx He), (demo_translate y e' Hy He'). congruence.
Qed.

Lemma copyout_spec_witness : exists m', copyout demo_pg 5000 1048576 100 (demo_machine demo_mem) = Ok 0 (with_mem m' (demo_machine demo_mem)) /\
  ubyte m' demo_pg 5099 = Some (demo_mem 1048675).
Proof.
  destruct (proj1 (copyout_spec 1 (demo_machine demo_mem) [] demo_pg 5000 1048576 100 demo_wf demo_umem
    ltac:(lia) ltac:(lia) ltac:(by vm_compute) ltac:(lia) ltac:(lia)
    ltac:(intros x e a Hx He Ha; destruct (demo_translate x e Hx He) as [-> _]; rewrite demo_upage; unfold demo_page, demo_pg; lia)))
    as (m' & E & _ & Hub & _).
  - intros x Hx. exists (mk_pte (v2p demo_page) AP_KU). split; [|by vm_compute].
    cbn [demo_machine v_mem]. rewrite (translate_page demo_mem demo_pg x 4096); [by vm_compute|]. unfold page_of. Z.div_mod_to_equations. lia.
  - exists m'. split; [exact E|]. assert (uva 5099) as Hv by (unfold uva; change UADDR_SZ with 268435456; lia).
    rewrite (Hub 5099 Hv), decide_True by lia. reflexivity.
Defined.

(** ** deallocuvm at a missing page table *)

(** Only the page at 1 MB is mapped, through directory slot 1. *)
Definition gap_mem : mem :=
  store32 (store32 zero_mem (demo_pg + 4) (Z.lor (v2p demo_tbl) UPDE_TYPE)) demo_tbl (mk_pte (v2p demo_page) AP_KU).

(** Deallocuvm leaks a page after a gap. Where a directory entry is
    empty the loop rounds up to the next one and then still adds a page, so it
    never looks at the first page of the next megabyte: shrinking from 2 MB to 0
    leaves the page at 1 MB mapped. *)
Theorem deallocuvm_skips_page :
  wp (deallocuvm demo_pg 2097152 0) (fun r s' => r = 0 /\
    translate (v_mem s') demo_pg 1048576 = Some (mk_pte (v2p demo_page) AP_KU)) (demo_machine gap_mem).
Proof. vm_compute. done. Qed.

(** Kpt_free never returns a page to kpt_mem's free list: its test
    compares with P2V(KERNLINK), which wraps to 0. A page of the free list that
    kpt_freerange filled at boot, below the heap, is given to the buddy
    allocator instead, which looks for a mark outside its table. *)
Theorem kpt_free_boot_page :
  (forall v s, 0 <= v -> kpt_free v s = on_kmem (kfree v PT_ORDER) s) /\
  (kpt_freerange demo_pg (demo_pg + 2048) ;;; r <- kpt_alloc ;; kpt_free r) (demo_machine zero_mem) = Fault.
Proof.
  split; [|by vm_compute]. intros v s Hv. unfold kpt_free. change (p2v KERNLINK) with 0. by rewrite (proj2 (Z.leb_le 0 v)).
Qed.
