(* ===== verification/Kernel.v ===== *)
(** * The kernel's state

    struct file, struct proc and the tables the upper half of the kernel works
    on, over the page-table state and the file system state.  A pointer into a
    table is its index, NULL is -1; a trap frame and a context are addresses on
    the process's kernel stack, in memory.  [me] is the CPU that runs. *)

From S2P Require Import Prelude CString Buddy Cpu Pipe BlockCache Log Fs Vm.

Definition NPROC : Z := 64.

Definition NCPU : Z := 4.

Definition NOFILE : Z := 16.

Definition NFILE : Z := 100.

Definition KSTACKSIZE : Z := 4096.

Definition MAXARG : Z := 32.

(** struct file *)
Inductive ftype : Type := FD_NONE | FD_PIPE | FD_INODE.

#[export] Instance ftype_eq_dec : EqDecision ftype.
Proof. solve_decision. Defined.

Record file := File {
  f_type : ftype; f_ref : Z; f_readable : bool; f_writable : bool; f_pipe : Z; f_ip : Z; f_off : Z
}.

(** struct proc *)
Inductive procstate : Type := UNUSED | EMBRYO | SLEEPING | RUNNABLE | RUNNING | ZOMBIE.

#[export] Instance procstate_eq_dec : EqDecision procstate.
Proof. solve_decision. Defined.

(** What a process sleeps on: the address given to sleep. *)
Inductive chan : Type :=
| ChNone | ChProc (p : Z) | ChInode (ip : Z) | ChTicks | ChInput | ChLog | ChBuf (b : Z)
| ChPipe (p : Z) (c : pchan).

#[export] Instance chan_eq_dec : EqDecision chan.
Proof. solve_decision. Defined.

Record proc := Proc {
  p_sz : Z; p_pgdir : Z; p_kstack : Z; p_state : procstate; p_pid : Z; p_parent : Z;
  p_tf : Z; p_context : Z; p_chan : chan; p_killed : bool; p_ofile : list Z; p_cwd : Z; p_name : list Z
}.

Record kern (S : Type) := Kern {
  k_vm : vm;      (* memory, allocator, page tables, this CPU *)
  k_fs : fs S;      (* inode cache, log, disk *)
  ft_lock : bool;      (* ftable.lock *)
  ftable : list file;      (* ftable.file *)
  k_pipes : gmap Z pipe;      (* struct pipe by address *)
  pt_lock : option Z;      (* ptable.lock and the CPU that holds it *)
  procs : list proc;      (* ptable.proc *)
  initproc : Z;
  nextpid : Z;
  me : Z;      (* number of the CPU that runs *)
  curs : list Z;      (* cpus[i].proc *)
  enabled : list Z;      (* cpus[i].enabled *)
  ticks_lock : bool;      (* tickslock *)
  ticks : Z;
  first : bool      (* forkret's static first *)
}.

Arguments Kern {S}.
Arguments k_vm {S}.
Arguments k_fs {S}.
Arguments ft_lock {S}.
Arguments ftable {S}.
Arguments k_pipes {S}.
Arguments pt_lock {S}.
Arguments procs {S}.
Arguments initproc {S}.
Arguments nextpid {S}.
Arguments me {S}.
Arguments curs {S}.
Arguments enabled {S}.
Arguments ticks_lock {S}.
Arguments ticks {S}.
Arguments first {S}.

(** Setters. *)

Definition set_k_vm {S} (x : vm) (k : kern S) : kern S :=
  Kern x (k_fs k) (ft_lock k) (ftable k) (k_pipes k) (pt_lock k) (procs k) (initproc k) (nextpid k) (me k) (curs k) (enabled k) (ticks_lock k) (ticks k) (first k).

Definition set_k_fs {S} (x : fs S) (k : kern S) : kern S :=
  Kern (k_vm k) x (ft_lock k) (ftable k) (k_pipes k) (pt_lock k) (procs k) (initproc k) (nextpid k) (me k) (curs k) (enabled k) (ticks_lock k) (ticks k) (first k).

Definition set_ft_lock {S} (x : bool) (k : kern S) : kern S :=
  Kern (k_vm k) (k_fs k) x (ftable k) (k_pipes k) (pt_lock k) (procs k) (initproc k) (nextpid k) (me k) (curs k) (enabled k) (ticks_lock k) (ticks k) (first k).

Definition set_ftable {S} (x : list file) (k : kern S) : kern S :=
  Kern (k_vm k) (k_fs k) (ft_lock k) x (k_pipes k) (pt_lock k) (procs k) (initproc k) (nextpid k) (me k) (curs k) (enabled k) (ticks_lock k) (ticks k) (first k).

Definition set_k_pipes {S} (x : gmap Z pipe) (k : kern S) : kern S :=
  Kern (k_vm k) (k_fs k) (ft_lock k) (ftable k) x (pt_lock k) (procs k) (initproc k) (nextpid k) (me k) (curs k) (enabled k) (ticks_lock k) (ticks k) (first k).

Definition set_pt_lock {S} (x : option Z) (k : kern S) : kern S :=
  Kern (k_vm k) (k_fs k) (ft_lock k) (ftable k) (k_pipes k) x (procs k) (initproc k) (nextpid k) (me k) (curs k) (enabled k) (ticks_lock k) (ticks k) (first k).

Definition set_procs {S} (x : list proc) (k : kern S) : kern S :=
  Kern (k_vm k) (k_fs k) (ft_lock k) (ftable k) (k_pipes k) (pt_lock k) x (initproc k) (nextpid k) (me k) (curs k) (enabled k) (ticks_lock k) (ticks k) (first k).

Definition set_initproc {S} (x : Z) (k : kern S) : kern S :=
  Kern (k_vm k) (k_fs k) (ft_lock k) (ftable k) (k_pipes k) (pt_lock k) (procs k) x (nextpid k) (me k) (curs k) (enabled k) (ticks_lock k) (ticks k) (first k).

Definition set_nextpid {S} (x : Z) (k : kern S) : kern S :=
  Kern (k_vm k) (k_fs k) (ft_lock k) (ftable k) (k_pipes k) (pt_lock k) (procs k) (initproc k) x (me k) (curs k) (enabled k) (ticks_lock k) (ticks k) (first k).

Definition set_me {S} (x : Z) (k : kern S) : kern S :=
  Kern (k_vm k) (k_fs k) (ft_lock k) (ftable k) (k_pipes k) (pt_lock k) (procs k) (initproc k) (nextpid k) x (curs k) (enabled k) (ticks_lock k) (ticks k) (first k).

Definition set_curs {S} (x : list Z) (k : kern S) : kern S :=
  Kern (k_vm k) (k_fs k) (ft_lock k) (ftable k) (k_pipes k) (pt_lock k) (procs k) (initproc k) (nextpid k) (me k) x (enabled k) (ticks_lock k) (ticks k) (first k).

Definition set_enabled {S} (x : list Z) (k : kern S) : kern S :=
  Kern (k_vm k) (k_fs k) (ft_lock k) (ftable k) (k_pipes k) (pt_lock k) (procs k) (initproc k) (nextpid k) (me k) (curs k) x (ticks_lock k) (ticks k) (first k).

Definition set_ticks_lock {S} (x : bool) (k : kern S) : kern S :=
  Kern (k_vm k) (k_fs k) (ft_lock k) (ftable k) (k_pipes k) (pt_lock k) (procs k) (initproc k) (nextpid k) (me k) (curs k) (enabled k) x (ticks k) (first k).

Definition set_ticks {S} (x : Z) (k : kern S) : kern S :=
  Kern (k_vm k) (k_fs k) (ft_lock k) (ftable k) (k_pipes k) (pt_lock k) (procs k) (initproc k) (nextpid k) (me k) (curs k) (enabled k) (ticks_lock k) x (first k).

Definition set_first {S} (x : bool) (k : kern S) : kern S :=
  Kern (k_vm k) (k_fs k) (ft_lock k) (ftable k) (k_pipes k) (pt_lock k) (procs k) (initproc k) (nextpid k) (me k) (curs k) (enabled k) (ticks_lock k) (ticks k) x.

Definition with_sz (x : Z) (p : proc) : proc :=
  Proc x (p_pgdir p) (p_kstack p) (p_state p) (p_pid p) (p_parent p) (p_tf p) (p_context p) (p_chan p) (p_killed p) (p_ofile p) (p_cwd p) (p_name p).

Definition with_pgdir (x : Z) (p : proc) : proc :=
  Proc (p_sz p) x (p_kstack p) (p_state p) (p_pid p) (p_parent p) (p_tf p) (p_context p) (p_chan p) (p_killed p) (p_ofile p) (p_cwd p) (p_name p).

Definition with_kstack (x : Z) (p : proc) : proc :=
  Proc (p_sz p) (p_pgdir p) x (p_state p) (p_pid p) (p_parent p) (p_tf p) (p_context p) (p_chan p) (p_killed p) (p_ofile p) (p_cwd p) (p_name p).

Definition with_state (x : procstate) (p : proc) : proc :=
  Proc (p_sz p) (p_pgdir p) (p_kstack p) x (p_pid p) (p_parent p) (p_tf p) (p_context p) (p_chan p) (p_killed p) (p_ofile p) (p_cwd p) (p_name p).

Definition with_pid (x : Z) (p : proc) : proc :=
  Proc (p_sz p) (p_pgdir p) (p_kstack p) (p_state p) x (p_parent p) (p_tf p) (p_context p) (p_chan p) (p_killed p) (p_ofile p) (p_cwd p) (p_name p).

Definition with_parent (x : Z) (p : proc) : proc :=
  Proc (p_sz p) (p_pgdir p) (p_kstack p) (p_state p) (p_pid p) x (p_tf p) (p_context p) (p_chan p) (p_killed p) (p_ofile p) (p_cwd p) (p_name p).

Definition with_tf (x : Z) (p : proc) : proc :=
  Proc (p_sz p) (p_pgdir p) (p_kstack p) (p_state p) (p_pid p) (p_parent p) x (p_context p) (p_chan p) (p_killed p) (p_ofile p) (p_cwd p) (p_name p).

Definition with_context (x : Z) (p : proc) : proc :=
  Proc (p_sz p) (p_pgdir p) (p_kstack p) (p_state p) (p_pid p) (p_parent p) (p_tf p) x (p_chan p) (p_killed p) (p_ofile p) (p_cwd p) (p_name p).

Definition with_chan (x : chan) (p : proc) : proc :=
  Proc (p_sz p) (p_pgdir p) (p_kstack p) (p_state p) (p_pid p) (p_parent p) (p_tf p) (p_context p) x (p_killed p) (p_ofile p) (p_cwd p) (p_name p).

Definition with_killed (x : bool) (p : proc) : proc :=
  Proc (p_sz p) (p_pgdir p) (p_kstack p) (p_state p) (p_pid p) (p_parent p) (p_tf p) (p_context p) (p_chan p) x (p_ofile p) (p_cwd p) (p_name p).

Definition with_ofile (x : list Z) (p : proc) : proc :=
  Proc (p_sz p) (p_pgdir p) (p_kstack p) (p_state p) (p_pid p) (p_parent p) (p_tf p) (p_context p) (p_chan p) (p_killed p) x (p_cwd p) (p_name p).

Definition with_cwd (x : Z) (p : proc) : proc :=
  Proc (p_sz p) (p_pgdir p) (p_kstack p) (p_state p) (p_pid p) (p_parent p) (p_tf p) (p_context p) (p_chan p) (p_killed p) (p_ofile p) x (p_name p).

Definition with_name (x : list Z) (p : proc) : proc :=
  Proc (p_sz p) (p_pgdir p) (p_kstack p) (p_state p) (p_pid p) (p_parent p) (p_tf p) (p_context p) (p_chan p) (p_killed p) (p_ofile p) (p_cwd p) x.

Section Lifts.
Context {S : Type} `{BufCache S}.

Definition on_vm {A} (m : M vm A) : M (kern S) A := zoom k_vm set_k_vm m.

Definition on_fs {A} (m : M (fs S) A) : M (kern S) A := zoom k_fs set_k_fs m.

(** The entry of the process table, and an update of it. *)
Definition get_proc (i : Z) : M (kern S) proc := k <- get ;; from_opt (zget (procs k) i).

Definition upd_proc (i : Z) (f : proc -> proc) : M (kern S) unit :=
  p <- get_proc i ;; modify (fun k => set_procs (zset (procs k) i (f p)) k).

(** curr_proc *)
Definition curr_proc : M (kern S) Z := k <- get ;; from_opt (zget (curs k) (me k)).

Definition set_curr (p : Z) : M (kern S) unit := modify (fun k => set_curs (zset (curs k) (me k) p) k).

Definition curp : M (kern S) proc := i <- curr_proc ;; get_proc i.

Definition upd_curp (f : proc -> proc) : M (kern S) unit := i <- curr_proc ;; upd_proc i f.

Definition get_file (i : Z) : M (kern S) file := k <- get ;; from_opt (zget (ftable k) i).

Definition put_file (i : Z) (f : file) : M (kern S) unit := modify (fun k => set_ftable (zset (ftable k) i f) k).

(** A memory access by the kernel: user addresses go through the page
    directory in TTBR0, an unmapped one aborts; others are mapped one to one. *)
Definition kaddr (m : mem) (ttbr va : Z) : option Z :=
  if va <? UADDR_SZ then
    let e := load32 m (u32 (p2v (align_dn ttbr 1024) + 4 * PDE_IDX va)) in
    if Z.land e PE_TYPES =? 0 then None else
    let e := load32 m (u32 (p2v (PT_ADDR e) + 4 * PTE_IDX va)) in
    if Z.land e PE_TYPES =? 0 then None else Some (p2v (PTE_ADDR e) + va mod 4096)
  else Some va.

Definition ld_byte (va : Z) : M (kern S) Z :=
  k <- get ;;
  a <- from_opt (kaddr (v_mem (k_vm k)) (ttbr0 (k_vm k)) (u32 va)) ;;
  ret (v_mem (k_vm k) a).

Definition st_byte (va v : Z) : M (kern S) unit :=
  k <- get ;;
  a <- from_opt (kaddr (v_mem (k_vm k)) (ttbr0 (k_vm k)) (u32 va)) ;;
  put (set_k_vm (with_mem (upd (v_mem (k_vm k)) a (u8 v)) (k_vm k)) k).

Fixpoint ld_bytes (va : Z) (n : nat) : M (kern S) (list Z) :=
  match n with
  | O => ret []
  | Datatypes.S n' => b <- ld_byte va ;; bs <- ld_bytes (va + 1) n' ;; ret (b :: bs)
  end.

Fixpoint st_bytes (va : Z) (bs : list Z) : M (kern S) unit :=
  match bs with
  | [] => ret tt
  | b :: bs' => st_byte va b ;;; st_bytes (va + 1) bs'
  end.

Definition ld_word (va : Z) : M (kern S) Z := bs <- ld_bytes va 4 ;; ret (ld32 bs 0).

Definition st_word (va v : Z) : M (kern S) unit := st_bytes va [u8 v; u8 (v / 2 ^ 8); u8 (v / 2 ^ 16); u8 (v / 2 ^ 24)].

End Lifts.
