(* ===== verification/Sched.v ===== *)
(** * proc.c: the process table and the scheduler

    The parts of proc.c that work on ptable: allocation of an entry, sleep and
    wakeup, kill, wait, the end of exit, and the hand-over between a process and the scheduler of its
    CPU.  A process that gives up its CPU ends in [Sleep]; what it does when it
    runs again is a definition of its own ([sleep_resume], [yield_resume]). *)

From S2P Require Import Prelude CString Buddy Cpu Pipe BlockCache Log Fs Vm Kernel.

(** ** Loops over ptable.proc *)

(** Index of the first entry from [i] on that satisfies [f]. *)
Fixpoint find_proc (f : proc -> bool) (l : list proc) (i : Z) : option Z :=
  match l with
  | [] => None
  | p :: l' => if f p then Some i else find_proc f l' (i + 1)
  end.

(** Wake up all processes sleeping on chan. *)
Definition wakeup1 (ch : chan) (l : list proc) : list proc :=
  map (fun p => if bool_decide (p_state p = SLEEPING) && bool_decide (p_chan p = ch)
                then with_state RUNNABLE p else p) l.

(** kill's loop: mark the first process with this pid. *)
Fixpoint kill1 (pid : Z) (l : list proc) : option (list proc) :=
  match l with
  | [] => None
  | p :: l' =>
      if p_pid p =? pid then
        let p := with_killed true p in
        Some ((if bool_decide (p_state p = SLEEPING) then with_state RUNNABLE p else p) :: l')
      else l' ← kill1 pid l'; Some (p :: l')
  end.

(** exit's loop, entry [i]: pass an abandoned child to init. *)
Definition reparent1 (cur init i : Z) (l : list proc) : list proc :=
  match zget l i with
  | Some p =>
      if p_parent p =? cur then
        let l := zset l i (with_parent init p) in
        if bool_decide (p_state p = ZOMBIE) then wakeup1 (ChProc init) l else l
      else l
  | None => l
  end.

Definition reparent (cur init : Z) (l : list proc) : list proc :=
  foldl (fun l i => reparent1 cur init i l) l (seqZ 0 (zlen l)).

(** wait's loop: a zombie child, or whether there are children at all. *)
Fixpoint scan_children (cur : Z) (l : list proc) (i : Z) (havekids : bool) : option Z * bool :=
  match l with
  | [] => (None, havekids)
  | p :: l' =>
      if negb (p_parent p =? cur) then scan_children cur l' (i + 1) havekids
      else if bool_decide (p_state p = ZOMBIE) then (Some i, true)
      else scan_children cur l' (i + 1) true
  end.

Section Sched.
Context {S : Type} `{BufCache S}.

(** Addresses of trapret and forkret. *)
Variable trapret forkret_addr : Z.

Definition upd_procs (f : list proc -> list proc) : M (kern S) unit := modify (fun k => set_procs (f (procs k)) k).

(** acquire(&ptable.lock) and release(&ptable.lock) on CPU [me]. *)
Definition acquire_pt : M (kern S) unit :=
  on_vm (on_cpu pushcli) ;;;
  k <- get ;;
  match pt_lock k with
  | Some c => if c =? me k then panic "acquire" else (fun _ => Spin)
  | None => modify (set_pt_lock (Some (me k)))
  end.

Definition release_pt : M (kern S) unit :=
  k <- get ;;
  if negb (bool_decide (pt_lock k = Some (me k))) then panic "release" else
  modify (set_pt_lock None) ;;;
  on_vm (on_cpu popcli).

Definition pinit : M (kern S) unit := modify (set_pt_lock None).

(** allocproc: an UNUSED entry becomes EMBRYO, and its kernel stack is laid
    out as if it had been interrupted. *)
Definition allocproc : M (kern S) Z :=
  acquire_pt ;;;
  k <- get ;;
  match find_proc (fun p => bool_decide (p_state p = UNUSED)) (procs k) 0 with
  | None => release_pt ;;; ret NULL
  | Some i =>
      upd_proc i (fun p => with_pid (nextpid k) (with_state EMBRYO p)) ;;;
      modify (set_nextpid (s32 (nextpid k + 1))) ;;;
      release_pt ;;;
      kstack <- on_vm (on_kmem alloc_page) ;;
      upd_proc i (with_kstack kstack) ;;;
      if kstack =? 0 then upd_proc i (with_state UNUSED) ;;; ret NULL else
      let sp := u32 (kstack + KSTACKSIZE) in
      let sp := u32 (sp - 72) in
      upd_proc i (with_tf sp) ;;;
      let sp := u32 (sp - 4) in
      on_vm (store sp trapret) ;;;
      let sp := u32 (sp - 4) in
      on_vm (store sp (u32 (kstack + KSTACKSIZE))) ;;;
      let sp := u32 (sp - 40) in
      upd_proc i (with_context sp) ;;;
      on_vm (do_memset sp 0 40) ;;;
      on_vm (store (u32 (sp + 36)) (u32 (forkret_addr + 4))) ;;;
      ret i
  end.

(** Enter the scheduler: the checks of sched, then the switch. *)
Definition sched : M (kern S) unit :=
  k <- get ;;
  if negb (bool_decide (pt_lock k = Some (me k))) then panic "sched ptable.lock" else
  if negb (ncli (v_cpu (k_vm k)) =? 1) then panic "sched locks" else
  p <- curp ;;
  if bool_decide (p_state p = RUNNING) then panic "sched running" else
  if int_enabled (v_cpu (k_vm k)) then panic "sched interruptible" else
  fun k => Sleep k.

(** What sched does after the switch back. *)
Definition sched_resume (intena : bool) : M (kern S) unit :=
  on_vm (on_cpu (modify (fun c => Cpu (cpsr c) (ncli c) intena))).

(** Give up the CPU for one scheduling round. *)
Definition yield : M (kern S) unit := acquire_pt ;;; upd_curp (with_state RUNNABLE) ;;; sched.

Definition yield_resume (intena : bool) : M (kern S) unit := sched_resume intena ;;; release_pt.

(** sleep(chan, lk); [lk] is [None] for ptable.lock itself, else how to
    release and to acquire it. *)
Definition sleep (ch : chan) (lk : option (M (kern S) unit * M (kern S) unit)) : M (kern S) unit :=
  cur <- curr_proc ;;
  if cur =? NULL then panic "sleep" else
  match lk with Some (rel, _) => acquire_pt ;;; rel | None => ret tt end ;;;
  upd_proc cur (fun p => with_state SLEEPING (with_chan ch p)) ;;;
  sched.

Definition sleep_resume (lk : option (M (kern S) unit * M (kern S) unit)) (intena : bool) : M (kern S) unit :=
  sched_resume intena ;;;
  upd_curp (with_chan ChNone) ;;;
  match lk with Some (_, acq) => release_pt ;;; acq | None => ret tt end.

Definition wakeup (ch : chan) : M (kern S) unit := acquire_pt ;;; upd_procs (wakeup1 ch) ;;; release_pt.

Definition kill (pid : Z) : M (kern S) Z :=
  acquire_pt ;;;
  k <- get ;;
  match kill1 pid (procs k) with
  | Some l => modify (set_procs l) ;;; release_pt ;;; ret 0
  | None => release_pt ;;; ret (-1)
  end.

(** One entry of the scheduler's scan: run it if it is RUNNABLE. *)
Definition scheduler_pick (i : Z) : M (kern S) bool :=
  p <- get_proc i ;;
  if negb (bool_decide (p_state p = RUNNABLE)) then ret false else
  set_curr i ;;;
  on_vm (switchuvm (p_pgdir p)) ;;;
  upd_proc i (with_state RUNNING) ;;;
  ret true.

(** Back from the process. *)
Definition scheduler_return : M (kern S) unit := set_curr NULL.

(** The rest of the scan of the table, [n] entries from [i]: the process that
    runs now, or NULL when the scan ended. *)
Fixpoint scheduler_scan (n : nat) (i : Z) : M (kern S) Z :=
  match n with
  | O => release_pt ;;; ret NULL
  | Datatypes.S n' => b <- scheduler_pick i ;; if b : bool then ret i else scheduler_scan n' (i + 1)
  end.

(** One round of the scheduler's outer loop; a disabled CPU spins. *)
Definition scheduler_start : M (kern S) Z :=
  k <- get ;;
  e <- from_opt (zget (enabled k) (me k)) ;;
  if e =? 0 then (fun _ => Spin) else
  on_vm (on_cpu sti) ;;;
  acquire_pt ;;;
  scheduler_scan (length (procs k)) 0.

(** The round goes on after process [i] switched back. *)
Definition scheduler_next (i : Z) : M (kern S) Z :=
  scheduler_return ;;;
  k <- get ;;
  scheduler_scan (Z.to_nat (zlen (procs k) - (i + 1))) (i + 1).

(** The entry that wait frees; wait has freed its memory. *)
Definition reaped (p : proc) : proc :=
  with_killed false (with_name (match p_name p with [] => [] | _ :: n => 0 :: n end)
    (with_parent NULL (with_pid 0 (with_state UNUSED p)))).

(** Wait for a child process to exit and return its pid: the loop, entered
    with ptable.lock held and again after each sleep. *)
Definition wait_loop : M (kern S) Z :=
  cur <- curr_proc ;;
  k <- get ;;
  match scan_children cur (procs k) 0 false with
  | (Some j, _) =>
      p <- get_proc j ;;
      on_vm (on_kmem (free_page (p_kstack p))) ;;;
      upd_proc j (with_kstack 0) ;;;
      on_vm (freevm (p_pgdir p)) ;;;
      upd_proc j reaped ;;;
      release_pt ;;;
      ret (p_pid p)
  | (None, havekids) =>
      p <- curp ;;
      if negb havekids || p_killed p then release_pt ;;; ret (-1)
      else sleep (ChProc cur) None ;;; ret 0
  end.

Definition wait : M (kern S) Z := acquire_pt ;;; wait_loop.

Definition wait_resume (intena : bool) : M (kern S) Z := sleep_resume None intena ;;; wait_loop.

(** exit, once files and directory are given up: tell the parent, pass the
    children to init, become a zombie. *)
Definition exit_zombie : M (kern S) unit :=
  acquire_pt ;;;
  cur <- curr_proc ;;
  p <- curp ;;
  upd_procs (wakeup1 (ChProc (p_parent p))) ;;;
  k <- get ;;
  upd_procs (reparent cur (initproc k)) ;;;
  upd_curp (with_state ZOMBIE) ;;;
  sched ;;;
  panic "zombie exit".

(** forkret: the first code a new process runs. *)
Definition forkret : M (kern S) unit :=
  release_pt ;;;
  k <- get ;;
  when (first k) (modify (set_first false) ;;; on_fs (on_log initlog)).

End Sched.
