(* ===== verification/SchedSpec.v ===== *)
(** * The process table as a state machine

    [tstep] has one rule per section of code that runs under ptable.lock (and
    for the few stores made without it); the rules use the same functions on
    the table as the code in Sched.v and Proc.v.  Invariants hold in every
    interleaving of the CPUs. *)

From S2P Require Import Prelude CString Buddy Cpu Pipe BlockCache Log Fs Vm Kernel Sched.

Record tstate := TState {
  t_procs : list proc;
  t_curs : list Z;
  t_holder : option Z;
  t_pid : Z;
  t_init : Z
}.

(** CPU [c] runs process [i]. *)
Definition runs (s : tstate) (c i : Z) (p : proc) : Prop :=
  zget (t_curs s) c = Some i /\ zget (t_procs s) i = Some p /\ p_state p = RUNNING.

Definition set_entry (i : Z) (p : proc) (s : tstate) : tstate :=
  TState (zset (t_procs s) i p) (t_curs s) (t_holder s) (t_pid s) (t_init s).

Definition set_table (l : list proc) (s : tstate) : tstate :=
  TState l (t_curs s) (t_holder s) (t_pid s) (t_init s).

Inductive tstep : tstate -> tstate -> Prop :=
| t_acquire s c : t_holder s = None ->
    tstep s (TState (t_procs s) (t_curs s) (Some c) (t_pid s) (t_init s))
| t_release s c : t_holder s = Some c ->
    (zget (t_curs s) c = Some NULL \/ exists i p, runs s c i p) ->
    tstep s (TState (t_procs s) (t_curs s) None (t_pid s) (t_init s))
| t_wakeup s c ch : t_holder s = Some c -> tstep s (set_table (wakeup1 ch (t_procs s)) s)
| t_kill s c pid l : t_holder s = Some c -> kill1 pid (t_procs s) = Some l -> tstep s (set_table l s)
| t_alloc s c i p : t_holder s = Some c -> t_pid s < 2 ^ 31 - 1 ->
    find_proc (fun p => bool_decide (p_state p = UNUSED)) (t_procs s) 0 = Some i -> zget (t_procs s) i = Some p ->
    tstep s (TState (zset (t_procs s) i (with_pid (t_pid s) (with_state EMBRYO p))) (t_curs s) (t_holder s) (t_pid s + 1) (t_init s))
| t_embryo s i p p' : zget (t_procs s) i = Some p -> p_state p = EMBRYO ->      (* fork and userinit fill the entry in *)
    p_state p' ∈ [EMBRYO; RUNNABLE; UNUSED] -> p_pid p' = p_pid p -> p_parent p' <> i -> (i = t_init s -> p_parent p' = NULL) ->
    tstep s (set_entry i p' s)
| t_sleep s c i p ch : t_holder s = Some c -> runs s c i p -> (forall q, ch <> ChProc q) ->
    tstep s (set_entry i (with_state SLEEPING (with_chan ch p)) s)
| t_wait s c i p : t_holder s = Some c -> runs s c i p -> scan_children i (t_procs s) 0 false = (None, true) ->
    tstep s (set_entry i (with_state SLEEPING (with_chan (ChProc i) p)) s)
| t_reap s c i p j q : t_holder s = Some c -> runs s c i p -> zget (t_procs s) j = Some q -> p_parent q = i ->
    p_state q = ZOMBIE -> tstep s (set_entry j (reaped q) s)
| t_yield s c i p : t_holder s = Some c -> runs s c i p -> tstep s (set_entry i (with_state RUNNABLE p) s)
| t_exit s c i p p' : t_holder s = Some c -> runs s c i p -> i <> t_init s ->
    zget (reparent i (t_init s) (wakeup1 (ChProc (p_parent p)) (t_procs s))) i = Some p' ->
    tstep s (set_table (zset (reparent i (t_init s) (wakeup1 (ChProc (p_parent p)) (t_procs s))) i (with_state ZOMBIE p')) s)
| t_switch s c i p : t_holder s = Some c -> zget (t_curs s) c = Some i -> zget (t_procs s) i = Some p -> p_state p <> RUNNING ->
    tstep s (TState (t_procs s) (zset (t_curs s) c NULL) (t_holder s) (t_pid s) (t_init s))
| t_pick s c i p : t_holder s = Some c -> zget (t_curs s) c = Some NULL -> zget (t_procs s) i = Some p -> p_state p = RUNNABLE ->
    tstep s (TState (zset (t_procs s) i (with_state RUNNING p)) (zset (t_curs s) c i) (t_holder s) (t_pid s) (t_init s))
| t_resume s c i p : t_holder s = Some c -> runs s c i p ->                       (* the end of sleep *)
    tstep s (set_entry i (with_chan ChNone p) s)
| t_fields s i p p' : zget (t_procs s) i = Some p ->                              (* memory, files, name, kill flag *)
    p_state p' = p_state p -> p_pid p' = p_pid p -> p_parent p' = p_parent p -> p_chan p' = p_chan p -> tstep s (set_entry i p' s).

(** A table in which nothing has run yet. *)
Definition t_initial (s : tstate) : Prop :=
  (forall i p, zget (t_procs s) i = Some p -> p_state p = UNUSED /\ p_parent p = NULL) /\
  (forall c i, zget (t_curs s) c = Some i -> i = NULL) /\ t_holder s = None /\ 0 < t_pid s.

Inductive treach : tstate -> Prop :=
| treach_init s : t_initial s -> treach s
| treach_step s s' : treach s -> tstep s s' -> treach s'.

(** ** The functions on the table *)

Lemma zget_map {A B} (f : A -> B) (l : list A) i : zget (map f l) i = f <$> zget l i.
Proof. unfold zget. case_if; [|done]. by rewrite list_lookup_fmap. Qed.

(** Sleepers may become runnable; the rest of the entry stays. *)
Definition woken (p p' : proc) : Prop :=
  p_pid p' = p_pid p /\ p_parent p' = p_parent p /\ p_chan p' = p_chan p /\
  (p_state p' = p_state p \/ p_state p = SLEEPING /\ p_state p' = RUNNABLE).

Lemma woken_refl p : woken p p.
Proof. split; [done|]. split; [done|]. split; [done|by left]. Qed.

Lemma wakeup1_get ch l i p' : zget (wakeup1 ch l) i = Some p' ->
  exists p, zget l i = Some p /\ woken p p' /\ ~ (p_state p' = SLEEPING /\ p_chan p' = ch).
Proof.
  unfold wakeup1. rewrite zget_map. destruct (zget l i) as [p|] eqn:E; [|done]. intros [= <-]. exists p. split; [done|].
  destruct (decide (p_state p = SLEEPING)) as [Hs|Hs]; [rewrite bool_decide_true by done|rewrite bool_decide_false by done].
  - destruct (decide (p_chan p = ch)) as [Hc|Hc]; [rewrite bool_decide_true by done|rewrite bool_decide_false by done]; cbn [andb].
    + split; [|cbn; naive_solver]. split; [done|]. split; [done|]. split; [done|]. by right.
    + split; [apply woken_refl|naive_solver].
  - cbn [andb]. split; [apply woken_refl|naive_solver].
Qed.

Lemma zlen_wakeup1 ch l : zlen (wakeup1 ch l) = zlen l.
Proof. unfold zlen, wakeup1. by rewrite length_map. Qed.

Lemma kill1_get pid l : forall l' i p', kill1 pid l = Some l' -> zget l' i = Some p' ->
  exists p, zget l i = Some p /\ woken p p'.
Proof.
  induction l as [|p l IH]; intros l' i p' Hk Hp; [done|]. cbn in Hk. destruct (p_pid p =? pid).
  - injection Hk as <-. apply zget_cons in Hp as [[-> ->]|[Hi Hp]].
    + exists p. split; [done|]. case_bool_decide as Hs; (split; [done|]; split; [done|]; split; [done|]); [by right|by left].
    + exists p'. split; [by rewrite zget_succ|apply woken_refl].
  - destruct (kill1 pid l) as [l1|]; [|done]. injection Hk as <-. apply zget_cons in Hp as [[-> ->]|[Hi Hp]].
    + exists p. split; [done|apply woken_refl].
    + destruct (IH l1 (i - 1) p' eq_refl Hp) as (q & Hq & Hw). exists q. by rewrite zget_succ.
Qed.

Lemma find_proc_get f l : forall i j, find_proc f l i = Some j -> i <= j /\ exists p, zget l (j - i) = Some p /\ f p = true.
Proof.
  induction l as [|p l IH]; intros i j Hf; [done|]. cbn in Hf. destruct (f p) eqn:E.
  - injection Hf as <-. split; [lia|]. exists p. by rewrite Z.sub_diag.
  - destruct (IH _ _ Hf) as (Hij & q & Hq & Hfq). split; [lia|]. exists q.
    rewrite zget_succ by lia. by replace (j - i - 1) with (j - (i + 1)) by lia.
Qed.

(** wait's scan finds a zombie child, or there is none. *)
Lemma scan_children_ok cur l : forall i b,
  match (scan_children cur l i b).1 with
  | Some j => i <= j /\ exists p, zget l (j - i) = Some p /\ p_parent p = cur /\ p_state p = ZOMBIE
  | None => forall j p, zget l j = Some p -> p_parent p = cur -> p_state p <> ZOMBIE
  end.
Proof.
  induction l as [|p l IH]; intros i b; cbn [scan_children]; [intros j p Hp; by apply zget_Some in Hp; unfold zlen in Hp; cbn in Hp; lia|].
  destruct (Z.eqb_spec (p_parent p) cur) as [Hpar|Hpar]; cbn [negb].
  - case_bool_decide as Hz.
    + split; [lia|]. exists p. by rewrite Z.sub_diag.
    + specialize (IH (i + 1) true). destruct (scan_children cur l (i + 1) true) as [[j|] h]; cbn [fst] in *.
      * destruct IH as (Hij & q & Hq & Hrest). split; [lia|]. exists q.
        rewrite zget_succ by lia. by replace (j - i - 1) with (j - (i + 1)) by lia.
      * intros j q [[-> ->]|[_ Hq]]%zget_cons; [done|by eapply IH].
  - specialize (IH (i + 1) b). destruct (scan_children cur l (i + 1) b) as [[j|] h]; cbn [fst] in *.
    + destruct IH as (Hij & q & Hq & Hrest). split; [lia|]. exists q.
      rewrite zget_succ by lia. by replace (j - i - 1) with (j - (i + 1)) by lia.
    + intros j q [[-> ->]|[_ Hq]]%zget_cons; [done|by eapply IH].
Qed.

(** ** The invariant *)

(** Waiting for its own children. *)
Definition waiting (i : Z) (p : proc) : Prop := p_state p = SLEEPING /\ p_chan p = ChProc i.

Definition no_lost (l : list proc) : Prop := forall i j p q,
  zget l i = Some p -> zget l j = Some q -> waiting i p -> p_parent q = i -> p_state q <> ZOMBIE.

Definition alive (p : proc) : Prop := p_state p <> UNUSED /\ p_state p <> EMBRYO.

Record tinv (s : tstate) : Prop := {
  ti_run : forall c i, zget (t_curs s) c = Some i -> i <> NULL ->
    exists p, zget (t_procs s) i = Some p /\ (p_state p = RUNNING \/ t_holder s = Some c /\ alive p);
  ti_one : forall c d i, zget (t_curs s) c = Some i -> zget (t_curs s) d = Some i -> i <> NULL -> c = d;
  ti_cur : forall i p, zget (t_procs s) i = Some p -> p_state p = RUNNING -> exists c, zget (t_curs s) c = Some i;
  ti_pid : forall i p, zget (t_procs s) i = Some p -> p_state p <> UNUSED -> 0 < p_pid p < t_pid s;
  ti_uniq : forall i j p q, zget (t_procs s) i = Some p -> zget (t_procs s) j = Some q ->
    p_state p <> UNUSED -> p_state q <> UNUSED -> p_pid p = p_pid q -> i = j;
  ti_par : forall i p, zget (t_procs s) i = Some p -> p_parent p <> i /\ (i = t_init s -> p_parent p = NULL);
  ti_lost : no_lost (t_procs s);
  ti_next : 0 < t_pid s
}.

Lemma zset_inv {A} (l : list A) i x k y : zget (zset l i x) k = Some y ->
  (k = i /\ y = x) \/ (k <> i /\ zget l k = Some y).
Proof.
  intros Hk. pose proof (zget_Some _ _ _ Hk) as Hr. rewrite zlen_zset in Hr. destruct (decide (k = i)) as [->|Hne].
  - rewrite zget_zset_eq in Hk by done. left. by injection Hk.
  - rewrite zget_zset_ne in Hk by done. by right.
Qed.

Lemma zget_zset_both {A} (l : list A) i x p : zget l i = Some p -> zget (zset l i x) i = Some x.
Proof. intros Hp. apply zget_zset_eq. by eapply zget_Some. Qed.

(** Changing one entry. *)
Lemma tinv_set s i p p' : tinv s -> zget (t_procs s) i = Some p ->
  (forall c, zget (t_curs s) c = Some i -> p_state p' = RUNNING \/ t_holder s = Some c /\ alive p') ->
  (p_state p' = RUNNING -> exists c, zget (t_curs s) c = Some i) ->
  (p_state p' <> UNUSED -> 0 < p_pid p' < t_pid s /\
     forall j q, j <> i -> zget (t_procs s) j = Some q -> p_state q <> UNUSED -> p_pid q <> p_pid p') ->
  p_parent p' <> i -> (i = t_init s -> p_parent p' = NULL) ->
  (waiting i p' -> forall j q, zget (t_procs s) j = Some q -> p_parent q = i -> p_state q <> ZOMBIE) ->
  (p_state p' = ZOMBIE -> forall k r, zget (t_procs s) k = Some r -> waiting k r -> p_parent p' <> k) ->
  tinv (set_entry i p' s).
Proof.
  intros [A B C D E F G N] Hp H1 H2 H3 H4 H4' H5 H6. split; cbn [set_entry t_procs t_curs t_holder t_pid t_init].
  - intros c k Hc Hn. destruct (decide (k = i)) as [->|Hk].
    + exists p'. split; [by eapply zget_zset_both|]. by apply H1.
    + rewrite zget_zset_ne by done. by apply A.
  - exact B.
  - intros k q [[-> ->]|[Hk Hq]]%zset_inv; [exact H2|by apply C].
  - intros k q [[-> ->]|[Hk Hq]]%zset_inv Hs; [by apply H3|by eapply D].
  - intros k j q r [[-> ->]|[Hk Hq]]%zset_inv [[-> ->]|[Hj Hr]]%zset_inv Hs Ht Heq; [done| | |by eapply E].
    + exfalso. by apply (proj2 (H3 Hs) j r).
    + exfalso. by apply (proj2 (H3 Ht) k q).
  - intros k q [[-> ->]|[Hk Hq]]%zset_inv; [done|by apply F].
  - intros k j q r [[-> ->]|[Hk Hq]]%zset_inv [[-> ->]|[Hj Hr]]%zset_inv Hw Hpar; [by destruct (H4 Hpar)|exact (H5 Hw j r Hr Hpar)| |exact (G k j q r Hq Hr Hw Hpar)].
    intros Hz. by apply (H6 Hz k q Hq Hw).
  - exact N.
Qed.

(** Waking sleepers up. *)
Lemma tinv_woken s l : tinv s -> zlen l = zlen (t_procs s) ->
  (forall i p', zget l i = Some p' -> exists p, zget (t_procs s) i = Some p /\ woken p p') -> tinv (set_table l s).
Proof.
  intros [A B C D E F G N] Hlen Hw.
  assert (forall i p, zget (t_procs s) i = Some p -> exists p', zget l i = Some p' /\ woken p p') as Hw2.
  { intros i p Hp. pose proof (zget_Some _ _ _ Hp) as Hi. destruct (zget_in l i ltac:(lia)) as [p' Hp'].
    destruct (Hw i p' Hp') as (q & Hq & Hqw). exists p'. split; [done|]. congruence. }
  split; cbn [set_table t_procs t_curs t_holder t_pid t_init].
  - intros c i Hc Hn. destruct (A c i Hc Hn) as (p & Hp & Hor). destruct (Hw2 i p Hp) as (p' & Hp' & (_ & _ & _ & Hst)).
    exists p'. split; [done|]. unfold alive in *. destruct Hst as [->|[Hs ->]]; [done|]. right. naive_solver congruence.
  - exact B.
  - intros i p' Hp' Hr. destruct (Hw i p' Hp') as (p & Hp & (_ & _ & _ & Hst)). apply (C i p Hp). destruct Hst as [<-|[_ ?]]; congruence.
  - intros i p' Hp' Hn. destruct (Hw i p' Hp') as (p & Hp & (-> & _ & _ & Hst)). apply (D i p Hp). destruct Hst as [<-|[? _]]; congruence.
  - intros i j p' q' Hp' Hq' Hnp Hnq Heq. destruct (Hw i p' Hp') as (p & Hp & (E1 & _ & _ & Hst)).
    destruct (Hw j q' Hq') as (q & Hq & (E2 & _ & _ & Hsq)). apply (E i j p q Hp Hq); [| |congruence].
    + destruct Hst as [<-|[? _]]; congruence.
    + destruct Hsq as [<-|[? _]]; congruence.
  - intros i p' Hp'. destruct (Hw i p' Hp') as (p & Hp & (_ & -> & _ & _)). by apply F.
  - intros i j p' q' Hp' Hq' [Hs Hc] Hpar Hz. destruct (Hw i p' Hp') as (p & Hp & (_ & _ & Ec & Hst)).
    destruct (Hw j q' Hq') as (q & Hq & (_ & Epar & _ & Hsq)).
    apply (G i j p q Hp Hq); [split|congruence|].
    + destruct Hst as [<-|[_ ?]]; congruence.
    + congruence.
    + destruct Hsq as [<-|[_ ?]]; congruence.
  - exact N.
Qed.

(** A child [j] of an exiting process goes to init. *)
Lemma tinv_adopt s j p : tinv s -> zget (t_procs s) j = Some p -> p_parent p <> NULL ->
  (p_state p = ZOMBIE -> forall r, zget (t_procs s) (t_init s) = Some r -> ~ waiting (t_init s) r) ->
  tinv (set_entry j (with_parent (t_init s) p) s).
Proof.
  intros Hi Hp Hpar Hz. assert (j <> t_init s) as Hj.
  { intros ->. apply Hpar. by apply (ti_par s Hi _ p Hp). }
  assert (j <> NULL) as Hjn by (pose proof (zget_Some _ _ _ Hp); unfold NULL; lia).
  apply (tinv_set s j p (with_parent (t_init s) p) Hi Hp); cbn.
  - intros c Hc. destruct (ti_run s Hi c j Hc Hjn) as (q & Hq & Hor). rewrite Hp in Hq. injection Hq as <-. exact Hor.
  - by apply (ti_cur s Hi j p Hp).
  - intros Hu. split; [by apply (ti_pid s Hi j p Hp)|]. intros k q Hk Hq Hqu E. by apply Hk, (ti_uniq s Hi k j q p).
  - done.
  - done.
  - intros Hw k q Hq Hqp. by apply (ti_lost s Hi j k p q Hp Hq).
  - intros Hzz k r Hr Hw E. subst k. by apply (Hz Hzz r Hr).
Qed.

Lemma wakeup1_zset ch l j x : p_state x <> SLEEPING -> wakeup1 ch (zset l j x) = zset (wakeup1 ch l) j x.
Proof.
  intros Hx. unfold wakeup1, zset. case_if; [|done]. rewrite list_fmap_insert. by rewrite bool_decide_false.
Qed.

Lemma tinv_wakeup1 s ch : tinv s -> tinv (set_table (wakeup1 ch (t_procs s)) s).
Proof.
  intros Hi. apply tinv_woken; [done|apply zlen_wakeup1|]. intros i p' Hp'.
  destruct (wakeup1_get _ _ _ _ Hp') as (p & Hp & Hw & _). by exists p.
Qed.

Lemma tinv_reparent1 s i j : tinv s -> i <> NULL -> tinv (set_table (reparent1 i (t_init s) j (t_procs s)) s).
Proof.
  intros Hi Hn. unfold reparent1. destruct (zget (t_procs s) j) as [p|] eqn:Hp; [|by destruct s].
  destruct (Z.eqb_spec (p_parent p) i) as [Hpar|]; [|by destruct s]. case_bool_decide as Hz.
  - rewrite wakeup1_zset by (cbn; congruence). set (s1 := set_table (wakeup1 (ChProc (t_init s)) (t_procs s)) s).
    assert (zget (t_procs s1) j = Some p) as Hp1.
    { cbn. unfold wakeup1. rewrite zget_map, Hp. cbn. by rewrite bool_decide_false by congruence. }
    apply (tinv_adopt s1 j p (tinv_wakeup1 s _ Hi) Hp1); [congruence|]. intros _ r Hr Hw.
    destruct (wakeup1_get _ _ _ _ Hr) as (_ & _ & _ & Hno). by apply Hno.
  - apply (tinv_adopt s j p Hi Hp); [congruence|done].
Qed.

Lemma tinv_reparent s i : tinv s -> i <> NULL -> tinv (set_table (reparent i (t_init s) (t_procs s)) s).
Proof.
  intros Hi Hn. unfold reparent. generalize (seqZ 0 (zlen (t_procs s))). intros js. revert s Hi.
  induction js as [|j js IH]; intros s Hi; [by destruct s|]. cbn [foldl].
  apply (IH (set_table (reparent1 i (t_init s) j (t_procs s)) s)). by apply tinv_reparent1.
Qed.

(** An entry through reparent. *)
Lemma reparent1_get cur init j l k p' : zget (reparent1 cur init j l) k = Some p' ->
  exists p, zget l k = Some p /\ p_pid p' = p_pid p /\ p_chan p' = p_chan p /\
    (p_state p' = p_state p \/ p_state p = SLEEPING /\ p_state p' = RUNNABLE) /\
    (p_parent p' = p_parent p \/ p_parent p = cur).
Proof.
  unfold reparent1. assert (forall q, zget l k = Some q -> exists p, zget l k = Some p /\ p_pid q = p_pid p /\ p_chan q = p_chan p /\
    (p_state q = p_state p \/ p_state p = SLEEPING /\ p_state q = RUNNABLE) /\ (p_parent q = p_parent p \/ p_parent p = cur)) as Hsame
    by (intros q Hq; exists q; naive_solver).
  destruct (zget l j) as [p|] eqn:Hp; [|apply Hsame]. destruct (Z.eqb_spec (p_parent p) cur) as [Hpar|]; [|apply Hsame].
  assert (forall q, zget (zset l j (with_parent init p)) k = Some q -> exists p, zget l k = Some p /\ p_pid q = p_pid p /\
    p_chan q = p_chan p /\ p_state q = p_state p /\ (p_parent q = p_parent p \/ p_parent p = cur)) as Hset.
  { intros q [[-> ->]|[_ Hq]]%zset_inv; [exists p; naive_solver|exists q; naive_solver]. }
  case_bool_decide.
  - intros (q & Hq & (E1 & E2 & E3 & E4) & _)%wakeup1_get. destruct (Hset q Hq) as (r & Hr & R1 & R2 & R3 & R4). exists r.
    split; [done|]. split; [congruence|]. split; [congruence|]. split; [destruct E4 as [E4|[E4 E5]]; [left|right]; naive_solver congruence|].
    by rewrite E2.
  - intros Hq. destruct (Hset _ Hq) as (r & Hr & R1 & R2 & R3 & R4). exists r. naive_solver.
Qed.

(** After exit's wakeup of the parent and its loop, nobody waits for [k]'s
    children where nobody did before. *)
Lemma reparent_not_waiting cur init l : forall k, (forall r, zget l k = Some r -> ~ waiting k r) ->
  forall r, zget (reparent cur init l) k = Some r -> ~ waiting k r.
Proof.
  unfold reparent. generalize (seqZ 0 (zlen l)). intros js. revert l. induction js as [|j js IH]; intros l k Hno; [done|].
  cbn [foldl]. apply IH. intros r Hr [Hs Hc]. destruct (reparent1_get _ _ _ _ _ _ Hr) as (p & Hp & _ & Ec & Est & _).
  apply (Hno p Hp). split; [destruct Est as [<-|[_ ?]]; congruence|congruence].
Qed.

Lemma reparent1_zlen cur init j l : zlen (reparent1 cur init j l) = zlen l.
Proof. unfold reparent1. destruct (zget l j); [|done]. case_if; [|done]. case_bool_decide; rewrite ?zlen_wakeup1; by rewrite zlen_zset. Qed.

(** A running entry goes through reparent as it is. *)
Lemma reparent_running cur init l i p : zget l i = Some p -> p_state p = RUNNING -> p_parent p <> cur ->
  zget (reparent cur init l) i = Some p.
Proof.
  unfold reparent. generalize (seqZ 0 (zlen l)). intros js. revert l. induction js as [|j js IH]; intros l Hp Hs Hn; [done|].
  cbn [foldl]. apply IH; [|done..]. unfold reparent1. destruct (zget l j) as [q|] eqn:Hq; [|done].
  destruct (Z.eqb_spec (p_parent q) cur) as [Hpar|]; [|done]. assert (j <> i) by congruence.
  case_bool_decide; [|by rewrite zget_zset_ne]. unfold wakeup1. rewrite zget_map, zget_zset_ne, Hp by done. cbn.
  by rewrite bool_decide_false by congruence.
Qed.

Lemma wakeup1_running ch l i p : zget l i = Some p -> p_state p = RUNNING -> zget (wakeup1 ch l) i = Some p.
Proof. intros Hp Hs. unfold wakeup1. rewrite zget_map, Hp. cbn. by rewrite bool_decide_false by congruence. Qed.

Lemma tinv_runs s c i p : tinv s -> runs s c i p -> i <> NULL /\ forall d, zget (t_curs s) d = Some i -> d = c.
Proof.
  intros Hi (Hc & Hp & _). assert (i <> NULL) as Hn by (pose proof (zget_Some _ _ _ Hp); unfold NULL; lia).
  split; [done|]. intros d Hd. by eapply (ti_one s Hi).
Qed.

(** Rules that change the entry of the process that holds the lock. *)
Lemma tinv_set_cur s c i p p' : tinv s -> t_holder s = Some c -> runs s c i p -> alive p' ->
  p_pid p' = p_pid p -> p_parent p' = p_parent p ->
  (waiting i p' -> forall j q, zget (t_procs s) j = Some q -> p_parent q = i -> p_state q <> ZOMBIE) ->
  (p_state p' = ZOMBIE -> forall k r, zget (t_procs s) k = Some r -> waiting k r -> p_parent p' <> k) ->
  tinv (set_entry i p' s).
Proof.
  intros Hi Hh Hr Ha E1 E2 Hw Hz. destruct (tinv_runs s c i p Hi Hr) as (Hn & Hd). destruct Hr as (Hc & Hp & Hs).
  apply (tinv_set s i p p' Hi Hp); [| | | | |done|done].
  - intros d Hd'. right. by rewrite (Hd d Hd').
  - intros _. by exists c.
  - intros _. rewrite E1. split; [apply (ti_pid s Hi i p Hp); congruence|]. intros j q Hj Hq Hu E.
    apply Hj, (ti_uniq s Hi j i q p); congruence.
  - rewrite E2. by apply (ti_par s Hi i p).
  - rewrite E2. by apply (ti_par s Hi i p).
Qed.

(** An entry no CPU runs. *)
Lemma tinv_idle s i p : tinv s -> zget (t_procs s) i = Some p -> p_state p <> RUNNING -> ~ alive p ->
  forall c, zget (t_curs s) c <> Some i.
Proof.
  intros Hi Hp Hr Ha c Hc. destruct (ti_run s Hi c i Hc) as (q & Hq & Hor).
  { pose proof (zget_Some _ _ _ Hp). unfold NULL; lia. }
  rewrite Hp in Hq. injection Hq as <-. destruct Hor as [?|[_ ?]]; done.
Qed.

Lemma tinv_pid s n : tinv s -> t_pid s <= n -> tinv (TState (t_procs s) (t_curs s) (t_holder s) n (t_init s)).
Proof.
  intros [A B C D E F G N] Hn. split; cbn; try done; [|lia]. intros i p Hp Hs. specialize (D i p Hp Hs). lia.
Qed.

Lemma kill1_zlen pid l : forall l', kill1 pid l = Some l' -> zlen l' = zlen l.
Proof.
  unfold zlen. induction l as [|p l IH]; intros l' Hk; [done|]. cbn in Hk. case_match; [by injection Hk as <-|].
  destruct (kill1 pid l) as [l1|]; [|done]. injection Hk as <-. cbn. specialize (IH l1 eq_refl). lia.
Qed.

Lemma tinv_lock s h : tinv s -> (forall c i p, t_holder s = Some c -> zget (t_curs s) c = Some i -> i <> NULL ->
  zget (t_procs s) i = Some p -> p_state p = RUNNING) ->
  tinv (TState (t_procs s) (t_curs s) h (t_pid s) (t_init s)).
Proof.
  intros [A B C D E F G N] Hr. split; cbn; try done. intros c i Hc Hn. destruct (A c i Hc Hn) as (p & Hp & Hor).
  exists p. split; [done|]. left. destruct Hor as [?|[Hh _]]; [done|]. by eapply Hr.
Qed.

Lemma tinv_switch s c i p : tinv s -> t_holder s = Some c -> zget (t_curs s) c = Some i -> zget (t_procs s) i = Some p ->
  p_state p <> RUNNING -> tinv (TState (t_procs s) (zset (t_curs s) c NULL) (t_holder s) (t_pid s) (t_init s)).
Proof.
  intros [A B C D E F G N] Hh Hc Hp Hs. split; cbn; try done.
  - intros d j [[-> ->]|[Hd Hj]]%zset_inv Hn; [done|by apply A].
  - intros d e j [[-> ->]|[Hd Hj]]%zset_inv [[-> Ej]|[He Hj']]%zset_inv Hn; try done. by eapply B.
  - intros j q Hq Hr. destruct (C j q Hq Hr) as [d Hd]. exists d. rewrite zget_zset_ne; [done|]. intros ->. congruence.
Qed.

Lemma tinv_pick s c i p : tinv s -> t_holder s = Some c -> zget (t_curs s) c = Some NULL -> zget (t_procs s) i = Some p ->
  p_state p = RUNNABLE ->
  tinv (TState (zset (t_procs s) i (with_state RUNNING p)) (zset (t_curs s) c i) (t_holder s) (t_pid s) (t_init s)).
Proof.
  intros [A B C D E F G N] Hh Hc Hp Hs. assert (i <> NULL) as Hn by (pose proof (zget_Some _ _ _ Hp); unfold NULL; lia).
  assert (forall d, zget (t_curs s) d <> Some i) as Hidle.
  { intros d Hd. destruct (A d i Hd Hn) as (q & Hq & Hor). rewrite Hp in Hq. injection Hq as <-.
    destruct Hor as [?|[Hh' _]]; [congruence|]. rewrite Hh in Hh'. injection Hh' as ->. congruence. }
  split; cbn.
  - intros d j [[-> ->]|[Hd Hj]]%zset_inv Hjn.
    + exists (with_state RUNNING p). split; [by eapply zget_zset_both|by left].
    + destruct (A d j Hj Hjn) as (q & Hq & Hor). exists q. rewrite zget_zset_ne; [done|]. intros ->. by apply (Hidle d).
  - intros d e j [[-> ->]|[Hd Hj]]%zset_inv [[-> Ej]|[He Hj']]%zset_inv Hjn; [done| | |by eapply B].
    + by destruct (Hidle e).
    + subst j. by destruct (Hidle d).
  - intros j q [[-> ->]|[Hj Hq]]%zset_inv Hr; [exists c; by eapply zget_zset_both|].
    destruct (C j q Hq Hr) as [d Hd]. exists d. rewrite zget_zset_ne; [done|]. intros ->. rewrite Hc in Hd. injection Hd as <-.
    pose proof (zget_Some _ _ _ Hq). unfold NULL in *. lia.
  - intros j q [[-> ->]|[Hj Hq]]%zset_inv Hu; [apply (D i p Hp); congruence|by eapply D].
  - intros j k q r [[-> ->]|[Hj Hq]]%zset_inv [[-> ->]|[Hk Hr]]%zset_inv Hu Hv Heq; cbn in Heq; [done| | |by eapply E].
    + apply (E i k p r Hp Hr); congruence.
    + apply (E j i q p Hq Hp); congruence.
  - intros j q [[-> ->]|[Hj Hq]]%zset_inv; [by apply (F i p)|by apply F].
  - intros j k q r [[-> ->]|[Hj Hq]]%zset_inv [[-> ->]|[Hk Hr]]%zset_inv Hw Hpar; [by destruct Hw|by destruct Hw|done|exact (G j k q r Hq Hr Hw Hpar)].
  - done.
Qed.

Lemma tinv_alloc s i p : tinv s ->
  find_proc (fun p => bool_decide (p_state p = UNUSED)) (t_procs s) 0 = Some i -> zget (t_procs s) i = Some p ->
  tinv (TState (zset (t_procs s) i (with_pid (t_pid s) (with_state EMBRYO p))) (t_curs s) (t_holder s) (t_pid s + 1) (t_init s)).
Proof.
  intros Hi Hf Hp. apply find_proc_get in Hf as (_ & q & Hq & Hu%bool_decide_eq_true).
  rewrite Z.sub_0_r, Hp in Hq. injection Hq as <-. pose proof (ti_next s Hi).
  pose proof (tinv_pid s (t_pid s + 1) Hi ltac:(lia)) as Hi'.
  refine (tinv_set _ i p (with_pid (t_pid s) (with_state EMBRYO p)) Hi' Hp _ _ _ _ _ _ _); cbn.
  - intros c Hc. destruct (tinv_idle s i p Hi Hp) with c; [congruence| |done]. intros [? _]. done.
  - done.
  - intros _. split; [lia|]. intros j r Hj Hr Hs. pose proof (ti_pid s Hi j r Hr Hs). lia.
  - by apply (ti_par s Hi i p).
  - by apply (ti_par s Hi i p).
  - by intros [? _].
  - done.
Qed.

Lemma tinv_embryo s i p p' : tinv s -> zget (t_procs s) i = Some p -> p_state p = EMBRYO ->
  p_state p' ∈ [EMBRYO; RUNNABLE; UNUSED] -> p_pid p' = p_pid p -> p_parent p' <> i -> (i = t_init s -> p_parent p' = NULL) ->
  tinv (set_entry i p' s).
Proof.
  intros Hi Hp Hs Hst Epid Hpar Hpar'.
  assert (p_state p' <> RUNNING /\ p_state p' <> SLEEPING /\ p_state p' <> ZOMBIE) as (N1 & N2 & N3).
  { set_unfold in Hst. naive_solver congruence. }
  apply (tinv_set s i p p' Hi Hp); [|done| |done|done| |done].
  - intros c Hc. destruct (tinv_idle s i p Hi Hp) with c; [congruence| |done]. intros [_ ?]. done.
  - intros _. rewrite Epid. split; [apply (ti_pid s Hi i p Hp); congruence|]. intros j r Hj Hr Hu E.
    apply Hj, (ti_uniq s Hi j i r p); congruence.
  - by intros [? _].
Qed.

Lemma tinv_reap s c i p j q : tinv s -> t_holder s = Some c -> runs s c i p -> zget (t_procs s) j = Some q ->
  p_parent q = i -> p_state q = ZOMBIE -> tinv (set_entry j (reaped q) s).
Proof.
  intros Hi Hh (Hc & Hp & Hs) Hq Hpar Hz. assert (0 <= j) by (by eapply zget_Some).
  apply (tinv_set s j q (reaped q) Hi Hq); cbn; try done.
  - intros d Hd. exfalso. destruct (ti_run s Hi d j Hd) as (r & Hr & Hor); [unfold NULL; lia|].
    rewrite Hq in Hr. injection Hr as <-. destruct Hor as [?|[Hh' _]]; [congruence|]. rewrite Hh in Hh'. injection Hh' as <-.
    rewrite Hc in Hd. injection Hd as <-. by apply (ti_par s Hi i q).
  - unfold NULL. lia.
  - by intros [? _].
Qed.

Lemma tinv_exit s c i p p' : tinv s -> t_holder s = Some c -> runs s c i p -> i <> t_init s ->
  zget (reparent i (t_init s) (wakeup1 (ChProc (p_parent p)) (t_procs s))) i = Some p' ->
  tinv (set_table (zset (reparent i (t_init s) (wakeup1 (ChProc (p_parent p)) (t_procs s))) i (with_state ZOMBIE p')) s).
Proof.
  intros Hi Hh Hr Hni Hp'. destruct (tinv_runs s c i p Hi Hr) as [Hn _]. destruct Hr as (Hc & Hp & Hs).
  destruct (ti_par s Hi i p Hp) as [Hself _].
  set (s1 := set_table (wakeup1 (ChProc (p_parent p)) (t_procs s)) s).
  assert (zget (t_procs s1) i = Some p) as Hp1 by (by apply wakeup1_running).
  pose proof (reparent_running i (t_init s) _ i p Hp1 Hs Hself) as Hp2. cbn in Hp2. rewrite Hp2 in Hp'. injection Hp' as <-.
  pose proof (tinv_reparent s1 i (tinv_wakeup1 s _ Hi) Hn) as Hi2.
  set (s2 := set_table (reparent i (t_init s1) (t_procs s1)) s1) in *.
  apply (tinv_set_cur s2 c i p (with_state ZOMBIE p) Hi2 Hh); [|done|done|done|by intros [? _]|].
  - split; [exact Hc|]. by split; [exact Hp2|].
  - intros _ k r Hk Hw E. revert Hw. cbn in E. subst k.
    apply (reparent_not_waiting i (t_init s) (t_procs s1) (p_parent p)); [|exact Hk].
    intros r' Hr' [Hs' Hc']. destruct (wakeup1_get _ _ _ _ Hr') as (_ & _ & _ & Hno). by apply Hno.
Qed.

Lemma tinv_step s s' : tinv s -> tstep s s' -> tinv s'.
Proof.
  intros Hi Hst. destruct Hst.
  - apply tinv_lock; [done|]. congruence.
  - apply tinv_lock; [done|]. intros c' i p Hh Hc Hn Hp. rewrite H in Hh. injection Hh as <-.
    destruct H0 as [?|(j & q & Hj & Hq & Hs)]; [congruence|]. rewrite Hc in Hj. injection Hj as <-. congruence.
  - by apply tinv_wakeup1.
  - apply tinv_woken; [done|by eapply kill1_zlen|]. intros i p'. by eapply kill1_get.
  - by apply tinv_alloc.
  - by eapply tinv_embryo.
  - eapply tinv_set_cur; try done. intros [_ Hch]. by destruct (H1 i).
  - eapply tinv_set_cur; try done. intros _ j q Hq Hpar.
    pose proof (scan_children_ok i (t_procs s) 0 false) as Hok. rewrite H1 in Hok. by eapply Hok.
  - by eapply tinv_reap.
  - eapply tinv_set_cur; try done. by intros [? _].
  - by eapply tinv_exit.
  - by eapply tinv_switch.
  - by eapply tinv_pick.
  - destruct H0 as (Hc & Hp & Hs). eapply tinv_set_cur; try done.
    + split; cbn; congruence.
    + by intros [_ ?].
    + intros Hz. exfalso. cbn in Hz. congruence.
  - apply tinv_woken; [done|apply zlen_zset|]. intros j q [[-> ->]|[_ Hq]]%zset_inv; [|exists q; split; [done|apply woken_refl]].
    exists p. split; [done|]. split; [done|]. split; [done|]. split; [done|by left].
Qed.

Lemma tinv_reach s : treach s -> tinv s.
Proof.
  induction 1 as [s (A & B & C & D)|s s' _ IH Hst]; [|by eapply tinv_step]. split.
  - intros c i Hc Hn. by destruct (Hn (B c i Hc)).
  - intros c d i Hc _ Hn. by destruct (Hn (B c i Hc)).
  - intros i p Hp Hs. destruct (A i p Hp) as [? _]. congruence.
  - intros i p Hp Hs. by destruct (A i p Hp).
  - intros i j p q Hp _ Hs. by destruct (A i p Hp).
  - intros i p Hp. destruct (A i p Hp) as [_ ->]. pose proof (zget_Some _ _ _ Hp). unfold NULL. split; [lia|done].
  - intros i j p q Hp _ [Hs _]. destruct (A i p Hp). congruence.
  - done.
Qed.

(** ** Properties *)


(** The pids of the processes in the table are positive and distinct. *)
Theorem pids_unique s i j p q : treach s -> zget (t_procs s) i = Some p -> zget (t_procs s) j = Some q ->
  p_state p <> UNUSED -> p_state q <> UNUSED -> 0 < p_pid p /\ (p_pid p = p_pid q <-> i = j).
Proof.
  intros Hi%tinv_reach Hp Hq Hu Hv. split; [by apply (ti_pid s Hi i p)|]. split; [by apply (ti_uniq s Hi)|].
  intros ->. congruence.
Qed.

(** C24: no exit is lost: a process asleep in wait has no zombie child, however
    the exits and waits of all processes interleave. *)
Theorem wait_no_lost_exit s i j p q : treach s -> zget (t_procs s) i = Some p -> zget (t_procs s) j = Some q ->
  waiting i p -> p_parent q = i -> p_state q <> ZOMBIE.
Proof. intros Hi%tinv_reach Hp Hq. by apply (ti_lost s Hi i j p q). Qed.

Lemma find_proc_zset f l i p : forall b, find_proc f l b = Some (b + i) -> zget l i = Some p -> forall p', f p' = true ->
  find_proc f (zset l i p') b = Some (b + i).
Proof.
  revert i. induction l as [|q l IH]; intros i b Hf Hp p' Hp'; [done|]. cbn in Hf. destruct (f q) eqn:Hq.
  - injection Hf as Hi. assert (i = 0) as -> by lia. change (zset (q :: l) 0 p') with (p' :: l). cbn. rewrite Hp'. f_equal. lia.
  - apply find_proc_get in Hf as Hg. destruct Hg as (Hle & _). assert (0 < i) by lia.
    assert (zset (q :: l) i p' = q :: zset l (i - 1) p') as ->.
    { unfold zset. do 2 (case_if; [|lia]). by replace (Z.to_nat i) with (Datatypes.S (Z.to_nat (i - 1))) by lia. }
    cbn. rewrite Hq. replace (b + i) with (b + 1 + (i - 1)) in * by lia. rewrite zget_succ in Hp by done. by apply IH.
Qed.

Lemma find_proc_first f l : forall b i j q, find_proc f l b = Some i -> zget l j = Some q -> b + j < i -> f q = false.
Proof.
  induction l as [|p l IH]; intros b i j q Hf Hq Hj; [done|]. cbn in Hf. destruct (f p) eqn:Hp.
  - injection Hf as <-. apply zget_Some in Hq. lia.
  - apply zget_cons in Hq as [[-> ->]|[Hj' Hq]]; [done|]. apply (IH (b + 1) i (j - 1)); [done|done|lia].
Qed.

Lemma kill1_first pid l : forall i p, zget l i = Some p -> p_pid p = pid -> p_state p <> SLEEPING ->
  (forall j q, j < i -> zget l j = Some q -> p_pid q <> pid) -> kill1 pid l = Some (zset l i (with_killed true p)).
Proof.
  induction l as [|q l IH]; intros i p Hp Epid Hs Hbefore; [by apply zget_Some in Hp; unfold zlen in Hp; cbn in Hp; lia|].
  cbn. destruct (zget_cons _ _ _ _ Hp) as [[-> ->]|[Hi Hp']].
  - rewrite (proj2 (Z.eqb_eq _ _) Epid). cbn. by rewrite bool_decide_false.
  - rewrite (proj2 (Z.eqb_neq (p_pid q) pid)) by (by apply (Hbefore 0)).
    rewrite (IH (i - 1) p Hp' Epid Hs).
    + cbn. f_equal. unfold zset. do 2 (case_if; [|lia]). by replace (Z.to_nat i) with (Datatypes.S (Z.to_nat (i - 1))) by lia.
    + intros j r Hj Hr. apply (Hbefore (j + 1) r); [lia|]. rewrite zget_succ by (apply zget_Some in Hr; lia).
      by replace (j + 1 - 1) with j by lia.
Qed.

(** Kill(0) succeeds although no process has pid 0: it marks the first
    free entry as killed, and the process allocated there next is born killed. *)
Theorem kill_zero_marks_free s c i p : t_holder s = Some c ->
  find_proc (fun p => bool_decide (p_state p = UNUSED)) (t_procs s) 0 = Some i -> zget (t_procs s) i = Some p ->
  p_pid p = 0 -> (forall j q, zget (t_procs s) j = Some q -> p_state q <> UNUSED -> 0 < p_pid q) -> t_pid s < 2 ^ 31 - 1 ->
  exists l s', kill1 0 (t_procs s) = Some l /\ rtc tstep s s' /\
    exists p', zget (t_procs s') i = Some p' /\ p_state p' = EMBRYO /\ p_pid p' = t_pid s /\ p_killed p' = true.
Proof.
  intros Hh Hf Hp Epid Hpos Hn. pose proof (find_proc_get _ _ _ _ Hf) as (Hi & q & Hq & Hu%bool_decide_eq_true).
  rewrite Z.sub_0_r, Hp in Hq. injection Hq as <-.
  assert (kill1 0 (t_procs s) = Some (zset (t_procs s) i (with_killed true p))) as Hk.
  { apply kill1_first; [done|done|congruence|]. intros j r Hj Hr E0.
    pose proof (find_proc_first _ _ _ _ j r Hf Hr Hj) as Hru%bool_decide_eq_false. specialize (Hpos j r Hr Hru). lia. }
  eexists _, _. split; [exact Hk|]. split.
  - eapply rtc_l; [by eapply t_kill|]. eapply rtc_l; [|done].
    apply (t_alloc _ c i (with_killed true p)); [done|done| |by eapply zget_zset_both].
    apply (find_proc_zset _ _ i p 0 Hf Hp). by rewrite bool_decide_true.
  - eexists. split; [cbn; by eapply zget_zset_both, zget_zset_both|]. done.
Qed.

(** ** Witnesses: a run of two CPUs *)

Definition demo_free : proc := Proc 0 0 0 UNUSED 0 NULL 0 0 ChNone false [] NULL [].

Definition demo_start : tstate := TState [demo_free; demo_free; demo_free] [NULL; NULL] None 1 0.

(** The first process is made and runs on CPU 0. *)
Definition demo_running : tstate :=
  TState [with_pid 1 (with_state RUNNING demo_free); demo_free; demo_free] [0; NULL] None 2 0.

(** It forks, the child runs on CPU 1, and it waits for the child. *)
Definition demo_waiting : tstate :=
  TState [with_chan (ChProc 0) (with_pid 1 (with_state SLEEPING demo_free));
          with_parent 0 (with_pid 2 (with_state RUNNING demo_free)); demo_free] [0; 1] (Some 0) 3 0.

Lemma demo_start_initial : t_initial demo_start.
Proof.
  split; [|split; [|done]].
  - intros i p [[-> ->]|[_ [[E ->]|[_ [[E ->]|[_ Hp]]%zget_cons]]%zget_cons]]%zget_cons; try done.
    apply zget_Some in Hp. unfold zlen in Hp; cbn in Hp; lia.
  - intros c i [[-> ->]|[_ [[E ->]|[_ Hp]]%zget_cons]]%zget_cons; try done.
    apply zget_Some in Hp. unfold zlen in Hp; cbn in Hp; lia.
Qed.

(** One more step of the run. *)
Tactic Notation "demo_step" ident(R) uconstr(rule) "by" tactic3(tac) :=
  let R' := fresh in
  unshelve epose proof (treach_step _ _ R _) as R'; [|eapply rule; tac|cbn in R'; clear R; rename R' into R].

Lemma demo_running_reach : treach demo_running.
Proof.
  pose proof (treach_init _ demo_start_initial) as R.
  demo_step R (t_acquire demo_start 0) by reflexivity.
  demo_step R (t_alloc _ 0 0 demo_free) by reflexivity.
  demo_step R (t_release _ 0) by first [reflexivity|by left].
  demo_step R (t_embryo _ 0 _ (with_pid 1 (with_state RUNNABLE demo_free))) by first [reflexivity|set_solver|done].
  demo_step R (t_acquire _ 0) by reflexivity.
  demo_step R (t_pick _ 0 0) by reflexivity.
  demo_step R (t_release _ 0) by first [reflexivity|right; by exists 0, (with_pid 1 (with_state RUNNING demo_free))].
  exact R.
Qed.

Lemma demo_waiting_reach : treach demo_waiting.
Proof.
  pose proof demo_running_reach as R.
  demo_step R (t_acquire demo_running 0) by reflexivity.
  demo_step R (t_alloc _ 0 1 demo_free) by reflexivity.
  demo_step R (t_release _ 0) by first [reflexivity|right; by exists 0, (with_pid 1 (with_state RUNNING demo_free))].
  demo_step R (t_embryo _ 1 _ (with_parent 0 (with_pid 2 (with_state RUNNABLE demo_free)))) by first [reflexivity|set_solver|done].
  demo_step R (t_acquire _ 1) by reflexivity.
  demo_step R (t_pick _ 1 1) by reflexivity.
  demo_step R (t_release _ 1) by first [reflexivity|right; by eexists 1, _].
  demo_step R (t_acquire _ 0) by reflexivity.
  demo_step R (t_wait _ 0 0) by first [reflexivity|done].
  exact R.
Qed.


Lemma pids_unique_witness :
  exists p q, zget (t_procs demo_waiting) 0 = Some p /\ zget (t_procs demo_waiting) 1 = Some q /\ (p_pid p = p_pid q <-> 0 = 1).
Proof.
  eexists _, _. split; [reflexivity|]. split; [reflexivity|].
  refine (proj2 (pids_unique demo_waiting 0 1 _ _ demo_waiting_reach _ _ _ _)); [reflexivity|reflexivity|discriminate|discriminate].
Defined.

Lemma wait_no_lost_exit_witness :
  exists p q, zget (t_procs demo_waiting) 0 = Some p /\ zget (t_procs demo_waiting) 1 = Some q /\ waiting 0 p /\ p_state q <> ZOMBIE.
Proof.
  eexists _, _. split; [reflexivity|]. split; [reflexivity|]. split; [split; reflexivity|].
  refine (wait_no_lost_exit demo_waiting 0 1 _ _ demo_waiting_reach _ _ _ _); [reflexivity|reflexivity|split; reflexivity|reflexivity].
Defined.

Lemma kill_zero_marks_free_witness : exists l s',
  kill1 0 (t_procs demo_waiting) = Some l /\ rtc tstep demo_waiting s' /\
  exists p', zget (t_procs s') 2 = Some p' /\ p_state p' = EMBRYO /\ p_pid p' = 3 /\ p_killed p' = true.
Proof.
  refine (kill_zero_marks_free demo_waiting 0 2 demo_free _ _ _ _ _ _); [reflexivity..| |reflexivity].
  intros j q [[-> ->]|[_ [[E ->]|[_ [[E ->]|[_ Hp]]%zget_cons]]%zget_cons]]%zget_cons; [done|done|done|].
  apply zget_Some in Hp. unfold zlen in Hp; cbn in Hp; lia.
Defined.
