(* ===== verification/SchedRefine.v ===== *)
(** * proc.c refines the process-table machine

    Each operation of Sched.v, run by a CPU, is a sequence of steps of
    SchedSpec's [tstep] on the process table. *)

From S2P Require Import Prelude CString Buddy Cpu Pipe BlockCache Bio BioSpec Log Fs FsInst Vm VmInst Kernel Sched SchedSpec.

Section Refine.
Context {S : Type} `{BufCache S}.
Implicit Types k : kern S.

(** The process table of a kernel state. *)
Definition view (k : kern S) : tstate := TState (procs k) (curs k) (pt_lock k) (nextpid k) (initproc k).

(** The CPU that runs is idle or runs its current process. *)
Definition on_duty (k : kern S) : Prop :=
  zget (curs k) (me k) = Some NULL \/ exists i p, runs (view k) (me k) i p.

Lemma on_vm_inv {A} (m : M vm A) k a k' : on_vm m k = Ok a k' -> exists v, k' = set_k_vm v k.
Proof. unfold on_vm, zoom. destruct (m (k_vm k)); try done. intros [= _ <-]. by eexists. Qed.

Lemma acquire_pt_inv k a k' : acquire_pt k = Ok a k' ->
  t_holder (view k) = None /\ view k' = TState (procs k) (curs k) (Some (me k)) (nextpid k) (initproc k) /\ me k' = me k.
Proof.
  unfold acquire_pt. intros (u & k1 & Hv & Hk)%bind_inv. apply on_vm_inv in Hv as [v ->].
  cbn in Hk. destruct (pt_lock k) as [c|] eqn:E; [destruct (c =? me k); done|]. injection Hk as _ <-. by rewrite <-E.
Qed.

Lemma release_pt_inv k a k' : release_pt k = Ok a k' ->
  t_holder (view k) = Some (me k) /\ view k' = TState (procs k) (curs k) None (nextpid k) (initproc k) /\ me k' = me k.
Proof.
  unfold release_pt. intros (k0 & k1 & [= <- <-] & Hk)%bind_inv. case_bool_decide as Hb; [|done]. cbn [negb] in Hk.
  apply bind_inv in Hk as (u & k1 & [= _ <-] & [v ->]%on_vm_inv). done.
Qed.

Lemma get_proc_inv i k p k' : get_proc i k = Ok p k' -> k' = k /\ zget (procs k) i = Some p.
Proof. unfold get_proc, from_opt. cbn. destruct (zget (procs k) i); [|done]. by intros [= <- <-]. Qed.

Lemma upd_proc_inv i f k u k' : upd_proc i f k = Ok u k' ->
  exists p, zget (procs k) i = Some p /\ k' = set_procs (zset (procs k) i (f p)) k.
Proof.
  unfold upd_proc. intros (p & k1 & [-> Hp]%get_proc_inv & [= _ <-])%bind_inv. by exists p.
Qed.

(** [mw v m Q k]: run from [k], [m] returns with [Q], or gives up the CPU in a
    state the machine reaches from [v], or does not get that far. *)
Definition mw {A} (v : tstate) (m : M (kern S) A) (Q : A -> kern S -> Prop) (k : kern S) : Prop :=
  match m k with Ok a k' => Q a k' | Sleep k' => rtc tstep v (view k') | _ => True end.

Lemma mw_bind {A B} v (m : M (kern S) A) (f : A -> M (kern S) B) Q k :
  mw v m (fun a k1 => mw v (f a) Q k1) k -> mw v (bind m f) Q k.
Proof. unfold mw, bind. by destruct (m k). Qed.

Lemma mw_vm {A} v (m : M vm A) Q k : rtc tstep v (view k) -> (forall a x, Q a (set_k_vm x k)) -> mw v (on_vm m) Q k.
Proof. intros Hv HQ. unfold mw, on_vm, zoom. by destruct (m (k_vm k)). Qed.

Definition locked (c : Z) (s : tstate) : tstate := TState (t_procs s) (t_curs s) (Some c) (t_pid s) (t_init s).

Definition unlocked (s : tstate) : tstate := TState (t_procs s) (t_curs s) None (t_pid s) (t_init s).

Lemma mw_acquire v (Q : unit -> kern S -> Prop) k : rtc tstep v (view k) ->
  (forall k1, me k1 = me k -> view k1 = locked (me k) (view k) -> rtc tstep v (view k1) -> Q tt k1) -> mw v acquire_pt Q k.
Proof.
  intros Hv HQ. unfold acquire_pt. apply mw_bind, mw_vm; [done|]. intros _ x. unfold mw. cbn.
  destruct (pt_lock k) as [c|] eqn:E; [by destruct (c =? me k)|]. apply HQ; [done|done|].
  eapply rtc_r; [exact Hv|]. by apply (t_acquire (view k) (me k)).
Qed.

Lemma mw_release v (Q : unit -> kern S -> Prop) k : rtc tstep v (view k) -> on_duty k ->
  (forall k1, me k1 = me k -> view k1 = unlocked (view k) -> rtc tstep v (view k1) -> Q tt k1) -> mw v release_pt Q k.
Proof.
  intros Hv Hd HQ. unfold release_pt. apply mw_bind. unfold mw at 1. cbn. case_bool_decide as Hb; [|done]. cbn [negb].
  assert (tstep (view k) (unlocked (view k))) as Hs by (by apply (t_release (view k) (me k))).
  apply mw_bind. apply (mw_vm v _ _ (set_pt_lock None k)); [by eapply rtc_r|]. intros [] x. apply HQ; [done|done|by eapply rtc_r].
Qed.

Lemma mw_sched v (Q : unit -> kern S -> Prop) k : rtc tstep v (view k) -> mw v sched Q k.
Proof.
  intros Hv. unfold sched, mw, bind, get. case_bool_decide; [|done]. cbn [negb]. destruct (ncli (v_cpu (k_vm k)) =? 1); [|done]. cbn [negb].
  destruct (curp k) as [p k1| | | | |] eqn:E; try done.
  - unfold curp, curr_proc in E. apply bind_inv in E as (i & k2 & Ei & [-> _]%get_proc_inv).
    apply bind_inv in Ei as (k3 & k4 & [= <- <-] & Ei). unfold from_opt in Ei. destruct (zget (curs k) (me k)); [|done]. injection Ei as _ <-.
    case_bool_decide; [done|]. by destruct (int_enabled (v_cpu (k_vm k))).
  - exfalso. unfold curp, curr_proc, get_proc, from_opt, bind, get in E. destruct (zget (curs k) (me k)); [|done]. cbn in E.
    by destruct (zget (procs k) z).
Qed.

Lemma mw_upd v i f (Q : unit -> kern S -> Prop) k :
  (forall p, zget (procs k) i = Some p -> Q tt (set_procs (zset (procs k) i (f p)) k)) -> mw v (upd_proc i f) Q k.
Proof.
  intros HQ. unfold mw, upd_proc, get_proc, from_opt, bind, get. destruct (zget (procs k) i) as [p|]; [|done]. by apply HQ.
Qed.

Lemma mw_cur v i (Q : Z -> kern S -> Prop) k : zget (curs k) (me k) = Some i -> Q i k -> mw v curr_proc Q k.
Proof. intros Hc HQ. unfold mw, curr_proc, from_opt, bind, get. by rewrite Hc. Qed.

(** CPU [me k] holds ptable.lock and runs process [i]; nothing else changed. *)
Lemma on_duty_view k k' : view k' = locked (me k) (view k) -> me k' = me k -> on_duty k -> on_duty k'.
Proof.
  unfold on_duty. intros Hv ->. assert (curs k' = curs k /\ procs k' = procs k) as [Ec Ep] by (injection Hv; done).
  unfold runs, view. cbn. by rewrite Ec, Ep.
Qed.

Lemma mw_wakeup v (Q : unit -> kern S -> Prop) k ch : rtc tstep v (view k) -> on_duty k ->
  (forall k1, rtc tstep v (view k1) -> Q tt k1) -> mw v (wakeup ch) Q k.
Proof.
  intros Hv Hd HQ. unfold wakeup. apply mw_bind, mw_acquire; [done|]. intros k1 Hme Hv1 Hr1.
  apply mw_bind. unfold mw at 1, upd_procs, modify.
  assert (tstep (view k1) (view (set_procs (wakeup1 ch (procs k1)) k1))) as Hs.
  { apply (t_wakeup (view k1) (me k)). by rewrite Hv1. }
  apply mw_release; [by eapply rtc_r| |by intros; apply HQ].
  pose proof (on_duty_view k k1 Hv1 Hme Hd) as [Hn|(i & p & Hc & Hp & Hst)]; [by left|]. right. exists i, p.
  split; [done|]. split; [|done]. by apply wakeup1_running.
Qed.

Lemma kill1_running pid l l' i p : kill1 pid l = Some l' -> zget l i = Some p -> p_state p = RUNNING ->
  exists p', zget l' i = Some p' /\ p_state p' = RUNNING.
Proof.
  intros Hk Hp Hs. pose proof (zget_Some _ _ _ Hp) as Hi. rewrite <-(kill1_zlen _ _ _ Hk) in Hi.
  destruct (zget_in l' i Hi) as [p' Hp']. exists p'. split; [done|].
  destruct (kill1_get _ _ _ _ _ Hk Hp') as (q & Hq & _ & _ & _ & Hst). rewrite Hp in Hq. injection Hq as <-.
  destruct Hst as [->|[? _]]; congruence.
Qed.

Lemma mw_ret {A} v (a : A) (Q : A -> kern S -> Prop) k : Q a k -> mw v (ret a) Q k.
Proof. done. Qed.

Lemma mw_kill v (Q : Z -> kern S -> Prop) k pid : rtc tstep v (view k) -> on_duty k ->
  (forall r k1, rtc tstep v (view k1) -> Q r k1) -> mw v (kill pid) Q k.
Proof.
  intros Hv Hd HQ. unfold kill. apply mw_bind, mw_acquire; [done|]. intros k1 Hme Hv1 Hr1.
  pose proof (on_duty_view k k1 Hv1 Hme Hd) as Hd1. apply mw_bind. unfold mw at 1, get.
  destruct (kill1 pid (procs k1)) as [l|] eqn:Hk; [|apply mw_bind, mw_release; [done..|]; intros; by apply mw_ret, HQ].
  apply mw_bind. unfold mw at 1, modify.
  assert (tstep (view k1) (view (set_procs l k1))) as Hs.
  { apply (t_kill (view k1) (me k) pid); [by rewrite Hv1|done]. }
  apply mw_bind, mw_release; [by eapply rtc_r| |intros; by apply mw_ret, HQ].
  destruct Hd1 as [Hn|(i & p & Hc & Hp & Hst)]; [by left|]. right.
  destruct (kill1_running pid (procs k1) l i p Hk Hp Hst) as (p' & Hp' & Hst'). by exists i, p'.
Qed.

Lemma mw_yield v (Q : unit -> kern S -> Prop) k : rtc tstep v (view k) -> on_duty k -> mw v yield Q k.
Proof.
  intros Hv Hd. unfold yield. apply mw_bind, mw_acquire; [done|]. intros k1 Hme Hv1 Hr1.
  pose proof (on_duty_view k k1 Hv1 Hme Hd) as Hd1. apply mw_bind. unfold upd_curp. apply mw_bind.
  destruct Hd1 as [Hn|(i & p & Hc & Hp & Hst)].
  - eapply mw_cur; [exact Hn|]. apply mw_upd. intros p Hp. apply zget_Some in Hp. unfold NULL in Hp. lia.
  - eapply mw_cur; [exact Hc|]. apply mw_upd. intros q Hq. apply mw_sched. eapply rtc_r; [exact Hr1|].
    apply (t_yield (view k1) (me k) i q); [by rewrite Hv1|]. rewrite <-Hme. split; [done|]. split; [done|].
    cbn in Hp. congruence.
Qed.

(** The lock given to sleep is another lock: its release does not touch the table. *)
Lemma mw_sleep v (Q : unit -> kern S -> Prop) k ch rel acq : rtc tstep v (view k) -> on_duty k ->
  (forall q, ch <> ChProc q) ->
  (forall k0 R, rtc tstep v (view k0) -> (forall k1, view k1 = view k0 -> me k1 = me k0 -> R tt k1) -> mw v rel R k0) ->
  mw v (sleep ch (Some (rel, acq))) Q k.
Proof.
  intros Hv Hd Hch Hrel. unfold sleep. apply mw_bind.
  assert (exists i, zget (curs k) (me k) = Some i) as [i Hi] by (destruct Hd as [?|(i & p & ? & _)]; by eexists).
  eapply mw_cur; [exact Hi|]. destruct (Z.eqb_spec i NULL) as [|Hn]; [done|].
  apply mw_bind, mw_bind, mw_acquire; [done|]. intros k1 Hme Hv1 Hr1. apply Hrel; [done|]. intros k2 Hv2 Hme2.
  apply mw_bind, mw_upd. intros p Hp. apply mw_sched. eapply rtc_r; [rewrite <-Hv2 in Hr1; exact Hr1|].
  apply (t_sleep (view k2) (me k) i p); [by rewrite Hv2, Hv1| |done].
  assert (curs k2 = curs k /\ procs k2 = procs k) as [Ec Ep] by (rewrite Hv1 in Hv2; injection Hv2; done).
  unfold runs. cbn. rewrite Ec. split; [done|]. split; [done|].
  destruct Hd as [?|(j & q & Hj & Hq & Hst)]; [congruence|]. cbn in Hj, Hq. rewrite Ep in Hp. congruence.
Qed.

Lemma no_sleep_bind {T A B} (m : M T A) (f : A -> M T B) :
  (forall t t', m t <> Sleep t') -> (forall a t t', f a t <> Sleep t') -> forall t t', bind m f t <> Sleep t'.
Proof. unfold bind. intros Hm Hf t t'. specialize (Hm t). destruct (m t); naive_solver. Qed.

Lemma no_sleep_on_cpu {A} (m : M cpu A) : (forall t t', m t <> Sleep t') -> forall x x', on_cpu m x <> Sleep x'.
Proof. unfold on_cpu, zoom. intros Hm x x'. specialize (Hm (v_cpu x)). destruct (m (v_cpu x)); naive_solver. Qed.

Lemma switchuvm_no_sleep pgdir x x' : switchuvm pgdir x <> Sleep x'.
Proof.
  revert x x'. unfold switchuvm. apply no_sleep_bind; [by apply no_sleep_on_cpu|]. intros _. destruct (pgdir =? 0); [done|].
  do 2 (apply no_sleep_bind; [done|intros _]). apply no_sleep_on_cpu. unfold popcli. apply no_sleep_bind; [done|]. intros [|]; [done|].
  do 2 (apply no_sleep_bind; [done|intros ?]). case_if; [done|]. unfold when. by case_if.
Qed.

(** The scheduler's choice: the entry and cpus[i].proc change together, as far
    as the other CPUs can tell under ptable.lock. *)
Lemma mw_pick v (Q : bool -> kern S -> Prop) k i : rtc tstep v (view k) -> pt_lock k = Some (me k) ->
  zget (curs k) (me k) = Some NULL ->
  (forall (b : bool) k1, rtc tstep v (view k1) -> (if b then zget (curs k1) (me k1) = Some i else view k1 = view k) -> Q b k1) ->
  mw v (scheduler_pick i) Q k.
Proof.
  intros Hv Hl Hc HQ. unfold scheduler_pick. apply mw_bind. unfold get_proc. apply mw_bind. unfold mw at 1, get.
  destruct (zget (procs k) i) as [p|] eqn:Hp; [|exact I]. unfold from_opt. apply mw_ret. case_bool_decide as Hs; [|by apply mw_ret, HQ].
  cbn [negb]. apply mw_bind. unfold set_curr, modify, mw at 1. apply mw_bind. unfold mw at 1, on_vm, zoom. cbn [k_vm set_curs].
  destruct (switchuvm (p_pgdir p) (k_vm k)) as [u x|msg|x| | |] eqn:E; try done; [|by destruct (switchuvm_no_sleep _ _ _ E)].
  apply mw_bind, mw_upd. intros q Hq. change (zget (procs k) i = Some q) in Hq.
  rewrite Hp in Hq. injection Hq as <-. apply mw_ret, HQ; [|cbn; by eapply zget_zset_both].
  eapply rtc_r; [exact Hv|]. by apply (t_pick (view k) (me k) i p).
Qed.

Lemma mw_scheduler_return v (Q : unit -> kern S -> Prop) k i p : rtc tstep v (view k) -> pt_lock k = Some (me k) ->
  zget (curs k) (me k) = Some i -> zget (procs k) i = Some p -> p_state p <> RUNNING ->
  (forall k1, rtc tstep v (view k1) -> zget (curs k1) (me k1) = Some NULL -> Q tt k1) -> mw v scheduler_return Q k.
Proof.
  intros Hv Hl Hc Hp Hs HQ. unfold scheduler_return, set_curr, mw, modify. apply HQ; [|cbn; by eapply zget_zset_both].
  eapply rtc_r; [exact Hv|]. by apply (t_switch (view k) (me k) i p).
Qed.

(** An update of an EMBRYO entry by the process that makes it. *)
Lemma mw_upd_embryo v (Q : unit -> kern S -> Prop) k i p f : rtc tstep v (view k) -> tinv v -> zget (procs k) i = Some p ->
  p_state p = EMBRYO -> p_state (f p) ∈ [EMBRYO; RUNNABLE; UNUSED] -> p_pid (f p) = p_pid p -> p_parent (f p) = p_parent p ->
  (let k1 := set_procs (zset (procs k) i (f p)) k in rtc tstep v (view k1) -> zget (procs k1) i = Some (f p) -> Q tt k1) ->
  mw v (upd_proc i f) Q k.
Proof.
  intros Hv Hi Hp Hs Hst E1 E2 HQ. apply mw_upd. intros q Hq. rewrite Hp in Hq. injection Hq as <-.
  apply HQ; [|cbn; by eapply zget_zset_both]. eapply rtc_r; [exact Hv|].
  assert (tinv (view k)) as Hi' by (clear -Hv Hi; induction Hv; [done|]; by apply IHHv, (tinv_step x y)).
  destruct (ti_par _ Hi' i p Hp) as [F1 F2].
  apply (t_embryo (view k) i p (f p)); [done|done|done|done|by rewrite E2|by rewrite E2].
Qed.

Lemma set_proc_vm k x i : zget (procs (set_k_vm x k)) i = zget (procs k) i.
Proof. done. Qed.

Variable trapret forkret_addr : Z.

Lemma mw_allocproc v (Q : Z -> kern S -> Prop) k : rtc tstep v (view k) -> tinv v -> on_duty k -> nextpid k < 2 ^ 31 - 1 ->
  0 < nextpid k ->
  (forall i k1, rtc tstep v (view k1) -> (i = NULL \/ exists p, zget (procs k1) i = Some p /\ p_state p = EMBRYO) -> Q i k1) ->
  mw v (allocproc trapret forkret_addr) Q k.
Proof.
  intros Hv Hi Hd Hpid Hpos HQ. unfold allocproc. apply mw_bind, mw_acquire; [done|]. intros k1 Hme Hv1 Hr1.
  pose proof (on_duty_view k k1 Hv1 Hme Hd) as Hd1. apply mw_bind. unfold mw at 1, get.
  destruct (find_proc _ (procs k1) 0) as [i|] eqn:Hf; [|apply mw_bind, mw_release; [done..|]; intros; apply mw_ret, HQ; [done|by left]].
  assert (nextpid k1 = nextpid k) as Hpid1 by (injection Hv1; done).
  apply mw_bind, mw_upd. intros p Hp. apply mw_bind. unfold mw at 1, modify.
  match goal with |- mw _ _ _ ?k2 => set (k2' := k2) end.
  assert (tstep (view k1) (view k2')) as Hs2.
  { unfold k2', view. cbn. rewrite Hpid1, s32_small by lia. rewrite <-Hpid1.
    apply (t_alloc (view k1) (me k) i p); [by rewrite Hv1|cbn; lia|done|done]. }
  apply mw_bind, mw_release; [by eapply rtc_r| |].
  { destruct Hd1 as [Hn|(j & q & Hj & Hq & Hst)]; [by left|]. right. exists j, q. split; [done|]. split; [|done].
    cbn. rewrite zget_zset_ne; [done|]. intros <-. cbn in Hq.
    pose proof (find_proc_get _ _ _ _ Hf) as (_ & r & Hr & Hu%bool_decide_eq_true). rewrite Z.sub_0_r in Hr. congruence. }
  intros k3 Hme3 Hv3 Hr3. assert (zget (procs k3) i = Some (with_pid (nextpid k1) (with_state EMBRYO p))) as Hp3.
  { assert (procs k3 = procs k2') as -> by (injection Hv3; done). by eapply zget_zset_both. }
  apply mw_bind, mw_vm; [done|]. intros kstack x.
  eapply mw_bind, mw_upd_embryo; [done|done|exact Hp3|done|set_solver|done|done|]. intros k4 Hr4 Hp4. cbv beta in Hp4.
  destruct (kstack =? 0).
  { eapply mw_bind, mw_upd_embryo; [done|done|exact Hp4|done|set_solver|done|done|]. intros k5 Hr5 _. apply mw_ret, HQ; [done|by left]. }
  eapply mw_bind, mw_upd_embryo; [done|done|exact Hp4|done|set_solver|done|done|]. intros k5 Hr5 Hp5. cbv beta in Hp5.
  apply mw_bind, mw_vm; [done|]. intros _ x1. apply mw_bind, mw_vm; [done|]. intros _ x2.
  eapply mw_bind, mw_upd_embryo; [done|done|rewrite !set_proc_vm; exact Hp5|done|set_solver|done|done|]. intros k6 Hr6 Hp6. cbv beta in Hp6.
  apply mw_bind, mw_vm; [done|]. intros _ x3. apply mw_bind, mw_vm; [done|]. intros _ x4.
  apply mw_ret, HQ; [done|]. right. by eexists.
Qed.

(** ** wait and exit *)

Lemma mw_get {A} v (f : kern S -> M (kern S) A) Q k : mw v (f k) Q k -> mw v (k <- get ;; f k) Q k.
Proof. done. Qed.

Lemma mw_panic {A} v msg (Q : A -> kern S -> Prop) k : mw v (panic msg) Q k.
Proof. done. Qed.

Lemma mw_get_proc v i (Q : proc -> kern S -> Prop) k : (forall p, zget (procs k) i = Some p -> Q p k) -> mw v (get_proc i) Q k.
Proof.
  intros HQ. unfold get_proc. apply mw_bind. unfold mw at 1, get. destruct (zget (procs k) i); [by apply mw_ret, HQ|exact I].
Qed.

(** CPU [me k] holds ptable.lock and runs [i]. *)
Definition locked_runs (k : kern S) (i : Z) (p : proc) : Prop := pt_lock k = Some (me k) /\ runs (view k) (me k) i p.

Lemma locked_runs_set k i p j q : locked_runs k i p -> j <> i -> locked_runs (set_procs (zset (procs k) j q) k) i p.
Proof. intros (Hl & Hc & Hp & Hs) Hj. split; [done|]. split; [done|]. split; [|done]. cbn. by rewrite zget_zset_ne. Qed.

Lemma mw_sleep_pt v (Q : unit -> kern S -> Prop) k i p : rtc tstep v (view k) -> locked_runs k i p ->
  scan_children i (procs k) 0 false = (None, true) -> mw v (sleep (ChProc i) None) Q k.
Proof.
  intros Hv (Hl & Hc & Hp & Hs) Hsc. unfold sleep. apply mw_bind. eapply mw_cur; [exact Hc|].
  destruct (Z.eqb_spec i NULL) as [|Hn]; [done|]. apply mw_bind, mw_ret, mw_bind, mw_upd. intros q Hq. apply mw_sched.
  eapply rtc_r; [exact Hv|]. cbn in Hp. rewrite Hp in Hq. injection Hq as <-. by apply (t_wait (view k) (me k) i p).
Qed.

Lemma mw_wait_loop v (Q : Z -> kern S -> Prop) k i p : rtc tstep v (view k) -> tinv v -> locked_runs k i p ->
  (forall r k1, rtc tstep v (view k1) -> Q r k1) -> mw v wait_loop Q k.
Proof.
  intros Hv Hi Hr HQ. assert (on_duty k) as Hd by (right; exists i, p; apply Hr).
  assert (tinv (view k)) as Hik by (clear -Hv Hi; induction Hv; [done|]; by apply IHHv, (tinv_step x y)).
  unfold wait_loop. apply mw_bind. eapply mw_cur; [apply Hr|]. apply mw_get.
  pose proof (scan_children_ok i (procs k) 0 false) as Hok. destruct (scan_children i (procs k) 0 false) as [[j|] b] eqn:Hsc; cbn [fst] in Hok.
  - destruct Hok as (_ & q & Hq & Hpar & Hz). rewrite Z.sub_0_r in Hq.
    assert (j <> i) as Hj by (intros ->; by apply (ti_par _ Hik i q)).
    apply mw_bind, mw_get_proc. intros p0 Hp0. rewrite Hq in Hp0. injection Hp0 as <-.
    apply mw_bind, mw_vm; [done|]. intros _ x. apply mw_bind, mw_upd. intros p1 Hp1.
    change (zget (procs k) j = Some p1) in Hp1. rewrite Hq in Hp1. injection Hp1 as <-.
    set (k1 := set_procs (zset (procs k) j (with_kstack 0 q)) k).
    assert (tstep (view k) (view k1)) as Hs1 by (by apply (t_fields (view k) j q)).
    assert (zget (procs k1) j = Some (with_kstack 0 q)) as Hq1 by (by eapply zget_zset_both).
    pose proof (locked_runs_set k i p j (with_kstack 0 q) Hr Hj) as Hr1. fold k1 in Hr1.
    apply mw_bind, mw_vm; [by eapply rtc_r|]. intros _ y. apply mw_bind, mw_upd. intros p2 Hp2.
    change (zget (procs k1) j = Some p2) in Hp2. rewrite Hq1 in Hp2. injection Hp2 as <-.
    assert (tstep (view k1) (set_entry j (reaped (with_kstack 0 q)) (view k1))) as Hs2.
    { destruct Hr1 as [Hl1 Hrun1]. by apply (t_reap (view k1) (me k) i p j (with_kstack 0 q)). }
    pose proof (locked_runs_set k1 i p j (reaped (with_kstack 0 q)) Hr1 Hj) as Hr2.
    apply mw_bind, mw_release; [by eapply rtc_r, Hs2; eapply rtc_r| |intros; by apply mw_ret, HQ].
    right. exists i, p. apply Hr2.
  - apply mw_bind. unfold curp. apply mw_bind. eapply mw_cur; [apply Hr|]. apply mw_get_proc. intros p0 _.
    destruct (negb b || p_killed p0) eqn:Hk; [apply mw_bind, mw_release; [done..|]; intros; by apply mw_ret, HQ|].
    destruct b; [|done]. by apply mw_bind, (mw_sleep_pt v _ k i p).
Qed.

Lemma mw_wait v (Q : Z -> kern S -> Prop) k i p : rtc tstep v (view k) -> tinv v -> runs (view k) (me k) i p ->
  (forall r k1, rtc tstep v (view k1) -> Q r k1) -> mw v wait Q k.
Proof.
  intros Hv Hi Hr HQ. unfold wait. apply mw_bind, mw_acquire; [done|]. intros k1 Hme Hv1 Hr1.
  apply (mw_wait_loop v _ k1 i p); [done|done| |done]. split; [by injection Hv1 as _ _ ->; rewrite Hme|].
  rewrite Hme, Hv1. exact Hr.
Qed.

Lemma mw_exit v (Q : unit -> kern S -> Prop) k i p : rtc tstep v (view k) -> tinv v -> runs (view k) (me k) i p ->
  i <> initproc k -> mw v exit_zombie Q k.
Proof.
  intros Hv Hi Hr Hni. unfold exit_zombie. apply mw_bind, mw_acquire; [done|]. intros k1 Hme Hv1 Hr1.
  assert (tinv (view k1)) as Hik by (clear -Hr1 Hi; induction Hr1; [done|]; by apply IHHr1, (tinv_step x y)).
  rewrite <-Hme in Hr, Hv1. assert (runs (view k1) (me k1) i p) as Hrun by (rewrite Hv1; exact Hr).
  destruct Hrun as (Hc & Hp & Hs). cbn in Hc, Hp.
  apply mw_bind. eapply mw_cur; [exact Hc|]. apply mw_bind. unfold curp. apply mw_bind. eapply mw_cur; [exact Hc|].
  apply mw_get_proc. intros p0 Hp0. rewrite Hp in Hp0. injection Hp0 as <-.
  apply mw_bind. unfold mw at 1, upd_procs, modify. apply mw_get. apply mw_bind. unfold mw at 1, upd_procs, modify.
  apply mw_bind. unfold upd_curp. apply mw_bind. eapply mw_cur; [exact Hc|]. apply mw_upd. cbn [procs set_procs initproc].
  intros p' Hp'. apply mw_bind, mw_sched. eapply rtc_r; [exact Hr1|].
  apply (t_exit (view k1) (me k1) i p p'); [by rewrite Hv1|done| |done]. cbn.
  assert (initproc k1 = initproc k) as -> by (injection Hv1; done). done.
Qed.

(** From [k], [m] ends, or gives up the CPU, in a state the machine reaches. *)
Definition lands {A} (m : M (kern S) A) (k : kern S) : Prop :=
  match m k with Ok _ k' | Sleep k' => rtc tstep (view k) (view k') | _ => True end.

(** Releasing this lock leaves the process table alone. *)
Definition other_lock (rel : M (kern S) unit) : Prop := forall k,
  match rel k with Ok _ k' => view k' = view k /\ me k' = me k | Sleep _ => False | _ => True end.


End Refine.

(** ** Witness *)

Definition demo_kern : kern bcache :=
  Kern (demo_machine zero_mem) demo_fs false [] ∅ None (t_procs demo_running) 0 2 0 [0; NULL] [1; 1] false 0 false.

