(* ===== verification/File.v ===== *)
(** * file.c and pipe.c over the kernel's state

    The file table, and the part of pipe.c that allocates, frees and reaches
    pipes; the operations inside a pipe are those of Pipe.v.  A call that has to
    wait ends in [Sleep], with the process table showing what it waits for; the
    wakeups that the lower layers record are delivered here. *)

From S2P Require Import Prelude CString Buddy Cpu Pipe BlockCache Log Fs Vm Kernel Sched.

(** sizeof(struct pipe), and the offset of its data. *)
Definition PIPE_BYTES : Z := 580.

Definition PIPE_DATA : Z := 52.

(** The setters of struct file that the code uses. *)
Definition with_ref (r : Z) (f : file) : file :=
  File (f_type f) r (f_readable f) (f_writable f) (f_pipe f) (f_ip f) (f_off f).

Definition with_off (o : Z) (f : file) : file :=
  File (f_type f) (f_ref f) (f_readable f) (f_writable f) (f_pipe f) (f_ip f) o.

Definition as_pipe (p : Z) (r w : bool) (f : file) : file := File FD_PIPE (f_ref f) r w p (f_ip f) (f_off f).

(** Index of the first entry with no references. *)
Fixpoint free_file (l : list file) (i : Z) : option Z :=
  match l with
  | [] => None
  | f :: l' => if f_ref f =? 0 then Some i else free_file l' (i + 1)
  end.

(** pipewrite's parameter: what it finds at addr. *)
Definition peek (m : mem) (ttbr va : Z) (i : Z) : Z :=
  match kaddr m ttbr (u32 (va + i)) with Some a => m a | None => 0 end.

Definition mapped (m : mem) (ttbr va : Z) (i n : Z) : bool :=
  forallb (fun j => match kaddr m ttbr (u32 (va + j)) with Some _ => true | None => false end) (seqZ i (n - i)).

Section File.
Context {S : Type} `{BufCache S}.

Variable devsw_read : Z -> option (Z -> Z -> M (fs S) (list Z * Z)).
Variable devsw_write : Z -> option (Z -> list Z -> Z -> M (fs S) Z).

(** Accesses to user memory beyond what is mapped abort. *)
Definition probe (va i n : Z) : M (kern S) unit :=
  k <- get ;; if mapped (v_mem (k_vm k)) (ttbr0 (k_vm k)) va i n then ret tt else fault.

Definition peek_user (va : Z) : M (kern S) (Z -> Z) := gets (fun k => peek (v_mem (k_vm k)) (ttbr0 (k_vm k)) va).

(** Deliver wakeups in order. *)
Fixpoint wakeups (chs : list chan) : M (kern S) unit :=
  match chs with
  | [] => ret tt
  | c :: chs' => wakeup c ;;; wakeups chs'
  end.

(** A call into fs.c, with the wakeup(ip) and wakeup(&log) calls it makes. *)
Definition fs_call {A} (m : M (fs S) A) : M (kern S) A :=
  r <- on_fs m ;;
  k <- get ;;
  let f := k_fs k in
  let l := flog f in
  let chs := map ChInode (i_woken f) ++ replicate (lg_wakeups l) ChLog in
  put (set_k_fs (Fs (ic_lock f) (inodes f) []
                   (Log (lg_lock l) (lg_start l) (lg_size l) (lg_busy l) (lg_dev l) (lh_n l) (lh_sector l) 0 (lg_cache l))) k) ;;;
  wakeups chs ;;;
  ret r.

(** A call into a pipe at address [p]; using a freed pipe is a fault. *)
Definition on_pipe {A} (p : Z) (m : M pipe A) : M (kern S) A := fun k =>
  match k_pipes k !! p with
  | None => Fault
  | Some x =>
      match m x with
      | Ok a x' =>
          (wakeups (map (ChPipe p) (wakes x')) ;;; ret a)
            (set_k_pipes (<[p := Pipe (plock x') (pdata x') (nread x') (nwrite x') (readopen x') (writeopen x') []
                                   (accepted x') (delivered x')]> (k_pipes k)) k)
      | Panic msg => Panic msg
      | Sleep x' => Sleep (set_k_pipes (<[p := x']> (k_pipes k)) k)
      | Spin => Spin
      | Fault => Fault
      | NoFuel => NoFuel
      end
  end.

(** ** The file table *)

Definition lock_ftable : M (kern S) unit := k <- get ;; if ft_lock k then (fun _ => Spin) else put (set_ft_lock true k).

Definition unlock_ftable : M (kern S) unit := modify (set_ft_lock false).

Definition fileinit : M (kern S) unit := modify (set_ft_lock false).

Definition filealloc : M (kern S) Z :=
  lock_ftable ;;;
  k <- get ;;
  match free_file (ftable k) 0 with
  | Some i => f <- get_file i ;; put_file i (with_ref 1 f) ;;; unlock_ftable ;;; ret i
  | None => unlock_ftable ;;; ret NULL
  end.

Definition filedup (i : Z) : M (kern S) Z :=
  lock_ftable ;;;
  f <- get_file i ;;
  if f_ref f <? 1 then panic "filedup" else
  put_file i (with_ref (f_ref f + 1) f) ;;;
  unlock_ftable ;;;
  ret i.

(** pipeclose, with the kfree it leaves to the caller in Pipe.v. *)
Definition pipeclose_ (p : Z) (writable : bool) : M (kern S) unit :=
  freed <- on_pipe p (pipeclose writable) ;;
  when freed
    (ord <- get_order PIPE_BYTES ;;
     on_vm (on_kmem (kfree p ord)) ;;;
     modify (fun k => set_k_pipes (delete p (k_pipes k)) k)).

(** Close file i. (Decrement ref count, close when reaches 0.) *)
Definition fileclose (i : Z) : M (kern S) unit :=
  lock_ftable ;;;
  f <- get_file i ;;
  if f_ref f <? 1 then panic "fileclose" else
  put_file i (with_ref (f_ref f - 1) f) ;;;
  if 0 <? f_ref f - 1 then unlock_ftable else
  put_file i (File FD_NONE 0 (f_readable f) (f_writable f) (f_pipe f) (f_ip f) (f_off f)) ;;;
  unlock_ftable ;;;
  match f_type f with
  | FD_PIPE => pipeclose_ (f_pipe f) (f_writable f)
  | FD_INODE =>
      fs_call (on_log begin_trans) ;;;
      fs_call (iput (f_ip f)) ;;;
      fs_call (on_log commit_trans)
  | FD_NONE => ret tt
  end.

Definition filestat (i : Z) : M (kern S) (option stat) :=
  f <- get_file i ;;
  match f_type f with
  | FD_INODE =>
      fs_call (ilock (f_ip f)) ;;;
      st <- fs_call (stati (f_ip f)) ;;
      fs_call (iunlock (f_ip f)) ;;;
      ret (Some st)
  | _ => ret None
  end.

(** ** Reading and writing *)

(** piperead and pipewrite, entered ([i = 0]) or resumed after a sleep. *)
Definition piperead_ (p addr n : Z) : M (kern S) Z :=
  cur <- curp ;;
  r <- on_pipe p (piperead (p_killed cur) n) ;;
  st_bytes addr r.1 ;;;
  match r.2 with
  | Returned v => ret v
  | Slept c _ => sleep (ChPipe p c) (Some (ret tt, ret tt)) ;;; ret 0
  end.

Definition pipewrite_ (p addr n i : Z) : M (kern S) Z :=
  b <- peek_user addr ;;
  before <- on_pipe p (gets (fun x => zlen (accepted x))) ;;
  r <- on_pipe p (pipewrite b n i) ;;
  after <- on_pipe p (gets (fun x => zlen (accepted x))) ;;
  probe addr i (i + (after - before)) ;;;
  match r with
  | Returned v => ret v
  | Slept c _ => sleep (ChPipe p c) (Some (ret tt, ret tt)) ;;; ret 0
  end.

(** Read from file i. *)
Definition fileread (i addr n : Z) : M (kern S) Z :=
  f <- get_file i ;;
  if negb (f_readable f) then ret (-1) else
  match f_type f with
  | FD_PIPE => piperead_ (f_pipe f) addr n
  | FD_INODE =>
      fs_call (ilock (f_ip f)) ;;;
      f <- get_file i ;;
      r <- fs_call (readi devsw_read (f_ip f) (f_off f) (u32 n)) ;;
      st_bytes addr r.1 ;;;
      when (0 <? s32 r.2) (put_file i (with_off (u32 (f_off f + s32 r.2)) f)) ;;;
      fs_call (iunlock (f_ip f)) ;;;
      ret (s32 r.2)
  | FD_NONE => panic "fileread"
  end.

(** Bytes written per transaction. *)
Definition WRITE_MAX : Z := (LOGSIZE - 1 - 1 - 2) / 2 * 512.

Fixpoint filewrite_loop (fuel : nat) (i addr n done : Z) : M (kern S) Z :=
  match fuel with
  | O => no_fuel
  | Datatypes.S k =>
      if done <? n then
        let n1 := Z.min (n - done) WRITE_MAX in
        fs_call (on_log begin_trans) ;;;
        f <- get_file i ;;
        fs_call (ilock (f_ip f)) ;;;
        f <- get_file i ;;
        b <- peek_user (addr + done) ;;
        r <- fs_call (writei devsw_write (f_ip f) (map b (seqZ 0 n1)) (f_off f) n1) ;;
        probe (addr + done) 0 r ;;;
        when (0 <? r) (put_file i (with_off (u32 (f_off f + r)) f)) ;;;
        fs_call (iunlock (f_ip f)) ;;;
        fs_call (on_log commit_trans) ;;;
        if r <? 0 then ret done
        else if negb (r =? n1) then panic "short filewrite"
        else filewrite_loop k i addr n (done + r)
      else ret done
  end.

(** Write to file i. *)
Definition filewrite (i addr n : Z) : M (kern S) Z :=
  f <- get_file i ;;
  if negb (f_writable f) then ret (-1) else
  match f_type f with
  | FD_PIPE => pipewrite_ (f_pipe f) addr n 0
  | FD_INODE =>
      done <- filewrite_loop (Z.to_nat (n / WRITE_MAX) + 2) i addr n 0 ;;
      ret (if done =? n then n else -1)
  | FD_NONE => panic "filewrite"
  end.

(** ** pipealloc *)

Definition pipealloc_bad (f0 f1 : Z) : M (kern S) (option (Z * Z)) :=
  when (negb (f0 =? NULL)) (fileclose f0) ;;;
  when (negb (f1 =? NULL)) (fileclose f1) ;;;
  ret None.

(** The two files of a new pipe, or [None] for -1. *)
Definition pipealloc : M (kern S) (option (Z * Z)) :=
  f0 <- filealloc ;;
  if f0 =? NULL then pipealloc_bad NULL NULL else
  f1 <- filealloc ;;
  if f1 =? NULL then pipealloc_bad f0 NULL else
  ord <- get_order PIPE_BYTES ;;
  p <- on_vm (on_kmem (kmalloc ord)) ;;
  if p =? 0 then pipealloc_bad f0 f1 else
  k <- get ;;
  let data := map (fun j => v_mem (k_vm k) (u32 (p + PIPE_DATA + j))) (seqZ 0 PIPESIZE) in
  modify (fun k => set_k_pipes (<[p := pipe_init data]> (k_pipes k)) k) ;;;
  x0 <- get_file f0 ;;
  put_file f0 (as_pipe p true false x0) ;;;
  x1 <- get_file f1 ;;
  put_file f1 (as_pipe p false true x1) ;;;
  ret (Some (f0, f1)).

End File.
