(* ===== verification/Proc.v ===== *)
(** * proc.c: making and ending processes

    userinit, growproc, fork and exit: the operations of proc.c that also use
    the file table, the file system and page tables. *)

From S2P Require Import Prelude CString Buddy Cpu Pipe BlockCache Log Fs Vm Kernel Sched File.

(** struct trapframe: the size, and the offsets that the kernel uses. *)
Definition TF_SIZE : Z := 72.
Definition TF_SP_USR : Z := 0.
Definition TF_LR_USR : Z := 4.
Definition TF_R14_SVC : Z := 8.
Definition TF_SPSR : Z := 12.
Definition TF_R0 : Z := 16.
Definition TF_R1 : Z := 20.
Definition TF_PC : Z := 68.

(** The 16 bytes of a name after safestrcpy(dst, src, 16). *)
Definition copy_procname (dst src : list Z) : list Z :=
  map (fun i => fst (safestrcpy (two_bufs dst src) 0 65536 16) i) (seqZ 0 16).

Definition INITCODE : list Z := [105; 110; 105; 116; 99; 111; 100; 101; 0].   (* "initcode" *)

Section Proc.
Context {S : Type} `{BufCache S}.

Variable devsw_read : Z -> option (Z -> Z -> M (fs S) (list Z * Z)).
Variable trapret forkret_addr error_init : Z.

(** p->tf->field = v *)
Definition set_tf (p : proc) (off v : Z) : M (kern S) unit := on_vm (store (u32 (p_tf p + off)) v).

(** Hand-craft the first user process; the linker places initcode. *)
Definition userinit (initcode initcode_size : Z) : M (kern S) unit :=
  i <- allocproc trapret forkret_addr ;;
  modify (set_initproc i) ;;;
  pgdir <- on_vm kpt_alloc ;;
  upd_proc i (with_pgdir pgdir) ;;;
  if pgdir =? 0 then panic "userinit: out of memory?" else
  on_vm (inituvm pgdir initcode (s32 initcode_size)) ;;;
  upd_proc i (with_sz PTE_SZ) ;;;
  p <- get_proc i ;;
  on_vm (do_memset (p_tf p) 0 TF_SIZE) ;;;
  set_tf p TF_R14_SVC error_init ;;;
  cpsr <- on_vm (on_cpu cpsr_usr) ;;
  set_tf p TF_SPSR cpsr ;;;
  set_tf p TF_SP_USR PTE_SZ ;;;
  set_tf p TF_LR_USR 0 ;;;
  set_tf p TF_PC 0 ;;;
  upd_proc i (fun p => with_name (copy_procname (p_name p) INITCODE) p) ;;;
  cwd <- fs_call (namei devsw_read NULL [SLASH] name_buf) ;;
  upd_proc i (with_cwd cwd) ;;;
  upd_proc i (with_state RUNNABLE).

(** Grow the current process's memory by n bytes. *)
Definition growproc (n : Z) : M (kern S) Z :=
  p <- curp ;;
  let sz := p_sz p in
  r <- (if 0 <? n then
          sz' <- on_vm (allocuvm (p_pgdir p) sz (u32 (sz + n))) ;;
          ret (if sz' =? 0 then None else Some sz')
        else if n <? 0 then
          sz' <- on_vm (deallocuvm (p_pgdir p) sz (u32 (sz + n))) ;;
          ret (if sz' =? 0 then None else Some sz')
        else ret (Some sz)) ;;
  match r with
  | None => ret (-1)
  | Some sz =>
      upd_curp (with_sz sz) ;;;
      on_vm (switchuvm (p_pgdir p)) ;;;
      ret 0
  end.

(** fork's loop over the descriptors. *)
Definition fork_file (np fd : Z) : M (kern S) unit :=
  cur <- curp ;;
  f <- from_opt (zget (p_ofile cur) fd) ;;
  when (negb (f =? NULL))
    (f <- filedup f ;;
     upd_proc np (fun p => with_ofile (zset (p_ofile p) fd f) p)).

(** Create a new process copying the current one. *)
Definition fork : M (kern S) Z :=
  np <- allocproc trapret forkret_addr ;;
  if np =? NULL then ret (-1) else
  cur <- curp ;;
  pgdir <- on_vm (copyuvm (p_pgdir cur) (p_sz cur)) ;;
  upd_proc np (with_pgdir pgdir) ;;;
  if pgdir =? 0 then
    p <- get_proc np ;;
    on_vm (on_kmem (free_page (p_kstack p))) ;;;
    upd_proc np (with_kstack 0) ;;;
    upd_proc np (with_state UNUSED) ;;;
    ret (-1)
  else
  upd_proc np (with_sz (p_sz cur)) ;;;
  i <- curr_proc ;;
  upd_proc np (with_parent i) ;;;
  p <- get_proc np ;;
  on_vm (do_memmove (p_tf p) (p_tf cur) TF_SIZE) ;;;
  set_tf p TF_R0 0 ;;;
  for_ 0 (Z.to_nat NOFILE) (fork_file np) ;;;
  cur <- curp ;;
  cwd <- fs_call (idup (p_cwd cur)) ;;
  upd_proc np (with_cwd cwd) ;;;
  p <- get_proc np ;;
  upd_proc np (with_state RUNNABLE) ;;;
  cur <- curp ;;
  upd_proc np (fun p => with_name (copy_procname (p_name p) (p_name cur)) p) ;;;
  ret (p_pid p).

(** exit's loop over the descriptors. *)
Definition exit_file (fd : Z) : M (kern S) unit :=
  cur <- curp ;;
  f <- from_opt (zget (p_ofile cur) fd) ;;
  when (negb (f =? NULL))
    (fileclose f ;;;
     upd_curp (fun p => with_ofile (zset (p_ofile p) fd NULL) p)).

(** Exit the current process. Does not return. *)
Definition exit : M (kern S) unit :=
  i <- curr_proc ;;
  k <- get ;;
  if i =? initproc k then panic "init exiting" else
  for_ 0 (Z.to_nat NOFILE) exit_file ;;;
  cur <- curp ;;
  fs_call (iput (p_cwd cur)) ;;;
  upd_curp (with_cwd NULL) ;;;
  exit_zombie.

(** procdump: a line per used entry. *)
Definition state_name (s : procstate) : string :=
  match s with
  | UNUSED => "unused" | EMBRYO => "embryo" | SLEEPING => "sleep "
  | RUNNABLE => "runble" | RUNNING => "run   " | ZOMBIE => "zombie"
  end.

Definition procdump : M (kern S) (list (Z * string * list Z)) :=
  k <- get ;;
  ret (omap (fun p => if bool_decide (p_state p = UNUSED) then None
                      else Some (p_pid p, state_name (p_state p), p_name p)) (procs k)).

End Proc.
