(* ===== verification/Exec.v ===== *)
(** * exec.c, and loaduvm of vm.c

    The program image in an ELF file becomes the address space of the current
    process.  The file is read through fs.c; a readi whose destination is kernel
    memory stores its bytes there. *)

From S2P Require Import Prelude CString Buddy Cpu Pipe BlockCache Log Fs Vm Kernel Sched File Proc.

Definition ELF_MAGIC : Z := 1179403647.

Definition ELF_PROG_LOAD : Z := 1.

Record elfhdr := Elfhdr { e_magic : Z; e_entry : Z; e_phoff : Z; e_phnum : Z }.

(** The fields of the file header that exec reads, from its 52 bytes. *)
Definition parse_elfhdr (d : list Z) : elfhdr := Elfhdr (ld32 d 0) (ld32 d 24) (ld32 d 28) (ld16 d 44).

Record proghdr := Proghdr { ph_type : Z; ph_off : Z; ph_vaddr : Z; ph_filesz : Z; ph_memsz : Z }.

Definition parse_proghdr (d : list Z) : proghdr :=
  Proghdr (ld32 d 0) (ld32 d 4) (ld32 d 8) (ld32 d 16) (ld32 d 20).

(** The last component of a path: where the name of the process starts. *)
Fixpoint last_component (path last : list Z) : list Z :=
  match path with
  | [] => last
  | c :: p => last_component p (if c =? SLASH then p else last)
  end.

Fixpoint word_bytes (ws : list Z) : list Z :=
  match ws with
  | [] => []
  | w :: ws' => [u8 w; u8 (w / 2 ^ 8); u8 (w / 2 ^ 16); u8 (w / 2 ^ 24)] ++ word_bytes ws'
  end.

Section Exec.
Context {S : Type} `{BufCache S}.

Variable devsw_read : Z -> option (Z -> Z -> M (fs S) (list Z * Z)).

(** readi to a kernel address. *)
Fixpoint put_mem (m : mem) (a : Z) (bs : list Z) : mem :=
  match bs with
  | [] => m
  | b :: bs' => put_mem (upd m (u32 a) (u8 b)) (a + 1) bs'
  end.

Definition readi_to (ip dst off n : Z) : M (kern S) Z :=
  r <- fs_call (readi devsw_read ip off n) ;;
  on_vm (modify (fun s => with_mem (put_mem (v_mem s) dst r.1) s)) ;;;
  ret (s32 r.2).

(** Load a program segment into pgdir; addr must be page-aligned and the
    pages from addr to addr+sz must already be mapped. *)
Fixpoint loaduvm_ (fuel : nat) (pgdir addr ip offset sz i : Z) : M (kern S) Z :=
  match fuel with
  | O => no_fuel
  | Datatypes.S f =>
      if i <? sz then
        pte_at <- on_vm (walkpgdir pgdir (u32 (addr + i)) false) ;;
        if pte_at =? 0 then panic "loaduvm: address should exist" else
        pte <- on_vm (load pte_at) ;;
        let n := if u32 (sz - i) <? PTE_SZ then u32 (sz - i) else PTE_SZ in
        r <- readi_to ip (p2v (PTE_ADDR pte)) (u32 (offset + i)) n ;;
        if negb (u32 r =? n) then ret (-1) else
        loaduvm_ f pgdir addr ip offset sz (u32 (i + PTE_SZ))
      else ret 0
  end.

Definition loaduvm (pgdir addr ip offset sz : Z) : M (kern S) Z :=
  if negb (addr mod PTE_SZ =? 0) then panic "loaduvm: addr must be page aligned" else
  loaduvm_ (Z.to_nat (sz / PTE_SZ) + 2) pgdir addr ip offset sz 0.

(** The label bad: an error after cleaning up. *)
Definition exec_bad (pgdir ip : Z) : M (kern S) Z :=
  when (negb (pgdir =? 0)) (on_vm (freevm pgdir)) ;;;
  when (negb (ip =? NULL)) (fs_call (iunlockput ip)) ;;;
  ret (-1).

(** The loop over the program headers: the size of the image, or [None] for
    goto bad. *)
Fixpoint load_segments (k : nat) (pgdir ip off sz : Z) : M (kern S) (option Z) :=
  match k with
  | O => ret (Some sz)
  | Datatypes.S k' =>
      r <- fs_call (readi devsw_read ip off 32) ;;
      if negb (u32 (s32 r.2) =? 32) then ret None else
      let ph := parse_proghdr r.1 in
      if negb (ph_type ph =? ELF_PROG_LOAD) then load_segments k' pgdir ip (u32 (off + 32)) sz else
      if ph_memsz ph <? ph_filesz ph then ret None else
      sz <- on_vm (allocuvm pgdir sz (u32 (ph_vaddr ph + ph_memsz ph))) ;;
      if sz =? 0 then ret None else
      r <- loaduvm pgdir (ph_vaddr ph) ip (ph_off ph) (ph_filesz ph) ;;
      if r <? 0 then ret None else
      load_segments k' pgdir ip (u32 (off + 32)) sz
  end.

(** copyout(pgdir, va, buf, len) with the bytes of buf on the kernel stack
    at a place of the linker's choice: the bytes themselves. *)
Fixpoint copyout_bytes (fuel : nat) (pgdir va : Z) (bs : list Z) : M (kern S) Z :=
  match fuel with
  | O => no_fuel
  | Datatypes.S f =>
      match bs with
      | [] => ret 0
      | _ =>
          let va0 := align_dn va PTE_SZ in
          pa0 <- on_vm (uva2ka pgdir va0) ;;
          if pa0 =? 0 then ret (-1) else
          let n := Z.min (PTE_SZ - (va - va0)) (zlen bs) in
          on_vm (modify (fun s => with_mem (put_mem (v_mem s) (pa0 + (va - va0)) (take (Z.to_nat n) bs)) s)) ;;;
          copyout_bytes f pgdir (u32 (va0 + PTE_SZ)) (drop (Z.to_nat n) bs)
      end
  end.

Definition copyout_b (pgdir va : Z) (bs : list Z) : M (kern S) Z := copyout_bytes (Z.to_nat (zlen bs / PTE_SZ) + 3) pgdir va bs.

(** Push the argument strings; [ustack] is the part of the array filled so
    far. [argv] lists the strings before the null pointer. *)
Fixpoint push_args (argv : list (list Z)) (pgdir argc sp : Z) (ustack : list Z) : M (kern S) (option (Z * Z * list Z)) :=
  match argv with
  | [] => ret (Some (argc, sp, ustack ++ [0]))
  | s :: argv' =>
      if MAXARG <=? argc then ret None else
      let sp := Z.land (u32 (sp - (zlen s + 1))) (u32 (Z.lnot 3)) in
      r <- copyout_b pgdir sp (s ++ [0]) ;;
      if r <? 0 then ret None else
      push_args argv' pgdir (argc + 1) sp (ustack ++ [sp])
  end.

(** The new image takes over. *)
Definition exec_commit (path : list Z) (pgdir sz sp entry : Z) : M (kern S) Z :=
  upd_curp (fun p => with_name (copy_procname (p_name p) (last_component path path ++ [0])) p) ;;;
  p <- curp ;;
  upd_curp (with_pgdir pgdir) ;;;
  upd_curp (with_sz sz) ;;;
  set_tf p TF_PC entry ;;;
  set_tf p TF_SP_USR sp ;;;
  on_vm (switchuvm pgdir) ;;;
  on_vm (freevm (p_pgdir p)) ;;;
  ret 0.

(** The stack of the new image. *)
Definition exec_stack (path : list Z) (argv : list (list Z)) (pgdir sz entry : Z) : M (kern S) Z :=
  let sz := align_up sz PTE_SZ in
  sz <- on_vm (allocuvm pgdir sz (u32 (sz + 2 * PTE_SZ))) ;;
  if sz =? 0 then exec_bad pgdir NULL else
  on_vm (clearpteu pgdir (u32 (sz - 2 * PTE_SZ))) ;;;
  r <- push_args argv pgdir 0 sz [] ;;
  match r with
  | None => exec_bad pgdir NULL
  | Some (argc, sp, ustack) =>
      cur <- curp ;;
      set_tf cur TF_R0 argc ;;;
      set_tf cur TF_R1 (u32 (sp - (argc + 1) * 4)) ;;;
      let sp := u32 (sp - (argc + 1) * 4) in
      r <- copyout_b pgdir sp (word_bytes ustack) ;;
      if r <? 0 then exec_bad pgdir NULL else exec_commit path pgdir sz sp entry
  end.

(** Load a user program for execution. *)
Definition exec (path : list Z) (argv : list (list Z)) : M (kern S) Z :=
  cur <- curp ;;
  ip <- fs_call (namei devsw_read (p_cwd cur) path name_buf) ;;
  if ip =? NULL then ret (-1) else
  fs_call (ilock ip) ;;;
  r <- fs_call (readi devsw_read ip 0 52) ;;
  if u32 (s32 r.2) <? 52 then exec_bad 0 ip else
  let elf := parse_elfhdr r.1 in
  if negb (e_magic elf =? ELF_MAGIC) then exec_bad 0 ip else
  pgdir <- on_vm kpt_alloc ;;
  if pgdir =? 0 then exec_bad 0 ip else
  r <- load_segments (Z.to_nat (e_phnum elf)) pgdir ip (e_phoff elf) 0 ;;
  match r with
  | None => exec_bad pgdir ip
  | Some sz =>
      fs_call (iunlockput ip) ;;;
      exec_stack path argv pgdir sz (e_entry elf)
  end.

End Exec.
