(* ===== verification/Syscall.v ===== *)
(** * syscall.c and sysproc.c

    System-call arguments come from the trap frame of the current process and
    from its memory; the calls of sysproc.c, and cpuutil of main.c. *)

From S2P Require Import Prelude CString Buddy Cpu Pipe BlockCache Log Fs Vm Kernel Sched File Proc Exec.

Section Syscall.
Context {S : Type} `{BufCache S}.

Variable devsw_read : Z -> option (Z -> Z -> M (fs S) (list Z * Z)).
Variable trapret forkret_addr : Z.

(** Fetch the int at addr from the current process; [None] is -1. *)
Definition fetchint (addr : Z) : M (kern S) (option Z) :=
  p <- curp ;;
  if (p_sz p <=? addr) || (p_sz p <? u32 (addr + 4)) then ret None else
  v <- ld_word addr ;;
  ret (Some v).

(** The characters from [s] up to a NUL before [ep]. *)
Fixpoint fetchstr_loop (fuel : nat) (s ep : Z) : M (kern S) (option (list Z)) :=
  match fuel with
  | O => ret None
  | Datatypes.S f =>
      if s <? ep then
        c <- ld_byte s ;;
        if c =? 0 then ret (Some []) else
        r <- fetchstr_loop f (s + 1) ep ;;
        ret (match r with Some cs => Some (c :: cs) | None => None end)
      else ret None
  end.

(** Fetch the nul-terminated string at addr from the current process: its
    characters, so its length is the value returned. *)
Definition fetchstr (addr : Z) : M (kern S) (option (list Z)) :=
  p <- curp ;;
  if p_sz p <=? addr then ret None else
  fetchstr_loop (Z.to_nat (p_sz p - addr)) addr (p_sz p).

(** The nth system-call argument: register r1+n of the trap frame. *)
Definition argword (n : Z) : M (kern S) Z :=
  if 3 <? n then panic "too many system call parameters" else
  p <- curp ;;
  on_vm (load (u32 (p_tf p + TF_R1 + 4 * n))).

Definition argint (n : Z) : M (kern S) Z := v <- argword n ;; ret (s32 v).

(** A pointer to a block of [size] bytes of user memory. *)
Definition argptr (n size : Z) : M (kern S) (option Z) :=
  i <- argword n ;;
  p <- curp ;;
  if (p_sz p <=? i) || (p_sz p <? u32 (i + size)) then ret None else ret (Some i).

Definition argstr (n : Z) : M (kern S) (option (list Z)) := addr <- argword n ;; fetchstr addr.

(** ** sysproc.c *)

Definition sys_fork : M (kern S) Z := fork trapret forkret_addr.

Definition sys_exit : M (kern S) Z := exit ;;; ret 0.

Definition sys_wait : M (kern S) Z := wait.

Definition sys_kill : M (kern S) Z := pid <- argint 0 ;; kill pid.

Definition sys_getpid : M (kern S) Z := p <- curp ;; ret (p_pid p).

Definition sys_sbrk : M (kern S) Z :=
  n <- argint 0 ;;
  p <- curp ;;
  let addr := s32 (p_sz p) in
  r <- growproc n ;;
  ret (if r <? 0 then -1 else addr).

Definition lock_ticks : M (kern S) unit :=
  k <- get ;; if ticks_lock k then (fun _ => Spin) else put (set_ticks_lock true k).

Definition unlock_ticks : M (kern S) unit := modify (set_ticks_lock false).

(** The loop of sys_sleep, entered and resumed with tickslock held; the
    comparison is unsigned. *)
Definition sleep_until (ticks0 n : Z) : M (kern S) Z :=
  k <- get ;;
  if u32 (ticks k - ticks0) <? u32 n then
    p <- curp ;;
    if p_killed p then unlock_ticks ;;; ret (-1)
    else sleep ChTicks (Some (unlock_ticks, lock_ticks)) ;;; ret 0
  else unlock_ticks ;;; ret 0.

Definition sys_sleep : M (kern S) Z :=
  n <- argint 0 ;;
  lock_ticks ;;;
  k <- get ;;
  sleep_until (ticks k) n.

Definition sys_uptime : M (kern S) Z :=
  lock_ticks ;;;
  k <- get ;;
  unlock_ticks ;;;
  ret (s32 (ticks k)).

(** cpus[i].enabled; an index outside the array is a fault. *)
Definition get_enabled (i : Z) : M (kern S) Z := k <- get ;; from_opt (zget (enabled k) i).

(** The sum over the other CPUs, as written: the loop reads cpus[NCPU]. *)
Fixpoint others_on (n : nat) (i cpunum sum : Z) : M (kern S) Z :=
  match n with
  | O => ret sum
  | Datatypes.S n' =>
      if negb (i =? cpunum) then e <- get_enabled NCPU ;; others_on n' (i + 1) cpunum (sum + e)
      else others_on n' (i + 1) cpunum sum
  end.

(** main.c: the messages on the console are left out. *)
Definition cpuutil (cpunum mode on : Z) : M (kern S) Z :=
  if mode =? 0 then get_enabled cpunum else
  if negb (mode =? 1) then ret (-1) else
  if (cpunum <? 0) || (NCPU <=? cpunum) then ret (-1) else
  ok <- (if on =? 0 then n <- others_on (Z.to_nat NCPU) 0 cpunum 0 ;; ret (negb (n =? 0)) else ret true) ;;
  if negb ok then ret (-1) else
  if negb (on =? 0) && negb (on =? 1) then ret (-1) else
  modify (fun k => set_enabled (zset (enabled k) cpunum on) k) ;;;
  ret 0.

Definition sys_cpuutil : M (kern S) Z :=
  cpunum <- argint 0 ;;
  mode <- argint 1 ;;
  on <- argint 2 ;;
  cpuutil cpunum mode on.

(** timer3intr: the tick; the device registers are left out. *)
Definition timer3intr : M (kern S) unit :=
  modify (fun k => set_ticks (u32 (ticks k + 1)) k) ;;;
  wakeup ChTicks.

End Syscall.
