(* ===== verification/Sysfile.v ===== *)
(** * sysfile.c, and the dispatch of syscall.c

    The file-system calls: argument checks, then file.c and fs.c.  The parts
    that only touch the file system are operations on its state, run from the
    kernel's state with [fs_call]. *)

From S2P Require Import Prelude CString Buddy Cpu Pipe BlockCache Log Fs Vm Kernel Sched File Proc Exec Syscall.

Definition O_RDONLY : Z := 0.
Definition O_WRONLY : Z := 1.
Definition O_RDWR : Z := 2.
Definition O_CREATE : Z := 512.

Definition DOT : list Z := [46; 0].

Definition DOTDOT : list Z := [46; 46; 0].

(** fdalloc's loop: the first free descriptor. *)
Fixpoint free_fd (l : list Z) (fd : Z) : option Z :=
  match l with
  | [] => None
  | f :: l' => if f =? NULL then Some fd else free_fd l' (fd + 1)
  end.

Section Sysfile.
Context {S : Type} `{BufCache S}.

Variable devsw_read : Z -> option (Z -> Z -> M (fs S) (list Z * Z)).
Variable devsw_write : Z -> option (Z -> list Z -> Z -> M (fs S) Z).
Variable trapret forkret_addr : Z.

(** ** On the file system's state *)

Definition begin_tr : M (fs S) unit := on_log begin_trans.

Definition commit_tr : M (fs S) unit := on_log commit_trans.

(** ip->nlink += d; iupdate(ip) *)
Definition add_nlink (ip d : Z) : M (fs S) unit := upd_inode ip (fun x => set_nlink (i_nlink x + d) x) ;;; iupdate ip.

Definition link_bad (ip : Z) : M (fs S) Z :=
  ilock ip ;;; add_nlink ip (-1) ;;; iunlockput ip ;;; commit_tr ;;; ret (-1).

(** Create the path new as a link to the same inode as old. *)
Definition do_link (cwd : Z) (old new : list Z) : M (fs S) Z :=
  ip <- namei devsw_read cwd old name_buf ;;
  if ip =? NULL then ret (-1) else
  begin_tr ;;;
  ilock ip ;;;
  x <- get_inode ip ;;
  if i_type x =? T_DIR then iunlockput ip ;;; commit_tr ;;; ret (-1) else
  add_nlink ip 1 ;;;
  iunlock ip ;;;
  r <- nameiparent devsw_read cwd new name_buf ;;
  let dp := r.1 in
  if dp =? NULL then link_bad ip else
  ilock dp ;;;
  d <- get_inode dp ;;
  x <- get_inode ip ;;
  ok <- (if negb (i_dev d =? i_dev x) then ret false
         else n <- dirlink devsw_read devsw_write dp r.2 (i_inum x) ;; ret (0 <=? n)) ;;
  if negb ok then iunlockput dp ;;; link_bad ip else
  iunlockput dp ;;;
  iput ip ;;;
  commit_tr ;;;
  ret 0.

(** Is the directory dp empty except for "." and ".." ? *)
Fixpoint isdirempty_ (k : nat) (dp off : Z) : M (fs S) bool :=
  match k with
  | O => no_fuel
  | Datatypes.S k' =>
      x <- get_inode dp ;;
      if off <? i_size x then
        r <- readi devsw_read dp off 16 ;;
        if negb (r.2 =? 16) then panic "isdirempty: readi" else
        if negb (de_inum r.1 =? 0) then ret false else isdirempty_ k' dp (off + 16)
      else ret true
  end.

Definition isdirempty (dp : Z) : M (fs S) bool :=
  x <- get_inode dp ;; isdirempty_ (dir_fuel (i_size x)) dp 32.

Definition unlink_bad (dp : Z) : M (fs S) Z := iunlockput dp ;;; commit_tr ;;; ret (-1).

Definition do_unlink (cwd : Z) (path : list Z) : M (fs S) Z :=
  r <- nameiparent devsw_read cwd path name_buf ;;
  let '(dp, name) := r in
  if dp =? NULL then ret (-1) else
  begin_tr ;;;
  ilock dp ;;;
  if (namecmp name DOT =? 0) || (namecmp name DOTDOT =? 0) then unlink_bad dp else
  r <- dirlookup devsw_read dp name ;;
  let '(ip, off) := r in
  if ip =? NULL then unlink_bad dp else
  ilock ip ;;;
  x <- get_inode ip ;;
  if i_nlink x <? 1 then panic "unlink: nlink < 1" else
  empty <- (if i_type x =? T_DIR then isdirempty ip else ret true) ;;
  if negb empty then iunlockput ip ;;; unlink_bad dp else
  n <- writei devsw_write dp (replicate 16 0) off 16 ;;
  if negb (n =? 16) then panic "unlink: writei" else
  x <- get_inode ip ;;
  when (i_type x =? T_DIR) (add_nlink dp (-1)) ;;;
  iunlockput dp ;;;
  add_nlink ip (-1) ;;;
  iunlockput ip ;;;
  commit_tr ;;;
  ret 0.

(** A new inode, linked as path; NULL on error.  The inode is returned locked. *)
Definition create (cwd : Z) (path : list Z) (type major minor : Z) : M (fs S) Z :=
  r <- nameiparent devsw_read cwd path name_buf ;;
  let '(dp, name) := r in
  if dp =? NULL then ret NULL else
  ilock dp ;;;
  r <- dirlookup devsw_read dp name ;;
  if negb (r.1 =? NULL) then
    let ip := r.1 in
    iunlockput dp ;;;
    ilock ip ;;;
    x <- get_inode ip ;;
    if (type =? T_FILE) && (i_type x =? T_FILE) then ret ip else
    iunlockput ip ;;;
    ret NULL
  else
  d <- get_inode dp ;;
  ip <- ialloc (i_dev d) type ;;
  if ip =? NULL then panic "create: ialloc" else
  ilock ip ;;;
  upd_inode ip (fun x => Inode (i_dev x) (i_inum x) (i_ref x) (i_flags x) (i_type x) major minor 1 (i_size x) (i_addrs x)) ;;;
  iupdate ip ;;;
  x <- get_inode ip ;;
  when (type =? T_DIR)
    (add_nlink dp 1 ;;;
     r1 <- dirlink devsw_read devsw_write ip DOT (i_inum x) ;;
     if r1 <? 0 then panic "create dots" else
     r2 <- dirlink devsw_read devsw_write ip DOTDOT (i_inum d) ;;
     if r2 <? 0 then panic "create dots" else ret tt) ;;;
  n <- dirlink devsw_read devsw_write dp name (i_inum x) ;;
  if n <? 0 then panic "create: dirlink" else
  iunlockput dp ;;;
  ret ip.

(** ** Descriptors *)

(** The nth argument as a descriptor: it and its file. *)
Definition argfd (n : Z) : M (kern S) (option (Z * Z)) :=
  fd <- argint n ;;
  p <- curp ;;
  if (fd <? 0) || (NOFILE <=? fd) then ret None else
  f <- from_opt (zget (p_ofile p) fd) ;;
  ret (if f =? NULL then None else Some (fd, f)).

(** Takes over file reference from caller on success; NULL is -1. *)
Definition fdalloc (f : Z) : M (kern S) Z :=
  p <- curp ;;
  match free_fd (p_ofile p) 0 with
  | Some fd => upd_curp (fun p => with_ofile (zset (p_ofile p) fd f) p) ;;; ret fd
  | None => ret (-1)
  end.

Definition set_fd (fd f : Z) : M (kern S) unit := upd_curp (fun p => with_ofile (zset (p_ofile p) fd f) p).

Definition sys_dup : M (kern S) Z :=
  a <- argfd 0 ;;
  match a with
  | None => ret (-1)
  | Some (_, f) => fd <- fdalloc f ;; if fd <? 0 then ret (-1) else filedup f ;;; ret fd
  end.

(** The arguments of read and write: file, buffer and count. *)
Definition rw_args : M (kern S) (option (Z * Z * Z)) :=
  a <- argfd 0 ;;
  match a with
  | None => ret None
  | Some (_, f) =>
      n <- argint 2 ;;
      p <- argptr 1 n ;;
      ret (match p with Some p => Some (f, p, n) | None => None end)
  end.

Definition sys_read : M (kern S) Z :=
  a <- rw_args ;;
  match a with Some (f, p, n) => fileread devsw_read f p n | None => ret (-1) end.

Definition sys_write : M (kern S) Z :=
  a <- rw_args ;;
  match a with Some (f, p, n) => filewrite devsw_write f p n | None => ret (-1) end.

Definition sys_close : M (kern S) Z :=
  a <- argfd 0 ;;
  match a with
  | None => ret (-1)
  | Some (fd, f) => set_fd fd NULL ;;; fileclose f ;;; ret 0
  end.

(** struct stat in user memory: 20 bytes, with padding after the shorts. *)
Definition put_stat (addr : Z) (st : stat) : M (kern S) unit :=
  st_bytes addr [u8 (st_type st); u8 (st_type st / 2 ^ 8)] ;;;
  st_word (addr + 4) (st_dev st) ;;;
  st_word (addr + 8) (st_ino st) ;;;
  st_bytes (addr + 12) [u8 (st_nlink st); u8 (st_nlink st / 2 ^ 8)] ;;;
  st_word (addr + 16) (st_size st).

Definition sys_fstat : M (kern S) Z :=
  a <- argfd 0 ;;
  match a with
  | None => ret (-1)
  | Some (_, f) =>
      p <- argptr 1 20 ;;
      match p with
      | None => ret (-1)
      | Some addr =>
          r <- filestat f ;;
          match r with Some st => put_stat addr st ;;; ret 0 | None => ret (-1) end
      end
  end.

(** ** Paths *)

Definition cwd : M (kern S) Z := p <- curp ;; ret (p_cwd p).

Definition sys_link : M (kern S) Z :=
  old <- argstr 0 ;;
  match old with
  | None => ret (-1)
  | Some old =>
      new <- argstr 1 ;;
      match new with None => ret (-1) | Some new => d <- cwd ;; fs_call (do_link d old new) end
  end.

Definition sys_unlink : M (kern S) Z :=
  path <- argstr 0 ;;
  match path with None => ret (-1) | Some path => d <- cwd ;; fs_call (do_unlink d path) end.

(** The inode that open works on, locked; [None] for -1. *)
Definition open_inode (d : Z) (path : list Z) (omode : Z) : M (fs S) (option Z) :=
  if negb (Z.land omode O_CREATE =? 0) then
    begin_tr ;;;
    ip <- create d path T_FILE 0 0 ;;
    commit_tr ;;;
    ret (if ip =? NULL then None else Some ip)
  else
    ip <- namei devsw_read d path name_buf ;;
    if ip =? NULL then ret None else
    ilock ip ;;;
    x <- get_inode ip ;;
    if (i_type x =? T_DIR) && negb (omode =? O_RDONLY) then iunlockput ip ;;; ret None
    else ret (Some ip).

Definition open_file (ip omode : Z) (f : file) : file :=
  File FD_INODE (f_ref f) (Z.land omode O_WRONLY =? 0)
    (negb (Z.land omode O_WRONLY =? 0) || negb (Z.land omode O_RDWR =? 0)) (f_pipe f) ip 0.

Definition sys_open : M (kern S) Z :=
  path <- argstr 0 ;;
  match path with
  | None => ret (-1)
  | Some path =>
      omode <- argint 1 ;;
      d <- cwd ;;
      r <- fs_call (open_inode d path omode) ;;
      match r with
      | None => ret (-1)
      | Some ip =>
          f <- filealloc ;;
          fd <- (if f =? NULL then ret (-1) else fdalloc f) ;;
          if fd <? 0 then
            when (negb (f =? NULL)) (fileclose f) ;;;
            fs_call (iunlockput ip) ;;;
            ret (-1)
          else
            fs_call (iunlock ip) ;;;
            x <- get_file f ;;
            put_file f (open_file ip omode x) ;;;
            ret fd
      end
  end.

(** create, when the arguments are there, inside the transaction that the
    caller has begun; NULL otherwise. *)
Definition finish_create (ip : Z) : M (kern S) Z :=
  if ip =? NULL then fs_call commit_tr ;;; ret (-1)
  else fs_call (iunlockput ip) ;;; fs_call commit_tr ;;; ret 0.

Definition sys_mkdir : M (kern S) Z :=
  fs_call begin_tr ;;;
  path <- argstr 0 ;;
  ip <- match path with
        | None => ret NULL
        | Some path => d <- cwd ;; fs_call (create d path T_DIR 0 0)
        end ;;
  finish_create ip.

Definition sys_mknod : M (kern S) Z :=
  fs_call begin_tr ;;;
  path <- argstr 0 ;;
  ip <- match path with
        | None => ret NULL
        | Some path =>
            major <- argint 1 ;;
            minor <- argint 2 ;;
            d <- cwd ;;
            fs_call (create d path T_DEV (s16 major) (s16 minor))
        end ;;
  finish_create ip.

Definition sys_chdir : M (kern S) Z :=
  path <- argstr 0 ;;
  match path with
  | None => ret (-1)
  | Some path =>
      d <- cwd ;;
      ip <- fs_call (namei devsw_read d path name_buf) ;;
      if ip =? NULL then ret (-1) else
      fs_call (ilock ip) ;;;
      x <- fs_call (get_inode ip) ;;
      if negb (i_type x =? T_DIR) then fs_call (iunlockput ip) ;;; ret (-1) else
      fs_call (iunlock ip) ;;;
      d <- cwd ;;
      fs_call (iput d) ;;;
      upd_curp (with_cwd ip) ;;;
      ret 0
  end.

(** The argument vector: at most [k] more entries, from the [i]th. *)
Fixpoint fetch_argv (k : nat) (uargv i : Z) : M (kern S) (option (list (list Z))) :=
  match k with
  | O => ret None
  | Datatypes.S k' =>
      uarg <- fetchint (u32 (uargv + 4 * i)) ;;
      match uarg with
      | None => ret None
      | Some uarg =>
          if uarg =? 0 then ret (Some []) else
          s <- fetchstr uarg ;;
          match s with
          | None => ret None
          | Some s => r <- fetch_argv k' uargv (i + 1) ;; ret (match r with Some l => Some (s :: l) | None => None end)
          end
      end
  end.

Definition sys_exec : M (kern S) Z :=
  path <- argstr 0 ;;
  match path with
  | None => ret (-1)
  | Some path =>
      uargv <- argword 1 ;;
      argv <- fetch_argv (Z.to_nat MAXARG) uargv 0 ;;
      match argv with None => ret (-1) | Some argv => exec devsw_read path argv end
  end.

(** Both descriptors of a new pipe, or an error with both files closed. *)
Definition sys_pipe : M (kern S) Z :=
  a <- argptr 0 8 ;;
  match a with
  | None => ret (-1)
  | Some addr =>
      r <- pipealloc ;;
      match r with
      | None => ret (-1)
      | Some (rf, wf) =>
          fd0 <- fdalloc rf ;;
          fd1 <- (if fd0 <? 0 then ret (-1) else fdalloc wf) ;;
          if (fd0 <? 0) || (fd1 <? 0) then
            when (0 <=? fd0) (set_fd fd0 NULL) ;;;
            fileclose rf ;;;
            fileclose wf ;;;
            ret (-1)
          else st_word addr fd0 ;;; st_word (addr + 4) fd1 ;;; ret 0
      end
  end.

(** ** Dispatch *)

Definition SYS_exec : Z := 7.

(** syscalls[num], for the entries that are set. *)
Definition syscalls (num : Z) : option (M (kern S) Z) :=
  match num with
  | 1 => Some (sys_fork trapret forkret_addr)
  | 2 => Some sys_exit
  | 3 => Some sys_wait
  | 4 => Some sys_pipe
  | 5 => Some sys_read
  | 6 => Some sys_kill
  | 7 => Some sys_exec
  | 8 => Some sys_fstat
  | 9 => Some sys_chdir
  | 10 => Some sys_dup
  | 11 => Some sys_getpid
  | 12 => Some sys_sbrk
  | 13 => Some sys_sleep
  | 14 => Some sys_uptime
  | 15 => Some sys_open
  | 16 => Some sys_write
  | 17 => Some sys_mknod
  | 18 => Some sys_unlink
  | 19 => Some sys_link
  | 20 => Some sys_mkdir
  | 21 => Some sys_close
  | 22 => Some sys_cpuutil
  | _ => None
  end.

(** NELEM(syscalls): the array ends at its highest index. *)
Definition NSYSCALLS : Z := 23.

Definition set_result (r : Z) : M (kern S) unit := p <- curp ;; set_tf p TF_R0 (u32 r).

(** The call number is in r0, the result goes there.  [num <= NELEM] admits
    an index one past the array: a fault. *)
Definition syscall : M (kern S) unit :=
  p <- curp ;;
  w <- on_vm (load (u32 (p_tf p + TF_R0))) ;;
  let num := s32 w in
  if (0 <? num) && (num <=? NSYSCALLS) then
    if num =? NSYSCALLS then fault else
    match syscalls num with
    | Some f => r <- f ;; when (negb (num =? SYS_exec)) (set_result r)
    | None => set_result (-1)
    end
  else set_result (-1).

(** The trap handlers of trap.c that reach the kernel proper. *)
Definition swi_handler (r : Z) : M (kern S) unit := upd_curp (with_tf r) ;;; syscall.

End Sysfile.
