(* ===== verification/Console.v ===== *)
(** * console.c: input line editing, formatted output, the text screen

    The console's state: the input ring, the characters sent to the UART, and
    the cursor and pixels of the screen.  consoleread stops as a pipe call does:
    it returns, or it sleeps; its iunlock and ilock of the console's inode are
    left to the caller. *)

From S2P Require Import Prelude CString.

Definition BACKSPACE : Z := 256.

Definition INPUT_BUF : Z := 128.

(** C(x): Control-x. *)
Definition CTRL_D : Z := 4.
Definition CTRL_H : Z := 8.
Definition CTRL_P : Z := 16.
Definition CTRL_U : Z := 21.
Definition DEL : Z := 127.
Definition NL : Z := 10.
Definition CR : Z := 13.

(** Frame and font sizes in pixels. *)
Definition framewidth : Z := 1024.
Definition frameheight : Z := 768.
Definition fontwidth : Z := 8.
Definition fontheight : Z := 16.

Record con := Con {
  cons_locking : bool;
  cons_lock : bool;
  panicked : bool;
  uart_out : list Z;          (* characters written to MU_IO, oldest first *)
  in_lock : bool;
  in_buf : list Z;
  in_r : Z;
  in_w : Z;
  in_e : Z;
  in_wakes : nat;             (* wakeup(&input.r) calls *)
  cursor_x : Z;
  cursor_y : Z;
  gpucolour : Z;
  fb : Z -> Z                 (* 16-bit pixels from fbinfo.fbp *)
}.

Definition set_input (buf : list Z) (r w e : Z) (s : con) : con :=
  Con (cons_locking s) (cons_lock s) (panicked s) (uart_out s) (in_lock s) buf r w e (in_wakes s)
    (cursor_x s) (cursor_y s) (gpucolour s) (fb s).

Definition set_screen (x y colour : Z) (f : Z -> Z) (s : con) : con :=
  Con (cons_locking s) (cons_lock s) (panicked s) (uart_out s) (in_lock s) (in_buf s) (in_r s) (in_w s) (in_e s) (in_wakes s)
    x y colour f.

Definition set_in_lock (b : bool) : M con unit := modify (fun s =>
  Con (cons_locking s) (cons_lock s) (panicked s) (uart_out s) b (in_buf s) (in_r s) (in_w s) (in_e s) (in_wakes s)
    (cursor_x s) (cursor_y s) (gpucolour s) (fb s)).

Definition lock_input : M con unit := s <- get ;; if in_lock s then (fun _ => Spin) else set_in_lock true.

Definition set_cons_lock (b : bool) : M con unit := modify (fun s =>
  Con (cons_locking s) b (panicked s) (uart_out s) (in_lock s) (in_buf s) (in_r s) (in_w s) (in_e s) (in_wakes s)
    (cursor_x s) (cursor_y s) (gpucolour s) (fb s)).

Definition lock_cons : M con unit := s <- get ;; if cons_lock s then (fun _ => Spin) else set_cons_lock true.

Definition wakeup_input : M con unit := modify (fun s =>
  Con (cons_locking s) (cons_lock s) (panicked s) (uart_out s) (in_lock s) (in_buf s) (in_r s) (in_w s) (in_e s) (S (in_wakes s))
    (cursor_x s) (cursor_y s) (gpucolour s) (fb s)).

(** ** Output *)

Definition mu_io (cs : list Z) : M con unit := modify (fun s =>
  Con (cons_locking s) (cons_lock s) (panicked s) (uart_out s ++ cs) (in_lock s) (in_buf s) (in_r s) (in_w s) (in_e s) (in_wakes s)
    (cursor_x s) (cursor_y s) (gpucolour s) (fb s)).

(** uart.c: a newline is preceded by a carriage return. *)
Definition uartputc (c : Z) : M con unit := when (c =? NL) (mu_io [CR]) ;;; mu_io [c].

Definition consputc (c : Z) : M con unit :=
  s <- get ;;
  if panicked s then (fun _ => Spin) else
  if c =? BACKSPACE then uartputc 8 ;;; uartputc 32 ;;; uartputc 8
  else if c =? CTRL_D then uartputc 94 ;;; uartputc 68
  else uartputc c.

Fixpoint consputs (cs : list Z) : M con unit :=
  match cs with
  | [] => ret tt
  | c :: cs' => consputc c ;;; consputs cs'
  end.

(** digits[] *)
Definition digit (d : Z) : Z := if d <? 10 then 48 + d else 97 + (d - 10).

(** printint's do-while loop: buf[0], buf[1], ... ; [None] if buf[16] were
    written or the bound were reached. *)
Fixpoint print_digits (fuel : nat) (x b : Z) (buf : list Z) : option (list Z) :=
  match fuel with
  | O => None
  | S f =>
      let y := div x b in
      if zlen buf <? 16 then
        let buf := buf ++ [digit (u32 (x - y * b))] in
        if y =? 0 then Some buf else print_digits f y b buf
      else None
  end.

(** The characters printint(xx, base, sign) puts out. *)
Definition printint_chars (xx base : Z) (sign : bool) : option (list Z) :=
  let neg := sign && (xx <? 0) in
  let x := if neg then u32 (- xx) else u32 xx in
  buf ← print_digits 33 x base [];
  let buf := if neg then buf ++ [45] else buf in
  Some (rev buf).

Definition printint (xx base : Z) (sign : bool) : M con unit :=
  cs <- from_opt (printint_chars xx base sign) ;; consputs cs.

(** The arguments of cprintf; a directive that does not fit its argument, or
    finds none, is a fault. *)
Inductive carg : Type := AInt (v : Z) | AStr (s : option (list Z)).

Definition NULLSTR : list Z := [40; 110; 117; 108; 108; 41].   (* "(null)" *)

Fixpoint cprintf_loop (fmt : list Z) (args : list carg) : M con unit :=
  match fmt with
  | [] => ret tt
  | c :: fmt' =>
      if negb (c =? 37) then consputc c ;;; cprintf_loop fmt' args else
      match fmt' with
      | [] => ret tt
      | d :: fmt'' =>
          if d =? 100 then
            match args with AInt v :: args' => printint (s32 v) 10 true ;;; cprintf_loop fmt'' args' | _ => fault end
          else if (d =? 120) || (d =? 112) then
            match args with AInt v :: args' => printint (s32 v) 16 false ;;; cprintf_loop fmt'' args' | _ => fault end
          else if d =? 115 then
            match args with
            | AStr s :: args' => consputs (default NULLSTR s) ;;; cprintf_loop fmt'' args'
            | _ => fault
            end
          else if d =? 37 then consputc 37 ;;; cprintf_loop fmt'' args
          else consputc 37 ;;; consputc d ;;; cprintf_loop fmt'' args
      end
  end.

Definition cprintf (fmt : list Z) (args : list carg) : M con unit :=
  s <- get ;;
  let locking := cons_locking s in
  when locking lock_cons ;;;
  cprintf_loop fmt args ;;;
  when locking (set_cons_lock false).

(** The driver's write: the bytes of buf. *)
Definition consolewrite (buf : list Z) : M con Z :=
  lock_cons ;;;
  consputs (map u8 buf) ;;;
  set_cons_lock false ;;;
  ret (zlen buf).

(** ** Input *)

Definition in_at (s : con) (i : Z) : Z := default 0 (zget (in_buf s) (i mod INPUT_BUF)).

(** Kill line, backwards to the last newline or to the start of the line. *)
Fixpoint kill_line (fuel : nat) : M con unit :=
  match fuel with
  | O => no_fuel
  | S f =>
      s <- get ;;
      if negb (in_e s =? in_w s) && negb (in_at s (u32 (in_e s - 1)) =? NL) then
        put (set_input (in_buf s) (in_r s) (in_w s) (u32 (in_e s - 1)) s) ;;;
        consputc BACKSPACE ;;;
        kill_line f
      else ret tt
  end.

(** One character of consoleintr's loop.  The process listing of ^P goes to
    proc.c and is left out. *)
Definition intr_char (c : Z) : M con unit :=
  s <- get ;;
  if c =? CTRL_P then ret tt
  else if c =? CTRL_U then kill_line (Z.to_nat INPUT_BUF + 1)
  else if (c =? CTRL_H) || (c =? DEL) then
    when (negb (in_e s =? in_w s))
      (put (set_input (in_buf s) (in_r s) (in_w s) (u32 (in_e s - 1)) s) ;;;
       consputc BACKSPACE)
  else
    when (negb (c =? 0) && (u32 (in_e s - in_r s) <? INPUT_BUF))
      (if c =? NL then ret tt else
       let c := if c =? CR then NL else c in
       let e := u32 (in_e s + 1) in
       put (set_input (zset (in_buf s) (in_e s mod INPUT_BUF) (u8 c)) (in_r s) (in_w s) e s) ;;;
       consputc c ;;;
       when ((c =? NL) || (c =? CTRL_D) || (e =? u32 (in_r s + INPUT_BUF)))
         (modify (fun s => set_input (in_buf s) (in_r s) (in_e s) (in_e s) s) ;;;
          wakeup_input)).

Fixpoint intr_loop (cs : list Z) : M con unit :=
  match cs with
  | [] => ret tt
  | c :: cs' => intr_char c ;;; intr_loop cs'
  end.

(** [cs]: what getc() returns before -1. *)
Definition consoleintr (cs : list Z) : M con unit := lock_input ;;; intr_loop cs ;;; set_in_lock false.

(** Where consoleread stops: it returned, or sleeps on input.r with [n]
    bytes still to read. *)
Inductive cstop : Type := CReturned (r : Z) | CSlept (n : Z).

(** The loop of consoleread: [n] more bytes of [target]; the result has the
    bytes stored at dst. *)
Fixpoint consoleread_loop (fuel : nat) (killed : bool) (target n : Z) : M con (list Z * cstop) :=
  match fuel with
  | O => no_fuel
  | S f =>
      s <- get ;;
      if negb (0 <? n) then set_in_lock false ;;; ret ([], CReturned (target - n)) else
      if in_r s =? in_w s then
        set_in_lock false ;;; ret ([], if killed then CReturned (-1) else CSlept n)
      else
      let c := in_at s (in_r s) in
      put (set_input (in_buf s) (u32 (in_r s + 1)) (in_w s) (in_e s) s) ;;;
      if c =? CTRL_D then
        when (n <? target) (modify (fun s => set_input (in_buf s) (u32 (in_r s - 1)) (in_w s) (in_e s) s)) ;;;
        set_in_lock false ;;;
        ret ([], CReturned (target - n))
      else if c =? NL then set_in_lock false ;;; ret ([c], CReturned (target - (n - 1)))
      else
        r <- consoleread_loop f killed target (n - 1) ;;
        ret (c :: r.1, r.2)
  end.

(** Entered with [n = target], or resumed. *)
Definition consoleread (killed : bool) (target n : Z) : M con (list Z * cstop) :=
  lock_input ;;; consoleread_loop (Z.to_nat n + 1) killed target n.

(** ** The text screen *)

Definition drawpixel (x y : Z) (s : con) : con :=
  if (framewidth <=? x) || (frameheight <=? y) then s else
  set_screen (cursor_x s) (cursor_y s) (gpucolour s)
    (fun a => if a =? u32 (y * 1024 + x) then gpucolour s else fb s a) s.

(** Both loops of a character cell: rows 0..14, bits 0..7, where [on]. *)
Definition draw_cell (on : Z -> Z -> bool) (x y : Z) (s : con) : con :=
  foldl (fun s row => foldl (fun s bit => if on row bit then drawpixel (u32 (x + bit)) (u32 (y + row)) s else s) s (seqZ 0 8))
    s (seqZ 0 15).

Definition drawcursor : Z -> Z -> con -> con := draw_cell (fun _ _ => true).

Section Screen.
(** The font file linked into the kernel: 16 bytes per character. *)
Variable font : Z -> Z.

Definition drawcharacter (c x y : Z) (s : con) : con :=
  if 127 <? c then s else
  draw_cell (fun row bit => negb (Z.land (Z.shiftr (font (Z.shiftl c 4 + row)) bit) 1 =? 0)) x y s.

Definition setgpucolour (c : Z) (s : con) : con := set_screen (cursor_x s) (cursor_y s) (u16 c) (fb s) s.

Definition move_cursor (x y : Z) (s : con) : con := set_screen x y (gpucolour s) (fb s) s.

(** Clear the bottom line: draw cursors over it. *)
Fixpoint clear_line (fuel : nat) (s : con) : con :=
  match fuel with
  | O => s
  | S f =>
      if cursor_x s <? framewidth
      then clear_line f (move_cursor (u32 (cursor_x s + fontwidth)) (cursor_y s) (drawcursor (cursor_x s) (cursor_y s) s))
      else s
  end.

(** One text line up: memmove of the frame buffer, then a blank last line. *)
Definition scroll (s : con) : con :=
  let s := set_screen (cursor_x s) (cursor_y s) (gpucolour s)
             (fun a => if (0 <=? a) && (a <? (frameheight - fontheight) * framewidth)
                       then fb s (a + framewidth * fontheight) else fb s a) s in
  let s := setgpucolour 0 (move_cursor (cursor_x s) (frameheight - fontheight) s) in
  let s := setgpucolour 65535 (clear_line (Z.to_nat (framewidth / fontwidth) + 1) s) in
  move_cursor 0 (cursor_y s) s.

Definition gpuputc (c : Z) (s : con) : con :=
  if c =? NL then
    let s := move_cursor 0 (u32 (cursor_y s + fontheight)) s in
    if frameheight <=? cursor_y s then scroll s else s
  else if c =? BACKSPACE then
    if 0 <? cursor_x s then
      let s := move_cursor (u32 (cursor_x s - fontwidth)) (cursor_y s) s in
      setgpucolour 65535 (drawcursor (cursor_x s) (cursor_y s) (setgpucolour 0 s))
    else s
  else
    let s := setgpucolour 65535 (drawcursor (cursor_x s) (cursor_y s) (setgpucolour 0 s)) in
    let s := if c =? 32 then s else drawcharacter c (cursor_x s) (cursor_y s) s in
    let s := move_cursor (u32 (cursor_x s + fontwidth)) (cursor_y s) s in
    if framewidth <=? cursor_x s then
      let s := move_cursor 0 (u32 (cursor_y s + fontheight)) s in
      if frameheight <=? cursor_y s then scroll s else s
    else s.

End Screen.

Definition consoleinit (s : con) : con :=
  Con true false false (uart_out s) false (replicate 128 0) 0 0 0 (in_wakes s) 0 0 (gpucolour s) (fb s).
