(* ===== verification/ConsoleSpec.v ===== *)
(** * The console refines a line editor

    [con_rep s ready line]: the ring holds the bytes a reader may take and the
    line being edited.  Interrupts and reads act on these two lists as
    [edit_char] and [take_line] say; printint prints canonical numerals. *)

From S2P Require Import Prelude CString Console.

(** ** The specification *)

(** One character typed. *)
Definition edit_char (c : Z) (st : list Z * list Z) : list Z * list Z :=
  let '(ready, line) := st in
  if c =? CTRL_P then st
  else if c =? CTRL_U then (ready, [])
  else if (c =? CTRL_H) || (c =? DEL) then (ready, removelast line)
  else if (c =? 0) || (c =? NL) || (INPUT_BUF <=? zlen ready + zlen line) then st
  else
    let line := line ++ [if c =? CR then NL else c] in
    if (c =? CR) || (c =? CTRL_D) || (zlen ready + zlen line =? INPUT_BUF) then (ready ++ line, []) else (ready, line).

(** A read of at most [n] bytes: a line, or up to an end of file, which stays
    when bytes were read before it. *)
Fixpoint take_line (killed : bool) (target : Z) (n : nat) (ready : list Z) : list Z * cstop * list Z :=
  match n with
  | O => ([], CReturned target, ready)
  | S n' =>
      match ready with
      | [] => ([], if killed then CReturned (-1) else CSlept (Z.of_nat n), [])
      | c :: l =>
          if c =? CTRL_D then ([], CReturned (target - Z.of_nat n), if Z.of_nat n <? target then ready else l)
          else if c =? NL then ([c], CReturned (target - Z.of_nat n'), l)
          else let '(bs, r, l') := take_line killed target n' l in (c :: bs, r, l')
      end
  end.

(** ** The ring *)

Definition no_nl (l : list Z) : Prop := forall x, x ∈ l -> x <> NL.

Record con_rep (s : con) (ready line : list Z) : Prop := {
  cr_len : zlen (in_buf s) = INPUT_BUF;
  cr_r : is_u32 (in_r s);
  cr_w : in_w s = u32 (in_r s + zlen ready);
  cr_e : in_e s = u32 (in_r s + zlen ready + zlen line);
  cr_max : zlen ready + zlen line <= INPUT_BUF;
  cr_at : forall k x, zget (ready ++ line) k = Some x -> zget (in_buf s) ((in_r s + k) mod INPUT_BUF) = Some x;
  cr_line : no_nl line;
  cr_on : panicked s = false
}.

Lemma mod_u32_128 x : u32 x mod INPUT_BUF = x mod INPUT_BUF.
Proof.
  unfold u32, INPUT_BUF. change (2 ^ 32) with (128 * 33554432). rewrite Z.rem_mul_r, Z.mul_comm by lia.
  by rewrite Z.mod_add, Z.mod_mod by lia.
Qed.

Lemma u32_eq_add r a b : is_u32 r -> 0 <= a < 2 ^ 32 -> 0 <= b < 2 ^ 32 -> u32 (r + a) = u32 (r + b) -> a = b.
Proof.
  unfold u32, is_u32. intros Hr Ha Hb E.
  assert ((a - b) mod 2 ^ 32 = 0) as Hz.
  { replace (a - b) with ((r + a) - (r + b)) by lia. rewrite Zminus_mod, E, Z.sub_diag. done. }
  apply Z.mod_divide in Hz as [q Hq]; [|lia]. assert (q = 0) by nia. lia.
Qed.

(** Output leaves the ring alone. *)
Definition same_input (s s' : con) : Prop :=
  in_buf s' = in_buf s /\ in_r s' = in_r s /\ in_w s' = in_w s /\ in_e s' = in_e s /\ panicked s' = panicked s /\
  in_wakes s' = in_wakes s /\ in_lock s' = in_lock s.

Lemma rep_same s s' R L : same_input s s' -> con_rep s R L -> con_rep s' R L.
Proof. intros (E1 & E2 & E3 & E4 & E5 & _) [A B C D E F G H]. split; rewrite ?E1, ?E2, ?E3, ?E4, ?E5; done. Qed.

Lemma same_refl s : same_input s s.
Proof. by repeat apply conj. Qed.

Lemma same_trans s s' s'' : same_input s s' -> same_input s' s'' -> same_input s s''.
Proof. intros (A & B & C & D & E & F & G) (A' & B' & C' & D' & E' & F' & G'). repeat apply conj; congruence. Qed.

(** Output operations return and leave the ring alone. *)
Definition quiet (m : M con unit) : Prop := forall s, panicked s = false -> exists s', m s = Ok tt s' /\ same_input s s'.

Lemma quiet_seq m k : quiet m -> quiet k -> quiet (m ;;; k).
Proof.
  intros Hm Hk s Hp. destruct (Hm s Hp) as (s1 & E1 & S1). assert (panicked s1 = false) as Hp1 by (destruct S1 as (_ & _ & _ & _ & -> & _); done).
  destruct (Hk s1 Hp1) as (s2 & E2 & S2). exists s2. split; [|by eapply same_trans]. by rewrite (bind_ok _ _ _ _ _ E1).
Qed.

Lemma quiet_uartputc c : quiet (uartputc c).
Proof.
  apply quiet_seq; intros s _; [|eexists; split; [reflexivity|by repeat apply conj]].
  unfold when. case_if; eexists; (split; [reflexivity|by repeat apply conj]).
Qed.

Lemma consputc_ok c : quiet (consputc c).
Proof.
  intros s Hp. unfold consputc. change (exists s', (if panicked s then (fun _ => Spin) else
    if c =? BACKSPACE then uartputc 8 ;;; uartputc 32 ;;; uartputc 8
    else if c =? CTRL_D then uartputc 94 ;;; uartputc 68 else uartputc c) s = Ok tt s' /\ same_input s s'). rewrite Hp.
  assert (quiet (uartputc 8 ;;; uartputc 32 ;;; uartputc 8)) as Hb by (do 2 (apply quiet_seq; [apply quiet_uartputc|]); apply quiet_uartputc).
  assert (quiet (uartputc 94 ;;; uartputc 68)) as Hd by (apply quiet_seq; apply quiet_uartputc).
  case_if; [by apply Hb|]. case_if; [by apply Hd|by apply quiet_uartputc].
Qed.

Lemma rep_len s R L : con_rep s R L -> 0 <= zlen R /\ 0 <= zlen L /\ zlen R + zlen L <= 128.
Proof. intros Hr. pose proof (cr_max _ _ _ Hr). pose proof (zlen_nonneg R). pose proof (zlen_nonneg L). unfold INPUT_BUF in *. lia. Qed.

(** The comparisons the code makes on the indexes. *)
Lemma rep_e_w s R L : con_rep s R L -> (in_e s =? in_w s) = bool_decide (L = []).
Proof.
  intros Hr. pose proof (rep_len _ _ _ Hr). rewrite (cr_e _ _ _ Hr), (cr_w _ _ _ Hr). case_bool_decide as HL.
  - subst L. change (zlen (@nil Z)) with 0. by rewrite Z.add_0_r, Z.eqb_refl.
  - apply Z.eqb_neq. intros E. apply HL. rewrite <-Z.add_assoc in E. apply u32_eq_add in E; [|by apply (cr_r _ _ _ Hr)|lia..].
    destruct L; [done|unfold zlen in *; cbn in *; lia].
Qed.

Lemma rep_r_w s R L : con_rep s R L -> (in_r s =? in_w s) = bool_decide (R = []).
Proof.
  intros Hr. pose proof (rep_len _ _ _ Hr). rewrite (cr_w _ _ _ Hr). case_bool_decide as HL.
  - subst R. change (zlen (@nil Z)) with 0. rewrite Z.add_0_r, u32_small by apply (cr_r _ _ _ Hr). by rewrite Z.eqb_refl.
  - apply Z.eqb_neq. intros E. apply HL. rewrite <-(u32_small (in_r s)) in E at 1 by apply (cr_r _ _ _ Hr).
    rewrite <-(Z.add_0_r (in_r s)) in E at 1. apply u32_eq_add in E; [|by apply (cr_r _ _ _ Hr)|lia..].
    destruct R; [done|unfold zlen in *; cbn in *; lia].
Qed.

Lemma rep_count s R L : con_rep s R L -> u32 (in_e s - in_r s) = zlen R + zlen L.
Proof.
  intros Hr. pose proof (rep_len _ _ _ Hr). rewrite (cr_e _ _ _ Hr). unfold u32. rewrite Zminus_mod_idemp_l.
  replace (in_r s + zlen R + zlen L - in_r s) with (zlen R + zlen L) by lia. apply Z.mod_small. lia.
Qed.

Lemma rep_last s R L x : con_rep s R (L ++ [x]) -> in_at s (u32 (in_e s - 1)) = x.
Proof.
  intros Hr. unfold in_at. rewrite mod_u32_128, (cr_e _ _ _ Hr).
  assert ((u32 (in_r s + zlen R + zlen (L ++ [x])) - 1) mod INPUT_BUF = (in_r s + (zlen R + zlen L)) mod INPUT_BUF) as ->.
  { rewrite <-(Zminus_mod_idemp_l (u32 _)), mod_u32_128, Zminus_mod_idemp_l. rewrite zlen_app. change (zlen [x]) with 1. f_equal. lia. }
  rewrite (cr_at _ _ _ Hr _ x); [done|]. rewrite app_assoc. rewrite zget_nat by (pose proof (zlen_nonneg R); pose proof (zlen_nonneg L); lia).
  rewrite <-zlen_app. unfold zlen. rewrite Nat2Z.id. by apply list_lookup_middle.
Qed.

(** The edit index steps back over the last character. *)
Lemma rep_back s R L x : con_rep s R (L ++ [x]) ->
  con_rep (set_input (in_buf s) (in_r s) (in_w s) (u32 (in_e s - 1)) s) R L.
Proof.
  intros Hr. pose proof (rep_len _ _ _ Hr) as Hl. rewrite zlen_app in Hl. change (zlen [x]) with 1 in Hl.
  destruct Hr as [A B C D E F G H]. rewrite zlen_app in D. change (zlen [x]) with 1 in D. split; cbn; try done.
  - rewrite D. unfold u32. rewrite Zminus_mod_idemp_l. f_equal. lia.
  - unfold INPUT_BUF. lia.
  - intros k y Hk. apply F. rewrite app_assoc. pose proof (zget_Some _ _ _ Hk). rewrite zget_nat in * by lia.
    by apply lookup_app_l_Some.
  - intros y Hy. apply G. set_solver.
Qed.

(** ** Interrupts *)

(** What a step of the interrupt loop promises. *)
Definition edits (s s' : con) (R L R' L' : list Z) : Prop :=
  con_rep s' R' L' /\ in_lock s' = in_lock s /\ in_wakes s' = (in_wakes s + if bool_decide (R' = R) then 0 else 1)%nat.

Lemma back_ok s R L x : con_rep s R (L ++ [x]) -> exists s',
  (put (set_input (in_buf s) (in_r s) (in_w s) (u32 (in_e s - 1)) s) ;;; consputc BACKSPACE) s = Ok tt s' /\
  con_rep s' R L /\ in_lock s' = in_lock s /\ in_wakes s' = in_wakes s.
Proof.
  intros Hr. set (s1 := set_input (in_buf s) (in_r s) (in_w s) (u32 (in_e s - 1)) s).
  destruct (consputc_ok BACKSPACE s1 (cr_on _ _ _ Hr)) as (s2 & E2 & S2). exists s2.
  split; [exact E2|]. split; [by eapply rep_same, rep_back|]. destruct S2 as (_ & _ & _ & _ & _ & -> & ->). done.
Qed.

Lemma kill_line_ok R : forall L s fuel, con_rep s R L -> (length L < fuel)%nat -> exists s',
  kill_line fuel s = Ok tt s' /\ con_rep s' R [] /\ in_lock s' = in_lock s /\ in_wakes s' = in_wakes s.
Proof.
  induction L as [|x L IH] using rev_ind; intros s fuel Hr Hf; (destruct fuel as [|fuel]; [lia|]); cbn [kill_line].
  - exists s. unfold bind, get. rewrite (rep_e_w _ _ _ Hr), bool_decide_true by done. done.
  - rewrite length_app in Hf. cbn in Hf. destruct (back_ok _ _ _ _ Hr) as (s1 & E1 & Hr1 & Hl1 & Hw1).
    destruct (IH s1 fuel Hr1 ltac:(lia)) as (s2 & E2 & Hr2 & Hl2 & Hw2). exists s2. split; [|split; [done|split; congruence]].
    rewrite <-E2. unfold bind at 1, get. rewrite (rep_e_w _ _ _ Hr), bool_decide_false by (by destruct L). cbn [negb andb].
    rewrite (rep_last _ _ _ _ Hr). assert (x <> NL) as Hx by (apply (cr_line _ _ _ Hr); set_solver).
    apply Z.eqb_neq in Hx. rewrite Hx. cbn [negb]. unfold bind in E1 |- *. cbn in E1 |- *. by rewrite E1.
Qed.

(** A character goes into the free place after the line. *)
Lemma rep_append_at s R L c k y : con_rep s R L -> zlen R + zlen L < INPUT_BUF -> zget (R ++ L ++ [c]) k = Some y ->
  zget (zset (in_buf s) (in_e s mod INPUT_BUF) c) ((in_r s + k) mod INPUT_BUF) = Some y.
Proof.
  intros Hr Hroom Hk. pose proof (rep_len _ _ _ Hr) as Hl. destruct Hr as [A B C D E F G H].
  assert (in_e s mod INPUT_BUF = (in_r s + (zlen R + zlen L)) mod INPUT_BUF) as ->.
  { rewrite D, mod_u32_128. f_equal. lia. }
  pose proof (zget_Some _ _ _ Hk) as Hb. rewrite !zlen_app in Hb. change (zlen [c]) with 1 in Hb.
  rewrite app_assoc in Hk. destruct (decide (k = zlen R + zlen L)) as [->|Hne].
  - rewrite zget_zset_eq by (rewrite A; by apply Z.mod_pos_bound). 
    rewrite <-zlen_app, zget_nat in Hk by apply zlen_nonneg. unfold zlen in Hk. rewrite Nat2Z.id, list_lookup_middle in Hk by done.
    exact Hk.
  - rewrite zget_zset_ne; [apply F|].
    + rewrite zget_nat in Hk |- * by lia. rewrite lookup_app_l in Hk; [done|]. rewrite length_app. unfold zlen in *. lia.
    + intros E1. apply Hne. unfold INPUT_BUF in *. pose proof (Z.div_mod (in_r s + k) 128 ltac:(lia)).
      pose proof (Z.div_mod (in_r s + (zlen R + zlen L)) 128 ltac:(lia)). nia.
Qed.

Lemma rep_append s R L c : con_rep s R L -> zlen R + zlen L < INPUT_BUF -> c <> NL ->
  con_rep (set_input (zset (in_buf s) (in_e s mod INPUT_BUF) c) (in_r s) (in_w s) (u32 (in_e s + 1)) s) R (L ++ [c]).
Proof.
  intros Hr Hroom Hc. pose proof (rep_append_at s R L c) as Hat. destruct Hr as [A B C D E F G H]. split; cbn; try done.
  - by rewrite zlen_zset.
  - rewrite D, u32_add_l, zlen_app. change (zlen [c]) with 1. f_equal. lia.
  - rewrite zlen_app. change (zlen [c]) with 1. lia.
  - intros k y. by apply Hat.
  - intros y Hy. set_unfold in Hy. destruct Hy as [Hy|[->|[]]]; [by apply G|done].
Qed.

Lemma rep_commit s R L c : con_rep s R L -> zlen R + zlen L < INPUT_BUF ->
  con_rep (set_input (zset (in_buf s) (in_e s mod INPUT_BUF) c) (in_r s) (u32 (in_e s + 1)) (u32 (in_e s + 1)) s) (R ++ L ++ [c]) [].
Proof.
  intros Hr Hroom. pose proof (rep_append_at s R L c) as Hat. destruct Hr as [A B C D E F G H]. split; cbn; try done.
  - by rewrite zlen_zset.
  - rewrite D, u32_add_l, !zlen_app. change (zlen [c]) with 1. f_equal. lia.
  - rewrite D, u32_add_l, !zlen_app. change (zlen [c]) with 1. change (zlen (@nil Z)) with 0. f_equal. lia.
  - rewrite !zlen_app. change (zlen [c]) with 1. change (zlen (@nil Z)) with 0. lia.
  - rewrite app_nil_r. intros k y. by apply Hat.
  - intros y Hy. by apply elem_of_nil in Hy.
Qed.

Lemma app_ne (R L : list Z) c : R ++ L ++ [c] <> R.
Proof. intros E. apply (f_equal length) in E. rewrite !length_app in E. cbn in E. lia. Qed.

(** A character typed acts as [edit_char] on the two lists. *)
Lemma intr_char_ok s R L c : con_rep s R L -> 0 <= c < 256 -> exists s',
  intr_char c s = Ok tt s' /\ edits s s' R L (edit_char c (R, L)).1 (edit_char c (R, L)).2.
Proof.
  intros Hr Hc. unfold intr_char, edit_char. unfold bind at 1, get.
  assert (exists s', Ok tt s = Ok tt s' /\ edits s s' R L R L) as Hsame.
  { exists s. split; [done|]. split; [done|]. split; [done|]. rewrite bool_decide_true by done. lia. }
  assert (forall s' L', con_rep s' R L' /\ in_lock s' = in_lock s /\ in_wakes s' = in_wakes s -> edits s s' R L R L') as Hsame'.
  { intros s' L' (? & ? & ?). split; [done|]. split; [done|]. rewrite bool_decide_true by done. lia. }
  destruct (c =? CTRL_P); [exact Hsame|]. destruct (c =? CTRL_U); cbn [fst snd].
  { destruct (kill_line_ok R L s (Z.to_nat INPUT_BUF + 1) Hr) as (s' & E & H').
    { pose proof (rep_len _ _ _ Hr). unfold zlen, INPUT_BUF in *. lia. }
    exists s'. split; [exact E|by apply Hsame']. }
  destruct ((c =? CTRL_H) || (c =? DEL)).
  { rewrite (rep_e_w _ _ _ Hr). case_bool_decide as HL; [by subst L|]. cbn [negb when].
    destruct (exists_last HL) as (L1 & x & ->). rewrite removelast_last.
    destruct (back_ok _ _ _ _ Hr) as (s' & E & H'). exists s'. split; [exact E|by apply Hsame']. }
  rewrite (rep_count _ _ _ Hr). destruct (Z.eqb_spec c 0) as [|Hc0]; [exact Hsame|]. cbn [negb andb orb].
  destruct (Z.ltb_spec (zlen R + zlen L) INPUT_BUF) as [Hroom|Hfull].
  2: { rewrite (proj2 (Z.leb_le _ _) Hfull). rewrite orb_true_r. exact Hsame. }
  rewrite (proj2 (Z.leb_gt _ _) Hroom), orb_false_r. unfold when at 1. destruct (Z.eqb_spec c NL) as [|Hnl]; [exact Hsame|].
  set (c' := if c =? CR then NL else c). assert (u8 c' = c') as Hu by (unfold c'; case_if; [done|by apply u8_small]). rewrite Hu.
  set (s1 := set_input (zset (in_buf s) (in_e s mod INPUT_BUF) c') (in_r s) (in_w s) (u32 (in_e s + 1)) s).
  destruct (consputc_ok c' s1 (cr_on _ _ _ Hr)) as (s2 & E2 & S2).
  pose proof S2 as (I1 & I2 & I3 & I4 & I5 & I6 & I7). cbn in I1, I2, I3, I4, I5, I6, I7.
  assert ((u32 (in_e s + 1) =? u32 (in_r s + INPUT_BUF)) = (zlen R + zlen (L ++ [c']) =? INPUT_BUF)) as Hfull.
  { pose proof (rep_len _ _ _ Hr). rewrite (cr_e _ _ _ Hr), u32_add_l, zlen_app. change (zlen [c']) with 1.
    apply Bool.eq_true_iff_eq. rewrite !Z.eqb_eq. unfold INPUT_BUF in *. split; [|intros Heq; f_equal; lia].
    intros Heq. replace (in_r s + zlen R + zlen L + 1) with (in_r s + (zlen R + zlen L + 1)) in Heq by lia.
    apply u32_eq_add in Heq; [lia|by apply (cr_r _ _ _ Hr)|lia..]. }
  assert ((c' =? NL) || (c' =? CTRL_D) = ((c =? CR) || (c =? CTRL_D))) as Hcommit.
  { unfold c'. destruct (Z.eqb_spec c CR) as [->|]; [done|]. by rewrite (proj2 (Z.eqb_neq c NL) Hnl). }
  rewrite Hfull, Hcommit. destruct ((c =? CR) || (c =? CTRL_D) || (zlen R + zlen (L ++ [c']) =? INPUT_BUF)) eqn:Hcm; cbn [when fst snd].
  - eexists. split; [unfold bind at 1, put; unfold bind; fold s1; rewrite E2; reflexivity|]. split; [|cbn; split; [done|]].
    + pose proof (rep_commit s R L c' Hr Hroom) as Hrc. destruct Hrc as [A B C D E F G H]. cbn in *. split; cbn; rewrite ?I1, ?I2, ?I3, ?I4; try done.
      by rewrite I5.
    + rewrite bool_decide_false by apply app_ne. rewrite I6. lia.
  - eexists. split; [unfold bind at 1, put; unfold bind; fold s1; rewrite E2; reflexivity|]. apply Hsame'. split; [|done].
    eapply rep_same; [exact S2|]. apply rep_append; [done|done|].
    apply orb_false_iff in Hcm as [[Hcr _]%orb_false_iff _]. unfold c'. by rewrite Hcr.
Qed.

(** The loop over the characters that the UART has. *)
Lemma intr_loop_ok cs : forall s R L, con_rep s R L -> Forall (fun c => 0 <= c < 256) cs -> exists s',
  intr_loop cs s = Ok tt s' /\ let '(R', L') := foldl (fun st c => edit_char c st) (R, L) cs in
  con_rep s' R' L' /\ in_lock s' = in_lock s /\ (in_wakes s <= in_wakes s')%nat /\ (R' = R \/ (in_wakes s < in_wakes s')%nat).
Proof.
  induction cs as [|c cs IH]; intros s R L Hr Hcs; cbn [intr_loop foldl].
  - exists s. split; [done|]. split; [done|]. split; [done|]. split; [done|by left].
  - apply Forall_cons in Hcs as [Hc Hcs]. destruct (intr_char_ok s R L c Hr Hc) as (s1 & E1 & Hr1 & Hl1 & Hw1).
    destruct (edit_char c (R, L)) as [R1 L1] eqn:Ed. cbn [fst snd] in *.
    destruct (IH s1 R1 L1 Hr1 Hcs) as (s2 & E2 & H2). exists s2. split; [by rewrite (bind_ok _ _ _ _ _ E1)|].
    destruct (foldl _ (R1, L1) cs) as [R2 L2]. destruct H2 as (Hr2 & Hl2 & Hle & Hw2). split; [done|]. split; [congruence|].
    case_bool_decide as Hsame; [subst R1|]; (split; [lia|]); [destruct Hw2; [by left|right; lia]|right; lia].
Qed.

(** ** Reading *)

Lemma rep_pop s c R L : con_rep s (c :: R) L -> in_at s (in_r s) = c /\
  con_rep (set_input (in_buf s) (u32 (in_r s + 1)) (in_w s) (in_e s) s) R L.
Proof.
  intros Hr. pose proof (rep_len _ _ _ Hr) as Hl. destruct Hr as [A B C D E F G H].
  assert (zlen (c :: R) = zlen R + 1) as Hc by (unfold zlen; cbn [length]; lia). rewrite Hc in *. split.
  - unfold in_at. specialize (F 0 c eq_refl). rewrite Z.add_0_r in F. by rewrite F.
  - split; cbn; try done.
    + apply u32_range.
    + rewrite C, u32_add_l. f_equal. lia.
    + rewrite D, <-(Z.add_assoc (u32 _)), u32_add_l. f_equal. lia.
    + unfold INPUT_BUF in *. lia.
    + intros k x Hk. pose proof (zget_Some _ _ _ Hk). rewrite <-Zplus_mod_idemp_l, mod_u32_128, Zplus_mod_idemp_l.
      replace (in_r s + 1 + k) with (in_r s + (k + 1)) by lia. apply F. cbn [app]. rewrite zget_succ by lia.
      by replace (k + 1 - 1) with k by lia.
Qed.

Lemma u32_back r : is_u32 r -> u32 (u32 (r + 1) - 1) = r.
Proof.
  unfold u32, is_u32. intros Hr. rewrite Zminus_mod_idemp_l. replace (r + 1 - 1) with r by lia. by apply Z.mod_small.
Qed.

Lemma set_input_twice buf r w e buf' r' w' e' s : set_input buf r w e (set_input buf' r' w' e' s) = set_input buf r w e s.
Proof. done. Qed.

Lemma set_input_id s : set_input (in_buf s) (in_r s) (in_w s) (in_e s) s = s.
Proof. by destruct s. Qed.

(** The lock given back at the end. *)
Definition with_in_lock (b : bool) (s : con) : con :=
  Con (cons_locking s) (cons_lock s) (panicked s) (uart_out s) b (in_buf s) (in_r s) (in_w s) (in_e s) (in_wakes s)
    (cursor_x s) (cursor_y s) (gpucolour s) (fb s).

Lemma rep_lock b s R L : con_rep s R L -> con_rep (with_in_lock b s) R L.
Proof. intros [A B C D E F G H]. by split. Qed.

Lemma consoleread_loop_ok killed target L m : forall s R fuel, con_rep s R L -> (m < fuel)%nat -> Z.of_nat m <= target ->
  let '(bs, r, R') := take_line killed target m R in
  exists s', consoleread_loop fuel killed target (Z.of_nat m) s = Ok (bs, r) s' /\ con_rep s' R' L /\ in_lock s' = false.
Proof.
  induction m as [|m IH]; intros s R fuel Hr Hf Ht; (destruct fuel as [|fuel]; [lia|]); cbn [take_line consoleread_loop].
  { eexists. split; [cbn; by rewrite Z.sub_0_r|]. split; [by apply (rep_lock false)|done]. }
  rewrite (bind_ok get _ s s s eq_refl). rewrite (proj2 (Z.ltb_lt 0 (Z.of_nat (S m))) ltac:(lia)). cbn [negb].
  rewrite (rep_r_w _ _ _ Hr). destruct R as [|c R]; [rewrite bool_decide_true by done|rewrite bool_decide_false by done].
  { eexists. split; [reflexivity|]. split; [by apply (rep_lock false)|done]. }
  destruct (rep_pop _ _ _ _ Hr) as [Hc Hr1]. rewrite Hc. set (s1 := set_input (in_buf s) (u32 (in_r s + 1)) (in_w s) (in_e s) s) in *.
  rewrite (bind_ok (put s1) _ s tt s1 eq_refl). destruct (c =? CTRL_D).
  - unfold when. destruct (Z.ltb_spec (Z.of_nat (S m)) target).
    + eexists. split; [reflexivity|]. split; [|done]. apply (rep_lock false). unfold s1 at 1 2 3 4 5. rewrite set_input_twice.
      cbn [in_buf in_r in_w in_e set_input]. rewrite u32_back by apply (cr_r _ _ _ Hr). by rewrite set_input_id.
    + eexists. split; [reflexivity|]. split; [by apply (rep_lock false)|done].
  - destruct (c =? NL).
    + eexists. split; [replace (Z.of_nat (S m) - 1) with (Z.of_nat m) by lia; reflexivity|]. split; [by apply (rep_lock false)|done].
    + specialize (IH s1 R fuel Hr1 ltac:(lia) ltac:(lia)). destruct (take_line killed target m R) as [[bs r] R'].
      destruct IH as (s' & E' & Hr' & Hl'). exists s'. split; [|done].
      replace (Z.of_nat (S m) - 1) with (Z.of_nat m) by lia. by rewrite (bind_ok _ _ _ _ _ E').
Qed.

(** ** Numerals *)

Definition digit_val (c : Z) : Z := if c <? 58 then c - 48 else c - 87.

(** The value of a numeral, most significant digit first. *)
Definition numeral (b : Z) (cs : list Z) : Z := foldl (fun v c => b * v + digit_val c) 0 cs.

(** A numeral in base [b] with no superfluous zero. *)
Definition canonical (b : Z) (cs : list Z) : Prop :=
  Forall (fun c => exists d, 0 <= d < b /\ c = digit d) cs /\ cs <> [] /\ (head cs = Some 48 -> cs = [48]).

Lemma digit_val_digit d : 0 <= d < 16 -> digit_val (digit d) = d.
Proof. unfold digit, digit_val. intros Hd. repeat case_if; lia. Qed.

Lemma numeral_snoc b cs c : numeral b (cs ++ [c]) = b * numeral b cs + digit_val c.
Proof. unfold numeral. by rewrite foldl_app. Qed.

Lemma print_digits_ok b : 2 <= b <= 16 -> forall k fuel x buf, 0 <= x < b ^ Z.of_nat k -> x < 2 ^ 32 -> (0 < k <= fuel)%nat ->
  zlen buf + Z.of_nat k <= 16 ->
  exists ds, print_digits fuel x b buf = Some (buf ++ ds) /\ numeral b (rev ds) = x /\ canonical b (rev ds).
Proof.
  intros Hb. induction k as [|k IH]; intros fuel x buf Hx Hx32 Hk Hbuf; [lia|]. destruct fuel as [|fuel]; [lia|]. cbn [print_digits].
  rewrite (div_quotient x b) by lia. rewrite (proj2 (Z.ltb_lt (zlen buf) 16)) by lia.
  pose proof (Z.mod_pos_bound x b ltac:(lia)) as Hm. pose proof (Z.div_mod x b ltac:(lia)) as Hdm.
  assert (u32 (x - x / b * b) = x mod b) as -> by (rewrite u32_small; lia).
  assert (exists d, 0 <= d < b /\ digit (x mod b) = digit d) as Hd by (by exists (x mod b)).
  assert (canonical b [digit (x mod b)]) as Hone.
  { split; [by apply Forall_singleton|]. split; [done|]. intros [= E]. by rewrite E. }
  destruct (Z.eqb_spec (x / b) 0) as [Hz|Hnz].
  - exists [digit (x mod b)]. split; [done|]. split; [|done]. unfold numeral. cbn. rewrite digit_val_digit by lia. lia.
  - assert (x / b < b ^ Z.of_nat k) as Hlt.
    { rewrite Nat2Z.inj_succ, Z.pow_succ_r in Hx by lia. apply Z.div_lt_upper_bound; lia. }
    assert (0 <= x / b) by (apply Z.div_pos; lia).
    destruct k as [|k]; [cbn in Hlt; lia|].
    destruct (IH fuel (x / b) (buf ++ [digit (x mod b)])) as (ds & E & Hv & Hc); [lia|nia|lia|rewrite zlen_app; change (zlen [_]) with 1; lia|].
    exists (digit (x mod b) :: ds). split; [by rewrite E, <-app_assoc|]. cbn [rev]. split.
    + rewrite numeral_snoc, Hv, digit_val_digit by lia. lia.
    + destruct Hc as (Hf & Hne & Hz). split; [apply Forall_app; split; [done|by apply Forall_singleton]|].
      split; [by intros [_ ?]%app_eq_nil|]. destruct (rev ds) as [|d l] eqn:Er; [done|]. cbn. intros [= ->].
      exfalso. specialize (Hz eq_refl). injection Hz as ->. unfold numeral in Hv. cbn in Hv. lia.
Qed.

(** ** Properties *)

(** C30: consoleintr and the line discipline: from a ring that holds [R] ready
    bytes and the edited line [L], the characters typed act as the line editor
    says (backspace, kill line, commit on return, on end of file and when the
    ring is full; characters beyond the ring are dropped), no byte in the ring
    is overwritten, the call returns with the lock free, and it wakes the
    readers up whenever bytes became ready. *)
Theorem consoleintr_refines s R L cs : con_rep s R L -> in_lock s = false -> Forall (fun c => 0 <= c < 256) cs ->
  wp (consoleintr cs) (fun _ s' => let '(R', L') := foldl (fun st c => edit_char c st) (R, L) cs in
    con_rep s' R' L' /\ in_lock s' = false /\ (R' = R \/ (in_wakes s < in_wakes s')%nat)) s.
Proof.
  intros Hr Hl Hcs. unfold consoleintr, lock_input. apply wp_bind. unfold wp, bind, get. rewrite Hl.
  change (set_in_lock true s) with (Ok tt (with_in_lock true s)).
  destruct (intr_loop_ok cs (with_in_lock true s) R L (rep_lock true s R L Hr) Hcs) as (s1 & E1 & H1).
  rewrite E1. change (set_in_lock false s1) with (Ok tt (with_in_lock false s1)). cbn iota.
  destruct (foldl _ (R, L) cs) as [R' L']. destruct H1 as (Hr1 & _ & _ & Hw). split; [by apply rep_lock|]. by split.
Qed.

(** C31: consoleread hands out exactly what the line editor made ready: at most
    [n] bytes, up to and with the end of the line; an end of file ends the read
    and stays for the next one when bytes came before it; the reader sleeps (or
    gives up, when killed) exactly when bytes are missing; the edited line is
    untouched and the call always returns or sleeps with the lock free. *)
Theorem consoleread_refines s R L killed target n : con_rep s R L -> in_lock s = false -> 0 <= n <= target ->
  wp (consoleread killed target n) (fun r s' => let '(bs, stop, R') := take_line killed target (Z.to_nat n) R in
    r = (bs, stop) /\ con_rep s' R' L /\ in_lock s' = false) s.
Proof.
  intros Hr Hl Hn. unfold consoleread, lock_input. apply wp_bind. unfold wp, bind, get. rewrite Hl.
  change (set_in_lock true s) with (Ok tt (with_in_lock true s)).
  pose proof (consoleread_loop_ok killed target L (Z.to_nat n) (with_in_lock true s) R (Z.to_nat n + 1) (rep_lock true s R L Hr)
    ltac:(lia) ltac:(lia)) as H. rewrite Z2Nat.id in H by lia.
  destruct (take_line killed target (Z.to_nat n) R) as [[bs stop] R']. by destruct H as (s1 & -> & Hr1 & Hl1).
Qed.

(** Printint prints the canonical numeral of its argument, with a minus
    sign exactly for negative numbers printed as signed: reading the digits
    back gives the number, and the 16-byte buffer suffices. *)
Theorem printint_roundtrip xx base sign : - 2 ^ 31 <= xx < 2 ^ 31 -> 10 <= base <= 16 ->
  exists cs, printint_chars xx base sign = Some ((if sign && (xx <? 0) then [45] else []) ++ cs) /\ canonical base cs /\
    numeral base cs = (if sign then Z.abs xx else u32 xx).
Proof.
  intros Hx Hb. unfold printint_chars.
  assert (exists x, (if sign && (xx <? 0) then u32 (- xx) else u32 xx) = x /\ x = (if sign then Z.abs xx else u32 xx) /\ 0 <= x < 2 ^ 32)
    as (x & -> & Ex & Hxr).
  { eexists. split; [done|]. destruct sign; cbn [andb]; [|split; [done|apply u32_range]].
    destruct (Z.ltb_spec xx 0); rewrite u32_small by lia; lia. }
  destruct (print_digits_ok base ltac:(lia) 10 33 x []) as (ds & E & Hv & Hc); [|lia|lia|done|].
  { split; [lia|]. assert (10 ^ 10 <= base ^ 10) by (apply Z.pow_le_mono_l; lia). change (Z.of_nat 10) with 10. lia. }
  rewrite E. cbn [mbind option_bind app]. exists (rev ds). split; [|by rewrite Hv].
  f_equal. destruct (sign && (xx <? 0)); [|done]. by rewrite rev_app_distr.
Qed.

(** ** Witnesses *)

Definition demo_con : con := consoleinit (Con false false false [] false [] 0 0 0 0 0 0 0 (fun _ => 0)).

Lemma demo_con_rep : con_rep demo_con [] [].
Proof.
  split; try done; [|intros x Hx; by apply elem_of_nil in Hx].
  intros k x Hk. apply zget_Some in Hk. unfold zlen in Hk; cbn in Hk; lia.
Qed.

(** "ab", a backspace, "c", return: the line "ac" and its newline. *)
Lemma consoleintr_refines_witness : wp (consoleintr [97; 98; 127; 99; 13])
  (fun _ s' => con_rep s' [97; 99; 10] [] /\ in_lock s' = false /\ ([97; 99; 10] = [] \/ (0 < in_wakes s')%nat)) demo_con.
Proof.
  refine (consoleintr_refines demo_con [] [] [97; 98; 127; 99; 13] demo_con_rep eq_refl _). repeat constructor; lia.
Defined.

Definition demo_ready : con := set_input ([97; 99; 10] ++ replicate 125 0) 0 3 3 demo_con.

Lemma demo_ready_rep : con_rep demo_ready [97; 99; 10] [].
Proof.
  split; try done.
  - intros k x [[-> ->]|[_ [[E ->]|[_ [[E ->]|[_ Hk]]%zget_cons]]%zget_cons]]%zget_cons.
    + reflexivity.
    + assert (k = 1) as -> by lia. reflexivity.
    + assert (k = 2) as -> by lia. reflexivity.
    + apply zget_Some in Hk. unfold zlen in Hk; cbn in Hk; lia.
  - intros x Hx. by apply elem_of_nil in Hx.
Qed.

Lemma consoleread_refines_witness : wp (consoleread false 5 5)
  (fun r s' => r = ([97; 99; 10], CReturned 3) /\ con_rep s' [] [] /\ in_lock s' = false) demo_ready.
Proof. refine (consoleread_refines demo_ready _ _ false 5 5 demo_ready_rep eq_refl _). lia. Defined.

Lemma printint_roundtrip_witness : exists cs, printint_chars (-305) 10 true = Some ([45] ++ cs) /\ canonical 10 cs /\ numeral 10 cs = 305.
Proof. refine (printint_roundtrip (-305) 10 true _ _); lia. Defined.
