(* ===== verification/FileSpec.v ===== *)
(** * Descriptors and reference counts

    The reference count of a file is the number of descriptors of all processes
    that hold it.  The lower layers (memory, file system, pipes, wakeups) do not
    touch the file table or the descriptors ([frame]); the calls that do keep
    the count exact. *)

From S2P Require Import Prelude CString Buddy Cpu Pipe BlockCache Bio BioSpec Log Fs FsInst Vm VmInst Kernel Sched SchedSpec SchedRefine File Proc Exec Syscall Sysfile.

(** ** Counting *)

Fixpoint occ (i : Z) (l : list Z) : Z :=
  match l with
  | [] => 0
  | x :: l' => (if x =? i then 1 else 0) + occ i l'
  end.

Fixpoint refs (i : Z) (l : list (list Z)) : Z :=
  match l with
  | [] => 0
  | fds :: l' => occ i fds + refs i l'
  end.

Lemma zset_cons {A} (x : A) l i y : 0 < i -> zset (x :: l) i y = x :: zset l (i - 1) y.
Proof.
  intros Hi. unfold zset. do 2 (case_if; [|lia]). by replace (Z.to_nat i) with (Datatypes.S (Z.to_nat (i - 1))) by lia.
Qed.

Lemma occ_zset i l : forall j old new, zget l j = Some old ->
  occ i (zset l j new) = occ i l - (if old =? i then 1 else 0) + (if new =? i then 1 else 0).
Proof.
  induction l as [|x l IH]; intros j old new Hj; [by apply zget_Some in Hj; unfold zlen in Hj; cbn in Hj; lia|].
  apply zget_cons in Hj as [[-> ->]|[Hj Hg]]; [change (zset (x :: l) 0 new) with (new :: l); cbn; lia|].
  rewrite zset_cons by done. cbn. rewrite (IH _ _ _ Hg). lia.
Qed.

Lemma refs_zset i l : forall j old new, zget l j = Some old -> refs i (zset l j new) = refs i l - occ i old + occ i new.
Proof.
  induction l as [|x l IH]; intros j old new Hj; [by apply zget_Some in Hj; unfold zlen in Hj; cbn in Hj; lia|].
  apply zget_cons in Hj as [[-> ->]|[Hj Hg]]; [change (zset (x :: l) 0 new) with (new :: l); cbn; lia|].
  rewrite zset_cons by done. cbn. rewrite (IH _ _ _ Hg). lia.
Qed.

Lemma map_zset {A B} (f : A -> B) l i x : f <$> zset l i x = zset (f <$> l) i (f x).
Proof. unfold zset. case_if; [|done]. apply list_fmap_insert. Qed.

Section FileSpec.
Context {S : Type} `{BufCache S}.
Implicit Types k : kern S.

Definition ofiles (k : kern S) : list (list Z) := p_ofile <$> procs k.

(** Descriptors of the current process. *)
Definition cur_fds (k : kern S) : option (list Z) := i ← zget (curs k) (me k); zget (ofiles k) i.

Definition same_files (k k' : kern S) : Prop :=
  ftable k' = ftable k /\ ofiles k' = ofiles k /\ curs k' = curs k /\ me k' = me k.

Lemma same_files_refl k : same_files k k.
Proof. done. Qed.

Lemma same_files_trans k k' k'' : same_files k k' -> same_files k' k'' -> same_files k k''.
Proof. intros (A & B & C & D) (A' & B' & C' & D'). repeat apply conj; congruence. Qed.

(** ** Operations that leave files and descriptors alone *)

Definition frame {A} (m : M (kern S) A) : Prop := forall k a k', m k = Ok a k' -> same_files k k'.

Lemma frame_ret {A} (a : A) : frame (ret a).
Proof. intros k b k' [= _ <-]. done. Qed.

Lemma frame_bind {A B} (m : M (kern S) A) (f : A -> M (kern S) B) : frame m -> (forall a, frame (f a)) -> frame (bind m f).
Proof. intros Hm Hf k b k' (a & k1 & H1 & H2)%bind_inv. eapply same_files_trans; [by eapply Hm|by eapply Hf]. Qed.

Lemma frame_get : frame get.
Proof. intros k b k' [= _ <-]. done. Qed.

Lemma frame_modify f : (forall k, same_files k (f k)) -> frame (modify f).
Proof. intros Hf k b k' [= _ <-]. apply Hf. Qed.

Lemma frame_put k0 : (forall k, same_files k k0) -> frame (put k0).
Proof. intros Hf k b k' [= _ <-]. apply Hf. Qed.

Lemma frame_panic {A} msg : frame (@panic (kern S) A msg).
Proof. done. Qed.

Lemma frame_stop {A} (o : kern S -> outcome (kern S) A) : (forall k a k', o k <> Ok a k') -> frame o.
Proof. intros Ho k a k' E. by destruct (Ho k a k'). Qed.

Lemma frame_from_opt {A} (o : option A) : frame (@from_opt (kern S) A o).
Proof. destruct o; [apply frame_ret|done]. Qed.

Lemma frame_on_vm {A} (m : M vm A) : frame (on_vm m).
Proof. unfold on_vm, zoom. intros k a k' Hk. destruct (m (k_vm k)); try done. by injection Hk as _ <-. Qed.

Lemma frame_on_fs {A} (m : M (fs S) A) : frame (on_fs m).
Proof. unfold on_fs, zoom. intros k a k' Hk. destruct (m (k_fs k)); try done. by injection Hk as _ <-. Qed.

Lemma frame_upd_proc i f : (forall p, p_ofile (f p) = p_ofile p) -> frame (upd_proc i f).
Proof.
  intros Hf k u k' Hk. unfold upd_proc, get_proc, from_opt, bind, get in Hk. destruct (zget (procs k) i) as [p|] eqn:Hp; [|done].
  injection Hk as _ <-. unfold same_files, ofiles. cbn. rewrite map_zset, Hf. repeat apply conj; try done.
  apply zset_id. unfold zget in *. case_if; [|done]. by rewrite list_lookup_fmap, Hp.
Qed.

Lemma frame_upd_procs f : (forall l, p_ofile <$> f l = p_ofile <$> l) -> frame (upd_procs f).
Proof. intros Hf. apply frame_modify. intros k. unfold same_files, ofiles. cbn. by rewrite Hf. Qed.

Lemma frame_curr_proc : frame (@curr_proc S).
Proof. unfold curr_proc. apply frame_bind; [apply frame_get|intros; apply frame_from_opt]. Qed.

Lemma frame_upd_curp f : (forall p, p_ofile (f p) = p_ofile p) -> frame (upd_curp (S := S) f).
Proof. intros Hf. unfold upd_curp. apply frame_bind; [apply frame_curr_proc|]. intros i. by apply frame_upd_proc. Qed.

End FileSpec.

(** Decomposes a goal [frame m] along the program. *)
Create HintDb frame.

#[export] Hint Resolve frame_ret frame_get frame_panic frame_from_opt frame_on_vm frame_on_fs : frame.

Ltac frame_tac :=
  repeat first
    [ match goal with |- forall _, _ => intro end
    | solve [auto with frame]
    | apply frame_upd_proc; done
    | apply frame_upd_curp; done
    | apply frame_modify; done
    | apply frame_bind
    | apply frame_stop; done
    | progress unfold when
    | match goal with
      | |- frame (if ?b then _ else _) => destruct b
      | |- frame (match ?x with _ => _ end) => destruct x
      | |- frame (let '(_, _) := ?x in _) => destruct x
      end ].

Section Frames.
Context {S : Type} `{BufCache S}.
Implicit Types k : kern S.

Lemma frame_acquire_pt : frame (@acquire_pt S).
Proof. unfold acquire_pt. frame_tac. Qed.

Lemma frame_release_pt : frame (@release_pt S).
Proof. unfold release_pt. frame_tac. Qed.

Lemma ofile_wakeup1 ch l : p_ofile <$> wakeup1 ch l = p_ofile <$> l.
Proof. unfold wakeup1. induction l as [|p l IH]; [done|]. cbn in *. rewrite IH. f_equal. by case_if. Qed.

Lemma frame_wakeup ch : frame (@wakeup S ch).
Proof.
  unfold wakeup. apply frame_bind; [apply frame_acquire_pt|]. intros _. apply frame_bind; [|intros; apply frame_release_pt].
  apply frame_upd_procs. apply ofile_wakeup1.
Qed.

Lemma frame_wakeups chs : frame (@wakeups S chs).
Proof. induction chs as [|c chs IH]; cbn [wakeups]; [apply frame_ret|]. apply frame_bind; [apply frame_wakeup|done]. Qed.

Lemma frame_get_proc i : frame (@get_proc S i).
Proof. unfold get_proc. frame_tac. Qed.

Lemma frame_get_file i : frame (@get_file S i).
Proof. unfold get_file. frame_tac. Qed.

Lemma frame_curp : frame (@curp S).
Proof. unfold curp. apply frame_bind; [apply frame_curr_proc|apply frame_get_proc]. Qed.

#[local] Hint Resolve frame_acquire_pt frame_release_pt frame_wakeup frame_wakeups frame_curr_proc frame_get_proc frame_get_file frame_curp : frame.

Lemma frame_fs_call {A} (m : M (fs S) A) : frame (fs_call m).
Proof.
  unfold fs_call. apply frame_bind; [apply frame_on_fs|]. intros a k b k' Hk. apply bind_inv in Hk as (k0 & k1 & [= <- <-] & Hk).
  apply bind_inv in Hk as (u & k2 & Hput & Hk). unfold put in Hput. injection Hput as _ <-. eapply same_files_trans; [|eapply frame_bind; [apply frame_wakeups| |exact Hk]; intros; apply frame_ret].
  done.
Qed.

Lemma frame_on_pipe {A} p (m : M pipe A) : frame (on_pipe (S := S) p m).
Proof.
  unfold on_pipe. intros k a k' Hk. destruct (k_pipes k !! p) as [x|]; [|done]. destruct (m x) as [b x'|msg|x'| | |]; try done.
  eapply same_files_trans; [|eapply frame_bind; [apply frame_wakeups| |exact Hk]; intros; apply frame_ret]. done.
Qed.

#[local] Hint Resolve frame_fs_call frame_on_pipe : frame.

Lemma frame_get_order v : frame (get_order (S := kern S) v).
Proof.
  unfold get_order. cbv zeta. match goal with |- frame (if ?b then _ else _) => destruct b; [apply frame_ret|] end.
  match goal with |- frame (if ?b then _ else _) => destruct b; [apply frame_panic|apply frame_ret] end.
Qed.

#[local] Hint Resolve frame_get_order : frame.

Lemma frame_pipeclose p w : frame (pipeclose_ (S := S) p w).
Proof. unfold pipeclose_. frame_tac. Qed.

Lemma frame_argword n : frame (@argword S n).
Proof. unfold argword. frame_tac. Qed.

#[local] Hint Resolve frame_argword frame_pipeclose : frame.

Lemma frame_argint n : frame (@argint S n).
Proof. unfold argint. frame_tac. Qed.

Lemma frame_argptr n size : frame (@argptr S n size).
Proof. unfold argptr. frame_tac. Qed.

Lemma frame_ld_byte a : frame (@ld_byte S a).
Proof. unfold ld_byte. frame_tac. Qed.

#[local] Hint Resolve frame_argint frame_argptr frame_ld_byte : frame.

Lemma frame_fetchstr a : frame (@fetchstr S a).
Proof.
  unfold fetchstr. apply frame_bind; [apply frame_curp|]. intros p. destruct (p_sz p <=? a); [apply frame_ret|].
  generalize (Z.to_nat (p_sz p - a)). generalize (p_sz p). intros ep n. revert a. induction n as [|n IH]; intros a; cbn [fetchstr_loop]; [apply frame_ret|].
  frame_tac; apply IH.
Qed.

#[local] Hint Resolve frame_fetchstr : frame.

Lemma frame_argstr n : frame (@argstr S n).
Proof. unfold argstr. frame_tac. Qed.

Lemma frame_st_bytes bs : forall a, frame (@st_bytes S a bs).
Proof.
  induction bs as [|b bs IH]; intros a; cbn [st_bytes]; [apply frame_ret|]. apply frame_bind; [|intros; apply IH].
  unfold st_byte. intros k u k' Hk. apply bind_inv in Hk as (k0 & k1 & [= <- <-] & Hk). apply bind_inv in Hk as (x & k2 & Hx & Hk).
  eapply same_files_trans; [by eapply frame_from_opt|]. assert (k2 = k) as -> by (destruct (kaddr _ _ _); [by injection Hx|done]).
  unfold put in Hk. by injection Hk as _ <-.
Qed.

Lemma frame_sched : frame (@sched S).
Proof. unfold sched. frame_tac. Qed.

Lemma frame_set_tf p off v : frame (@set_tf S p off v).
Proof. unfold set_tf. frame_tac. Qed.

End Frames.

#[export] Hint Resolve frame_acquire_pt frame_release_pt frame_wakeup frame_wakeups frame_curr_proc frame_get_proc frame_get_file
  frame_curp frame_fs_call frame_on_pipe frame_get_order frame_pipeclose frame_argword frame_argint frame_argptr frame_ld_byte frame_fetchstr
  frame_argstr frame_st_bytes frame_sched frame_set_tf : frame.

(** ** Reference counts *)

Section Counts.
Context {S : Type} `{BufCache S}.
Implicit Types k : kern S.

(** Each file's count is the number of its descriptors, up to a correction
    for the references an operation holds itself. *)
Definition fd_at (d : Z -> Z) (k : kern S) : Prop := forall i f,
  zget (ftable k) i = Some f -> f_ref f = refs i (ofiles k) + d i.

Definition fd_inv (k : kern S) : Prop := fd_at (fun _ => 0) k.

Definition plus (d : Z -> Z) (i n : Z) : Z -> Z := fun j => d j + if i =? j then n else 0.

(** [okw m Q k]: if [m] returns, [Q] holds of where it does. *)
Definition okw {A} (m : M (kern S) A) (Q : A -> kern S -> Prop) (k : kern S) : Prop :=
  match m k with Ok a k' => Q a k' | _ => True end.

Lemma okw_bind {A B} (m : M (kern S) A) (f : A -> M (kern S) B) Q k :
  okw m (fun a k1 => okw (f a) Q k1) k -> okw (bind m f) Q k.
Proof. unfold okw, bind. by destruct (m k). Qed.

Lemma okw_ret {A} (a : A) (Q : A -> kern S -> Prop) k : Q a k -> okw (ret a) Q k.
Proof. done. Qed.

Lemma okw_mono {A} (m : M (kern S) A) (P Q : A -> kern S -> Prop) k :
  okw m P k -> (forall a k', P a k' -> Q a k') -> okw m Q k.
Proof. unfold okw. destruct (m k); auto. Qed.

Lemma okw_frame {A} (m : M (kern S) A) (Q : A -> kern S -> Prop) k : frame m ->
  (forall a k', same_files k k' -> Q a k') -> okw m Q k.
Proof. intros Hf HQ. unfold okw. destruct (m k) eqn:E; try done. eapply HQ, Hf, E. Qed.

Lemma fd_at_frame d k k' : fd_at d k -> same_files k k' -> fd_at d k'.
Proof. intros Hd (Hf & Ho & _) i f. rewrite Hf, Ho. apply Hd. Qed.

Lemma fd_at_ext d d' k : fd_at d k -> (forall i, 0 <= i -> d i = d' i) -> fd_at d' k.
Proof. intros Hd E i f Hi. rewrite <-E by (by eapply zget_Some). by apply Hd. Qed.

(** A new count for file [i]. *)
Lemma fd_at_put d k i f f' n : fd_at d k -> zget (ftable k) i = Some f -> f_ref f' = f_ref f + n ->
  fd_at (plus d i n) (set_ftable (zset (ftable k) i f') k).
Proof.
  intros Hd Hf E j g [[-> ->]|[Hj Hg]]%zset_inv; unfold plus; unfold ofiles; cbn [procs set_ftable]; fold (ofiles k).
  - rewrite Z.eqb_refl, E, (Hd i f Hf). lia.
  - rewrite (proj2 (Z.eqb_neq i j)) by done. rewrite (Hd j g Hg). lia.
Qed.

(** A new descriptor table for process [c], with one slot changed. *)
Lemma fd_at_ofile d k c fd p old new : fd_at d k -> zget (procs k) c = Some p -> zget (p_ofile p) fd = Some old ->
  fd_at (plus (plus d old 1) new (-1)) (set_procs (zset (procs k) c (with_ofile (zset (p_ofile p) fd new) p)) k).
Proof.
  intros Hd Hp Ho i f Hf. rewrite (Hd i f Hf). unfold ofiles. cbn. rewrite map_zset. cbn [p_ofile with_ofile].
  assert (zget (p_ofile <$> procs k) c = Some (p_ofile p)) as Hc by (unfold zget in *; case_if; [by rewrite list_lookup_fmap, Hp|done]).
  rewrite (refs_zset i _ _ _ _ Hc), (occ_zset i _ _ _ new Ho). unfold plus. destruct (old =? i), (new =? i); lia.
Qed.

Lemma okw_lock_ftable (Q : unit -> kern S -> Prop) k : Q tt (set_ft_lock true k) -> okw lock_ftable Q k.
Proof. intros HQ. unfold okw, lock_ftable, bind, get. by destruct (ft_lock k). Qed.

Lemma okw_get_file i (Q : file -> kern S -> Prop) k : (forall f, zget (ftable k) i = Some f -> Q f k) -> okw (get_file i) Q k.
Proof. intros HQ. unfold okw, get_file, from_opt, bind, get. destruct (zget (ftable k) i); [by apply HQ|done]. Qed.

Lemma free_file_get l : forall i j, free_file l i = Some j -> i <= j /\ exists f, zget l (j - i) = Some f /\ f_ref f = 0.
Proof.
  induction l as [|f l IH]; intros i j Hj; [done|]. cbn in Hj. destruct (Z.eqb_spec (f_ref f) 0) as [E|].
  - injection Hj as <-. split; [lia|]. exists f. by rewrite Z.sub_diag.
  - destruct (IH _ _ Hj) as (Hij & g & Hg & E). split; [lia|]. exists g.
    rewrite zget_succ by lia. by replace (j - i - 1) with (j - (i + 1)) by lia.
Qed.

(** filealloc, filedup and fileclose count. *)
Lemma okw_filealloc d (Q : Z -> kern S -> Prop) k : fd_at d k ->
  (forall k', fd_at d k' -> ofiles k' = ofiles k -> curs k' = curs k -> me k' = me k -> Q NULL k') ->
  (forall i k', 0 <= i -> fd_at (plus d i 1) k' -> ofiles k' = ofiles k -> curs k' = curs k -> me k' = me k -> Q i k') ->
  okw filealloc Q k.
Proof.
  intros Hd HN HQ. unfold filealloc. apply okw_bind, okw_lock_ftable, okw_bind. unfold okw at 1, get. cbn [ftable set_ft_lock].
  destruct (free_file (ftable k) 0) as [i|] eqn:Hf; [|by apply HN].
  apply free_file_get in Hf as (Hi & f & Hf & E). rewrite Z.sub_0_r in Hf.
  apply okw_bind, okw_get_file. cbn. intros f' Hf'. rewrite Hf in Hf'. injection Hf' as <-.
  apply HQ; [done| |done..]. apply (fd_at_put d (set_ft_lock true k) i f (with_ref 1 f) 1); [done|done|]. cbn. lia.
Qed.

Lemma okw_filedup d i (Q : Z -> kern S -> Prop) k : fd_at d k ->
  (forall k', fd_at (plus d i 1) k' -> procs k' = procs k -> curs k' = curs k -> me k' = me k -> Q i k') -> okw (filedup i) Q k.
Proof.
  intros Hd HQ. unfold filedup. apply okw_bind, okw_lock_ftable, okw_bind, okw_get_file. cbn. intros f Hf.
  destruct (f_ref f <? 1); [done|]. apply HQ; [|done..].
  by apply (fd_at_put d (set_ft_lock true k) i f (with_ref (f_ref f + 1) f) 1).
Qed.

Lemma okw_fileclose d i (Q : unit -> kern S -> Prop) k : fd_at d k ->
  (forall k', fd_at (plus d i (-1)) k' -> ofiles k' = ofiles k -> curs k' = curs k -> me k' = me k -> Q tt k') -> okw (fileclose i) Q k.
Proof.
  intros Hd HQ. unfold fileclose. apply okw_bind, okw_lock_ftable, okw_bind, okw_get_file. cbn. intros f Hf.
  destruct (Z.ltb_spec (f_ref f) 1) as [|Hr]; [done|]. apply okw_bind. unfold okw at 1, put_file, modify. cbn.
  destruct (Z.ltb_spec 0 (f_ref f - 1)) as [Hlast|Hlast].
  - apply HQ; [|done..]. by apply (fd_at_put d (set_ft_lock true k) i f (with_ref (f_ref f - 1) f) (-1)).
  - apply okw_bind. unfold okw at 1. cbn. apply okw_bind. unfold okw at 1, unlock_ftable, modify. rewrite zset_zset.
    set (k1 := set_ft_lock false _).
    assert (fd_at (plus d i (-1)) k1) as H1.
    { apply (fd_at_put d (set_ft_lock true k) i f (File FD_NONE 0 (f_readable f) (f_writable f) (f_pipe f) (f_ip f) (f_off f)) (-1));
        [done|done|cbn; lia]. }
    assert (forall m, frame m -> okw m Q k1) as Hfr.
    { intros m Hm. apply okw_frame; [done|]. intros [] k2 Hs. apply HQ; [by eapply fd_at_frame| | |];
        destruct Hs as (_ & E1 & E2 & E3); first [by rewrite E1|by rewrite E2|by rewrite E3]. }
    destruct (f_type f); apply Hfr; frame_tac.
Qed.

(** ** Descriptor operations *)

Lemma okw_curp (Q : proc -> kern S -> Prop) k :
  (forall c p, zget (curs k) (me k) = Some c -> zget (procs k) c = Some p -> Q p k) -> okw curp Q k.
Proof.
  intros HQ. unfold okw, curp, curr_proc, get_proc, from_opt, bind, get. destruct (zget (curs k) (me k)) as [c|]; [|done].
  cbn. destruct (zget (procs k) c) as [p|] eqn:Hp; [by eapply HQ|done].
Qed.

Lemma okw_upd_proc i f (Q : unit -> kern S -> Prop) k :
  (forall p, zget (procs k) i = Some p -> Q tt (set_procs (zset (procs k) i (f p)) k)) -> okw (upd_proc i f) Q k.
Proof. intros HQ. unfold okw, upd_proc, get_proc, from_opt, bind, get. destruct (zget (procs k) i); [by apply HQ|done]. Qed.

Lemma okw_upd_curp f (Q : unit -> kern S -> Prop) k :
  (forall c p, zget (curs k) (me k) = Some c -> zget (procs k) c = Some p -> Q tt (set_procs (zset (procs k) c (f p)) k)) ->
  okw (upd_curp f) Q k.
Proof.
  intros HQ. unfold upd_curp. apply okw_bind. unfold okw at 1, curr_proc, from_opt, bind, get.
  destruct (zget (curs k) (me k)) as [c|] eqn:Hc; [|done]. apply okw_upd_proc. intros p Hp. by eapply HQ.
Qed.

Lemma okw_argfd n (Q : option (Z * Z) -> kern S -> Prop) k :
  (forall k', same_files k k' -> Q None k') ->
  (forall k' c p fd f, same_files k k' -> zget (curs k') (me k') = Some c -> zget (procs k') c = Some p ->
     zget (p_ofile p) fd = Some f -> f <> NULL -> Q (Some (fd, f)) k') -> okw (argfd n) Q k.
Proof.
  intros HN HQ. unfold argfd. apply okw_bind, okw_frame; [auto with frame|]. intros fd k1 H1.
  apply okw_bind, okw_curp. intros c p Hc Hp. destruct ((fd <? 0) || (NOFILE <=? fd)); [by apply HN|].
  apply okw_bind. unfold from_opt. destruct (zget (p_ofile p) fd) as [f|] eqn:Hf; [|done]. apply okw_ret, okw_ret.
  destruct (Z.eqb_spec f NULL); [by apply HN|by eapply HQ].
Qed.

Lemma ofile_of k c p : zget (procs k) c = Some p -> zget (ofiles k) c = Some (p_ofile p).
Proof. unfold ofiles, zget. case_if; [|done]. intros Hp. by rewrite list_lookup_fmap, Hp. Qed.

Lemma ofile_inv k c fds : zget (ofiles k) c = Some fds -> exists p, zget (procs k) c = Some p /\ p_ofile p = fds.
Proof. unfold ofiles, zget. case_if; [|done]. intros (p & -> & Hp)%list_lookup_fmap_Some. by exists p. Qed.

Lemma free_fd_get l : forall i j, free_fd l i = Some j -> i <= j /\ zget l (j - i) = Some NULL.
Proof.
  induction l as [|f l IH]; intros i j Hj; [done|]. cbn in Hj. destruct (Z.eqb_spec f NULL) as [->|].
  - injection Hj as <-. split; [lia|]. by rewrite Z.sub_diag.
  - destruct (IH _ _ Hj) as (Hij & Hg). split; [lia|]. rewrite zget_succ by lia. by replace (j - i - 1) with (j - (i + 1)) by lia.
Qed.

Lemma okw_fdalloc d f (Q : Z -> kern S -> Prop) k : fd_at d k -> Q (-1) k ->
  (forall fd k' c p, 0 <= fd -> fd_at (plus (plus d NULL 1) f (-1)) k' ->
     zget (curs k') (me k') = Some c -> zget (procs k') c = Some p -> zget (p_ofile p) fd = Some f -> Q fd k') ->
  okw (fdalloc f) Q k.
Proof.
  intros Hd HN HQ. unfold fdalloc. apply okw_bind, okw_curp. intros c p Hc Hp.
  destruct (free_fd (p_ofile p) 0) as [fd|] eqn:Hf; [|done].
  apply free_fd_get in Hf as [Hfd Hf]. rewrite Z.sub_0_r in Hf. apply okw_bind, okw_upd_curp. intros c' p' Hc' Hp'.
  assert (c' = c /\ p' = p) as [-> ->] by (split; congruence).
  apply okw_ret, (HQ fd _ c (with_ofile (zset (p_ofile p) fd f) p)); [done| |done|cbn; by eapply zget_zset_both|cbn; by eapply zget_zset_both].
  by apply (fd_at_ofile d k c fd p NULL f).
Qed.

Lemma okw_sys_dup k : fd_inv k -> okw sys_dup (fun _ k' => fd_inv k') k.
Proof.
  intros Hi. unfold sys_dup. apply okw_bind, okw_argfd; [intros k1 H1; by eapply fd_at_frame|].
  intros k1 c p fd f H1 _ _ _ Hf. pose proof (fd_at_frame _ _ _ Hi H1) as Hi1.
  apply okw_bind. eapply okw_fdalloc; [exact Hi1|done|]. intros fd' k2 c2 p2 Hfd H2 _ _ _.
  rewrite (proj2 (Z.ltb_ge fd' 0)) by done. apply okw_bind. eapply okw_filedup; [exact H2|]. intros k3 H3 _ _ _. apply okw_ret.
  eapply fd_at_ext; [exact H3|]. intros i Hge. unfold plus, NULL. rewrite (proj2 (Z.eqb_neq (-1) i)) by lia.
  destruct (f =? i); lia.
Qed.

Lemma okw_sys_close k : fd_inv k -> okw sys_close (fun _ k' => fd_inv k') k.
Proof.
  intros Hi. unfold sys_close. apply okw_bind, okw_argfd; [intros k1 H1; by eapply fd_at_frame|].
  intros k1 c p fd f H1 Hc Hp Hfd Hf. pose proof (fd_at_frame _ _ _ Hi H1) as Hi1.
  apply okw_bind. unfold set_fd. apply okw_upd_curp. intros c' p' Hc' Hp'.
  assert (c' = c /\ p' = p) as [-> ->] by (split; congruence).
  pose proof (fd_at_ofile _ k1 c fd p f NULL Hi1 Hp Hfd) as H2. apply okw_bind. eapply okw_fileclose; [exact H2|].
  intros k3 H3 _ _ _. apply okw_ret. eapply fd_at_ext; [exact H3|]. intros i Hge. unfold plus, NULL.
  rewrite (proj2 (Z.eqb_neq (-1) i)) by lia. destruct (f =? i); lia.
Qed.

Variable devsw_read : Z -> option (Z -> Z -> M (fs S) (list Z * Z)).
Variable devsw_write : Z -> option (Z -> list Z -> Z -> M (fs S) Z).
Variable trapret forkret_addr : Z.

Lemma okw_sys_open k : fd_inv k -> okw (sys_open devsw_read devsw_write) (fun _ k' => fd_inv k') k.
Proof.
  intros Hi. unfold sys_open. apply okw_bind, okw_frame; [auto with frame|]. intros [path|] k1 H1; [|by eapply fd_at_frame].
  apply okw_bind, okw_frame; [auto with frame|]. intros omode k2 H2.
  apply okw_bind, okw_frame; [unfold cwd; frame_tac|]. intros dir k3 H3.
  apply okw_bind, okw_frame; [auto with frame|]. intros r k4 H4.
  assert (fd_inv k4) as Hi4 by (eapply fd_at_frame; [exact Hi|]; repeat (eapply same_files_trans; [eassumption|]); done).
  destruct r as [ip|]; [|done]. apply okw_bind. eapply okw_filealloc; [exact Hi4| |].
  - intros k5 H5 _ _ _. apply okw_bind, okw_ret. cbn [Z.eqb Z.ltb]. apply okw_frame; [frame_tac|].
    intros r k6 H6. by eapply fd_at_frame.
  - intros i k5 Hge H5 _ _ _. rewrite (proj2 (Z.eqb_neq i NULL)) by (unfold NULL; lia).
    apply okw_bind. eapply okw_fdalloc; [exact H5| |].
    + cbn [Z.ltb]. apply okw_bind. cbn [negb when]. eapply okw_fileclose; [exact H5|].
      intros k6 H6 _ _ _. assert (fd_inv k6) as Hi6.
      { eapply fd_at_ext; [exact H6|]. intros j _. unfold plus. destruct (i =? j); lia. }
      apply okw_frame; [frame_tac|]. intros r k7 H7. by eapply fd_at_frame.
    + intros fd k6 c6 p6 Hfd H6 _ _ _. rewrite (proj2 (Z.ltb_ge fd 0)) by done. apply okw_bind, okw_frame; [auto with frame|].
      intros u k7 H7. apply okw_bind, okw_get_file. intros f Hf. apply okw_bind, okw_ret, okw_ret.
      pose proof (fd_at_frame _ _ _ H6 H7) as H8. pose proof (fd_at_put _ k7 i f (open_file ip omode f) 0 H8 Hf) as H9.
      eapply fd_at_ext; [apply H9; cbn; lia|]. intros j Hj. unfold plus, NULL. rewrite (proj2 (Z.eqb_neq (-1) j)) by lia.
      destruct (i =? j); lia.
Qed.

Lemma plus_cancel d i k : fd_at (plus (plus d i 1) i (-1)) k -> fd_at d k.
Proof. intros Hd. eapply fd_at_ext; [exact Hd|]. intros j _. unfold plus. destruct (i =? j); lia. Qed.

(** Closing what an operation holds. *)
Lemma okw_close_held d i k (Q : unit -> kern S -> Prop) : fd_at (plus d i 1) k -> (forall k', fd_at d k' -> Q tt k') -> okw (fileclose i) Q k.
Proof. intros Hd HQ. eapply okw_fileclose; [exact Hd|]. intros k' Hk' _ _ _. apply HQ. by eapply plus_cancel. Qed.

Lemma okw_pipealloc d (Q : option (Z * Z) -> kern S -> Prop) k : fd_at d k ->
  (forall k', fd_at d k' -> Q None k') ->
  (forall i j k', 0 <= i -> 0 <= j -> fd_at (plus (plus d i 1) j 1) k' -> Q (Some (i, j)) k') -> okw pipealloc Q k.
Proof.
  intros Hd HN HQ. unfold pipealloc, pipealloc_bad. apply okw_bind. eapply okw_filealloc; [exact Hd| |].
  { intros k1 H1 _ _ _. by apply HN. }
  intros i k1 Hi H1 _ _ _. rewrite (proj2 (Z.eqb_neq i NULL)) by (unfold NULL; lia).
  apply okw_bind. eapply okw_filealloc; [exact H1| |].
  { intros k2 H2 _ _ _. cbn [Z.eqb NULL]. apply okw_bind. cbn [negb when]. eapply okw_close_held; [exact H2|]. intros k3 H3.
    apply okw_bind, okw_ret, okw_ret. by apply HN. }
  intros j k2 Hj H2 _ _ _. rewrite (proj2 (Z.eqb_neq j NULL)) by (unfold NULL; lia). cbn [negb when].
  apply okw_bind, okw_frame; [apply frame_get_order|]. intros ord k3 H3.
  apply okw_bind, okw_frame; [auto with frame|]. intros p k4 H4.
  assert (fd_at (plus (plus d i 1) j 1) k4) as Hd4 by (eapply fd_at_frame; [|exact H4]; by eapply fd_at_frame).
  destruct (p =? 0).
  - apply okw_bind. eapply (okw_close_held (plus d j 1) i).
    { eapply fd_at_ext; [exact Hd4|]. intros x _. unfold plus. destruct (i =? x), (j =? x); lia. }
    intros k5 H5. apply okw_bind. eapply okw_close_held; [exact H5|]. intros k6 H6. by apply okw_ret, HN.
  - apply okw_bind. unfold okw at 1, get. apply okw_bind. unfold okw at 1, modify.
    match goal with |- context [set_k_pipes ?x k4] => set (k5 := set_k_pipes x k4) end.
    change (fd_at (plus (plus d i 1) j 1) k5) in Hd4.
    apply okw_bind, okw_get_file. intros f Hf. apply okw_bind. unfold okw at 1, put_file, modify.
    pose proof (fd_at_put _ k5 i f (as_pipe p true false f) 0 Hd4 Hf ltac:(cbn; lia)) as H5. set (k6 := set_ftable _ k5) in *.
    apply okw_bind, okw_get_file. intros g Hg. apply okw_bind. unfold okw at 1, put_file, modify.
    pose proof (fd_at_put _ k6 j g (as_pipe p false true g) 0 H5 Hg ltac:(cbn; lia)) as H6.
    apply okw_ret, HQ; [done|done|]. eapply fd_at_ext; [exact H6|].
    intros x _. unfold plus. destruct (i =? x), (j =? x); lia.
Qed.

Lemma okw_sys_pipe k : fd_inv k -> okw sys_pipe (fun _ k' => fd_inv k') k.
Proof.
  intros Hi. unfold sys_pipe. apply okw_bind, okw_frame; [auto with frame|]. intros [addr|] k1 H1; [|by eapply fd_at_frame].
  pose proof (fd_at_frame _ _ _ Hi H1) as Hi1. apply okw_bind. eapply okw_pipealloc; [exact Hi1|done|].
  intros rf wf k2 Hrf Hwf H2. apply okw_bind. eapply okw_fdalloc; [exact H2| |].
  - cbn [Z.ltb]. apply okw_bind, okw_ret. cbn [orb Z.ltb]. apply okw_bind. cbn [Z.leb when]. apply okw_ret.
    apply okw_bind. eapply (okw_close_held (plus (fun _ => 0) wf 1) rf).
    { eapply fd_at_ext; [exact H2|]. intros x _. unfold plus. destruct (rf =? x), (wf =? x); lia. }
    intros k3 H3. apply okw_bind. eapply okw_close_held; [exact H3|]. intros k4 H4. by apply okw_ret.
  - intros fd0 k3 c3 p3 Hfd0 H3 Hc3 Hp3 Hsl. rewrite (proj2 (Z.ltb_ge fd0 0)) by done. apply okw_bind. eapply okw_fdalloc; [exact H3| |].
    + cbn [orb Z.ltb]. rewrite (proj2 (Z.leb_le 0 fd0)) by done. cbn [when]. apply okw_bind. unfold set_fd. apply okw_upd_curp.
      intros c p Hc Hp. assert (c = c3 /\ p = p3) as [-> ->] by (split; congruence).
      pose proof (fd_at_ofile _ k3 c3 fd0 p3 rf NULL H3 Hp3 Hsl) as H4.
      apply okw_bind. eapply (okw_close_held (plus (fun _ => 0) wf 1) rf).
      { eapply fd_at_ext; [exact H4|]. intros x Hx. unfold plus, NULL. rewrite (proj2 (Z.eqb_neq (-1) x)) by lia.
        destruct (rf =? x), (wf =? x); lia. }
      intros k5 H5. apply okw_bind. eapply okw_close_held; [exact H5|]. intros k6 H6. by apply okw_ret.
    + intros fd1 k4 c4 p4 Hfd1 H4 _ _ _. rewrite (proj2 (Z.ltb_ge fd1 0)) by done. cbn [orb].
      apply okw_frame; [unfold st_word; frame_tac|]. intros r k5 H5. eapply fd_at_frame; [|exact H5].
      eapply fd_at_ext; [exact H4|]. intros x Hx. unfold plus, NULL. rewrite (proj2 (Z.eqb_neq (-1) x)) by lia.
      destruct (rf =? x), (wf =? x); lia.
Qed.

(** ** fork and exit *)

Lemma okw_for (body : Z -> M (kern S) unit) (I : Z -> kern S -> Prop) n : forall i k (Q : unit -> kern S -> Prop),
  I i k -> (forall j k', i <= j < i + Z.of_nat n -> I j k' -> okw (body j) (fun _ k'' => I (j + 1) k'') k') ->
  (forall k', I (i + Z.of_nat n) k' -> Q tt k') -> okw (for_ i n body) Q k.
Proof.
  induction n as [|n IH]; intros i k Q Hi Hb HQ; cbn [for_].
  - apply okw_ret, HQ. by rewrite Z.add_0_r.
  - apply okw_bind. eapply okw_mono; [apply Hb; [lia|done]|]. intros [] k1 H1. apply IH; [done| |].
    + intros j k' Hj. apply Hb. lia.
    + intros k' H'. apply HQ. by replace (i + Z.of_nat (Datatypes.S n)) with (i + 1 + Z.of_nat n) by lia.
Qed.

(** The slots from [fd] on of process [np] are free. *)
Definition free_from (np fd : Z) (k : kern S) : Prop := exists fds,
  zget (ofiles k) np = Some fds /\ zlen fds = NOFILE /\ forall j, fd <= j < NOFILE -> zget fds j = Some NULL.

Lemma free_from_frame np fd k k' : free_from np fd k -> same_files k k' -> free_from np fd k'.
Proof. intros (fds & Hf & Hrest) (_ & E & _). exists fds. by rewrite E. Qed.

Lemma okw_fork_file np fd k : 0 <= fd < NOFILE -> fd_inv k -> free_from np fd k ->
  okw (fork_file np fd) (fun _ k' => fd_inv k' /\ free_from np (fd + 1) k') k.
Proof.
  intros Hfd Hi (fds & Hnp & Hlen & Hfree). unfold fork_file. apply okw_bind, okw_curp. intros c p Hc Hp.
  assert (free_from np (fd + 1) k) as Hnext.
  { exists fds. split; [done|]. split; [done|]. intros j Hj. apply Hfree. lia. }
  apply okw_bind. unfold from_opt. destruct (zget (p_ofile p) fd) as [f|] eqn:Hf; [|done]. apply okw_ret.
  destruct (Z.eqb_spec f NULL); cbn [negb when]; [by apply okw_ret|].
  apply okw_bind. eapply okw_filedup; [exact Hi|]. intros k1 H1 Ep Ec Em. apply okw_upd_proc. intros q Hq.
  assert (p_ofile q = fds) as Eq by (rewrite Ep in Hq; pose proof (ofile_of k np q Hq); congruence).
  assert (zget (p_ofile q) fd = Some NULL) as Hnull by (rewrite Eq; apply Hfree; lia).
  pose proof (fd_at_ofile _ k1 np fd q NULL f H1 Hq Hnull) as H2. split.
  - eapply fd_at_ext; [exact H2|]. intros x Hx. unfold plus, NULL. rewrite (proj2 (Z.eqb_neq (-1) x)) by lia. destruct (f =? x); lia.
  - exists (zset fds fd f). split; [|split; [by rewrite zlen_zset|]].
    + rewrite <-Eq. apply (ofile_of _ np (with_ofile (zset (p_ofile q) fd f) q)). cbn. by eapply zget_zset_both.
    + intros j Hj. rewrite zget_zset_ne by lia. apply Hfree. lia.
Qed.

(** A free entry of the process table holds no descriptors. *)
Definition clean (k : kern S) : Prop := forall i p, zget (procs k) i = Some p -> p_state p = UNUSED ->
  p_ofile p = replicate (Z.to_nat NOFILE) NULL.

Lemma clean_free i fd k p : zget (procs k) i = Some p -> p_ofile p = replicate (Z.to_nat NOFILE) NULL -> 0 <= fd -> free_from i fd k.
Proof.
  intros Hp E Hfd. exists (replicate (Z.to_nat NOFILE) NULL). split; [rewrite <-E; by apply ofile_of|]. split; [done|].
  intros j Hj. unfold NOFILE in *. rewrite zget_nat by lia. apply lookup_replicate. lia.
Qed.

(** A step that leaves files alone, from a state like [k]. *)
Lemma okw_skip {A B} (m : M (kern S) A) (f : A -> M (kern S) B) Q k k0 : frame m -> same_files k k0 ->
  (forall a k1, same_files k k1 -> okw (f a) Q k1) -> okw (bind m f) Q k0.
Proof.
  intros Hm H0 Hf. apply okw_bind, okw_frame; [done|]. intros a k1 H1. apply Hf. by eapply same_files_trans.
Qed.

Lemma okw_allocproc k (Q : Z -> kern S -> Prop) : clean k -> (forall k', same_files k k' -> Q NULL k') ->
  (forall i k', same_files k k' -> i <> NULL -> free_from i 0 k' -> Q i k') -> okw (allocproc trapret forkret_addr) Q k.
Proof.
  intros Hcl HN HQ. unfold allocproc. apply okw_bind. unfold okw at 1.
  destruct (acquire_pt k) as [u k1|msg|k1| | |] eqn:Ha; try done.
  pose proof (frame_acquire_pt k u k1 Ha) as H1. apply acquire_pt_inv in Ha as (_ & Hv & Hme).
  assert (procs k1 = procs k) as Ep by (injection Hv; done). apply okw_bind. unfold okw at 1, get.
  destruct (find_proc _ (procs k1) 0) as [i|] eqn:Hf.
  2: { eapply okw_skip; [auto with frame|exact H1|]. intros _ k2 H2. by apply okw_ret, HN. }
  apply find_proc_get in Hf as (Hi & p & Hp & Hu%bool_decide_eq_true). rewrite Z.sub_0_r, Ep in Hp.
  pose proof (clean_free i 0 k p Hp (Hcl i p Hp Hu) ltac:(lia)) as Hfree.
  assert (i <> NULL) as Hn by (unfold NULL; lia).
  eapply okw_skip; [apply frame_upd_proc; done|exact H1|]. intros _ k2 H2.
  eapply okw_skip; [apply frame_modify; done|exact H2|]. intros _ k3 H3.
  eapply okw_skip; [auto with frame|exact H3|]. intros _ k4 H4.
  eapply okw_skip; [auto with frame|exact H4|]. intros kstack k5 H5.
  eapply okw_skip; [apply frame_upd_proc; done|exact H5|]. intros _ k6 H6. destruct (kstack =? 0).
  - eapply okw_skip; [apply frame_upd_proc; done|exact H6|]. intros _ k7 H7. by apply okw_ret, HN.
  - eapply okw_skip; [apply frame_upd_proc; done|exact H6|]. intros _ k7 H7.
    eapply okw_skip; [auto with frame|exact H7|]. intros _ k8 H8.
    eapply okw_skip; [auto with frame|exact H8|]. intros _ k9 H9.
    eapply okw_skip; [apply frame_upd_proc; done|exact H9|]. intros _ k10 H10.
    eapply okw_skip; [auto with frame|exact H10|]. intros _ k11 H11.
    eapply okw_skip; [auto with frame|exact H11|]. intros _ k12 H12.
    apply okw_ret, HQ; [done|done|]. by eapply free_from_frame.
Qed.

Lemma okw_fork k : fd_inv k -> clean k -> okw (fork trapret forkret_addr) (fun _ k' => fd_inv k') k.
Proof.
  intros Hi Hcl. unfold fork. apply okw_bind, okw_allocproc; [done| |].
  { intros k1 H1. cbn [Z.eqb NULL]. apply okw_ret. by eapply fd_at_frame. }
  intros np k1 H1 Hn Hfree. rewrite (proj2 (Z.eqb_neq np NULL)) by done.
  pose proof (fd_at_frame _ _ _ Hi H1) as Hi1. pose proof (same_files_refl k1) as R1.
  eapply okw_skip; [auto with frame|exact R1|]. intros cur k2 H2.
  eapply okw_skip; [auto with frame|exact H2|]. intros pgdir k3 H3.
  eapply okw_skip; [apply frame_upd_proc; done|exact H3|]. intros _ k4 H4. destruct (pgdir =? 0).
  { apply okw_frame; [frame_tac|]. intros r k5 H5. eapply fd_at_frame; [|exact H5]. by eapply fd_at_frame. }
  eapply okw_skip; [apply frame_upd_proc; done|exact H4|]. intros _ k5 H5.
  eapply okw_skip; [auto with frame|exact H5|]. intros i k6 H6.
  eapply okw_skip; [apply frame_upd_proc; done|exact H6|]. intros _ k7 H7.
  eapply okw_skip; [auto with frame|exact H7|]. intros p k8 H8.
  eapply okw_skip; [auto with frame|exact H8|]. intros _ k9 H9.
  eapply okw_skip; [auto with frame|exact H9|]. intros _ k10 H10.
  apply okw_bind. apply (okw_for _ (fun fd k' => fd_inv k' /\ free_from np fd k')).
  - split; [by eapply fd_at_frame|by eapply free_from_frame].
  - intros fd k' Hfd [Hi' Hf']. apply okw_fork_file; [|done|done]. unfold NOFILE in *. lia.
  - intros k11 [Hi11 _]. apply okw_frame; [frame_tac|]. intros r k12 H12. by eapply fd_at_frame.
Qed.

(** The slots below [fd] of the current process are closed. *)
Definition closed_below (fd : Z) (k : kern S) : Prop := exists fds,
  cur_fds k = Some fds /\ zlen fds = NOFILE /\ forall j, 0 <= j < fd -> zget fds j = Some NULL.

Lemma okw_exit_file fd k : 0 <= fd < NOFILE -> fd_inv k -> closed_below fd k ->
  okw (exit_file fd) (fun _ k' => fd_inv k' /\ closed_below (fd + 1) k') k.
Proof.
  intros Hfd Hi (fds & Hcur & Hlen & Hcl). unfold exit_file. apply okw_bind, okw_curp. intros c p Hc Hp.
  assert (p_ofile p = fds) as Ep.
  { unfold cur_fds in Hcur. rewrite Hc in Hcur. cbn in Hcur. rewrite (ofile_of _ _ _ Hp) in Hcur. by injection Hcur. }
  apply okw_bind. unfold from_opt. destruct (zget (p_ofile p) fd) as [f|] eqn:Hf; [|done]. apply okw_ret.
  destruct (Z.eqb_spec f NULL) as [Hnull|]; cbn [negb when].
  - apply okw_ret. split; [done|]. exists fds. split; [done|]. split; [done|]. intros j Hj.
    destruct (decide (j = fd)) as [->|]; [|apply Hcl; lia]. rewrite <-Ep, Hf. by rewrite Hnull.
  - apply okw_bind. eapply okw_fileclose; [exact Hi|]. intros k1 H1 Eo Ec Em. apply okw_upd_curp. intros c' q Hc' Hq.
    assert (c' = c) as -> by (rewrite Ec, Em in Hc'; congruence).
    assert (p_ofile q = fds) as Eq by (pose proof (ofile_of _ _ _ Hq) as E; rewrite Eo, (ofile_of _ _ _ Hp) in E; congruence).
    assert (zget (p_ofile q) fd = Some f) as Hqf by (rewrite Eq, <-Ep; exact Hf).
    pose proof (fd_at_ofile _ k1 c fd q f NULL H1 Hq Hqf) as H2. split.
    + eapply fd_at_ext; [exact H2|]. intros x Hx. unfold plus, NULL. rewrite (proj2 (Z.eqb_neq (-1) x)) by lia. destruct (f =? x); lia.
    + exists (zset fds fd NULL). split; [|split; [by rewrite zlen_zset|]].
      * unfold cur_fds. cbn [curs me set_procs]. rewrite Hc'. cbn [mbind option_bind]. rewrite <-Eq.
        apply (ofile_of _ c (with_ofile (zset (p_ofile q) fd NULL) q)). cbn. by eapply zget_zset_both.
      * intros j Hj. destruct (decide (j = fd)) as [->|]; [apply zget_zset_eq; lia|]. rewrite zget_zset_ne by done. apply Hcl. lia.
Qed.

Lemma okw_exit_files k fds : fd_inv k -> cur_fds k = Some fds -> zlen fds = NOFILE ->
  okw (for_ 0 (Z.to_nat NOFILE) exit_file) (fun _ k' => fd_inv k' /\ closed_below NOFILE k') k.
Proof.
  intros Hi Hc Hl. apply (okw_for _ (fun fd k' => fd_inv k' /\ closed_below fd k')).
  - split; [done|]. exists fds. split; [done|]. split; [done|]. lia.
  - intros fd k' Hfd [Hi' Hf']. apply okw_exit_file; [|done|done]. unfold NOFILE in *. lia.
  - intros k' Hk'. exact Hk'.
Qed.

(** C7: reference counts: from a state in which every file's count is the number
    of descriptors that hold it, dup, close, open and pipe keep it so, on their
    error paths too; fork does, provided free process entries hold no
    descriptors; and exit's loop closes every descriptor of the process, so that
    its entry is free of them. *)
Theorem fd_refs_invariant k : fd_inv k ->
  okw sys_dup (fun _ k' => fd_inv k') k /\
  okw sys_close (fun _ k' => fd_inv k') k /\
  okw (sys_open devsw_read devsw_write) (fun _ k' => fd_inv k') k /\
  okw sys_pipe (fun _ k' => fd_inv k') k /\
  (clean k -> okw (fork trapret forkret_addr) (fun _ k' => fd_inv k') k) /\
  (forall fds, cur_fds k = Some fds -> zlen fds = NOFILE ->
     okw (for_ 0 (Z.to_nat NOFILE) exit_file) (fun _ k' => fd_inv k' /\ closed_below NOFILE k') k).
Proof.
  intros Hi. split; [by apply okw_sys_dup|]. split; [by apply okw_sys_close|]. split; [by apply okw_sys_open|].
  split; [by apply okw_sys_pipe|]. split; [by apply okw_fork|]. intros fds. by apply okw_exit_files.
Qed.

End Counts.

(** ** Witness: a process with one open file *)

Definition demo_opener : proc :=
  with_ofile (0 :: replicate 15 NULL) (with_pid 1 (with_state RUNNING demo_free)).

Definition demo_files : kern bcache :=
  set_ftable [File FD_NONE 1 true true 0 0 0; File FD_NONE 0 true true 0 0 0]
    (set_procs [demo_opener; with_ofile (replicate 16 NULL) demo_free] demo_kern).

Lemma demo_files_inv : fd_inv demo_files.
Proof.
  intros i f [[-> ->]|[_ [[E ->]|[_ Hf]]%zget_cons]]%zget_cons; [reflexivity| |].
  - assert (i = 1) as -> by lia. reflexivity.
  - apply zget_Some in Hf. unfold zlen in Hf; cbn in Hf; lia.
Qed.

Lemma fd_refs_invariant_witness : fd_inv demo_files /\
  okw sys_dup (fun _ k' => fd_inv k') demo_files /\
  match sys_dup demo_files with Ok r k => r = 1 /\ f_ref <$> ftable k = [2; 0] | _ => False end.
Proof.
  split; [exact demo_files_inv|].
  split; [exact (proj1 (fd_refs_invariant (fun _ => None) (fun _ => None) 0 0 demo_files demo_files_inv))|].
  vm_compute. split; reflexivity.
Defined.
