(* ===== verification/SyscallSpec.v ===== *)
(** * System calls: arguments, limits and their errors

    What the argument checks guarantee, what they let through, and the calls of
    sysproc.c and cpuutil on each branch. *)

From S2P Require Import Prelude CString Buddy Cpu Pipe BlockCache Bio BioSpec Log Fs FsInst Vm VmInst Kernel Sched SchedSpec SchedRefine File Proc Exec Syscall Sysfile.

Section SyscallSpec.
Context {S : Type} `{BufCache S}.
Implicit Types k : kern S.

(** The current process. *)
Definition current (k : kern S) (p : proc) : Prop := exists i, zget (curs k) (me k) = Some i /\ zget (procs k) i = Some p.

Lemma curp_run k p : current k p -> curp k = Ok p k.
Proof. intros (i & Hi & Hp). unfold curp, curr_proc, get_proc, from_opt, bind, get. rewrite Hi. cbn. by rewrite Hp. Qed.

(** The [n]th argument register in the trap frame. *)
Definition arg (k : kern S) (p : proc) (n : Z) : Z := load32 (v_mem (k_vm k)) (u32 (p_tf p + TF_R1 + 4 * n)).

Lemma set_k_vm_id k : set_k_vm (k_vm k) k = k.
Proof. by destruct k. Qed.

Lemma argword_run k p n : current k p -> n <= 3 -> argword n k = Ok (arg k p n) k.
Proof.
  intros Hp Hn. unfold argword. rewrite (proj2 (Z.ltb_ge 3 n)) by done. rewrite (bind_ok _ _ _ _ _ (curp_run k p Hp)).
  unfold on_vm, zoom, load, gets. by rewrite set_k_vm_id.
Qed.

Lemma argptr_run k p n size : current k p -> n <= 3 ->
  argptr n size k = Ok (if (p_sz p <=? arg k p n) || (p_sz p <? u32 (arg k p n + size)) then None else Some (arg k p n)) k.
Proof.
  intros Hp Hn. unfold argptr. rewrite (bind_ok _ _ _ _ _ (argword_run k p n Hp Hn)). rewrite (bind_ok _ _ _ _ _ (curp_run k p Hp)).
  by destruct (_ || _).
Qed.

Lemma arg_range k p n : (forall a, 0 <= v_mem (k_vm k) a < 256) -> 0 <= arg k p n < 2 ^ 32.
Proof.
  intros Hm. unfold arg, load32. set (a := u32 _). pose proof (Hm a). pose proof (Hm (u32 (a + 1))). pose proof (Hm (u32 (a + 2))).
  pose proof (Hm (u32 (a + 3))). lia.
Qed.

Variable devsw_read : Z -> option (Z -> Z -> M (fs S) (list Z * Z)).


(** A negative count passes: read(fd, buf, -1) at the start of a file is
    accepted for almost any buffer, and readi takes the count for 2^32 - 1 and
    hands out the whole file, however little of the buffer is in the process. *)
Theorem negative_count_accepted k p n ip s x : current k p -> n <= 3 -> 1 <= arg k p n < p_sz p -> p_sz p < 2 ^ 32 ->
  zget (inodes s) ip = Some x -> i_type x <> T_DEV -> 0 <= i_size x < 2 ^ 32 - 1 ->
  argptr n (-1) k = Ok (Some (arg k p n)) k /\ readi devsw_read ip 0 (u32 (-1)) s = readi devsw_read ip 0 (i_size x) s.
Proof.
  intros Hp Hn Ha Hsz Hx Ht Hsize. split.
  - rewrite (argptr_run k p n (-1) Hp Hn), u32_small by lia.
    rewrite (proj2 (Z.leb_gt (p_sz p) (arg k p n))) by lia. by rewrite (proj2 (Z.ltb_ge (p_sz p) (arg k p n + -1))) by lia.
  - assert (get_inode ip s = Ok x s) as Hget by (unfold get_inode, bind, get; by rewrite Hx).
    unfold readi. rewrite !(bind_ok _ _ _ _ _ Hget). rewrite (proj2 (Z.eqb_neq _ _) Ht).
    change (u32 (-1)) with 4294967295. rewrite !Z.add_0_l, (u32_small (i_size x)), (u32_small 4294967295) by lia.
    rewrite (proj2 (Z.ltb_ge (i_size x) 0)), (proj2 (Z.ltb_ge 4294967295 0)) by lia. cbn [orb].
    rewrite (proj2 (Z.ltb_lt (i_size x) 4294967295)) by lia. rewrite (proj2 (Z.ltb_ge (i_size x) (i_size x))) by lia.
    by rewrite Z.sub_0_r, u32_small by lia.
Qed.

(** Cpuutil on every branch: it reads and sets the flag of a CPU that
    exists and refuses other modes and values, but reading the flag of a CPU
    that does not exist is not refused, and switching any CPU off reads beyond
    the array of CPUs before it can look at the others. *)
Theorem cpuutil_branches k cpunum mode on : zlen (enabled k) = NCPU ->
  cpuutil cpunum mode on k =
    if mode =? 0 then match zget (enabled k) cpunum with Some e => Ok e k | None => Fault end
    else if negb (mode =? 1) || (cpunum <? 0) || (NCPU <=? cpunum) then Ok (-1) k
    else if on =? 0 then Fault
    else if on =? 1 then Ok 0 (set_enabled (zset (enabled k) cpunum 1) k)
    else Ok (-1) k.
Proof.
  intros Hlen. unfold cpuutil. destruct (mode =? 0).
  { unfold get_enabled, bind, get, from_opt. by destruct (zget (enabled k) cpunum). }
  destruct (mode =? 1); [|done]. cbn [negb orb]. destruct ((cpunum <? 0) || (NCPU <=? cpunum)) eqn:Hc; [done|].
  assert (get_enabled NCPU k = Fault) as Hout.
  { unfold get_enabled, bind, get. destruct (zget (enabled k) NCPU) eqn:E; [|done]. apply zget_Some in E. lia. }
  apply orb_false_iff in Hc as [Hc1%Z.ltb_ge Hc2%Z.leb_gt].
  destruct (Z.eqb_spec on 0) as [->|Hon].
  - assert (others_on (Z.to_nat NCPU) 0 cpunum 0 k = Fault) as Hoth.
    { change (Z.to_nat NCPU) with 4%nat. cbn [others_on].
      assert (forall f : Z -> M (kern S) Z, bind (get_enabled NCPU) f k = Fault) as Hb by (intros f; unfold bind; by rewrite Hout).
      destruct (Z.eqb_spec 0 cpunum) as [<-|]; cbn [negb]; [cbn [Z.add Z.eqb negb]|]; apply Hb. }
    unfold bind at 1. unfold bind at 1. by rewrite Hoth.
  - destruct (Z.eqb_spec on 1) as [->|]; done.
Qed.

(** Growproc by minus the whole size: the pages are gone, but the call
    reports failure and the process keeps its old size. *)
Theorem growproc_shrink_to_zero k p v : current k p -> 0 < p_sz p < 2 ^ 31 ->
  deallocuvm (p_pgdir p) (p_sz p) 0 (k_vm k) = Ok 0 v ->
  growproc (- p_sz p) k = Ok (-1) (set_k_vm v k) /\ current (set_k_vm v k) p.
Proof.
  intros Hp Hsz Hd. split; [|exact Hp]. unfold growproc. rewrite (bind_ok _ _ _ _ _ (curp_run k p Hp)).
  rewrite (proj2 (Z.ltb_ge 0 (- p_sz p))), (proj2 (Z.ltb_lt (- p_sz p) 0)) by lia.
  replace (p_sz p + - p_sz p) with 0 by lia. change (u32 0) with 0. unfold bind at 1 2, on_vm, zoom. by rewrite Hd.
Qed.

End SyscallSpec.

(** ** Witnesses *)

(** Process 0 has one page and no trap-frame arguments but zeros. *)
Definition demo_user : proc := with_sz 4096 (with_pgdir demo_pg (with_pid 1 (with_state RUNNING demo_free))).

Definition demo_caller : kern bcache := set_procs [demo_user] demo_kern.

Lemma demo_current : current demo_caller demo_user.
Proof. by exists 0. Qed.


(** A caller whose argument registers are all 1 + 2^8 + 2^16 + 2^24, beyond
    4096 but below 2^25. *)
Definition demo_big : proc := with_sz 33554432 demo_user.

Definition demo_big_caller : kern bcache := set_k_vm (demo_machine (fun _ => 1)) (set_procs [demo_big] demo_kern).

Lemma negative_count_accepted_witness :
  argptr 1 (-1) demo_big_caller = Ok (Some 16843009) demo_big_caller /\
  readi (fun _ => None) 0 0 (u32 (-1)) demo_fs = readi (fun _ => None) 0 0 32 demo_fs.
Proof.
  refine (negative_count_accepted (fun _ => None) demo_big_caller demo_big 1 0 demo_fs
    (Inode ROOTDEV 1 2 2 1 0 0 1 32 (replicate 13 0)) _ _ _ _ _ _ _); [by exists 0|lia|by vm_compute|done|reflexivity|done|cbn; lia].
Defined.

Lemma cpuutil_branches_witness : cpuutil 1 1 0 (set_enabled [1; 1; 1; 1] demo_kern) = Fault.
Proof. rewrite (cpuutil_branches (set_enabled [1; 1; 1; 1] demo_kern) 1 1 0 eq_refl). reflexivity. Defined.

Lemma growproc_shrink_to_zero_witness : exists v, growproc (- 4096) demo_caller = Ok (-1) (set_k_vm v demo_caller).
Proof.
  eexists. refine (proj1 (growproc_shrink_to_zero demo_caller demo_user _ demo_current _ _)); [cbn; lia|vm_compute; reflexivity].
Defined.
