(* ===== verification/FsIo.v ===== *)
(** * Reading and writing files

    The bytes of a file are those of its blocks, found through the inode's
    direct addresses and its indirect block.  readi returns exactly the bytes
    asked for; writei within the file replaces exactly those; both loops end. *)

From S2P Require Import Prelude CString BlockCache Bio BioSpec Log LogSpec LogInst Fs FsSpec FsInst.

(** ** Slices *)

Lemma seqZ_split s a b : 0 <= a -> 0 <= b -> seqZ s (a + b) = seqZ s a ++ seqZ (s + a) b.
Proof.
  intros Ha Hb. apply list_eq. intros i. destruct (decide (Z.of_nat i < a)).
  - rewrite lookup_app_l by (rewrite length_seqZ; lia). by rewrite !lookup_seqZ_lt by lia.
  - rewrite lookup_app_r by (rewrite length_seqZ; lia). rewrite length_seqZ. destruct (decide (Z.of_nat i < a + b)).
    + rewrite !lookup_seqZ_lt by lia. f_equal. lia.
    + rewrite !lookup_seqZ_ge by lia. done.
Qed.

Lemma bytes_at_map d off n : 0 <= off -> 0 <= n -> off + n <= zlen d -> bytes_at d off n = map (fun o => ld8 d o) (seqZ off n).
Proof.
  intros Ho Hn Hd. unfold zlen in Hd. apply list_eq. intros i. rewrite list_lookup_fmap. destruct (decide (Z.of_nat i < n)).
  - rewrite lookup_seqZ_lt by lia. cbn. unfold ld8, bytes_at, zget. rewrite (proj2 (Z.leb_le _ _)) by lia.
    rewrite lookup_take_lt, lookup_drop by lia. replace (Z.to_nat (off + Z.of_nat i)) with (Z.to_nat off + i)%nat by lia.
    destruct (lookup_lt_is_Some_2 d (Z.to_nat off + i)) as [x ->]; [lia|done].
  - rewrite lookup_seqZ_ge by lia. unfold bytes_at. by rewrite lookup_take_ge by lia.
Qed.

Lemma ld8_splice d off src o : 0 <= off -> off + zlen src <= zlen d -> 0 <= o ->
  ld8 (splice d off src) o = if (off <=? o) && (o <? off + zlen src) then ld8 src (o - off) else ld8 d o.
Proof.
  intros Ho Hs H0. unfold ld8, splice, zget, zlen in *. rewrite (proj2 (Z.leb_le 0 o)) by done.
  destruct (Z.leb_spec off o); cbn [andb].
  - rewrite lookup_app_r by (rewrite length_take; lia). rewrite length_take. destruct (Z.ltb_spec o (off + Z.of_nat (length src))).
    + rewrite lookup_app_l by lia. rewrite (proj2 (Z.leb_le 0 (o - off))) by lia. do 2 f_equal. lia.
    + rewrite lookup_app_r by lia. rewrite lookup_drop. do 2 f_equal. lia.
  - rewrite lookup_app_l by (rewrite length_take; lia). by rewrite lookup_take_lt by lia.
Qed.

Lemma map_shift (f g : Z -> Z) a b n : (forall j, 0 <= j < n -> f (a + j) = g (b + j)) -> map f (seqZ a n) = map g (seqZ b n).
Proof.
  intros E. apply list_eq. intros i. rewrite !list_lookup_fmap. destruct (decide (Z.of_nat i < n)).
  - rewrite !lookup_seqZ_lt by lia. cbn. f_equal. apply E. lia.
  - by rewrite !lookup_seqZ_ge by lia.
Qed.

Section Io.
Context {S : Type} `{BufCache S}.
Implicit Types (f : fs S) (l : log S) (v : bspec) (x : inode).

(** ** The bytes of a file *)

Definition ind_blk x : Z := default 0 (zget (i_addrs x) NDIRECT).

(** Address of the [i]th block. *)
Definition blk v x (i : Z) : Z :=
  if i <? NDIRECT then default 0 (zget (i_addrs x) i) else ld32 (content v (ind_blk x)) (4 * (i - NDIRECT)).

Definition file_byte v x (o : Z) : Z := ld8 (content v (blk v x (o / 512))) (o mod 512).

(** A sector that can be read and written by this process. *)
Definition avail_blk l v (b : Z) : Prop := b <> 0 /\ home l v b /\ handles v !! b = None.

(** Every block of the file is there, and no two are the same. *)
Record file_ok l v x : Prop := {
  fo_dev : i_dev x = ROOTDEV;
  fo_type : i_type x <> T_DEV;
  fo_len : zlen (i_addrs x) = 13;
  fo_size : 0 <= i_size x <= MAXFILE * 512;
  fo_blk : forall i, 0 <= i -> i * 512 < i_size x -> avail_blk l v (blk v x i);
  fo_ind : NDIRECT * 512 < i_size x -> avail_blk l v (ind_blk x) /\
    forall i, 0 <= i -> i * 512 < i_size x -> blk v x i <> ind_blk x;
  fo_inj : forall i j, 0 <= i -> 0 <= j -> i * 512 < i_size x -> j * 512 < i_size x -> blk v x i = blk v x j -> i = j
}.

(** A cache with view [v] and a buffer to spare. *)
Definition ready v (c : S) : Prop := bc_rep c v /\ Z.of_nat (size (in_use v)) <= 9.

Lemma bread_ready f l v c b : ready v c -> home l v b -> handles v !! b = None ->
  exists h c', bread ROOTDEV b (with_log f (with_cache l c)) = Ok h (with_log f (with_cache l c')) /\ bc_rep c' (hold b h v).
Proof.
  intros [Hr Hroom] [Hs _] Hn. edestruct (run_cache (bc_read ROOTDEV b) (fun h c => bc_rep c (hold b h v)) f l c) as (h & c' & E & Hr').
  { apply bc_read_ok; [done|done|done|]. left. lia. }
  by exists h, c'.
Qed.

Lemma brelse_ready f l v c b h : home l v b -> handles v !! b = None -> bc_rep c (hold b h v) -> forall c0, bc_rep c0 v ->
  exists c', brelse h (with_log f (with_cache l c)) = Ok tt (with_log f (with_cache l c')) /\ bc_rep c' v.
Proof.
  intros [Hs _] Hn Hr c0 Hr0. assert (handles (hold b h v) !! b = Some h) as Hh by apply lookup_insert_eq.
  edestruct (run_cache (bc_release h) (fun _ c' => bc_rep c' (unhold b (hold b h v))) f l c) as ([] & c' & E & Hr').
  { apply (bc_release_ok _ _ b h Hr Hh). destruct (decide (b ∈ dirty v)) as [|Hd]; [by left|right]. by apply (bc_clean c0 v b Hr0). }
  exists c'. split; [exact E|]. by rewrite hold_unhold in Hr'.
Qed.

Lemma get_inode_run f l ip x : zget (inodes f) ip = Some x -> get_inode ip (with_log f l) = Ok x (with_log f l).
Proof. intros Hx. unfold get_inode, bind, get. cbn. by rewrite Hx. Qed.

(** bmap finds a block that is there. *)
Lemma bmap_hit f l v c ip x i : ready v c -> zget (inodes f) ip = Some x -> i_dev x = ROOTDEV -> zlen (i_addrs x) = 13 -> 0 <= i < MAXFILE ->
  avail_blk l v (blk v x i) -> (NDIRECT <= i -> avail_blk l v (ind_blk x)) ->
  exists c', bmap ip i (with_log f (with_cache l c)) = Ok (blk v x i) (with_log f (with_cache l c')) /\ bc_rep c' v.
Proof.
  intros Hrd Hx Hdev Hlen Hi (Hnz & Hho & Hnh) Hind. unfold bmap. rewrite (bind_ok _ _ _ _ _ (get_inode_run _ _ _ _ Hx)).
  unfold blk in *. destruct (Z.ltb_spec i NDIRECT) as [Hd|Hd].
  - destruct (zget_in (i_addrs x) i) as [a Ha]; [rewrite Hlen; unfold NDIRECT in Hd; lia|]. rewrite Ha in *. cbn in Hnz |- *.
    exists c. split; [|apply Hrd]. unfold bind, from_opt, ret. by rewrite (proj2 (Z.eqb_neq a 0)).
  - rewrite (proj2 (Z.ltb_lt (i - NDIRECT) NINDIRECT)) by (unfold MAXFILE, NINDIRECT in *; lia).
    destruct (Hind ltac:(lia)) as (Hnz' & Hho' & Hnh'). unfold ind_blk in *.
    destruct (zget_in (i_addrs x) NDIRECT) as [a Ha]; [rewrite Hlen; unfold NDIRECT; lia|]. rewrite Ha in *. cbn in Hnz', Hho', Hnh', Hnz |- *.
    rewrite Hdev. destruct (bread_ready f l v c a Hrd Hho' Hnh') as (h & c1 & E1 & Hr1).
    assert (handles (hold a h v) !! a = Some h) as Hh by apply lookup_insert_eq.
    pose proof (bdata_run f l c1 _ a h Hr1 Hh) as E2. destruct (brelse_ready f l v c1 a h Hho' Hnh' Hr1 c (proj1 Hrd)) as (c2 & E3 & Hr2).
    exists c2. split; [|done]. rewrite (proj2 (Z.eqb_neq a 0)) by done.
    rewrite (bind_ok (ret a) _ _ a _ eq_refl). rewrite (bind_ok _ _ _ _ _ E1), (bind_ok _ _ _ _ _ E2). cbn [content hold].
    rewrite (proj2 (Z.eqb_neq _ 0)) by done. rewrite (bind_ok (ret _) _ _ _ _ eq_refl). by rewrite (bind_ok _ _ _ _ _ E3).
Qed.

Lemma bmap_run f l v c ip x i : ready v c -> zget (inodes f) ip = Some x -> file_ok l v x -> 0 <= i -> i * 512 < i_size x ->
  exists c', bmap ip i (with_log f (with_cache l c)) = Ok (blk v x i) (with_log f (with_cache l c')) /\ bc_rep c' v.
Proof.
  intros Hrd Hx Hok Hi Hsz. pose proof (fo_size _ _ _ Hok) as Hmax.
  apply bmap_hit; [done|done|apply Hok|apply Hok|lia|by apply (fo_blk _ _ _ Hok)|]. intros Hd. apply (fo_ind _ _ _ Hok). lia.
Qed.

(** ** readi *)

Definition with_c f l c : fs S := with_log f (with_cache l c).

Lemma readi_loop_run f l v ip x n E fuel : forall c off tot, ready v c -> zget (inodes f) ip = Some x -> file_ok l v x ->
  0 <= off -> off + (n - tot) = E -> E <= i_size x -> tot <= n ->
  (tot = n /\ (1 <= fuel)%nat \/ (E + 511) / 512 - off / 512 + 1 <= Z.of_nat fuel) ->
  exists c', readi_loop fuel ip ROOTDEV off n tot (with_c f l c) = Ok (map (file_byte v x) (seqZ off (n - tot))) (with_c f l c') /\
    bc_rep c' v.
Proof.
  induction fuel as [|fuel IH]; intros c off tot Hrd Hx Hok Hoff HE Hsz Htot Hfuel.
  { exfalso. destruct Hfuel as [[_ ?]|Hf]; [lia|]. Z.div_mod_to_equations. lia. }
  cbn [readi_loop]. destruct (Z.ltb_spec tot n) as [Hlt|Hge].
  2: { exists c. split; [|apply Hrd]. replace (n - tot) with 0 by lia. done. }
  destruct Hfuel as [[? _]|Hfuel]; [lia|]. pose proof (fo_size _ _ _ Hok) as Hmax. unfold MAXFILE, NDIRECT, NINDIRECT in Hmax.
  assert (0 <= off / 512) as Hi by (apply Z.div_pos; lia).
  assert (off / 512 * 512 < i_size x) as Hib by (Z.div_mod_to_equations; lia).
  destruct (bmap_run f l v c ip x (off / 512) Hrd Hx Hok Hi Hib) as (c1 & E1 & Hr1).
  destruct (fo_blk _ _ _ Hok _ Hi Hib) as (_ & Hho & Hnh). set (b := blk v x (off / 512)) in *.
  assert (ready v c1) as Hrd1 by (split; [done|apply Hrd]).
  destruct (bread_ready f l v c1 b Hrd1 Hho Hnh) as (h & c2 & E2 & Hr2).
  assert (handles (hold b h v) !! b = Some h) as Hh by apply lookup_insert_eq.
  pose proof (bdata_run f l c2 _ b h Hr2 Hh) as E3. cbn [content hold] in E3.
  destruct (brelse_ready f l v c2 b h Hho Hnh Hr2 c1 Hr1) as (c3 & E4 & Hr3).
  set (m := Z.min (n - tot) (512 - off mod 512)). assert (0 < m <= 512 - off mod 512) as Hm.
  { pose proof (Z.mod_pos_bound off 512 ltac:(lia)). lia. }
  assert (u32 (off + m) = off + m) as Hu by (apply u32_small; lia).
  destruct (IH c3 (off + m) (tot + m)) as (c4 & E5 & Hr4); [by split; [|apply Hrd]|done|done|lia|lia|done|lia| |].
  { destruct (decide (tot + m = n)) as [Hd|Hd]; [left; split; [done|]|right].
    - assert (2 <= Z.of_nat (Datatypes.S fuel)); [|lia]. etransitivity; [|exact Hfuel]. Z.div_mod_to_equations. lia.
    - assert (m = 512 - off mod 512) as Em by lia. assert ((off + m) / 512 = off / 512 + 1) as -> by (Z.div_mod_to_equations; lia). lia. }
  exists c4. split; [|done]. unfold with_c in *. rewrite (bind_ok _ _ _ _ _ E1), (bind_ok _ _ _ _ _ E2), (bind_ok _ _ _ _ _ E3), (bind_ok _ _ _ _ _ E4).
  rewrite Hu, (bind_ok _ _ _ _ _ E5). unfold ret. f_equal.
  replace (n - tot) with (m + (n - (tot + m))) by lia. rewrite seqZ_split, map_app by lia. f_equal.
  pose proof (Z.mod_pos_bound off 512 ltac:(lia)). destruct (bc_block _ _ b Hr1 (proj1 Hho)) as [Hlen _].
  rewrite bytes_at_map by lia. apply map_shift. intros j Hj. unfold file_byte.
  assert ((off + j) / 512 = off / 512) as -> by (Z.div_mod_to_equations; lia).
  assert ((off + j) mod 512 = off mod 512 + j) as -> by (Z.div_mod_to_equations; lia). done.
Qed.

Lemma with_cache_twice l c c' : with_cache (with_cache l c) c' = with_cache l c'.
Proof. done. Qed.

Lemma with_log_id f : with_log f (flog f) = f.
Proof. by destruct f. Qed.

Section Read.
Variable devsw_read : Z -> option (Z -> Z -> M (fs S) (list Z * Z)).

Lemma readi_run f v ip x off n : bc_rep (lg_cache (flog f)) v -> Z.of_nat (size (in_use v)) <= 9 ->
  zget (inodes f) ip = Some x -> file_ok (flog f) v x -> 0 <= off <= i_size x -> 0 <= n -> off + n < 2 ^ 32 ->
  exists c, readi devsw_read ip off n f =
      Ok (map (file_byte v x) (seqZ off (Z.min n (i_size x - off))), Z.min n (i_size x - off)) (with_log f (with_cache (flog f) c)) /\
    bc_rep c v.
Proof.
  intros Hr Hroom Hx Hok Hoff Hn Hw. pose proof (fo_size _ _ _ Hok) as Hmax. unfold MAXFILE, NDIRECT, NINDIRECT in Hmax.
  assert (get_inode ip f = Ok x f) as Hget by (unfold get_inode, bind, get; by rewrite Hx).
  set (m := Z.min n (i_size x - off)). unfold readi. rewrite (bind_ok _ _ _ _ _ Hget), (proj2 (Z.eqb_neq _ _) (fo_type _ _ _ Hok)).
  rewrite (u32_small (off + n)) by lia. rewrite (proj2 (Z.ltb_ge (i_size x) off)), (proj2 (Z.ltb_ge (off + n) off)) by lia. cbn [orb].
  assert ((if i_size x <? off + n then u32 (i_size x - off) else n) = m) as ->.
  { unfold m. destruct (Z.ltb_spec (i_size x) (off + n)); [rewrite u32_small by lia|]; lia. }
  destruct (readi_loop_run f (flog f) v ip x m (off + m) (io_fuel m) (lg_cache (flog f)) off 0) as (c & E & Hc);
    [by split|done|done|lia|lia|lia|lia| |].
  { right. unfold io_fuel. assert (0 <= m / 512) by (apply Z.div_pos; lia). rewrite Nat2Z.inj_add, Z2Nat.id by done.
    change (Z.of_nat 3) with 3. Z.div_mod_to_equations. lia. }
  unfold with_c in E. rewrite with_cache_id, with_log_id, Z.sub_0_r in E. rewrite (fo_dev _ _ _ Hok).
  exists c. split; [|done]. by rewrite (bind_ok _ _ _ _ _ E).
Qed.

(** C16: readi returns exactly the bytes of the file from [off] on, cut at its
    size, with their number; a start beyond the end or a wrapping range is
    refused; the view of the disk does not change and the copy loop always ends. *)
Theorem readi_spec f v ip x off n : bc_rep (lg_cache (flog f)) v -> Z.of_nat (size (in_use v)) <= 9 ->
  zget (inodes f) ip = Some x -> file_ok (flog f) v x -> 0 <= off < 2 ^ 32 -> 0 <= n < 2 ^ 32 ->
  (i_size x < off \/ 2 ^ 32 <= off + n -> readi devsw_read ip off n f = Ok ([], -1) f) /\
  (off <= i_size x -> off + n < 2 ^ 32 ->
   wp (readi devsw_read ip off n) (fun r f' =>
     r = (map (file_byte v x) (seqZ off (Z.min n (i_size x - off))), Z.min n (i_size x - off)) /\
     exists c, f' = with_log f (with_cache (flog f) c) /\ bc_rep c v) f).
Proof.
  intros Hr Hroom Hx Hok Hoff Hn. split.
  - assert (get_inode ip f = Ok x f) as Hget by (unfold get_inode, bind, get; by rewrite Hx). unfold readi.
    rewrite (bind_ok _ _ _ _ _ Hget), (proj2 (Z.eqb_neq _ _) (fo_type _ _ _ Hok)). intros [Hb|Hb]; [by rewrite (proj2 (Z.ltb_lt _ _) Hb)|].
    destruct (Z.ltb_spec (i_size x) off); [done|]. cbn [orb].
    assert (u32 (off + n) = off + n - 2 ^ 32) as -> by (unfold u32; Z.div_mod_to_equations; lia).
    by rewrite (proj2 (Z.ltb_lt (off + n - 2 ^ 32) off)) by lia.
  - intros Ho Hw. destruct (readi_run f v ip x off n) as (c & E & Hc); [done|done|done|done|lia|lia|lia|].
    eapply ok_wp; [exact E|]. split; [done|]. by exists c.
Qed.

End Read.

(** ** writei *)

Lemma tx_ready l v k c : tx l v k -> 0 <= k -> bc_rep c v -> ready v c.
Proof. intros Ht Hk Hr. split; [done|]. pose proof (tx_room _ _ _ Ht). lia. Qed.

Lemma home_cache l v c s : home l v s -> home (with_cache l c) v s.
Proof. done. Qed.

(** Writing one of its blocks keeps the file where it is. *)
Lemma file_ok_updates l l' v v' x i d : file_ok l v x -> same_log l l' -> 0 <= i -> i * 512 < i_size x ->
  updates l v v' (blk v x i) d -> (forall j, 0 <= j -> j * 512 < i_size x -> blk v' x j = blk v x j) /\ file_ok l' v' x.
Proof.
  intros Hok Hl Hi Hib (Hn & Hh & Hc & _).
  assert (forall j, 0 <= j -> j * 512 < i_size x -> blk v' x j = blk v x j) as Hblk.
  { intros j Hj Hjb. unfold blk. destruct (Z.ltb_spec j NDIRECT) as [|Hd]; [done|].
    destruct (fo_ind _ _ _ Hok ltac:(lia)) as [(_ & Hho & _) Hne]. destruct (Hc _ Hho) as [-> _].
    rewrite zupd_ne; [done|]. intros E. by apply (Hne i Hi Hib). }
  assert (forall b, avail_blk l v b -> avail_blk l' v' b) as Hav.
  { intros b (A & B & C). split; [done|]. split; [by apply (home_same l l' v v')|by rewrite Hh]. }
  split; [exact Hblk|]. destruct Hok as [A B C D E F G]. split; try done.
  - intros j Hj Hjb. rewrite (Hblk j Hj Hjb). by apply Hav, E.
  - intros Hind. destruct (F Hind) as [F1 F2]. split; [by apply Hav|]. intros j Hj Hjb. rewrite (Hblk j Hj Hjb). by apply F2.
  - intros j j' Hj Hj' Hjb Hjb'. rewrite (Hblk j), (Hblk j') by done. by apply G.
Qed.

(** Outside the blocks of the file nothing changes, and nothing on the disk. *)
Definition only_file l v v' x : Prop :=
  nsect v' = nsect v /\ handles v' = handles v /\ forall s, home l v s -> disk v' s = disk v s /\
    ((forall i, 0 <= i -> i * 512 < i_size x -> s <> blk v x i) -> content v' s = content v s).

Lemma file_byte_updates l v v' x i d o : file_ok l v x -> 0 <= i -> i * 512 < i_size x -> updates l v v' (blk v x i) d ->
  0 <= o < i_size x -> (forall j, 0 <= j -> j * 512 < i_size x -> blk v' x j = blk v x j) ->
  file_byte v' x o = if o / 512 =? i then ld8 d (o mod 512) else file_byte v x o.
Proof.
  intros Hok Hi Hib Hu Ho Hblk. unfold file_byte. assert (0 <= o / 512) by (apply Z.div_pos; lia).
  assert (o / 512 * 512 < i_size x) by (Z.div_mod_to_equations; lia). rewrite Hblk by done.
  destruct (fo_blk _ _ _ Hok (o / 512)) as (_ & Hho & _); [done|done|]. destruct Hu as (_ & _ & Hc & _). destruct (Hc _ Hho) as [-> _].
  destruct (Z.eqb_spec (o / 512) i) as [->|Hne]; [by rewrite zupd_eq|]. rewrite zupd_ne; [done|].
  intros E. apply Hne. by apply (fo_inj _ _ _ Hok).
Qed.

Lemma writei_loop_run f ip x src n E fuel : forall l v k off tot, tx l v k -> 0 <= k -> zget (inodes f) ip = Some x -> file_ok l v x ->
  0 <= off -> 0 <= tot <= n -> off + (n - tot) = E -> E <= i_size x -> n <= zlen src ->
  (tot < n -> (E + 511) / 512 - off / 512 <= k) ->
  (tot = n /\ (1 <= fuel)%nat \/ (E + 511) / 512 - off / 512 + 1 <= Z.of_nat fuel) ->
  exists l' v' k', writei_loop fuel ip ROOTDEV src off n tot (with_log f l) = Ok E (with_log f l') /\
    tx l' v' k' /\ 0 <= k' /\ same_log l l' /\ file_ok l' v' x /\ only_file l v v' x /\
    (forall j, 0 <= j -> j * 512 < i_size x -> blk v' x j = blk v x j) /\
    forall o, 0 <= o < i_size x ->
      file_byte v' x o = if (off <=? o) && (o <? E) then ld8 src (tot + (o - off)) else file_byte v x o.
Proof.
  induction fuel as [|fuel IH]; intros l v k off tot Ht Hk Hx Hok Hoff Htot HE Hsz Hsrc Hroom Hfuel.
  { exfalso. destruct Hfuel as [[_ ?]|Hf]; [lia|]. Z.div_mod_to_equations. lia. }
  cbn [writei_loop]. destruct (Z.ltb_spec tot n) as [Hlt|Hge].
  2: { exists l, v, k. split; [unfold ret; do 2 f_equal; lia|]. split; [done|]. split; [done|]. split; [done|]. split; [done|].
       split; [done|]. split; [done|]. intros o _. assert (E = off) as -> by lia.
       destruct (Z.leb_spec off o); cbn [andb]; [by rewrite (proj2 (Z.ltb_ge o off)) by lia|done]. }
  destruct Hfuel as [[? _]|Hfuel]; [lia|]. specialize (Hroom Hlt).
  pose proof (fo_size _ _ _ Hok) as Hmax. unfold MAXFILE, NDIRECT, NINDIRECT in Hmax.
  assert (0 <= off / 512) as Hi by (apply Z.div_pos; lia).
  assert (off / 512 * 512 < i_size x) as Hib by (Z.div_mod_to_equations; lia).
  assert (0 < k) as Hk0 by (Z.div_mod_to_equations; lia).
  destruct (bmap_run f l v (lg_cache l) ip x (off / 512) (tx_ready _ _ _ _ Ht Hk (tx_rep _ _ _ Ht)) Hx Hok Hi Hib) as (c1 & E1 & Hr1).
  rewrite with_cache_id in E1. destruct (fo_blk _ _ _ Hok _ Hi Hib) as (_ & Hho & Hnh). set (b := blk v x (off / 512)) in *.
  pose proof (tx_cache l v k c1 Ht Hr1) as Ht1. set (l1 := with_cache l c1) in *.
  destruct (bread_run f l1 v k b Ht1 Hk ltac:(apply Hho) Hnh) as (h & c2 & E2 & Hr2).
  assert (handles (hold b h v) !! b = Some h) as Hh by apply lookup_insert_eq.
  pose proof (bdata_run f l1 c2 _ b h Hr2 Hh) as E3. cbn [content hold] in E3.
  pose proof (Z.mod_pos_bound off 512 ltac:(lia)) as Hmod. destruct (bc_block _ _ b Hr1 (proj1 Hho)) as [Hlen _].
  set (m := Z.min (n - tot) (512 - off mod 512)). assert (0 < m <= 512 - off mod 512) as Hm by lia.
  assert (zlen (bytes_at src tot m) = m) as Hbl by (apply zlen_bytes_at; lia).
  set (d := splice (content v b) (off mod 512) (bytes_at src tot m)).
  assert (zlen d = 512) as Hd by (unfold d; rewrite zlen_splice; lia).
  destruct (update_run f l1 v b h d k c2 Ht1 Hk0 Hnh Hho Hd Hr2) as (s1 & s2 & l2 & v2 & E4 & E5 & E6 & Ht2 & Hl2 & Hu2).
  assert (file_ok l1 v x) as Hok1 by (destruct Hok; by split).
  destruct (file_ok_updates l1 l2 v v2 x (off / 512) d Hok1 Hl2 Hi Hib Hu2) as [Hblk2 Hok2].
  assert (u32 (off + m) = off + m) as Hu by (apply u32_small; lia).
  destruct (IH l2 v2 (k - 1) (off + m) (tot + m)) as (l3 & v3 & k3 & E7 & Ht3 & Hk3 & Hl3 & Hok3 & Hof3 & Hblk3 & Hby3); try done; try lia.
  { intros Hmore. assert (m = 512 - off mod 512) as Em by lia. assert ((off + m) / 512 = off / 512 + 1) as -> by (Z.div_mod_to_equations; lia). lia. }
  { destruct (decide (tot + m = n)) as [Hdn|Hdn]; [left; split; [done|]|right].
    - assert (2 <= Z.of_nat (Datatypes.S fuel)); [|lia]. etransitivity; [|exact Hfuel]. Z.div_mod_to_equations. lia.
    - assert (m = 512 - off mod 512) as Em by lia. assert ((off + m) / 512 = off / 512 + 1) as -> by (Z.div_mod_to_equations; lia). lia. }
  exists l3, v3, k3. split.
  { rewrite (bind_ok _ _ _ _ _ E1), (bind_ok _ _ _ _ _ E2), (bind_ok _ _ _ _ _ E3), (bind_ok _ _ _ _ _ E4), (bind_ok _ _ _ _ _ E5),
      (bind_ok _ _ _ _ _ E6). by rewrite Hu, E7. }
  split; [done|]. split; [done|].
  split; [destruct Hl2 as (A1 & A2 & A3 & A4 & A5 & A6), Hl3 as (B1 & B2 & B3 & B4 & B5 & B6); repeat apply conj; etransitivity; eassumption|].
  split; [done|]. split; [|split].
  - destruct Hu2 as (Hn2 & Hh2 & Hc2 & _), Hof3 as (Hn3 & Hh3 & Hc3). split; [by rewrite Hn3|]. split; [by rewrite Hh3|].
    intros s Hs. destruct (Hc2 s Hs) as [Hcs Hds]. destruct (Hc3 s (home_same l l2 v v2 s Hl2 Hn2 Hs)) as [Hds3 Hcs3].
    split; [congruence|]. intros Hns. rewrite Hcs3, Hcs; [|intros j Hj Hjb; rewrite Hblk2 by done; by apply Hns].
    rewrite zupd_ne; [done|]. by apply Hns.
  - intros j Hj Hjb. by rewrite Hblk3, Hblk2.
  - intros o Ho. rewrite (Hby3 o Ho). rewrite (file_byte_updates l1 v v2 x (off / 512) d o Hok1 Hi Hib Hu2 Ho Hblk2).
    destruct (Z.leb_spec (off + m) o) as [Hge2|Hlt2]; cbn [andb].
    + rewrite (proj2 (Z.leb_le off o)) by lia. cbn [andb]. destruct (Z.ltb_spec o E) as [HoE|HoE].
      * f_equal. lia.
      * destruct (Z.eqb_spec (o / 512) (off / 512)) as [Eb|]; [|done]. unfold d. rewrite ld8_splice by (try lia; Z.div_mod_to_equations; lia).
        rewrite Hbl. assert (off mod 512 + m <= o mod 512) by (Z.div_mod_to_equations; lia).
        rewrite (proj2 (Z.ltb_ge (o mod 512) (off mod 512 + m))) by lia. rewrite andb_false_r. unfold file_byte. by rewrite Eb.
    + destruct (Z.eqb_spec (o / 512) (off / 512)) as [Eb|Eb].
      * unfold d. rewrite ld8_splice by (try lia; Z.div_mod_to_equations; lia). rewrite Hbl.
        assert (o mod 512 - off mod 512 = o - off) as Hdif by (Z.div_mod_to_equations; lia).
        destruct (Z.leb_spec off o) as [Hoo|Hoo]; cbn [andb].
        -- rewrite (proj2 (Z.leb_le (off mod 512) (o mod 512))), (proj2 (Z.ltb_lt (o mod 512) (off mod 512 + m))) by lia. cbn [andb].
           rewrite (proj2 (Z.ltb_lt o E)) by lia. rewrite ld8_bytes_at by lia. f_equal. lia.
        -- rewrite (proj2 (Z.leb_gt (off mod 512) (o mod 512))) by lia. cbn [andb]. unfold file_byte. by rewrite Eb.
      * destruct (Z.leb_spec off o) as [Hoo|Hoo]; cbn [andb]; [|done]. exfalso. apply Eb. Z.div_mod_to_equations. lia.
Qed.

(** Room in the transaction for the blocks of a range. *)
Definition blocks_of (off n : Z) : Z := if n =? 0 then 0 else (off + n + 511) / 512 - off / 512.

(** What an in-place write leaves behind. *)
Definition written f v x (src : list Z) (off n : Z) l' v' : Prop :=
  same_log (flog f) l' /\ file_ok l' v' x /\ only_file (flog f) v v' x /\
  forall o, 0 <= o < i_size x -> file_byte v' x o = if (off <=? o) && (o <? off + n) then ld8 src (o - off) else file_byte v x o.

Section Write.
Variable devsw_write : Z -> option (Z -> list Z -> Z -> M (fs S) Z).

Lemma writei_run f v k ip x src off n : tx (flog f) v k -> zget (inodes f) ip = Some x -> file_ok (flog f) v x ->
  0 <= off -> 0 <= n <= zlen src -> off + n <= i_size x -> blocks_of off n <= k -> 0 <= k ->
  exists l' v' k', writei devsw_write ip src off n f = Ok n (with_log f l') /\ tx l' v' k' /\ 0 <= k' /\ written f v x src off n l' v'.
Proof.
  intros Ht Hx Hok Hoff Hn Hsz Hbl Hk. pose proof (fo_size _ _ _ Hok) as Hmax.
  assert (i_size x <= 71680) as Hmax' by (apply Hmax).
  assert (get_inode ip f = Ok x f) as Hget by (unfold get_inode, bind, get; by rewrite Hx).
  destruct (writei_loop_run f ip x src n (off + n) (io_fuel n) (flog f) v k off 0) as (l' & v' & k' & E & Ht' & Hk' & Hl & Hok' & Hof & _ & Hby);
    try done; try lia.
  { intros Hn0. unfold blocks_of in Hbl. by rewrite (proj2 (Z.eqb_neq n 0)) in Hbl by lia. }
  { right. unfold io_fuel. assert (0 <= n / 512) by (apply Z.div_pos; lia). rewrite Nat2Z.inj_add, Z2Nat.id by done.
    change (Z.of_nat 3) with 3. Z.div_mod_to_equations. lia. }
  rewrite with_log_id in E. exists l', v', k'. split; [|split; [done|split; [done|split; [done|split; [done|split; [done|]]]]]].
  - unfold writei. rewrite (bind_ok _ _ _ _ _ Hget), (proj2 (Z.eqb_neq _ _) (fo_type _ _ _ Hok)).
    rewrite (u32_small (off + n)) by lia.
    rewrite (proj2 (Z.ltb_ge (i_size x) off)), (proj2 (Z.ltb_ge (off + n) off)) by lia. cbn [orb].
    change (MAXFILE * 512) with 71680. rewrite (proj2 (Z.ltb_ge 71680 (off + n))) by lia. rewrite (fo_dev _ _ _ Hok).
    rewrite (bind_ok _ _ _ _ _ E), (bind_ok _ _ _ _ _ (get_inode_run f l' ip x Hx)).
    rewrite (proj2 (Z.ltb_ge (i_size x) (off + n))) by lia. rewrite andb_false_r. done.
  - intros o Ho. rewrite (Hby o Ho). by rewrite Z.add_0_l.
Qed.

(** C15: writei within a file replaces exactly the bytes of the range: every
    other byte of the file, every other sector and the disk itself stay as they
    are, the file keeps its blocks, and the transaction's room suffices for the
    blocks touched; a start beyond the end, a wrapping range or one beyond the
    largest file is refused. *)
Theorem writei_spec f v k ip x src off n : tx (flog f) v k -> zget (inodes f) ip = Some x -> file_ok (flog f) v x ->
  0 <= off < 2 ^ 32 -> 0 <= n <= zlen src -> n < 2 ^ 32 -> 0 <= k ->
  (i_size x < off \/ 2 ^ 32 <= off + n \/ MAXFILE * 512 < off + n -> writei devsw_write ip src off n f = Ok (-1) f) /\
  (off + n <= i_size x -> blocks_of off n <= k ->
   wp (writei devsw_write ip src off n) (fun r f' => r = n /\ exists l' v' k',
     f' = with_log f l' /\ tx l' v' k' /\ 0 <= k' /\ written f v x src off n l' v') f).
Proof.
  intros Ht Hx Hok Hoff Hn Hn32 Hk. split.
  - assert (get_inode ip f = Ok x f) as Hget by (unfold get_inode, bind, get; by rewrite Hx).
    unfold writei. rewrite (bind_ok _ _ _ _ _ Hget), (proj2 (Z.eqb_neq _ _) (fo_type _ _ _ Hok)). change (MAXFILE * 512) with 71680.
    intros Hbad. destruct (Z.ltb_spec (i_size x) off) as [|Hle]; [done|]. cbn [orb].
    destruct (Z.le_gt_cases (2 ^ 32) (off + n)) as [Hw|Hw].
    + assert (u32 (off + n) = off + n - 2 ^ 32) as -> by (unfold u32; Z.div_mod_to_equations; lia).
      by rewrite (proj2 (Z.ltb_lt (off + n - 2 ^ 32) off)) by lia.
    + rewrite (u32_small (off + n)) by lia. destruct (Z.ltb_spec (off + n) off); [done|].
      by rewrite (proj2 (Z.ltb_lt 71680 (off + n))) by lia.
  - intros Hsz Hbl. destruct (writei_run f v k ip x src off n) as (l' & v' & k' & E & H'); try done; try lia.
    eapply ok_wp; [exact E|]. split; [done|]. by exists l', v', k'.
Qed.

End Write.

(** C17: what was written is read back: a read of the same range, in the state
    that the write leaves, returns the bytes written. *)
Theorem writei_readi_roundtrip (devsw_read : Z -> option (Z -> Z -> M (fs S) (list Z * Z)))
    (devsw_write : Z -> option (Z -> list Z -> Z -> M (fs S) Z)) f v k ip x src off : tx (flog f) v k -> zget (inodes f) ip = Some x -> file_ok (flog f) v x ->
  0 <= off -> off + zlen src <= i_size x -> blocks_of off (zlen src) <= k -> 0 <= k ->
  wp (_ <- writei devsw_write ip src off (zlen src) ;; readi devsw_read ip off (zlen src))
    (fun r _ => r = (src, zlen src)) f.
Proof.
  intros Ht Hx Hok Hoff Hsz Hbl Hk. assert (0 <= zlen src) by (unfold zlen; lia).
  pose proof (fo_size _ _ _ Hok) as Hmax. unfold MAXFILE, NDIRECT, NINDIRECT in Hmax.
  destruct (writei_run devsw_write f v k ip x src off (zlen src)) as (l' & v' & k' & E & Ht' & Hk' & _ & Hok' & _ & Hby); try done; try lia.
  eapply wp_bind_ok; [exact E|]. set (f' := with_log f l').
  destruct (readi_run devsw_read f' v' ip x off (zlen src)) as (c & E2 & _);
    [apply Ht'|pose proof (tx_room _ _ _ Ht'); lia|done|done|lia|lia|lia|].
  eapply ok_wp; [exact E2|]. rewrite Z.min_l by lia. f_equal. apply list_eq. intros i. rewrite list_lookup_fmap.
  destruct (decide (Z.of_nat i < zlen src)) as [Hi|Hi].
  - rewrite lookup_seqZ_lt by done. cbn [fmap option_fmap option_map]. rewrite Hby by lia.
    rewrite (proj2 (Z.leb_le off _)), (proj2 (Z.ltb_lt _ (off + zlen src))) by lia. cbn [andb].
    replace (off + Z.of_nat i - off) with (Z.of_nat i) by lia. unfold ld8. rewrite zget_of_nat.
    destruct (lookup_lt_is_Some_2 src i) as [y ->]; [unfold zlen in Hi; lia|done].
  - rewrite lookup_seqZ_ge by lia. cbn. symmetry. apply lookup_ge_None. unfold zlen in Hi. lia.
Qed.

End Io.

(** ** A two-block file on the small disk *)

(** 520 bytes: sector 2, all sevens, then the first eight of sector 1. *)
Definition demo_file : inode := Inode ROOTDEV 1 2 2 2 0 0 1 520 (2 :: 1 :: replicate 11 0).

Definition demo_io : fs bcache := Fs false [demo_file] [] demo_fs_log.

Lemma demo_io_tx : tx (flog demo_io) demo_fs_view 2.
Proof. exact demo_tx. Qed.

Lemma demo_file_ok : file_ok (flog demo_io) demo_fs_view demo_file.
Proof.
  assert (forall i, 0 <= i -> i * 512 < i_size demo_file -> i = 0 \/ i = 1) as Hi by (cbn [i_size demo_file]; lia).
  assert (blk demo_fs_view demo_file 0 = 2) as B0 by reflexivity.
  assert (blk demo_fs_view demo_file 1 = 1) as B1 by reflexivity.
  assert (forall b, 0 < b < 4 -> avail_blk (flog demo_io) demo_fs_view b) as Hb.
  { intros b Hb. split; [lia|]. split; [|reflexivity]. change (home (flog demo_io) demo_fs_view b) with (0 <= b < 8 /\ (b < 4 \/ 8 <= b)). lia. }
  split.
  - reflexivity.
  - done.
  - reflexivity.
  - by vm_compute.
  - intros i H0 H1. destruct (Hi i H0 H1) as [->| ->]; [rewrite B0|rewrite B1]; apply Hb; lia.
  - cbn [i_size demo_file]. unfold NDIRECT. lia.
  - intros i j A B C D E. destruct (Hi i A C) as [->| ->], (Hi j B D) as [->| ->]; try done; by vm_compute in E.
Qed.

Lemma demo_io_room : Z.of_nat (size (in_use demo_fs_view)) <= 9.
Proof. by vm_compute. Qed.

(** A read across the two blocks, cut at the size; one that starts too far. *)
Lemma readi_spec_witness :
  readi (fun _ => None) 0 521 1 demo_io = Ok ([], -1) demo_io /\
  wp (readi (fun _ => None) 0 510 100) (fun r _ => r = ([7;7;8;0;0;0;1;0;0;0], 10)) demo_io.
Proof.
  split.
  - apply (proj1 (readi_spec (fun _ => None) demo_io demo_fs_view 0 demo_file 521 1 (tx_rep _ _ _ demo_io_tx) demo_io_room
      eq_refl demo_file_ok ltac:(lia) ltac:(lia))). left. by vm_compute.
  - eapply wp_mono; [apply (proj2 (readi_spec (fun _ => None) demo_io demo_fs_view 0 demo_file 510 100 (tx_rep _ _ _ demo_io_tx)
      demo_io_room eq_refl demo_file_ok ltac:(lia) ltac:(lia))); by vm_compute|].
    intros r f' [-> _]. vm_compute. reflexivity.
Defined.

(** A write across the two blocks. *)
Lemma writei_spec_witness :
  writei (fun _ => None) 0 [1;2;3;4] 71678 4 demo_io = Ok (-1) demo_io /\
  wp (writei (fun _ => None) 0 [1;2;3;4] 510 4) (fun r f' => r = 4 /\ exists v', file_byte v' demo_file 509 = 7 /\
    file_byte v' demo_file 510 = 1 /\ file_byte v' demo_file 513 = 4) demo_io.
Proof.
  split.
  - apply (proj1 (writei_spec (fun _ => None) demo_io demo_fs_view 2 0 demo_file [1;2;3;4] 71678 4 demo_io_tx eq_refl
      demo_file_ok ltac:(lia) ltac:(by vm_compute) ltac:(lia) ltac:(lia))). left. by vm_compute.
  - eapply wp_mono; [apply (proj2 (writei_spec (fun _ => None) demo_io demo_fs_view 2 0 demo_file [1;2;3;4] 510 4 demo_io_tx
      eq_refl demo_file_ok ltac:(lia) ltac:(by vm_compute) ltac:(lia) ltac:(lia))); by vm_compute|].
    intros r f' [-> (l' & v' & k' & _ & _ & _ & _ & _ & _ & Hby)]. split; [done|]. exists v'.
    change (i_size demo_file) with 520 in Hby. split; [|split]; rewrite Hby by lia; vm_compute; reflexivity.
Defined.

Lemma writei_readi_roundtrip_witness :
  wp (_ <- writei (fun _ => None) 0 [1;2;3;4] 510 (zlen [1;2;3;4]) ;; readi (fun _ => None) 0 510 (zlen [1;2;3;4]))
    (fun r _ => r = ([1;2;3;4], zlen [1;2;3;4])) demo_io.
Proof.
  by apply (writei_readi_roundtrip (fun _ => None) (fun _ => None) demo_io demo_fs_view 2 0 demo_file [1;2;3;4] 510 demo_io_tx
    eq_refl demo_file_ok); vm_compute.
Defined.
