(* ===== verification/FsDir.v ===== *)
(** * Directories

    A directory file is an array of 16-byte entries.  Read as a map from names
    to inode numbers, dirlookup finds what the map holds, dirlink adds one
    binding or reports that the name is taken, and writing an empty entry, as
    unlink does, removes one. *)

From S2P Require Import Prelude CString BlockCache Bio BioSpec Log LogSpec LogInst Fs FsSpec FsInst FsIo.

(** ** Names *)

(** The string that [n] bytes hold: up to the first NUL. *)
Fixpoint upto (n : nat) (g : Z -> Z) : list Z :=
  match n with
  | O => []
  | S n' => if g 0 =? 0 then [] else g 0 :: upto n' (fun i => g (i + 1))
  end.

(** What a name means to the file system: its first DIRSIZ bytes. *)
Definition key (name : list Z) : list Z := upto 14 (ld8 name).

Lemma upto_ext n : forall g g', (forall i, 0 <= i < Z.of_nat n -> g i = g' i) -> upto n g = upto n g'.
Proof.
  induction n as [|n IH]; intros g g' E; [done|]. cbn [upto]. rewrite (E 0) by lia. case_if; [done|]. f_equal. apply IH. intros i Hi. apply E. lia.
Qed.

Lemma strncmp_upto m n : forall p q, (forall a, is_byte (m a)) -> 0 <= p -> 0 <= q -> p + Z.of_nat n < 2 ^ 32 -> q + Z.of_nat n < 2 ^ 32 ->
  strncmp m p q n = 0 <-> upto n (fun i => m (p + i)) = upto n (fun i => m (q + i)).
Proof.
  induction n as [|n IH]; intros p q Hb Hp Hq Hpn Hqn; cbn [strncmp upto]; [done|]. rewrite !Z.add_0_r, !u32_small by lia.
  pose proof (Hb p) as Bp. pose proof (Hb q) as Bq. unfold is_byte in Bp, Bq.
  assert (forall r, upto n (fun i => m (r + (i + 1))) = upto n (fun i => m (r + 1 + i))) as Hsh.
  { intros r. apply upto_ext. intros i Hi. f_equal. lia. }
  rewrite !Hsh. destruct (Z.eqb_spec (m p) 0) as [E0|N0]; cbn [negb andb].
  - rewrite !u8_small by done. rewrite E0. destruct (Z.eqb_spec (m q) 0); split; intros; try done; lia.
  - destruct (Z.eqb_spec (m p) (m q)) as [E|N].
    + rewrite IH by (done || lia). rewrite <-E, (proj2 (Z.eqb_neq (m p) 0)) by done. split; [by intros ->|by intros [= ->]].
    + rewrite !u8_small by done. destruct (Z.eqb_spec (m q) 0); split; intros H; try lia; try done. by injection H.
Qed.

Lemma ld8_byte d i : Forall is_byte d -> is_byte (ld8 d i).
Proof. intros Hd. unfold ld8. destruct (zget d i) as [x|] eqn:E; [|done]. cbn.
  pose proof (zget_Some _ _ _ E). rewrite zget_nat in E by lia. by eapply Forall_lookup_1. Qed.

(** namecmp tells keys apart. *)
Lemma namecmp_key s t : Forall is_byte s -> Forall is_byte t -> namecmp s t = 0 <-> key s = key t.
Proof.
  intros Hs Ht. unfold namecmp, key. change (Z.to_nat DIRSIZ) with 14%nat. rewrite strncmp_upto; [|intros a; unfold two_bufs; case_if; by apply ld8_byte|lia..].
  rewrite (upto_ext 14 (fun i => two_bufs s t (0 + i)) (ld8 s)), (upto_ext 14 (fun i => two_bufs s t (65536 + i)) (ld8 t)); [done|..];
    intros i Hi; unfold two_bufs.
  - rewrite (proj2 (Z.ltb_ge _ _)) by lia. f_equal. lia.
  - by rewrite (proj2 (Z.ltb_lt _ _)) by lia.
Qed.

Lemma upto_strncpy n : forall m m' s t, (forall i, 0 <= i < Z.of_nat n ->
     ((forall j, 0 <= j < i -> m (t + j) <> 0) -> m' (s + i) = m (t + i)) /\ (forall j, 0 <= j < i -> m (t + j) = 0 -> m' (s + i) = 0)) ->
  upto n (fun i => m' (s + i)) = upto n (fun i => m (t + i)).
Proof.
  induction n as [|n IH]; intros m m' s t Hc; [done|]. cbn [upto].
  assert (m' (s + 0) = m (t + 0)) as E0 by (apply Hc; lia). rewrite E0. case_if; [done|]. f_equal.
  zbool. rewrite Z.add_0_r in *.
  rewrite (upto_ext n _ (fun i => m' (s + 1 + i))), (upto_ext n (fun i => m (t + (i + 1))) (fun i => m (t + 1 + i))) by (intros; f_equal; lia).
  apply IH. intros i Hi. destruct (Hc (i + 1) ltac:(lia)) as [H1 H2]. replace (s + 1 + i) with (s + (i + 1)) by lia.
  replace (t + 1 + i) with (t + (i + 1)) by lia. split.
  - intros Hj. apply H1. intros j Hj'. destruct (decide (j = 0)) as [->|]; [by rewrite Z.add_0_r|]. replace (t + j) with (t + 1 + (j - 1)) by lia. apply Hj. lia.
  - intros j Hj E. apply (H2 (j + 1)); [lia|]. by replace (t + (j + 1)) with (t + 1 + j) by lia.
Qed.

Lemma zlen_copy_name name : zlen (copy_name name) = DIRSIZ.
Proof. unfold copy_name, zlen. by rewrite length_map, length_seqZ. Qed.

Lemma ld8_copy_name name i : 0 <= i < DIRSIZ -> ld8 (copy_name name) i = fst (strncpy (two_bufs name []) 65536 0 DIRSIZ) (65536 + i).
Proof. intros Hi. unfold ld8, copy_name. rewrite zget_nat by lia. rewrite list_lookup_fmap, lookup_seqZ_lt by lia. cbn. do 2 f_equal. lia. Qed.

Lemma copy_name_key name : key (copy_name name) = key name.
Proof.
  unfold key. rewrite (upto_ext 14 _ _ (fun i Hi => ld8_copy_name name i Hi)).
  destruct (strncpy_correct 14 (two_bufs name []) 65536 0 ltac:(lia) ltac:(lia) ltac:(lia) ltac:(lia) ltac:(right; lia)) as [_ Hc].
  change (Z.of_nat 14) with DIRSIZ in Hc. rewrite (upto_strncpy 14 _ _ 65536 0 Hc). apply upto_ext. intros i Hi. unfold two_bufs.
  by rewrite (proj2 (Z.ltb_lt _ _)) by lia.
Qed.

Lemma copy_name_bytes name : Forall is_byte name -> Forall is_byte (copy_name name).
Proof.
  intros Hn. unfold copy_name. apply Forall_forall. intros x (i & -> & Hi)%list_elem_of_fmap. apply elem_of_seqZ in Hi.
  destruct (strncpy_correct 14 (two_bufs name []) 65536 0 ltac:(lia) ltac:(lia) ltac:(lia) ltac:(lia) ltac:(right; lia)) as [_ Hc].
  change (Z.of_nat 14) with DIRSIZ in Hc. destruct (Hc i ltac:(lia)) as [H1 H2].
  destruct (decide (Exists (fun j => two_bufs name [] (0 + j) = 0) (seqZ 0 i))) as [(j & Hj & E)%Exists_exists|Hno].
  - apply elem_of_seqZ in Hj. rewrite (H2 j) by (done || lia). done.
  - rewrite H1; [unfold two_bufs; case_if; by apply ld8_byte|]. intros j Hj E. apply Hno, Exists_exists. exists j. split; [|done]. apply elem_of_seqZ. lia.
Qed.

(** ** Entries *)

(** The first entry in use with the given key: its inode and its offset. *)
Fixpoint dir_find (n : list Z) (es : list (Z * list Z)) (off : Z) : option (Z * Z) :=
  match es with
  | [] => None
  | (i, m) :: es' => if negb (i =? 0) && bool_decide (m = n) then Some (i, off) else dir_find n es' (off + 16)
  end.

(** The first empty entry. *)
Fixpoint slot_find (es : list (Z * list Z)) (off : Z) : Z :=
  match es with
  | [] => off
  | (i, _) :: es' => if i =? 0 then off else slot_find es' (off + 16)
  end.

(** The names in use, with their inodes; of two entries with one name the
    first counts. *)
Definition map_of (es : list (Z * list Z)) : gmap (list Z) Z :=
  list_to_map (omap (fun e => if e.1 =? 0 then None else Some (e.2, e.1)) es).

Lemma map_of_cons i n es : map_of ((i, n) :: es) = if i =? 0 then map_of es else <[n := i]> (map_of es).
Proof. unfold map_of. cbn. by destruct (i =? 0). Qed.

Lemma dir_find_map n es : forall off, fst <$> dir_find n es off = map_of es !! n.
Proof.
  induction es as [|[i m] es IH]; intros off; [done|]. rewrite map_of_cons. cbn [dir_find]. destruct (Z.eqb_spec i 0); cbn [negb andb]; [apply IH|].
  case_bool_decide as E; [subst m; by rewrite lookup_insert_eq|]. by rewrite lookup_insert_ne.
Qed.

Lemma dir_find_Some n es : forall off i o, dir_find n es off = Some (i, o) ->
  i <> 0 /\ exists k, o = off + 16 * Z.of_nat k /\ es !! k = Some (i, n).
Proof.
  induction es as [|[j m] es IH]; intros off i o; cbn [dir_find]; [done|]. destruct (negb (j =? 0) && bool_decide (m = n)) eqn:E.
  - intros [= -> ->]. apply andb_true_iff in E as [E1 E2%bool_decide_eq_true]. zbool. split; [done|]. exists O. subst m. split; [lia|done].
  - intros (Hi & k & -> & Hk)%IH. split; [done|]. exists (Datatypes.S k). split; [lia|done].
Qed.

(** No two entries in use have the same name. *)
Definition unique_names (es : list (Z * list Z)) : Prop := forall j k i i' n,
  es !! j = Some (i, n) -> es !! k = Some (i', n) -> i <> 0 -> i' <> 0 -> j = k.

Lemma unique_tail e es : unique_names (e :: es) -> unique_names es.
Proof. intros Hu j k i i' n Hj Hk Hi Hi'. specialize (Hu (Datatypes.S j) (Datatypes.S k) i i' n Hj Hk Hi Hi'). by injection Hu. Qed.

Lemma map_of_None es n : map_of es !! n = None -> forall k i, es !! k = Some (i, n) -> i = 0.
Proof.
  induction es as [|[j m] es IH]; intros Hn k i Hk; [done|]. rewrite map_of_cons in Hn. destruct (Z.eqb_spec j 0) as [->|Hj].
  - destruct k as [|k]; [cbn in Hk; by injection Hk|]. by apply (IH Hn k).
  - apply lookup_insert_None in Hn as [Hn Hne]. destruct k as [|k]; [cbn in Hk; congruence|]. by apply (IH Hn k).
Qed.

Lemma map_of_Some es n i : map_of es !! n = Some i -> i <> 0 /\ exists k, es !! k = Some (i, n).
Proof.
  intros Hi. rewrite <-(dir_find_map n es 0) in Hi. destruct (dir_find n es 0) as [[j o]|] eqn:E; [|done]. cbn in Hi. injection Hi as ->.
  apply dir_find_Some in E as (H0 & k & _ & Hk). split; [done|]. by exists k.
Qed.

(** Filling an empty entry. *)
Lemma map_of_fill es : forall k m i n, es !! k = Some (0, m) -> i <> 0 -> map_of es !! n = None ->
  map_of (<[k := (i, n)]> es) = <[n := i]> (map_of es).
Proof.
  induction es as [|[j m'] es IH]; intros k m i n Hk Hi Hn; [done|]. destruct k as [|k].
  - cbn in Hk. injection Hk as -> ->. change (<[0%nat := (i, n)]> ((0, m) :: es)) with ((i, n) :: es). rewrite !map_of_cons. by rewrite (proj2 (Z.eqb_neq i 0)).
  - cbn in Hk. change (<[Datatypes.S k := (i, n)]> ((j, m') :: es)) with ((j, m') :: <[k := (i, n)]> es). rewrite map_of_cons in *. rewrite map_of_cons. destruct (Z.eqb_spec j 0).
    + by apply (IH k m).
    + apply lookup_insert_None in Hn as [Hn Hne]. rewrite (IH k m i n Hk Hi Hn). by rewrite insert_insert_ne by congruence.
Qed.

(** Clearing the only entry of a name. *)
Lemma map_of_clear es : forall k m i n, unique_names es -> es !! k = Some (i, n) -> i <> 0 ->
  map_of (<[k := (0, m)]> es) = delete n (map_of es).
Proof.
  induction es as [|[j m'] es IH]; intros k m i n Hu Hk Hi; [done|]. destruct k as [|k].
  - cbn in Hk. injection Hk as -> ->. change (<[0%nat := (0, m)]> ((i, n) :: es)) with ((0, m) :: es). rewrite !map_of_cons. cbn [Z.eqb]. rewrite (proj2 (Z.eqb_neq i 0)) by done.
    rewrite delete_insert_eq, delete_id; [done|]. destruct (map_of es !! n) as [i'|] eqn:E; [|done]. exfalso.
    apply map_of_Some in E as (Hi' & k & Hk). by specialize (Hu 0%nat (Datatypes.S k) i i' n eq_refl Hk Hi Hi').
  - cbn in Hk. change (<[Datatypes.S k := (0, m)]> ((j, m') :: es)) with ((j, m') :: <[k := (0, m)]> es). rewrite !map_of_cons. rewrite (IH k m i n (unique_tail _ _ Hu) Hk Hi).
    destruct (Z.eqb_spec j 0) as [|Hj]; [done|]. rewrite delete_insert_ne; [done|]. intros ->.
    by specialize (Hu 0%nat (Datatypes.S k) j i _ eq_refl Hk Hj Hi).
Qed.

Lemma unique_fill es k m i n : unique_names es -> es !! k = Some (0, m) -> map_of es !! n = None -> unique_names (<[k := (i, n)]> es).
Proof.
  intros Hu Hk Hn j j' a a' b Hj Hj' Ha Ha'.
  apply list_lookup_insert_Some in Hj as [(<- & E & _)|[Hne Hj]]; apply list_lookup_insert_Some in Hj' as [(<- & E' & _)|[Hne' Hj']]; try done.
  - injection E as <- <-. by apply (map_of_None _ _ Hn) in Hj'.
  - injection E' as <- <-. by apply (map_of_None _ _ Hn) in Hj.
  - by eapply Hu.
Qed.

Lemma slot_find_Some es k m : es !! k = Some (0, m) -> forall off, exists k' m', slot_find es off = off + 16 * Z.of_nat k' /\ es !! k' = Some (0, m').
Proof.
  revert k. induction es as [|[i n] es IH]; intros k Hk off; [done|]. cbn [slot_find]. destruct (Z.eqb_spec i 0) as [->|Hi].
  - exists 0%nat, n. split; [lia|done].
  - destruct k as [|k]; [cbn in Hk; congruence|]. destruct (IH k Hk (off + 16)) as (k' & m' & -> & Hk'). exists (Datatypes.S k'), m'. split; [lia|done].
Qed.

Section Dir.
Context {S : Type} `{BufCache S}.
Implicit Types (f : fs S) (l : log S) (v : bspec) (x : inode).

Definition dirent v x (o : Z) : list Z := map (file_byte v x) (seqZ o 16).

Definition entry v x (k : Z) : Z * list Z := (de_inum (dirent v x (16 * k)), key (de_name (dirent v x (16 * k)))).

Definition entries_from v x (k : Z) : list (Z * list Z) := map (entry v x) (seqZ k (i_size x / 16 - k)).

Definition entries v x : list (Z * list Z) := entries_from v x 0.

(** A file of whole entries. *)
Record dir_ok l v x : Prop := {
  d_file : file_ok l v x;
  d_type : i_type x = T_DIR;
  d_size : i_size x mod 16 = 0;
  d_bytes : forall o, 0 <= o < i_size x -> is_byte (file_byte v x o)
}.

Lemma entries_from_cons v x k : 16 * k < i_size x -> i_size x mod 16 = 0 -> 0 <= k ->
  entries_from v x k = entry v x k :: entries_from v x (k + 1).
Proof.
  intros Hk Hm H0. unfold entries_from. assert (0 < i_size x / 16 - k) by (Z.div_mod_to_equations; lia).
  rewrite seqZ_cons by lia. cbn [map]. do 3 f_equal; lia.
Qed.

Lemma entries_from_nil v x k : i_size x <= 16 * k -> entries_from v x k = [].
Proof. intros Hk. unfold entries_from. by rewrite seqZ_nil by (Z.div_mod_to_equations; lia). Qed.

Lemma zlen_dirent v x o : zlen (dirent v x o) = 16.
Proof. unfold dirent, zlen. by rewrite length_map, length_seqZ. Qed.

Lemma dirent_bytes l v x k : dir_ok l v x -> 0 <= k -> 16 * k < i_size x -> Forall is_byte (dirent v x (16 * k)).
Proof.
  intros Hd Hk Hs. apply Forall_forall. intros y (o & -> & Ho)%list_elem_of_fmap. apply elem_of_seqZ in Ho.
  apply (d_bytes _ _ _ Hd). pose proof (d_size _ _ _ Hd). Z.div_mod_to_equations. lia.
Qed.

Lemma file_ok_cache l v x c : file_ok l v x -> file_ok (with_cache l c) v x.
Proof. intros []. by split. Qed.

Section Read.
Variable devsw_read : Z -> option (Z -> Z -> M (fs S) (list Z * Z)).

(** Reading one entry. *)
Lemma read_entry f l v c dp x k : ready v c -> zget (inodes f) dp = Some x -> dir_ok l v x -> 0 <= k -> 16 * k < i_size x ->
  exists c', readi devsw_read dp (16 * k) 16 (with_c f l c) = Ok (dirent v x (16 * k), 16) (with_c f l c') /\ ready v c'.
Proof.
  intros [Hr Hroom] Hx Hd Hk Hs. pose proof (d_size _ _ _ Hd). pose proof (fo_size _ _ _ (d_file _ _ _ Hd)) as Hmax.
  unfold MAXFILE, NDIRECT, NINDIRECT in Hmax.
  destruct (readi_run devsw_read (with_c f l c) v dp x (16 * k) 16) as (c' & E & Hr'); [done|done|done|by apply file_ok_cache, d_file|lia|lia|lia|].
  assert (16 * k + 16 <= i_size x) by (Z.div_mod_to_equations; lia). rewrite Z.min_l in E by lia. exists c'. by split.
Qed.

Lemma dirlookup_from_run f l v dp x name n : zget (inodes f) dp = Some x -> dir_ok l v x -> Forall is_byte name ->
  forall c k, ready v c -> 0 <= k <= i_size x / 16 -> i_size x / 16 - k < Z.of_nat n ->
  exists c', dirlookup_from devsw_read n dp name (16 * k) (with_c f l c) =
      Ok (dir_find (key name) (entries_from v x k) (16 * k)) (with_c f l c') /\ ready v c'.
Proof.
  intros Hx Hd Hn. pose proof (d_size _ _ _ Hd) as Hm. induction n as [|n IH]; intros c k Hr Hk Hf; [lia|].
  cbn [dirlookup_from]. rewrite (bind_ok _ _ _ _ _ (get_inode_run f (with_cache l c) dp x Hx)). destruct (Z.ltb_spec (16 * k) (i_size x)) as [Hlt|Hge].
  - destruct (read_entry f l v c dp x k Hr Hx Hd ltac:(lia) Hlt) as (c1 & E1 & Hr1). fold (with_c f l c). rewrite (bind_ok _ _ _ _ _ E1). cbn [fst snd Z.eqb Pos.eqb negb].
    rewrite entries_from_cons by (done || lia). cbn [dir_find entry]. pose proof (dirent_bytes _ _ _ _ Hd (proj1 Hk) Hlt) as Hb.
    destruct (IH c1 (k + 1) Hr1) as (c2 & E2 & Hr2); [Z.div_mod_to_equations; lia|lia|]. replace (16 * (k + 1)) with (16 * k + 16) in E2 by lia.
    destruct (Z.eqb_spec (de_inum (dirent v x (16 * k))) 0) as [->|Hi]; cbn [negb andb]; [by exists c2|].
    assert (Forall is_byte (de_name (dirent v x (16 * k)))) as Hbn by (apply Forall_take, Forall_drop, Hb).
    case_bool_decide as Hkey.
    + rewrite (proj2 (Z.eqb_eq _ _)) by (by apply namecmp_key). by exists c1.
    + rewrite (proj2 (Z.eqb_neq _ _)) by (by rewrite namecmp_key by done). by exists c2.
  - rewrite entries_from_nil by done. by exists c.
Qed.

Lemma dirlink_slot_run f l v dp x n : zget (inodes f) dp = Some x -> dir_ok l v x ->
  forall c k, ready v c -> 0 <= k <= i_size x / 16 -> i_size x / 16 - k < Z.of_nat n ->
  exists c', dirlink_slot devsw_read n dp (16 * k) (with_c f l c) = Ok (slot_find (entries_from v x k) (16 * k)) (with_c f l c') /\ ready v c'.
Proof.
  intros Hx Hd. pose proof (d_size _ _ _ Hd) as Hm. induction n as [|n IH]; intros c k Hr Hk Hf; [lia|].
  cbn [dirlink_slot]. rewrite (bind_ok _ _ _ _ _ (get_inode_run f (with_cache l c) dp x Hx)). destruct (Z.ltb_spec (16 * k) (i_size x)) as [Hlt|Hge].
  - destruct (read_entry f l v c dp x k Hr Hx Hd ltac:(lia) Hlt) as (c1 & E1 & Hr1). fold (with_c f l c). rewrite (bind_ok _ _ _ _ _ E1). cbn [fst snd Z.eqb Pos.eqb negb].
    rewrite entries_from_cons by (done || lia). cbn [slot_find entry].
    destruct (de_inum (dirent v x (16 * k)) =? 0); [by exists c1|].
    destruct (IH c1 (k + 1) Hr1) as (c2 & E2 & Hr2); [Z.div_mod_to_equations; lia|lia|]. replace (16 * (k + 1)) with (16 * k + 16) in E2 by lia. by exists c2.
  - rewrite entries_from_nil by done. by exists c.
Qed.

(** dirlookup is a search of the entries followed by iget. *)
Lemma dirlookup_run f v dp x name : bc_rep (lg_cache (flog f)) v -> Z.of_nat (size (in_use v)) <= 9 ->
  zget (inodes f) dp = Some x -> dir_ok (flog f) v x -> Forall is_byte name ->
  exists c, ready v c /\ dirlookup devsw_read dp name f =
    match dir_find (key name) (entries v x) 0 with
    | Some (inum, off) => bind (iget ROOTDEV inum) (fun ip => ret (ip, off)) (with_c f (flog f) c)
    | None => Ok (NULL, 0) (with_c f (flog f) c)
    end.
Proof.
  intros Hr Hroom Hx Hd Hn. assert (get_inode dp f = Ok x f) as Hget by (unfold get_inode, bind, get; by rewrite Hx).
  destruct (dirlookup_from_run f (flog f) v dp x name (dir_fuel (i_size x)) Hx Hd Hn (lg_cache (flog f)) 0) as (c & E & Hc); [by split| | |].
  { split; [done|]. apply Z.div_pos; [|lia]. apply (fo_size _ _ _ (d_file _ _ _ Hd)). }
  { unfold dir_fuel. pose proof (fo_size _ _ _ (d_file _ _ _ Hd)). assert (0 <= i_size x / 16) by (apply Z.div_pos; lia). lia. }
  unfold with_c at 1 in E. rewrite with_cache_id, with_log_id in E. change (16 * 0) with 0 in E.
  exists c. split; [done|]. unfold dirlookup. rewrite (bind_ok _ _ _ _ _ Hget), (d_type _ _ _ Hd). cbn [negb Z.eqb T_DIR Pos.eqb].
  rewrite (bind_ok _ _ _ _ _ E). fold (entries v x). rewrite (fo_dev _ _ _ (d_file _ _ _ Hd)). destruct (dir_find _ _ _) as [[inum off]|]; done.
Qed.
(** dirlookup is the lookup of the map the directory stands for: for an
    unbound name it returns no inode, for a bound one the inode cache's entry
    for the bound number, with the offset of the directory entry; reading
    changes neither the disk's view nor, by itself, the inode cache. *)
Lemma dirlookup_ok f v dp x name : bc_rep (lg_cache (flog f)) v -> Z.of_nat (size (in_use v)) <= 9 ->
  zget (inodes f) dp = Some x -> dir_ok (flog f) v x -> Forall is_byte name -> icache_ok (inodes f) -> ic_lock f = false ->
  match map_of (entries v x) !! key name with
  | None => wp (dirlookup devsw_read dp name) (fun r f' => r = (NULL, 0) /\ exists c, f' = with_c f (flog f) c /\ bc_rep c v) f
  | Some inum =>
      (exists i y, zget (inodes f) i = Some y /\ (caches_inode ROOTDEV inum y \/ i_ref y = 0)) ->
      wp (dirlookup devsw_read dp name) (fun r f' => iget_result f ROOTDEV inum r.1 f' /\ icache_ok (inodes f') /\ ic_lock f' = false /\
        (exists k, r.2 = 16 * Z.of_nat k /\ entries v x !! k = Some (inum, key name)) /\
        exists c, flog f' = with_cache (flog f) c /\ bc_rep c v) f
  end.
Proof.
  intros Hr Hroom Hx Hd Hn Hic Hlk. destruct (dirlookup_run f v dp x name Hr Hroom Hx Hd Hn) as (c & [Hc _] & E).
  rewrite <-(dir_find_map _ _ 0). destruct (dir_find (key name) (entries v x) 0) as [[inum off]|] eqn:Ef; cbn [fmap option_fmap option_map fst].
  - intros Hfree. unfold wp. rewrite E. change (wp (bind (iget ROOTDEV inum) (fun ip => ret (ip, off))) (fun r f' =>
      iget_result f ROOTDEV inum r.1 f' /\ icache_ok (inodes f') /\ ic_lock f' = false /\
      (exists k, r.2 = 16 * Z.of_nat k /\ entries v x !! k = Some (inum, key name)) /\
      exists c, flog f' = with_cache (flog f) c /\ bc_rep c v) (with_c f (flog f) c)).
    apply wp_bind. eapply wp_mono; [apply iget_wp; done|]. intros ip f' (A & B & C & D). apply wp_ret. cbn [fst snd].
    split; [exact A|]. split; [done|]. split; [done|]. split; [|by exists c]. apply dir_find_Some in Ef as (_ & k & -> & Hk). by exists k.
  - eapply ok_wp; [exact E|]. split; [done|]. by exists c.
Qed.
End Read.

(** ** Writing an entry *)

Lemma lookup_entries v x k e : entries v x !! k = Some e <-> e = entry v x (Z.of_nat k) /\ Z.of_nat k < i_size x / 16.
Proof.
  unfold entries, entries_from. rewrite list_lookup_fmap, Z.sub_0_r. destruct (decide (Z.of_nat k < i_size x / 16)) as [Hk|Hk].
  - rewrite lookup_seqZ_lt by done. cbn. rewrite Z.add_0_l. split; [intros [= <-]; done|by intros [-> _]].
  - rewrite lookup_seqZ_ge by lia. split; [done|lia].
Qed.

Lemma dirent_written f v x src k l' v' j : written f v x src (16 * k) 16 l' v' -> zlen src = 16 -> 0 <= k -> 0 <= j ->
  16 * k + 16 <= i_size x -> 16 * j + 16 <= i_size x -> dirent v' x (16 * j) = if decide (j = k) then src else dirent v x (16 * j).
Proof.
  intros (_ & _ & _ & Hby) Hs Hk Hj Hks Hjs. unfold dirent. destruct (decide (j = k)) as [->|Hne].
  - apply list_eq. intros i. rewrite list_lookup_fmap. unfold zlen in Hs. destruct (decide (Z.of_nat i < 16)) as [Hi|Hi].
    + rewrite lookup_seqZ_lt by done. cbn [fmap option_fmap option_map]. rewrite Hby by lia.
      rewrite (proj2 (Z.leb_le _ _)), (proj2 (Z.ltb_lt _ (16 * k + 16))) by lia. cbn [andb]. replace (16 * k + Z.of_nat i - 16 * k) with (Z.of_nat i) by lia.
      unfold ld8. rewrite zget_of_nat. destruct (lookup_lt_is_Some_2 src i) as [y ->]; [lia|done].
    + rewrite lookup_seqZ_ge by lia. cbn. symmetry. apply lookup_ge_None. lia.
  - apply map_shift. intros o Ho. rewrite Hby by lia.
    destruct (Z.leb_spec (16 * k) (16 * j + o)), (Z.ltb_spec (16 * j + o) (16 * k + 16)); try done. lia.
Qed.

(** The directory after one entry has been overwritten in place. *)
Lemma entries_written f v x src k l' v' : dir_ok (flog f) v x -> written f v x src (16 * Z.of_nat k) 16 l' v' -> zlen src = 16 -> Forall is_byte src ->
  16 * Z.of_nat k + 16 <= i_size x ->
  dir_ok l' v' x /\ entries v' x = <[k := (de_inum src, key (de_name src))]> (entries v x).
Proof.
  intros Hd Hw Hs Hb Hk. pose proof (d_size _ _ _ Hd) as Hm. split.
  - destruct Hd as [A B C D]. destruct Hw as (_ & Hf & _ & Hby). split; try done. intros o Ho. rewrite Hby by done.
    case_if; [by apply ld8_byte|by apply D].
  - apply list_eq. intros j. apply option_eq. intros e. rewrite lookup_entries. unfold entry.
    split.
    + intros [-> Hj]. rewrite (dirent_written _ _ _ _ _ _ _ _ Hw) by (try done; Z.div_mod_to_equations; lia). case_decide as Hjk.
      * assert (j = k) as -> by lia. rewrite list_lookup_insert_eq; [done|]. apply lookup_lt_Some with (x := entry v x (Z.of_nat k)), lookup_entries. done.
      * rewrite list_lookup_insert_ne by lia. by apply lookup_entries.
    + intros Hl. assert (e = entry v' x (Z.of_nat j) /\ Z.of_nat j < i_size x / 16) as [-> Hj]; [|done].
      unfold entry. destruct (decide (j = k)) as [->|Hjk].
      * assert (Z.of_nat k < i_size x / 16) by (Z.div_mod_to_equations; lia). rewrite list_lookup_insert_eq in Hl
          by (apply lookup_lt_Some with (x := entry v x (Z.of_nat k)), lookup_entries; done). injection Hl as <-.
        rewrite (dirent_written _ _ _ _ _ _ _ _ Hw) by (try done; lia). by rewrite decide_True.
      * rewrite list_lookup_insert_ne in Hl by lia. apply lookup_entries in Hl as [-> Hj].
        rewrite (dirent_written _ _ _ _ _ _ _ _ Hw) by (try done; Z.div_mod_to_equations; lia). by rewrite decide_False by lia.
Qed.
End Dir.

(** ** dirlink and unlink *)

Lemma zlen_mkdirent name inum : zlen (mkdirent name inum) = 16.
Proof. unfold mkdirent. rewrite zlen_app, zlen_copy_name. done. Qed.

Lemma mkdirent_name name inum : de_name (mkdirent name inum) = copy_name name.
Proof.
  unfold de_name, bytes_at, mkdirent. change (Z.to_nat 2) with 2%nat. cbn [app drop]. apply take_ge. pose proof (zlen_copy_name name) as E. unfold zlen, DIRSIZ in E.
  change (Z.to_nat DIRSIZ) with 14%nat. lia.
Qed.

Lemma mkdirent_inum name inum : 0 <= inum < 2 ^ 16 -> de_inum (mkdirent name inum) = inum.
Proof.
  intros Hi. unfold de_inum, ld16. change (ld8 (mkdirent name inum) 0) with (u8 inum). change (ld8 (mkdirent name inum) (0 + 1)) with (u8 (inum / 2 ^ 8)).
  unfold u8. change (2 ^ 8) with 256. change (2 ^ 16) with 65536 in Hi. Z.div_mod_to_equations. lia.
Qed.

Lemma mkdirent_bytes name inum : Forall is_byte name -> Forall is_byte (mkdirent name inum).
Proof.
  intros Hn. unfold mkdirent. cbn [app]. constructor; [|constructor; [|by apply copy_name_bytes]]; unfold is_byte, u8; apply Z.mod_pos_bound; lia.
Qed.

Section Link.
Context {S : Type} `{BufCache S}.
Implicit Types (f : fs S) (l : log S) (v : bspec) (x : inode).
Variable devsw_read : Z -> option (Z -> Z -> M (fs S) (list Z * Z)).
Variable devsw_write : Z -> option (Z -> list Z -> Z -> M (fs S) Z).

(** The entries of the inode cache that are in use are the same. *)
Definition same_inodes (l l' : list inode) : Prop := forall i y, 0 < i_ref y -> zget l' i = Some y <-> zget l i = Some y.

(** Dropping the reference that iget has just given. *)
Lemma iget_iput f g dev inum ip : iget_result f dev inum ip g -> ic_lock g = false ->
  wp (iput ip) (fun _ g' => same_inodes (inodes f) (inodes g') /\ ic_lock g' = false /\ flog g' = flog g) g.
Proof.
  intros (x & x' & Hx & Hg & Hdev & Hin & Hor) Hl. pose proof (zget_Some _ _ _ Hx) as Hip. unfold iput.
  apply wp_bind. eapply ok_wp; [by apply lock_icache_ok|]. set (g1 := Fs true _ _ _).
  assert (zget (inodes g1) ip = Some x') as Hx1 by (cbn; rewrite Hg; by apply zget_zset_eq).
  apply wp_bind. eapply ok_wp; [unfold get_inode, bind, get; by rewrite Hx1|].
  assert ((i_ref x' =? 1) && negb (Z.land (i_flags x') I_VALID =? 0) && (i_nlink x' =? 0) = false) as Hno.
  { destruct Hor as [[(Hr & _) ->]|(_ & _ & -> & _)]; [|cbn; by rewrite andb_false_r]. cbn [i_ref set_ref]. by rewrite (proj2 (Z.eqb_neq _ 1)) by lia. }
  rewrite Hno. apply wp_bind, wp_ret. apply wp_bind. eapply ok_wp; [by apply (upd_inode_ok g1 ip x')|]. apply wp_modify. cbn.
  split; [|done]. rewrite Hg, zset_zset. intros i y Hy. destruct (decide (i = ip)) as [->|Hne]; [|by rewrite zget_zset_ne].
  rewrite zget_zset_eq, Hx by done. destruct Hor as [[(Hr & _) ->]|(Hr0 & Hr1 & _ & _)].
  - assert (set_ref (i_ref (set_ref (i_ref x + 1) x) - 1) (set_ref (i_ref x + 1) x) = x) as ->; [|done].
    unfold set_ref. cbn. replace (i_ref x + 1 - 1) with (i_ref x) by lia. by destruct x.
  - split; intros [= <-]; cbn in Hy; lia.
Qed.

(** What overwriting an entry leaves behind: a directory with the map [mp], and
    nothing else changed outside its blocks. *)
Definition dir_becomes f v x (mp : gmap (list Z) Z) f' : Prop := exists l' v' k', f' = with_log f l' /\ same_log (flog f) l' /\ tx l' v' k' /\ 0 <= k' /\
  dir_ok l' v' x /\ unique_names (entries v' x) /\ map_of (entries v' x) = mp /\ only_file (flog f) v v' x.

Lemma blocks_of_entry k : 0 <= k -> blocks_of (16 * k) 16 = 1.
Proof. intros Hk. unfold blocks_of. cbn [Z.eqb]. Z.div_mod_to_equations. lia. Qed.

(** Dirlink refines insertion into the map of the directory.  A name
    that is bound is refused and nothing that is in use changes.  An unbound
    name is bound to the inode in a free entry, within the transaction: the
    map gains exactly that binding, names stay unique, and no byte outside the
    directory's blocks and nothing on the disk changes. *)
Theorem dirlink_spec f v k dp x name inum : tx (flog f) v k -> 0 < k -> zget (inodes f) dp = Some x -> dir_ok (flog f) v x ->
  unique_names (entries v x) -> Forall is_byte name -> 0 < inum < 2 ^ 16 -> icache_ok (inodes f) -> ic_lock f = false ->
  match map_of (entries v x) !! key name with
  | Some i => (exists j y, zget (inodes f) j = Some y /\ (caches_inode ROOTDEV i y \/ i_ref y = 0)) ->
      wp (dirlink devsw_read devsw_write dp name inum) (fun r f' => r = -1 /\ same_inodes (inodes f) (inodes f') /\
        exists c, flog f' = with_cache (flog f) c /\ bc_rep c v) f
  | None => (exists j m, entries v x !! j = Some (0, m)) ->
      wp (dirlink devsw_read devsw_write dp name inum) (fun r f' => r = 0 /\
        dir_becomes f v x (<[key name := inum]> (map_of (entries v x))) f') f
  end.
Proof.
  intros Ht Hk Hx Hd Hu Hn Hi Hic Hlk. pose proof (tx_room _ _ _ Ht) as Hroom. pose proof (tx_rep _ _ _ Ht) as Hr.
  pose proof (dirlookup_ok devsw_read f v dp x name Hr ltac:(lia) Hx Hd Hn Hic Hlk) as HL.
  destruct (map_of (entries v x) !! key name) as [i|] eqn:Em.
  - intros Hfree. unfold dirlink. apply wp_bind. eapply wp_mono; [exact (HL Hfree)|]. intros [ip off] f1 (Hg & _ & Hl1 & _ & c & Ec & Hc). cbn [fst] in *.
    assert (ip =? NULL = false) as -> by (destruct Hg as (y & _ & Hy & _); apply zget_Some in Hy; apply Z.eqb_neq; unfold NULL; lia). cbn [negb].
    apply wp_bind. eapply wp_mono; [by apply (iget_iput f f1 ROOTDEV i ip)|]. intros [] f2 (A & B & C). apply wp_ret.
    split; [done|]. split; [done|]. exists c. split; [congruence|done].
  - intros (j & m & Hj). unfold dirlink. apply wp_bind. eapply wp_mono; [exact HL|]. intros r f1 (-> & c & -> & Hc). cbn [fst negb Z.eqb NULL Pos.eqb].
    apply wp_bind. eapply ok_wp; [by apply get_inode_run|].
    destruct (dirlink_slot_run devsw_read f (flog f) v dp x (dir_fuel (i_size x)) Hx Hd c 0) as (c2 & E2 & [Hc2 _]).
    { split; [done|lia]. }
    { split; [done|]. apply Z.div_pos; [|lia]. apply (fo_size _ _ _ (d_file _ _ _ Hd)). }
    { unfold dir_fuel. pose proof (fo_size _ _ _ (d_file _ _ _ Hd)). assert (0 <= i_size x / 16) by (apply Z.div_pos; lia). lia. }
    change (16 * 0) with 0 in E2. eapply wp_bind_ok; [exact E2|]. fold (entries v x).
    destruct (slot_find_Some _ _ _ Hj 0) as (q & m' & -> & Hq). rewrite Z.add_0_l.
    pose proof (proj1 (lookup_entries _ _ _ _) Hq) as [_ Hqs]. pose proof (d_size _ _ _ Hd) as Hm.
    assert (16 * Z.of_nat q + 16 <= i_size x) as Hin by (Z.div_mod_to_equations; lia).
    destruct (writei_run devsw_write (with_c f (flog f) c2) v k dp x (mkdirent name inum) (16 * Z.of_nat q) 16) as (l' & v' & k' & Ew & Ht' & Hk' & Hw).
    { by apply (tx_cache (flog f)). } { done. } { by apply file_ok_cache, d_file. } { lia. } { rewrite zlen_mkdirent. lia. } { lia. }
    { rewrite blocks_of_entry by lia. lia. } { lia. }
    eapply wp_bind_ok; [exact Ew|]. cbn [negb Z.eqb Pos.eqb]. apply wp_ret. split; [done|].
    assert (dir_ok (flog (with_c f (flog f) c2)) v x) as Hd' by (destruct Hd; split; try done; by apply file_ok_cache).
    destruct (entries_written _ _ _ _ _ _ _ Hd' Hw (zlen_mkdirent name inum) (mkdirent_bytes name inum Hn) Hin) as [Hd2 He].
    rewrite mkdirent_inum, mkdirent_name, copy_name_key in He by lia.
    exists l', v', k'. split; [done|]. split; [exact (proj1 Hw)|]. split; [done|]. split; [done|]. split; [done|]. rewrite He. split; [by eapply unique_fill|].
    split; [|exact (proj1 (proj2 (proj2 Hw)))]. eapply map_of_fill; [exact Hq|lia|done].
Qed.

(** The write by which unlink clears the entry that dirlookup found removes
    exactly that name from the map of the directory. *)
Theorem unlink_entry_spec f v k dp x j i n : tx (flog f) v k -> 0 < k -> zget (inodes f) dp = Some x -> dir_ok (flog f) v x ->
  unique_names (entries v x) -> entries v x !! j = Some (i, n) -> i <> 0 ->
  wp (writei devsw_write dp (replicate 16 0) (16 * Z.of_nat j) 16) (fun r f' => r = 16 /\
    dir_becomes f v x (delete n (map_of (entries v x))) f') f.
Proof.
  intros Ht Hk Hx Hd Hu Hj Hi. pose proof (proj1 (lookup_entries _ _ _ _) Hj) as [_ Hjs]. pose proof (d_size _ _ _ Hd) as Hm.
  assert (16 * Z.of_nat j + 16 <= i_size x) as Hin by (Z.div_mod_to_equations; lia).
  destruct (writei_run devsw_write f v k dp x (replicate 16 0) (16 * Z.of_nat j) 16) as (l' & v' & k' & Ew & Ht' & Hk' & Hw);
    [done|done|by apply d_file|lia|by vm_compute|lia|rewrite blocks_of_entry; lia|lia|].
  eapply ok_wp; [exact Ew|]. split; [done|].
  destruct (entries_written _ _ _ _ _ _ _ Hd Hw eq_refl ltac:(repeat constructor; lia) Hin) as [Hd2 He].
  change (de_inum (replicate 16 0)) with 0 in He. exists l', v', k'. split; [done|]. split; [exact (proj1 Hw)|]. split; [done|]. split; [done|]. split; [done|].
  rewrite He. split; [|split; [by eapply map_of_clear|exact (proj1 (proj2 (proj2 Hw)))]].
  intros a b p q nm Ha Hb Hp Hq. apply list_lookup_insert_Some in Ha as [(<- & E & _)|[Hne Ha]]; apply list_lookup_insert_Some in Hb as [(<- & E' & _)|[Hne' Hb]]; try done.
  - by injection E as <- _.
  - by injection E' as <- _.
  - by eapply Hu.
Qed.
End Link.
