(* ===== verification/FsPath.v ===== *)
(** * Path names

    namex walks a path through the directories of the disk.  [resolve] is what
    the path means: from a directory, follow the map of names element by
    element.  namex finds exactly that inode, and of all the references it takes
    on the way it keeps only the one to the inode it returns. *)

From S2P Require Import Prelude CString BlockCache Bio BioSpec Log LogSpec LogInst Fs FsSpec FsInst FsIo FsDir.

(** ** Counting references *)

Definition contrib (y : inode) (j : Z) : Z := if i_inum y =? j then i_ref y else 0.

(** The references to inode [j]. *)
Definition refs (l : list inode) (j : Z) : Z := foldr (fun y s => contrib y j + s) 0 l.

Definition one (i j : Z) : Z := if decide (i = j) then 1 else 0.

Lemma refs_insert l k x x' j : l !! k = Some x -> refs (<[k := x']> l) j = refs l j - contrib x j + contrib x' j.
Proof.
  revert k. induction l as [|y l IH]; intros [|k] Hk; [done|done|..]; cbn in Hk.
  - injection Hk as ->. change (<[0%nat := x']> (x :: l)) with (x' :: l). cbn. lia.
  - change (<[S k := x']> (y :: l)) with (y :: <[k := x']> l). cbn [refs foldr]. fold (refs (<[k := x']> l) j). fold (refs l j).
    rewrite (IH k Hk). lia.
Qed.

Lemma irefs_zset l i x x' j : zget l i = Some x -> refs (zset l i x') j = refs l j - contrib x j + contrib x' j.
Proof.
  intros Hx. pose proof (zget_Some _ _ _ Hx) as Hi. rewrite zget_nat in Hx by lia. unfold zset. rewrite (proj2 (Z.leb_le 0 i)) by lia.
  by apply refs_insert.
Qed.

Definition nonneg_refs (l : list inode) : Prop := forall i y, zget l i = Some y -> 0 <= i_ref y.

Lemma nonneg_cons y l : nonneg_refs (y :: l) -> 0 <= i_ref y /\ nonneg_refs l.
Proof.
  intros Hn. split; [by apply (Hn 0)|]. intros i z Hz. pose proof (zget_Some _ _ _ Hz). apply (Hn (i + 1)).
  rewrite zget_succ by lia. by replace (i + 1 - 1) with i by lia.
Qed.

Lemma refs_nonneg l j : nonneg_refs l -> 0 <= refs l j.
Proof.
  induction l as [|y l IH]; intros Hn; [done|]. apply nonneg_cons in Hn as [Hy Hn]. specialize (IH Hn). cbn. fold (refs l j).
  unfold contrib. case_if; lia.
Qed.

Lemma refs_pos l j : nonneg_refs l -> 0 < refs l j <-> exists i y, zget l i = Some y /\ i_inum y = j /\ 0 < i_ref y.
Proof.
  induction l as [|y l IH]; intros Hn.
  - split; [done|]. intros (i & y & Hy & _). apply zget_Some in Hy. unfold zlen in Hy. cbn in Hy. lia.
  - apply nonneg_cons in Hn as [Hy Hn]. cbn [refs foldr]. fold (refs l j). pose proof (refs_nonneg l j Hn) as H0. split.
    + intros Hp. destruct (decide (0 < refs l j)) as [Hl|Hl].
      * apply (IH Hn) in Hl as (i & z & Hz & Hj). pose proof (zget_Some _ _ _ Hz). exists (i + 1), z. split; [|done].
        rewrite zget_succ by lia. by replace (i + 1 - 1) with i by lia.
      * exists 0, y. split; [done|]. unfold contrib in Hp. destruct (Z.eqb_spec (i_inum y) j); [split; [done|lia]|lia].
    + intros (i & z & Hz & Hj & Hr). apply zget_cons in Hz as [[-> ->]|[Hi Hz]].
      * unfold contrib. rewrite (proj2 (Z.eqb_eq _ _) Hj). lia.
      * assert (0 < refs l j) by (apply (IH Hn); by exists (i - 1), z). unfold contrib. case_if; lia.
Qed.

(** A cache with more entries than inodes in use has a free entry. *)
Lemma free_entry (l : list inode) (U : gset Z) : icache_ok l -> (forall i y, zget l i = Some y -> 0 < i_ref y -> i_dev y = ROOTDEV) ->
  (forall j, 0 < refs l j -> j ∈ U) -> Z.of_nat (size U) < zlen l -> exists i y, zget l i = Some y /\ i_ref y = 0.
Proof.
  intros [Hn Hu] Hdev HU Hs. destruct (decide (Exists (fun y => i_ref y = 0) l)) as [He|He].
  - apply Exists_exists in He as (y & (k & Hk)%list_elem_of_lookup & Hy). exists (Z.of_nat k), y. by rewrite zget_of_nat.
  - exfalso. assert (forall k y, l !! k = Some y -> 0 < i_ref y) as Hp.
    { intros k y Hk. rewrite <-zget_of_nat in Hk. specialize (Hn _ _ Hk). destruct (decide (i_ref y = 0)) as [E|]; [|lia]. exfalso. apply He, Exists_exists.
      exists y. split; [|done]. rewrite zget_of_nat in Hk. by eapply list_elem_of_lookup_2. }
    assert (NoDup (i_inum <$> l)) as Hnd.
    { apply NoDup_alt. intros a b j Ha Hb. apply list_lookup_fmap_Some in Ha as (y & -> & Ha). apply list_lookup_fmap_Some in Hb as (z & E & Hb).
      pose proof (Hp _ _ Ha) as Pa. pose proof (Hp _ _ Hb) as Pb. rewrite <-zget_of_nat in Ha, Hb.
      assert (Z.of_nat a = Z.of_nat b); [|lia]. eapply (Hu _ _ y z ROOTDEV (i_inum y) Ha Hb); (split; [done|]); (split; [by eapply Hdev|done]). }
    assert (list_to_set (i_inum <$> l) ⊆ U) as Hsub.
    { intros j Hj. apply elem_of_list_to_set, list_elem_of_lookup in Hj as (a & Ha). apply list_lookup_fmap_Some in Ha as (y & -> & Ha).
      apply HU, (refs_pos _ _ Hn). exists (Z.of_nat a), y. rewrite zget_of_nat. split; [done|]. split; [done|by eapply Hp]. }
    apply subseteq_size in Hsub. rewrite size_list_to_set, length_fmap in Hsub by done. unfold zlen in Hs. lia.
Qed.

(** ** Elements and names *)

Lemma upto_agree n : forall g g' k, 0 <= k -> (forall i, 0 <= i < k -> g i = g' i) -> (k < Z.of_nat n -> g k = 0 /\ g' k = 0) -> upto n g = upto n g'.
Proof.
  induction n as [|n IH]; intros g g' k Hk E He; [done|]. cbn [upto]. destruct (decide (k = 0)) as [->|].
  - destruct (He ltac:(lia)) as [-> ->]. done.
  - rewrite (E 0) by lia. case_if; [done|]. f_equal. apply (IH _ _ (k - 1)); [lia|intros i Hi; apply E; lia|].
    intros Hk'. replace (k - 1 + 1) with k by lia. apply He. lia.
Qed.

(** The name buffer after skipelem means the element. *)
Lemma skipelem_key path name e es : zlen name = DIRSIZ -> path_elems path = e :: es -> exists path' name', skipelem path name = Some (path', name') /\
  path_elems path' = es /\ (path' = [] <-> es = []) /\ zlen name' = DIRSIZ /\ key name' = key e.
Proof.
  intros Hn He. pose proof (skipelem_correct path name Hn) as Hs. rewrite He in Hs. destruct Hs as (p & n & E & A & B & C & D & F).
  exists p, n. split; [done|]. split; [done|]. split; [done|]. split; [done|]. unfold key.
  apply (upto_agree 14 _ _ (Z.min (zlen e) 14)); [unfold zlen; lia| |].
  - intros i Hi. unfold ld8. rewrite !zget_nat by lia. f_equal. unfold zlen in Hi.
    assert (take (Nat.min (length e) 14) n !! Z.to_nat i = take 14 e !! Z.to_nat i) as Ei by by rewrite D.
    by rewrite !lookup_take_lt in Ei by lia.
  - intros Hk. assert (zlen e < 14) as Hl by lia. rewrite Z.min_l by lia. unfold ld8. rewrite (F Hl). split; [done|].
    rewrite zget_nat by (unfold zlen; lia). unfold zlen. rewrite Nat2Z.id. by rewrite lookup_ge_None_2.
Qed.

Lemma skip_slashes_suffix p : exists a, p = a ++ skip_slashes p.
Proof. induction p as [|c p (a & E)]; [by exists []|]. cbn [skip_slashes]. destruct (c =? SLASH); [exists (c :: a); cbn; by rewrite <-E|by exists []]. Qed.

Lemma span_elem_app p : forall e r, span_elem p = (e, r) -> p = e ++ r.
Proof.
  induction p as [|c p IH]; intros e r; cbn [span_elem]; [by intros [= <- <-]|]. destruct (c =? SLASH); [by intros [= <- <-]|].
  destruct (span_elem p) as [e' r'] eqn:E. intros [= <- <-]. cbn. by rewrite <-(IH e' r' eq_refl).
Qed.

Lemma skipelem_rest path name path' name' : skipelem path name = Some (path', name') ->
  (length path' < length path)%nat /\ (Forall is_byte path -> Forall is_byte name -> Forall is_byte path' /\ Forall is_byte name').
Proof.
  unfold skipelem. destruct (skip_slashes_suffix path) as (a & Ea). destruct (skip_slashes path) as [|c p] eqn:Es; [done|].
  destruct (span_elem (c :: p)) as [e r] eqn:Er. intros [= <- <-]. pose proof (span_elem_app _ _ _ Er) as Ecp.
  pose proof (span_elem_nonempty c p e r (skip_slashes_head _ _ _ Es) Er) as Hne. destruct (skip_slashes_suffix r) as (b & Eb).
  assert (path = a ++ e ++ b ++ skip_slashes r) as Ep by (rewrite <-Eb, <-Ecp; done). split.
  - rewrite Ep, !length_app. destruct e; [done|]. cbn. lia.
  - intros Hp Hn. rewrite Ep in Hp. apply Forall_app in Hp as [_ Hp]. apply Forall_app in Hp as [He Hp]. apply Forall_app in Hp as [_ Hp].
    split; [done|]. assert (forall src, Forall is_byte src -> Forall is_byte (splice name 0 src)) as Hsp.
    { intros src Hsrc. unfold splice. apply Forall_app. split; [by apply Forall_take|]. apply Forall_app. split; [done|by apply Forall_drop]. }
    case_if; apply Hsp; [by apply Forall_take|]. apply Forall_app. split; [done|]. by repeat constructor.
Qed.

(** ** Flags *)

Lemma busy_valid a : Z.land (Z.lor a I_BUSY) I_VALID = Z.land a I_VALID.
Proof. rewrite Z.land_lor_distr_l. change (Z.land I_BUSY I_VALID) with 0. apply Z.lor_0_r. Qed.

Lemma busy_busy a : Z.land (Z.lor a I_BUSY) I_BUSY <> 0.
Proof. rewrite Z.land_lor_distr_l. intros E. apply Z.lor_eq_0_iff in E as [_ E]. done. Qed.

Lemma valid_busy a : Z.land (Z.lor a I_VALID) I_BUSY = Z.land a I_BUSY.
Proof. rewrite Z.land_lor_distr_l. change (Z.land I_VALID I_BUSY) with 0. apply Z.lor_0_r. Qed.

Lemma valid_valid a : Z.land (Z.lor a I_VALID) I_VALID <> 0.
Proof. rewrite Z.land_lor_distr_l. intros E. apply Z.lor_eq_0_iff in E as [_ E]. done. Qed.

Lemma clear_busy a : Z.land (Z.land a (Z.lnot I_BUSY)) I_BUSY = 0.
Proof. rewrite <-Z.land_assoc. change (Z.land (Z.lnot I_BUSY) I_BUSY) with 0. apply Z.land_0_r. Qed.

Lemma clear_valid a : Z.land (Z.land a (Z.lnot I_BUSY)) I_VALID = Z.land a I_VALID.
Proof. by rewrite <-Z.land_assoc. Qed.

(** ** The tree on the disk *)

Section Path.
Context {S : Type} `{BufCache S}.
Implicit Types (f : fs S) (l : log S) (v : bspec) (y : inode).

(** [y] with the fields of its inode on the disk. *)
Definition load v y : inode := read_dinode (content v (IBLOCK (i_inum y))) (64 * (i_inum y mod IPB)) y.

Lemma load_set_ref v y r : y = load v y -> set_ref r y = load v (set_ref r y).
Proof. intros E. transitivity (set_ref r (load v y)); [by rewrite <-E|done]. Qed.

Lemma load_set_iflags v y a : y = load v y -> set_iflags a y = load v (set_iflags a y).
Proof. intros E. transitivity (set_iflags a (load v y)); [by rewrite <-E|done]. Qed.

Definition disk_inode v (i : Z) : inode := load v (Inode ROOTDEV i 0 0 0 0 0 0 0 []).

Definition is_dir v (i : Z) : bool := i_type (disk_inode v i) =? T_DIR.

Definition names v (i : Z) : gmap (list Z) Z := map_of (entries v (disk_inode v i)).

(** The inodes of a set closed under names, all of them sound. *)
Definition tree_ok l v (G : Z -> Prop) : Prop := forall i, G i ->
  home l v (IBLOCK i) /\ handles v !! IBLOCK i = None /\ i_type (disk_inode v i) <> 0 /\ i_nlink (disk_inode v i) <> 0 /\
  (is_dir v i = true -> dir_ok l v (disk_inode v i) /\ forall n j, names v i !! n = Some j -> G j).

(** Following a list of elements. *)
Fixpoint resolve v (i : Z) (es : list (list Z)) : option Z :=
  match es with
  | [] => Some i
  | e :: es' => if is_dir v i then j ← names v i !! key e; resolve v j es' else None
  end.

(** The directory in which the last element is to be found. *)
Fixpoint resolve_parent v (i : Z) (es : list (list Z)) : option Z :=
  match es with
  | [] => None
  | [e] => if is_dir v i then Some i else None
  | e :: es' => if is_dir v i then j ← names v i !! key e; resolve_parent v j es' else None
  end.

(** ** The inode cache between operations *)

(** The entries of [lk] are locked; valid entries agree with the disk. *)
Record quiet f v (lk : gset Z) : Prop := {
  q_cache : icache_ok (inodes f);
  q_lock : ic_lock f = false;
  q_rep : bc_rep (lg_cache (flog f)) v;
  q_room : Z.of_nat (size (in_use v)) <= 9;
  q_ino : forall i y, zget (inodes f) i = Some y -> 0 < i_ref y ->
    i_dev y = ROOTDEV /\ (Z.land (i_flags y) I_BUSY = 0 <-> i ∉ lk) /\ (Z.land (i_flags y) I_VALID <> 0 -> y = load v y);
  q_held : forall i, i ∈ lk -> exists y, zget (inodes f) i = Some y /\ 0 < i_ref y
}.

(** Entry [ip] holds inode [j]. *)
Definition holds f (ip j : Z) : Prop := exists y, zget (inodes f) ip = Some y /\ caches_inode ROOTDEV j y.

(** From [f] to [f'] references change by [d], the rest of the state not
    visibly. *)
Definition moves f f' (d : Z -> Z) : Prop := zlen (inodes f') = zlen (inodes f) /\
  (forall j, refs (inodes f') j = refs (inodes f) j + d j) /\ exists c, flog f' = with_cache (flog f) c.

Lemma moves_trans f f1 f2 d1 d2 d : moves f f1 d1 -> moves f1 f2 d2 -> (forall j, d j = d1 j + d2 j) -> moves f f2 d.
Proof.
  intros (A1 & B1 & c1 & C1) (A2 & B2 & c2 & C2) E. split; [congruence|]. split; [intros j; rewrite B2, B1, E; lia|].
  exists c2. by rewrite C2, C1.
Qed.

Lemma moves_home f f' d v s : moves f f' d -> home (flog f) v s -> home (flog f') v s.
Proof. by intros (_ & _ & c & ->). Qed.

Lemma tree_cache l c v G : tree_ok l v G -> tree_ok (with_cache l c) v G.
Proof.
  intros Ht i Hi. destruct (Ht i Hi) as (A & B & C & D & E). split; [done|]. split; [done|]. split; [done|]. split; [done|].
  intros Hd. destruct (E Hd) as [[F1 F2 F3 F4] E2]. split; [split; try done; by apply file_ok_cache|done].
Qed.

Lemma tree_moves f f' d v G : moves f f' d -> tree_ok (flog f) v G -> tree_ok (flog f') v G.
Proof. intros (_ & _ & c & ->). apply tree_cache. Qed.

(** A loaded entry differs from the inode on the disk in its bookkeeping only. *)
Lemma loaded_fields v y : y = load v y -> i_dev y = ROOTDEV ->
  y = Inode ROOTDEV (i_inum y) (i_ref y) (i_flags y) (i_type (disk_inode v (i_inum y))) (i_major (disk_inode v (i_inum y)))
    (i_minor (disk_inode v (i_inum y))) (i_nlink (disk_inode v (i_inum y))) (i_size (disk_inode v (i_inum y))) (i_addrs (disk_inode v (i_inum y))).
Proof. intros E Hd. rewrite E at 1. unfold load, read_dinode. by rewrite Hd. Qed.

Lemma loaded_dir l v y j : y = load v y -> caches_inode ROOTDEV j y -> dir_ok l v (disk_inode v j) -> dir_ok l v y /\ entries v y = entries v (disk_inode v j).
Proof.
  intros E (_ & Hd & Hi) Hok. pose proof (loaded_fields v y E Hd) as F. rewrite Hi in F. rewrite F. destruct Hok as [[A1 A2 A3 A4 A5 A6 A7] B C D].
  split; [|done]. split; [split|..]; done.
Qed.

(** Changing entry [ip] alone. *)
Lemma quiet_set f v lk lk' ip x x' : quiet f v lk -> zget (inodes f) ip = Some x -> 0 <= i_ref x' ->
  (0 < i_ref x' -> forall k z, k <> ip -> zget (inodes f) k = Some z -> ~ caches_inode (i_dev x') (i_inum x') z) ->
  (0 < i_ref x' -> i_dev x' = ROOTDEV /\ (Z.land (i_flags x') I_BUSY = 0 <-> ip ∉ lk') /\ (Z.land (i_flags x') I_VALID <> 0 -> x' = load v x')) ->
  (forall k, k <> ip -> k ∈ lk <-> k ∈ lk') -> (ip ∈ lk' -> 0 < i_ref x') ->
  forall f', inodes f' = zset (inodes f) ip x' -> ic_lock f' = false -> bc_rep (lg_cache (flog f')) v -> quiet f' v lk'.
Proof.
  intros [A B C D E F] Hx Hr Hne Hx' Hlk Hheld f' Ei El Ec. pose proof (zget_Some _ _ _ Hx) as Hip. split; [|done..| |].
  - rewrite Ei. by eapply icache_ok_set.
  - intros k y Hy Hry. rewrite Ei in Hy. destruct (decide (k = ip)) as [->|Hk].
    + rewrite zget_zset_eq in Hy by done. injection Hy as <-. by apply Hx'.
    + rewrite zget_zset_ne in Hy by done. destruct (E k y Hy Hry) as (F1 & F2 & F3). split; [done|]. split; [|done].
      rewrite F2. by rewrite (Hlk k Hk).
  - intros k Hk. rewrite Ei. destruct (decide (k = ip)) as [->|Hne']; [exists x'; rewrite zget_zset_eq by done; split; [done|by apply Hheld]|].
    rewrite zget_zset_ne by done. by apply F, Hlk.
Qed.

(** The other entries for the inode that an entry in use holds. *)
Lemma caches_unique f v lk ip x j : quiet f v lk -> zget (inodes f) ip = Some x -> caches_inode ROOTDEV j x ->
  forall k z, k <> ip -> zget (inodes f) k = Some z -> ~ caches_inode ROOTDEV j z.
Proof. intros Hq Hx Hc k z Hk Hz Hcz. apply Hk. by eapply (proj2 (q_cache _ _ _ Hq)). Qed.

Lemma moves_set f ip x x' d f' : zget (inodes f) ip = Some x -> inodes f' = zset (inodes f) ip x' -> (exists c, flog f' = with_cache (flog f) c) ->
  (forall j, contrib x' j = contrib x j + d j) -> moves f f' d.
Proof.
  intros Hx Ei El Hd. split; [rewrite Ei; apply zlen_zset|]. split; [|done]. intros j. rewrite Ei, (irefs_zset _ _ _ _ _ Hx), Hd. lia.
Qed.
(** ** The operations *)

Lemma iget_q f v lk j : quiet f v lk -> (exists k x, zget (inodes f) k = Some x /\ (caches_inode ROOTDEV j x \/ i_ref x = 0)) ->
  wp (iget ROOTDEV j) (fun ip f' => quiet f' v lk /\ moves f f' (one j) /\ holds f' ip j /\ forall a b, holds f a b -> holds f' a b) f.
Proof.
  intros Hq Hroom. eapply wp_mono; [apply iget_wp; [apply Hq|apply Hq|done]|]. intros ip f' ((x & x' & Hx & Ei & Hd & Hi & Hor) & _ & Hl & Hlog).
  pose proof (zget_Some _ _ _ Hx) as Hip. assert (0 <= i_ref x) as Hrx by by eapply (proj1 (q_cache _ _ _ Hq)).
  assert (0 < i_ref x') as Hrx' by (destruct Hor as [[_ ->]|(_ & -> & _)]; cbn; lia).
  assert (bc_rep (lg_cache (flog f')) v) as Hr' by (rewrite Hlog; apply Hq).
  assert (holds f' ip j) as Hh by (exists x'; rewrite Ei, zget_zset_eq by done; done).
  split; [|split; [|split; [done|]]].
  - eapply (quiet_set f v lk lk ip x x'); [done|done|lia| | |done|intros _; lia|done|done|done].
    + intros _ k z Hk Hz. rewrite Hd, Hi. destruct Hor as [[Hc _]|(_ & _ & _ & Hno)]; [by apply (caches_unique f v lk ip x j Hq Hx Hc k)|by apply (Hno k)].
    + intros _. split; [done|]. destruct Hor as [[Hc ->]|(Hr0 & _ & Hf & _)].
      * destruct (q_ino _ _ _ Hq ip x Hx ltac:(apply Hc)) as (_ & F2 & F3). split; [done|]. intros Hv. by apply load_set_ref, F3.
      * rewrite Hf. split; [|done]. split; [|done]. intros _ Hk. destruct (q_held _ _ _ Hq ip Hk) as (y & Hy & Hry). rewrite Hx in Hy. injection Hy as <-. lia.
  - eapply (moves_set f ip x x'); [done|done|exists (lg_cache (flog f)); by rewrite with_cache_id|]. intros k. unfold contrib, one. rewrite Hi.
    destruct Hor as [[(_ & _ & Hc) ->]|(Hr0 & Hr1 & _ & _)].
    + rewrite Hc. cbn. destruct (Z.eqb_spec j k); [rewrite decide_True by done|rewrite decide_False by done]; lia.
    + rewrite Hr0, Hr1. destruct (Z.eqb_spec j k); [rewrite decide_True by done|rewrite decide_False by done]; case_if; lia.
  - intros a b (y & Hy & Hc). destruct (decide (a = ip)) as [->|Ha].
    + rewrite Hx in Hy. injection Hy as <-. exists x'. rewrite Ei, zget_zset_eq by done. split; [done|].
      destruct Hor as [[_ ->]|(Hr0 & _)]; [destruct Hc as (C1 & C2 & C3); split; [cbn; lia|done]|]. destruct Hc. lia.
    + exists y. rewrite Ei, zget_zset_ne by done. done.
Qed.

(** Holding survives a change of one entry that leaves its identity. *)
Lemma holds_set f f' ip x x' : zget (inodes f) ip = Some x -> inodes f' = zset (inodes f) ip x' -> i_dev x' = i_dev x -> i_inum x' = i_inum x ->
  0 < i_ref x' -> forall a b, holds f a b -> holds f' a b.
Proof.
  intros Hx Ei Hd Hi Hr a b (y & Hy & Hc). pose proof (zget_Some _ _ _ Hx) as Hip. destruct (decide (a = ip)) as [->|Ha].
  - rewrite Hx in Hy. injection Hy as <-. exists x'. rewrite Ei, zget_zset_eq by done. split; [done|]. destruct Hc as (_ & C2 & C3). split; [done|]. split; congruence.
  - exists y. by rewrite Ei, zget_zset_ne.
Qed.

Lemma idup_q f v lk ip j : quiet f v lk -> holds f ip j ->
  wp (idup ip) (fun r f' => r = ip /\ quiet f' v lk /\ moves f f' (one j) /\ holds f' ip j /\ forall a b, holds f a b -> holds f' a b) f.
Proof.
  intros Hq (x & Hx & Hc). pose proof (zget_Some _ _ _ Hx) as Hip. unfold idup. apply wp_bind. eapply ok_wp; [by apply lock_icache_ok, Hq|].
  set (f1 := Fs true _ _ _). apply wp_bind. eapply ok_wp; [by apply (upd_inode_ok f1 ip x)|]. apply wp_bind, wp_modify, wp_ret. split; [done|].
  destruct (id Hc) as (C1 & C2 & C3). split; [|split; [|split]].
  - eapply (quiet_set f v lk lk ip x (set_ref (i_ref x + 1) x)); [done|done|cbn; lia| | |done|intros _; cbn; lia|done|done|apply Hq].
    + intros _. cbn. rewrite C2, C3. by apply (caches_unique f v lk ip x j).
    + intros _. destruct (q_ino _ _ _ Hq ip x Hx ltac:(lia)) as (F1 & F2 & F3). split; [done|]. split; [done|]. intros Hv. by apply load_set_ref, F3.
  - eapply (moves_set f ip x _); [done|done|exists (lg_cache (flog f)); by rewrite with_cache_id|]. intros k. unfold contrib, one. cbn. rewrite C3.
    destruct (Z.eqb_spec j k); [rewrite decide_True by done|rewrite decide_False by done]; lia.
  - exists (set_ref (i_ref x + 1) x). cbn. rewrite zget_zset_eq by done. split; [done|]. split; [cbn; lia|done].
  - apply (holds_set f _ ip x (set_ref (i_ref x + 1) x)); try done. cbn. lia.
Qed.

Lemma ilock_q f v lk G ip j : quiet f v lk -> ip ∉ lk -> tree_ok (flog f) v G -> G j -> holds f ip j ->
  wp (ilock ip) (fun _ f' => quiet f' v ({[ip]} ∪ lk) /\ moves f f' (fun _ => 0) /\ (forall a b, holds f a b -> holds f' a b) /\
    exists y, zget (inodes f') ip = Some y /\ caches_inode ROOTDEV j y /\ y = load v y) f.
Proof.
  intros Hq Hnl Ht Hg (x & Hx & Hc). pose proof (zget_Some _ _ _ Hx) as Hip. destruct (id Hc) as (C1 & C2 & C3).
  destruct (q_ino _ _ _ Hq ip x Hx C1) as (_ & F2 & F3). assert (Z.land (i_flags x) I_BUSY = 0) as Hnb by by apply F2.
  destruct (Ht j Hg) as (T1 & T2 & T3 & _).
  (* what is left to show once the entry is as on the disk *)
  assert (forall x' f', inodes f' = zset (inodes f) ip x' -> ic_lock f' = false -> (exists c, flog f' = with_cache (flog f) c /\ bc_rep c v) ->
    i_dev x' = i_dev x -> i_inum x' = i_inum x -> i_ref x' = i_ref x -> Z.land (i_flags x') I_BUSY <> 0 -> x' = load v x' ->
    quiet f' v ({[ip]} ∪ lk) /\ moves f f' (fun _ => 0) /\ (forall a b, holds f a b -> holds f' a b) /\
    exists y, zget (inodes f') ip = Some y /\ caches_inode ROOTDEV j y /\ y = load v y) as Hend.
  { intros x' f' Ei El (c & Ec & Hrc) Ed En Er Eb Eld. split; [|split; [|split]].
    - eapply (quiet_set f v lk ({[ip]} ∪ lk) ip x x'); [done|done|lia| | | |intros _; lia|done|done|by rewrite Ec].
      + intros _. rewrite Ed, En, C2, C3. by apply (caches_unique f v lk ip x j).
      + intros _. split; [congruence|]. split; [split; [done|clear; set_solver]|done].
      + clear; set_solver.
    - eapply (moves_set f ip x x'); [done|done|by exists c|]. intros k. unfold contrib. rewrite En, Er. lia.
    - by apply (holds_set f f' ip x x'); [| | | |lia].
    - exists x'. rewrite Ei, zget_zset_eq by done. split; [done|]. split; [|done]. split; [lia|]. split; congruence. }
  unfold ilock. rewrite (proj2 (Z.eqb_neq ip NULL)) by (unfold NULL; lia). assert (get_inode ip f = Ok x f) as Hget by (unfold get_inode, bind, get; by rewrite Hx).
  apply wp_bind. eapply ok_wp; [exact Hget|]. rewrite (proj2 (Z.ltb_ge (i_ref x) 1)) by lia. apply wp_bind. eapply ok_wp; [by apply lock_icache_ok, Hq|].
  set (f1 := Fs true _ _ _). assert (zget (inodes f1) ip = Some x) as Hx1 by done.
  apply wp_bind. eapply ok_wp; [unfold get_inode, bind, get; by rewrite Hx1|]. rewrite Hnb. cbn [Z.eqb negb].
  set (xb := set_iflags (Z.lor (i_flags x) I_BUSY) x). apply wp_bind. eapply ok_wp; [by apply (upd_inode_ok f1 ip x)|]. fold xb.
  apply wp_bind, wp_modify. cbn [with_inodes inodes i_woken flog f1 ic_lock]. set (g := Fs false (zset (inodes f) ip xb) (i_woken f) (flog f)).
  assert (zget (inodes g) ip = Some xb) as Hxb by by apply zget_zset_eq.
  assert (forall x2, zget (zset (inodes g) ip x2) ip = Some x2) as Hat by (intros; apply zget_zset_eq; cbn; by rewrite zlen_zset).
  assert (forall x2 x3, zget (zset (zset (inodes g) ip x2) ip x3) ip = Some x3) as Hat2 by (intros; rewrite zset_zset; apply Hat).
  destruct (Z.eqb_spec (Z.land (i_flags x) I_VALID) 0) as [Hv|Hv]; cbn [when].
  - assert (ready v (lg_cache (flog f))) as Hrd by (split; apply Hq).
    replace g with (with_log g (with_cache (flog f) (lg_cache (flog f)))) by (rewrite with_cache_id; done). rewrite C2, C3.
    destruct (bread_ready g (flog f) v (lg_cache (flog f)) (IBLOCK j) Hrd T1 T2) as (h & c1 & E1 & Hr1). eapply wp_bind_ok; [exact E1|].
    assert (handles (hold (IBLOCK j) h v) !! IBLOCK j = Some h) as Hh by apply lookup_insert_eq.
    eapply wp_bind_ok; [exact (bdata_run g (flog f) c1 _ (IBLOCK j) h Hr1 Hh)|]. cbn [content hold].
    apply wp_bind. eapply ok_wp; [by apply (upd_inode_ok _ ip xb)|]. set (xl := read_dinode _ _ xb).
    destruct (brelse_ready (with_inodes g (zset (inodes g) ip xl)) (flog f) v c1 (IBLOCK j) h T1 T2 Hr1 _ (proj1 Hrd)) as (c2 & E2 & Hr2).
    apply wp_bind. eapply ok_wp; [exact E2|]. apply wp_bind. eapply ok_wp; [apply (upd_inode_ok _ ip xl), Hat|].
    set (xv := set_iflags (Z.lor (i_flags xl) I_VALID) xl). apply wp_bind. eapply ok_wp.
    { unfold get_inode, bind, get. change (inodes (with_inodes _ _)) with (zset (zset (inodes g) ip xl) ip xv). by rewrite Hat2. }
    assert (i_type xv =? 0 = false) as ->. { apply Z.eqb_neq. exact T3. }
    apply wp_ret. apply (Hend xv); [cbn; by rewrite !zset_zset|done|by exists c2|done|done|done| |].
    + cbn [xv xl xb set_iflags i_flags read_dinode]. rewrite valid_busy. apply busy_busy.
    + unfold xv. apply load_set_iflags. unfold xl, load. cbn [read_dinode i_inum xb set_iflags]. by rewrite C3.
  - apply wp_ret. apply (Hend xb); [done|done|exists (lg_cache (flog f)); split; [by rewrite with_cache_id|apply Hq]|done|done|done|apply busy_busy|].
    apply load_set_iflags, F3, Hv.
Qed.
Lemma iunlock_q f v lk ip j : quiet f v lk -> ip ∈ lk -> holds f ip j ->
  wp (iunlock ip) (fun _ f' => quiet f' v (lk ∖ {[ip]}) /\ moves f f' (fun _ => 0) /\ (forall a b, holds f a b -> holds f' a b)) f.
Proof.
  intros Hq Hlk (x & Hx & Hc). pose proof (zget_Some _ _ _ Hx) as Hip. destruct (id Hc) as (C1 & C2 & C3).
  destruct (q_ino _ _ _ Hq ip x Hx C1) as (_ & F2 & F3). assert (Z.land (i_flags x) I_BUSY <> 0) as Hb by (intros E; by apply F2).
  unfold iunlock. rewrite (proj2 (Z.eqb_neq ip NULL)) by (unfold NULL; lia). apply wp_bind. eapply ok_wp; [unfold get_inode, bind, get; by rewrite Hx|].
  rewrite (proj2 (Z.eqb_neq _ _) Hb), (proj2 (Z.ltb_ge (i_ref x) 1)) by lia. cbn [orb]. apply wp_bind. eapply ok_wp; [by apply lock_icache_ok, Hq|].
  set (f1 := Fs true _ _ _). apply wp_bind. eapply ok_wp; [by apply (upd_inode_ok f1 ip x)|]. set (x' := set_iflags (Z.land (i_flags x) (Z.lnot I_BUSY)) x).
  apply wp_bind, wp_modify, wp_modify. cbn [with_inodes inodes i_woken flog f1 ic_lock]. set (f' := Fs false _ _ _).
  split; [|split].
  - eapply (quiet_set f v lk (lk ∖ {[ip]}) ip x x'); [done|done|cbn; lia| | | |clear; set_solver|done|done|apply Hq].
    + intros _. cbn. rewrite C2, C3. by apply (caches_unique f v lk ip x j).
    + intros _. split; [done|]. split; [split; [clear; set_solver|intros _; apply clear_busy]|]. cbn [x' set_iflags i_flags]. rewrite clear_valid.
      intros Hv. by apply load_set_iflags, F3.
    + clear; set_solver.
  - eapply (moves_set f ip x x'); [done|done|exists (lg_cache (flog f)); by rewrite with_cache_id|]. intros k. unfold contrib. cbn. lia.
  - by apply (holds_set f f' ip x x').
Qed.

(** The references of an inode are those of its entry. *)
Lemma refs_held f v lk ip x j : quiet f v lk -> zget (inodes f) ip = Some x -> caches_inode ROOTDEV j x -> refs (inodes f) j = i_ref x.
Proof.
  intros Hq Hx Hc. pose proof (irefs_zset _ _ _ (set_ref 0 x) j Hx) as E. destruct (id Hc) as (C1 & C2 & C3). unfold contrib in E. cbn in E.
  rewrite C3, Z.eqb_refl in E. pose proof (zget_Some _ _ _ Hx) as Hip. set (l' := zset _ _ _) in *.
  assert (nonneg_refs l') as Hn.
  { intros k y Hy. unfold l' in Hy. destruct (decide (k = ip)) as [->|Hk]; [rewrite zget_zset_eq in Hy by done; injection Hy as <-; cbn; lia|].
    rewrite zget_zset_ne in Hy by done. by apply (proj1 (q_cache _ _ _ Hq) k). }
  destruct (decide (0 < refs l' j)) as [Hpos|Hz]; [|pose proof (refs_nonneg l' j Hn); lia]. exfalso.
  apply refs_pos in Hpos as (k & y & Hy & Hyj & Hyr); [|done]. unfold l' in Hy. destruct (decide (k = ip)) as [->|Hk].
  - rewrite zget_zset_eq in Hy by done. injection Hy as <-. cbn in Hyr. lia.
  - rewrite zget_zset_ne in Hy by done. apply (caches_unique f v lk ip x j Hq Hx Hc k y Hk Hy). split; [done|]. split; [|done].
    by apply (q_ino _ _ _ Hq k).
Qed.

Lemma iput_q f v lk G ip j : quiet f v lk -> tree_ok (flog f) v G -> G j -> holds f ip j ->
  (ip ∈ lk -> 1 < refs (inodes f) j) ->
  wp (iput ip) (fun _ f' => quiet f' v lk /\ moves f f' (fun k => - one j k) /\
    forall a b, holds f a b -> 0 < refs (inodes f') b -> holds f' a b) f.
Proof.
  intros Hq Ht Hg (x & Hx & Hc) Hlk. pose proof (zget_Some _ _ _ Hx) as Hip. destruct (id Hc) as (C1 & C2 & C3).
  destruct (q_ino _ _ _ Hq ip x Hx C1) as (_ & F2 & F3). destruct (Ht j Hg) as (_ & _ & _ & Hn & _).
  unfold iput. apply wp_bind. eapply ok_wp; [by apply lock_icache_ok, Hq|]. set (f1 := Fs true _ _ _). assert (zget (inodes f1) ip = Some x) as Hx1 by done.
  apply wp_bind. eapply ok_wp; [unfold get_inode, bind, get; by rewrite Hx1|].
  assert ((i_ref x =? 1) && negb (Z.land (i_flags x) I_VALID =? 0) && (i_nlink x =? 0) = false) as ->.
  { destruct (Z.eqb_spec (Z.land (i_flags x) I_VALID) 0) as [|Hv]; cbn [negb]; [by rewrite andb_false_r|].
    specialize (F3 Hv). pose proof (loaded_fields v x F3 C2) as E. assert (i_nlink x = i_nlink (disk_inode v j)) as -> by (rewrite E at 1; cbn; by rewrite C3).
    rewrite (proj2 (Z.eqb_neq _ 0)) by done. apply andb_false_r. }
  apply wp_bind, wp_ret, wp_bind. eapply ok_wp; [by apply (upd_inode_ok f1 ip x)|]. set (x' := set_ref (i_ref x - 1) x). apply wp_modify.
  cbn [with_inodes inodes i_woken flog f1 ic_lock]. set (f' := Fs false _ _ _).
  assert (quiet f' v lk) as Hq'.
  { eapply (quiet_set f v lk lk ip x x'); [done|done|cbn; lia| | |done| |done|done|apply Hq].
    - intros _. cbn. rewrite C2, C3. by apply (caches_unique f v lk ip x j).
    - intros _. split; [done|]. split; [done|]. intros Hv. by apply load_set_ref, F3.
    - intros Hin. rewrite (refs_held f v lk ip x j Hq Hx Hc) in Hlk. cbn. specialize (Hlk Hin). lia. }
  split; [done|]. split.
  - eapply (moves_set f ip x x'); [done|done|exists (lg_cache (flog f)); by rewrite with_cache_id|]. intros k. unfold contrib, one. cbn. rewrite C3.
    destruct (Z.eqb_spec j k); [rewrite decide_True by done|rewrite decide_False by done]; lia.
  - intros a b (y & Hy & Hcy) Hr. destruct (decide (a = ip)) as [->|Ha]; [|exists y; cbn; by rewrite zget_zset_ne].
    rewrite Hx in Hy. injection Hy as <-. assert (b = j) as -> by (destruct Hcy as (_ & _ & <-); done).
    apply refs_pos in Hr as (k & z & Hz & Hzj & Hzr); [|intros i y Hy; by apply (proj1 (q_cache _ _ _ Hq') i)].
    destruct (q_ino _ _ _ Hq' k z Hz Hzr) as (Hzd & _). exists z. split; [|by split].
    destruct (decide (k = ip)) as [->|Hk]; [done|]. exfalso. cbn in Hz. rewrite zget_zset_ne in Hz by done.
    by apply (caches_unique f v lk ip x j Hq Hx Hc k z Hk Hz).
Qed.
Lemma quiet_cache f v lk c : quiet f v lk -> ready v c -> quiet (with_c f (flog f) c) v lk.
Proof. intros [A B C D E F] [Hc _]. by split. Qed.

(** What the path means from inode [i]. *)
Definition meaning v (parent : bool) (i : Z) (es : list (list Z)) : option Z := if parent then resolve_parent v i es else resolve v i es.

Section Namex.
Variable devsw_read : Z -> option (Z -> Z -> M (fs S) (list Z * Z)).
Variables (v : bspec) (G : Z -> Prop) (parent : bool) (U : gset Z) (N : Z) (R : Z -> Z).

(** The cache has [N] entries; [R] are the references besides those that the
    walk holds. *)
Definition base f (d : Z -> Z) : Prop := zlen (inodes f) = N /\ (forall j, refs (inodes f) j = R j + d j).

(** Entries that were in use before keep their inodes. *)
Definition retains f f' : Prop := forall a b, 0 < R b -> holds f a b -> holds f' a b.

Lemma retains_trans f f1 f2 : retains f f1 -> retains f1 f2 -> retains f f2.
Proof. intros A B a b Hr Hh. by apply B, A. Qed.

(** What a walk ends with. *)
Definition walked f0 (es : list (list Z)) (i : Z) (r : Z * list Z) f' : Prop :=
  quiet f' v ∅ /\ (exists c, flog f' = with_cache (flog f0) c) /\ retains f0 f' /\
  match meaning v parent i es with
  | Some t => holds f' r.1 t /\ base f' (one t) /\ (parent = true -> Forall is_byte r.2 /\ exists e, last es = Some e /\ key r.2 = key e)
  | None => r.1 = NULL /\ base f' (fun _ => 0)
  end.

Lemma base_moves f f' d d1 d2 : base f d1 -> moves f f' d -> (forall j, d2 j = d1 j + d j) -> base f' d2.
Proof. intros [A B] (C & D & _) E. split; [by rewrite C|]. intros j. rewrite D, B, E. lia. Qed.

Lemma base_same f f' d : base f d -> moves f f' (fun _ => 0) -> base f' d.
Proof. intros Hb Hm. eapply base_moves; [exact Hb|exact Hm|]. intros j. cbn. lia. Qed.

Lemma iunlockput_q f lk ip j d : quiet f v lk -> ip ∈ lk -> tree_ok (flog f) v G -> G j -> holds f ip j -> base f d ->
  wp (iunlockput ip) (fun _ f' => quiet f' v (lk ∖ {[ip]}) /\ base f' (fun k => d k - one j k) /\ (exists c, flog f' = with_cache (flog f) c) /\
    forall a b, holds f a b -> 0 < refs (inodes f') b -> holds f' a b) f.
Proof.
  intros Hq Hlk Ht Hg Hh Hb. unfold iunlockput. apply wp_bind. eapply wp_mono; [by apply (iunlock_q f v lk ip j)|]. intros [] f1 (A & B & C).
  eapply wp_mono; [apply (iput_q f1 v (lk ∖ {[ip]}) G ip j); [done|by eapply tree_moves|done|by apply C|set_solver]|]. intros [] f2 (D & E & F). split; [done|].
  split; [|split].
  - assert (base f1 d) as Hb1 by (by apply (base_same f)). eapply base_moves; [exact Hb1|exact E|]. intros k. cbn. lia.
  - destruct B as (_ & _ & c1 & E1), E as (_ & _ & c2 & E2). exists c2. by rewrite E2, E1.
  - intros a b Hab Hr. apply F; [by apply C|done].
Qed.

Hypothesis R_nonneg : forall j, 0 <= R j.
Hypothesis R_in_use : forall j, 0 < R j -> j ∈ U.
Hypothesis N_room : Z.of_nat (size U) + 2 <= N.

(** Room for one more inode. *)
Lemma base_room f lk i j : quiet f v lk -> base f (one i) -> exists k x, zget (inodes f) k = Some x /\ (caches_inode ROOTDEV j x \/ i_ref x = 0).
Proof.
  intros Hq [Hs Hr]. destruct (free_entry (inodes f) ({[i]} ∪ U)) as (k & x & Hx & H0); [apply Hq| | | |by exists k, x; split; [|right]].
  - intros k y Hy Hry. by apply (q_ino _ _ _ Hq k y).
  - intros k Hk. rewrite Hr in Hk. unfold one in Hk. destruct (decide (i = k)) as [->|]; [set_solver|]. apply elem_of_union_r, R_in_use. lia.
  - assert (size ({[i]} ∪ U) <= 1 + size U)%nat; [|lia]. rewrite size_union_alt, size_singleton. assert (size (U ∖ {[i]}) <= size U)%nat; [|lia].
    apply subseteq_size. set_solver.
Qed.

(** The state in which the walk stands in directory [i] with its entry locked;
    [d] are the references it holds. *)
Definition inside f0 ip i d f : Prop := quiet f v {[ip]} /\ tree_ok (flog f) v G /\ holds f ip i /\ base f d /\
  (exists c, flog f = with_cache (flog f0) c) /\ retains f0 f.

(** Giving up: unlock, drop, no inode. *)
Lemma give_up_ok f0 f ip i es name : G i -> inside f0 ip i (one i) f -> meaning v parent i es = None ->
  wp (iunlockput ip ;;; ret (NULL, name)) (walked f0 es i) f.
Proof.
  intros Hg (A & B & C & D & (c & E) & Hk) Hno. apply wp_bind. eapply wp_mono; [apply (iunlockput_q f {[ip]} ip i (one i)); try done; set_solver|].
  rewrite difference_diag_L. intros [] f3 (A3 & [B3 B4] & (c3 & C3) & D3). apply wp_ret. split; [done|]. split; [exists c3; by rewrite C3, E|].
  split; [|rewrite Hno; split; [done|]; split; [done|]; intros j; rewrite B4; lia].
  apply (retains_trans _ f); [done|]. intros a b Hr Hh. apply D3; [done|]. rewrite B4. lia.
Qed.

(** Taking the lock. *)
Lemma enter_ok f ip i : quiet f v ∅ -> tree_ok (flog f) v G -> G i -> holds f ip i -> base f (one i) ->
  wp (ilock ip) (fun _ f1 => inside f ip i (one i) f1 /\ exists y, zget (inodes f1) ip = Some y /\ caches_inode ROOTDEV i y /\ y = load v y /\
    i_type y = i_type (disk_inode v i)) f.
Proof.
  intros Hq Ht Hg Hh Hb. eapply wp_mono; [by apply (ilock_q f v ∅ G ip i)|]. rewrite union_empty_r_L. intros [] f1 (Hq1 & Hm1 & Hh1 & y & Hy & Hcy & Hly). split.
  - split; [done|]. split; [by eapply tree_moves|]. split; [by apply Hh1|]. split; [by apply (base_same f)|]. split; [apply Hm1|]. intros a b _. apply Hh1.
  - exists y. split; [done|]. split; [done|]. split; [done|]. destruct Hcy as (_ & Hdy & Hiy). rewrite (loaded_fields v y Hly Hdy). cbn. by rewrite Hiy.
Qed.

(** Looking up one element. *)
Lemma lookup_ok f0 f ip i y e name : inside f0 ip i (one i) f -> G i -> is_dir v i = true -> zget (inodes f) ip = Some y ->
  caches_inode ROOTDEV i y -> y = load v y -> key name = key e -> Forall is_byte name ->
  wp (dirlookup devsw_read ip name) (fun r f1 =>
    match names v i !! key e with
    | None => r.1 = NULL /\ inside f0 ip i (one i) f1
    | Some nx => r.1 <> NULL /\ G nx /\ holds f1 r.1 nx /\ inside f0 ip i (fun j => one i j + one nx j) f1
    end) f.
Proof.
  intros (Hq & Ht & Hh & Hb & (c0 & E0) & Hrt) Hg Hdir Hy Hcy Hly Hkey Hnb. destruct (Ht i Hg) as (_ & _ & _ & _ & T5). destruct (T5 Hdir) as [Hdok Hclosed].
  destruct (loaded_dir _ _ _ _ Hly Hcy Hdok) as [Hdoky Heny].
  destruct (dirlookup_run devsw_read f v ip y name (q_rep _ _ _ Hq) (q_room _ _ _ Hq) Hy Hdoky Hnb) as (c & Hrc & El).
  rewrite Heny, Hkey in El. pose proof (dir_find_map (key e) (entries v (disk_inode v i)) 0) as Hmap. fold (names v i) in Hmap.
  pose proof (quiet_cache _ _ _ _ Hq Hrc) as Hqc. set (f2 := with_c f (flog f) c) in *.
  assert (moves f f2 (fun _ => 0)) as Hm2 by (split; [done|]; split; [intros; by rewrite Z.add_0_r|by exists c]).
  pose proof (tree_moves _ _ _ _ _ Hm2 Ht) as Ht2. assert (base f2 (one i)) as Hb2 by (by apply (base_same f)).
  assert (flog f2 = with_cache (flog f0) c) as Ec2 by (cbn; by rewrite E0). rewrite <-Hmap.
  destruct (dir_find (key e) (entries v (disk_inode v i)) 0) as [[nx off]|] eqn:Ef; cbn [fmap option_fmap option_map fst] in *.
  2: { eapply ok_wp; [exact El|]. split; [done|]. split; [done|]. split; [done|]. split; [done|]. split; [done|]. split; [by exists c|]. exact Hrt. }
  unfold wp. rewrite El. fold (wp (bind (iget ROOTDEV nx) (fun q => ret (q, off))) (fun r f1 => r.1 <> NULL /\ G nx /\ holds f1 r.1 nx /\
    inside f0 ip i (fun j => one i j + one nx j) f1) f2).
  apply wp_bind. eapply wp_mono; [apply (iget_q f2 v {[ip]} nx Hqc), (base_room f2 {[ip]} i nx Hqc Hb2)|].
  intros nip f3 (Hq3 & Hm3 & Hh3 & Hold3). apply wp_ret. cbn [fst]. destruct Hm3 as (Hm3a & Hm3b & c3 & Ec3).
  split; [destruct Hh3 as (z & Hz & _); apply zget_Some in Hz; unfold NULL; lia|]. split; [by apply (Hclosed (key e))|]. split; [done|].
  split; [done|]. split; [rewrite Ec3; by apply tree_cache|]. split; [by apply Hold3|].
  split; [|split; [exists c3; by rewrite Ec3, Ec2|apply (retains_trans _ f); [done|]; intros a b _; apply Hold3]].
  eapply base_moves; [exact Hb2|by split; [|split; [|exists c3]]|done].
Qed.

(** The end of the path. *)
Lemma arrive_ok f ip i name : quiet f v ∅ -> tree_ok (flog f) v G -> G i -> holds f ip i -> base f (one i) ->
  wp (if parent then iput ip ;;; ret (NULL, name) else ret (ip, name)) (walked f [] i) f.
Proof.
  intros Hq Ht Hg Hh Hb. unfold walked, meaning. destruct parent; cbn [resolve resolve_parent].
  - apply wp_bind. eapply wp_mono; [by apply (iput_q f v ∅ G ip i)|]. intros [] f1 (A & B & C). apply wp_ret.
    assert (base f1 (fun _ => 0)) as Hb1 by (eapply base_moves; [done|done|]; intros j; cbn; lia).
    split; [done|]. split; [apply B|]. split; [|by split]. intros a b Hr Hh'. apply C; [done|]. rewrite (proj2 Hb1). lia.
  - apply wp_ret. split; [done|]. split; [exists (lg_cache (flog f)); by rewrite with_cache_id|].
    split; [by intros a b _|]. split; [done|]. split; [done|by intros].
Qed.

Lemma namex_from_ok k : forall path name ip i f, quiet f v ∅ -> tree_ok (flog f) v G -> G i -> holds f ip i -> base f (one i) ->
  zlen name = DIRSIZ -> Forall is_byte path -> Forall is_byte name -> (length path < k)%nat ->
  wp (namex_from devsw_read k parent path name ip) (walked f (path_elems path) i) f.
Proof.
  induction k as [|k IH]; intros path name ip i f Hq Ht Hg Hh Hb Hn Hpb Hnb Hk; [lia|]. cbn [namex_from].
  pose proof (skipelem_correct path name Hn) as Hs. destruct (path_elems path) as [|e es] eqn:Ee; [rewrite Hs; by apply arrive_ok|].
  clear Hs. destruct (skipelem_key path name e es Hn Ee) as (p' & n' & Es & Ep & Epn & Hn' & Hkey). rewrite Es.
  destruct (skipelem_rest _ _ _ _ Es) as [Hlen Hbs]. destruct (Hbs Hpb Hnb) as [Hpb' Hnb'].
  apply wp_bind. eapply wp_mono; [by apply (enter_ok f ip i)|]. intros [] f1 (Hin & y & Hy & Hcy & Hly & Ety).
  apply wp_bind. eapply ok_wp; [unfold get_inode, bind, get; by rewrite Hy|]. rewrite Ety.
  destruct (Z.eqb_spec (i_type (disk_inode v i)) T_DIR) as [Hd|Hd]; cbn [negb].
  2: { apply give_up_ok; [done|done|]. unfold meaning. cbn [resolve resolve_parent]. unfold is_dir. rewrite (proj2 (Z.eqb_neq _ _) Hd). destruct parent, es; done. }
  assert (is_dir v i = true) as Hdir by by apply Z.eqb_eq.
  destruct (parent && match p' with [] => true | _ :: _ => false end) eqn:Epar.
  { apply andb_true_iff in Epar as [Epar Ep0]. assert (es = []) as -> by (apply Epn; by destruct p'). destruct Hin as (A & B & C & D & (c & E) & Hrt).
    apply wp_bind. eapply wp_mono; [apply (iunlock_q f1 v {[ip]} ip i); [done|set_solver|done]|]. rewrite difference_diag_L. intros [] f2 (A2 & B2 & C2). apply wp_ret. split; [done|].
    split; [destruct B2 as (_ & _ & c2 & E2); exists c2; by rewrite E2, E|].
    split; [apply (retains_trans _ f1); [done|]; intros a b _; apply C2|]. unfold meaning. rewrite Epar. cbn [resolve_parent]. rewrite Hdir.
    split; [by apply C2|]. split; [by apply (base_same f1)|]. intros _. split; [done|]. exists e. by split. }
  assert (meaning v parent i (e :: es) = (j ← names v i !! key e; meaning v parent j es)) as Emean.
  { unfold meaning. cbn [resolve resolve_parent]. rewrite Hdir. destruct parent; [|done]. destruct es; [|done]. cbn [andb] in Epar. destruct p'; [done|]. discriminate (proj2 Epn eq_refl). }
  apply wp_bind. eapply wp_mono; [by apply (lookup_ok f f1 ip i y e n')|]. intros r f3. destruct (names v i !! key e) as [nx|].
  2: { intros [-> Hin3]. cbn [Z.eqb NULL Pos.eqb]. by apply give_up_ok. }
  intros (Hr & Hgn & Hh3 & Hq3 & Ht3 & Hhi3 & Hb3 & (c3 & Ec3) & Hrt3). rewrite (proj2 (Z.eqb_neq _ _) Hr).
  apply wp_bind. eapply wp_mono; [apply (iunlockput_q f3 {[ip]} ip i (fun j => one i j + one nx j)); try done; set_solver|].
  rewrite difference_diag_L. intros [] f4 (Hq4 & Hb4 & (c4 & Ec4) & Hh4). assert (base f4 (one nx)) as Hb4' by (destruct Hb4 as [B1 B2]; split; [done|]; intros j; rewrite B2; lia).
  assert (holds f4 r.1 nx) as Hn4 by (apply Hh4; [done|]; rewrite (proj2 Hb4'); unfold one; rewrite decide_True by done; specialize (R_nonneg nx); lia).
  eapply wp_mono; [apply (IH p' n' r.1 nx f4 Hq4); [rewrite Ec4; by apply tree_cache|done|done|done|done|done|done|lia]|].
  rewrite Ep. intros r' f' (W1 & (c6 & W2) & Wr & W3). split; [done|]. split; [exists c6; by rewrite W2, Ec4, Ec3|].
  split; [apply (retains_trans _ f3); [done|]; apply (retains_trans _ f4); [|done]; intros a b HR Hab; apply Hh4; [done|]; rewrite (proj2 Hb4'); unfold one; case_decide; lia|].
  rewrite Emean. cbn [mbind option_bind].
  destruct (meaning v parent nx es) as [t|]; [|done]. destruct W3 as (W3 & W4 & W5). split; [done|]. split; [done|]. intros Hp.
  destruct (W5 Hp) as (Hbn & e' & Hl & Hk'). split; [done|]. exists e'. split; [|done]. destruct es as [|e2 es]; [done|]. by rewrite last_cons_cons.
Qed.
End Namex.

(** A whole walk. *)
Lemma namex_ok devsw_read (parent : bool) f v G (U : gset Z) cwd i path name : quiet f v ∅ -> tree_ok (flog f) v G -> G i -> G ROOTINO -> holds f cwd i ->
  (forall j, 0 < refs (inodes f) j -> j ∈ U) -> Z.of_nat (size U) + 2 <= zlen (inodes f) ->
  zlen name = DIRSIZ -> Forall is_byte path -> Forall is_byte name ->
  wp (namex devsw_read cwd path parent name) (fun r f' =>
    quiet f' v ∅ /\ (exists c, flog f' = with_cache (flog f) c) /\ zlen (inodes f') = zlen (inodes f) /\ (forall a b, holds f a b -> holds f' a b) /\
    match meaning v parent (if bool_decide (head path = Some SLASH) then ROOTINO else i) (path_elems path) with
    | Some t => holds f' r.1 t /\ (forall j, refs (inodes f') j = refs (inodes f) j + one t j) /\
        (parent = true -> Forall is_byte r.2 /\ exists e, last (path_elems path) = Some e /\ key r.2 = key e)
    | None => r.1 = NULL /\ forall j, refs (inodes f') j = refs (inodes f) j
    end) f.
Proof.
  intros Hq Ht Hg Hr Hh HU Hs Hn Hp Hnb. set (R := refs (inodes f)).
  assert (forall j, 0 <= R j) as HR by (intros j; apply refs_nonneg; intros k y Hy; by apply (proj1 (q_cache _ _ _ Hq) k)).
  set (s := if bool_decide _ then ROOTINO else i). unfold namex. apply wp_bind.
  assert (forall ip f1, quiet f1 v ∅ -> moves f f1 (one s) -> holds f1 ip s -> (forall a b, holds f a b -> holds f1 a b) -> G s ->
    wp (namex_from devsw_read (length path + 1) parent path name ip) (fun r f' =>
      quiet f' v ∅ /\ (exists c, flog f' = with_cache (flog f) c) /\ zlen (inodes f') = zlen (inodes f) /\ (forall a b, holds f a b -> holds f' a b) /\
      match meaning v parent s (path_elems path) with
      | Some t => holds f' r.1 t /\ (forall j, refs (inodes f') j = R j + one t j) /\ (parent = true -> Forall is_byte r.2 /\ exists e, last (path_elems path) = Some e /\ key r.2 = key e)
      | None => r.1 = NULL /\ forall j, refs (inodes f') j = R j
      end) f1) as Hwalk.
  { intros ip f1 Hq1 Hm1 Hh1 Hold Hgs. destruct (id Hm1) as (Hz1 & Hr1 & c1 & E1).
    eapply wp_mono; [apply (namex_from_ok devsw_read v G parent U (zlen (inodes f)) R HR HU Hs _ _ _ ip s f1); [done|by eapply tree_moves|done|done| |done|done|done|lia]|].
    { split; [by rewrite Hz1|done]. }
    intros r f' (A & (c & B) & D & C). split; [done|]. split; [exists c; by rewrite B, E1|].
    split; [by destruct (meaning v parent s (path_elems path)); [destruct C as (_ & [-> _] & _)|destruct C as (_ & [-> _])]|].
    split; [intros a b Hab; apply D; [|by apply Hold]; destruct Hab as (y & Hy & Hc); unfold R; rewrite (refs_held f v ∅ a y b Hq Hy Hc); apply Hc|].
    destruct (meaning v parent s (path_elems path)) as [t|]; [destruct C as (C1 & [_ C2] & C3); done|]. destruct C as (C1 & [_ C2]). split; [done|].
    intros j. rewrite C2. lia. }
  assert (s = i -> wp (idup cwd) (fun ip f1 => wp (namex_from devsw_read (length path + 1) parent path name ip) (fun r f' =>
      quiet f' v ∅ /\ (exists c, flog f' = with_cache (flog f) c) /\ zlen (inodes f') = zlen (inodes f) /\ (forall a b, holds f a b -> holds f' a b) /\
      match meaning v parent s (path_elems path) with
      | Some t => holds f' r.1 t /\ (forall j, refs (inodes f') j = R j + one t j) /\ (parent = true -> Forall is_byte r.2 /\ exists e, last (path_elems path) = Some e /\ key r.2 = key e)
      | None => r.1 = NULL /\ forall j, refs (inodes f') j = R j
      end) f1) f) as Hdup.
  { intros Es. eapply wp_mono; [by apply (idup_q f v ∅ cwd i)|]. intros r f1 (-> & A & B & C & D). apply Hwalk; by rewrite ?Es. }
  destruct path as [|c p]; [by apply Hdup|]. destruct (Z.eqb_spec c SLASH) as [->|Hc].
  - eapply wp_mono; [apply (iget_q f v ∅ ROOTINO Hq)|].
    { destruct (free_entry (inodes f) U) as (k & x & Hx & H0); [apply Hq| |done|lia|exists k, x; split; [done|by right]].
      intros k y Hy Hry. by apply (q_ino _ _ _ Hq k y). }
    intros ip f1 (A & B & C & D). by apply Hwalk.
  - apply Hdup. unfold s. rewrite bool_decide_false; [done|]. cbn. congruence.
Qed.

(** C8: namex means what the path says.  From the root or the directory given,
    with the inode cache quiet, names bound to sound inodes and two entries of
    the cache to spare, it never panics and never blocks: it returns an entry
    for exactly the inode that the elements lead to (or, for nameiparent, the
    directory of the last element, with that element in the name buffer), or
    none if they lead nowhere; the cache is quiet again, entries in use still
    hold their inodes, and the only change to the reference counts is one more
    for the inode returned. *)
Theorem namex_spec devsw_read (parent : bool) f v G (U : gset Z) cwd i path name : quiet f v ∅ -> tree_ok (flog f) v G -> G i -> G ROOTINO -> holds f cwd i ->
  (forall j, 0 < refs (inodes f) j -> j ∈ U) -> Z.of_nat (size U) + 2 <= zlen (inodes f) ->
  zlen name = DIRSIZ -> Forall is_byte path -> Forall is_byte name ->
  wp (namex devsw_read cwd path parent name) (fun r f' =>
    quiet f' v ∅ /\ (exists c, flog f' = with_cache (flog f) c) /\ zlen (inodes f') = zlen (inodes f) /\ (forall a b, holds f a b -> holds f' a b) /\
    match meaning v parent (if bool_decide (head path = Some SLASH) then ROOTINO else i) (path_elems path) with
    | Some t => holds f' r.1 t /\ (forall j, refs (inodes f') j = refs (inodes f) j + one t j) /\
        (parent = true -> Forall is_byte r.2 /\ exists e, last (path_elems path) = Some e /\ key r.2 = key e)
    | None => r.1 = NULL /\ forall j, refs (inodes f') j = refs (inodes f) j
    end) f.
Proof. apply namex_ok. Qed.
End Path.

(** ** A small tree: the root holds the directory d, which holds the file f *)

Definition dinode_bytes (type size a0 : Z) : list Z := [type; 0; 0; 0; 0; 0; 1; 0; size; 0; 0; 0; a0; 0; 0; 0] ++ replicate 48 0.

Definition dirent_bytes_of (inum : Z) (name : list Z) : list Z := [inum; 0] ++ name ++ replicate (14 - length name) 0.

(** Inodes in sector 2, the root in 3, d in 4, the log from 6 on. *)
Definition tree_img : list Z :=
  replicate 1024 0 ++
  (replicate 64 0 ++ dinode_bytes 1 48 3 ++ dinode_bytes 1 64 4 ++ dinode_bytes 2 0 0 ++ replicate 256 0) ++
  (dirent_bytes_of 1 [46] ++ dirent_bytes_of 1 [46; 46] ++ dirent_bytes_of 2 [100] ++ replicate 464 0) ++
  (dirent_bytes_of 2 [46] ++ dirent_bytes_of 1 [46; 46] ++ replicate 16 0 ++ dirent_bytes_of 3 [102] ++ replicate 448 0) ++
  replicate 2560 0.

Definition tree_view : bspec := boot_view tree_img.

Definition tree_log : log bcache := Log false 6 4 true ROOTDEV 0 (replicate 10 0) 0 (boot_cache tree_img).

Definition free_inode : inode := Inode 0 0 0 0 0 0 0 0 0 (replicate 13 0).

(** The working directory is d, in entry 1. *)
Definition tree_fs : fs bcache := Fs false [free_inode; Inode ROOTDEV 2 1 0 0 0 0 0 0 []; free_inode; free_inode] [] tree_log.

Definition tree_set (i : Z) : Prop := i = 1 \/ i = 2 \/ i = 3.

Lemma tree_sector b : 0 < b < 6 -> avail_blk tree_log tree_view b.
Proof. intros Hb. split; [lia|]. split; [|reflexivity]. change (home tree_log tree_view b) with (0 <= b < 10 /\ (b < 6 \/ 10 <= b)). lia. Qed.

Lemma bytes_check d : forallb (fun b => (0 <=? b) && (b <? 256)) d = true -> Forall is_byte d.
Proof. induction d as [|b d IH]; cbn [forallb]; [done|]. intros [Hb Hd]%andb_true_iff. constructor; [unfold is_byte; zbool; lia|by apply IH]. Qed.

Lemma one_block_dir (l : log bcache) v x b : i_dev x = ROOTDEV -> i_type x = T_DIR -> zlen (i_addrs x) = 13 -> 0 <= i_size x <= 512 -> i_size x mod 16 = 0 ->
  avail_blk l v b -> blk v x 0 = b -> Forall is_byte (content v b) -> dir_ok l v x.
Proof.
  intros Hd Ht Hl Hs Hm Hb E Hby. assert (forall i, 0 <= i -> i * 512 < i_size x -> i = 0) as Hi by lia. split.
  - split; [done|by rewrite Ht|done|unfold MAXFILE, NDIRECT, NINDIRECT; lia| | |].
    + intros i H0 H1. rewrite (Hi i H0 H1), E. done.
    + unfold NDIRECT. lia.
    + intros i j H0 H1 H2 H3 _. by rewrite (Hi i H0 H2), (Hi j H1 H3).
  - done.
  - done.
  - intros o Ho. unfold file_byte. rewrite Z.div_small by lia. rewrite E. by apply ld8_byte.
Qed.

Lemma tree_tree_ok : tree_ok tree_log tree_view tree_set.
Proof.
  assert (forall i n j es, entries tree_view (disk_inode tree_view i) = es -> Forall (fun e => e.1 = 0 \/ tree_set e.1) es ->
    names tree_view i !! n = Some j -> tree_set j) as Hn.
  { intros i n j es E Hes (H0 & k & Hk)%map_of_Some. rewrite E in Hk. apply (Forall_lookup_1 _ _ _ _ Hes) in Hk as [|]; done. }
  intros i Hi. destruct (tree_sector 2 ltac:(lia)) as (_ & A & B).
  split; [by destruct Hi as [->|[->| ->]]|]. split; [by destruct Hi as [->|[->| ->]]|].
  split; [destruct Hi as [->|[->| ->]]; by vm_compute|]. split; [destruct Hi as [->|[->| ->]]; by vm_compute|].
  destruct Hi as [->|[->| ->]]; intros Hd; [| |by vm_compute in Hd].
  - split; [apply (one_block_dir _ _ _ 3); [done|by vm_compute|by vm_compute|by vm_compute|by vm_compute|by apply tree_sector|by vm_compute|]|].
    + apply bytes_check. by vm_compute.
    + intros n j. eapply (Hn 1 n j); [by vm_compute|]. unfold tree_set. repeat constructor; cbn; lia.
  - split; [apply (one_block_dir _ _ _ 4); [done|by vm_compute|by vm_compute|by vm_compute|by vm_compute|by apply tree_sector|by vm_compute|]|].
    + apply bytes_check. by vm_compute.
    + intros n j. eapply (Hn 2 n j); [by vm_compute|]. unfold tree_set. repeat constructor; cbn; lia.
Qed.

Lemma tree_only i y : zget (inodes tree_fs) i = Some y -> 0 < i_ref y -> i = 1 /\ y = Inode ROOTDEV 2 1 0 0 0 0 0 0 [].
Proof.
  intros Hy Hr. pose proof (zget_Some _ _ _ Hy) as Hb. change (0 <= i < 4) in Hb.
  assert (i = 0 \/ i = 1 \/ i = 2 \/ i = 3) as E by lia. destruct E as [->|[->|[->| ->]]]; cbn in Hy; injection Hy as <-; cbn in Hr; try lia. done.
Qed.

Lemma tree_quiet : quiet tree_fs tree_view ∅.
Proof.
  pose proof tree_only as Hi. split.
  - split.
    + intros i y Hy. pose proof (zget_Some _ _ _ Hy) as Hb. change (0 <= i < 4) in Hb.
      assert (i = 0 \/ i = 1 \/ i = 2 \/ i = 3) as E by lia. destruct E as [->|[->|[->| ->]]]; cbn in Hy; injection Hy as <-; cbn; lia.
    + intros i j x y dev inum Hx Hy (Rx & _) (Ry & _). destruct (Hi i x Hx Rx) as [-> _]. by destruct (Hi j y Hy Ry) as [-> _].
  - done.
  - apply boot_cache_ok.
  - by vm_compute.
  - intros i y Hy Hr. destruct (Hi i y Hy Hr) as [-> ->]. done.
  - done.
Qed.

Lemma tree_refs j : 0 < refs (inodes tree_fs) j -> j ∈ ({[2]} : gset Z).
Proof.
  intros Hj. apply refs_pos in Hj as (i & y & Hy & <- & Hr); [|exact (proj1 (q_cache _ _ _ tree_quiet))].
  destruct (tree_only i y Hy Hr) as [_ ->]. set_solver.
Qed.

(** [/d/f] is inode 3; the parent of [f], from d, is d; there is no [/x/f]. *)
Lemma namex_spec_witness :
  wp (namex (fun _ => None) 1 [47; 100; 47; 102] false (replicate 14 0)) (fun r f' => holds f' r.1 3) tree_fs /\
  wp (namex (fun _ => None) 1 [102] true (replicate 14 0)) (fun r f' => holds f' r.1 2 /\ key r.2 = [102]) tree_fs /\
  wp (namex (fun _ => None) 1 [47; 120; 47; 102] false (replicate 14 0)) (fun r f' => r.1 = NULL) tree_fs.
Proof.
  assert (holds tree_fs 1 2) as Hh by (exists (Inode ROOTDEV 2 1 0 0 0 0 0 0 []); done).
  assert (forall parent path, Forall is_byte path -> wp (namex (fun _ => None) 1 path parent (replicate 14 0)) (fun r f' =>
    quiet f' tree_view ∅ /\ (exists c, flog f' = with_cache (flog tree_fs) c) /\ zlen (inodes f') = zlen (inodes tree_fs) /\ (forall a b, holds tree_fs a b -> holds f' a b) /\
    match meaning tree_view parent (if bool_decide (head path = Some SLASH) then ROOTINO else 2) (path_elems path) with
    | Some t => holds f' r.1 t /\ (forall j, refs (inodes f') j = refs (inodes tree_fs) j + one t j) /\
        (parent = true -> Forall is_byte r.2 /\ exists e, last (path_elems path) = Some e /\ key r.2 = key e)
    | None => r.1 = NULL /\ forall j, refs (inodes f') j = refs (inodes tree_fs) j
    end) tree_fs) as T.
  { intros parent path Hp. apply (namex_spec (fun _ => None) parent tree_fs tree_view tree_set {[2]} 1 2 path (replicate 14 0) tree_quiet tree_tree_ok);
      [by right; left|by left|exact Hh|exact tree_refs|by rewrite size_singleton|done|done|by apply bytes_check]. }
  split; [|split].
  - eapply wp_mono; [apply T; by apply bytes_check|]. intros r f' (_ & _ & _ & _ & W). revert W. set (mn := meaning _ _ _ _).
    assert (mn = Some 3) as -> by (vm_compute; reflexivity). by intros [W _].
  - eapply wp_mono; [apply T; by apply bytes_check|]. intros r f' (_ & _ & _ & _ & W). revert W. set (mn := meaning _ _ _ _).
    assert (mn = Some 2) as -> by (vm_compute; reflexivity). intros (W & _ & We). split; [exact W|].
    destruct (We eq_refl) as (_ & e & He & ->). assert (last (path_elems [102]) = Some [102]) as El by (vm_compute; reflexivity).
    rewrite El in He. injection He as <-. vm_compute. reflexivity.
  - eapply wp_mono; [apply T; by apply bytes_check|]. intros r f' (_ & _ & _ & _ & W). revert W. set (mn := meaning _ _ _ _).
    assert (mn = None) as -> by (vm_compute; reflexivity). by intros [W _].
Defined.

(** The directory d, loaded, in a running transaction. *)
Definition d_inode : inode := load tree_view (Inode ROOTDEV 2 1 3 0 0 0 0 0 []).

Definition d_fs : fs bcache := Fs false [free_inode; d_inode; free_inode; free_inode] [] tree_log.

Lemma d_tx : tx tree_log tree_view 2.
Proof.
  split.
  - apply boot_cache_ok.
  - split; [by split| |cbn; lia|reflexivity|by vm_compute].
    split; [by vm_compute|]. split; [by vm_compute|]. split; [apply NoDup_nil_2|]. cbn. lia.
  - reflexivity.
  - by split.
  - by vm_compute.
  - reflexivity.
Qed.

Lemma d_dir : dir_ok tree_log tree_view d_inode.
Proof.
  destruct (tree_tree_ok 2) as (_ & _ & _ & _ & Hd); [by right; left|]. destruct (Hd ltac:(by vm_compute)) as [Hok _].
  apply (loaded_dir tree_log tree_view d_inode 2); [done|done|done].
Qed.

Definition d_entries : list (Z * list Z) := [(2, [46]); (1, [46; 46]); (0, []); (3, [102])].

Lemma d_entries_ok : entries tree_view d_inode = d_entries.
Proof. by vm_compute. Qed.

Lemma d_unique : unique_names (entries tree_view d_inode).
Proof.
  rewrite d_entries_ok. intros j k i i' n Hj Hk Hi Hi'.
  do 4 (destruct j as [|j]; [do 4 (destruct k as [|k]; [cbn in Hj, Hk; congruence|]); done|]). done.
Qed.

Lemma d_icache : icache_ok (inodes d_fs).
Proof.
  assert (forall i y, zget (inodes d_fs) i = Some y -> 0 <= i_ref y /\ (0 < i_ref y -> i = 1)) as Hi.
  { intros i y Hy. pose proof (zget_Some _ _ _ Hy) as Hb. change (0 <= i < 4) in Hb.
    assert (i = 0 \/ i = 1 \/ i = 2 \/ i = 3) as E by lia. destruct E as [->|[->|[->| ->]]]; cbn in Hy; injection Hy as <-; cbn; lia. }
  split; [intros i y Hy; by apply (Hi i y)|]. intros i j x y dev inum Hx Hy (Rx & _) (Ry & _).
  by rewrite (proj2 (Hi i x Hx) Rx), (proj2 (Hi j y Hy) Ry).
Qed.

(** [g] takes the free entry; [f] is refused. *)
Lemma dirlink_spec_witness :
  wp (dirlink (fun _ => None) (fun _ => None) 1 [103] 5) (fun r f' => r = 0 /\ exists v' x, map_of (entries v' x) !! [103] = Some 5 /\
    map_of (entries v' x) !! [102] = Some 3) d_fs /\
  wp (dirlink (fun _ => None) (fun _ => None) 1 [102] 5) (fun r f' => r = -1) d_fs.
Proof.
  pose proof (dirlink_spec (fun _ => None) (fun _ => None) d_fs tree_view 2 1 d_inode [103] 5 d_tx ltac:(lia) eq_refl d_dir d_unique
    ltac:(by apply bytes_check) ltac:(lia) d_icache eq_refl) as T1.
  pose proof (dirlink_spec (fun _ => None) (fun _ => None) d_fs tree_view 2 1 d_inode [102] 5 d_tx ltac:(lia) eq_refl d_dir d_unique
    ltac:(by apply bytes_check) ltac:(lia) d_icache eq_refl) as T2.
  rewrite d_entries_ok in T1, T2. assert (map_of d_entries !! key [103] = None) as E1 by (vm_compute; reflexivity).
  assert (map_of d_entries !! key [102] = Some 3) as E2 by (vm_compute; reflexivity). rewrite E1 in T1. rewrite E2 in T2. split.
  - eapply wp_mono; [apply T1; by exists 2%nat, []|]. intros r f' (-> & l' & v' & k' & _ & _ & _ & _ & _ & _ & Hmap & _). split; [done|].
    exists v', d_inode. rewrite Hmap. split; vm_compute; reflexivity.
  - eapply wp_mono; [apply T2; exists 0, free_inode; split; [done|by right]|]. by intros r f' (-> & _).
Defined.
