(* ===== verification/FsGrow.v ===== *)
(** * Growing files

    writei beyond the end of a file: bmap allocates the blocks that are missing,
    direct and indirect, the new size goes to the inode and to the disk.  A
    [plan] says which blocks a transaction may touch and how many fresh ones it
    may take, so that the log cannot overflow and a buffer is always free. *)

From S2P Require Import Prelude CString BlockCache Bio BioSpec Log LogSpec LogInst Fs FsSpec FsInst FsIo FsDir FsPath.

(** ** On-disk inodes *)

Lemma ld8_st32_ne d i j a : j < i \/ i + 4 <= j -> ld8 (st32 d i a) j = ld8 d j.
Proof. intros. unfold st32. by ld_st. Qed.

Lemma ld8_st16_ne d i j a : j < i \/ i + 2 <= j -> ld8 (st16 d i a) j = ld8 d j.
Proof. intros. unfold st16. by ld_st. Qed.

Definition put_addrs (off : Z) (g : Z -> Z) (ks : list Z) (d : list Z) : list Z := foldl (fun d k => st32 d (off + 12 + 4 * k) (g k)) d ks.

Lemma zlen_put_addrs off g ks : forall d, zlen (put_addrs off g ks d) = zlen d.
Proof. induction ks as [|k ks IH]; intros d; [done|]. unfold put_addrs in *. cbn [foldl]. rewrite IH. apply zlen_st32. Qed.

Lemma put_addrs_other off g ks j : forall d, (forall k, k ∈ ks -> 0 <= k < 13) -> j < off + 12 \/ off + 64 <= j -> ld8 (put_addrs off g ks d) j = ld8 d j.
Proof.
  induction ks as [|k ks IH]; intros d Hk Hj; [done|]. unfold put_addrs in *. cbn [foldl]. pose proof (Hk k ltac:(set_solver)).
  rewrite IH by (set_solver || done). apply ld8_st32_ne. lia.
Qed.

Lemma put_addrs_get off g ks j : forall d, (forall k, k ∈ ks -> 0 <= k < 13) -> 0 <= off -> off + 64 <= zlen d -> 0 <= j < 13 ->
  ld32 (put_addrs off g ks d) (off + 12 + 4 * j) = if bool_decide (j ∈ ks) then u32 (g j) else ld32 d (off + 12 + 4 * j).
Proof.
  induction ks as [|k ks IH]; intros d Hk Ho Hd Hj; [done|]. unfold put_addrs in *. cbn [foldl]. pose proof (Hk k ltac:(set_solver)).
  rewrite IH by (set_solver || done || (by rewrite zlen_st32)). destruct (decide (j = k)) as [->|Hne].
  - rewrite ld32_st32_eq by lia. rewrite (bool_decide_true (k ∈ k :: ks)) by set_solver. by case_match.
  - rewrite ld32_st32_ne by lia. by rewrite (bool_decide_ext (j ∈ k :: ks) (j ∈ ks)) by set_solver.
Qed.

Definition dinode_head (off : Z) (x : inode) (d : list Z) : list Z :=
  st32 (st16 (st16 (st16 (st16 d off (i_type x)) (off + 2) (i_major x)) (off + 4) (i_minor x)) (off + 6) (i_nlink x)) (off + 8) (i_size x).

Lemma write_dinode_put d off x : write_dinode d off x = put_addrs off (fun k => default 0 (zget (i_addrs x) k)) (seqZ 0 13) (dinode_head off x d).
Proof. done. Qed.

Lemma zlen_dinode_head off x d : zlen (dinode_head off x d) = zlen d.
Proof. unfold dinode_head. by autorewrite with kernel. Qed.

Lemma zlen_write_dinode d off x : zlen (write_dinode d off x) = zlen d.
Proof. by rewrite write_dinode_put, zlen_put_addrs, zlen_dinode_head. Qed.

Lemma seqZ_13 k : k ∈ seqZ 0 13 -> 0 <= k < 13.
Proof. intros [? ?]%elem_of_seqZ. lia. Qed.

(** Only the inode's 64 bytes change. *)
Lemma write_dinode_other d off x j : j < off \/ off + 64 <= j -> ld8 (write_dinode d off x) j = ld8 d j.
Proof.
  intros Hj. rewrite write_dinode_put, put_addrs_other by (exact seqZ_13 || lia). unfold dinode_head.
  rewrite ld8_st32_ne, !ld8_st16_ne by lia. done.
Qed.

(** The fields fit their widths. *)
Record fits x : Prop := {
  ft_type : s16 (i_type x) = i_type x;
  ft_major : s16 (i_major x) = i_major x;
  ft_minor : s16 (i_minor x) = i_minor x;
  ft_nlink : s16 (i_nlink x) = i_nlink x;
  ft_size : is_u32 (i_size x);
  ft_len : zlen (i_addrs x) = 13;
  ft_addrs : forall k a, zget (i_addrs x) k = Some a -> is_u32 a
}.

Lemma s16_u16 z : s16 (u16 z) = s16 z.
Proof. unfold s16, u16. by rewrite Z.mod_mod by lia. Qed.

(** An inode written to the disk is read back. *)
Lemma dinode_roundtrip d off x : fits x -> 0 <= off -> off + 64 <= zlen d -> read_dinode (write_dinode d off x) off x = x.
Proof.
  intros [A B C D E F G] Ho Hd. rewrite write_dinode_put. set (g := fun k => _). set (h := dinode_head off x d).
  assert (zlen h = zlen d) as Hh by apply zlen_dinode_head.
  assert (forall j, j < off + 12 -> ld8 (put_addrs off g (seqZ 0 13) h) j = ld8 h j) as H8 by (intros j Hj; apply put_addrs_other; [apply seqZ_13|lia]).
  assert (forall j, j + 2 <= off + 12 -> ld16 (put_addrs off g (seqZ 0 13) h) j = ld16 h j) as H16 by (intros j Hj; unfold ld16; by rewrite !H8 by lia).
  assert (ld32 (put_addrs off g (seqZ 0 13) h) (off + 8) = i_size x) as H32.
  { transitivity (ld32 h (off + 8)); [unfold ld32; by rewrite !H8 by lia|]. unfold h, dinode_head. rewrite ld32_st32_eq by (autorewrite with kernel; lia). by apply u32_small. }
  assert (map (fun k => ld32 (put_addrs off g (seqZ 0 13) h) (off + 12 + 4 * k)) (seqZ 0 13) = i_addrs x) as Ha.
  { apply list_eq. intros i. rewrite list_lookup_fmap. destruct (decide (Z.of_nat i < 13)) as [Hi|Hi].
    - rewrite lookup_seqZ_lt by done. cbn [fmap option_fmap option_map]. rewrite Z.add_0_l, put_addrs_get by (exact seqZ_13 || lia).
      rewrite bool_decide_true by (apply elem_of_seqZ; lia). unfold g. destruct (zget_in (i_addrs x) (Z.of_nat i)) as [a Hx]; [lia|]. rewrite Hx. cbn.
      rewrite u32_small by exact (G _ _ Hx). by rewrite zget_of_nat in Hx.
    - rewrite lookup_seqZ_ge by lia. cbn. symmetry. apply lookup_ge_None. unfold zlen in F. lia. }
  assert (forall j, ld16 (st32 (st16 (st16 (st16 (st16 d off (i_type x)) (off + 2) (i_major x)) (off + 4) (i_minor x)) (off + 6) (i_nlink x)) (off + 8) (i_size x)) j = ld16 h j) as Hj by done.
  assert (s16 (ld16 h off) = i_type x /\ s16 (ld16 h (off + 2)) = i_major x /\ s16 (ld16 h (off + 4)) = i_minor x /\ s16 (ld16 h (off + 6)) = i_nlink x) as (E1 & E2 & E3 & E4).
  { assert (forall d o j a, j + 2 <= o -> ld16 (st32 d o a) j = ld16 d j) as H1 by (intros; unfold ld16; by rewrite !ld8_st32_ne by lia).
    unfold h, dinode_head. repeat split; rewrite H1 by lia; rewrite ?(ld16_st16_ne _ (off + 6)), ?(ld16_st16_ne _ (off + 4)), ?(ld16_st16_ne _ (off + 2)) by lia;
      rewrite ld16_st16_eq by (autorewrite with kernel; lia); by rewrite s16_u16. }
  unfold read_dinode. rewrite !H16 by lia. rewrite H32, Ha, E1, E2, E3, E4. by destruct x.
Qed.

(** The other inodes of the block are as before. *)
Lemma read_dinode_other d off off' x y : off' + 64 <= off \/ off + 64 <= off' -> read_dinode (write_dinode d off x) off' y = read_dinode d off' y.
Proof.
  intros Ho. assert (forall j, off' <= j < off' + 64 -> ld8 (write_dinode d off x) j = ld8 d j) as H8 by (intros j Hj; apply write_dinode_other; lia).
  unfold read_dinode. rewrite (map_shift _ (fun k => ld32 d (off' + 12 + 4 * k)) 0 0 13).
  - unfold ld32, ld16. by rewrite !H8 by lia.
  - intros j Hj. unfold ld32. by rewrite !H8 by lia.
Qed.

Section Grow.
Context {S : Type} `{BufCache S}.
Implicit Types (f : fs S) (l : log S) (v : bspec) (x : inode).

Variable sb : superblock.

(** ** Free blocks *)

(** Where the data area ends: blocks from there on may be the log's. *)
Variable lim : Z.

Definition free_set v : gset Z := filter (fun b => used v sb b = false) (list_to_set (seqZ 0 lim)).

Definition nfree v : Z := Z.of_nat (size (free_set v)).

Lemma elem_of_free v b : b ∈ free_set v <-> used v sb b = false /\ 0 <= b < lim.
Proof.
  unfold free_set. rewrite elem_of_filter, elem_of_list_to_set, elem_of_seqZ. split; intros [A B]; (split; [done|lia]).
Qed.

Lemma nfree_same v v' : (forall b, 0 <= b < lim -> used v' sb b = used v sb b) -> nfree v' = nfree v.
Proof.
  intros E. unfold nfree. f_equal. f_equal. apply set_eq. intros b. rewrite !elem_of_free. split; intros [A B]; (split; [|done]); [by rewrite <-E|by rewrite E].
Qed.

Lemma nfree_alloc v v' b : 0 <= b < lim -> used v sb b = false -> (forall b', 0 <= b' < lim -> used v' sb b' = (b' =? b) || used v sb b') ->
  nfree v' = nfree v - 1.
Proof.
  intros Hb Hu E. unfold nfree. assert (free_set v' = free_set v ∖ {[b]}) as ->.
  { apply set_eq. intros b'. rewrite elem_of_difference, not_elem_of_singleton, !elem_of_free. split.
    - intros [A B]. rewrite E in A by done. apply orb_false_iff in A as [A1 A2]. apply Z.eqb_neq in A1. done.
    - intros [[A B] C]. split; [|done]. rewrite E, A by done. apply orb_false_iff. split; [by apply Z.eqb_neq|done]. }
  rewrite size_difference; [|intros x ->%elem_of_singleton; by apply elem_of_free]. rewrite size_singleton.
  assert (size (free_set v) <> 0%nat); [|lia]. intros X. apply size_empty_inv in X. apply (not_elem_of_empty (C := gset Z) b), X. by apply elem_of_free.
Qed.

Lemma some_free v : 0 < nfree v -> exists c, used v sb c = false /\ 0 <= c < lim.
Proof.
  intros Hn. destruct (set_choose_or_empty (free_set v)) as [[c Hc]|He]; [exists c; by apply elem_of_free|].
  apply size_empty_iff in He. unfold nfree in Hn. lia.
Qed.

(** The first free block of a disk that has one in the data area. *)
Lemma first_free v b : 0 < nfree v -> (forall b', 0 <= b' < b -> used v sb b' = true) -> b < lim.
Proof.
  intros Hn Hlt. destruct (some_free v Hn) as (c & Hc & Hr). destruct (decide (c < b)); [rewrite Hlt in Hc by lia; done|lia].
Qed.

(** ** Plans *)

Definition touched v (D : gset Z) : Z := Z.of_nat (size (in_use v ∪ D)).

(** The running transaction may write the blocks of [D] and [n] fresh ones. *)
Record plan l v (D : gset Z) (n : Z) : Prop := {
  pl_tx : tx l v 0;
  pl_n : 0 <= n;
  pl_room : touched v D + n <= 8;
  pl_log : touched v D + n <= lg_size l - 3;
  pl_free : n <= nfree v;
  pl_lim : lim <= sb_size sb
}.

Lemma lh_dirty l v : trans l v -> lh_n l = Z.of_nat (size (dirty v)).
Proof.
  intros Ht. rewrite (t_dirty _ _ Ht). destruct (t_head _ _ Ht) as (Hn & _ & Hnd & _). rewrite size_list_to_set by done.
  rewrite length_take. pose proof (lgm_arr _ _ (t_geom _ _ Ht)) as Ha. unfold zlen in Ha. lia.
Qed.

Lemma touched_bounds v D : Z.of_nat (size (dirty v)) <= touched v D /\ Z.of_nat (size (in_use v)) <= touched v D.
Proof.
  unfold touched. split; apply inj_le, subseteq_size; unfold in_use; set_solver.
Qed.

(** A plan with [n] fresh blocks has room for one write of a block it may touch
    and, if [n] is positive, for the two of an allocation. *)
Lemma plan_tx l v D n k : plan l v D n -> k <= 1 \/ k <= 2 /\ 0 < n -> tx l v k.
Proof.
  intros [[A B C _ _ F] Hn Hr Hl _ _] Hk. pose proof (lh_dirty _ _ B) as Hh. destruct (touched_bounds v D). split; try done; unfold LOGSIZE; lia.
Qed.

Lemma plan_lh l v D n : plan l v D n -> lh_n l < LOGSIZE /\ lh_n l < lg_size l - 1 /\ Z.of_nat (size (in_use v)) < 10.
Proof.
  intros [[A B C _ _ F] Hn Hr Hl _ _]. pose proof (lh_dirty _ _ B) as Hh. destruct (touched_bounds v D). unfold LOGSIZE. lia.
Qed.

Lemma touched_mono v v' D D' : in_use v' ∪ D' ⊆ in_use v ∪ D -> touched v' D' <= touched v D.
Proof. intros Hs. unfold touched. by apply inj_le, subseteq_size. Qed.

Lemma plan_cache l v D n c : plan l v D n -> bc_rep c v -> plan (with_cache l c) v D n.
Proof. intros [A B C D' E F] Hc. split; try done. by apply tx_cache. Qed.

Lemma plan_weaken l v D D' n : plan l v D n -> D' ⊆ D -> plan l v D' n.
Proof.
  intros [A B C E F G] Hs. assert (touched v D' <= touched v D) by (apply touched_mono; set_solver). split; try done; lia.
Qed.

(** Holding a block of the plan. *)
Lemma plan_hold l v D n s h c : plan l v D n -> s ∈ D -> home l v s -> bc_rep c (hold s h v) -> plan (with_cache l c) (hold s h v) D n.
Proof.
  intros [[A B C E F G] Hn Hr Hl Hf Hlim] Hs Hho Hc. assert (touched (hold s h v) D <= touched v D) as Ht.
  { apply touched_mono. unfold in_use. cbn. rewrite dom_insert_L. set_solver. }
  split; try done; [|lia|cbn; lia]. destruct (touched_bounds (hold s h v) D). pose proof (lh_dirty _ _ B) as Hh. destruct (touched_bounds v D). split.
  - exact Hc.
  - by apply trans_held.
  - done.
  - unfold LOGSIZE. cbn. lia.
  - lia.
  - intros i Hi. cbn in *. rewrite lookup_insert_ne; [by apply G|]. destruct Hho as [_ Hho]. lia.
Qed.

(** After writing a block of the plan the plan still stands. *)
Lemma plan_logged l v D n s d l' v' : plan l v D n -> logged_out l v s d l' v' -> s ∈ D -> nfree v' = nfree v -> plan l' v' D n.
Proof.
  intros [[A B C E F G] Hn Hr Hl Hf Hlim] [A' B' C' D' E' F' G' H' I' J'] Hs Hnf.
  assert (lg_size l' = lg_size l) as Esz by apply F'. assert (lg_start l' = lg_start l) as Est by apply F'.
  assert (touched v' D <= touched v D) as Ht.
  { apply touched_mono. unfold in_use. rewrite H', I'. rewrite dom_delete_L. set_solver. }
  destruct (touched_bounds v' D). pose proof (lh_dirty _ _ B') as Hh. split; [|done|lia|rewrite Esz; lia|by rewrite Hnf|done]. split; try done.
  - unfold LOGSIZE. rewrite Esz. lia.
  - lia.
  - rewrite Esz, Est. exact E'.
Qed.

Lemma plan_updates l v D n s d l' v' k : plan l v D n -> tx l' v' k -> same_log l l' -> updates l v v' s d -> s ∈ D -> nfree v' = nfree v -> plan l' v' D n.
Proof.
  intros [[A B C E F G] Hn Hr Hl Hf Hlim] [A' B' C' D' E' F'] Hlog (_ & Hh & _ & Hd) Hs Hnf.
  assert (lg_size l' = lg_size l) as Esz by apply Hlog.
  assert (touched v' D <= touched v D) as Ht by (apply touched_mono; unfold in_use; rewrite Hh, Hd; set_solver).
  destruct (touched_bounds v' D). pose proof (lh_dirty _ _ B') as Hlh. split; [|done|lia|rewrite Esz; lia|by rewrite Hnf|done]. split; try done.
  - unfold LOGSIZE. rewrite Esz. lia.
  - lia.
Qed.

(** An allocation takes one of the fresh blocks. *)
Lemma plan_alloc l v D n k b l' v' : plan l v D n -> 0 < n -> allocated l v sb k b l' v' -> BBLOCK b (sb_ninodes sb) ∈ D ->
  plan l' v' ({[b]} ∪ D) (n - 1).
Proof.
  intros [[A B C E F G] Hn Hr Hl Hf Hlim] Hn0 (Hb & Hub & Hlow & [A' B' C' D' E' F'] & _ & Hlog & Hused & _ & (_ & Hh & _) & Hd) Hs.
  pose proof (first_free v b ltac:(lia) Hlow) as Hbl. pose proof (nfree_alloc v v' b ltac:(lia) Hub ltac:(intros b' Hb'; apply Hused; lia)) as Hnf.
  assert (lg_size l' = lg_size l) as Esz by apply Hlog.
  assert (touched v' ({[b]} ∪ D) <= touched v D + 1) as Ht.
  { transitivity (Z.of_nat (size ({[b]} ∪ (in_use v ∪ D)))).
    - apply inj_le, subseteq_size. unfold in_use. rewrite Hh, Hd. set_solver.
    - unfold touched. rewrite size_union_alt, size_singleton. assert (size ((in_use v ∪ D) ∖ {[b]}) <= size (in_use v ∪ D))%nat; [apply subseteq_size; set_solver|lia]. }
  destruct (touched_bounds v' ({[b]} ∪ D)). pose proof (lh_dirty _ _ B') as Hlh. split; [|lia|lia|rewrite Esz; lia|lia|done]. split; try done.
  - unfold LOGSIZE. rewrite Esz. lia.
  - lia.
Qed.

(** ** The disk *)

(** A sound disk: besides the bitmap, blocks 0 and those of the inodes are
    marked in use. *)
Record disk_ok l v : Prop := {
  dk_geom : fs_geom l v sb;
  dk_data : forall b, 0 <= b < lim -> used v sb b = false ->
    home l v b /\ handles v !! b = None /\ b <> 1 /\ forall b', 0 <= b' < sb_size sb -> b <> BBLOCK b' (sb_ninodes sb);
  dk_lim : lim <= sb_size sb;
  dk_boot : 0 < sb_size sb < 2 ^ 32 /\ used v sb 0 = true;
  dk_inodes : forall i, 0 <= i < sb_ninodes sb ->
    0 <= IBLOCK i < sb_size sb /\ used v sb (IBLOCK i) = true /\ home l v (IBLOCK i) /\ handles v !! IBLOCK i = None
}.

Definition bitmap_in (D : gset Z) : Prop := forall b, 0 <= b < sb_size sb -> BBLOCK b (sb_ninodes sb) ∈ D.

(** A block in use by the data of files. *)
Record owned l v (b : Z) : Prop := {
  ow_range : 0 < b < sb_size sb;
  ow_used : used v sb b = true;
  ow_one : b <> 1;
  ow_bitmap : forall b', 0 <= b' < sb_size sb -> b <> BBLOCK b' (sb_ninodes sb);
  ow_inode : forall i, 0 <= i < sb_ninodes sb -> b <> IBLOCK i;
  ow_home : home l v b
}.

(** What a step may change: bitmap blocks, and the blocks of [own] among those
    in use before; nothing on the disk. *)
Definition frame l v v' (own : Z -> Prop) : Prop := nsect v' = nsect v /\
  forall s, home l v s -> disk v' s = disk v s /\
    (0 <= s < sb_size sb -> used v sb s = true -> used v' sb s = true /\
      ((forall b', 0 <= b' < sb_size sb -> s <> BBLOCK b' (sb_ninodes sb)) -> ~ own s -> content v' s = content v s)).

Lemma frame_trans l l1 v v1 v2 (own own1 : Z -> Prop) : frame l v v1 own -> same_log l l1 -> frame l1 v1 v2 own1 ->
  (forall s, own1 s -> used v sb s = true -> own s) -> frame l v v2 own.
Proof.
  intros (A & C) Hl (A' & C') Hsub. split; [congruence|]. intros s Hs.
  destruct (C s Hs) as [D E], (C' s (home_same _ _ _ _ _ Hl A Hs)) as [D' E']. split; [congruence|]. intros Hr Hu.
  destruct (E Hr Hu) as [E1 E2]. destruct (E' Hr E1) as [E1' E2']. split; [done|]. intros Hb Hn. rewrite E2', E2; [done|done|done|done|]. intros Ho. apply Hn. by apply Hsub.
Qed.

Lemma frame_refl l v own : frame l v v own.
Proof. split; [done|]. intros s Hs. done. Qed.

Lemma home_back l l' v v' s : same_log l l' -> nsect v' = nsect v -> home l' v' s -> home l v s.
Proof. unfold home. intros (_ & -> & -> & _) ->. done. Qed.

Lemma owned_frame l l' v v' own b : owned l v b -> same_log l l' -> frame l v v' own -> owned l' v' b.
Proof.
  intros [A B C D E F] Hl (Hn & Hf). destruct (Hf b F) as [_ Hb]. destruct (Hb ltac:(lia) B) as [Hu _]. split; try done. by eapply home_same.
Qed.

Lemma inode_not_bitmap i b : 0 <= i < sb_ninodes sb -> 0 <= b -> IBLOCK i <> BBLOCK b (sb_ninodes sb).
Proof. intros Hi Hb. unfold IBLOCK, BBLOCK, IPB, BPB. Z.div_mod_to_equations. lia. Qed.

(** Holding a data block keeps the disk sound. *)
Lemma disk_hold l v s h c : disk_ok l v -> owned l v s -> disk_ok (with_cache l c) (hold s h v).
Proof.
  intros [[A B C D E F] G Hlm [I1 I2] J] [O1 O2 O3 O4 O5 O6]. split.
  - split; try done; cbn; [rewrite lookup_insert_ne by done; done|]. intros b Hb. destruct (F b Hb) as [F1 F2]. split; [done|]. rewrite lookup_insert_ne; [done|by apply O4].
  - intros b Hb Hu. destruct (G b Hb Hu) as (G1 & G2 & G3 & G4). split; [done|]. split; [cbn; rewrite lookup_insert_ne; [done|]|done]. intros ->. cbn in Hu. unfold used in *. cbn in Hu. congruence.
  - done.
  - done.
  - intros i Hi. destruct (J i Hi) as (J1 & J2 & J3 & J4). split; [done|]. split; [done|]. split; [done|]. cbn. rewrite lookup_insert_ne; [done|by apply O5].
Qed.

Lemma owned_hold l v s h c b : owned l v b -> owned (with_cache l c) (hold s h v) b.
Proof. by intros []. Qed.

(** Allocation. *)
Lemma balloc_grow f l v D n : plan l v D n -> 0 < n -> disk_ok l v -> bitmap_in D ->
  wp (balloc ROOTDEV) (fun b f' => exists l' v', f' = with_log f l' /\ plan l' v' ({[b]} ∪ D) (n - 1) /\ disk_ok l' v' /\ same_log l l' /\ handles v' = handles v /\
    used v sb b = false /\ handles v !! b = None /\ owned l' v' b /\ content v' b = replicate 512 0 /\ frame l v v' (fun _ => False)) (with_log f l).
Proof.
  intros Hp Hn [Hg Hd Hlim [Hs Hboot] Hi] Hbm. pose proof (plan_tx _ _ _ _ 2 Hp ltac:(lia)) as Ht.
  assert (0 < nfree v) as Hnf by (pose proof (pl_free _ _ _ _ Hp); lia).
  assert (data_ok l v sb) as Hdok by (intros b Hb Hu Hlow; apply Hd; [|done]; split; [lia|by apply (first_free v)]).
  destruct (balloc_run f l v sb 2 Ht ltac:(lia) Hg Hdok) as [(b & l' & v' & E & Hal)|[Hall E]]; [|exfalso; destruct (some_free v Hnf) as (c & Hc & Hr); rewrite Hall in Hc by lia; done]. eapply ok_wp; [exact E|].
  pose proof (plan_alloc _ _ _ _ _ _ _ _ Hp Hn Hal) as Hp'. destruct Hal as (Hb & Hu & Hlow & Ht' & Hg' & Hl & Hused & Hz & (Hc1 & Hc2 & Hc3) & _).
  specialize (Hp' (Hbm b Hb)). destruct (Hdok b Hb Hu Hlow) as (Hbh & Hbn & Hb1 & Hbb).
  assert (forall s, home l v s -> disk v' s = disk v s /\ (0 <= s < sb_size sb -> used v sb s = true -> used v' sb s = true /\
      ((forall b', 0 <= b' < sb_size sb -> s <> BBLOCK b' (sb_ninodes sb)) -> ~ False -> content v' s = content v s))) as Hfr.
  { intros s Hho. destruct (Hc3 s Hho) as [Hds Hcs]. split; [done|]. intros Hr Hus. split; [rewrite Hused, Hus by done; apply orb_true_r|].
    intros Hnb _. apply Hcs. intros Hin. apply elem_of_cons in Hin as [->|Hin]; [by apply (Hnb b Hb)|]. apply list_elem_of_singleton in Hin as ->. congruence. }
  exists l', v'. split; [done|]. split; [done|]. split; [|split; [done|split; [done|split; [done|split; [done|split; [|split; [done|done]]]]]]].
  - split; [done| |done| |].
    + intros b' Hb' Hu'. rewrite Hused in Hu' by lia. apply orb_false_iff in Hu' as [_ Hu']. destruct (Hd b' Hb' Hu') as (X1 & X2 & X3 & X4).
      split; [by eapply home_same|]. by rewrite Hc2.
    + split; [done|]. rewrite Hused by lia. rewrite Hboot. apply orb_true_r.
    + intros i Hii. destruct (Hi i Hii) as (X1 & X2 & X3 & X4). split; [done|]. split; [rewrite Hused, X2 by done; apply orb_true_r|]. split; [by eapply home_same|]. by rewrite Hc2.
  - split; [|rewrite Hused by done; by rewrite Z.eqb_refl|done|done| |by eapply home_same].
    + destruct (decide (b = 0)) as [->|]; [congruence|lia].
    + intros i Hii ->. destruct (Hi i Hii) as (_ & X2 & _). congruence.
Qed.
(** Storing in, logging and releasing a held block, as the file system calls it. *)
Lemma held_run f l v D n s h d c : plan (with_cache l c) v D n -> handles v !! s = Some h -> home l v s -> zlen d = 512 ->
  exists s1 s2 l' v', bstore h d (with_log f (with_cache l c)) = Ok tt s1 /\ log_write_ h s1 = Ok tt s2 /\
    brelse h s2 = Ok tt (with_log f l') /\ logged_out (with_cache l c) v s d l' v'.
Proof.
  intros Hp Hh Hho Hd. destruct (plan_lh _ _ _ _ Hp) as (L1 & L2 & L3). destruct (pl_tx _ _ _ _ Hp) as [A B C _ _ F].
  pose proof (log_update_held (with_cache l c) v s h d A B C Hh Hho Hd L1 L2 F L3) as W.
  apply wp_bind_inv, wp_ok in W as ([] & l1 & E1 & W). apply wp_bind_inv, wp_ok in W as ([] & l2 & E2 & W).
  apply wp_ok in W as ([] & l3 & E3 & v' & Ho). exists (with_log f l1), (with_log f l2), l3, v'.
  split; [by apply on_log_run|]. split; [by apply on_log_run|]. split; [by apply on_log_run|done].
Qed.

(** One sector has new contents, nothing is newly held. *)
Record changes l v v' (s : Z) (d : list Z) : Prop := {
  ch_nsect : nsect v' = nsect v;
  ch_handles : forall b, handles v !! b = None -> handles v' !! b = None;
  ch_home : forall b, home l v b -> content v' b = zupd (content v) s d b /\ disk v' b = disk v b
}.

Lemma logged_changes l v s d l' v' : logged_out l v s d l' v' -> changes l v v' s d.
Proof. intros [A B C D E F G H' I J]. split; [done| |done]. intros b Hb. rewrite H', lookup_delete. by case_decide. Qed.

Lemma updates_changes l v v' s d : updates l v v' s d -> changes l v v' s d.
Proof. intros (A & B & C & _). split; [done|by rewrite B|done]. Qed.

Lemma used_changes l v v' s d b : disk_ok l v -> changes l v v' s d -> (forall b', 0 <= b' < sb_size sb -> s <> BBLOCK b' (sb_ninodes sb)) ->
  0 <= b < sb_size sb -> used v' sb b = used v sb b.
Proof.
  intros Hd Hc Hs Hb. unfold used. destruct (g_bitmap _ _ _ (dk_geom _ _ Hd) b Hb) as [Hho _]. destruct (ch_home _ _ _ _ _ Hc _ Hho) as [-> _].
  rewrite zupd_ne; [done|]. apply not_eq_sym. by apply Hs.
Qed.

Lemma nfree_changes l v v' s d : disk_ok l v -> changes l v v' s d -> (forall b', 0 <= b' < sb_size sb -> s <> BBLOCK b' (sb_ninodes sb)) ->
  nfree v' = nfree v.
Proof. intros Hd Hc Hs. apply nfree_same. intros b Hb. pose proof (dk_lim _ _ Hd). eapply used_changes; [done..|lia]. Qed.

Lemma frame_changes l v v' s d : disk_ok l v -> changes l v v' s d -> (forall b', 0 <= b' < sb_size sb -> s <> BBLOCK b' (sb_ninodes sb)) ->
  frame l v v' (fun t => t = s).
Proof.
  intros Hd Hc Hs. split; [apply Hc|]. intros t Ht. destruct (ch_home _ _ _ _ _ Hc t Ht) as [-> ->]. split; [done|]. intros Hr Hu.
  split; [by rewrite (used_changes l v v' s d)|]. intros _ Hne. by apply zupd_ne.
Qed.

Lemma disk_changes l l' v v' s d : disk_ok l v -> changes l v v' s d -> same_log l l' -> s <> 1 ->
  (forall b', 0 <= b' < sb_size sb -> s <> BBLOCK b' (sb_ninodes sb)) -> disk_ok l' v'.
Proof.
  intros Hd Hc Hl H1 Hs. pose proof (used_changes l v v' s d) as Hu. destruct (id Hd) as [[A B C D E F] G Hlm [I1 I2] J]. destruct (id Hc) as [Hn Hh Hho].
  assert (forall b, home l v b -> home l' v' b) as Hhm by (intros b Hb; by apply (home_same l l' v v')). split.
  - split; try done.
    + destruct (Hho 1 B) as [-> _]. by rewrite zupd_ne.
    + by apply Hhm.
    + by apply Hh.
    + by rewrite Hn.
    + intros b Hb. destruct (F b Hb) as [F1 F2]. split; [by apply Hhm|by apply Hh].
  - intros b Hb Hub. rewrite Hu in Hub by (done || lia). destruct (G b Hb Hub) as (G1 & G2 & G3 & G4). split; [by apply Hhm|]. split; [by apply Hh|done].
  - done.
  - split; [done|]. rewrite Hu; [done|done|done|done|lia].
  - intros i Hi. destruct (J i Hi) as (J1 & J2 & J3 & J4). split; [done|]. split; [by rewrite Hu|]. split; [by apply Hhm|by apply Hh].
Qed.
(** ** The blocks of a file *)

(** A data block nobody holds. *)
Definition data_blk l v (b : Z) : Prop := owned l v b /\ handles v !! b = None.

Lemma data_avail l v b : data_blk l v b -> avail_blk l v b.
Proof. intros [[A _ _ _ _ B] C]. split; [lia|done]. Qed.

Lemma data_frame l l' v v' own b : data_blk l v b -> same_log l l' -> frame l v v' own -> (forall a, handles v !! a = None -> handles v' !! a = None) -> data_blk l' v' b.
Proof. intros [A B] Hl Hf Hh. split; [by eapply owned_frame|by apply Hh]. Qed.

(** The file has its first [N] blocks and no others. *)
Record has_blocks l v x (N : Z) : Prop := {
  hb_dev : i_dev x = ROOTDEV;
  hb_len : zlen (i_addrs x) = 13;
  hb_n : 0 <= N <= MAXFILE;
  hb_blk : forall j, 0 <= j < N -> data_blk l v (blk v x j);
  hb_ind : NDIRECT < N -> data_blk l v (ind_blk x) /\ forall j, 0 <= j < N -> blk v x j <> ind_blk x;
  hb_inj : forall i j, 0 <= i < N -> 0 <= j < N -> blk v x i = blk v x j -> i = j;
  hb_end : forall j, N <= j < NDIRECT -> blk v x j = 0;
  hb_tail : NDIRECT < N -> forall j, N <= j < MAXFILE -> blk v x j = 0;
  hb_noind : N <= NDIRECT -> ind_blk x = 0
}.

(** The same, with the indirect block in place and block [N] still missing. *)
Record ind_ready l v x (N : Z) : Prop := {
  ir_dev : i_dev x = ROOTDEV;
  ir_len : zlen (i_addrs x) = 13;
  ir_n : NDIRECT <= N < MAXFILE;
  ir_blk : forall j, 0 <= j < N -> data_blk l v (blk v x j);
  ir_ind : data_blk l v (ind_blk x);
  ir_apart : forall j, 0 <= j < N -> blk v x j <> ind_blk x;
  ir_inj : forall i j, 0 <= i < N -> 0 <= j < N -> blk v x i = blk v x j -> i = j;
  ir_tail : forall j, N <= j < MAXFILE -> blk v x j = 0
}.

Lemma has_ind_ready l v x N : has_blocks l v x N -> NDIRECT < N < MAXFILE -> ind_ready l v x N.
Proof. intros [A B C D E F G I J] HN. destruct (E ltac:(lia)) as [E1 E2]. split; try done; [lia|]. apply I. lia. Qed.

Lemma blk_ind v x j : NDIRECT <= j -> blk v x j = ld32 (content v (ind_blk x)) (4 * (j - NDIRECT)).
Proof. intros Hj. unfold blk. by rewrite (proj2 (Z.ltb_ge j NDIRECT)). Qed.

Lemma blk_direct v v' x j : j < NDIRECT -> blk v' x j = blk v x j.
Proof. intros Hj. unfold blk. by rewrite (proj2 (Z.ltb_lt j NDIRECT)). Qed.

(** What growing by block [i] leaves behind: from inode [x] with plan [D], [n]
    to [x'] with [D'], [n']. *)
Record grown l v x (D : gset Z) (n : Z) (i : Z) l' v' x' (D' : gset Z) (n' : Z) : Prop := {
  gr_plan : plan l' v' D' n';
  gr_sub : D ⊆ D';
  gr_disk : disk_ok l' v';
  gr_log : same_log l l';
  gr_handles : handles v' = handles v;
  gr_inode : i_dev x' = i_dev x /\ i_inum x' = i_inum x /\ i_ref x' = i_ref x /\ i_flags x' = i_flags x /\ i_type x' = i_type x /\
    i_major x' = i_major x /\ i_minor x' = i_minor x /\ i_nlink x' = i_nlink x /\ i_size x' = i_size x;
  gr_new : blk v' x' i ∈ D' /\ content v' (blk v' x' i) = replicate 512 0 /\ used v sb (blk v' x' i) = false;
  gr_ind : ind_blk x' = ind_blk x \/ used v sb (ind_blk x') = false;
  gr_indD : NDIRECT <= i -> ind_blk x' ∈ D';
  gr_old : forall j, 0 <= j < i -> blk v' x' j = blk v x j;
  gr_frame : frame l v v' (fun s => s = ind_blk x)
}.

(** The end of bmap for an indirect block. *)
Definition ind_step (ip dev a bn : Z) : M (fs S) Z :=
  bp <- bread dev a ;;
  d <- bdata bp ;;
  addr <- (if ld32 d (4 * bn) =? 0 then
             addr <- balloc dev ;;
             bstore bp (st32 d (4 * bn) addr) ;;;
             log_write_ bp ;;;
             ret addr
           else ret (ld32 d (4 * bn))) ;;
  brelse bp ;;;
  ret addr.

Lemma ind_step_ok f l v x N D n ip : ind_ready l v x N -> disk_ok l v -> plan l v D n -> 0 < n -> bitmap_in D -> ind_blk x ∈ D ->
  wp (ind_step ip ROOTDEV (ind_blk x) (N - NDIRECT)) (fun b f' => exists l' v' D', f' = with_log f l' /\ b = blk v' x N /\
    has_blocks l' v' x (N + 1) /\ grown l v x D n N l' v' x D' (n - 1)) (with_log f l).
Proof.
  intros Hi Hd Hp Hn Hbm HD. set (a := ind_blk x) in *. destruct (ir_ind _ _ _ _ Hi) as [Ho Hna]. fold a in Ho, Hna.
  pose proof (ow_home _ _ _ Ho) as Hho. destruct (bread_run f l v 1 a (plan_tx _ _ _ _ 1 Hp ltac:(lia)) ltac:(lia) (proj1 Hho) Hna) as (h & c & E1 & Hr1).
  pose proof (plan_hold _ _ _ _ _ _ _ Hp HD Hho Hr1) as Hp1. pose proof (disk_hold _ _ _ h c Hd Ho) as Hd1.
  assert (handles (hold a h v) !! a = Some h) as Hh by apply lookup_insert_eq. set (va := hold a h v) in *. set (l1 := with_cache l c) in *.
  unfold ind_step. eapply wp_bind_ok; [exact E1|]. eapply wp_bind_ok; [exact (bdata_run f l c va a h Hr1 Hh)|]. cbn [content hold va].
  pose proof (ir_n _ _ _ _ Hi) as HN. pose proof (ir_tail _ _ _ _ Hi N ltac:(lia)) as Hz. rewrite blk_ind in Hz by lia. fold a in Hz. rewrite Hz. cbn [Z.eqb].
  apply wp_bind, wp_bind. eapply wp_mono; [exact (balloc_grow f l1 va D n Hp1 Hn Hd1 Hbm)|].
  intros b f2 (l2 & v2 & -> & Hp2 & Hd2 & Hl2 & Hf2h & Hub & Hnb & Hob & Hzb & Hf2).
  set (d := content v a) in *. set (d' := st32 d (4 * (N - NDIRECT)) b).
  assert (zlen d = 512) as Hzd by (apply (bc_block _ _ _ (tx_rep _ _ _ (pl_tx _ _ _ _ Hp)) (proj1 Hho))).
  destruct (owned_frame _ _ _ _ _ _ (owned_hold l v a h c a Ho) Hl2 Hf2) as [_ _ _ Hab _ Hho2].
  destruct (held_run f l2 v2 ({[b]} ∪ D) (n - 1) a h d' (lg_cache l2)) as (s1 & s2 & l3 & v3 & E3 & E4 & E5 & Hlo); [by rewrite with_cache_id|by rewrite Hf2h|done|by unfold d'; rewrite zlen_st32|].
  rewrite with_cache_id in *. eapply wp_bind_ok; [exact E3|]. eapply wp_bind_ok; [exact E4|]. apply wp_ret. eapply wp_bind_ok; [exact E5|]. apply wp_ret.
  pose proof (logged_changes _ _ _ _ _ _ Hlo) as Hch. assert (same_log l l3) as Hl3 by (pose proof (lo_same _ _ _ _ _ _ Hlo); unfold same_log in *; cbn in *; intuition congruence).
  assert (forall j, NDIRECT <= j < MAXFILE -> blk v3 x j = if decide (j = N) then b else blk v x j) as Hblk.
  { intros j Hj. rewrite !blk_ind by lia. fold a d. destruct (ch_home _ _ _ _ _ Hch a Hho2) as [-> _]. rewrite zupd_eq. unfold d'. pose proof (dk_boot _ _ Hd) as [Hbs _].
    pose proof (ow_range _ _ _ Hob). assert (4 * (j - NDIRECT) + 4 <= 512) by (unfold MAXFILE, NINDIRECT in Hj; lia). case_decide as Ej.
    - subst j. rewrite ld32_st32_eq, u32_small; [done|lia|lia|lia].
    - rewrite ld32_st32_ne; [done|lia]. }
  assert (forall j, 0 <= j < N -> blk v3 x j = blk v x j) as Hold.
  { intros j Hj. destruct (Z.lt_ge_cases j NDIRECT); [by apply blk_direct|]. rewrite Hblk by lia. by rewrite decide_False by lia. }
  assert (blk v3 x N = b) as HbN by (rewrite Hblk by lia; by rewrite decide_True).
  assert (handles v3 = handles v) as Hh3.
  { rewrite (lo_handles _ _ _ _ _ _ Hlo), Hf2h. cbn. by apply delete_insert_id. }
  assert (frame l2 v2 v3 (fun s => s = a)) as Hf3 by (eapply frame_changes; [exact Hd2|exact Hch|exact Hab]).
  assert (frame l v v3 (fun s => s = a)) as Hfr.
  { apply (frame_trans l l2 v v2 v3 _ (fun s => s = a)); [|exact Hl2|exact Hf3|done].
    destruct Hf2 as [F1 F2]. split; [exact F1|]. intros s Hs. destruct (F2 s Hs) as [F3 F4]. split; [exact F3|]. intros Hr Hu. destruct (F4 Hr Hu) as [F5 F6]. split; [exact F5|]. intros Hb _. apply F6; [exact Hb|by intros []]. }
  assert (forall s, data_blk l v s -> data_blk l3 v3 s) as Hdata by (intros s Hs; eapply data_frame; [exact Hs|exact Hl3|exact Hfr|intros q; by rewrite Hh3]).
  assert (same_log l2 l3) as Hl23 by exact (lo_same _ _ _ _ _ _ Hlo).
  assert (data_blk l3 v3 b) as Hb3 by (split; [by eapply owned_frame|rewrite Hh3; by apply (lookup_insert_None (handles v) a b h)]).
  assert (forall j, 0 <= j < N -> blk v x j <> b) as Hfresh.
  { intros j Hj E. destruct (ir_blk _ _ _ _ Hi j Hj) as [[_ X _ _ _ _] _]. rewrite E in X. cbn in Hub. unfold used in *. cbn in *. congruence. }
  assert (a <> b) as Hanb by (intros E; pose proof (ow_used _ _ _ Ho) as X; rewrite E in X; unfold used in *; cbn in *; congruence).
  exists l3, v3, ({[b]} ∪ D). split; [done|]. split; [done|]. split.
  - destruct Hi as [I1 I2 I3 I4 I5 I6 I7 I8]. split; try done; [unfold NDIRECT in I3; lia| | | |intros j Hj; lia| |intros Hle; lia].
    + intros j Hj. destruct (decide (j = N)) as [->|]; [by rewrite HbN|]. rewrite Hold by lia. apply Hdata, I4. lia.
    + intros _. split; [by apply Hdata|]. intros j Hj. destruct (decide (j = N)) as [->|]; [rewrite HbN; by apply not_eq_sym|]. rewrite Hold by lia. apply I6. lia.
    + intros i j Hi Hj. destruct (decide (i = N)) as [->|], (decide (j = N)) as [->|]; [done| | |].
      * rewrite HbN, Hold by lia. intros E. exfalso. by apply (Hfresh j ltac:(lia)).
      * rewrite HbN, Hold by lia. intros E. exfalso. by apply (Hfresh i ltac:(lia)).
      * rewrite !Hold by lia. apply I7; lia.
    + intros _ j Hj. rewrite Hblk by lia. rewrite decide_False by lia. apply I8. lia.
  - split.
    + eapply plan_logged; [exact Hp2|exact Hlo|set_solver|]. by eapply nfree_changes.
    + set_solver.
    + eapply disk_changes; [exact Hd2|exact Hch|exact (lo_same _ _ _ _ _ _ Hlo)|apply Ho|exact Hab].
    + done.
    + done.
    + done.
    + rewrite HbN. split; [set_solver|]. split; [|exact Hub]. destruct (ch_home _ _ _ _ _ Hch b (ow_home _ _ _ Hob)) as [-> _]. by rewrite zupd_ne by done.
    + by left.
    + intros _. fold a. set_solver.
    + done.
    + done.
Qed.
(** Fresh blocks that block [i] takes. *)
Definition fresh (i : Z) : Z := if i =? NDIRECT then 2 else 1.

Lemma zget_blk_direct v x N : zlen (i_addrs x) = 13 -> 0 <= N < NDIRECT -> blk v x N = 0 -> zget (i_addrs x) N = Some 0.
Proof.
  intros Hl HN E. unfold blk in E. rewrite (proj2 (Z.ltb_lt N NDIRECT)) in E by lia.
  destruct (zget_in (i_addrs x) N) as [a Ha]; [rewrite Hl; unfold NDIRECT in HN; lia|]. rewrite Ha in E |- *. by rewrite <-E.
Qed.

Lemma zget_ind x : zlen (i_addrs x) = 13 -> zget (i_addrs x) NDIRECT = Some (ind_blk x).
Proof. intros Hl. unfold ind_blk. destruct (zget_in (i_addrs x) NDIRECT) as [a Ha]; [rewrite Hl; unfold NDIRECT; lia|]. by rewrite Ha. Qed.

Lemma blk_set_addr v x k a j : 0 <= k < zlen (i_addrs x) -> j < NDIRECT -> blk v (set_addr k a x) j = if decide (j = k) then a else blk v x j.
Proof.
  intros Hk Hj. unfold blk. rewrite (proj2 (Z.ltb_lt j NDIRECT)) by lia. cbn [i_addrs set_addr]. case_decide as E.
  - subst. by rewrite zget_zset_eq.
  - by rewrite zget_zset_ne.
Qed.

(** A fresh block is none of those the file has. *)
Lemma fresh_apart l v b c : owned l v c -> used v sb b = false -> c <> b.
Proof. intros [_ Hu _ _ _ _] Hb ->. congruence. Qed.

(** A new direct block. *)
Lemma direct_grown l v x N D n b l' v' : has_blocks l v x N -> N < NDIRECT -> plan l' v' ({[b]} ∪ D) (n - 1) -> disk_ok l' v' -> same_log l l' ->
  handles v' = handles v -> used v sb b = false -> handles v !! b = None -> owned l' v' b -> content v' b = replicate 512 0 ->
  frame l v v' (fun _ => False) ->
  has_blocks l' v' (set_addr N b x) (N + 1) /\ grown l v x D n N l' v' (set_addr N b x) ({[b]} ∪ D) (n - 1) /\ blk v' (set_addr N b x) N = b.
Proof.
  intros Hhb HN Hp Hd Hl Hh Hub Hnb Hob Hz Hf. destruct (id Hhb) as [A B C E F G I J K].
  assert (0 <= N < zlen (i_addrs x)) as Hr by (rewrite B; unfold NDIRECT in HN; lia). set (x' := set_addr N b x).
  assert (forall j, j < NDIRECT -> blk v' x' j = if decide (j = N) then b else blk v x j) as Hblk.
  { intros j Hj. rewrite (blk_direct v v') by done. by apply blk_set_addr. }
  assert (blk v' x' N = b) as HbN by (rewrite Hblk by done; by rewrite decide_True).
  assert (forall s, data_blk l v s -> data_blk l' v' s) as Hdata by (intros s Hs; eapply data_frame; [exact Hs|exact Hl|exact Hf|intros q; by rewrite Hh]).
  assert (forall j, 0 <= j < N -> blk v x j <> b) as Hfresh by (intros j Hj; eapply fresh_apart; [apply (E j Hj)|done]).
  split; [|split; [|done]].
  - split; try done; [cbn; by rewrite zlen_zset|unfold MAXFILE, NINDIRECT, NDIRECT in *; lia| |intros Hlt; lia| | |intros Hlt; lia|].
    + intros j Hj. rewrite Hblk by lia. case_decide; [split; [done|by rewrite Hh]|]. apply Hdata, E. lia.
    + intros i j Hi Hj. rewrite !Hblk by lia. repeat case_decide; [lia| | |].
      * intros X. exfalso. by apply (Hfresh j ltac:(lia)).
      * intros X. exfalso. by apply (Hfresh i ltac:(lia)).
      * intros X. apply G; [lia|lia|done].
    + intros j Hj. rewrite Hblk by lia. rewrite decide_False by lia. apply I. lia.
    + intros _. unfold ind_blk. cbn [x' i_addrs set_addr]. rewrite zget_zset_ne by lia. apply K. lia.
  - split; try done.
    + set_solver.
    + rewrite HbN. split; [set_solver|done].
    + left. unfold ind_blk. cbn [x' i_addrs set_addr]. by rewrite zget_zset_ne by lia.
    + intros Hge. lia.
    + intros j Hj. rewrite Hblk by lia. by rewrite decide_False by lia.
    + destruct Hf as [F1 F2]. split; [done|]. intros s Hs. destruct (F2 s Hs) as [F3 F4]. split; [done|]. intros Hr' Hu. destruct (F4 Hr' Hu) as [F5 F6]. split; [done|].
      intros Hbm _. apply F6; [done|by intros []].
Qed.

(** The indirect block itself. *)
Lemma indirect_ready l v x b l' v' : has_blocks l v x NDIRECT -> same_log l l' -> handles v' = handles v -> used v sb b = false ->
  handles v !! b = None -> owned l' v' b -> content v' b = replicate 512 0 -> frame l v v' (fun _ => False) ->
  ind_ready l' v' (set_addr NDIRECT b x) NDIRECT /\ (forall j, 0 <= j < NDIRECT -> blk v' (set_addr NDIRECT b x) j = blk v x j) /\
  ind_blk (set_addr NDIRECT b x) = b.
Proof.
  intros Hhb Hl Hh Hub Hnb Hob Hz Hf. destruct (id Hhb) as [A B C E F G I J K]. set (x' := set_addr NDIRECT b x).
  assert (0 <= NDIRECT < zlen (i_addrs x)) as Hr by (rewrite B; unfold NDIRECT; lia).
  assert (ind_blk x' = b) as Hind by (unfold ind_blk; cbn [x' i_addrs set_addr]; by rewrite zget_zset_eq).
  assert (forall j, 0 <= j < NDIRECT -> blk v' x' j = blk v x j) as Hblk.
  { intros j Hj. rewrite (blk_direct v v') by lia. unfold x'. rewrite blk_set_addr by lia. by rewrite decide_False by lia. }
  split; [|done]. split; try done.
  - cbn [x' i_addrs set_addr]. by rewrite zlen_zset.
  - intros j Hj. rewrite Hblk by done. eapply data_frame; [by apply E|done|done|intros q; by rewrite Hh].
  - rewrite Hind. split; [done|by rewrite Hh].
  - intros j Hj. rewrite Hblk, Hind by done. eapply fresh_apart; [apply (E j Hj)|done].
  - intros i j Hi Hj. rewrite !Hblk by done. by apply G.
  - intros j Hj. rewrite blk_ind by lia. rewrite Hind, Hz. unfold ld32, ld8, zget.
    assert (forall o, default 0 (if 0 <=? o then replicate 512 0 !! Z.to_nat o else None) = 0) as Z0.
    { intros o. destruct (0 <=? o); [|done]. destruct (replicate 512 0 !! Z.to_nat o) eqn:X; [|done]. by apply lookup_replicate in X as [-> _]. }
    by rewrite !Z0.
Qed.

Lemma bmap_new f l v x D n ip N : zget (inodes f) ip = Some x -> has_blocks l v x N -> N < MAXFILE -> disk_ok l v -> plan l v D n -> bitmap_in D ->
  (NDIRECT < N -> ind_blk x ∈ D) -> fresh N <= n ->
  wp (bmap ip N) (fun b f' => exists l' v' x' D', f' = with_log (with_inodes f (zset (inodes f) ip x')) l' /\ b = blk v' x' N /\
    has_blocks l' v' x' (N + 1) /\ grown l v x D n N l' v' x' D' (n - fresh N)) (with_log f l).
Proof.
  intros Hx Hhb HN Hd Hp Hbm HD Hn. pose proof (hb_n _ _ _ _ Hhb) as H0. pose proof (hb_len _ _ _ _ Hhb) as Hlen. unfold bmap.
  eapply wp_bind_ok; [exact (get_inode_run _ _ _ _ Hx)|]. rewrite (hb_dev _ _ _ _ Hhb). destruct (Z.ltb_spec N NDIRECT) as [Hdir|Hdir].
  - assert (fresh N = 1) as Hf by (unfold fresh; by rewrite (proj2 (Z.eqb_neq N NDIRECT)) by lia). rewrite Hf in *.
    eapply wp_bind_ok; [unfold from_opt; by rewrite (zget_blk_direct v x N Hlen ltac:(lia) (hb_end _ _ _ _ Hhb N ltac:(lia)))|]. cbn [Z.eqb].
    apply wp_bind. eapply wp_mono; [exact (balloc_grow f l v D n Hp ltac:(lia) Hd Hbm)|].
    intros b f2 (l2 & v2 & -> & Hp2 & Hd2 & Hl2 & Hh2 & Hub & Hnb & Hob & Hzb & Hf2).
    eapply wp_bind_ok; [by apply (upd_inode_ok _ ip x)|]. apply wp_ret.
    destruct (direct_grown l v x N D n b l2 v2 Hhb Hdir Hp2 Hd2 Hl2 Hh2 Hub Hnb Hob Hzb Hf2) as (P1 & P2 & P3).
    exists l2, v2, (set_addr N b x), ({[b]} ∪ D). by rewrite P3.
  - rewrite (proj2 (Z.ltb_lt (N - NDIRECT) NINDIRECT)) by (unfold MAXFILE in HN; lia). eapply wp_bind_ok; [unfold from_opt; by rewrite (zget_ind x Hlen)|].
    destruct (decide (N = NDIRECT)) as [->|Hne].
    + rewrite (hb_noind _ _ _ _ Hhb ltac:(lia)). cbn [Z.eqb]. change (fresh NDIRECT) with 2 in *.
      apply wp_bind, wp_bind. eapply wp_mono; [exact (balloc_grow f l v D n Hp ltac:(lia) Hd Hbm)|].
      intros a f2 (l2 & v2 & -> & Hp2 & Hd2 & Hl2 & Hh2 & Hub & Hna & Hoa & Hza & Hf2).
      eapply wp_bind_ok; [by apply (upd_inode_ok _ ip x)|]. apply wp_ret.
      destruct (indirect_ready l v x a l2 v2 Hhb Hl2 Hh2 Hub Hna Hoa Hza Hf2) as (P1 & P2 & P3). set (x1 := set_addr NDIRECT a x) in *.
      assert (bitmap_in ({[a]} ∪ D)) as Hbm2 by (intros b Hb; apply elem_of_union_r; by apply Hbm).
      pose proof (ind_step_ok (with_inodes f (zset (inodes f) ip x1)) l2 v2 x1 NDIRECT ({[a]} ∪ D) (n - 1) ip P1 Hd2 Hp2 ltac:(lia) Hbm2) as W.
      rewrite P3 in W. eapply wp_mono; [exact (W ltac:(set_solver))|]. clear W.
      intros b f3 (l3 & v3 & D3 & -> & -> & Hb3 & [G1 G2 G3 G4 G5 G6 (G7a & G7b & G7c) G7d G7e G8 G9]). exists l3, v3, x1, D3. split; [done|]. split; [done|]. split; [done|].
      split; try done.
      * by replace (n - 2) with (n - 1 - 1) by lia.
      * set_solver.
      * unfold same_log in *. intuition congruence.
      * congruence.
      * split; [done|]. split; [done|]. destruct (used v sb (blk v3 x1 NDIRECT)) eqn:Eu; [|done]. exfalso.
        destruct (hb_blk _ _ _ _ Hb3 NDIRECT ltac:(unfold NDIRECT; lia)) as [[R1 R2 R3 R4 R5 R6] _]. destruct Hf2 as [F1 F2].
        assert (home l v (blk v3 x1 NDIRECT)) as Hhm by (eapply home_back; [| |exact R6]; [unfold same_log in *; intuition congruence|destruct G9; congruence]).
        destruct (F2 _ Hhm) as [_ F3]. destruct (F3 ltac:(lia) Eu) as [F4 _]. congruence.
      * rewrite P3. by right.
      * intros j Hj. by rewrite G8, P2.
      * eapply frame_trans; [|exact Hl2|exact G9|intros s ->; rewrite P3; congruence]. destruct Hf2 as [F1 F2]. split; [done|]. intros s Hs. destruct (F2 s Hs) as [F3 F4].
        split; [done|]. intros Hr Hu. destruct (F4 Hr Hu) as [F5 F6]. split; [done|]. intros Hb _. apply F6; [done|by intros []].
    + assert (fresh N = 1) as Hf by (unfold fresh; by rewrite (proj2 (Z.eqb_neq N NDIRECT)) by lia). rewrite Hf in *.
      assert (ind_ready l v x N) as Hir by (apply has_ind_ready; [done|lia]). destruct (ir_ind _ _ _ _ Hir) as [[Hr _ _ _ _ _] _].
      rewrite (proj2 (Z.eqb_neq (ind_blk x) 0)) by lia. apply wp_bind, wp_ret.
      eapply wp_mono; [apply (ind_step_ok f l v x N D n ip Hir Hd Hp); [lia|done|apply HD; lia]|].
      intros b f3 (l3 & v3 & D3 & -> & -> & Hb3 & Hg). exists l3, v3, x, D3. split; [|done]. unfold with_inodes. rewrite zset_id by done. by destruct f.
Qed.
(** ** Growing by a range *)

Definition same_meta x x' : Prop := i_dev x' = i_dev x /\ i_inum x' = i_inum x /\ i_ref x' = i_ref x /\ i_flags x' = i_flags x /\ i_type x' = i_type x /\
  i_major x' = i_major x /\ i_minor x' = i_minor x /\ i_nlink x' = i_nlink x /\ i_size x' = i_size x.

(** The blocks of the file that may be written. *)
Definition of_file v x (N : Z) (s : Z) : Prop := s = ind_blk x \/ exists j, 0 <= j < N /\ s = blk v x j.

(** From [N] to [N'] blocks. *)
Record extended l v x (D : gset Z) (N : Z) l' v' x' (D' : gset Z) (n' : Z) (N' : Z) : Prop := {
  ex_plan : plan l' v' D' n';
  ex_sub : D ⊆ D';
  ex_disk : disk_ok l' v';
  ex_log : same_log l l';
  ex_handles : handles v' = handles v;
  ex_meta : same_meta x x';
  ex_blocks : has_blocks l' v' x' N';
  ex_le : 0 <= N <= N';
  ex_old : forall j, 0 <= j < N -> blk v' x' j = blk v x j;
  ex_new : forall j, N <= j < N' -> used v sb (blk v' x' j) = false;
  ex_ind : ind_blk x' = ind_blk x \/ used v sb (ind_blk x') = false;
  ex_indD : NDIRECT < N' -> ind_blk x' ∈ D';
  ex_same : N' = N -> x' = x;
  ex_frame : frame l v v' (of_file v x N)
}.

Lemma extended_refl l v x D n N : plan l v D n -> disk_ok l v -> has_blocks l v x N -> (NDIRECT < N -> ind_blk x ∈ D) -> extended l v x D N l v x D n N.
Proof. intros Hp Hd Hb Hi. pose proof (hb_n _ _ _ _ Hb). split; try done; try lia. Qed.

(** What was free stays out of use until then. *)
Lemma unused_back l l1 v v1 own own1 s l2 v2 : same_log l l1 -> frame l v v1 own -> same_log l1 l2 -> frame l1 v1 v2 own1 -> owned l2 v2 s -> used v1 sb s = false -> used v sb s = false.
Proof.
  intros Hl (Hn & Hf) Hl2 (Hn2 & _) Ho Hu. destruct (used v sb s) eqn:E; [|done]. exfalso.
  assert (home l v s) as Hho.
  { eapply home_back; [exact Hl|exact Hn|]. eapply home_back; [exact Hl2|exact Hn2|apply Ho]. }
  destruct (Hf s Hho) as [_ Hb]. pose proof (ow_range _ _ _ Ho). destruct (Hb ltac:(lia) E) as [X _]. congruence.
Qed.

Lemma ind_owned l v x N : has_blocks l v x N -> ind_blk x = 0 \/ owned l v (ind_blk x).
Proof. intros Hb. destruct (Z.lt_ge_cases NDIRECT N) as [Hn|Hn]; [right; apply (hb_ind _ _ _ _ Hb Hn)|left; by apply (hb_noind _ _ _ _ Hb)]. Qed.

Lemma used_zero l v b : disk_ok l v -> b = 0 -> used v sb b = true.
Proof. intros Hd ->. apply (dk_boot _ _ Hd). Qed.

Lemma extended_trans l v x D N l1 v1 x1 D1 n1 N1 l2 v2 x2 D2 n2 N2 : disk_ok l v ->
  extended l v x D N l1 v1 x1 D1 n1 N1 -> extended l1 v1 x1 D1 N1 l2 v2 x2 D2 n2 N2 -> extended l v x D N l2 v2 x2 D2 n2 N2.
Proof.
  intros Hd0 [A1 A2 A3 A4 A5 A6 A7 A8 A9 A10 A11 Ai As A12] [B1 B2 B3 B4 B5 B6 B7 B8 B9 B10 B11 Bi Bs B12].
  assert (forall s, owned l2 v2 s -> used v1 sb s = false -> used v sb s = false) as Hback by (intros s; eapply unused_back; [exact A4|exact A12|exact B4|exact B12]).
  split; try done.
  - set_solver.
  - unfold same_log in *. intuition congruence.
  - congruence.
  - unfold same_meta in *. intuition congruence.
  - lia.
  - intros j Hj. rewrite B9, A9; [done|lia|lia].
  - intros j Hj. destruct (Z.lt_ge_cases j N1) as [Hlt|Hge]; [rewrite B9 by lia; apply A10; lia|].
    apply Hback; [apply (hb_blk _ _ _ _ B7 j); lia|apply B10; lia].
  - destruct B11 as [->|B11]; [done|]. right. destruct (ind_owned _ _ _ _ B7) as [E|Ho]; [|by apply Hback].
    pose proof (used_zero _ _ _ A3 E). congruence.
  - intros E. rewrite Bs, As by lia. done.
  - eapply frame_trans; [exact A12|exact A4|exact B12|]. intros s [->|(j & Hj & ->)] Hu.
    + destruct A11 as [->|A11]; [by left|]. congruence.
    + destruct (Z.lt_ge_cases j N) as [Hlt|Hge]; [right; exists j; split; [lia|by apply A9; lia]|]. rewrite A10 in Hu by lia. done.
Qed.
Lemma frame_mono l v v' (own own' : Z -> Prop) : frame l v v' own -> (forall s, own s -> own' s) -> frame l v v' own'.
Proof.
  intros [F1 F2] Hs. split; [done|]. intros s Hh. destruct (F2 s Hh) as [F3 F4]. split; [done|]. intros Hr Hu. destruct (F4 Hr Hu) as [F5 F6]. split; [done|].
  intros Hb Hn. apply F6; [done|]. intros Ho. by apply Hn, Hs.
Qed.

Lemma blk_not_ind l v x N j : has_blocks l v x N -> 0 <= j < N -> blk v x j <> ind_blk x.
Proof.
  intros Hb Hj. destruct (Z.lt_ge_cases NDIRECT N) as [Hn|Hn]; [by apply (hb_ind _ _ _ _ Hb Hn)|]. rewrite (hb_noind _ _ _ _ Hb Hn).
  destruct (hb_blk _ _ _ _ Hb j Hj) as [[Hr _ _ _ _ _] _]. lia.
Qed.

(** The content of the data blocks survives what only touches the indirect block. *)
Lemma content_kept l v v' x N j : has_blocks l v x N -> 0 <= j < N -> frame l v v' (fun s => s = ind_blk x) -> content v' (blk v x j) = content v (blk v x j).
Proof.
  intros Hb Hj [_ Hf]. destruct (hb_blk _ _ _ _ Hb j Hj) as [[R1 R2 R3 R4 R5 R6] _]. destruct (Hf _ R6) as [_ F]. destruct (F ltac:(lia) R2) as [_ G].
  apply G; [done|]. by eapply blk_not_ind.
Qed.

Lemma data_cache l v c b : data_blk l v b -> data_blk (with_cache l c) v b.
Proof. intros [[] ?]. by split. Qed.

Lemma blocks_cache l v c x N : has_blocks l v x N -> has_blocks (with_cache l c) v x N.
Proof.
  intros [A B C D' F G I J K]. split; try done.
  - intros j Hj. by apply data_cache, D'.
  - intros Hn. destruct (F Hn). split; [by apply data_cache|done].
Qed.

Lemma bmap_extend f l v x D n ip N i : zget (inodes f) ip = Some x -> has_blocks l v x N -> 0 <= i <= N -> i < MAXFILE -> disk_ok l v -> plan l v D n ->
  bitmap_in D -> (NDIRECT < N -> ind_blk x ∈ D) -> (i < N -> blk v x i ∈ D) -> (i = N -> fresh N <= n) ->
  wp (bmap ip i) (fun b f' => exists l' v' x' D', f' = with_log (with_inodes f (zset (inodes f) ip x')) l' /\ b = blk v' x' i /\ b ∈ D' /\
    extended l v x D N l' v' x' D' (n - if i =? N then fresh N else 0) (Z.max N (i + 1)) /\
    (i = N -> content v' b = replicate 512 0) /\ forall j, 0 <= j < N -> content v' (blk v x j) = content v (blk v x j)) (with_log f l).
Proof.
  intros Hx Hb Hi Hmax Hd Hp Hbm HD HbD Hn. destruct (Z.eqb_spec i N) as [->|Hne].
  - rewrite Z.max_r by lia. eapply wp_mono; [apply (bmap_new f l v x D n ip N); [done..|by apply Hn]|].
    intros b f' (l' & v' & x' & D' & -> & -> & Hb' & [G1 G2 G3 G4 G5 G6 (G7a & G7b & G7c) G7d G7e G8 G9]). exists l', v', x', D'. split; [done|]. split; [done|].
    split; [done|]. split; [|split; [done|intros j Hj; by eapply content_kept]]. split; try done; [lia|intros j Hj; by replace j with N by lia|intros Hle; apply G7e; lia|lia|].
    eapply frame_mono; [exact G9|]. intros s ->. by left.
  - destruct (hb_blk _ _ _ _ Hb i ltac:(lia)) as [Ho Hnh]. assert (ready v (lg_cache l)) as Hrd.
    { split; [apply Hp|]. destruct (touched_bounds v D). pose proof (pl_room _ _ _ _ Hp). pose proof (pl_n _ _ _ _ Hp). lia. }
    destruct (bmap_hit f l v (lg_cache l) ip x i Hrd Hx (hb_dev _ _ _ _ Hb) (hb_len _ _ _ _ Hb) ltac:(lia)) as (c & E & Hc).
    { by apply data_avail. } { intros Hni. apply data_avail, (hb_ind _ _ _ _ Hb). lia. }
    rewrite with_cache_id in E. eapply ok_wp; [exact E|]. exists (with_cache l c), v, x, D. rewrite zset_id by done. rewrite Z.max_l, Z.sub_0_r by lia.
    split; [by destruct f|]. split; [done|]. split; [apply HbD; lia|]. split; [|split; [lia|done]].
    split; try done; try lia.
    + by apply plan_cache.
    + destruct Hd as [A B C D']. split; try done. by apply geom_cache.
    + by apply blocks_cache.
Qed.
Lemma blk_kept l v v' x N b d j : has_blocks l v x N -> updates l v v' b d -> b <> ind_blk x -> 0 <= j < N -> blk v' x j = blk v x j.
Proof.
  intros Hb (_ & _ & Hu & _) Hne Hj. destruct (Z.lt_ge_cases j NDIRECT) as [|Hge]; [by apply blk_direct|]. rewrite !blk_ind by done.
  destruct (hb_ind _ _ _ _ Hb ltac:(lia)) as [[Ho _] _]. destruct (Hu _ (ow_home _ _ _ Ho)) as [-> _]. by rewrite zupd_ne by done.
Qed.

(** Writing a data block. *)
Lemma write_extends l v x D n N i l' v' d : has_blocks l v x N -> disk_ok l v -> plan l v D n -> (NDIRECT < N -> ind_blk x ∈ D) -> 0 <= i < N -> blk v x i ∈ D ->
  tx l' v' 0 -> same_log l l' -> updates l v v' (blk v x i) d -> extended l v x D N l' v' x D n N.
Proof.
  intros Hb Hd Hp Hin Hi HD Ht Hl Hu. destruct (hb_blk _ _ _ _ Hb i Hi) as [[R1 R2 R3 R4 R5 R6] Hnh]. pose proof (updates_changes _ _ _ _ _ Hu) as Hc.
  pose proof (blk_not_ind _ _ _ _ _ Hb Hi) as Hni. assert (frame l v v' (fun s => s = blk v x i)) as Hf by (by eapply frame_changes).
  assert (handles v' = handles v) as Hh by apply Hu. assert (forall j, 0 <= j < N -> blk v' x j = blk v x j) as Hk by (intros j Hj; by eapply blk_kept).
  assert (forall b, data_blk l v b -> data_blk l' v' b) as Hdata by (intros b Hdb; eapply data_frame; [exact Hdb|exact Hl|exact Hf|by rewrite Hh]).
  pose proof (hb_n _ _ _ _ Hb). split; try done; try lia.
  - eapply plan_updates; [done..|]. by eapply nfree_changes.
  - by eapply disk_changes.
  - destruct Hb as [A B C F G I J K L]. split; try done.
    + intros j Hj. rewrite Hk by done. by apply Hdata, F.
    + intros Hn. destruct (G Hn) as [G1 G2]. split; [by apply Hdata|]. intros j Hj. rewrite Hk by done. by apply G2.
    + intros a b Ha Hb'. rewrite !Hk by done. by apply I.
    + intros j Hj. rewrite (blk_direct v v') by lia. by apply J.
    + intros Hn j Hj. rewrite blk_ind by lia. destruct (G Hn) as [[Go _] _]. destruct Hu as (_ & _ & Hu & _). destruct (Hu _ (ow_home _ _ _ Go)) as [-> _].
      rewrite zupd_ne by (by apply not_eq_sym). rewrite <-blk_ind by lia. by apply K.
  - eapply frame_mono; [exact Hf|]. intros s ->. right. by exists i.
Qed.

Lemma write_block {B} f l v x D n N i (g : list Z -> list Z) (k : M (fs S) B) Q b : has_blocks l v x N -> disk_ok l v -> plan l v D n -> (NDIRECT < N -> ind_blk x ∈ D) -> 0 <= i < N -> b = blk v x i ->
  b ∈ D -> zlen (g (content v b)) = 512 ->
  (forall l' v', extended l v x D N l' v' x D n N -> updates l v v' b (g (content v b)) -> wp k Q (with_log f l')) ->
  wp (bp <- bread ROOTDEV b ;; d <- bdata bp ;; bstore bp (g d) ;;; log_write_ bp ;;; brelse bp ;;; k) Q (with_log f l).
Proof.
  intros Hb Hd Hp Hin Hi -> HD Hg Hk. destruct (hb_blk _ _ _ _ Hb i Hi) as [Ho Hnh]. pose proof (ow_home _ _ _ Ho) as Hho. pose proof (plan_tx _ _ _ _ 1 Hp ltac:(lia)) as Ht.
  destruct (bread_run f l v 1 _ Ht ltac:(lia) (proj1 Hho) Hnh) as (h & c & E1 & Hr1). eapply wp_bind_ok; [exact E1|].
  assert (handles (hold (blk v x i) h v) !! blk v x i = Some h) as Hh by apply lookup_insert_eq. eapply wp_bind_ok; [exact (bdata_run f l c _ _ h Hr1 Hh)|]. cbn [content hold].
  destruct (update_run f l v (blk v x i) h (g (content v (blk v x i))) 1 c Ht ltac:(lia) Hnh Hho Hg Hr1) as (s1 & s2 & l' & v' & E2 & E3 & E4 & Ht' & Hl & Hu).
  eapply wp_bind_ok; [exact E2|]. eapply wp_bind_ok; [exact E3|]. eapply wp_bind_ok; [exact E4|]. apply (Hk l' v'); [by eapply write_extends|done].
Qed.

(** Fresh blocks that a file of [N] blocks needs to have [B]. *)
Definition need (N B : Z) : Z := if B <=? N then 0 else B - N + (if (N <=? NDIRECT) && (NDIRECT <? B) then 1 else 0).

Lemma need_step N B : 0 <= N -> N < B -> need N B - fresh N = need (N + 1) B /\ fresh N <= need N B.
Proof.
  intros H0 HN. unfold need, fresh. rewrite (proj2 (Z.leb_gt B N)) by done. destruct (Z.eqb_spec N NDIRECT) as [->|Hne].
  - rewrite Z.leb_refl, (proj2 (Z.ltb_lt NDIRECT B)) by done. cbn [andb]. rewrite (proj2 (Z.leb_gt (NDIRECT + 1) NDIRECT)) by lia. cbn [andb].
    destruct (Z.leb_spec B (NDIRECT + 1)); lia.
  - destruct (Z.leb_spec B (N + 1)), (Z.leb_spec N NDIRECT), (Z.leb_spec (N + 1) NDIRECT), (Z.ltb_spec NDIRECT B); cbn [andb]; lia.
Qed.

(** The bytes after one block has been written. *)
Lemma step_bytes l v x N l1 v1 x1 N1 v2 i off m src tot o : has_blocks l v x N -> has_blocks l1 v1 x1 N1 -> 0 <= i <= N -> N1 = Z.max N (i + 1) ->
  (forall j, 0 <= j < N -> blk v1 x1 j = blk v x j) -> (forall j, 0 <= j < N -> content v1 (blk v x j) = content v (blk v x j)) ->
  (i = N -> content v1 (blk v1 x1 i) = replicate 512 0) -> i = off / 512 -> 0 <= off -> 0 < m <= 512 - off mod 512 -> zlen (content v1 (blk v1 x1 i)) = 512 ->
  0 <= tot -> tot + m <= zlen src ->
  updates l1 v1 v2 (blk v1 x1 i) (splice (content v1 (blk v1 x1 i)) (off mod 512) (bytes_at src tot m)) -> 0 <= o < N1 * 512 ->
  file_byte v2 x1 o = if (off <=? o) && (o <? off + m) then ld8 src (tot + (o - off)) else if o <? N * 512 then file_byte v x o else 0.
Proof.
  intros Hb Hb1 Hi -> Hold Hc Hz Eoff Hoff Hm Hlen Htot Hsrc Hu Ho. assert (0 <= o / 512 < Z.max N (i + 1)) as Hj by (split; [apply Z.div_pos; lia|apply Z.div_lt_upper_bound; lia]).
  assert (zlen (bytes_at src tot m) = m) as Hbl by (apply zlen_bytes_at; lia). pose proof (Z.mod_pos_bound off 512 ltac:(lia)) as Hmod.
  unfold file_byte. rewrite (blk_kept _ _ _ _ _ _ _ _ Hb1 Hu (blk_not_ind _ _ _ _ i Hb1 ltac:(lia)) Hj).
  destruct (hb_blk _ _ _ _ Hb1 (o / 512) Hj) as [Ho1 _]. destruct Hu as (_ & _ & Hu & _). destruct (Hu _ (ow_home _ _ _ Ho1)) as [-> _].
  destruct (decide (o / 512 = i)) as [Ei|Hne].
  - rewrite Ei, zupd_eq. rewrite ld8_splice by (try lia; Z.div_mod_to_equations; lia). rewrite Hbl.
    assert (o mod 512 - off mod 512 = o - off) as Hdif by (Z.div_mod_to_equations; lia).
    destruct (Z.leb_spec off o) as [Hoo|Hoo]; cbn [andb].
    + rewrite (proj2 (Z.leb_le (off mod 512) (o mod 512))) by lia. cbn [andb]. destruct (Z.ltb_spec o (off + m)) as [Hom|Hom].
      * rewrite (proj2 (Z.ltb_lt (o mod 512) (off mod 512 + m))) by lia. rewrite ld8_bytes_at by lia. f_equal. lia.
      * rewrite (proj2 (Z.ltb_ge (o mod 512) (off mod 512 + m))) by lia.
        destruct (decide (i = N)) as [EN|]; [rewrite (Hz EN); rewrite (proj2 (Z.ltb_ge o (N * 512))) by (Z.div_mod_to_equations; lia)|].
        -- unfold ld8, zget. destruct (0 <=? o mod 512); [|done]. destruct (replicate 512 0 !! Z.to_nat (o mod 512)) eqn:X; [by apply lookup_replicate in X as [-> _]|done].
        -- rewrite (proj2 (Z.ltb_lt o (N * 512))) by (Z.div_mod_to_equations; lia). by rewrite Hold, Hc, <-Ei by lia.
    + rewrite (proj2 (Z.leb_gt (off mod 512) (o mod 512))) by lia. cbn [andb].
      destruct (decide (i = N)) as [EN|]; [rewrite (Hz EN); rewrite (proj2 (Z.ltb_ge o (N * 512))) by (Z.div_mod_to_equations; lia)|].
      * unfold ld8, zget. destruct (0 <=? o mod 512); [|done]. destruct (replicate 512 0 !! Z.to_nat (o mod 512)) eqn:X; [by apply lookup_replicate in X as [-> _]|done].
      * rewrite (proj2 (Z.ltb_lt o (N * 512))) by (Z.div_mod_to_equations; lia). by rewrite Hold, Hc, <-Ei by lia.
  - assert (o / 512 < N) as HjN by lia. rewrite zupd_ne by (intros E; apply Hne; apply (hb_inj _ _ _ _ Hb1); [lia|lia|done]).
    rewrite Hold, Hc by lia. rewrite (proj2 (Z.ltb_lt o (N * 512))) by (Z.div_mod_to_equations; lia).
    destruct (Z.leb_spec off o), (Z.ltb_spec o (off + m)); cbn [andb]; try done. exfalso. apply Hne. Z.div_mod_to_equations. lia.
Qed.

(** What a write of [src] at [off..E] leaves of a file of [N] blocks, [z] being
    where the file ended: the bytes written, those before, and zeros in what is new. *)
Definition bytes_after v x N v' x' (N' : Z) (src : list Z) (tot off E : Z) : Prop := forall o, 0 <= o < N' * 512 ->
  file_byte v' x' o = if (off <=? o) && (o <? E) then ld8 src (tot + (o - off)) else if o <? N * 512 then file_byte v x o else 0.

(** A step of the loop: its own bytes, then the rest. *)
Lemma bytes_after_step v x N v1 x1 N1 v2 x2 N2 src tot off m E : bytes_after v x N v1 x1 N1 src tot off (off + m) ->
  bytes_after v1 x1 N1 v2 x2 N2 src (tot + m) (off + m) E -> 0 <= off -> 0 <= m -> off + m <= E -> N <= N1 -> off + m <= N1 * 512 ->
  bytes_after v x N v2 x2 N2 src tot off E.
Proof.
  intros H1 H2 Hoff Hm HE HN Hb o Ho. rewrite (H2 o Ho). destruct (Z.leb_spec (off + m) o) as [Hge|Hlt]; cbn [andb].
  - rewrite (proj2 (Z.leb_le off o)) by lia. cbn [andb]. destruct (Z.ltb_spec o E); [f_equal; lia|].
    destruct (Z.ltb_spec o (N1 * 512)) as [Hn|Hn]; [|by rewrite (proj2 (Z.ltb_ge o (N * 512))) by lia].
    rewrite (H1 o ltac:(lia)). rewrite (proj2 (Z.ltb_ge o (off + m))) by lia. by rewrite andb_false_r.
  - rewrite (proj2 (Z.ltb_lt o (N1 * 512))) by lia. rewrite (H1 o ltac:(lia)).
    destruct (Z.leb_spec off o); cbn [andb]; [|done]. by rewrite (proj2 (Z.ltb_lt o (off + m))), (proj2 (Z.ltb_lt o E)) by lia.
Qed.

(** What the loop needs of a plan: its blocks may be written, and there are
    fresh ones for those that are missing up to the end [E]. *)
Record range_ok l v x (D : gset Z) (n N off E : Z) : Prop := {
  rg_blocks : has_blocks l v x N;
  rg_disk : disk_ok l v;
  rg_plan : plan l v D n;
  rg_bitmap : bitmap_in D;
  rg_ind : NDIRECT < N -> ind_blk x ∈ D;
  rg_blk : forall j, off / 512 <= j < N -> j * 512 < E -> blk v x j ∈ D;
  rg_need : need N ((E + 511) / 512) <= n;
  rg_off : 0 <= off <= N * 512;
  rg_end : E <= MAXFILE * 512
}.

(** The range that is left after a step. *)
Lemma range_step l v x D n N off E l1 v1 x1 D1 l2 v2 m : range_ok l v x D n N off E -> 0 < m <= 512 - off mod 512 -> off + m <= E ->
  extended l v x D N l1 v1 x1 D1 (n - if off / 512 =? N then fresh N else 0) (Z.max N (off / 512 + 1)) -> blk v1 x1 (off / 512) ∈ D1 ->
  extended l1 v1 x1 D1 (Z.max N (off / 512 + 1)) l2 v2 x1 D1 (n - if off / 512 =? N then fresh N else 0) (Z.max N (off / 512 + 1)) ->
  range_ok l2 v2 x1 D1 (n - if off / 512 =? N then fresh N else 0) (Z.max N (off / 512 + 1)) (off + m) E.
Proof.
  intros [A B C F G I J K L] Hm HE Hx1 Hb Hx2. pose proof (Z.mod_pos_bound off 512 ltac:(lia)) as Hmod. pose proof (hb_n _ _ _ _ A) as HN.
  assert (0 <= off / 512 <= N) as Hi by (Z.div_mod_to_equations; lia). split.
  - apply Hx2.
  - apply Hx2.
  - apply Hx2.
  - intros b Hb'. apply (ex_sub _ _ _ _ _ _ _ _ _ _ _ Hx1). by apply F.
  - apply Hx2.
  - intros j Hj HjE. rewrite (ex_old _ _ _ _ _ _ _ _ _ _ _ Hx2) by (split; [|lia]; etransitivity; [|apply Hj]; apply Z.div_pos; lia).
    assert (off / 512 <= (off + m) / 512) by (apply Z.div_le_mono; lia).
    destruct (decide (j = off / 512)) as [->|Hne]; [done|]. rewrite (ex_old _ _ _ _ _ _ _ _ _ _ _ Hx1) by lia.
    apply (ex_sub _ _ _ _ _ _ _ _ _ _ _ Hx1). apply I; [lia|done].
  - assert (off / 512 + 1 <= (E + 511) / 512) as HB by (Z.div_mod_to_equations; lia). destruct (Z.eqb_spec (off / 512) N) as [HiN|HiN].
    + destruct (need_step N ((E + 511) / 512) ltac:(lia) ltac:(lia)) as [P Q]. rewrite Z.max_r by lia. rewrite HiN in *. lia.
    + rewrite Z.max_l by lia. lia.
  - split; [lia|]. assert (off + m <= (off / 512 + 1) * 512) by (Z.div_mod_to_equations; lia). nia.
  - exact L.
Qed.

Lemma range_fresh l v x D n N off E : range_ok l v x D n N off E -> off < E -> 0 <= off / 512 <= N /\ off / 512 < MAXFILE /\ (off / 512 = N -> fresh N <= n).
Proof.
  intros [A B C F G I J K L] HE. pose proof (hb_n _ _ _ _ A) as HN. split; [Z.div_mod_to_equations; lia|]. split; [apply Z.div_lt_upper_bound; lia|].
  intros HiN. assert (off / 512 + 1 <= (E + 511) / 512) as HB by (Z.div_mod_to_equations; lia).
  destruct (need_step N ((E + 511) / 512) ltac:(lia) ltac:(lia)) as [_ P]. lia.
Qed.

Lemma blocks_of_le N off E : 0 <= off <= N * 512 -> E = off -> Z.max N ((E + 511) / 512) = N.
Proof. intros H1 ->. Z.div_mod_to_equations. lia. Qed.

Lemma writei_grow_loop ip src cnt E fuel : forall f l v x D n N off tot, zget (inodes f) ip = Some x -> range_ok l v x D n N off E ->
  0 <= tot <= cnt -> off + (cnt - tot) = E -> cnt <= zlen src ->
  (tot = cnt /\ (1 <= fuel)%nat \/ (E + 511) / 512 - off / 512 + 1 <= Z.of_nat fuel) ->
  wp (writei_loop fuel ip ROOTDEV src off cnt tot) (fun r f' => r = E /\ exists l' v' x' D' n',
    f' = with_log (with_inodes f (zset (inodes f) ip x')) l' /\ extended l v x D N l' v' x' D' n' (Z.max N ((E + 511) / 512)) /\
    bytes_after v x N v' x' (Z.max N ((E + 511) / 512)) src tot off E) (with_log f l).
Proof.
  induction fuel as [|fuel IH]; intros f l v x D n N off tot Hx Hr Htot HE Hsrc Hfuel.
  { exfalso. destruct Hfuel as [[_ ?]|Hf]; [lia|]. pose proof (rg_off _ _ _ _ _ _ _ _ Hr). Z.div_mod_to_equations. lia. }
  cbn [writei_loop]. pose proof (rg_off _ _ _ _ _ _ _ _ Hr) as Hoff. destruct (Z.ltb_spec tot cnt) as [Hlt|Hge].
  2: { apply wp_ret. split; [lia|]. exists l, v, x, D, n. rewrite (blocks_of_le N off E) by lia. rewrite zset_id by done. split; [by destruct f|]. destruct Hr. split.
       - by apply extended_refl.
       - intros o Ho. rewrite (proj2 (Z.ltb_lt o (N * 512))) by lia. destruct (Z.leb_spec off o), (Z.ltb_spec o E); cbn [andb]; try done. lia. }
  destruct Hfuel as [[? _]|Hfuel]; [lia|]. destruct (range_fresh _ _ _ _ _ _ _ _ Hr ltac:(lia)) as (Hi & Him & Hfr).
  pose proof (Z.mod_pos_bound off 512 ltac:(lia)) as Hmod. pose proof (rg_end _ _ _ _ _ _ _ _ Hr) as Hend. unfold MAXFILE, NDIRECT, NINDIRECT in Hend.
  apply wp_bind. eapply wp_mono; [apply (bmap_extend f l v x D n ip N (off / 512)); try apply Hr; try done|].
  { intros Hlt'. apply (rg_blk _ _ _ _ _ _ _ _ Hr); [lia|]. Z.div_mod_to_equations. lia. }
  intros b f1 (l1 & v1 & x1 & D1 & -> & -> & HbD & Hx1 & Hz & Hc). cbv zeta. set (m := Z.min (cnt - tot) (512 - off mod 512)).
  assert (0 < m <= 512 - off mod 512) as Hm by lia. assert (zlen (bytes_at src tot m) = m) as Hbl by (apply zlen_bytes_at; lia).
  set (f1 := with_inodes f (zset (inodes f) ip x1)). set (n1 := n - _) in *. set (N1 := Z.max N (off / 512 + 1)) in *.
  assert (zlen (content v1 (blk v1 x1 (off / 512))) = 512) as Hlen.
  { destruct (hb_blk _ _ _ _ (ex_blocks _ _ _ _ _ _ _ _ _ _ _ Hx1) (off / 512) ltac:(lia)) as [[_ _ _ _ _ [Ho _]] _].
    apply (bc_block _ _ _ (tx_rep _ _ _ (pl_tx _ _ _ _ (ex_plan _ _ _ _ _ _ _ _ _ _ _ Hx1))) Ho). }
  apply (write_block f1 l1 v1 x1 D1 n1 N1 (off / 512) (fun d => splice d (off mod 512) (bytes_at src tot m)));
    [apply Hx1|apply Hx1|apply Hx1|apply Hx1|lia|done|done|rewrite zlen_splice; lia|].
  intros l2 v2 Hx2 Hu2. rewrite u32_small by lia.
  pose proof (range_step _ _ _ _ _ _ _ _ _ _ _ _ _ _ m Hr Hm ltac:(lia) Hx1 HbD Hx2) as Hr2. assert (zget (inodes f1) ip = Some x1) as Hx1' by (apply zget_zset_eq; by eapply zget_Some).
  eapply wp_mono; [apply (IH f1 l2 v2 x1 D1 n1 N1 (off + m) (tot + m) Hx1' Hr2); [lia|lia|done|]|].
  { destruct (decide (tot + m = cnt)) as [Hd|Hd]; [left; split; [done|]|right].
    - assert (2 <= Z.of_nat (Datatypes.S fuel)); [|lia]. etransitivity; [|exact Hfuel]. Z.div_mod_to_equations. lia.
    - assert (m = 512 - off mod 512) as Em by lia. assert ((off + m) / 512 = off / 512 + 1) as -> by (Z.div_mod_to_equations; lia). lia. }
  assert (off / 512 + 1 <= (E + 511) / 512) as HB by (Z.div_mod_to_equations; lia).
  intros r f' (-> & l3 & v3 & x3 & D3 & n3 & -> & Hx3 & Hby). split; [done|]. exists l3, v3, x3, D3, n3.
  replace (Z.max N1 ((E + 511) / 512)) with (Z.max N ((E + 511) / 512)) in * by lia. cbn [f1 with_inodes inodes ic_lock i_woken flog]. split; [by rewrite zset_zset|]. split.
  - eapply (extended_trans _ _ _ _ _ _ _ _ _ _ _ _ _ _ _ _ _ (rg_disk _ _ _ _ _ _ _ _ Hr) Hx1). eapply extended_trans; [apply Hx1|exact Hx2|exact Hx3].
  - apply (bytes_after_step _ _ _ v2 x1 N1 _ _ _ _ _ off m E); [|exact Hby|lia|lia|lia|lia|]; [|assert (off + m <= (off / 512 + 1) * 512) by (Z.div_mod_to_equations; lia); nia].
    intros o Ho. eapply (step_bytes l v x N l1 v1 x1 N1 v2 (off / 512)); try done; [apply Hr|apply Hx1|apply Hx1|lia|lia|lia].
Qed.

(** ** The inode, in memory and on the disk *)

Lemma s16_idem z : s16 (s16 z) = s16 z.
Proof.
  assert (- 2 ^ 15 <= s16 z < 2 ^ 15) as Hz by (unfold s16; pose proof (Z.mod_pos_bound z (2 ^ 16) ltac:(lia)); destruct (Z.ltb_spec (z mod 2 ^ 16) (2 ^ 15)); lia).
  set (y := s16 z) in *. unfold s16. destruct (Z.lt_ge_cases y 0) as [Hn|Hn].
  - assert (y mod 2 ^ 16 = y + 2 ^ 16) as -> by (symmetry; apply (Z.mod_unique_pos y (2 ^ 16) (-1)); lia). rewrite (proj2 (Z.ltb_ge _ _)) by lia. lia.
  - rewrite Z.mod_small by lia. by rewrite (proj2 (Z.ltb_lt _ _)) by lia.
Qed.

(** A file whose inode is as on the disk fits the on-disk format, and still does
    when its size is set. *)
Lemma fits_loaded l v x y N z : load v y = y -> same_meta y x -> has_blocks l v x N -> disk_ok l v -> is_u32 z -> fits (set_isize z x).
Proof.
  intros Hy (_ & _ & _ & _ & Et & Ema & Emi & En & _) Hb Hd Hz. pose proof (dk_boot _ _ Hd) as [Hs _].
  assert (s16 (i_type y) = i_type y /\ s16 (i_major y) = i_major y /\ s16 (i_minor y) = i_minor y /\ s16 (i_nlink y) = i_nlink y) as (A & B & C & D).
  { rewrite <-Hy. unfold load, read_dinode. cbn [i_type i_major i_minor i_nlink]. by rewrite !s16_idem. }
  split; cbn [set_isize i_type i_major i_minor i_nlink i_size i_addrs]; [congruence..|done|apply Hb|].
  intros k a Ha. pose proof (zget_Some _ _ _ Ha) as Hk. rewrite (hb_len _ _ _ _ Hb) in Hk.
  assert (forall b, data_blk l v b -> is_u32 b) as Hdb by (intros b [[Hr _ _ _ _ _] _]; unfold is_u32; lia).
  assert (is_u32 0) as H0 by (unfold is_u32; lia). destruct (Z.lt_ge_cases k NDIRECT) as [Hlt|Hge].
  - assert (a = blk v x k) as -> by (unfold blk; rewrite (proj2 (Z.ltb_lt k NDIRECT)) by done; by rewrite Ha).
    destruct (Z.lt_ge_cases k N); [apply Hdb, (hb_blk _ _ _ _ Hb); lia|by rewrite (hb_end _ _ _ _ Hb) by lia].
  - assert (a = ind_blk x) as -> by (unfold ind_blk; replace NDIRECT with k by (unfold NDIRECT in *; lia); by rewrite Ha).
    destruct (Z.lt_ge_cases NDIRECT N); [by apply Hdb, (hb_ind _ _ _ _ Hb)|by rewrite (hb_noind _ _ _ _ Hb)].
Qed.

(** A sector that holds no data changes: the blocks of the file stay. *)
Lemma blocks_away l l' v v' x N s d : has_blocks l v x N -> disk_ok l v -> same_log l l' -> updates l v v' s d ->
  (forall b', 0 <= b' < sb_size sb -> s <> BBLOCK b' (sb_ninodes sb)) -> (forall b, owned l v b -> b <> s) ->
  has_blocks l' v' x N /\ forall j, 0 <= j < N -> blk v' x j = blk v x j /\ content v' (blk v x j) = content v (blk v x j).
Proof.
  intros Hb Hd Hl Hu Hs Ho. pose proof (updates_changes _ _ _ _ _ Hu) as Hc. assert (frame l v v' (fun t => t = s)) as Hf by (by eapply frame_changes).
  assert (handles v' = handles v) as Hh by apply Hu. destruct Hu as (_ & _ & Hu & _).
  assert (forall b, data_blk l v b -> content v' b = content v b) as Hcb.
  { intros b [Hw _]. destruct (Hu b (ow_home _ _ _ Hw)) as [-> _]. apply zupd_ne. by apply Ho. }
  assert (forall b, data_blk l v b -> data_blk l' v' b) as Hdata by (intros b Hdb; eapply data_frame; [exact Hdb|exact Hl|exact Hf|by rewrite Hh]).
  destruct (id Hb) as [A B C F G I J K L].
  assert (NDIRECT < N -> forall j, NDIRECT <= j -> blk v' x j = blk v x j) as Hki by (intros Hn j Hj; rewrite !blk_ind by done; rewrite Hcb; [done|by apply G]).
  assert (forall j, 0 <= j < N -> blk v' x j = blk v x j) as Hk.
  { intros j Hj. destruct (Z.lt_ge_cases j NDIRECT); [by apply blk_direct|]. apply Hki; lia. }
  split; [|intros j Hj; split; [by apply Hk|by apply Hcb, F]]. split; try done.
  - intros j Hj. rewrite Hk by done. by apply Hdata, F.
  - intros Hn. destruct (G Hn) as [G1 G2]. split; [by apply Hdata|]. intros j Hj. rewrite Hk by done. by apply G2.
  - intros a b Ha Hb'. rewrite !Hk by done. by apply I.
  - intros j Hj. rewrite (blk_direct v v') by lia. by apply J.
  - intros Hn j Hj. rewrite Hki by lia. by apply K.
Qed.

Lemma owned_not_inode l v b i : owned l v b -> 0 <= i < sb_ninodes sb -> b <> IBLOCK i.
Proof. intros Ho. apply Ho. Qed.

(** The inodes on the disk are not touched while the file grows. *)
Lemma inodes_kept l v x D N l' v' x' D' n' N' i : disk_ok l v -> has_blocks l v x N -> extended l v x D N l' v' x' D' n' N' -> 0 <= i < sb_ninodes sb ->
  content v' (IBLOCK i) = content v (IBLOCK i).
Proof.
  intros Hd Hb Hx Hi. destruct (dk_inodes _ _ Hd i Hi) as (Hr & Hu & Hh & _). destruct (ex_frame _ _ _ _ _ _ _ _ _ _ _ Hx) as [_ Hf].
  destruct (Hf _ Hh) as [_ F]. destruct (F Hr Hu) as [_ G]. apply G.
  - intros b Hb'. apply inode_not_bitmap; [done|lia].
  - intros [E|(j & Hj & E)].
    + destruct (ind_owned _ _ _ _ Hb) as [E0|Ho]; [|by apply (owned_not_inode _ _ _ i Ho Hi)]. assert (2 <= IBLOCK i) by (unfold IBLOCK; Z.div_mod_to_equations; unfold IPB in *; lia). lia.
    + destruct (hb_blk _ _ _ _ Hb j Hj) as [Ho _]. by apply (owned_not_inode _ _ _ i Ho Hi).
Qed.

(** iupdate of an inode of the plan. *)
Lemma iupdate_grow f l v D n x ip : zget (inodes f) ip = Some x -> i_dev x = ROOTDEV -> 0 <= i_inum x < sb_ninodes sb -> plan l v D n -> disk_ok l v -> IBLOCK (i_inum x) ∈ D ->
  exists l' v', iupdate ip (with_log f l) = Ok tt (with_log f l') /\ plan l' v' D n /\ disk_ok l' v' /\ same_log l l' /\
    updates l v v' (IBLOCK (i_inum x)) (write_dinode (content v (IBLOCK (i_inum x))) (64 * (i_inum x mod IPB)) x).
Proof.
  intros Hx Hdev Hi Hp Hd HD. destruct (dk_inodes _ _ Hd _ Hi) as (Hr & Hus & Hho & Hnh). set (s := IBLOCK (i_inum x)) in *.
  pose proof (plan_tx _ _ _ _ 1 Hp ltac:(lia)) as Ht. destruct (bread_run f l v 1 s Ht ltac:(lia) (proj1 Hho) Hnh) as (h & c & E1 & Hr1).
  assert (handles (hold s h v) !! s = Some h) as Hh by apply lookup_insert_eq. pose proof (bdata_run f l c _ s h Hr1 Hh) as E2. cbn [content hold] in E2.
  set (d := write_dinode _ _ x). assert (zlen d = 512) as Hdl by (unfold d; rewrite zlen_write_dinode; apply (bc_block _ _ _ (tx_rep _ _ _ Ht) (proj1 Hho))).
  destruct (update_run f l v s h d 1 c Ht ltac:(lia) Hnh Hho Hdl Hr1) as (s1 & s2 & l' & v' & E3 & E4 & E5 & Ht' & Hl & Hu).
  assert (forall b', 0 <= b' < sb_size sb -> s <> BBLOCK b' (sb_ninodes sb)) as Hsb by (intros b' Hb'; apply inode_not_bitmap; [done|lia]).
  pose proof (updates_changes _ _ _ _ _ Hu) as Hc. assert (s <> 1) as H1 by (unfold s, IBLOCK, IPB; Z.div_mod_to_equations; lia).
  exists l', v'. split.
  { unfold iupdate. rewrite (bind_ok _ _ _ _ _ (get_inode_run _ _ _ _ Hx)), Hdev. fold s. rewrite (bind_ok _ _ _ _ _ E1), (bind_ok _ _ _ _ _ E2), (bind_ok _ _ _ _ _ E3), (bind_ok _ _ _ _ _ E4). exact E5. }
  split; [|split; [by eapply disk_changes|done]]. eapply plan_updates; [done..|]. by eapply nfree_changes.
Qed.

(** ** writei *)

Definition blocks_for (n : Z) : Z := (n + 511) / 512.

(** What a write of [src] at [off..off + cnt] leaves, from [x] to [x']. *)
Record grown_file l v x (D : gset Z) (src : list Z) (off cnt : Z) l' v' x' (D' : gset Z) (n' : Z) : Prop := {
  gf_plan : plan l' v' D' n';
  gf_sub : D ⊆ D';
  gf_disk : disk_ok l' v';
  gf_log : same_log l l';
  gf_handles : handles v' = handles v;
  gf_inode : x' = Inode (i_dev x) (i_inum x) (i_ref x) (i_flags x) (i_type x) (i_major x) (i_minor x) (i_nlink x) (Z.max (i_size x) (off + cnt)) (i_addrs x');
  gf_blocks : has_blocks l' v' x' (blocks_for (i_size x'));
  gf_saved : load v' x' = x';
  gf_bytes : forall o, 0 <= o < i_size x' ->
    file_byte v' x' o = if (off <=? o) && (o <? off + cnt) then ld8 src (o - off) else file_byte v x o;
  gf_others : forall y, 0 <= i_inum y < sb_ninodes sb -> i_inum y <> i_inum x -> load v' y = load v y;
  gf_frame : frame l v v' (fun s => s = IBLOCK (i_inum x) \/ of_file v x (blocks_for (i_size x)) s)
}.

Lemma load_other v v' x y z : (forall i, 0 <= i < sb_ninodes sb -> content v' (IBLOCK i) = zupd (content v) (IBLOCK (i_inum x)) (write_dinode (content v (IBLOCK (i_inum x))) (64 * (i_inum x mod IPB)) z) (IBLOCK i)) ->
  0 <= i_inum y < sb_ninodes sb -> i_inum y <> i_inum x -> load v' y = load v y.
Proof.
  intros Hv Hy Hne. unfold load. rewrite Hv by done. destruct (decide (IBLOCK (i_inum y) = IBLOCK (i_inum x))) as [E|E]; [|by rewrite zupd_ne].
  rewrite E, zupd_eq. apply read_dinode_other. unfold IBLOCK, IPB in *. Z.div_mod_to_equations. lia.
Qed.

Lemma bytes_grown v x N v1 x1 N1 src off E : bytes_after v x N v1 x1 N1 src 0 off E -> N = blocks_for (i_size x) -> Z.max (i_size x) E <= N1 * 512 ->
  forall o, 0 <= o < Z.max (i_size x) E -> file_byte v1 x1 o = if (off <=? o) && (o <? E) then ld8 src (o - off) else if o <? N * 512 then file_byte v x o else 0.
Proof. intros Hb HN HE o Ho. rewrite Hb by lia. by rewrite Z.add_0_l. Qed.

Lemma extended_end l v x D N l1 v1 x1 D1 n1 N1 src off E : extended l v x D N l1 v1 x1 D1 n1 N1 -> bytes_after v x N v1 x1 N1 src 0 off E ->
  N = blocks_for (i_size x) -> N1 = Z.max N (blocks_for E) -> 0 <= off <= i_size x -> 0 <= i_size x ->
  forall o, 0 <= o < Z.max (i_size x) E -> file_byte v1 x1 o = if (off <=? o) && (o <? E) then ld8 src (o - off) else file_byte v x o.
Proof.
  intros Hx Hb HN HN1 Hoff Hs o Ho. unfold blocks_for in *. rewrite Hb by (Z.div_mod_to_equations; lia). rewrite Z.add_0_l.
  destruct (Z.leb_spec off o), (Z.ltb_spec o E); cbn [andb]; try done; rewrite (proj2 (Z.ltb_lt o (N * 512))) by (Z.div_mod_to_equations; lia); done.
Qed.

Lemma io_fuel_enough off cnt : 0 <= off -> 0 <= cnt -> (off + cnt + 511) / 512 - off / 512 + 1 <= Z.of_nat (io_fuel cnt).
Proof.
  intros Hoff Hc. unfold io_fuel. assert (0 <= cnt / 512) by (apply Z.div_pos; lia). rewrite Nat2Z.inj_add, Z2Nat.id by done.
  change (Z.of_nat 3) with 3. Z.div_mod_to_equations. lia.
Qed.

(** The new size has gone to the disk. *)
Lemma grown_saved l v x D n l1 v1 x1 D1 n1 src off cnt l2 v2 : let N := blocks_for (i_size x) in let x2 := set_isize (off + cnt) x1 in
  extended l v x D N l1 v1 x1 D1 n1 (Z.max N (blocks_for (off + cnt))) -> bytes_after v x N v1 x1 (Z.max N (blocks_for (off + cnt))) src 0 off (off + cnt) ->
  disk_ok l v -> plan l v D n -> has_blocks l v x N -> load v x = x -> 0 <= i_inum x < sb_ninodes sb ->
  0 <= off <= i_size x -> i_size x < off + cnt -> off + cnt <= MAXFILE * 512 ->
  plan l2 v2 D1 n1 -> disk_ok l2 v2 -> same_log l1 l2 -> updates l1 v1 v2 (IBLOCK (i_inum x)) (write_dinode (content v1 (IBLOCK (i_inum x))) (64 * (i_inum x mod IPB)) x2) ->
  grown_file l v x D src off cnt l2 v2 x2 D1 n1.
Proof.
  intros N x2 Hx1 Hby Hd Hp Hb Hload Hi Hoff Hgr Hmax Hp2 Hd2 Hl2 Hu. set (s := IBLOCK (i_inum x)) in *. set (E := off + cnt) in *.
  pose proof (extended_end _ _ _ _ _ _ _ _ _ _ _ src off E Hx1 Hby eq_refl eq_refl Hoff ltac:(lia)) as Hbytes. rewrite Z.max_r in Hbytes by lia.
  assert (forall i, 0 <= i < sb_ninodes sb -> content v1 (IBLOCK i) = content v (IBLOCK i)) as Hkept by (intros i Hi'; eapply inodes_kept; [exact Hd|exact Hb|exact Hx1|done]).
  rewrite Z.max_r in Hx1 by (unfold N, blocks_for; apply Z.div_le_mono; lia). unfold MAXFILE, NDIRECT, NINDIRECT in Hmax.
  destruct (id Hx1) as [_ A2 A3 A4 A5 (M1 & M2 & M3 & M4 & M5 & M6 & M7 & M8 & M9) A7 A8 A9 A10 A11 Ai As A12].
  assert (forall b', 0 <= b' < sb_size sb -> s <> BBLOCK b' (sb_ninodes sb)) as Hsb by (intros b' Hb'; apply inode_not_bitmap; [done|lia]).
  pose proof (updates_changes _ _ _ _ _ Hu) as Hc. destruct (blocks_away _ _ _ _ _ _ _ _ A7 A3 Hl2 Hu Hsb) as [Hb2 Hk2]; [intros b Ho; by apply (owned_not_inode _ _ _ _ Ho)|].
  assert (home l1 v1 s) as Hho by apply (dk_inodes _ _ A3 _ Hi). destruct (id Hu) as (Hn2 & Hh2 & Hc2 & _).
  assert (zlen (content v s) = 512) as Hlen by (rewrite <-(Hkept _ Hi : content v1 s = content v s); apply (bc_block _ _ _ (tx_rep _ _ _ (pl_tx _ _ _ _ (ex_plan _ _ _ _ _ _ _ _ _ _ _ Hx1))) (proj1 Hho))).
  split; try done.
  - unfold same_log in *. intuition congruence.
  - congruence.
  - cbn [x2 set_isize i_size i_addrs]. rewrite Z.max_r by lia. unfold x2, set_isize. by rewrite M1, M2, M3, M4, M5, M6, M7, M8.
  - destruct Hb2. by split.
  - unfold load. cbn [x2 set_isize i_inum]. rewrite M2. fold s. destruct (Hc2 s Hho) as [-> _]. rewrite zupd_eq. apply dinode_roundtrip.
    + apply (fits_loaded l1 v1 x1 x (blocks_for E) E); try done; [|unfold is_u32; lia]. transitivity (load v x); [|done]. unfold load. by rewrite Hkept.
    + unfold IPB. pose proof (Z.mod_pos_bound (i_inum x) 8). lia.
    + rewrite (Hkept _ Hi : content v1 s = content v s), Hlen. unfold IPB. pose proof (Z.mod_pos_bound (i_inum x) 8). lia.
  - cbn [x2 set_isize i_size]. intros o Ho. rewrite <-Hbytes by lia.
    assert (0 <= o / 512 < blocks_for E) as Hob by (unfold blocks_for; Z.div_mod_to_equations; lia).
    unfold file_byte. change (blk v2 x2) with (blk v2 x1). destruct (Hk2 (o / 512) Hob) as [E1 E2]. by rewrite E1, E2.
  - intros y Hy Hne. eapply (load_other _ _ x y x2); [|done|done]. intros i Hi'. destruct (Hc2 (IBLOCK i)) as [-> _]; [apply (dk_inodes _ _ A3 _ Hi')|].
    fold s. rewrite (Hkept _ Hi : content v1 s = content v s). unfold zupd. case_match; [done|by apply Hkept].
  - eapply (frame_trans l l1 v v1 v2 _ (fun t => t = s)); [|exact A4|by eapply frame_changes|intros t -> _; by left]. eapply frame_mono; [exact A12|]. intros t Ht. by right.
Qed.

(** The file ends where it did. *)
Lemma grown_same l v x D l1 v1 x1 D1 n1 src off cnt : let N := blocks_for (i_size x) in
  extended l v x D N l1 v1 x1 D1 n1 (Z.max N (blocks_for (off + cnt))) -> bytes_after v x N v1 x1 (Z.max N (blocks_for (off + cnt))) src 0 off (off + cnt) ->
  disk_ok l v -> has_blocks l v x N -> load v x = x -> 0 <= i_inum x < sb_ninodes sb -> 0 <= off <= i_size x -> off + cnt <= i_size x ->
  grown_file l v x D src off cnt l1 v1 x1 D1 n1.
Proof.
  intros N Hx1 Hby Hd Hb Hload Hi Hoff Hgr.
  pose proof (extended_end _ _ _ _ _ _ _ _ _ _ _ src off (off + cnt) Hx1 Hby eq_refl eq_refl Hoff ltac:(lia)) as Hbytes. rewrite Z.max_l in Hbytes by lia.
  assert (forall i, 0 <= i < sb_ninodes sb -> content v1 (IBLOCK i) = content v (IBLOCK i)) as Hkept by (intros i Hi'; eapply inodes_kept; [exact Hd|exact Hb|exact Hx1|done]).
  rewrite Z.max_l in Hx1 by (unfold N, blocks_for; apply Z.div_le_mono; lia). destruct (id Hx1) as [A1 A2 A3 A4 A5 _ A7 A8 A9 A10 A11 Ai As A12].
  specialize (As eq_refl). subst x1. split; try done.
  - rewrite Z.max_l by lia. by destruct x.
  - transitivity (load v x); [|done]. unfold load. by rewrite Hkept.
  - intros y Hy _. unfold load. by rewrite Hkept.
  - eapply frame_mono; [exact A12|]. intros t Ht. by right.
Qed.

Section Write.
Variable devsw_write : Z -> option (Z -> list Z -> Z -> M (fs S) Z).

(** What a writer must have. *)
Record writable f l v x (ip : Z) (D : gset Z) (n off cnt : Z) : Prop := {
  wr_inode : zget (inodes f) ip = Some x;
  wr_type : i_type x <> T_DEV;
  wr_load : load v x = x;
  wr_inum : 0 <= i_inum x < sb_ninodes sb;
  wr_iblock : IBLOCK (i_inum x) ∈ D;
  wr_off : 0 <= off <= i_size x;
  wr_range : range_ok l v x D n (blocks_for (i_size x)) off (off + cnt)
}.

Lemma writei_grow_run f l v x ip D n src off cnt : writable f l v x ip D n off cnt -> 0 <= cnt <= zlen src ->
  wp (writei devsw_write ip src off cnt) (fun r f' => r = cnt /\ exists l' v' x' D' n',
    f' = with_log (with_inodes f (zset (inodes f) ip x')) l' /\ grown_file l v x D src off cnt l' v' x' D' n') (with_log f l).
Proof.
  intros [Hx Ht Hload Hi HD Hoff Hr] Hcnt. pose proof (rg_end _ _ _ _ _ _ _ _ Hr) as Hmax. destruct (id Hr) as [Hb Hd Hp _ _ _ _ _ _]. pose proof (zget_Some _ _ _ Hx) as Hip.
  unfold writei. eapply wp_bind_ok; [exact (get_inode_run f l ip x Hx)|]. rewrite (proj2 (Z.eqb_neq _ _) Ht).
  assert (off + cnt <= 71680) as Hmax' by exact Hmax. rewrite (u32_small (off + cnt)) by lia.
  rewrite (proj2 (Z.ltb_ge (i_size x) off)), (proj2 (Z.ltb_ge (off + cnt) off)) by lia. cbn [orb]. change (MAXFILE * 512) with 71680 in *.
  rewrite (proj2 (Z.ltb_ge 71680 (off + cnt))) by lia. rewrite (hb_dev _ _ _ _ Hb). apply wp_bind.
  eapply wp_mono; [apply (writei_grow_loop ip src cnt (off + cnt) (io_fuel cnt) f l v x D n _ off 0 Hx Hr); [lia|lia|lia|]|].
  { right. apply io_fuel_enough; lia. }
  intros r f' (-> & l1 & v1 & x1 & D1 & n1 & -> & Hx1 & Hby). set (f1 := with_inodes f (zset (inodes f) ip x1)).
  assert (zget (inodes f1) ip = Some x1) as Hg by (by apply zget_zset_eq). eapply wp_bind_ok; [exact (get_inode_run f1 l1 ip x1 Hg)|].
  destruct (ex_meta _ _ _ _ _ _ _ _ _ _ _ Hx1) as (M1 & M2 & _ & _ & _ & _ & _ & _ & M9). rewrite M9.
  destruct ((0 <? cnt) && (i_size x <? off + cnt)) eqn:Eg; cbn [when].
  - apply andb_true_iff in Eg as [Eg1 Eg2]. apply Z.ltb_lt in Eg1, Eg2. apply wp_bind. eapply wp_bind_ok; [exact (upd_inode_ok (with_log f1 l1) ip x1 (set_isize (off + cnt)) Hg)|].
    set (x2 := set_isize (off + cnt) x1). set (f2 := with_inodes f (zset (inodes f) ip x2)).
    assert (with_inodes (with_log f1 l1) (zset (inodes (with_log f1 l1)) ip x2) = with_log f2 l1) as -> by (unfold f1, f2, with_inodes, with_log; cbn; by rewrite zset_zset).
    destruct (iupdate_grow f2 l1 v1 D1 n1 x2 ip) as (l2 & v2 & E & Hp2 & Hd2 & Hl2 & Hu); [by apply zget_zset_eq|cbn; by rewrite M1, (hb_dev _ _ _ _ Hb)|cbn; by rewrite M2|apply Hx1|apply Hx1|cbn; rewrite M2; by apply (ex_sub _ _ _ _ _ _ _ _ _ _ _ Hx1)|].
    eapply ok_wp; [exact E|]. apply wp_ret. split; [done|]. exists l2, v2, x2, D1, n1. split; [done|]. cbn [x2 set_isize i_inum] in Hu. rewrite M2 in Hu. by eapply grown_saved.
  - apply wp_bind, wp_ret, wp_ret. split; [done|]. exists l1, v1, x1, D1, n1. split; [done|]. apply (grown_same l v x D l1 v1 x1 D1 n1 src off cnt Hx1 Hby Hd Hb Hload Hi Hoff).
    apply andb_false_iff in Eg as [Eg|Eg]; apply Z.ltb_ge in Eg; lia.
Qed.
End Write.
End Grow.


(** ** Four more bytes at the end of a file of 510 *)

(** Inodes in sector 2, the bitmap in 3, the file's block in 4; block 5 is free,
    the log from 6 on. *)
Definition grow_img : list Z :=
  replicate 512 0 ++ ([6;0;0;0; 1;0;0;0; 4;0;0;0; 8;0;0;0] ++ replicate 496 0) ++
  (replicate 64 0 ++ [2; 0; 0; 0; 0; 0; 1; 0; 254; 1; 0; 0; 4; 0; 0; 0] ++ replicate 432 0) ++
  (31 :: replicate 511 0) ++ replicate 510 7 ++ replicate 4610 0.

Definition grow_sb : superblock := Superblock 6 1 4 8.

Definition grow_view : bspec := boot_view grow_img.

Definition grow_log : log bcache := Log false 6 8 true ROOTDEV 0 (replicate 10 0) 0 (boot_cache grow_img).

Definition grow_inode : inode := load grow_view (Inode ROOTDEV 1 1 3 0 0 0 0 0 []).

Definition grow_fs : fs bcache := Fs false [grow_inode] [] grow_log.

Definition grow_set : gset Z := {[2; 3; 4]}.

Lemma grow_home b : 0 <= b < 6 -> home grow_log grow_view b.
Proof. intros Hb. change (home grow_log grow_view b) with (0 <= b < 14 /\ (b < 6 \/ 14 <= b)). lia. Qed.

Lemma grow_BBLOCK b : 0 <= b < 6 -> BBLOCK b (sb_ninodes grow_sb) = 3.
Proof. intros Hb. unfold BBLOCK, BPB, IPB. cbn [sb_ninodes grow_sb]. by rewrite Z.div_small by lia. Qed.

Lemma grow_IBLOCK i : 0 <= i < 4 -> IBLOCK i = 2.
Proof. intros Hi. unfold IBLOCK, IPB. by rewrite Z.div_small by lia. Qed.

Lemma grow_used b : 0 <= b < 6 -> used grow_view grow_sb b = negb (b =? 5).
Proof.
  intros Hb. assert (b = 0 \/ b = 1 \/ b = 2 \/ b = 3 \/ b = 4 \/ b = 5) as E by lia.
  destruct E as [->|[->|[->|[->|[->| ->]]]]]; vm_compute; reflexivity.
Qed.

Lemma grow_disk_ok : disk_ok grow_sb 6 grow_log grow_view.
Proof.
  split.
  - split; [by vm_compute|by apply grow_home|reflexivity|by vm_compute|by vm_compute|].
    intros b Hb. rewrite grow_BBLOCK by done. split; [by apply grow_home|reflexivity].
  - intros b Hb Hu. change (0 <= b < 6) in Hb. rewrite grow_used in Hu by done. destruct (Z.eqb_spec b 5) as [->|]; [|done].
    split; [by apply grow_home|]. split; [reflexivity|]. split; [done|]. intros b' Hb'. by rewrite grow_BBLOCK.
  - done.
  - split; [by vm_compute|by apply (grow_used 0)].
  - intros i Hi. change (0 <= i < 4) in Hi. rewrite grow_IBLOCK by done. split; [by vm_compute|]. split; [by apply (grow_used 2)|]. split; [by apply grow_home|reflexivity].
Qed.

Lemma grow_data : data_blk grow_sb grow_log grow_view 4.
Proof.
  split; [|reflexivity]. split; [by vm_compute|by apply (grow_used 4)|done| | |by apply grow_home].
  - intros b Hb. by rewrite grow_BBLOCK.
  - intros i Hi. by rewrite grow_IBLOCK.
Qed.

Lemma grow_blk j : blk grow_view grow_inode j = if j =? 0 then 4 else blk grow_view grow_inode j.
Proof. destruct (Z.eqb_spec j 0) as [->|]; [by vm_compute|done]. Qed.

Lemma grow_blocks : has_blocks grow_sb grow_log grow_view grow_inode 1.
Proof.
  assert (forall j, 0 <= j < 1 -> j = 0) as H0 by lia. assert (blk grow_view grow_inode 0 = 4) as E by by vm_compute.
  split; [reflexivity|by vm_compute|by vm_compute| |unfold NDIRECT; lia| | |unfold NDIRECT; lia|by vm_compute].
  - intros j ->%H0. rewrite E. exact grow_data.
  - intros i j ->%H0 ->%H0 _. done.
  - intros j Hj. unfold NDIRECT in Hj. assert (j = 1 \/ j = 2 \/ j = 3 \/ j = 4 \/ j = 5 \/ j = 6 \/ j = 7 \/ j = 8 \/ j = 9 \/ j = 10 \/ j = 11) as Ej by lia.
    repeat (destruct Ej as [->|Ej]; [by vm_compute|]). subst j. by vm_compute.
Qed.

Lemma grow_free : nfree grow_sb 6 grow_view = 1.
Proof. by vm_compute. Qed.

Lemma grow_plan : plan grow_sb 6 grow_log grow_view grow_set 1.
Proof.
  split; [|done|by vm_compute|by vm_compute|by rewrite grow_free|done].
  - split; [apply boot_cache_ok| |reflexivity|by split|by vm_compute|reflexivity].
    split; [by split| |cbn; lia|reflexivity|by vm_compute].
    split; [by vm_compute|]. split; [by vm_compute|]. split; [apply NoDup_nil_2|]. cbn. lia.
Qed.

Lemma grow_size : i_size grow_inode = 510.
Proof. by vm_compute. Qed.

Lemma grow_need : need (blocks_for (i_size grow_inode)) (blocks_for (510 + 4)) = 1.
Proof. by vm_compute. Qed.

Lemma grow_writable : writable grow_sb 6 grow_fs (flog grow_fs) grow_view grow_inode 0 grow_set (need (blocks_for (i_size grow_inode)) (blocks_for (510 + 4))) 510 4.
Proof.
  rewrite grow_need.
  assert (blocks_for (i_size grow_inode) = 1) as Eb by (vm_compute; reflexivity).
  split; [reflexivity|by vm_compute|vm_compute; reflexivity|change (0 <= 1 < 4); lia| |rewrite grow_size; lia|].
  - change (IBLOCK (i_inum grow_inode)) with 2. set_solver.
  - rewrite Eb. split; [exact grow_blocks|exact grow_disk_ok|exact grow_plan| |unfold NDIRECT; lia| |by vm_compute|lia|by vm_compute].
    + intros b Hb. rewrite grow_BBLOCK by done. set_solver.
    + intros j Hj _. change (510 / 512) with 0 in Hj. assert (j = 0) as -> by lia. change (blk grow_view grow_inode 0) with 4. set_solver.
Qed.

Lemma grow_result l' v' x' D' n' : grown_file grow_sb 6 (flog grow_fs) grow_view grow_inode grow_set [1; 2; 3; 4] 510 4 l' v' x' D' n' ->
  i_size x' = 514 /\ load v' x' = x' /\ map (file_byte v' x') [509; 510; 511; 512; 513] = [7; 1; 2; 3; 4].
Proof.
  intros [_ _ _ _ _ Ei _ Es B _ _]. assert (i_size x' = 514) as Ex by (rewrite Ei; cbn [i_size]; by rewrite grow_size).
  split; [exact Ex|]. split; [exact Es|]. rewrite Ex in B. cbn [map]. rewrite !B by lia. by vm_compute.
Qed.

