(* ===== verification/FsTree.v ===== *)
(** * The tree of directories under change

    What a transaction on inodes and directories must keep: every named inode
    is sound, names are unique, and no sector serves two purposes.  The lemmas
    say how this, and the meaning of paths, survive a write to an inode and a
    write to a directory. *)

From S2P Require Import Prelude CString BlockCache Bio BioSpec Log LogSpec LogInst Fs FsSpec FsInst FsIo FsDir FsPath FsGrow.

Section Tree.
Context {S : Type} `{BufCache S}.
Implicit Types (f : fs S) (l : log S) (v : bspec) (x y z : inode) (G : Z -> Prop).

(** ** Files whose sectors do not change *)

(** The sectors of a file: its blocks and the block of their numbers. *)
Definition file_sec v x (s : Z) : Prop :=
  (NDIRECT * 512 < i_size x /\ s = ind_blk x) \/ exists n, 0 <= n /\ n * 512 < i_size x /\ s = blk v x n.

(** The log lies where it did. *)
Definition same_area l l' : Prop := lg_start l' = lg_start l /\ lg_size l' = lg_size l.

Lemma area_cache l c : same_area l (with_cache l c).
Proof. done. Qed.

Lemma area_log l l' : same_log l l' -> same_area l l'.
Proof. intros (_ & A & B & _). done. Qed.

Lemma area_trans l l1 l2 : same_area l l1 -> same_area l1 l2 -> same_area l l2.
Proof. intros [A B] [C D]. split; congruence. Qed.

(** [v'] is [v] but for the contents of sectors. *)
Definition same_shape v v' : Prop := nsect v' = nsect v /\ handles v' = handles v.

Lemma home_area l l' v v' s : same_area l l' -> nsect v' = nsect v -> home l v s -> home l' v' s.
Proof. intros [A B] C. unfold home. by rewrite A, B, C. Qed.

Lemma file_sec_avail l v x s : file_ok l v x -> file_sec v x s -> avail_blk l v s.
Proof. intros Hf [[Hs ->]|(n & Hn & Hs & ->)]; [by apply (fo_ind _ _ _ Hf)|by apply (fo_blk _ _ _ Hf)]. Qed.

Lemma file_away l l' v v' x : file_ok l v x -> same_area l l' -> same_shape v v' -> (forall s, file_sec v x s -> content v' s = content v s) ->
  (forall n, 0 <= n -> n * 512 < i_size x -> blk v' x n = blk v x n) /\ file_ok l' v' x /\
  (forall o, 0 <= o < i_size x -> file_byte v' x o = file_byte v x o) /\ forall s, file_sec v' x s <-> file_sec v x s.
Proof.
  intros Hf Ha [Hn Hh] Hc.
  assert (forall n, 0 <= n -> n * 512 < i_size x -> blk v' x n = blk v x n) as Hb.
  { intros n H0 Hs. unfold blk. destruct (Z.ltb_spec n NDIRECT); [done|]. rewrite Hc; [done|]. left. split; [lia|done]. }
  assert (forall b, avail_blk l v b -> avail_blk l' v' b) as Hav.
  { intros b (A & B & C). split; [done|]. split; [by eapply home_area|by rewrite Hh]. }
  split; [done|]. split; [|split].
  - destruct Hf as [A B C D E F J]. split; try done.
    + intros i Hi Hs. rewrite Hb by done. by apply Hav, E.
    + intros Hs. destruct (F Hs) as [F1 F2]. split; [by apply Hav|]. intros i Hi Hi'. rewrite Hb by done. by apply F2.
    + intros i j Hi Hj Hi' Hj'. rewrite !Hb by done. by apply J.
  - intros o Ho. assert (0 <= o / 512 /\ o / 512 * 512 < i_size x) as [H0 H1] by (Z.div_mod_to_equations; lia).
    unfold file_byte. rewrite Hb by done. rewrite Hc; [done|]. right. by exists (o / 512).
  - intros s. split; (intros [Hi|(n & H0 & Hs & ->)]; [by left|right; exists n; rewrite Hb by done; done]).
Qed.

Lemma entries_away l l' v v' x : dir_ok l v x -> same_area l l' -> same_shape v v' -> (forall s, file_sec v x s -> content v' s = content v s) ->
  dir_ok l' v' x /\ entries v' x = entries v x /\ forall s, file_sec v' x s <-> file_sec v x s.
Proof.
  intros [A B C D] Ha Hs Hc. destruct (file_away l l' v v' x A Ha Hs Hc) as (_ & E & F & J). split; [split|split]; try done.
  - intros o Ho. rewrite F by done. by apply D.
  - unfold entries, entries_from. apply map_ext_in. intros k Hk. apply list_elem_of_In, elem_of_seqZ in Hk.
    assert (dirent v' x (16 * k) = dirent v x (16 * k)) as E'; [|unfold entry; by rewrite E'].
    unfold dirent. apply map_ext_in. intros o Ho. apply list_elem_of_In, elem_of_seqZ in Ho. apply F. Z.div_mod_to_equations. lia.
Qed.

(** ** Soundness of a tree *)

Definition dir_sec v (i s : Z) : Prop := file_sec v (disk_inode v i) s.

Record tree_wf l v G : Prop := {
  tw_tree : tree_ok l v G;
  tw_ino : forall i, G i -> 0 < i < 2 ^ 16;
  tw_bytes : forall i, G i -> Forall is_byte (content v (IBLOCK i));
  tw_unique : forall i, G i -> is_dir v i = true -> unique_names (entries v (disk_inode v i));
  tw_apart : forall i j, G i -> is_dir v i = true -> G j -> ~ dir_sec v i (IBLOCK j);
  tw_disj : forall i j s, G i -> G j -> is_dir v i = true -> is_dir v j = true -> dir_sec v i s -> dir_sec v j s -> i = j
}.

Lemma tw_home l v G i : tree_wf l v G -> G i -> home l v (IBLOCK i) /\ handles v !! IBLOCK i = None.
Proof. intros Ht Hg. destruct (tw_tree _ _ _ Ht i Hg) as (A & B & _). done. Qed.

Lemma tw_dir l v G i : tree_wf l v G -> G i -> is_dir v i = true -> dir_ok l v (disk_inode v i) /\ forall n j, names v i !! n = Some j -> G j.
Proof. intros Ht Hg. destruct (tw_tree _ _ _ Ht i Hg) as (_ & _ & _ & _ & C). done. Qed.

Lemma dir_sec_home l v G i s : tree_wf l v G -> G i -> is_dir v i = true -> dir_sec v i s -> home l v s.
Proof. intros Ht Hg Hd Hs. destruct (tw_dir _ _ _ _ Ht Hg Hd) as [[A _ _ _] _]. by destruct (file_sec_avail _ _ _ _ A Hs) as (_ & B & _). Qed.

(** What paths see of the tree: which inodes are directories, and their names. *)
Definition same_names v v' G : Prop := forall i, G i -> is_dir v' i = is_dir v i /\
  (is_dir v i = true -> entries v' (disk_inode v' i) = entries v (disk_inode v i)).

Lemma same_names_at v v' G i : same_names v v' G -> G i -> is_dir v i = true -> names v' i = names v i.
Proof. intros Hs Hi Hd. unfold names. by rewrite (proj2 (Hs i Hi) Hd). Qed.

Lemma resolve_same l v v' G es : tree_wf l v G -> same_names v v' G -> forall i, G i -> resolve v' i es = resolve v i es.
Proof.
  intros Ht Hs. induction es as [|e es IH]; intros i Hi; [done|]. cbn [resolve]. rewrite (proj1 (Hs i Hi)).
  destruct (is_dir v i) eqn:Ed; [|done]. rewrite (same_names_at v v' G i Hs Hi Ed). destruct (names v i !! key e) as [j|] eqn:Ej; [|done]. cbn. apply IH.
  by apply (tw_dir _ _ _ _ Ht Hi Ed) in Ej.
Qed.

Lemma resolve_in l v G es : tree_wf l v G -> forall i t, G i -> resolve v i es = Some t -> G t.
Proof.
  intros Ht. induction es as [|e es IH]; intros i t Hi; cbn [resolve]; [by intros [= <-]|]. destruct (is_dir v i) eqn:Ed; [|done].
  destruct (names v i !! key e) as [j|] eqn:Ej; [|done]. cbn. apply IH. by apply (tw_dir _ _ _ _ Ht Hi Ed) in Ej.
Qed.

Lemma resolve_parent_cons v i e e' es : resolve_parent v i (e :: e' :: es) =
  if is_dir v i then j ← names v i !! key e; resolve_parent v j (e' :: es) else None.
Proof. done. Qed.

Lemma resolve_parent_same l v v' G es : tree_wf l v G -> same_names v v' G -> forall i, G i -> resolve_parent v' i es = resolve_parent v i es.
Proof.
  intros Ht Hs. induction es as [|e es IH]; intros i Hi; [done|]. pose proof (proj1 (Hs i Hi)) as Hd.
  destruct es as [|e' es]; [cbn; by rewrite Hd|]. rewrite !resolve_parent_cons, Hd. destruct (is_dir v i) eqn:Ed; [|done].
  rewrite (same_names_at v v' G i Hs Hi Ed). destruct (names v i !! key e) as [j|] eqn:Ej; [|done]. cbn [mbind option_bind]. apply IH.
  by apply (tw_dir _ _ _ _ Ht Hi Ed) in Ej.
Qed.

Lemma resolve_parent_in l v G es : tree_wf l v G -> forall i t, G i -> resolve_parent v i es = Some t -> G t /\ is_dir v t = true.
Proof.
  intros Ht. induction es as [|e es IH]; intros i t Hi; [done|]. destruct es as [|e' es].
  - cbn. destruct (is_dir v i) eqn:Ed; [|done]. by intros [= <-].
  - rewrite resolve_parent_cons. destruct (is_dir v i) eqn:Ed; [|done].
    destruct (names v i !! key e) as [j|] eqn:Ej; [|done]. cbn [mbind option_bind]. apply IH. by apply (tw_dir _ _ _ _ Ht Hi Ed) in Ej.
Qed.

(** ** A node that a change leaves alone *)

Lemma load_kept v v' y : content v' (IBLOCK (i_inum y)) = content v (IBLOCK (i_inum y)) -> load v' y = load v y.
Proof. unfold load. by intros ->. Qed.

Lemma inode_kept v v' i : content v' (IBLOCK i) = content v (IBLOCK i) -> disk_inode v' i = disk_inode v i.
Proof. intros E. by apply load_kept. Qed.

Lemma set_nlink_id v i : set_nlink (i_nlink (disk_inode v i)) (disk_inode v i) = disk_inode v i.
Proof. unfold disk_inode, load, read_dinode, set_nlink. cbn. by rewrite s16_idem. Qed.

Lemma dir_nlink l v x n : dir_ok l v x -> dir_ok l v (set_nlink n x).
Proof. intros [[A B C D E F J] K L M]. split; [by split|done..]. Qed.

(** The part of an entry that is on the disk. *)
Definition bare y : inode := Inode ROOTDEV (i_inum y) 0 0 (i_type y) (i_major y) (i_minor y) (i_nlink y) (i_size y) (i_addrs y).

Lemma disk_bare v y : y = load v y -> disk_inode v (i_inum y) = bare y.
Proof. intros E. transitivity (bare (load v y)); [done|by rewrite <-E]. Qed.

(** [i] is as before but for its number of links, and if it is a directory its
    entries are as before. *)
Definition kept v v' (i : Z) : Prop := (exists n, s16 n <> 0 /\ disk_inode v' i = set_nlink n (disk_inode v i)) /\
  (is_dir v i = true -> forall s, dir_sec v i s -> content v' s = content v s).

Lemma kept_dir l l' v v' G i : tree_wf l v G -> G i -> same_area l l' -> same_shape v v' -> kept v v' i -> is_dir v i = true ->
  dir_ok l' v' (disk_inode v' i) /\ names v' i = names v i /\ entries v' (disk_inode v' i) = entries v (disk_inode v i) /\
  forall s, dir_sec v' i s <-> dir_sec v i s.
Proof.
  intros Ht Hg Ha Hs [(n & _ & E) Hc] Hd. destruct (tw_dir _ _ _ _ Ht Hg Hd) as [Hok _].
  destruct (entries_away l l' v v' _ Hok Ha Hs (Hc Hd)) as (A & B & C). unfold names, dir_sec. rewrite E.
  change (entries v' (set_nlink n (disk_inode v i))) with (entries v' (disk_inode v i)). rewrite B.
  split; [by apply dir_nlink|]. split; [done|]. split; [done|]. exact C.
Qed.

Lemma kept_same l v v' G i : tree_wf l v G -> G i -> disk_inode v' i = disk_inode v i ->
  (is_dir v i = true -> forall s, dir_sec v i s -> content v' s = content v s) -> kept v v' i.
Proof.
  intros Ht Hi E Hs. split; [|done]. exists (i_nlink (disk_inode v i)). rewrite set_nlink_id. split; [|done].
  destruct (tw_tree _ _ _ Ht i Hi) as (_ & _ & _ & Hnl & _). revert Hnl. unfold disk_inode, load, read_dinode. cbn. by rewrite s16_idem.
Qed.

(** What each node has to satisfy for the tree to stay sound. *)
Definition sound_node l v v' G (i : Z) : Prop := (exists n, s16 n <> 0 /\ disk_inode v' i = set_nlink n (disk_inode v i)) /\
  (is_dir v i = true -> dir_ok l v' (disk_inode v' i) /\ unique_names (entries v' (disk_inode v' i)) /\
    (forall n j, names v' i !! n = Some j -> G j) /\ forall s, dir_sec v' i s <-> dir_sec v i s).

Lemma sound_is_dir l v v' G i : sound_node l v v' G i -> is_dir v' i = is_dir v i.
Proof. intros [(n & _ & E) _]. unfold is_dir. by rewrite E. Qed.

Lemma tree_rebuild l l' v v' G : tree_wf l v G -> same_area l l' -> same_shape v v' -> (forall i, G i -> sound_node l' v v' G i) ->
  (forall i, G i -> Forall is_byte (content v' (IBLOCK i))) -> tree_wf l' v' G.
Proof.
  intros Ht Ha Hs Hk Hb. pose proof (fun i Hg => sound_is_dir _ _ _ _ _ (Hk i Hg)) as Hd. split.
  - intros i Hg. destruct (tw_tree _ _ _ Ht i Hg) as (A & B & C & D & _). destruct (Hk i Hg) as [(n & Hn & En) K].
    split; [by eapply home_area, A; [|apply Hs]|]. split; [by rewrite (proj2 Hs)|]. split; [by rewrite En|]. split; [by rewrite En|].
    intros Hdi. rewrite Hd in Hdi by done. destruct (K Hdi) as (K1 & _ & K2 & _). done.
  - apply Ht.
  - exact Hb.
  - intros i Hg Hdi. rewrite Hd in Hdi by done. by apply (proj2 (Hk i Hg)).
  - intros i j Hg Hdi Hj Hs'. rewrite Hd in Hdi by done. apply (proj2 (Hk i Hg)) in Hs'; [|done]. by eapply (tw_apart _ _ _ Ht i j).
  - intros i j s Hi Hj Hdi Hdj Hsi Hsj. rewrite Hd in Hdi, Hdj by done. apply (proj2 (Hk i Hi)) in Hsi; [|done].
    apply (proj2 (Hk j Hj)) in Hsj; [|done]. by eapply (tw_disj _ _ _ Ht).
Qed.

Lemma kept_sound l l' v v' G i : tree_wf l v G -> G i -> same_area l l' -> same_shape v v' -> kept v v' i -> sound_node l' v v' G i.
Proof.
  intros Ht Hg Ha Hs Hk. split; [apply Hk|]. intros Hd. destruct (kept_dir l l' v v' G i Ht Hg Ha Hs Hk Hd) as (A & B & C & D).
  split; [done|]. rewrite C, B. split; [by apply Ht|]. split; [|done]. by apply (tw_dir _ _ _ _ Ht Hg Hd).
Qed.

(** All nodes kept. *)
Lemma tree_kept l l' v v' G : tree_wf l v G -> same_area l l' -> same_shape v v' -> (forall i, G i -> kept v v' i) ->
  (forall i, G i -> Forall is_byte (content v' (IBLOCK i))) -> tree_wf l' v' G /\ same_names v v' G.
Proof.
  intros Ht Ha Hs Hk Hb. split.
  - apply (tree_rebuild l l' v v' G Ht Ha Hs); [|done]. intros i Hi. by apply (kept_sound l), Hk.
  - intros i Hi. split; [by eapply sound_is_dir, (kept_sound l l'), Hk|]. intros Hd. by destruct (kept_dir l l' v v' G i Ht Hi Ha Hs (Hk i Hi) Hd) as (_ & _ & B & _).
Qed.

(** ** Writing an inode *)

Lemma st8_bytes d i a : Forall is_byte d -> Forall is_byte (st8 d i a).
Proof.
  intros Hd. unfold st8, zset. case_match; [|done]. apply Forall_insert; [done|]. apply Z.mod_pos_bound. lia.
Qed.

Lemma write_dinode_bytes d off x : Forall is_byte d -> Forall is_byte (write_dinode d off x).
Proof.
  intros Hd. assert (forall d i a, Forall is_byte d -> Forall is_byte (st16 d i a)) as H16 by (intros; unfold st16; by do 2 apply st8_bytes).
  assert (forall d i a, Forall is_byte d -> Forall is_byte (st32 d i a)) as H32 by (intros; unfold st32; by do 4 apply st8_bytes).
  rewrite write_dinode_put. unfold put_addrs. assert (Forall is_byte (dinode_head off x d)) as Hh by (unfold dinode_head; by apply H32; do 4 apply H16).
  revert Hh. generalize (dinode_head off x d). induction (seqZ 0 13) as [|k ks IH]; intros d' Hd'; [done|]. cbn. by apply IH, H32.
Qed.

Lemma ld32_u32 d i : Forall is_byte d -> is_u32 (ld32 d i).
Proof.
  intros Hd. unfold ld32, is_u32. pose proof (ld8_byte d i Hd). pose proof (ld8_byte d (i + 1) Hd). pose proof (ld8_byte d (i + 2) Hd).
  pose proof (ld8_byte d (i + 3) Hd). unfold is_byte in *. lia.
Qed.

Lemma s16_small (n : Z) : - 2 ^ 15 <= n < 2 ^ 15 -> s16 n = n.
Proof.
  intros Hz. unfold s16. destruct (Z.ltb_spec (n mod 2 ^ 16) (2 ^ 15)) as [Hl|Hl]; Z.div_mod_to_equations; lia.
Qed.

(** An inode as it is on the disk fits the format. *)
Lemma load_fits v y n : y = load v y -> Forall is_byte (content v (IBLOCK (i_inum y))) -> fits (set_nlink n y).
Proof.
  intros E Hb. assert (zlen (i_addrs y) = 13) as Hl by (rewrite E; unfold load, read_dinode; cbn [i_addrs]; unfold zlen; by rewrite length_map, length_seqZ).
  split; cbn [set_nlink i_type i_major i_minor i_nlink i_size i_addrs]; [| | |apply s16_idem| |done|].
  1-3: rewrite E; unfold load, read_dinode; cbn; apply s16_idem.
  - rewrite E. unfold load, read_dinode. cbn [i_size]. by apply ld32_u32.
  - rewrite E. unfold load, read_dinode. cbn [i_addrs]. intros k a Ha. unfold zget in Ha. case_match; [|done].
    apply list_lookup_fmap_Some in Ha as (q & -> & _). by apply ld32_u32.
Qed.

(** The inode [x] has been written to its place. *)
Lemma inode_written l v v' x : home l v (IBLOCK (i_inum x)) -> zlen (content v (IBLOCK (i_inum x))) = 512 -> fits x -> 0 <= i_inum x ->
  updates l v v' (IBLOCK (i_inum x)) (write_dinode (content v (IBLOCK (i_inum x))) (64 * (i_inum x mod IPB)) x) ->
  load v' x = x /\ (forall s, home l v s -> s <> IBLOCK (i_inum x) -> content v' s = content v s) /\
  (forall z, 0 <= i_inum z -> home l v (IBLOCK (i_inum z)) -> i_inum z <> i_inum x -> load v' z = load v z) /\
  (Forall is_byte (content v (IBLOCK (i_inum x))) -> Forall is_byte (content v' (IBLOCK (i_inum x)))).
Proof.
  intros Hh Hz Hf Hi (_ & _ & Hu & _). assert (forall s, home l v s -> s <> IBLOCK (i_inum x) -> content v' s = content v s) as Hne.
  { intros s Hs Hn. destruct (Hu s Hs) as [-> _]. by apply zupd_ne. }
  assert (content v' (IBLOCK (i_inum x)) = write_dinode (content v (IBLOCK (i_inum x))) (64 * (i_inum x mod IPB)) x) as E.
  { destruct (Hu _ Hh) as [-> _]. apply zupd_eq. }
  split; [|split; [done|split]].
  - unfold load. rewrite E. apply dinode_roundtrip; [done|unfold IPB; Z.div_mod_to_equations; lia|rewrite Hz; unfold IPB; Z.div_mod_to_equations; lia].
  - intros z Hz0 Hzh Hzn. destruct (decide (IBLOCK (i_inum z) = IBLOCK (i_inum x))) as [Eb|Eb]; [|by apply load_kept, Hne].
    unfold load. rewrite Eb, E. apply read_dinode_other. unfold IBLOCK, IPB in *. Z.div_mod_to_equations. lia.
  - rewrite E. apply write_dinode_bytes.
Qed.

(** ** Where a view changes *)

(** The view changes in sectors for which [C] holds, and nowhere on the disk. *)
Definition within l v v' (C : Z -> Prop) : Prop := same_shape v v' /\
  forall s, home l v s -> disk v' s = disk v s /\ (~ C s -> content v' s = content v s).

Lemma updates_within l v v' s d : updates l v v' s d -> within l v v' (fun t => t = s).
Proof. intros (A & B & C & _). split; [by split|]. intros t Ht. destruct (C t Ht) as [-> ->]. split; [done|]. intros Hn. by apply zupd_ne. Qed.

Lemma within_trans l l1 v v1 v2 (C C1 : Z -> Prop) : within l v v1 C -> same_area l l1 -> within l1 v1 v2 C1 -> within l v v2 (fun s => C s \/ C1 s).
Proof.
  intros [[A1 A2] A] Ha [[B1 B2] B]. split; [split; congruence|]. intros s Hs. destruct (A s Hs) as [D1 D2].
  destruct (B s ltac:(by eapply home_area)) as [F1 F2]. split; [congruence|]. intros Hn. rewrite F2, D2 by tauto. done.
Qed.

Lemma within_mono l v v' (C C' : Z -> Prop) : within l v v' C -> (forall s, C s -> C' s) -> within l v v' C'.
Proof. intros [A B] Hc. split; [done|]. intros s Hs. destruct (B s Hs) as [D E]. split; [done|]. intros Hn. apply E. intros Hcs. by apply Hn, Hc. Qed.

(** The tree where the log is elsewhere in the cache, or its bookkeeping changes. *)
Lemma tree_area l l' v G : tree_wf l v G -> same_area l l' -> tree_wf l' v G.
Proof.
  intros Ht Ha. eapply (tree_kept l l' v v G Ht Ha); [done| |intros i Hi; by apply (tw_bytes _ _ _ Ht)].
  intros i Hi. by eapply kept_same.
Qed.

(** The tree is the same for the same contents. *)
Lemma tree_content l l' v v' G : tree_wf l v G -> same_area l l' -> same_shape v v' -> (forall s, home l v s -> content v' s = content v s) ->
  tree_wf l' v' G /\ same_names v v' G /\ forall i, G i -> disk_inode v' i = disk_inode v i.
Proof.
  intros Ht Ha Hs Hc. assert (forall i, G i -> disk_inode v' i = disk_inode v i) as Hi by (intros i Hg; apply inode_kept, Hc; by apply (tw_home _ _ _ _ Ht)).
  destruct (tree_kept l l' v v' G Ht Ha Hs) as [A B]; [| |done].
  - intros i Hg. eapply kept_same; [done|done|by apply Hi|]. intros Hd s Hs'. apply Hc. by eapply dir_sec_home.
  - intros i Hg. rewrite Hc by (by apply (tw_home _ _ _ _ Ht)). by apply (tw_bytes _ _ _ Ht).
Qed.

End Tree.
