(* ===== verification/FsTrans.v ===== *)
(** * The operations of fs.c inside a transaction

    [busy] is the state of the file system between two calls of a transaction:
    the log can take some more blocks, some inodes are locked, the tree is
    sound.  Each lemma says what one operation does to it. *)

From S2P Require Import Prelude CString BlockCache Bio BioSpec Log LogSpec LogInst Fs FsSpec FsInst FsIo FsDir FsPath FsGrow FsTree.

Section Trans.
Context {S : Type} `{BufCache S}.
Implicit Types (f : fs S) (l : log S) (v : bspec) (x y z : inode) (G : Z -> Prop) (lk : gset Z).

(** What is known of the log must not depend on which buffers hold what. *)
Class CacheFree (L : log S -> bspec -> Prop) := cache_free l v c : L l v -> bc_rep c v -> L (with_cache l c) v.

(** The state between two calls: the log as [L] says, the entries of [lk]
    locked, no buffer held, and every inode in use part of the tree. *)
Record calm (L : log S -> bspec -> Prop) f v lk G : Prop := {
  bs_quiet : quiet f v lk;
  bs_log : L (flog f) v;
  bs_wf : tree_wf (flog f) v G;
  bs_refs : forall j, 0 < refs (inodes f) j -> G j;
  bs_handles : handles v = ∅;
  bs_free : lg_lock (flog f) = false
}.

(** In a transaction with room for [k] more blocks. *)
Definition in_tx (k : Z) l v : Prop := tx l v k.

#[export] Instance in_tx_free k : CacheFree (in_tx k).
Proof. intros l v c Ht Hc. by eapply tx_cache. Qed.

Notation busy f v k lk G := (calm (in_tx k) f v lk G).

(** Outside of transactions, with an empty log. *)
Definition at_rest l v : Prop := bc_rep (lg_cache l) v /\ trans l v /\ lh_n l = 0 /\ lg_busy l = false.

#[export] Instance at_rest_free : CacheFree at_rest.
Proof. intros l v c (_ & [A B C D E] & F & I) Hc. split; [done|]. split; [by split; [destruct A| | | |]|done]. Qed.

(** What every step keeps; references change by [d]. *)
Definition keeps f f' (d : Z -> Z) : Prop := zlen (inodes f') = zlen (inodes f) /\ (forall j, refs (inodes f') j = refs (inodes f) j + d j) /\
  (forall a b, holds f a b -> 0 < refs (inodes f') b -> holds f' a b) /\ same_area (flog f) (flog f').

Definition none : Z -> Z := fun _ => 0.

Lemma keeps_moves f f' d : moves f f' d -> (forall a b, holds f a b -> 0 < refs (inodes f') b -> holds f' a b) -> keeps f f' d.
Proof. intros (A & B & c & E) Hh. split; [done|]. split; [done|]. split; [done|]. by rewrite E. Qed.

Lemma keeps_refl f : keeps f f none.
Proof. split; [done|]. split; [intros; unfold none; lia|]. split; [done|]. done. Qed.

Lemma refs_ge f v lk j : quiet f v lk -> 0 <= refs (inodes f) j.
Proof. intros Hq. apply refs_nonneg. intros a z Hz. by apply (proj1 (q_cache _ _ _ Hq) a). Qed.

Lemma holds_refs f v lk a j : quiet f v lk -> holds f a j -> 0 < refs (inodes f) j.
Proof. intros Hq (y & Hy & Hc). rewrite (refs_held f v lk a y j Hq Hy Hc). apply Hc. Qed.

(** From [f0] on, references have only been added, [d] of them. *)
Definition above f0 f (d : Z -> Z) : Prop := zlen (inodes f) = zlen (inodes f0) /\ (forall j, refs (inodes f) j = refs (inodes f0) j + d j) /\
  (forall j, 0 <= d j) /\ (forall a b, holds f0 a b -> holds f a b) /\ same_area (flog f0) (flog f).

Lemma above_refl f : above f f none.
Proof. split; [done|]. split; [intros; unfold none; lia|]. split; [done|]. done. Qed.

Lemma above_step f0 f f' v lk d e d' : quiet f0 v lk -> above f0 f d -> keeps f f' e -> (forall j, d' j = d j + e j) -> (forall j, 0 <= d' j) -> above f0 f' d'.
Proof.
  intros Hq (A & B & C & D & E) (A' & B' & D' & E') Hd Hd'. split; [congruence|]. split; [intros j; rewrite B', B, Hd; lia|]. split; [done|].
  split; [|by eapply area_trans]. intros a b Hab. apply D'; [by apply D|]. pose proof (holds_refs _ _ _ _ _ Hq Hab). rewrite B', B. specialize (Hd' b). rewrite Hd in Hd'. lia.
Qed.

Section NoWrite.
Context {L : log S -> bspec -> Prop} {HL : CacheFree L}.

(** A step that does not write. *)
Lemma busy_moves f f' v lk lk' G d : calm L f v lk G -> quiet f' v lk' -> moves f f' d -> (forall j, 0 < refs (inodes f) j + d j -> G j) ->
  calm L f' v lk' G.
Proof.
  intros [A B C D E F] Hq (_ & M2 & c & M3) Hg. assert (bc_rep c v) as Hc by (pose proof (q_rep _ _ _ Hq) as Hr; by rewrite M3 in Hr). split.
  - done.
  - rewrite M3. by apply cache_free.
  - rewrite M3. by eapply tree_area.
  - intros j. rewrite M2. apply Hg.
  - done.
  - by rewrite M3.
Qed.

Lemma cached_in f v lk G i y : calm L f v lk G -> zget (inodes f) i = Some y -> 0 < i_ref y -> G (i_inum y).
Proof.
  intros Hb Hy Hr. apply (bs_refs _ _ _ _ _ Hb). apply refs_pos; [|by exists i, y].
  intros a z Hz. by apply (proj1 (q_cache _ _ _ (bs_quiet _ _ _ _ _ Hb)) a).
Qed.

Lemma held_in f v lk G a j : calm L f v lk G -> holds f a j -> G j.
Proof. intros Hb Hh. eapply bs_refs; [done|]. eapply holds_refs; [by apply Hb|done]. Qed.

(** ** Locks and references *)

(** Entry [ip] holds inode [j], loaded. *)
Definition loaded f v (ip j : Z) y : Prop := zget (inodes f) ip = Some y /\ caches_inode ROOTDEV j y /\ y = load v y.

Lemma loaded_holds f v ip j y : loaded f v ip j y -> holds f ip j.
Proof. intros (A & B & _). by exists y. Qed.

Lemma ilock_b f v lk G ip j : calm L f v lk G -> ip ∉ lk -> holds f ip j ->
  wp (ilock ip) (fun _ f' => calm L f' v ({[ip]} ∪ lk) G /\ keeps f f' none /\ exists y, loaded f' v ip j y) f.
Proof.
  intros Hb Hlk Hh. eapply wp_mono; [apply (ilock_q f v lk G ip j); [apply Hb|done|by apply (tw_tree _ _ _ (bs_wf _ _ _ _ _ Hb))|by eapply held_in|done]|].
  intros [] f' (A & B & C & y & D). split; [|split; [|by exists y]].
  - eapply busy_moves; [done|done|exact B|]. intros i Hi. eapply bs_refs; [done|]. lia.
  - by apply keeps_moves; [|intros a b Hab _; apply C].
Qed.

Lemma iunlock_b f v lk G ip j : calm L f v lk G -> ip ∈ lk -> holds f ip j ->
  wp (iunlock ip) (fun _ f' => calm L f' v (lk ∖ {[ip]}) G /\ keeps f f' none) f.
Proof.
  intros Hb Hlk Hh. eapply wp_mono; [by apply (iunlock_q f v lk ip j); [apply Hb| |]|].
  intros [] f' (A & B & C). split.
  - eapply busy_moves; [done|done|exact B|]. intros i Hi. eapply bs_refs; [done|]. lia.
  - by apply keeps_moves; [|intros a b Hab _; apply C].
Qed.

Lemma iput_b f v lk G ip j : calm L f v lk G -> holds f ip j -> (ip ∈ lk -> 1 < refs (inodes f) j) ->
  wp (iput ip) (fun _ f' => calm L f' v lk G /\ keeps f f' (fun i => - one j i)) f.
Proof.
  intros Hb Hh Hr. eapply wp_mono; [apply (iput_q f v lk G ip j); [apply Hb|by apply (tw_tree _ _ _ (bs_wf _ _ _ _ _ Hb))|by eapply held_in|done|done]|].
  intros [] f' (A & B & C). split; [|by apply keeps_moves].
  eapply busy_moves; [done|done|exact B|]. intros i Hi. eapply bs_refs; [done|]. unfold one in Hi. case_decide; lia.
Qed.

Lemma keeps_comp f f1 f2 v lk d1 d2 d : quiet f v lk -> keeps f f1 d1 -> keeps f1 f2 d2 -> (forall j, d j = d1 j + d2 j) ->
  (forall j, 0 < refs (inodes f) j -> 0 < refs (inodes f2) j -> 0 < refs (inodes f1) j) -> keeps f f2 d.
Proof.
  intros Hq (A1 & B1 & C1 & D1) (A2 & B2 & C2 & D2) E Hp. split; [congruence|]. split; [intros j; rewrite B2, B1, E; lia|].
  split; [|by eapply area_trans]. intros a b Hab Hr. apply C2; [|done]. apply C1; [done|]. apply Hp; [by eapply holds_refs|done].
Qed.

Lemma iunlockput_b f v lk G ip j : calm L f v lk G -> ip ∈ lk -> holds f ip j ->
  wp (iunlockput ip) (fun _ f' => calm L f' v (lk ∖ {[ip]}) G /\ keeps f f' (fun i => - one j i)) f.
Proof.
  intros Hb Hlk Hh. unfold iunlockput. apply wp_bind. eapply wp_mono; [by apply (iunlock_b f v lk G ip j)|]. intros [] f1 (A & B).
  assert (holds f1 ip j) as Hh1.
  { apply B; [done|]. rewrite (proj1 (proj2 B)). pose proof (holds_refs _ _ _ _ _ (bs_quiet _ _ _ _ _ Hb) Hh). unfold none. lia. }
  eapply wp_mono; [apply (iput_b f1 v (lk ∖ {[ip]}) G ip j A Hh1); clear; set_solver|]. intros [] f2 (C & D). split; [done|].
  eapply keeps_comp; [by apply Hb|exact B|exact D|done|]. intros i _. rewrite (proj1 (proj2 D)). unfold one. case_decide; lia.
Qed.

End NoWrite.

(** ** Writing an inode *)

(** One entry and the view change together. *)
Lemma quiet_put f v v' lk ip y y' f' : quiet f v lk -> zget (inodes f) ip = Some y ->
  i_ref y' = i_ref y -> i_dev y' = i_dev y -> i_inum y' = i_inum y -> i_flags y' = i_flags y -> load v' y' = y' ->
  (forall a z, a <> ip -> zget (inodes f) a = Some z -> 0 < i_ref z -> load v' z = load v z) ->
  inodes f' = zset (inodes f) ip y' -> ic_lock f' = false -> bc_rep (lg_cache (flog f')) v' -> Z.of_nat (size (in_use v')) <= 9 ->
  quiet f' v' lk.
Proof.
  intros [A B C D E F] Hy Er Ed Ei Ef El Hne Hin Hl Hr Hs. pose proof (zget_Some _ _ _ Hy) as Hip. split; [|done..| |].
  - rewrite Hin. eapply icache_ok_set; [done|done|rewrite Er; by eapply (proj1 A)|]. rewrite Er, Ed, Ei. intros Hpos a z Ha Hz Hc. apply Ha.
    eapply (proj2 A a ip); [exact Hz|exact Hy|exact Hc|done].
  - intros a z Hz Hzr. rewrite Hin in Hz. destruct (decide (a = ip)) as [->|Ha].
    + rewrite zget_zset_eq in Hz by done. injection Hz as <-. rewrite Er in Hzr. destruct (E ip y Hy Hzr) as (E1 & E2 & _). rewrite Ed, Ef. done.
    + rewrite zget_zset_ne in Hz by done. destruct (E a z Hz Hzr) as (E1 & E2 & E3). split; [done|]. split; [done|]. intros Hv.
      rewrite (Hne a z) by done. by apply E3.
  - intros a Ha. destruct (F a Ha) as (z & Hz & Hzr). rewrite Hin. destruct (decide (a = ip)) as [->|Hn].
    + exists y'. rewrite zget_zset_eq by done. split; [done|]. rewrite Hy in Hz. injection Hz as <-. lia.
    + exists z. by rewrite zget_zset_ne.
Qed.

Lemma iupdate_run f l v k ip x : tx l v k -> 0 < k -> zget (inodes f) ip = Some x -> i_dev x = ROOTDEV ->
  home l v (IBLOCK (i_inum x)) -> handles v !! IBLOCK (i_inum x) = None ->
  exists l' v', iupdate ip (with_log f l) = Ok tt (with_log f l') /\ tx l' v' (k - 1) /\ same_log l l' /\
    updates l v v' (IBLOCK (i_inum x)) (write_dinode (content v (IBLOCK (i_inum x))) (64 * (i_inum x mod IPB)) x).
Proof.
  intros Ht Hk Hx Hdev Hho Hnh. set (s := IBLOCK (i_inum x)) in *. destruct (bread_run f l v k s Ht ltac:(lia) (proj1 Hho) Hnh) as (h & c & E1 & Hr1).
  assert (handles (hold s h v) !! s = Some h) as Hh by apply lookup_insert_eq. pose proof (bdata_run f l c _ s h Hr1 Hh) as E2. cbn [content hold] in E2.
  set (d := write_dinode _ _ x). assert (zlen d = 512) as Hdl by (unfold d; rewrite zlen_write_dinode; apply (bc_block _ _ _ (tx_rep _ _ _ Ht) (proj1 Hho))).
  destruct (update_run f l v s h d k c Ht Hk Hnh Hho Hdl Hr1) as (s1 & s2 & l' & v' & E3 & E4 & E5 & Ht' & Hl & Hu). exists l', v'. split; [|done].
  unfold iupdate. rewrite (bind_ok _ _ _ _ _ (get_inode_run _ _ _ _ Hx)), Hdev. fold s.
  rewrite (bind_ok _ _ _ _ _ E1), (bind_ok _ _ _ _ _ E2), (bind_ok _ _ _ _ _ E3), (bind_ok _ _ _ _ _ E4). exact E5.
Qed.

Lemma tx_in_use l v k : tx l v k -> 0 <= k -> Z.of_nat (size (in_use v)) <= 9.
Proof. intros Ht Hk. pose proof (tx_room _ _ _ Ht). lia. Qed.

(** Of the inodes of the tree only [j]'s number of links changes. *)
Definition relinked v v' G (j n : Z) : Prop := forall i, G i -> disk_inode v' i = if decide (i = j) then set_nlink n (disk_inode v j) else disk_inode v i.

Lemma zlen_block l v s : bc_rep (lg_cache l) v -> home l v s -> zlen (content v s) = 512.
Proof. intros Hr [Hs _]. by apply (bc_block _ _ _ Hr). Qed.

(** The links of a locked inode change, in memory and on the disk. *)
Lemma nlink_step f v k lk G ip j y n : busy f v k lk G -> 0 < k -> loaded f v ip j y -> s16 n <> 0 ->
  wp (upd_inode ip (set_nlink n) ;;; iupdate ip) (fun _ f' => exists v', busy f' v' (k - 1) lk G /\ keeps f f' none /\
    loaded f' v' ip j (set_nlink n y) /\ same_names v v' G /\ relinked v v' G j n /\
    within (flog f) v v' (fun s => s = IBLOCK j)) f.
Proof.
  intros Hb Hk Hld Hn. pose proof (held_in _ _ _ _ _ _ Hb (loaded_holds _ _ _ _ _ Hld)) as Hg. destruct Hld as (Hy & Hc & El).
  destruct (id Hb) as [Hq Ht Hw Hrf Hhn Hfr]. change (tx (flog f) v k) in Ht. destruct (id Hc) as (C1 & C2 & C3). pose proof (zget_Some _ _ _ Hy) as Hip.
  destruct (tw_home _ _ _ _ Hw Hg) as [Hho Hnh]. set (x := set_nlink n y). assert (i_inum x = j) as Hxj by done.
  apply wp_bind. eapply ok_wp; [by apply (upd_inode_ok f ip y)|]. fold x. set (f1 := with_inodes f (zset (inodes f) ip x)).
  assert (zget (inodes f1) ip = Some x) as Hx by by apply zget_zset_eq.
  destruct (iupdate_run f1 (flog f) v k ip x Ht Hk Hx) as (l' & v' & E & Ht' & Hl & Hu); [done|by rewrite Hxj|by rewrite Hxj|].
  change (with_log f1 (flog f)) with f1 in E. eapply ok_wp; [exact E|]. rewrite Hxj in Hu.
  assert (fits x) as Hfit by (apply (load_fits v y n El); rewrite C3; by apply (tw_bytes _ _ _ Hw)).
  pose proof (tw_ino _ _ _ Hw j Hg) as Hj.
  destruct (inode_written (flog f) v v' x) as (W1 & W2 & W3 & W4); [by rewrite Hxj|rewrite Hxj; by eapply zlen_block; [apply Ht|]|done|lia|by rewrite Hxj|].
  rewrite Hxj in *. assert (forall i, G i -> 0 <= i /\ home (flog f) v (IBLOCK i)) as HG.
  { intros i Hi. split; [pose proof (tw_ino _ _ _ Hw i Hi); lia|by apply (tw_home _ _ _ _ Hw)]. }
  assert (relinked v v' G j n) as Hrel.
  { intros i Hi. destruct (HG i Hi) as [Hi0 Hih]. destruct (decide (i = j)) as [->|Hne]; [|by apply (W3 (Inode ROOTDEV i 0 0 0 0 0 0 0 []))].
    pose proof (disk_bare v y El) as Ey. pose proof (disk_bare v' x (eq_sym W1)) as Ex. rewrite C3 in Ey. rewrite Hxj in Ex. by rewrite Ex, Ey. }
  assert (forall i, G i -> kept v v' i) as Hkept.
  { intros i Hi. split.
    - rewrite (Hrel i Hi). destruct (decide (i = j)) as [->|]; [by exists n|]. by apply (kept_same (flog f) v v G).
    - intros Hd s Hs. apply W2; [by eapply dir_sec_home|]. intros ->. by eapply (tw_apart _ _ _ Hw i j). }
  assert (forall i, G i -> Forall is_byte (content v' (IBLOCK i))) as Hby.
  { intros i Hi. destruct (decide (IBLOCK i = IBLOCK j)) as [->|Hne]; [by apply W4, (tw_bytes _ _ _ Hw)|]. rewrite W2 by (done || by apply HG). by apply (tw_bytes _ _ _ Hw). }
  destruct (tree_kept (flog f) l' v v' G Hw (area_log _ _ Hl)) as [Hw' Hsn]; [split; apply Hu|done|done|].
  assert (forall i, refs (inodes f1) i = refs (inodes f) i) as Href by (intros i; unfold f1; cbn [inodes with_inodes]; rewrite (irefs_zset _ _ _ _ _ Hy); unfold contrib, x; cbn; lia).
  exists v'. split; [split|split; [|split; [|split; [|split]]]].
  - eapply (quiet_put f v v' lk ip y x); [done|done|done|done|done|done|done| |done|apply Hq|apply Ht'|apply (tx_in_use _ _ _ Ht'); lia].
    intros a z Ha Hz Hzr. pose proof (cached_in f v lk G a z Hb Hz Hzr) as Hgz. apply W3; [by apply HG|by apply HG|].
    intros Ej. apply (caches_unique f v lk ip y j Hq Hy Hc a z Ha Hz). split; [done|]. split; [|done]. by apply (q_ino _ _ _ Hq a).
  - done.
  - done.
  - intros i. change (inodes (with_log f1 l')) with (inodes f1). rewrite Href. apply Hrf.
  - rewrite (proj1 (proj2 Hu)). done.
  - destruct Hl as [El' _]. cbn. by rewrite El'.
  - split; [apply zlen_zset|]. split; [intros i; unfold none; rewrite Z.add_0_r; exact (Href i)|]. split; [|by apply (area_log (flog f))].
    intros a b Hab _. by apply (holds_set f _ ip y x).
  - by split.
  - done.
  - done.
  - by eapply updates_within.
Qed.

(** ** Names *)

(** [n] entries of the cache are free even if every inode in use has its own. *)
Definition spare f (n : Z) : Prop := exists U : gset Z, (forall j, 0 < refs (inodes f) j -> j ∈ U) /\ Z.of_nat (size U) + n <= zlen (inodes f).

Lemma spare_same f f' n : spare f n -> keeps f f' none -> spare f' n.
Proof. intros (U & A & B) (C & D & _). exists U. split; [intros j; rewrite D; unfold none; rewrite Z.add_0_r; apply A|by rewrite C]. Qed.

Lemma spare_one f f' n j : spare f n -> keeps f f' (one j) -> spare f' (n - 1).
Proof.
  intros (U & A & B) (C & D & _). exists ({[j]} ∪ U). split.
  - intros i. rewrite D. unfold one. case_decide; [subst; set_solver|]. rewrite Z.add_0_r. intros Hi. apply elem_of_union_r, A, Hi.
  - rewrite C. pose proof (size_union_alt ({[j]} : gset Z) U) as E. rewrite size_singleton in E.
    assert (size (U ∖ {[j]}) <= size U)%nat by (apply subseteq_size; set_solver). lia.
Qed.

Lemma spare_entry f v lk n j : quiet f v lk -> spare f n -> 0 < n ->
  exists a y, zget (inodes f) a = Some y /\ (caches_inode ROOTDEV j y \/ i_ref y = 0).
Proof.
  intros Hq (U & A & B) Hn. destruct (free_entry (inodes f) U) as (a & y & Ha & Hy); [apply Hq| |done|lia|exists a, y; split; [done|by right]].
  intros i y Hy Hry. by apply (q_ino _ _ _ Hq i y).
Qed.

Section Names.
Context {L : log S -> bspec -> Prop} {HL : CacheFree L}.
Variable devsw_read : Z -> option (Z -> Z -> M (fs S) (list Z * Z)).
Variable devsw_write : Z -> option (Z -> list Z -> Z -> M (fs S) Z).

Lemma namex_b f v G (parent : bool) cwd i path name : calm L f v ∅ G -> G ROOTINO -> holds f cwd i -> spare f 2 ->
  zlen name = DIRSIZ -> Forall is_byte path -> Forall is_byte name ->
  wp (namex devsw_read cwd path parent name) (fun r f' => calm L f' v ∅ G /\
    match meaning v parent (if bool_decide (head path = Some SLASH) then ROOTINO else i) (path_elems path) with
    | Some t => holds f' r.1 t /\ keeps f f' (one t) /\ (parent = true -> Forall is_byte r.2 /\ exists e, last (path_elems path) = Some e /\ key r.2 = key e)
    | None => r.1 = NULL /\ keeps f f' none
    end) f.
Proof.
  intros Hb Hr Hh (U & HU & Hs) Hn Hp Hnb. set (s := if bool_decide _ then ROOTINO else i). pose proof (bs_quiet _ _ _ _ _ Hb) as Hq.
  pose proof (bs_wf _ _ _ _ _ Hb) as Hw. pose proof (held_in _ _ _ _ _ _ Hb Hh) as Hg. assert (G s) as Hgs by (unfold s; by case_match).
  eapply wp_mono; [apply (namex_ok devsw_read parent f v G U cwd i path name); try done; apply Hw|].
  intros r f' (A & (c & B) & Z0 & C & D). fold s in D. destruct (meaning v parent s (path_elems path)) as [t|] eqn:Em.
  - destruct D as (D1 & D2 & D3). assert (moves f f' (one t)) as Hm.
    by (split; [done|split; [done|by exists c]]).
    assert (G t) as Hgt by (unfold meaning in Em; destruct parent; [by eapply resolve_parent_in in Em as [? _]|by eapply resolve_in in Em]).
    split; [|split; [done|split; [by apply keeps_moves; [|intros a b Hab _; apply C]|done]]].
    eapply busy_moves; [done|done|exact Hm|]. intros j Hj. unfold one in Hj. case_decide; [by subst|]. eapply bs_refs; [done|]. lia.
  - destruct D as (D1 & D2). assert (moves f f' none) as Hm.
    by (split; [done|split; [intros j; rewrite D2; unfold none; lia|by exists c]]).
    split; [|split; [done|by apply keeps_moves; [|intros a b Hab _; apply C]]].
    eapply busy_moves; [done|done|exact Hm|]. intros j Hj. eapply bs_refs; [done|]. unfold none in Hj. lia.
Qed.

Lemma lookup_b f v lk G dp t y name : calm L f v lk G -> loaded f v dp t y -> is_dir v t = true -> Forall is_byte name -> spare f 1 ->
  wp (dirlookup devsw_read dp name) (fun r f' => calm L f' v lk G /\
    match names v t !! key name with
    | None => r.1 = NULL /\ keeps f f' none
    | Some i => r.1 <> NULL /\ holds f' r.1 i /\ keeps f f' (one i)
    end) f.
Proof.
  intros Hb (Hy & Hc & El) Hd Hn Hsp. pose proof (bs_quiet _ _ _ _ _ Hb) as Hq. assert (G t) as Hg by (eapply held_in; [done|by exists y]).
  destruct (tw_dir _ _ _ _ (bs_wf _ _ _ _ _ Hb) Hg Hd) as [Hok Hcl]. destruct (loaded_dir _ _ _ _ El Hc Hok) as [Hoky Een].
  destruct (dirlookup_run devsw_read f v dp y name (q_rep _ _ _ Hq) (q_room _ _ _ Hq) Hy Hoky Hn) as (c & Hrc & E). rewrite Een in E.
  pose proof (dir_find_map (key name) (entries v (disk_inode v t)) 0) as Hmap. fold (names v t) in Hmap. rewrite <-Hmap.
  pose proof (quiet_cache _ _ _ _ Hq Hrc) as Hqc. set (f2 := with_c f (flog f) c) in *.
  assert (moves f f2 none) as Hm2 by (split; [done|]; split; [intros; unfold none; by rewrite Z.add_0_r|by exists c]).
  assert (calm L f2 v lk G) as Hb2 by (eapply busy_moves; [done|done|exact Hm2|]; intros j Hj; eapply bs_refs; [done|]; unfold none in Hj; lia).
  assert (keeps f f2 none) as Hk2 by (by apply keeps_moves).
  destruct (dir_find (key name) (entries v (disk_inode v t)) 0) as [[i off]|] eqn:Ef; cbn [fmap option_fmap option_map fst] in *.
  2: { eapply ok_wp; [exact E|]. done. }
  unfold wp. rewrite E. apply (wp_bind (iget ROOTDEV i)). eapply wp_mono; [apply (iget_q f2 v lk i Hqc), (spare_entry f2 v lk 1); [done|by eapply spare_same|lia]|].
  intros ip f3 (A & B & C & D). apply wp_ret. cbn [fst].
  assert (keeps f2 f3 (one i)) as Hk3 by (apply keeps_moves; [done|]; intros a b Hab _; by apply D).
  split.
  - eapply busy_moves; [exact Hb2|exact A|exact B|]. intros j Hj. unfold one in Hj. case_decide as Eij; [subst; by apply (Hcl (key name))|].
    eapply bs_refs; [exact Hb2|]. lia.
  - split; [destruct C as (z & Hz & _); apply zget_Some in Hz; unfold NULL; lia|]. split; [done|].
    eapply keeps_comp; [exact Hq|exact Hk2|exact Hk3|intros j; unfold none; lia|]. intros j Hj _. rewrite (proj1 (proj2 Hk2)). unfold none. lia.
Qed.
End Names.

(** ** Writing a directory *)

(** A write to blocks of directory [t] alone. *)
Lemma dir_written l l' v v' G t y : tree_wf l v G -> G t -> is_dir v t = true -> disk_inode v t = bare y -> same_area l l' -> only_file l v v' y ->
  dir_ok l' v' y -> unique_names (entries v' y) -> (forall n j, map_of (entries v' y) !! n = Some j -> G j) ->
  tree_wf l' v' G /\ names v' t = map_of (entries v' y) /\ (forall i, G i -> disk_inode v' i = disk_inode v i) /\
  (forall i, G i -> i <> t -> is_dir v i = true -> names v' i = names v i) /\ within l v v' (dir_sec v t).
Proof.
  intros Ht Hg Hd Ey Ha (O1 & O2 & O3) Hok Hu Hcl. destruct (tw_dir _ _ _ _ Ht Hg Hd) as [Hok0 _].
  assert (same_shape v v') as Hs by by split.
  assert (within l v v' (dir_sec v t)) as Hw.
  { split; [done|]. intros s Hs'. destruct (O3 s Hs') as [A B]. split; [done|]. intros Hn. apply B. intros n H0 Hn' ->. apply Hn. right. exists n. by rewrite Ey. }
  assert (forall i, G i -> disk_inode v' i = disk_inode v i) as Hi.
  { intros i Hgi. apply inode_kept. destruct Hw as [_ Hw]. apply Hw; [by apply (tw_home _ _ _ _ Ht)|]. by apply (tw_apart _ _ _ Ht t i). }
  assert (disk_inode v' t = bare y) as Ey' by by rewrite (Hi t Hg).
  assert (forall s, dir_sec v' t s <-> dir_sec v t s) as Hsec.
  { intros s. unfold dir_sec. rewrite Ey', Ey. rewrite Ey in Hok0. pose proof (d_file _ _ _ Hok0) as Hf.
    assert (forall n, 0 <= n -> n * 512 < i_size (bare y) -> blk v' (bare y) n = blk v (bare y) n) as Hb.
    { intros n H0 Hn. unfold blk. destruct (Z.ltb_spec n NDIRECT) as [|Hge]; [done|]. destruct (fo_ind _ _ _ Hf ltac:(lia)) as [(_ & Hho & _) Hne].
      destruct (O3 _ Hho) as [_ ->]; [done|]. intros k Hk Hk' E. by apply (Hne k Hk Hk'). }
    split; (intros [Hind|(n & H0 & Hn & ->)]; [by left|right; exists n; rewrite Hb by done; done]). }
  assert (forall i, G i -> i <> t -> kept v v' i) as Hk.
  { intros i Hgi Hne. apply (kept_same l v v' G); [done|done|by apply Hi|]. intros Hdi s Hsi. destruct Hw as [_ Hw].
    apply Hw; [by eapply dir_sec_home|]. intros Hst. apply Hne. by eapply (tw_disj _ _ _ Ht). }
  split; [|split; [|split; [done|split; [|done]]]].
  - apply (tree_rebuild l l' v v' G Ht Ha Hs).
    + intros i Hgi. destruct (decide (i = t)) as [->|Hne]; [|by apply (kept_sound l), Hk].
      split; [exists (i_nlink (disk_inode v t)); rewrite set_nlink_id, Hi by done; split; [|done]|].
      { destruct (tw_tree _ _ _ Ht t Hg) as (_ & _ & _ & Hnl & _). revert Hnl. unfold disk_inode, load, read_dinode. cbn. by rewrite s16_idem. }
      intros _. unfold names. rewrite Ey'. split; [|split; [exact Hu|split; [exact Hcl|exact Hsec]]].
      destruct Hok as [[A B C D E F J] K L M]. split; [by split|done..].
    + intros i Hgi. destruct Hw as [_ Hw]. destruct (Hw (IBLOCK i)) as [_ ->]; [by apply (tw_home _ _ _ _ Ht)|by apply (tw_bytes _ _ _ Ht)|by apply (tw_apart _ _ _ Ht t i)].
  - unfold names. by rewrite Ey'.
  - intros i Hgi Hne Hdi. by destruct (kept_dir l l' v v' G i Ht Hgi Ha Hs (Hk i Hgi Hne) Hdi) as (_ & B & _).
Qed.

(** The view changes, the inodes in memory and on the disk do not. *)
Lemma quiet_view f v v' lk f' : quiet f v lk -> inodes f' = inodes f -> ic_lock f' = ic_lock f -> bc_rep (lg_cache (flog f')) v' ->
  Z.of_nat (size (in_use v')) <= 9 -> (forall a z, zget (inodes f) a = Some z -> 0 < i_ref z -> load v' z = load v z) -> quiet f' v' lk.
Proof.
  intros [A B C D E F] Ei El Hr Hs Hl. split; [by rewrite Ei|congruence|done|done| |by rewrite Ei].
  intros i y Hy Hyr. rewrite Ei in Hy. destruct (E i y Hy Hyr) as (E1 & E2 & E3). split; [done|]. split; [done|]. intros Hv. rewrite (Hl i y) by done. by apply E3.
Qed.

Section Link.
Variable devsw_read : Z -> option (Z -> Z -> M (fs S) (list Z * Z)).
Variable devsw_write : Z -> option (Z -> list Z -> Z -> M (fs S) Z).

(** dirlink of a name that is there. *)
Lemma dirlink_bound_b f v k lk G dp t y name j i : busy f v k lk G -> loaded f v dp t y -> is_dir v t = true -> Forall is_byte name -> spare f 1 ->
  names v t !! key name = Some i ->
  wp (dirlink devsw_read devsw_write dp name j) (fun r f' => r = -1 /\ busy f' v k lk G /\ keeps f f' none) f.
Proof.
  intros Hb Hl Hd Hn Hsp Hi. unfold dirlink. apply wp_bind. eapply wp_mono; [by apply (lookup_b (L := in_tx k) devsw_read f v lk G dp t y name)|].
  rewrite Hi. intros [ip off] f1 (Hb1 & Hne & Hh & Hk). cbn [fst] in *. rewrite (proj2 (Z.eqb_neq _ _) Hne). cbn [negb].
  pose proof (bs_quiet _ _ _ _ _ Hb) as Hq. pose proof (bs_quiet _ _ _ _ _ Hb1) as Hq1.
  assert (forall i', 0 < refs (inodes f) i' -> 0 < refs (inodes f1) i') as Hpos by (intros i'; rewrite (proj1 (proj2 Hk)); unfold one; case_decide; lia).
  apply wp_bind. eapply wp_mono; [apply (iput_b f1 v lk G ip i Hb1 Hh)|].
  { intros Hin. destruct (q_held _ _ _ Hq ip Hin) as (z & Hz & Hzr).
    assert (holds f ip (i_inum z)) as Hhz by (exists z; split; [done|]; split; [done|]; split; [by apply (q_ino _ _ _ Hq ip)|done]).
    pose proof (holds_refs _ _ _ _ _ Hq Hhz) as Hrz. destruct (proj1 (proj2 (proj2 Hk)) _ _ Hhz (Hpos _ Hrz)) as (z' & Hz' & _ & _ & Ez').
    destruct Hh as (z2 & Hz2 & _ & _ & Ez2). rewrite Hz' in Hz2. injection Hz2 as <-. rewrite Ez2 in Ez'. subst.
    rewrite <-Ez' in Hrz. rewrite (proj1 (proj2 Hk)). unfold one. rewrite decide_True by done. lia. }
  intros [] f2 (Hb2 & Hk2). apply wp_ret. split; [done|]. split; [done|].
  eapply keeps_comp; [exact Hq|exact Hk|exact Hk2|intros a; unfold none; cbn; lia|]. intros a Ha _. by apply Hpos.
Qed.

(** dirlink of a new name, with a free entry in the directory. *)
Lemma dirlink_new_b f v k lk G dp t y name j : busy f v k lk G -> 0 < k -> loaded f v dp t y -> is_dir v t = true -> Forall is_byte name -> spare f 1 ->
  G j -> names v t !! key name = None -> (exists a m, entries v (disk_inode v t) !! a = Some (0, m)) ->
  wp (dirlink devsw_read devsw_write dp name j) (fun r f' => r = 0 /\ exists v' k', busy f' v' k' lk G /\ 0 <= k' /\ keeps f f' none /\
    inodes f' = inodes f /\ names v' t = <[key name := j]> (names v t) /\ (forall i, G i -> disk_inode v' i = disk_inode v i) /\
    (forall i, G i -> i <> t -> is_dir v i = true -> names v' i = names v i) /\ within (flog f) v v' (dir_sec v t)) f.
Proof.
  intros Hb Hk (Hy & Hc & El) Hd Hn Hsp Hj Hno Hfree. pose proof (bs_quiet _ _ _ _ _ Hb) as Hq. pose proof (bs_wf _ _ _ _ _ Hb) as Hw.
  assert (G t) as Hg by (eapply held_in; [done|by exists y]). destruct (tw_dir _ _ _ _ Hw Hg Hd) as [Hok Hcl].
  destruct (loaded_dir _ _ _ _ El Hc Hok) as [Hoky Een]. assert (disk_inode v t = bare y) as Ey by (destruct Hc as (_ & _ & <-); by apply disk_bare).
  pose proof (dirlink_spec devsw_read devsw_write f v k dp y name j (bs_log _ _ _ _ _ Hb) Hk Hy Hoky) as HL. rewrite Een in HL. fold (names v t) in HL.
  rewrite Hno in HL. eapply wp_mono; [apply HL; try done; [by apply (tw_unique _ _ _ Hw)|by apply (tw_ino _ _ _ Hw)|apply Hq|apply Hq]|].
  intros r f' (-> & l' & v' & k' & -> & Hl & Ht & Hk' & Hok' & Hu & Hm & Ho). split; [done|]. exists v', k'.
  destruct (dir_written (flog f) l' v v' G t y Hw Hg Hd Ey (area_log _ _ Hl) Ho Hok' Hu) as (A & B & C & D & E).
  { intros n i. rewrite Hm. intros Hi. apply lookup_insert_Some in Hi as [[_ <-]|[_ Hi]]; [done|by apply (Hcl n)]. }
  split; [split|].
  - eapply (quiet_view f v v'); [done|done|done|apply Ht|by eapply tx_in_use|]. intros a z Hz Hzr. apply load_kept.
    assert (G (i_inum z)) as Hgz by (by eapply (cached_in f v)). destruct E as [_ E]. apply E; [by apply (tw_home _ _ _ _ Hw)|by apply (tw_apart _ _ _ Hw t)].
  - exact Ht.
  - exact A.
  - exact (bs_refs _ _ _ _ _ Hb).
  - destruct Ho as (_ & -> & _). apply Hb.
  - destruct Hl as [El' _]. cbn. rewrite El'. apply Hb.
  - split; [done|]. split; [split; [done|]; split; [intros i; unfold none; by rewrite Z.add_0_r|]; split; [done|by apply (area_log (flog f))]|].
    split; [done|]. by rewrite B, Hm.
Qed.
End Link.

(** ** The bounds of a transaction *)

Lemma on_log_wp {A} (m : M (log S) A) (Q : A -> fs S -> Prop) f : wp m (fun a l => Q a (with_log f l)) (flog f) -> wp (on_log m) Q f.
Proof. intros Hw. apply wp_ok in Hw as (a & l & E & Hq). eapply ok_wp; [|exact Hq]. rewrite <-(with_log_id f) at 1. by apply on_log_run. Qed.

Lemma begin_b f v k G : calm at_rest f v ∅ G -> 0 <= k <= 9 -> k <= lg_size (flog f) - 1 ->
  wp (on_log begin_trans) (fun _ f' => busy f' v k ∅ G /\ keeps f f' none) f.
Proof.
  intros [A (B1 & B2 & B3 & B4) C D E F] Hk Hs. apply on_log_wp. unfold begin_trans. apply wp_bind. eapply ok_wp; [unfold lock_log; cbn; by rewrite F|].
  apply wp_bind, wp_get. rewrite B4. apply wp_bind, wp_modify, wp_modify. set (l' := Log _ _ _ _ _ _ _ _ _).
  assert (same_area (flog f) l') as Ha by done. assert (dirty v = ∅) as Hd by (rewrite (t_dirty _ _ B2), B3; by apply set_eq).
  split.
  - split; [apply (quiet_view f v v ∅ _ A); try done; apply A| |by apply (tree_area (flog f))|done|done|done].
    split; [done| |done| | |].
    + destruct B2 as [[G1 G2 G3 G4 G5 G6] T2 T3 T4 T5]. by split.
    + change (lh_n (flog f) + k <= LOGSIZE /\ lh_n (flog f) + k <= lg_size (flog f) - 1). rewrite B3. unfold LOGSIZE. lia.
    + unfold in_use. rewrite E, Hd, dom_empty_L, union_empty_l_L, size_empty. lia.
    + intros i _. by rewrite E.
  - split; [done|]. split; [intros j; unfold none; by rewrite Z.add_0_r|]. by split.
Qed.

Lemma commit_b f v k G : busy f v k ∅ G -> 0 <= k ->
  wp (on_log commit_trans) (fun _ f' => exists v', calm at_rest f' v' ∅ G /\ keeps f f' none /\ inodes f' = inodes f /\ same_shape v v' /\
    forall s, home (flog f) v s -> disk v' s = content v s /\ content v' s = content v s) f.
Proof.
  intros [A B C D E F] Hk. change (tx (flog f) v k) in B. pose proof (tx_log _ _ _ B) as [Hlog _]. pose proof (tx_trans _ _ _ B) as Ht.
  pose proof (t_head _ _ Ht) as (Hn0 & _). apply on_log_wp.
  assert (Z.of_nat (size (dirty v)) <= 9) as Hdirty.
  { pose proof (tx_in_use _ _ _ B Hk) as Hu. unfold in_use in Hu. by rewrite E, dom_empty_L, union_empty_l_L in Hu. }
  assert (forall l' v', same_area (flog f) l' -> same_shape v v' -> trans l' v' -> lh_n l' = 0 -> lg_busy l' = false -> lg_lock l' = false ->
    bc_rep (lg_cache l') v' -> (forall s, home (flog f) v s -> disk v' s = content v s /\ content v' s = content v s) ->
    exists v', calm at_rest (with_log f l') v' ∅ G /\ keeps f (with_log f l') none /\ inodes (with_log f l') = inodes f /\ same_shape v v' /\
      forall s, home (flog f) v s -> disk v' s = content v s /\ content v' s = content v s) as Hend.
  { intros l' v' Ha Hs Ht' Hn Hb Hf Hr Hc. exists v'. assert (dirty v' = ∅) as Hd by (rewrite (t_dirty _ _ Ht'), Hn; by apply set_eq).
    destruct (tree_content (flog f) l' v v' G C Ha Hs) as (T1 & T2 & T3); [intros s Hsh; by apply Hc|]. split; [split|].
    - eapply (quiet_view f v v'); try done.
      + unfold in_use. rewrite (proj2 Hs), E, Hd, dom_empty_L, union_empty_l_L, size_empty. lia.
      + intros a z Hz Hzr. apply load_kept, Hc. apply (tw_home _ _ _ _ C), D. apply refs_pos; [|by exists a, z].
        intros b y Hy. by apply (proj1 (q_cache _ _ _ A) b).
    - done.
    - done.
    - done.
    - by rewrite (proj2 Hs).
    - done.
    - split; [|done]. split; [done|]. split; [intros j; unfold none; by rewrite Z.add_0_r|]. by split. }
  destruct (decide (lh_n (flog f) = 0)) as [Hz|Hz].
  - unfold commit_trans. apply wp_bind, wp_get. rewrite Hz. cbn [when Z.ltb Z.compare]. apply wp_bind, wp_ret, wp_bind.
    eapply ok_wp; [unfold lock_log; cbn; by rewrite F|]. apply wp_bind, wp_modify, wp_bind, wp_modify, wp_modify.
    apply (Hend _ v); try done; [|by apply (tx_rep _ _ _ B)|].
    + destruct Ht as [[G1 G2 G3 G4 G5 G6] T2 T3 T4 T5]. by split.
    + intros s [Hs _]. split; [|done]. symmetry. apply (bc_clean _ _ _ (tx_rep _ _ _ B) Hs); [by rewrite E|].
      rewrite (t_dirty _ _ Ht), Hz. set_solver.
  - assert (lh_n (flog f) < 10) as Hlt.
    { assert (lh_n (flog f) = Z.of_nat (size (dirty v))) as ->; [by apply lh_dirty|lia]. }
    eapply wp_mono; [apply (commit_done (flog f) v (tx_rep _ _ _ B) Ht E ltac:(lia) F)|]. intros [] l' (c' & -> & Hr & Ht' & Hc).
    apply (Hend _ (post_view v (commit_writes (flog f) v))); try done. 
Qed.

End Trans.

(** In a transaction, for clients. *)
Notation busy f v k lk G := (calm (in_tx k) f v lk G).
