(* ===== verification/FsLink.v ===== *)
(** * link, as a whole transaction

    sys_link on the file system: from a state at rest to a state at rest, with
    the new name and the new link count on the disk, or with nothing changed. *)

From S2P Require Import Prelude CString BlockCache Bio BioSpec Log LogSpec LogInst Fs FsSpec FsInst FsIo FsDir FsPath FsGrow FsTree FsTrans Sysfile.

Section Link.
Context {S : Type} `{BufCache S}.
Implicit Types (f : fs S) (v : bspec) (x y : inode) (G : Z -> Prop).

(** ** What link is to do *)

(** Where a path starts, from the directory [i]. *)
Definition origin (i : Z) (path : list Z) : Z := if bool_decide (head path = Some SLASH) then ROOTINO else i.

(** The inode to be linked, the directory of the new name, and the name; or
    none if one of them is missing, the inode is a directory or the name is
    taken. *)
Definition link_plan v (i : Z) (old new : list Z) : option (Z * Z * list Z) :=
  j ← resolve v (origin i old) (path_elems old);
  if is_dir v j then None else
  t ← resolve_parent v (origin i new) (path_elems new);
  n ← key <$> last (path_elems new);
  if names v t !! n then None else Some (j, t, n).

(** The name [n] of directory [t] now stands for inode [j], which counts one
    link more; everything else is as it was. *)
Record linked f v v' G (j t : Z) (n : list Z) : Prop := {
  ln_names : names v' t = <[n := j]> (names v t);
  ln_others : forall i, G i -> i <> t -> is_dir v i = true -> names v' i = names v i;
  ln_inodes : relinked v v' G j (i_nlink (disk_inode v j) + 1);
  ln_rest : forall s, home (flog f) v s -> s <> IBLOCK j -> ~ dir_sec v t s -> content v' s = content v s
}.

(** All inodes, names and sectors outside the inodes are as they were. *)
Definition untouched f v v' G : Prop := same_names v v' G /\ (forall i, G i -> disk_inode v' i = disk_inode v i) /\
  forall s, home (flog f) v s -> (forall i, G i -> s <> IBLOCK i) -> content v' s = content v s.

Lemma untouched_refl f v G : untouched f v v G.
Proof. by split. Qed.

(** Between transactions the disk has what the cache shows. *)
Lemma at_rest_disk f v G s : calm at_rest f v ∅ G -> home (flog f) v s -> disk v s = content v s.
Proof.
  intros Hc [Hs _]. destruct (bs_log _ _ _ _ _ Hc) as (A & B & C & _). symmetry. apply (bc_clean _ _ _ A Hs); [by rewrite (bs_handles _ _ _ _ _ Hc)|].
  rewrite (t_dirty _ _ B), C. set_solver.
Qed.

(** ** Steps *)

Lemma loaded_meta f v ip j y : loaded f v ip j y -> i_dev y = ROOTDEV /\ i_inum y = j /\ i_type y = i_type (disk_inode v j) /\
  i_nlink y = i_nlink (disk_inode v j).
Proof. intros (_ & (_ & A & B) & C). apply disk_bare in C. rewrite B in C. by rewrite C. Qed.

Lemma loaded_get f v ip j y (Q : inode -> fs S -> Prop) : loaded f v ip j y -> Q y f -> wp (get_inode ip) Q f.
Proof. intros (A & _) Hq. eapply ok_wp; [|exact Hq]. unfold get_inode, bind, get. by rewrite A. Qed.

Lemma add_nlink_b f v k lk G ip j y d : busy f v k lk G -> 0 < k -> loaded f v ip j y -> s16 (i_nlink y + d) <> 0 ->
  wp (add_nlink ip d) (fun _ f' => exists v', busy f' v' (k - 1) lk G /\ keeps f f' none /\ loaded f' v' ip j (set_nlink (i_nlink y + d) y) /\
    same_names v v' G /\ relinked v v' G j (i_nlink y + d) /\ within (flog f) v v' (fun s => s = IBLOCK j)) f.
Proof.
  intros Hb Hk Hl Hn. pose proof (nlink_step f v k lk G ip j y (i_nlink y + d) Hb Hk Hl Hn) as W. destruct Hl as (Hy & _).
  unfold add_nlink, wp, bind in *. rewrite (upd_inode_ok f ip y _ Hy) in W. by rewrite (upd_inode_ok f ip y _ Hy).
Qed.

(** An entry stays while [f0]'s references and those added since are kept. *)
Lemma holds_on f0 v0 lk0 f f' d e a j : quiet f0 v0 lk0 -> above f0 f' d -> keeps f f' e -> holds f a j -> 0 < d j -> holds f' a j.
Proof.
  intros Hq (_ & A & _) (_ & _ & K & _) Hh Hd. apply K; [done|]. rewrite A. pose proof (refs_ge f0 v0 lk0 j Hq). lia.
Qed.

Lemma holds_not_null f a j : holds f a j -> a <> NULL.
Proof. intros (y & Hy & _). apply zget_Some in Hy. unfold NULL. lia. Qed.

Lemma same_names_trans v v1 v2 G : same_names v v1 G -> same_names v1 v2 G -> same_names v v2 G.
Proof.
  intros A B i Hi. destruct (A i Hi) as [A1 A2], (B i Hi) as [B1 B2]. split; [congruence|]. intros Hd. rewrite B2, A2; [done|done|congruence].
Qed.

Lemma above_mono f0 f d d' : above f0 f d -> (forall j, d' j = d j) -> above f0 f d'.
Proof. intros (A & B & C & D) E. split; [done|]. split; [intros j; by rewrite B, E|]. split; [intros j; by rewrite E|done]. Qed.

Lemma lock_one (ip : Z) : ({[ip]} ∪ ∅ : gset Z) = {[ip]} /\ ({[ip]} ∖ {[ip]} : gset Z) = ∅ /\ ip ∈ ({[ip]} : gset Z).
Proof. split; [apply union_empty_r_L|]. split; [apply difference_diag_L|]. by apply elem_of_singleton. Qed.

Variable devsw_read : Z -> option (Z -> Z -> M (fs S) (list Z * Z)).
Variable devsw_write : Z -> option (Z -> list Z -> Z -> M (fs S) Z).

(** The end of a transaction that changed nothing it should not have. *)
Lemma commit_end f0 v0 G f v k d : calm at_rest f0 v0 ∅ G -> busy f v k ∅ G -> 0 <= k -> above f0 f d ->
  wp commit_tr (fun _ f' => exists v', calm at_rest f' v' ∅ G /\ above f0 f' d /\ same_names v v' G /\
    (forall i, G i -> disk_inode v' i = disk_inode v i) /\ forall s, home (flog f) v s -> content v' s = content v s) f.
Proof.
  intros H0 Hb Hk Ha. eapply wp_mono; [by apply (commit_b f v k G)|]. intros [] f' (v' & A & B & C & D & E). exists v'. split; [done|].
  split; [eapply above_step; [apply H0|exact Ha|exact B|intros j; unfold none; lia|apply Ha]|].
  destruct (tree_content (flog f) (flog f) v v' G (bs_wf _ _ _ _ _ Hb)) as (_ & F & I); [done|done|intros s Hs; by apply E|].
  split; [done|]. split; [done|]. intros s Hs. by apply E.
Qed.

(** Undoing the count of links. *)
Lemma link_bad_ok f0 v0 G f v k ip j : calm at_rest f0 v0 ∅ G -> above f0 f (one j) -> busy f v k ∅ G -> 0 < k -> holds f ip j ->
  0 < i_nlink (disk_inode v0 j) < 2 ^ 15 - 1 -> same_names v0 v G -> relinked v0 v G j (i_nlink (disk_inode v0 j) + 1) ->
  within (flog f0) v0 v (fun s => s = IBLOCK j) ->
  wp (link_bad ip) (fun r f' => r = -1 /\ exists v', calm at_rest f' v' ∅ G /\ above f0 f' none /\ untouched f0 v0 v' G) f.
Proof.
  intros H0 Ha Hb Hk Hh Hn Hsn Hrl Hwi. pose proof (bs_quiet _ _ _ _ _ H0) as Hq0. set (n := i_nlink (disk_inode v0 j)) in *.
  assert (G j) as Hg by (by eapply held_in). destruct (lock_one ip) as (U1 & U2 & U3).
  assert (i_nlink (disk_inode v j) = n + 1) as En by (rewrite (Hrl j Hg), decide_True by done; cbn [set_nlink i_nlink]; apply s16_small; lia).
  unfold link_bad. apply wp_bind. eapply wp_mono; [apply (ilock_b f v ∅ G ip j Hb); [set_solver|done]|]. rewrite U1. intros [] f1 (Hb1 & K1 & y & Hl1).
  assert (above f0 f1 (one j)) as Ha1 by (eapply above_step; [exact Hq0|exact Ha|exact K1|intros i; unfold none; lia|apply Ha]).
  destruct (loaded_meta _ _ _ _ _ Hl1) as (_ & _ & _ & Eny). rewrite En in Eny.
  apply wp_bind. eapply wp_mono; [apply (add_nlink_b f1 v k {[ip]} G ip j y (-1) Hb1 Hk Hl1); rewrite Eny, s16_small; lia|].
  intros [] f2 (v2 & Hb2 & K2 & Hl2 & Hsn2 & Hrl2 & Hwi2). rewrite Eny in Hrl2. replace (n + 1 + -1) with n in Hrl2 by lia.
  assert (above f0 f2 (one j)) as Ha2 by (eapply above_step; [exact Hq0|exact Ha1|exact K2|intros i; unfold none; lia|apply Ha]).
  apply wp_bind. eapply wp_mono; [apply (iunlockput_b f2 v2 {[ip]} G ip j Hb2 U3); by eapply loaded_holds|]. rewrite U2. intros [] f3 (Hb3 & K3).
  assert (above f0 f3 none) as Ha3 by (eapply above_step; [exact Hq0|exact Ha2|exact K3|intros i; unfold none; cbv beta; lia|done]).
  apply wp_bind. eapply wp_mono; [apply (commit_end f0 v0 G f3 v2 (k - 1) none H0 Hb3 ltac:(lia) Ha3)|].
  intros [] f4 (v4 & Hb4 & Ha4 & Hsn4 & Hin4 & Hc4). apply wp_ret. split; [done|]. exists v4. split; [done|]. split; [done|]. split; [|split].
  - eapply same_names_trans, Hsn4. by eapply same_names_trans.
  - intros i Hi. rewrite Hin4, (Hrl2 i Hi) by done. case_decide as Eij; [|rewrite (Hrl i Hi); by case_decide].
    subst i. rewrite (Hrl j Hg), decide_True by done. exact (set_nlink_id v0 j).
  - intros s Hs Hne. destruct Ha3 as (_ & _ & _ & _ & Har3), Ha1 as (_ & _ & _ & _ & Har1). destruct Hwi as [[S1 _] Hwi], Hwi2 as [[S2 _] Hwi2].
    assert (home (flog f1) v s) as Hs1 by (eapply home_area; [exact Har1|exact S1|done]).
    rewrite Hc4 by (eapply home_area; [exact Har3| |exact Hs]; congruence).
    rewrite (proj2 (Hwi2 s Hs1)) by (by apply Hne). apply Hwi; [done|by apply Hne].
Qed.

(** ** Binding the new name *)

(** What link leaves, where [plan] is what it was to do. *)
Definition link_result f0 v0 G (plan : option (Z * Z * list Z)) (r : Z) f' : Prop := exists v', calm at_rest f' v' ∅ G /\ above f0 f' none /\
  match plan with
  | Some (j, t, n) => r = 0 /\ linked f0 v0 v' G j t n
  | None => r = -1 /\ untouched f0 v0 v' G
  end.

(** The state in which the link count of inode [j], held by entry [ip], has
    already been raised. *)
Record counted f0 v0 G f v (ip j : Z) (d : Z -> Z) : Prop := {
  ct_above : above f0 f d;
  ct_holds : holds f ip j;
  ct_one : 0 < d j;
  ct_names : same_names v0 v G;
  ct_inodes : relinked v0 v G j (i_nlink (disk_inode v0 j) + 1);
  ct_within : within (flog f0) v0 v (fun s => s = IBLOCK j)
}.

Lemma counted_step f0 v0 G f f' v ip j d e d' : calm at_rest f0 v0 ∅ G -> counted f0 v0 G f v ip j d -> keeps f f' e ->
  (forall i, d' i = d i + e i) -> (forall i, 0 <= d' i) -> 0 < d' j -> counted f0 v0 G f' v ip j d'.
Proof.
  intros H0 [A B C D E F] Hk Hd Hp Hj. assert (above f0 f' d') as Ha by (by eapply above_step; [apply H0| | | |]).
  split; try done. by eapply holds_on; [apply H0|exact Ha|exact Hk|exact B|].
Qed.

(** A directory is as before the count was raised. *)
Lemma counted_dir f0 v0 G f v ip j d t : calm at_rest f0 v0 ∅ G -> counted f0 v0 G f v ip j d -> G j -> is_dir v0 j = false -> G t -> is_dir v0 t = true ->
  t <> j /\ is_dir v t = true /\ names v t = names v0 t /\ entries v (disk_inode v t) = entries v0 (disk_inode v0 t) /\ forall s, dir_sec v t s <-> dir_sec v0 t s.
Proof.
  intros H0 [A B C D E F] Hj Hdj Ht Hdt. assert (t <> j) as Hne by congruence. pose proof (bs_wf _ _ _ _ _ H0) as Hw.
  assert (kept v0 v t) as Hk.
  { apply (kept_same (flog f0) v0 v G); [done|done|by rewrite (E t Ht), decide_False|]. intros _ s Hs. apply F; [by eapply dir_sec_home|].
    intros ->. by apply (tw_apart _ _ _ Hw t j). }
  destruct (kept_dir (flog f0) (flog f0) v0 v G t Hw Ht ltac:(done) ltac:(apply F) Hk Hdt) as (K1 & K2 & K3 & K4). split; [done|].
  split; [by rewrite (proj1 (D t Ht))|]. done.
Qed.

(** The name is bound: what remains is to let go and to commit. *)
Lemma link_done_ok f0 v0 G f v f1 v1 k ip dp j t n : calm at_rest f0 v0 ∅ G -> counted f0 v0 G f v ip j (fun i => one j i + one t i) ->
  G j -> is_dir v0 j = false -> G t -> is_dir v0 t = true -> same_area (flog f0) (flog f) -> holds f dp t ->
  busy f1 v1 k {[dp]} G -> 0 <= k -> keeps f f1 none -> names v1 t = <[n := j]> (names v t) -> (forall i, G i -> disk_inode v1 i = disk_inode v i) ->
  (forall i, G i -> i <> t -> is_dir v i = true -> names v1 i = names v i) -> within (flog f) v v1 (dir_sec v t) ->
  wp (iunlockput dp ;;; iput ip ;;; commit_tr ;;; ret 0) (link_result f0 v0 G (Some (j, t, n))) f1.
Proof.
  intros H0 Hc Hj Hdj Ht Hdt Har Hdp Hb Hk K Hn1 Hi1 Ho1 Hw1. pose proof (bs_quiet _ _ _ _ _ H0) as Hq0. destruct (lock_one dp) as (U1 & U2 & U3).
  destruct (counted_dir f0 v0 G f v ip j _ t H0 Hc Hj Hdj Ht Hdt) as (Hne & Hdv & Env & _ & Hsec).
  assert (counted f0 v0 G f1 v ip j (fun i => one j i + one t i)) as Hc1.
  { eapply counted_step; [done|exact Hc|exact K|intros i; unfold none; cbv beta; lia|apply Hc|apply Hc]. }
  assert (holds f1 dp t) as Hdp1.
  { eapply holds_on; [exact Hq0|apply Hc1|exact K|exact Hdp|]. cbv beta. unfold one. repeat case_decide; lia. }
  apply wp_bind. eapply wp_mono; [by apply (iunlockput_b (L := in_tx k) f1 v1 {[dp]} G dp t)|]. rewrite U2. intros [] f2 (Hb2 & K2).
  assert (counted f0 v0 G f2 v ip j (one j)) as Hc2.
  { eapply counted_step; [done|exact Hc1|exact K2|intros i; cbv beta; lia|intros i; unfold one; case_decide; lia|]. unfold one. rewrite decide_True by done. lia. }
  apply wp_bind. eapply wp_mono; [apply (iput_b (L := in_tx k) f2 v1 ∅ G ip j Hb2); [apply (ct_holds _ _ _ _ _ _ _ _ Hc2)|intros Hin; exfalso; revert Hin; apply not_elem_of_empty]|]. intros [] f3 (Hb3 & K3).
  assert (above f0 f3 none) as Ha3 by (eapply above_step; [exact Hq0|apply Hc2|exact K3|intros i; unfold none; cbv beta; lia|done]).
  apply wp_bind. eapply wp_mono; [apply (commit_end f0 v0 G f3 v1 k none H0 Hb3 Hk Ha3)|].
  intros [] f4 (v4 & Hb4 & Ha4 & Hsn4 & Hin4 & Hc4). apply wp_ret. exists v4. split; [done|]. split; [done|]. split; [done|].
  assert (forall i, G i -> is_dir v1 i = is_dir v i) as Hd1 by (intros i Hi; unfold is_dir; by rewrite Hi1).
  assert (forall i, G i -> is_dir v1 i = true -> names v4 i = names v1 i) as Hn4 by (intros i Hi; by apply (same_names_at v1 v4 G)). split.
  - rewrite Hn4 by (done || by rewrite Hd1). by rewrite Hn1, Env.
  - intros i Hi Hnt Hdi. assert (is_dir v i = true) as Hdvi by by rewrite (proj1 (ct_names _ _ _ _ _ _ _ _ Hc i Hi)).
    rewrite Hn4 by (done || by rewrite Hd1). rewrite Ho1 by done. by apply (same_names_at v0 v G i (ct_names _ _ _ _ _ _ _ _ Hc)).
  - intros i Hi. rewrite Hin4, Hi1 by done. by apply (ct_inodes _ _ _ _ _ _ _ _ Hc).
  - intros s Hs Hnj Hnd. destruct (ct_within _ _ _ _ _ _ _ _ Hc) as [[S0 _] W0], Hw1 as [[S1 _] W1]. destruct Ha3 as (_ & _ & _ & _ & Ha3).
    rewrite Hc4 by (eapply home_area; [exact Ha3| |exact Hs]; congruence).
    assert (home (flog f) v s) as Hs1 by (eapply home_area; [exact Har|exact S0|done]).
    rewrite (proj2 (W1 s Hs1)) by (by rewrite Hsec). by apply W0.
Qed.

(** A failed step: undo the count. *)
Lemma link_undo_ok f0 v0 G f v k ip j : calm at_rest f0 v0 ∅ G -> counted f0 v0 G f v ip j (one j) -> busy f v k ∅ G -> 0 < k ->
  0 < i_nlink (disk_inode v0 j) < 2 ^ 15 - 1 -> wp (link_bad ip) (link_result f0 v0 G None) f.
Proof.
  intros H0 [A B C D E F] Hb Hk Hn. eapply wp_mono; [by apply (link_bad_ok f0 v0 G f v k ip j)|].
  intros r f' (Hr & v' & B1 & B2 & B3). by exists v'.
Qed.

(** What follows once the old path is resolved to [j] and its count raised. *)
Definition bind_plan v (i j : Z) (new : list Z) : option (Z * Z * list Z) :=
  t ← resolve_parent v (origin i new) (path_elems new);
  n ← key <$> last (path_elems new);
  if names v t !! n then None else Some (j, t, n).

(** The directory is found and locked: dirlink. *)
Lemma link_bind_ok f0 v0 G f v k ip dp j t name : calm at_rest f0 v0 ∅ G -> counted f0 v0 G f v ip j (fun a => one j a + one t a) ->
  busy f v k ∅ G -> 0 < k -> spare f 1 -> G j -> is_dir v0 j = false -> 0 < i_nlink (disk_inode v0 j) < 2 ^ 15 - 1 ->
  G t -> is_dir v0 t = true -> (exists a m, entries v0 (disk_inode v0 t) !! a = Some (0, m)) -> holds f dp t -> Forall is_byte name ->
  wp (ilock dp ;;;
      d <- get_inode dp ;;
      x <- get_inode ip ;;
      ok <- (if negb (i_dev d =? i_dev x) then ret false
             else n <- dirlink devsw_read devsw_write dp name (i_inum x) ;; ret (0 <=? n)) ;;
      if negb ok then iunlockput dp ;;; link_bad ip else
      iunlockput dp ;;; iput ip ;;; commit_tr ;;; ret 0)
    (link_result f0 v0 G (if names v0 t !! key name then None else Some (j, t, key name))) f.
Proof.
  intros H0 Hc Hb Hk Hsp Hj Hdj Hn Ht Hdt Hslot Hdp Hnb. destruct (lock_one dp) as (U1 & U2 & U3).
  assert (forall a, 0 <= one j a + one t a) as Hpos by (intros a; unfold one; repeat case_decide; lia).
  assert (0 < one j j + one t j) as Hjj by (unfold one; repeat case_decide; lia).
  apply wp_bind. eapply wp_mono; [apply (ilock_b (L := in_tx k) f v ∅ G dp t Hb); [apply not_elem_of_empty|done]|]. rewrite U1. intros [] f1 (Hb1 & K1 & yd & Hl1).
  assert (counted f0 v0 G f1 v ip j (fun a => one j a + one t a)) as Hc1 by (by eapply counted_step; [done|exact Hc|exact K1|intros a; unfold none; cbv beta; lia| |]).
  pose proof (spare_same _ _ _ Hsp K1) as Hsp1. destruct (loaded_meta _ _ _ _ _ Hl1) as (Ed & _).
  destruct (ct_holds _ _ _ _ _ _ _ _ Hc1) as (x & Hx & _ & Exd & Exi). destruct (counted_dir f0 v0 G f1 v ip j _ t H0 Hc1 Hj Hdj Ht Hdt) as (_ & Hdv & Env & Een & _).
  apply wp_bind. apply (loaded_get f1 v dp t yd); [done|]. apply wp_bind. eapply ok_wp; [unfold get_inode, bind, get; by rewrite Hx|].
  rewrite Ed, Exd, Exi. cbn [Z.eqb ROOTDEV negb]. rewrite Pos.eqb_refl. cbn [negb]. rewrite <-Env. destruct (names v t !! key name) as [i|] eqn:En.
  - apply wp_bind, wp_bind. eapply wp_mono; [by apply (dirlink_bound_b devsw_read devsw_write f1 v k {[dp]} G dp t yd name j i)|].
    intros r f2 (-> & Hb2 & K2). apply wp_ret. cbn [Z.leb Z.compare negb].
    assert (counted f0 v0 G f2 v ip j (fun a => one j a + one t a)) as Hc2 by (by eapply counted_step; [done|exact Hc1|exact K2|intros a; unfold none; cbv beta; lia| |]).
    assert (holds f2 dp t) as Hdp2.
    { eapply holds_on; [apply H0|apply (ct_above _ _ _ _ _ _ _ _ Hc2)|exact K2|by eapply loaded_holds|]. cbv beta. unfold one. repeat case_decide; lia. }
    apply wp_bind. eapply wp_mono; [by apply (iunlockput_b (L := in_tx k) f2 v {[dp]} G dp t)|]. rewrite U2. intros [] f3 (Hb3 & K3).
    apply (link_undo_ok f0 v0 G f3 v k ip j H0); [|done..]. eapply counted_step; [done|exact Hc2|exact K3|intros a; cbv beta; lia|intros a; unfold one; case_decide; lia|].
    unfold one. rewrite decide_True by done. lia.
  - apply wp_bind, wp_bind. eapply wp_mono; [apply (dirlink_new_b devsw_read devsw_write f1 v k {[dp]} G dp t yd name j); try done; by rewrite Een|].
    intros r f2 (-> & v2 & k2 & Hb2 & Hk2 & K2 & _ & N2 & I2 & O2 & W2). apply wp_ret. cbn [Z.leb Z.compare negb].
    assert (same_area (flog f0) (flog f1)) as Har by (destruct (ct_above _ _ _ _ _ _ _ _ Hc1) as (_ & _ & _ & _ & Har); done).
    by apply (link_done_ok f0 v0 G f1 v f2 v2 k2 ip dp j t (key name)); [| | | | | | |by eapply loaded_holds|..].
Qed.

(** The new path. *)
Lemma link_new_ok f0 v0 G f v k ip j cwd i new : calm at_rest f0 v0 ∅ G -> counted f0 v0 G f v ip j (one j) ->
  busy f v k ∅ G -> 0 < k -> spare f 2 -> G j -> is_dir v0 j = false -> 0 < i_nlink (disk_inode v0 j) < 2 ^ 15 - 1 ->
  G ROOTINO -> G i -> holds f cwd i -> Forall is_byte new ->
  (forall t, resolve_parent v0 (origin i new) (path_elems new) = Some t -> exists a m, entries v0 (disk_inode v0 t) !! a = Some (0, m)) ->
  wp (r <- nameiparent devsw_read cwd new name_buf ;;
      let dp := r.1 in
      if dp =? NULL then link_bad ip else
      ilock dp ;;;
      d <- get_inode dp ;;
      x <- get_inode ip ;;
      ok <- (if negb (i_dev d =? i_dev x) then ret false
             else n <- dirlink devsw_read devsw_write dp r.2 (i_inum x) ;; ret (0 <=? n)) ;;
      if negb ok then iunlockput dp ;;; link_bad ip else
      iunlockput dp ;;; iput ip ;;; commit_tr ;;; ret 0)
    (link_result f0 v0 G (bind_plan v0 i j new)) f.
Proof.
  intros H0 Hc Hb Hk Hsp Hj Hdj Hn Hroot Hi Hcwd Hnew Hslot. assert (G (origin i new)) as Hor by (unfold origin; by case_match).
  apply wp_bind. eapply wp_mono; [apply (namex_b (L := in_tx k) devsw_read f v G true cwd i new name_buf); try done; by repeat constructor|].
  fold (origin i new). cbn [meaning].
  rewrite (resolve_parent_same (flog f0) v0 v G _ (bs_wf _ _ _ _ _ H0) (ct_names _ _ _ _ _ _ _ _ Hc) _ Hor). unfold bind_plan.
  intros r f1 [Hb1 Hr]. destruct (resolve_parent v0 (origin i new) (path_elems new)) as [t|] eqn:Et; cbn [mbind option_bind].
  - destruct Hr as (Hh & K1 & Hname). destruct (Hname eq_refl) as (Hbn & e & El & Ekey). rewrite El. cbn [fmap option_fmap option_map option_bind].
    destruct (resolve_parent_in _ _ _ _ (bs_wf _ _ _ _ _ H0) _ _ Hor Et) as [Ht Hdt].
    rewrite (proj2 (Z.eqb_neq _ _) (holds_not_null _ _ _ Hh)), <-Ekey. eapply (link_bind_ok f0 v0 G f1 v k ip r.1 j t r.2); try done; [| |by apply Hslot].
    + eapply counted_step; [done|exact Hc|exact K1|done|intros a; unfold one; repeat case_decide; lia|]. unfold one. repeat case_decide; lia.
    + by eapply (spare_one f f1 2).
  - destruct Hr as (-> & K1). cbn [Z.eqb NULL Pos.eqb]. apply (link_undo_ok f0 v0 G f1 v k ip j H0); [|done..].
    eapply counted_step; [done|exact Hc|exact K1|intros a; unfold none; lia|apply Hc|apply Hc].
Qed.

(** ** The whole call *)

Lemma link_plan_bind v i j old new : resolve v (origin i old) (path_elems old) = Some j ->
  link_plan v i old new = if is_dir v j then None else bind_plan v i j new.
Proof. unfold link_plan. by intros ->. Qed.

(** Inside the transaction. *)
Lemma link_tx_ok f0 v0 G f ip j cwd i new : calm at_rest f0 v0 ∅ G -> above f0 f (one j) -> calm at_rest f v0 ∅ G -> spare f 2 -> holds f ip j ->
  4 <= lg_size (flog f) -> (is_dir v0 j = false -> 0 < i_nlink (disk_inode v0 j) < 2 ^ 15 - 1) ->
  G ROOTINO -> G i -> holds f0 cwd i -> Forall is_byte new ->
  (forall t, resolve_parent v0 (origin i new) (path_elems new) = Some t -> exists a m, entries v0 (disk_inode v0 t) !! a = Some (0, m)) ->
  wp (begin_tr ;;;
      ilock ip ;;;
      x <- get_inode ip ;;
      if i_type x =? T_DIR then iunlockput ip ;;; commit_tr ;;; ret (-1) else
      add_nlink ip 1 ;;;
      iunlock ip ;;;
      r <- nameiparent devsw_read cwd new name_buf ;;
      let dp := r.1 in
      if dp =? NULL then link_bad ip else
      ilock dp ;;;
      d <- get_inode dp ;;
      x <- get_inode ip ;;
      ok <- (if negb (i_dev d =? i_dev x) then ret false
             else n <- dirlink devsw_read devsw_write dp r.2 (i_inum x) ;; ret (0 <=? n)) ;;
      if negb ok then iunlockput dp ;;; link_bad ip else
      iunlockput dp ;;; iput ip ;;; commit_tr ;;; ret 0)
    (link_result f0 v0 G (if is_dir v0 j then None else bind_plan v0 i j new)) f.
Proof.
  intros H0 Ha Hr Hsp Hh Hlg Hn Hroot Hi Hcwd Hnew Hslot. pose proof (bs_quiet _ _ _ _ _ H0) as Hq0. assert (G j) as Hj by (by eapply held_in).
  destruct (lock_one ip) as (U1 & U2 & U3). assert (0 < one j j) as Hjj by (unfold one; rewrite decide_True by done; lia).
  apply wp_bind. eapply wp_mono; [apply (begin_b f v0 3 G Hr); [done|lia]|]. intros [] f1 (Hb1 & K1).
  assert (above f0 f1 (one j)) as Ha1 by (eapply above_step; [exact Hq0|exact Ha|exact K1|intros a; unfold none; lia|apply Ha]).
  apply wp_bind. eapply wp_mono; [apply (ilock_b (L := in_tx 3) f1 v0 ∅ G ip j Hb1); [apply not_elem_of_empty|by eapply (holds_on f0 v0 ∅ f f1)]|].
  rewrite U1. intros [] f2 (Hb2 & K2 & y & Hl2).
  assert (above f0 f2 (one j)) as Ha2 by (eapply above_step; [exact Hq0|exact Ha1|exact K2|intros a; unfold none; lia|apply Ha1]).
  destruct (loaded_meta _ _ _ _ _ Hl2) as (_ & _ & Ety & Enl). apply wp_bind, (loaded_get f2 v0 ip j y); [done|]. rewrite Ety. fold (is_dir v0 j).
  destruct (is_dir v0 j) eqn:Edj.
  - apply wp_bind. eapply wp_mono; [apply (iunlockput_b (L := in_tx 3) f2 v0 {[ip]} G ip j Hb2 U3); by eapply loaded_holds|]. rewrite U2. intros [] f3 (Hb3 & K3).
    assert (above f0 f3 none) as Ha3 by (eapply above_step; [exact Hq0|exact Ha2|exact K3|intros a; unfold none; cbv beta; lia|done]).
    apply wp_bind. eapply wp_mono; [apply (commit_end f0 v0 G f3 v0 3 none H0 Hb3 ltac:(lia) Ha3)|].
    intros [] f4 (v4 & Hb4 & Ha4 & Hsn4 & Hin4 & Hc4). apply wp_ret. exists v4. split; [done|]. split; [done|]. split; [done|]. split; [done|].
    split; [done|]. intros s Hs _. apply Hc4. destruct Ha3 as (_ & _ & _ & _ & Ha3). by eapply home_area.
  - specialize (Hn eq_refl). rewrite <-Enl in Hn.
    apply wp_bind. eapply wp_mono; [apply (add_nlink_b f2 v0 3 {[ip]} G ip j y 1 Hb2 ltac:(lia) Hl2); rewrite s16_small by lia; lia|].
    intros [] f3 (v3 & Hb3 & K3 & Hl3 & Hsn3 & Hrl3 & Hw3). rewrite Enl in Hrl3, Hn.
    assert (above f0 f3 (one j)) as Ha3 by (eapply above_step; [exact Hq0|exact Ha2|exact K3|intros a; unfold none; lia|apply Ha2]).
    assert (counted f0 v0 G f3 v3 ip j (one j)) as Hc3.
    { split; [done|by eapply loaded_holds|done|done|done|]. destruct Hw3 as [W1 W2], Ha2 as (_ & _ & _ & _ & Har). split; [done|].
      intros s Hs. apply W2. by eapply home_area. }
    apply wp_bind. eapply wp_mono; [apply (iunlock_b (L := in_tx 2) f3 v3 {[ip]} G ip j Hb3 U3); by eapply loaded_holds|]. rewrite U2. intros [] f4 (Hb4 & K4).
    assert (counted f0 v0 G f4 v3 ip j (one j)) as Hc4 by (by eapply counted_step; [done|exact Hc3|exact K4|intros a; unfold none; lia|apply Ha3|]).
    apply (link_new_ok f0 v0 G f4 v3 2 ip j cwd i new H0 Hc4 Hb4); try done.
    + eapply spare_same; [|exact K4]. eapply spare_same; [|exact K3]. eapply spare_same; [|exact K2]. by eapply spare_same.
    + destruct (ct_above _ _ _ _ _ _ _ _ Hc4) as (_ & _ & _ & Hkeep & _). by apply Hkeep.
Qed.

End Link.

(** C10: link is one step of the tree.  From a file system at rest, the call
    returns to one at rest, whatever the paths: if the old path leads to an
    inode that is no directory, and the new one to a directory in which its
    last element is free, then afterwards that name stands for the inode, the
    inode counts one link more, in the cache and on the disk, and every other
    name, inode and sector is as before; otherwise the result is -1 and the tree
    is as before, also where the count had been raised already.  No reference is
    lost or left over.  The directory must have a free entry, and the count room
    below its 16-bit limit. *)
Theorem link_spec {S : Type} `{BufCache S} devsw_read devsw_write (f : fs S) v G cwd i old new :
  calm at_rest f v ∅ G -> 4 <= lg_size (flog f) -> spare f 3 -> G ROOTINO -> holds f cwd i -> Forall is_byte old -> Forall is_byte new ->
  (forall j, resolve v (origin i old) (path_elems old) = Some j -> is_dir v j = false -> 0 < i_nlink (disk_inode v j) < 2 ^ 15 - 1) ->
  (forall t, resolve_parent v (origin i new) (path_elems new) = Some t -> exists a m, entries v (disk_inode v t) !! a = Some (0, m)) ->
  wp (do_link devsw_read devsw_write cwd old new) (fun r f' => exists v', calm at_rest f' v' ∅ G /\ above f f' none /\
    (forall s, home (flog f') v' s -> disk v' s = content v' s) /\
    match link_plan v i old new with
    | Some (j, t, n) => r = 0 /\ linked f v v' G j t n
    | None => r = -1 /\ untouched f v v' G
    end) f.
Proof.
  intros H0 Hlg Hsp Hroot Hcwd Hold Hnew Hn Hslot. assert (G i) as Hi by (by eapply held_in).
  assert (G (origin i old)) as Hor by (unfold origin; by case_match).
  apply (wp_mono _ (link_result f v G (link_plan v i old new))).
  2: { intros r f' (v' & A & B & C). exists v'. split; [done|]. split; [done|]. split; [|done]. intros s. by apply at_rest_disk with (G := G). }
  unfold do_link. apply wp_bind. unfold namei. apply wp_bind.
  eapply wp_mono; [apply (namex_b (L := at_rest) devsw_read f v G false cwd i old name_buf H0 Hroot Hcwd); try done; [|by repeat constructor]|].
  { destruct Hsp as (U & A & B). exists U. split; [done|lia]. }
  fold (origin i old). cbn [meaning]. intros r f1 [Hr1 Hm]. apply wp_ret.
  destruct (resolve v (origin i old) (path_elems old)) as [j|] eqn:Ej.
  - destruct Hm as (Hh & K1 & _). rewrite (proj2 (Z.eqb_neq _ _) (holds_not_null _ _ _ Hh)), (link_plan_bind v i j old new Ej).
    assert (above f f1 (one j)) as Ha1 by (eapply above_step; [apply H0|apply above_refl|exact K1|done|intros a; unfold one; case_decide; lia]).
    apply (link_tx_ok devsw_read devsw_write f v G f1 r.1 j cwd i new H0 Ha1 Hr1); try done.
    + by apply (spare_one f f1 3 j).
    + destruct K1 as (_ & _ & _ & _ & K1). lia.
    + by apply Hn.
  - destruct Hm as (-> & K1). cbn [Z.eqb NULL Pos.eqb]. apply wp_ret. exists v. split; [done|].
    split; [eapply above_step; [apply H0|apply above_refl|exact K1|done|done]|]. unfold link_plan. rewrite Ej. split; [done|apply untouched_refl].
Qed.

(** ** A link in the small tree *)

Definition rest_log : log bcache := Log false 6 4 false ROOTDEV 0 (replicate 10 0) 0 (boot_cache tree_img).

Definition rest_fs : fs bcache := Fs false (inodes tree_fs) [] rest_log.

Lemma tree_dir_sec i s : i = 1 \/ i = 2 -> dir_sec tree_view i s -> s = i + 2.
Proof.
  assert (forall i b, i_size (disk_inode tree_view i) <= 512 -> blk tree_view (disk_inode tree_view i) 0 = b -> dir_sec tree_view i s -> s = b) as Hd.
  { intros k b Hs Hb [[Hi _]|(n & H0 & Hn & ->)]; [unfold NDIRECT in Hi; lia|]. by assert (n = 0) as -> by lia. }
  intros [->| ->]; apply Hd; by vm_compute.
Qed.

Lemma tree_dirs i : tree_set i -> is_dir tree_view i = true -> i = 1 \/ i = 2.
Proof. intros [->|[->| ->]] Hd; [by left|by right|]. by vm_compute in Hd. Qed.

Lemma root_unique : unique_names (entries tree_view (disk_inode tree_view 1)).
Proof.
  assert (entries tree_view (disk_inode tree_view 1) = [(1, [46]); (1, [46; 46]); (2, [100])]) as -> by (by vm_compute).
  intros j k i i' n Hj Hk Hi Hi'. do 3 (destruct j as [|j]; [do 3 (destruct k as [|k]; [cbn in Hj, Hk; congruence|]); done|]). done.
Qed.

Lemma tree_tree_wf : tree_wf rest_log tree_view tree_set.
Proof.
  apply (tree_area tree_log); [|done]. split.
  - exact tree_tree_ok.
  - intros i [->|[->| ->]]; lia.
  - intros i [->|[->| ->]]; apply bytes_check; by vm_compute.
  - intros i Hi Hd. destruct (tree_dirs i Hi Hd) as [->| ->]; [exact root_unique|].
    assert (entries tree_view (disk_inode tree_view 2) = entries tree_view d_inode) as -> by (by vm_compute). exact d_unique.
  - intros i j Hi Hd Hj Hs. pose proof (tree_dirs i Hi Hd) as Hi'. apply tree_dir_sec in Hs; [|done].
    destruct Hj as [->|[->| ->]]; vm_compute in Hs; destruct Hi' as [->| ->]; done.
  - intros i j s Hi Hj Hdi Hdj Hsi Hsj. pose proof (tree_dirs i Hi Hdi) as Hi'. pose proof (tree_dirs j Hj Hdj) as Hj'.
    apply tree_dir_sec in Hsi, Hsj; [|done..]. lia.
Qed.

Lemma rest_calm : calm at_rest rest_fs tree_view ∅ tree_set.
Proof.
  destruct d_tx as [_ [[G1 G2 G3 G4 G5 G6] T2 T3 T4 T5] _ _ _ _]. split.
  - destruct tree_quiet as [A B _ D E F]. split; [exact A|exact B|apply boot_cache_ok|exact D|exact E|exact F].
  - split; [apply boot_cache_ok|]. split; [|split; reflexivity].
    exact (Build_trans rest_log tree_view (Build_log_geom rest_log tree_view G1 G2 G3 G4 G5 G6) T2 T3 T4 T5).
  - exact tree_tree_wf.
  - intros j Hj. apply tree_refs in Hj. apply elem_of_singleton in Hj. by right; left.
  - reflexivity.
  - reflexivity.
Qed.

(** The file /d/f gets the name g in the working directory; a directory and a
    name that is taken are refused. *)
Lemma link_spec_witness :
  wp (do_link (fun _ => None) (fun _ => None) 1 [47; 100; 47; 102] [103]) (fun r f' => r = 0 /\ exists v', names v' 2 !! [103] = Some 3 /\
    i_nlink (disk_inode v' 3) = 2) rest_fs /\
  wp (do_link (fun _ => None) (fun _ => None) 1 [46] [103]) (fun r f' => r = -1) rest_fs /\
  wp (do_link (fun _ => None) (fun _ => None) 1 [102] [102]) (fun r f' => r = -1) rest_fs.
Proof.
  assert (spare rest_fs 3) as Hsp by (exists {[2]}; split; [exact tree_refs|by rewrite size_singleton]).
  assert (holds rest_fs 1 2) as Hh by (eexists; split; [reflexivity|by vm_compute]).
  assert (forall old new j t, forallb (fun b => (0 <=? b) && (b <? 256)) (old ++ new) = true ->
    resolve tree_view (origin 2 old) (path_elems old) = Some j -> (is_dir tree_view j = false -> i_nlink (disk_inode tree_view j) = 1) ->
    resolve_parent tree_view (origin 2 new) (path_elems new) = Some t -> entries tree_view (disk_inode tree_view t) !! 2%nat = Some (0, []) ->
    wp (do_link (fun _ => None) (fun _ => None) 1 old new) (fun r f' => exists v', calm at_rest f' v' ∅ tree_set /\ above rest_fs f' none /\
      (forall s, home (flog f') v' s -> disk v' s = content v' s) /\
      match link_plan tree_view 2 old new with
      | Some (j, t, n) => r = 0 /\ linked rest_fs tree_view v' tree_set j t n
      | None => r = -1 /\ untouched rest_fs tree_view v' tree_set
      end) rest_fs) as T.
  { intros old new j t Hb Hj Hn Ht Hs. apply bytes_check, Forall_app in Hb as [Hb1 Hb2].
    apply (link_spec (fun _ => None) (fun _ => None) rest_fs tree_view tree_set 1 2 old new rest_calm); try done; [by left| |].
    - intros j' Hj' Hd. rewrite Hj in Hj'. injection Hj' as <-. rewrite Hn by done. lia.
    - intros t' Ht'. rewrite Ht in Ht'. injection Ht' as <-. by exists 2%nat, []. }
  split; [|split].
  - eapply wp_mono; [apply (T _ _ 3 2); by vm_compute|]. intros r f' (v' & _ & _ & _ & W).
    assert (link_plan tree_view 2 [47; 100; 47; 102] [103] = Some (3, 2, [103])) as E by (by vm_compute). rewrite E in W.
    destruct W as (-> & [W1 _ W3 _]). split; [done|]. exists v'. rewrite W1, lookup_insert_eq. split; [done|]. rewrite (W3 3) by (by right; right). by vm_compute.
  - eapply wp_mono; [apply (T _ _ 2 2); by vm_compute|]. intros r f' (v' & _ & _ & _ & W).
    assert (link_plan tree_view 2 [46] [103] = None) as E by (by vm_compute). rewrite E in W. by destruct W.
  - eapply wp_mono; [apply (T _ _ 3 2); by vm_compute|]. intros r f' (v' & _ & _ & _ & W).
    assert (link_plan tree_view 2 [102] [102] = None) as E by (by vm_compute). rewrite E in W. by destruct W.
Defined.
