(* ===== verification/Mkfs.v ===== *)
(** * mkfs: building the disk image

    mkfs.c runs on the host.  Its state is the image file, sector by sector, and
    its counters.  The files named on the command line are given as a name and
    the chunks that read returns, or as one that cannot be opened.  Where the
    program ends with exit(1) or a failing assert, the model panics. *)

From S2P Require Import Prelude CString BlockCache Bio Log Fs.

(** The image file has [nsec] sectors; the counters follow the source. *)
Record mkfs := Mkfs {
  nsec : Z;
  sect : Z -> list Z;
  freeblock : Z;
  usedblocks : Z;
  freeinode : Z
}.

Definition nblocks : Z := 985.
Definition nlog : Z := LOGSIZE.
Definition ninodes : Z := 200.
Definition size : Z := 1024.
Definition bitblocks : Z := size / 4096 + 1.

Definition zeroes : list Z := replicate 512 0.

(** ** Sectors *)

(** Writing past the end makes the file longer. *)
Definition wsect (sec : Z) (buf : list Z) : M mkfs unit :=
  modify (fun s => Mkfs (Z.max (nsec s) (sec + 1)) (zupd (sect s) sec buf) (freeblock s) (usedblocks s) (freeinode s)).

Definition rsect (sec : Z) : M mkfs (list Z) :=
  s <- get ;;
  if sec <? nsec s then ret (sect s sec) else panic "read".

Definition i2b (inum : Z) : Z := inum / IPB + 2.

(** A struct dinode is its 64 bytes. *)
Definition winode (inum : Z) (din : list Z) : M mkfs unit :=
  buf <- rsect (i2b inum) ;;
  wsect (i2b inum) (splice buf (64 * (inum mod IPB)) din).

Definition rinode (inum : Z) : M mkfs (list Z) :=
  buf <- rsect (i2b inum) ;;
  ret (bytes_at buf (64 * (inum mod IPB)) 64).

Definition d_size (din : list Z) : Z := ld32 din 8.
Definition d_addr (din : list Z) (k : Z) : Z := ld32 din (12 + 4 * k).

Definition mk_ialloc (type : Z) : M mkfs Z :=
  s <- get ;;
  let inum := freeinode s in
  put (Mkfs (nsec s) (sect s) (freeblock s) (usedblocks s) (u32 (inum + 1))) ;;;
  winode inum (st32 (st16 (st16 (replicate 64 0) 0 type) 6 1) 8 0) ;;;
  ret inum.

(** The bitmap: the first [used] blocks are in use. *)
Definition mk_balloc (used : Z) : M mkfs unit :=
  if negb (used <? 512 * 8) then panic "assert" else
  wsect (ninodes / IPB + 3)
    (foldl (fun buf i => st8 buf (i / 8) (Z.lor (ld8 buf (i / 8)) (Z.shiftl 1 (i mod 8)))) zeroes (seqZ 0 used)).

(** ** Appending to a file *)

(** freeblock++, usedblocks++ *)
Definition new_block : M mkfs Z :=
  s <- get ;;
  put (Mkfs (nsec s) (sect s) (u32 (freeblock s + 1)) (u32 (usedblocks s + 1)) (freeinode s)) ;;;
  ret (freeblock s).

(** The part of iappend that finds the block, or allocates it. *)
Definition iappend_block (din : list Z) (fbn : Z) : M mkfs (list Z * Z) :=
  if fbn <? NDIRECT then
    din <- (if d_addr din fbn =? 0 then b <- new_block ;; ret (st32 din (12 + 4 * fbn) b) else ret din) ;;
    ret (din, d_addr din fbn)
  else
    din <- (if d_addr din NDIRECT =? 0 then b <- new_block ;; ret (st32 din (12 + 4 * NDIRECT) b) else ret din) ;;
    indirect <- rsect (d_addr din NDIRECT) ;;
    indirect <- (if ld32 indirect (4 * (fbn - NDIRECT)) =? 0 then
                   b <- new_block ;;
                   let indirect := st32 indirect (4 * (fbn - NDIRECT)) b in
                   wsect (d_addr din NDIRECT) indirect ;;;
                   ret indirect
                 else ret indirect) ;;
    ret (din, ld32 indirect (4 * (fbn - NDIRECT))).

Fixpoint iappend_loop (fuel : nat) (din p : list Z) (off : Z) : M mkfs (list Z * Z) :=
  match fuel with
  | O => no_fuel
  | Datatypes.S f =>
      if 0 <? zlen p then
        let fbn := off / 512 in
        if negb (fbn <? MAXFILE) then panic "assert" else
        r <- iappend_block din fbn ;;
        let n1 := Z.min (zlen p) ((fbn + 1) * 512 - off) in
        buf <- rsect r.2 ;;
        wsect r.2 (splice buf (off - fbn * 512) (take (Z.to_nat n1) p)) ;;;
        iappend_loop f r.1 (drop (Z.to_nat n1) p) (u32 (off + n1))
      else ret (din, off)
  end.

Definition iappend (inum : Z) (p : list Z) : M mkfs unit :=
  din <- rinode inum ;;
  r <- iappend_loop (io_fuel (zlen p)) din p (d_size din) ;;
  winode inum (st32 r.1 8 r.2).

(** ** main *)

(** strncpy(de.name, name, DIRSIZ) in a zeroed struct dirent. *)
Definition de_bytes (inum : Z) (name : list Z) : list Z := mkdirent name inum.

(** A file of the command line: its name, and what reading it returns. *)
Definition host_file : Type := list Z * option (list (list Z)).

(** Skip leading _ in name when writing to file system. *)
Definition skip_underscore (name : list Z) : list Z :=
  match name with
  | c :: rest => if c =? 95 then rest else name
  | [] => []
  end.

Fixpoint iappend_all (inum : Z) (chunks : list (list Z)) : M mkfs unit :=
  match chunks with
  | [] => ret tt
  | c :: cs => iappend inum c ;;; iappend_all inum cs
  end.

Fixpoint mkfs_files (rootino : Z) (argv : list host_file) : M mkfs unit :=
  match argv with
  | [] => ret tt
  | (name, fd) :: rest =>
      if bool_decide (SLASH ∈ name) then panic "assert" else
      match fd with
      | None => panic "open"
      | Some chunks =>
          inum <- mk_ialloc T_FILE ;;
          iappend rootino (de_bytes inum (skip_underscore name)) ;;;
          iappend_all inum chunks ;;;
          mkfs_files rootino rest
      end
  end.

(** The superblock, little-endian. *)
Definition sb_bytes : list Z := st32 (st32 (st32 (st32 (replicate 16 0) 0 size) 4 nblocks) 8 ninodes) 12 nlog.

(** fix size of root inode dir *)
Definition fix_root (rootino : Z) : M mkfs unit :=
  din <- rinode rootino ;;
  winode rootino (st32 din 8 (u32 ((d_size din / BSIZE + 1) * BSIZE))).

Definition mkfs_main (argv : list host_file) : M mkfs unit :=
  let used := ninodes / IPB + 3 + bitblocks in
  modify (fun s => Mkfs (nsec s) (sect s) used used (freeinode s)) ;;;
  if negb (nblocks + used + nlog =? size) then panic "assert" else
  for_ 0 (Z.to_nat (nblocks + used + nlog)) (fun i => wsect i zeroes) ;;;
  wsect 1 (splice zeroes 0 sb_bytes) ;;;
  rootino <- mk_ialloc T_DIR ;;
  if negb (rootino =? ROOTINO) then panic "assert" else
  iappend rootino (de_bytes rootino [46]) ;;;
  iappend rootino (de_bytes rootino [46; 46]) ;;;
  mkfs_files rootino argv ;;;
  fix_root rootino ;;;
  s <- get ;;
  mk_balloc (usedblocks s).

(** The program as it starts: an empty file, freeinode = 1. *)
Definition mkfs_start : mkfs := Mkfs 0 (fun _ => zeroes) 0 0 1.
