(* ===== verification/MkfsSpec.v ===== *)
(** * How mkfs lays out files

    iappend keeps, for each inode under construction, the bytes appended so far
    in blocks of its own; main keeps this for every file of the command line and
    for the root directory that names them. *)

From S2P Require Import Prelude CString BlockCache Bio BioSpec Log LogSpec LogInst Fs FsSpec FsInst FsIo FsDir FsPath FsGrow Mkfs.

(** ** Blocks of a file under construction *)

(** The [j]th block, by the 64 bytes of the inode and the sectors [c]. *)
Definition ablk (c : Z -> list Z) (din : list Z) (j : Z) : Z :=
  if j <? NDIRECT then d_addr din j else ld32 (c (d_addr din NDIRECT)) (4 * (j - NDIRECT)).

(** The file has its first [N] blocks, between [lo] and [F], and no others. *)
Record laid (lo F : Z) (c : Z -> list Z) (din : list Z) (N : Z) : Prop := {
  ld_len : zlen din = 64;
  ld_n : 0 <= N <= MAXFILE;
  ld_blk : forall j, 0 <= j < N -> lo <= ablk c din j < F;
  ld_ind : NDIRECT < N -> lo <= d_addr din NDIRECT < F /\ forall j, 0 <= j < N -> ablk c din j <> d_addr din NDIRECT;
  ld_inj : forall i j, 0 <= i < N -> 0 <= j < N -> ablk c din i = ablk c din j -> i = j;
  ld_end : forall j, N <= j < NDIRECT -> d_addr din j = 0;
  ld_tail : NDIRECT < N -> forall j, N <= j < MAXFILE -> ablk c din j = 0;
  ld_noind : N <= NDIRECT -> d_addr din NDIRECT = 0
}.

(** The blocks it owns. *)
Definition mine (c : Z -> list Z) (din : list Z) (N s : Z) : Prop :=
  (NDIRECT < N /\ s = d_addr din NDIRECT) \/ exists j, 0 <= j < N /\ s = ablk c din j.

Lemma mine_range lo F c din N s : laid lo F c din N -> mine c din N s -> lo <= s < F.
Proof. intros Hl [[Hn ->]|(j & Hj & ->)]; [by apply (ld_ind _ _ _ _ _ Hl)|by apply (ld_blk _ _ _ _ _ Hl)]. Qed.

(** Blocks, indirect one included, of a file of [N] data blocks. *)
Definition nb (N : Z) : Z := N + if NDIRECT <? N then 1 else 0.

Lemma nb_succ N : 0 <= N -> nb (N + 1) = nb N + fresh N.
Proof.
  intros HN. unfold nb, fresh. destruct (Z.eqb_spec N NDIRECT) as [->|Hne]; [done|].
  destruct (Z.ltb_spec NDIRECT (N + 1)), (Z.ltb_spec NDIRECT N); lia.
Qed.

Lemma nb_mono N N' : 0 <= N <= N' -> nb N <= nb N'.
Proof. intros H. unfold nb. destruct (Z.ltb_spec NDIRECT N), (Z.ltb_spec NDIRECT N'); lia. Qed.

(** *** Addresses in an inode *)

Lemma d_addr_set din k b j : zlen din = 64 -> 0 <= k < 13 -> 0 <= j < 13 -> 0 <= b < 2 ^ 32 ->
  d_addr (st32 din (12 + 4 * k) b) j = if decide (j = k) then b else d_addr din j.
Proof.
  intros Hl Hk Hj Hb. unfold d_addr. case_decide as E; [subst; rewrite ld32_st32_eq by lia; by apply u32_small|]. by rewrite ld32_st32_ne by lia.
Qed.

Lemma ablk_direct c c' din j : j < NDIRECT -> ablk c' din j = ablk c din j.
Proof. intros Hj. unfold ablk. by rewrite (proj2 (Z.ltb_lt j NDIRECT)). Qed.

Lemma ablk_ind c din j : NDIRECT <= j -> ablk c din j = ld32 (c (d_addr din NDIRECT)) (4 * (j - NDIRECT)).
Proof. intros Hj. unfold ablk. by rewrite (proj2 (Z.ltb_ge j NDIRECT)). Qed.

Lemma ld32_zeroes o : ld32 zeroes o = 0.
Proof.
  unfold ld32, ld8, zget, zeroes.
  assert (forall o, default 0 (if 0 <=? o then replicate 512 0 !! Z.to_nat o else None) = 0) as Z0.
  { intros p. destruct (0 <=? p); [|done]. destruct (replicate 512 0 !! Z.to_nat p) eqn:X; [|done]. by apply lookup_replicate in X as [-> _]. }
  by rewrite !Z0.
Qed.

(** Sectors the file does not own do not matter to it. *)
Lemma laid_frame lo F F' c c' din N : laid lo F c din N -> F <= F' -> (forall s, mine c din N s -> c' s = c s) ->
  laid lo F' c' din N /\ forall j, 0 <= j < N -> ablk c' din j = ablk c din j.
Proof.
  intros [A B C D E G I J] HF Hc.
  assert (NDIRECT < N -> forall j, NDIRECT <= j -> ablk c' din j = ablk c din j) as Hi.
  { intros Hn j Hj. rewrite !ablk_ind by done. rewrite Hc; [done|]. by left. }
  assert (forall j, 0 <= j < N -> ablk c' din j = ablk c din j) as Hk.
  { intros j Hj. destruct (Z.lt_ge_cases j NDIRECT); [by apply ablk_direct|]. apply Hi; lia. }
  split; [|exact Hk]. split; try done.
  - intros j Hj. rewrite Hk by done. specialize (C j Hj). lia.
  - intros Hn. destruct (D Hn) as [D1 D2]. split; [lia|]. intros j Hj. rewrite Hk by done. by apply D2.
  - intros i j Hi' Hj. rewrite !Hk by done. by apply E.
  - intros Hn j Hj. rewrite Hi by lia. by apply I.
Qed.

(** A new direct block. *)
Lemma laid_direct lo F c din N : laid lo F c din N -> N < NDIRECT -> 0 <= lo <= F -> F < 2 ^ 32 ->
  let din' := st32 din (12 + 4 * N) F in laid lo (F + 1) c din' (N + 1) /\ (forall j, 0 <= j < N -> ablk c din' j = ablk c din j) /\ ablk c din' N = F /\ d_addr din' NDIRECT = d_addr din NDIRECT.
Proof.
  intros [A B C D E G I J] HN HF HF2 din'. unfold MAXFILE, NINDIRECT in *. assert (NDIRECT = 12) as E12 by done.
  assert (forall j, 0 <= j < 13 -> d_addr din' j = if decide (j = N) then F else d_addr din j) as Hd by (intros j Hj; apply d_addr_set; lia).
  assert (forall j, 0 <= j < NDIRECT -> ablk c din' j = if decide (j = N) then F else ablk c din j) as Hk.
  { intros j Hj. unfold ablk. rewrite (proj2 (Z.ltb_lt j NDIRECT)) by lia. apply Hd. lia. }
  split; [|split; [|split]].
  - split.
    + unfold din'. by rewrite zlen_st32.
    + unfold MAXFILE, NINDIRECT; lia.
    + intros j Hj. rewrite Hk by lia. case_decide; [lia|]. specialize (C j ltac:(lia)). lia.
    + lia.
    + intros i j Hi Hj. rewrite !Hk by lia. repeat case_decide; [lia| | |]; intros X; [pose proof (C j ltac:(lia)); lia|pose proof (C i ltac:(lia)); lia|apply E; lia].
    + intros j Hj. rewrite Hd by lia. rewrite decide_False by lia. apply G. lia.
    + lia.
    + intros _. rewrite Hd by lia. rewrite decide_False by lia. apply J. lia.
  - intros j Hj. rewrite Hk by lia. by rewrite decide_False by lia.
  - rewrite Hk by lia. by rewrite decide_True.
  - rewrite Hd by lia. by rewrite decide_False by lia.
Qed.

(** The indirect block is there, block [N] is still missing. *)
Record laid_ind (lo F : Z) (c : Z -> list Z) (din : list Z) (N : Z) : Prop := {
  li_len : zlen din = 64;
  li_n : NDIRECT <= N < MAXFILE;
  li_blk : forall j, 0 <= j < N -> lo <= ablk c din j < F;
  li_ind : lo <= d_addr din NDIRECT < F;
  li_apart : forall j, 0 <= j < N -> ablk c din j <> d_addr din NDIRECT;
  li_inj : forall i j, 0 <= i < N -> 0 <= j < N -> ablk c din i = ablk c din j -> i = j;
  li_tail : forall j, N <= j < MAXFILE -> ablk c din j = 0
}.

Lemma laid_has_ind lo F c din N : laid lo F c din N -> NDIRECT < N < MAXFILE -> laid_ind lo F c din N.
Proof. intros [A B C D E G I J] HN. destruct (D ltac:(lia)). split; try done; [lia|]. apply I. lia. Qed.

(** The indirect block itself. *)
Lemma laid_new_ind lo F c din : laid lo F c din NDIRECT -> 0 <= lo <= F -> F < 2 ^ 32 -> c F = zeroes ->
  let din' := st32 din (12 + 4 * NDIRECT) F in
  laid_ind lo (F + 1) c din' NDIRECT /\ (forall j, 0 <= j < NDIRECT -> ablk c din' j = ablk c din j) /\ d_addr din' NDIRECT = F.
Proof.
  intros [A B C D E G I J] HF HF2 Hz din'. assert (NDIRECT = 12) as E12 by done.
  assert (forall j, 0 <= j < 13 -> d_addr din' j = if decide (j = NDIRECT) then F else d_addr din j) as Hd by (intros j Hj; apply d_addr_set; lia).
  assert (d_addr din' NDIRECT = F) as Hi by (rewrite Hd by lia; by rewrite decide_True).
  assert (forall j, 0 <= j < NDIRECT -> ablk c din' j = ablk c din j) as Hk.
  { intros j Hj. unfold ablk. rewrite !(proj2 (Z.ltb_lt j NDIRECT)) by lia. rewrite Hd by lia. by rewrite decide_False by lia. }
  split; [|done]. split.
  - unfold din'. by rewrite zlen_st32.
  - unfold MAXFILE, NINDIRECT. lia.
  - intros j Hj. rewrite Hk by done. specialize (C j Hj). lia.
  - lia.
  - intros j Hj. rewrite Hk, Hi by done. specialize (C j Hj). lia.
  - intros i j Hi' Hj. rewrite !Hk by done. by apply E.
  - intros j Hj. rewrite ablk_ind by lia. rewrite Hi, Hz. apply ld32_zeroes.
Qed.

(** A new entry in the indirect block. *)
Lemma laid_indirect lo F c din N : laid_ind lo F c din N -> 0 <= lo <= F -> F < 2 ^ 32 -> zlen (c (d_addr din NDIRECT)) = 512 ->
  let c' := zupd c (d_addr din NDIRECT) (st32 (c (d_addr din NDIRECT)) (4 * (N - NDIRECT)) F) in
  laid lo (F + 1) c' din (N + 1) /\ (forall j, 0 <= j < N -> ablk c' din j = ablk c din j) /\ ablk c' din N = F.
Proof.
  intros [A B C D E G I] HF HF2 Hlen c'. assert (NDIRECT = 12) as E12 by done. unfold MAXFILE, NINDIRECT in *.
  assert (forall j, NDIRECT <= j < NDIRECT + 128 -> ablk c' din j = if decide (j = N) then F else ablk c din j) as Hki.
  { intros j Hj. rewrite !ablk_ind by lia. unfold c'. rewrite zupd_eq. case_decide as Ej.
    - subst. rewrite ld32_st32_eq by lia. apply u32_small. lia.
    - by rewrite ld32_st32_ne by lia. }
  assert (forall j, 0 <= j < N -> ablk c' din j = ablk c din j) as Hk.
  { intros j Hj. destruct (Z.lt_ge_cases j NDIRECT); [by apply ablk_direct|]. rewrite Hki by lia. by rewrite decide_False by lia. }
  assert (ablk c' din N = F) as HN by (rewrite Hki by lia; by rewrite decide_True).
  split; [|done]. split.
  - done.
  - unfold MAXFILE, NINDIRECT. lia.
  - intros j Hj. destruct (decide (j = N)) as [->|]; [lia|]. rewrite Hk by lia. specialize (C j ltac:(lia)). lia.
  - intros _. split; [lia|]. intros j Hj. destruct (decide (j = N)) as [->|]; [lia|]. rewrite Hk by lia. apply E. lia.
  - intros i j Hi Hj. destruct (decide (i = N)) as [->|], (decide (j = N)) as [->|]; [done| | |]; rewrite ?HN, ?Hk by lia.
    + pose proof (C j ltac:(lia)). lia.
    + pose proof (C i ltac:(lia)). lia.
    + apply G; lia.
  - lia.
  - intros _ j Hj. unfold MAXFILE, NINDIRECT in Hj. rewrite Hki by lia. rewrite decide_False by lia. apply I. unfold MAXFILE, NINDIRECT. lia.
  - lia.
Qed.

(** ** The image under construction *)

(** First block of the data area: boot block, superblock, inodes, bitmap. *)
Definition data_start : Z := 29.

Record sane (st : mkfs) : Prop := {
  sn_len : forall s, zlen (sect st s) = 512;
  sn_zero : forall s, freeblock st <= s -> sect st s = zeroes;
  sn_used : usedblocks st = freeblock st;
  sn_free : data_start <= freeblock st <= nsec st;
  sn_nsec : nsec st < 2 ^ 31
}.

(** What finding or allocating block [i] of a file of [N] blocks leaves. *)
Record placed (st : mkfs) (din : list Z) (N i : Z) (st' : mkfs) (din' : list Z) (x : Z) : Prop := {
  pc_sane : sane st';
  pc_nsec : nsec st' = nsec st /\ freeinode st' = freeinode st;
  pc_free : freeblock st' = freeblock st + (nb (Z.max N (i + 1)) - nb N);
  pc_laid : laid data_start (freeblock st') (sect st') din' (Z.max N (i + 1));
  pc_x : x = ablk (sect st') din' i;
  pc_old : forall j, 0 <= j < N -> ablk (sect st') din' j = ablk (sect st) din j;
  pc_new : i = N -> freeblock st <= x /\ sect st' x = zeroes;
  pc_ind : NDIRECT < N /\ d_addr din' NDIRECT = d_addr din NDIRECT \/ freeblock st <= d_addr din' NDIRECT \/ Z.max N (i + 1) <= NDIRECT;
  pc_sect : forall s, ~ (NDIRECT < Z.max N (i + 1) /\ s = d_addr din' NDIRECT) -> sect st' s = sect st s;
  pc_head : forall o, o < 12 -> ld8 din' o = ld8 din o
}.

Definition with_free (st : mkfs) (F : Z) : mkfs := Mkfs (nsec st) (sect st) F F (freeinode st).

Lemma new_block_run st : sane st -> freeblock st + 1 < 2 ^ 32 -> new_block st = Ok (freeblock st) (with_free st (freeblock st + 1)).
Proof.
  intros Hs Hf. unfold new_block, bind, get, put, ret, with_free. rewrite (sn_used _ Hs). pose proof (sn_free _ Hs). unfold data_start in *.
  by rewrite u32_small by lia.
Qed.

Lemma sane_free st : sane st -> freeblock st + 1 <= nsec st -> sane (with_free st (freeblock st + 1)).
Proof. intros [A B C D E] Hn. split; cbn; [done| |done|lia|done]. intros s Hs. apply B. lia. Qed.

Lemma rsect_run s st : s < nsec st -> rsect s st = Ok (sect st s) st.
Proof. intros Hs. unfold rsect, bind, get, ret. by rewrite (proj2 (Z.ltb_lt _ _) Hs). Qed.

Definition with_sect (st : mkfs) (s : Z) (buf : list Z) : mkfs := Mkfs (nsec st) (zupd (sect st) s buf) (freeblock st) (usedblocks st) (freeinode st).

Lemma wsect_run s buf st : s < nsec st -> wsect s buf st = Ok tt (with_sect st s buf).
Proof. intros Hs. unfold wsect, modify, with_sect. by rewrite Z.max_l by lia. Qed.

Lemma sane_sect st s buf : sane st -> s < freeblock st -> zlen buf = 512 -> sane (with_sect st s buf).
Proof.
  intros [A B C D E] Hs Hb. split; cbn; [| |done|done|done].
  - intros t. unfold zupd. case_match; [done|apply A].
  - intros t Ht. rewrite zupd_ne by lia. by apply B.
Qed.

(** The end of iappend_block for a block past the direct ones. *)
Definition block_of_ind (din : list Z) (k : Z) : M mkfs (list Z * Z) :=
  indirect <- rsect (d_addr din NDIRECT) ;;
  indirect <- (if ld32 indirect (4 * k) =? 0 then
                 b <- new_block ;;
                 let indirect := st32 indirect (4 * k) b in
                 wsect (d_addr din NDIRECT) indirect ;;;
                 ret indirect
               else ret indirect) ;;
  ret (din, ld32 indirect (4 * k)).

Lemma block_of_ind_run st din N : sane st -> laid_ind data_start (freeblock st) (sect st) din N -> freeblock st + 1 <= nsec st ->
  exists st', block_of_ind din (N - NDIRECT) st = Ok (din, freeblock st) st' /\ sane st' /\ nsec st' = nsec st /\ freeinode st' = freeinode st /\
    freeblock st' = freeblock st + 1 /\ laid data_start (freeblock st') (sect st') din (N + 1) /\
    (forall j, 0 <= j < N -> ablk (sect st') din j = ablk (sect st) din j) /\ ablk (sect st') din N = freeblock st /\
    sect st' (freeblock st) = zeroes /\ forall s, s <> d_addr din NDIRECT -> sect st' s = sect st s.
Proof.
  intros Hs Hl Hn. pose proof (sn_free _ Hs) as Hf. pose proof (sn_nsec _ Hs) as Hn2. unfold data_start in *. pose proof (li_n _ _ _ _ _ Hl) as HN. pose proof (li_ind _ _ _ _ _ Hl) as Hind.
  pose proof (li_tail _ _ _ _ _ Hl N ltac:(lia)) as Hz. rewrite ablk_ind in Hz by lia. set (a := d_addr din NDIRECT) in *.
  destruct (laid_indirect _ _ _ _ _ Hl ltac:(lia) ltac:(lia) (sn_len _ Hs _)) as (P1 & P2 & P3). fold a in P1, P2, P3.
  set (d' := st32 (sect st a) (4 * (N - NDIRECT)) (freeblock st)) in *. set (st1 := with_free st (freeblock st + 1)). exists (with_sect st1 a d'). split.
  { unfold block_of_ind. fold a. rewrite (bind_ok _ _ _ _ _ (rsect_run a st ltac:(lia))). rewrite Hz. cbn [Z.eqb].
    assert ((b <- new_block;; wsect a (st32 (sect st a) (4 * (N - NDIRECT)) b);;; ret (st32 (sect st a) (4 * (N - NDIRECT)) b)) st = Ok d' (with_sect st1 a d')) as E.
    { rewrite (bind_ok _ _ _ _ _ (new_block_run st Hs ltac:(lia))). fold d'. by rewrite (bind_ok _ _ _ _ _ (wsect_run a d' st1 ltac:(cbn; lia))). }
    rewrite (bind_ok _ _ _ _ _ E). unfold ret. do 2 f_equal. rewrite <-P3. rewrite ablk_ind by lia. fold a. by rewrite zupd_eq. }
  split; [apply sane_sect; [by apply sane_free|cbn; lia|unfold d'; rewrite zlen_st32; apply (sn_len _ Hs)]|].
  split; [done|]. split; [done|]. split; [done|]. split; [exact P1|]. split; [exact P2|]. split; [exact P3|]. split.
  - cbn. rewrite zupd_ne by lia. apply (sn_zero _ Hs). lia.
  - intros s Hne. cbn. by apply zupd_ne.
Qed.

Lemma st32_head din k b o : 0 <= k -> o < 12 -> ld8 (st32 din (12 + 4 * k) b) o = ld8 din o.
Proof. intros Hk Ho. apply ld8_st32_ne. lia. Qed.

Lemma iappend_block_new st din N : sane st -> laid data_start (freeblock st) (sect st) din N -> N < MAXFILE -> freeblock st + fresh N <= nsec st ->
  exists st' din' x, iappend_block din N st = Ok (din', x) st' /\ placed st din N N st' din' x.
Proof.
  intros Hs Hl HN Hn. pose proof (ld_n _ _ _ _ _ Hl) as H0. pose proof (sn_free _ Hs) as Hf. pose proof (sn_nsec _ Hs) as Hn2. unfold data_start in *. set (F := freeblock st) in *.
  unfold iappend_block. destruct (Z.ltb_spec N NDIRECT) as [Hd|Hd].
  - destruct (laid_direct _ _ _ _ _ Hl Hd ltac:(lia) ltac:(lia)) as (P1 & P2 & P3 & P4). set (din' := st32 din (12 + 4 * N) F) in *.
    assert (fresh N = 1) as Hfr by (unfold fresh; by rewrite (proj2 (Z.eqb_neq N NDIRECT)) by lia). rewrite Hfr in Hn.
    assert (d_addr din' N = F) as E by (rewrite <-P3; unfold ablk; by rewrite (proj2 (Z.ltb_lt N NDIRECT))).
    exists (with_free st (F + 1)), din', F. split.
    { rewrite (ld_end _ _ _ _ _ Hl N ltac:(lia)). cbn [Z.eqb].
      rewrite (bind_ok (b <- new_block;; ret (st32 din (12 + 4 * N) b)) _ st din' (with_free st (F + 1))); [unfold ret; by rewrite E|]. by rewrite (bind_ok _ _ _ _ _ (new_block_run st Hs ltac:(lia))). }
    split; rewrite ?Z.max_r by lia; try done.
    + apply sane_free; [done|lia].
    + cbn. rewrite nb_succ by lia. rewrite Hfr. unfold F. lia.
    + intros _. cbn. split; [lia|]. apply (sn_zero _ Hs). lia.
    + right. right. lia.
    + intros o Ho. apply st32_head; lia.
  - assert (NDIRECT = 12) as E12 by done. destruct (decide (N = NDIRECT)) as [EN|Hne].
    + rewrite (ld_noind _ _ _ _ _ Hl ltac:(lia)). cbn [Z.eqb]. subst N. change (fresh NDIRECT) with 2 in Hn.
      destruct (laid_new_ind _ _ _ _ Hl ltac:(lia) ltac:(lia) (sn_zero _ Hs F ltac:(lia))) as (P1 & P2 & P3). set (din' := st32 din (12 + 4 * NDIRECT) F) in *.
      set (st1 := with_free st (F + 1)). destruct (block_of_ind_run st1 din' NDIRECT) as (st2 & E & Q1 & Q2 & Q3 & Q4 & Q5 & Q6 & Q7 & Q8 & Q9); [apply sane_free; [done|lia]|done|cbn; lia|].
      exists st2, din', (F + 1). split.
      { rewrite (bind_ok (b <- new_block;; ret (st32 din (12 + 4 * NDIRECT) b)) _ st din' st1); [exact E|]. by rewrite (bind_ok _ _ _ _ _ (new_block_run st Hs ltac:(lia))). }
      split; rewrite ?Z.max_r by lia; try done.
      * rewrite Q4. cbn. rewrite nb_succ by lia. change (fresh NDIRECT) with 2. unfold F. lia.
      * intros j Hj. rewrite Q6 by lia. by apply P2.
      * intros _. split; [unfold F; lia|]. exact Q8.
      * right. left. rewrite P3. done.
      * intros s Hns. rewrite Q9; [done|]. intros ->. apply Hns. split; [lia|done].
      * intros o Ho. apply st32_head; lia.
    + assert (fresh N = 1) as Hfr by (unfold fresh; by rewrite (proj2 (Z.eqb_neq N NDIRECT)) by lia). rewrite Hfr in Hn.
      pose proof (laid_has_ind _ _ _ _ _ Hl ltac:(lia)) as Hi. pose proof (li_ind _ _ _ _ _ Hi) as Hr. rewrite (proj2 (Z.eqb_neq (d_addr din NDIRECT) 0)) by lia.
      destruct (block_of_ind_run st din N Hs Hi ltac:(lia)) as (st2 & E & Q1 & Q2 & Q3 & Q4 & Q5 & Q6 & Q7 & Q8 & Q9).
      exists st2, din, F. split; [rewrite (bind_ok (ret din) _ _ _ _ eq_refl); exact E|].
      split; rewrite ?Z.max_r by lia; try done.
      * rewrite Q4. rewrite nb_succ by lia. rewrite Hfr. unfold F. lia.
      * left. split; [lia|done].
      * intros s Hns. apply Q9. intros ->. apply Hns. split; [lia|done].
Qed.

Lemma iappend_block_old st din N i : sane st -> laid data_start (freeblock st) (sect st) din N -> 0 <= i < N ->
  exists x, iappend_block din i st = Ok (din, x) st /\ placed st din N i st din x.
Proof.
  intros Hs Hl Hi. pose proof (ld_n _ _ _ _ _ Hl) as H0. pose proof (sn_free _ Hs) as Hf. unfold data_start in *. pose proof (ld_blk _ _ _ _ _ Hl i Hi) as Hb.
  exists (ablk (sect st) din i). split.
  - unfold iappend_block. destruct (Z.ltb_spec i NDIRECT) as [Hd|Hd].
    + unfold ablk in Hb |- *. rewrite (proj2 (Z.ltb_lt i NDIRECT)) in Hb |- * by done. rewrite (proj2 (Z.eqb_neq (d_addr din i) 0)) by lia. by rewrite (bind_ok (ret din) _ _ _ _ eq_refl).
    + destruct (ld_ind _ _ _ _ _ Hl ltac:(lia)) as [Hr _]. rewrite (proj2 (Z.eqb_neq (d_addr din NDIRECT) 0)) by lia. rewrite (bind_ok (ret din) _ _ _ _ eq_refl).
      rewrite (bind_ok _ _ _ _ _ (rsect_run (d_addr din NDIRECT) st ltac:(lia))). rewrite ablk_ind in Hb |- * by done. rewrite (proj2 (Z.eqb_neq (ld32 _ _) 0)) by lia.
      by rewrite (bind_ok (ret _) _ _ _ _ eq_refl).
  - split; rewrite ?Z.max_l by lia; try done; [lia|lia|].
    destruct (Z.lt_ge_cases NDIRECT N); [by left|right; right; lia].
Qed.

(** ** Appending *)

Lemma ld8_app a b o : 0 <= o -> ld8 (a ++ b) o = if o <? zlen a then ld8 a o else ld8 b (o - zlen a).
Proof.
  intros Ho. unfold ld8, zget, zlen. rewrite (proj2 (Z.leb_le 0 o)) by done. destruct (Z.ltb_spec o (Z.of_nat (length a))).
  - by rewrite lookup_app_l by lia.
  - rewrite lookup_app_r by lia. rewrite (proj2 (Z.leb_le 0 _)) by lia. do 2 f_equal. lia.
Qed.

Lemma ld8_beyond d o : zlen d <= o -> ld8 d o = 0.
Proof. intros Ho. unfold ld8, zget, zlen in *. case_match; [|done]. by rewrite lookup_ge_None_2 by lia. Qed.

Lemma ld8_zeroes o : ld8 zeroes o = 0.
Proof. unfold ld8, zget, zeroes. destruct (0 <=? o); [|done]. destruct (replicate 512 0 !! Z.to_nat o) eqn:X; [|done]. by apply lookup_replicate in X as [-> _]. Qed.

Definition fbyte (c : Z -> list Z) (din : list Z) (o : Z) : Z := ld8 (c (ablk c din (o / 512))) (o mod 512).

(** The blocks of [din] hold [bs], and zeros in what is left of the last one. *)
Record holding (st : mkfs) (din bs : list Z) : Prop := {
  hd_laid : laid data_start (freeblock st) (sect st) din (blocks_for (zlen bs));
  hd_bytes : forall o, 0 <= o < blocks_for (zlen bs) * 512 -> fbyte (sect st) din o = ld8 bs o
}.

(** From a file of [N] blocks to one of [N']: other sectors keep their contents. *)
Record grows (st : mkfs) (din : list Z) (N : Z) (st' : mkfs) (din' : list Z) (N' : Z) : Prop := {
  gw_sane : sane st';
  gw_nsec : nsec st' = nsec st /\ freeinode st' = freeinode st;
  gw_free : freeblock st' = freeblock st + (nb N' - nb N);
  gw_le : 0 <= N <= N';
  gw_keep : forall s, s < freeblock st -> ~ mine (sect st) din N s -> sect st' s = sect st s;
  gw_mine : forall s, mine (sect st') din' N' s -> mine (sect st) din N s \/ freeblock st <= s;
  gw_head : forall o, o < 12 -> ld8 din' o = ld8 din o
}.

Lemma mk_grows_refl st din N : sane st -> 0 <= N -> grows st din N st din N.
Proof. intros Hs HN. split; try done; try lia. intros s Hm. by left. Qed.

Lemma mk_grows_trans st din N st1 din1 N1 st2 din2 N2 : grows st din N st1 din1 N1 -> grows st1 din1 N1 st2 din2 N2 -> grows st din N st2 din2 N2.
Proof.
  intros [A B C D E G I] [A' B' C' D' E' G' I']. pose proof (nb_mono N N1 ltac:(lia)). split; try done; try lia.
  - intros s Hs Hm. rewrite E', E; [done|done|done|lia|]. intros Hm1. apply G in Hm1 as [|]; [done|lia].
  - intros s Hm. apply G' in Hm as [Hm|]; [|right; lia]. apply G in Hm as [|]; [by left|right; lia].
  - intros o Ho. rewrite I', I; done.
Qed.

(** Writing one chunk into the block that [placed] gives. *)
Lemma chunk_ok st din bs c st1 din1 x : let off := zlen bs in let N := blocks_for off in
  holding st din bs -> placed st din N (off / 512) st1 din1 x -> 0 < zlen c <= 512 - off mod 512 ->
  let st2 := with_sect st1 x (splice (sect st1 x) (off mod 512) c) in
  holding st2 din1 (bs ++ c) /\ grows st din N st2 din1 (blocks_for (off + zlen c)).
Proof.
  intros off N [Hl Hb] [P1 P2 P3 P4 P5 P6 P7 P8 P9 P10] Hc st2. pose proof (zlen_nonneg bs) as H0. fold off in H0, Hl, Hb. fold N in Hl, Hb. set (i := off / 512) in *.
  assert (0 <= i <= N) as Hi by (unfold i, N, blocks_for; Z.div_mod_to_equations; lia).
  assert (Z.max N (i + 1) = blocks_for (off + zlen c)) as EN by (unfold i, N, blocks_for; Z.div_mod_to_equations; lia). rewrite EN in *. set (N' := blocks_for (off + zlen c)) in *.
  assert (0 <= i < N') as HiN by lia. pose proof (ld_blk _ _ _ _ _ P4 i HiN) as Hx. rewrite <-P5 in Hx. unfold data_start in *.
  assert (forall j, 0 <= j < N' -> j <> i -> ablk (sect st1) din1 j <> x) as Hne.
  { intros j Hj Hji E. apply Hji. apply (ld_inj _ _ _ _ _ P4); [done|done|]. by rewrite <-P5. }
  assert (NDIRECT < N' -> d_addr din1 NDIRECT <> x) as Hnei by (intros Hn; rewrite P5; apply not_eq_sym; by apply (ld_ind _ _ _ _ _ P4)).
  pose proof (Z.mod_pos_bound off 512 ltac:(lia)) as Hmod.
  assert (forall j, 0 <= j < N' -> ablk (sect st2) din1 j = ablk (sect st1) din1 j) as Hk.
  { intros j Hj. destruct (Z.lt_ge_cases j NDIRECT); [by apply ablk_direct|]. rewrite !ablk_ind by done. cbn [st2 with_sect sect]. rewrite zupd_ne; [done|]. apply Hnei. lia. }
  assert (laid 29 (freeblock st2) (sect st2) din1 N') as Hl2.
  { destruct P4 as [A B C D E G I J]. split; try done.
    - intros j Hj. rewrite Hk by done. by apply C.
    - intros Hn. destruct (D Hn). split; [done|]. intros j Hj. rewrite Hk by done. auto.
    - intros a b Ha Hb'. rewrite !Hk by done. by apply E.
    - intros Hn j Hj. rewrite <-(I Hn j Hj). rewrite !ablk_ind by lia. cbn [st2 with_sect sect]. rewrite zupd_ne; [done|by apply Hnei]. }
  assert (sane st2) as Hs2 by (apply sane_sect; [done|lia|rewrite zlen_splice; [apply (sn_len _ P1)|lia|rewrite (sn_len _ P1); lia]]).
  split.
  - split; rewrite zlen_app; [exact Hl2|]. fold off N'. intros o Ho. assert (0 <= o / 512 < N') as Hj by (Z.div_mod_to_equations; lia).
    unfold fbyte. rewrite Hk by done. rewrite ld8_app by lia. fold off. cbn [st2 with_sect sect].
    assert (o / 512 < N -> ld8 (sect st1 (ablk (sect st1) din1 (o / 512))) (o mod 512) = ld8 bs o) as Hold.
    { intros HjN. rewrite <-(Hb o) by (Z.div_mod_to_equations; lia). unfold fbyte. rewrite (P6 (o / 512)) by lia. rewrite P9; [done|].
      intros [Hn E]. apply (proj2 (ld_ind _ _ _ _ _ P4 Hn) (o / 512) Hj). rewrite P6 by lia. exact E. }
    destruct (decide (o / 512 = i)) as [Ei|Hji].
    + rewrite Ei, <-P5, zupd_eq. rewrite ld8_splice by (rewrite ?(sn_len _ P1); Z.div_mod_to_equations; lia).
      assert (o mod 512 - off mod 512 = o - off) as Ed by (unfold i in *; Z.div_mod_to_equations; lia).
      assert (ld8 (sect st1 x) (o mod 512) = ld8 bs o) as Eb.
      { destruct (decide (i = N)) as [EiN|]; [|by rewrite <-Hold, Ei, <-P5 by lia]. rewrite (proj2 (P7 EiN)), ld8_zeroes. symmetry. apply ld8_beyond. fold off.
        unfold N, blocks_for, i in *. Z.div_mod_to_equations. lia. }
      rewrite Eb, Ed. destruct (Z.leb_spec (off mod 512) (o mod 512)), (Z.ltb_spec o off), (Z.ltb_spec (o mod 512) (off mod 512 + zlen c)); cbn [andb]; try done; try lia.
      rewrite !ld8_beyond by (fold off; lia). done.
    + rewrite zupd_ne by (by apply Hne). assert (o / 512 < N) as HjN by lia. rewrite (Hold HjN).
      destruct (Z.ltb_spec o off) as [|Hoo]; [done|]. exfalso. apply Hji. unfold i, N, blocks_for in *. Z.div_mod_to_equations. lia.
  - split; try done; [lia| |].
    + intros s Hs Hm. cbn [st2 with_sect sect]. assert (s <> x) as Hsx.
      { intros ->. destruct (decide (i = N)) as [EiN|]; [destruct (P7 EiN); lia|]. apply Hm. right. exists i. split; [lia|]. by rewrite <-P6, P5 by lia. }
      rewrite zupd_ne by done. apply P9. intros [Hn ->]. destruct P8 as [[Ha Eb]|[?|?]]; [|lia|lia]. apply Hm. left. by rewrite Eb.
    + intros s [[Hn ->]|(j & Hj & ->)].
      * destruct P8 as [[Ha Eb]|[?|?]]; [|by right|lia]. left. left. by rewrite Eb.
      * rewrite Hk by done. destruct (Z.lt_ge_cases j N); [left; right; exists j; split; [lia|apply P6; lia]|]. right.
        assert (j = i) as -> by lia. rewrite <-P5. apply P7. lia.
Qed.

Lemma iappend_block_ok st din N i : sane st -> laid data_start (freeblock st) (sect st) din N -> 0 <= i <= N -> i < MAXFILE ->
  freeblock st + (nb (Z.max N (i + 1)) - nb N) <= nsec st ->
  exists st' din' x, iappend_block din i st = Ok (din', x) st' /\ placed st din N i st' din' x.
Proof.
  intros Hs Hl Hi Him Hn. destruct (decide (i = N)) as [->|Hne].
  - apply iappend_block_new; [done|done|done|]. rewrite Z.max_r, nb_succ in Hn by lia. lia.
  - destruct (iappend_block_old st din N i Hs Hl ltac:(lia)) as (x & E & P). by exists st, din, x.
Qed.

Lemma blocks_mono a b : a <= b -> blocks_for a <= blocks_for b.
Proof. intros H. unfold blocks_for. apply Z.div_le_mono; lia. Qed.

Lemma blocks_nonneg a : 0 <= a -> 0 <= blocks_for a.
Proof. intros H. unfold blocks_for. apply Z.div_pos; lia. Qed.

Lemma zlen_take {A} (k : list A) n : 0 <= n <= zlen k -> zlen (take (Z.to_nat n) k) = n.
Proof. unfold zlen. intros. rewrite length_take. lia. Qed.

Lemma zlen_drop {A} (k : list A) n : 0 <= n <= zlen k -> zlen (drop (Z.to_nat n) k) = zlen k - n.
Proof. unfold zlen. intros. rewrite length_drop. lia. Qed.

Lemma iappend_loop_ok fuel : forall st din bs p, sane st -> holding st din bs -> zlen bs + zlen p <= MAXFILE * 512 ->
  freeblock st + (nb (blocks_for (zlen bs + zlen p)) - nb (blocks_for (zlen bs))) <= nsec st ->
  (zlen p = 0 /\ (1 <= fuel)%nat \/ (zlen bs + zlen p + 511) / 512 - zlen bs / 512 + 1 <= Z.of_nat fuel) ->
  exists st' din', iappend_loop fuel din p (zlen bs) st = Ok (din', zlen bs + zlen p) st' /\ holding st' din' (bs ++ p) /\
    grows st din (blocks_for (zlen bs)) st' din' (blocks_for (zlen bs + zlen p)).
Proof.
  induction fuel as [|fuel IH]; intros st din bs p Hs Hh Hmax Hroom Hfuel; pose proof (zlen_nonneg bs) as H0; pose proof (zlen_nonneg p) as Hp.
  { exfalso. destruct Hfuel as [[_ ?]|Hf]; [lia|]. Z.div_mod_to_equations. lia. }
  cbn [iappend_loop]. destruct (Z.ltb_spec 0 (zlen p)) as [Hlt|Hge].
  2: { assert (p = []) as -> by (destruct p; [done|unfold zlen in Hge; cbn in Hge; lia]). exists st, din. change (zlen (@nil Z)) with 0. rewrite app_nil_r, Z.add_0_r.
       split; [done|]. split; [done|]. apply mk_grows_refl; [done|by apply blocks_nonneg]. }
  set (off := zlen bs) in *. destruct Hfuel as [[? _]|Hfuel]; [lia|]. pose proof (Z.mod_pos_bound off 512 ltac:(lia)) as Hmod.
  set (n1 := Z.min (zlen p) ((off / 512 + 1) * 512 - off)). assert (0 < n1 <= 512 - off mod 512) as Hn1 by (unfold n1; Z.div_mod_to_equations; lia).
  assert (n1 <= zlen p) as Hn1p by lia. assert (MAXFILE * 512 = 71680) as EM by done.
  assert (off / 512 < MAXFILE) as Him by (apply Z.div_lt_upper_bound; lia). rewrite (proj2 (Z.ltb_lt _ _) Him). cbn [negb].
  assert (0 <= off / 512 <= blocks_for off) as Hi by (unfold blocks_for; Z.div_mod_to_equations; lia).
  assert (Z.max (blocks_for off) (off / 512 + 1) = blocks_for (off + n1)) as EN by (unfold blocks_for; Z.div_mod_to_equations; lia).
  pose proof (nb_mono (blocks_for (off + n1)) (blocks_for (off + zlen p)) ltac:(split; [apply blocks_nonneg; lia|apply blocks_mono; lia])) as Hnb.
  destruct (iappend_block_ok st din (blocks_for off) (off / 512) Hs (hd_laid _ _ _ Hh) Hi Him ltac:(rewrite EN; lia)) as (st1 & din1 & x & E1 & P).
  rewrite (bind_ok _ _ _ _ _ E1). cbn [fst snd]. set (c := take (Z.to_nat n1) p). assert (zlen c = n1) as Hc by (apply zlen_take; lia).
  destruct (chunk_ok st din bs c st1 din1 x Hh P) as [Hh2 Hg2]; [rewrite Hc; fold off; lia|]. fold off in Hh2, Hg2. rewrite Hc in Hg2.
  assert (x < nsec st1) as Hx.
  { rewrite (pc_x _ _ _ _ _ _ _ P). pose proof (ld_blk _ _ _ _ _ (pc_laid _ _ _ _ _ _ _ P) (off / 512) ltac:(lia)). pose proof (sn_free _ (pc_sane _ _ _ _ _ _ _ P)). lia. }
  rewrite (bind_ok _ _ _ _ _ (rsect_run x st1 Hx)), (bind_ok _ _ _ _ _ (wsect_run x _ st1 Hx)).
  replace (off - off / 512 * 512) with (off mod 512) by (Z.div_mod_to_equations; lia). set (st2 := with_sect st1 x _) in *. rewrite u32_small by lia.
  assert (zlen (bs ++ c) = off + n1) as Hbc by (rewrite zlen_app; lia). assert (zlen (drop (Z.to_nat n1) p) = zlen p - n1) as Hdr by (apply zlen_drop; lia).
  destruct (IH st2 din1 (bs ++ c) (drop (Z.to_nat n1) p)) as (st3 & din3 & E3 & Hh3 & Hg3); rewrite ?Hbc, ?Hdr.
  - apply Hg2.
  - exact Hh2.
  - lia.
  - rewrite (gw_free _ _ _ _ _ _ Hg2), (proj1 (gw_nsec _ _ _ _ _ _ Hg2)). replace (off + n1 + (zlen p - n1)) with (off + zlen p) by lia. lia.
  - destruct (decide (zlen p - n1 = 0)) as [|Hd]; [left; split; [done|]|right].
    + assert (2 <= Z.of_nat (Datatypes.S fuel)); [|lia]. etransitivity; [|exact Hfuel]. Z.div_mod_to_equations. lia.
    + assert (n1 = 512 - off mod 512) as En by (unfold n1 in *; Z.div_mod_to_equations; lia). assert ((off + n1) / 512 = off / 512 + 1) as -> by (Z.div_mod_to_equations; lia).
      replace (off + n1 + (zlen p - n1) + 511) with (off + zlen p + 511) by lia. lia.
  - rewrite Hbc, Hdr in E3, Hg3. replace (off + n1 + (zlen p - n1)) with (off + zlen p) in * by lia. exists st3, din3. split; [exact E3|]. split.
    + unfold c in Hh3. by rewrite <-app_assoc, take_drop in Hh3.
    + by eapply mk_grows_trans.
Qed.

(** ** Inodes *)

Definition dinode_at (st : mkfs) (i : Z) : list Z := bytes_at (sect st (i2b i)) (64 * (i mod IPB)) 64.

(** Inode [i] is a file with the bytes [bs]. *)
Record file (st : mkfs) (i : Z) (bs : list Z) : Prop := {
  fl_size : d_size (dinode_at st i) = zlen bs;
  fl_holding : holding st (dinode_at st i) bs
}.

Definition owns (st : mkfs) (i s : Z) : Prop := mine (sect st) (dinode_at st i) (blocks_for (d_size (dinode_at st i))) s.

Definition inum_ok (i : Z) : Prop := 0 <= i < ninodes.

Lemma i2b_range i : inum_ok i -> 2 <= i2b i < data_start - 1.
Proof. unfold inum_ok, i2b, ninodes, data_start, IPB. intros. Z.div_mod_to_equations. lia. Qed.

Lemma slot_range i : 0 <= 64 * (i mod IPB) /\ 64 * (i mod IPB) + 64 <= 512.
Proof. unfold IPB. pose proof (Z.mod_pos_bound i 8). lia. Qed.

Lemma zlen_dinode st i : sane st -> zlen (dinode_at st i) = 64.
Proof. intros Hs. apply zlen_bytes_at; [apply slot_range|done|]. rewrite (sn_len _ Hs). apply slot_range. Qed.

Definition with_dinode (st : mkfs) (i : Z) (din : list Z) : mkfs := with_sect st (i2b i) (splice (sect st (i2b i)) (64 * (i mod IPB)) din).

Lemma winode_run st i din : sane st -> inum_ok i -> winode i din st = Ok tt (with_dinode st i din).
Proof.
  intros Hs Hi. pose proof (i2b_range i Hi). pose proof (sn_free _ Hs). unfold winode, data_start in *. rewrite (bind_ok _ _ _ _ _ (rsect_run (i2b i) st ltac:(lia))).
  by rewrite wsect_run by lia.
Qed.

Lemma rinode_run st i : sane st -> inum_ok i -> rinode i st = Ok (dinode_at st i) st.
Proof.
  intros Hs Hi. pose proof (i2b_range i Hi). pose proof (sn_free _ Hs). unfold rinode, data_start in *. by rewrite (bind_ok _ _ _ _ _ (rsect_run (i2b i) st ltac:(lia))).
Qed.

Lemma dinode_same st i din : sane st -> zlen din = 64 -> dinode_at (with_dinode st i din) i = din.
Proof.
  intros Hs Hd. unfold dinode_at, with_dinode, with_sect. cbn [sect]. rewrite zupd_eq. rewrite <-Hd. apply bytes_at_splice_eq. rewrite (sn_len _ Hs). pose proof (slot_range i). lia.
Qed.

Lemma dinode_other st i j din : sane st -> zlen din = 64 -> i <> j -> dinode_at (with_dinode st i din) j = dinode_at st j.
Proof.
  intros Hs Hd Hne. unfold dinode_at, with_dinode, with_sect. cbn [sect]. destruct (decide (i2b j = i2b i)) as [E|E]; [|by rewrite zupd_ne].
  rewrite E, zupd_eq. pose proof (slot_range i). pose proof (slot_range j). apply bytes_at_splice_ne; rewrite ?(sn_len _ Hs), ?Hd; [lia..|].
  unfold i2b, IPB in *. Z.div_mod_to_equations. lia.
Qed.

Lemma sane_dinode st i din : sane st -> inum_ok i -> zlen din = 64 -> sane (with_dinode st i din).
Proof.
  intros Hs Hi Hd. pose proof (i2b_range i Hi). pose proof (sn_free _ Hs). pose proof (slot_range i). unfold data_start in *.
  apply sane_sect; [done|lia|]. rewrite zlen_splice; rewrite ?(sn_len _ Hs), ?Hd; lia.
Qed.

(** What is outside the data area does not touch the blocks of files. *)
Lemma holding_sect st s buf din bs : holding st din bs -> s < data_start -> holding (with_sect st s buf) din bs.
Proof.
  intros [A B] Hs. assert (forall t, mine (sect st) din (blocks_for (zlen bs)) t -> sect (with_sect st s buf) t = sect st t) as Hk.
  { intros t Ht. apply (mine_range _ _ _ _ _ _ A) in Ht. cbn. apply zupd_ne. lia. }
  destruct (laid_frame data_start (freeblock st) (freeblock st) (sect st) (sect (with_sect st s buf)) din _ A ltac:(lia) Hk) as [L E].
  split; [exact L|]. intros o Ho. rewrite <-B by done. assert (0 <= o / 512 < blocks_for (zlen bs)) by (Z.div_mod_to_equations; lia).
  unfold fbyte. rewrite E by done. rewrite Hk; [done|]. right. by exists (o / 512).
Qed.

(** The size field is not an address. *)
Lemma holding_size st din bs z : holding st din bs -> holding st (st32 din 8 z) bs.
Proof.
  intros [[A B C D E G I J] K]. assert (forall k, 0 <= k -> d_addr (st32 din 8 z) k = d_addr din k) as Hd by (intros k Hk; unfold d_addr; apply ld32_st32_ne; lia).
  assert (NDIRECT = 12) as E12 by done.
  assert (forall j, 0 <= j -> ablk (sect st) (st32 din 8 z) j = ablk (sect st) din j) as Hk by (intros j Hj; unfold ablk; by rewrite !Hd by lia).
  split; [split|].
  - by rewrite zlen_st32.
  - done.
  - intros j Hj. rewrite Hk by lia. by apply C.
  - intros Hn. rewrite Hd by lia. destruct (D Hn) as [D1 D2]. split; [done|]. intros j Hj. rewrite Hk by lia. by apply D2.
  - intros i j Hi Hj. rewrite !Hk by lia. by apply E.
  - intros j Hj. rewrite Hd by lia. by apply G.
  - intros Hn j Hj. rewrite Hk by lia. by apply I.
  - intros Hn. rewrite Hd by lia. by apply J.
  - intros o Ho. rewrite <-K by done. unfold fbyte. rewrite Hk; [done|]. apply Z.div_pos; lia.
Qed.

Lemma mine_size c din N s z : mine c (st32 din 8 z) N s <-> mine c din N s.
Proof.
  assert (NDIRECT = 12) as E12 by done.
  assert (forall k, 0 <= k -> d_addr (st32 din 8 z) k = d_addr din k) as Hd by (intros k Hk; unfold d_addr; apply ld32_st32_ne; lia).
  assert (forall j, 0 <= j -> ablk c (st32 din 8 z) j = ablk c din j) as Hk by (intros j Hj; unfold ablk; by rewrite !Hd by lia).
  unfold mine. rewrite Hd by lia. split; (intros [?|(j & Hj & ->)]; [by left|right; exists j; split; [done|rewrite Hk; [done|lia]]]).
Qed.

(** What iappend leaves. *)
Record appended (st : mkfs) (i : Z) (n n' : Z) (st' : mkfs) : Prop := {
  ap_sane : sane st';
  ap_nsec : nsec st' = nsec st /\ freeinode st' = freeinode st;
  ap_free : freeblock st' = freeblock st + (nb (blocks_for n') - nb (blocks_for n));
  ap_keep : forall s, s < freeblock st -> s <> i2b i -> ~ owns st i s -> sect st' s = sect st s;
  ap_owns : forall s, owns st' i s -> owns st i s \/ freeblock st <= s;
  ap_other : forall j, inum_ok j -> j <> i -> dinode_at st' j = dinode_at st j;
  ap_head : forall o, o < 8 -> ld8 (dinode_at st' i) o = ld8 (dinode_at st i) o
}.

Lemma iappend_ok st i bs p : sane st -> inum_ok i -> file st i bs -> zlen bs + zlen p <= MAXFILE * 512 ->
  freeblock st + (nb (blocks_for (zlen bs + zlen p)) - nb (blocks_for (zlen bs))) <= nsec st ->
  exists st', iappend i p st = Ok tt st' /\ file st' i (bs ++ p) /\ appended st i (zlen bs) (zlen bs + zlen p) st'.
Proof.
  intros Hs Hi [Hsz Hh] Hmax Hroom. pose proof (i2b_range i Hi) as Hib. pose proof (zlen_nonneg bs) as H0. pose proof (zlen_nonneg p) as Hp0. assert (MAXFILE * 512 = 71680) as EM by done.
  destruct (iappend_loop_ok (io_fuel (zlen p)) st (dinode_at st i) bs p Hs Hh Hmax Hroom) as (st1 & din1 & E & Hh1 & Hg).
  { right. by apply io_fuel_enough. }
  set (din2 := st32 din1 8 (zlen bs + zlen p)). assert (zlen din2 = 64) as Hl2 by (unfold din2; rewrite zlen_st32; apply (ld_len _ _ _ _ _ (hd_laid _ _ _ Hh1))).
  pose proof (gw_sane _ _ _ _ _ _ Hg) as Hs1. set (st2 := with_dinode st1 i din2). exists st2.
  assert (dinode_at st2 i = din2) as Ed by (by apply dinode_same). assert (d_size din2 = zlen bs + zlen p) as Es.
  { unfold d_size, din2. rewrite ld32_st32_eq; [apply u32_small; lia|lia|]. unfold din2 in Hl2. rewrite zlen_st32 in Hl2. lia. }
  split; [|split; split].
  - unfold iappend. rewrite (bind_ok _ _ _ _ _ (rinode_run st i Hs Hi)), Hsz, (bind_ok _ _ _ _ _ E). by apply winode_run.
  - by rewrite Ed, zlen_app.
  - rewrite Ed. apply holding_sect; [|lia]. by apply holding_size.
  - by apply sane_dinode.
  - apply Hg.
  - apply Hg.
  - intros s Hsf Hne Hno. cbn. rewrite zupd_ne by done. apply (gw_keep _ _ _ _ _ _ Hg); [done|]. unfold owns in Hno. by rewrite Hsz in Hno.
  - intros s Hm. unfold owns in Hm. rewrite Ed, Es in Hm. unfold owns. rewrite Hsz. apply (gw_mine _ _ _ _ _ _ Hg). unfold din2 in Hm. apply mine_size in Hm.
    assert (forall t, mine (sect st1) din1 (blocks_for (zlen bs + zlen p)) t -> sect st2 t = sect st1 t) as Hk.
    { intros t Ht. pose proof (hd_laid _ _ _ Hh1) as L. rewrite zlen_app in L. apply (mine_range _ _ _ _ _ _ L) in Ht. cbn. apply zupd_ne. lia. }
    pose proof (hd_laid _ _ _ Hh1) as L. rewrite zlen_app in L. destruct (laid_frame _ _ _ _ (sect st2) _ _ L (Z.le_refl _) Hk) as [_ Eb].
    destruct Hm as [[Hn ->]|(j & Hj & ->)]; [by left|right; exists j; split; [done|by rewrite Eb]].
  - intros j Hj Hne. unfold st2. rewrite dinode_other by done. unfold dinode_at. rewrite (gw_keep _ _ _ _ _ _ Hg); [done| |].
    + pose proof (i2b_range j Hj). pose proof (sn_free _ Hs). unfold data_start in *. lia.
    + intros Hm. apply (mine_range _ _ _ _ _ _ (hd_laid _ _ _ Hh)) in Hm. pose proof (i2b_range j Hj). unfold data_start in *. lia.
  - intros o Ho. rewrite Ed. unfold din2. rewrite ld8_st32_ne by lia. apply (gw_head _ _ _ _ _ _ Hg). lia.
Qed.

(** ** All files of the image *)

(** Blocks of a list of files. *)
Definition total (fs : list (Z * list Z)) : Z := foldr (fun f t => nb (blocks_for (zlen f.2)) + t) 0 fs.

Definition header (din : list Z) (ty : Z) : Prop := ld16 din 0 = ty /\ ld16 din 2 = 0 /\ ld16 din 4 = 0 /\ ld16 din 6 = 1.

(** Inode [k + 1] is the [k]th file, with its type; the others are empty; no
    block has two owners; the blocks in use are those before freeblock. *)
Record built (st : mkfs) (fs : list (Z * list Z)) : Prop := {
  bt_sane : sane st;
  bt_nsec : nsec st = size;
  bt_next : freeinode st = 1 + zlen fs;
  bt_room : 1 + zlen fs <= ninodes;
  bt_free : freeblock st = data_start + total fs;
  bt_file : forall k ty bs, zget fs k = Some (ty, bs) -> file st (k + 1) bs /\ header (dinode_at st (k + 1)) ty;
  bt_apart : forall i j s, 1 <= i <= zlen fs -> 1 <= j <= zlen fs -> i <> j -> owns st i s -> owns st j s -> False;
  bt_empty : forall i, inum_ok i -> i = 0 \/ zlen fs < i -> dinode_at st i = replicate 64 0;
  bt_sb : sect st 1 = splice zeroes 0 sb_bytes
}.

Lemma total_cons x fs : total (x :: fs) = nb (blocks_for (zlen x.2)) + total fs.
Proof. done. Qed.

Lemma total_app a b : total (a ++ b) = total a + total b.
Proof. induction a as [|x a IH]; [done|]. cbn [app]. rewrite !total_cons. lia. Qed.

Lemma nb_nonneg n : 0 <= n -> 0 <= nb (blocks_for n).
Proof. intros Hn. unfold nb. pose proof (blocks_nonneg n Hn). case_match; lia. Qed.

Lemma total_nonneg fs : 0 <= total fs.
Proof. induction fs as [|x fs IH]; [done|]. rewrite total_cons. pose proof (nb_nonneg (zlen x.2) (zlen_nonneg _)). lia. Qed.

Lemma total_set fs : forall k ty bs bs', zget fs k = Some (ty, bs) -> total (zset fs k (ty, bs')) = total fs + (nb (blocks_for (zlen bs')) - nb (blocks_for (zlen bs))).
Proof.
  induction fs as [|f fs IH]; intros k ty bs bs' Hk; [exfalso; pose proof (zget_Some _ _ _ Hk) as X; unfold zlen in X; cbn in X; lia|].
  apply zget_cons in Hk as [[-> <-]|[Hr Hk]].
  - change (zset ((ty, bs) :: fs) 0 (ty, bs')) with ((ty, bs') :: fs). rewrite !total_cons. cbn [snd]. lia.
  - assert (zset (f :: fs) k (ty, bs') = f :: zset fs (k - 1) (ty, bs')) as ->.
    { unfold zset. rewrite !(proj2 (Z.leb_le 0 _)) by lia. by replace (Z.to_nat k) with (Datatypes.S (Z.to_nat (k - 1))) by lia. }
    rewrite !total_cons, (IH (k - 1) ty bs bs' Hk). lia.
Qed.

Lemma holding_frame st st' din bs : holding st din bs -> freeblock st <= freeblock st' -> (forall s, mine (sect st) din (blocks_for (zlen bs)) s -> sect st' s = sect st s) ->
  holding st' din bs /\ forall s, mine (sect st') din (blocks_for (zlen bs)) s <-> mine (sect st) din (blocks_for (zlen bs)) s.
Proof.
  intros [A B] Hf Hk. destruct (laid_frame data_start (freeblock st) (freeblock st') (sect st) (sect st') din _ A Hf Hk) as [L E]. split; [split; [exact L|]|].
  - intros o Ho. rewrite <-B by done. assert (0 <= o / 512 < blocks_for (zlen bs)) by (Z.div_mod_to_equations; lia).
    unfold fbyte. rewrite E by done. rewrite Hk; [done|]. right. by exists (o / 512).
  - intros s. unfold mine. split; (intros [?|(j & Hj & ->)]; [by left|right; exists j; split; [done|by rewrite E]]).
Qed.

(** A file whose inode and blocks stay. *)
Lemma file_frame st st' i bs : file st i bs -> freeblock st <= freeblock st' -> dinode_at st' i = dinode_at st i -> (forall s, owns st i s -> sect st' s = sect st s) ->
  file st' i bs /\ forall s, owns st' i s <-> owns st i s.
Proof.
  intros [A B] Hf Hd Hk. unfold owns in *. rewrite A in Hk. destruct (holding_frame st st' _ bs B Hf Hk) as [P Q]. rewrite !Hd, A. split; [|exact Q].
  split; [by rewrite Hd|by rewrite Hd].
Qed.

Lemma built_range st fs k x : built st fs -> zget fs k = Some x -> inum_ok (k + 1) /\ 1 <= k + 1 <= zlen fs.
Proof. intros Hb Hk. pose proof (zget_Some _ _ _ Hk). pose proof (bt_room _ _ Hb). unfold inum_ok. lia. Qed.

Lemma owns_range st fs k x s : built st fs -> zget fs k = Some x -> owns st (k + 1) s -> data_start <= s < freeblock st.
Proof.
  intros Hb Hk Ho. destruct x as [ty bs]. destruct (bt_file _ _ Hb k ty bs Hk) as [[A B] _]. unfold owns in Ho. rewrite A in Ho. by apply (mine_range _ _ _ _ _ _ (hd_laid _ _ _ B)).
Qed.

Lemma header_ext din din' ty : header din ty -> (forall o, o < 8 -> ld8 din' o = ld8 din o) -> header din' ty.
Proof. intros (A & B & C & D) E. unfold header, ld16 in *. rewrite !E by lia. done. Qed.

Lemma zget_zset_inv {A} (l : list A) k x j y : zget (zset l k x) j = Some y -> (j = k /\ y = x) \/ (j <> k /\ zget l j = Some y).
Proof.
  intros Hy. pose proof (zget_Some _ _ _ Hy) as Hr. rewrite zlen_zset in Hr. destruct (decide (j = k)) as [->|Hne].
  - left. rewrite zget_zset_eq in Hy by done. by injection Hy as <-.
  - right. by rewrite zget_zset_ne in Hy.
Qed.

(** iappend on one of the files. *)
Lemma built_append st fs k ty bs p : built st fs -> zget fs k = Some (ty, bs) -> zlen bs + zlen p <= MAXFILE * 512 ->
  data_start + total (zset fs k (ty, bs ++ p)) <= size -> exists st', iappend (k + 1) p st = Ok tt st' /\ built st' (zset fs k (ty, bs ++ p)).
Proof.
  intros Hb Hk Hmax Hroom. destruct (built_range _ _ _ _ Hb Hk) as [Hi Hik]. destruct (bt_file _ _ Hb k ty bs Hk) as [Hf Hh]. pose proof (bt_free _ _ Hb) as HF.
  pose proof (total_set fs k ty bs (bs ++ p) Hk) as Ht. rewrite zlen_app in Ht.
  destruct (iappend_ok st (k + 1) bs p (bt_sane _ _ Hb) Hi Hf Hmax) as (st' & E & Hf' & [A1 [A2 A3] A4 A5 A6 A7 A8]); [rewrite (bt_nsec _ _ Hb); lia|].
  pose proof (nb_mono (blocks_for (zlen bs)) (blocks_for (zlen bs + zlen p)) ltac:(pose proof (zlen_nonneg bs); pose proof (zlen_nonneg p); split; [by apply blocks_nonneg|apply blocks_mono; lia])) as Hnb.
  exists st'. split; [done|]. pose proof (i2b_range _ Hi) as Hib. pose proof (sn_free _ (bt_sane _ _ Hb)) as Hfr. unfold data_start in *.
  assert (forall j x, zget fs j = Some x -> j <> k -> dinode_at st' (j + 1) = dinode_at st (j + 1) /\ forall s, owns st (j + 1) s -> sect st' s = sect st s) as Hother.
  { intros j x Hj Hne. destruct (built_range _ _ _ _ Hb Hj) as [Hij Hjr]. split; [apply A7; [done|lia]|]. intros s Ho. pose proof (owns_range _ _ _ _ _ Hb Hj Ho) as Hs. unfold data_start in Hs.
    apply A5; [lia|lia|]. intros Ho'. by apply (bt_apart _ _ Hb (k + 1) (j + 1) s Hik Hjr ltac:(lia)). }
  assert (forall j x, zget fs j = Some x -> j <> k -> forall s, owns st' (j + 1) s <-> owns st (j + 1) s) as Howns.
  { intros j [ty' bs'] Hj Hne. destruct (Hother j _ Hj Hne) as [Hd Hs]. destruct (bt_file _ _ Hb j ty' bs' Hj) as [Hfj _]. apply (file_frame st st' (j + 1) bs' Hfj); [lia|done|done]. }
  assert (forall j s, 1 <= j <= zlen fs -> owns st' j s -> j <> k + 1 -> owns st j s /\ s < freeblock st) as Hback.
  { intros j s Hj Ho Hne. assert (exists j0, j = j0 + 1) as [j0 ->] by (exists (j - 1); lia). destruct (zget_in fs j0) as [x Hx]; [lia|]. apply (Howns _ x Hx ltac:(lia)) in Ho. split; [done|]. apply (owns_range _ _ _ _ _ Hb Hx Ho). }
  split; rewrite ?zlen_zset.
  - done.
  - rewrite A2. apply Hb.
  - rewrite A3. apply Hb.
  - apply Hb.
  - rewrite A4, Ht. unfold data_start. lia.
  - intros j ty' bs' Hj. apply zget_zset_inv in Hj as [[-> [= -> ->]]|[Hne Hj]].
    + split; [done|]. eapply header_ext; [exact Hh|exact A8].
    + destruct (Hother j _ Hj Hne) as [Hd Hs]. destruct (bt_file _ _ Hb j ty' bs' Hj) as [Hfj Hhj]. rewrite Hd. split; [|done]. apply (file_frame st st' (j + 1) bs' Hfj); [lia|done|done].
  - intros i j s Hi' Hj Hne Ho Ho'. destruct (decide (i = k + 1)) as [->|Hne1].
    + destruct (Hback j s Hj Ho' ltac:(lia)) as [Ho2 Hs]. apply A6 in Ho as [Ho|]; [|lia]. by apply (bt_apart _ _ Hb (k + 1) j s).
    + destruct (Hback i s Hi' Ho Hne1) as [Ho1 Hs]. destruct (decide (j = k + 1)) as [->|Hne2].
      * apply A6 in Ho' as [Ho'|]; [|lia]. by apply (bt_apart _ _ Hb i (k + 1) s).
      * destruct (Hback j s Hj Ho' Hne2) as [Ho2 _]. by apply (bt_apart _ _ Hb i j s).
  - intros i Hi' He. rewrite A7; [by apply Hb|done|lia].
  - rewrite A5; [apply Hb|lia|lia|]. intros Ho. pose proof (owns_range _ _ _ _ _ Hb Hk Ho). unfold data_start in *. lia.
Qed.

(** A fresh inode: an empty file. *)
Definition new_dinode (ty : Z) : list Z := st32 (st16 (st16 (replicate 64 0) 0 ty) 6 1) 8 0.

Lemma ld8_new ty o : 8 <= o -> ld8 (new_dinode ty) o = 0.
Proof.
  intros Ho. unfold new_dinode. assert (ld8 (replicate 64 0) o = 0) as Hz.
  { unfold ld8, zget. case_match; [|done]. destruct (replicate 64 0 !! Z.to_nat o) eqn:X; [|done]. by apply lookup_replicate in X as [-> _]. }
  destruct (Z.lt_ge_cases o 12) as [Hlt|]; [|by rewrite ld8_st32_ne, !ld8_st16_ne by lia].
  assert (zlen (st16 (st16 (replicate 64 0) 0 ty) 6 1) = 64) as Hl by (by rewrite !zlen_st16). unfold st32.
  assert (o = 8 \/ o = 9 \/ o = 10 \/ o = 11) as Eo by lia.
  destruct Eo as [->|[->|[->| ->]]]; repeat first [rewrite ld8_st8_eq by (rewrite ?zlen_st8, Hl; lia)|rewrite ld8_st8_ne by lia]; done.
Qed.

Lemma zlen_new ty : zlen (new_dinode ty) = 64.
Proof. unfold new_dinode. by rewrite zlen_st32, !zlen_st16. Qed.

Lemma header_new ty : 0 <= ty < 2 ^ 16 -> header (new_dinode ty) ty.
Proof.
  intros Ht. unfold new_dinode. assert (forall d o j a, j + 2 <= o -> ld16 (st32 d o a) j = ld16 d j) as H1 by (intros; unfold ld16; by rewrite !ld8_st32_ne by lia).
  unfold header. rewrite !H1 by lia. rewrite !(ld16_st16_ne _ 6) by lia. rewrite ld16_st16_eq by (rewrite ?zlen_st16; change (zlen (replicate 64 0)) with 64; lia). rewrite ld16_st16_eq by (rewrite ?zlen_st16; change (zlen (replicate 64 0)) with 64; lia).
  rewrite !(ld16_st16_ne _ 0) by lia. unfold u16. rewrite Z.mod_small by lia. done.
Qed.

Lemma new_holding st ty : holding st (new_dinode ty) [].
Proof.
  assert (NDIRECT = 12) as E12 by done. assert (forall k, 0 <= k -> d_addr (new_dinode ty) k = 0) as Hd by (intros k Hk; unfold d_addr, ld32; by rewrite !ld8_new by lia).
  change (blocks_for (zlen [])) with 0. split; [split|]; try (change (blocks_for (zlen [])) with 0); try lia.
  - apply zlen_new.
  - unfold MAXFILE, NINDIRECT. lia.
  - intros j Hj. apply Hd. lia.
  - intros _. apply Hd. lia.
Qed.

Lemma built_new st fs ty : built st fs -> 2 + zlen fs <= ninodes -> 0 <= ty < 2 ^ 16 ->
  exists st', mk_ialloc ty st = Ok (1 + zlen fs) st' /\ built st' (fs ++ [(ty, [])]).
Proof.
  intros Hb Hn Ht. set (i := 1 + zlen fs). pose proof (zlen_nonneg fs) as H0. assert (inum_ok i) as Hi by (unfold inum_ok, i; lia). pose proof (i2b_range i Hi) as Hib.
  set (st1 := Mkfs (nsec st) (sect st) (freeblock st) (usedblocks st) (1 + i)). pose proof (bt_sane _ _ Hb) as Hs. pose proof (sn_free _ Hs) as Hfr. unfold data_start in *.
  assert (sane st1) as Hs1 by (destruct Hs; by split). set (st' := with_dinode st1 i (new_dinode ty)). exists st'.
  assert (forall j, inum_ok j -> j <> i -> dinode_at st' j = dinode_at st j) as Hother by (intros j Hj Hne; unfold st'; by rewrite dinode_other by (done || apply zlen_new)).
  assert (dinode_at st' i = new_dinode ty) as Hsame by (apply dinode_same; [done|apply zlen_new]).
  assert (forall j x, zget fs j = Some x -> dinode_at st' (j + 1) = dinode_at st (j + 1) /\ forall s, owns st (j + 1) s -> sect st' s = sect st s) as Hold.
  { intros j x Hj. destruct (built_range _ _ _ _ Hb Hj) as [Hij Hjr]. split; [apply Hother; [done|unfold i; lia]|]. intros s Ho. pose proof (owns_range _ _ _ _ _ Hb Hj Ho) as Hsr. unfold data_start in Hsr.
    cbn. apply zupd_ne. lia. }
  assert (forall s, ~ owns st' i s) as Hnone.
  { intros s. unfold owns. rewrite Hsame. assert (d_size (new_dinode ty) = 0) as -> by (unfold d_size, ld32; by rewrite !ld8_new by lia). change (blocks_for 0) with 0. unfold mine, NDIRECT. intros [[? _]|(j & ? & _)]; lia. }
  assert (forall j s, 1 <= j <= zlen fs -> owns st' j s -> owns st j s) as Hback.
  { intros j s Hj Ho. assert (exists j0, j = j0 + 1) as [j0 ->] by (exists (j - 1); lia). destruct (zget_in fs j0) as [[ty' bs'] Hx]; [lia|]. destruct (Hold _ _ Hx) as [Hd Hk]. destruct (bt_file _ _ Hb _ _ _ Hx) as [Hfj _].
    by apply (file_frame st st' (j0 + 1) bs' Hfj (Z.le_refl _) Hd Hk). }
  split.
  - unfold mk_ialloc, bind, get, put. rewrite (bt_next _ _ Hb). fold i. rewrite u32_small by (unfold i, ninodes in *; lia). replace (i + 1) with (1 + i) by lia. fold st1. fold (new_dinode ty). by rewrite (winode_run st1 i _ Hs1 Hi).
  - assert (zlen (fs ++ [(ty, [])]) = i) as Hlen by (rewrite zlen_app; unfold i; change (zlen [(ty, [] : list Z)]) with 1; lia). split; rewrite ?Hlen.
    + apply sane_dinode; [done|done|apply zlen_new].
    + apply Hb.
    + done.
    + unfold i. lia.
    + rewrite total_app. change (total [(ty, [])]) with 0. cbn. rewrite (bt_free _ _ Hb). unfold data_start. lia.
    + intros k ty' bs' Hk. pose proof (zget_Some _ _ _ Hk) as Hkr. rewrite Hlen in Hkr. rewrite zget_nat in Hk by lia. destruct (decide (k < zlen fs)) as [Hlt|Hge].
      * rewrite lookup_app_l in Hk by (unfold zlen in Hlt; lia). rewrite <-zget_nat in Hk by lia. destruct (Hold _ _ Hk) as [Hd Hs']. destruct (bt_file _ _ Hb _ _ _ Hk) as [Hfj Hhj]. rewrite Hd. split; [|done].
        by apply (file_frame st st' (k + 1) bs' Hfj (Z.le_refl _) Hd Hs').
      * assert (k = zlen fs) as -> by (unfold i in Hkr; lia). rewrite lookup_app_r in Hk by (unfold zlen; lia). replace (Z.to_nat (zlen fs) - length fs)%nat with 0%nat in Hk by (unfold zlen; lia). cbn in Hk. injection Hk as <- <-.
        replace (zlen fs + 1) with i by (unfold i; lia). rewrite Hsame. split; [|by apply header_new]. split; rewrite Hsame; [unfold d_size, ld32; by rewrite !ld8_new by lia|apply new_holding].
    + intros a b s Ha Hb' Hne Ho Ho'. destruct (decide (a = i)) as [->|Hai]; [by apply (Hnone s)|]. destruct (decide (b = i)) as [->|Hbi]; [by apply (Hnone s)|].
      apply (bt_apart _ _ Hb a b s); [unfold i in *; lia|unfold i in *; lia|done|apply Hback; [unfold i in *; lia|done]|apply Hback; [unfold i in *; lia|done]].
    + intros j Hj He. rewrite Hother; [apply Hb; [done|unfold i in *; lia]|done|unfold i in *; lia].
    + cbn. rewrite zupd_ne by lia. apply Hb.
Qed.

(** ** main *)

(** A file of the command line that can be opened: its name and its chunks. *)
Definition given : Type := list Z * list (list Z).

Definition argv_of (files : list given) : list host_file := map (fun f => (f.1, Some f.2)) files.

(** The entries of the root directory from inode [n] on. *)
Fixpoint dirents (n : Z) (files : list given) : list Z :=
  match files with
  | [] => []
  | f :: rest => de_bytes n (skip_underscore f.1) ++ dirents (n + 1) rest
  end.

Definition contents (files : list given) : list (Z * list Z) := map (fun f => (T_FILE, concat f.2)) files.

Definition root_bytes (files : list given) : list Z := de_bytes ROOTINO [46] ++ de_bytes ROOTINO [46; 46] ++ dirents 2 files.

(** The files of the image. *)
Definition all_files (files : list given) : list (Z * list Z) := (T_DIR, root_bytes files) :: contents files.

(** What fits: at most 198 files, none too large, all before the log. *)
Record fits_image (files : list given) : Prop := {
  fi_names : Forall (fun f => SLASH ∉ f.1) files;
  fi_count : 2 + zlen files <= ninodes;
  fi_sizes : Forall (fun f => zlen (concat f.2) <= MAXFILE * 512) files;
  fi_total : data_start + total (all_files files) <= size - nlog
}.

Lemma zlen_de n name : zlen (de_bytes n name) = 16.
Proof. apply zlen_mkdirent. Qed.

Lemma zlen_dirents files : forall n, zlen (dirents n files) = 16 * zlen files.
Proof. induction files as [|f files IH]; intros n; [done|]. cbn [dirents]. rewrite zlen_app, zlen_de, IH, zlen_cons. lia. Qed.

Lemma zlen_root files : zlen (root_bytes files) = 32 + 16 * zlen files.
Proof. unfold root_bytes. rewrite !zlen_app, !zlen_de, zlen_dirents. lia. Qed.

Lemma total_grow fs k ty bs p : zget fs k = Some (ty, bs) -> total fs <= total (zset fs k (ty, bs ++ p)).
Proof.
  intros Hk. rewrite (total_set _ _ _ _ _ Hk), zlen_app. pose proof (zlen_nonneg bs). pose proof (zlen_nonneg p).
  pose proof (nb_mono (blocks_for (zlen bs)) (blocks_for (zlen bs + zlen p)) ltac:(split; [by apply blocks_nonneg|apply blocks_mono; lia])). lia.
Qed.

Lemma iappend_all_ok chunks : forall st fs k ty bs, built st fs -> zget fs k = Some (ty, bs) -> zlen bs + zlen (concat chunks) <= MAXFILE * 512 ->
  data_start + total (zset fs k (ty, bs ++ concat chunks)) <= size -> exists st', iappend_all (k + 1) chunks st = Ok tt st' /\ built st' (zset fs k (ty, bs ++ concat chunks)).
Proof.
  induction chunks as [|c cs IH]; intros st fs k ty bs Hb Hk Hmax Hroom; cbn [concat iappend_all] in *.
  - rewrite app_nil_r in *. exists st. split; [done|]. by rewrite zset_id.
  - rewrite zlen_app in Hmax. pose proof (zlen_nonneg (concat cs)). pose proof (zget_Some _ _ _ Hk) as Hr.
    assert (zget (zset fs k (ty, bs ++ c)) k = Some (ty, bs ++ c)) as Hk1 by (by apply zget_zset_eq).
    assert (zset (zset fs k (ty, bs ++ c)) k (ty, (bs ++ c) ++ concat cs) = zset fs k (ty, bs ++ c ++ concat cs)) as Ez by (by rewrite zset_zset, <-app_assoc).
    pose proof (total_grow _ _ _ _ (concat cs) Hk1) as Hg. rewrite Ez in Hg.
    destruct (built_append st fs k ty bs c Hb Hk ltac:(lia) ltac:(lia)) as (st1 & E1 & Hb1). rewrite (bind_ok _ _ _ _ _ E1).
    destruct (IH st1 _ k ty (bs ++ c) Hb1 Hk1) as (st2 & E2 & Hb2); [rewrite zlen_app; lia|by rewrite Ez|]. rewrite Ez in Hb2. by exists st2.
Qed.

Lemma zset_last {A} (a : A) l x y : zset (a :: l ++ [x]) (1 + zlen l) y = a :: l ++ [y].
Proof.
  unfold zset, zlen. rewrite (proj2 (Z.leb_le 0 _)) by lia. replace (Z.to_nat (1 + Z.of_nat (length l))) with (Datatypes.S (length l + 0)) by lia.
  change (<[Datatypes.S (length l + 0):=y]> (a :: l ++ [x])) with (a :: <[(length l + 0)%nat := y]> (l ++ [x])). by rewrite insert_app_r.
Qed.

Lemma zget_last {A} (a : A) l x : zget (a :: l ++ [x]) (1 + zlen l) = Some x.
Proof.
  rewrite zget_nat by (unfold zlen; lia). replace (Z.to_nat (1 + zlen l)) with (Datatypes.S (length l + 0)) by (unfold zlen; lia).
  change ((a :: l ++ [x]) !! Datatypes.S (length l + 0)) with ((l ++ [x]) !! (length l + 0)%nat). rewrite lookup_app_r by lia. by replace (length l + 0 - length l)%nat with 0%nat by lia.
Qed.

Lemma mkfs_files_ok files : forall st rb fs, built st ((T_DIR, rb) :: fs) -> Forall (fun f => SLASH ∉ f.1) files -> 2 + zlen fs + zlen files <= ninodes ->
  Forall (fun f => zlen (concat f.2) <= MAXFILE * 512) files -> zlen rb + 16 * zlen files <= MAXFILE * 512 ->
  data_start + total ((T_DIR, rb ++ dirents (2 + zlen fs) files) :: fs ++ contents files) <= size ->
  exists st', mkfs_files ROOTINO (argv_of files) st = Ok tt st' /\ built st' ((T_DIR, rb ++ dirents (2 + zlen fs) files) :: fs ++ contents files).
Proof.
  induction files as [|[name chunks] files IH]; intros st rb fs Hb Hn Hcnt Hsz Hrb Hroom; cbn [argv_of map mkfs_files contents dirents] in *.
  { exists st. split; [done|]. by rewrite !app_nil_r. }
  apply Forall_cons in Hn as [Hn Hns]. apply Forall_cons in Hsz as [Hsz Hszs]. cbn [fst snd] in *. rewrite zlen_cons in Hcnt, Hrb. pose proof (zlen_nonneg files) as H0. pose proof (zlen_nonneg fs) as H1.
  rewrite bool_decide_false by done. set (n := 2 + zlen fs) in *. set (de := de_bytes n (skip_underscore name)) in *. fold (contents files) in *. fold (argv_of files).
  assert (zlen de = 16) as Hde by apply zlen_de. assert (zlen ((T_DIR, rb) :: fs) = 1 + zlen fs) as Hl by (rewrite zlen_cons; lia).
  destruct (built_new st _ T_FILE Hb ltac:(rewrite Hl; lia) ltac:(done)) as (st1 & E1 & Hb1). rewrite Hl in E1. replace (1 + (1 + zlen fs)) with n in E1 by (unfold n; lia). rewrite (bind_ok _ _ _ _ _ E1).
  set (fs1 := fs ++ [(T_FILE, [])]). assert (((T_DIR, rb) :: fs) ++ [(T_FILE, [])] = (T_DIR, rb) :: fs1) as Ef by done. rewrite Ef in Hb1.
  assert (forall r p, total ((T_DIR, rb ++ de) :: fs ++ [(T_FILE, p)]) <= total ((T_DIR, (rb ++ de) ++ r) :: fs ++ [(T_FILE, p)])) as Hg1 by (intros r p; apply (total_grow ((T_DIR, rb ++ de) :: fs ++ [(T_FILE, p)]) 0 T_DIR (rb ++ de) r eq_refl)).
  rewrite app_assoc in Hroom.
  assert (total ((T_DIR, (rb ++ de) ++ dirents (n + 1) files) :: fs ++ (T_FILE, concat chunks) :: contents files) =
          total ((T_DIR, (rb ++ de) ++ dirents (n + 1) files) :: fs ++ [(T_FILE, concat chunks)]) + total (contents files)) as Hsum.
  { rewrite !total_cons, !total_app, !total_cons. change (total []) with 0. lia. }
  pose proof (total_nonneg (contents files)) as Hnn. pose proof (Hg1 (dirents (n + 1) files) (concat chunks)) as Hg2.
  assert (total ((T_DIR, rb ++ de) :: fs1) <= total ((T_DIR, rb ++ de) :: fs ++ [(T_FILE, concat chunks)])) as Hg3.
  { unfold fs1. rewrite !total_cons, !total_app, !total_cons. change (nb (blocks_for (zlen (T_FILE, [] : list Z).2))) with 0. pose proof (nb_nonneg (zlen (T_FILE, concat chunks).2) (zlen_nonneg _)). lia. }
  destruct (built_append st1 _ 0 T_DIR rb de Hb1 eq_refl ltac:(lia)) as (st2 & E2 & Hb2).
  { change (zset ((T_DIR, rb) :: fs1) 0 (T_DIR, rb ++ de)) with ((T_DIR, rb ++ de) :: fs1). lia. }
  change (zset ((T_DIR, rb) :: fs1) 0 (T_DIR, rb ++ de)) with ((T_DIR, rb ++ de) :: fs1) in Hb2. change (iappend (0 + 1) de st1) with (iappend ROOTINO de st1) in E2. rewrite (bind_ok _ _ _ _ _ E2).
  destruct (iappend_all_ok chunks st2 _ (1 + zlen fs) T_FILE [] Hb2 (zget_last _ _ _)) as (st3 & E3 & Hb3); [change (zlen (@nil Z)) with 0; lia|unfold fs1; rewrite zset_last; cbn [app]; lia|].
  unfold fs1 in Hb3. rewrite zset_last in Hb3. cbn [app] in Hb3. replace (1 + zlen fs + 1) with n in E3 by (unfold n; lia). rewrite (bind_ok _ _ _ _ _ E3).
  assert (zlen (fs ++ [(T_FILE, concat chunks)]) = zlen fs + 1) as Hl3 by (by rewrite zlen_app).
  destruct (IH st3 (rb ++ de) (fs ++ [(T_FILE, concat chunks)]) Hb3 Hns) as (st4 & E4 & Hb4); rewrite ?Hl3; [lia|done|rewrite zlen_app; lia| |].
  - replace (2 + (zlen fs + 1)) with (n + 1) by (unfold n; lia). rewrite <-(app_assoc fs). exact Hroom.
  - exists st4. split; [exact E4|]. rewrite Hl3 in Hb4. replace (2 + (zlen fs + 1)) with (n + 1) in Hb4 by (unfold n; lia). rewrite <-(app_assoc fs) in Hb4. rewrite app_assoc. exact Hb4.
Qed.

(** The first phase: an empty image of [size] sectors. *)
Lemma zero_loop n : forall i st, 0 <= i -> (forall s, sect st s = zeroes) -> nsec st = i ->
  exists st', for_ i n (fun i => wsect i zeroes) st = Ok tt st' /\ nsec st' = i + Z.of_nat n /\ (forall s, sect st' s = zeroes) /\
    freeblock st' = freeblock st /\ usedblocks st' = usedblocks st /\ freeinode st' = freeinode st.
Proof.
  induction n as [|n IH]; intros i st Hi Hz Hn; cbn [for_].
  - exists st. split; [done|]. split; [lia|done].
  - set (st1 := Mkfs (Z.max (nsec st) (i + 1)) (zupd (sect st) i zeroes) (freeblock st) (usedblocks st) (freeinode st)).
    rewrite (bind_ok (wsect i zeroes) _ st tt st1 eq_refl). destruct (IH (i + 1) st1) as (st2 & E & A & B & C & D & F); [lia| |cbn; lia|].
    + intros s. cbn. unfold zupd. by case_match.
    + exists st2. split; [exact E|]. split; [rewrite A; lia|done].
Qed.

Lemma zlen_sb : zlen sb_bytes = 16.
Proof. done. Qed.

Lemma bytes_zero off : 0 <= off -> off + 64 <= 512 -> bytes_at zeroes off 64 = replicate 64 0.
Proof.
  intros H1 H2. unfold bytes_at, zeroes. rewrite drop_replicate, take_replicate. f_equal. lia.
Qed.

(** The start of main, up to the loop over the files. *)
Lemma empty_image st : (forall s, sect st s = zeroes) -> nsec st = size -> freeblock st = data_start -> usedblocks st = data_start -> freeinode st = 1 ->
  built (with_sect st 1 (splice zeroes 0 sb_bytes)) [].
Proof.
  intros Hz Hn Hf Hu Hi. assert (forall s, s <> 1 -> zupd (sect st) 1 (splice zeroes 0 sb_bytes) s = zeroes) as Hs by (intros s Hs; by rewrite zupd_ne).
  split; cbn.
  - split; cbn; [| |congruence|rewrite Hf, Hn; done|by rewrite Hn].
    + intros s. destruct (decide (s = 1)) as [->|Hne]; [by rewrite zupd_eq|by rewrite Hs].
    + intros s Hge. apply Hs. rewrite Hf in Hge. unfold data_start in Hge. lia.
  - done.
  - by rewrite Hi.
  - done.
  - by rewrite Hf.
  - intros k ty bs Hk. pose proof (zget_Some _ _ _ Hk) as Hr. unfold zlen in Hr. cbn in Hr. lia.
  - intros i j s Hr. unfold zlen in Hr. cbn in Hr. lia.
  - intros i Hr _. unfold dinode_at. cbn [with_sect sect]. rewrite Hs by (pose proof (i2b_range i Hr); lia). pose proof (slot_range i). apply bytes_zero; lia.
  - by rewrite zupd_eq.
Qed.

Lemma mkfs_front files : fits_image files -> exists st st1, mkfs_main (argv_of files) mkfs_start =
    (fix_root ROOTINO ;;; s <- get ;; mk_balloc (usedblocks s)) st1 /\ built st1 (all_files files) /\ built st [].
Proof.
  intros [Hn Hc Hsz Htot]. unfold given in *. pose proof (zlen_nonneg files) as H0. unfold mkfs_main.
  assert (ninodes / IPB + 3 + bitblocks = data_start) as Eu by done. rewrite Eu. set (s0 := Mkfs 0 (fun _ => zeroes) data_start data_start 1).
  rewrite (bind_ok _ _ mkfs_start tt s0 eq_refl). change (nblocks + data_start + nlog =? size) with true. cbn [negb].
  destruct (zero_loop (Z.to_nat (nblocks + data_start + nlog)) 0 s0 ltac:(lia) ltac:(done) eq_refl) as (s1 & E1 & A & B & C & D & F).
  rewrite (bind_ok _ _ _ _ _ E1). assert (nsec s1 = size) as Hns by exact A. rewrite (bind_ok _ _ _ _ _ (wsect_run 1 _ s1 ltac:(rewrite Hns; done))).
  pose proof (empty_image s1 B Hns C D F) as Hb. set (s2 := with_sect s1 1 _) in *. change (zlen (@nil (Z * list Z))) with 0 in *.
  destruct (built_new s2 [] T_DIR Hb ltac:(done) ltac:(done)) as (s3 & E3 & Hb3). change (1 + zlen (@nil (Z * list Z))) with ROOTINO in E3. rewrite (bind_ok _ _ _ _ _ E3). cbn [app] in Hb3.
  change (ROOTINO =? ROOTINO) with true. cbn [negb].
  assert (data_start + total [(T_DIR, de_bytes ROOTINO [46])] <= size /\ data_start + total [(T_DIR, de_bytes ROOTINO [46] ++ de_bytes ROOTINO [46; 46])] <= size) as [T1 T2].
  { rewrite !total_cons. cbn [snd]. rewrite zlen_app, !zlen_de. by vm_compute. }
  destruct (built_append s3 _ 0 T_DIR [] (de_bytes ROOTINO [46]) Hb3 eq_refl ltac:(rewrite zlen_de; by vm_compute) T1) as (s4 & E4 & Hb4).
  change (iappend (0 + 1) (de_bytes ROOTINO [46]) s3) with (iappend ROOTINO (de_bytes ROOTINO [46]) s3) in E4. rewrite (bind_ok _ _ _ _ _ E4).
  change (zset [(T_DIR, [])] 0 (T_DIR, [] ++ de_bytes ROOTINO [46])) with [(T_DIR, de_bytes ROOTINO [46])] in Hb4.
  destruct (built_append s4 _ 0 T_DIR _ (de_bytes ROOTINO [46; 46]) Hb4 eq_refl ltac:(rewrite !zlen_de; by vm_compute) T2) as (s5 & E5 & Hb5).
  change (iappend (0 + 1) (de_bytes ROOTINO [46; 46]) s4) with (iappend ROOTINO (de_bytes ROOTINO [46; 46]) s4) in E5. rewrite (bind_ok _ _ _ _ _ E5).
  change (zset [(T_DIR, de_bytes ROOTINO [46])] 0 (T_DIR, de_bytes ROOTINO [46] ++ de_bytes ROOTINO [46; 46])) with [(T_DIR, de_bytes ROOTINO [46] ++ de_bytes ROOTINO [46; 46])] in Hb5.
  destruct (mkfs_files_ok files s5 _ [] Hb5 Hn) as (s6 & E6 & Hb6).
  - exact Hc.
  - done.
  - rewrite zlen_app, !zlen_de. unfold ninodes in Hc. change (MAXFILE * 512) with 71680. lia.
  - change (zlen (@nil (Z * list Z))) with 0. cbn [app]. unfold all_files, root_bytes in Htot. rewrite <-app_assoc. change (2 + 0) with 2. unfold nlog, LOGSIZE in Htot. lia.
  - change (zlen (@nil (Z * list Z))) with 0 in Hb6. cbn [app] in Hb6. rewrite <-app_assoc in Hb6. rewrite (bind_ok _ _ _ _ _ E6). by exists s2, s6.
Qed.
