(* ===== verification/MkfsImage.v ===== *)
(** * The image that mkfs leaves

    Seen by the file system code, the image is a sound disk: the bitmap has the
    blocks of the files and no others, each file of the command line is found
    under its name with its bytes, and the hypotheses of the theorems on fs.c
    hold.  Two flaws show: the log's blocks count as free, and a root directory
    of 512-byte multiples gets a block that is not there. *)

From S2P Require Import Prelude CString BlockCache Bio BioSpec Log LogSpec LogInst Fs FsSpec FsInst FsIo FsDir FsPath FsGrow Mkfs MkfsSpec.

(** ** The end of main *)

Definition bitmap_of (used : Z) : list Z :=
  foldl (fun buf i => st8 buf (i / 8) (Z.lor (ld8 buf (i / 8)) (Z.shiftl 1 (i mod 8)))) zeroes (seqZ 0 used).

Lemma bits_set ks : forall d b, zlen d = 512 -> (forall k, k ∈ ks -> 0 <= k < 4096) -> 0 <= b ->
  zlen (foldl (fun buf i => st8 buf (i / 8) (Z.lor (ld8 buf (i / 8)) (Z.shiftl 1 (i mod 8)))) d ks) = 512 /\
  bit (foldl (fun buf i => st8 buf (i / 8) (Z.lor (ld8 buf (i / 8)) (Z.shiftl 1 (i mod 8)))) d ks) b = bool_decide (b ∈ ks) || bit d b.
Proof.
  induction ks as [|k ks IH]; intros d b Hd Hk Hb; [done|]. cbn [foldl].
  destruct (IH (st8 d (k / 8) (Z.lor (ld8 d (k / 8)) (Z.shiftl 1 (k mod 8)))) b) as [A B]; [by rewrite zlen_st8|set_solver|done|]. split; [exact A|]. rewrite B, bit_set by (done || (apply Hk; set_solver)).
  destruct (Z.eqb_spec b k) as [->|Hne].
  - rewrite orb_true_l, orb_true_r. by rewrite bool_decide_true by set_solver.
  - cbn [orb]. f_equal. apply bool_decide_ext. set_solver.
Qed.

Lemma bitmap_bit used b : 0 <= used <= 4096 -> 0 <= b -> bit (bitmap_of used) b = (b <? used).
Proof.
  intros Hu Hb. unfold bitmap_of. destruct (bits_set (seqZ 0 used) zeroes b eq_refl) as [_ ->]; [intros k [? ?]%elem_of_seqZ; lia|done|].
  assert (bit zeroes b = false) as -> by (unfold bit; rewrite ld8_zeroes; apply Z.testbit_0_l). rewrite orb_false_r.
  destruct (Z.ltb_spec b used); [apply bool_decide_true, elem_of_seqZ; lia|apply bool_decide_false; intros [? ?]%elem_of_seqZ; lia].
Qed.

Lemma zlen_bitmap used : 0 <= used <= 4096 -> zlen (bitmap_of used) = 512.
Proof. intros Hu. unfold bitmap_of. apply (bits_set (seqZ 0 used) zeroes 0 eq_refl); [intros k [? ?]%elem_of_seqZ; lia|done]. Qed.

(** The size of the root directory is rounded up, and more. *)
Definition rounded (n : Z) : Z := (n / 512 + 1) * 512.

Definition finish (st : mkfs) (n : Z) : mkfs :=
  with_sect (with_dinode st ROOTINO (st32 (dinode_at st ROOTINO) 8 (rounded n))) 28 (bitmap_of (freeblock st)).

Lemma finish_run st files : built st (all_files files) -> fits_image files ->
  (fix_root ROOTINO ;;; s <- get ;; mk_balloc (usedblocks s)) st = Ok tt (finish st (zlen (root_bytes files))).
Proof.
  intros Hb Hf. pose proof (bt_sane _ _ Hb) as Hs. assert (inum_ok ROOTINO) as Hr by done. destruct (bt_file _ _ Hb 0 T_DIR (root_bytes files) eq_refl) as [[Hsz _] _].
  change (0 + 1) with ROOTINO in Hsz. pose proof (zlen_root files) as Hl. pose proof (fi_count _ Hf) as Hc. pose proof (zlen_nonneg files). unfold ninodes in Hc.
  assert (0 <= rounded (zlen (root_bytes files)) < 2 ^ 32) as Hrd by (unfold rounded; unfold given in *; Z.div_mod_to_equations; lia).
  set (din := st32 (dinode_at st ROOTINO) 8 (rounded (zlen (root_bytes files)))). set (st1 := with_dinode st ROOTINO din).
  assert (fix_root ROOTINO st = Ok tt st1) as E.
  { unfold fix_root. rewrite (bind_ok _ _ _ _ _ (rinode_run st ROOTINO Hs Hr)), Hsz. change BSIZE with 512. fold (rounded (zlen (root_bytes files))). rewrite u32_small by lia. by apply winode_run. }
  rewrite (bind_ok _ _ _ _ _ E). unfold bind at 1, get at 1. unfold mk_balloc. assert (usedblocks st1 = freeblock st) as -> by (cbn; apply (sn_used _ Hs)).
  pose proof (bt_free _ _ Hb) as HF. pose proof (fi_total _ Hf) as Ht. change (size - nlog) with 1014 in Ht. rewrite (proj2 (Z.ltb_lt (freeblock st) (512 * 8))) by lia. cbn [negb].
  change (ninodes / IPB + 3) with 28. fold (bitmap_of (freeblock st)). rewrite wsect_run; [done|]. cbn. rewrite (bt_nsec _ _ Hb). done.
Qed.

(** ** The image as fs.c sees it *)

(** The disk that boots from the image: nothing cached has changed, no buffer is held. *)
Definition image (st : mkfs) : bspec := BSpec (nsec st) (sect st) (sect st) ∅ ∅ [].

Definition mk_sb : superblock := Superblock size nblocks ninodes nlog.

(** The in-memory inode with number [i] that the bytes [din] stand for. *)
Definition node (i : Z) (din : list Z) : inode := read_dinode din 0 (Inode ROOTDEV i 0 0 0 0 0 0 0 []).

Lemma read_dinode_at d off y : 0 <= off -> read_dinode d off y = read_dinode (bytes_at d off 64) 0 y.
Proof.
  intros Ho. assert (forall j, 0 <= j < 64 -> ld8 (bytes_at d off 64) j = ld8 d (off + j)) as H8 by (intros j Hj; by apply ld8_bytes_at).
  assert (forall j, 0 <= j < 63 -> ld16 (bytes_at d off 64) j = ld16 d (off + j)) as H16 by (intros j Hj; unfold ld16; rewrite !H8 by lia; by rewrite Z.add_assoc).
  assert (forall j, 0 <= j < 61 -> ld32 (bytes_at d off 64) j = ld32 d (off + j)) as H32 by (intros j Hj; unfold ld32; rewrite !H8 by lia; by rewrite !Z.add_assoc).
  unfold read_dinode. rewrite !H16, H32 by lia. rewrite !Z.add_0_l, Z.add_0_r. f_equal. apply map_shift. intros j Hj. rewrite H32 by lia. f_equal. lia.
Qed.

Lemma disk_inode_node st i : disk_inode (image st) i = node i (dinode_at st i).
Proof. unfold disk_inode, load, node. cbn [i_inum image content]. apply read_dinode_at. apply slot_range. Qed.

Lemma node_addrs i din k : 0 <= k < 13 -> zget (i_addrs (node i din)) k = Some (d_addr din k).
Proof.
  intros Hk. rewrite zget_nat by lia. unfold node, read_dinode. cbn [i_addrs]. rewrite list_lookup_fmap, lookup_seqZ_lt by lia. cbn [fmap option_fmap option_map]. unfold d_addr. do 2 f_equal. lia.
Qed.

Lemma node_ind i din : ind_blk (node i din) = d_addr din NDIRECT.
Proof. unfold ind_blk. by rewrite node_addrs by done. Qed.

Lemma node_blk st i din j : 0 <= j -> blk (image st) (node i din) j = ablk (sect st) din j.
Proof.
  intros Hj. unfold blk, ablk. rewrite node_ind. destruct (Z.ltb_spec j NDIRECT) as [Hd|]; [|done].
  rewrite node_addrs; [done|]. unfold NDIRECT in Hd. lia.
Qed.

Lemma node_byte st i din o : 0 <= o -> file_byte (image st) (node i din) o = fbyte (sect st) din o.
Proof. intros Ho. unfold file_byte, fbyte. by rewrite node_blk by (apply Z.div_pos; lia). Qed.

Lemma node_header i din ty : header din ty -> 0 <= ty < 2 ^ 15 -> i_type (node i din) = ty /\ i_nlink (node i din) = 1.
Proof.
  intros (A & B & C & D) Ht. unfold node, read_dinode. cbn [i_type i_nlink]. rewrite !Z.add_0_l, A, D. split; [|done].
  unfold s16. rewrite Z.mod_small by lia. by rewrite (proj2 (Z.ltb_lt _ _)) by lia.
Qed.

(** ** A file of whole blocks is one that readi can read *)

Lemma blocks_file_ok {S} `{BufCache S} sb (l : log S) v x N : has_blocks sb l v x N -> i_type x <> T_DEV -> 0 <= i_size x <= N * 512 -> file_ok l v x.
Proof.
  intros Hb Ht Hs. pose proof (hb_n _ _ _ _ _ Hb) as HN. split.
  - apply Hb.
  - done.
  - apply Hb.
  - lia.
  - intros i Hi Hib. apply (data_avail sb). apply (hb_blk _ _ _ _ _ Hb). lia.
  - intros Hi. destruct (hb_ind _ _ _ _ _ Hb ltac:(lia)) as [D E]. split; [by apply (data_avail sb)|]. intros i Hi0 Hib. apply E. lia.
  - intros i j Hi Hj Hib Hjb. apply (hb_inj _ _ _ _ _ Hb); lia.
Qed.

Section View.
Context {S : Type} `{BufCache S}.
Variable l : log S.
Hypothesis Hstart : lg_start l = size - nlog.
Hypothesis Hlog : lg_size l = nlog.

Variable files : list given.
Variable st : mkfs.
Hypothesis Hbuilt : built st (all_files files).
Hypothesis Hfits : fits_image files.

Definition done_st : mkfs := finish st (zlen (root_bytes files)).

Definition final : bspec := image done_st.

Lemma free_bounds : data_start <= freeblock st <= 1014.
Proof. pose proof (sn_free _ (bt_sane _ _ Hbuilt)). pose proof (bt_free _ _ Hbuilt) as ->. pose proof (fi_total _ Hfits) as Ht. change (size - nlog) with 1014 in Ht. pose proof (total_nonneg (all_files files)). lia. Qed.

Lemma done_sect s : data_start <= s -> sect done_st s = sect st s.
Proof. intros Hs. unfold data_start in Hs. unfold done_st, finish, with_dinode, with_sect. cbn [sect]. rewrite !zupd_ne; [done|..]; [change (i2b ROOTINO) with 2; lia|lia]. Qed.

Definition root_din : list Z := st32 (dinode_at st ROOTINO) 8 (rounded (zlen (root_bytes files))).

Lemma zlen_root_din : zlen root_din = 64.
Proof. unfold root_din. rewrite zlen_st32. apply zlen_dinode, Hbuilt. Qed.

Lemma done_dinode i : inum_ok i -> dinode_at done_st i = if decide (i = ROOTINO) then root_din else dinode_at st i.
Proof.
  intros Hi. pose proof (i2b_range i Hi) as Hr. unfold data_start in Hr. unfold done_st, finish. fold root_din.
  transitivity (dinode_at (with_dinode st ROOTINO root_din) i).
  - unfold dinode_at, with_sect. cbn [sect]. by rewrite zupd_ne by lia.
  - case_decide as E; [subst i; apply dinode_same|apply dinode_other; [| |by apply not_eq_sym]]; [apply Hbuilt|apply zlen_root_din|apply Hbuilt|apply zlen_root_din].
Qed.

Lemma final_used b : 0 <= b < size -> used final mk_sb b = (b <? freeblock st).
Proof.
  intros Hb. pose proof free_bounds. unfold used. cbn [sb_ninodes mk_sb]. assert (BBLOCK b ninodes = 28 /\ b mod BPB = b) as [-> ->].
  { unfold BBLOCK, BPB, ninodes, IPB, size in *. rewrite Z.div_small, Z.mod_small by lia. done. }
  unfold final, image, done_st, finish, with_sect. cbn [content sect]. rewrite zupd_eq. unfold data_start in *. apply bitmap_bit; unfold size in Hb; lia.
Qed.

Lemma final_home s : home l final s <-> 0 <= s < 1014.
Proof.
  unfold home. rewrite Hstart, Hlog. unfold final, image, done_st, finish, with_dinode, with_sect. cbn [nsect nsec]. rewrite (bt_nsec _ _ Hbuilt). unfold size, nlog, LOGSIZE. lia.
Qed.

Lemma final_BBLOCK b : 0 <= b < size -> BBLOCK b (sb_ninodes mk_sb) = 28.
Proof. intros Hb. unfold BBLOCK, BPB, size, mk_sb in *. cbn [sb_ninodes]. by rewrite Z.div_small by lia. Qed.

Lemma final_IBLOCK i : 0 <= i < ninodes -> 2 <= IBLOCK i <= 26.
Proof. unfold IBLOCK, ninodes, IPB. intros. Z.div_mod_to_equations. lia. Qed.

(** The disk is sound up to the log. *)
Lemma final_disk : disk_ok mk_sb (size - nlog) l final.
Proof.
  pose proof free_bounds as Hf. unfold data_start in Hf. change (size - nlog) with 1014. split.
  - split.
    + unfold final, image, done_st, finish, with_dinode, with_sect. cbn [content sect]. rewrite !zupd_ne by done. rewrite (bt_sb _ _ Hbuilt). by vm_compute.
    + by apply final_home.
    + done.
    + done.
    + unfold final, image, done_st, finish, with_dinode, with_sect. cbn [nsect nsec]. by rewrite (bt_nsec _ _ Hbuilt).
    + intros b Hb. rewrite final_BBLOCK by done. split; [by apply final_home|done].
  - intros b Hb Hu. rewrite final_used in Hu by (unfold size; lia). apply Z.ltb_ge in Hu. split; [apply final_home; lia|]. split; [done|]. split; [lia|].
    intros b' Hb'. rewrite final_BBLOCK by done. lia.
  - done.
  - split; [done|]. rewrite final_used by done. apply Z.ltb_lt. lia.
  - intros i Hi. pose proof (final_IBLOCK i Hi). assert (0 <= IBLOCK i < size) as Hr by (unfold size; lia). split; [exact Hr|]. split; [rewrite final_used by done; apply Z.ltb_lt; lia|]. split; [apply final_home; lia|done].
Qed.

Lemma final_data b : data_start <= b < freeblock st -> data_blk mk_sb l final b.
Proof.
  intros Hb. pose proof free_bounds as Hf. unfold data_start in *. split; [|done]. split.
  - change (sb_size mk_sb) with 1024. lia.
  - rewrite final_used by (unfold size; lia). apply Z.ltb_lt. lia.
  - lia.
  - intros b' Hb'. rewrite final_BBLOCK by done. lia.
  - intros i Hi. pose proof (final_IBLOCK i Hi). lia.
  - apply final_home. lia.
Qed.

Lemma final_blocks i din bs : holding done_st din bs -> has_blocks mk_sb l final (node i din) (blocks_for (zlen bs)).
Proof.
  intros [[A B C D E G I J] _]. assert (freeblock done_st = freeblock st) as EF by done. rewrite EF in *. assert (NDIRECT = 12) as E12 by done. split.
  - done.
  - unfold node, read_dinode. cbn [i_addrs]. unfold zlen. by rewrite length_map, length_seqZ.
  - done.
  - intros j Hj. unfold final. rewrite node_blk by lia. by apply final_data, C.
  - intros Hn. destruct (D Hn) as [D1 D2]. rewrite node_ind. split; [by apply final_data|]. intros j Hj. unfold final. rewrite node_blk by lia. by apply D2.
  - intros a b Ha Hb'. unfold final. rewrite !node_blk by lia. by apply E.
  - intros j Hj. unfold final. rewrite node_blk by lia. rewrite <-(G j Hj). unfold ablk. by rewrite (proj2 (Z.ltb_lt j NDIRECT)) by lia.
  - intros Hn j Hj. unfold final. rewrite node_blk by lia. by apply I.
  - intros Hn. rewrite node_ind. by apply J.
Qed.

(** What held for the files under construction holds for the image. *)
Lemma done_holding din bs : holding st din bs -> holding done_st din bs.
Proof.
  intros Hh. apply (holding_frame st done_st din bs Hh); [done|]. intros s Hs. apply (mine_range _ _ _ _ _ _ (hd_laid _ _ _ Hh)) in Hs. apply done_sect. lia.
Qed.

(** One of the files of the command line. *)
Lemma final_file k f : zget files k = Some f -> let x := disk_inode final (k + 2) in
  i_type x = T_FILE /\ i_nlink x = 1 /\ i_size x = zlen (concat f.2) /\ has_blocks mk_sb l final x (blocks_for (i_size x)) /\ file_ok l final x /\
  forall o, 0 <= o < i_size x -> file_byte final x o = ld8 (concat f.2) o.
Proof.
  intros Hk x. pose proof (zget_Some _ _ _ Hk) as Hr. pose proof (fi_count _ Hfits) as Hc.
  assert (zget (all_files files) (k + 1) = Some (T_FILE, concat f.2)) as Ha.
  { unfold all_files. rewrite zget_succ by lia. replace (k + 1 - 1) with k by lia. rewrite zget_nat in Hk by lia. rewrite zget_nat by lia. unfold contents.
    transitivity ((fun f : given => (T_FILE, concat f.2)) <$> files !! Z.to_nat k); [apply list_lookup_fmap|by rewrite Hk]. }
  destruct (bt_file _ _ Hbuilt _ _ _ Ha) as [[Hsz Hh] Hhd]. replace (k + 1 + 1) with (k + 2) in * by lia.
  assert (inum_ok (k + 2)) as Hi by (unfold inum_ok; unfold given in *; lia).
  assert (x = node (k + 2) (dinode_at st (k + 2))) as Ex by (unfold x, final; rewrite disk_inode_node, done_dinode by done; by rewrite decide_False by (unfold ROOTINO; lia)).
  destruct (node_header (k + 2) _ _ Hhd ltac:(done)) as [Et En]. assert (i_size x = zlen (concat f.2)) as Es by (rewrite Ex; exact Hsz).
  pose proof (zlen_nonneg (concat f.2)). pose proof (final_blocks (k + 2) _ _ (done_holding _ _ Hh)) as Hb. rewrite <-Ex, <-Es in Hb.
  split; [by rewrite Ex|]. split; [by rewrite Ex|]. split; [done|]. split; [done|]. split.
  - apply (blocks_file_ok mk_sb l final x (blocks_for (i_size x)) Hb); [rewrite Ex, Et; done|]. rewrite Es. unfold blocks_for. Z.div_mod_to_equations. lia.
  - intros o Ho. rewrite Ex. unfold final. rewrite node_byte by lia. apply (hd_bytes _ _ _ (done_holding _ _ Hh)). rewrite <-Es. unfold blocks_for. Z.div_mod_to_equations. lia.
Qed.

(** ** No block has two owners *)

Lemma root_addr k : 0 <= k -> d_addr root_din k = d_addr (dinode_at st ROOTINO) k.
Proof. intros Hk. unfold root_din, d_addr. by rewrite ld32_st32_ne by lia. Qed.

Lemma done_node i : inum_ok i -> disk_inode final i = node i (if decide (i = ROOTINO) then root_din else dinode_at st i).
Proof. intros Hi. unfold final. rewrite disk_inode_node. by rewrite done_dinode. Qed.

Lemma done_blk k ty bs j : zget (all_files files) k = Some (ty, bs) -> 0 <= j < blocks_for (zlen bs) ->
  blk final (disk_inode final (k + 1)) j = ablk (sect st) (dinode_at st (k + 1)) j.
Proof.
  intros Hk Hj. destruct (built_range _ _ _ _ Hbuilt Hk) as [Hi _]. destruct (bt_file _ _ Hbuilt _ _ _ Hk) as [[_ Hh] _]. rewrite done_node by done.
  assert (blk final (node (k + 1) (if decide (k + 1 = ROOTINO) then root_din else dinode_at st (k + 1))) j = ablk (sect done_st) (dinode_at st (k + 1)) j) as ->.
  { unfold final. rewrite node_blk by lia. case_decide as E; [|done]. rewrite E. unfold ablk. unfold NDIRECT. rewrite !root_addr by lia. done. }
  destruct (laid_frame data_start (freeblock st) (freeblock st) (sect st) (sect done_st) (dinode_at st (k + 1)) _ (hd_laid _ _ _ Hh) (Z.le_refl _)) as [_ E]; [|by apply E].
  intros s Hs. apply (mine_range _ _ _ _ _ _ (hd_laid _ _ _ Hh)) in Hs. apply done_sect. lia.
Qed.

Lemma final_apart k k' f f' j j' : zget (all_files files) k = Some f -> zget (all_files files) k' = Some f' -> k <> k' ->
  0 <= j < blocks_for (zlen f.2) -> 0 <= j' < blocks_for (zlen f'.2) -> blk final (disk_inode final (k + 1)) j <> blk final (disk_inode final (k' + 1)) j'.
Proof.
  destruct f as [ty bs], f' as [ty' bs']. intros Hk Hk' Hne Hj Hj' E. rewrite (done_blk k ty bs j Hk Hj), (done_blk k' ty' bs' j' Hk' Hj') in E.
  destruct (built_range _ _ _ _ Hbuilt Hk) as [_ Hr], (built_range _ _ _ _ Hbuilt Hk') as [_ Hr'].
  destruct (bt_file _ _ Hbuilt _ _ _ Hk) as [[Hs _] _], (bt_file _ _ Hbuilt _ _ _ Hk') as [[Hs' _] _].
  apply (bt_apart _ _ Hbuilt (k + 1) (k' + 1) (ablk (sect st) (dinode_at st (k + 1)) j) Hr Hr' ltac:(lia)); unfold owns, mine.
  - right. exists j. by rewrite Hs.
  - right. exists j'. rewrite Hs'. by rewrite E.
Qed.

(** What is left of the data area. *)
Lemma final_nfree : nfree mk_sb (size - nlog) final = size - nlog - freeblock st.
Proof.
  pose proof free_bounds as Hf. unfold data_start in Hf. change (size - nlog) with 1014. unfold nfree.
  assert (free_set mk_sb 1014 final = list_to_set (seqZ (freeblock st) (1014 - freeblock st))) as ->.
  { apply set_eq. intros b. rewrite elem_of_free, elem_of_list_to_set, elem_of_seqZ. split.
    - intros [Hu Hr]. rewrite final_used in Hu by (unfold size; lia). apply Z.ltb_ge in Hu. lia.
    - intros Hr. rewrite final_used by (unfold size; lia). split; [apply Z.ltb_ge|]; lia. }
  rewrite size_list_to_set by apply NoDup_seqZ. rewrite length_seqZ. lia.
Qed.
End View.

(** ** The root directory *)

(** Inode numbers and names, in the order of the entries. *)
Fixpoint dir_list (n : Z) (files : list given) : list (Z * list Z) :=
  match files with
  | [] => []
  | f :: rest => (n, skip_underscore f.1) :: dir_list (n + 1) rest
  end.

Definition root_list (files : list given) : list (Z * list Z) := (ROOTINO, [46]) :: (ROOTINO, [46; 46]) :: dir_list 2 files.

Definition entry_bytes (es : list (Z * list Z)) : list Z := concat (map (fun e => de_bytes e.1 e.2) es).

Lemma dirents_list files : forall n, dirents n files = entry_bytes (dir_list n files).
Proof. induction files as [|f files IH]; intros n; [done|]. cbn [dirents dir_list entry_bytes map concat]. by rewrite IH. Qed.

Lemma root_list_bytes files : root_bytes files = entry_bytes (root_list files).
Proof. unfold root_bytes. rewrite dirents_list. done. Qed.

Lemma length_dir_list files : forall n, length (dir_list n files) = length files.
Proof. induction files as [|f files IH]; intros n; [done|]. cbn. by rewrite IH. Qed.

Lemma dir_list_inum files : forall n i name, (i, name) ∈ dir_list n files -> n <= i < n + zlen files.
Proof.
  induction files as [|f files IH]; intros n i name Hin; cbn [dir_list] in Hin; [by apply not_elem_of_nil in Hin|]. pose proof (zlen_nonneg files).
  apply elem_of_cons in Hin as [[= -> _]|Hin]; rewrite zlen_cons; [lia|]. apply IH in Hin. lia.
Qed.

Lemma zlen_entries es : zlen (entry_bytes es) = 16 * zlen es.
Proof. induction es as [|e es IH]; [done|]. unfold entry_bytes in *. cbn [map concat]. rewrite zlen_app, zlen_de, IH, zlen_cons. lia. Qed.

Lemma map_ld8_all d n : zlen d = n -> map (ld8 d) (seqZ 0 n) = d.
Proof.
  intros Hl. apply list_eq. intros i. rewrite list_lookup_fmap. destruct (decide (Z.of_nat i < n)) as [Hi|Hi].
  - rewrite lookup_seqZ_lt by done. cbn [fmap option_fmap option_map]. unfold ld8. rewrite Z.add_0_l, zget_of_nat. destruct (lookup_lt_is_Some_2 d i) as [x ->]; [unfold zlen in Hl; lia|done].
  - rewrite lookup_seqZ_ge by lia. cbn. symmetry. apply lookup_ge_None. unfold zlen in Hl. lia.
Qed.

(** The bytes of the [k]th entry. *)
Lemma entry_at es : forall k e, es !! k = Some e -> map (ld8 (entry_bytes es)) (seqZ (16 * Z.of_nat k) 16) = de_bytes e.1 e.2.
Proof.
  induction es as [|e0 es IH]; intros k e Hk; [done|]. unfold entry_bytes. cbn [map concat]. fold (entry_bytes es). pose proof (zlen_de e0.1 e0.2) as Hl. destruct k as [|k].
  - injection Hk as <-. change (16 * Z.of_nat 0) with 0. transitivity (map (ld8 (de_bytes e0.1 e0.2)) (seqZ 0 16)); [|by apply map_ld8_all].
    apply map_shift. intros j Hj. rewrite ld8_app, Hl by lia. by rewrite (proj2 (Z.ltb_lt _ _)) by lia.
  - change ((e0 :: es) !! Datatypes.S k) with (es !! k) in Hk. rewrite <-(IH k e Hk). apply map_shift. intros j Hj. rewrite ld8_app, Hl by lia.
    rewrite (proj2 (Z.ltb_ge _ _)) by lia. f_equal. lia.
Qed.

Lemma entry_past es k : (length es <= k)%nat -> map (ld8 (entry_bytes es)) (seqZ (16 * Z.of_nat k) 16) = replicate 16 0.
Proof.
  intros Hk. transitivity (map (fun _ : Z => 0) (seqZ 0 16)); [|done]. apply map_shift. intros j Hj. apply ld8_beyond. rewrite zlen_entries. unfold zlen. lia.
Qed.

Lemma map_of_app_zeros es m : map_of (es ++ replicate m (0, [])) = map_of es.
Proof.
  induction es as [|[i n] es IH]; cbn [app]; [|by rewrite !map_of_cons, IH].
  induction m as [|m IH]; [done|]. cbn [replicate]. by rewrite map_of_cons.
Qed.

Definition key_of (e : Z * list Z) : Z * list Z := (e.1, key e.2).

Section Root.
Context {S : Type} `{BufCache S}.
Variable l : log S.
Hypothesis Hstart : lg_start l = size - nlog.
Hypothesis Hlog : lg_size l = nlog.

Variable files : list given.
Variable st : mkfs.
Hypothesis Hbuilt : built st (all_files files).
Hypothesis Hfits : fits_image files.
Hypothesis Hbytes : Forall (fun f => Forall is_byte f.1) files.

Abbreviation v := (final files st).
Abbreviation root := (disk_inode v ROOTINO).
Abbreviation rn := (zlen (root_bytes files)).

Lemma root_node : root = node ROOTINO (root_din files st).
Proof. by rewrite (done_node files st Hbuilt ROOTINO). Qed.

Lemma root_len : rn = 32 + 16 * zlen files /\ 0 <= zlen files <= 198.
Proof. split; [apply zlen_root|]. pose proof (fi_count _ Hfits) as Hc. pose proof (zlen_nonneg files). unfold ninodes in Hc. unfold given in *. lia. Qed.

Lemma rounded_bounds : 0 <= rounded rn <= 3584.
Proof. destruct root_len as [-> ?]. unfold rounded. Z.div_mod_to_equations. lia. Qed.

Lemma root_size : i_size root = rounded rn.
Proof.
  rewrite root_node. unfold node, read_dinode. cbn [i_size]. rewrite Z.add_0_l. pose proof rounded_bounds. pose proof (zlen_dinode st ROOTINO (bt_sane _ _ Hbuilt)).
  unfold root_din. rewrite ld32_st32_eq by lia. apply u32_small. lia.
Qed.

Lemma root_header : i_type root = T_DIR /\ i_nlink root = 1.
Proof.
  rewrite root_node. apply node_header; [|done]. destruct (bt_file _ _ Hbuilt 0 T_DIR (root_bytes files) eq_refl) as [_ Hh].
  eapply header_ext; [exact Hh|]. intros o Ho. unfold root_din. apply ld8_st32_ne. lia.
Qed.

Lemma root_holding : holding (done_st files st) (root_din files st) (root_bytes files).
Proof.
  destruct (bt_file _ _ Hbuilt 0 T_DIR (root_bytes files) eq_refl) as [[_ Hh] _]. unfold root_din. apply holding_size. by apply done_holding.
Qed.

Lemma root_blocks : has_blocks mk_sb l v root (blocks_for rn).
Proof. rewrite root_node. apply final_blocks; [done..|]. exact root_holding. Qed.

Lemma root_byte o : 0 <= o < blocks_for rn * 512 -> file_byte v root o = ld8 (root_bytes files) o.
Proof. intros Ho. rewrite root_node. unfold final. rewrite node_byte by lia. exact (hd_bytes _ _ _ root_holding o Ho). Qed.

(** Rounding leaves a block that is not there when the entries fill theirs. *)
Lemma root_hole : rn mod 512 = 0 -> i_size root = rn + 512 /\ blk v root (rn / 512) = 0.
Proof.
  intros Hm. destruct root_len as [El Hn]. rewrite root_size. split; [unfold rounded; Z.div_mod_to_equations; lia|].
  assert (blocks_for rn = rn / 512) as E by (unfold blocks_for; Z.div_mod_to_equations; lia). apply (hb_end _ _ _ _ _ root_blocks). unfold NDIRECT. rewrite E. split; [lia|].
  apply Z.div_lt_upper_bound; lia.
Qed.

Hypothesis Hmod : rn mod 512 <> 0.

Lemma root_rounded : rounded rn = blocks_for rn * 512.
Proof. unfold rounded, blocks_for. Z.div_mod_to_equations. lia. Qed.

Lemma de_is_bytes e : Forall is_byte e.2 -> Forall is_byte (de_bytes e.1 e.2).
Proof. apply mkdirent_bytes. Qed.

Lemma underscore_bytes name : Forall is_byte name -> Forall is_byte (skip_underscore name).
Proof. intros Hn. destruct name as [|c name]; [done|]. cbn. apply Forall_cons in Hn as [Hc Hn]. case_match; [done|by constructor]. Qed.

Lemma dir_list_bytes fs : Forall (fun f : given => Forall is_byte f.1) fs -> forall n, Forall (fun e => Forall is_byte e.2) (dir_list n fs).
Proof. induction 1 as [|f fs Hf Hfs IH]; intros n; cbn; constructor; [by apply underscore_bytes|apply IH]. Qed.

Lemma root_is_bytes : Forall is_byte (root_bytes files).
Proof.
  rewrite root_list_bytes. unfold entry_bytes. apply Forall_concat, Forall_fmap. unfold root_list. constructor; [apply de_is_bytes; repeat constructor; unfold is_byte; lia|].
  constructor; [apply de_is_bytes; repeat constructor; unfold is_byte; lia|]. eapply Forall_impl; [by apply dir_list_bytes|]. intros e He. by apply de_is_bytes.
Qed.

Lemma root_file : file_ok l v root.
Proof.
  apply (blocks_file_ok mk_sb l v root (blocks_for rn) root_blocks); [by rewrite (proj1 root_header)|]. rewrite root_size, root_rounded. pose proof (zlen_nonneg (root_bytes files)).
  pose proof (blocks_nonneg rn ltac:(lia)). lia.
Qed.

Lemma root_dir_ok : dir_ok l v root.
Proof.
  split; [exact root_file|apply root_header| |].
  - rewrite root_size, root_rounded. Z.div_mod_to_equations. lia.
  - intros o Ho. rewrite root_size, root_rounded in Ho. rewrite root_byte by done. apply ld8_byte. apply root_is_bytes.
Qed.

Lemma zlen_root_list : zlen (root_list files) = 2 + zlen files.
Proof. unfold root_list. rewrite !zlen_cons. unfold zlen. rewrite length_dir_list. lia. Qed.

Lemma root_dirent k : 0 <= k -> 16 * k + 16 <= rounded rn -> dirent v root (16 * k) = map (ld8 (root_bytes files)) (seqZ (16 * k) 16).
Proof. intros Hk Hr. unfold dirent. apply map_shift. intros j Hj. apply root_byte. rewrite <-root_rounded. lia. Qed.

Lemma root_list_inum e : e ∈ root_list files -> 1 <= e.1 <= 1 + zlen files.
Proof.
  destruct e as [i name]. unfold root_list. pose proof (zlen_nonneg files). intros [[= -> _]|[[= -> _]|Hin]%elem_of_cons]%elem_of_cons; [unfold ROOTINO; cbn; lia..|].
  apply dir_list_inum in Hin. cbn. unfold given in *. lia.
Qed.

(** The entries: those of the list, and empty ones up to the rounded size. *)
Lemma root_entries : exists m, entries v root = map key_of (root_list files) ++ replicate m (0, []).
Proof.
  destruct root_len as [El Hn]. set (n := 2 + zlen files). pose proof rounded_bounds as Hb. assert (n <= rounded rn / 16) as Hle by (unfold n, rounded; rewrite El; Z.div_mod_to_equations; lia).
  exists (Z.to_nat (rounded rn / 16 - n)). unfold entries, entries_from. rewrite root_size, Z.sub_0_r. replace (rounded rn / 16) with (n + (rounded rn / 16 - n)) at 1 by lia.
  rewrite seqZ_split, map_app by lia. assert (forall k, 0 <= k -> k < rounded rn / 16 -> 16 * k + 16 <= rounded rn) as Hin by (intros k Hk Hk2; Z.div_mod_to_equations; lia). f_equal.
  - apply list_eq. intros i. rewrite !list_lookup_fmap. destruct (decide (Z.of_nat i < n)) as [Hi|Hi].
    + rewrite lookup_seqZ_lt by done. pose proof zlen_root_list as Hz. fold n in Hz. destruct (lookup_lt_is_Some_2 (root_list files) i) as [e He]; [unfold zlen in Hz; lia|].
      rewrite He. cbn [fmap option_fmap option_map]. f_equal. rewrite Z.add_0_l. unfold entry. rewrite root_dirent by (try apply Hin; lia). rewrite root_list_bytes, (entry_at _ _ _ He).
      unfold key_of, de_bytes. rewrite mkdirent_name, copy_name_key, mkdirent_inum; [done|]. pose proof (root_list_inum e (list_elem_of_lookup_2 _ _ _ He)). lia.
    + rewrite lookup_seqZ_ge by lia. cbn [fmap option_fmap option_map]. symmetry. pose proof zlen_root_list as Hz. fold n in Hz. rewrite (lookup_ge_None_2 (root_list files)); [done|]. unfold zlen in Hz. lia.
  - apply list_eq. intros i. rewrite list_lookup_fmap. destruct (decide (Z.of_nat i < rounded rn / 16 - n)) as [Hi|Hi].
    + rewrite lookup_seqZ_lt by done. rewrite lookup_replicate_2 by lia. cbn [fmap option_fmap option_map]. f_equal. unfold entry. rewrite root_dirent by (try apply Hin; lia). rewrite root_list_bytes.
      replace (0 + n + Z.of_nat i) with (Z.of_nat (Z.to_nat n + i)) by lia. rewrite entry_past; [done|]. pose proof zlen_root_list as Hz. fold n in Hz. unfold zlen in Hz. lia.
    + rewrite lookup_seqZ_ge by lia. cbn [fmap option_fmap option_map]. symmetry. apply lookup_replicate_None. lia.
Qed.

Lemma root_names : names v ROOTINO = map_of (map key_of (root_list files)).
Proof. unfold names. destruct root_entries as [m ->]. apply map_of_app_zeros. Qed.

Lemma final_inode_dir i : 1 <= i <= 1 + zlen files -> i = ROOTINO \/ exists f, zget files (i - 2) = Some f.
Proof. intros Hi. destruct (decide (i = 1)) as [->|Hne]; [by left|right]. apply zget_in. lia. Qed.

(** The tree: the root and the files it names. *)
Lemma final_tree : tree_ok l v (fun i => 1 <= i <= 1 + zlen files).
Proof.
  destruct root_len as [_ Hn]. intros i Hi. assert (0 <= i < sb_ninodes mk_sb) as Hii by (change (sb_ninodes mk_sb) with 200; unfold given in *; lia).
  destruct (dk_inodes _ _ _ _ (final_disk l Hstart Hlog files st Hbuilt Hfits) i Hii) as (_ & _ & Hho & Hnh). split; [exact Hho|]. split; [exact Hnh|].
  destruct (final_inode_dir i Hi) as [->|[f Hf]].
  - destruct root_header as [-> ->]. split; [done|]. split; [done|]. intros _. split; [exact root_dir_ok|]. intros nm j. rewrite root_names. intros (_ & k & Hk)%map_of_Some.
    apply list_lookup_fmap_Some in Hk as (e & Hke & He). pose proof (root_list_inum e (list_elem_of_lookup_2 _ _ _ He)) as Hr. unfold key_of in Hke. injection Hke as -> _. exact Hr.
  - destruct (final_file l Hstart Hlog files st Hbuilt Hfits _ _ Hf) as (Ht & Hnl & _). replace (i - 2 + 2) with i in * by lia. unfold is_dir. rewrite Ht, Hnl. done.
Qed.
End Root.

(** A name that occurs once is found. *)
Lemma map_of_lookup es i n : NoDup (map snd es) -> (i, n) ∈ es -> i <> 0 -> map_of es !! n = Some i.
Proof.
  induction es as [|[j m] es IH]; intros Hnd Hin Hi; [by apply not_elem_of_nil in Hin|]. cbn [map snd] in Hnd. apply NoDup_cons in Hnd as [Hm Hnd]. rewrite map_of_cons.
  apply elem_of_cons in Hin as [[= <- <-]|Hin]; [rewrite (proj2 (Z.eqb_neq i 0)) by done; by rewrite lookup_insert_eq|].
  assert (n <> m) as Hne by (intros ->; apply Hm; apply list_elem_of_fmap; by exists (i, m)). rewrite <-(IH Hnd Hin Hi).
  case_match; [done|]. by rewrite lookup_insert_ne by done.
Qed.

Lemma dir_list_lookup files : forall n k f, files !! k = Some f -> (n + Z.of_nat k, skip_underscore f.1) ∈ dir_list n files.
Proof.
  induction files as [|g files IH]; intros n k f Hk; [done|]. cbn [dir_list]. destruct k as [|k].
  - injection Hk as <-. rewrite Z.add_0_r. by left.
  - right. replace (n + Z.of_nat (Datatypes.S k)) with (n + 1 + Z.of_nat k) by lia. by apply IH.
Qed.

(** What the kernel finds on the image of [files]. *)
Record mkfs_image {S} `{BufCache S} (l : log S) (files : list given) (v : bspec) : Prop := {
  mi_disk : disk_ok mk_sb (size - nlog) l v;
  mi_used : forall b, 0 <= b < size -> used v mk_sb b = (b <? data_start + total (all_files files));
  mi_free : nfree mk_sb (size - nlog) v = size - nlog - (data_start + total (all_files files));
  mi_file : forall k f, zget files k = Some f -> let x := disk_inode v (k + 2) in
    i_type x = T_FILE /\ i_nlink x = 1 /\ i_size x = zlen (concat f.2) /\ has_blocks mk_sb l v x (blocks_for (i_size x)) /\ file_ok l v x /\
    forall o, 0 <= o < i_size x -> file_byte v x o = ld8 (concat f.2) o;
  mi_apart : forall k k' f f' j j', zget (all_files files) k = Some f -> zget (all_files files) k' = Some f' -> k <> k' ->
    0 <= j < blocks_for (zlen f.2) -> 0 <= j' < blocks_for (zlen f'.2) -> blk v (disk_inode v (k + 1)) j <> blk v (disk_inode v (k' + 1)) j';
  mi_tree : zlen (root_bytes files) mod 512 <> 0 -> tree_ok l v (fun i => 1 <= i <= 1 + zlen files) /\ names v ROOTINO = map_of (map key_of (root_list files))
}.

Lemma mkfs_run files : fits_image files -> exists st, mkfs_main (argv_of files) mkfs_start = Ok tt (done_st files st) /\ built st (all_files files).
Proof.
  intros Hf. destruct (mkfs_front files Hf) as (_ & st & E & Hb & _). exists st. split; [|done]. rewrite E. by apply finish_run.
Qed.

Section Claims.
Context {S : Type} `{BufCache S}.

(** C11: mkfs builds a file system.  When the files given fit before the log,
    mkfs ends without an error, and the kernel finds on the image: the bitmap,
    which has in use exactly the blocks up to the last one of a file, so that
    the disk is sound for balloc, bmap and writei; each file, with its type, its
    size, its bytes and blocks of its own; the root directory, which binds each
    name to its file in a tree that namex can follow (unless the entries fill
    whole blocks); a name that occurs once leads to its file. *)
Theorem mkfs_builds (l : log S) files : fits_image files -> Forall (fun f => Forall is_byte f.1) files -> lg_start l = size - nlog -> lg_size l = nlog ->
  wp (mkfs_main (argv_of files)) (fun _ st => mkfs_image l files (image st) /\
    (zlen (root_bytes files) mod 512 <> 0 -> NoDup (map snd (map key_of (root_list files))) ->
     forall k f, zget files k = Some f -> names (image st) ROOTINO !! key (skip_underscore f.1) = Some (k + 2))) mkfs_start.
Proof.
  intros Hf Hby Hs Hl. destruct (mkfs_run files Hf) as (st & E & Hb). eapply ok_wp; [exact E|]. fold (final files st). split; [split|].
  - by apply final_disk.
  - intros b Hbr. rewrite (final_used files st Hb Hf) by done. by rewrite (bt_free _ _ Hb).
  - rewrite (final_nfree files st Hb Hf). by rewrite (bt_free _ _ Hb).
  - intros k f. by apply final_file.
  - intros k k' f f' j j'. by apply final_apart.
  - intros Hm. split; [by apply final_tree|by apply root_names].
  - intros Hm Hnd k f Hk. rewrite (root_names files st Hb Hf Hm). pose proof (zget_Some _ _ _ Hk) as Hr. rewrite zget_nat in Hk by lia.
    apply map_of_lookup; [done| |lia]. apply list_elem_of_fmap. exists (k + 2, skip_underscore f.1). split; [done|]. right. right.
    pose proof (dir_list_lookup files 2 _ _ Hk) as W. rewrite Z2Nat.id in W by lia. by rewrite Z.add_comm in W.
Qed.

(** C37: when the entries of the root directory fill whole blocks, mkfs's
    rounding gives the directory 512 bytes more than it has blocks for: the
    block that its last bytes should be in is not allocated. *)
Theorem mkfs_root_hole (l : log S) files : fits_image files -> (2 + zlen files) mod 32 = 0 -> lg_start l = size - nlog -> lg_size l = nlog ->
  wp (mkfs_main (argv_of files)) (fun _ st => let x := disk_inode (image st) ROOTINO in
    i_size x = 16 * (2 + zlen files) + 512 /\ blk (image st) x ((i_size x - 1) / 512) = 0 /\ ~ file_ok l (image st) x) mkfs_start.
Proof.
  intros Hf Hm Hs Hl. destruct (mkfs_run files Hf) as (st & E & Hb). eapply ok_wp; [exact E|]. fold (final files st). cbv zeta. pose proof (zlen_root files) as El. pose proof (zlen_nonneg files) as H0.
  assert (zlen (root_bytes files) mod 512 = 0) as Hm' by (rewrite El; unfold given in *; Z.div_mod_to_equations; lia).
  destruct (root_hole l Hs Hl files st Hb Hf Hm') as [Hsz Hbk]. rewrite Hsz, El. assert ((32 + 16 * zlen files + 512 - 1) / 512 = zlen (root_bytes files) / 512) as Ed by (rewrite El in Hm' |- *; unfold given in *; Z.div_mod_to_equations; lia).
  split; [unfold given in *; lia|]. rewrite Ed. split; [exact Hbk|]. intros Hok. destruct (fo_blk _ _ _ Hok (zlen (root_bytes files) / 512)) as [Hnz _]; [apply Z.div_pos; unfold given in *; lia| |by apply Hnz].
  rewrite Hsz. rewrite El. Z.div_mod_to_equations. unfold given in *. lia.
Qed.
End Claims.

(** ** Two files *)

Definition demo_given : list given := [([95; 99; 97; 116], [[1; 2; 3]; [4]]); ([82], [replicate 512 7; replicate 512 8])].

Definition demo_log : log bcache := Log false 1014 10 false ROOTDEV 0 (replicate 10 0) 0 (boot_cache []).

Lemma demo_fits : fits_image demo_given.
Proof.
  split.
  - repeat constructor; cbn; set_solver.
  - by vm_compute.
  - repeat constructor; by vm_compute.
  - by vm_compute.
Qed.

Lemma demo_bytes : Forall (fun f : given => Forall is_byte f.1) demo_given.
Proof. repeat constructor; unfold is_byte; lia. Qed.

(** The file named _cat is inode 2 under the name cat. *)
Lemma mkfs_builds_witness :
  wp (mkfs_main (argv_of demo_given)) (fun _ st => names (image st) ROOTINO !! [99; 97; 116] = Some 2 /\ i_size (disk_inode (image st) 3) = 1024 /\
    nfree mk_sb 1014 (image st) = 981) mkfs_start.
Proof.
  eapply wp_mono; [exact (mkfs_builds demo_log demo_given demo_fits demo_bytes eq_refl eq_refl)|]. intros [] st [[_ _ Hn Hf _ _] Hnames]. split; [|split].
  - apply (Hnames ltac:(by vm_compute) ltac:(apply (bool_decide_unpack _); by vm_compute) 0 _ eq_refl).
  - exact (proj1 (proj2 (proj2 (Hf 1 _ eq_refl)))).
  - exact Hn.
Defined.

(** Thirty empty files: 32 entries. *)
Definition demo_thirty : list given := map (fun i => ([97; i], [])) (seqZ 65 30).

Lemma demo_thirty_fits : fits_image demo_thirty.
Proof.
  split.
  - apply (bool_decide_unpack _). by vm_compute.
  - by vm_compute.
  - apply (bool_decide_unpack _). by vm_compute.
  - by vm_compute.
Qed.

Lemma mkfs_root_hole_witness : wp (mkfs_main (argv_of demo_thirty)) (fun _ st => i_size (disk_inode (image st) ROOTINO) = 1024 /\ blk (image st) (disk_inode (image st) ROOTINO) 1 = 0) mkfs_start.
Proof.
  eapply wp_mono; [exact (mkfs_root_hole demo_log demo_thirty demo_thirty_fits eq_refl eq_refl eq_refl)|]. intros [] st (Hs & Hb & _). split; [exact Hs|]. rewrite Hs in Hb. exact Hb.
Defined.
