(* ===== verification/Ulib.v ===== *)
(** * ulib.c and printf.c: the library of the user programs

    String routines over the byte memory of a process, atoi and printf.  A loop
    that runs until a NUL takes a bound and answers [None] when the bound is
    reached; with the length of the string as bound it never is. *)

From S2P Require Import Prelude CString ConsoleSpec.

(** strcpy: [while ((star s++ = star t++) != 0);] *)
Fixpoint strcpy_loop (fuel : nat) (m : mem) (s t : Z) : option mem :=
  match fuel with
  | O => None
  | S f => if m t =? 0 then Some (upd m s 0) else strcpy_loop f (upd m s (m t)) (u32 (s + 1)) (u32 (t + 1))
  end.

Definition strcpy (fuel : nat) (m : mem) (s t : Z) : option (mem * Z) := m' ← strcpy_loop fuel m s t; Some (m', s).

Fixpoint strcmp (fuel : nat) (m : mem) (p q : Z) : option Z :=
  match fuel with
  | O => None
  | S f =>
      if negb (m p =? 0) && (m p =? m q) then strcmp f m (u32 (p + 1)) (u32 (q + 1))
      else Some (u8 (m p) - u8 (m q))
  end.

(** [None]: no end found; [Some None]: the character does not occur. *)
Fixpoint strchr (fuel : nat) (m : mem) (s c : Z) : option (option Z) :=
  match fuel with
  | O => None
  | S f => if m s =? 0 then Some None else if m s =? c then Some (Some s) else strchr f m (u32 (s + 1)) c
  end.

(** memmove: copies upwards whatever the overlap; [n] is an int. *)
Definition memmove (m : mem) (vdst vsrc n : Z) : mem * Z := (copy_up m vdst vsrc (Z.to_nat n), vdst).

(** gets: [input] is what the reads of one byte will return. *)
Fixpoint gets_loop (fuel : nat) (m : mem) (buf i max : Z) (input : list Z) : mem * Z * list Z :=
  match fuel with
  | O => (m, i, input)
  | S f =>
      if i + 1 <? max then
        match input with
        | [] => (m, i, [])
        | c :: input' =>
            let m := upd m (u32 (buf + i)) c in
            if (c =? 10) || (c =? 13) then (m, i + 1, input') else gets_loop f m buf (i + 1) max input'
        end
      else (m, i, input)
  end.

Definition gets (m : mem) (buf max : Z) (input : list Z) : mem * list Z :=
  let '(m, i, input) := gets_loop (Z.to_nat max) m buf 0 max input in (upd m (u32 (buf + i)) 0, input).

Fixpoint atoi_loop (fuel : nat) (m : mem) (s n : Z) : option Z :=
  match fuel with
  | O => None
  | S f =>
      if (48 <=? m s) && (m s <=? 57) then atoi_loop f m (u32 (s + 1)) (s32 (n * 10 + m s - 48)) else Some n
  end.

Definition atoi (fuel : nat) (m : mem) (s : Z) : option Z := atoi_loop fuel m s 0.

(** printf.c: digits[] has capital letters. *)
Definition udigit (d : Z) : Z := if d <? 10 then 48 + d else 65 + (d - 10).

(** The do-while loop of printint into buf[16]; [None] if it overflowed. *)
Fixpoint uprint_digits (fuel : nat) (x base : Z) (buf : list Z) : option (list Z) :=
  match fuel with
  | O => None
  | S f =>
      if zlen buf <? 16 then
        let buf := buf ++ [udigit (x mod base)] in
        let x := x / base in
        if negb (x =? 0) then uprint_digits f x base buf else Some buf
      else None
  end.

(** The characters of printint(fd, xx, base, sgn), as they are written. *)
Definition uprintint (xx base : Z) (sgn : bool) : option (list Z) :=
  let neg := sgn && (xx <? 0) in
  let x := if neg then u32 (- xx) else u32 xx in
  buf ← uprint_digits 33 x base [];
  let buf := if neg then buf ++ [45] else buf in
  Some (rev buf).

(** An argument of printf: a word, or a pointer to a string (null as [None]). *)
Inductive uarg : Type := UInt (v : Z) | UStr (s : option (list Z)).

Definition UNULL : list Z := [40; 110; 117; 108; 108; 41].   (* "(null)" *)

(** printf: [state] is set after a percent sign; the characters written, or
    [None] when a directive finds no argument of its kind. *)
Fixpoint printf_loop (state : bool) (fmt : list Z) (ap : list uarg) : option (list Z) :=
  match fmt with
  | [] => Some []
  | c :: fmt' =>
      if negb state then
        if c =? 37 then printf_loop true fmt' ap else out ← printf_loop false fmt' ap; Some (c :: out)
      else if c =? 100 then
        match ap with
        | UInt v :: ap' => ds ← uprintint (s32 v) 10 true; out ← printf_loop false fmt' ap'; Some (ds ++ out)
        | _ => None
        end
      else if (c =? 120) || (c =? 112) then
        match ap with
        | UInt v :: ap' => ds ← uprintint (s32 v) 16 false; out ← printf_loop false fmt' ap'; Some (ds ++ out)
        | _ => None
        end
      else if c =? 115 then
        match ap with
        | UStr s :: ap' => out ← printf_loop false fmt' ap'; Some (default UNULL s ++ out)
        | _ => None
        end
      else if c =? 99 then
        match ap with
        | UInt v :: ap' => out ← printf_loop false fmt' ap'; Some (u8 v :: out)
        | _ => None
        end
      else if c =? 37 then out ← printf_loop false fmt' ap; Some (c :: out)
      else out ← printf_loop false fmt' ap; Some (37 :: c :: out)
  end.

Definition printf (fmt : list Z) (ap : list uarg) : option (list Z) := printf_loop false fmt ap.

(** ** Strings in memory *)

(** The NUL-terminated string at [p] is [l]. *)
Fixpoint cstr (m : mem) (p : Z) (l : list Z) : Prop :=
  match l with
  | [] => m p = 0
  | c :: l' => c <> 0 /\ m p = c /\ cstr m (u32 (p + 1)) l'
  end.

Lemma cstr_ext m m' l : forall p, is_u32 p -> (forall i, 0 <= i <= zlen l -> m' (u32 (p + i)) = m (u32 (p + i))) ->
  cstr m p l -> cstr m' p l.
Proof.
  induction l as [|c l IH]; intros p Hp He; pose proof (He 0) as H0; rewrite Z.add_0_r, u32_small in H0 by done; cbn [cstr].
  - by rewrite H0.
  - rewrite zlen_cons in *. pose proof (zlen_nonneg l). intros (Hc & Hm & Hl). split; [done|]. split; [rewrite H0; [done|lia]|].
    apply IH; [apply u32_range| |done]. intros i Hi. rewrite !u32_add_l, <-!Z.add_assoc. apply He. lia.
Qed.

Lemma cstr_nonzero m p l : cstr m p l -> Forall (fun c => c <> 0) l.
Proof. revert p. induction l as [|c l IH]; intros p; cbn [cstr]; [done|]. intros (Hc & _ & Hl). constructor; [done|by eapply IH]. Qed.

(** The string at an offset. *)
Lemma cstr_app m l1 l2 : forall p, is_u32 p -> cstr m p (l1 ++ l2) -> cstr m (u32 (p + zlen l1)) l2.
Proof.
  induction l1 as [|c l1 IH]; intros p Hp.
  - by rewrite Z.add_0_r, u32_small.
  - intros (_ & _ & Hl). rewrite zlen_cons. replace (p + (zlen l1 + 1)) with (p + 1 + zlen l1) by lia. rewrite <-u32_add_l.
    apply IH; [apply u32_range|done].
Qed.

Lemma strchr_ok m l c : c <> 0 -> forall fuel p, is_u32 p -> cstr m p l -> (length l < fuel)%nat ->
  exists r, strchr fuel m p c = Some r /\
    match r with
    | None => c ∉ l
    | Some q => exists l1 l2, l = l1 ++ c :: l2 /\ c ∉ l1 /\ q = u32 (p + zlen l1)
    end.
Proof.
  intros Hc0. induction l as [|x l IH]; intros [|f] p Hp Hl Hf; [cbn in Hf; lia| |cbn in Hf; lia|].
  - cbn in Hl |- *. rewrite Hl. exists None. split; [done|]. by intros ?%elem_of_nil.
  - destruct Hl as (Hx & Hm & Hl). cbn [strchr]. rewrite Hm, (proj2 (Z.eqb_neq x 0)) by done. destruct (Z.eqb_spec x c) as [->|Hne].
    + exists (Some p). split; [done|]. exists [], l. split; [done|]. split; [by intros ?%elem_of_nil|].
      by rewrite Z.add_0_r, u32_small.
    + destruct (IH f (u32 (p + 1))) as (r & E & Hr); [apply u32_range|done|cbn in Hf; lia|]. exists r. split; [done|].
      destruct r as [q|]; [|set_solver]. destruct Hr as (l1 & l2 & -> & Hn & ->). exists (x :: l1), l2.
      split; [done|]. split; [set_solver|]. rewrite zlen_cons, u32_add_l. f_equal. lia.
Qed.

(** ** strcmp *)

Lemma strcmp_ok m l1 : forall l2 fuel p q, cstr m p l1 -> cstr m q l2 -> (length l1 < fuel)%nat ->
  Forall is_byte l1 -> Forall is_byte l2 -> exists d, strcmp fuel m p q = Some d /\ (d = 0 <-> l1 = l2).
Proof.
  induction l1 as [|c l1 IH]; intros l2 [|f] p q H1 H2 Hf B1 B2; [cbn in Hf; lia| |cbn in Hf; lia|]; cbn [strcmp].
  - cbn in H1. rewrite H1. cbn. eexists. split; [done|]. destruct l2 as [|c l2]; cbn in H2; [by rewrite H2|].
    destruct H2 as (Hc & -> & _). apply Forall_cons in B2 as [Hb _]. rewrite (u8_small c) by done. change (u8 0) with 0.
    split; [lia|done].
  - destruct H1 as (Hc & Hm & H1). rewrite Hm, (proj2 (Z.eqb_neq c 0)) by done. cbn [negb andb].
    apply Forall_cons in B1 as [Hb B1]. destruct l2 as [|d l2].
    + cbn in H2. rewrite H2, (proj2 (Z.eqb_neq c 0)) by done. eexists. split; [done|]. rewrite (u8_small c) by done. change (u8 0) with 0.
      split; [lia|done].
    + destruct H2 as (Hd & -> & H2). apply Forall_cons in B2 as [Hb2 B2]. destruct (Z.eqb_spec c d) as [->|Hne].
      * destruct (IH l2 f (u32 (p + 1)) (u32 (q + 1)) H1 H2) as (r & E & Hr); [cbn in Hf; lia|done|done|].
        exists r. split; [done|]. rewrite Hr. split; [by intros ->|by intros [=]].
      * eexists. split; [done|]. rewrite !u8_small by done. split; [lia|by intros [=]].
Qed.

(** ** memmove *)

Lemma copy_up_repeats n : forall m d s k, 0 < k -> d = s + k -> 0 <= s -> d + Z.of_nat n <= 2 ^ 32 ->
  filled m (copy_up m d s n) d (d + Z.of_nat n) (fun a => m (s + (a - d) mod k)).
Proof.
  induction n as [|n IH]; intros m d s k Hk -> Hs Hr a; cbn [copy_up]; [by in_range|].
  destruct n as [|n'].
  { cbn [copy_up]. unfold upd. destruct (Z.eqb_spec a (s + k)) as [->|]; in_range; [|done].
    by rewrite Z.sub_diag, Z.mod_0_l, Z.add_0_r by lia. }
  set (n := Datatypes.S n') in *. rewrite !u32_small by lia.
  rewrite (IH _ (s + k + 1) (s + 1) k Hk) by lia. destruct (Z.lt_ge_cases a (s + k)).
  { in_range. by rewrite upd_ne by lia. }
  destruct (decide (a = s + k)) as [->|].
  { in_range. by rewrite upd_eq, Z.sub_diag, Z.mod_0_l, Z.add_0_r by lia. }
  destruct (Z.lt_ge_cases a (s + k + Z.of_nat (Datatypes.S n))); [|in_range; by rewrite upd_ne by lia].
  in_range. set (i := a - (s + k + 1)). replace (a - (s + k)) with (i + 1) by lia.
  pose proof (Z.mod_pos_bound i k ltac:(lia)). destruct (decide (i mod k = k - 1)) as [E|E].
  - replace (s + 1 + i mod k) with (s + k) by lia. rewrite upd_eq. f_equal.
    assert ((i + 1) mod k = 0) as ->; [|lia]. rewrite <-Zplus_mod_idemp_l, E. replace (k - 1 + 1) with k by lia. by apply Z_mod_same_full.
  - rewrite upd_ne by lia. f_equal. assert ((i + 1) mod k = i mod k + 1) as ->; [|lia].
    rewrite <-Zplus_mod_idemp_l. apply Z.mod_small. lia.
Qed.

(** The memmove of ulib.c copies as if through a temporary when the
    destination lies below the source or does not overlap it; when it starts
    inside the source, the bytes before the destination are repeated instead;
    a negative count copies nothing. *)
Theorem umemmove_overlap m dst src n : 0 <= dst -> 0 <= src -> dst + n <= 2 ^ 32 -> src + n <= 2 ^ 32 ->
  exists m', memmove m dst src n = (m', dst) /\
    (n <= 0 -> m' = m) /\
    (0 < n -> dst <= src \/ src + n <= dst -> filled m m' dst (dst + n) (fun a => m (src + (a - dst)))) /\
    (0 < n -> src < dst < src + n -> filled m m' dst (dst + n) (fun a => m (src + (a - dst) mod (dst - src)))).
Proof.
  intros Hd Hs Hdn Hsn. exists (copy_up m dst src (Z.to_nat n)). split; [done|]. split; [|split].
  - intros Hn. by replace (Z.to_nat n) with O by lia.
  - intros Hn Hov a. pose proof (copy_up_spec (Z.to_nat n) m dst src) as H. rewrite Z2Nat.id in H by lia. by apply H.
  - intros Hn Hov a. pose proof (copy_up_repeats (Z.to_nat n) m dst src (dst - src)) as H. rewrite Z2Nat.id in H by lia. apply H; lia.
Qed.

(** ** Numbers *)

Lemma uprint_digits_eq b : 2 <= b <= 10 -> forall fuel x buf, 0 <= x < 2 ^ 32 ->
  uprint_digits fuel x b buf = Console.print_digits fuel x b buf.
Proof.
  intros Hb fuel. induction fuel as [|f IH]; intros x buf Hx; [done|]. cbn [uprint_digits Console.print_digits].
  rewrite (div_quotient x b) by lia. pose proof (Z.mod_pos_bound x b ltac:(lia)). pose proof (Z.div_mod x b ltac:(lia)).
  assert (u32 (x - x / b * b) = x mod b) as -> by (rewrite u32_small; lia).
  assert (udigit (x mod b) = Console.digit (x mod b)) as -> by (unfold udigit, Console.digit; by rewrite (proj2 (Z.ltb_lt _ _)) by lia).
  destruct (zlen buf <? 16); [|done]. destruct (Z.eqb_spec (x / b) 0); [done|]. cbn [negb]. apply IH.
  split; [by apply Z.div_pos; lia|]. apply Z.div_lt_upper_bound; nia.
Qed.

(** The decimal digits of a number that is not negative. *)
Lemma uprintint_ok x sgn : 0 <= x < 2 ^ 31 -> exists cs, uprintint x 10 sgn = Some cs /\ canonical 10 cs /\ numeral 10 cs = x.
Proof.
  intros Hx. unfold uprintint. rewrite (proj2 (Z.ltb_ge x 0)), andb_false_r, u32_small by lia.
  rewrite uprint_digits_eq by lia. destruct (print_digits_ok 10 ltac:(lia) 10 33 x []) as (ds & E & Hv & Hc); [cbn; lia|lia|lia|by vm_compute|].
  rewrite E. exists (rev ds). split; [done|]. by split.
Qed.

(** A numeral followed by something else than a digit. *)
Fixpoint digits_at (m : mem) (s : Z) (l : list Z) : Prop :=
  match l with
  | [] => ~ (48 <= m s <= 57)
  | c :: l' => m s = c /\ 48 <= c <= 57 /\ digits_at m (u32 (s + 1)) l'
  end.

Lemma atoi_loop_ok m l : forall fuel s n, digits_at m s l -> (length l < fuel)%nat -> 0 <= n ->
  foldl (fun v c => 10 * v + digit_val c) n l < 2 ^ 31 ->
  atoi_loop fuel m s n = Some (foldl (fun v c => 10 * v + digit_val c) n l).
Proof.
  induction l as [|c l IH]; intros [|f] s n Hl Hf Hn Hb; [cbn in Hf; lia| |cbn in Hf; lia|]; cbn [atoi_loop].
  - cbn in Hl. destruct (Z.leb_spec 48 (m s)), (Z.leb_spec (m s) 57); try done. lia.
  - destruct Hl as (Hm & Hc & Hl). rewrite Hm, (proj2 (Z.leb_le 48 c)), (proj2 (Z.leb_le c 57)) by lia. cbn [andb foldl] in Hb |- *.
    assert (digit_val c = c - 48) as Ev by (unfold digit_val; rewrite (proj2 (Z.ltb_lt c 58)) by lia; done).
    assert (forall k, 0 <= k -> k <= foldl (fun v c => 10 * v + digit_val c) k l) as Hmono.
    { clear -Hl. revert s Hl. induction l as [|d l IH]; intros s Hl k Hk; [done|]. destruct Hl as (_ & Hd & Hl). cbn [foldl].
      assert (digit_val d = d - 48) as -> by (unfold digit_val; rewrite (proj2 (Z.ltb_lt d 58)) by lia; done).
      etransitivity; [|eapply IH; [exact Hl|lia]]. lia. }
    specialize (Hmono (10 * n + digit_val c) ltac:(lia)). rewrite s32_small by lia.
    replace (n * 10 + c - 48) with (10 * n + digit_val c) by lia. apply IH; [done|cbn in Hf; lia|lia|done].
Qed.

(** Atoi reads back what printf's %d wrote: for every number that is not
    negative, from memory that holds the digits and then no further digit. *)
Theorem printint_atoi_roundtrip x m s cs : 0 <= x < 2 ^ 31 -> uprintint x 10 true = Some cs -> digits_at m s cs ->
  atoi (length cs + 1) m s = Some x.
Proof.
  intros Hx Hp Hd. destruct (uprintint_ok x true Hx) as (cs' & E & _ & Hv). assert (cs' = cs) as -> by congruence.
  unfold atoi. rewrite (atoi_loop_ok m cs); [by rewrite <-Hv|done|lia|lia|]. change (numeral 10 cs < 2 ^ 31). lia.
Qed.

(** ** Runs *)

(** Ten bytes 10, 11, ... at 1000. *)
Definition demo_mem : mem := fun a => if (1000 <=? a) && (a <? 1010) then a - 990 else 0.

Lemma umemmove_overlap_witness : exists m',
  memmove demo_mem 1002 1000 6 = (m', 1002) /\ map m' [1002; 1003; 1004; 1005; 1006; 1007] = [10; 11; 10; 11; 10; 11].
Proof.
  destruct (umemmove_overlap demo_mem 1002 1000 6) as (m' & E & _ & _ & Hm); [lia..|]. exists m'. split; [done|].
  specialize (Hm ltac:(lia) ltac:(lia)). cbn [map]. rewrite !Hm. vm_compute. reflexivity.
Defined.

(** "1024" at 2000. *)
Definition demo_num : mem := fun a => nth (Z.to_nat (a - 2000)) [49; 48; 50; 52; 0] 0.

Lemma printint_atoi_roundtrip_witness : uprintint 1024 10 true = Some [49; 48; 50; 52] /\ atoi 5 demo_num 2000 = Some 1024.
Proof.
  split; [vm_compute; reflexivity|].
  apply (printint_atoi_roundtrip 1024 demo_num 2000 [49; 48; 50; 52]); [lia|vm_compute; reflexivity|].
  cbn [digits_at]. repeat split; vm_compute; (reflexivity || (intros [? ?]; congruence) || discriminate).
Defined.

(** printf(1, "%d%% of %x: %s\n", -7, 255, 0) *)
Example printf_run :
  printf [37; 100; 37; 37; 32; 111; 102; 32; 37; 120; 58; 32; 37; 115; 10] [UInt (-7); UInt 255; UStr None] =
  Some [45; 55; 37; 32; 111; 102; 32; 70; 70; 58; 32; 40; 110; 117; 108; 108; 41; 10].
Proof. vm_compute. reflexivity. Qed.
