(* ===== verification/Grep.v ===== *)
(** * grep.c: regular expressions and the line loop

    The matcher of grep.c runs on strings in the memory of the process; the
    [fuel] bounds the calls, [None] says that it was too small.  [read_] is the
    read system call: [uin] holds what each call will find, [uout] what has been
    written.  Reading or writing outside buf[] is a fault. *)

From S2P Require Import Prelude CString Ulib.

Fixpoint matchhere (fuel : nat) (m : mem) (re text : Z) : option bool :=
  match fuel with
  | O => None
  | S f =>
      if m re =? 0 then Some true else
      if m (u32 (re + 1)) =? 42 then matchstar f m (m re) (u32 (re + 2)) text else
      if (m re =? 36) && (m (u32 (re + 1)) =? 0) then Some (m text =? 0) else
      if negb (m text =? 0) && ((m re =? 46) || (m re =? m text)) then matchhere f m (u32 (re + 1)) (u32 (text + 1))
      else Some false
  end
with matchstar (fuel : nat) (m : mem) (c re text : Z) : option bool :=
  match fuel with
  | O => None
  | S f =>
      b ← matchhere f m re text;
      if (b : bool) then Some true
      else if negb (m text =? 0) && ((m text =? c) || (c =? 46)) then matchstar f m c re (u32 (text + 1))
      else Some false
  end.

(** The do-while loop of match. *)
Fixpoint match_loop (fuel : nat) (m : mem) (re text : Z) : option bool :=
  match fuel with
  | O => None
  | S f =>
      b ← matchhere f m re text;
      if (b : bool) then Some true
      else if negb (m text =? 0) then match_loop f m re (u32 (text + 1)) else Some false
  end.

Definition match_ (fuel : nat) (m : mem) (re text : Z) : option bool :=
  if m re =? 94 then matchhere fuel m (u32 (re + 1)) text else match_loop fuel m re text.

(** ** What a pattern means *)

Inductive atom : Type := Any | Lit (c : Z).

Inductive item : Type := One (a : atom) | Many (a : atom).

Definition atom_of (c : Z) : atom := if c =? 46 then Any else Lit c.

(** The items of a pattern, and whether it ends in a dollar. *)
Fixpoint parse_re (re : list Z) : list item * bool :=
  match re with
  | [] => ([], false)
  | c :: re1 =>
      match re1 with
      | [] => if c =? 36 then ([], true) else ([One (atom_of c)], false)
      | d :: re2 =>
          if d =? 42 then let '(p, e) := parse_re re2 in (Many (atom_of c) :: p, e)
          else let '(p, e) := parse_re re1 in (One (atom_of c) :: p, e)
      end
  end.

Definition accepts (a : atom) (x : Z) : Prop := match a with Any => True | Lit c => x = c end.

(** The strings that the items describe. *)
Fixpoint sem (p : list item) (t : list Z) : Prop :=
  match p with
  | [] => t = []
  | One a :: p' => exists x t', t = x :: t' /\ accepts a x /\ sem p' t'
  | Many a :: p' => exists t1 t2, t = t1 ++ t2 /\ Forall (accepts a) t1 /\ sem p' t2
  end.

(** The pattern describes a prefix of the text, all of it after a dollar. *)
Definition here (p : list item * bool) (t : list Z) : Prop :=
  exists mid post, t = mid ++ post /\ sem p.1 mid /\ (p.2 = true -> post = []).

(** The pattern occurs in the text: at its start after a caret. *)
Definition occurs (re t : list Z) : Prop :=
  match re with
  | 94 :: re' => here (parse_re re') t
  | _ => exists pre t', t = pre ++ t' /\ here (parse_re re) t'
  end.

Lemma here_nil t : here ([], false) t.
Proof. by exists [], t. Qed.

Lemma here_end t : here ([], true) t <-> t = [].
Proof. split; [intros (mid & post & -> & Hm & He); cbn in Hm; by rewrite Hm, He|intros ->; by exists [], []]. Qed.

Lemma here_one a p e t : here (One a :: p, e) t <-> exists x t', t = x :: t' /\ accepts a x /\ here (p, e) t'.
Proof.
  split.
  - intros (mid & post & -> & (x & t' & -> & Ha & Hs) & He). exists x, (t' ++ post). split; [done|]. split; [done|]. by exists t', post.
  - intros (x & t' & -> & Ha & mid & post & -> & Hs & He). exists (x :: mid), post. split; [done|]. split; [by exists x, mid|done].
Qed.

Lemma here_many a p e t : here (Many a :: p, e) t <-> here (p, e) t \/ exists x t', t = x :: t' /\ accepts a x /\ here (Many a :: p, e) t'.
Proof.
  split.
  - intros (mid & post & -> & (t1 & t2 & -> & Hf & Hs) & He). destruct t1 as [|x t1]; [left; by exists t2, post|right].
    apply Forall_cons in Hf as [Hx Hf]. exists x, (t1 ++ t2 ++ post). rewrite <-app_assoc. split; [done|]. split; [done|].
    exists (t1 ++ t2), post. rewrite <-app_assoc. split; [done|]. split; [by exists t1, t2|done].
  - intros [(mid & post & -> & Hs & He)|(x & t' & -> & Hx & mid & post & -> & (t1 & t2 & -> & Hf & Hs) & He)].
    + exists mid, post. split; [done|]. split; [by exists [], mid|done].
    + exists (x :: t1 ++ t2), post. split; [done|]. split; [|done]. exists (x :: t1), t2. split; [done|]. split; [by constructor|done].
Qed.

Lemma accepts_of c x : accepts (atom_of c) x <-> c = 46 \/ x = c.
Proof. unfold atom_of. destruct (Z.eqb_spec c 46) as [->|Hc]; cbn; [by split; [left|]|]. split; [by right|by intros [?|?]]. Qed.

(** ** The matcher is correct *)

Section Matcher.
Variable m : mem.

(** What one call answers. *)
Definition answers (o : option bool) (P : Prop) : Prop := exists b, o = Some b /\ (b = true <-> P).

Lemma answers_iff o P Q : answers o P -> (P <-> Q) -> answers o Q.
Proof. intros (b & E & H) HPQ. exists b. split; [done|]. by rewrite H. Qed.

Lemma answers_some b P : (b = true <-> P) -> answers (Some b) P.
Proof. by exists b. Qed.

Lemma parse_star c re : parse_re (c :: 42 :: re) = (Many (atom_of c) :: (parse_re re).1, (parse_re re).2).
Proof. cbn [parse_re Z.eqb Pos.eqb]. by destruct (parse_re re). Qed.

Lemma parse_one c re : head re <> Some 42 -> ~ (c = 36 /\ re = []) ->
  parse_re (c :: re) = (One (atom_of c) :: (parse_re re).1, (parse_re re).2).
Proof.
  intros Hs He. cbn [parse_re]. destruct re as [|d re].
  - destruct (Z.eqb_spec c 36); [naive_solver|done].
  - destruct (Z.eqb_spec d 42) as [->|]; [done|]. by destruct (parse_re (d :: re)).
Qed.

Lemma matchhere_step f r t re text : cstr m re r -> cstr m text t ->
  (forall c r', r = c :: 42 :: r' -> answers (matchstar f m c (u32 (re + 2)) text) (here (Many (atom_of c) :: (parse_re r').1, (parse_re r').2) t)) ->
  (forall c r' x t', r = c :: r' -> t = x :: t' -> answers (matchhere f m (u32 (re + 1)) (u32 (text + 1))) (here (parse_re r') t')) ->
  answers (matchhere (Datatypes.S f) m re text) (here (parse_re r) t).
Proof.
  intros Hr Ht Hstar Hone. cbn [matchhere]. destruct r as [|c r].
  { cbn in Hr. rewrite Hr. apply answers_some. split; [intros _; apply here_nil|done]. }
  destruct Hr as (Hc & -> & Hr). rewrite (proj2 (Z.eqb_neq c 0)) by done.
  assert (m (u32 (re + 1)) = default 0 (head r)) as -> by (destruct r; [done|apply Hr]).
  assert (forall d, d <> 0 -> default 0 (head r) = d <-> head r = Some d) as Hhead by (intros d Hd; destruct r; cbn; naive_solver).
  destruct (Z.eqb_spec (default 0 (head r)) 42) as [E|E].
  { apply Hhead in E; [|done]. destruct r as [|d r]; [done|]. injection E as ->. rewrite parse_star. by apply Hstar. }
  rewrite Hhead in E by done. destruct (Z.eqb_spec c 36) as [->|Hd]; cbn [andb];
    [destruct (Z.eqb_spec (default 0 (head r)) 0) as [E0|E0]|].
  { destruct r as [|d r]; [|by destruct Hr as (? & _); cbn in E0]. apply answers_some. cbn [parse_re Z.eqb Pos.eqb]. rewrite here_end.
    destruct t as [|x t]; cbn in Ht; [by rewrite Ht|]. destruct Ht as (Hx & -> & _). by rewrite (proj2 (Z.eqb_neq x 0)). }
  all: rewrite parse_one; [|done|intros [? ->]; done || by apply E0].
  all: destruct t as [|x t]; [cbn in Ht; rewrite Ht; apply answers_some; rewrite here_one; naive_solver|].
  all: destruct Ht as (Hx & -> & Ht); rewrite (proj2 (Z.eqb_neq x 0)) by done; cbn [negb andb].
  all: destruct ((_ =? 46) || (_ =? x)) eqn:Ha; [eapply answers_iff; [by eapply Hone|]|apply answers_some]; rewrite here_one.
  all: rewrite ?orb_true_iff, ?orb_false_iff, ?Z.eqb_eq, ?Z.eqb_neq in Ha; destruct (parse_re r) as [p e]; cbn [fst snd].
  all: setoid_rewrite accepts_of; naive_solver.
Qed.

Lemma matchstar_step f c r t re text : cstr m text t ->
  answers (matchhere f m re text) (here (parse_re r) t) ->
  (forall x t', t = x :: t' -> answers (matchstar f m c re (u32 (text + 1))) (here (Many (atom_of c) :: (parse_re r).1, (parse_re r).2) t')) ->
  answers (matchstar (Datatypes.S f) m c re text) (here (Many (atom_of c) :: (parse_re r).1, (parse_re r).2) t).
Proof.
  intros Ht (b & E & Hb) Hmore. cbn [matchstar]. rewrite E. cbn [mbind option_bind]. destruct (parse_re r) as [p e]; cbn [fst snd] in *.
  destruct b; [apply answers_some; rewrite here_many; naive_solver|]. destruct t as [|x t].
  { cbn in Ht. rewrite Ht. apply answers_some. rewrite here_many. naive_solver. }
  destruct Ht as (Hx & -> & Ht). rewrite (proj2 (Z.eqb_neq x 0)) by done. cbn [negb andb].
  destruct ((x =? c) || (c =? 46)) eqn:Ha; [eapply answers_iff; [by eapply Hmore|]|apply answers_some]; rewrite (here_many _ _ _ (x :: t)).
  all: rewrite ?orb_true_iff, ?orb_false_iff, ?Z.eqb_eq, ?Z.eqb_neq in Ha; setoid_rewrite accepts_of; naive_solver.
Qed.

Lemma matcher_ok fuel :
  (forall r t re text, cstr m re r -> cstr m text t -> (2 * (length r + length t) + 1 <= fuel)%nat ->
    answers (matchhere fuel m re text) (here (parse_re r) t)) /\
  (forall c r t re text, cstr m re r -> cstr m text t -> (2 * (length r + length t) + 2 <= fuel)%nat ->
    answers (matchstar fuel m c re text) (here (Many (atom_of c) :: (parse_re r).1, (parse_re r).2) t)).
Proof.
  induction fuel as [|f [IH1 IH2]]; split; intros *; [lia|lia| |].
  - intros Hr Ht Hf. apply matchhere_step; [done|done| |].
    + intros c r' ->. destruct Hr as (_ & _ & _ & _ & Hr). apply IH2; [|done|cbn in Hf; lia].
      rewrite u32_add_l in Hr. by replace (re + 2) with (re + 1 + 1) by lia.
    + intros c r' x t' -> ->. destruct Hr as (_ & _ & Hr), Ht as (_ & _ & Ht). apply IH1; [done|done|cbn in Hf; lia].
  - intros Hr Ht Hf. apply matchstar_step; [done|apply IH1; [done..|lia]|].
    intros x t' ->. destruct Ht as (_ & _ & Ht). apply IH2; [done|done|cbn in Hf; lia].
Qed.

Lemma match_loop_ok r re : cstr m re r -> forall t fuel text, cstr m text t -> (2 * (length r + length t) + 2 <= fuel)%nat ->
  answers (match_loop fuel m re text) (exists pre t', t = pre ++ t' /\ here (parse_re r) t').
Proof.
  intros Hr t. induction t as [|x t IH]; intros [|f] text Ht Hf; try lia; cbn [match_loop].
  all: destruct (proj1 (matcher_ok f) r _ re text Hr Ht) as (b & E & Hb); [cbn in *; lia|]; rewrite E; cbn [mbind option_bind].
  all: destruct b; [apply answers_some; split; [intros _; exists []; naive_solver|done]|].
  - cbn in Ht. rewrite Ht. apply answers_some. split; [done|]. intros (pre & t' & E0 & Hh). symmetry in E0.
    apply app_nil in E0 as [-> ->]. by apply Hb.
  - destruct Ht as (Hx & -> & Ht). rewrite (proj2 (Z.eqb_neq x 0)) by done. cbn [negb].
    eapply answers_iff; [apply IH; [done|cbn in Hf; lia]|]. split.
    + intros (pre & t' & -> & Hh). by exists (x :: pre), t'.
    + intros (pre & t' & E0 & Hh). destruct pre as [|y pre]; cbn in E0; [subst t'; by apply Hb in Hh|].
      injection E0 as -> ->. by exists pre, t'.
Qed.

Lemma match_ok r t re text fuel : cstr m re r -> cstr m text t -> (2 * (length r + length t) + 2 <= fuel)%nat ->
  answers (match_ fuel m re text) (occurs r t).
Proof.
  intros Hr Ht Hf. unfold match_. destruct r as [|c r]; [cbn in Hr; rewrite Hr; by apply (match_loop_ok [])|].
  pose proof Hr as (_ & -> & Hr'). destruct (Z.eqb_spec c 94) as [->|Hc].
  - apply (proj1 (matcher_ok fuel)); [done|done|cbn in Hf; lia].
  - eapply answers_iff; [by apply (match_loop_ok (c :: r))|]. cbn [occurs]. repeat case_match; try done; congruence.
Qed.

End Matcher.

(** C19: the matcher of grep answers, for every pattern and every text, whether
    the pattern occurs in the text: a dot stands for any character, a star for
    any number of the character before it, a caret and a dollar tie the pattern
    to the ends of the text, and any other character stands for itself. *)
Theorem match_correct m r t re text : cstr m re r -> cstr m text t ->
  exists b, match_ (2 * (length r + length t) + 2) m re text = Some b /\ (b = true <-> occurs r t).
Proof. intros Hr Ht. by apply match_ok. Qed.

(** ** The loop over lines *)

Record gproc := Gproc { um : mem; uin : list (list Z); uout : list (list Z) }.

Definition set_um (m : mem) (s : gproc) : gproc := Gproc m (uin s) (uout s).

Fixpoint put_bytes (m : mem) (a : Z) (l : list Z) : mem :=
  match l with [] => m | c :: l' => put_bytes (upd m a c) (u32 (a + 1)) l' end.

Definition get_bytes (m : mem) (a n : Z) : list Z := map (fun i => m (u32 (a + i))) (seqZ 0 n).

Definition BUFSZ : Z := 1024.

Section Loop.
(** The address of buf[], and the bound for the string loops. *)
Variables (BUF : Z) (fuel : nat).

Definition in_buf (a : Z) : bool := (BUF <=? a) && (a <? BUF + BUFSZ).

Definition read_ (a n : Z) : M gproc Z :=
  s <- get ;;
  match uin s with
  | [] => ret 0
  | c :: rest =>
      let k := Z.min n (zlen c) in
      if (0 <? k) && negb (in_buf a && in_buf (a + k - 1)) then fault else
      put (Gproc (put_bytes (um s) a (take (Z.to_nat k) c))
             (if zlen c <=? n then rest else drop (Z.to_nat k) c :: rest) (uout s)) ;;;
      ret k
  end.

Definition store_buf (q c : Z) : M gproc unit :=
  if in_buf q then modify (fun s => set_um (upd (um s) q c) s) else fault.

Definition write_ (a n : Z) : M gproc unit :=
  modify (fun s => Gproc (um s) (uin s) (uout s ++ [get_bytes (um s) a n])).

Definition lift_fuel {A} (o : option A) : M gproc A := match o with Some a => ret a | None => no_fuel end.

(** The loop over the complete lines in buf[]: where the last one ends. *)
Fixpoint grep_lines (f : nat) (pattern p : Z) : M gproc Z :=
  match f with
  | O => no_fuel
  | S f' =>
      s <- get ;;
      r <- lift_fuel (strchr fuel (um s) p 10) ;;
      match r with
      | None => ret p
      | Some q =>
          store_buf q 0 ;;;
          s <- get ;;
          b <- lift_fuel (match_ fuel (um s) pattern p) ;;
          when b (store_buf q 10 ;;; write_ p (q + 1 - p)) ;;;
          grep_lines f' pattern (u32 (q + 1))
      end
  end.

Fixpoint grep_loop (f : nat) (pattern m : Z) : M gproc unit :=
  match f with
  | O => no_fuel
  | S f' =>
      n <- read_ (u32 (BUF + m)) (BUFSZ - m) ;;
      if 0 <? n then
        let m := m + n in
        p <- grep_lines fuel pattern BUF ;;
        let m := if p =? BUF then 0 else m in
        m <- (if 0 <? m then
                let m := m - (p - BUF) in
                modify (fun s => set_um (fst (memmove (um s) BUF p m)) s) ;;; ret m
              else ret m) ;;
        grep_loop f' pattern m
      else ret tt
  end.

Definition grep (pattern : Z) : M gproc unit := grep_loop fuel pattern 0.

End Loop.

(** ** What grep prints when its input comes in one read *)

(** [out] holds the lines of [ls] on which [P] holds, in order. *)
Inductive selects (P : list Z -> Prop) : list (list Z) -> list (list Z) -> Prop :=
| selects_nil : selects P [] []
| selects_keep x ls out : P x -> selects P ls out -> selects P (x :: ls) (x :: out)
| selects_drop x ls out : ~ P x -> selects P ls out -> selects P (x :: ls) out.

Definition with_newline (l : list Z) : list Z := l ++ [10].

Lemma cstr_cut m l1 l2 : forall p, 0 <= p -> p + zlen l1 < 2 ^ 32 -> cstr m p (l1 ++ l2) -> cstr (upd m (p + zlen l1) 0) p l1.
Proof.
  induction l1 as [|c l1 IH]; intros p Hp Hr; cbn [app cstr].
  - intros _. by rewrite Z.add_0_r, upd_eq.
  - rewrite zlen_cons in *. pose proof (zlen_nonneg l1). intros (Hc & Hm & Hl). split; [done|]. rewrite upd_ne by lia. split; [done|].
    rewrite u32_small in * by lia. replace (p + (zlen l1 + 1)) with (p + 1 + zlen l1) by lia. apply IH; [lia|lia|done].
Qed.

(** A string does not notice a store elsewhere. *)
Lemma cstr_upd m q c p l : 0 <= p -> p + zlen l < 2 ^ 32 -> q < p \/ p + zlen l < q -> cstr m p l -> cstr (upd m q c) p l.
Proof.
  intros Hp Hr Hq. pose proof (zlen_nonneg l). apply cstr_ext; [split; lia|]. intros i Hi. rewrite u32_small by lia. rewrite upd_ne; [done|lia].
Qed.

Lemma get_bytes_cstr m l1 l2 : forall p, 0 <= p -> p + zlen l1 < 2 ^ 32 -> cstr m p (l1 ++ l2) -> get_bytes m p (zlen l1) = l1.
Proof.
  induction l1 as [|c l1 IH]; intros p Hp Hr; [done|]. rewrite zlen_cons in *. pose proof (zlen_nonneg l1). intros (Hc & Hm & Hl).
  rewrite u32_small in Hl by lia. specialize (IH (p + 1) ltac:(lia) ltac:(lia) Hl). unfold get_bytes in *.
  rewrite seqZ_cons by lia. cbn [map]. rewrite Z.add_0_r, u32_small by lia. f_equal; [done|]. rewrite <-IH at 2.
  replace (Z.pred (zlen l1 + 1)) with (zlen l1) by lia. apply list_eq. intros i. rewrite !list_lookup_fmap.
  destruct (decide (Z.of_nat i < zlen l1)); [rewrite !lookup_seqZ_lt by lia|by rewrite !lookup_seqZ_ge by lia].
  cbn. do 2 f_equal. f_equal. lia.
Qed.

Section Single.
Variables (BUF : Z) (fuel : nat) (pattern : Z) (r : list Z).
Hypothesis Hbuf : 0 <= BUF /\ BUF + BUFSZ < 2 ^ 32.

(** The pattern lies outside buf[]. *)
Hypothesis Hpat : 0 <= pattern /\ pattern + zlen r < 2 ^ 32 /\ (pattern + zlen r < BUF \/ BUF + BUFSZ <= pattern).

Lemma in_buf_true q : BUF <= q < BUF + BUFSZ -> in_buf BUF q = true.
Proof. intros. apply in_range_true. lia. Qed.

Lemma pattern_kept m q c : BUF <= q < BUF + BUFSZ -> cstr m pattern r -> cstr (upd m q c) pattern r.
Proof. intros Hq. apply cstr_upd; lia. Qed.

(** One line. *)
Lemma grep_line_ok f p line rest (Q : Z -> gproc -> Prop) s : BUF <= p -> p + zlen line + 1 + zlen rest < BUF + BUFSZ ->
  10 ∉ line -> cstr (um s) pattern r -> cstr (um s) p (line ++ 10 :: rest) -> (2 * (length r + length line + length rest) + 4 <= fuel)%nat ->
  (forall m out, (out = [with_newline line] /\ occurs r line \/ out = [] /\ ~ occurs r line) ->
    cstr m pattern r -> cstr m (p + zlen line + 1) rest ->
    wp (grep_lines BUF fuel f pattern (p + zlen line + 1)) Q (Gproc m (uin s) (uout s ++ out))) ->
  wp (grep_lines BUF fuel (Datatypes.S f) pattern p) Q s.
Proof.
  intros Hp Hr Hno Hre Ht Hf HQ. pose proof (zlen_nonneg line). pose proof (zlen_nonneg rest). cbn [grep_lines]. apply wp_bind, wp_get.
  destruct (strchr_ok (um s) (line ++ 10 :: rest) 10 ltac:(lia) fuel p) as (o & E & Ho); [split; lia|done|rewrite length_app; cbn; lia|].
  rewrite E. destruct o as [q|]; [|exfalso; apply Ho; set_solver]. apply wp_bind, wp_ret. destruct Ho as (l1 & l2 & Esp & Hn1 & ->).
  assert (line = l1 /\ rest = l2) as [<- <-].
  { clear -Esp Hno Hn1. revert l1 Hn1 Esp. induction line as [|x line IH]; intros [|y l1] Hn1 Esp; cbn in Esp.
    - by injection Esp.
    - injection Esp as <- _. set_solver.
    - injection Esp as -> _. set_solver.
    - injection Esp as <- Esp. destruct (IH ltac:(set_solver) l1 ltac:(set_solver) Esp) as [-> ->]. done. }
  rewrite !u32_small by lia. set (q := p + zlen line). set (m0 := upd (um s) q 0). unfold store_buf. rewrite in_buf_true by lia.
  apply wp_bind, wp_modify, wp_bind, wp_get. cbn [um set_um]. fold m0.
  assert (cstr m0 pattern r) as Hre0 by (apply pattern_kept; [lia|done]).
  assert (cstr m0 p line) as Hline by (by eapply cstr_cut; [lia|lia|exact Ht]).
  pose proof (cstr_app (um s) (line ++ [10]) rest p ltac:(split; lia)) as Htail. rewrite <-app_assoc, zlen_app in Htail. change (zlen [10]) with 1 in Htail.
  specialize (Htail Ht). rewrite u32_small in Htail by lia. replace (p + (zlen line + 1)) with (q + 1) in Htail by lia.
  assert (cstr m0 (q + 1) rest) as Htail0 by (apply cstr_upd; [lia..|done]).
  destruct (match_ok m0 r line pattern p fuel Hre0 Hline ltac:(lia)) as (b & Em & Hb). rewrite Em. apply wp_bind, wp_ret, wp_bind, wp_when.
  - intros ->. assert (occurs r line) as Hocc by by apply Hb. apply wp_bind, wp_modify, wp_modify. cbn [um uin uout set_um].
    set (m1 := upd m0 q 10). assert (get_bytes m1 p (q + 1 - p) = with_newline line) as ->.
    { replace (q + 1 - p) with (zlen (line ++ [10])) by (rewrite zlen_app; change (zlen [10]) with 1; lia).
      apply (get_bytes_cstr m1 _ rest); [lia|rewrite zlen_app; change (zlen [10]) with 1; lia|].
      rewrite <-app_assoc. apply (cstr_ext (um s)); [split; lia| |exact Ht]. intros i Hi. unfold m1, m0, upd.
      destruct (Z.eqb_spec (u32 (p + i)) q) as [Eq|]; [|done]. rewrite Eq.
      pose proof (cstr_app (um s) line (10 :: rest) p ltac:(split; lia) Ht) as (_ & H10 & _). rewrite u32_small in H10 by lia. done. }
    apply (HQ m1 [with_newline line]); [by left|by apply pattern_kept; [lia|]|]. unfold m1. apply cstr_upd; [lia..|done].
  - intros ->. assert (~ occurs r line) as Hocc by (rewrite <-Hb; done).
    specialize (HQ m0 [] ltac:(by right) Hre0 Htail0). rewrite app_nil_r in HQ. exact HQ.
Qed.

Lemma grep_lines_ok ls rest : Forall (fun l => 10 ∉ l) ls -> 10 ∉ rest -> forall f p s, BUF <= p ->
  p + zlen (concat (map with_newline ls) ++ rest) < BUF + BUFSZ ->
  cstr (um s) pattern r -> cstr (um s) p (concat (map with_newline ls) ++ rest) ->
  (length ls < f)%nat -> (2 * (length r + length (concat (map with_newline ls) ++ rest)) + 4 <= fuel)%nat ->
  wp (grep_lines BUF fuel f pattern p) (fun p' s' => p' = p + zlen (concat (map with_newline ls)) /\ cstr (um s') pattern r /\
    uin s' = uin s /\ exists out, selects (occurs r) ls out /\ uout s' = uout s ++ map with_newline out) s.
Proof.
  intros Hls Hrest. induction ls as [|l ls IH]; intros f p s Hp Hr Hre Ht Hf Hfl; (destruct f as [|f]; [cbn in Hf; lia|]).
  - cbn [grep_lines]. apply wp_bind, wp_get. cbn in Ht. pose proof (zlen_nonneg rest). cbn [concat map app] in Hr, Hfl.
    destruct (strchr_ok (um s) rest 10 ltac:(lia) fuel p) as (o & E & Ho); [split; lia|done|lia|]. rewrite E.
    apply wp_bind, wp_ret. destruct o as [q|]; [destruct Ho as (? & ? & -> & _); set_solver|]. apply wp_ret.
    split; [unfold zlen; cbn; lia|]. split; [done|]. split; [done|]. exists []. split; [constructor|by rewrite app_nil_r].
  - apply Forall_cons in Hls as [Hl Hls]. specialize (IH Hls). cbn [map concat] in *. change (with_newline l) with (l ++ [10]) in *.
    set (tl := concat (map with_newline ls)) in *. rewrite <-!app_assoc in *. rewrite !zlen_app in Hr. change (zlen [10]) with 1 in Hr.
    rewrite !length_app in Hfl. cbn [length app] in *. pose proof (zlen_nonneg l). pose proof (zlen_nonneg tl). pose proof (zlen_nonneg rest).
    apply (grep_line_ok f p l (tl ++ rest)); [done|rewrite zlen_app; lia|done|done|done|rewrite length_app; lia|].
    intros m out Hout Hre' Ht'. eapply wp_mono; [apply IH; [lia|rewrite zlen_app; lia|done|done|lia|rewrite length_app; lia]|].
    cbn [um uin uout]. intros p' s' (-> & Hre2 & Hin & out' & Hsel & Eo). split; [rewrite zlen_app, zlen_cons; lia|].
    split; [done|]. split; [done|]. destruct Hout as [[-> Ho]|[-> Ho]].
    + exists (l :: out'). split; [by constructor|]. by rewrite Eo, <-app_assoc.
    + exists out'. split; [by constructor|]. by rewrite Eo, app_nil_r.
Qed.

End Single.

Lemma put_bytes_at l : forall m a b, 0 <= a -> a + zlen l < 2 ^ 32 ->
  put_bytes m a l b = if (a <=? b) && (b <? a + zlen l) then default 0 (zget l (b - a)) else m b.
Proof.
  induction l as [|c l IH]; intros m a b Ha Hr; cbn [put_bytes].
  - change (zlen (@nil Z)) with 0 in *. destruct (Z.leb_spec a b), (Z.ltb_spec b (a + 0)); try done. lia.
  - rewrite zlen_cons in *. pose proof (zlen_nonneg l). rewrite u32_small by lia. rewrite IH by lia. unfold upd.
    destruct (Z.eqb_spec b a) as [->|Hne]; [in_range; by rewrite Z.sub_diag|]. destruct (Z.le_gt_cases (a + 1) b); [|by in_range].
    destruct (Z.lt_ge_cases b (a + 1 + zlen l)); [|by in_range]. in_range. rewrite zget_succ by lia. do 2 f_equal. lia.
Qed.

Lemma cstr_bytes m l : forall p, 0 <= p -> p + zlen l < 2 ^ 32 -> Forall (fun c => c <> 0) l ->
  (forall i, 0 <= i < zlen l -> m (p + i) = default 0 (zget l i)) -> m (p + zlen l) = 0 -> cstr m p l.
Proof.
  induction l as [|c l IH]; intros p Hp Hr Hnz Hm H0; cbn [cstr].
  - by rewrite Z.add_0_r in H0.
  - rewrite zlen_cons in *. pose proof (zlen_nonneg l). apply Forall_cons in Hnz as [Hc Hnz]. split; [done|]. split.
    + specialize (Hm 0 ltac:(lia)). by rewrite Z.add_0_r in Hm.
    + rewrite u32_small by lia. apply IH; [lia|lia|done| |by rewrite <-Z.add_assoc, (Z.add_comm 1)].
      intros i Hi. specialize (Hm (i + 1) ltac:(lia)). rewrite zget_succ in Hm by lia. replace (p + 1 + i) with (p + (i + 1)) by lia.
      rewrite Hm. do 2 f_equal. lia.
Qed.

(** A pattern outside buf[], a pattern string at it. *)
Definition pattern_ok BUF pattern (r : list Z) (m : mem) : Prop :=
  0 <= pattern /\ pattern + zlen r < 2 ^ 32 /\ (pattern + zlen r < BUF \/ BUF + BUFSZ <= pattern) /\ cstr m pattern r.

(** The first read. *)
Lemma first_read BUF pattern r input s : 0 <= BUF -> BUF + BUFSZ < 2 ^ 32 -> pattern_ok BUF pattern r (um s) ->
  Forall (fun c => c <> 0) input -> 0 < zlen input < BUFSZ -> (forall a, in_buf BUF a = true -> um s a = 0) -> uin s = [input] ->
  exists m, read_ BUF (u32 (BUF + 0)) (BUFSZ - 0) s = Ok (zlen input) (Gproc m [] (uout s)) /\ cstr m pattern r /\ cstr m BUF input.
Proof.
  intros HB0 HB1 (Hp0 & Hp1 & Hpd & Hre) Hnz Hlen Hzero Hin. unfold BUFSZ in *. exists (put_bytes (um s) BUF input). split; [|split].
  - unfold read_, bind, get. rewrite Hin, Z.add_0_r, u32_small, Z.min_r by lia. rewrite (proj2 (Z.ltb_lt 0 _)) by lia.
    rewrite !in_buf_true by (unfold BUFSZ; lia). cbn [andb negb]. rewrite (proj2 (Z.leb_le (zlen input) _)) by lia.
    unfold zlen at 1. rewrite Nat2Z.id, take_ge by done. done.
  - pose proof (zlen_nonneg r). revert Hre. apply cstr_ext; [split; lia|]. intros i Hi. rewrite u32_small by lia. rewrite put_bytes_at by lia.
    by in_range.
  - apply cstr_bytes; [lia|lia|done| |].
    + intros i Hi. rewrite put_bytes_at by lia. in_range. do 2 f_equal. lia.
    + rewrite put_bytes_at by lia. in_range. apply Hzero, in_buf_true. unfold BUFSZ. lia.
Qed.

(** When the whole input comes in one read of at most 1023 bytes, grep
    prints exactly the complete lines in which the pattern occurs, in order,
    each with its newline; a last line without newline is not looked at. *)
Theorem grep_single_read BUF fuel pattern r ls rest s : 0 <= BUF -> BUF + BUFSZ < 2 ^ 32 -> pattern_ok BUF pattern r (um s) ->
  Forall (fun l => 10 ∉ l) ls -> 10 ∉ rest -> let input := concat (map with_newline ls) ++ rest in
  Forall (fun c => c <> 0) input -> 0 < zlen input < BUFSZ -> (forall a, in_buf BUF a = true -> um s a = 0) ->
  uin s = [input] -> (2 * (length r + length input) + 4 <= fuel)%nat ->
  wp (grep BUF fuel pattern) (fun _ s' => exists out, selects (occurs r) ls out /\ uout s' = uout s ++ map with_newline out) s.
Proof.
  intros HB0 HB1 Hpat Hls Hrest input Hnz Hlen Hzero Hin Hf.
  destruct (first_read BUF pattern r input s HB0 HB1 Hpat Hnz Hlen Hzero Hin) as (m & E & Hre & Ht). destruct Hpat as (Hp0 & Hp1 & Hpd & _).
  unfold grep. destruct fuel as [|f]; [lia|]. cbn [grep_loop]. eapply wp_bind_ok; [exact E|]. rewrite (proj2 (Z.ltb_lt 0 _)) by lia.
  assert (length ls <= length input)%nat as Hll.
  { unfold input. rewrite length_app. clear. induction ls as [|l ls IH]; cbn [map concat length]; [lia|]. unfold with_newline at 1.
    rewrite !length_app. cbn [length]. lia. }
  apply wp_bind. eapply wp_mono; [apply (grep_lines_ok BUF (Datatypes.S f) pattern r (conj HB0 HB1) (conj Hp0 (conj Hp1 Hpd)) ls rest Hls Hrest)|];
    [lia|fold input; lia|exact Hre|exact Ht|lia|exact Hf|].
  intros p s' (-> & _ & Hin' & out & Hsel & Eo). cbn [um uin uout] in *.
  assert (forall mm k, wp (grep_loop BUF (Datatypes.S f) f pattern k) (fun _ s2 => uout s2 = uout s') (Gproc mm [] (uout s'))) as Hend.
  { intros mm k. destruct f as [|f']; [unfold input in *; cbn in Hf, Hlen; lia|]. cbn [grep_loop]. done. }
  assert (forall k, wp (grep_loop BUF (Datatypes.S f) f pattern k) (fun _ s2 => uout s2 = uout s') s') as Hend'.
  { intros k. specialize (Hend (um s') k). destruct s'; cbn in *. by subst. }
  apply wp_bind. set (k := if _ =? BUF then 0 else _). destruct (0 <? k).
  - apply wp_bind, wp_modify, wp_ret. unfold set_um. rewrite Hin'. eapply wp_mono; [apply Hend|]. intros [] s2 ->. by exists out.
  - apply wp_ret. eapply wp_mono; [apply Hend'|]. intros [] s2 ->. by exists out.
Qed.

(** When the input comes in several reads, buf[] is not terminated after
    the bytes just read, so grep searches the lines of an earlier read again: a
    line is printed that is not in the input at that place, and the read after
    that one stores before the start of buf[]. *)
Example grep_stale_lines :
  let pat : mem := put_bytes (fun _ => 0) 100 [97; 98] in
  let run reads := grep 1000 1200 100 (Gproc pat reads []) in
  (exists s, run [[97; 98; 98; 98; 10; 97; 98; 10]; [99; 10]] = Ok tt s /\
    uout s = [[97; 98; 98; 98; 10]; [97; 98; 10]; [97; 98; 10]]) /\
  run [[97; 98; 98; 98; 10; 97; 98; 10]; [99; 10]; [97; 97; 98; 10]] = Fault.
Proof. split; [eexists; split; vm_compute; reflexivity|vm_compute; reflexivity]. Qed.

(** ** Runs *)

Lemma match_correct_witness : match_ 20 (put_bytes (put_bytes (fun _ => 0) 100 [94; 97; 46; 42; 98; 36]) 200 [97; 99; 98]) 100 200 = Some true.
Proof.
  set (m := put_bytes _ 200 _). destruct (match_correct m [94; 97; 46; 42; 98; 36] [97; 99; 98] 100 200) as (b & E & Hb);
    [repeat split; vm_compute; congruence|repeat split; vm_compute; congruence|].
  cbn [length Nat.mul Nat.add] in E. rewrite E. f_equal. apply Hb. cbn [occurs parse_re Z.eqb Pos.eqb].
  exists [97; 99; 98], []. split; [done|]. split; [|done]. exists 97, [99; 98]. split; [done|]. split; [done|].
  exists [99], [98]. split; [done|]. split; [by repeat constructor|]. by exists 98, [].
Defined.

Lemma grep_single_read_witness :
  wp (grep 1000 1200 100) (fun _ s' => exists out, selects (occurs [97]) [[97; 98]; [99]] out /\ uout s' = map with_newline out)
    (Gproc (put_bytes (fun _ => 0) 100 [97]) [[97; 98; 10; 99; 10; 97]] []).
Proof.
  eapply wp_mono; [apply (grep_single_read 1000 1200 100 [97] [[97; 98]; [99]] [97]
    (Gproc (put_bytes (fun _ => 0) 100 [97]) [[97; 98; 10; 99; 10; 97]] []))|].
  - lia.
  - unfold BUFSZ. lia.
  - split; [lia|]. split; [by vm_compute|]. split; [left; by vm_compute|]. repeat split; vm_compute; congruence.
  - repeat constructor; set_solver by lia.
  - set_solver by lia.
  - cbn. repeat constructor; lia.
  - by vm_compute.
  - intros a Ha. unfold in_buf, BUFSZ in Ha. zbool. cbn [um put_bytes]. unfold upd. by rewrite (proj2 (Z.eqb_neq a 100)) by lia.
  - reflexivity.
  - vm_compute. lia.
  - intros [] s' H. exact H.
Defined.
