(* ===== verification/Umalloc.v ===== *)
(** * umalloc.c: malloc and free of the user programs

    The free blocks form a ring through their headers, sorted by address, with
    the static header [base] as its lowest member.  Memory is modelled word by
    word: the header at address [a] has its ptr at [a] and its size, in units of
    eight bytes, at [a + 4].  [grants] is the kernel's answer to sbrk. *)

From S2P Require Import Prelude.

Record uheap := Uheap { uw : Z -> Z; freep : Z; ubrk : Z }.

Definition word (a : Z) : M uheap Z := gets (fun s => uw s (u32 a)).

Definition wupd (w : Z -> Z) (a v : Z) : Z -> Z := fun b => if b =? a then v else w b.

Definition set_word (a v : Z) : M uheap unit := modify (fun s => Uheap (wupd (uw s) (u32 a) v) (freep s) (ubrk s)).

Definition set_freep (p : Z) : M uheap unit := modify (fun s => Uheap (uw s) p (ubrk s)).

Section Umalloc.
Variables (base : Z) (grants : Z -> Z -> bool).

(** The address of the free header after which [bp] belongs. *)
Fixpoint free_loc (fuel : nat) (bp p : Z) : M uheap Z :=
  match fuel with
  | O => no_fuel
  | S f =>
      nx <- word p ;;
      if (p <? bp) && (bp <? nx) then ret p
      else if (nx <=? p) && ((p <? bp) || (bp <? nx)) then ret p
      else free_loc f bp nx
  end.

Definition free (fuel : nat) (ap : Z) : M uheap unit :=
  let bp := u32 (ap - 8) in
  s <- get ;;
  p <- free_loc fuel bp (freep s) ;;
  bsz <- word (bp + 4) ;;
  nx <- word p ;;
  (if u32 (bp + 8 * bsz) =? nx then
     nsz <- word (nx + 4) ;;
     set_word (bp + 4) (u32 (bsz + nsz)) ;;;
     nn <- word nx ;;
     set_word bp nn
   else set_word bp nx) ;;;
  psz <- word (p + 4) ;;
  (if u32 (p + 8 * psz) =? bp then
     bsz <- word (bp + 4) ;;
     set_word (p + 4) (u32 (psz + bsz)) ;;;
     n <- word bp ;;
     set_word p n
   else set_word p bp) ;;;
  set_freep p.

(** The system call: the old end of memory, or -1. *)
Definition sbrk (n : Z) : M uheap Z :=
  s <- get ;;
  if grants (ubrk s) n then put (Uheap (uw s) (freep s) (u32 (ubrk s + n))) ;;; ret (ubrk s) else ret (-1).

Definition morecore (fuel : nat) (nu : Z) : M uheap Z :=
  let nu := if nu <? 4096 then 4096 else nu in
  p <- sbrk (s32 (u32 (nu * 8))) ;;
  if p =? -1 then ret 0 else
  set_word (p + 4) nu ;;;
  free fuel (u32 (p + 8)) ;;;
  s <- get ;; ret (freep s).

(** Take [nunits] from the block [p], which is large enough. *)
Definition carve (nunits prevp p sz : Z) : M uheap Z :=
  r <- (if sz =? nunits then nx <- word p ;; set_word prevp nx ;;; ret p
        else
          set_word (p + 4) (u32 (sz - nunits)) ;;;
          let p' := u32 (p + 8 * (sz - nunits)) in
          set_word (p' + 4) nunits ;;; ret p') ;;
  set_freep prevp ;;;
  ret (u32 (r + 8)).

Fixpoint malloc_loop (fuel lf : nat) (nunits prevp p : Z) : M uheap Z :=
  match fuel with
  | O => no_fuel
  | S f =>
      sz <- word (p + 4) ;;
      if nunits <=? sz then carve nunits prevp p sz
      else
        s <- get ;;
        if p =? freep s then
          p <- morecore lf nunits ;;
          if p =? 0 then ret 0 else nx <- word p ;; malloc_loop f lf nunits p nx
        else nx <- word p ;; malloc_loop f lf nunits p nx
  end.

Definition malloc (fuel : nat) (nbytes : Z) : M uheap Z :=
  let nunits := u32 (nbytes + 8 - 1) / 8 + 1 in
  s <- get ;;
  when (freep s =? 0) (set_word base base ;;; set_freep base ;;; set_word (base + 4) 0) ;;;
  s <- get ;;
  p <- word (freep s) ;;
  malloc_loop fuel fuel nunits (freep s) p.

(** ** The ring of free blocks *)

(** The address of the first header of a list, [e] if there is none. *)
Definition hd (e : Z) (l : list (Z * Z)) : Z := match l with [] => e | (b, _) :: _ => b end.

(** Headers [(address, size)] linked one to the next, the last one to [e]. *)
Fixpoint chain (w : Z -> Z) (l : list (Z * Z)) (e : Z) : Prop :=
  match l with
  | [] => True
  | (a, s) :: l' => w a = hd e l' /\ w (a + 4) = s /\ chain w l' e
  end.

(** A header and its block keep the next header off up to here, included. *)
Definition ext (a s : Z) : Z := Z.max (a + 7) (a + 8 * s).

(** The first byte after them. *)
Definition stop (a s : Z) : Z := Z.max (a + 8) (a + 8 * s).

(** Blocks above [lo], below [hi], in increasing order, none adjacent to the next. *)
Fixpoint spread (lo : Z) (l : list (Z * Z)) (hi : Z) : Prop :=
  match l with
  | [] => lo <= hi
  | (a, s) :: l' => lo < a /\ 0 <= s /\ spread (ext a s) l' hi
  end.

(** The byte [x] is free. *)
Definition in_free (l : list (Z * Z)) (x : Z) : Prop := exists a s, (a, s) ∈ l /\ a <= x < a + 8 * s.

(** The ring consists of [base] and the blocks of [l]. *)
Record heap_ok (l : list (Z * Z)) (s : uheap) : Prop := {
  ho_base : 0 < base;
  ho_chain : chain (uw s) ((base, 0) :: l) base;
  ho_spread : spread 0 ((base, 0) :: l) (ubrk s);
  ho_size : Forall (fun x => 1 <= x.2) l;
  ho_brk : base + 8 <= ubrk s < 2 ^ 31;
  ho_freep : exists sz, (freep s, sz) ∈ (base, 0) :: l
}.

Lemma chain_app w l1 l2 e : chain w (l1 ++ l2) e <-> chain w l1 (hd e l2) /\ chain w l2 e.
Proof.
  induction l1 as [|[a s] l1 IH]; cbn [app chain]; [naive_solver|]. rewrite IH.
  assert (hd e (l1 ++ l2) = hd (hd e l2) l1) as -> by (by destruct l1 as [|[b t] l1]). naive_solver.
Qed.

Lemma chain_ext w w' l e : chain w l e -> (forall a s, (a, s) ∈ l -> w' a = w a /\ w' (a + 4) = w (a + 4)) -> chain w' l e.
Proof.
  induction l as [|[a s] l IH]; cbn [chain]; [done|]. intros (Ha & Hs & Hl) He. destruct (He a s) as [-> ->]; [set_solver|].
  split; [done|]. split; [done|]. apply IH; [done|]. intros b t Hb. apply (He b t). set_solver.
Qed.

Lemma spread_le lo l hi : spread lo l hi -> lo <= hi.
Proof. revert lo. induction l as [|[a s] l IH]; intros lo; cbn [spread]; [done|]. intros (Ha & Hs & Hl%IH). unfold ext in Hl. lia. Qed.

Lemma spread_in lo l hi a s : spread lo l hi -> (a, s) ∈ l -> lo < a /\ 0 <= s /\ ext a s <= hi.
Proof.
  revert lo. induction l as [|[b t] l IH]; intros lo; cbn [spread]; [by intros _ ?%elem_of_nil|].
  intros (Hb & Ht & Hl) [[= -> ->]|Hin]%elem_of_cons; [pose proof (spread_le _ _ _ Hl); lia|].
  destruct (IH _ Hl Hin) as (H1 & H2 & H3). unfold ext in *. lia.
Qed.

Lemma spread_split lo l1 a s l2 hi : spread lo (l1 ++ (a, s) :: l2) hi ->
  (forall b t, (b, t) ∈ l1 -> ext b t < a) /\ lo < a /\ 0 <= s /\ spread (ext a s) l2 hi.
Proof.
  revert lo. induction l1 as [|[b t] l1 IH]; intros lo; cbn [app spread].
  - intros (Ha & Hs & Hl). split; [by intros ? ? ?%elem_of_nil|done].
  - intros (Hb & Ht & Hl). destruct (IH _ Hl) as (H1 & H2 & H3 & H4). split; [|unfold ext in *; split; [lia|done]].
    intros b' t' [[= -> ->]|Hin]%elem_of_cons; [done|by apply H1].
Qed.

(** Replacing the tail of a list of blocks. *)
Lemma spread_replace lo l1 a s l2 hi m : spread lo (l1 ++ (a, s) :: l2) hi -> 
  (forall lo', (lo' < a) -> spread lo' m hi) -> spread lo (l1 ++ m) hi.
Proof.
  revert lo. induction l1 as [|[b t] l1 IH]; intros lo; cbn [app spread]; [intros (Ha & _) Hm; by apply Hm|].
  intros (Hb & Ht & Hl) Hm. split; [done|]. split; [done|]. by apply IH.
Qed.

Lemma spread_weaken lo l hi hi' : spread lo l hi -> hi <= hi' -> spread lo l hi'.
Proof. revert lo. induction l as [|[a s] l IH]; intros lo; cbn [spread]; [lia|]. intros (Ha & Hs & Hl) Hle. split; [done|]. split; [done|by apply IH]. Qed.

(** ** Search for the place of a block *)

Section Ring.
Variables (l : list (Z * Z)) (s : uheap).
Hypothesis Hok : heap_ok l s.

Lemma ring_in a t : (a, t) ∈ (base, 0) :: l -> base <= a /\ a + 8 <= 2 ^ 31.
Proof.
  intros Hin. destruct Hok as [Hb _ Hsp _ Hbrk _]. pose proof (spread_in _ _ _ _ _ Hsp Hin) as (H1 & H2 & H3). unfold ext in H3.
  split; [|lia]. apply elem_of_cons in Hin as [[= -> ->]|Hin]; [lia|]. cbn [spread] in Hsp. destruct Hsp as (_ & _ & Hsp).
  pose proof (spread_in _ _ _ _ _ Hsp Hin) as (H4 & _). unfold ext in H4. lia.
Qed.

Lemma ring_word a t g1 g2 : (base, 0) :: l = g1 ++ (a, t) :: g2 -> uw s (u32 a) = hd base g2 /\ uw s (u32 (a + 4)) = t.
Proof.
  intros E. pose proof (ring_in a t ltac:(rewrite E; set_solver)) as Hr. pose proof (ho_base _ _ Hok).
  pose proof (ho_chain _ _ Hok) as Hc. rewrite E in Hc. apply chain_app in Hc as [_ (H1 & H2 & _)]. by rewrite !u32_small by lia.
Qed.

End Ring.

Section Place.
Variables (l : list (Z * Z)) (s : uheap) (bp p sp : Z) (h1 h2 : list (Z * Z)).
Hypothesis Hok : heap_ok l s.
Hypothesis Hsplit : (base, 0) :: l = h1 ++ (p, sp) :: h2.
Hypothesis Hp : p < bp.
Hypothesis Hh2 : forall a t, (a, t) ∈ h2 -> bp < a.

Lemma free_loc_up fuel : forall g1 g2, (base, 0) :: l = g1 ++ g2 ++ (p, sp) :: h2 -> (length g2 < fuel)%nat ->
  free_loc fuel bp (hd p g2) s = Ok p s.
Proof.
  induction fuel as [|f IH]; intros g1 g2 E Hf; [lia|]. cbn [free_loc]. unfold bind, word, gets. destruct g2 as [|[a t] g2]; cbn [hd].
  - destruct (ring_word l s Hok p sp _ _ E) as [-> _]. rewrite (proj2 (Z.ltb_lt p bp)) by done. cbn [andb orb].
    destruct h2 as [|[b t] h2']; cbn [hd].
    + pose proof (ring_in l s Hok p sp ltac:(rewrite E; set_solver)) as [Hpb _]. rewrite (proj2 (Z.leb_le base p)) by done. by case_match.
    + by rewrite (proj2 (Z.ltb_lt bp b)) by (apply (Hh2 b t); set_solver).
  - destruct (ring_word l s Hok a t g1 (g2 ++ (p, sp) :: h2)) as [-> _]; [done|]. set (nx := hd base _).
    pose proof (ho_spread _ _ Hok) as Hsp. rewrite E in Hsp. cbn [app] in Hsp. apply spread_split in Hsp as (_ & _ & Ht & Hsp).
    assert (nx = hd p g2) as Enx by (unfold nx; by destruct g2 as [|[b u] g2]).
    assert (a < nx <= p) as Hnx.
    { rewrite Enx. apply (spread_split _ _ _ _ _ _) in Hsp as Hsp'. destruct Hsp' as (H1 & H2 & _). destruct g2 as [|[b u] g2]; cbn [hd].
      - unfold ext in H2. lia.
      - pose proof (H1 b u ltac:(set_solver)). cbn [app spread] in Hsp. destruct Hsp as (H4 & _). unfold ext in *. lia. }
    rewrite (proj2 (Z.ltb_ge bp nx)), andb_false_r, (proj2 (Z.leb_gt nx a)) by lia. cbn [andb]. rewrite Enx.
    apply (IH (g1 ++ [(a, t)]) g2); [by rewrite <-app_assoc|cbn in Hf; lia].
Qed.

Lemma free_loc_wrap g2 : forall g1 fuel, (base, 0) :: l = g1 ++ g2 -> (forall a t, (a, t) ∈ g2 -> bp < a) -> base < bp ->
  (length g2 + length h1 < fuel)%nat -> free_loc fuel bp (hd base g2) s = Ok p s.
Proof.
  induction g2 as [|[a t] g2 IH]; intros g1 fuel E Hg Hb Hf.
  - replace (hd base []) with (hd p h1); [apply (free_loc_up fuel [] h1); [done|cbn in Hf; lia]|].
    cbn [hd]. destruct h1 as [|[b u] h1']; cbn in *; congruence.
  - destruct fuel as [|f]; [lia|]. cbn [free_loc hd]. unfold bind, word, gets. destruct (ring_word l s Hok a t g1 g2 E) as [-> _].
    pose proof (Hg a t ltac:(set_solver)). rewrite (proj2 (Z.ltb_ge a bp)) by lia. cbn [andb orb].
    assert ((hd base g2 <=? a) && (bp <? hd base g2) = false) as ->.
    { apply andb_false_iff. destruct g2 as [|[b u] g2]; cbn [hd]; [right; apply Z.ltb_ge; lia|left; apply Z.leb_gt].
      pose proof (ho_spread _ _ Hok) as Hsp. rewrite E in Hsp. apply spread_split in Hsp as (_ & _ & _ & Hb' & _). unfold ext in Hb'. lia. }
    apply (IH (g1 ++ [(a, t)])); [by rewrite <-app_assoc|intros b u Hbu; apply (Hg b u); set_solver|done|cbn in Hf; lia].
Qed.

Lemma free_loc_ok fuel : base < bp -> (length l < fuel)%nat -> free_loc fuel bp (freep s) s = Ok p s.
Proof.
  intros Hb Hf. destruct (ho_freep _ _ Hok) as [sz Hin]. assert (length h1 + length h2 = length l)%nat as Hlen.
  { apply (f_equal length) in Hsplit. rewrite length_app in Hsplit. cbn in Hsplit. lia. }
  pose proof Hsplit as E. rewrite Hsplit in Hin. apply elem_of_app in Hin as [Hin|[[= Ep Es]|Hin]%elem_of_cons].
  - apply list_elem_of_split in Hin as (g1 & g2 & Eh). replace (freep s) with (hd p ((freep s, sz) :: g2)) by done.
    apply (free_loc_up fuel g1); [by rewrite E, Eh, <-app_assoc|rewrite Eh, length_app in Hlen; cbn in *; lia].
  - rewrite Ep. apply (free_loc_up fuel h1 []); [done|cbn; lia].
  - apply list_elem_of_split in Hin as (g1 & g2 & Eh). replace (freep s) with (hd base ((freep s, sz) :: g2)) by done.
    apply (free_loc_wrap ((freep s, sz) :: g2) (h1 ++ (p, sp) :: g1)).
    + by rewrite E, Eh, <-app_assoc.
    + intros a t Ha. apply (Hh2 a t). rewrite Eh. set_solver.
    + done.
    + rewrite Eh, length_app in Hlen. cbn in *. lia.
Qed.

End Place.

(** ** free *)

(** Joining a block to the free block above it and to the one below. *)
Definition join_up (bp sz : Z) (h2 : list (Z * Z)) : list (Z * Z) :=
  match h2 with (q, sq) :: h2' => if bp + 8 * sz =? q then (bp, sz + sq) :: h2' else (bp, sz) :: h2 | [] => [(bp, sz)] end.

Definition join_down (p sp : Z) (m : list (Z * Z)) : list (Z * Z) :=
  match m with (b, t) :: m' => if p + 8 * sp =? b then (p, sp + t) :: m' else (p, sp) :: m | [] => [(p, sp)] end.

(** A block to be freed: above [base], below the break, clear of every free
    block and header, its size in its header. *)
Record freeable (l : list (Z * Z)) (s : uheap) (bp sz : Z) : Prop := {
  fr_size : 1 <= sz;
  fr_low : base + 8 <= bp;
  fr_high : bp + 8 * sz <= ubrk s;
  fr_apart : forall a t, (a, t) ∈ l -> stop a t <= bp \/ bp + 8 * sz <= a;
  fr_header : uw s (bp + 4) = sz
}.

Lemma place lo H bp sz hi : spread lo H hi -> (forall a t, (a, t) ∈ H -> stop a t <= bp \/ bp + 8 * sz <= a) ->
  (exists a t H', H = (a, t) :: H' /\ stop a t <= bp) ->
  exists h1 p sp h2, H = h1 ++ (p, sp) :: h2 /\ stop p sp <= bp /\ forall a t, (a, t) ∈ h2 -> bp + 8 * sz <= a.
Proof.
  revert lo. induction H as [|[a t] H IH]; intros lo Hsp Hap (a0 & t0 & H0 & E & Ha); [done|]. injection E as <- <- <-.
  destruct H as [|[b u] H]; [exists [], a, t, []; split; [done|]; split; [done|by intros ? ? ?%elem_of_nil]|].
  destruct Hsp as (_ & _ & Hsp). destruct (Hap b u ltac:(set_solver)) as [Hb|Hb].
  - destruct (IH (ext a t) Hsp) as (h1 & p & sp & h2 & -> & Hp & Hh2); [intros c v Hc; apply Hap; set_solver|by exists b, u, H|].
    exists ((a, t) :: h1), p, sp, h2. done.
  - exists [], a, t, ((b, u) :: H). split; [done|]. split; [done|]. intros c v [[= -> ->]|Hc]%elem_of_cons; [done|].
    destruct Hsp as (_ & _ & Hsp). pose proof (spread_in _ _ _ _ _ Hsp Hc) as (Hlt & _). unfold ext in Hlt. lia.
Qed.

Lemma in_free_cons a t l x : in_free ((a, t) :: l) x <-> a <= x < a + 8 * t \/ in_free l x.
Proof.
  split.
  - intros (b & u & [[= -> ->]|Hb]%elem_of_cons & Hx); [by left|right; by exists b, u].
  - intros [Hx|(b & u & Hb & Hx)]; [exists a, t|exists b, u]; set_solver.
Qed.

Lemma in_free_app l1 l2 x : in_free (l1 ++ l2) x <-> in_free l1 x \/ in_free l2 x.
Proof. unfold in_free. setoid_rewrite elem_of_app. naive_solver. Qed.

Lemma in_free_nil x : ~ in_free [] x.
Proof. by intros (a & s & ?%elem_of_nil & _). Qed.

Lemma in_free_join_up bp sz h2 x : 0 <= sz -> Forall (fun y => 0 <= y.2) h2 ->
  in_free (join_up bp sz h2) x <-> bp <= x < bp + 8 * sz \/ in_free h2 x.
Proof.
  intros Hs Hf. unfold join_up. destruct h2 as [|[q sq] h2]; [by rewrite in_free_cons|]. apply Forall_cons in Hf as [Hq _]. cbn in Hq.
  destruct (Z.eqb_spec (bp + 8 * sz) q); rewrite !in_free_cons; [|done].
  assert (bp <= x < bp + 8 * (sz + sq) <-> bp <= x < bp + 8 * sz \/ q <= x < q + 8 * sq) as -> by lia. tauto.
Qed.

Lemma in_free_join_down p sp m x : 0 <= sp -> Forall (fun y => 0 <= y.2) m ->
  in_free (join_down p sp m) x <-> p <= x < p + 8 * sp \/ in_free m x.
Proof.
  intros Hs Hf. unfold join_down. destruct m as [|[b t] m]; [by rewrite in_free_cons|]. apply Forall_cons in Hf as [Hq _]. cbn in Hq.
  destruct (Z.eqb_spec (p + 8 * sp) b); rewrite !in_free_cons; [|done].
  assert (p <= x < p + 8 * (sp + t) <-> p <= x < p + 8 * sp \/ b <= x < b + 8 * t) as -> by lia. tauto.
Qed.

Lemma spread_join_up lo bp sz h2 hi : lo < bp -> 1 <= sz -> bp + 8 * sz <= hi -> spread lo h2 hi -> Forall (fun y => 1 <= y.2) h2 ->
  (forall a t, (a, t) ∈ h2 -> bp + 8 * sz <= a) -> spread lo (join_up bp sz h2) hi.
Proof.
  intros Hlo Hs Hhi Hsp Hf Hab. unfold join_up. destruct h2 as [|[q sq] h2]; cbn [spread] in *.
  - split; [done|]. split; [lia|]. unfold ext. lia.
  - apply Forall_cons in Hf as [Hq _]. cbn in Hq. pose proof (Hab q sq ltac:(set_solver)). destruct Hsp as (_ & _ & Hsp).
    destruct (Z.eqb_spec (bp + 8 * sz) q); cbn [spread].
    + split; [done|]. split; [lia|]. unfold ext in *. by replace (Z.max (bp + 7) (bp + 8 * (sz + sq))) with (Z.max (q + 7) (q + 8 * sq)) by lia.
    + split; [done|]. split; [lia|]. split; [unfold ext; lia|]. split; [lia|done].
Qed.

Lemma spread_join_down lo p sp m hi : lo < p -> 0 <= sp -> spread (stop p sp - 1) m hi -> Forall (fun y => 1 <= y.2) m ->
  (forall b t m', m = (b, t) :: m' -> stop p sp <= b) ->
  ext p sp <= hi -> spread lo (join_down p sp m) hi.
Proof.
  intros Hlo Hs Hsp Hf Hge Hhi. unfold join_down. destruct m as [|[b t] m]; [by cbn [spread]|].
  apply Forall_cons in Hf as [Ht _]. cbn in Ht. destruct Hsp as (_ & _ & Hsp). pose proof (Hge b t m eq_refl).
  destruct (Z.eqb_spec (p + 8 * sp) b); cbn [spread].
  - split; [done|]. split; [lia|]. unfold stop, ext in *. replace (Z.max (p + 7) (p + 8 * (sp + t))) with (Z.max (b + 7) (b + 8 * t)) by lia. done.
  - split; [done|]. split; [done|]. unfold stop, ext in *. split; [lia|]. split; [lia|done].
Qed.

Lemma wupd_eq w a v : wupd w a v a = v.
Proof. unfold wupd. by rewrite Z.eqb_refl. Qed.

Lemma wupd_ne w a v b : b <> a -> wupd w a v b = w b.
Proof. intros. unfold wupd. by rewrite (proj2 (Z.eqb_neq b a)). Qed.

(** Stores to a header leave the headers apart from it as they are. *)
Lemma chain_upd w l e x v : chain w l e -> (forall a t, (a, t) ∈ l -> x <> a /\ x <> a + 4) -> chain (wupd w x v) l e.
Proof. intros Hc Hx. apply (chain_ext w); [done|]. intros a t Hin. destruct (Hx a t Hin). by rewrite !wupd_ne. Qed.

(** What stays when a store in the heap is made. *)
Definition same_heap (s s' : uheap) : Prop := freep s' = freep s /\ ubrk s' = ubrk s.

Lemma up_run s bp sz h2 hi (Q : unit -> uheap -> Prop) : 0 < base < bp -> 1 <= sz -> spread (bp + 8 * sz - 1) h2 hi -> hi < 2 ^ 31 ->
  Forall (fun y => 1 <= y.2) h2 -> chain (uw s) h2 base ->
  uw s (bp + 4) = sz ->
  (forall s', same_heap s s' -> chain (uw s') (join_up bp sz h2) base -> (forall a, a <> bp -> a <> bp + 4 -> uw s' a = uw s a) -> Q tt s') ->
  wp (if u32 (bp + 8 * sz) =? hd base h2 then
     nsz <- word (hd base h2 + 4) ;;
     set_word (bp + 4) (u32 (sz + nsz)) ;;;
     nn <- word (hd base h2) ;;
     set_word bp nn
   else set_word bp (hd base h2)) Q s.
Proof.
  intros Hb Hs Hsp Hhi Hf Hc Hbs HQ. pose proof (spread_le _ _ _ Hsp) as Hle. rewrite (u32_small (bp + 8 * sz)) by lia.
  assert (forall a t, (a, t) ∈ h2 -> bp + 8 * sz <= a) as Hab by (intros a t Hin; pose proof (spread_in _ _ _ _ _ Hsp Hin); lia).
  destruct (Z.eqb_spec (bp + 8 * sz) (hd base h2)) as [E|E].
  - destruct h2 as [|[q sq] h2]; cbn [hd] in *; [lia|]. destruct Hc as (Hq & Hqs & Hc). apply Forall_cons in Hf as [H1 _]. cbn in H1.
    pose proof (spread_in _ _ _ q sq Hsp ltac:(set_solver)) as (_ & _ & Hext). destruct Hsp as (_ & _ & Hsp). unfold ext in Hext, Hsp.
    apply wp_bind, wp_gets. rewrite (u32_small (q + 4)), Hqs by lia. apply wp_bind, wp_modify, wp_bind, wp_gets.
    cbn [uw]. rewrite !u32_small by lia. rewrite wupd_ne, Hq by lia. apply wp_modify, HQ; cbn [uw].
    + done.
    + unfold join_up. rewrite (proj2 (Z.eqb_eq _ _) E). cbn [chain]. rewrite u32_small by lia. rewrite wupd_eq, wupd_ne, wupd_eq by lia.
      split; [done|]. split; [done|]. apply chain_upd; [apply chain_upd; [done|]|]; intros a t Hin;
        pose proof (spread_in _ _ _ _ _ Hsp Hin) as (Hlt & _); lia.
    + intros a Ha1 Ha2. rewrite u32_small by lia. by rewrite !wupd_ne.
  - apply wp_modify, HQ; cbn [uw]; [done| |].
    + rewrite u32_small by lia. assert (join_up bp sz h2 = (bp, sz) :: h2) as ->.
      { unfold join_up. destruct h2 as [|[q sq] h2]; [done|]. cbn [hd] in E. by rewrite (proj2 (Z.eqb_neq _ _) E). }
      cbn [chain]. rewrite wupd_eq, wupd_ne by lia. split; [done|]. split; [done|].
      apply chain_upd; [done|]. intros a t Hin. pose proof (Hab a t Hin). lia.
    + intros a Ha _. rewrite u32_small by lia. by rewrite wupd_ne.
Qed.

Lemma down_run s p sp bp t m h1 hi (Q : unit -> uheap -> Prop) : 0 < p -> 0 <= sp -> stop p sp <= bp -> 
  spread (bp - 1) ((bp, t) :: m) hi -> hi < 2 ^ 31 -> (forall a u, (a, u) ∈ h1 -> a + 8 <= p) ->
  chain (uw s) ((bp, t) :: m) base -> chain (uw s) h1 p -> uw s (p + 4) = sp ->
  (forall s', same_heap s s' -> chain (uw s') (h1 ++ join_down p sp ((bp, t) :: m)) base ->
    (forall a, a <> p -> a <> p + 4 -> uw s' a = uw s a) -> Q tt s') ->
  wp (if u32 (p + 8 * sp) =? bp then
     bsz <- word (bp + 4) ;;
     set_word (p + 4) (u32 (sp + bsz)) ;;;
     n <- word bp ;;
     set_word p n
   else set_word p bp) Q s.
Proof.
  intros Hp Hs Hpb Hsp Hhi Hh1 Hc Hc1 Hps HQ. pose proof (spread_in _ _ _ bp t Hsp ltac:(set_solver)) as (_ & Ht & Hext).
  destruct Hsp as (_ & _ & Hsp). destruct Hc as (Hb & Hbt & Hc). unfold stop, ext in *.
  rewrite (u32_small (p + 8 * sp)) by lia. unfold join_down in HQ. destruct (Z.eqb_spec (p + 8 * sp) bp) as [E|E].
  - apply wp_bind, wp_gets. rewrite (u32_small (bp + 4)), Hbt by lia. apply wp_bind, wp_modify, wp_bind, wp_gets.
    cbn [uw]. rewrite !u32_small by lia. rewrite wupd_ne, Hb by lia. apply wp_modify, HQ; cbn [uw]; [done| |intros a Ha1 Ha2; rewrite u32_small by lia; by rewrite !wupd_ne].
    rewrite u32_small by lia. apply chain_app. cbn [hd]. split.
    + apply chain_upd; [apply chain_upd; [done|]|]; intros a u Hin; specialize (Hh1 a u Hin); lia.
    + cbn [chain]. rewrite wupd_eq, wupd_ne, wupd_eq by lia. split; [done|]. split; [done|].
      apply chain_upd; [apply chain_upd; [done|]|]; intros a u Hin; pose proof (spread_in _ _ _ _ _ Hsp Hin) as (Hlt & _); lia.
  - apply wp_modify, HQ; cbn [uw]; [done| |intros a Ha _; rewrite u32_small by lia; by rewrite !wupd_ne].
    rewrite u32_small by lia. apply chain_app. cbn [hd]. split.
    + apply chain_upd; [done|]. intros a u Hin. specialize (Hh1 a u Hin). lia.
    + cbn [chain hd]. rewrite wupd_eq, !wupd_ne by lia. split; [done|]. split; [done|]. split; [done|]. split; [done|].
      apply chain_upd; [done|]. intros a u Hin. pose proof (spread_in _ _ _ _ _ Hsp Hin) as (Hlt & _). lia.
Qed.

Lemma join_up_shape bp sz h2 : 1 <= sz -> Forall (fun y => 1 <= y.2) h2 ->
  exists t m, join_up bp sz h2 = (bp, t) :: m /\ sz <= t /\ Forall (fun y => 1 <= y.2) m.
Proof.
  intros Hs Hf. unfold join_up. destruct h2 as [|[q sq] h2]; [by exists sz, []|]. pose proof Hf as [Hq Hf']%Forall_cons. cbn in Hq.
  case_match; [exists (sz + sq), h2; split; [done|]; split; [lia|done]|by exists sz, ((q, sq) :: h2)].
Qed.

(** The ring after a block was joined starts with [base] still. *)
Lemma ring_after l h1 p sp h2 bp t m : (base, 0) :: l = h1 ++ (p, sp) :: h2 -> Forall (fun x => 1 <= x.2) l -> stop p sp <= bp ->
  1 <= t -> Forall (fun y => 1 <= y.2) m ->
  exists l', h1 ++ join_down p sp ((bp, t) :: m) = (base, 0) :: l' /\ Forall (fun x => 1 <= x.2) l'.
Proof.
  intros E Hl Hp Ht Hm. unfold join_down. destruct h1 as [|[b u] h1]; cbn [app] in E; [injection E as <- <- <-|injection E as <- <- ->].
  - rewrite (proj2 (Z.eqb_neq _ _)) by (unfold stop in Hp; lia). exists ((bp, t) :: m). split; [done|]. by constructor.
  - apply Forall_app in Hl as [Hh1 [Hps _]%Forall_cons]. cbn in Hps. cbn [app]. eexists. split; [done|]. apply Forall_app. split; [done|].
    case_match; repeat constructor; cbn; lia || done.
Qed.

Lemma join_down_head p sp m : exists u m', join_down p sp m = (p, u) :: m'.
Proof. unfold join_down. destruct m as [|[b t] m]; [by exists sp, []|]. case_match; eauto. Qed.

Lemma free_ok l s bp sz fuel : heap_ok l s -> freeable l s bp sz -> (length l < fuel)%nat ->
  wp (free fuel (u32 (bp + 8))) (fun _ s' => exists l', heap_ok l' s' /\ ubrk s' = ubrk s /\
    (length l' <= length l + 1)%nat /\ (exists a t, (a, t) ∈ l' /\ sz <= t) /\
    (forall x, in_free l' x <-> in_free l x \/ bp <= x < bp + 8 * sz) /\
    forall a, base + 8 <= a -> ~ in_free l' a -> uw s' a = uw s a) s.
Proof.
  intros Hok [Hs Hlow Hhigh Hap Hhd] Hfuel. pose proof Hok as [Hb Hc Hsp Hsz Hbrk _].
  destruct (place 0 ((base, 0) :: l) bp sz (ubrk s) Hsp) as (h1 & p & sp & h2 & E & Hp & Hh2).
  { intros a t [[= -> ->]|Hin]%elem_of_cons; [left; unfold stop; lia|by apply Hap]. }
  { exists base, 0, l. split; [done|]. unfold stop. lia. }
  pose proof Hsp as Hsp'. rewrite E in Hc, Hsp'. apply chain_app in Hc as [Hc1 (Hpw & Hps & Hc2)]. cbn [hd] in Hc1.
  apply spread_split in Hsp' as (Hord & Hp0 & Hsp0 & Hsp2).
  assert (Forall (fun y => 1 <= y.2) h2) as Hf2.
  { destruct h1 as [|[b u] h1]; cbn in E; injection E as _ _ E; rewrite E in Hsz; [done|]. by apply Forall_app in Hsz as [_ [_ ?]%Forall_cons]. }
  assert (spread (bp + 8 * sz - 1) h2 (ubrk s)) as Hsp2'.
  { destruct h2 as [|[q sq] h2]; cbn [spread] in *; [lia|]. pose proof (Hh2 q sq ltac:(set_solver)). split; [lia|apply Hsp2]. }
  assert (base <= p) as Hbp by (apply (ring_in l s Hok p sp); rewrite E; set_solver).
  unfold free. replace (u32 (u32 (bp + 8) - 8)) with bp
    by (rewrite (u32_small (bp + 8)) by lia; rewrite u32_small by lia; lia).
  apply wp_bind, wp_get. unfold stop in Hp. eapply wp_bind_ok; [apply (free_loc_ok l s bp p sp h1 h2 Hok E); [lia| |lia|done]|].
  { intros a t Hin. pose proof (Hh2 a t Hin). lia. }
  apply wp_bind, wp_gets, wp_bind, wp_gets. rewrite (u32_small (bp + 4)), (u32_small p), Hhd, Hpw by lia.
  apply wp_bind. apply (up_run s bp sz h2 (ubrk s)); [lia|done|done|lia|done|done|done|]. intros s1 [Hf1 Hb1] Hcu Hlo.
  apply wp_bind, wp_gets. rewrite (u32_small (p + 4)), (Hlo (p + 4)), Hps by lia. apply wp_bind.
  destruct (join_up_shape bp sz h2 Hs Hf2) as (t & m & Ej & Ht & Hm).
  assert (spread (bp - 1) (join_up bp sz h2) (ubrk s)) as Hspj.
  { apply spread_join_up; [lia|done|done| |done|done]. destruct h2 as [|[q sq] h2]; cbn [spread] in *; [lia|]. split; [lia|apply Hsp2']. }
  rewrite Ej in Hcu, Hspj. apply (down_run s1 p sp bp t m h1 (ubrk s)); try done; try lia.
  { intros a u Hin. pose proof (Hord a u Hin) as Ho. unfold ext in Ho. lia. }
  { apply (chain_ext (uw s)); [done|]. intros a u Hin. pose proof (Hord a u Hin) as Ho. unfold ext in Ho. split; apply Hlo; lia. }
  { by rewrite Hlo by lia. }
  intros s2 [Hf2' Hb2] Hcd Hlo2. apply wp_modify. destruct (ring_after l h1 p sp h2 bp t m E Hsz Hp ltac:(lia) Hm) as (l' & El & Hszl).
  assert (forall x, in_free l' x <-> in_free l x \/ bp <= x < bp + 8 * sz) as Hfree.
  { intros x. assert (in_free ((base, 0) :: l') x <-> in_free ((base, 0) :: l) x \/ bp <= x < bp + 8 * sz) as Hx; [|rewrite !in_free_cons in Hx; split; intros Hy; [assert (in_free l' x) by done; destruct (proj1 Hx ltac:(by right)) as [[?|?]|?]; [lia|tauto|tauto]|destruct (proj2 Hx ltac:(tauto)); [lia|done]]].
    rewrite <-El, E, !in_free_app, in_free_cons, in_free_join_down, <-Ej, in_free_join_up; [tauto|lia| |lia|].
    - eapply Forall_impl; [exact Hf2|]. cbn. lia.
    - constructor; [cbn; lia|]. eapply Forall_impl; [exact Hm|]. cbn. lia. }
  assert (length l' <= length l + 1)%nat as Hlen.
  { apply (f_equal length) in El, E. apply (f_equal length) in Ej. rewrite !length_app in *. cbn [length] in *.
    unfold join_up, join_down in *. destruct h2 as [|[q sq] h2]; repeat case_match; cbn [length] in *; lia. }
  exists l'. split; [|split; [cbn; congruence|split; [exact Hlen|split; [|split; [exact Hfree|]]]]]; [split; cbn [uw ubrk freep]| |cbn [uw]].
  - done.
  - by rewrite <-El.
  - rewrite <-El, Hb2, Hb1. rewrite E in Hsp. eapply spread_replace; [exact Hsp|]. intros lo' Hlo'. apply spread_join_down; [done|done| | | |].
    + destruct Hspj as (_ & H1 & H2). split; [unfold stop; lia|done].
    + constructor; [cbn; lia|done].
    + intros b' t' m' [= <- <- <-]. unfold stop. lia.
    + pose proof (spread_le _ _ _ Hsp2). unfold ext in *. lia.
  - done.
  - congruence.
  - rewrite <-El. destruct (join_down_head p sp ((bp, t) :: m)) as (u & m' & ->). exists u. set_solver.
  - assert (exists a u, (a, u) ∈ (base, 0) :: l' /\ sz <= u) as (a & u & Hin & Hu).
    { rewrite <-El. unfold join_down. case_match; [exists p, (sp + t)|exists bp, t]; (split; [set_solver|lia]). }
    apply elem_of_cons in Hin as [[= -> ->]|Hin]; [lia|by exists a, u].
  - intros a Ha Hna. assert (~ in_free l a /\ ~ (bp <= a < bp + 8 * sz)) as [Hn1 Hn2] by (rewrite Hfree in Hna; tauto).
    assert (a <> p /\ a <> p + 4) as [].
    { assert ((p, sp) ∈ (base, 0) :: l) as Hin by (rewrite E; set_solver). apply elem_of_cons in Hin as [[= -> ->]|Hin]; [lia|].
      pose proof (proj1 (Forall_forall _ _) Hsz _ Hin) as H1. cbn in H1. split; intros ->; apply Hn1; exists p, sp; (split; [done|lia]). }
    rewrite Hlo2, Hlo; [done|lia..].
Qed.

(** ** Taking a block *)

(** [bp] with [n] units came out of the free blocks of [l], leaving [l']. *)
Record taken (l : list (Z * Z)) (s : uheap) (bp n : Z) (l' : list (Z * Z)) (s' : uheap) : Prop := {
  tk_ok : heap_ok l' s';
  tk_block : freeable l' s' bp n;
  tk_was_free : forall x, bp <= x < bp + 8 * n -> in_free l x;
  tk_free : forall x, in_free l' x <-> in_free l x /\ ~ (bp <= x < bp + 8 * n);
  tk_brk : ubrk s' = ubrk s;
  tk_frame : forall a, base + 8 <= a -> ~ in_free l a -> uw s' a = uw s a
}.

Section Carve.
Variables (l : list (Z * Z)) (s : uheap) (h1 h2 : list (Z * Z)) (q sq p sz n : Z).
Hypothesis Hok : heap_ok l s.
Hypothesis Hring : (base, 0) :: l = h1 ++ (q, sq) :: (p, sz) :: h2.
Hypothesis Hn : 1 <= n <= sz.

(** The facts about the ring used for either way of taking the block. *)
Lemma carve_facts : exists l1, l = l1 ++ (p, sz) :: h2 /\ (base, 0) :: l1 = h1 ++ [(q, sq)] /\ base + 8 <= p /\ p + 8 * sz <= ubrk s /\
  (forall a t, (a, t) ∈ l1 -> stop a t <= p /\ ext a t < p /\ base < a) /\ (forall a t, (a, t) ∈ h2 -> p + 8 * sz < a).
Proof.
  pose proof (ho_spread _ _ Hok) as Hsp. pose proof (ho_size _ _ Hok) as Hsz.
  assert (exists l1, l = l1 ++ (p, sz) :: h2 /\ (base, 0) :: l1 = h1 ++ [(q, sq)]) as (l1 & El & E1).
  { destruct h1 as [|[b u] h1']; cbn in Hring; injection Hring as <- <- El; [exists []; by rewrite El|].
    exists (h1' ++ [(q, sq)]). rewrite <-app_assoc. by split. }
  exists l1. split; [done|]. split; [done|]. rewrite El in Hsp, Hsz. cbn [spread] in Hsp. destruct Hsp as (_ & _ & Hsp).
  pose proof (spread_split _ _ _ _ _ _ Hsp) as (H1 & H2 & H3 & H4). unfold ext in H2. split; [lia|].
  pose proof (spread_le _ _ _ H4) as H5. unfold ext in H5. split; [lia|]. split.
  - intros a t Hin. pose proof (H1 a t Hin) as Ht. apply Forall_app in Hsz as [Hsz _]. pose proof (proj1 (Forall_forall _ _) Hsz _ Hin) as H6. cbn in H6.
    pose proof (spread_in _ _ _ a t Hsp ltac:(set_solver)) as (H7 & _). unfold stop, ext in *. lia.
  - intros a t Hin. pose proof (spread_in _ _ _ a t H4 Hin) as (H6 & _). unfold ext in H6. lia.
Qed.

Lemma carve_free_bytes l1 x : l = l1 ++ (p, sz) :: h2 -> in_free l x <-> in_free l1 x \/ p <= x < p + 8 * sz \/ in_free h2 x.
Proof. intros ->. by rewrite in_free_app, in_free_cons. Qed.

Lemma not_in_free l0 x : (forall a t, (a, t) ∈ l0 -> stop a t <= x \/ x < a) -> ~ in_free l0 x.
Proof. intros H (a & t & Hin & Hx). destruct (H a t Hin) as [H1|H1]; unfold stop in *; lia. Qed.

Lemma carve_whole : sz = n -> wp (carve n q p sz) (fun r s' => r = p + 8 /\ exists l', taken l s p n l' s' /\ (length l' <= length l)%nat) s.
Proof.
  intros E. pose proof Hok as [Hb Hc Hsp Hsz Hbrk _]. destruct carve_facts as (l1 & El & E1 & Hp & Hpb & Hl1 & Hh2).
  assert (base <= q /\ q + 8 <= 2 ^ 31) as [Hq Hq2] by (apply (ring_in l s Hok q sq); rewrite Hring; set_solver).
  assert (q + 8 <= p) as Hqp.
  { assert ((q, sq) ∈ (base, 0) :: l1) as Hin by (rewrite E1; set_solver). apply elem_of_cons in Hin as [[= -> ->]|Hin]; [lia|].
    pose proof (Hl1 q sq Hin). unfold stop in *. lia. }
  rewrite Hring in Hc. apply chain_app in Hc as [Hc1 (Hqw & Hqs & Hpw & Hps & Hc2)]. cbn [hd] in *.
  unfold carve. rewrite (proj2 (Z.eqb_eq sz n) E). apply wp_bind, wp_bind, wp_gets, wp_bind, wp_modify, wp_ret, wp_bind, wp_modify, wp_ret.
  cbn [uw ubrk freep]. rewrite !u32_small by lia. rewrite Hpw. split; [done|]. exists (l1 ++ h2).
  split; [|rewrite El, !length_app; cbn; lia]. assert ((base, 0) :: l1 ++ h2 = h1 ++ (q, sq) :: h2) as El'.
  { change ((base, 0) :: l1 ++ h2) with (((base, 0) :: l1) ++ h2). by rewrite E1, <-app_assoc. }
  split; cbn [uw ubrk freep].
  - split; cbn [uw ubrk freep]; [done| | | |done|].
    + rewrite El'. apply chain_app. split.
      * apply chain_upd; [done|]. intros a t Hin. pose proof (spread_split 0 h1 q sq ((p, sz) :: h2) (ubrk s)) as Hs'. rewrite <-Hring in Hs'.
        destruct (Hs' Hsp) as (Ho & _). pose proof (Ho a t Hin). unfold ext in *. lia.
      * cbn [chain]. rewrite wupd_eq, wupd_ne by lia. split; [done|]. split; [done|]. apply chain_upd; [done|].
        intros a t Hin. pose proof (Hh2 a t Hin). lia.
    + rewrite El'. replace (h1 ++ (q, sq) :: h2) with ((h1 ++ [(q, sq)]) ++ h2) by (by rewrite <-app_assoc).
      replace (h1 ++ (q, sq) :: (p, sz) :: h2) with ((h1 ++ [(q, sq)]) ++ (p, sz) :: h2) in Hring by (by rewrite <-app_assoc).
      rewrite Hring in Hsp. eapply spread_replace; [exact Hsp|]. intros lo' Hlo'. apply spread_split in Hsp as (_ & _ & _ & Hs2).
      destruct h2 as [|[b u] h2']; cbn [spread] in *; [unfold ext in *; lia|]. pose proof (Hh2 b u ltac:(set_solver)). split; [lia|apply Hs2].
    + rewrite El in Hsz. apply Forall_app in Hsz as [? [_ ?]%Forall_cons]. by apply Forall_app.
    + exists sq. rewrite El'. set_solver.
  - split; [lia|done|cbn; lia| |cbn; rewrite wupd_ne; lia]. intros a t [Hin|Hin]%elem_of_app; [left|right].
    + pose proof (Hl1 a t Hin). lia.
    + pose proof (Hh2 a t Hin). lia.
  - intros x Hx. apply (carve_free_bytes l1 x El). rewrite E. tauto.
  - intros x. rewrite (carve_free_bytes l1 x El), in_free_app, E. split; [|tauto]. intros Hx. split; [tauto|]. intros Hxp. revert Hx.
    intros [Hx|Hx]; revert Hx; apply not_in_free; intros a t Hin; [left; pose proof (Hl1 a t Hin); lia|right; pose proof (Hh2 a t Hin); lia].
  - done.
  - intros a Ha Hna. rewrite wupd_ne; [done|]. intros ->. assert ((q, sq) ∈ (base, 0) :: l1) as Hin by (rewrite E1; set_solver).
    apply elem_of_cons in Hin as [[= -> ->]|Hin]; [lia|]. apply Hna. exists q, sq. split; [rewrite El; set_solver|].
    assert ((q, sq) ∈ l) as Hin2 by (rewrite El; set_solver). pose proof (proj1 (Forall_forall _ _) Hsz _ Hin2) as H6. cbn in H6. lia.
Qed.

Lemma carve_tail : sz <> n -> wp (carve n q p sz) (fun r s' => exists bp, r = bp + 8 /\ exists l', taken l s bp n l' s' /\ (length l' <= length l)%nat) s.
Proof.
  intros E. pose proof Hok as [Hb Hc Hsp Hsz Hbrk _]. destruct carve_facts as (l1 & El & E1 & Hp & Hpb & Hl1 & Hh2).
  set (bp := p + 8 * (sz - n)). assert ((base, 0) :: l = ((base, 0) :: l1) ++ (p, sz) :: h2) as Er by (by rewrite El).
  rewrite Er in Hc. apply chain_app in Hc as [Hc1 (Hpw & Hps & Hc2)]. cbn [hd] in Hc1.
  unfold carve. rewrite (proj2 (Z.eqb_neq sz n) E). apply wp_bind, wp_bind, wp_modify, wp_bind, wp_modify, wp_ret, wp_bind, wp_modify, wp_ret.
  cbn [uw ubrk freep]. rewrite (u32_small (p + 8 * (sz - n))) by lia. fold bp. rewrite !u32_small by lia. exists bp. split; [done|].
  exists (l1 ++ (p, sz - n) :: h2). split; [|rewrite El, !length_app; cbn; lia].
  assert (forall a t, (a, t) ∈ (base, 0) :: l1 -> a + 8 <= p) as Hlow.
  { intros a t [[= -> ->]|Hin]%elem_of_cons; [lia|]. pose proof (Hl1 a t Hin). unfold stop in *. lia. }
  split; cbn [uw ubrk freep].
  - split; cbn [uw ubrk freep]; [done| | | |done|].
    + change ((base, 0) :: l1 ++ (p, sz - n) :: h2) with (((base, 0) :: l1) ++ (p, sz - n) :: h2). apply chain_app. cbn [hd]. split.
      * apply chain_upd; [apply chain_upd; [done|]|]; intros a t Hin; pose proof (Hlow a t Hin); lia.
      * cbn [chain]. rewrite (wupd_ne _ (bp + 4) n p), wupd_ne, (wupd_ne _ (bp + 4) n (p + 4)), wupd_eq by lia.
        split; [done|]. split; [done|]. apply chain_upd; [apply chain_upd; [done|]|]; intros a t Hin; pose proof (Hh2 a t Hin); lia.
    + rewrite Er in Hsp. change ((base, 0) :: l1 ++ (p, sz - n) :: h2) with (((base, 0) :: l1) ++ (p, sz - n) :: h2).
      eapply spread_replace; [exact Hsp|]. intros lo' Hlo'. apply spread_split in Hsp as (_ & _ & _ & Hs2). cbn [spread].
      split; [done|]. split; [lia|]. destruct h2 as [|[b u] h2']; cbn [spread] in *; [unfold ext in *; lia|].
      pose proof (Hh2 b u ltac:(set_solver)). split; [unfold ext; lia|apply Hs2].
    + rewrite El in Hsz. apply Forall_app in Hsz as [? [_ ?]%Forall_cons]. apply Forall_app. split; [done|]. constructor; [cbn; lia|done].
    + assert ((q, sq) ∈ (base, 0) :: l1) as Hin by (rewrite E1; set_solver). exists sq. set_solver.
  - split; [lia|lia|cbn; lia| |cbn; by rewrite wupd_eq]. intros a t [Hin|[[= -> ->]|Hin]%elem_of_cons]%elem_of_app; [left|left|right].
    + pose proof (Hl1 a t Hin). lia.
    + unfold stop. lia.
    + pose proof (Hh2 a t Hin). lia.
  - intros x Hx. apply (carve_free_bytes l1 x El). lia.
  - intros x. rewrite (carve_free_bytes l1 x El), in_free_app, in_free_cons. split.
    + intros Hx. split; [destruct Hx as [?|[?|?]]; [tauto|lia|tauto]|]. intros Hxp. destruct Hx as [Hx|[Hx|Hx]]; [|lia|]; revert Hx; apply not_in_free; intros a t Hin;
        [left; pose proof (Hl1 a t Hin); lia|right; pose proof (Hh2 a t Hin); lia].
    + intros [[?|[?|?]] ?]; [tauto| |tauto]. right. left. lia.
  - done.
  - intros a Ha Hna. assert (~ (p <= a < p + 8 * sz)) by (intros Hx; apply Hna, (carve_free_bytes l1 a El); tauto).
    rewrite !wupd_ne by lia. done.
Qed.

Lemma carve_ok : wp (carve n q p sz) (fun r s' => exists bp, r = bp + 8 /\ exists l', taken l s bp n l' s' /\ (length l' <= length l)%nat) s.
Proof.
  destruct (decide (sz = n)) as [E|E]; [|by apply carve_tail]. eapply wp_mono; [by apply carve_whole|].
  intros r s' [-> H]. by exists p.
Qed.

End Carve.

(** ** The search *)

(** The loop goes on after asking the kernel for memory. *)
Definition again (f lf : nat) (n : Z) : M uheap Z :=
  p <- morecore lf n ;;
  if p =? 0 then ret 0 else nx <- word p ;; malloc_loop f lf n p nx.

Section Search.
Variables (l : list (Z * Z)) (s : uheap) (lf : nat) (n fp sf : Z) (k1 k2 : list (Z * Z)).
Hypothesis Hok : heap_ok l s.
Hypothesis Hn : 1 <= n.
Hypothesis Hfp : freep s = fp.
Hypothesis Hring : (base, 0) :: l = k1 ++ (fp, sf) :: k2.

Definition found (o : outcome uheap Z) : Prop := exists h1 q sq p sz h2,
  (base, 0) :: l = h1 ++ (q, sq) :: (p, sz) :: h2 /\ n <= sz /\ o = carve n q p sz s.

(** The header before the place where the walk is. *)
Definition behind (g1 : list (Z * Z)) (prevp : Z) : Prop := g1 = [] \/ exists g u, g1 = g ++ [(prevp, u)].

(** One step of the walk at [(a, t)]. *)
Lemma malloc_step g1 a t g2 prevp f : (base, 0) :: l = g1 ++ (a, t) :: g2 -> behind g1 prevp ->
  found (malloc_loop (Datatypes.S f) lf n prevp a s) \/
  t < n /\ malloc_loop (Datatypes.S f) lf n prevp a s = (if a =? fp then again f lf n s else malloc_loop f lf n a (hd base g2) s).
Proof.
  intros E Hbe. destruct (ring_word l s Hok a t g1 g2 E) as [Hw Hs]. cbn [malloc_loop].
  rewrite (bind_ok (word (a + 4)) _ s t s) by (unfold word, gets; by rewrite Hs). destruct (Z.leb_spec n t).
  - left. destruct Hbe as [->|(g & u & ->)].
    + cbn in E. injection E as _ <- _. lia.
    + exists g, prevp, u, a, t, g2. split; [by rewrite E, <-app_assoc|]. by split.
  - right. split; [done|]. rewrite (bind_ok get _ s s s eq_refl), Hfp. destruct (a =? fp); [done|].
    by rewrite (bind_ok (word a) _ s (hd base g2) s) by (unfold word, gets; by rewrite Hw).
Qed.

Lemma walk_up g2 : forall g1 prevp fuel, (base, 0) :: l = g1 ++ g2 ++ (fp, sf) :: k2 -> behind g1 prevp -> (length g2 < fuel)%nat ->
  found (malloc_loop fuel lf n prevp (hd fp g2) s) \/
  (forall a t, (a, t) ∈ g2 ++ [(fp, sf)] -> t < n) /\
  malloc_loop fuel lf n prevp (hd fp g2) s = again (fuel - length g2 - 1) lf n s.
Proof.
  induction g2 as [|[a t] g2 IH]; intros g1 prevp [|f] E Hbe Hf; try (cbn in Hf; lia); cbn [hd].
  - destruct (malloc_step g1 fp sf k2 prevp f E Hbe) as [?|[Ht ->]]; [by left|right]. rewrite Z.eqb_refl. split.
    + intros a t [[= -> ->]|?%elem_of_nil]%elem_of_cons; done.
    + cbn [length]. f_equal. lia.
  - destruct (malloc_step g1 a t (g2 ++ (fp, sf) :: k2) prevp f E Hbe) as [?|[Ht ->]]; [by left|].
    assert (a =? fp = false) as ->.
    { apply Z.eqb_neq. pose proof (ho_spread _ _ Hok) as Hsp. rewrite E in Hsp.
      replace (g1 ++ ((a, t) :: g2) ++ (fp, sf) :: k2) with ((g1 ++ (a, t) :: g2) ++ (fp, sf) :: k2) in Hsp by (by rewrite <-app_assoc).
      apply spread_split in Hsp as (Ho & _). pose proof (Ho a t ltac:(set_solver)) as H1. unfold ext in H1. lia. }
    replace (hd base (g2 ++ (fp, sf) :: k2)) with (hd fp g2) by (by destruct g2 as [|[b u] g2]).
    destruct (IH (g1 ++ [(a, t)]) a f) as [?|[Hall ->]]; [by rewrite E, <-app_assoc|right; by exists g1, t|cbn in Hf; lia|by left|right].
    split; [|cbn [length]; f_equal; lia]. intros b u [[= -> ->]|Hin]%elem_of_cons; [done|by apply (Hall b u)].
Qed.

Lemma walk_round g2 : forall g1 prevp fuel, (base, 0) :: l = g1 ++ g2 -> behind g1 prevp -> g1 <> [] -> (forall a t, (a, t) ∈ g2 -> fp < a) ->
  (length g2 + length k1 < fuel)%nat ->
  found (malloc_loop fuel lf n prevp (hd base g2) s) \/
  (forall a t, (a, t) ∈ g2 ++ k1 ++ [(fp, sf)] -> t < n) /\
  malloc_loop fuel lf n prevp (hd base g2) s = again (fuel - length g2 - length k1 - 1) lf n s.
Proof.
  induction g2 as [|[a t] g2 IH]; intros g1 prevp fuel E Hbe Hne Hg Hf; cbn [hd].
  - replace base with (hd fp k1) by (destruct k1 as [|[b u] k1']; cbn in *; congruence).
    destruct (walk_up k1 [] prevp fuel Hring ltac:(by left)) as [?|[Hall ->]]; [cbn in Hf; lia|by left|right].
    split; [exact Hall|]. cbn [length]. f_equal. lia.
  - destruct fuel as [|f]; [lia|]. destruct (malloc_step g1 a t g2 prevp f E Hbe) as [?|[Ht ->]]; [by left|].
    pose proof (Hg a t ltac:(set_solver)). rewrite (proj2 (Z.eqb_neq a fp)) by lia.
    destruct (IH (g1 ++ [(a, t)]) a f) as [?|[Hall ->]]; [by rewrite E, <-app_assoc|right; by exists g1, t|by destruct g1| |cbn in Hf; lia|by left|right].
    + intros b u Hb. apply (Hg b u). set_solver.
    + split; [|cbn [length]; f_equal; lia]. intros b u [[= -> ->]|Hin]%elem_of_cons; [done|by apply (Hall b u)].
Qed.

(** The walk from the header after [freep]. *)
Lemma search_ok fuel : (length l < fuel)%nat ->
  found (malloc_loop fuel lf n fp (uw s (u32 fp)) s) \/
  (forall a t, (a, t) ∈ l -> t < n) /\ malloc_loop fuel lf n fp (uw s (u32 fp)) s = again (fuel - length l - 1) lf n s.
Proof.
  intros Hf. destruct (ring_word l s Hok fp sf k1 k2 Hring) as [-> _]. assert (length k1 + length k2 = length l)%nat as Hlen.
  { pose proof (f_equal length Hring) as Hl. rewrite length_app in Hl. cbn in Hl. lia. }
  destruct (walk_round k2 (k1 ++ [(fp, sf)]) fp fuel) as [?|[Hall ->]].
  - by rewrite Hring, <-app_assoc.
  - right. by exists k1, sf.
  - by destruct k1.
  - intros a t Hin. pose proof (ho_spread _ _ Hok) as Hsp. rewrite Hring in Hsp. apply spread_split in Hsp as (_ & _ & _ & Hsp).
    pose proof (spread_in _ _ _ a t Hsp Hin) as (H1 & _). unfold ext in H1. lia.
  - lia.
  - by left.
  - right. split; [|f_equal; lia]. intros a t Hin. apply (Hall a t). assert ((a, t) ∈ k1 ++ (fp, sf) :: k2) by (rewrite <-Hring; set_solver). set_solver.
Qed.

End Search.

(** ** malloc *)

(** The kernel keeps a process below the kernel's addresses. *)
Definition bounded_grants : Prop := forall b n, grants b n = true -> b + n < 2 ^ 31.

(** [bp], a block of [n] units, is new: it was free or is fresh from sbrk. *)
Record allocated (l : list (Z * Z)) (s : uheap) (bp n : Z) (l' : list (Z * Z)) (s' : uheap) : Prop := {
  al_ok : heap_ok l' s';
  al_block : freeable l' s' bp n;
  al_brk : ubrk s <= ubrk s';
  al_new : forall x, bp <= x < bp + 8 * n -> in_free l x \/ ubrk s <= x < ubrk s';
  al_free : forall x, in_free l' x <-> (in_free l x \/ ubrk s <= x < ubrk s') /\ ~ (bp <= x < bp + 8 * n);
  al_frame : forall a, base + 8 <= a < ubrk s -> ~ in_free l a -> uw s' a = uw s a
}.

Lemma found_ok l s n o : heap_ok l s -> 1 <= n -> found l s n o ->
  exists r s', o = Ok r s' /\ exists bp l', r = bp + 8 /\ taken l s bp n l' s'.
Proof.
  intros Hok Hn (h1 & q & sq & p & sz & h2 & E & Hsz & ->).
  destruct (wp_ok _ _ _ (carve_ok l s h1 h2 q sq p sz n Hok E ltac:(lia))) as (r & s' & Er & bp & -> & l' & Ht & _).
  exists (bp + 8), s'. split; [done|]. by exists bp, l'.
Qed.

Lemma taken_allocated l s bp n l' s' : taken l s bp n l' s' -> allocated l s bp n l' s'.
Proof.
  intros [A B C D E F]. split; [done|done|lia| | |].
  - intros x Hx. left. by apply C.
  - intros x. rewrite D, E. split; [tauto|]. intros [[?|?] ?]; [tauto|lia].
  - intros a Ha Hna. apply F; [lia|done].
Qed.

(** Asking the kernel: no memory, or a larger ring with a block that fits. *)
Lemma morecore_ok l s n fuel : bounded_grants -> heap_ok l s -> 1 <= n < 2 ^ 28 -> (length l < fuel)%nat ->
  morecore fuel n s = Ok 0 s \/
  (exists l1 s1, morecore fuel n s = Ok (freep s1) s1 /\ heap_ok l1 s1 /\ ubrk s < ubrk s1 /\ (length l1 <= length l + 1)%nat /\
    (exists a t, (a, t) ∈ l1 /\ n <= t) /\
    (forall x, in_free l1 x <-> in_free l x \/ ubrk s <= x < ubrk s1) /\
    forall a, base + 8 <= a < ubrk s -> ~ in_free l a -> uw s1 a = uw s a).
Proof.
  intros Hgr Hok Hn Hf. pose proof Hok as [Hb Hc Hsp Hsz Hbrk [fz Hfp]]. unfold morecore. set (nu := if n <? 4096 then 4096 else n).
  assert (n <= nu < 2 ^ 28 /\ 4096 <= nu) as [Hnu Hnu2] by (unfold nu; destruct (Z.ltb_spec n 4096); lia).
  rewrite (u32_small (nu * 8)), s32_small by lia. 
  pose proof (spread_le _ _ _ (proj2 (proj2 Hsp))) as Hlow. unfold ext in Hlow.
  destruct (grants (ubrk s) (nu * 8)) eqn:Eg.
  2: { left. rewrite (bind_ok (sbrk _) _ s (-1) s) by (unfold sbrk, bind, get; by rewrite Eg). done. }
  right. pose proof (Hgr _ _ Eg) as Hlim.
  rewrite (bind_ok (sbrk _) _ s (ubrk s) (Uheap (uw s) (freep s) (ubrk s + nu * 8)))
    by (unfold sbrk, bind, get; rewrite Eg, (u32_small (ubrk s + nu * 8)) by lia; done). rewrite (proj2 (Z.eqb_neq _ (-1))) by lia.
  set (s0 := Uheap (wupd (uw s) (u32 (ubrk s + 4)) nu) (freep s) (ubrk s + nu * 8)).
  rewrite (bind_ok (set_word (ubrk s + 4) nu) _ (Uheap (uw s) (freep s) (ubrk s + nu * 8)) tt s0 eq_refl).
  assert (u32 (ubrk s + 4) = ubrk s + 4) as Hu by (apply u32_small; lia).
  assert (heap_ok l s0) as Hok0.
  { split; cbn [uw ubrk freep s0]; [done| | |done|lia|by exists fz].
    - apply chain_upd; [done|]. intros a t Hin. pose proof (spread_in _ _ _ a t Hsp Hin) as (_ & _ & He). unfold ext in He. lia.
    - eapply spread_weaken; [exact Hsp|lia]. }
  assert (freeable l s0 (ubrk s) nu) as Hfr.
  { split; cbn [uw ubrk s0]; [lia|lia|lia| |by rewrite Hu, wupd_eq]. intros a t Hin. left.
    pose proof (proj1 (Forall_forall _ _) Hsz _ Hin) as H1. cbn in H1.
    pose proof (spread_in _ _ _ a t Hsp ltac:(set_solver)) as (_ & _ & He). unfold ext, stop in *. lia. }
  destruct (wp_ok _ _ _ (free_ok l s0 (ubrk s) nu fuel Hok0 Hfr Hf)) as ([] & s1 & E1 & l1 & Hok1 & Hb1 & Hlen & (a & t & Hin & Ht) & Hfree & Hframe).
  exists l1, s1. rewrite (bind_ok _ _ _ _ _ E1), (bind_ok get _ s1 s1 s1 eq_refl). split; [done|]. split; [done|].
  cbn [ubrk s0] in Hb1. split; [lia|]. split; [done|]. split; [exists a, t; split; [done|lia]|].
  assert (forall x, in_free l1 x <-> in_free l x \/ ubrk s <= x < ubrk s1) as Hfree1.
  { intros x. rewrite Hfree, Hb1. by replace (8 * nu) with (nu * 8) by lia. }
  split; [exact Hfree1|]. intros b Hbl Hnb. rewrite Hframe; [|lia|rewrite Hfree1; intros [?|?]; [done|lia]].
  cbn [uw s0]. by rewrite wupd_ne by lia.
Qed.

Lemma malloc_run l s n fuel lf : bounded_grants -> heap_ok l s -> 1 <= n < 2 ^ 28 -> (length l < lf)%nat -> (2 * length l + 3 < fuel)%nat ->
  wp (malloc_loop fuel lf n (freep s) (uw s (u32 (freep s))))
    (fun r s' => r = 0 /\ s' = s \/ exists bp l', r = bp + 8 /\ allocated l s bp n l' s') s.
Proof.
  intros Hgr Hok Hn Hlf Hf. destruct (ho_freep _ _ Hok) as [sf Hin]. apply list_elem_of_split in Hin as (k1 & k2 & E).
  destruct (search_ok l s lf n (freep s) sf k1 k2 Hok ltac:(lia) eq_refl E fuel ltac:(lia)) as [Hfo|[Hall Heq]].
  { destruct (found_ok l s n _ Hok ltac:(lia) Hfo) as (r & s' & Er & bp & l' & -> & Ht). eapply ok_wp; [exact Er|]. right.
    exists bp, l'. split; [done|by apply taken_allocated]. }
  unfold wp. rewrite Heq. unfold again.
  destruct (morecore_ok l s n lf Hgr Hok Hn Hlf) as [Em|(l1 & s1 & Em & Hok1 & Hb1 & Hlen & (a & t & Hin1 & Ht) & Hfree & Hframe)].
  { rewrite (bind_ok _ _ _ _ _ Em). cbn. by left. }
  rewrite (bind_ok _ _ _ _ _ Em). destruct (ho_freep _ _ Hok1) as [sf1 Hin]. pose proof (ring_in l1 s1 Hok1 _ _ Hin) as [Hge _].
  pose proof (ho_base _ _ Hok1). rewrite (proj2 (Z.eqb_neq (freep s1) 0)) by lia. rewrite (bind_ok (word _) _ s1 _ s1 eq_refl).
  apply list_elem_of_split in Hin as (j1 & j2 & E1).
  destruct (search_ok l1 s1 lf n (freep s1) sf1 j1 j2 Hok1 ltac:(lia) eq_refl E1 (fuel - length l - 1) ltac:(lia)) as [Hfo|[Hall1 _]].
  2: { pose proof (Hall1 a t Hin1). lia. }
  destruct (found_ok l1 s1 n _ Hok1 ltac:(lia) Hfo) as (r & s' & -> & bp & l' & -> & [A B C D F G]). right.
  exists bp, l'. split; [done|]. split; [done|done|lia| | |].
  - intros x Hx. rewrite F. by apply Hfree, C.
  - intros x. rewrite D, Hfree, F. done.
  - intros b Hbl Hnb. rewrite G; [by apply Hframe|lia|]. rewrite Hfree. intros [?|?]; [done|lia].
Qed.

(** Blocks of live memory stay apart from the free ones. *)
Lemma freeable_not_free l s bp sz x : heap_ok l s -> freeable l s bp sz -> bp <= x < bp + 8 * sz -> ~ in_free l x.
Proof.
  intros Hok Hfr Hx (a & t & Hin & Ha). destruct (fr_apart _ _ _ _ Hfr a t Hin) as [H|H]; unfold stop in *; lia.
Qed.

Lemma freeable_after l s b t l' s' : heap_ok l' s' -> freeable l s b t -> ubrk s <= ubrk s' ->
  (forall x, b <= x < b + 8 * t -> ~ in_free l' x) -> uw s' (b + 4) = uw s (b + 4) -> freeable l' s' b t.
Proof.
  intros Hok' [A B C D E] Hbrk Hno Hw. split; [done|done|lia| |by rewrite Hw]. intros a u Hin.
  pose proof (proj1 (Forall_forall _ _) (ho_size _ _ Hok') _ Hin) as Hu. cbn in Hu. unfold stop.
  destruct (Z.le_gt_cases (a + 8 * u) b) as [|H1]; [left; lia|right]. destruct (Z.le_gt_cases (b + 8 * t) a) as [|H2]; [done|].
  exfalso. apply (Hno (Z.max a b)); [lia|]. exists a, u. split; [done|lia].
Qed.

(** Two blocks of [(address, units)] have no byte in common. *)
Definition disjoint_blocks (x y : Z * Z) : Prop := x.1 + 8 * x.2 <= y.1 \/ y.1 + 8 * y.2 <= x.1.

Lemma disjoint_intro (b t b' t' : Z) : 1 <= t -> 1 <= t' -> (forall x, b <= x < b + 8 * t -> ~ (b' <= x < b' + 8 * t')) ->
  disjoint_blocks (b, t) (b', t').
Proof.
  intros Ht Ht' Hno. unfold disjoint_blocks. cbn. destruct (Z.le_gt_cases (b + 8 * t) b') as [|H1]; [by left|right].
  destruct (Z.le_gt_cases (b' + 8 * t') b) as [|H2]; [done|]. exfalso. apply (Hno (Z.max b b')); lia.
Qed.

Lemma freeable_allocated l s bp n l' s' b t : heap_ok l s -> allocated l s bp n l' s' -> freeable l s b t ->
  freeable l' s' b t /\ disjoint_blocks (bp, n) (b, t) /\ forall a, b <= a < b + 8 * t -> uw s' a = uw s a.
Proof.
  intros Hok [Ok' Blk Brk New Free Frame] Hfr. pose proof (fr_size _ _ _ _ Hfr). pose proof (fr_high _ _ _ _ Hfr). pose proof (fr_low _ _ _ _ Hfr).
  assert (forall a, b <= a < b + 8 * t -> ~ in_free l a) as Hno by (intros a; by apply (freeable_not_free l s)).
  assert (forall a, b <= a < b + 8 * t -> uw s' a = uw s a) as Hw by (intros a Ha; apply Frame; [lia|by apply Hno]).
  split; [|split; [|done]].
  - apply (freeable_after l s); [done|done|done| |apply Hw; lia]. intros x Hx. rewrite Free. intros [[?|?] _]; [by apply (Hno x)|lia].
  - apply disjoint_intro; [apply Blk|done|]. intros x Hx Hx'. destruct (New x Hx) as [?|?]; [by apply (Hno x)|lia].
Qed.

(** The result of malloc, from the first call on. *)
Definition units (nbytes : Z) : Z := (nbytes + 7) / 8 + 1.

Definition initial (s : uheap) : Prop := freep s = 0 /\ 0 < base /\ base + 8 <= ubrk s < 2 ^ 31.

Lemma malloc_ok l s nbytes fuel : bounded_grants -> heap_ok l s -> 0 <= nbytes < 2 ^ 31 - 16 -> (2 * length l + 3 < fuel)%nat ->
  wp (malloc fuel nbytes) (fun r s' => r = 0 /\ s' = s \/ exists bp l', r = bp + 8 /\ allocated l s bp (units nbytes) l' s') s.
Proof.
  intros Hgr Hok Hnb Hf. destruct (ho_freep _ _ Hok) as [sf Hin]. pose proof (ring_in l s Hok _ _ Hin) as [Hge _]. pose proof (ho_base _ _ Hok).
  unfold malloc. apply wp_bind, wp_get, wp_bind. rewrite (proj2 (Z.eqb_neq (freep s) 0)) by lia. apply wp_ret, wp_bind, wp_get, wp_bind, wp_gets.
  rewrite u32_small by lia. replace (nbytes + 8 - 1) with (nbytes + 7) by lia. apply malloc_run; [done|done| |lia|lia].
  unfold units. Z.div_mod_to_equations. lia.
Qed.

Lemma malloc_first s nbytes fuel : bounded_grants -> initial s -> 0 <= nbytes < 2 ^ 31 - 16 -> (3 < fuel)%nat ->
  exists s0, heap_ok [] s0 /\ ubrk s0 = ubrk s /\ malloc fuel nbytes s = malloc fuel nbytes s0.
Proof.
  intros Hgr (Hfp & Hb & Hbrk) Hnb Hf. exists (Uheap (wupd (wupd (uw s) base base) (base + 4) 0) base (ubrk s)).
  split; [|split; [done|]].
  - split; cbn [uw freep ubrk chain spread hd]; [done| | |by constructor|done|exists 0; set_solver].
    + rewrite wupd_eq, wupd_ne, wupd_eq by lia. done.
    + unfold ext. split; [lia|]. split; [lia|lia].
  - unfold malloc. rewrite !(bind_ok get _ _ _ _ eq_refl), Hfp. cbn [freep].
    rewrite (proj2 (Z.eqb_neq base 0)) by lia. change (0 =? 0) with true. cbn [when].
    rewrite (bind_ok _ _ s tt (Uheap (wupd (wupd (uw s) base base) (base + 4) 0) base (ubrk s))); [done|].
    unfold bind, set_word, set_freep, modify. cbn. by rewrite !u32_small by lia.
Qed.

(** ** A program and its heap *)

(** The live blocks of a program, as [(header, units)], while it calls malloc
    and free and stores into its blocks. *)
Inductive ustep : uheap * list (Z * Z) -> uheap * list (Z * Z) -> Prop :=
| u_malloc s live nbytes fuel r s' : 0 <= nbytes < 2 ^ 31 - 16 -> malloc fuel nbytes s = Ok r s' -> r <> 0 ->
    ustep (s, live) (s', (r - 8, units nbytes) :: live)
| u_no_memory s live nbytes fuel s' : 0 <= nbytes < 2 ^ 31 - 16 -> malloc fuel nbytes s = Ok 0 s' -> ustep (s, live) (s', live)
| u_free s live1 live2 bp n fuel s' : free fuel (bp + 8) s = Ok tt s' ->
    ustep (s, live1 ++ (bp, n) :: live2) (s', live1 ++ live2)
| u_store s live bp n a v : (bp, n) ∈ live -> bp + 8 <= a < bp + 8 * n ->
    ustep (s, live) (Uheap (wupd (uw s) a v) (freep s) (ubrk s), live).

(** Pairwise disjoint. *)
Fixpoint apart (live : list (Z * Z)) : Prop :=
  match live with [] => True | x :: live' => Forall (disjoint_blocks x) live' /\ apart live' end.

Definition live_ok (l : list (Z * Z)) (s : uheap) (live : list (Z * Z)) : Prop :=
  heap_ok l s /\ apart live /\ forall b t, (b, t) ∈ live -> freeable l s b t.

(** A larger bound does not change an answer. *)
Definition below {A} (m m' : M uheap A) : Prop := forall s, m s = NoFuel \/ m s = m' s.

Lemma below_refl {A} (m : M uheap A) : below m m.
Proof. by right. Qed.

Lemma below_bind {A B} (m m' : M uheap A) (k k' : A -> M uheap B) : below m m' -> (forall a, below (k a) (k' a)) -> below (bind m k) (bind m' k').
Proof. intros Hm Hk s. unfold bind. destruct (Hm s) as [->| ->]; [by left|]. destruct (m' s); try by right. apply Hk. Qed.

Lemma below_ok {A} (m m' : M uheap A) a s s' : below m m' -> m s = Ok a s' -> m' s = Ok a s'.
Proof. intros Hm E. destruct (Hm s) as [E'|E']; congruence. Qed.

Lemma free_loc_below bp f : forall g p, (f <= g)%nat -> below (free_loc f bp p) (free_loc g bp p).
Proof.
  induction f as [|f IH]; intros [|g] p Hg; try lia; [by left|by left|]. cbn [free_loc]. apply below_bind; [apply below_refl|]. intros nx.
  repeat case_match; try apply below_refl. apply IH. lia.
Qed.

Lemma free_below f g ap : (f <= g)%nat -> below (free f ap) (free g ap).
Proof.
  intros Hg. unfold free. apply below_bind; [apply below_refl|]. intros s. apply below_bind; [by apply free_loc_below|]. intros p. apply below_refl.
Qed.

Lemma malloc_loop_below f : forall g lf lg n prevp p, (f <= g)%nat -> (lf <= lg)%nat -> below (malloc_loop f lf n prevp p) (malloc_loop g lg n prevp p).
Proof.
  induction f as [|f IH]; intros [|g] lf lg n prevp p Hg Hl; try lia; [by left|by left|]. cbn [malloc_loop].
  apply below_bind; [apply below_refl|]. intros sz. case_match; [apply below_refl|]. apply below_bind; [apply below_refl|]. intros s.
  case_match; [|apply below_bind; [apply below_refl|]; intros nx; apply IH; lia]. apply below_bind.
  - unfold morecore. apply below_bind; [apply below_refl|]. intros q. case_match; [apply below_refl|].
    apply below_bind; [apply below_refl|]. intros []. apply below_bind; [by apply free_below|]. intros []. apply below_refl.
  - intros q. case_match; [apply below_refl|]. apply below_bind; [apply below_refl|]. intros nx. apply IH; lia.
Qed.

Lemma malloc_below f g nbytes : (f <= g)%nat -> below (malloc f nbytes) (malloc g nbytes).
Proof.
  intros Hg. unfold malloc. do 4 (apply below_bind; [apply below_refl|]; intros ?). by apply malloc_loop_below.
Qed.

(** ** Invariant of the program *)

Section Program.
Hypothesis Hgr : bounded_grants.

Lemma in_apart_mid live1 x live2 : apart (live1 ++ x :: live2) -> apart (live1 ++ live2) /\
  forall y, y ∈ live1 ++ live2 -> disjoint_blocks x y.
Proof.
  induction live1 as [|z live1 IH]; cbn [app apart].
  - intros [Hx Hl]. split; [done|]. by apply Forall_forall.
  - intros [Hz Hl]. destruct (IH Hl) as [Ha Hy]. apply Forall_app in Hz as [Hz1 [Hzx Hz2]%Forall_cons]. split.
    + split; [by apply Forall_app|done].
    + intros y [->|Hin]%elem_of_cons; [|by apply Hy]. unfold disjoint_blocks in *. lia.
Qed.

Lemma live_malloc l s live nbytes fuel r s' : live_ok l s live -> 0 <= nbytes < 2 ^ 31 - 16 -> malloc fuel nbytes s = Ok r s' ->
  r = 0 /\ s' = s \/ exists l', live_ok l' s' ((r - 8, units nbytes) :: live) /\ r <> 0 /\
    allocated l s (r - 8) (units nbytes) l' s' /\ forall b t a, (b, t) ∈ live -> b <= a < b + 8 * t -> uw s' a = uw s a.
Proof.
  intros (Hok & Hap & Hlive) Hnb E. set (g := (fuel + 2 * length l + 4)%nat).
  pose proof (below_ok _ _ _ _ _ (malloc_below fuel g nbytes ltac:(lia)) E) as Eg.
  pose proof (malloc_ok l s nbytes g Hgr Hok Hnb ltac:(lia)) as W. unfold wp in W. rewrite Eg in W.
  destruct W as [?|(bp & l' & -> & Hal)]; [by left|right]. exists l'. replace (bp + 8 - 8) with bp by lia.
  pose proof (fr_low _ _ _ _ (al_block _ _ _ _ _ _ Hal)). pose proof (ho_base _ _ Hok). split; [|split; [lia|split; [done|]]].
  - split; [apply Hal|]. split.
    + cbn [apart]. split; [|done]. apply Forall_forall. intros [b t] Hin. by apply (freeable_allocated l s bp _ l' s' b t Hok Hal), Hlive.
    + intros b t [[= -> ->]|Hin]%elem_of_cons; [apply Hal|]. by apply (freeable_allocated l s bp _ l' s' b t Hok Hal), Hlive.
  - intros b t a Hin. by apply (freeable_allocated l s bp _ l' s' b t Hok Hal), Hlive.
Qed.

Lemma live_free l s live1 live2 bp n fuel s' : live_ok l s (live1 ++ (bp, n) :: live2) -> free fuel (bp + 8) s = Ok tt s' ->
  exists l', live_ok l' s' (live1 ++ live2) /\ ubrk s' = ubrk s /\ (forall x, in_free l' x <-> in_free l x \/ bp <= x < bp + 8 * n) /\
    forall b t a, (b, t) ∈ live1 ++ live2 -> b <= a < b + 8 * t -> uw s' a = uw s a.
Proof.
  intros (Hok & Hap & Hlive) E. set (g := (fuel + length l + 1)%nat).
  pose proof (below_ok _ _ _ _ _ (free_below fuel g (bp + 8) ltac:(lia)) E) as Eg.
  assert (freeable l s bp n) as Hfr by (apply Hlive; set_solver). pose proof Hfr as [F1 F2 F3 _ _]. pose proof (ho_brk _ _ Hok). pose proof (ho_base _ _ Hok).
  pose proof (free_ok l s bp n g Hok Hfr ltac:(lia)) as W. unfold wp in W. rewrite u32_small, Eg in W by lia.
  destruct W as (l' & Hok' & Hbrk & _ & _ & Hfree & Hframe). destruct (in_apart_mid _ _ _ Hap) as [Hap' Hdis].
  assert (forall b t, (b, t) ∈ live1 ++ live2 -> freeable l s b t) as Hl by (intros b t Hin; apply Hlive; set_solver).
  assert (forall b t x, (b, t) ∈ live1 ++ live2 -> b <= x < b + 8 * t -> ~ in_free l' x) as Hno.
  { intros b t x Hin Hx. rewrite Hfree. pose proof (Hdis _ Hin) as Hd. unfold disjoint_blocks in Hd. cbn in Hd.
    intros [?|?]; [by apply (freeable_not_free l s b t x Hok (Hl b t Hin) Hx)|lia]. }
  assert (forall b t a, (b, t) ∈ live1 ++ live2 -> b <= a < b + 8 * t -> uw s' a = uw s a) as Hw.
  { intros b t a Hin Ha. apply Hframe; [|by apply (Hno b t)]. pose proof (fr_low _ _ _ _ (Hl b t Hin)). lia. }
  exists l'. split; [|done]. split; [done|]. split; [done|]. intros b t Hin. pose proof (fr_size _ _ _ _ (Hl b t Hin)).
  apply (freeable_after l s); [done|by apply Hl|lia|intros x; by apply (Hno b t)|]. apply (Hw b t); [done|lia].
Qed.

Lemma apart_in live x y : apart live -> x ∈ live -> y ∈ live -> x = y \/ disjoint_blocks x y.
Proof.
  intros Hap Hx Hy. apply list_elem_of_split in Hx as (l1 & l2 & ->). destruct (in_apart_mid _ _ _ Hap) as [_ Hd].
  apply elem_of_app in Hy as [Hy|[->|Hy]%elem_of_cons]; [right|by left|right]; apply Hd; set_solver.
Qed.

Lemma live_store l s live bp n a v : live_ok l s live -> (bp, n) ∈ live -> bp + 8 <= a < bp + 8 * n ->
  live_ok l (Uheap (wupd (uw s) a v) (freep s) (ubrk s)) live.
Proof.
  intros (Hok & Hap & Hlive) Hin Ha. pose proof Hok as [Hb Hc Hsp Hsz Hbrk Hfp]. pose proof (Hlive _ _ Hin) as Hfr. pose proof (fr_low _ _ _ _ Hfr).
  assert (~ in_free l a) as Hno by (apply (freeable_not_free l s bp n); [done|done|lia]).
  split; [|split; [done|]].
  - split; cbn [uw freep ubrk]; try done. apply chain_upd; [done|]. intros b t [[= -> ->]|Hbt]%elem_of_cons; [lia|].
    pose proof (proj1 (Forall_forall _ _) Hsz _ Hbt) as Ht. cbn in Ht. split; intros ->; apply Hno; exists b, t; (split; [done|lia]).
  - intros b t Hbt. destruct (Hlive b t Hbt) as [A B C D E]. split; cbn [uw ubrk]; try done. rewrite wupd_ne; [done|].
    destruct (apart_in live (bp, n) (b, t) Hap Hin Hbt) as [[= -> ->]|Hd]; [lia|]. unfold disjoint_blocks in Hd. cbn in Hd. lia.
Qed.

Lemma ustep_ok s live s' live' : (initial s /\ live = [] \/ exists l, live_ok l s live) -> ustep (s, live) (s', live') ->
  (initial s' /\ live' = [] \/ exists l, live_ok l s' live').
Proof.
  intros Hinv Hst. assert (forall nbytes fuel r, 0 <= nbytes < 2 ^ 31 - 16 -> malloc fuel nbytes s = Ok r s' ->
    exists l s0, live_ok l s0 live /\ exists g, malloc g nbytes s0 = Ok r s') as Hstart.
  { intros nbytes fuel r Hnb E. destruct Hinv as [[Hi ->]|[l Hl]]; [|exists l, s; eauto].
    pose proof (below_ok _ _ _ _ _ (malloc_below fuel (fuel + 4) nbytes ltac:(lia)) E) as Eg.
    destruct (malloc_first s nbytes (fuel + 4) Hgr Hi Hnb ltac:(lia)) as (s0 & Hok & _ & E0). exists [], s0.
    split; [split; [done|split; [done|]]|by exists (fuel + 4)%nat; rewrite <-E0]. by intros b t ?%elem_of_nil. }
  inversion Hst as [? ? nbytes fuel r ? Hnb E Hr|? ? nbytes fuel ? Hnb E|? live1 live2 bp n fuel ? E|? ? bp n a v Hin Ha]; subst.
  - destruct (Hstart nbytes fuel r Hnb E) as (l & s0 & Hl & g & E0).
    destruct (live_malloc l s0 live nbytes g r s' Hl Hnb E0) as [[? _]|(l' & Hl' & _)]; [done|right; by exists l'].
  - destruct (Hstart nbytes fuel 0 Hnb E) as (l & s0 & Hl & g & E0).
    destruct (live_malloc l s0 live' nbytes g 0 s' Hl Hnb E0) as [[_ ->]|(l' & _ & ? & _)]; [right; by exists l|done].
  - destruct Hinv as [[_ ?]|[l Hl]]; [by destruct live1|]. destruct (live_free l s live1 live2 bp n fuel s' Hl E) as (l' & Hl' & _). right. by exists l'.
  - destruct Hinv as [[_ ->]|[l Hl]]; [by apply elem_of_nil in Hin|]. right. exists l. by eapply live_store.
Qed.

Lemma usteps_ok x y : rtc ustep x y -> (initial x.1 /\ x.2 = [] \/ exists l, live_ok l x.1 x.2) ->
  (initial y.1 /\ y.2 = [] \/ exists l, live_ok l y.1 y.2).
Proof. induction 1 as [|[s live] [s' live'] z Hst _ IH]; [done|]. intros Hx. apply IH. by eapply ustep_ok. Qed.

(** C14: in every program that gets its memory from malloc, gives it back with
    free and stores only into its own blocks, the live blocks never overlap
    and lie above the static header and below the break, and both calls always
    return: malloc with null or with a block that overlaps no live block, free
    with the block back in the free list. *)
Theorem malloc_live_disjoint s0 s live : initial s0 -> rtc ustep (s0, []) (s, live) ->
  apart live /\
  (forall b t, (b, t) ∈ live -> base + 8 <= b /\ b + 8 * t <= ubrk s) /\
  (forall nbytes, 0 <= nbytes < 2 ^ 31 - 16 -> exists fuel r s', malloc fuel nbytes s = Ok r s' /\
    (r = 0 \/ Forall (disjoint_blocks (r - 8, units nbytes)) live)) /\
  (forall b t, (b, t) ∈ live -> exists fuel s', free fuel (b + 8) s = Ok tt s').
Proof.
  intros Hi Hr. destruct (usteps_ok _ _ Hr) as [[Hi' E]|[l Hl]]; [by left| |]; cbn [fst snd] in *.
  - subst live. split; [done|]. split; [by intros b t ?%elem_of_nil|]. split; [|by intros b t ?%elem_of_nil]. intros nbytes Hnb.
    destruct (malloc_first s nbytes 4 Hgr Hi' Hnb ltac:(lia)) as (s1 & Hok & _ & E1).
    destruct (wp_ok _ _ _ (malloc_ok [] s1 nbytes 4 Hgr Hok Hnb ltac:(cbn; lia))) as (r & s' & E2 & _).
    exists 4%nat, r, s'. split; [congruence|by right].
  - pose proof Hl as (Hok & Hap & Hlive). split; [done|]. split; [|split].
    + intros b t Hin. destruct (Hlive b t Hin). lia.
    + intros nbytes Hnb. set (g := (2 * length l + 4)%nat).
      destruct (wp_ok _ _ _ (malloc_ok l s nbytes g Hgr Hok Hnb ltac:(lia))) as (r & s' & E & _). exists g, r, s'. split; [done|].
      destruct (live_malloc l s live nbytes g r s' Hl Hnb E) as [[-> _]|(l' & (_ & [Hf _] & _) & _)]; [by left|by right].
    + intros b t Hin. pose proof (Hlive b t Hin) as Hfr. pose proof Hfr as [F1 F2 F3 _ _]. pose proof (ho_brk _ _ Hok). pose proof (ho_base _ _ Hok).
      destruct (wp_ok _ _ _ (free_ok l s b t (length l + 1) Hok Hfr ltac:(lia))) as ([] & s' & E & _).
      rewrite u32_small in E by lia. by exists (length l + 1)%nat, s'.
Qed.

(** Giving back the block that malloc has just returned restores the set
    of free bytes, with what sbrk added to it; the live blocks keep their
    contents through both calls. *)
Theorem malloc_free_roundtrip l s live nbytes fuel : live_ok l s live -> 0 <= nbytes < 2 ^ 31 - 16 -> (2 * length l + 3 < fuel)%nat ->
  exists g, wp (r <- malloc fuel nbytes ;; when (negb (r =? 0)) (free g r)) (fun _ s' => exists l', live_ok l' s' live /\
    (forall x, in_free l' x <-> in_free l x \/ ubrk s <= x < ubrk s') /\
    forall b t a, (b, t) ∈ live -> b <= a < b + 8 * t -> uw s' a = uw s a) s.
Proof.
  intros Hl Hnb Hf. destruct (wp_ok _ _ _ (malloc_ok l s nbytes fuel Hgr (proj1 Hl) Hnb Hf)) as (r & s1 & E & _).
  destruct (live_malloc l s live nbytes fuel r s1 Hl Hnb E) as [[-> ->]|(l1 & Hl1 & Hr & Hal & Hw1)].
  { exists O. eapply wp_bind_ok; [exact E|]. exists l. split; [done|]. split; [|done]. intros x. split; [tauto|]. intros [?|?]; [done|lia]. }
  exists (length l1 + 1)%nat. eapply wp_bind_ok; [exact E|]. rewrite (proj2 (Z.eqb_neq r 0)) by done. cbn [negb when].
  pose proof (proj2 (proj2 Hl1) (r - 8) (units nbytes) ltac:(set_solver)) as Hfr. pose proof Hfr as [F1 F2 F3 _ _].
  pose proof (ho_brk _ _ (proj1 Hl1)). pose proof (ho_base _ _ (proj1 Hl1)).
  destruct (wp_ok _ _ _ (free_ok l1 s1 _ _ (length l1 + 1) (proj1 Hl1) Hfr ltac:(lia))) as ([] & s2 & E2 & _).
  rewrite u32_small in E2 by lia. destruct (live_free l1 s1 [] live (r - 8) (units nbytes) _ s2 Hl1 E2) as (l2 & Hl2 & Hb2 & Hfree & Hw2).
  replace (r - 8 + 8) with r in E2 by lia. eapply ok_wp; [exact E2|]. exists l2. split; [exact Hl2|]. split.
  - intros x. rewrite Hfree, (al_free _ _ _ _ _ _ Hal), Hb2. split; [|destruct (decide (r - 8 <= x < r - 8 + 8 * units nbytes)); tauto].
    intros [[? _]|Hx]; [done|by apply (al_new _ _ _ _ _ _ Hal)].
  - intros b t a Hin Ha. rewrite (Hw2 b t a), (Hw1 b t a); done.
Qed.

End Program.
End Umalloc.

(** ** Runs *)

(** The kernel grants memory below 256 MB. *)
Definition demo_grants (b n : Z) : bool := b + n <? 2 ^ 28.

Definition demo_heap : uheap := Uheap (fun _ => 0) 0 16384.

Lemma demo_bounded : bounded_grants demo_grants.
Proof. intros b n. unfold demo_grants. intros H. zbool. lia. Qed.

Lemma demo_initial : initial 1000 demo_heap.
Proof. unfold initial. cbn. lia. Qed.

(** Two blocks, the first one given back: what is left, and its use again. *)
Definition demo_run : option (Z * Z * Z * uheap) :=
  match malloc 1000 demo_grants 9 20 demo_heap with
  | Ok a s1 =>
      match malloc 1000 demo_grants 9 100 s1 with
      | Ok b s2 =>
          match free 9 a s2 with
          | Ok _ s3 => match malloc 1000 demo_grants 9 12 s3 with Ok c s4 => Some (a, b, c, s4) | _ => None end
          | _ => None
          end
      | _ => None
      end
  | _ => None
  end.

Example demo_run_blocks : exists s, demo_run = Some (49128, 49016, 49136, s).
Proof. eexists. vm_compute. reflexivity. Qed.

Definition demo_s1 : uheap := match malloc 1000 demo_grants 9 20 demo_heap with Ok _ s => s | _ => demo_heap end.

Lemma demo_s1_run : malloc 1000 demo_grants 9 20 demo_heap = Ok 49128 demo_s1.
Proof. unfold demo_s1. destruct (malloc 1000 demo_grants 9 20 demo_heap) eqn:E; vm_compute in E; try discriminate. by injection E as <- <-. Qed.

Lemma malloc_live_disjoint_witness : exists s, rtc (ustep 1000 demo_grants) (demo_heap, []) (s, [(49120, units 20)]) /\
  1000 + 8 <= 49120 /\ exists fuel s', free fuel 49128 s = Ok tt s'.
Proof.
  exists demo_s1. assert (rtc (ustep 1000 demo_grants) (demo_heap, []) (demo_s1, [(49120, units 20)])) as Hr.
  { eapply rtc_once. change 49120 with (49128 - 8). by apply (u_malloc 1000 demo_grants demo_heap [] 20 9 49128 demo_s1); [lia|apply demo_s1_run|]. }
  split; [done|]. destruct (malloc_live_disjoint 1000 demo_grants demo_bounded demo_heap demo_s1 _ demo_initial Hr) as (_ & Hb & _ & Hf).
  split; [apply (Hb 49120 (units 20)); set_solver|]. apply (Hf 49120 (units 20)). set_solver.
Defined.

Lemma malloc_free_roundtrip_witness : exists s g, heap_ok 1000 [] s /\
  wp (r <- malloc 1000 demo_grants 9 20 ;; when (negb (r =? 0)) (free g r))
    (fun _ s' => exists l', heap_ok 1000 l' s' /\ forall x, in_free l' x <-> 16384 <= x < ubrk s') s.
Proof.
  destruct (malloc_first 1000 demo_grants demo_heap 20 4 demo_bounded demo_initial) as (s & Hok & Hb & _); [lia|lia|]. exists s.
  destruct (malloc_free_roundtrip 1000 demo_grants demo_bounded [] s [] 20 9) as (g & W); [|lia|cbn; lia|].
  { split; [done|]. split; [done|]. by intros b t ?%elem_of_nil. }
  exists g. split; [done|]. eapply wp_mono; [exact W|]. intros [] s' (l' & (Hok' & _) & Hfree & _). exists l'. split; [done|].
  intros x. rewrite Hfree, Hb. cbn [ubrk demo_heap]. split; [intros [?%in_free_nil|?]; done|by right].
Defined.

(** The computation of the number of units wraps: asked for almost 4 GB,
    malloc returns a block of one unit, which has no room at all behind its
    header. *)
Example malloc_size_wraps : exists r s, malloc 1000 demo_grants 9 (2 ^ 32 - 4) demo_heap = Ok r s /\ r <> 0 /\ uw s (r - 4) = 1.
Proof.
  destruct (malloc 1000 demo_grants 9 (2 ^ 32 - 4) demo_heap) as [r s| | | | |] eqn:E; vm_compute in E; try discriminate.
  exists r, s. split; [done|]. injection E as <- <-. split; [done|]. vm_compute. reflexivity.
Qed.
