(* ===== verification/Uprogs.v ===== *)
(** * The small user programs: cat, wc, echo, ls, mkdir, rm, ln, kill and init

    The programs run on what they see of the kernel: the descriptors of the
    process, the bytes written so far and the other system calls made.  What
    the kernel answers is given by the environment: [lookup] finds the object
    that a path names, with the pieces in which its bytes arrive, and [result]
    answers a call after those made before.  A [main] is given the arguments
    from argv[1] on.  exit() in the middle of a function is the result [false]. *)

From S2P Require Import Prelude CString Ulib.

(** struct stat, as the programs use it. *)
Record ustat := Ustat { st_type : Z; st_ino : Z; st_size : Z }.

(** [o_reads]: the bytes, in the pieces that reads will find; [o_err]: a read
    after the last of them fails. *)
Record obj := Obj { o_stat : ustat; o_reads : list (list Z); o_err : bool }.

(** The calls that are only recorded. *)
Inductive call : Type :=
| Mkdir (path : list Z) | Unlink (path : list Z) | Link (old new : list Z) | Kill (pid : Z)
| Mknod (path : list Z) (major minor : Z) | Fork | Exec (path : list Z) (argv : list (list Z)) | Wait.

Record uproc := Uproc { fds : list (option obj); out : list (Z * list Z); calls : list call }.

Definition set_fds (l : list (option obj)) (s : uproc) : uproc := Uproc l (out s) (calls s).

Definition add_out (o : list (Z * list Z)) (s : uproc) : uproc := Uproc (fds s) (out s ++ o) (calls s).

(** The lowest free descriptor, as the kernel's fdalloc takes it. *)
Fixpoint free_fd {A} (l : list (option A)) : option nat :=
  match l with
  | [] => None
  | None :: _ => Some O
  | Some _ :: l' => k ← free_fd l'; Some (S k)
  end.

Section Env.
Variables (lookup : list Z -> option obj) (result : list call -> call -> Z).

(** ** System calls *)

Definition new_fd (o : obj) : M uproc Z :=
  s <- get ;;
  match free_fd (fds s) with
  | None => ret (-1)
  | Some k => put (set_fds (<[k := Some o]> (fds s)) s) ;;; ret (Z.of_nat k)
  end.

Definition open (path : list Z) : M uproc Z := match lookup path with None => ret (-1) | Some o => new_fd o end.

Definition fd_obj (fd : Z) (s : uproc) : option obj := o ← zget (fds s) fd; o.

Definition set_fd (fd : Z) (o : option obj) : M uproc unit := modify (fun s => set_fds (zset (fds s) fd o) s).

Definition close (fd : Z) : M uproc unit := set_fd fd None.

Definition dup (fd : Z) : M uproc Z :=
  s <- get ;; match fd_obj fd s with None => ret (-1) | Some o => new_fd o end.

(** read(fd, buf, n): the value returned and the bytes stored in buf. *)
Definition read (fd n : Z) : M uproc (Z * list Z) :=
  s <- get ;;
  match fd_obj fd s with
  | None => ret (-1, [])
  | Some o =>
      match o_reads o with
      | [] => ret (if o_err o then -1 else 0, [])
      | c :: rest =>
          let k := Z.min n (zlen c) in
          set_fd fd (Some (Obj (o_stat o) (if zlen c <=? n then rest else drop (Z.to_nat k) c :: rest) (o_err o))) ;;;
          ret (k, take (Z.to_nat k) c)
      end
  end.

Definition write (fd : Z) (cs : list Z) : M uproc unit := modify (add_out [(fd, cs)]).

Definition fstat (fd : Z) : M uproc (option ustat) := s <- get ;; ret (o_stat <$> fd_obj fd s).

Definition sys (c : call) : M uproc Z :=
  s <- get ;; put (Uproc (fds s) (out s) (calls s ++ [c])) ;;; ret (result (calls s) c).

(** printf writes each character by a call of its own. *)
Definition print (fd : Z) (fmt : list Z) (ap : list uarg) : M uproc unit :=
  cs <- from_opt (printf fmt ap) ;; modify (add_out (map (fun c => (fd, [c])) cs)).

(** stat of ulib.c *)
Definition stat (n : list Z) : M uproc (option ustat) :=
  fd <- open n ;;
  if fd <? 0 then ret None else r <- fstat fd ;; close fd ;;; ret r.

(** ** cat.c *)

Fixpoint cat (fuel : nat) (fd : Z) : M uproc bool :=
  match fuel with
  | O => no_fuel
  | S f =>
      r <- read fd 512 ;;
      let '(n, buf) := r in
      if 0 <? n then write 1 buf ;;; cat f fd
      else if n <? 0 then print 1 (line "cat: read error") [] ;;; ret false else ret true
  end.

Fixpoint cat_files (fuel : nat) (args : list (list Z)) : M uproc unit :=
  match args with
  | [] => ret tt
  | a :: args' =>
      fd <- open a ;;
      if fd <? 0 then print 1 (line "cat: cannot open %s") [UStr (Some a)]
      else ok <- cat fuel fd ;; if (ok : bool) then close fd ;;; cat_files fuel args' else ret tt
  end.

Definition cat_main (fuel : nat) (args : list (list Z)) : M uproc unit :=
  match args with [] => cat fuel 0 ;;; ret tt | _ => cat_files fuel args end.

(** ** wc.c *)

(** The variables l, w, c and inword of wc. *)
Record counts := Counts { k_l : Z; k_w : Z; k_c : Z; k_in : bool }.

(** strchr of ulib.c does not find the NUL that ends its string. *)
Definition wc_space (x : Z) : bool := (x =? 32) || (x =? 13) || (x =? 9) || (x =? 10) || (x =? 11).

Definition wc_byte (k : counts) (x : Z) : counts :=
  let c := s32 (k_c k + 1) in
  let l := if x =? 10 then s32 (k_l k + 1) else k_l k in
  if wc_space x then Counts l (k_w k) c false
  else if negb (k_in k) then Counts l (s32 (k_w k + 1)) c true
  else Counts l (k_w k) c (k_in k).

Fixpoint wc_loop (fuel : nat) (fd : Z) (k : counts) : M uproc (option counts) :=
  match fuel with
  | O => no_fuel
  | S f =>
      r <- read fd 512 ;;
      let '(n, buf) := r in
      if 0 <? n then wc_loop f fd (fold_left wc_byte buf k)
      else if n <? 0 then print 1 (line "wc: read error") [] ;;; ret None else ret (Some k)
  end.

Definition wc (fuel : nat) (fd : Z) (name : list Z) : M uproc bool :=
  r <- wc_loop fuel fd (Counts 0 0 0 false) ;;
  match r with
  | None => ret false
  | Some k => print 1 (line "%d %d %d %s") [UInt (k_l k); UInt (k_w k); UInt (k_c k); UStr (Some name)] ;;; ret true
  end.

Fixpoint wc_files (fuel : nat) (args : list (list Z)) : M uproc unit :=
  match args with
  | [] => ret tt
  | a :: args' =>
      fd <- open a ;;
      if fd <? 0 then print 1 (line "wc: cannot open %s") [UStr (Some a)]
      else ok <- wc fuel fd a ;; if (ok : bool) then close fd ;;; wc_files fuel args' else ret tt
  end.

Definition wc_main (fuel : nat) (args : list (list Z)) : M uproc unit :=
  match args with [] => wc fuel 0 [] ;;; ret tt | _ => wc_files fuel args end.

(** ** echo.c *)

Fixpoint echo_main (args : list (list Z)) : M uproc unit :=
  match args with
  | [] => ret tt
  | a :: args' =>
      print 1 (bytes "%s%s") [UStr (Some a); UStr (Some (match args' with [] => [10] | _ => [32] end))] ;;; echo_main args'
  end.

(** ** ls.c *)

Definition DIRSIZ : nat := 14.

(** The characters after the last slash. *)
Fixpoint after_slash (p : list Z) : list Z :=
  match p with
  | [] => []
  | c :: p' => if bool_decide (47 ∈ p) then after_slash p' else p
  end.

Definition fmtname (path : list Z) : list Z :=
  let p := after_slash path in
  if (DIRSIZ <=? length p)%nat then p else p ++ replicate (DIRSIZ - length p) 32.

(** The string in an array: up to its first NUL. *)
Fixpoint until_nul (l : list Z) : list Z :=
  match l with [] => [] | c :: l' => if c =? 0 then [] else c :: until_nul l' end.

Definition ls_line (name : list Z) (st : ustat) : M uproc unit :=
  print 1 (line "%s %d %d %d") [UStr (Some (fmtname name)); UInt (st_type st); UInt (st_ino st); UInt (st_size st)].

(** The loop over the entries; [path] is buf up to the slash. *)
Fixpoint ls_entries (fuel : nat) (fd : Z) (path : list Z) : M uproc unit :=
  match fuel with
  | O => no_fuel
  | S f =>
      r <- read fd 16 ;;
      let '(n, de) := r in
      if negb (n =? 16) then ret tt
      else if ld16 de 0 =? 0 then ls_entries f fd path
      else
        let buf := path ++ until_nul (bytes_at de 2 14) in
        st <- stat buf ;;
        match st with
        | None => print 1 (line "ls: cannot stat %s") [UStr (Some buf)] ;;; ls_entries f fd path
        | Some st => ls_line buf st ;;; ls_entries f fd path
        end
  end.

Definition T_DIR : Z := 1.

Definition T_FILE : Z := 2.

Definition ls (fuel : nat) (path : list Z) : M uproc unit :=
  fd <- open path ;;
  if fd <? 0 then print 2 (line "ls: cannot open %s") [UStr (Some path)]
  else
    st <- fstat fd ;;
    match st with
    | None => print 2 (line "ls: cannot stat %s") [UStr (Some path)] ;;; close fd
    | Some st =>
        (if st_type st =? T_FILE then ls_line path st
         else if st_type st =? T_DIR then
           if (512 <? length path + 1 + DIRSIZ + 1)%nat then print 1 (line "ls: path too long") []
           else ls_entries fuel fd (path ++ [47])
         else ret tt) ;;;
        close fd
    end.

Fixpoint ls_all (fuel : nat) (args : list (list Z)) : M uproc unit :=
  match args with [] => ret tt | a :: args' => ls fuel a ;;; ls_all fuel args' end.

Definition ls_main (fuel : nat) (args : list (list Z)) : M uproc unit :=
  match args with [] => ls fuel [46] | _ => ls_all fuel args end.

(** ** mkdir.c, rm.c, ln.c, kill.c *)

Fixpoint mkdir_all (args : list (list Z)) : M uproc unit :=
  match args with
  | [] => ret tt
  | a :: args' =>
      r <- sys (Mkdir a) ;;
      if r <? 0 then print 2 (line "mkdir: %s failed to create") [UStr (Some a)] else mkdir_all args'
  end.

Definition mkdir_main (args : list (list Z)) : M uproc unit :=
  match args with [] => print 2 (line "Usage: mkdir files...") [] | _ => mkdir_all args end.

Fixpoint rm_all (args : list (list Z)) : M uproc unit :=
  match args with
  | [] => ret tt
  | a :: args' =>
      r <- sys (Unlink a) ;;
      if r <? 0 then print 2 (line "rm: %s failed to delete") [UStr (Some a)] else rm_all args'
  end.

Definition rm_main (args : list (list Z)) : M uproc unit :=
  match args with [] => print 2 (line "Usage: rm files...") [] | _ => rm_all args end.

Definition ln_main (args : list (list Z)) : M uproc unit :=
  match args with
  | [old; new] =>
      r <- sys (Link old new) ;;
      when (r <? 0) (print 2 (line "link %s %s: failed") [UStr (Some old); UStr (Some new)])
  | _ => print 2 (line "Usage: ln old new") []
  end.

(** An argument in the memory of the process. *)
Definition arg_mem (a : list Z) : mem := fun p => default 0 (zget a p).

(** [argc < 1] never holds of a program started by exec with its name. *)
Fixpoint kill_main (args : list (list Z)) : M uproc unit :=
  match args with
  | [] => ret tt
  | a :: args' => pid <- from_opt (atoi (length a + 1) (arg_mem a) 0) ;; sys (Kill pid) ;;; kill_main args'
  end.

(** ** init.c *)

Definition init_console : M uproc unit :=
  fd <- open (bytes "console") ;;
  when (fd <? 0) (sys (Mknod (bytes "console") 1 1) ;;; open (bytes "console") ;;; ret tt) ;;;
  dup 0 ;;; dup 0 ;;;
  print 1 (line "hello man:) ") [].

(** while((wpid=wait()) >= 0 && wpid != pid) *)
Fixpoint init_wait (fuel : nat) (pid : Z) : M uproc unit :=
  match fuel with
  | O => no_fuel
  | S f =>
      wpid <- sys Wait ;;
      if (0 <=? wpid) && negb (wpid =? pid) then print 1 (line "zombie!") [] ;;; init_wait f pid else ret tt
  end.

(** One turn of the endless loop, in the process that reaches its end: whether
    it goes on.  The child goes on only to print and exit. *)
Definition init_turn (fuel : nat) : M uproc bool :=
  print 1 (line "init: starting sh") [] ;;;
  pid <- sys Fork ;;
  if pid <? 0 then print 1 (line "init: fork failed") [] ;;; ret false
  else if pid =? 0 then
    sys (Exec (bytes "sh") [bytes "sh"]) ;;; print 1 (line "init: exec sh failed") [] ;;; ret false
  else init_wait fuel pid ;;; ret true.

End Env.
