(* ===== verification/UprogsSpec.v ===== *)
(** * What the small user programs print

    cat copies the files it is given, wc counts their lines, words and bytes,
    whatever the pieces in which reads deliver them; ls prints a line for each
    live entry of a directory; rm and its like stop at the first failure. *)

From S2P Require Import Prelude CString Ulib Uprogs.

(** ** What a process has written, and what it can read *)

(** The bytes written to [fd]. *)
Definition text (fd : Z) (o : list (Z * list Z)) : list Z :=
  concat (map (fun w => if w.1 =? fd then w.2 else []) o).

Lemma text_app fd o1 o2 : text fd (o1 ++ o2) = text fd o1 ++ text fd o2.
Proof. unfold text. by rewrite map_app, concat_app. Qed.

Lemma text_one fd cs : text fd [(fd, cs)] = cs.
Proof. unfold text. cbn. by rewrite Z.eqb_refl, app_nil_r. Qed.

Lemma text_chars fd cs : text fd (map (fun c => (fd, [c])) cs) = cs.
Proof. unfold text. induction cs as [|c cs IH]; [done|]. cbn in *. by rewrite Z.eqb_refl, IH. Qed.

Lemma text_other fd fd' cs : fd' <> fd -> text fd (map (fun c => (fd', [c])) cs) = [].
Proof. intros Hne. unfold text. induction cs as [|c cs IH]; [done|]. cbn in *. by rewrite (proj2 (Z.eqb_neq fd' fd)). Qed.

(** The process has written [cs] to descriptor 1, and made no other call. *)
Definition wrote (cs : list Z) (s s' : uproc) : Prop :=
  text 1 (out s') = text 1 (out s) ++ cs /\ calls s' = calls s.

Lemma wrote_nil s s' : out s' = out s -> calls s' = calls s -> wrote [] s s'.
Proof. intros E1 E2. split; [by rewrite E1, app_nil_r|done]. Qed.

Lemma wrote_trans cs1 cs2 s1 s2 s3 : wrote cs1 s1 s2 -> wrote cs2 s2 s3 -> wrote (cs1 ++ cs2) s1 s3.
Proof. intros [E1 F1] [E2 F2]. split; [by rewrite E2, E1, app_assoc|congruence]. Qed.

Definition content (o : obj) : list Z := concat (o_reads o).

(** No read returns 0 before the end. *)
Definition flowing (o : obj) : Prop := Forall (fun c => c <> []) (o_reads o).

Lemma read_spec fd n s o : 0 < n -> fd_obj fd s = Some o -> flowing o ->
  exists c o' s', read fd n s = Ok (if bool_decide (c = []) then if o_err o then -1 else 0 else zlen c, c) s' /\
    content o = c ++ content o' /\ zlen c <= n /\ flowing o' /\ o_err o' = o_err o /\ o_stat o' = o_stat o /\
    (c = [] -> content o = []) /\
    fds s' = <[Z.to_nat fd := Some o']> (fds s) /\ fd_obj fd s' = Some o' /\ out s' = out s /\ calls s' = calls s.
Proof.
  intros Hn Ho Hf. pose proof Ho as Hz. unfold fd_obj, zget in Hz. destruct (Z.leb_spec 0 fd) as [Hfd|]; [|done].
  destruct (fds s !! Z.to_nat fd) as [[o1|]|] eqn:El; try done. cbn in Hz. injection Hz as ->.
  unfold read. cbn [bind get]. unfold bind, get. rewrite Ho. destruct o as [st [|c rest] err]; cbn [o_reads o_stat o_err].
  - exists [], (Obj st [] err), s. rewrite bool_decide_true by done. change (zlen []) with 0. split_and!; try done; [lia|]. symmetry. by apply list_insert_id.
  - apply Forall_cons in Hf as [Hc Hf]. assert (0 < zlen c) by (destruct c; [done|rewrite zlen_cons; pose proof (zlen_nonneg c); lia]).
    set (k := Z.min n (zlen c)). assert (0 < k <= zlen c /\ k <= n) as [Hk Hkn] by (unfold k; lia).
    assert (length c = Z.to_nat (zlen c)) as Hlen by (unfold zlen; lia).
    assert (zlen (take (Z.to_nat k) c) = k) as Hzk by (unfold zlen; rewrite length_take; lia).
    exists (take (Z.to_nat k) c), (Obj st (if zlen c <=? n then rest else drop (Z.to_nat k) c :: rest) err).
    assert (take (Z.to_nat k) c <> []) as Hne by (intros E; rewrite E in Hzk; change (zlen []) with 0 in Hzk; lia).
    eexists. split; [rewrite bool_decide_false by done; rewrite Hzk; reflexivity|].
    split; [|split; [lia|split; [|split; [done|split; [done|split]]]]].
    + unfold content. cbn [o_reads concat]. destruct (Z.leb_spec (zlen c) n); cbn [concat].
      * rewrite take_ge by lia. done.
      * by rewrite app_assoc, take_drop.
    + unfold flowing. cbn [o_reads]. destruct (Z.leb_spec (zlen c) n); [done|]. constructor; [|done].
      intros E. apply (f_equal length) in E. rewrite length_drop in E. cbn in E. lia.
    + done.
    + cbn. unfold zset. rewrite (proj2 (Z.leb_le 0 fd)) by done. split; [done|]. split; [|done].
      unfold fd_obj, zget. cbn. rewrite (proj2 (Z.leb_le 0 fd)) by done. rewrite list_lookup_insert_eq; [done|by eapply lookup_lt_Some].
Qed.

(** ** Loops over reads *)

Lemma free_fd_None {A} (l : list (option A)) k : free_fd l = Some k -> l !! k = Some None.
Proof.
  revert k. induction l as [|[x|] l IH]; intros k; cbn [free_fd]; [done| |by intros [= <-]].
  destruct (free_fd l) as [j|]; cbn; [|done]. intros [= <-]. by apply IH.
Qed.

Section Env.
Context (lookup : list Z -> option obj) (result : list call -> call -> Z).

(** A process with a free descriptor opens a file at [k]; what it does with the
    file leaves the other descriptors; closing restores them. *)
Lemma open_ok a o s k : lookup a = Some o -> free_fd (fds s) = Some k ->
  exists s', open lookup a s = Ok (Z.of_nat k) s' /\ fds s' = <[k := Some o]> (fds s) /\ fd_obj (Z.of_nat k) s' = Some o /\
    out s' = out s /\ calls s' = calls s.
Proof.
  intros Ha Hk. pose proof (free_fd_None _ _ Hk) as Hl. unfold open. rewrite Ha. unfold new_fd, bind, get. rewrite Hk. eexists. split; [reflexivity|].
  split; [done|]. split; [|done]. unfold fd_obj. cbn. rewrite zget_of_nat, list_lookup_insert_eq; [done|by eapply lookup_lt_Some].
Qed.

Lemma close_ok k o s1 s : free_fd (fds s) = Some k -> fds s1 = <[k := o]> (fds s) ->
  exists s', close (Z.of_nat k) s1 = Ok tt s' /\ fds s' = fds s /\ out s' = out s1 /\ calls s' = calls s1.
Proof.
  intros Hk%free_fd_None E. eexists. split; [reflexivity|]. split; [|done]. cbn. unfold zset. rewrite (proj2 (Z.leb_le 0 _)) by lia.
  by rewrite Nat2Z.id, E, list_insert_insert_eq, list_insert_id.
Qed.

Lemma print_ok fd fmt ap cs s : printf fmt ap = Some cs ->
  print fd fmt ap s = Ok tt (add_out (map (fun c => (fd, [c])) cs) s).
Proof. intros E. unfold print, bind. by rewrite E. Qed.

Lemma print_wrote fmt ap cs s : printf fmt ap = Some cs ->
  exists s', print 1 fmt ap s = Ok tt s' /\ wrote cs s s' /\ fds s' = fds s.
Proof. intros E. eexists. split; [by apply print_ok|]. split; [|done]. split; [|done].
  unfold add_out. cbn [out]. by rewrite text_app, text_chars. Qed.

(** ** cat *)

Definition cat_error : list Z := line "cat: read error".

Lemma cat_ok fuel : forall s fd o, fd_obj fd s = Some o -> flowing o -> (length (content o) < fuel)%nat ->
  exists s' o', cat fuel fd s = Ok (negb (o_err o)) s' /\
    wrote (content o ++ if o_err o then cat_error else []) s s' /\ fds s' = <[Z.to_nat fd := o']> (fds s).
Proof.
  induction fuel as [|f IH]; intros s fd o Ho Hf Hl; [lia|]. cbn [cat].
  destruct (read_spec fd 512 s o) as (c & o1 & s1 & E & Hc & _ & Hf1 & He & _ & Hz & Hfds & Ho1 & Hout & Hcalls); [lia|done|done|].
  unfold bind at 1. rewrite E. case_bool_decide as Hcn.
  - rewrite Hz by done. subst c. destruct (o_err o); cbn [negb].
    + change (0 <? -1) with false. change (-1 <? 0) with true. cbv iota.
      destruct (print_wrote (line "cat: read error") [] cat_error s1) as (s2 & E2 & [W1 W2] & F2); [done|].
      unfold bind. rewrite E2. exists s2, (Some o1). split; [done|]. split; [|congruence]. split; [by rewrite W1, Hout|congruence].
    + exists s1, (Some o1). split; [done|]. split; [by apply wrote_nil|done].
  - assert (0 < zlen c) by (destruct c; [done|rewrite zlen_cons; pose proof (zlen_nonneg c); lia]).
    rewrite (proj2 (Z.ltb_lt 0 _)) by done. unfold bind at 1. cbn [write modify].
    destruct (IH (add_out [(1, c)] s1) fd o1) as (s2 & o2 & E2 & [W1 W2] & F2); [done|done|rewrite Hc, length_app in Hl; unfold zlen in *; lia|].
    exists s2, o2. rewrite <-He. split; [exact E2|]. split.
    + split; [|cbn in W2; congruence]. rewrite W1. cbn [out add_out]. by rewrite text_app, text_one, Hout, Hc, <-!app_assoc.
    + cbn in F2. by rewrite F2, Hfds, list_insert_insert_eq.
Qed.

(** What cat prints for its arguments: it stops at the first file that cannot be
    opened or read. *)
Fixpoint cat_text (args : list (list Z)) : list Z :=
  match args with
  | [] => []
  | a :: args' =>
      match lookup a with
      | None => bytes "cat: cannot open " ++ a ++ [10]
      | Some o => content o ++ (if o_err o then cat_error else cat_text args')
      end
  end.

Definition readable (fuel : nat) (a : list Z) : Prop :=
  forall o, lookup a = Some o -> flowing o /\ (length (content o) < fuel)%nat.

Lemma cat_files_ok fuel args : forall s k, free_fd (fds s) = Some k -> Forall (readable fuel) args ->
  wp (cat_files lookup fuel args) (fun _ s' => wrote (cat_text args) s s') s.
Proof.
  induction args as [|a args IH]; intros s k Hk Hr; cbn [cat_files cat_text]; [by apply wp_ret, wrote_nil|].
  apply Forall_cons in Hr as [Ha Hr]. destruct (lookup a) as [o|] eqn:El.
  - destruct (Ha o El) as [Hf Hlen]. destruct (open_ok a o s k El Hk) as (s1 & E1 & F1 & O1 & T1 & C1).
    eapply wp_bind_ok; [exact E1|]. rewrite (proj2 (Z.ltb_ge _ 0)) by lia.
    destruct (cat_ok fuel s1 (Z.of_nat k) o O1 Hf Hlen) as (s2 & o2 & E2 & W2 & F2). eapply wp_bind_ok; [exact E2|].
    rewrite Nat2Z.id, F1, list_insert_insert_eq in F2.
    assert (wrote [] s s1) as W1 by by apply wrote_nil. pose proof (wrote_trans _ _ _ _ _ W1 W2) as W. cbn [app] in W.
    destruct (o_err o); cbn [negb]; [by apply wp_ret|]. rewrite app_nil_r in W.
    destruct (close_ok k o2 s2 s Hk F2) as (s3 & E3 & F3 & T3 & C3). eapply wp_bind_ok; [exact E3|].
    eapply wp_mono; [apply (IH s3 k); [by rewrite F3|done]|]. intros [] s4 W4. cbn in W4.
    eapply wrote_trans; [exact W|]. rewrite <-(app_nil_l (cat_text args)). eapply wrote_trans; [by apply wrote_nil|exact W4].
  - eapply wp_bind_ok; [unfold open; rewrite El; reflexivity|]. cbn [Z.ltb Z.compare].
    destruct (print_wrote (line "cat: cannot open %s") [UStr (Some a)] (bytes "cat: cannot open " ++ a ++ [10]) s) as (s1 & E1 & W1 & _);
      [done|]. by eapply ok_wp.
Qed.

(** ** wc *)

(** The words of a text: the longest pieces without white space. *)
Fixpoint words (t : list Z) : list (list Z) :=
  match t with
  | [] => []
  | x :: t' =>
      if wc_space x then words t'
      else match t' with
           | y :: _ => if wc_space y then [x] :: words t' else match words t' with w :: ws => (x :: w) :: ws | [] => [[x]] end
           | [] => [[x]]
           end
  end.

Definition newlines (t : list Z) : Z := zlen (filter (fun x => x = 10) t).

(** The words that begin in [t], inside a word or not. *)
Fixpoint starts (inw : bool) (t : list Z) : Z :=
  match t with
  | [] => 0
  | x :: t' => if wc_space x then starts false t' else (if inw then 0 else 1) + starts true t'
  end.

Lemma starts_words t : starts false t = zlen (words t).
Proof.
  induction t as [|x t IH]; [done|]. cbn [starts words]. destruct (wc_space x) eqn:Ex; [done|].
  destruct t as [|y t]; [done|]. cbn [starts] in *. destruct (wc_space y) eqn:Ey.
  - rewrite zlen_cons, <-IH. lia.
  - destruct (words (y :: t)) as [|w ws] eqn:Ew.
    + cbn [words] in Ew. rewrite Ey in Ew. destruct t as [|z t]; [done|]. destruct (wc_space z); [done|]. by destruct (words (z :: t)).
    + rewrite !zlen_cons in *. lia.
Qed.

Lemma starts_range inw t : 0 <= starts inw t <= zlen t.
Proof.
  revert inw. induction t as [|x t IH]; intros inw; cbn [starts]; [done|]. rewrite zlen_cons.
  pose proof (IH false). pose proof (IH true). destruct (wc_space x), inw; lia.
Qed.

Lemma newlines_cons x t : newlines (x :: t) = (if x =? 10 then 1 else 0) + newlines t.
Proof. unfold newlines. rewrite filter_cons. destruct (Z.eqb_spec x 10); case_decide; try done. rewrite zlen_cons. lia. Qed.

Lemma newlines_range t : 0 <= newlines t <= zlen t.
Proof. induction t as [|x t IH]; [done|]. rewrite newlines_cons, zlen_cons. destruct (x =? 10); lia. Qed.

(** One pass over the bytes counts them. *)
Lemma wc_bytes_ok t : forall k, 0 <= k_l k <= k_c k -> 0 <= k_w k <= k_c k -> k_c k + zlen t < 2 ^ 31 ->
  exists b, fold_left wc_byte t k = Counts (k_l k + newlines t) (k_w k + starts (k_in k) t) (k_c k + zlen t) b.
Proof.
  induction t as [|x t IH]; intros [l w c b] Hl Hw Hc; cbn [fold_left k_l k_w k_c k_in] in *.
  - exists b. cbn. by rewrite !Z.add_0_r.
  - rewrite zlen_cons in Hc. pose proof (zlen_nonneg t). rewrite newlines_cons, zlen_cons. cbn [starts].
    assert (exists b', wc_byte (Counts l w c b) x = Counts (l + if x =? 10 then 1 else 0)
      (w + if wc_space x then 0 else if b then 0 else 1) (c + 1) b' /\ b' = negb (wc_space x)) as (b' & -> & ->).
    { unfold wc_byte. cbn [k_l k_w k_c k_in]. rewrite !(s32_small (c + 1)), (s32_small (l + 1)), (s32_small (w + 1)) by lia.
      destruct (x =? 10), (wc_space x), b; cbn; eexists; (split; [f_equal; lia|done]). }
    destruct (IH (Counts (l + if x =? 10 then 1 else 0) (w + if wc_space x then 0 else if b then 0 else 1) (c + 1) (negb (wc_space x))))
      as (b2 & ->); cbn [k_l k_w k_c k_in]; [destruct (x =? 10); lia|destruct (wc_space x), b; lia|lia|].
    exists b2. f_equal; [lia| |lia]. destruct (wc_space x), b; cbn; lia.
Qed.

Lemma wc_loop_ok fuel : forall s fd o k, fd_obj fd s = Some o -> flowing o -> (length (content o) < fuel)%nat ->
  exists s' o', wc_loop fuel fd k s = Ok (if o_err o then None else Some (fold_left wc_byte (content o) k)) s' /\
    wrote (if o_err o then line "wc: read error" else []) s s' /\ fds s' = <[Z.to_nat fd := o']> (fds s).
Proof.
  induction fuel as [|f IH]; intros s fd o k Ho Hf Hl; [lia|]. cbn [wc_loop].
  destruct (read_spec fd 512 s o) as (c & o1 & s1 & E & Hc & _ & Hf1 & He & _ & Hz & Hfds & Ho1 & Hout & Hcalls); [lia|done|done|].
  unfold bind at 1. rewrite E. case_bool_decide as Hcn.
  - rewrite Hz by done. subst c. destruct (o_err o); cbn [fold_left].
    + change (0 <? -1) with false. change (-1 <? 0) with true. cbv iota.
      destruct (print_wrote (line "wc: read error") [] (line "wc: read error") s1) as (s2 & E2 & [W1 W2] & F2); [done|].
      unfold bind. rewrite E2. exists s2, (Some o1). split; [done|]. split; [|congruence]. split; [by rewrite W1, Hout|congruence].
    + exists s1, (Some o1). split; [done|]. split; [by apply wrote_nil|done].
  - assert (0 < zlen c) by (destruct c; [done|rewrite zlen_cons; pose proof (zlen_nonneg c); lia]).
    rewrite (proj2 (Z.ltb_lt 0 _)) by done.
    destruct (IH s1 fd o1 (fold_left wc_byte c k)) as (s2 & o2 & E2 & [W1 W2] & F2); [done|done|rewrite Hc, length_app in Hl; unfold zlen in *; lia|].
    exists s2, o2. rewrite Hc, fold_left_app, <-He. split; [exact E2|]. split; [split; [by rewrite W1, Hout|congruence]|].
    by rewrite F2, Hfds, list_insert_insert_eq.
Qed.

(** A number as %d prints it. *)
Definition dec (x : Z) : list Z := default [] (uprintint x 10 true).

Definition wc_line (t a : list Z) : list Z := dec (newlines t) ++ 32 :: dec (zlen (words t)) ++ 32 :: dec (zlen t) ++ 32 :: a ++ [10].

Lemma printf_counts l w c a : 0 <= l < 2 ^ 31 -> 0 <= w < 2 ^ 31 -> 0 <= c < 2 ^ 31 ->
  printf (line "%d %d %d %s") [UInt l; UInt w; UInt c; UStr (Some a)] =
  Some (dec l ++ 32 :: dec w ++ 32 :: dec c ++ 32 :: a ++ [10]).
Proof.
  intros Hl Hw Hc. unfold dec. destruct (uprintint_ok l true Hl) as (dl & El & _), (uprintint_ok w true Hw) as (dw & Ew & _),
    (uprintint_ok c true Hc) as (dc & Ec & _). rewrite El, Ew, Ec.
  change (printf (line "%d %d %d %s") [UInt l; UInt w; UInt c; UStr (Some a)]) with
    (ds ← uprintint (s32 l) 10 true; out ← (out ← (ds ← uprintint (s32 w) 10 true; out ← (out ← (ds ← uprintint (s32 c) 10 true;
      out ← Some (32 :: a ++ [10]); Some (ds ++ out)); Some (32 :: out)); Some (ds ++ out)); Some (32 :: out)); Some (ds ++ out)).
  rewrite !s32_small by lia. by rewrite El, Ew, Ec.
Qed.

Lemma wc_ok fuel s fd o a : fd_obj fd s = Some o -> flowing o -> (length (content o) < fuel)%nat -> zlen (content o) < 2 ^ 31 ->
  exists s' o', wc fuel fd a s = Ok (negb (o_err o)) s' /\
    wrote (if o_err o then line "wc: read error" else wc_line (content o) a) s s' /\ fds s' = <[Z.to_nat fd := o']> (fds s).
Proof.
  intros Ho Hf Hl Hr. destruct (wc_loop_ok fuel s fd o (Counts 0 0 0 false) Ho Hf Hl) as (s1 & o1 & E1 & W1 & F1).
  unfold wc, bind at 1. rewrite E1. destruct (o_err o); [by exists s1, o1|].
  destruct (wc_bytes_ok (content o) (Counts 0 0 0 false)) as (b & ->); [cbn; lia..|]. cbn [k_l k_w k_c k_in]. rewrite !Z.add_0_l, starts_words.
  pose proof (newlines_range (content o)). pose proof (starts_range false (content o)) as Hs. rewrite starts_words in Hs.
  destruct (print_wrote (line "%d %d %d %s") [UInt (newlines (content o)); UInt (zlen (words (content o))); UInt (zlen (content o)); UStr (Some a)]
    (wc_line (content o) a) s1) as (s2 & E2 & W2 & F2); [apply printf_counts; lia|].
  unfold bind. rewrite E2. exists s2, o1. split; [done|]. split; [exact (wrote_trans _ _ _ _ _ W1 W2)|congruence].
Qed.

(** What wc prints for its arguments. *)
Fixpoint wc_text (args : list (list Z)) : list Z :=
  match args with
  | [] => []
  | a :: args' =>
      match lookup a with
      | None => bytes "wc: cannot open " ++ a ++ [10]
      | Some o => if o_err o then line "wc: read error" else wc_line (content o) a ++ wc_text args'
      end
  end.

Definition countable (fuel : nat) (a : list Z) : Prop :=
  forall o, lookup a = Some o -> flowing o /\ (length (content o) < fuel)%nat /\ zlen (content o) < 2 ^ 31.

Lemma wc_files_ok fuel args : forall s k, free_fd (fds s) = Some k -> Forall (countable fuel) args ->
  wp (wc_files lookup fuel args) (fun _ s' => wrote (wc_text args) s s') s.
Proof.
  induction args as [|a args IH]; intros s k Hk Hr; cbn [wc_files wc_text]; [by apply wp_ret, wrote_nil|].
  apply Forall_cons in Hr as [Ha Hr]. destruct (lookup a) as [o|] eqn:El.
  - destruct (Ha o El) as (Hf & Hlen & Hmax). destruct (open_ok a o s k El Hk) as (s1 & E1 & F1 & O1 & T1 & C1).
    eapply wp_bind_ok; [exact E1|]. rewrite (proj2 (Z.ltb_ge _ 0)) by lia.
    destruct (wc_ok fuel s1 (Z.of_nat k) o a O1 Hf Hlen Hmax) as (s2 & o2 & E2 & W2 & F2). eapply wp_bind_ok; [exact E2|].
    rewrite Nat2Z.id, F1, list_insert_insert_eq in F2.
    assert (wrote [] s s1) as W1 by by apply wrote_nil. pose proof (wrote_trans _ _ _ _ _ W1 W2) as W. cbn [app] in W.
    destruct (o_err o); cbn [negb]; [by apply wp_ret|].
    destruct (close_ok k o2 s2 s Hk F2) as (s3 & E3 & F3 & T3 & C3). eapply wp_bind_ok; [exact E3|].
    eapply wp_mono; [apply (IH s3 k); [by rewrite F3|done]|]. intros [] s4 W4.
    eapply wrote_trans; [exact W|]. rewrite <-(app_nil_l (wc_text args)). eapply wrote_trans; [by apply wrote_nil|exact W4].
  - eapply wp_bind_ok; [unfold open; rewrite El; reflexivity|]. cbn [Z.ltb Z.compare].
    destruct (print_wrote (line "wc: cannot open %s") [UStr (Some a)] (bytes "wc: cannot open " ++ a ++ [10]) s) as (s1 & E1 & W1 & _);
      [done|]. by eapply ok_wp.
Qed.

(** ** ls *)

(** A directory whose entries arrive as a kernel read delivers them. *)
Definition pieces (d : list Z) : list (list Z) := match d with [] => [] | _ => [d] end.

Lemma read_dirent fd s st de d err : length de = 16%nat -> fd_obj fd s = Some (Obj st (pieces (de ++ d)) err) ->
  exists s', read fd 16 s = Ok (16, de) s' /\ fds s' = <[Z.to_nat fd := Some (Obj st (pieces d) err)]> (fds s) /\
    out s' = out s /\ calls s' = calls s.
Proof.
  intros Hl Ho. pose proof Ho as Hz. unfold fd_obj, zget in Hz. destruct (Z.leb_spec 0 fd) as [Hfd|]; [|done].
  destruct de as [|x de]; [done|]. unfold read, bind, get. rewrite Ho. cbn [o_reads o_stat o_err pieces app].
  set (c := x :: de ++ d). assert (zlen c = 16 + zlen d) as Hc by (unfold zlen, c; cbn [length] in Hl |- *; rewrite length_app; lia).
  pose proof (zlen_nonneg d). assert (Z.min 16 (zlen c) = 16) as -> by lia.
  assert (take (Z.to_nat 16) c = x :: de) as Ht by (unfold c; rewrite app_comm_cons, take_app_le by (rewrite Hl; lia); apply take_ge; rewrite Hl; lia).
  assert (drop (Z.to_nat 16) c = d) as Hd by (unfold c; rewrite app_comm_cons, drop_app_length' by (rewrite Hl; lia); done).
  eexists. split; [unfold set_fd, modify, ret; rewrite Ht; reflexivity|]. split; [|done]. cbn. unfold zset. rewrite (proj2 (Z.leb_le 0 fd)) by done.
  rewrite Hd. do 3 f_equal. destruct d as [|y d]; cbn [pieces]; [by rewrite (proj2 (Z.leb_le _ _)) by (rewrite Hc; change (zlen []) with 0; lia)|].
  rewrite (proj2 (Z.leb_gt _ _)) by (rewrite Hc, zlen_cons; pose proof (zlen_nonneg d); lia). done.
Qed.

Lemma read_end fd s st n : fd_obj fd s = Some (Obj st [] false) -> read fd n s = Ok (0, []) s.
Proof. intros Ho. unfold read, bind, get. by rewrite Ho. Qed.

Lemma stat_ok b s k : free_fd (fds s) = Some k ->
  exists s', stat lookup b s = Ok (o_stat <$> lookup b) s' /\ fds s' = fds s /\ out s' = out s /\ calls s' = calls s.
Proof.
  intros Hk. destruct (lookup b) as [o|] eqn:El.
  - destruct (open_ok b o s k El Hk) as (s1 & E1 & F1 & O1 & T1 & C1). destruct (close_ok k (Some o) s1 s Hk F1) as (s2 & E2 & F2 & T2 & C2).
    exists s2. split; [|by rewrite F2, T2, C2]. unfold stat, bind at 1. rewrite E1, (proj2 (Z.ltb_ge _ 0)) by lia.
    unfold fstat, bind, get, ret. rewrite O1, E2. done.
  - exists s. split; [|done]. unfold stat, open, bind. by rewrite El.
Qed.

Definition small_stat (st : ustat) : Prop := 0 <= st_type st < 2 ^ 31 /\ 0 <= st_ino st < 2 ^ 31 /\ 0 <= st_size st < 2 ^ 31.

Definition ls_show (path : list Z) (st : ustat) : list Z :=
  fmtname path ++ 32 :: dec (st_type st) ++ 32 :: dec (st_ino st) ++ 32 :: dec (st_size st) ++ [10].

Lemma ls_line_ok path st s : small_stat st ->
  exists s', ls_line path st s = Ok tt s' /\ wrote (ls_show path st) s s' /\ fds s' = fds s.
Proof.
  intros (Ht & Hi & Hs). apply print_wrote. unfold ls_show, dec. destruct (uprintint_ok _ true Ht) as (d1 & E1 & _),
    (uprintint_ok _ true Hi) as (d2 & E2 & _), (uprintint_ok _ true Hs) as (d3 & E3 & _). rewrite E1, E2, E3.
  change (printf (line "%s %d %d %d") [UStr (Some (fmtname path)); UInt (st_type st); UInt (st_ino st); UInt (st_size st)]) with
    (out ← (out ← (ds ← uprintint (s32 (st_type st)) 10 true; out ← (out ← (ds ← uprintint (s32 (st_ino st)) 10 true; out ← (out ← (
      ds ← uprintint (s32 (st_size st)) 10 true; out ← Some [10]; Some (ds ++ out)); Some (32 :: out)); Some (ds ++ out)); Some (32 :: out));
      Some (ds ++ out)); Some (32 :: out)); Some (fmtname path ++ out)).
  rewrite !s32_small by lia. by rewrite E1, E2, E3.
Qed.

(** What ls prints for an entry, and for all of them. *)
Definition entry_text (path de : list Z) : list Z :=
  if ld16 de 0 =? 0 then []
  else
    let p := path ++ until_nul (bytes_at de 2 14) in
    match lookup p with None => bytes "ls: cannot stat " ++ p ++ [10] | Some o => ls_show p (o_stat o) end.

Lemma free_fd_insert {A} (l : list (option A)) i x y : l !! i = Some (Some x) -> free_fd (<[i := Some y]> l) = free_fd l.
Proof.
  revert i. induction l as [|[z|] l IH]; intros [|i]; try done; intros H.
  - change (<[S i := Some y]> (Some z :: l)) with (Some z :: <[i := Some y]> l). cbn [free_fd]. by rewrite (IH i H).
Qed.

(** The directory open at [n] has [es] left to read. *)
Definition left_in (F : list (option obj)) (n : nat) (st : ustat) (es : list (list Z)) (s : uproc) : Prop :=
  fds s = <[n := Some (Obj st (pieces (concat es)) false)]> F.

Lemma left_in_obj F n st es s : (n < length F)%nat -> left_in F n st es s ->
  fd_obj (Z.of_nat n) s = Some (Obj st (pieces (concat es)) false).
Proof. intros Hn E. unfold fd_obj. by rewrite E, zget_of_nat, list_lookup_insert_eq. Qed.

Lemma ls_entries_ok path F n x k st (HF : F !! n = Some (Some x)) (Hk : free_fd F = Some k)
  (Hst : forall a o, lookup a = Some o -> small_stat (o_stat o)) es : forall fuel s,
  (length es < fuel)%nat -> Forall (fun de => length de = 16%nat) es -> left_in F n st es s ->
  exists s', ls_entries lookup fuel (Z.of_nat n) path s = Ok tt s' /\ wrote (concat (map (entry_text path) es)) s s' /\ left_in F n st [] s'.
Proof.
  pose proof (lookup_lt_Some _ _ _ HF) as Hn.
  induction es as [|de es IH]; intros [|f] s Hf Hes Hs; cbn [length] in Hf; try lia; cbn [ls_entries];
    pose proof (left_in_obj _ _ _ _ _ Hn Hs) as Ho.
  - exists s. unfold bind. rewrite (read_end _ _ _ _ Ho). split; [done|]. split; [by apply wrote_nil|done].
  - apply Forall_cons in Hes as [Hde Hes]. destruct (read_dirent _ s st de (concat es) false Hde Ho) as (s1 & E1 & F1 & T1 & C1).
    unfold bind at 1. rewrite E1. cbn [Z.eqb Pos.eqb negb].
    rewrite Nat2Z.id, Hs, list_insert_insert_eq in F1. assert (wrote [] s s1) as W1 by by apply wrote_nil.
    assert (forall s2 cs, fds s2 = fds s1 -> wrote cs s1 s2 -> exists s', ls_entries lookup f (Z.of_nat n) path s2 = Ok tt s' /\
      wrote (cs ++ concat (map (entry_text path) es)) s s' /\ left_in F n st [] s') as Hgo.
    { intros s2 cs F2 W2. destruct (IH f s2) as (s3 & E3 & W3 & L3); [lia|done|unfold left_in; congruence|]. exists s3. split; [done|].
      split; [|done]. exact (wrote_trans _ _ _ _ _ (wrote_trans _ _ _ _ _ W1 W2) W3). }
    cbn [map concat]. unfold entry_text at 1. destruct (ld16 de 0 =? 0).
    + by apply Hgo, wrote_nil.
    + cbv zeta. set (p := path ++ until_nul (bytes_at de 2 14)).
      destruct (stat_ok p s1 k) as (s2 & E2 & F2 & T2 & C2); [by rewrite F1, (free_fd_insert _ _ x)|].
      unfold bind at 1. rewrite E2. assert (wrote [] s1 s2) as W2 by by apply wrote_nil. destruct (lookup p) as [o|] eqn:El; cbn [fmap option_fmap option_map].
      * destruct (ls_line_ok p (o_stat o) s2) as (s3 & E3 & W3 & F3); [by eapply Hst|]. unfold bind. rewrite E3.
        apply Hgo; [congruence|]. exact (wrote_trans _ _ _ _ _ W2 W3).
      * destruct (print_wrote (line "ls: cannot stat %s") [UStr (Some p)] (bytes "ls: cannot stat " ++ p ++ [10]) s2) as (s3 & E3 & W3 & F3); [done|].
        unfold bind. rewrite E3. apply Hgo; [congruence|]. exact (wrote_trans _ _ _ _ _ W2 W3).
Qed.

Definition is_dir (o : obj) (es : list (list Z)) : Prop :=
  o_reads o = pieces (concat es) /\ o_err o = false /\ Forall (fun de => length de = 16%nat) es.

(** What ls prints for a path on descriptor 1. *)
Definition ls_says (path cs : list Z) : Prop :=
  match lookup path with
  | None => cs = []
  | Some o =>
      if st_type (o_stat o) =? T_FILE then cs = ls_show path (o_stat o)
      else if st_type (o_stat o) =? T_DIR then
        if (512 <? length path + 1 + DIRSIZ + 1)%nat then cs = line "ls: path too long"
        else exists es, is_dir o es /\ cs = concat (map (entry_text (path ++ [47])) es)
      else cs = []
  end.

(** Two descriptors are free: one for the directory, one for stat. *)
Definition two_free (F : list (option obj)) : Prop := exists k j, free_fd F = Some k /\ forall o, free_fd (<[k := Some o]> F) = Some j.

Definition listable (fuel : nat) : Prop := forall a o, lookup a = Some o -> small_stat (o_stat o) /\
  (st_type (o_stat o) = T_DIR -> exists es, is_dir o es /\ (length es < fuel)%nat).

Lemma ls_ok fuel path s : two_free (fds s) -> listable fuel ->
  exists s' cs, ls lookup fuel path s = Ok tt s' /\ ls_says path cs /\ wrote cs s s' /\ fds s' = fds s.
Proof.
  intros (k & j & Hk & Hj) Hd. unfold ls_says, ls. destruct (lookup path) as [o|] eqn:El.
  2: { set (msg := bytes "ls: cannot open " ++ path ++ [10]). exists (add_out (map (fun c => (2, [c])) msg) s), [].
       split; [unfold bind, open; rewrite El; by apply print_ok|]. split; [done|]. split; [|done]. split; [|done].
       unfold add_out. cbn [out]. by rewrite text_app, text_other. }
  destruct (Hd path o El) as (Hst & Hdir). destruct (open_ok path o s k El Hk) as (s1 & E1 & F1 & O1 & T1 & C1).
  unfold bind at 1. rewrite E1, (proj2 (Z.ltb_ge _ 0)) by lia. unfold bind at 1, fstat, bind at 1, get, ret. rewrite O1.
  cbn [fmap option_fmap option_map]. assert (wrote [] s s1) as W1 by by apply wrote_nil.
  assert (forall (m : M uproc unit) cs s2 o', m s1 = Ok tt s2 -> wrote cs s1 s2 -> fds s2 = <[k := o']> (fds s) ->
    exists s', (m ;;; close (Z.of_nat k)) s1 = Ok tt s' /\ wrote cs s s' /\ fds s' = fds s) as Hgo.
  { intros m cs s2 o' E2 W2 F2. destruct (close_ok k o' s2 s Hk F2) as (s3 & E3 & F3 & T3 & C3). exists s3. split; [unfold bind; by rewrite E2|].
    split; [|done]. rewrite <-(app_nil_r cs). eapply wrote_trans; [exact (wrote_trans _ _ _ _ _ W1 W2)|by apply wrote_nil]. }
  destruct (st_type (o_stat o) =? T_FILE); [|destruct (Z.eqb_spec (st_type (o_stat o)) T_DIR) as [Et|_]; [destruct (512 <? _)%nat|]].
  - destruct (ls_line_ok path (o_stat o) s1 Hst) as (s2 & E2 & W2 & F2). rewrite F1 in F2.
    destruct (Hgo _ _ _ _ E2 W2 F2) as (s3 & E3 & W3 & F3). by exists s3, (ls_show path (o_stat o)).
  - destruct (print_wrote (line "ls: path too long") [] (line "ls: path too long") s1) as (s2 & E2 & W2 & F2); [done|]. rewrite F1 in F2.
    destruct (Hgo _ _ _ _ E2 W2 F2) as (s3 & E3 & W3 & F3). by exists s3, (line "ls: path too long").
  - destruct (Hdir Et) as (es & (Hr & He & Hlen) & Hf).
    destruct (ls_entries_ok (path ++ [47]) (<[k := Some o]> (fds s)) k o j (o_stat o)) with (es := es) (fuel := fuel) (s := s1)
      as (s2 & E2 & W2 & F2); [|by apply Hj| |done|done| |].
    + rewrite list_lookup_insert_eq; [done|]. apply free_fd_None in Hk. by eapply lookup_lt_Some.
    + intros a o2 H2. by apply (Hd a o2 H2).
    + unfold left_in. rewrite F1, list_insert_insert_eq. destruct o as [st rs err]. cbn in *. by rewrite Hr, He.
    + unfold left_in in F2. rewrite list_insert_insert_eq in F2. destruct (Hgo _ _ _ _ E2 W2 F2) as (s3 & E3 & W3 & F3).
      exists s3, (concat (map (entry_text (path ++ [47])) es)). split; [done|]. split; [by exists es|done].
  - destruct (Hgo (ret tt) [] s1 (Some o) eq_refl) as (s3 & E3 & W3 & F3); [by apply wrote_nil|done|]. by exists s3, [].
Qed.

(** ** rm, mkdir: up to the first failure *)

(** The calls made on [args], in order, after the calls [h]. *)
Fixpoint until_failure (f : list Z -> call) (h : list call) (args : list (list Z)) : list call :=
  match args with
  | [] => []
  | a :: args' => f a :: if result h (f a) <? 0 then [] else until_failure f (h ++ [f a]) args'
  end.

Lemma rm_all_ok args : forall s, wp (rm_all result args) (fun _ s' => calls s' = calls s ++ until_failure Unlink (calls s) args) s.
Proof.
  induction args as [|a args IH]; intros s; cbn [rm_all until_failure]; [apply wp_ret; by rewrite app_nil_r|].
  eapply wp_bind_ok; [reflexivity|]. destruct (result (calls s) (Unlink a) <? 0).
  - eapply ok_wp; [by apply (print_ok 2 (line "rm: %s failed to delete") [UStr (Some a)] (bytes "rm: " ++ a ++ line " failed to delete"))|done].
  - eapply wp_mono; [apply IH|]. intros [] s' E. cbn in E. by rewrite E, <-app_assoc.
Qed.

Lemma mkdir_all_ok args : forall s, wp (mkdir_all result args) (fun _ s' => calls s' = calls s ++ until_failure Mkdir (calls s) args) s.
Proof.
  induction args as [|a args IH]; intros s; cbn [mkdir_all until_failure]; [apply wp_ret; by rewrite app_nil_r|].
  eapply wp_bind_ok; [reflexivity|]. destruct (result (calls s) (Mkdir a) <? 0).
  - eapply ok_wp; [by apply (print_ok 2 (line "mkdir: %s failed to create") [UStr (Some a)] (bytes "mkdir: " ++ a ++ line " failed to create"))|done].
  - eapply wp_mono; [apply IH|]. intros [] s' E. cbn in E. by rewrite E, <-app_assoc.
Qed.

(** ** echo *)

Fixpoint joined (args : list (list Z)) : list Z :=
  match args with [] => [] | [a] => a ++ [10] | a :: args' => a ++ 32 :: joined args' end.

Lemma echo_ok args : forall s, wp (echo_main args) (fun _ s' => wrote (joined args) s s') s.
Proof.
  induction args as [|a args IH]; intros s; cbn [echo_main]; [by apply wp_ret, wrote_nil|].
  set (sep := match args with [] => [10] | _ => [32] end).
  destruct (print_wrote (bytes "%s%s") [UStr (Some a); UStr (Some sep)] (a ++ sep) s) as (s1 & E1 & W1 & _);
    [by unfold sep; destruct args|]. eapply wp_bind_ok; [exact E1|]. eapply wp_mono; [apply IH|]. intros [] s2 W2.
  assert (joined (a :: args) = (a ++ sep) ++ joined args) as ->; [|by eapply wrote_trans].
  subst sep. destruct args; cbn [joined]; rewrite <-?app_assoc; [by rewrite ?app_nil_r|done].
Qed.

(** ** init *)

(** What the [i]-th wait after the calls [h] returns. *)
Definition wait_result (h : list call) (i : nat) : Z := result (h ++ replicate i Wait) Wait.

Definition zombies (n : nat) : list Z := concat (replicate n (line "zombie!")).

(** init waits until its own child, or nobody, is left: the [n] processes that
    end before are reported, each once. *)
Lemma init_wait_ok pid n : forall fuel s, (n < fuel)%nat ->
  (forall i, (i < n)%nat -> 0 <= wait_result (calls s) i /\ wait_result (calls s) i <> pid) ->
  wait_result (calls s) n < 0 \/ wait_result (calls s) n = pid ->
  wp (init_wait result fuel pid) (fun _ s' => text 1 (out s') = text 1 (out s) ++ zombies n /\ calls s' = calls s ++ replicate (S n) Wait) s.
Proof.
  induction n as [|n IH]; intros [|f] s Hf Hi Hn; try lia; cbn [init_wait].
  - eapply wp_bind_ok; [reflexivity|]. unfold wait_result in Hn. cbn [replicate] in Hn. rewrite app_nil_r in Hn.
    destruct (Z.leb_spec 0 (result (calls s) Wait)), (Z.eqb_spec (result (calls s) Wait) pid); cbn [andb negb]; try lia.
    all: apply wp_ret; cbn; by rewrite app_nil_r.
  - eapply wp_bind_ok; [reflexivity|]. destruct (Hi O) as [H0 H1]; [lia|]. unfold wait_result in H0, H1. cbn [replicate] in H0, H1. rewrite app_nil_r in H0, H1.
    rewrite (proj2 (Z.leb_le 0 _)), (proj2 (Z.eqb_neq _ pid)) by done. cbn [andb negb].
    eapply wp_bind_ok; [by apply (print_ok 1 (line "zombie!") [] (line "zombie!"))|].
    assert (forall i, wait_result (calls s ++ [Wait]) i = wait_result (calls s) (S i)) as Hw.
    { intros i. unfold wait_result. by rewrite <-app_assoc. }
    eapply wp_mono; [apply IH; [lia| |]|].
    + intros i Hlt. cbn [calls add_out]. rewrite Hw. apply Hi. lia.
    + cbn [calls add_out]. by rewrite Hw.
    + intros [] s' [T C]. unfold add_out in T, C. cbn [out calls] in T, C. split.
      * rewrite T, text_app, text_chars. unfold zombies. cbn [replicate concat]. by rewrite app_assoc.
      * rewrite C, <-app_assoc. done.
Qed.

End Env.

(** cat prints the bytes of its arguments one after the other, in whatever
    pieces they arrive, up to the first that cannot be opened or read. *)
Theorem cat_copies lookup fuel args s k : args <> [] -> free_fd (fds s) = Some k -> Forall (readable lookup fuel) args ->
  wp (cat_main lookup fuel args) (fun _ s' => wrote (cat_text lookup args) s s') s.
Proof. intros Ha Hk Hr. destruct args as [|a args]; [done|]. by apply (cat_files_ok lookup fuel (a :: args) s k). Qed.

(** C38: wc prints, for each argument up to the first that cannot be opened or
    read, the number of its newlines, of its words, the longest pieces without
    white space, and of its bytes, in whatever pieces the bytes arrive; a word
    that spans two reads counts once. *)
Theorem wc_counts lookup fuel args s k : args <> [] -> free_fd (fds s) = Some k -> Forall (countable lookup fuel) args ->
  wp (wc_main lookup fuel args) (fun _ s' => wrote (wc_text lookup args) s s') s.
Proof. intros Ha Hk Hr. destruct args as [|a args]; [done|]. by apply (wc_files_ok lookup fuel (a :: args) s k). Qed.

(** Ls prints for each argument what it should: the name, type, inode number
    and size of a file, and for a directory such a line for each entry with an
    inode, in the order of the directory; it leaves its descriptors as they
    were, whatever it meets. *)
Theorem ls_prints lookup fuel args s : args <> [] -> two_free (fds s) -> listable lookup fuel ->
  wp (ls_main lookup fuel args) (fun _ s' => exists css, Forall2 (ls_says lookup) args css /\ wrote (concat css) s s' /\ fds s' = fds s) s.
Proof.
  intros Ha H2 Hl. destruct args as [|a args]; [done|]. change (ls_main lookup fuel (a :: args)) with (ls_all lookup fuel (a :: args)).
  clear Ha. revert s H2. generalize (a :: args). intros l. induction l as [|b l IH]; intros s H2; cbn [ls_all].
  - apply wp_ret. exists []. split; [done|]. split; [by apply wrote_nil|done].
  - destruct (ls_ok lookup fuel b s H2 Hl) as (s1 & cs & E1 & Hs & W1 & F1). eapply wp_bind_ok; [exact E1|].
    eapply wp_mono; [apply IH; by rewrite F1|]. intros [] s2 (css & Hcs & W2 & F2). exists (cs :: css).
    split; [by constructor|]. split; [exact (wrote_trans _ _ _ _ _ W1 W2)|congruence].
Qed.

(** ** A small file system *)

Definition demo_entry (inum : Z) (name : list Z) : list Z := [inum; 0] ++ name ++ replicate (14 - length name) 0.

(** "a" arrives in two pieces; "." lists "a", a free entry and "b", which is gone. *)
Definition demo_lookup (p : list Z) : option obj :=
  if bool_decide (p = bytes "a" \/ p = bytes "./a") then Some (Obj (Ustat 2 7 11) [bytes "one tw"; bytes "o " ++ [10] ++ bytes "of"] false)
  else if bool_decide (p = bytes ".") then
    Some (Obj (Ustat 1 1 48) (pieces (concat [demo_entry 7 (bytes "a"); demo_entry 0 (bytes "x"); demo_entry 9 (bytes "b")])) false)
  else None.

Definition demo_uproc : uproc := Uproc (replicate 3 (Some (Obj (Ustat 3 0 0) [] false)) ++ replicate 13 None) [] [].

Lemma demo_lookup_inv a o : demo_lookup a = Some o ->
  o = Obj (Ustat 2 7 11) [bytes "one tw"; bytes "o " ++ [10] ++ bytes "of"] false \/
  o = Obj (Ustat 1 1 48) (pieces (concat [demo_entry 7 (bytes "a"); demo_entry 0 (bytes "x"); demo_entry 9 (bytes "b")])) false.
Proof. unfold demo_lookup. repeat case_bool_decide; naive_solver. Qed.

Example wc_run : match wc_main demo_lookup 100 [bytes "a"] demo_uproc with Ok _ s => text 1 (out s) | _ => [] end = line "1 3 11 a".
Proof. vm_compute. reflexivity. Qed.

Example ls_run : match ls_main demo_lookup 100 [] demo_uproc with Ok _ s => text 1 (out s) | _ => [] end =
  line "a              2 7 11" ++ line "ls: cannot stat ./b".
Proof. vm_compute. reflexivity. Qed.

Lemma wc_counts_witness : wp (wc_main demo_lookup 100 [bytes "a"]) (fun _ s' => wrote (wc_text demo_lookup [bytes "a"]) demo_uproc s') demo_uproc.
Proof.
  apply (wc_counts demo_lookup 100 [bytes "a"] demo_uproc 3); [done|reflexivity|]. constructor; [|constructor].
  intros o [->| ->]%demo_lookup_inv; (split; [repeat constructor; discriminate|]); vm_compute; split; (reflexivity || lia).
Defined.

Lemma ls_prints_witness : wp (ls_main demo_lookup 100 [bytes "."; bytes "a"])
  (fun _ s' => exists css, Forall2 (ls_says demo_lookup) [bytes "."; bytes "a"] css /\ wrote (concat css) demo_uproc s' /\ fds s' = fds demo_uproc) demo_uproc.
Proof.
  apply (ls_prints demo_lookup 100 [bytes "."; bytes "a"] demo_uproc); [done|by exists 3%nat, 4%nat|].
  intros a o [->| ->]%demo_lookup_inv; split; [vm_compute; repeat split; intros [=]|done|vm_compute; repeat split; intros [=]|].
  intros _. exists [demo_entry 7 (bytes "a"); demo_entry 0 (bytes "x"); demo_entry 9 (bytes "b")].
  split; [|vm_compute; lia]. split; [done|]. split; [done|]. repeat constructor.
Defined.
