(* ===== verification/Sh.v ===== *)
(** * sh.c: the parser of the shell

    The command line lies in the memory of the process; the parser builds its
    commands in a heap of nodes, [cmds], where a pointer is an index.  [ps] is
    the variable that the parsing functions advance through the pointer they are
    given; [es] is the end of the line.  malloc is taken to succeed.  The
    [panic] of sh.c, which prints and exits, is the outcome [Panic]. *)

From S2P Require Import Prelude CString Ulib.

Definition MAXARGS : Z := 10.

Definition O_RDONLY : Z := 0.

Definition O_WRONLY : Z := 1.

Definition O_CREATE : Z := 512.

Inductive cmd : Type :=
| EXEC (argv eargv : list Z)
| REDIR (c file efile mode fd : Z)
| PIPE (left right : Z)
| LIST (left right : Z)
| BACK (c : Z).

Record shell := Shell { sm : mem; cmds : list cmd; ps : Z }.

Definition set_ps (s : Z) (t : shell) : shell := Shell (sm t) (cmds t) s.

(** The constructors: a new node at the end of the heap. *)
Definition new_cmd (c : cmd) : M shell Z :=
  s <- get ;; put (Shell (sm s) (cmds s ++ [c]) (ps s)) ;;; ret (zlen (cmds s)).

Definition execcmd : M shell Z := new_cmd (EXEC (replicate 10 0) (replicate 10 0)).

Definition redircmd (subcmd file efile mode fd : Z) : M shell Z := new_cmd (REDIR subcmd file efile mode fd).

Definition pipecmd (left right : Z) : M shell Z := new_cmd (PIPE left right).

Definition listcmd (left right : Z) : M shell Z := new_cmd (LIST left right).

Definition backcmd (subcmd : Z) : M shell Z := new_cmd (BACK subcmd).

(** whitespace[] and symbols[]; strchr does not find a NUL in them. *)
Definition whitespace (c : Z) : bool := (c =? 32) || (c =? 9) || (c =? 13) || (c =? 10) || (c =? 11).

Definition symbol (c : Z) : bool :=
  (c =? 60) || (c =? 124) || (c =? 62) || (c =? 38) || (c =? 59) || (c =? 40) || (c =? 41).

Section Parser.
Variable es : Z.

Definition skip_blank (m : mem) (s : Z) : Z :=
  while_ (Z.to_nat (es - s)) (fun s => (s <? es) && whitespace (m s)) (fun s => u32 (s + 1)) s.

Definition skip_word (m : mem) (s : Z) : Z :=
  while_ (Z.to_nat (es - s)) (fun s => (s <? es) && negb (whitespace (m s)) && negb (symbol (m s))) (fun s => u32 (s + 1)) s.

(** gettoken: the token's kind, its start and its end. *)
Definition gettoken : M shell (Z * Z * Z) :=
  t <- get ;;
  let m := sm t in
  let s := skip_blank m (ps t) in
  let q := s in
  let c := m s in
  let '(r, s) :=
    if c =? 0 then (c, s)
    else if (c =? 124) || (c =? 40) || (c =? 41) || (c =? 59) || (c =? 38) || (c =? 60) then (c, u32 (s + 1))
    else if c =? 62 then
      let s := u32 (s + 1) in if m s =? 62 then (43, u32 (s + 1)) else (c, s)
    else (97, skip_word m s) in
  put (set_ps (skip_blank m s) t) ;;;
  ret (r, q, s).

Definition peek (toks : list Z) : M shell bool :=
  t <- get ;;
  let s := skip_blank (sm t) (ps t) in
  put (set_ps s t) ;;;
  ret (negb (sm t s =? 0) && bool_decide (sm t s ∈ toks)).

(** A bound for a loop that consumes a token each time round. *)
Definition rest_fuel : M shell nat := t <- get ;; ret (Z.to_nat (es - ps t) + 1)%nat.

Fixpoint parseredirs_loop (fuel : nat) (c : Z) : M shell Z :=
  match fuel with
  | O => no_fuel
  | S f =>
      more <- peek [60; 62] ;;
      if (more : bool) then
        tok <- gettoken ;;
        arg <- gettoken ;;
        let '(k, q, eq) := arg in
        if negb (k =? 97) then panic "missing file for redirection" else
        c <- (if tok.1.1 =? 60 then redircmd c q eq O_RDONLY 0
              else if (tok.1.1 =? 62) || (tok.1.1 =? 43) then redircmd c q eq (Z.lor O_WRONLY O_CREATE) 1
              else ret c) ;;
        parseredirs_loop f c
      else ret c
  end.

Definition parseredirs (c : Z) : M shell Z := f <- rest_fuel ;; parseredirs_loop f c.

(** [cmd->argv[argc] = q; cmd->eargv[argc] = eq] *)
Definition set_arg (c argc q eq : Z) : M shell unit :=
  s <- get ;;
  match zget (cmds s) c with
  | Some (EXEC argv eargv) =>
      if argc <? MAXARGS then put (Shell (sm s) (zset (cmds s) c (EXEC (zset argv argc q) (zset eargv argc eq))) (ps s)) else fault
  | _ => fault
  end.

(** The while loop of parseexec. *)
Fixpoint parseexec_loop (fuel : nat) (c argc r : Z) : M shell Z :=
  match fuel with
  | O => no_fuel
  | S f =>
      stop <- peek [124; 41; 38; 59] ;;
      if (stop : bool) then set_arg c argc 0 0 ;;; ret r else
      tok <- gettoken ;;
      let '(k, q, eq) := tok in
      if k =? 0 then set_arg c argc 0 0 ;;; ret r else
      if negb (k =? 97) then panic "syntax" else
      set_arg c argc q eq ;;;
      let argc := argc + 1 in
      if MAXARGS <=? argc then panic "too many args" else
      r <- parseredirs r ;;
      parseexec_loop f c argc r
  end.

(** parseline's loop on ampersands. *)
Fixpoint back_loop (fuel : nat) (c : Z) : M shell Z :=
  match fuel with
  | O => no_fuel
  | S f =>
      more <- peek [38] ;;
      if (more : bool) then gettoken ;;; c <- backcmd c ;; back_loop f c else ret c
  end.

Fixpoint parseline (fuel : nat) : M shell Z :=
  match fuel with
  | O => no_fuel
  | S f =>
      c <- parsepipe f ;;
      n <- rest_fuel ;;
      c <- back_loop n c ;;
      more <- peek [59] ;;
      if (more : bool) then gettoken ;;; r <- parseline f ;; listcmd c r else ret c
  end
with parsepipe (fuel : nat) : M shell Z :=
  match fuel with
  | O => no_fuel
  | S f =>
      c <- parseexec f ;;
      more <- peek [124] ;;
      if (more : bool) then gettoken ;;; r <- parsepipe f ;; pipecmd c r else ret c
  end
with parseexec (fuel : nat) : M shell Z :=
  match fuel with
  | O => no_fuel
  | S f =>
      block <- peek [40] ;;
      if (block : bool) then parseblock f else
      c <- execcmd ;;
      r <- parseredirs c ;;
      n <- rest_fuel ;;
      parseexec_loop n c 0 r
  end
with parseblock (fuel : nat) : M shell Z :=
  match fuel with
  | O => no_fuel
  | S f =>
      open <- peek [40] ;;
      if negb open then panic "parseblock" else
      gettoken ;;;
      c <- parseline f ;;
      close <- peek [41] ;;
      if negb close then panic "syntax - missing )" else
      gettoken ;;;
      parseredirs c
  end.

(** [*p = 0] *)
Definition put_nul (p : Z) : M shell unit := modify (fun s => Shell (upd (sm s) p 0) (cmds s) (ps s)).

(** nulterminate's loop over argv[]. *)
Fixpoint nul_args (n : nat) (i : Z) (argv eargv : list Z) : M shell unit :=
  match n with
  | O => fault
  | S n' =>
      a <- from_opt (zget argv i) ;;
      if a =? 0 then ret tt else e <- from_opt (zget eargv i) ;; put_nul e ;;; nul_args n' (i + 1) argv eargv
  end.

Fixpoint nulterminate (fuel : nat) (c : Z) : M shell unit :=
  match fuel with
  | O => no_fuel
  | S f =>
      s <- get ;;
      n <- from_opt (zget (cmds s) c) ;;
      match n with
      | EXEC argv eargv => nul_args 10 0 argv eargv
      | REDIR c _ efile _ _ => nulterminate f c ;;; put_nul efile
      | PIPE l r | LIST l r => nulterminate f l ;;; nulterminate f r
      | BACK c => nulterminate f c
      end
  end.

End Parser.

(** parsecmd: [fuel] bounds the length of the line. *)
Definition parsecmd (fuel : nat) (s : Z) : M shell Z :=
  t <- get ;;
  len <- (match strlen fuel (sm t) s with Some n => ret n | None => no_fuel end) ;;
  let es := u32 (s + len) in
  put (set_ps s t) ;;;
  c <- parseline es (Z.to_nat (4 * len + 4)) ;;
  peek es [] ;;;
  t <- get ;;
  if negb (ps t =? es) then panic "syntax" else
  nulterminate (length (cmds t)) c ;;;
  ret c.

(** ** Running a command

    What runcmd asks of the kernel: a descriptor table, [openable] for the
    success of open, and for each process that reaches exec its arguments and
    its descriptors.  fork and pipe are taken to succeed.  A pipe is named by
    the number of pipes made before it. *)

Inductive fobj : Type := Tty | FileOpen (name : list Z) (mode : Z) | PipeRead (n : Z) | PipeWrite (n : Z).

Definition fdtab : Type := list (option fobj).

(** The lowest free descriptor, as the kernel's fdalloc takes it. *)
Fixpoint lowest (F : fdtab) : option nat :=
  match F with
  | [] => None
  | None :: _ => Some O
  | Some _ :: F' => k ← lowest F'; Some (S k)
  end.

Definition fd_close (fd : nat) (F : fdtab) : fdtab := <[fd := None]> F.

(** The lowest free descriptor stands for [o]. *)
Definition fd_new (o : fobj) (F : fdtab) : option (nat * fdtab) := k ← lowest F; Some (k, <[k := Some o]> F).

Definition fd_dup (fd : nat) (F : fdtab) : fdtab :=
  match F !! fd with
  | Some (Some o) => match fd_new o F with Some (_, F') => F' | None => F end
  | _ => F
  end.

Record image := Image { i_args : list (list Z); i_fds : fdtab }.

(** The string at [p]. *)
Fixpoint load_str (fuel : nat) (m : mem) (p : Z) : option (list Z) :=
  match fuel with
  | O => None
  | S f => if m p =? 0 then Some [] else l ← load_str f m (u32 (p + 1)); Some (m p :: l)
  end.

(** The strings of argv[] up to its null pointer. *)
Fixpoint load_args (fuel : nat) (m : mem) (argv : list Z) : option (list (list Z)) :=
  match argv with
  | [] => None
  | p :: argv' => if p =? 0 then Some [] else w ← load_str fuel m p; ws ← load_args fuel m argv'; Some (w :: ws)
  end.

Section Run.
Variables (openable : list Z -> Z -> bool) (lf : nat).

Definition lift_opt {A} (o : option A) : M shell A := match o with Some a => ret a | None => no_fuel end.

(** The images that are executed, and the number of pipes made so far. *)
Fixpoint runcmd (fuel : nat) (c : Z) (F : fdtab) (n : Z) : M shell (list image * Z) :=
  match fuel with
  | O => no_fuel
  | S f =>
      if c =? -1 then ret ([], n) else
      s <- get ;;
      node <- from_opt (zget (cmds s) c) ;;
      match node with
      | EXEC argv _ =>
          a0 <- from_opt (zget argv 0) ;;
          if a0 =? 0 then ret ([], n) else args <- lift_opt (load_args lf (sm s) argv) ;; ret ([Image args F], n)
      | REDIR c file _ mode fd =>
          let F := fd_close (Z.to_nat fd) F in
          name <- lift_opt (load_str lf (sm s) file) ;;
          if openable name mode then
            r <- lift_opt (fd_new (FileOpen name mode) F) ;; runcmd f c r.2 n
          else ret ([], n)
      | LIST l r =>
          a <- runcmd f l F n ;;
          b <- runcmd f r F a.2 ;;
          ret (a.1 ++ b.1, b.2)
      | PIPE l r =>
          p0 <- lift_opt (fd_new (PipeRead n) F) ;;
          p1 <- lift_opt (fd_new (PipeWrite n) p0.2) ;;
          let F := p1.2 in
          a <- runcmd f l (fd_close p1.1 (fd_close p0.1 (fd_dup p1.1 (fd_close 1 F)))) (n + 1) ;;
          b <- runcmd f r (fd_close p1.1 (fd_close p0.1 (fd_dup p0.1 (fd_close 0 F)))) a.2 ;;
          ret (a.1 ++ b.1, b.2)
      | BACK c => runcmd f c F n
      end
  end.

End Run.
