(* ===== verification/ShSpec.v ===== *)
(** * The shell's parser builds what its grammar says

    Tokens and grammar of the command language, and the relation between a node
    of the parser's heap and the command it stands for.  parsecmd ends on every
    line; when it does not reject the line, the node it returns denotes a parse
    of the line, with every argument and file name NUL-terminated. *)

From S2P Require Import Prelude CString Ulib Sh.

(** ** Tokens *)

Definition plain (c : Z) : bool := negb (c =? 0) && negb (whitespace c) && negb (symbol c).

Inductive token : Type := Word (w : list Z) | Sym (c : Z) | Append.

Fixpoint tokenize (l : list Z) : list token :=
  match l with
  | [] => []
  | c :: l1 =>
      if whitespace c then tokenize l1
      else if negb (symbol c) then
        match l1 with
        | [] => [Word [c]]
        | d :: _ =>
            if plain d then match tokenize l1 with Word w :: ts => Word (c :: w) :: ts | ts => ts end
            else Word [c] :: tokenize l1
        end
      else
        match l1 with
        | d :: l2 => if (c =? 62) && (d =? 62) then Append :: tokenize l2 else Sym c :: tokenize l1
        | [] => [Sym c]
        end
  end.

(** The character that peek sees. *)
Definition first (ts : list token) : option Z :=
  match ts with Sym c :: _ => Some c | Append :: _ => Some 62 | _ => None end.

(** ** Grammar *)

Inductive ast : Type :=
| AExec (args : list (list Z))
| ARedir (a : ast) (file : list Z) (mode fd : Z)
| APipe (a b : ast)
| AList (a b : ast)
| ABack (a : ast).

Definition redir : Type := list Z * Z * Z.

Definition wrap (rs : list redir) (a : ast) : ast := foldl (fun a r => ARedir a r.1.1 r.1.2 r.2) a rs.

Inductive g_redirs : list token -> list redir -> list token -> Prop :=
| gr_none ts : first ts <> Some 60 -> first ts <> Some 62 -> g_redirs ts [] ts
| gr_in w ts rs ts' : g_redirs ts rs ts' -> g_redirs (Sym 60 :: Word w :: ts) ((w, O_RDONLY, 0) :: rs) ts'
| gr_out w ts rs ts' : g_redirs ts rs ts' -> g_redirs (Sym 62 :: Word w :: ts) ((w, Z.lor O_WRONLY O_CREATE, 1) :: rs) ts'
| gr_append w ts rs ts' : g_redirs ts rs ts' -> g_redirs (Append :: Word w :: ts) ((w, Z.lor O_WRONLY O_CREATE, 1) :: rs) ts'.

(** The arguments of a simple command, each followed by redirections. *)
Inductive g_args : list token -> list (list Z) -> list redir -> list token -> Prop :=
| ga_end : g_args [] [] [] []
| ga_stop ts c : first ts = Some c -> c ∈ [124; 41; 38; 59] -> g_args ts [] [] ts
| ga_word w ts rs ts1 ws rs' ts2 : g_redirs ts rs ts1 -> g_args ts1 ws rs' ts2 -> g_args (Word w :: ts) (w :: ws) (rs ++ rs') ts2.

Inductive g_line : list token -> ast -> list token -> Prop :=
| gl_end ts a k ts1 : g_pipe ts a (replicate k (Sym 38) ++ ts1) -> first ts1 <> Some 38 -> first ts1 <> Some 59 ->
    g_line ts (Nat.iter k ABack a) ts1
| gl_seq ts a k ts1 b ts2 : g_pipe ts a (replicate k (Sym 38) ++ Sym 59 :: ts1) -> g_line ts1 b ts2 ->
    g_line ts (AList (Nat.iter k ABack a) b) ts2
with g_pipe : list token -> ast -> list token -> Prop :=
| gp_one ts a ts1 : g_exec ts a ts1 -> first ts1 <> Some 124 -> g_pipe ts a ts1
| gp_more ts a ts1 b ts2 : g_exec ts a (Sym 124 :: ts1) -> g_pipe ts1 b ts2 -> g_pipe ts (APipe a b) ts2
with g_exec : list token -> ast -> list token -> Prop :=
| ge_block ts a ts1 rs ts2 : g_line ts a (Sym 41 :: ts1) -> g_redirs ts1 rs ts2 -> g_exec (Sym 40 :: ts) (wrap rs a) ts2
| ge_simple ts rs0 ts1 ws rs ts2 : first ts <> Some 40 -> g_redirs ts rs0 ts1 -> g_args ts1 ws rs ts2 -> zlen ws < MAXARGS ->
    g_exec ts (wrap (rs0 ++ rs) (AExec ws)) ts2.

(** ** Tokens of a string *)

Fixpoint drop_blank (l : list Z) : list Z :=
  match l with c :: l' => if whitespace c then drop_blank l' else l | [] => [] end.

(** The longest plain prefix, and the rest. *)
Fixpoint span_plain (l : list Z) : list Z * list Z :=
  match l with
  | c :: l' => if plain c then ((c :: (span_plain l').1), (span_plain l').2) else ([], l)
  | [] => ([], [])
  end.

Lemma tokenize_blank l : tokenize (drop_blank l) = tokenize l.
Proof. induction l as [|c l IH]; [done|]. cbn [drop_blank]. destruct (whitespace c) eqn:E; [|done]. rewrite IH. cbn [tokenize]. by rewrite E. Qed.

Lemma drop_blank_head l c l' : drop_blank l = c :: l' -> whitespace c = false.
Proof. induction l as [|d l IH]; cbn [drop_blank]; [done|]. destruct (whitespace d) eqn:E; [done|]. by intros [= -> ->]. Qed.

Lemma drop_blank_suffix l : exists b, l = b ++ drop_blank l /\ Forall (fun c => whitespace c = true) b.
Proof.
  induction l as [|c l (b & E & Hb)]; [by exists []|]. cbn [drop_blank]. destruct (whitespace c) eqn:Ec; [|by exists []].
  exists (c :: b). split; [by rewrite E at 1|by constructor].
Qed.

Lemma span_plain_app l : l = (span_plain l).1 ++ (span_plain l).2.
Proof. induction l as [|c l IH]; [done|]. cbn [span_plain]. destruct (plain c); cbn; [by rewrite <-IH|done]. Qed.

Lemma span_plain_ok l : Forall (fun c => plain c = true) (span_plain l).1 /\
  (forall c l', (span_plain l).2 = c :: l' -> plain c = false).
Proof.
  induction l as [|c l [IH1 IH2]]; [done|]. cbn [span_plain]. destruct (plain c) eqn:E; cbn; [split; [by constructor|done]|].
  split; [done|]. by intros d l' [= -> ->].
Qed.

Lemma tokenize_word c l : plain c = true -> tokenize (c :: l) = Word (span_plain (c :: l)).1 :: tokenize (span_plain (c :: l)).2.
Proof.
  revert c. induction l as [|d l IH]; intros c Hc; pose proof Hc as Hc'; unfold plain in Hc'; zbool; cbn [span_plain tokenize]; rewrite Hc.
  - destruct (whitespace c); [done|]. by destruct (symbol c).
  - destruct (whitespace c); [done|]. destruct (symbol c); [done|]. cbn [negb]. destruct (plain d) eqn:Hd; [|done].
    specialize (IH d Hd). cbn [span_plain] in IH. rewrite Hd in IH. cbn [tokenize] in IH |- *. rewrite IH. done.
Qed.

(** ** The line in memory *)

Section Line.
Variables (m : mem) (es : Z).
Hypothesis Hes : es < 2 ^ 32.

(** From [p] to the end of the line the characters are [l]. *)
Definition text (p : Z) (l : list Z) : Prop := 0 < p /\ p + zlen l = es /\ cstr m p l.

Lemma text_tail p c l : text p (c :: l) -> m p = c /\ c <> 0 /\ p < es /\ u32 (p + 1) = p + 1 /\ text (p + 1) l.
Proof.
  intros (Hp & He & Hc & Hm & Hl). rewrite zlen_cons in He. pose proof (zlen_nonneg l). rewrite u32_small in * by lia.
  do 4 (split; [done || lia|]). split; [lia|]. split; [lia|done].
Qed.

Lemma text_end p : text p [] -> m p = 0 /\ p = es.
Proof. intros (Hp & He & Hm). split; [done|]. change (zlen (@nil Z)) with 0 in He. lia. Qed.

Lemma text_head p l : text p l -> m p = match l with c :: _ => c | [] => 0 end.
Proof. destruct l as [|c l]; [by intros [? _]%text_end|by intros (? & _)%text_tail]. Qed.

Lemma skip_blank_at l : forall p fuel, text p l -> (length l <= fuel)%nat -> exists q,
  while_ fuel (fun s => (s <? es) && whitespace (m s)) (fun s => u32 (s + 1)) p = q /\ text q (drop_blank l).
Proof.
  induction l as [|c l IH]; intros p fuel Ht Hf.
  - exists p. split; [|done]. apply text_end in Ht as [_ ->]. destruct fuel; cbn [while_]; [done|]. by rewrite Z.ltb_irrefl.
  - pose proof (text_tail _ _ _ Ht) as (Hm & _ & Hlt & Hu & Ht'). destruct fuel as [|f]; [cbn in Hf; lia|]. cbn [while_ drop_blank].
    rewrite (proj2 (Z.ltb_lt p es)), Hm by done. cbn [andb]. destruct (whitespace c); [|by exists p]. rewrite Hu. apply IH; [done|cbn in Hf; lia].
Qed.

Lemma skip_blank_ok p l : text p l -> text (skip_blank es m p) (drop_blank l).
Proof.
  intros Ht. unfold skip_blank. pose proof Ht as (Hp & He & _).
  destruct (skip_blank_at l p (Z.to_nat (es - p)) Ht) as (q & -> & Hq); [unfold zlen in He; lia|done].
Qed.

Lemma skip_word_at l : forall p fuel, text p l -> (length l <= fuel)%nat -> exists q,
  while_ fuel (fun s => (s <? es) && negb (whitespace (m s)) && negb (symbol (m s))) (fun s => u32 (s + 1)) p = q /\
  text q (span_plain l).2 /\ q = p + zlen (span_plain l).1.
Proof.
  induction l as [|c l IH]; intros p fuel Ht Hf.
  - exists p. split; [|split; [done|cbn; unfold zlen; cbn; lia]]. apply text_end in Ht as [_ ->]. destruct fuel; cbn [while_]; [done|].
    by rewrite Z.ltb_irrefl.
  - pose proof (text_tail _ _ _ Ht) as (Hm & Hc & Hlt & Hu & Ht'). destruct fuel as [|f]; [cbn in Hf; lia|]. cbn [while_ span_plain].
    rewrite (proj2 (Z.ltb_lt p es)), Hm by done. cbn [andb]. unfold plain. rewrite (proj2 (Z.eqb_neq c 0)) by done. cbn [negb andb].
    destruct (negb (whitespace c) && negb (symbol c)); cbn [fst snd].
    + rewrite Hu. destruct (IH (p + 1) f Ht') as (q & -> & Hq & ->); [cbn in Hf; lia|]. eexists. split; [done|]. split; [done|].
      rewrite zlen_cons. lia.
    + exists p. split; [done|]. split; [done|]. unfold zlen. cbn. lia.
Qed.

Lemma skip_word_ok p l : text p l -> text (skip_word es m p) (span_plain l).2 /\ skip_word es m p = p + zlen (span_plain l).1.
Proof.
  intros Ht. pose proof Ht as (Hp & He & _). unfold skip_word.
  destruct (skip_word_at l p (Z.to_nat (es - p)) Ht) as (q & -> & Hq); [unfold zlen in He; lia|done].
Qed.

(** The word [w] lies at [q], and something that is not plain behind it. *)
Definition is_word (q : Z) (w : list Z) : Prop :=
  0 < q /\ w <> [] /\ q + zlen w <= es /\ (forall i, 0 <= i < zlen w -> zget w i = Some (m (q + i)) /\ plain (m (q + i)) = true) /\
  plain (m (q + zlen w)) = false.

Lemma text_bytes l : forall p i, text p l -> 0 <= i < zlen l -> zget l i = Some (m (p + i)).
Proof.
  induction l as [|c l IH]; intros p i Ht Hi; [change (zlen (@nil Z)) with 0 in Hi; lia|]. rewrite zlen_cons in Hi.
  apply text_tail in Ht as (Hm & _ & _ & _ & Ht). destruct (decide (i = 0)) as [->|].
  - by rewrite Z.add_0_r, Hm.
  - rewrite zget_succ, (IH (p + 1) (i - 1) Ht) by lia. do 2 f_equal. lia.
Qed.

Lemma text_word p c l : text p (c :: l) -> plain c = true -> is_word p (span_plain (c :: l)).1.
Proof.
  intros Ht Hc. destruct (skip_word_ok p (c :: l) Ht) as [Hrest Hq]. set (w := (span_plain (c :: l)).1) in *. pose proof Ht as (Hp & He & _).
  pose proof Hrest as (_ & Hre & _). rewrite Hq in Hrest, Hre. pose proof (zlen_nonneg (span_plain (c :: l)).2).
  split; [done|]. split; [unfold w; cbn [span_plain]; by rewrite Hc|]. split; [lia|]. split.
  - intros i Hi. pose proof (span_plain_app (c :: l)) as El. fold w in El.
    assert (zget w i = Some (m (p + i))) as Hz.
    { rewrite <-(text_bytes (c :: l) p i Ht) by (rewrite El, zlen_app; lia). rewrite El. unfold zget. rewrite (proj2 (Z.leb_le 0 i)) by lia.
      rewrite lookup_app_l; [done|unfold zlen in Hi; lia]. }
    split; [done|]. destruct (span_plain_ok (c :: l)) as [Hf _]. fold w in Hf. rewrite zget_nat in Hz by lia.
    exact (Forall_lookup_1 _ _ _ _ Hf Hz).
  - rewrite (text_head _ _ Hrest). destruct (span_plain (c :: l)).2 as [|d l'] eqn:E; [done|].
    by apply (proj2 (span_plain_ok (c :: l)) d l').
Qed.

(** ** gettoken and peek *)

Inductive gtok : list token -> Z -> Z -> Z -> list token -> Prop :=
| gt_end q : gtok [] 0 q q []
| gt_word w q ts : is_word q w -> gtok (Word w :: ts) 97 q (q + zlen w) ts
| gt_sym c q eq ts : c ∈ [60; 62; 124; 38; 59; 40; 41] -> gtok (Sym c :: ts) c q eq ts
| gt_append q eq ts : gtok (Append :: ts) 43 q eq ts.

(** What the parser still has to read. *)
Definition input (t : shell) (l : list Z) : Prop := sm t = m /\ text (ps t) l.

Lemma symbol_cases c : symbol c = true -> c ∈ [60; 62; 124; 38; 59; 40; 41].
Proof. unfold symbol. rewrite !orb_true_iff, !Z.eqb_eq. set_solver. Qed.

Lemma drop_blank_length l : (length (drop_blank l) <= length l)%nat.
Proof. induction l as [|c l IH]; cbn [drop_blank length]; [lia|]. destruct (whitespace c); cbn [length]; lia. Qed.

(** The token at a position that is not blank. *)
Lemma token_at p l : text p l -> head l = None \/ (exists c, head l = Some c /\ whitespace c = false) -> exists r s l',
  (if m p =? 0 then (m p, p)
   else if (m p =? 124) || (m p =? 40) || (m p =? 41) || (m p =? 59) || (m p =? 38) || (m p =? 60) then (m p, u32 (p + 1))
   else if m p =? 62 then let s := u32 (p + 1) in if m s =? 62 then (43, u32 (s + 1)) else (m p, s)
   else (97, skip_word es m p)) = (r, s) /\
  text s l' /\ gtok (tokenize l) r p s (tokenize l') /\ (length l' <= length l)%nat /\ (l <> [] -> (length l' < length l)%nat).
Proof.
  intros Ht Hh. destruct l as [|c l].
  { apply text_end in Ht as Hm. destruct Hm as [-> _]. exists 0, p, []. split; [done|]. split; [done|]. split; [constructor|]. by split. }
  destruct Hh as [?|(c' & [= <-] & Hws)]; [done|]. pose proof (text_tail _ _ _ Ht) as (Hm & Hc & Hlt & Hu & Ht').
  rewrite Hm, (proj2 (Z.eqb_neq c 0)), Hu by done. destruct (symbol c) eqn:Hsym.
  - pose proof (symbol_cases c Hsym) as Hin. destruct (Z.eqb_spec c 62) as [->|H62].
    + cbn [orb Z.eqb Pos.eqb]. rewrite (text_head _ _ Ht'). destruct l as [|d l].
      * exists 62, (p + 1), []. split; [done|]. split; [done|]. split; [cbn; by constructor|]. cbn. lia.
      * destruct (Z.eqb_spec d 62) as [->|Hd].
        -- pose proof (text_tail _ _ _ Ht') as (_ & _ & _ & Hu2 & Ht2). rewrite Hu2. exists 43, (p + 1 + 1), l. split; [done|]. split; [done|].
           split; [cbn; by constructor|]. cbn. lia.
        -- exists 62, (p + 1), (d :: l). split; [done|]. split; [done|]. split; [|cbn; lia]. cbn [tokenize]. rewrite Hws, Hsym. cbn [negb].
           change (62 =? 62) with true. rewrite (proj2 (Z.eqb_neq d 62)) by done. cbn [andb]. by constructor.
    + assert ((c =? 124) || (c =? 40) || (c =? 41) || (c =? 59) || (c =? 38) || (c =? 60) = true) as ->.
      { unfold symbol in Hsym. rewrite (proj2 (Z.eqb_neq c 62)) in Hsym by done.
        by destruct (c =? 60), (c =? 124), (c =? 38), (c =? 59), (c =? 40), (c =? 41). }
      exists c, (p + 1), l. split; [done|]. split; [done|]. split; [|cbn; lia]. cbn [tokenize]. rewrite Hws, Hsym. cbn [negb].
      rewrite (proj2 (Z.eqb_neq c 62)) by done. cbn [andb]. destruct l; by constructor.
  - assert (plain c = true) as Hpl by (unfold plain; rewrite Hws, Hsym, (proj2 (Z.eqb_neq c 0)) by done; done).
    assert ((c =? 124) || (c =? 40) || (c =? 41) || (c =? 59) || (c =? 38) || (c =? 60) = false /\ c =? 62 = false) as [-> ->].
    { unfold symbol in Hsym. by destruct (c =? 60), (c =? 124), (c =? 62), (c =? 38), (c =? 59), (c =? 40), (c =? 41). }
    destruct (skip_word_ok p (c :: l) Ht) as [Hrest Hq]. rewrite Hq in *. exists 97, (p + zlen (span_plain (c :: l)).1), (span_plain (c :: l)).2.
    split; [done|]. split; [done|]. rewrite (tokenize_word c l Hpl). split; [constructor; by apply text_word|].
    pose proof (f_equal length (span_plain_app (c :: l))) as El. rewrite length_app in El. cbn [span_plain] in El |- *. rewrite Hpl in *. cbn in *. lia.
Qed.

Lemma gettoken_ok t l : input t l -> exists r q eq s l',
  gettoken es t = Ok (r, q, eq) (set_ps s t) /\ input (set_ps s t) l' /\ gtok (tokenize l) r q eq (tokenize l') /\
  (length l' <= length l)%nat /\ (tokenize l <> [] -> (length l' < length l)%nat).
Proof.
  intros [Hm Ht]. pose proof (skip_blank_ok _ _ Ht) as Ht0. set (p := skip_blank es m (ps t)) in *.
  destruct (token_at p (drop_blank l) Ht0) as (r & s & l' & E & Ht' & Hg & Hle & Hlt).
  { destruct (drop_blank l) as [|c l1] eqn:El; [by left|right]. exists c. split; [done|]. by apply (drop_blank_head l c l1). }
  pose proof (skip_blank_ok _ _ Ht') as Ht2. exists r, p, s, (skip_blank es m s), (drop_blank l'). split.
  - unfold gettoken, bind, get, put, ret. rewrite Hm. fold p. cbv zeta in E |- *. by rewrite E.
  - split; [by split|]. rewrite tokenize_blank in Hg. rewrite tokenize_blank. split; [done|].
    pose proof (drop_blank_length l). pose proof (drop_blank_length l'). split; [lia|]. intros Hne.
    assert (drop_blank l <> []) as Hd by (intros E0; apply Hne; by rewrite <-tokenize_blank, E0). specialize (Hlt Hd). lia.
Qed.

Lemma peek_ok t l toks : input t l -> (forall c, c ∈ toks -> c ∈ [60; 62; 124; 38; 59; 40; 41]) -> exists b s l',
  peek es toks t = Ok b (set_ps s t) /\ input (set_ps s t) l' /\ tokenize l' = tokenize l /\ (length l' <= length l)%nat /\
  (b = true <-> exists c, first (tokenize l) = Some c /\ c ∈ toks) /\ (l' = [] <-> tokenize l = []).
Proof.
  intros [Hm Ht] Htoks. pose proof (skip_blank_ok _ _ Ht) as Ht0. set (p := skip_blank es m (ps t)) in *.
  exists (negb (m p =? 0) && bool_decide (m p ∈ toks)), p, (drop_blank l). split; [unfold peek, bind, get, put, ret; by rewrite Hm|].
  split; [by split|]. split; [apply tokenize_blank|]. split; [apply drop_blank_length|]. rewrite <-tokenize_blank.
  destruct (drop_blank l) as [|c l1] eqn:El.
  - apply text_end in Ht0 as [-> _]. split; [|done]. split; [done|]. by intros (c & ? & _).
  - pose proof (drop_blank_head l c l1 El) as Hws. pose proof (text_tail _ _ _ Ht0) as (-> & Hc & _). rewrite (proj2 (Z.eqb_neq c 0)) by done.
    cbn [negb andb]. rewrite bool_decide_eq_true. destruct (symbol c) eqn:Hsym.
    + assert (first (tokenize (c :: l1)) = Some c /\ tokenize (c :: l1) <> []) as [-> Hne].
      { cbn [tokenize]. rewrite Hws, Hsym. cbn [negb]. destruct l1 as [|d l1]; [done|]. destruct (Z.eqb_spec c 62) as [->|]; [|done].
        by destruct (d =? 62). }
      split; [|done]. split; [by exists c|]. by intros (? & [= <-] & ?).
    + assert (plain c = true) as Hpl by (unfold plain; rewrite Hws, Hsym, (proj2 (Z.eqb_neq c 0)) by done; done).
      rewrite (tokenize_word c l1 Hpl). split; [|done]. split; [|by intros (? & ? & _)]. intros Hin%Htoks. exfalso.
      assert (symbol c = true); [|congruence]. unfold symbol. rewrite !orb_true_iff, !Z.eqb_eq. set_solver.
Qed.

End Line.

(** ** Nodes and the commands they denote *)

Section Heap.
Variables (m : mem) (es : Z).
Hypothesis Hes : es < 2 ^ 32.

Notation is_word := (is_word m es).
Notation input := (input m es).

(** argv[] and eargv[] hold the words [ws], then zeros. *)
Definition args_at (argv eargv : list Z) (ws : list (list Z)) : Prop := exists qs, Forall2 is_word qs ws /\ zlen ws <= MAXARGS /\
  argv = qs ++ replicate (10 - length ws) 0 /\ eargv = zip_with (fun q w => q + zlen w) qs ws ++ replicate (10 - length ws) 0.

(** A node denotes a command; its children were made before it. *)
Inductive denotes (h : list cmd) : Z -> ast -> Prop :=
| d_exec i argv eargv ws : zget h i = Some (EXEC argv eargv) -> args_at argv eargv ws -> zlen ws < MAXARGS -> denotes h i (AExec ws)
| d_redir i c q mode fd w a : zget h i = Some (REDIR c q (q + zlen w) mode fd) -> c < i -> is_word q w -> denotes h c a ->
    denotes h i (ARedir a w mode fd)
| d_pipe i l r a b : zget h i = Some (PIPE l r) -> l < i -> r < i -> denotes h l a -> denotes h r b -> denotes h i (APipe a b)
| d_list i l r a b : zget h i = Some (LIST l r) -> l < i -> r < i -> denotes h l a -> denotes h r b -> denotes h i (AList a b)
| d_back i c a : zget h i = Some (BACK c) -> c < i -> denotes h c a -> denotes h i (ABack a).

(** The first [n] nodes stay. *)
Definition keeps (n : Z) (h h' : list cmd) : Prop := zlen h <= zlen h' /\ forall i, i < n -> zget h' i = zget h i.

Definition grows (h h' : list cmd) : Prop := keeps (zlen h) h h'.

Lemma grows_refl h : grows h h.
Proof. by split. Qed.

Lemma grows_trans h1 h2 h3 : grows h1 h2 -> grows h2 h3 -> grows h1 h3.
Proof. intros [L1 K1] [L2 K2]. split; [lia|]. intros i Hi. rewrite K2, K1 by lia. done. Qed.

Lemma grows_app h l : grows h (h ++ l).
Proof.
  split; [rewrite zlen_app; pose proof (zlen_nonneg l); lia|]. intros i Hi. unfold zget, zlen in *. destruct (0 <=? i) eqn:H0; [|done].
  apply Z.leb_le in H0. by rewrite lookup_app_l by lia.
Qed.

Lemma zget_grows h h' i c : grows h h' -> zget h i = Some c -> zget h' i = Some c.
Proof. intros [_ K] E. pose proof (zget_Some _ _ _ E). by rewrite K by lia. Qed.

Lemma denotes_grows h h' i a : grows h h' -> denotes h i a -> denotes h' i a.
Proof. intros Hg. induction 1; econstructor; eauto using zget_grows. Qed.

Lemma denotes_range h i a : denotes h i a -> 0 <= i < zlen h.
Proof. destruct 1; by eapply zget_Some. Qed.

(** Redirections [rs] on top of the node [e]. *)
Inductive chained (h : list cmd) (e : Z) : Z -> list redir -> Prop :=
| ch_nil : chained h e e []
| ch_snoc r c q w mode fd rs : chained h e c rs -> zget h r = Some (REDIR c q (q + zlen w) mode fd) -> c < r -> e < r -> is_word q w ->
    chained h e r (rs ++ [(w, mode, fd)]).

Lemma chained_grows h h' e r rs : grows h h' -> chained h e r rs -> chained h' e r rs.
Proof. intros Hg. induction 1; econstructor; eauto using zget_grows. Qed.

Lemma chained_set h e x r rs : chained h e r rs -> chained (zset h e x) e r rs.
Proof. induction 1 as [|r c q w mode fd rs _ IH Hr Hc He Hw]; [constructor|]. econstructor; try done. by rewrite zget_zset_ne by lia. Qed.

Lemma chained_denotes h e r rs a : denotes h e a -> chained h e r rs -> denotes h r (wrap rs a).
Proof.
  intros Ha. induction 1 as [|r c q w mode fd rs _ IH Hr Hc He Hw]; [done|]. unfold wrap in *. rewrite foldl_app. cbn.
  by eapply d_redir.
Qed.

(** ** Rules *)

Definition anyway (msg : string) : Prop := True.

Lemma new_cmd_run (c : cmd) (t : shell) : new_cmd c t = Ok (zlen (cmds t)) (Shell (sm t) (cmds t ++ [c]) (ps t)).
Proof. done. Qed.

Lemma zget_new (h : list cmd) c : zget (h ++ [c]) (zlen h) = Some c.
Proof. rewrite zget_nat by apply zlen_nonneg. unfold zlen. rewrite Nat2Z.id. by rewrite list_lookup_middle. Qed.

Lemma first_sym ts c : first ts = Some c -> c <> 62 -> exists ts', ts = Sym c :: ts'.
Proof. destruct ts as [|[w|d|] ts]; cbn; intros [= <-]; [by exists ts|done]. Qed.

(** One token, peeked at before or not. *)
Lemma wpe_gettoken {A} (k : Z * Z * Z -> M shell A) (Q : A -> shell -> Prop) t l : input t l ->
  (forall r q eq s l', input (set_ps s t) l' -> gtok m es (tokenize l) r q eq (tokenize l') -> (length l' <= length l)%nat ->
    (tokenize l <> [] -> (length l' < length l)%nat) -> wpe (k (r, q, eq)) Q anyway (set_ps s t)) ->
  wpe (bind (gettoken es) k) Q anyway t.
Proof.
  intros Hin HQ. destruct (gettoken_ok m es Hes t l Hin) as (r & q & eq & s & l' & E & Hin' & Hg & Hle & Hlt).
  eapply wpe_ok; [exact E|]. by eapply HQ.
Qed.

Lemma wpe_peek {A} (k : bool -> M shell A) toks (Q : A -> shell -> Prop) t l : input t l ->
  (forall c, c ∈ toks -> c ∈ [60; 62; 124; 38; 59; 40; 41]) ->
  (forall b s l', input (set_ps s t) l' -> tokenize l' = tokenize l -> (length l' <= length l)%nat ->
    (b = true <-> exists c, first (tokenize l) = Some c /\ c ∈ toks) -> (l' = [] <-> tokenize l = []) -> wpe (k b) Q anyway (set_ps s t)) ->
  wpe (bind (peek es toks) k) Q anyway t.
Proof.
  intros Hin Ht HQ. destruct (peek_ok m es Hes t l toks Hin Ht) as (b & s & l' & E & Hin' & Et & Hle & Hb & He).
  eapply wpe_ok; [exact E|]. by eapply HQ.
Qed.

Lemma rest_fuel_run t l : input t l -> rest_fuel es t = Ok (length l + 1)%nat t.
Proof.
  intros [_ (Hp & He & _)]. unfold rest_fuel, bind, get, ret. do 2 f_equal. unfold zlen in He. lia.
Qed.

(** ** Redirections *)

Lemma parseredirs_loop_ok e fuel : forall r rs0 t l, input t l -> (length l < fuel)%nat -> chained (cmds t) e r rs0 ->
  0 <= e < zlen (cmds t) -> 0 <= r < zlen (cmds t) ->
  wpe (parseredirs_loop es fuel r) (fun r' t' => exists l' rs, input t' l' /\ (length l' <= length l)%nat /\ grows (cmds t) (cmds t') /\
    chained (cmds t') e r' (rs0 ++ rs) /\ 0 <= r' < zlen (cmds t') /\ g_redirs (tokenize l) rs (tokenize l')) anyway t.
Proof.
  induction fuel as [|f IH]; intros r rs0 t l Hin Hf Hch He Hr; [lia|]. cbn [parseredirs_loop].
  apply (wpe_peek _ _ _ _ l); [done|set_solver|]. intros b s l1 Hin1 Et1 Hle1 Hb _. destruct b.
  2: { apply wpe_ret. exists l1, []. rewrite app_nil_r, Et1. split; [done|]. split; [done|]. split; [apply grows_refl|]. split; [done|]. split; [done|].
       constructor; intros E; assert (false = true); try done; apply Hb; eexists; (split; [exact E|set_solver]). }
  destruct (proj1 Hb eq_refl) as (c & Hc & Hin3). clear Hb. apply (wpe_gettoken _ _ _ l1); [done|].
  intros k1 q1 eq1 s2 l2 Hin2 Hg1 Hle2 Hlt2. rewrite Et1 in Hg1, Hlt2. assert (length l2 < length l1)%nat as Hlt by (apply Hlt2; by intros E; rewrite E in Hc).
  apply (wpe_gettoken _ _ _ l2); [done|]. intros k q eq s3 l3 Hin3' Hg2 Hle3 _. cbn [fst snd].
  destruct (Z.eqb_spec k 97) as [->|Hk]; [|done]. cbn [negb].
  assert (exists w ts, tokenize l2 = Word w :: ts /\ eq = q + zlen w /\ is_word q w /\ tokenize l3 = ts) as (w & ts & E2 & -> & Hw & <-).
  { inversion Hg2 as [|w q' ts Hw E|c' q' eq' ts Hc' E|]; subst; [by exists w, (tokenize l3)|]. set_solver. }
  rewrite E2 in Hg1. change (cmds (set_ps s3 (set_ps s2 (set_ps s t)))) with (cmds t) in *.
  assert (forall mode fd, (forall rs ts', g_redirs (tokenize l3) rs ts' -> g_redirs (tokenize l) ((w, mode, fd) :: rs) ts') ->
    wpe (c' <- redircmd r q (q + zlen w) mode fd ;; parseredirs_loop es f c') (fun r' t' => exists l' rs, input t' l' /\ (length l' <= length l)%nat /\
      grows (cmds t) (cmds t') /\ chained (cmds t') e r' (rs0 ++ rs) /\ 0 <= r' < zlen (cmds t') /\ g_redirs (tokenize l) rs (tokenize l')) anyway
      (set_ps s3 (set_ps s2 (set_ps s t)))) as Hgo.
  { intros mode fd Hgr. eapply wpe_ok; [apply new_cmd_run|]. set (t1 := Shell _ _ _). set (n := zlen _).
    pose proof (grows_app (cmds t) [REDIR r q (q + zlen w) mode fd]) as Hgw. pose proof (zlen_app (cmds t) [REDIR r q (q + zlen w) mode fd]) as Hlen.
    change (zlen [REDIR r q (q + zlen w) mode fd]) with 1 in Hlen.
    eapply wpe_mono; [apply (IH n (rs0 ++ [(w, mode, fd)]) t1 l3)|]; [exact Hin3'|lia| |cbn in *; lia|unfold n; cbn in *; pose proof (zlen_nonneg (cmds t)); lia|].
    - apply (ch_snoc _ _ n r q w mode fd rs0); [by eapply chained_grows|apply zget_new|unfold n; cbn; lia|unfold n; cbn; lia|done].
    - intros r' t' (l' & rs & A & B & C & D & F & G). exists l', ((w, mode, fd) :: rs). split; [done|]. split; [lia|].
      split; [by eapply grows_trans|]. rewrite <-app_assoc in D. split; [done|]. split; [done|]. by apply Hgr. }
  revert Hgo. remember (tokenize l) as T eqn:ET. remember (Word w :: tokenize l3) as T2 eqn:E3. clear ET.
  destruct Hg1 as [q2|w2 q2 ts2 _|c2 q2 eq2 ts2 Hc2|q2 eq2 ts2]; cbn [first] in Hc; try done; injection Hc as <-; subst ts2; intros Hgo.
  - assert (c2 = 60 \/ c2 = 62) as [->| ->] by set_solver; cbn [Z.eqb Pos.eqb orb]; apply Hgo; intros rs ts1 Hrs; by constructor.
  - cbn [Z.eqb Pos.eqb orb]. apply Hgo. intros rs ts1 Hrs. by constructor.
Qed.

Lemma parseredirs_wpe e r rs0 t l : input t l -> chained (cmds t) e r rs0 -> 0 <= e < zlen (cmds t) -> 0 <= r < zlen (cmds t) ->
  wpe (parseredirs es r) (fun r' t' => exists l' rs, input t' l' /\ (length l' <= length l)%nat /\ grows (cmds t) (cmds t') /\
    chained (cmds t') e r' (rs0 ++ rs) /\ 0 <= r' < zlen (cmds t') /\ g_redirs (tokenize l) rs (tokenize l')) anyway t.
Proof.
  intros Hin Hch He Hr. unfold parseredirs. eapply wpe_ok; [by apply rest_fuel_run|]. by apply parseredirs_loop_ok; [done|lia|..].
Qed.

Lemma parseredirs_ok {A} (k : Z -> M shell A) (Q : A -> shell -> Prop) e r rs0 t l : input t l -> chained (cmds t) e r rs0 ->
  0 <= e < zlen (cmds t) -> 0 <= r < zlen (cmds t) ->
  (forall r' t' l' rs, input t' l' -> (length l' <= length l)%nat -> grows (cmds t) (cmds t') -> chained (cmds t') e r' (rs0 ++ rs) ->
    0 <= r' < zlen (cmds t') -> g_redirs (tokenize l) rs (tokenize l') -> wpe (k r') Q anyway t') ->
  wpe (bind (parseredirs es r) k) Q anyway t.
Proof.
  intros Hin Hch He Hr HQ. apply wpe_bind. eapply wpe_mono; [by apply (parseredirs_wpe e r rs0 t l)|].
  intros r' t' (l' & rs & A1 & B & C & D & F & G). by eapply HQ.
Qed.

(** ** Simple commands *)

Lemma zset_middle {A} (l k : list A) x y : zset (l ++ x :: k) (zlen l) y = l ++ y :: k.
Proof.
  unfold zset. rewrite (proj2 (Z.leb_le 0 _)) by apply zlen_nonneg. unfold zlen. rewrite Nat2Z.id.
  rewrite insert_app_r_alt by lia. by rewrite Nat.sub_diag.
Qed.

Lemma replicate_left {A} n k (x : A) : (n < k)%nat -> replicate (k - n) x = x :: replicate (k - Datatypes.S n) x.
Proof. intros H. by replace (k - n)%nat with (Datatypes.S (k - Datatypes.S n)) by lia. Qed.

Lemma args_at_length argv eargv ws : args_at argv eargv ws -> exists qs es', argv = qs ++ replicate (10 - length ws) 0 /\
  eargv = es' ++ replicate (10 - length ws) 0 /\ zlen qs = zlen ws /\ zlen es' = zlen ws.
Proof.
  intros (qs & HF & _ & -> & ->). pose proof (Forall2_length _ _ _ HF) as Hl. exists qs, (zip_with (fun q w => q + zlen w) qs ws).
  split; [done|]. split; [done|]. unfold zlen. rewrite length_zip_with. lia.
Qed.

Lemma set_arg_run c argv eargv ws q w t : zget (cmds t) c = Some (EXEC argv eargv) -> args_at argv eargv ws -> zlen ws < MAXARGS ->
  is_word q w -> exists argv' eargv', args_at argv' eargv' (ws ++ [w]) /\
    set_arg c (zlen ws) q (q + zlen w) t = Ok tt (Shell (sm t) (zset (cmds t) c (EXEC argv' eargv')) (ps t)).
Proof.
  intros Hc Hargs Hlt Hw. destruct (args_at_length _ _ _ Hargs) as (qs1 & es1 & Ea & Ee & Hq1 & He1). destruct Hargs as (qs & HF & _ & E1 & E2).
  eexists _, _. split; [|unfold set_arg, bind, get; rewrite Hc, (proj2 (Z.ltb_lt (zlen ws) MAXARGS)) by done; reflexivity].
  assert (length ws < 10)%nat as Hl by (unfold zlen, MAXARGS in Hlt; lia). pose proof (Forall2_length _ _ _ HF) as Hlen.
  exists (qs ++ [q]). split; [by apply Forall2_app; [|constructor]|]. split; [rewrite zlen_app; change (zlen [w]) with 1; lia|].
  rewrite length_app. cbn [length]. rewrite Nat.add_1_r. rewrite E1, E2, (replicate_left (length ws) 10) by done. split.
  - replace (zlen ws) with (zlen qs) by (unfold zlen; lia). rewrite zset_middle, <-app_assoc. done.
  - replace (zlen ws) with (zlen (zip_with (fun q w => q + zlen w) qs ws)) by (unfold zlen; rewrite length_zip_with; lia).
    rewrite zset_middle, zip_with_app, <-app_assoc by done. done.
Qed.

Lemma set_arg_end c argv eargv ws t : zget (cmds t) c = Some (EXEC argv eargv) -> args_at argv eargv ws -> zlen ws < MAXARGS ->
  set_arg c (zlen ws) 0 0 t = Ok tt t.
Proof.
  intros Hc Hargs Hlt. destruct (args_at_length _ _ _ Hargs) as (qs & es' & -> & -> & Hq & He).
  unfold set_arg, bind, get. rewrite Hc, (proj2 (Z.ltb_lt (zlen ws) MAXARGS)) by done. unfold put. f_equal.
  assert (length ws < 10)%nat as Hl by (unfold zlen, MAXARGS in Hlt; lia). rewrite (replicate_left (length ws) 10) by done.
  rewrite <-Hq at 1. rewrite zset_middle, <-He, zset_middle. rewrite <-(replicate_left (length ws) 10) by done.
  rewrite zset_id by done. by destruct t.
Qed.

Lemma keeps_set n h c x : n <= c -> keeps n h (zset h c x).
Proof. intros Hn. split; [by rewrite zlen_zset|]. intros i Hi. by rewrite zget_zset_ne by lia. Qed.

Lemma keeps_trans n h1 h2 h3 : keeps n h1 h2 -> keeps n h2 h3 -> keeps n h1 h3.
Proof. intros [L1 K1] [L2 K2]. split; [lia|]. intros i Hi. rewrite K2, K1 by lia. done. Qed.

Lemma grows_keeps n h h' : grows h h' -> n <= zlen h -> keeps n h h'.
Proof. intros [L K] Hn. split; [done|]. intros i Hi. apply K. lia. Qed.

Lemma parseexec_loop_ok e fuel : forall r rs0 ws argv eargv t l, input t l -> (length l < fuel)%nat -> chained (cmds t) e r rs0 ->
  zget (cmds t) e = Some (EXEC argv eargv) -> args_at argv eargv ws -> zlen ws < MAXARGS -> 0 <= r < zlen (cmds t) ->
  wpe (parseexec_loop es fuel e (zlen ws) r) (fun r' t' => exists l' ws' rs argv' eargv', input t' l' /\ (length l' <= length l)%nat /\
    keeps e (cmds t) (cmds t') /\ chained (cmds t') e r' (rs0 ++ rs) /\ zget (cmds t') e = Some (EXEC argv' eargv') /\
    args_at argv' eargv' (ws ++ ws') /\ zlen (ws ++ ws') < MAXARGS /\ g_args (tokenize l) ws' rs (tokenize l')) anyway t.
Proof.
  induction fuel as [|f IH]; intros r rs0 ws argv eargv t l Hin Hf Hch He Hargs Hlt Hr; [lia|]. cbn [parseexec_loop].
  pose proof (zget_Some _ _ _ He) as Her. apply (wpe_peek _ _ _ _ l); [done|set_solver|]. intros b s1 l1 Hin1 Et1 Hle1 Hb _.
  assert (forall s l2, input (set_ps s t) l2 -> (length l2 <= length l)%nat -> g_args (tokenize l) [] [] (tokenize l2) ->
    wpe (set_arg e (zlen ws) 0 0 ;;; ret r) (fun r' t' => exists l' ws' rs argv' eargv', input t' l' /\ (length l' <= length l)%nat /\
    keeps e (cmds t) (cmds t') /\ chained (cmds t') e r' (rs0 ++ rs) /\ zget (cmds t') e = Some (EXEC argv' eargv') /\
    args_at argv' eargv' (ws ++ ws') /\ zlen (ws ++ ws') < MAXARGS /\ g_args (tokenize l) ws' rs (tokenize l')) anyway (set_ps s t)) as Hstop.
  { intros s l2 Hi2 Hl2 Hg. eapply wpe_ok; [by eapply set_arg_end|]. apply wpe_ret. exists l2, [], [], argv, eargv. rewrite !app_nil_r.
    split; [done|]. split; [done|]. split; [apply grows_keeps; [apply grows_refl|lia]|]. done. }
  destruct b.
  { apply (Hstop s1 l1); [done|done|]. destruct (proj1 Hb eq_refl) as (c & Hc & Hcin). rewrite Et1. by eapply ga_stop. }
  apply (wpe_gettoken _ _ _ l1); [done|]. intros k q eq s2 l2 Hin2 Hg Hle2 Hlt2. rewrite Et1 in Hg, Hlt2.
  destruct (Z.eqb_spec k 0) as [->|Hk0].
  { apply (Hstop s2 l2); [exact Hin2|lia|]. remember (tokenize l) as T. remember (tokenize l2) as T2.
    inversion Hg as [| |c' q' eq' ts' Hc'|]; subst; [constructor|set_solver]. }
  destruct (Z.eqb_spec k 97) as [->|Hk]; [|done]. cbn [negb].
  assert (exists w, tokenize l = Word w :: tokenize l2 /\ eq = q + zlen w /\ is_word q w) as (w & E1 & -> & Hw).
  { inversion Hg as [|w q' ts Hw E|c' q' eq' ts Hc' E|]; subst; [by exists w|set_solver]. }
  assert (length l2 < length l1)%nat as Hlt1 by (apply Hlt2; by rewrite E1).
  destruct (set_arg_run e argv eargv ws q w (set_ps s2 (set_ps s1 t)) He Hargs Hlt Hw) as (argv1 & eargv1 & Hargs1 & Erun).
  eapply wpe_ok; [exact Erun|]. destruct (Z.leb_spec MAXARGS (zlen ws + 1)) as [|Hlt3]; [done|]. cbn [cmds sm ps set_ps] in *.
  set (t2 := Shell _ _ _). assert (zget (cmds t2) e = Some (EXEC argv1 eargv1)) as He2 by (by apply zget_zset_eq).
  assert (zlen (cmds t2) = zlen (cmds t)) as Hlen2 by apply zlen_zset.
  apply (parseredirs_ok _ _ e r rs0 t2 l2); [exact Hin2|by apply chained_set|lia|lia|].
  intros r3 t3 l3 rs Hin3 Hle3 Hgr3 Hch3 Hr3 Hgrs. change (zlen ws + 1) with (zlen ws + zlen [w]). rewrite <-zlen_app.
  eapply wpe_mono; [apply (IH r3 (rs0 ++ rs) (ws ++ [w]) argv1 eargv1 t3 l3)|]; [done|lia|done|by eapply zget_grows|done|by rewrite zlen_app|done|].
  intros r' t' (l' & ws' & rs' & argv' & eargv' & A & B & C & D & F & G & H & I). exists l', (w :: ws'), (rs ++ rs'), argv', eargv'.
  rewrite <-app_assoc in D, G, H. split; [done|]. split; [lia|]. split; [|split; [done|split; [done|split; [done|split; [done|]]]]].
  - eapply keeps_trans; [|exact C]. eapply keeps_trans; [|by apply grows_keeps; [exact Hgr3|lia]]. apply keeps_set. lia.
  - rewrite E1. by apply ga_word with (tokenize l3).
Qed.

(** ** The mutually recursive functions *)

(** A parsing function returned a node for a command [a] that [G] finds. *)
Definition parsed (G : list token -> ast -> list token -> Prop) (t : shell) (l : list Z) (c : Z) (t' : shell) : Prop :=
  exists l' a, input t' l' /\ (length l' <= length l)%nat /\ grows (cmds t) (cmds t') /\ denotes (cmds t') c a /\
    G (tokenize l) a (tokenize l').

Lemma back_loop_ok fuel : forall c a t l, input t l -> (length l < fuel)%nat -> denotes (cmds t) c a ->
  wpe (back_loop es fuel c) (fun c' t' => exists l' k, input t' l' /\ (length l' <= length l)%nat /\ grows (cmds t) (cmds t') /\
    denotes (cmds t') c' (Nat.iter k ABack a) /\ tokenize l = replicate k (Sym 38) ++ tokenize l' /\ first (tokenize l') <> Some 38) anyway t.
Proof.
  induction fuel as [|f IH]; intros c a t l Hin Hf Hd; [lia|]. cbn [back_loop].
  apply (wpe_peek _ _ _ _ l); [done|set_solver|]. intros b s l1 Hin1 Et1 Hle1 Hb _. destruct b.
  2: { apply wpe_ret. exists l1, O. cbn. rewrite Et1. split; [done|]. split; [done|]. split; [apply grows_refl|]. split; [done|]. split; [done|].
       intros E. assert (false = true); [|done]. apply Hb. exists 38. split; [done|set_solver]. }
  destruct (proj1 Hb eq_refl) as (d & Hd1 & Hd2). assert (d = 38) as -> by set_solver. destruct (first_sym _ _ Hd1 ltac:(done)) as [ts Ets].
  apply (wpe_gettoken _ _ _ l1); [done|]. intros k q eq s2 l2 Hin2 Hg Hle2 Hlt2. rewrite Et1, Ets in Hg, Hlt2.
  assert (length l2 < length l1)%nat as Hlt by by apply Hlt2. assert (tokenize l2 = ts) as E2 by (by inversion Hg).
  eapply wpe_ok; [apply new_cmd_run|]. set (t2 := Shell _ _ _). pose proof (grows_app (cmds t) [BACK c]) as Hgw.
  eapply wpe_mono; [apply (IH _ (ABack a) t2 l2); [exact Hin2|lia|]|].
  - eapply d_back; [apply zget_new|apply denotes_range in Hd; cbn in *; lia|by eapply denotes_grows].
  - intros c' t' (l' & n & A & B & C & D & E & F). exists l', (Datatypes.S n). split; [done|]. split; [lia|]. split; [by eapply grows_trans|].
    split; [by rewrite Nat.iter_succ_r|]. split; [|done]. rewrite Ets. cbn. by rewrite <-E, E2.
Qed.

Lemma parse_ok fuel : forall t l, input t l ->
  ((4 * length l + 4 <= fuel)%nat -> wpe (parseline es fuel) (parsed g_line t l) anyway t) /\
  ((4 * length l + 3 <= fuel)%nat -> wpe (parsepipe es fuel) (parsed g_pipe t l) anyway t) /\
  ((4 * length l + 2 <= fuel)%nat -> wpe (parseexec es fuel) (parsed g_exec t l) anyway t) /\
  ((4 * length l + 1 <= fuel)%nat -> first (tokenize l) = Some 40 -> wpe (parseblock es fuel) (parsed g_exec t l) anyway t).
Proof.
  induction fuel as [|f IH]; intros t l Hin; [split; [|split; [|split]]; intros; lia|]. split; [|split; [|split]].
  - intros Hf. cbn [parseline]. apply wpe_bind. eapply wpe_mono; [apply (proj1 (proj2 (IH t l Hin))); lia|].
    intros c t1 (l1 & a & Hin1 & Hle1 & Hgr1 & Hd1 & Hg1). eapply wpe_ok; [by apply rest_fuel_run|]. apply wpe_bind.
    eapply wpe_mono; [apply (back_loop_ok _ c a t1 l1); [done|lia|done]|]. intros c2 t2 (l2 & k & Hin2 & Hle2 & Hgr2 & Hd2 & Et2 & Hne).
    apply (wpe_peek _ _ _ _ l2); [done|set_solver|]. intros b s l3 Hin3 Et3 Hle3 Hb _. rewrite Et2 in Hg1. destruct b.
    + destruct (proj1 Hb eq_refl) as (d & Hx1 & Hx2). assert (d = 59) as -> by set_solver. destruct (first_sym _ _ Hx1 ltac:(done)) as [ts Ets].
      apply (wpe_gettoken _ _ _ l3); [done|]. intros k' q eq s4 l4 Hin4 Hg Hle4 Hlt4. rewrite Et3, Ets in Hg, Hlt4.
      assert (length l4 < length l3)%nat as Hlt by by apply Hlt4. assert (tokenize l4 = ts) as E4 by (by inversion Hg).
      apply wpe_bind. eapply wpe_mono; [apply (proj1 (IH _ l4 Hin4)); lia|]. intros r t5 (l5 & b & Hin5 & Hle5 & Hgr5 & Hd5 & Hg5).
      unfold listcmd. eapply wpe_ok; [reflexivity|]. eapply wpe_ok; [reflexivity|]. apply wpe_ret. exists l5, (AList (Nat.iter k ABack a) b).
      pose proof (grows_app (cmds t5) [LIST c2 r]) as Hgw. cbn [cmds set_ps] in Hgr5. split; [exact Hin5|]. split; [lia|].
      split; [cbn [cmds]; by do 3 (eapply grows_trans; [eassumption|])|]. split.
      * eapply d_list; [apply zget_new| | |..]; [apply denotes_range in Hd2 as [_ ?]; destruct Hgr5; cbn; lia|apply denotes_range in Hd5; cbn in *; lia|
          apply (denotes_grows (cmds t2)); [by apply (grows_trans _ (cmds t5))|done]|by eapply denotes_grows].
      * rewrite Ets in Hg1. rewrite E4 in Hg5. by eapply gl_seq.
    + apply wpe_ret. exists l3, (Nat.iter k ABack a). rewrite Et3. split; [done|]. split; [lia|]. split; [by eapply grows_trans|]. split; [done|].
      apply gl_end; [done|done|]. intros E. assert (false = true); [|done]. apply Hb. exists 59. split; [done|set_solver].
  - intros Hf. cbn [parsepipe]. apply wpe_bind. eapply wpe_mono; [apply (proj1 (proj2 (proj2 (IH t l Hin)))); lia|].
    intros c t1 (l1 & a & Hin1 & Hle1 & Hgr1 & Hd1 & Hg1).
    apply (wpe_peek _ _ _ _ l1); [done|set_solver|]. intros b s l3 Hin3 Et3 Hle3 Hb _. destruct b.
    + destruct (proj1 Hb eq_refl) as (d & Hx1 & Hx2). assert (d = 124) as -> by set_solver. destruct (first_sym _ _ Hx1 ltac:(done)) as [ts Ets].
      apply (wpe_gettoken _ _ _ l3); [done|]. intros k' q eq s4 l4 Hin4 Hg Hle4 Hlt4. rewrite Et3, Ets in Hg, Hlt4.
      assert (length l4 < length l3)%nat as Hlt by by apply Hlt4. assert (tokenize l4 = ts) as E4 by (by inversion Hg).
      apply wpe_bind. eapply wpe_mono; [apply (proj1 (proj2 (IH _ l4 Hin4))); lia|]. intros r t5 (l5 & b & Hin5 & Hle5 & Hgr5 & Hd5 & Hg5).
      unfold pipecmd. eapply wpe_ok; [reflexivity|]. eapply wpe_ok; [reflexivity|]. apply wpe_ret. exists l5, (APipe a b).
      pose proof (grows_app (cmds t5) [PIPE c r]) as Hgw. cbn [cmds set_ps] in Hgr5. split; [exact Hin5|]. split; [lia|].
      split; [cbn [cmds]; by do 2 (eapply grows_trans; [eassumption|])|]. split.
      * eapply d_pipe; [apply zget_new| | |..]; [apply denotes_range in Hd1 as [_ ?]; destruct Hgr5; cbn; lia|apply denotes_range in Hd5; cbn in *; lia|
          apply (denotes_grows (cmds t1)); [by apply (grows_trans _ (cmds t5))|done]|by eapply denotes_grows].
      * rewrite Ets in Hg1. rewrite E4 in Hg5. by eapply gp_more.
    + apply wpe_ret. exists l3, a. rewrite Et3. split; [done|]. split; [lia|]. split; [done|]. split; [done|].
      apply gp_one; [done|]. intros E. assert (false = true); [|done]. apply Hb. exists 124. split; [done|set_solver].
  - intros Hf. cbn [parseexec]. apply (wpe_peek _ _ _ _ l); [done|set_solver|]. intros b s l1 Hin1 Et1 Hle1 Hb _. destruct b.
    + destruct (proj1 Hb eq_refl) as (d & Hx1 & Hx2). assert (d = 40) as -> by set_solver.
      eapply wpe_mono; [apply (proj2 (proj2 (proj2 (IH _ l1 Hin1)))); [lia|by rewrite Et1]|].
      intros c t' (l' & a & A & B & C & D & G). exists l', a. rewrite <-Et1. split; [done|]. split; [lia|]. done.
    + eapply wpe_ok; [apply new_cmd_run|]. set (e := zlen _). set (t1 := Shell _ _ _).
      assert (zget (cmds t1) e = Some (EXEC (replicate 10 0) (replicate 10 0))) as He by apply zget_new.
      pose proof (zget_Some _ _ _ He) as Her. pose proof (grows_app (cmds t) [EXEC (replicate 10 0) (replicate 10 0)]) as Hgw.
      apply (parseredirs_ok _ _ e e [] t1 l1); [exact Hin1|constructor|done|done|]. intros r t2 l2 rs0 Hin2 Hle2 Hgr2 Hch2 Hr2 Hgrs.
      eapply wpe_ok; [by apply rest_fuel_run|]. change 0 with (zlen (@nil (list Z))).
      eapply wpe_mono; [apply (parseexec_loop_ok e _ r rs0 [] (replicate 10 0) (replicate 10 0) t2 l2); [done|lia|done|by eapply zget_grows| |by vm_compute|done]|].
      { exists []. split; [constructor|]. by vm_compute. }
      intros r' t' (l' & ws & rs & argv & eargv & A & B & C & D & F & G & H & I). cbn [app] in *. rewrite Et1 in Hgrs.
      exists l', (wrap (rs0 ++ rs) (AExec ws)). split; [done|]. split; [lia|]. split; [|split].
      * eapply keeps_trans; [exact Hgw|]. eapply keeps_trans; [|exact C]. apply grows_keeps; [exact Hgr2|]. cbn [cmds t1]. apply Hgw.
      * eapply chained_denotes; [|done]. by eapply d_exec.
      * eapply ge_simple; [|done..]. intros E. assert (false = true); [|done]. apply Hb. exists 40. split; [done|set_solver].
  - intros Hf Hfirst. cbn [parseblock]. apply (wpe_peek _ _ _ _ l); [done|set_solver|]. intros b s l1 Hin1 Et1 Hle1 Hb _. destruct b; [|done].
    cbn [negb]. destruct (first_sym _ _ Hfirst ltac:(done)) as [ts Ets].
    apply (wpe_gettoken _ _ _ l1); [done|]. intros k' q eq s2 l2 Hin2 Hg Hle2 Hlt2. rewrite Et1, Ets in Hg, Hlt2.
    assert (length l2 < length l1)%nat as Hlt by by apply Hlt2. assert (tokenize l2 = ts) as E2 by (by inversion Hg).
    apply wpe_bind. eapply wpe_mono; [apply (proj1 (IH _ l2 Hin2)); lia|]. intros c t3 (l3 & a & Hin3 & Hle3 & Hgr3 & Hd3 & Hg3).
    apply (wpe_peek _ _ _ _ l3); [done|set_solver|]. intros b s4 l4 Hin4 Et4 Hle4 Hb4 _. destruct b; [|done]. cbn [negb].
    destruct (proj1 Hb4 eq_refl) as (d & Hx1 & Hx2). assert (d = 41) as -> by set_solver. destruct (first_sym _ _ Hx1 ltac:(done)) as [ts' Ets'].
    apply (wpe_gettoken _ _ _ l4); [done|]. intros k5 q5 eq5 s5 l5 Hin5 Hg5 Hle5 Hlt5. rewrite Et4, Ets' in Hg5.
    assert (tokenize l5 = ts') as E5 by (by inversion Hg5). 
    pose proof (denotes_range _ _ _ Hd3) as Hc.
    eapply wpe_mono; [apply (parseredirs_wpe c c [] _ l5); [done|constructor|exact Hc|exact Hc]|].
    intros r' t' (l' & rs & A & B & C & D & F & G). cbn [app cmds set_ps] in *. exists l', (wrap rs a).
    split; [done|]. split; [lia|]. split; [by eapply grows_trans|]. split; [eapply chained_denotes; [by eapply denotes_grows|done]|].
    rewrite Ets. rewrite E2, Ets' in Hg3. rewrite E5 in G. by eapply ge_block.
Qed.

(** ** nulterminate *)

(** NULs were written where no word has a character. *)
Definition nulled (m' : mem) : Prop := forall x, m' x = m x \/ m' x = 0 /\ plain (m x) = false.

(** The strings that a program finds through the node. *)
Inductive reads (h : list cmd) (m' : mem) : Z -> ast -> Prop :=
| r_exec i argv eargv ws qs : zget h i = Some (EXEC argv eargv) -> argv = qs ++ replicate (10 - length ws) 0 -> zlen ws < MAXARGS ->
    Forall2 (fun q w => q <> 0 /\ cstr m' q w) qs ws -> reads h m' i (AExec ws)
| r_redir i c q efile mode fd w a : zget h i = Some (REDIR c q efile mode fd) -> cstr m' q w -> reads h m' c a ->
    reads h m' i (ARedir a w mode fd)
| r_pipe i l r a b : zget h i = Some (PIPE l r) -> reads h m' l a -> reads h m' r b -> reads h m' i (APipe a b)
| r_list i l r a b : zget h i = Some (LIST l r) -> reads h m' l a -> reads h m' r b -> reads h m' i (AList a b)
| r_back i c a : zget h i = Some (BACK c) -> reads h m' c a -> reads h m' i (ABack a).

Lemma word_cstr m' w : forall q, 0 < q -> q + zlen w < 2 ^ 32 ->
  (forall i, 0 <= i < zlen w -> zget w i = Some (m' (q + i)) /\ plain (m' (q + i)) = true) -> m' (q + zlen w) = 0 -> cstr m' q w.
Proof.
  induction w as [|c w IH]; intros q Hq Hr Hw H0; cbn [cstr]; [by rewrite Z.add_0_r in H0|]. rewrite zlen_cons in *. pose proof (zlen_nonneg w).
  destruct (Hw 0 ltac:(lia)) as [E Hp]. rewrite Z.add_0_r in *. change (zget (c :: w) 0) with (Some c) in E. injection E as E.
  split; [intros ->; by rewrite <-E in Hp|]. split; [done|]. rewrite u32_small by lia. apply IH; [lia|lia| |by rewrite <-Z.add_assoc, (Z.add_comm 1)].
  intros i Hi. destruct (Hw (i + 1) ltac:(lia)) as [E1 Hp1]. rewrite zget_succ in E1 by lia. replace (q + 1 + i) with (q + (i + 1)) by lia.
  split; [|done]. rewrite <-E1. f_equal. lia.
Qed.

Lemma is_word_cstr m' q w : nulled m' -> is_word q w -> m' (q + zlen w) = 0 -> cstr m' q w.
Proof.
  intros Hn (Hq & _ & He & Hw & _) H0. apply word_cstr; [done|lia| |done]. intros i Hi. destruct (Hw i Hi) as [E Hp].
  destruct (Hn (q + i)) as [->|[_ Hx]]; [done|congruence].
Qed.

(** Further NULs do not hurt. *)
Definition more_nulls (m1 m2 : mem) : Prop := forall x, m2 x = m1 x \/ m2 x = 0 /\ plain (m x) = false.

Lemma more_nulls_refl m1 : more_nulls m1 m1.
Proof. by left. Qed.

Lemma more_nulls_trans m1 m2 m3 : more_nulls m1 m2 -> more_nulls m2 m3 -> more_nulls m1 m3.
Proof. intros H1 H2 x. destruct (H2 x) as [->|?]; [apply H1|by right]. Qed.

Lemma more_nulls_zero m1 m2 x : more_nulls m1 m2 -> m1 x = 0 -> m2 x = 0.
Proof. intros H E. destruct (H x) as [->|[? _]]; done. Qed.

Lemma nulled_more m1 m2 : nulled m1 -> more_nulls m1 m2 -> nulled m2.
Proof. intros H1 H2 x. destruct (H2 x) as [->|?]; [apply H1|by right]. Qed.

(** Writing the NUL behind a word. *)
Lemma put_nul_run q w t : is_word q w -> exists m2, put_nul (q + zlen w) t = Ok tt (Shell m2 (cmds t) (ps t)) /\ more_nulls (sm t) m2 /\
  m2 (q + zlen w) = 0.
Proof.
  intros (_ & _ & _ & _ & Hp). exists (upd (sm t) (q + zlen w) 0). split; [done|]. split; [|by rewrite upd_eq]. intros x.
  destruct (decide (x = q + zlen w)) as [->|Hx]; [right; by rewrite upd_eq|left; by rewrite upd_ne].
Qed.

Lemma zget_mid {A} (l k : list A) x : zget (l ++ x :: k) (zlen l) = Some x.
Proof. rewrite zget_nat by apply zlen_nonneg. unfold zlen. rewrite Nat2Z.id. by rewrite list_lookup_middle. Qed.

Lemma nul_args_ok k : forall qs ws ps1 es1 n t, Forall2 is_word qs ws -> (length qs < n)%nat -> zlen ps1 = zlen es1 -> (0 < k)%nat ->
  wp (nul_args n (zlen ps1) (ps1 ++ qs ++ replicate k 0) (es1 ++ zip_with (fun q w => q + zlen w) qs ws ++ replicate k 0))
    (fun _ t' => cmds t' = cmds t /\ ps t' = ps t /\ more_nulls (sm t) (sm t') /\ Forall2 (fun q w => sm t' (q + zlen w) = 0) qs ws) t.
Proof.
  induction qs as [|q qs IH]; intros ws ps1 es1 n t HF Hn Hl Hk; (destruct n as [|n]; [cbn in Hn; lia|]); cbn [nul_args].
  - inversion HF; subst. destruct k as [|k]; [lia|]. cbn [app replicate]. apply wp_bind, (wp_from_opt _ 0); [apply zget_mid|].
    apply wp_ret. split; [done|]. split; [done|]. split; [apply more_nulls_refl|constructor].
  - destruct ws as [|w ws]; [by inversion HF|]. apply Forall2_cons in HF as [Hw HF]. cbn [app zip_with].
    apply wp_bind, (wp_from_opt _ q); [apply zget_mid|]. rewrite (proj2 (Z.eqb_neq q 0)) by (destruct Hw; lia).
    apply wp_bind, (wp_from_opt _ (q + zlen w)); [rewrite Hl; apply zget_mid|]. destruct (put_nul_run q w t Hw) as (m2 & E & Hm & H0).
    eapply wp_bind_ok; [exact E|]. specialize (IH ws (ps1 ++ [q]) (es1 ++ [q + zlen w]) n (Shell m2 (cmds t) (ps t)) HF).
    rewrite !zlen_app in IH. change (zlen [q]) with 1 in IH. change (zlen [q + zlen w]) with 1 in IH. rewrite <-!app_assoc in IH.
    eapply wp_mono; [apply IH; [cbn in Hn; lia|lia|done]|]. intros [] t' (A & B & C & D). cbn [sm cmds ps] in *.
    split; [done|]. split; [done|]. split; [by eapply more_nulls_trans|]. constructor; [by eapply more_nulls_zero|done].
Qed.

(** What nulterminate leaves: everything behind the node reads well, now and
    after more NULs. *)
Definition terminated (h : list cmd) (m1 : mem) (i : Z) (a : ast) : Prop := forall m2, more_nulls m1 m2 -> nulled m2 -> reads h m2 i a.

Lemma terminated_more h m1 m2 i a : terminated h m1 i a -> more_nulls m1 m2 -> terminated h m2 i a.
Proof. intros Ht Hm m3 H3. apply Ht. by eapply more_nulls_trans. Qed.

Lemma nulterminate_ok fuel : forall i a t, denotes (cmds t) i a -> i < Z.of_nat fuel -> nulled (sm t) ->
  wp (nulterminate fuel i) (fun _ t' => cmds t' = cmds t /\ ps t' = ps t /\ more_nulls (sm t) (sm t') /\ terminated (cmds t) (sm t') i a) t.
Proof.
  induction fuel as [|f IH]; intros i a t Hd Hi Hn; [apply denotes_range in Hd; lia|]. cbn [nulterminate]. apply wp_bind, wp_get.
  assert (forall c b t1, cmds t1 = cmds t -> denotes (cmds t) c b -> c < i -> nulled (sm t1) ->
    wp (nulterminate f c) (fun _ t' => cmds t' = cmds t /\ ps t' = ps t1 /\ more_nulls (sm t1) (sm t') /\ terminated (cmds t) (sm t') c b) t1) as IH'.
  { intros c b t1 E Hb Hc Hn1. eapply wp_mono; [apply (IH c b t1); [by rewrite E|lia|done]|]. rewrite E. done. }
  inversion Hd as [? argv eargv ws Hz Hargs Hlt|? c q mode fd w b Hz Hc Hw Hb|? l r b1 b2 Hz Hl Hr H1 H2|? l r b1 b2 Hz Hl Hr H1 H2|? c b Hz Hc Hb]; subst.
  all: apply wp_bind, (wp_from_opt _ _ _ _ Hz).
  - destruct Hargs as (qs & HF & _ & -> & ->). assert (length ws < 10)%nat as Hl10 by (unfold zlen, MAXARGS in Hlt; lia).
    pose proof (Forall2_length _ _ _ HF) as Hlen. pose proof (nul_args_ok (10 - length ws) qs ws [] [] 10 t HF ltac:(lia) eq_refl ltac:(lia)) as W.
    eapply wp_mono; [exact W|]. intros [] t' (A & B & C & D). split; [done|]. split; [done|]. split; [done|]. intros m2 Hm2 Hn2.
    eapply (r_exec _ _ i _ _ ws qs Hz eq_refl Hlt). clear -D HF Hm2 Hn2 Hes. induction HF as [|q w qs ws Hw HF IH]; [constructor|].
    apply Forall2_cons in D as [D1 D2]. constructor; [|by apply IH]. split; [destruct Hw; lia|]. apply is_word_cstr; [done|done|].
    by apply (more_nulls_zero (sm t')).
  - apply wp_bind. eapply wp_mono; [by apply (IH' c b t)|]. intros [] t1 (A & B & C & D). destruct (put_nul_run q w t1 Hw) as (m2 & E & Hm & H0).
    eapply ok_wp; [exact E|]. cbn [sm cmds ps]. split; [done|]. split; [done|]. split; [by eapply more_nulls_trans|]. intros m3 Hm3 Hn3.
    eapply r_redir; [exact Hz| |]; [apply is_word_cstr; [done|done|]; by apply (more_nulls_zero m2)|].
    apply D; [by eapply more_nulls_trans|done].
  - apply wp_bind. eapply wp_mono; [by apply (IH' l b1 t)|]. intros [] t1 (A & B & C & D).
    eapply wp_mono; [apply (IH' r b2 t1); [done|done|done|by eapply nulled_more]|]. intros [] t2 (A2 & B2 & C2 & D2).
    split; [done|]. split; [congruence|]. split; [by eapply more_nulls_trans|]. intros m3 Hm3 Hn3.
    eapply r_pipe; [exact Hz| |by apply D2]. apply D; [by eapply more_nulls_trans|done].
  - apply wp_bind. eapply wp_mono; [by apply (IH' l b1 t)|]. intros [] t1 (A & B & C & D).
    eapply wp_mono; [apply (IH' r b2 t1); [done|done|done|by eapply nulled_more]|]. intros [] t2 (A2 & B2 & C2 & D2).
    split; [done|]. split; [congruence|]. split; [by eapply more_nulls_trans|]. intros m3 Hm3 Hn3.
    eapply r_list; [exact Hz| |by apply D2]. apply D; [by eapply more_nulls_trans|done].
  - eapply wp_mono; [by apply (IH' c b t)|]. intros [] t1 (A & B & C & D). split; [done|]. split; [done|]. split; [done|].
    intros m3 Hm3 Hn3. eapply r_back; [exact Hz|]. by apply D.
Qed.

End Heap.

(** ** The parser *)

Lemma cstr_text m s l : 0 < s -> s + zlen l < 2 ^ 32 -> cstr m s l -> text m (s + zlen l) s l /\ strlen (length l + 1) m s = Some (zlen l).
Proof.
  intros Hs Hr Hl. split; [done|]. assert (str_at m s (zlen l)) as Hst.
  { split; [apply zlen_nonneg|]. revert s Hs Hr Hl. induction l as [|c l IH]; intros s Hs Hr; cbn [cstr].
    - intros H0. change (zlen (@nil Z)) with 0. rewrite Z.add_0_r. split; [done|lia].
    - rewrite zlen_cons in *. pose proof (zlen_nonneg l). intros (Hc & Hm & Hl). rewrite u32_small in Hl by lia.
      destruct (IH (s + 1) ltac:(lia) ltac:(lia) Hl) as [H0 Hnz]. split; [by replace (s + (zlen l + 1)) with (s + 1 + zlen l) by lia|].
      intros i Hi. destruct (decide (i = 0)) as [->|]; [rewrite Z.add_0_r; congruence|].
      replace (s + i) with (s + 1 + (i - 1)) by lia. apply Hnz. lia. }
  pose proof (zlen_nonneg l). apply strlen_from_spec; [done|lia|lia|lia|]. unfold zlen. lia.
Qed.

(** parsecmd never goes astray: it panics, or returns a node that stands for a parse. *)
Lemma parsecmd_wpe t s l : 0 < s -> s + zlen l < 2 ^ 32 -> cstr (sm t) s l ->
  wpe (parsecmd (length l + 1) s) (fun c t' => exists a, g_line (tokenize l) a [] /\ reads (cmds t') (sm t') c a) anyway t.
Proof.
  intros Hs Hr Hl. pose proof (zlen_nonneg l). destruct (cstr_text _ _ _ Hs Hr Hl) as [Ht Hlen]. set (es := s + zlen l) in *.
  unfold parsecmd. eapply wpe_ok; [reflexivity|]. eapply wpe_ok; [by rewrite Hlen|]. rewrite u32_small by lia. fold es.
  eapply wpe_ok; [reflexivity|]. set (t0 := set_ps s t). assert (input (sm t) es t0 l) as Hin by done.
  apply wpe_bind. eapply wpe_mono; [apply (proj1 (parse_ok (sm t) es ltac:(lia) _ t0 l Hin)); unfold zlen; lia|].
  intros c t1 (l1 & a & Hin1 & _ & Hgr & Hd & Hg). apply (wpe_peek (sm t) es ltac:(lia) _ _ _ _ l1); [done|set_solver|].
  intros _ s2 l2 Hin2 Et2 _ _ Hend. eapply wpe_ok; [reflexivity|]. destruct (Z.eqb_spec (ps (set_ps s2 t1)) es) as [Ee|]; [|done]. cbn [negb].
  destruct Hin2 as [Hm2 (_ & He2 & _)]. assert (l2 = []) as ->.
  { destruct l2 as [|d l2]; [done|]. rewrite zlen_cons in He2. pose proof (zlen_nonneg l2). lia. }
  assert (tokenize l1 = []) as E1 by by apply Hend. rewrite E1 in Hg. pose proof (denotes_range _ _ _ _ _ Hd) as Hc.
  apply wpe_bind. eapply wpe_mono; [apply wp_wpe, (nulterminate_ok (sm t) es ltac:(lia) _ c a (set_ps s2 t1))|].
  - exact Hd.
  - cbn. unfold zlen in Hc. lia.
  - intros x. left. by rewrite Hm2.
  - intros [] t' (A & B & C & D). apply wpe_ret. exists a. split; [done|]. rewrite A. apply D; [by left|].
    intros x. destruct (C x) as [->|?]; [left; by rewrite Hm2|by right].
Qed.

(** C18: parsecmd ends on every line: either it rejects it, or the line is, by
    the grammar of the shell, the command [a] from its first to its last token,
    and the node returned stands for [a], every argument list ending in a null
    pointer and every argument and file name in a NUL. *)
Theorem parsecmd_parses t s l : 0 < s -> s + zlen l < 2 ^ 32 -> cstr (sm t) s l ->
  (exists msg, parsecmd (length l + 1) s t = Panic msg) \/
  (exists c t' a, parsecmd (length l + 1) s t = Ok c t' /\ g_line (tokenize l) a [] /\ reads (cmds t') (sm t') c a).
Proof.
  intros Hs Hr Hl. pose proof (parsecmd_wpe t s l Hs Hr Hl) as W. unfold wpe in W. destruct (parsecmd (length l + 1) s t) as [c t'|msg| | | |]; try done.
  - right. destruct W as (a & Hg & Hre). by exists c, t', a.
  - left. by exists msg.
Qed.

(** [ls -l | wc > out] *)
Definition demo_line : list Z := [108; 115; 32; 45; 108; 32; 124; 32; 119; 99; 32; 62; 32; 111; 117; 116].

Definition demo : shell := Shell (fun x => default 0 (zget demo_line (x - 1000))) [] 0.

Lemma demo_cstr : cstr (sm demo) 1000 demo_line.
Proof. cbn. repeat split; by vm_compute. Qed.

Lemma parsecmd_parses_witness : exists c t' a,
  parsecmd 17 1000 demo = Ok c t' /\ g_line (tokenize demo_line) a [] /\ reads (cmds t') (sm t') c a.
Proof.
  destruct (parsecmd_parses demo 1000 demo_line ltac:(lia) eq_refl demo_cstr) as [(msg & E)|H]; [|exact H].
  change (length demo_line + 1)%nat with 17%nat in E.
  assert (match parsecmd 17 1000 demo with Panic _ => false | _ => true end = true) as F by (vm_compute; reflexivity). rewrite E in F. discriminate.
Defined.
