(* ===== verification/ShRun.v ===== *)
(** * runcmd connects the processes as the command says

    [plan] gives, for a command and the objects that are its standard input and
    output, the processes it consists of, each with its own input and output.
    runcmd, which gets there by closing, duplicating and opening descriptors in
    forked processes, executes exactly these, and in none of them is any further
    descriptor left open. *)

From S2P Require Import Prelude CString Ulib Sh ShSpec.

Section Plan.
Variable openable : list Z -> Z -> bool.

(** A process: its arguments, its standard input and output. *)
Definition planned : Type := list (list Z) * fobj * fobj.

Fixpoint plan (a : ast) (i o : fobj) (n : Z) : list planned * Z :=
  match a with
  | AExec args => (match args with [] => [] | _ => [(args, i, o)] end, n)
  | ARedir a file mode fd =>
      if openable file mode then
        if fd =? 0 then plan a (FileOpen file mode) o n else plan a i (FileOpen file mode) n
      else ([], n)
  | APipe a b =>
      let '(l, n1) := plan a i (PipeWrite n) (n + 1) in
      let '(r, n2) := plan b (PipeRead n) o n1 in
      (l ++ r, n2)
  | AList a b =>
      let '(l, n1) := plan a i o n in
      let '(r, n2) := plan b i o n1 in
      (l ++ r, n2)
  | ABack a => plan a i o n
  end.

(** Standard input, output and error output, and nothing else. *)
Definition std (i o e : fobj) : fdtab := Some i :: Some o :: Some e :: replicate 13 None.

(** The commands that the parser makes redirect descriptor 0 or 1, and their
    words are shorter than [lf]. *)
Fixpoint proper (lf : nat) (a : ast) : Prop :=
  match a with
  | AExec args => Forall (fun w => (length w < lf)%nat) args
  | ARedir a file _ fd => (fd = 0 \/ fd = 1) /\ (length file < lf)%nat /\ proper lf a
  | APipe a b | AList a b => proper lf a /\ proper lf b
  | ABack a => proper lf a
  end.

(** Steps of the tallest path. *)
Fixpoint height (a : ast) : nat :=
  match a with
  | AExec _ => 1
  | ARedir a _ _ _ | ABack a => 1 + height a
  | APipe a b | AList a b => 1 + Nat.max (height a) (height b)
  end.

Lemma load_str_ok m w : forall p fuel, cstr m p w -> (length w < fuel)%nat -> load_str fuel m p = Some w.
Proof.
  induction w as [|c w IH]; intros p [|f] Hc Hf; cbn in Hf; try lia; cbn [load_str].
  - cbn in Hc. by rewrite Hc.
  - destruct Hc as (Hc & Hm & Hw). rewrite Hm, (proj2 (Z.eqb_neq c 0)) by done. by rewrite (IH _ f Hw) by lia.
Qed.

Lemma load_args_ok m lf k qs ws : Forall2 (fun q w => q <> 0 /\ cstr m q w) qs ws -> Forall (fun w => (length w < lf)%nat) ws -> (0 < k)%nat ->
  load_args lf m (qs ++ replicate k 0) = Some ws.
Proof.
  induction 1 as [|q w qs ws [Hq Hw] _ IH]; intros Hf Hk; [by destruct k; [lia|]|]. apply Forall_cons in Hf as [Hlw Hf]. cbn [app load_args].
  rewrite (proj2 (Z.eqb_neq q 0)) by done. rewrite (load_str_ok m w q lf Hw Hlw). cbn. by rewrite (IH Hf Hk).
Qed.

(** What each image of a run is. *)
Definition as_planned (e : fobj) (x : image) (y : planned) : Prop :=
  i_args x = y.1.1 /\ i_fds x = std y.1.2 y.2 e.

Lemma runcmd_ok lf e fuel : forall c a i o n t, reads (cmds t) (sm t) c a -> proper lf a -> (height a <= fuel)%nat ->
  wp (runcmd openable lf fuel c (std i o e) n)
    (fun r t' => t' = t /\ Forall2 (as_planned e) r.1 (plan a i o n).1 /\ r.2 = (plan a i o n).2) t.
Proof.
  induction fuel as [|f IH]; intros c a i o n t Hr Hp Hf; [destruct a; cbn in Hf; lia|]. cbn [runcmd].
  assert (c =? -1 = false) as ->.
  { apply Z.eqb_neq. intros ->. inversion Hr; subst;
    match goal with Hz : zget _ _ = Some _ |- _ => apply zget_Some in Hz; lia end. }
  apply wp_bind, wp_get.
  inversion Hr as [? argv eargv ws qs Hz Ea Hlt HF|? c1 q eq mode fd w b Hz Hq Hb|? l r b1 b2 Hz H1 H2|? l r b1 b2 Hz H1 H2|? c1 b Hz Hb]; subst;
    apply wp_bind, (wp_from_opt _ _ _ _ Hz); cbn [proper plan height] in *.
  - assert (length ws < 10)%nat as Hl by (unfold zlen, MAXARGS in Hlt; lia). destruct HF as [|q w qs ws [Hq Hw] HF].
    + apply wp_bind, (wp_from_opt _ 0); [done|]. apply wp_ret. split; [done|]. by split; [constructor|].
    + apply wp_bind, (wp_from_opt _ q); [done|]. rewrite (proj2 (Z.eqb_neq q 0)) by done.
      rewrite (load_args_ok (sm t) lf (10 - length (w :: ws)) (q :: qs) (w :: ws)); [|by constructor; [split|]|done|cbn in *; lia].
      apply wp_bind, wp_ret, wp_ret. split; [done|]. split; [|done]. by constructor.
  - destruct Hp as (Hfd & Hlw & Hp). rewrite (load_str_ok (sm t) w q lf Hq Hlw). apply wp_bind, wp_ret.
    destruct (openable w mode); [|apply wp_ret; split; [done|]; by split; [constructor|]].
    destruct Hfd as [->| ->]; cbn; (apply IH; [done|done|lia]).
  - destruct Hp as [Hp1 Hp2]. cbn [fd_new lowest std lift_opt mbind option_bind]. do 2 apply wp_bind, wp_ret. cbn.
    apply wp_bind. eapply wp_mono; [apply (IH l b1 i (PipeWrite n) (n + 1) t); [done|done|lia]|]. intros ra t1 (-> & Ha & Ena).
    apply wp_bind. destruct (plan b1 i (PipeWrite n) (n + 1)) as [pl n1] eqn:E1. cbn [fst snd] in *. rewrite Ena.
    eapply wp_mono; [apply (IH r b2 (PipeRead n) o n1 t); [done|done|lia]|]. intros rb t2 (-> & Hb & Enb).
    apply wp_ret. destruct (plan b2 (PipeRead n) o n1) as [pr n2] eqn:E2. cbn [fst snd] in *. split; [done|]. split; [|done].
    by apply Forall2_app.
  - destruct Hp as [Hp1 Hp2]. apply wp_bind. eapply wp_mono; [apply (IH l b1 i o n t); [done|done|lia]|]. intros ra t1 (-> & Ha & Ena).
    apply wp_bind. destruct (plan b1 i o n) as [pl n1] eqn:E1. cbn [fst snd] in *. rewrite Ena.
    eapply wp_mono; [apply (IH r b2 i o n1 t); [done|done|lia]|]. intros rb t2 (-> & Hb & Enb).
    apply wp_ret. destruct (plan b2 i o n1) as [pr n2] eqn:E2. cbn [fst snd] in *. split; [done|]. split; [|done]. by apply Forall2_app.
  - apply IH; [done|done|lia].
Qed.

(** ** The commands of the parser are proper *)

(** No word of [ts] has [lf] characters. *)
Definition short (lf : nat) (ts : list token) : Prop := forall w, Word w ∈ ts -> (length w < lf)%nat.

Lemma short_cons lf tk ts : short lf (tk :: ts) -> short lf ts.
Proof. intros H w Hw. apply H. by right. Qed.

Lemma short_word lf w ts : short lf (Word w :: ts) -> (length w < lf)%nat /\ short lf ts.
Proof. intros H. split; [apply H; by left|by eapply short_cons]. Qed.

Lemma tokenize_short l : short (length l + 1) (tokenize l).
Proof.
  assert (forall n l, (length l <= n)%nat -> short (length l + 1) (tokenize l)) as H; [|by apply (H (length l))].
  clear l. induction n as [|n IH]; intros l Hl w Hw; [destruct l; [by apply elem_of_nil in Hw|cbn in Hl; lia]|].
  destruct l as [|c l1]; [by apply elem_of_nil in Hw|]. cbn in Hl. assert (short (length l1 + 1) (tokenize l1)) as H1 by (apply IH; lia).
  cbn [tokenize] in Hw. cbn [length]. destruct (whitespace c); [specialize (H1 _ Hw); lia|]. destruct (symbol c); cbn [negb] in Hw.
  - destruct l1 as [|d l2]; [by apply list_elem_of_singleton in Hw|]. destruct ((c =? 62) && (d =? 62)).
    + apply elem_of_cons in Hw as [|Hw]; [done|]. cbn in Hl. specialize (IH l2 ltac:(lia) _ Hw). cbn. lia.
    + apply elem_of_cons in Hw as [|Hw]; [done|]. specialize (H1 _ Hw). lia.
  - destruct l1 as [|d l2]; [apply list_elem_of_singleton in Hw as [= ->]; cbn; lia|]. destruct (plain d).
    + destruct (tokenize (d :: l2)) as [|[v|k|] ts]; try (specialize (H1 _ Hw); lia). apply elem_of_cons in Hw as [[= ->]|Hw].
      * specialize (H1 v ltac:(by left)). cbn in *. lia.
      * specialize (H1 w ltac:(by right)). lia.
    + apply elem_of_cons in Hw as [[= ->]|Hw]; [cbn; lia|]. specialize (H1 _ Hw). lia.
Qed.

Definition proper_redir (lf : nat) (r : redir) : Prop := (r.2 = 0 \/ r.2 = 1) /\ (length r.1.1 < lf)%nat.

Lemma wrap_proper lf rs : forall a, Forall (proper_redir lf) rs -> proper lf a -> proper lf (wrap rs a).
Proof. induction rs as [|r rs IH]; intros a Hrs Ha; [done|]. apply Forall_cons in Hrs as [[H1 H2] Hrs]. by apply IH. Qed.

Lemma iter_back_proper lf k a : proper lf a -> proper lf (Nat.iter k ABack a).
Proof. intros Ha. by induction k. Qed.

Lemma g_redirs_proper lf ts rs ts' : g_redirs ts rs ts' -> short lf ts -> Forall (proper_redir lf) rs /\ short lf ts'.
Proof.
  induction 1 as [ts _ _|w ts rs ts' _ IH|w ts rs ts' _ IH|w ts rs ts' _ IH]; intros Hs; [done|..];
    apply short_cons, short_word in Hs as [Hw Hs]; destruct (IH Hs); (split; [|done]); constructor; try done; split; try done; cbn; lia.
Qed.

Lemma g_args_proper lf ts ws rs ts' : g_args ts ws rs ts' -> short lf ts ->
  Forall (fun w => (length w < lf)%nat) ws /\ Forall (proper_redir lf) rs /\ short lf ts'.
Proof.
  induction 1 as [|ts c _ _|w ts rs ts1 ws rs' ts2 Hr _ IH]; intros Hs; [done..|]. apply short_word in Hs as [Hw Hs].
  destruct (g_redirs_proper _ _ _ _ Hr Hs) as [A Hs1]. destruct (IH Hs1) as (B & C & D). split; [by constructor|].
  split; [by apply Forall_app|done].
Qed.

Scheme g_line_mut := Minimality for g_line Sort Prop
  with g_pipe_mut := Minimality for g_pipe Sort Prop
  with g_exec_mut := Minimality for g_exec Sort Prop.
Combined Scheme grammar_ind from g_line_mut, g_pipe_mut, g_exec_mut.

Definition parsed_proper (lf : nat) (ts : list token) (a : ast) (ts' : list token) : Prop := short lf ts -> proper lf a /\ short lf ts'.

Lemma short_app lf l ts : short lf (l ++ ts) -> short lf ts.
Proof. intros H w Hw. apply H, elem_of_app. by right. Qed.

Lemma grammar_proper lf : (forall ts a ts', g_line ts a ts' -> parsed_proper lf ts a ts') /\
  (forall ts a ts', g_pipe ts a ts' -> parsed_proper lf ts a ts') /\ (forall ts a ts', g_exec ts a ts' -> parsed_proper lf ts a ts').
Proof.
  apply grammar_ind; unfold parsed_proper.
  - intros ts a k ts1 _ IH _ _ Hs. destruct (IH Hs) as [A B]. split; [by apply iter_back_proper|by eapply short_app].
  - intros ts a k ts1 b ts2 _ IH1 _ IH2 Hs. destruct (IH1 Hs) as [A B]. destruct (IH2 (short_cons _ _ _ (short_app _ _ _ B))) as [C D].
    split; [split; [by apply iter_back_proper|done]|done].
  - auto.
  - intros ts a ts1 b ts2 _ IH1 _ IH2 Hs. destruct (IH1 Hs) as [A B]. by destruct (IH2 (short_cons _ _ _ B)) as [C D].
  - intros ts a ts1 rs ts2 _ IH Hr Hs. destruct (IH (short_cons _ _ _ Hs)) as [A B].
    destruct (g_redirs_proper _ _ _ _ Hr (short_cons _ _ _ B)) as [C D]. split; [by apply wrap_proper|done].
  - intros ts rs0 ts1 ws rs ts2 _ Hr0 Ha _ Hs. destruct (g_redirs_proper _ _ _ _ Hr0 Hs) as [A B].
    destruct (g_args_proper _ _ _ _ _ Ha B) as (C & D & E). split; [|done]. apply wrap_proper; [by apply Forall_app|done].
Qed.

(** C12: What the shell does with a line.  Unless parsecmd rejects it, the line
    is a command [a] of the grammar, and runcmd on the node it returns executes
    exactly the processes of [plan a]: each with its arguments, its input and
    its output connected as the pipes and redirections of [a] say, and no other
    descriptor left open than those three. *)
Theorem shell_runs_plan t s l e : 0 < s -> s + zlen l < 2 ^ 32 -> cstr (sm t) s l ->
  (exists msg, parsecmd (length l + 1) s t = Panic msg) \/
  (exists c t' a, parsecmd (length l + 1) s t = Ok c t' /\ g_line (tokenize l) a [] /\
    forall i o n, exists r, runcmd openable (length l + 1) (height a) c (std i o e) n t' = Ok r t' /\
      Forall2 (as_planned e) r.1 (plan a i o n).1).
Proof.
  intros Hs Hr Hl. pose proof (parsecmd_wpe t s l Hs Hr Hl) as W. unfold wpe in W. destruct (parsecmd (length l + 1) s t) as [c t'|msg| | | |]; try done.
  - right. destruct W as (a & Hg & Hre). exists c, t', a. split; [done|]. split; [done|]. intros i o n.
    pose proof (proj1 (proj1 (grammar_proper (length l + 1)) _ _ _ Hg (tokenize_short l))) as Hp.
    pose proof (runcmd_ok (length l + 1) e (height a) c a i o n t' Hre Hp ltac:(done)) as W.
    unfold wp in W. destruct (runcmd _ _ _ _ _ _ _) as [r t2| | | | |]; try done. destruct W as (-> & HF & _). by exists r.
  - left. by exists msg.
Qed.
End Plan.

Lemma shell_runs_plan_witness : exists c t' a,
  parsecmd 17 1000 demo = Ok c t' /\ g_line (tokenize demo_line) a [] /\
  forall i o n, exists r, runcmd (fun _ _ => true) 17 (height a) c (std i o Tty) n t' = Ok r t' /\
    Forall2 (as_planned Tty) r.1 (plan (fun _ _ => true) a i o n).1.
Proof.
  destruct (shell_runs_plan (fun _ _ => true) demo 1000 demo_line Tty ltac:(lia) eq_refl demo_cstr) as [(msg & E)|H]; [|exact H].
  change (length demo_line + 1)%nat with 17%nat in E.
  assert (match parsecmd 17 1000 demo with Panic _ => false | _ => true end = true) as F by (vm_compute; reflexivity). rewrite E in F. discriminate.
Defined.

(** [ls -l | wc > out]: the two processes and their descriptors. *)
Example demo_run :
  match bind (parsecmd 17 1000) (fun c => runcmd (fun _ _ => true) 17 9 c (std Tty Tty Tty) 0) demo with
  | Ok r _ => r.1 = [Image [[108; 115]; [45; 108]] (std Tty (PipeWrite 0) Tty);
                     Image [[119; 99]] (std (PipeRead 0) (FileOpen [111; 117; 116] 513) Tty)]
  | _ => False
  end.
Proof. vm_compute. reflexivity. Qed.
