(* ===== verification/ShMain.v ===== *)
(** * sh.c: the prompt and the loop of the shell

    main of sh.c: the descriptors it makes sure of, getcmd, cd, and a child for
    every other line.  fork succeeds, and gives the child a copy of the memory,
    so that what the child does to it is not seen by the shell; [openable] and
    [chdirable] are the answers of open and chdir. *)

From S2P Require Import Prelude CString Ulib Grep Uprogs Sh ShSpec ShRun.

Definition O_RDWR : Z := 2.

Definition NBUF : Z := 100.

(** What the shell does, in order.  [Rejected] is a child that printed a message
    of the parser and exited; [Ran] are the programs that a child's line executes. *)
Inductive event : Type :=
| Prompt | Cd (path : list Z) (ok : bool) | Ran (imgs : list image) | Rejected (msg : string).

Section Main.
Variables (openable : list Z -> Z -> bool) (chdirable : list Z -> bool).

(** The address of buf[]. *)
Variable BUF : Z.

(** while((fd = open("console", O_RDWR)) >= 0) if(fd >= 3){ close(fd); break; } *)
Fixpoint open_console (fuel : nat) (F : fdtab) : M shell fdtab :=
  match fuel with
  | O => no_fuel
  | S f =>
      if openable (bytes "console") O_RDWR then
        match fd_new (FileOpen (bytes "console") O_RDWR) F with
        | None => ret F
        | Some (fd, F) => if (3 <=? fd)%nat then ret (fd_close fd F) else open_console f F
        end
      else ret F
  end.

(** getcmd: the memory, the rest of the input, and the value returned. *)
Definition getcmd (m : mem) (input : list Z) : mem * list Z * Z :=
  let m := (CString.memset m BUF 0 NBUF).1 in
  let '(m, input) := Ulib.gets m BUF NBUF input in
  (m, input, if m BUF =? 0 then -1 else 0).

(** The child: parsecmd and runcmd in a copy of the memory. *)
Definition run_child (F : fdtab) : M shell event := fun t =>
  match bind (parsecmd (Z.to_nat NBUF) BUF) (fun c => runcmd openable (Z.to_nat NBUF) (Z.to_nat NBUF) c F 0) t with
  | Ok r _ => Ok (Ran r.1) t
  | Panic msg => Ok (Rejected msg) t
  | Sleep _ => Sleep t
  | Spin => Spin
  | Fault => Fault
  | NoFuel => NoFuel
  end.

Definition with_sm (m : mem) (t : shell) : shell := Shell m (cmds t) (ps t).

(** The command that getcmd left in buf[]. *)
Definition do_cmd (F : fdtab) : M shell event :=
  t <- get ;;
  let m := sm t in
  if (m BUF =? 99) && (m (u32 (BUF + 1)) =? 100) && (m (u32 (BUF + 2)) =? 32) then
    len <- lift_opt (strlen (Z.to_nat NBUF) m BUF) ;;
    let m := upd m (u32 (BUF + len - 1)) 0 in
    put (with_sm m t) ;;;
    path <- lift_opt (load_str (Z.to_nat NBUF) m (u32 (BUF + 3))) ;;
    ret (Cd path (chdirable path))
  else run_child F.

Fixpoint sh_loop (fuel : nat) (F : fdtab) (input : list Z) : M shell (list event) :=
  match fuel with
  | O => no_fuel
  | S f =>
      t <- get ;;
      let '(m, input, r) := getcmd (sm t) input in
      put (with_sm m t) ;;;
      if 0 <=? r then e <- do_cmd F ;; es <- sh_loop f F input ;; ret (Prompt :: e :: es) else ret [Prompt]
  end.

Definition sh_main (fuel : nat) (F : fdtab) (input : list Z) : M shell (list event) :=
  F <- open_console 17 F ;; sh_loop fuel F input.

(** ** Lemmas *)

(** A line that gets() takes whole: no NUL, no carriage return, one newline at
    its end, and it fits. *)
Definition command_line (l : list Z) : Prop :=
  exists body, l = body ++ [10] /\ Forall (fun c => c <> 0 /\ c <> 10 /\ c <> 13) body /\ zlen l < NBUF.

Lemma gets_loop_line body : forall fuel m i rest, Forall (fun c => c <> 0 /\ c <> 10 /\ c <> 13) body ->
  i + zlen body + 1 < NBUF -> (length body < fuel)%nat ->
  gets_loop fuel m BUF i NBUF (body ++ 10 :: rest) = (put_bytes m (u32 (BUF + i)) (body ++ [10]), i + zlen body + 1, rest).
Proof.
  induction body as [|c body IH]; intros [|f] m i rest Hb Hi Hf; try (cbn in Hf; lia); cbn [gets_loop app].
  - rewrite Z.add_0_r in Hi. rewrite (proj2 (Z.ltb_lt _ _)) by done. cbn. by rewrite Z.add_0_r.
  - rewrite zlen_cons in *. pose proof (zlen_nonneg body). apply Forall_cons in Hb as [(_ & H10 & H13) Hb].
    rewrite (proj2 (Z.ltb_lt _ _)) by lia. rewrite (proj2 (Z.eqb_neq c 10)), (proj2 (Z.eqb_neq c 13)) by done. cbn [orb].
    rewrite IH by (done || lia || (cbn in Hf; lia)). cbn [put_bytes]. rewrite u32_add_l. replace (BUF + (i + 1)) with (BUF + i + 1) by lia.
    by replace (i + 1 + zlen body + 1) with (i + (zlen body + 1) + 1) by lia.
Qed.

Hypotheses (HB0 : 0 < BUF) (HB1 : BUF + NBUF < 2 ^ 32).

Lemma cstr_put m l : Forall (fun c => c <> 0) l -> zlen l < NBUF -> cstr (upd (put_bytes m BUF l) (BUF + zlen l) 0) BUF l.
Proof.
  intros Hnz Hl. pose proof (zlen_nonneg l).
  assert (forall k l1 l2, l = l1 ++ l2 -> k = BUF + zlen l1 -> cstr (upd (put_bytes m BUF l) (BUF + zlen l) 0) k l2) as H'; [|apply (H' BUF [] l); [done|change (zlen (@nil Z)) with 0; lia]].
  intros k l1 l2. revert k l1. induction l2 as [|c l2 IH]; intros k l1 E ->; cbn [cstr].
  - rewrite app_nil_r in E. subst l1. by rewrite upd_eq.
  - assert (zlen l = zlen l1 + zlen l2 + 1) as El by (rewrite E, zlen_app, zlen_cons; lia). pose proof (zlen_nonneg l1). pose proof (zlen_nonneg l2).
    split; [rewrite E in Hnz; apply Forall_app in Hnz as [_ Hnz]; by apply Forall_cons in Hnz as [? _]|]. split.
    + rewrite upd_ne by lia. rewrite put_bytes_at by (unfold NBUF in *; lia). in_range.
      replace (BUF + zlen l1 - BUF) with (zlen l1) by lia. unfold zget. rewrite (proj2 (Z.leb_le 0 _)) by lia.
      unfold zlen. rewrite Nat2Z.id, E, lookup_app_r, Nat.sub_diag by lia. done.
    + apply (IH _ (l1 ++ [c])); [by rewrite E, <-app_assoc|]. rewrite zlen_app, u32_small by (unfold NBUF in *; lia). change (zlen [c]) with 1. lia.
Qed.

Lemma getcmd_line m l rest : command_line l -> exists m', getcmd m (l ++ rest) = (m', rest, 0) /\ cstr m' BUF l.
Proof.
  intros (body & -> & Hb & Hl). set (m1 := (CString.memset m BUF 0 NBUF).1).
  pose proof (zlen_nonneg body). rewrite zlen_app in Hl. change (zlen [10]) with 1 in Hl.
  assert (cstr (upd (put_bytes m1 BUF (body ++ [10])) (BUF + zlen (body ++ [10])) 0) BUF (body ++ [10])) as Hc.
  { apply cstr_put; [|by rewrite zlen_app]. apply Forall_app. split; [|by repeat constructor]. eapply Forall_impl; [exact Hb|naive_solver]. }
  eexists. split; [|exact Hc]. unfold getcmd. fold m1. unfold Ulib.gets. rewrite <-app_assoc. cbn [app].
  rewrite gets_loop_line by (done || lia || (unfold zlen, NBUF in *; lia)). rewrite Z.add_0_r, u32_small by (unfold NBUF in *; lia).
  rewrite zlen_app, u32_small by (unfold NBUF in *; lia). change (zlen [10]) with 1. rewrite Z.add_0_l, Z.add_assoc.
  rewrite zlen_app in Hc. change (zlen [10]) with 1 in Hc. rewrite Z.add_assoc in Hc.
  destruct (Z.eqb_spec (upd (put_bytes m1 BUF (body ++ [10])) (BUF + zlen body + 1) 0 BUF) 0) as [E|]; [|done].
  destruct body as [|c body]; cbn [app cstr] in Hc; cbn [app] in E; [destruct Hc as (_ & Hc & _)|destruct Hc as (Hn & Hc & _)]; rewrite Hc in E; [done|by destruct Hn].
Qed.

Lemma getcmd_eof m : (getcmd m []).2 = -1.
Proof.
  unfold getcmd, Ulib.gets. set (m1 := (CString.memset m BUF 0 NBUF).1).
  change (gets_loop (Z.to_nat NBUF) m1 BUF 0 NBUF []) with (m1, 0, @nil Z).
  cbv beta iota zeta. rewrite Z.add_0_r, u32_small by (unfold NBUF in *; lia). by rewrite upd_eq.
Qed.

(** ** The height of a command is bounded by its line *)

Lemma iter_back_height k a : height (Nat.iter k ABack a) = (k + height a)%nat.
Proof. induction k as [|k IH]; [done|]. change (S (height (Nat.iter k ABack a)) = S (k + height a))%nat. by rewrite IH. Qed.

Lemma height_pos a : (1 <= height a)%nat.
Proof. destruct a; cbn; lia. Qed.

Lemma wrap_height rs : forall a, height (wrap rs a) = (length rs + height a)%nat.
Proof. induction rs as [|r rs IH]; intros a; [done|]. unfold wrap in *. cbn [foldl]. rewrite IH. cbn. lia. Qed.

Lemma g_redirs_length ts rs ts' : g_redirs ts rs ts' -> (length rs + length ts' <= length ts)%nat.
Proof. induction 1; cbn in *; lia. Qed.

Lemma g_args_length ts ws rs ts' : g_args ts ws rs ts' -> (length rs + length ts' <= length ts)%nat.
Proof. induction 1 as [| |w ts rs ts1 ws rs' ts2 Hr _ IH]; [done|done|]. apply g_redirs_length in Hr. rewrite length_app. cbn. lia. Qed.

Definition tall (ts : list token) (a : ast) (ts' : list token) : Prop := (height a + length ts' <= length ts + 1)%nat.

Lemma grammar_height : (forall ts a ts', g_line ts a ts' -> tall ts a ts') /\
  (forall ts a ts', g_pipe ts a ts' -> tall ts a ts') /\ (forall ts a ts', g_exec ts a ts' -> tall ts a ts').
Proof.
  apply grammar_ind; unfold tall.
  - intros ts a k ts1 _ IH _ _. rewrite length_app, length_replicate in IH. rewrite iter_back_height. lia.
  - intros ts a k ts1 b ts2 _ IH1 _ IH2. rewrite length_app, length_replicate in IH1. cbn [height length] in *. rewrite iter_back_height.
    pose proof (height_pos a). pose proof (height_pos b). lia.
  - done.
  - intros ts a ts1 b ts2 _ IH1 _ IH2. cbn [height length] in *. pose proof (height_pos a). pose proof (height_pos b). lia.
  - intros ts a ts1 rs ts2 _ IH Hr. apply g_redirs_length in Hr. rewrite wrap_height. cbn [length] in *. lia.
  - intros ts rs0 ts1 ws rs ts2 _ Hr Ha _. apply g_redirs_length in Hr. apply g_args_length in Ha. rewrite wrap_height, length_app. cbn [height]. lia.
Qed.

Lemma tokenize_length l : (length (tokenize l) <= length l)%nat.
Proof.
  assert (forall n l, (length l <= n)%nat -> (length (tokenize l) <= length l)%nat) as H; [|by apply (H (length l))].
  clear l. induction n as [|n IH]; intros l Hl; [by destruct l; [|cbn in Hl; lia]|].
  destruct l as [|c l1]; [done|]. cbn in Hl. assert (length (tokenize l1) <= length l1)%nat as H1 by (apply IH; lia).
  cbn [tokenize length]. destruct (whitespace c); [lia|]. destruct (symbol c); cbn [negb].
  - destruct l1 as [|d l2]; [done|]. destruct ((c =? 62) && (d =? 62)); cbn [length] in *; [|lia]. specialize (IH l2 ltac:(lia)). lia.
  - destruct l1 as [|d l2]; [done|]. destruct (plain d); [|cbn [length] in *; lia].
    destruct (tokenize (d :: l2)) as [|[v|k|] ts]; cbn [length] in *; lia.
Qed.

(** ** A turn of the loop *)

Context (i o e : fobj).

(** A line that begins with "cd " is for the shell itself. *)
Definition is_cd (l : list Z) : bool :=
  match l with a :: b :: c :: _ => (a =? 99) && (b =? 100) && (c =? 32) | _ => false end.

(** What the shell should do with a line. *)
Definition reaction (l : list Z) (ev : event) : Prop :=
  if is_cd l then let path := removelast (drop 3 l) in ev = Cd path (chdirable path)
  else
    (exists msg, ev = Rejected msg) \/
    (exists a imgs, ev = Ran imgs /\ g_line (tokenize l) a [] /\ Forall2 (as_planned e) imgs (plan openable a i o 0).1).

Lemma strlen_cstr m s l fuel : 0 < s -> s + zlen l < 2 ^ 32 -> cstr m s l -> (length l < fuel)%nat -> strlen fuel m s = Some (zlen l).
Proof.
  intros Hs Hr Hl Hf. destruct (cstr_text _ _ _ Hs Hr Hl) as [_ E]. unfold strlen in *.
  assert (forall f n k f', strlen_from f m s n = Some k -> (f <= f')%nat -> strlen_from f' m s n = Some k) as Hmono.
  { clear. induction f as [|f IH]; intros n k [|f'] E Hf; try done; [lia|]. cbn [strlen_from] in *.
    destruct (m (u32 (s + n)) =? 0); [done|]. apply (IH _ _ _ E). lia. }
  apply (Hmono _ _ _ _ E). lia.
Qed.

Lemma run_child_ok t l : command_line l -> cstr (sm t) BUF l ->
  exists ev, run_child (std i o e) t = Ok ev t /\
    ((exists msg, ev = Rejected msg) \/
     exists a imgs, ev = Ran imgs /\ g_line (tokenize l) a [] /\ Forall2 (as_planned e) imgs (plan openable a i o 0).1).
Proof.
  intros (body & El & _ & Hlen) Hl.
  assert (BUF + zlen l < 2 ^ 32) as Hr by lia.
  assert (parsecmd (Z.to_nat NBUF) BUF t = parsecmd (length l + 1) BUF t) as Ep.
  { unfold parsecmd, bind, get. rewrite (strlen_cstr _ _ l) by (done || lia || (unfold zlen, NBUF in *; lia)).
    by rewrite (strlen_cstr (sm t) BUF l (length l + 1)) by (done || lia). }
  pose proof (parsecmd_wpe t BUF l HB0 Hr Hl) as W. unfold run_child, bind. rewrite Ep. unfold wpe in W.
  destruct (parsecmd (length l + 1) BUF t) as [c t'|msg| | | |]; try done; [|by exists (Rejected msg); split; [|left; exists msg]].
  destruct W as (a & Hg & Hre).
  pose proof (proj1 (proj1 (grammar_proper (length l + 1)) _ _ _ Hg (tokenize_short l))) as Hp.
  pose proof (proj1 grammar_height _ _ _ Hg) as Hh. unfold tall in Hh. pose proof (tokenize_length l) as Ht. cbn [length] in Hh.
  assert (proper (Z.to_nat NBUF) a) as Hp'.
  { revert Hp. assert (length l + 1 <= Z.to_nat NBUF)%nat as Hle by (unfold zlen, NBUF in *; lia). revert Hle. clear.
    intros Hle. induction a; cbn; try naive_solver; [|naive_solver lia]. intros H. eapply Forall_impl; [exact H|]. cbn. lia. }
  pose proof (runcmd_ok openable (Z.to_nat NBUF) e (Z.to_nat NBUF) c a i o 0 t' Hre Hp' ltac:(unfold zlen, NBUF in *; lia)) as W.
  unfold wp in W. destruct (runcmd _ _ _ _ _ _ _) as [r t2| | | | |]; try done. destruct W as (-> & HF & _).
  exists (Ran r.1). split; [done|]. right. by exists a, r.1.
Qed.

(** The test for cd looks at the first three characters. *)
Lemma is_cd_test m l : cstr m BUF l ->
  (m BUF =? 99) && (m (u32 (BUF + 1)) =? 100) && (m (u32 (BUF + 2)) =? 32) = is_cd l.
Proof.
  intros Hl. unfold NBUF in *. rewrite !u32_small by lia.
  destruct l as [|a [|b [|c l]]]; cbn [cstr is_cd] in *; rewrite ?u32_small in Hl by lia; replace (BUF + 1 + 1) with (BUF + 2) in Hl by lia.
  - by rewrite Hl.
  - destruct Hl as (_ & _ & ->). by rewrite andb_false_r.
  - destruct Hl as (_ & _ & _ & _ & ->). by rewrite andb_false_r.
  - by destruct Hl as (_ & -> & _ & -> & _ & -> & _).
Qed.

(** cd takes the text after the blank, without the newline that ends it. *)
Lemma do_cmd_ok t l : command_line l -> cstr (sm t) BUF l ->
  exists ev t', do_cmd (std i o e) t = Ok ev t' /\ reaction l ev.
Proof.
  intros Hcl Hl. unfold do_cmd, bind at 1, get. rewrite (is_cd_test _ _ Hl). destruct (is_cd l) eqn:Hc.
  2: { destruct (run_child_ok t l Hcl Hl) as (ev & E & Hr). exists ev, t. split; [done|]. unfold reaction. by rewrite Hc. }
  destruct Hcl as (body & El & Hb & Hlen). destruct l as [|a [|b [|c path]]]; try done. cbn [is_cd] in Hc. zbool. subst a b c.
  destruct (last path) as [x|] eqn:Hx.
  2: { apply last_None in Hx as ->. destruct body as [|? [|? [|? []]]]; try done. }
  apply last_Some in Hx as [p ->]. unfold reaction. cbn [is_cd Z.eqb Pos.eqb andb drop]. rewrite drop_0, removelast_last. set (l := 99 :: 100 :: 32 :: p ++ [x]) in *.
  assert (zlen l = zlen p + 4) as Hzl by (unfold l; rewrite !zlen_cons, zlen_app; change (zlen [x]) with 1; lia).
  pose proof (zlen_nonneg p). rewrite (strlen_cstr _ _ l) by (done || lia || (unfold zlen, NBUF in *; lia)).
  unfold lift_opt at 1, bind at 1, ret at 1. unfold bind at 1, put. rewrite u32_small by lia.
  replace (BUF + zlen l - 1) with (BUF + 3 + zlen p) by lia. unfold NBUF in *. rewrite u32_small by lia.
  assert (cstr (sm t) (BUF + 3) (p ++ [x])) as Hp.
  { unfold l in Hl. cbn [cstr] in Hl. rewrite !u32_small in Hl by lia. destruct Hl as (_ & _ & _ & _ & _ & _ & Hl).
    by replace (BUF + 1 + 1 + 1) with (BUF + 3) in Hl by lia. }
  pose proof (cstr_cut _ p [x] (BUF + 3) ltac:(lia) ltac:(lia) Hp) as Hcut.
  rewrite (load_str_ok _ p) by (done || (unfold zlen in *; lia)). unfold lift_opt, bind, ret. eauto.
Qed.

(** A session: a prompt before each line and one at the end of the input. *)
Inductive session : list (list Z) -> list event -> Prop :=
| session_end : session [] [Prompt]
| session_line l ev ls evs : reaction l ev -> session ls evs -> session (l :: ls) (Prompt :: ev :: evs).

Lemma sh_loop_ok ls : forall t fuel, Forall command_line ls -> (length ls < fuel)%nat ->
  exists evs t', sh_loop fuel (std i o e) (concat ls) t = Ok evs t' /\ session ls evs.
Proof.
  induction ls as [|l ls IH]; intros t [|f] Hls Hf; try (cbn in Hf; lia); cbn [sh_loop concat].
  - unfold bind at 1, get. pose proof (getcmd_eof (sm t)) as E. destruct (getcmd (sm t) []) as [[m input] r]. cbn in E. subst r.
    exists [Prompt]. eexists. split; [reflexivity|constructor].
  - apply Forall_cons in Hls as [Hl Hls]. unfold bind at 1, get. destruct (getcmd_line (sm t) l (concat ls) Hl) as (m & -> & Hm).
    unfold bind at 1, put. cbn [Z.leb Z.compare]. destruct (do_cmd_ok (with_sm m t) l Hl Hm) as (ev & t1 & E1 & Hr).
    unfold bind at 1. rewrite E1. destruct (IH t1 f Hls) as (evs & t2 & E2 & Hs); [cbn in Hf; lia|].
    exists (Prompt :: ev :: evs), t2. split; [unfold bind; by rewrite E2|by constructor].
Qed.

(** ** The descriptors the shell starts with *)

Lemma open_console_ok f0 f1 f2 t : openable (bytes "console") O_RDWR = true ->
  open_console 17 (f0 :: f1 :: f2 :: replicate 13 None) t =
  Ok (std (default (FileOpen (bytes "console") O_RDWR) f0) (default (FileOpen (bytes "console") O_RDWR) f1)
        (default (FileOpen (bytes "console") O_RDWR) f2)) t.
Proof. intros Ho. destruct f0, f1, f2; cbn [open_console]; rewrite !Ho; cbn; try rewrite !Ho; try done. Qed.

End Main.

(** The object a descriptor stands for once main has opened the console for it. *)
Definition or_console (f : option fobj) : fobj := default (FileOpen (bytes "console") O_RDWR) f.

(** C13: a session of the shell.  Whatever of its three standard descriptors are
    open, it fills the others with the console; then, for any lines that fit
    buf[], it prompts before each, changes its own directory for a line that
    begins with cd, runs in a child the processes of the command that the line
    is by the grammar, or lets the child reject it, and ends at the end of the
    input: nothing a child does disturbs a later line. *)
Theorem shell_session openable chdirable BUF f0 f1 f2 ls t : 0 < BUF -> BUF + NBUF < 2 ^ 32 ->
  openable (bytes "console") O_RDWR = true -> Forall command_line ls ->
  exists evs t', sh_main openable chdirable BUF (length ls + 1) (f0 :: f1 :: f2 :: replicate 13 None) (concat ls) t = Ok evs t' /\
    session openable chdirable (or_console f0) (or_console f1) (or_console f2) ls evs.
Proof.
  intros HB0 HB1 Ho Hls. unfold sh_main, bind. rewrite open_console_ok by done. apply sh_loop_ok; [done|done|done|lia].
Qed.

Lemma shell_session_witness : exists evs t',
  sh_main (fun _ _ => true) (fun _ => true) 1000 3 (None :: None :: None :: replicate 13 None)
    (concat [line "ls | wc"; line "cd a"]) (Shell (fun _ => 7) [] 0) = Ok evs t' /\
  session (fun _ _ => true) (fun _ => true) (or_console None) (or_console None) (or_console None) [line "ls | wc"; line "cd a"] evs.
Proof.
  apply (shell_session (fun _ _ => true) (fun _ => true) 1000 None None None [line "ls | wc"; line "cd a"]); [done|done|done|].
  repeat constructor; [exists (bytes "ls | wc")|exists (bytes "cd a")]; (split; [done|]); (split; [|vm_compute; reflexivity]);
    vm_compute; repeat constructor; discriminate.
Defined.

(** The last character of the path is lost when the input ends without a newline. *)
Example cd_at_eof : match sh_main (fun _ _ => true) (fun _ => true) 1000 3 (None :: None :: None :: replicate 13 None)
    (bytes "cd /ab") (Shell (fun _ => 0) [] 0) with Ok evs _ => evs | _ => [] end = [Prompt; Cd (bytes "/a") true; Prompt].
Proof. vm_compute. reflexivity. Qed.

(** The run of two lines. *)
Example session_run : match sh_main (fun _ _ => true) (fun _ => true) 1000 3 (None :: None :: None :: replicate 13 None)
    (concat [line "ls | wc"; line "cd a"]) (Shell (fun _ => 7) [] 0) with Ok evs _ => evs | _ => [] end =
  let c := FileOpen (bytes "console") O_RDWR in
  [Prompt; Ran [Image [bytes "ls"] (std c (PipeWrite 0) c); Image [bytes "wc"] (std (PipeRead 0) c c)]; Prompt; Cd (bytes "a") true; Prompt].
Proof. vm_compute. reflexivity. Qed.
