(* ===== verification/Mailbox.v ===== *)
(** * mailbox.c and mailbox-interface.c: requests to the graphics processor

    A request is a table of tags in the array pt[]; the firmware overwrites it
    with its answers, and RPI_PropertyGet looks one up.  The waits for the
    status bits of the mailbox are left out: [mb_in] are the values that the
    Read register will yield, [mb_out] those written; with nothing to read the
    loop of readmailbox spins.  Writing outside pt[] or property is a fault. *)

From S2P Require Import Prelude.

(** rpi_mailbox_property_t *)
Record prop := Prop_ { pr_tag : Z; pr_len : Z; pr_data : list Z }.

Record mbox := Mbox {
  pt : list Z;      (* int pt[8192] *)
  pt_index : Z;
  property : prop;      (* the static of RPI_PropertyGet *)
  mb_out : list Z;
  mb_in : list Z
}.

Definition PT_LEN : Z := 8192.

Definition MB0_FRAMEBUFFER : Z := 1.

Definition MB0_TAGS_ARM_TO_VC : Z := 8.

Definition set_pt (l : list Z) (s : mbox) : mbox := Mbox l (pt_index s) (property s) (mb_out s) (mb_in s).

Definition set_index (i : Z) (s : mbox) : mbox := Mbox (pt s) i (property s) (mb_out s) (mb_in s).

Definition set_property (p : prop) (s : mbox) : mbox := Mbox (pt s) (pt_index s) p (mb_out s) (mb_in s).

(** ** mailbox.c *)

Definition writemailbox (channel value : Z) : M mbox unit :=
  let value := Z.land value (u32 (Z.lnot 15)) in
  let value := Z.lor value channel in
  modify (fun s => Mbox (pt s) (pt_index s) (property s) (mb_out s ++ [value]) (mb_in s)).

Fixpoint read_until (vals : list Z) (channel value : Z) : option (Z * list Z) :=
  if Z.land value 15 =? channel then Some (value, vals)
  else match vals with [] => None | v :: vals' => read_until vals' channel (s32 v) end.

Definition readmailbox (channel : Z) : M mbox Z :=
  s <- get ;;
  match read_until (mb_in s) channel (-1) with
  | None => fun _ => Spin
  | Some (value, rest) =>
      put (Mbox (pt s) (pt_index s) (property s) (mb_out s) rest) ;;; ret (Z.shiftr value 4)
  end.

(** ** mailbox-interface.c *)

Definition TAG_GET_FIRMWARE_VERSION : Z := 1.
Definition TAG_GET_BOARD_MODEL : Z := 65537.
Definition TAG_GET_BOARD_REVISION : Z := 65538.
Definition TAG_GET_BOARD_MAC_ADDRESS : Z := 65539.
Definition TAG_GET_BOARD_SERIAL : Z := 65540.
Definition TAG_GET_ARM_MEMORY : Z := 65541.
Definition TAG_GET_VC_MEMORY : Z := 65542.
Definition TAG_GET_CLOCKS : Z := 65543.
Definition TAG_GET_COMMAND_LINE : Z := 327681.
Definition TAG_GET_DMA_CHANNELS : Z := 393217.
Definition TAG_GET_CLOCK_RATE : Z := 196610.
Definition TAG_SET_CLOCK_RATE : Z := 229378.
Definition TAG_GET_MAX_CLOCK_RATE : Z := 196612.
Definition TAG_GET_MIN_CLOCK_RATE : Z := 196615.
Definition TAG_ALLOCATE_BUFFER : Z := 262145.
Definition TAG_GET_PHYSICAL_SIZE : Z := 262147.
Definition TAG_TEST_PHYSICAL_SIZE : Z := 278531.
Definition TAG_SET_PHYSICAL_SIZE : Z := 294915.
Definition TAG_GET_VIRTUAL_SIZE : Z := 262148.
Definition TAG_TEST_VIRTUAL_SIZE : Z := 278532.
Definition TAG_SET_VIRTUAL_SIZE : Z := 294916.
Definition TAG_GET_DEPTH : Z := 262149.
Definition TAG_SET_DEPTH : Z := 294917.
Definition TAG_GET_PIXEL_ORDER : Z := 262150.
Definition TAG_SET_PIXEL_ORDER : Z := 294918.
Definition TAG_GET_ALPHA_MODE : Z := 262151.
Definition TAG_SET_ALPHA_MODE : Z := 294919.
Definition TAG_GET_PITCH : Z := 262152.
Definition TAG_GET_VIRTUAL_OFFSET : Z := 262153.
Definition TAG_SET_VIRTUAL_OFFSET : Z := 294921.
Definition TAG_GET_OVERSCAN : Z := 262154.
Definition TAG_SET_OVERSCAN : Z := 294922.

(** pt[i] = v *)
Definition store_pt (i v : Z) : M mbox unit :=
  if (0 <=? i) && (i <? PT_LEN) then modify (fun s => set_pt (zset (pt s) i v) s) else fault.

Definition load_pt (i : Z) : M mbox Z := s <- get ;; from_opt (zget (pt s) i).

(** pt[pt_index++] = v *)
Definition emit (v : Z) : M mbox unit := s <- get ;; store_pt (pt_index s) v ;;; modify (set_index (pt_index s + 1)).

(** pt_index += n *)
Definition skip (n : Z) : M mbox unit := modify (fun s => set_index (pt_index s + n) s).

(** [n] times pt[pt_index++] = va_arg(vl, int) *)
Fixpoint emit_args (n : nat) (vl : list Z) : M mbox unit :=
  match n with
  | O => ret tt
  | S n' => match vl with [] => fault | v :: vl' => emit (s32 v) ;;; emit_args n' vl' end
  end.

Definition RPI_PropertyInit : M mbox unit :=
  store_pt 0 12 ;;; store_pt 1 0 ;;; modify (set_index 2) ;;; store_pt 2 0.

Definition one_of (tag : Z) (tags : list Z) : bool := existsb (fun t => tag =? t) tags.

(** The switch of RPI_PropertyAddTag; an unsupported tag is taken back. *)
Definition tag_switch (tag : Z) (vl : list Z) : M mbox unit :=
  if one_of tag [TAG_GET_FIRMWARE_VERSION; TAG_GET_BOARD_MODEL; TAG_GET_BOARD_REVISION; TAG_GET_BOARD_MAC_ADDRESS;
      TAG_GET_BOARD_SERIAL; TAG_GET_ARM_MEMORY; TAG_GET_VC_MEMORY; TAG_GET_DMA_CHANNELS] then
    emit 8 ;;; emit 0 ;;; skip 2
  else if one_of tag [TAG_GET_CLOCKS; TAG_GET_COMMAND_LINE] then
    emit 256 ;;; emit 0 ;;; skip (Z.shiftr 256 2)
  else if one_of tag [TAG_ALLOCATE_BUFFER; TAG_GET_MAX_CLOCK_RATE; TAG_GET_MIN_CLOCK_RATE; TAG_GET_CLOCK_RATE] then
    emit 8 ;;; emit 0 ;;; emit_args 1 vl ;;; emit 0
  else if tag =? TAG_SET_CLOCK_RATE then
    emit 12 ;;; emit 0 ;;; emit_args 3 vl
  else if one_of tag [TAG_GET_PHYSICAL_SIZE; TAG_SET_PHYSICAL_SIZE; TAG_TEST_PHYSICAL_SIZE; TAG_GET_VIRTUAL_SIZE;
      TAG_SET_VIRTUAL_SIZE; TAG_TEST_VIRTUAL_SIZE; TAG_GET_VIRTUAL_OFFSET; TAG_SET_VIRTUAL_OFFSET] then
    emit 8 ;;; emit 0 ;;;
    (if one_of tag [TAG_SET_PHYSICAL_SIZE; TAG_SET_VIRTUAL_SIZE; TAG_SET_VIRTUAL_OFFSET; TAG_TEST_PHYSICAL_SIZE; TAG_TEST_VIRTUAL_SIZE]
     then emit_args 2 vl else skip 2)
  else if one_of tag [TAG_GET_ALPHA_MODE; TAG_SET_ALPHA_MODE; TAG_GET_DEPTH; TAG_SET_DEPTH; TAG_GET_PIXEL_ORDER;
      TAG_SET_PIXEL_ORDER; TAG_GET_PITCH] then
    emit 4 ;;; emit 0 ;;;
    (if one_of tag [TAG_SET_DEPTH; TAG_SET_PIXEL_ORDER; TAG_SET_ALPHA_MODE] then emit_args 1 vl else skip 1)
  else if one_of tag [TAG_GET_OVERSCAN; TAG_SET_OVERSCAN] then
    emit 16 ;;; emit 0 ;;; (if tag =? TAG_SET_OVERSCAN then emit_args 4 vl else skip 4)
  else skip (-1).

Definition RPI_PropertyAddTag (tag : Z) (vl : list Z) : M mbox unit :=
  emit tag ;;;
  tag_switch tag vl ;;;
  s <- get ;;
  store_pt (pt_index s) 0.

Section Firmware.
(** What the firmware makes of the table, and the address of pt[]. *)
Variables (firmware : list Z -> list Z) (PT : Z).

Definition RPI_PropertyProcess : M mbox Z :=
  s <- get ;;
  store_pt 0 (Z.shiftl (pt_index s + 1) 2) ;;;
  store_pt 1 0 ;;;
  writemailbox MB0_TAGS_ARM_TO_VC PT ;;;
  modify (fun s => set_pt (firmware (pt s)) s) ;;;
  readmailbox MB0_TAGS_ARM_TO_VC.

End Firmware.

(** The loop of RPI_PropertyGet: the position of the tag. *)
Fixpoint find_tag (fuel : nat) (tag index : Z) : M mbox (option Z) :=
  match fuel with
  | O => no_fuel
  | S f =>
      size <- load_pt 0 ;;
      if index <? Z.shiftr size 2 then
        t <- load_pt index ;;
        if t =? tag then ret (Some index)
        else len <- load_pt (index + 1) ;; find_tag f tag (index + (Z.shiftr len 2 + 3))
      else ret None
  end.

(** The bytes of a word, the lowest first. *)
Definition word_bytes (w : Z) : list Z := [u8 w; u8 (w / 2 ^ 8); u8 (w / 2 ^ 16); u8 (w / 2 ^ 24)].

(** Null is [None]. *)
Definition RPI_PropertyGet (fuel : nat) (tag : Z) : M mbox (option prop) :=
  modify (fun s => set_property (Prop_ tag (pr_len (property s)) (pr_data (property s))) s) ;;;
  r <- find_tag fuel tag 2 ;;
  match r with
  | None => ret None
  | Some i =>
      resp <- load_pt (i + 2) ;;
      let len := Z.land resp 65535 in
      s <- get ;;
      let src := concat (map word_bytes (drop (Z.to_nat (i + 3)) (pt s))) in
      if (256 <? len) || (zlen src <? len) then fault else
      let p := Prop_ tag len (take (Z.to_nat len) src ++ drop (Z.to_nat len) (pr_data (property s))) in
      modify (set_property p) ;;; ret (Some p)
  end.

(** pt[] and the rest before the first use. *)
Definition mbox_bss : mbox := Mbox (replicate 8192 0) 0 (Prop_ 0 0 (replicate 256 0)) [] [].

(** ** The frame buffer of console.c *)

(** struct framebufdescription *)
Record fbi := Fbi {
  fb_width : Z; fb_height : Z; fb_v_width : Z; fb_v_height : Z; fb_pitch : Z; fb_depth : Z; fb_x : Z; fb_y : Z; fb_p : Z; fb_s : Z
}.

(** The description handed over and the answer; [FBINFO] is the address of fbinfo. *)
Definition initframebuf (FBINFO width height depth : Z) : M mbox (fbi * Z) :=
  let info := Fbi width height width height 0 depth 0 0 0 0 in
  writemailbox MB0_FRAMEBUFFER FBINFO ;;;
  r <- readmailbox MB0_FRAMEBUFFER ;;
  ret (info, u32 r).
