(* ===== verification/MailboxSpec.v ===== *)
(** * The property interface finds what the firmware answered

    A table of requests is a list of entries; RPI_PropertyAddTag appends one,
    the firmware fills in responses and values, and RPI_PropertyGet returns the
    first entry with its tag, or null. *)

From S2P Require Import Prelude Mailbox.

(** ** The table as a list of entries *)

Record entry := Entry { e_tag : Z; e_resp : Z; e_vals : list Z }.

(** Tag, size in bytes, response, value words. *)
Definition words (e : entry) : list Z := e_tag e :: 4 * zlen (e_vals e) :: e_resp e :: e_vals e.

Definition table (es : list entry) : list Z := concat (map words es).

Definition laid_out (w0 w1 : Z) (es : list entry) (tail : list Z) : list Z := w0 :: w1 :: table es ++ 0 :: tail.

Lemma table_app es1 es2 : table (es1 ++ es2) = table es1 ++ table es2.
Proof. unfold table. by rewrite map_app, concat_app. Qed.

Lemma table_cons e es : table (e :: es) = words e ++ table es.
Proof. done. Qed.

Lemma zlen_words e : zlen (words e) = 3 + zlen (e_vals e).
Proof. unfold words. rewrite !zlen_cons. lia. Qed.

Lemma zget_app_at {A} (l1 : list A) x l2 : zget (l1 ++ x :: l2) (zlen l1) = Some x.
Proof. unfold zget, zlen. rewrite (proj2 (Z.leb_le 0 _)) by lia. by rewrite Nat2Z.id, list_lookup_middle. Qed.

Lemma zset_app_at {A} (l1 : list A) x y l2 : zset (l1 ++ x :: l2) (zlen l1) y = l1 ++ y :: l2.
Proof. unfold zset, zlen. rewrite (proj2 (Z.leb_le 0 _)) by lia. rewrite Nat2Z.id, insert_app_r_alt, Nat.sub_diag by lia. done. Qed.

(** ** Appending to the array *)

(** The words written so far, and zeros that were never written. *)
Definition filled_to (l : list Z) (s : mbox) : Prop :=
  exists n, pt s = l ++ replicate n 0 /\ pt_index s = zlen l /\ zlen l + Z.of_nat n = PT_LEN.

(** What [m] does to the array; the rest of the state stays. *)
Definition appends (m : M mbox unit) (l : list Z) : Prop :=
  forall k s, filled_to k s -> zlen k + zlen l < PT_LEN ->
    wp m (fun _ s' => filled_to (k ++ l) s' /\ property s' = property s /\ mb_in s' = mb_in s /\ mb_out s' = mb_out s) s.

Lemma store_end k v s n : pt s = k ++ replicate (S n) 0 -> zlen k < PT_LEN ->
  store_pt (zlen k) v s = Ok tt (set_pt (k ++ v :: replicate n 0) s).
Proof.
  intros E Hl. pose proof (zlen_nonneg k). unfold store_pt. rewrite (proj2 (Z.leb_le 0 _)), (proj2 (Z.ltb_lt _ _)) by lia. cbn [andb].
  unfold modify. rewrite E. cbn [replicate]. by rewrite zset_app_at.
Qed.

Lemma emit_appends v : appends (emit v) [v].
Proof.
  intros k s (n & E & Ei & Hn) Hr. change (zlen [v]) with 1 in Hr. destruct n as [|n]; [lia|]. unfold emit. apply wp_bind, wp_get. rewrite Ei.
  eapply wp_bind_ok; [by apply store_end; [|lia]|]. apply wp_modify. split; [|done]. exists n. cbn. rewrite <-app_assoc.
  split; [done|]. rewrite zlen_app. change (zlen [v]) with 1. lia.
Qed.

Lemma skip_appends n : appends (skip (Z.of_nat n)) (replicate n 0).
Proof.
  intros k s (j & E & Ei & Hj) Hr. unfold zlen in Hr at 2. rewrite length_replicate in Hr. apply wp_modify. split; [|done].
  exists (j - n)%nat. cbn. rewrite <-app_assoc, <-replicate_add. replace (n + (j - n))%nat with j by lia. split; [done|].
  rewrite zlen_app. unfold zlen at 2 4. rewrite length_replicate. lia.
Qed.

Lemma seq_appends m1 m2 l1 l2 : appends m1 l1 -> appends m2 l2 -> appends (m1 ;;; m2) (l1 ++ l2).
Proof.
  intros H1 H2 k s Hk Hr. rewrite zlen_app in Hr. pose proof (zlen_nonneg l2). apply wp_bind. eapply wp_mono; [apply (H1 k s Hk); lia|].
  intros [] s1 (Hk1 & P1 & I1 & O1). eapply wp_mono; [apply (H2 _ s1 Hk1); rewrite zlen_app; lia|].
  intros [] s2 (Hk2 & P2 & I2 & O2). rewrite <-app_assoc in Hk2. split; [done|]. split_and!; congruence.
Qed.

Lemma ret_appends : appends (ret tt) [].
Proof. intros k s Hk _. apply wp_ret. by rewrite app_nil_r. Qed.

Lemma emit_args_appends n : forall vl, (n <= length vl)%nat -> appends (emit_args n vl) (map s32 (take n vl)).
Proof.
  induction n as [|n IH]; intros [|v vl] Hl; cbn [emit_args take map]; try apply ret_appends; [cbn in Hl; lia|].
  apply (seq_appends _ _ [s32 v]); [apply emit_appends|apply IH; cbn in Hl; lia].
Qed.

(** ** What a request is *)

(** The arguments of a tag's request, and the zeros that follow them; [None]: the
    tag is not supported. *)
Definition request (tag : Z) : option (nat * list Z) :=
  if one_of tag [TAG_GET_FIRMWARE_VERSION; TAG_GET_BOARD_MODEL; TAG_GET_BOARD_REVISION; TAG_GET_BOARD_MAC_ADDRESS;
       TAG_GET_BOARD_SERIAL; TAG_GET_ARM_MEMORY; TAG_GET_VC_MEMORY; TAG_GET_DMA_CHANNELS] then Some (0%nat, [0; 0])
  else if one_of tag [TAG_GET_CLOCKS; TAG_GET_COMMAND_LINE] then Some (0%nat, replicate 64 0)
  else if one_of tag [TAG_ALLOCATE_BUFFER; TAG_GET_MAX_CLOCK_RATE; TAG_GET_MIN_CLOCK_RATE; TAG_GET_CLOCK_RATE] then Some (1%nat, [0])
  else if tag =? TAG_SET_CLOCK_RATE then Some (3%nat, [])
  else if one_of tag [TAG_GET_PHYSICAL_SIZE; TAG_SET_PHYSICAL_SIZE; TAG_TEST_PHYSICAL_SIZE; TAG_GET_VIRTUAL_SIZE;
       TAG_SET_VIRTUAL_SIZE; TAG_TEST_VIRTUAL_SIZE; TAG_GET_VIRTUAL_OFFSET; TAG_SET_VIRTUAL_OFFSET] then
    Some (if one_of tag [TAG_SET_PHYSICAL_SIZE; TAG_SET_VIRTUAL_SIZE; TAG_SET_VIRTUAL_OFFSET; TAG_TEST_PHYSICAL_SIZE; TAG_TEST_VIRTUAL_SIZE]
          then (2%nat, []) else (0%nat, [0; 0]))
  else if one_of tag [TAG_GET_ALPHA_MODE; TAG_SET_ALPHA_MODE; TAG_GET_DEPTH; TAG_SET_DEPTH; TAG_GET_PIXEL_ORDER;
       TAG_SET_PIXEL_ORDER; TAG_GET_PITCH] then
    Some (if one_of tag [TAG_SET_DEPTH; TAG_SET_PIXEL_ORDER; TAG_SET_ALPHA_MODE] then (1%nat, []) else (0%nat, [0]))
  else if one_of tag [TAG_GET_OVERSCAN; TAG_SET_OVERSCAN] then
    Some (if tag =? TAG_SET_OVERSCAN then (4%nat, []) else (0%nat, replicate 4 0))
  else None.

(** The entry that a request with its arguments stands for. *)
Definition requests (q : Z * list Z) (e : entry) : Prop :=
  exists n zs, request q.1 = Some (n, zs) /\ (n <= length q.2)%nat /\ e = Entry q.1 0 (map s32 (take n q.2) ++ zs).

Lemma zlen_args n vl zs : (n <= length vl)%nat -> zlen (map s32 (take n vl) ++ zs) = Z.of_nat n + zlen zs.
Proof. intros Hn. rewrite zlen_app. unfold zlen at 1. rewrite length_map, length_take. lia. Qed.

(** The shapes of the branches of the switch. *)
Lemma branch_appends size n zs vl (rest : M mbox unit) : (n <= length vl)%nat -> size = 4 * (Z.of_nat n + zlen zs) ->
  appends rest (map s32 (take n vl) ++ zs) ->
  appends (emit size ;;; (emit 0 ;;; rest)) (4 * zlen (map s32 (take n vl) ++ zs) :: 0 :: map s32 (take n vl) ++ zs).
Proof.
  intros Hn -> Ht. rewrite zlen_args by done. apply (seq_appends _ _ [_]); [apply emit_appends|].
  apply (seq_appends _ _ [0]); [apply emit_appends|done].
Qed.

Lemma zeros_appends k vl : appends (skip (Z.of_nat k)) (map s32 (take 0 vl) ++ replicate k 0).
Proof. apply skip_appends. Qed.

Lemma args_appends n vl : (n <= length vl)%nat -> appends (emit_args n vl) (map s32 (take n vl) ++ []).
Proof. rewrite app_nil_r. apply emit_args_appends. Qed.

Lemma switch_appends q e : requests q e -> appends (tag_switch q.1 q.2) (4 * zlen (e_vals e) :: 0 :: e_vals e).
Proof.
  destruct q as [tag vl]. intros (n & zs & Hr & Hn & ->). cbn [fst snd e_vals] in *. unfold request in Hr. unfold tag_switch.
  repeat match type of Hr with
  | (if ?b then Some (_, _) else _) = _ => destruct b; [injection Hr as <- <-|]
  | (if ?b then Some (if ?c then _ else _) else _) = _ => destruct b; [destruct c; injection Hr as <- <-|]
  end; try done.
  all: apply branch_appends; [done|done|].
  - apply (zeros_appends 2).
  - apply (zeros_appends 64).
  - apply seq_appends; [by apply emit_args_appends|apply emit_appends].
  - by apply args_appends.
  - by apply args_appends.
  - apply (zeros_appends 2).
  - by apply args_appends.
  - apply (zeros_appends 1).
  - by apply args_appends.
  - apply (zeros_appends 4).
Qed.

Lemma request_bounds tag n zs : request tag = Some (n, zs) -> tag <> 0 /\ 4 * (Z.of_nat n + zlen zs) <= 256.
Proof.
  intros Hr. split; [by intros ->|]. unfold request in Hr.
  repeat match type of Hr with
  | (if ?b then Some (_, _) else _) = _ => destruct b; [by injection Hr as <- <-|]
  | (if ?b then Some (if ?c then _ else _) else _) = _ => destruct b; [by destruct c; injection Hr as <- <-|]
  end. done.
Qed.

Lemma requests_bounds q e : requests q e -> e_tag e <> 0 /\ 4 * zlen (e_vals e) <= 256.
Proof. intros (n & zs & Hr & Hn & ->). destruct (request_bounds _ _ _ Hr). split; [done|]. cbn [e_vals]. by rewrite zlen_args. Qed.

(** ** Building a table *)

(** The state apart from the array. *)
Definition same_rest (s s' : mbox) : Prop := property s' = property s /\ mb_in s' = mb_in s /\ mb_out s' = mb_out s.

Lemma add_tag_ok q e k s : requests q e -> filled_to k s -> zlen k + zlen (words e) < PT_LEN ->
  wp (RPI_PropertyAddTag q.1 q.2) (fun _ s' => filled_to (k ++ words e) s' /\ same_rest s s') s.
Proof.
  intros Hq Hk Hr. unfold RPI_PropertyAddTag. pose proof (switch_appends _ _ Hq) as Hsw.
  assert (words e = [q.1] ++ (4 * zlen (e_vals e) :: 0 :: e_vals e)) as Ew by (destruct Hq as (n & zs & _ & _ & ->); done).
  pose proof (seq_appends _ _ _ _ (emit_appends q.1) Hsw) as H. rewrite <-Ew in H. specialize (H k s Hk Hr). apply wp_bind_inv in H.
  apply wp_bind. eapply wp_mono; [exact H|]. intros [] s1 H1. apply wp_bind. eapply wp_mono; [exact H1|].
  intros [] s2 ((n & E & Ei & Hn) & P & I & O). apply wp_bind, wp_get. rewrite zlen_app in Hn.
  destruct n as [|n]; [lia|]. rewrite Ei. eapply ok_wp; [apply (store_end _ _ _ n); [done|rewrite zlen_app; lia]|].
  split; [|done]. exists (S n). cbn. split; [done|]. by rewrite zlen_app in *.
Qed.

(** The calls of RPI_PropertyAddTag of a client. *)
Fixpoint add_tags (qs : list (Z * list Z)) : M mbox unit :=
  match qs with [] => ret tt | q :: qs' => RPI_PropertyAddTag q.1 q.2 ;;; add_tags qs' end.

Lemma add_tags_ok qs es : Forall2 requests qs es -> forall k s, filled_to k s -> zlen k + zlen (table es) < PT_LEN ->
  wp (add_tags qs) (fun _ s' => filled_to (k ++ table es) s' /\ same_rest s s') s.
Proof.
  induction 1 as [|q e qs es Hq _ IH]; intros k s Hk Hr; cbn [add_tags].
  - apply wp_ret. unfold table. cbn. by rewrite app_nil_r.
  - rewrite table_cons, zlen_app in Hr. pose proof (zlen_nonneg (table es)). apply wp_bind.
    eapply wp_mono; [apply (add_tag_ok q e k s Hq Hk); lia|]. intros [] s1 (Hk1 & P1 & I1 & O1).
    eapply wp_mono; [apply (IH _ s1 Hk1); rewrite zlen_app; lia|]. intros [] s2 (Hk2 & P2 & I2 & O2).
    rewrite table_cons, app_assoc. split; [done|]. unfold same_rest. split_and!; congruence.
Qed.

Lemma init_ok s : pt s = replicate 8192 0 -> wp RPI_PropertyInit (fun _ s' => filled_to [12; 0] s' /\ same_rest s s') s.
Proof.
  intros E. unfold RPI_PropertyInit. change (replicate 8192 0) with (0 :: 0 :: 0 :: replicate 8189 0) in E.
  assert (forall i v l (s : mbox), 0 <= i < PT_LEN -> zset (pt s) i v = l -> store_pt i v s = Ok tt (set_pt l s)) as Hst.
  { intros i v l s0 Hi <-. unfold store_pt. by rewrite (proj2 (Z.leb_le 0 _)), (proj2 (Z.ltb_lt _ _)) by lia. }
  eapply wp_bind_ok; [apply (Hst 0 12 (12 :: 0 :: 0 :: replicate 8189 0)); [done|by rewrite E]|].
  eapply wp_bind_ok; [apply (Hst 1 0 (12 :: 0 :: 0 :: replicate 8189 0)); [done|done]|]. apply wp_bind, wp_modify.
  eapply ok_wp; [apply (Hst 2 0 (12 :: 0 :: 0 :: replicate 8189 0)); [done|done]|]. split; [|done]. by exists 8190%nat.
Qed.

(** ** Looking a tag up *)

Fixpoint first_entry (tag : Z) (es : list entry) : option entry :=
  match es with [] => None | e :: es' => if e_tag e =? tag then Some e else first_entry tag es' end.

(** One turn of the search. *)
Lemma find_tag_turn f tag index s size t : zget (pt s) 0 = Some size -> index < Z.shiftr size 2 -> zget (pt s) index = Some t ->
  find_tag (S f) tag index s =
    if t =? tag then Ok (Some index) s
    else match zget (pt s) (index + 1) with Some len => find_tag f tag (index + (Z.shiftr len 2 + 3)) s | None => Fault end.
Proof.
  intros H0 Hi Ht. cbn [find_tag]. unfold load_pt, bind, get. rewrite H0. cbn [from_opt ret]. unfold ret at 1.
  rewrite (proj2 (Z.ltb_lt _ _)), Ht by done. cbn [from_opt]. unfold ret at 1. destruct (t =? tag); [done|].
  by destruct (zget (pt s) (index + 1)).
Qed.

Lemma find_tag_end f tag index s size : zget (pt s) 0 = Some size -> Z.shiftr size 2 <= index -> find_tag (S f) tag index s = Ok None s.
Proof. intros H0 Hi. cbn [find_tag]. unfold load_pt, bind, get. rewrite H0. cbn [from_opt]. unfold ret at 1. by rewrite (proj2 (Z.ltb_ge _ _)). Qed.

Lemma find_tag_ok tag s0 tail : tag <> 0 -> forall es fuel pre s,
  pt s = pre ++ table es ++ 0 :: 0 :: tail -> zget (pt s) 0 = Some s0 -> Z.shiftr s0 2 = zlen pre + zlen (table es) + 1 ->
  (length es + 1 < fuel)%nat ->
  exists r, find_tag fuel tag (zlen pre) s = Ok r s /\
    match r with
    | None => first_entry tag es = None
    | Some i => exists es1 e es2, es = es1 ++ e :: es2 /\ first_entry tag es = Some e /\ i = zlen pre + zlen (table es1)
    end.
Proof.
  intros Ht es. induction es as [|e es IH]; intros [|f] pre s E H0 Hs Hf; cbn [length] in Hf; try lia.
  - change (zlen (table [])) with 0 in Hs. cbn [table map concat app] in E.
    assert (zget (pt s) (zlen pre + 1) = Some 0) as H1.
    { rewrite E, (cons_middle 0), app_assoc. replace (zlen pre + 1) with (zlen (pre ++ [0])) by (rewrite zlen_app; change (zlen [0]) with 1; lia).
      apply zget_app_at. }
    rewrite (find_tag_turn _ _ _ _ s0 0), (proj2 (Z.eqb_neq 0 tag)), H1 by (done || lia || (rewrite E; apply zget_app_at)).
    destruct f as [|f]; [lia|]. change (Z.shiftr 0 2) with 0. rewrite (find_tag_end _ _ _ _ s0) by (done || lia). by exists None.
  - rewrite table_cons in *. rewrite zlen_app, zlen_words in Hs. pose proof (zlen_nonneg (e_vals e)). pose proof (zlen_nonneg (table es)).
    rewrite (find_tag_turn _ _ _ _ s0 (e_tag e)) by (done || lia || (rewrite E; apply zget_app_at)). cbn [first_entry].
    destruct (Z.eqb_spec (e_tag e) tag) as [Et|Et].
    { exists (Some (zlen pre)). split; [done|]. exists [], e, es. split; [done|]. split; [done|]. change (zlen (table [])) with 0. lia. }
    assert (zget (pt s) (zlen pre + 1) = Some (4 * zlen (e_vals e))) as ->.
    { rewrite E. unfold words. replace (zlen pre + 1) with (zlen (pre ++ [e_tag e])) by (rewrite zlen_app; change (zlen [_]) with 1; lia).
      cbn [app]. rewrite (cons_middle (e_tag e)), app_assoc. apply zget_app_at. }
    assert (Z.shiftr (4 * zlen (e_vals e)) 2 = zlen (e_vals e)) as ->.
    { rewrite Z.shiftr_div_pow2 by lia. change (2 ^ 2) with 4. rewrite Z.mul_comm. by apply Z.div_mul. }
    replace (zlen pre + (zlen (e_vals e) + 3)) with (zlen (pre ++ words e)) by (rewrite zlen_app, zlen_words; lia).
    destruct (IH f (pre ++ words e) s) as (r & Er & Hr); [by rewrite E, <-!app_assoc|done|rewrite zlen_app, zlen_words; lia|lia|].
    exists r. split; [done|]. destruct r as [i|]; [|done]. destruct Hr as (es1 & e1 & es2 & -> & Hfe & ->).
    exists (e :: es1), e1, es2. split; [done|]. split; [done|]. rewrite table_cons, !zlen_app. lia.
Qed.

(** ** The answer *)

Definition answered (e e' : entry) : Prop :=
  e_tag e' = e_tag e /\ length (e_vals e') = length (e_vals e) /\ Z.land (e_resp e') 65535 <= 4 * zlen (e_vals e').

(** What the firmware is documented to do: it overwrites the code word, and the
    response and the values of each entry, with no more bytes than the entry
    has room for.  [answer] says which. *)
Record firmware_ok (firmware : list Z -> list Z) (answer : list entry -> list entry) : Prop := {
  fw_table : forall w0 w1 es tail, Forall (fun e => e_tag e <> 0) es ->
    exists w1', firmware (laid_out w0 w1 es tail) = laid_out w0 w1' (answer es) tail;
  fw_shape : forall es, Forall2 answered es (answer es)
}.

Lemma answered_table es es' : Forall2 answered es es' -> zlen (table es') = zlen (table es) /\ length es' = length es.
Proof.
  induction 1 as [|e e' es es' (_ & Hl & _) _ [IH1 IH2]]; [done|]. rewrite !table_cons, !zlen_app, !zlen_words. cbn [length].
  assert (zlen (e_vals e') = zlen (e_vals e)) by (unfold zlen; by rewrite Hl). split; lia.
Qed.

Lemma first_entry_answered tag es es' e : Forall2 answered es es' -> first_entry tag es' = Some e ->
  Z.land (e_resp e) 65535 <= 4 * zlen (e_vals e) /\ exists e0, e0 ∈ es /\ answered e0 e.
Proof.
  induction 1 as [|e1 e1' es es' Ha _ IH]; [done|]. cbn [first_entry]. destruct (e_tag e1' =? tag).
  - intros [= ->]. split; [apply Ha|]. exists e1. split; [by left|done].
  - intros H. destruct (IH H) as (Hb & e0 & He & Ha0). split; [done|]. exists e0. split; [by right|done].
Qed.

Lemma zlen_bytes ws : zlen (concat (map word_bytes ws)) = 4 * zlen ws.
Proof. induction ws as [|w ws IH]; [done|]. cbn [map concat]. rewrite zlen_app, IH, zlen_cons. change (zlen (word_bytes w)) with 4. lia. Qed.

(** What RPI_PropertyGet returns for an entry. *)
Definition answers_with (tag : Z) (old : list Z) (e : entry) (p : prop) : Prop :=
  let len := Z.land (e_resp e) 65535 in
  pr_tag p = tag /\ pr_len p = len /\ length (pr_data p) = length old /\
  take (Z.to_nat len) (pr_data p) = take (Z.to_nat len) (concat (map word_bytes (e_vals e))).

Definition get_result (tag : Z) (old : list Z) (es : list entry) (r : option prop) : Prop :=
  match first_entry tag es with None => r = None | Some e => exists p, r = Some p /\ answers_with tag old e p end.

Lemma property_get_ok tag s w0 w1 es tail fuel : tag <> 0 -> pt s = laid_out w0 w1 es (0 :: tail) ->
  Z.shiftr w0 2 = 2 + zlen (table es) + 1 -> (length es + 1 < fuel)%nat -> length (pr_data (property s)) = 256%nat ->
  (forall e, first_entry tag es = Some e -> Z.land (e_resp e) 65535 <= 4 * zlen (e_vals e) <= 256) ->
  wp (RPI_PropertyGet fuel tag) (fun r _ => get_result tag (pr_data (property s)) es r) s.
Proof.
  intros Ht E Hw Hf Hold Hlen. unfold RPI_PropertyGet, get_result. apply wp_bind, wp_modify. set (s1 := set_property _ s).
  destruct (find_tag_ok tag w0 tail Ht es fuel [w0; w1] s1) as (r & Er & Hr); [exact E|unfold s1; cbn; by rewrite E|exact Hw|done|].
  change (zlen [w0; w1]) with 2 in Er, Hr. eapply wp_bind_ok; [exact Er|]. destruct r as [i|]; [|rewrite Hr; by apply wp_ret].
  destruct Hr as (es1 & e & es2 & -> & Hfe & ->). rewrite Hfe. specialize (Hlen e Hfe). rewrite table_app, table_cons in *.
  set (rest := table es2 ++ 0 :: 0 :: tail).
  assert (pt s1 = ([w0; w1] ++ table es1 ++ [e_tag e; 4 * zlen (e_vals e)]) ++ e_resp e :: e_vals e ++ rest) as E1.
  { unfold s1. cbn [pt set_property]. rewrite E. unfold laid_out, words, rest. rewrite table_app, table_cons. unfold words.
    repeat (rewrite <-?app_assoc; cbn [app]). done. }
  set (pre := [w0; w1] ++ table es1 ++ _) in E1. assert (zlen pre = 2 + zlen (table es1) + 2) as Hp by (unfold pre; rewrite !zlen_app, !zlen_cons; change (zlen (@nil Z)) with 0; lia).
  eapply wp_bind_ok; [unfold load_pt, bind, get; rewrite <-Hp, E1, zget_app_at; reflexivity|]. apply wp_bind, wp_get.
  assert (drop (Z.to_nat (2 + zlen (table es1) + 3)) (pt s1) = e_vals e ++ rest) as Hd.
  { rewrite E1. replace (Z.to_nat (2 + zlen (table es1) + 3)) with (S (length pre)) by (unfold zlen in *; lia).
    rewrite (cons_middle (e_resp e)), app_assoc, drop_app_length' by (rewrite length_app; cbn; lia). done. }
  rewrite Hd, map_app, concat_app. set (src := concat (map word_bytes (e_vals e))).
  set (src2 := concat (map word_bytes rest)). assert (zlen src = 4 * zlen (e_vals e)) as Hsrc by apply zlen_bytes.
  set (len := Z.land (e_resp e) 65535) in *. assert (0 <= len) as H0 by (apply Z.land_nonneg; right; done).
  pose proof (zlen_nonneg src2). rewrite (proj2 (Z.ltb_ge 256 len)) by lia. rewrite zlen_app, (proj2 (Z.ltb_ge _ len)) by lia. cbn [orb].
  apply wp_bind, wp_modify, wp_ret. eexists. split; [reflexivity|]. unfold answers_with. fold len. cbn [pr_tag pr_len pr_data].
  assert (Z.to_nat len <= length src)%nat as Hle by (unfold zlen in *; lia).
  assert (length (take (Z.to_nat len) (src ++ src2)) = Z.to_nat len) as Hlt by (rewrite length_take, length_app; lia).
  split; [done|]. split; [done|]. split.
  - rewrite length_app, Hlt, length_drop. unfold s1. cbn [property set_property pr_data]. rewrite Hold. lia.
  - rewrite take_app_length' by done. by rewrite take_app_le.
Qed.

Section Client.
Context (firmware : list Z -> list Z) (answer : list entry -> list entry) (PT : Z).

End Client.

(** ** A firmware *)

Fixpoint demo_fill (fuel : nat) (l : list Z) : list Z :=
  match fuel, l with
  | S f, tag :: size :: _ :: rest =>
      if tag =? 0 then l
      else let n := Z.to_nat (Z.shiftr size 2) in
        tag :: size :: 2 ^ 31 + size :: map (fun _ => 7) (take n rest) ++ demo_fill f (drop n rest)
  | _, _ => l
  end.

(** It answers each request with its full size, in words of value 7. *)
Definition demo_firmware (l : list Z) : list Z :=
  match l with w0 :: _ :: l' => w0 :: 2 ^ 31 :: demo_fill (length l') l' | _ => l end.

Definition demo_answer (es : list entry) : list entry :=
  map (fun e => Entry (e_tag e) (2 ^ 31 + 4 * zlen (e_vals e)) (map (fun _ => 7) (e_vals e))) es.

Lemma demo_firmware_ok : firmware_ok demo_firmware demo_answer.
Proof.
  constructor.
  - intros w0 w1 es tail Hes. exists (2 ^ 31). unfold laid_out, demo_firmware. do 2 f_equal.
    assert (forall fuel, (length es <= fuel)%nat -> demo_fill fuel (table es ++ 0 :: tail) = table (demo_answer es) ++ 0 :: tail) as H.
    { induction Hes as [|e es He Hes IH]; intros fuel Hf.
      { destruct fuel; [done|]. cbn. by destruct tail as [|? []]. }
      destruct fuel as [|f]; cbn [length] in Hf; [lia|]. rewrite table_cons, <-app_assoc. unfold words. cbn [app demo_fill].
      rewrite (proj2 (Z.eqb_neq _ 0)) by done. assert (Z.to_nat (Z.shiftr (4 * zlen (e_vals e)) 2) = length (e_vals e)) as ->.
      { rewrite Z.shiftr_div_pow2 by lia. change (2 ^ 2) with 4. rewrite Z.mul_comm, Z.div_mul by lia. unfold zlen. lia. }
      rewrite take_app_length, drop_app_length, IH by lia. cbn [demo_answer map]. rewrite table_cons. unfold words. cbn [e_tag e_resp e_vals app].
      unfold zlen. rewrite length_map, <-app_assoc. done. }
    apply H. rewrite length_app. clear. induction es as [|e es IH]; [cbn; lia|]. rewrite table_cons, length_app. unfold words. cbn [length] in *. lia.
  - intros es. induction es as [|e es IH]; constructor; [|done]. split; [done|]. cbn [e_vals e_resp]. split; [by rewrite length_map|].
    assert (zlen (map (fun _ => 7) (e_vals e)) = zlen (e_vals e)) as -> by (unfold zlen; by rewrite length_map).
    pose proof (zlen_nonneg (e_vals e)). change 65535 with (2 ^ 16 - 1). rewrite land_ones_mod by lia.
    replace (2 ^ 31 + 4 * zlen (e_vals e)) with (4 * zlen (e_vals e) + 2 ^ 15 * 2 ^ 16) by lia. rewrite Z_mod_plus_full. apply Z.mod_le; lia.
Qed.

(** mailbox registers that answer on channel 8. *)
Definition demo_mbox : mbox := Mbox (replicate 8192 0) 0 (Prop_ 0 0 (replicate 256 0)) [] [24; 40].


(** A second table that is shorter than the first: behind its end lies a word of
    the first answer, and the search for a missing tag goes on from there.  With
    -12 in it, the position does not change and the search never ends. *)
Lemma stale_word_spins s : zget (pt s) 0 = Some 28 -> zget (pt s) 2 = Some TAG_GET_PITCH -> zget (pt s) 3 = Some 4 ->
  zget (pt s) 6 = Some 0 -> zget (pt s) 7 = Some (-12) -> forall fuel, find_tag fuel TAG_GET_DEPTH 2 s = NoFuel.
Proof.
  intros H0 H2 H3 H6 H7 fuel. assert (forall f, find_tag f TAG_GET_DEPTH 6 s = NoFuel) as Hstuck.
  { induction f as [|f IH]; [done|]. rewrite (find_tag_turn _ _ _ _ 28 0) by done. change (6 + 1) with 7. by rewrite H7. }
  destruct fuel as [|f]; [done|]. rewrite (find_tag_turn _ _ _ _ 28 TAG_GET_PITCH) by done. change (2 + 1) with 3. rewrite H3. apply Hstuck.
Qed.
