(* ===== verification/Boot.v ===== *)
(** * start.c: the page tables the kernel starts with

    Two tables of 1 MB sections, built before the MMU is on: _user_pgtbl for
    addresses below 256 MB, _kernel_pgtbl for the others.  Before they are
    written they hold whatever was in memory.  [boot_walk] is the translation
    that the MMU makes of a section entry. *)

From S2P Require Import Prelude CString Buddy Cpu Vm.

Record bootpt := BootPt { bpt_kernel : list Z; bpt_user : list Z }.

Definition KPDE_TYPE : Z := 2.

Definition PA_START : Z := 0.
Definition PA_STOP : Z := 201326592.          (* 0x0C000000 *)
Definition INIT_KERN_SZ : Z := 1048576.
Definition INIT_KERNMAP : Z := INIT_KERN_SZ + PA_START.
Definition GPUMEMBASE : Z := 1073741824.      (* 0x40000000 *)
Definition GPUMEMSIZE : Z := 1024 * 1048576.
Definition DEVSPACE : Z := 4261412864.        (* 0xFE000000 *)
Definition PHYSIO : Z := 1056964608.          (* 0x3F000000, RPI2 *)
Definition DEV_MEM_SZ : Z := 16777216.

(** table[i] = v *)
Definition store_pde (virt pde : Z) : M bootpt unit :=
  s <- get ;;
  if virt <? NUM_UPDE then
    if (0 <=? virt) && (virt <? zlen (bpt_user s)) then put (BootPt (bpt_kernel s) (zset (bpt_user s) virt pde)) else fault
  else if virt <? zlen (bpt_kernel s) then put (BootPt (zset (bpt_kernel s) virt pde) (bpt_user s)) else fault.

Definition mk_section (phy : Z) (dev_mem : bool) : Z :=
  let pde := u32 (Z.shiftl phy PDE_SHIFT) in
  if negb dev_mem then Z.lor pde (Z.lor (Z.lor (Z.lor (Z.shiftl AP_KO 10) PE_CACHE) PE_BUF) KPDE_TYPE)
  else Z.lor pde (Z.lor (Z.shiftl AP_KO 10) KPDE_TYPE).

(** The loop; [virt] and [phy] are section numbers. *)
Fixpoint set_bootpgtbl_ (n : nat) (virt phy : Z) (dev_mem : bool) : M bootpt unit :=
  match n with
  | O => ret tt
  | S n' => store_pde virt (mk_section phy dev_mem) ;;; set_bootpgtbl_ n' (u32 (virt + 1)) (u32 (phy + 1)) dev_mem
  end.

Definition set_bootpgtbl (virt phy len : Z) (dev_mem : bool) : M bootpt unit :=
  set_bootpgtbl_ (Z.to_nat (Z.shiftr len PDE_SHIFT)) (Z.shiftr virt PDE_SHIFT) (Z.shiftr phy PDE_SHIFT) dev_mem.

Definition init_pgtbl : M bootpt unit :=
  set_bootpgtbl PA_START PA_START INIT_KERN_SZ false ;;;
  set_bootpgtbl (KERNBASE + PA_START) PA_START INIT_KERN_SZ false ;;;
  set_bootpgtbl GPUMEMBASE GPUMEMBASE GPUMEMSIZE true ;;;
  set_bootpgtbl DEVSPACE PHYSIO DEV_MEM_SZ true.

(** ** What the tables say *)

(** The entry for an address. *)
Definition boot_pde (s : bootpt) (j : Z) : option Z := if j <? NUM_UPDE then zget (bpt_user s) j else zget (bpt_kernel s) j.

Inductive memtype : Type := Normal | Device.

(** A section entry: where the address goes, and the type of the memory. *)
Definition boot_walk (s : bootpt) (va : Z) : option (Z * memtype) :=
  e ← boot_pde s (Z.shiftr va PDE_SHIFT);
  if Z.land e 3 =? KPDE_TYPE then
    Some (Z.shiftl (Z.shiftr e PDE_SHIFT) PDE_SHIFT + va mod PDE_SZ, if Z.testbit e 3 && Z.testbit e 2 then Normal else Device)
  else None.

(** The permission bits of the entry: kernel only. *)
Definition boot_ap (s : bootpt) (va : Z) : option Z := (fun e => Z.land (Z.shiftr e 10) 3) <$> boot_pde s (Z.shiftr va PDE_SHIFT).

Definition sized (s : bootpt) : Prop := zlen (bpt_kernel s) = 4096 /\ zlen (bpt_user s) >= 256.

Definition section_check (dev : bool) (phy : Z) : bool :=
  let e := mk_section phy dev in
  (Z.land e 3 =? KPDE_TYPE) && (Z.shiftr e PDE_SHIFT =? phy) && (Z.land (Z.shiftr e 10) 3 =? AP_KO) &&
  Bool.eqb (Z.testbit e 3 && Z.testbit e 2) (negb dev).

(** Checked for each of the 4096 sections. *)
Lemma mk_section_ok phy dev : 0 <= phy < 4096 ->
  let e := mk_section phy dev in
  Z.land e 3 = KPDE_TYPE /\ Z.shiftr e PDE_SHIFT = phy /\ Z.land (Z.shiftr e 10) 3 = AP_KO /\
  (Z.testbit e 3 && Z.testbit e 2) = negb dev.
Proof.
  intros Hp. assert (forallb (section_check dev) (seqZ 0 4096) = true) as H by (destruct dev; vm_compute; reflexivity).
  rewrite forallb_forall in H. specialize (H phy). unfold section_check in H. rewrite !andb_true_iff, !Z.eqb_eq, eqb_true_iff in H.
  destruct H as (((H1 & H2) & H3) & H4); [|by split_and!]. apply list_elem_of_In, elem_of_seqZ. lia.
Qed.

(** ** One call of set_bootpgtbl *)

Definition in_sections (virt n j : Z) : bool := (virt <=? j) && (j <? virt + n).

Lemma store_pde_ok s virt pde : sized s -> 0 <= virt < 4096 ->
  exists s', store_pde virt pde s = Ok tt s' /\ sized s' /\ forall j, boot_pde s' j = if j =? virt then Some pde else boot_pde s j.
Proof.
  intros [Hk Hu] Hv. unfold store_pde, bind, get. change NUM_UPDE with 256. destruct (Z.ltb_spec virt 256).
  - rewrite (proj2 (Z.leb_le 0 virt)), (proj2 (Z.ltb_lt virt _)) by lia. cbn [andb]. eexists. split; [reflexivity|].
    split; [by split; cbn; rewrite ?zlen_zset|]. intros j. unfold boot_pde. cbn [bpt_kernel bpt_user]. change NUM_UPDE with 256.
    destruct (Z.eqb_spec j virt) as [->|Hne]; [by rewrite (proj2 (Z.ltb_lt _ _)), zget_zset_eq by lia|].
    destruct (j <? 256); [by rewrite zget_zset_ne|done].
  - rewrite (proj2 (Z.ltb_lt virt _)) by lia. eexists. split; [reflexivity|].
    split; [by split; cbn; rewrite ?zlen_zset|]. intros j. unfold boot_pde. cbn [bpt_kernel bpt_user]. change NUM_UPDE with 256.
    destruct (Z.eqb_spec j virt) as [->|Hne]; [by rewrite (proj2 (Z.ltb_ge _ _)), zget_zset_eq by lia|].
    destruct (j <? 256); [done|by rewrite zget_zset_ne].
Qed.

Lemma set_bootpgtbl_loop dev n : forall s virt phy, sized s -> 0 <= virt -> virt + Z.of_nat n <= 4096 -> 0 <= phy -> phy + Z.of_nat n <= 4096 ->
  exists s', set_bootpgtbl_ n virt phy dev s = Ok tt s' /\ sized s' /\
    forall j, boot_pde s' j = if in_sections virt (Z.of_nat n) j then Some (mk_section (phy + (j - virt)) dev) else boot_pde s j.
Proof.
  induction n as [|n IH]; intros s virt phy Hs Hv Hvn Hp Hpn; cbn [set_bootpgtbl_].
  - exists s. split; [done|]. split; [done|]. intros j. unfold in_sections. rewrite in_range_false by lia. done.
  - destruct (store_pde_ok s virt (mk_section phy dev) Hs) as (s1 & E1 & Hs1 & H1); [lia|]. unfold bind. rewrite E1, !u32_small by lia.
    destruct (IH s1 (virt + 1) (phy + 1) Hs1) as (s2 & E2 & Hs2 & H2); [lia..|]. exists s2. split; [done|]. split; [done|].
    intros j. rewrite H2, H1. unfold in_sections.
    destruct (Z.eqb_spec j virt) as [->|Hne].
    + rewrite in_range_false, in_range_true by lia. do 2 f_equal. lia.
    + destruct (decide (virt + 1 <= j < virt + 1 + Z.of_nat n)).
      * rewrite !in_range_true by lia. do 2 f_equal. lia.
      * by rewrite !in_range_false by lia.
Qed.

(** ** The four calls *)

(** C40: The tables that init_pgtbl leaves translate the first megabyte of memory
    both where it lies and at KERNBASE, as cached memory; the gigabyte of the
    graphics processor where it lies, and the 16 MB of the peripherals at
    DEVSPACE, as device memory; all of it for the kernel alone; and every other
    entry is as it was before. *)
Theorem init_pgtbl_maps s : sized s ->
  exists s', init_pgtbl s = Ok tt s' /\ sized s' /\ forall va, 0 <= va < 2 ^ 32 ->
    if va <? INIT_KERN_SZ then boot_walk s' va = Some (va, Normal) /\ boot_ap s' va = Some AP_KO
    else if (KERNBASE <=? va) && (va <? KERNBASE + INIT_KERN_SZ) then boot_walk s' va = Some (va - KERNBASE, Normal) /\ boot_ap s' va = Some AP_KO
    else if (GPUMEMBASE <=? va) && (va <? GPUMEMBASE + GPUMEMSIZE) then boot_walk s' va = Some (va, Device) /\ boot_ap s' va = Some AP_KO
    else if (DEVSPACE <=? va) && (va <? DEVSPACE + DEV_MEM_SZ) then boot_walk s' va = Some (va - DEVSPACE + PHYSIO, Device) /\ boot_ap s' va = Some AP_KO
    else boot_pde s' (Z.shiftr va PDE_SHIFT) = boot_pde s (Z.shiftr va PDE_SHIFT).
Proof.
  intros Hs. unfold init_pgtbl, set_bootpgtbl.
  destruct (set_bootpgtbl_loop false 1 s 0 0 Hs) as (s1 & E1 & Hs1 & H1); [lia..|].
  destruct (set_bootpgtbl_loop false 1 s1 2048 0 Hs1) as (s2 & E2 & Hs2 & H2); [lia..|].
  destruct (set_bootpgtbl_loop true 1024 s2 1024 1024 Hs2) as (s3 & E3 & Hs3 & H3); [lia..|].
  destruct (set_bootpgtbl_loop true 16 s3 4064 1008 Hs3) as (s4 & E4 & Hs4 & H4); [lia..|].
  exists s4. split; [|split; [done|]].
  { unfold bind. change (Z.to_nat (Z.shiftr INIT_KERN_SZ PDE_SHIFT)) with 1%nat. change (Z.shiftr PA_START PDE_SHIFT) with 0. rewrite E1.
    change (Z.shiftr (KERNBASE + PA_START) PDE_SHIFT) with 2048. rewrite E2.
    change (Z.to_nat (Z.shiftr GPUMEMSIZE PDE_SHIFT)) with 1024%nat. change (Z.shiftr GPUMEMBASE PDE_SHIFT) with 1024. rewrite E3.
    change (Z.to_nat (Z.shiftr DEV_MEM_SZ PDE_SHIFT)) with 16%nat. change (Z.shiftr DEVSPACE PDE_SHIFT) with 4064.
    change (Z.shiftr PHYSIO PDE_SHIFT) with 1008. exact E4. }
  intros va Hva. set (j := Z.shiftr va PDE_SHIFT).
  assert (j = va / 1048576) as Ej by (unfold j; by rewrite Z.shiftr_div_pow2).
  pose proof (Z.div_mod va 1048576 ltac:(lia)) as Hdm. pose proof (Z.mod_pos_bound va 1048576 ltac:(lia)) as Hmb. rewrite <-Ej in Hdm.
  assert (forall phy dev, boot_pde s4 j = Some (mk_section phy dev) -> 0 <= phy < 4096 ->
    boot_walk s4 va = Some (1048576 * phy + va mod 1048576, if dev then Device else Normal) /\ boot_ap s4 va = Some AP_KO) as Hw.
  { intros phy dev E Hp. destruct (mk_section_ok phy dev Hp) as (A & B & C & D). unfold boot_walk, boot_ap. fold j. rewrite E. cbn [mbind option_bind fmap option_fmap option_map].
    rewrite A, B, C, D, Z.eqb_refl. split; [|done]. rewrite Z.shiftl_mul_pow2 by (vm_compute; congruence). do 2 f_equal; [|by destruct dev].
    change (2 ^ PDE_SHIFT) with 1048576. change PDE_SZ with 1048576. lia. }
  assert (forall v n k, in_sections v n k = true <-> v <= k < v + n) as Hin by (intros; unfold in_sections; rewrite andb_true_iff, Z.leb_le, Z.ltb_lt; done).
  rewrite (H4 j), (H3 j), (H2 j), (H1 j) in Hw.
  assert (forall v n k, ~ (v <= k < v + n) -> in_sections v n k = false) as Hout by (intros; apply not_true_iff_false; by rewrite Hin).
  change INIT_KERN_SZ with 1048576. change KERNBASE with 2147483648. change GPUMEMBASE with 1073741824. change GPUMEMSIZE with 1073741824.
  change DEVSPACE with 4261412864. change DEV_MEM_SZ with 16777216. change PHYSIO with 1056964608.
  destruct (Z.ltb_spec va 1048576).
  { rewrite (Hout 4064), (Hout 1024), (Hout 2048), (proj2 (Hin 0 _ _)) in Hw by lia.
    destruct (Hw _ false eq_refl) as [W A]; [lia|]. rewrite W, A. split; [|done]. do 2 f_equal. lia. }
  destruct (decide (2147483648 <= va < 2147483648 + 1048576)) as [Hr|Hr]; [rewrite in_range_true by lia|rewrite in_range_false by lia].
  { rewrite (Hout 4064), (Hout 1024), (proj2 (Hin 2048 _ _)) in Hw by lia.
    destruct (Hw _ false eq_refl) as [W A]; [lia|]. rewrite W, A. split; [|done]. do 2 f_equal. lia. }
  destruct (decide (1073741824 <= va < 1073741824 + 1073741824)) as [Hg|Hg]; [rewrite in_range_true by lia|rewrite in_range_false by lia].
  { rewrite (Hout 4064), (proj2 (Hin 1024 _ _)) in Hw by lia.
    destruct (Hw _ true eq_refl) as [W A]; [lia|]. rewrite W, A. split; [|done]. do 2 f_equal. lia. }
  destruct (decide (4261412864 <= va < 4261412864 + 16777216)) as [Hd|Hd]; [rewrite in_range_true by lia|rewrite in_range_false by lia].
  { rewrite (proj2 (Hin 4064 _ _)) in Hw by lia.
    destruct (Hw _ true eq_refl) as [W A]; [lia|]. rewrite W, A. split; [|done]. do 2 f_equal. lia. }
  by rewrite H4, H3, H2, H1, (Hout 4064), (Hout 1024), (Hout 2048), (Hout 0) by lia.
Qed.

Lemma init_pgtbl_maps_witness : exists s', init_pgtbl (BootPt (replicate 4096 7) (replicate 1024 7)) = Ok tt s' /\ sized s' /\ boot_walk s' 2147484000 = Some (352, Normal).
Proof.
  destruct (init_pgtbl_maps (BootPt (replicate 4096 7) (replicate 1024 7))) as (s' & E & Hs & H); [split; vm_compute; congruence|].
  exists s'. split; [exact E|]. split; [exact Hs|]. exact (proj1 (H 2147484000 ltac:(lia))).
Defined.
