(* ===== verification/Devices.v ===== *)
(** * uart.c, timer.c and trap.c: pins, serial line, delays and interrupts

    The device registers are words indexed from the start of each block, with
    the history of the writes: [gp] for the GPIO block, [aux] for the serial
    line, [irqc] for the interrupt controller.  A write-only register keeps what
    was written. *)

From S2P Require Import Prelude CString.

Inductive block : Type := Gp | Aux | Irqc.

Record devs := Devs { gp : list Z; aux : list Z; irqc : list Z; writes : list (block * Z * Z) }.

Definition regs (b : block) (s : devs) : list Z := match b with Gp => gp s | Aux => aux s | Irqc => irqc s end.

Definition set_regs (b : block) (l : list Z) (s : devs) : devs :=
  match b with
  | Gp => Devs l (aux s) (irqc s) (writes s)
  | Aux => Devs (gp s) l (irqc s) (writes s)
  | Irqc => Devs (gp s) (aux s) l (writes s)
  end.

Definition reg_read (b : block) (i : Z) : M devs Z := s <- get ;; from_opt (zget (regs b s) i).

Definition reg_write (b : block) (i v : Z) : M devs unit :=
  s <- get ;;
  if (0 <=? i) && (i <? zlen (regs b s)) then
    let s := set_regs b (zset (regs b s) i v) s in
    put (Devs (gp s) (aux s) (irqc s) (writes s ++ [(b, i, v)]))
  else fault.

(** ** GPIO *)

Definition GPSET0 : Z := 7.
Definition GPSET1 : Z := 8.
Definition GPCLR0 : Z := 10.
Definition GPCLR1 : Z := 11.
Definition GPPUD : Z := 37.
Definition GPPUDCLK0 : Z := 38.

Definition FS_MASK : Z := 7.
Definition FS_ALT5 : Z := 2.

Definition RPI_SetGpioHi (gpio : Z) : M devs unit :=
  if gpio / 32 =? 0 then reg_write Gp GPSET0 (u32 (Z.shiftl 1 gpio))
  else if gpio / 32 =? 1 then reg_write Gp GPSET1 (u32 (Z.shiftl 1 (gpio - 32)))
  else ret tt.

Definition RPI_SetGpioLo (gpio : Z) : M devs unit :=
  if gpio / 32 =? 0 then reg_write Gp GPCLR0 (u32 (Z.shiftl 1 gpio))
  else if gpio / 32 =? 1 then reg_write Gp GPCLR1 (u32 (Z.shiftl 1 (gpio - 32)))
  else ret tt.

(** RPI_IO_LO, RPI_IO_HI, RPI_IO_ON, RPI_IO_OFF are 0 to 3. *)
Definition setgpioval (gpio value : Z) : M devs unit :=
  if (value =? 0) || (value =? 3) then RPI_SetGpioLo gpio
  else if (value =? 1) || (value =? 2) then RPI_SetGpioHi gpio
  else ret tt.

Definition setgpiofunc (gpio func : Z) : M devs unit :=
  let fsel_reg := gpio / 10 in
  fsel_data <- reg_read Gp fsel_reg ;;
  let fsel_data := Z.land fsel_data (u32 (Z.lnot (Z.shiftl FS_MASK (gpio mod 10 * 3)))) in
  let fsel_data := Z.lor fsel_data (u32 (Z.shiftl func (gpio mod 10 * 3))) in
  reg_write Gp fsel_reg fsel_data.

(** ** The serial line *)

Definition SYS_FREQ : Z := 250000000.

Definition AUX_ENABLES : Z := 1.
Definition MU_IO : Z := 16.
Definition MU_IER : Z := 17.
Definition MU_IIR : Z := 18.
Definition MU_LCR : Z := 19.
Definition MU_MCR : Z := 20.
Definition MU_LSR : Z := 21.
Definition MU_CNTL : Z := 24.
Definition MU_BAUD : Z := 26.

Definition ENABLE_IRQS_1 : Z := 4.

(** The delays of uartinit have no effect on the registers. *)
Definition uartinit (baud : Z) : M devs unit :=
  reg_write Aux AUX_ENABLES 1 ;;;
  reg_write Aux MU_CNTL 0 ;;;
  reg_write Aux MU_LCR 3 ;;;
  reg_write Aux MU_MCR 0 ;;;
  reg_write Aux MU_IER 1 ;;;
  reg_write Aux MU_IIR 199 ;;;
  reg_write Aux MU_BAUD (u32 (SYS_FREQ / (8 * baud) - 1)) ;;;
  setgpiofunc 14 FS_ALT5 ;;;
  setgpiofunc 15 FS_ALT5 ;;;
  reg_write Gp GPPUD 0 ;;;
  reg_write Gp GPPUDCLK0 (Z.shiftl 1 14) ;;;
  reg_write Gp GPPUDCLK0 0 ;;;
  reg_write Aux MU_CNTL (Z.lor 1 2) ;;;
  e <- reg_read Irqc ENABLE_IRQS_1 ;;
  reg_write Irqc ENABLE_IRQS_1 (Z.lor e (Z.shiftl 1 29)).

(** ** Delays *)

(** delay(m): [reads] are the values that the counter will show; how many are
    read until the loop ends. *)
Fixpoint delay_loop (ts m : Z) (reads : list Z) : option nat :=
  match reads with
  | [] => None
  | c :: reads' => if u32 (c - ts) <? m then k ← delay_loop ts m reads'; Some (S k) else Some 1%nat
  end.

Definition delay (m : Z) (reads : list Z) : option nat :=
  match reads with [] => None | ts :: reads' => delay_loop ts m reads' end.

(** ** Interrupts *)

Definition IRQ_TIMER3 : Z := 3.
Definition IRQ_MINIUART : Z := 29.

Section Irq.
Context {W : Type}.

(** The pending registers, and the two handlers. *)
Variables (basic_pending pending_1 pending_2 : W -> Z) (timer3intr miniuartintr : M W unit).

(** The loop of irq_handler: it serves what is pending until nothing is. *)
Fixpoint irq_loop (fuel : nat) : M W unit :=
  match fuel with
  | O => no_fuel
  | S f =>
      s <- get ;;
      if negb (basic_pending s =? 0) || negb (pending_1 s =? 0) || negb (pending_2 s =? 0) then
        s <- get ;;
        when (negb (Z.land (pending_1 s) (Z.shiftl 1 IRQ_TIMER3) =? 0)) timer3intr ;;;
        s <- get ;;
        when (negb (Z.land (pending_1 s) (Z.shiftl 1 IRQ_MINIUART) =? 0)) miniuartintr ;;;
        irq_loop f
      else ret tt
  end.

(** curr_proc, 0 while the scheduler runs, and the store to curr_proc->tf. *)
Variables (curr_proc : W -> Z) (set_tf : Z -> W -> W).

Definition irq_handler (fuel : nat) (r : Z) : M W unit :=
  s <- get ;;
  when (negb (curr_proc s =? 0)) (modify (set_tf r)) ;;;
  irq_loop fuel.

End Irq.

(** ** Pins *)

(** The function selected for a pin. *)
Definition fsel (l : list Z) (p : Z) : option Z := (fun w => Z.land (Z.shiftr w (p mod 10 * 3)) FS_MASK) <$> zget l (p / 10).

Lemma testbit_field w k i : 0 <= k -> 0 <= i -> Z.testbit (Z.land (Z.shiftr w k) FS_MASK) i = Z.testbit w (i + k) && (i <? 3).
Proof.
  intros Hk Hi. rewrite Z.land_spec, Z.shiftr_spec by done. f_equal. change FS_MASK with (Z.ones 3). destruct (Z.ltb_spec i 3).
  - by rewrite Z.ones_spec_low by lia.
  - by rewrite Z.ones_spec_high by lia.
Qed.

Lemma field_update w f k : 0 <= k <= 27 -> 0 <= f < 8 -> is_u32 w ->
  let w' := Z.lor (Z.land w (u32 (Z.lnot (Z.shiftl FS_MASK k)))) (u32 (Z.shiftl f k)) in
  is_u32 w' /\ Z.land (Z.shiftr w' k) FS_MASK = f /\
  forall j, 0 <= j <= 27 -> j + 3 <= k \/ k + 3 <= j -> Z.land (Z.shiftr w' j) FS_MASK = Z.land (Z.shiftr w j) FS_MASK.
Proof.
  intros Hk Hf Hw w'.
  assert (forall i, 0 <= i -> Z.testbit w' i =
    if (k <=? i) && (i <? k + 3) then Z.testbit f (i - k) else Z.testbit w i) as Hbit.
  { intros i Hi. unfold w'. rewrite Z.lor_spec, Z.land_spec. unfold u32.
    destruct (Z.ltb_spec i 32) as [H32|H32].
    - rewrite !Z.mod_pow2_bits_low by lia. rewrite Z.lnot_spec by lia. rewrite !Z.shiftl_spec by lia. change FS_MASK with (Z.ones 3).
      destruct (Z.leb_spec k i); cbn [andb].
      + destruct (Z.ltb_spec i (k + 3)).
        * rewrite Z.ones_spec_low by lia. cbn [negb]. by rewrite andb_false_r.
        * rewrite Z.ones_spec_high by lia. cbn [negb]. rewrite andb_true_r, (testbit_high f 3 (i - k)) by lia. by rewrite orb_false_r.
      + rewrite !(Z.testbit_neg_r _ (i - k)) by lia. cbn [negb]. by rewrite andb_true_r, orb_false_r.
    - rewrite !Z.mod_pow2_bits_high by lia. rewrite andb_false_r. cbn [orb]. rewrite (proj2 (Z.ltb_ge i (k + 3))) by lia. rewrite andb_false_r.
      symmetry. apply (testbit_high w 32); [done|lia]. }
  assert (w' = w' mod 2 ^ 32) as Hu.
  { apply Z.bits_inj'. intros i Hi. destruct (Z.ltb_spec i 32); [by rewrite Z.mod_pow2_bits_low|].
    rewrite Z.mod_pow2_bits_high, Hbit by lia. rewrite in_range_false by lia. by apply (testbit_high w 32). }
  split; [rewrite Hu; apply u32_range|]. split.
  - apply Z.bits_inj'. intros i Hi. rewrite testbit_field, Hbit by lia. destruct (Z.ltb_spec i 3).
    + rewrite in_range_true by lia. rewrite andb_true_r. f_equal. lia.
    + rewrite andb_false_r. symmetry. apply (testbit_high f 3); [done|lia].
  - intros j Hj Hjk. apply Z.bits_inj'. intros i Hi. rewrite !testbit_field, Hbit by lia. destruct (Z.ltb_spec i 3); [|by rewrite !andb_false_r].
    by rewrite in_range_false by lia.
Qed.

Definition gp_ok (s : devs) : Prop := zlen (gp s) = 41 /\ Forall is_u32 (gp s).

Lemma reg_write_ok b i v s : 0 <= i < zlen (regs b s) ->
  reg_write b i v s = Ok tt (set_regs b (zset (regs b s) i v) (Devs (gp s) (aux s) (irqc s) (writes s ++ [(b, i, v)]))).
Proof. intros Hi. unfold reg_write, bind, get. rewrite (proj2 (Z.leb_le 0 i)), (proj2 (Z.ltb_lt i _)) by lia. cbn [andb]. by destruct b. Qed.

Lemma Forall_zset {A} (P : A -> Prop) l i x : Forall P l -> P x -> Forall P (zset l i x).
Proof. intros Hl Hx. unfold zset. destruct (0 <=? i); [by apply Forall_insert|done]. Qed.

(** setgpiofunc selects the function of its pin and of no other. *)
Lemma setgpiofunc_ok p func s : gp_ok s -> 0 <= p < 60 -> 0 <= func < 8 ->
  exists s', setgpiofunc p func s = Ok tt s' /\ gp_ok s' /\ fsel (gp s') p = Some func /\
    (forall q, 0 <= q < 60 -> q <> p -> fsel (gp s') q = fsel (gp s) q) /\
    (forall i, 6 <= i -> zget (gp s') i = zget (gp s) i) /\ aux s' = aux s /\ irqc s' = irqc s.
Proof.
  intros [Hl Hu] Hp Hf. assert (0 <= p / 10 < 6) as Hq by (pose proof (Z.div_pos p 10); pose proof (Z.div_lt_upper_bound p 10 6); lia).
  pose proof (Z.mod_pos_bound p 10 ltac:(lia)) as Hm. destruct (zget_in (gp s) (p / 10)) as [w Hw]; [lia|].
  assert (is_u32 w) as Huw by (apply (Forall_lookup_1 _ _ (Z.to_nat (p / 10)) w Hu); unfold zget in Hw; by destruct (0 <=? p / 10)).
  destruct (field_update w func (p mod 10 * 3)) as (Hu' & Hfld & Hoth); [lia|done|done|].
  set (w' := Z.lor _ _) in *. exists (set_regs Gp (zset (gp s) (p / 10) w') (Devs (gp s) (aux s) (irqc s) (writes s ++ [(Gp, p / 10, w')]))).
  split; [unfold setgpiofunc, reg_read, bind, get; cbn [regs]; rewrite Hw; cbn [from_opt]; unfold ret; fold w'; apply reg_write_ok; cbn [regs]; lia|].
  cbn [gp aux irqc set_regs]. split; [split; cbn; [by rewrite zlen_zset|by apply Forall_zset]|]. unfold fsel.
  split; [by rewrite zget_zset_eq, <-Hfld by lia|]. split; [|split; [|done]].
  - intros q Hq1 Hne. destruct (decide (q / 10 = p / 10)) as [E|E]; [|by rewrite zget_zset_ne].
    rewrite E, zget_zset_eq, Hw by lia. cbn. f_equal. pose proof (Z.mod_pos_bound q 10 ltac:(lia)). apply Hoth; [lia|].
    assert (q mod 10 <> p mod 10); [|lia]. intros Em. apply Hne. rewrite (Z.div_mod q 10), (Z.div_mod p 10) by lia. congruence.
  - intros i Hi. apply zget_zset_ne. lia.
Qed.

(** setgpioval drives its pin, and touches no bit of another. *)
Lemma setgpioval_ok p v s : gp_ok s -> 0 <= p < 54 -> 0 <= v < 4 ->
  let high := (v =? 1) || (v =? 2) in
  exists s', setgpioval p v s = Ok tt s' /\
    writes s' = writes s ++ [(Gp, (if high then GPSET0 else GPCLR0) + p / 32, 2 ^ (p mod 32))].
Proof.
  intros [Hl _] Hp Hv high. unfold setgpioval, RPI_SetGpioLo, RPI_SetGpioHi, high.
  assert (p < 32 /\ p / 32 = 0 /\ p mod 32 = p \/ 32 <= p /\ p / 32 = 1 /\ p mod 32 = p - 32) as Hd.
  { destruct (Z.ltb_spec p 32); [left|right]; [by rewrite Z.div_small, Z.mod_small by lia|split; [done|]].
    pose proof (Z.div_mod p 32 ltac:(lia)). pose proof (Z.mod_pos_bound p 32 ltac:(lia)). lia. }
  assert (forall k, 0 <= k < 32 -> u32 (Z.shiftl 1 k) = 2 ^ k) as H1.
  { intros k Hk. rewrite Z.shiftl_1_l. apply u32_small. split; [lia|]. apply Z.pow_lt_mono_r; lia. }
  assert (v = 0 \/ v = 1 \/ v = 2 \/ v = 3) as [->|[->|[->| ->]]] by lia; cbn [Z.eqb Pos.eqb orb];
    destruct Hd as [(Hlo & -> & ->)|(Hlo & -> & ->)]; cbn [Z.eqb Pos.eqb]; (eexists; split; [apply reg_write_ok; cbn [regs]; unfold GPSET0, GPSET1, GPCLR0, GPCLR1; lia|]);
    rewrite H1 by lia; done.
Qed.

(** The whole board: a GPIO block, a serial line, an interrupt controller. *)
Definition board_ok (s : devs) : Prop := gp_ok s /\ zlen (aux s) = 27 /\ zlen (irqc s) = 10 /\ Forall is_u32 (irqc s).

Lemma wp_aux_write i v (K : M devs unit) Q s : 0 <= i < zlen (aux s) ->
  (forall ws, wp K Q (Devs (gp s) (zset (aux s) i v) (irqc s) ws)) -> wp (reg_write Aux i v ;;; K) Q s.
Proof. intros Hi HK. eapply wp_bind_ok; [by apply reg_write_ok|]. apply HK. Qed.

Lemma wp_gp_write i v (K : M devs unit) Q s : 6 <= i < 41 -> gp_ok s -> is_u32 v ->
  (forall g ws, gp_ok (Devs g (aux s) (irqc s) ws) -> (forall q, 0 <= q < 60 -> fsel g q = fsel (gp s) q) -> wp K Q (Devs g (aux s) (irqc s) ws)) ->
  wp (reg_write Gp i v ;;; K) Q s.
Proof.
  intros Hi [Hl Hu] Hv HK. eapply wp_bind_ok; [apply reg_write_ok; cbn [regs]; lia|]. apply HK.
  - split; cbn; [by rewrite zlen_zset|by apply Forall_zset].
  - intros q Hq. unfold fsel. rewrite zget_zset_ne; [done|]. pose proof (Z.div_lt_upper_bound q 10 6). lia.
Qed.

(** uartinit selects the serial line on pins 14 and 15 and leaves the
    function of every other pin; it sets the divisor of the baud rate, eight-bit
    mode and the receive interrupt, and only then switches receiver and
    transmitter on; in the interrupt controller it enables the line of the
    UART and leaves every other as it was. *)
Theorem uartinit_ok baud s : board_ok s -> 0 < baud <= 31250000 ->
  wp (uartinit baud) (fun _ s' => board_ok s' /\
    (forall q, 0 <= q < 60 -> fsel (gp s') q = if (q =? 14) || (q =? 15) then Some FS_ALT5 else fsel (gp s) q) /\
    zget (aux s') MU_BAUD = Some (SYS_FREQ / (8 * baud) - 1) /\ zget (aux s') MU_LCR = Some 3 /\ zget (aux s') MU_IER = Some 1 /\
    zget (aux s') MU_CNTL = Some 3 /\
    (exists before e, writes s' = before ++ [(Aux, MU_CNTL, 3); (Irqc, ENABLE_IRQS_1, e)]) /\
    (forall j, 0 <= j < 32 -> Z.testbit (default 0 (zget (irqc s') ENABLE_IRQS_1)) j =
       Z.testbit (default 0 (zget (irqc s) ENABLE_IRQS_1)) j || (j =? IRQ_MINIUART))) s.
Proof.
  intros (Hgp & Haux & Hirq & Hiu) Hb. assert (0 <= SYS_FREQ / (8 * baud) - 1 < 2 ^ 32) as Hdiv.
  { unfold SYS_FREQ. pose proof (Z.div_le_lower_bound 250000000 (8 * baud) 1 ltac:(lia) ltac:(lia)).
    pose proof (Z.div_le_upper_bound 250000000 (8 * baud) 250000000 ltac:(lia) ltac:(nia)). lia. }
  unfold uartinit. rewrite (u32_small (_ - 1)) by done.
  do 7 (apply wp_aux_write; [cbn [aux]; rewrite ?zlen_zset, Haux; vm_compute; split; congruence|intros ?]). cbn [gp aux irqc].
  set (A := zset (zset _ MU_IIR 199) MU_BAUD _).
  destruct (setgpiofunc_ok 14 FS_ALT5 (Devs (gp s) A (irqc s) ws5)) as (s1 & E1 & G1 & F1 & O1 & _ & A1 & I1); [done|lia|by vm_compute|].
  eapply wp_bind_ok; [exact E1|].
  destruct (setgpiofunc_ok 15 FS_ALT5 s1) as (s2 & E2 & G2 & F2 & O2 & _ & A2 & I2); [done|lia|by vm_compute|].
  eapply wp_bind_ok; [exact E2|]. cbn [gp aux irqc] in *.
  assert (forall q, 0 <= q < 60 -> fsel (gp s2) q = if (q =? 14) || (q =? 15) then Some FS_ALT5 else fsel (gp s) q) as Hpins.
  { intros q Hq. destruct (Z.eqb_spec q 15) as [->|H15]; [done|]. rewrite O2, orb_false_r by done.
    destruct (Z.eqb_spec q 14) as [->|H14]; [done|]. by apply O1. }
  apply wp_gp_write; [vm_compute; split; congruence|done|done|]. intros g1 ws6 K1 P1.
  apply wp_gp_write; [vm_compute; split; congruence|done|done|]. intros g2 ws7 K2 P2.
  apply wp_gp_write; [vm_compute; split; congruence|done|done|]. intros g3 ws8 K3 P3. cbn [gp aux irqc] in *.
  assert (zlen A = 27) as HA by (unfold A; by rewrite !zlen_zset).
  eapply wp_bind_ok; [apply reg_write_ok; cbn [regs aux]; rewrite ?A2, ?A1, HA; vm_compute; split; congruence|]. cbn [regs gp aux irqc writes set_regs].
  destruct (zget_in (irqc s) ENABLE_IRQS_1) as [e He]; [rewrite Hirq; vm_compute; split; congruence|].
  eapply wp_bind_ok; [unfold reg_read, bind, get; cbn [regs irqc]; rewrite ?I2, ?I1, He; reflexivity|].
  eapply ok_wp; [apply reg_write_ok; cbn [regs irqc]; rewrite ?I2, ?I1, Hirq; vm_compute; split; congruence|].
  cbn [regs gp aux irqc writes set_regs]. rewrite ?A2, ?A1, ?I2, ?I1.
  assert (is_u32 e) as Hue by (apply (Forall_lookup_1 _ _ 4 e Hiu); exact He).
  assert (is_u32 (Z.lor e (Z.shiftl 1 29))) as Hue'.
  { change (Z.shiftl 1 29) with (2 ^ 29). unfold is_u32 in *. split; [apply Z.lor_nonneg; lia|].
    destruct (decide (e = 0)) as [->|]; [done|]. apply Z.log2_lt_pow2; [pose proof (Z.lor_nonneg e (2 ^ 29)); destruct (Z.eq_dec (Z.lor e (2 ^ 29)) 0) as [E|]; [apply Z.lor_eq_0_iff in E; lia|lia]|].
    rewrite Z.log2_lor by lia. apply Z.max_lub_lt; [apply Z.log2_lt_pow2; lia|done]. }
  split.
  { split; [destruct K3 as [K3 K4]; by split|]. cbn [aux irqc]. rewrite !zlen_zset. split; [done|]. split; [done|]. by apply Forall_zset. }
  split; [intros q Hq; rewrite P3, P2, P1 by done; by apply Hpins|].
  assert (forall i x, i <> MU_CNTL -> zget A i = x -> zget (zset A MU_CNTL (Z.lor 1 2)) i = x) as Hne by (intros i x Hi <-; by apply zget_zset_ne).
  split; [|split; [|split; [|split; [|split]]]].
  - apply Hne; [done|]. unfold A. apply zget_zset_eq. rewrite !zlen_zset, Haux. vm_compute. split; congruence.
  - apply Hne; [done|]. unfold A. rewrite !(zget_zset_ne _ _ MU_LCR) by done. apply zget_zset_eq. rewrite !zlen_zset, Haux. vm_compute. split; congruence.
  - apply Hne; [done|]. unfold A. rewrite !(zget_zset_ne _ _ MU_IER) by done. apply zget_zset_eq. rewrite !zlen_zset, Haux. vm_compute. split; congruence.
  - apply zget_zset_eq. rewrite HA. vm_compute. split; congruence.
  - exists ws8, (Z.lor e (Z.shiftl 1 29)). by rewrite <-app_assoc.
  - intros j Hj. rewrite zget_zset_eq, He by (rewrite Hirq; vm_compute; split; congruence). cbn [default from_option id].
    rewrite Z.lor_spec, Z.shiftl_1_l, Z.pow2_bits_eqb by lia. f_equal. by rewrite Z.eqb_sym.
Qed.

(** ** Delays and interrupts *)

(** The loop of delay ends at the first reading that is [m] microseconds past
    the first one, also when the counter wraps around in between. *)
Lemma delay_ok ts m reads n : delay m (ts :: reads) = Some n ->
  (0 < n)%nat /\ (forall i c, (i < n - 1)%nat -> reads !! i = Some c -> u32 (c - ts) < m) /\
  exists c, reads !! (n - 1)%nat = Some c /\ m <= u32 (c - ts).
Proof.
  unfold delay. revert n. induction reads as [|c reads IH]; intros n; cbn [delay_loop]; [done|].
  destruct (Z.ltb_spec (u32 (c - ts)) m) as [Hlt|Hge].
  - destruct (delay_loop ts m reads) as [k|] eqn:E; cbn [mbind option_bind]; [|done]. intros [= <-].
    destruct (IH k eq_refl) as (Hk & Hb & Hc). split; [lia|]. replace (S k - 1)%nat with (S (k - 1)) by lia. split; [|exact Hc].
    intros [|i] x Hi; [by intros [= <-]|]. apply Hb. lia.
  - intros [= <-]. split; [lia|]. split; [intros i x Hi; lia|]. by exists c.
Qed.

(** It ends if the counter gets there. *)
Lemma delay_ends ts m reads : Exists (fun c => m <= u32 (c - ts)) reads -> is_Some (delay m (ts :: reads)).
Proof.
  unfold delay. induction 1 as [c reads Hc|c reads _ [k IH]]; cbn [delay_loop].
  - by rewrite (proj2 (Z.ltb_ge _ _)).
  - rewrite IH. by destruct (u32 (c - ts) <? m).
Qed.

Section Serving.
Context {W : Type} (basic_pending pending_1 pending_2 : W -> Z) (timer3intr miniuartintr : M W unit) (served : W -> list Z).

(** A handler serves its source: it returns, and its bit, only, is no longer
    pending. *)
Definition serves (irq : Z) (m : M W unit) : Prop := forall s,
  wp m (fun _ s' => basic_pending s' = basic_pending s /\ pending_2 s' = pending_2 s /\
    pending_1 s' = Z.clearbit (pending_1 s) irq /\ served s' = served s ++ [irq]) s.

Lemma land_bit_test x n : 0 <= n -> negb (Z.land x (Z.shiftl 1 n) =? 0) = Z.testbit x n.
Proof.
  intros Hn. rewrite Z.shiftl_1_l. destruct (Z.testbit x n) eqn:E.
  - apply negb_true_iff, Z.eqb_neq. intros E0. assert (Z.testbit (Z.land x (2 ^ n)) n = false) as F by (rewrite E0; apply Z.bits_0).
    rewrite Z.land_spec, E, Z.pow2_bits_true in F by done. done.
  - apply negb_false_iff, Z.eqb_eq, Z.bits_inj'. intros i Hi. rewrite Z.land_spec, Z.pow2_bits_eqb, Z.bits_0 by done.
    destruct (Z.eqb_spec n i) as [->|]; [by rewrite E|apply andb_false_r].
Qed.

Definition two_bits (a b : bool) : Z := (if a then 2 ^ IRQ_TIMER3 else 0) + (if b then 2 ^ IRQ_MINIUART else 0).

Lemma two_bits_timer a b : Z.testbit (two_bits a b) IRQ_TIMER3 = a /\ Z.clearbit (two_bits a b) IRQ_TIMER3 = two_bits false b.
Proof. by destruct a, b. Qed.

Lemma two_bits_uart a b : Z.testbit (two_bits a b) IRQ_MINIUART = b /\ Z.clearbit (two_bits a b) IRQ_MINIUART = two_bits a false.
Proof. by destruct a, b. Qed.

Lemma irq_loop_serves fuel s a b : serves IRQ_TIMER3 timer3intr -> serves IRQ_MINIUART miniuartintr ->
  basic_pending s = 0 -> pending_2 s = 0 -> pending_1 s = two_bits a b -> (2 <= fuel)%nat ->
  wp (irq_loop basic_pending pending_1 pending_2 timer3intr miniuartintr fuel)
    (fun _ s' => pending_1 s' = 0 /\ served s' = served s ++ (if a then [IRQ_TIMER3] else []) ++ (if b then [IRQ_MINIUART] else [])) s.
Proof.
  intros Ht Hu Hb H2 H1 Hf. destruct fuel as [|[|f]]; [lia|lia|]. cbn [irq_loop]. apply wp_bind, wp_get. rewrite Hb, H2, H1. cbn [Z.eqb negb orb].
  rewrite orb_false_r. destruct (Z.eqb_spec (two_bits a b) 0) as [E|_]; cbn [negb].
  { apply wp_ret. split; [congruence|]. destruct a, b; try done. by rewrite app_nil_r. }
  apply wp_bind, wp_get, wp_bind. rewrite land_bit_test, H1, (proj1 (two_bits_timer a b)) by done.
  assert (wp (when a timer3intr) (fun _ s' => basic_pending s' = 0 /\ pending_2 s' = 0 /\ pending_1 s' = two_bits false b /\
    served s' = served s ++ if a then [IRQ_TIMER3] else []) s) as HW.
  { apply wp_when; [intros ->|intros ->].
    - eapply wp_mono; [apply Ht|]. intros [] s' (A & B & C & D). rewrite A, B, C, H1, (proj2 (two_bits_timer true b)). by split_and!.
    - split_and!; try done. by rewrite app_nil_r. }
  eapply wp_mono; [exact HW|]. intros [] s1 (A & B & C & D). apply wp_bind, wp_get, wp_bind.
  rewrite land_bit_test, C, (proj1 (two_bits_uart false b)) by done.
  assert (wp (when b miniuartintr) (fun _ s' => basic_pending s' = 0 /\ pending_2 s' = 0 /\ pending_1 s' = 0 /\
    served s' = served s1 ++ if b then [IRQ_MINIUART] else []) s1) as HW1.
  { apply wp_when; [intros ->|intros ->].
    - eapply wp_mono; [apply Hu|]. intros [] s' (A' & B' & C' & D'). rewrite A', B', C', C, (proj2 (two_bits_uart false true)). by split_and!.
    - split_and!; try done. by rewrite app_nil_r. }
  eapply wp_mono; [exact HW1|]. intros [] s2 (A' & B' & C' & D'). apply wp_bind, wp_get. rewrite A', B', C'. cbn [Z.eqb negb orb]. apply wp_ret.
  split; [done|]. by rewrite D', D, <-app_assoc.
Qed.

(** A pending source that no handler serves keeps the handler in its loop. *)
Theorem irq_loop_hangs s : (forall s, basic_pending s <> 0 -> exists s', timer3intr s = Ok tt s' /\ basic_pending s' <> 0) ->
  (forall s, basic_pending s <> 0 -> exists s', miniuartintr s = Ok tt s' /\ basic_pending s' <> 0) -> basic_pending s <> 0 ->
  forall fuel, irq_loop basic_pending pending_1 pending_2 timer3intr miniuartintr fuel s = NoFuel.
Proof.
  intros Ht Hu Hs fuel. revert s Hs. induction fuel as [|f IH]; intros s Hs; [done|]. cbn [irq_loop]. unfold bind, get.
  rewrite (proj2 (Z.eqb_neq _ 0)) by done. cbn [negb orb].
  assert (forall (c : bool) m s, (forall s, basic_pending s <> 0 -> exists s', m s = Ok tt s' /\ basic_pending s' <> 0) -> basic_pending s <> 0 ->
    exists s', when c m s = Ok tt s' /\ basic_pending s' <> 0) as Hw by (intros [] m s0 Hm H0; [by apply Hm|by exists s0]).
  destruct (Hw (negb (Z.land (pending_1 s) (Z.shiftl 1 IRQ_TIMER3) =? 0)) timer3intr s Ht Hs) as (s1 & -> & H1).
  destruct (Hw (negb (Z.land (pending_1 s1) (Z.shiftl 1 IRQ_MINIUART) =? 0)) miniuartintr s1 Hu H1) as (s2 & -> & H2). by apply IH.
Qed.

Context (curr_proc : W -> Z) (set_tf : Z -> W -> W).

(** The trap frame is no device register. *)
Context (tf_apart : forall r s, basic_pending (set_tf r s) = basic_pending s /\ pending_1 (set_tf r s) = pending_1 s /\
  pending_2 (set_tf r s) = pending_2 s /\ served (set_tf r s) = served s).

(** irq_handler serves the timer and the serial line, whichever are pending,
    once each and the timer first, and returns when nothing is pending. *)
Theorem irq_handler_serves fuel r s a b : serves IRQ_TIMER3 timer3intr -> serves IRQ_MINIUART miniuartintr ->
  basic_pending s = 0 -> pending_2 s = 0 -> pending_1 s = two_bits a b -> (2 <= fuel)%nat ->
  wp (irq_handler basic_pending pending_1 pending_2 timer3intr miniuartintr curr_proc set_tf fuel r)
    (fun _ s' => pending_1 s' = 0 /\ served s' = served s ++ (if a then [IRQ_TIMER3] else []) ++ (if b then [IRQ_MINIUART] else [])) s.
Proof.
  intros Ht Hu Hb H2 H1 Hf. apply wp_bind, wp_get, wp_bind, wp_when; intros _; [apply wp_modify|].
  - destruct (tf_apart r s) as (E0 & E1 & E2 & <-). by apply irq_loop_serves; rewrite ?E0, ?E1, ?E2.
  - by apply irq_loop_serves.
Qed.

(** In an interrupt during a process, the loop finds its frame noted. *)
Lemma irq_handler_notes fuel r s : curr_proc s <> 0 ->
  irq_handler basic_pending pending_1 pending_2 timer3intr miniuartintr curr_proc set_tf fuel r s =
  irq_loop basic_pending pending_1 pending_2 timer3intr miniuartintr fuel (set_tf r s).
Proof. intros H. unfold irq_handler, bind, get. by rewrite (proj2 (Z.eqb_neq _ _) H). Qed.
End Serving.
