(* ===== verification/Trap.v ===== *)
(** * trap.c: exception stacks, the handlers that report, and panic

    stack_init gives FIQ, IRQ, abort and undefined mode a page each; set_stk is
    assembly that puts the address into the banked stack pointer of the mode.
    [pushed] are the bytes that the entry code of trap_asm.S stores first: the
    stacks grow downwards, so they lie below the pointer. *)

From S2P Require Import Prelude Buddy BuddyList BuddyAlloc BuddySpec Cpu Console.

Definition PSR_MODE_FIQ : Z := 17.
Definition PSR_MODE_IRQ : Z := 18.
Definition PSR_MODE_ABT : Z := 23.
Definition PSR_MODE_UND : Z := 27.

Definition modes : list Z := [PSR_MODE_FIQ; PSR_MODE_IRQ; PSR_MODE_ABT; PSR_MODE_UND].

(** The loop: each mode with the stack pointer that set_stk is given. *)
Fixpoint stack_init_ (ms : list Z) : M kmem (list (Z * Z)) :=
  match ms with
  | [] => ret []
  | m :: ms' =>
      stk <- alloc_page ;;
      if stk =? 0 then panic "failed to alloc memory for irq stack" else
      rest <- stack_init_ ms' ;;
      ret ((m, stk) :: rest)
  end.

Definition stack_init : M kmem (list (Z * Z)) := stack_init_ modes.

(** STMFD r13!, {r0-r2, r14} of trap_irq: four words below the pointer. *)
Definition pushed (sp a : Z) : Prop := sp - 16 <= a < sp.

Definition no_memory (msg : string) : Prop := msg = "failed to alloc memory for irq stack".

(** The bytes of the pages handed out. *)
Definition stack_bytes (l : list (Z * Z)) (a : Z) : Prop := exists m sp, (m, sp) ∈ l /\ in_block PTE_SHIFT sp a.

Lemma stack_init_ok n ms : forall k, inv n k -> klock k = false ->
  wpe (stack_init_ ms) (fun l k' =>
    inv n k' /\ same_hdr k k' /\ map fst l = ms /\
    Forall (fun x => heap_block n k PTE_SHIFT x.2 /\ forall a, in_block PTE_SHIFT x.2 a -> free_byte n k a) l /\
    (forall a, free_byte n k' a <-> free_byte n k a /\ ~ stack_bytes l a)) no_memory k.
Proof.
  induction ms as [|m ms IH]; intros k Hi Hl; cbn [stack_init_].
  - apply wpe_ret. split; [done|]. split; [done|]. split; [done|]. split; [done|]. intros a. split; [|tauto].
    intros Hf. split; [done|]. by intros (m & sp & Hin%elem_of_nil & _).
  - apply wpe_bind. eapply wpe_mono; [apply wp_wpe, (kmalloc_wp n k PTE_SHIFT Hi Hl ltac:(by split))|].
    intros r k1 (Hi1 & Hh1 & Hr). destruct Hr as [(-> & _)|(Hb & Hfree & Hiff)]; [done|].
    destruct (Z.eqb_spec r 0) as [->|_]; [done|]. apply wpe_bind. destruct (id Hh1) as (Hl1 & Hs1 & Hp1 & He1).
    eapply wpe_mono; [apply (IH k1 Hi1); congruence|]. intros l k2 (Hi2 & Hh2 & Hm & Hf & Ha). apply wpe_ret.
    split; [done|]. split; [destruct Hh2 as (? & ? & ? & ?); split_and!; congruence|]. split; [cbn; by rewrite Hm|]. split.
    + constructor; [done|]. eapply Forall_impl; [exact Hf|]. intros x [Hx Hy]. split.
      * unfold heap_block in *. by rewrite <-Hp1.
      * intros a Hxa. by apply Hiff, Hy.
    + intros a. rewrite Ha, Hiff. unfold stack_bytes. setoid_rewrite elem_of_cons. split.
      * intros [[H1 H2] H3]. split; [done|]. intros (m' & sp & [[= -> ->]|Hin] & Hb'); [done|]. apply H3. by exists m', sp.
      * intros [H1 H2]. split; [split; [done|]|].
        -- intros Hb'. apply H2. exists m, r. split; [by left|done].
        -- intros (m' & sp & Hin & Hb'). apply H2. exists m', sp. split; [by right|done].
Qed.

(** Each mode gets a page of its own that was free, but its stack pointer is the
    page's lowest address: what an exception pushes first lies outside the page,
    in whatever memory comes before it. *)
Theorem stack_init_below_page n k : inv n k -> klock k = false ->
  wpe stack_init (fun l k' =>
    inv n k' /\ map fst l = modes /\
    (forall a, free_byte n k' a <-> free_byte n k a /\ ~ stack_bytes l a) /\
    forall m sp, (m, sp) ∈ l -> heap_block n k PTE_SHIFT sp /\ forall a, pushed sp a -> ~ in_block PTE_SHIFT sp a) no_memory k.
Proof.
  intros Hi Hl. eapply wpe_mono; [by apply stack_init_ok|]. intros l k' (Hi' & _ & Hm & Hf & Ha). split_and!; try done.
  intros m sp Hin. destruct (proj1 (Forall_forall _ _) Hf (m, sp) Hin) as [Hb _]. split; [done|].
  intros a Hp Hia. unfold pushed, in_block in *. lia.
Qed.

(** A page handed out just before stack_init ends where the stack pointer of FIQ
    mode is set: its last 16 bytes are what that mode overwrites. *)
Example stack_init_overlap :
  match (p <- alloc_page ;; l <- stack_init ;; ret (p, l)) demo_kmem with
  | Ok (p, (m, sp) :: _) _ => (m =? PSR_MODE_FIQ) && (sp =? p + 4096)
  | _ => false
  end = true.
Proof. vm_compute. reflexivity. Qed.

(** ** The handlers that report and stop *)

(** dump_trapframe: the names and the words of struct trapframe, in the order in
    which they are printed. *)
Definition tf_names : list (string * Z) :=
  [(" sp_usr"%string, 0); (" lr_usr"%string, 4); ("r14_svc"%string, 8); ("   spsr"%string, 12);
   ("     r0"%string, 16); ("     r1"%string, 20); ("     r2"%string, 24); ("     r3"%string, 28);
   ("     r4"%string, 32); ("     r5"%string, 36); ("     r6"%string, 40); ("     r7"%string, 44);
   ("     r8"%string, 48); ("     r9"%string, 52); ("    r10"%string, 56); ("    r11"%string, 60);
   ("    r12"%string, 64); ("     pc"%string, 68)].

Section Report.
(** The 32-bit words of memory. *)
Variable word : Z -> Z.

Definition TF_PC : Z := 68.

Fixpoint dump_fields (tf : Z) (l : list (string * Z)) : M con unit :=
  match l with
  | [] => ret tt
  | (name, off) :: l' => cprintf (bytes name ++ line ": 0x%x") [AInt (word (u32 (tf + off)))] ;;; dump_fields tf l'
  end.

Definition dump_trapframe (tf : Z) : M con unit := dump_fields tf tf_names.

(** An array pcs[n] of the caller, filled by getcallerpcs from [fp]. *)
Definition local_pcs (n : nat) (fp : Z) : M con (list Z) := fun s =>
  match getcallerpcs word fp (replicate n 0) with Ok _ pcs => Ok pcs s | _ => Fault end.

(** The loop of show_callstk, downwards from entry [n - 1]. *)
Fixpoint print_pcs (n : nat) (pcs : list Z) : M con unit :=
  match n with
  | O => ret tt
  | S n' =>
      pc <- from_opt (zget pcs (Z.of_nat n')) ;;
      cprintf (line "%d: 0x%x") [AInt (Z.of_nat n); AInt pc] ;;; print_pcs n' pcs
  end.

Definition show_callstk (fp : Z) (s : list Z) : M con unit :=
  cprintf (line "%s") [AStr (Some s)] ;;;
  pcs <- local_pcs (Z.to_nat N_CALLSTK) fp ;;
  print_pcs (Z.to_nat N_CALLSTK) pcs.

(** cli() on the CPU, then the report on the console. *)
Definition cli_then (m : M con unit) : M (cpu * con) unit :=
  zoom fst (fun c s => (c, s.2)) cli ;;; zoom snd (fun x s => (s.1, x)) m.

Definition reset_handler (r : Z) : M (cpu * con) unit := cli_then (cprintf (line "reset at: 0x%x ") [AInt (word (u32 (r + TF_PC)))]).

Definition und_handler (r : Z) : M (cpu * con) unit := cli_then (cprintf (line "und at: 0x%x ") [AInt (word (u32 (r + TF_PC)))]).

Definition na_handler (r : Z) : M (cpu * con) unit := cli_then (cprintf (line "n/a at: 0x%x ") [AInt (word (u32 (r + TF_PC)))]).

Definition fiq_handler (r : Z) : M (cpu * con) unit := cli_then (cprintf (line "fiq at: 0x%x ") [AInt (word (u32 (r + TF_PC)))]).

(** [dfs], [fa], [ifs]: the fault status and address registers; [fp]: get_fp(). *)
Definition dabort_handler (r dfs fa fp : Z) : M (cpu * con) unit := cli_then (
  cprintf (line "data abort: instruction 0x%x, fault addr 0x%x, reason 0x%x ") [AInt (word (u32 (r + TF_PC))); AInt fa; AInt dfs] ;;;
  dump_trapframe r ;;;
  show_callstk fp (bytes "Stack dump for data exception.")).

Definition iabort_handler (r ifs : Z) : M (cpu * con) unit := cli_then (
  cprintf (line "prefetch abort at: 0x%x (reason: 0x%x)") [AInt (word (u32 (r + TF_PC))); AInt ifs] ;;;
  dump_trapframe r).

(** panic of console.c: its message is a format; then it spins. *)
Fixpoint panic_pcs (pcs : list Z) : M con unit :=
  match pcs with [] => ret tt | pc :: pcs' => cprintf (bytes " %p") [AInt pc] ;;; panic_pcs pcs' end.

Definition kpanic (fp : Z) (s : list Z) : M con unit :=
  cprintf (bytes "cpu%d: panic: ") [AInt 0] ;;;
  cprintf s [] ;;;
  cprintf [10] [] ;;;
  pcs <- local_pcs 10 fp ;;
  panic_pcs pcs ;;;
  modify (fun c => Con (cons_locking c) (cons_lock c) true (uart_out c) (in_lock c) (in_buf c) (in_r c) (in_w c) (in_e c) (in_wakes c)
    (cursor_x c) (cursor_y c) (gpucolour c) (fb c)) ;;;
  fun _ => Spin.

(** panic never gets to print the call stack: pcs[] has 10 entries, getcallerpcs
    stores 15. *)
Lemma kpanic_overruns fp s c : (forall a b, kpanic fp s c <> Ok a b) /\
  (forall c1, (cprintf (bytes "cpu%d: panic: ") [AInt 0] ;;; cprintf s [] ;;; cprintf [10] []) c = Ok tt c1 -> kpanic fp s c = Fault).
Proof.
  assert (forall c, local_pcs 10 fp c = Fault) as Hf.
  { intros c'. unfold local_pcs. pose proof (getcallerpcs_bounds word fp (replicate 10 0)) as [_ H]. by rewrite H. }
  split.
  - intros a b. unfold kpanic, bind. repeat case_match; try done; rewrite Hf in *; congruence.
  - intros c1. unfold kpanic, bind. repeat case_match; try done; rewrite Hf in *; congruence.
Qed.

(** show_callstk has room for them. *)
Lemma local_pcs_15 fp c : exists pcs, local_pcs (Z.to_nat N_CALLSTK) fp c = Ok pcs c /\ zlen pcs = N_CALLSTK.
Proof.
  unfold local_pcs. destruct (getcallerpcs_bounds word fp (replicate (Z.to_nat N_CALLSTK) 0)) as [H _].
  specialize (H ltac:(unfold zlen; rewrite length_replicate; done)). apply wp_ok in H as ([] & pcs & E & Hl & _). rewrite E. by exists pcs.
Qed.

End Report.
